(* ===== verification/_CoqProject ===== *)
-Q . S2P
Prelude.v
CProg.v
UtlInt.v
UtlBuf.v
UtlPush.v
LnDerkey.v
LnMisc.v
LnOnion.v
LnMsg.v
LnSig.v
LnMsgNormal.v
LnMsgEstablish.v
LnMsgClose.v
LnMsgSetup.v
LnMsgAnno.v
LnHtlc.v
LnSelf.v
LnNormal.v
LnRecv.v
LnAddHtlc.v
LnToy.v
LnIdle.v
LnCommit.v
LnOffer.v
LnForward.v
LnToyNode.v
LnRelay.v
LnSpec.v
LnRefine.v
LnChannel.v
LnNoise.v
LnappPeer.v
LnToyNoise.v
LnHandshake.v
LnTransport.v
LnToyOnion.v
LnOnionRoute.v
LnOnionFail.v
BtcTx.v
BtcTxWire.v
BtcTxRead.v
BtcTxLoop.v
BtcSw.v
BtcSort.v
BtcDigest.v
BtcBuild.v
BtcScript.v
LnScript.v
LnSpend.v
LnWitness.v
LnCommitTx.v
LnBuild.v
LnSignTx.v
LnAgree.v
LnExchange.v
LnToyPair.v
LnClose.v
LnPenalty.v
LnToyPenalty.v
LnShutdown.v
LnMutual.v
LnToyMutual.v
BtcFermat.v
BtcPrime.v
BtcEcp.v
LnMsgGossip.v
LnGossipCodec.v
LnGossip.v
LnAnnounce.v
LnToyGossip.v
