(* ===== verification/Prelude.v ===== *)
(** * Ptarmigan: a verification library for the Lightning node's core

    Ptarmigan is a Lightning node in C. [src/ln] holds the protocol: the wire
    messages ([ln_msg_*.c]), key derivation ([ln_derkey.c], [ln_signer.c]),
    the channel ([ln.c], its data in [ln.h], the HTLC flag macros in
    [ln_local.h]), the onion ([ln_onion.c]), the encrypted transport
    ([ln_enc_auth.c]) and scripts ([ln_script.c]). [src/btc] holds transactions
    and keys, [src/utl] buffers, integers and strings, [src/ptarmd] the daemon:
    threads, sockets and JSON-RPC around the channel code. This library models
    the protocol core as executable functions and proves what it promises.

    ** How the code is read

    A C function that mutates what its pointers lead to is a [prog S A]
    ([CProg]): a function from the state [S] to one of four outcomes, a value
    with the new state, an early [return] (caught by [call]), a failed
    [assert] ([AbortOut]) or undefined behaviour ([UB]: an access past the end
    of an array, a read of an indeterminate cell). Integers are [Z] with their
    wrap-around written out ([u8] to [u64], [swrap] for signed ones); bytes
    are lists of [Z]; a struct is a Record with one setter per field. Each
    handler has the guards of the C function in the order of the C function.
    What it sends, stores or reports is appended to [trace] of the channel, in
    order. Debug output ([LOGD], [DUMPD], [ln_print_*]) is left out.

    ** The files

    - [Prelude], [CProg]: integers, bytes, big-endian layouts; the monad, its
      equations, and [wp], a weakest precondition used for what a handler keeps
      whatever it is given. [prog_simpl] runs straight-line code, [by_compute]
      decides closed facts.
    - [UtlInt] ([utl_int.c], [utl_misc_be*]), [UtlBuf] ([utl_buf.c]), [UtlPush]
      ([utl_push.c]): integer codecs, growable buffers whose cells may be
      uninitialised and whose allocation may fail ([Alloc]), and serialisation.
    - [LnMisc] ([ln_misc.c]), [LnSig] (DER signatures, [ln_misc.c] and
      [btc_tx.c]), [LnDerkey] ([ln_derkey.c]: [ShaChain] is the secret tree and
      the 49-bucket store, [Derkey] the derived keys over an abstract group).
    - [LnMsg]: the class [MsgCodec], the contract of an encoder/decoder pair;
      [LnMsgNormal], [LnMsgEstablish], [LnMsgClose], [LnMsgSetup], [LnMsgAnno]:
      the messages, one Module each, with an instance per message. Handlers use
      the class only, never the layouts. [LnMsgGossip] has the messages of
      [ln_msg_anno.c] that are signed, [LnGossipCodec] their layouts and signatures.
    - [LnHtlc]: the HTLC bit field, the macros of [ln_local.h], and what a
      commitment transaction pays ([create_to_local_htlcinfo_amount],
      [create_to_remote_htlcinfo]).
    - [LnSelf]: [ln_self_t], events, and [Env], what a channel relies on;
      [LnNormal], [LnRecv], [LnAddHtlc], [LnForward]: the functions of [ln.c] for
      normal operation, each file opening with its list.
    - [LnCommit], [LnIdle], [LnOffer], [LnRelay]: what those functions do, exactly.
    - [LnSpec], [LnRefine], [LnChannel]: the abstract channel, the refinement and
      what follows for every history.
    - [LnScript] ([ln_script.c]): scripts, fees, the commitment transaction and the
      HTLC transactions; [LnSpend] with [BtcScript], an interpreter of the opcodes they use,
      tells who can spend an output, [LnWitness] that the witnesses the code makes
      do, [LnCommitTx] what the commitment transaction is.
    - [LnBuild] (of [ln.c]: [create_to_local], [create_to_remote] and what spends their
      outputs), [LnSignTx] (signing and checking in these), [LnAgree] (both peers
      build the same), [LnExchange] (a round of commitment_signed and
      revoke_and_ack between two nodes). The handlers of [LnRecv] take the builders from
      [Env]; [LnExchange] puts those of [LnBuild] there.
    - [LnClose] (of [ln.c]: unilateral close, the answer to a revoked commitment) and
      [LnPenalty]; [LnShutdown] (of [ln.c] and [lnapp.c]: shutdown and closing_signed
      with the callbacks of the application) and [LnMutual].
    - [LnGossip] (of [ln.c]: announcing a channel, the announcements of others) and
      [LnAnnounce].
    - [LnNoise] ([ln_enc_auth.c]): the handshake and the sealing of messages, on
      the state [peer] (the handshake, both directions, the buffer of the acts);
      [LnappPeer]: [recv_peer], a round of [thread_recv_start] and
      [send_peer_noise] of [ptarmd/lnapp.c] around it. [LnHandshake] and
      [LnTransport] prove what they do.
    - [LnOnion] ([ln_onion.c]): packets and failures, which [LnForward] and
      [LnAddHtlc] call; [LnOnionRoute] follows a packet along its route,
      [LnOnionFail] a failure back to the origin.
    - [BtcTx] ([btc_tx.c], [btc_util.c]): transactions with their heap arrays,
      building, writing and reading them. [BtcTxWire] has the abstract
      transaction, its serialisation and what the writer does; [BtcTxRead] the
      way back, [BtcTxLoop] where the reader's loop ends. [BtcSw] ([btc_sw.c] and the
      rest of [btc_tx.c] and [btc_util.c] that signs): output scripts, the digest of a
      segwit input, signatures, witnesses; [BtcDigest] and [BtcBuild] what they do,
      [BtcSort] the BIP 69 order.
    - [BtcEcp] ([btc_util_ecp_point_read_binary2]): reading a compressed key.
      [BtcFermat] and [BtcPrime] supply the arithmetic: Fermat's little theorem
      (from MathComp) and a certificate that the modulus of secp256k1 is prime.
    - [LnToy], [LnToyNode], [LnToyNoise], [LnToyOnion], [LnToyPair], [LnToyPenalty],
      [LnToyMutual], [LnToyGossip]: concrete instances, on which the theorems with hypotheses are applied (the [_witness] lemmas).

    ** The theorems

    - Refinement: every sequence of requests, messages and idle rounds is a
      sequence of the abstract writes ([channel_refines]); no balance appears
      or disappears ([balance_conserved]); two crossing HTLCs stop a channel for
      good ([crossing_adds_stall], a defect of the code).
    - Commitments: what commitment_signed and revoke_and_ack do on every path,
      refusals and the abort included; an honest peer's secrets are all
      recoverable; commitment transactions account for every millisatoshi.
    - HTLCs: the checks of an offered, received, forwarded and final HTLC are
      characterised exactly, with the 64-bit overflows they let through.
    - Wire formats: encoders give the BOLT layout, decoders invert them and
      accept nothing else; where a decoder reads past a short packet, that is
      the theorem.
    - Keys: the secret store, derived keys, script keys agreed by both peers,
      compressed keys of the actual curve.
    - Transport: two nodes that shake hands agree on all keys
      ([handshake_agrees]); every sequence of messages arrives
      ([stream_delivered]); no key seals twice with one nonce within its epoch
      ([key_schedule]); what hostile packets and partial writes break.
    - Onions: every hop of a route is told its own data and shares its secret
      with the sender ([onion_roundtrip]); a failure names its node to the origin
      ([failure_roundtrip]); what a forged failure does to it.

    - Scripts: each output script of a commitment accepts exactly the witnesses BOLT 3
      intends ([htlc_spendable], [tolocal_spendable]), those the code makes among them.
    - Commitment transactions: outputs, order and number ([committx_created]), the fee
      ([commit_fee_paid]); what one peer signs the other accepts, with the same
      identifier ([peers_agree]), and a round leaves both in step ([commitment_round]).
    - Closing: a revoked commitment with a to_local output is answered completely
      ([penalty_recovers]; without one the code writes out of bounds, [penalty_overflow]),
      a cooperative close ends with one transaction both signed ([mutual_close]),
      what a refused or forged closing_signed does.
    - Gossip: two nodes that exchange signatures save the same announcement, which
      checks (LnAnnounce.channel_announced), although nobody checks it
      (peer_signatures_unchecked); which channel_updates are kept
      (channel_update_saved); which announcements stop the node (hostile_announcements).
    - Types: balances stay 64-bit numbers and flags defined bits ([channel_typed]).
    - Digests and signatures: BIP 143 up to the length of output scripts
      ([sighash_bip143]), low-s DER signatures that check ([sign_verifies]).
    - Transactions: a transaction is written as its serialisation
      ([create_tx_outcome], with the case in which the block is too small) and
      read back unchanged ([tx_roundtrip]); the reader's loop ends, or, without
      PTARM_DEBUG, need not ([tx_read_ends]).

    ** Bounds and fuel

    Loops of the C code run on a fuel that is the loop's own bound:
    [trim_loop] 256, [push_value_loop] 6, [put_loop] 48, [get_loop] 49,
    [skip_loop] 31; the loops over HTLC slots run over [LN_HTLC_MAX] = 6
    indices. The reader of transactions takes its fuel as an argument: twice the
    length of the packet is enough with PTARM_DEBUG, eight times without it
    unless the loop runs forever. Structural recursion does the rest.

    ** Parameters

    SHA-256 and the curve ([Curve], mbedtls), allocation ([Alloc]), the
    chain the node was configured with, the LMDB rows and the answers of the
    application are arguments of the definitions ([Env], [Node]); the laws
    asked of them are [EnvLaws]: allocation succeeds, a hash has 32 bytes and a
    written point 33. The transport asks for HKDF and an AEAD ([Noise], with
    [NoiseLaws]: lengths, and that decryption undoes encryption), onions for
    HMAC and ChaCha20 ([Onion], with [OnionLaws]: lengths), both for a group of
    prime order ([PrimeCurve]), transactions for SHA-256 and RIPEMD-160
    ([BtcHash]) and the contents of fresh memory ([Fresh]), signatures for ECDSA
    ([Ecdsa], with [EcdsaLaws]: a signature checks under its key, DER is read back),
    reading a key for the fast reduction of mbedtls on the numbers it is documented for. The
    configuration ([mNativeSegwit], [PTARM_DEBUG], [LN_DBG_CLOSING_TX]), the answer of
    bitcoind ([btcrpc_send_rawtx]), database rows, the database of announcements and
    the clock ([AnnoDb]) are arguments as well. No law says that a primitive is secure: where
    forgery or chance could interfere, the theorem says so in a hypothesis or
    in its conclusion. The builders of commitment transactions are fields of [Env], so
    that the handlers' theorems hold for any; [LnExchange] instantiates them.

    Assertions end the process, as in the default build; with NDEBUG they are gone. The
    application answers a callback by a function of its argument: that it may enter the
    channel again before it answers is not modelled.

    ** Not modelled, and the plan

    The daemon, command line tools, routing search (Boost), LMDB, logging and
    network code are input and output. Of the protocol there remain: the establishment
    handlers of [ln.c] and [ln_close_change_stat], the set-up of structures, the digest and
    multisig checks from before segwit, addresses (base58, bech32, extended keys, which rest
    on vendored code), and string utilities. *)
From stdpp Require Import base list numbers tactics.
From Stdlib Require Import ZArith Lia.
Open Scope Z_scope.

(** ** Machine integers and bytes *)

(** [wrap w z] is the value a [w]-bit unsigned integer keeps of [z]. *)
Definition wrap (w z : Z) : Z := z mod 2 ^ w.

Abbreviation u8 := (wrap 8).
Abbreviation u16 := (wrap 16).
Abbreviation u32 := (wrap 32).
Abbreviation u64 := (wrap 64).

(** Two's complement reading of a [w]-bit pattern (conversion to a signed type). *)
Definition swrap (w z : Z) : Z := (z + 2 ^ (w - 1)) mod 2 ^ w - 2 ^ (w - 1).

Abbreviation bytes := (list Z).

Definition is_byte (b : Z) : Prop := 0 ≤ b < 256.

Abbreviation is_bytes := (Forall is_byte).

#[export] Instance is_byte_dec b : Decision (is_byte b).
Proof. unfold is_byte. apply _. Defined.

Definition in_range (w z : Z) : Prop := 0 ≤ z < 2 ^ w.

#[export] Instance in_range_dec w z : Decision (in_range w z).
Proof. unfold in_range. apply _. Defined.

Create HintDb ptarm.
Create Rewrite HintDb ptarm.

Lemma wrap_range w z : 0 ≤ w → 0 ≤ wrap w z < 2 ^ w.
Proof. intros. apply Z.mod_pos_bound. lia. Qed.

Lemma wrap_small w z : in_range w z → wrap w z = z.
Proof. intros. by apply Z.mod_small. Qed.

Lemma wrap_add_l w a b : wrap w (wrap w a + b) = wrap w (a + b).
Proof. unfold wrap. apply Zplus_mod_idemp_l. Qed.

Lemma wrap_sub_l w a b : wrap w (wrap w a - b) = wrap w (a - b).
Proof. unfold wrap. apply Zminus_mod_idemp_l. Qed.

Lemma wrap_is_byte z : is_byte (u8 z).
Proof. unfold is_byte. apply (wrap_range 8 z). lia. Qed.

Lemma swrap_small w z : 0 < w → - 2 ^ (w - 1) ≤ z < 2 ^ (w - 1) → swrap w z = z.
Proof.
  intros Hw Hz. unfold swrap.
  assert (2 ^ w = 2 * 2 ^ (w - 1)) as E by (rewrite <- Z.pow_succ_r by lia; f_equal; lia).
  rewrite E, Z.mod_small; lia.
Qed.

Lemma in_range_wrap w z : 0 ≤ w → in_range w (wrap w z).
Proof. apply wrap_range. Qed.

#[export] Hint Resolve wrap_is_byte in_range_wrap : ptarm.

(** The disjoint bitwise-or of a shifted high part and a low part is a sum. *)
Lemma lor_shiftl_add n x y :
  0 ≤ n → 0 ≤ y < 2 ^ n → Z.lor (Z.shiftl x n) y = x * 2 ^ n + y.
Proof.
  intros Hn Hy. rewrite <- Z.add_lor_land, Z.shiftl_mul_pow2 by lia.
  enough (Z.land (x * 2 ^ n) y = 0) as -> by lia.
  apply Z.bits_inj'. intros k Hk. rewrite Z.land_spec, Z.bits_0.
  destruct (Z.lt_ge_cases k n).
  - rewrite Z.mul_pow2_bits_low by lia. done.
  - rewrite <- (Z.mod_small y (2 ^ n)), Z.mod_pow2_bits_high by lia.
    apply andb_false_r.
Qed.

(** ** Big- and little-endian reference encodings *)

Fixpoint be_bytes (n : nat) (v : Z) : bytes :=
  match n with
  | O => []
  | S m => u8 (Z.shiftr v (8 * Z.of_nat m)) :: be_bytes m v
  end.

Definition be_val (l : bytes) : Z := foldl (λ acc b, acc * 256 + b) 0 l.

Fixpoint le_bytes (n : nat) (v : Z) : bytes :=
  match n with
  | O => []
  | S m => u8 v :: le_bytes m (Z.shiftr v 8)
  end.

Definition le_val (l : bytes) : Z := foldr (λ b acc, b + 256 * acc) 0 l.

Lemma length_be_bytes n v : length (be_bytes n v) = n.
Proof. induction n; simpl; congruence. Qed.

Lemma length_le_bytes n v : length (le_bytes n v) = n.
Proof. revert v. induction n; simpl; congruence. Qed.

#[export] Hint Rewrite length_be_bytes length_le_bytes : ptarm.
#[export] Hint Rewrite @length_app @length_replicate : ptarm.

Lemma be_bytes_is_bytes n v : is_bytes (be_bytes n v).
Proof. induction n; simpl; constructor; auto with ptarm. Qed.

Lemma le_bytes_is_bytes n v : is_bytes (le_bytes n v).
Proof. revert v. induction n; simpl; constructor; auto with ptarm. Qed.

#[export] Hint Resolve be_bytes_is_bytes le_bytes_is_bytes : ptarm.

Lemma be_val_acc l acc :
  foldl (λ acc b, acc * 256 + b) acc l = acc * 256 ^ Z.of_nat (length l) + be_val l.
Proof.
  unfold be_val. revert acc. induction l as [|b l IH]; intros acc; cbn [foldl length]; [lia|].
  rewrite IH, (IH (0 * 256 + b)), Nat2Z.inj_succ, Z.pow_succ_r by lia. lia.
Qed.

Lemma be_val_cons b l : be_val (b :: l) = b * 256 ^ Z.of_nat (length l) + be_val l.
Proof. unfold be_val at 1. simpl. apply be_val_acc. Qed.

Lemma be_val_range l : is_bytes l → 0 ≤ be_val l < 256 ^ Z.of_nat (length l).
Proof.
  induction 1 as [|b l Hb Hl IH]; [done|].
  rewrite be_val_cons. cbn [length]. rewrite Nat2Z.inj_succ, Z.pow_succ_r by lia.
  unfold is_byte in Hb. nia.
Qed.

Lemma pow_256 n : 0 ≤ n → 256 ^ n = 2 ^ (8 * n).
Proof. intros. change 256 with (2 ^ 8). by rewrite <- Z.pow_mul_r by lia. Qed.

Lemma be_val_be_bytes n v : be_val (be_bytes n v) = wrap (8 * Z.of_nat n) v.
Proof.
  induction n as [|n IH]; simpl be_bytes.
  - unfold wrap. by rewrite Z.mod_1_r.
  - rewrite be_val_cons, length_be_bytes, IH, pow_256 by lia. unfold wrap.
    rewrite Z.shiftr_div_pow2 by lia.
    rewrite Nat2Z.inj_succ.
    replace (8 * Z.succ (Z.of_nat n)) with (8 * Z.of_nat n + 8) by lia.
    rewrite Z.pow_add_r, Z.rem_mul_r by lia. lia.
Qed.

Lemma be_bytes_mod_hi n v k : be_bytes n (k * 256 ^ Z.of_nat n + v) = be_bytes n v.
Proof.
  assert (∀ m, (m ≤ n)%nat → be_bytes m (k * 256 ^ Z.of_nat n + v) = be_bytes m v) as H;
    [|by apply H].
  intros m. induction m as [|m IH]; intros Hm; [done|].
  simpl. rewrite IH by lia. f_equal. unfold wrap.
  rewrite !Z.shiftr_div_pow2, pow_256 by lia.
  replace (8 * Z.of_nat n)
    with (8 * (Z.of_nat n - Z.of_nat m - 1) + 8 + 8 * Z.of_nat m) by lia.
  rewrite !Z.pow_add_r by lia.
  rewrite Z.mul_assoc, Z.div_add_l by lia.
  rewrite Z.mul_assoc, Z.add_comm, Z.mod_add by lia. done.
Qed.

Lemma be_bytes_be_val l : is_bytes l → be_bytes (length l) (be_val l) = l.
Proof.
  induction 1 as [|b l Hb Hl IH]; [done|].
  rewrite be_val_cons. simpl. rewrite be_bytes_mod_hi, IH. f_equal.
  pose proof (be_val_range l Hl) as Hr.
  rewrite Z.shiftr_div_pow2, <- pow_256 by lia.
  rewrite Z.div_add_l, (Z.div_small (be_val l)), Z.add_0_r by lia.
  apply wrap_small. unfold is_byte, in_range in *. lia.
Qed.

Lemma le_val_le_bytes n v : le_val (le_bytes n v) = wrap (8 * Z.of_nat n) v.
Proof.
  revert v. induction n as [|n IH]; intros v; cbn [le_bytes].
  - unfold wrap. by rewrite Z.mod_1_r.
  - change (le_val (u8 v :: le_bytes n (Z.shiftr v 8)))
      with (u8 v + 256 * le_val (le_bytes n (Z.shiftr v 8))).
    rewrite IH. unfold wrap.
    rewrite Nat2Z.inj_succ, Z.shiftr_div_pow2 by lia.
    replace (8 * Z.succ (Z.of_nat n)) with (8 + 8 * Z.of_nat n) by lia.
    rewrite Z.pow_add_r, Z.rem_mul_r by lia. lia.
Qed.

Lemma le_bytes_le_val l : is_bytes l → le_bytes (length l) (le_val l) = l.
Proof.
  induction 1 as [|b l Hb Hl IH]; [done|]. simpl.
  fold (le_val l). unfold is_byte in Hb.
  f_equal.
  - unfold wrap. change (2 ^ 8) with 256.
    rewrite (Z.mul_comm 256), Z.mod_add, Z.mod_small by lia. done.
  - rewrite Z.shiftr_div_pow2, (Z.mul_comm 256) by lia. change (2 ^ 8) with 256.
    rewrite Z.div_add, (Z.div_small b) by lia. by rewrite Z.add_0_l.
Qed.

Lemma le_val_range l : is_bytes l → 0 ≤ le_val l < 256 ^ Z.of_nat (length l).
Proof.
  induction 1 as [|b l Hb Hl IH]; [done|].
  change (le_val (b :: l)) with (b + 256 * le_val l). cbn [length].
  rewrite Nat2Z.inj_succ, Z.pow_succ_r by lia. unfold is_byte in Hb. nia.
Qed.

(** Decide a closed proposition by computation. *)
Ltac by_compute := refine (bool_decide_eq_true_1 _ _); vm_compute; reflexivity.
