(* ===== verification/CProg.v ===== *)
(** C control flow and memory access, shared by every component.

    A C function body is a [prog S A]: a step from the state [S] it mutates
    (the struct its pointer arguments lead to) to one of four outcomes.
    Pointers to constant byte data are the lists of the bytes they lead to;
    an access past the end is the outcome [UB], never a default value. *)
From stdpp Require Import base list numbers tactics.
From Stdlib Require Import ZArith Lia.
From S2P Require Import Prelude.
Open Scope Z_scope.

(** ** Outcomes *)

Inductive out (S A : Type) : Type :=
| Ret (a : A) (s : S)        (* falls through with a value *)
| Exit (b : bool) (s : S)    (* [return b;] *)
| UB                         (* an access outside an object *)
| AbortOut.                  (* a failed [assert] *)
Arguments Ret {S A} a s.
Arguments Exit {S A} b s.
Arguments UB {S A}.
Arguments AbortOut {S A}.

Definition prog (S A : Type) : Type := S → out S A.

#[export] Instance prog_ret S : MRet (prog S) := λ A a s, Ret a s.

#[export] Instance prog_bind S : MBind (prog S) := λ A B k m s,
  match m s with
  | Ret a s' => k a s'
  | Exit b s' => Exit b s'
  | UB => UB
  | AbortOut => AbortOut
  end.

Section ops.
Context {S : Type}.

Definition exit_with {A} (b : bool) : prog S A := λ s, Exit b s.
Definition ub {A} : prog S A := λ _, UB.
Definition c_assert (b : bool) : prog S unit := λ s, if b then Ret tt s else AbortOut.
Definition get_st : prog S S := λ s, Ret s s.
Definition put_st (s : S) : prog S unit := λ _, Ret tt s.
Definition modify (f : S → S) : prog S unit := λ s, Ret tt (f s).
(** [if (c) return b;] *)
Definition exit_if (c : bool) (b : bool) : prog S unit :=
  if c then exit_with b else mret tt.
Definition of_option {A} (o : option A) : prog S A :=
  match o with Some a => mret a | None => ub end.
(** The value a whole function call returns and the state it leaves. *)
Definition run (m : prog S bool) (s : S) : out S bool :=
  match m s with
  | Ret b s' => Ret b s'
  | Exit b s' => Ret b s'
  | UB => UB
  | AbortOut => AbortOut
  end.

Lemma bind_ret {A B} (a : A) (k : A → prog S B) s m s' :
  m s = Ret a s' → (m ≫= k) s = k a s'.
Proof. intros H. unfold mbind, prog_bind. by rewrite H. Qed.

Lemma run_bind_ret {A} (m : prog S A) (k : A → prog S bool) s a s' :
  m s = Ret a s' → run (m ≫= k) s = run (k a) s'.
Proof. intros H. unfold run, mbind, prog_bind. by rewrite H. Qed.

Lemma bind_exit {A B} (k : A → prog S B) b s m s' :
  m s = Exit b s' → (m ≫= k) s = Exit b s'.
Proof. intros H. unfold mbind, prog_bind. by rewrite H. Qed.

Lemma bind_ub {A B} (k : A → prog S B) s m :
  m s = UB → (m ≫= k) s = UB.
Proof. intros H. unfold mbind, prog_bind. by rewrite H. Qed.

Lemma exit_if_false b s : exit_if false b s = Ret tt s.
Proof. done. Qed.

Lemma exit_if_true b s : exit_if true b s = Exit b s.
Proof. done. Qed.
End ops.

(** Run the monad's own operations, leaving the program's data alone. *)
Ltac prog_simpl :=
  cbv beta iota zeta delta [mbind prog_bind mret prog_ret get_st put_st modify
    exit_if exit_with of_option c_assert ub run negb].

(** ** Reading constant byte data *)

(** The [n] bytes at offset [pos] of an object holding [d]. *)
Definition sub_bytes (d : bytes) (pos n : Z) : option bytes :=
  if bool_decide (0 ≤ pos ∧ 0 ≤ n ∧ pos + n ≤ Z.of_nat (length d))
  then Some (take (Z.to_nat n) (drop (Z.to_nat pos) d))
  else None.

(** [memcpy(dst, pData + pos, n)] as a value. *)
Definition rd_bytes {S} (d : bytes) (pos n : Z) : prog S bytes :=
  of_option (sub_bytes d pos n).

(** [at_pos d pos rest]: the pointer [d + pos] leads to the bytes [rest]. *)
Definition at_pos (d : bytes) (pos : Z) (rest : bytes) : Prop :=
  0 ≤ pos ∧ ∃ pre, d = pre ++ rest ∧ Z.of_nat (length pre) = pos.

Lemma at_pos_0 d : at_pos d 0 d.
Proof. split; [lia|]. by exists []. Qed.

Lemma at_pos_app d pos c rest :
  at_pos d pos (c ++ rest) → at_pos d (pos + Z.of_nat (length c)) rest.
Proof.
  intros [Hp (pre & -> & Hl)]. split; [lia|].
  exists (pre ++ c). rewrite <- app_assoc. split; [done|]. rewrite length_app. lia.
Qed.

Lemma at_pos_step d pos c rest pos' :
  at_pos d pos (c ++ rest) → pos' = pos + Z.of_nat (length c) → at_pos d pos' rest.
Proof. intros H ->. by apply at_pos_app. Qed.

Lemma at_pos_cons d pos b rest pos' :
  at_pos d pos (b :: rest) → pos' = pos + 1 → at_pos d pos' rest.
Proof. intros H ->. by apply (at_pos_app d pos [b] rest). Qed.

Lemma at_pos_length d pos rest :
  at_pos d pos rest → Z.of_nat (length d) = pos + Z.of_nat (length rest).
Proof. intros [Hp (pre & -> & Hl)]. rewrite length_app. lia. Qed.

Lemma sub_bytes_at d pos c rest n :
  at_pos d pos (c ++ rest) → n = Z.of_nat (length c) → sub_bytes d pos n = Some c.
Proof.
  intros [Hp (pre & -> & Hl)] ->. unfold sub_bytes.
  rewrite bool_decide_eq_true_2 by (rewrite !length_app; lia).
  f_equal. rewrite drop_app_length' by lia. by rewrite take_app_length' by lia.
Qed.

Lemma rd_bytes_at {S} d pos c rest n (s : S) :
  at_pos d pos (c ++ rest) → n = Z.of_nat (length c) → rd_bytes d pos n s = Ret c s.
Proof. intros H Hn. unfold rd_bytes. by rewrite (sub_bytes_at _ _ _ _ _ H Hn). Qed.

Lemma sub_bytes_Some d pos n c :
  sub_bytes d pos n = Some c → Z.of_nat (length c) = n ∧ 0 ≤ pos ∧ pos + n ≤ Z.of_nat (length d).
Proof.
  unfold sub_bytes. case_bool_decide as H; [|done]. intros [= <-].
  rewrite length_take, length_drop. lia.
Qed.

Lemma sub_bytes_None d pos n :
  sub_bytes d pos n = None ↔ ¬ (0 ≤ pos ∧ 0 ≤ n ∧ pos + n ≤ Z.of_nat (length d)).
Proof. unfold sub_bytes. by case_bool_decide. Qed.

Lemma sub_bytes_is_Some d pos n :
  0 ≤ pos → 0 ≤ n → pos + n ≤ Z.of_nat (length d) → is_Some (sub_bytes d pos n).
Proof. intros. unfold sub_bytes. rewrite bool_decide_eq_true_2 by lia. eauto. Qed.

Lemma sub_bytes_is_bytes d pos n c :
  is_bytes d → sub_bytes d pos n = Some c → is_bytes c.
Proof.
  unfold sub_bytes. intros Hd. case_bool_decide; [|done]. intros [= <-].
  by apply Forall_take, Forall_drop.
Qed.

(** ** Slices

    [sl d pos n] is what a read of [n] bytes at [pos] gives when it is in
    range; decoders are specified with it. *)
Definition sl (d : bytes) (pos n : Z) : bytes := take (Z.to_nat n) (drop (Z.to_nat pos) d).

Lemma length_sl d pos n :
  0 ≤ pos → 0 ≤ n → pos + n ≤ Z.of_nat (length d) → length (sl d pos n) = Z.to_nat n.
Proof. intros. unfold sl. rewrite length_take, length_drop. lia. Qed.

Lemma sl_is_bytes d pos n : is_bytes d → is_bytes (sl d pos n).
Proof. intros. by apply Forall_take, Forall_drop. Qed.

#[export] Hint Resolve sl_is_bytes : ptarm.

Lemma rd_bytes_sl {S} d pos n (s : S) :
  0 ≤ pos → 0 ≤ n → pos + n ≤ Z.of_nat (length d) → rd_bytes d pos n s = Ret (sl d pos n) s.
Proof. intros. unfold rd_bytes, sub_bytes. by rewrite bool_decide_eq_true_2 by lia. Qed.

Lemma rd_bytes_oob {S} d pos n (s : S) :
  ¬ (0 ≤ pos ∧ 0 ≤ n ∧ pos + n ≤ Z.of_nat (length d)) → rd_bytes d pos n s = UB.
Proof. intros. unfold rd_bytes, sub_bytes. by rewrite bool_decide_eq_false_2 by done. Qed.

(** Two adjacent slices are one. *)
Lemma sl_app d p n q m :
  q = p + n → 0 ≤ p → 0 ≤ n → 0 ≤ m → sl d p n ++ sl d q m = sl d p (n + m).
Proof.
  intros -> Hp Hn Hm. unfold sl.
  rewrite !Z2Nat.inj_add by lia. rewrite <- drop_drop.
  set (x := drop (Z.to_nat p) d). rewrite <- (take_drop (Z.to_nat n) x) at 3.
  destruct (decide (length x ≤ Z.to_nat n)%nat) as [Hle|Hgt].
  - rewrite (drop_ge x) by lia. rewrite take_nil, !app_nil_r.
    rewrite !take_ge by (rewrite ?length_take; lia). done.
  - rewrite take_app, length_take_le by lia.
    rewrite (take_ge (take _ _)) by (rewrite length_take_le by lia; lia).
    do 2 f_equal. lia.
Qed.

Lemma sl_app_l a b p n :
  0 ≤ p → 0 ≤ n → p + n ≤ Z.of_nat (length a) → sl (a ++ b) p n = sl a p n.
Proof.
  intros. unfold sl. rewrite drop_app_le by lia. rewrite take_app_le; [done|].
  rewrite length_drop. lia.
Qed.

Lemma sl_app_r a b p n :
  Z.of_nat (length a) ≤ p → sl (a ++ b) p n = sl b (p - Z.of_nat (length a)) n.
Proof. intros. unfold sl. rewrite drop_app_ge by lia. do 2 f_equal. lia. Qed.

Lemma sl_sl d p n q m :
  0 ≤ p → 0 ≤ q → 0 ≤ m → q + m ≤ n → sl (sl d p n) q m = sl d (p + q) m.
Proof.
  intros. unfold sl. rewrite skipn_firstn_comm.
  rewrite take_take, drop_drop. do 2 f_equal; lia.
Qed.

Lemma sl_all a p n : p = 0 → n = Z.of_nat (length a) → sl a p n = a.
Proof. intros -> ->. unfold sl. cbn [Z.to_nat drop]. apply take_ge. lia. Qed.

Lemma sl_head a b p n : p = 0 → n = Z.of_nat (length a) → sl (a ++ b) p n = a.
Proof. intros -> ->. rewrite sl_app_l by lia. by apply sl_all. Qed.

Lemma sl_take d n : sl d 0 n = take (Z.to_nat n) d.
Proof. done. Qed.

Lemma sl_rest d n : d = sl d 0 n ++ drop (Z.to_nat n) d.
Proof. unfold sl. by rewrite drop_0, take_drop. Qed.

Lemma length_sl_Z d pos n :
  0 ≤ pos → 0 ≤ n → pos + n ≤ Z.of_nat (length d) → Z.of_nat (length (sl d pos n)) = n.
Proof. intros. rewrite length_sl by lia. lia. Qed.

(** [pData[pos]] *)
Definition rd_byte {S} (pData : bytes) (pos : Z) : prog S Z :=
  of_option (if 0 <=? pos then pData !! Z.to_nat pos else None).

Lemma rd_byte_step {S B} d p (K : Z → prog S B) s :
  0 ≤ p → p + 1 ≤ Z.of_nat (length d) → (rd_byte d p ≫= K) s = K (be_val (sl d p 1)) s.
Proof.
  intros Hp Hl. apply bind_ret. unfold rd_byte. rewrite (proj2 (Z.leb_le _ _)) by done.
  destruct (lookup_lt_is_Some_2 d (Z.to_nat p)) as [b Hb]; [lia|].
  unfold sl. by rewrite (drop_S _ _ _ Hb), Hb.
Qed.

Lemma rd_byte_oob {S B} d p (K : Z → prog S B) s :
  Z.of_nat (length d) ≤ p → (rd_byte d p ≫= K) s = UB.
Proof.
  intros Hp. apply bind_ub. unfold rd_byte. rewrite (proj2 (Z.leb_le _ _)) by lia.
  by rewrite lookup_ge_None_2 by lia.
Qed.

Lemma rd_byte_at {S B} d p b rest (K : Z → prog S B) s :
  at_pos d p (b :: rest) → (rd_byte d p ≫= K) s = K b s.
Proof.
  intros [Hp (pre & -> & Hl)]. apply bind_ret. unfold rd_byte.
  rewrite (proj2 (Z.leb_le _ _)) by done.
  rewrite lookup_app_r by lia. by replace (Z.to_nat p - length pre)%nat with 0%nat by lia.
Qed.

Lemma drop_at d p rest : at_pos d p rest → drop (Z.to_nat p) d = rest.
Proof. intros [Hp (pre & -> & Hl)]. by rewrite drop_app_length' by lia. Qed.

(** ** Reasoning about programs

    [wp U m Q X s]: run from [s], the program falls through with a value and a
    state in [Q] or returns early with ones in [X]; [U] is what must hold if it
    leaves an object or aborts: [False] for a program that never may, [True]
    for one of which only the results matter. *)
Definition wp {S A} (U : Prop) (m : prog S A) (Q : A → S → Prop) (X : bool → S → Prop) (s : S) : Prop :=
  match m s with
  | Ret a s' => Q a s'
  | Exit b s' => X b s'
  | UB | AbortOut => U
  end.

Section wp.
Context {S : Type} {U : Prop}.
Implicit Types (s : S).

Lemma wp_bind {A B} (m : prog S A) (k : A → prog S B) Q X s :
  wp U m (λ a, wp U (k a) Q X) X s → wp U (m ≫= k) Q X s.
Proof. unfold wp, mbind, prog_bind. by destruct (m s). Qed.

Lemma wp_mono {A} (m : prog S A) (Q Q' : A → S → Prop) (X X' : bool → S → Prop) s :
  wp U m Q X s → (∀ a s', Q a s' → Q' a s') → (∀ b s', X b s' → X' b s') → wp U m Q' X' s.
Proof. unfold wp. destruct (m s); auto. Qed.

Lemma wp_ret {A} (a : A) Q X s : Q a s → wp U (mret a) Q X s.
Proof. done. Qed.

Lemma wp_get Q X s : Q s s → wp U get_st Q X s.
Proof. done. Qed.

Lemma wp_modify f Q X s : Q tt (f s) → wp U (modify f) Q X s.
Proof. done. Qed.

Lemma wp_exit {A} b (Q : A → S → Prop) X s : X b s → wp U (exit_with b) Q X s.
Proof. done. Qed.

Lemma wp_exit_if c b Q X s :
  (c = true → X b s) → (c = false → Q tt s) → wp U (exit_if c b) Q X s.
Proof. destruct c; intros H1 H2; [by apply H1 | by apply H2]. Qed.

Lemma wp_assert b Q X s : (b = true → Q tt s) → (b = false → U) → wp U (c_assert b) Q X s.
Proof. unfold wp, c_assert. destruct b; auto. Qed.

Lemma wp_option {A} (o : option A) (Q : A → S → Prop) X s :
  (∀ a, o = Some a → Q a s) → (o = None → U) → wp U (of_option o) Q X s.
Proof. destruct o; [intros H _; by apply H | intros _ H; exact (H eq_refl)]. Qed.

Lemma wp_run (m : prog S bool) Q X s : wp U m Q Q s → wp U (run m) Q X s.
Proof. unfold wp, run. by destruct (m s). Qed.
End wp.

Lemma wp_partial {S A} (m : prog S A) (Q : A → S → Prop) (X : bool → S → Prop) s :
  (∀ a s', m s = Ret a s' → Q a s') → (∀ b s', m s = Exit b s' → X b s') → wp True m Q X s.
Proof. unfold wp. destruct (m s); auto. Qed.

(** ** Fields, loops and calls on other objects *)

(** [self->f]. *)
Definition gets {S A} (f : S → A) : prog S A := λ s, Ret (f s) s.

(** Call a function that works on the object [t]: its result, and [t] after it. *)
Definition on_local {S T} (m : prog T bool) (t : T) : prog S (bool * T) := λ s,
  match run m t with
  | Ret b t' | Exit b t' => Ret (b, t') s
  | UB => UB
  | AbortOut => AbortOut
  end.

(** [for (idx = ...; idx < end; idx++) { body }]: the rounds of [idxs] in turn. *)
Fixpoint for_idx {S A} (idxs : list nat) (body : nat → A → prog S A) (a : A) : prog S A :=
  match idxs with
  | [] => mret a
  | idx :: idxs => a ← body idx a; for_idx idxs body a
  end.

Lemma gets_step {S A B} (f : S → A) (K : A → prog S B) s : (gets f ≫= K) s = K (f s) s.
Proof. done. Qed.

Lemma get_st_step {S B} (K : S → prog S B) s : (get_st ≫= K) s = K s s.
Proof. done. Qed.

Lemma on_local_step {S T B} (m : prog T bool) (t : T) b t' (K : bool * T → prog S B) s :
  run m t = Ret b t' → (on_local m t ≫= K) s = K (b, t') s.
Proof. intros H. apply bind_ret. unfold on_local. by rewrite H. Qed.
