(* ===== verification/UtlInt.v ===== *)
(** Fixed-width integers in memory: [utl/utl_int.c], the [utl_misc_be*]
    readers of [utl/utl_misc.c] and the static little-endian readers of
    [btc/btc_tx.c]. A pointer argument is the list of the bytes it leads to;
    [None] is a read past its end. *)
From stdpp Require Import base list numbers tactics.
From Stdlib Require Import ZArith Lia.
From S2P Require Import Prelude.
Open Scope Z_scope.

Module UtlInt.

(** ** pack: bytes to integer *)

Definition utl_int_pack_u16le (pData : bytes) : option Z :=
  match pData with
  | b0 :: b1 :: _ => Some (u16 (Z.lor b0 (Z.shiftl b1 8)))
  | _ => None
  end.

Definition utl_int_pack_u32le (pData : bytes) : option Z :=
  match pData with
  | b0 :: b1 :: b2 :: b3 :: _ =>
      Some (u32 (Z.lor (Z.lor (Z.lor b0 (Z.shiftl b1 8)) (Z.shiftl b2 16)) (Z.shiftl b3 24)))
  | _ => None
  end.

Definition utl_int_pack_u64le (pData : bytes) : option Z :=
  match pData with
  | b0 :: b1 :: b2 :: b3 :: b4 :: b5 :: b6 :: b7 :: _ =>
      Some (u64 (Z.lor (Z.lor (Z.lor (Z.lor (Z.lor (Z.lor (Z.lor b0 (Z.shiftl b1 8))
        (Z.shiftl b2 16)) (Z.shiftl b3 24)) (Z.shiftl b4 32)) (Z.shiftl b5 40))
        (Z.shiftl b6 48)) (Z.shiftl b7 56)))
  | _ => None
  end.

Definition utl_int_pack_u64be (pData : bytes) : option Z :=
  match pData with
  | b0 :: b1 :: b2 :: b3 :: b4 :: b5 :: b6 :: b7 :: _ =>
      Some (u64 (Z.lor (Z.lor (Z.lor (Z.lor (Z.lor (Z.lor (Z.lor (Z.shiftl b0 56)
        (Z.shiftl b1 48)) (Z.shiftl b2 40)) (Z.shiftl b3 32)) (Z.shiftl b4 24))
        (Z.shiftl b5 16)) (Z.shiftl b6 8)) b7))
  | _ => None
  end.

Definition utl_int_pack_u32be (pData : bytes) : option Z :=
  match pData with
  | b0 :: b1 :: b2 :: b3 :: _ =>
      Some (u32 (Z.lor (Z.lor (Z.lor (Z.shiftl b0 24) (Z.shiftl b1 16)) (Z.shiftl b2 8)) b3))
  | _ => None
  end.

Definition utl_int_pack_u16be (pData : bytes) : option Z :=
  match pData with
  | b0 :: b1 :: _ => Some (u16 (Z.lor (Z.shiftl b0 8) b1))
  | _ => None
  end.

(** ** unpack: integer to bytes (the bytes stored at [pData]) *)

Definition utl_int_unpack_u16be (U16 : Z) : bytes := [u8 (Z.shiftr U16 8); u8 U16].

Definition utl_int_unpack_u32be (U32 : Z) : bytes :=
  [u8 (Z.shiftr U32 24); u8 (Z.shiftr U32 16); u8 (Z.shiftr U32 8); u8 U32].

Definition utl_int_unpack_u64be (U64 : Z) : bytes :=
  [u8 (Z.shiftr U64 56); u8 (Z.shiftr U64 48); u8 (Z.shiftr U64 40); u8 (Z.shiftr U64 32);
   u8 (Z.shiftr U64 24); u8 (Z.shiftr U64 16); u8 (Z.shiftr U64 8); u8 U64].

Definition utl_int_unpack_u16le (U16 : Z) : bytes := [u8 U16; u8 (Z.shiftr U16 8)].

Definition utl_int_unpack_u32le (U32 : Z) : bytes :=
  [u8 U32; u8 (Z.shiftr U32 8); u8 (Z.shiftr U32 16); u8 (Z.shiftr U32 24)].

Definition utl_int_unpack_u64le (U64 : Z) : bytes :=
  [u8 U64; u8 (Z.shiftr U64 8); u8 (Z.shiftr U64 16); u8 (Z.shiftr U64 24);
   u8 (Z.shiftr U64 32); u8 (Z.shiftr U64 40); u8 (Z.shiftr U64 48); u8 (Z.shiftr U64 56)].

(** [utl_misc_be16/32/64] compute the same expressions from [pData[i]]. *)
Definition utl_misc_be16 (pData : bytes) : option Z :=
  match pData with
  | b0 :: b1 :: _ => Some (u16 (Z.lor (Z.shiftl b0 8) b1))
  | _ => None
  end.

Definition utl_misc_be32 (pData : bytes) : option Z :=
  match pData with
  | b0 :: b1 :: b2 :: b3 :: _ =>
      Some (u32 (Z.lor (Z.lor (Z.lor (Z.shiftl b0 24) (Z.shiftl b1 16)) (Z.shiftl b2 8)) b3))
  | _ => None
  end.

Definition utl_misc_be64 (pData : bytes) : option Z :=
  match pData with
  | b0 :: b1 :: b2 :: b3 :: b4 :: b5 :: b6 :: b7 :: _ =>
      Some (u64 (Z.lor (Z.lor (Z.lor (Z.lor (Z.lor (Z.lor (Z.lor (Z.shiftl b0 56)
        (Z.shiftl b1 48)) (Z.shiftl b2 40)) (Z.shiftl b3 32)) (Z.shiftl b4 24))
        (Z.shiftl b5 16)) (Z.shiftl b6 8)) b7))
  | _ => None
  end.

(** ** The readers decode the reference encodings *)

Ltac byte_bounds :=
  repeat match goal with
  | H : is_bytes (_ :: _) |- _ => apply Forall_cons_1 in H; destruct H
  | H : is_byte _ |- _ => unfold is_byte in H
  end.

(** Or-ing a byte string's low part into a shifted high part, either order. *)
Lemma lor_add_shiftl n x y :
  0 ≤ n → 0 ≤ y < 2 ^ n → Z.lor y (Z.shiftl x n) = y + x * 2 ^ n.
Proof. intros. rewrite Z.lor_comm, lor_shiftl_add by lia. lia. Qed.

Ltac be_sum :=
  rewrite <- ?Z.lor_assoc;
  try rewrite (lor_shiftl_add 8) by lia; try rewrite (lor_shiftl_add 16) by lia;
  try rewrite (lor_shiftl_add 24) by lia; try rewrite (lor_shiftl_add 32) by lia;
  try rewrite (lor_shiftl_add 40) by lia; try rewrite (lor_shiftl_add 48) by lia;
  try rewrite (lor_shiftl_add 56) by lia.

Ltac le_sum :=
  try rewrite (lor_add_shiftl 8) by lia; try rewrite (lor_add_shiftl 16) by lia;
  try rewrite (lor_add_shiftl 24) by lia; try rewrite (lor_add_shiftl 32) by lia;
  try rewrite (lor_add_shiftl 40) by lia; try rewrite (lor_add_shiftl 48) by lia;
  try rewrite (lor_add_shiftl 56) by lia.

(** [pack_as f n val]: [f] reads the first [n] bytes as [val] of them. *)
Definition pack_as (f : bytes → option Z) (n : nat) (val : bytes → Z) : Prop :=
  (∀ d rest, is_bytes d → length d = n → f (d ++ rest) = Some (val d)) ∧
  (∀ d, (length d < n)%nat → f d = None).

Ltac solve_pack sum :=
  split;
  [ let d := fresh "d" in let Hd := fresh "Hd" in let Hl := fresh "Hl" in
    intros d rest Hd Hl;
    repeat (destruct d as [|? d]; [discriminate Hl|]); destruct d; [|discriminate Hl];
    byte_bounds; cbn [app]; unfold wrap, be_val, le_val; cbn [foldl foldr];
    match goal with |- ?f _ = _ => unfold f end; unfold wrap;
    f_equal; sum; rewrite Z.mod_small; lia
  | let d := fresh "d" in let Hl := fresh "Hl" in
    intros d Hl; repeat (destruct d as [|? d]; [reflexivity|]); cbn [length] in Hl; lia ].

Lemma pack_u16le_spec : pack_as utl_int_pack_u16le 2 le_val.
Proof. solve_pack le_sum. Qed.
Lemma pack_u32le_spec : pack_as utl_int_pack_u32le 4 le_val.
Proof. solve_pack le_sum. Qed.
Lemma pack_u64le_spec : pack_as utl_int_pack_u64le 8 le_val.
Proof. solve_pack le_sum. Qed.
Lemma pack_u16be_spec : pack_as utl_int_pack_u16be 2 be_val.
Proof. solve_pack be_sum. Qed.
Lemma pack_u32be_spec : pack_as utl_int_pack_u32be 4 be_val.
Proof. solve_pack be_sum. Qed.
Lemma pack_u64be_spec : pack_as utl_int_pack_u64be 8 be_val.
Proof. solve_pack be_sum. Qed.

Lemma misc_be16_pack d : utl_misc_be16 d = utl_int_pack_u16be d.
Proof. done. Qed.
Lemma misc_be32_pack d : utl_misc_be32 d = utl_int_pack_u32be d.
Proof. done. Qed.
Lemma misc_be64_pack d : utl_misc_be64 d = utl_int_pack_u64be d.
Proof. done. Qed.

(** ** The writers store the reference encodings *)

Ltac solve_unpack :=
  intros; cbn [be_bytes le_bytes Z.of_nat Pos.of_succ_nat];
  rewrite ?Z.shiftr_shiftr by lia; repeat f_equal; rewrite ?Z.shiftr_0_r; reflexivity.

Lemma unpack_u16be_spec v : utl_int_unpack_u16be v = be_bytes 2 v.
Proof. solve_unpack. Qed.
Lemma unpack_u32be_spec v : utl_int_unpack_u32be v = be_bytes 4 v.
Proof. solve_unpack. Qed.
Lemma unpack_u64be_spec v : utl_int_unpack_u64be v = be_bytes 8 v.
Proof. solve_unpack. Qed.
Lemma unpack_u16le_spec v : utl_int_unpack_u16le v = le_bytes 2 v.
Proof. solve_unpack. Qed.
Lemma unpack_u32le_spec v : utl_int_unpack_u32le v = le_bytes 4 v.
Proof. solve_unpack. Qed.
Lemma unpack_u64le_spec v : utl_int_unpack_u64le v = le_bytes 8 v.
Proof. solve_unpack. Qed.

(** A reader and the writer of the same width and byte order. *)
Class IntCodec (w : Z) (pack : bytes → option Z) (unpack : Z → bytes) : Prop := {
  codec_length v : Z.of_nat (length (unpack v)) * 8 = w;
  codec_bytes v : is_bytes (unpack v);
  codec_decode v rest : in_range w v → pack (unpack v ++ rest) = Some v;
  codec_encode d rest v :
    is_bytes d → Z.of_nat (length d) * 8 = w → pack (d ++ rest) = Some v →
    in_range w v ∧ unpack v = d;
}.

Lemma be_codec n pack unpack :
  pack_as pack n be_val → (∀ v, unpack v = be_bytes n v) →
  IntCodec (8 * Z.of_nat n) pack unpack.
Proof.
  intros [Hp _] Hu. split.
  - intros v. rewrite Hu, length_be_bytes. lia.
  - intros v. rewrite Hu. apply be_bytes_is_bytes.
  - intros v rest Hv. rewrite Hu, Hp by auto using length_be_bytes, be_bytes_is_bytes.
    by rewrite be_val_be_bytes, wrap_small.
  - intros d rest v Hd Hl. assert (length d = n) as <- by lia.
    rewrite Hp by done. intros [= <-]. split.
    + unfold in_range. rewrite <- pow_256 by lia. by apply be_val_range.
    + rewrite Hu. by apply be_bytes_be_val.
Qed.

Lemma le_codec n pack unpack :
  pack_as pack n le_val → (∀ v, unpack v = le_bytes n v) →
  IntCodec (8 * Z.of_nat n) pack unpack.
Proof.
  intros [Hp _] Hu. split.
  - intros v. rewrite Hu, length_le_bytes. lia.
  - intros v. rewrite Hu. apply le_bytes_is_bytes.
  - intros v rest Hv. rewrite Hu, Hp by auto using length_le_bytes, le_bytes_is_bytes.
    by rewrite le_val_le_bytes, wrap_small.
  - intros d rest v Hd Hl. assert (length d = n) as <- by lia.
    rewrite Hp by done. intros [= <-]. split.
    + unfold in_range. rewrite <- pow_256 by lia. by apply le_val_range.
    + rewrite Hu. by apply le_bytes_le_val.
Qed.

#[export] Instance codec_u16be : IntCodec 16 utl_int_pack_u16be utl_int_unpack_u16be :=
  be_codec 2 _ _ pack_u16be_spec unpack_u16be_spec.
#[export] Instance codec_u32be : IntCodec 32 utl_int_pack_u32be utl_int_unpack_u32be :=
  be_codec 4 _ _ pack_u32be_spec unpack_u32be_spec.
#[export] Instance codec_u64be : IntCodec 64 utl_int_pack_u64be utl_int_unpack_u64be :=
  be_codec 8 _ _ pack_u64be_spec unpack_u64be_spec.
#[export] Instance codec_u16le : IntCodec 16 utl_int_pack_u16le utl_int_unpack_u16le :=
  le_codec 2 _ _ pack_u16le_spec unpack_u16le_spec.
#[export] Instance codec_u32le : IntCodec 32 utl_int_pack_u32le utl_int_unpack_u32le :=
  le_codec 4 _ _ pack_u32le_spec unpack_u32le_spec.
#[export] Instance codec_u64le : IntCodec 64 utl_int_pack_u64le utl_int_unpack_u64le :=
  le_codec 8 _ _ pack_u64le_spec unpack_u64le_spec.

(** All six reader/writer pairs are inverse in both directions. *)
Theorem int_codecs_inverse :
  IntCodec 16 utl_int_pack_u16be utl_int_unpack_u16be ∧
  IntCodec 32 utl_int_pack_u32be utl_int_unpack_u32be ∧
  IntCodec 64 utl_int_pack_u64be utl_int_unpack_u64be ∧
  IntCodec 16 utl_int_pack_u16le utl_int_unpack_u16le ∧
  IntCodec 32 utl_int_pack_u32le utl_int_unpack_u32le ∧
  IntCodec 64 utl_int_pack_u64le utl_int_unpack_u64le.
Proof. do 5 (split; [apply _|]); apply _. Qed.

End UtlInt.
