(* ===== verification/UtlBuf.v ===== *)
(** Growable byte buffers: [utl/utl_buf.c].

    A [utl_buf_t] holds a heap block ([None] is the null pointer) and a length
    field the code keeps by hand. A cell of a block is [None] while it is
    indeterminate, as [malloc] leaves it. *)
From stdpp Require Import base list numbers tactics.
From Stdlib Require Import ZArith Lia.
From S2P Require Import Prelude CProg.
Open Scope Z_scope.

(** Whether an allocation of a given size succeeds. *)
Class Alloc := malloc_ok : Z → bool.

(** An allocator that never fails: what the message encoders rely on, which
    do not look at the result of an allocation. *)
Class AllocTotal (A : Alloc) : Prop := malloc_total : ∀ n, @malloc_ok A n = true.

Definition total_alloc : Alloc := λ _, true.

#[export] Instance total_alloc_total : AllocTotal total_alloc.
Proof. done. Qed.

Abbreviation cell := (option Z).

Definition junk (n : Z) : list cell := replicate (Z.to_nat n) None.

Definition init_cells (d : bytes) : list cell := Some <$> d.

Module UtlBuf.

Record utl_buf_t := mk_buf { buf : option (list cell); len : Z }.

Definition set_buf (b : option (list cell)) (x : utl_buf_t) : utl_buf_t := mk_buf b (len x).
Definition set_len (n : Z) (x : utl_buf_t) : utl_buf_t := mk_buf (buf x) n.

(** The buffer whose block is exactly the bytes [d]. *)
Definition of_bytes (d : bytes) : utl_buf_t :=
  mk_buf (Some (init_cells d)) (Z.of_nat (length d)).

(** A buffer as [UTL_BUF_INIT] and the functions below leave it: a null
    pointer with length 0, or a block of [len] cells. *)
Definition buf_wf (x : utl_buf_t) : Prop :=
  match buf x with
  | None => len x = 0
  | Some b => len x = Z.of_nat (length b)
  end.

Section ops.
Context {A : Alloc}.

Definition malloc (n : Z) : option (list cell) :=
  if malloc_ok n then Some (junk n) else None.

(** [realloc]: the old contents up to the new size, then indeterminate cells;
    of a null pointer, [malloc]. *)
Definition realloc (b : option (list cell)) (n : Z) : option (list cell) :=
  if malloc_ok n
  then Some (let old := default [] b in
             take (Z.to_nat n) old ++ junk (n - Z.of_nat (length old)))
  else None.

Definition utl_buf_init (pBuf : utl_buf_t) : utl_buf_t := mk_buf None 0.

(** [UTL_DBG_FREE] also stores [NULL] in the pointer it frees. *)
Definition utl_buf_free (pBuf : utl_buf_t) : utl_buf_t :=
  match buf pBuf with
  | Some _ => mk_buf None 0
  | None => pBuf
  end.

Definition utl_buf_alloc (pBuf : utl_buf_t) (Size : Z) : bool * utl_buf_t :=
  let b := malloc Size in (bool_decide (is_Some b), mk_buf b Size).

Definition utl_buf_realloc (pBuf : utl_buf_t) (Size : Z) : bool * utl_buf_t :=
  let b := realloc (buf pBuf) Size in (bool_decide (is_Some b), mk_buf b Size).

(** [memcpy(&b[pos], src, n)]: [None] when it leaves either object. A copy of
    no bytes touches nothing. *)
Definition write_cells (b : option (list cell)) (pos : Z) (src : list cell) (n : Z)
  : option (option (list cell)) :=
  if n =? 0 then Some b
  else match b with
       | None => None
       | Some l =>
           if bool_decide (0 ≤ pos ∧ 0 ≤ n ∧ pos + n ≤ Z.of_nat (length l) ∧
                           n ≤ Z.of_nat (length src))
           then Some (Some (take (Z.to_nat pos) l ++ take (Z.to_nat n) src ++
                            drop (Z.to_nat (pos + n)) l))
           else None
       end.

(** [None] is a copy past the end of [pData]. *)
Definition utl_buf_alloccopy (pBuf : utl_buf_t) (pData : list cell) (Len : Z)
  : option (bool * utl_buf_t) :=
  if 0 <? Len
  then let '(ok, x) := utl_buf_alloc pBuf Len in
       if ok
       then b ← write_cells (buf x) 0 pData Len; Some (true, set_buf b x)
       else Some (false, x)
  else Some (true, utl_buf_init pBuf).

(** The first [n] cells of a block, all of them initialised. *)
Definition read_cells (b : option (list cell)) (n : Z) : option bytes :=
  if n =? 0 then Some []
  else l ← b; if bool_decide (0 ≤ n ≤ Z.of_nat (length l))
              then mapM id (take (Z.to_nat n) l) else None.

(** [None] is a comparison of bytes that are not there. *)
Definition utl_buf_cmp (pBuf1 pBuf2 : utl_buf_t) : option bool :=
  if len pBuf1 =? len pBuf2
  then x ← read_cells (buf pBuf1) (len pBuf1);
       y ← read_cells (buf pBuf2) (len pBuf1);
       Some (bool_decide (x = y))
  else Some false.
End ops.

(** ** Properties *)

Lemma length_junk n : length (junk n) = Z.to_nat n.
Proof. apply length_replicate. Qed.

Lemma length_init_cells d : length (init_cells d) = length d.
Proof. apply length_fmap. Qed.

Lemma init_cells_app d e : init_cells (d ++ e) = init_cells d ++ init_cells e.
Proof. apply fmap_app. Qed.

Lemma mapM_id_init d : mapM id (init_cells d) = Some d.
Proof.
  apply mapM_Some, Forall2_fmap_l. apply Forall_Forall2_diag. by apply Forall_true.
Qed.

Lemma read_of_bytes d : read_cells (Some (init_cells d)) (Z.of_nat (length d)) = Some d.
Proof.
  unfold read_cells. destruct d as [|b d]; [done|].
  rewrite (proj2 (Z.eqb_neq _ _)) by (cbn [length]; lia). cbn [mbind option_bind].
  rewrite bool_decide_eq_true_2 by (rewrite length_init_cells; lia).
  rewrite take_ge by (rewrite length_init_cells; lia). apply mapM_id_init.
Qed.

Section total.
Context {A : Alloc} {T : AllocTotal A}.

Lemma malloc_eq n : malloc n = Some (junk n).
Proof. unfold malloc. by rewrite T. Qed.

Lemma realloc_eq b n :
  realloc b n = Some (take (Z.to_nat n) (default [] b) ++
                      junk (n - Z.of_nat (length (default [] b)))).
Proof. unfold realloc. by rewrite T. Qed.

Lemma alloccopy_bytes pBuf d rest :
  utl_buf_alloccopy pBuf (init_cells d ++ rest) (Z.of_nat (length d)) =
  Some (true, if bool_decide (d = []) then mk_buf None 0 else of_bytes d).
Proof.
  unfold utl_buf_alloccopy. destruct d as [|b d]; [done|].
  rewrite (proj2 (Z.ltb_lt _ _)) by (cbn [length]; lia).
  unfold utl_buf_alloc. rewrite malloc_eq. unfold write_cells.
  cbn [bool_decide is_Some decide buf]. rewrite bool_decide_eq_true_2 by eauto.
  cbn [buf].
  rewrite (proj2 (Z.eqb_neq _ _)) by (cbn [length]; lia).
  rewrite bool_decide_eq_true_2
    by (rewrite length_junk, length_app, length_init_cells; cbn [length]; lia).
  cbn [mbind option_bind]. unfold set_buf, of_bytes. cbn [len].
  do 3 f_equal. rewrite take_app_length'
    by (rewrite length_init_cells; cbn [length]; lia).
  rewrite drop_ge by (rewrite length_junk; cbn [length]; lia).
  by rewrite app_nil_r.
Qed.
End total.

(** A block that is allocated and filled. *)
Lemma write_whole (A : Alloc) (T : AllocTotal A) d n :
  n = Z.of_nat (length d) → 0 < n →
  write_cells (malloc n) 0 (init_cells d) n = Some (Some (init_cells d)).
Proof.
  intros Hn Hp. rewrite malloc_eq. unfold write_cells.
  rewrite (proj2 (Z.eqb_neq _ _)) by lia.
  rewrite bool_decide_eq_true_2 by (rewrite length_junk, length_init_cells; lia).
  rewrite drop_ge by (rewrite length_junk; lia).
  rewrite (take_ge (init_cells d)) by (rewrite length_init_cells; lia).
  by rewrite app_nil_r.
Qed.

Lemma read_prefix d e n :
  n = Z.of_nat (length d) → read_cells (Some (init_cells (d ++ e))) n = Some d.
Proof.
  intros ->. unfold read_cells. destruct d as [|b d]; [done|].
  rewrite (proj2 (Z.eqb_neq _ _)) by (cbn [length]; lia). cbn [mbind option_bind].
  rewrite bool_decide_eq_true_2 by (rewrite length_init_cells, length_app; lia).
  rewrite init_cells_app, take_app_length' by (rewrite length_init_cells; lia). apply mapM_id_init.
Qed.

Lemma buf_free_wf x : buf_wf x → buf_wf (utl_buf_free x).
Proof. unfold buf_wf, utl_buf_free. by destruct (buf x) eqn:E; simpl; rewrite ?E. Qed.

Lemma buf_cmp_of_bytes d e :
  utl_buf_cmp (of_bytes d) (of_bytes e) = Some (bool_decide (d = e)).
Proof.
  unfold utl_buf_cmp. cbn [len of_bytes buf].
  destruct (Z.eqb_spec (Z.of_nat (length d)) (Z.of_nat (length e))) as [E|E].
  - rewrite read_of_bytes, E. cbn. by rewrite read_of_bytes.
  - rewrite bool_decide_eq_false_2; [done|]. intros ->. lia.
Qed.

End UtlBuf.
