(* ===== verification/UtlPush.v ===== *)
(** Appending to a growable buffer: [utl/utl_push.c]. The pushing cursor and
    the buffer it points to are one state, so the alias is kept. *)
From stdpp Require Import base list numbers tactics.
From Stdlib Require Import ZArith Lia.
From S2P Require Import Prelude CProg UtlBuf.
Import UtlBuf.
Open Scope Z_scope.

Module UtlPush.

Record utl_push_t := mk_push { pos : Z; data : utl_buf_t }.

Definition set_pos (p : Z) (x : utl_push_t) : utl_push_t := mk_push p (data x).
Definition set_data (d : utl_buf_t) (x : utl_push_t) : utl_push_t := mk_push (pos x) d.

(** A call of a [bool] function from another body on the same state. *)
Definition call {S} (m : prog S bool) : prog S bool := run m.

Section ops.
Context {A : Alloc}.

Definition utl_push_init (Size : Z) : prog utl_push_t bool :=
  let Size := u32 Size in
  modify (set_pos 0);;
  st ← get_st;
  (if Size =? 0
   then modify (set_data (utl_buf_init (data st)))
   else let '(ok, d) := utl_buf_alloc (data st) Size in
        modify (set_data d);; exit_if (negb ok) false);;
  mret true.

(** [rest] is an [int] computed from [uint32_t] operands. *)
Definition utl_push_data (pData : list cell) (Len : Z) : prog utl_push_t bool :=
  let Len := u32 Len in
  st ← get_st;
  let rest := swrap 32 (u32 (len (data st) - pos st - Len)) in
  (if rest <? 0
   then let nb := realloc (buf (data st)) (u32 (len (data st) - rest)) in
        modify (set_data (set_buf nb (data st)));;
        exit_if (bool_decide (nb = None)) false;;
        modify (λ x, set_data (set_len (u32 (len (data x) - rest)) (data x)) x)
   else mret tt);;
  st ← get_st;
  b ← of_option (write_cells (buf (data st)) (pos st) pData Len);
  modify (λ x, set_data (set_buf b (data x)) x);;
  modify (λ x, set_pos (u32 (pos x + Len)) x);;
  mret true.

(** The loop of [utl_push_value] from [len]; run out, [buf] is unset. *)
Fixpoint push_value_loop (fuel : nat) (len Value : Z) : list cell :=
  match fuel with
  | O => junk len
  | S f =>
      if Value <? u64 (Z.shiftl 0x80 (8 * (len - 1)))
      then init_cells (u8 len ::
             ((λ lp, u8 (Z.shiftr Value (8 * Z.of_nat lp))) <$> seq 0 (Z.to_nat len)))
      else push_value_loop f (len + 1) Value
  end.

Definition utl_push_value (Value : Z) : prog utl_push_t bool :=
  if Value =? 0 then call (utl_push_data [Some 0x00] 1)
  else if Value <=? 16 then call (utl_push_data [Some (u8 (0x50 + Value))] 1)
  else if Value <=? 0x7fffffffff
  then let b := push_value_loop 6 1 Value in
       call (utl_push_data b (Z.of_nat (length b)))
  else mret false.

Definition utl_push_trim : prog utl_push_t bool :=
  st ← get_st;
  (if negb (len (data st) =? pos st)
   then if pos st =? 0
        then modify (set_data (utl_buf_free (data st)))
        else let nb := realloc (buf (data st)) (pos st) in
             modify (set_data (mk_buf nb (pos st)));;
             exit_if (bool_decide (nb = None)) false
   else mret tt);;
  mret true.

(** [memset(pBuf->buf + pos, v, n); pos += n], the raw fill some encoders do. *)
Definition push_memset (v n : Z) : prog utl_push_t unit :=
  st ← get_st;
  b ← of_option (write_cells (buf (data st)) (pos st) (replicate (Z.to_nat n) (Some v)) n);
  modify (λ x, set_data (set_buf b (data x)) x);;
  modify (λ x, set_pos (u32 (pos x + n)) x).

(** [proto.pos += n] *)
Definition push_skip (n : Z) : prog utl_push_t unit :=
  modify (λ x, set_pos (u32 (pos x + n)) x).
End ops.

(** ** What the buffer holds

    [pushed w n]: the cells [w] have been written into a buffer of [n] cells,
    the rest of which is indeterminate. *)
Definition pushed (w : list cell) (n : Z) : utl_push_t :=
  mk_push (Z.of_nat (length w))
    (mk_buf (Some (w ++ junk (n - Z.of_nat (length w)))) n).

Section total.
Context {A : Alloc} {T : AllocTotal A}.

Lemma push_init_spec n st :
  0 < n < 2 ^ 32 → run (utl_push_init n) st = Ret true (pushed [] n).
Proof.
  intros Hn. unfold utl_push_init. rewrite (wrap_small 32) by (unfold in_range; lia).
  prog_simpl.
  rewrite (proj2 (Z.eqb_neq _ _)) by lia. unfold utl_buf_alloc.
  rewrite malloc_eq. cbn. unfold pushed. cbn. by rewrite Z.sub_0_r.
Qed.

Lemma push_init_zero st :
  run (utl_push_init 0) st = Ret true (mk_push 0 (mk_buf None 0)).
Proof. done. Qed.

Lemma write_pushed w n src k :
  Z.of_nat (length w) + k ≤ n → 0 ≤ k ≤ Z.of_nat (length src) →
  write_cells (Some (w ++ junk (n - Z.of_nat (length w)))) (Z.of_nat (length w)) src k =
  Some (Some ((w ++ take (Z.to_nat k) src) ++
              junk (n - Z.of_nat (length (w ++ take (Z.to_nat k) src))))).
Proof.
  intros Hn Hk. unfold write_cells. case_match eqn:E.
  - apply Z.eqb_eq in E as ->. cbn [Z.to_nat take]. by rewrite app_nil_r.
  - apply Z.eqb_neq in E.
    rewrite bool_decide_eq_true_2 by (rewrite length_app, length_junk; lia).
    do 2 f_equal. rewrite take_app_length' by lia. rewrite <- app_assoc. do 2 f_equal.
    rewrite drop_app, drop_ge by lia. rewrite length_app, length_take_le by lia.
    unfold junk. rewrite drop_replicate. cbn. f_equal. lia.
Qed.

(** Appending [src]: in place when there is room, in a larger block otherwise. *)
Lemma push_data_spec w n src :
  Z.of_nat (length w) ≤ n → n < 2 ^ 31 → Z.of_nat (length w) + Z.of_nat (length src) < 2 ^ 31 →
  run (utl_push_data src (Z.of_nat (length src))) (pushed w n) =
  Ret true (pushed (w ++ src) (Z.max n (Z.of_nat (length w) + Z.of_nat (length src)))).
Proof.
  intros Hw Hn Hs.
  assert (swrap 32 (u32 (n - Z.of_nat (length w) - Z.of_nat (length src))) =
          n - Z.of_nat (length w) - Z.of_nat (length src)) as Erest.
  { unfold swrap, wrap. rewrite Z.add_mod_idemp_l by lia.
    rewrite Z.mod_small by lia. lia. }
  unfold utl_push_data.
  rewrite (wrap_small 32 (Z.of_nat (length src))) by (unfold in_range; lia).
  prog_simpl. cbn [pushed data pos len buf]. rewrite Erest.
  destruct (Z.ltb_spec (n - Z.of_nat (length w) - Z.of_nat (length src)) 0) as [Hr|Hr].
  - rewrite realloc_eq.
    assert (u32 (n - (n - Z.of_nat (length w) - Z.of_nat (length src))) =
            Z.of_nat (length w) + Z.of_nat (length src)) as ->.
    { unfold wrap. rewrite Z.mod_small by lia. lia. }
    cbn. rewrite Z.max_r by lia.
    assert (u32 (n - (n - Z.of_nat (length w) - Z.of_nat (length src))) =
            Z.of_nat (length w) + Z.of_nat (length src)) as ->.
    { unfold wrap. rewrite Z.mod_small by lia. lia. }
    rewrite take_ge by (rewrite length_app, length_junk; lia).
    rewrite <- app_assoc. rewrite length_app, length_junk.
    unfold junk. rewrite <- replicate_add.
    replace (Z.to_nat (n - Z.of_nat (length w)) + Z.to_nat _)%nat
      with (Z.to_nat (Z.of_nat (length w) + Z.of_nat (length src) - Z.of_nat (length w)))
      by lia.
    fold (junk (Z.of_nat (length w) + Z.of_nat (length src) - Z.of_nat (length w))).
    rewrite write_pushed by lia. cbn.
    rewrite take_ge by lia. unfold pushed, set_pos, set_data. cbn.
    rewrite length_app, Nat2Z.inj_add. f_equal.
    f_equal. apply wrap_small. unfold in_range. lia.
  - cbn. rewrite write_pushed by lia. cbn. rewrite Z.max_l by lia.
    rewrite take_ge by lia. unfold pushed, set_pos, set_data. cbn.
    rewrite length_app, Nat2Z.inj_add. f_equal.
    f_equal. apply wrap_small. unfold in_range. lia.
Qed.

Lemma write_cells_prefix b p src more n :
  n ≤ Z.of_nat (length src) → write_cells b p (src ++ more) n = write_cells b p src n.
Proof.
  intros Hn. unfold write_cells. destruct (n =? 0); [done|]. destruct b as [l|]; [|done].
  rewrite take_app_le by lia.
  repeat case_bool_decide; try done; exfalso; rewrite length_app in *; lia.
Qed.

(** Only the first [Len] bytes of the source matter. *)
Lemma push_data_prefix src more k st :
  0 ≤ k ≤ Z.of_nat (length src) → k < 2 ^ 32 →
  utl_push_data (src ++ more) k st = utl_push_data src k st.
Proof.
  intros Hk Hlt. unfold utl_push_data. rewrite (wrap_small 32) by (unfold in_range; lia).
  prog_simpl. repeat case_match; try done; simplify_eq;
    rewrite write_cells_prefix in * by lia; congruence.
Qed.

Lemma push_data_within w n src k :
  Z.of_nat (length w) + k ≤ n → n < 2 ^ 31 → k = Z.of_nat (length src) →
  run (utl_push_data src k) (pushed w n) = Ret true (pushed (w ++ src) n).
Proof. intros Hn Hb ->. rewrite push_data_spec by lia. by rewrite Z.max_l by lia. Qed.

Lemma push_memset_spec v k w n :
  0 ≤ k → Z.of_nat (length w) + k ≤ n → n < 2 ^ 31 →
  push_memset v k (pushed w n) = Ret tt (pushed (w ++ replicate (Z.to_nat k) (Some v)) n).
Proof.
  intros Hk Hn Hb. unfold push_memset. prog_simpl. cbn [pushed data pos len buf].
  rewrite write_pushed by (rewrite ?length_replicate; lia). cbn.
  rewrite take_ge by (rewrite length_replicate; lia).
  unfold pushed, set_pos, set_data. cbn.
  rewrite length_app, Nat2Z.inj_add, length_replicate. f_equal.
  f_equal. rewrite Z2Nat.id by lia. apply wrap_small. unfold in_range. lia.
Qed.

(** [utl_push_trim] cuts the buffer to what was written. *)
Lemma push_trim_spec w n :
  Z.of_nat (length w) ≤ n →
  run utl_push_trim (pushed w n) =
  Ret true (mk_push (Z.of_nat (length w))
              (if (0 <? n) && bool_decide (w = []) then mk_buf None 0
               else mk_buf (Some w) (Z.of_nat (length w)))).
Proof.
  intros Hn. unfold utl_push_trim. prog_simpl. cbn [pushed data pos len buf].
  destruct (Z.eqb_spec n (Z.of_nat (length w))) as [->|Hne].
  - unfold pushed. rewrite Z.sub_diag, app_nil_r. by destruct w.
  - rewrite (proj2 (Z.ltb_lt 0 n)) by lia. cbn [andb].
    destruct w as [|c w]; [done|]. cbn [length].
    rewrite (proj2 (Z.eqb_neq _ _)) by lia. rewrite realloc_eq.
    rewrite !bool_decide_eq_false_2 by done. cbn [data pushed default buf].
    unfold pushed, set_data. cbn [default id pos].
    do 3 f_equal. unfold junk at 2.
    rewrite length_app, length_junk. rewrite take_app_length' by (cbn [length]; lia).
    replace (Z.to_nat _) with 0%nat by (cbn [length]; lia).
    by rewrite app_nil_r.
Qed.

Lemma push_trim_full w n :
  Z.of_nat (length w) = n → 0 < n →
  run utl_push_trim (pushed w n) = Ret true (mk_push n (mk_buf (Some w) n)).
Proof.
  intros <- Hn. rewrite push_trim_spec by lia. destruct w; [done|].
  by rewrite (bool_decide_eq_false_2 (_ = [])), andb_false_r by done.
Qed.
End total.

(** ** Script numbers *)

Lemma push_value_bytes L v :
  (λ lp, u8 (Z.shiftr v (8 * Z.of_nat lp))) <$> seq 0 L = le_bytes L v.
Proof.
  revert v. induction L as [|L IH]; intros v; [done|].
  cbn [seq fmap list_fmap le_bytes]. f_equal.
  rewrite <- IH, <- fmap_S_seq, <- list_fmap_compose.
  apply list_fmap_ext. intros i x _. unfold compose. f_equal.
  rewrite Z.shiftr_shiftr by lia. f_equal. lia.
Qed.

(** What a script interpreter that insists on minimal pushes reads back:
    [OP_0], [OP_1]..[OP_16], or a length and a little-endian magnitude whose
    top bit (the sign) is clear and whose top byte is needed. *)
Definition script_num_read (l : bytes) : option Z :=
  match l with
  | [] => None
  | [b] => if b =? 0 then Some 0
           else if (0x51 <=? b) && (b <=? 0x60) then Some (b - 0x50) else None
  | n :: payload =>
      let v := le_val payload in
      let k := Z.of_nat (length payload) in
      if (n =? k) && (v <? 0x80 * 256 ^ (k - 1)) && (0x80 * 256 ^ (k - 2) <=? v)
         && (16 <? v)
      then Some v else None
  end.

(** The bytes [utl_push_value] appends for [v]. *)
Definition value_cells (v : Z) : list cell :=
  if v =? 0 then [Some 0x00]
  else if v <=? 16 then [Some (u8 (0x50 + v))] else push_value_loop 6 1 v.

Definition value_bytes_ok (v : Z) (d : bytes) : Prop :=
  value_cells v = init_cells d ∧ script_num_read d = Some v ∧ (length d ≤ 6)%nat.

Lemma script_num_read_payload L v :
  (0 < L < 6)%nat → 16 < v → v < 0x80 * 256 ^ (Z.of_nat L - 1) →
  0x80 * 256 ^ (Z.of_nat L - 2) ≤ v →
  script_num_read (u8 (Z.of_nat L) :: le_bytes L v) = Some v.
Proof.
  intros HL Hv Hhi Hlo. destruct L as [|L]; [lia|].
  assert (le_val (le_bytes (S L) v) = v) as E.
  { rewrite le_val_le_bytes. apply wrap_small. unfold in_range. split; [lia|].
    rewrite <- pow_256 by lia.
    assert (256 ^ Z.of_nat (S L) = 256 * 256 ^ (Z.of_nat (S L) - 1)) as ->
      by (rewrite <- Z.pow_succ_r by lia; f_equal; lia). lia. }
  assert (length (le_bytes (S L) v) = S L) as EL by apply length_le_bytes.
  unfold script_num_read. destruct (le_bytes (S L) v) as [|b t] eqn:Eb; [done|].
  rewrite E, EL. rewrite (wrap_small 8) by (unfold in_range; lia).
  rewrite Z.eqb_refl. cbn [andb].
  rewrite (proj2 (Z.ltb_lt v _)), (proj2 (Z.leb_le _ v)), (proj2 (Z.ltb_lt 16 v)) by lia.
  done.
Qed.

Lemma push_value_loop_at f L v :
  0 < L < 8 → v < 0x80 * 256 ^ (L - 1) →
  push_value_loop (S f) L v = init_cells (u8 L :: le_bytes (Z.to_nat L) v).
Proof.
  intros HL Hv. cbn [push_value_loop].
  rewrite (proj2 (Z.ltb_lt _ _)); [by rewrite push_value_bytes|].
  rewrite Z.shiftl_mul_pow2, <- pow_256 by lia. rewrite wrap_small; [done|].
  unfold in_range. split; [lia|].
  assert (256 ^ (L - 1) ≤ 256 ^ 6) by (apply Z.pow_le_mono_r; lia). lia.
Qed.

Lemma push_value_loop_next f L v :
  0 < L < 8 → 0x80 * 256 ^ (L - 1) ≤ v →
  push_value_loop (S f) L v = push_value_loop f (L + 1) v.
Proof.
  intros HL Hv. cbn [push_value_loop].
  rewrite (proj2 (Z.ltb_ge _ _)); [done|].
  rewrite Z.shiftl_mul_pow2, <- pow_256 by lia. rewrite wrap_small; [done|].
  unfold in_range. split; [lia|].
  assert (256 ^ (L - 1) ≤ 256 ^ 6) by (apply Z.pow_le_mono_r; lia). lia.
Qed.

Lemma value_cells_ok v : 0 ≤ v ≤ 0x7fffffffff → ∃ d, value_bytes_ok v d.
Proof.
  intros Hv. unfold value_bytes_ok, value_cells.
  destruct (Z.eqb_spec v 0) as [->|H0]; [exists [0]; repeat split; cbn; lia|].
  destruct (Z.leb_spec v 16).
  { exists [0x50 + v]. rewrite (wrap_small 8) by (unfold in_range; lia).
    split; [done|]. split; [|cbn; lia]. unfold script_num_read.
    rewrite (proj2 (Z.eqb_neq _ _)), !(proj2 (Z.leb_le _ _)) by lia. cbn [andb]. f_equal. lia. }
  assert (∃ L : nat, (0 < L < 6)%nat ∧ v < 0x80 * 256 ^ (Z.of_nat L - 1) ∧
            0x80 * 256 ^ (Z.of_nat L - 2) ≤ v ∧
            push_value_loop 6 1 v = init_cells (u8 (Z.of_nat L) :: le_bytes L v))
    as (L & HL & Hhi & Hlo & E).
  { destruct (Z.lt_ge_cases v 0x80); [exists 1%nat|].
    { repeat split; try lia. apply push_value_loop_at; lia. }
    rewrite push_value_loop_next by lia.
    destruct (Z.lt_ge_cases v 0x8000); [exists 2%nat|].
    { repeat split; try lia. apply push_value_loop_at; lia. }
    rewrite push_value_loop_next by lia.
    destruct (Z.lt_ge_cases v 0x800000); [exists 3%nat|].
    { repeat split; try lia. apply push_value_loop_at; lia. }
    rewrite push_value_loop_next by lia.
    destruct (Z.lt_ge_cases v 0x80000000); [exists 4%nat|].
    { repeat split; try lia. apply push_value_loop_at; lia. }
    rewrite push_value_loop_next by lia. exists 5%nat.
    repeat split; try lia. apply push_value_loop_at; lia. }
  rewrite E. eexists. split; [done|]. split; [by apply script_num_read_payload; lia|].
  cbn [length]. rewrite length_le_bytes. lia.
Qed.

Section value.
Context {A : Alloc} {T : AllocTotal A}.

Lemma push_value_cells w n v d :
  Z.of_nat (length w) ≤ n → n < 2 ^ 30 → Z.of_nat (length w) + Z.of_nat (length d) < 2 ^ 31 →
  0 ≤ v ≤ 0x7fffffffff → value_cells v = init_cells d →
  run (utl_push_value v) (pushed w n) =
  Ret true (pushed (w ++ init_cells d) (Z.max n (Z.of_nat (length w) + Z.of_nat (length d)))).
Proof.
  intros Hw Hn Hl Hv E. unfold value_cells in E.
  assert (∀ c k, c = init_cells d → k = Z.of_nat (length c) →
    run (call (utl_push_data c k)) (pushed w n) =
    Ret true (pushed (w ++ init_cells d)
                (Z.max n (Z.of_nat (length w) + Z.of_nat (length d))))) as Hpush.
  { intros c k -> ->. unfold call. unfold run at 1.
    rewrite push_data_spec by (rewrite ?length_init_cells; lia).
    by rewrite length_init_cells. }
  unfold utl_push_value. destruct (v =? 0); [by apply Hpush|].
  destruct (v <=? 16); [by apply Hpush|].
  rewrite (proj2 (Z.leb_le _ _)) by lia. by apply Hpush.
Qed.

(** Every number up to 39 bits is appended as its minimal script push, and
    a reader of the script gets the number back. *)
Theorem push_value_roundtrip w n v :
  Z.of_nat (length w) ≤ n → n < 2 ^ 30 → 0 ≤ v ≤ 0x7fffffffff →
  ∃ d, run (utl_push_value v) (pushed w n) =
         Ret true (pushed (w ++ init_cells d)
                     (Z.max n (Z.of_nat (length w) + Z.of_nat (length d)))) ∧
       script_num_read d = Some v ∧ (length d ≤ 6)%nat.
Proof.
  intros Hw Hn Hv. destruct (value_cells_ok v Hv) as (d & E & Hr & Hl).
  exists d. split; [|done]. apply push_value_cells; try done. lia.
Qed.
End value.

(** Larger values are refused and the buffer is left alone. *)
Lemma push_value_too_large {A : Alloc} v st :
  0x7fffffffff < v → run (utl_push_value v) st = Ret false st.
Proof.
  intros Hv. unfold utl_push_value.
  rewrite (proj2 (Z.eqb_neq _ _)), !(proj2 (Z.leb_gt _ _)) by lia. done.
Qed.

End UtlPush.
