(* ===== verification/LnDerkey.v ===== *)
(** Key derivation and the per-commitment secrets: [ln/ln_derkey.c], and the
    script keys of both peers ([ln_misc_update_scriptkeys] of [ln/ln_misc.c]).

    SHA-256 and the secp256k1 group (mbedtls) are arguments: [Module Derkey]
    works over a [Curve] of group operations and codecs, [Module ShaChain] over
    any hash of 32 bytes to 32 bytes. *)
From stdpp Require Import base list numbers tactics.
From Stdlib Require Import ZArith Lia.
From S2P Require Import Prelude CProg.
Open Scope Z_scope.

(** ** The efficient storage of per-commitment secrets *)

Module ShaChain.

(** [ln_derkey_storage_t]: 49 buckets of a secret and its index. *)
Record bucket := mk_bucket { secret : bytes; index : Z }.

Abbreviation ln_derkey_storage_t := (list bucket).

Section sha.
Context (sha256 : bytes → bytes).

(** [Index & ((uint64_t)1 << lp)] *)
Definition bit_set (Index : Z) (lp : nat) : bool :=
  negb (Z.land Index (Z.shiftl 1 (Z.of_nat lp)) =? 0).

(** [output[lp / 8] ^= (1 << (lp % 8))] *)
Definition flip (lp : nat) (output : bytes) : bytes :=
  alter (λ b, u8 (Z.lxor b (Z.shiftl 1 (Z.of_nat (lp mod 8))))) (lp / 8)%nat output.

(** The loop of [derive_secret], for [lp] from [n - 1] down to 0. *)
Fixpoint derive_loop (n : nat) (output : bytes) (Index : Z) : bytes :=
  match n with
  | O => output
  | S lp => derive_loop lp
              (if bit_set Index lp then sha256 (flip lp output) else output) Index
  end.

Definition derive_secret (pBase : bytes) (bit : Z) (Index : Z) : bytes :=
  derive_loop (Z.to_nat (bit + 1)) pBase Index.

(** The loop of [where_to_put_secret]: [lp] when [48 - lp = n] bits are left. *)
Fixpoint put_loop (n : nat) (lp : nat) (Index : Z) : nat :=
  match n with
  | O => lp
  | S n => if bit_set Index lp then lp else put_loop n (S lp) Index
  end.

Definition where_to_put_secret (Index : Z) : nat :=
  if Z.land Index 0xffffffffffff =? 0 then 48%nat else put_loop 48 0 Index.

Definition ln_derkey_create_secret (pSeed : bytes) (Index : Z) : bytes :=
  derive_secret pSeed 47 Index.

Definition init_bucket : bucket := mk_bucket (replicate 32 0xcc) 0x123456789abc.

Definition ln_derkey_storage_init : ln_derkey_storage_t := replicate 49 init_bucket.

(** The checks of [ln_derkey_storage_insert_secret], for [lp] up to [bit]. *)
Fixpoint check_loop (n lp : nat) (pSecret : bytes) (bit : nat) : prog ln_derkey_storage_t unit :=
  match n with
  | O => mret tt
  | S n =>
      st ← get_st;
      b ← of_option (st !! lp);
      (if bool_decide (derive_secret pSecret (Z.of_nat bit - 1) (index b) = secret b)
       then mret tt
       else c_assert false;; exit_with false);;
      check_loop n (S lp) pSecret bit
  end.

Definition ln_derkey_storage_insert_secret (pSecret : bytes) (Index : Z)
    : prog ln_derkey_storage_t bool :=
  let bit := where_to_put_secret Index in
  check_loop bit 0 pSecret bit;;
  modify (λ st, <[bit := mk_bucket pSecret Index]> st);;
  mret true.

(** The search of [ln_derkey_storage_get_secret], for [lp] from [n - 1] down;
    the result and what [pSecret] then holds. *)
Fixpoint get_loop (n : nat) (pSecret : bytes) (st : ln_derkey_storage_t) (Index : Z)
    : option (bool * bytes) :=
  match n with
  | O => Some (false, pSecret)
  | S lp =>
      b ← st !! lp;
      let MASK := u64 (Z.lnot (Z.shiftl 1 (Z.of_nat lp) - 1)) in
      if Z.land Index MASK =? index b
      then if Index =? index b then Some (true, secret b)
           else let diff := u64 (Index - index b) in
                Some (true, derive_secret (secret b) (Z.of_nat lp) diff)
      else get_loop lp pSecret st Index
  end.

Definition ln_derkey_storage_get_secret (pSecret : bytes) (st : ln_derkey_storage_t)
    (Index : Z) : option (bool * bytes) := get_loop 49 pSecret st Index.

(** ** The derivation *)

Lemma bit_set_testbit I lp : bit_set I lp = Z.testbit I (Z.of_nat lp).
Proof.
  unfold bit_set. rewrite Z.shiftl_1_l. destruct (Z.testbit I (Z.of_nat lp)) eqn:E.
  - apply negb_true_iff, Z.eqb_neq. intros H.
    assert (Z.testbit (Z.land I (2 ^ Z.of_nat lp)) (Z.of_nat lp) = true) as Ht
      by (rewrite Z.land_spec, E, Z.pow2_bits_true by lia; done).
    rewrite H, Z.bits_0 in Ht. done.
  - apply negb_false_iff, Z.eqb_eq. apply Z.bits_inj'. intros k Hk.
    rewrite Z.land_spec, Z.bits_0.
    destruct (Z.eq_dec k (Z.of_nat lp)) as [->|Hne]; [by rewrite E|].
    rewrite Z.pow2_bits_false by lia. apply andb_false_r.
Qed.

(** Only the bits below [n] matter. *)
Lemma derive_loop_ext n P I J :
  (∀ k, (k < n)%nat → Z.testbit I (Z.of_nat k) = Z.testbit J (Z.of_nat k)) →
  derive_loop n P I = derive_loop n P J.
Proof.
  revert P. induction n as [|n IH]; intros P H; [done|]. cbn [derive_loop].
  rewrite !bit_set_testbit, (H n) by lia. apply IH. intros k Hk. apply H. lia.
Qed.

(** Bits that are clear derive nothing. *)
Lemma derive_loop_clear n P I :
  (∀ k, (k < n)%nat → Z.testbit I (Z.of_nat k) = false) → derive_loop n P I = P.
Proof.
  revert P. induction n as [|n IH]; intros P H; [done|]. cbn [derive_loop].
  rewrite bit_set_testbit, (H n) by lia. apply IH. intros k Hk. apply H. lia.
Qed.

(** A derivation stops at an index whose low bits are clear and goes on there. *)
Lemma derive_loop_split b n P I K :
  (b ≤ n)%nat →
  (∀ k, (k < b)%nat → Z.testbit K (Z.of_nat k) = false) →
  (∀ k, (b ≤ k < n)%nat → Z.testbit K (Z.of_nat k) = Z.testbit I (Z.of_nat k)) →
  derive_loop n P I = derive_loop b (derive_loop n P K) I.
Proof.
  intros Hb Hlo. revert P. induction n as [|n IH]; intros P Hhi.
  - assert (b = 0)%nat as -> by lia. done.
  - destruct (decide (b = S n)) as [->|Hne]; [by rewrite (derive_loop_clear (S n) P K)|].
    cbn [derive_loop]. rewrite !bit_set_testbit, (Hhi n) by lia.
    apply IH; [lia|]. intros k Hk. apply Hhi. lia.
Qed.

(** ** Trailing zeros *)

(** [tz I b]: the bucket of a 48-bit index is the number of its low clear bits. *)
Definition tz (I : Z) (b : nat) : Prop :=
  I mod 2 ^ Z.of_nat b = 0 ∧
  ((b < 48)%nat ∧ I mod 2 ^ Z.of_nat (S b) = 2 ^ Z.of_nat b ∨ b = 48%nat ∧ I = 0).

Lemma mod_S I b :
  I mod 2 ^ Z.of_nat (S b) =
  I mod 2 ^ Z.of_nat b + 2 ^ Z.of_nat b * Z.b2z (Z.testbit I (Z.of_nat b)).
Proof.
  rewrite Nat2Z.inj_succ, Z.pow_succ_r, (Z.mul_comm 2), Z.rem_mul_r by lia.
  by rewrite Z.testbit_spec' by lia.
Qed.

Lemma low_clear_mod I b :
  I mod 2 ^ Z.of_nat b = 0 ↔ ∀ k, (k < b)%nat → Z.testbit I (Z.of_nat k) = false.
Proof.
  split.
  - intros H k Hk. rewrite <- (Z.mod_pow2_bits_low I (Z.of_nat b)) by lia.
    by rewrite H, Z.bits_0.
  - intros H. apply Z.bits_inj'. intros k Hk. rewrite Z.bits_0.
    destruct (Z.lt_ge_cases k (Z.of_nat b)).
    + rewrite Z.mod_pow2_bits_low by lia. rewrite <- (Z2Nat.id k) by lia. apply H. lia.
    + by rewrite Z.mod_pow2_bits_high by lia.
Qed.

Lemma put_loop_spec n lp I :
  (n + lp = 48)%nat → (∀ k, (k < lp)%nat → Z.testbit I (Z.of_nat k) = false) →
  (∃ k, (lp ≤ k < 48)%nat ∧ Z.testbit I (Z.of_nat k) = true) →
  tz I (put_loop n lp I) ∧ (put_loop n lp I < 48)%nat.
Proof.
  revert lp. induction n as [|n IH]; intros lp Hn Hlo (k & Hk & Ht); [lia|].
  cbn [put_loop]. rewrite bit_set_testbit.
  destruct (Z.testbit I (Z.of_nat lp)) eqn:E.
  - split; [|lia]. apply low_clear_mod in Hlo. split; [done|]. left. split; [lia|].
    rewrite mod_S, Hlo, E. cbn [Z.b2z]. lia.
  - apply IH; [lia| |].
    + intros j Hj. destruct (decide (j = lp)) as [->|]; [done|]. apply Hlo. lia.
    + exists k. split; [|done]. destruct (decide (k = lp)); [congruence|lia].
Qed.

Lemma where_to_put_tz I :
  0 ≤ I < 2 ^ 48 → tz I (where_to_put_secret I) ∧ (where_to_put_secret I ≤ 48)%nat.
Proof.
  intros HI. unfold where_to_put_secret.
  change 0xffffffffffff with (Z.ones 48). rewrite Z.land_ones, Z.mod_small by lia.
  destruct (Z.eqb_spec I 0) as [->|Hne]; [by split; [split; [|right]|]|].
  edestruct (put_loop_spec 48 0 I) as [H1 H2]; [done|lia| |split; [done|lia]].
  destruct (decide (Forall (λ k, Z.testbit I (Z.of_nat k) = false) (seq 0 48))) as [Hf|Hf].
  - exfalso. apply Hne. rewrite <- (Z.mod_small I (2 ^ 48)) by lia.
    apply (low_clear_mod I 48). intros k Hk. rewrite Forall_forall in Hf. apply Hf.
    apply in_seq. lia.
  - apply not_Forall_Exists in Hf; [|apply _]. apply Exists_exists in Hf as (k & Hk & Ht).
    apply in_seq in Hk. exists k. split; [lia|]. by apply not_false_is_true.
Qed.

(** An index and its bucket as an odd multiple. *)
Lemma tz_odd I b : (b < 48)%nat → tz I b → ∃ q, I = (2 * q + 1) * 2 ^ Z.of_nat b.
Proof.
  intros Hb [_ [[_ H]|[? _]]]; [|lia]. exists (I / 2 ^ Z.of_nat (S b)).
  pose proof (Z.div_mod I (2 ^ Z.of_nat (S b))) as E.
  rewrite H, Nat2Z.inj_succ, Z.pow_succ_r in * by lia. lia.
Qed.

Lemma odd_tz q b : (b < 48)%nat → tz ((2 * q + 1) * 2 ^ Z.of_nat b) b.
Proof.
  intros Hb. assert (0 < 2 ^ Z.of_nat b) by lia. split; [by apply Z.mod_mul; lia|]. left.
  split; [done|]. rewrite Nat2Z.inj_succ, Z.pow_succ_r by lia.
  replace ((2 * q + 1) * 2 ^ Z.of_nat b) with (2 ^ Z.of_nat b + q * (2 * 2 ^ Z.of_nat b)) by lia.
  rewrite Z.mod_add, Z.mod_small by lia. done.
Qed.

Lemma tz_unique I b c : tz I b → tz I c → b = c.
Proof.
  assert (∀ b c, tz I b → tz I c → (b < c)%nat → False) as H.
  { intros b' c' [_ Hb] [Hc Hc'] Hlt. apply low_clear_mod with (k := b') in Hc; [|done].
    destruct Hb as [[Hb Hm]|[-> ->]].
    - pose proof (mod_S I b') as Hs. rewrite Hc, Hm in Hs. cbn [Z.b2z] in Hs.
      pose proof (Z.mod_pos_bound I (2 ^ Z.of_nat b')). lia.
    - lia. }
  intros Hb Hc. destruct (Nat.lt_trichotomy b c) as [|[|]]; [exfalso; eauto|done|exfalso; eauto].
Qed.

(** ** What the buckets hold *)

(** All secrets down to index [I] have been inserted: bucket [lp] holds the last
    one whose index has [lp] low clear bits, or is as it was initialised. *)
Definition first_tz (I K : Z) (lp : nat) : Prop :=
  I ≤ K < 2 ^ 48 ∧ tz K lp ∧ ∀ K', I ≤ K' < 2 ^ 48 → tz K' lp → K ≤ K'.

Definition holds (pSeed : bytes) (I : Z) (st : ln_derkey_storage_t) : Prop :=
  length st = 49%nat ∧
  ∀ lp, (lp < 49)%nat →
    (∃ K, first_tz I K lp ∧ st !! lp = Some (mk_bucket (ln_derkey_create_secret pSeed K) K)) ∨
    ((∀ K', I ≤ K' < 2 ^ 48 → ¬ tz K' lp) ∧ st !! lp = Some init_bucket).

Lemma holds_init pSeed : holds pSeed (2 ^ 48) ln_derkey_storage_init.
Proof.
  split; [done|]. intros lp Hlp. right. split; [lia|].
  unfold ln_derkey_storage_init. by apply lookup_replicate_2.
Qed.

(** The next index with [lp] low clear bits above one with more of them. *)
Lemma first_tz_next I b lp :
  0 ≤ I < 2 ^ 48 → tz I b → (lp < b)%nat → (b ≤ 48)%nat →
  first_tz (I + 1) (I + 2 ^ Z.of_nat lp) lp.
Proof.
  intros HI Hb Hlp Hle.
  assert (∃ m, I = m * (2 * 2 ^ Z.of_nat lp)) as [m Hm].
  { destruct Hb as [H0 _]. exists (I / (2 * 2 ^ Z.of_nat lp)).
    assert (I mod 2 ^ Z.of_nat (S lp) = 0) as H.
    { apply low_clear_mod. intros k Hk. eapply low_clear_mod in H0; [exact H0|lia]. }
    rewrite Nat2Z.inj_succ, Z.pow_succ_r in H by lia.
    rewrite (Z.div_mod I (2 * 2 ^ Z.of_nat lp)) at 1 by lia. lia. }
  assert (0 < 2 ^ Z.of_nat lp) as Hp by lia.
  assert (2 * 2 ^ Z.of_nat lp * 2 ^ (47 - Z.of_nat lp) = 2 ^ 48) as Hpow.
  { rewrite <- Z.pow_succ_r, <- Z.pow_add_r by lia. f_equal. lia. }
  assert (0 < 2 ^ (47 - Z.of_nat lp)) as Hp' by (apply Z.pow_pos_nonneg; lia).
  split; [split; [lia|]|split].
  - assert (m < 2 ^ (47 - Z.of_nat lp)) by nia. nia.
  - subst I. replace (m * (2 * 2 ^ Z.of_nat lp) + 2 ^ Z.of_nat lp)
      with ((2 * m + 1) * 2 ^ Z.of_nat lp) by lia. apply odd_tz. lia.
  - intros K' HK Ht. destruct (tz_odd K' lp) as [q ->]; [lia|done|]. subst I.
    assert (m ≤ q); [|nia]. destruct (Z.le_gt_cases m q) as [|Hlt]; [done|].
    assert (2 * q + 1 < 2 * m) by lia. nia.
Qed.

(** ** Inserting the next secret *)

Lemma check_loop_ok n lp s bit st :
  (lp + n ≤ length st)%nat →
  (∀ k b, (lp ≤ k < lp + n)%nat → st !! k = Some b →
     derive_secret s (Z.of_nat bit - 1) (index b) = secret b) →
  check_loop n lp s bit st = Ret tt st.
Proof.
  revert lp. induction n as [|n IH]; intros lp Hlen H; [done|]. cbn [check_loop].
  destruct (lookup_lt_is_Some_2 st lp) as [b Hb]; [lia|].
  prog_simpl. rewrite Hb. rewrite bool_decide_eq_true_2 by (apply (H lp); [lia|done]).
  apply IH; [lia|]. intros k c Hk. apply H. lia.
Qed.

Lemma check_loop_bad n lp s bit st :
  (lp + n ≤ length st)%nat →
  (∃ k b, (lp ≤ k < lp + n)%nat ∧ st !! k = Some b ∧
     derive_secret s (Z.of_nat bit - 1) (index b) ≠ secret b) →
  check_loop n lp s bit st = AbortOut.
Proof.
  revert lp. induction n as [|n IH]; intros lp Hlen (k & c & Hk & Hc & Hne); [lia|].
  cbn [check_loop].
  destruct (lookup_lt_is_Some_2 st lp) as [b Hb]; [lia|].
  prog_simpl. rewrite Hb. case_bool_decide as Hd; [|done].
  apply IH; [lia|]. exists k, c. split; [|done].
  destruct (decide (k = lp)) as [->|]; [congruence|lia].
Qed.

(** The derivation of one inserted secret from a later one. *)
Lemma derive_prefix pSeed b K I :
  (b ≤ 48)%nat → K mod 2 ^ Z.of_nat b = 0 → I / 2 ^ Z.of_nat b = K / 2 ^ Z.of_nat b →
  derive_loop b (ln_derkey_create_secret pSeed K) I = ln_derkey_create_secret pSeed I.
Proof.
  intros Hb H0 Hd. unfold ln_derkey_create_secret, derive_secret.
  change (Z.to_nat (47 + 1)) with 48%nat. symmetry. apply derive_loop_split; [done| |].
  - by apply low_clear_mod.
  - intros k Hk. replace (Z.of_nat k) with ((Z.of_nat k - Z.of_nat b) + Z.of_nat b) by lia.
    rewrite <- !Z.div_pow2_bits by lia. by rewrite Hd.
Qed.

Lemma insert_next pSeed I st :
  0 ≤ I < 2 ^ 48 → holds pSeed (I + 1) st →
  ∃ st', run (ln_derkey_storage_insert_secret (ln_derkey_create_secret pSeed I) I) st =
           Ret true st' ∧ holds pSeed I st'.
Proof.
  intros HI [Hlen Hh]. destruct (where_to_put_tz I HI) as [Hb Hle].
  set (b := where_to_put_secret I) in *. eexists. split.
  - unfold ln_derkey_storage_insert_secret. fold b.
    assert (check_loop b 0 (ln_derkey_create_secret pSeed I) b st = Ret tt st) as E.
    { apply check_loop_ok; [lia|]. intros lp c Hlp Hc.
      pose proof (first_tz_next I b lp HI Hb ltac:(lia) Hle) as (Hr & Ht & Hmin).
      destruct (Hh lp ltac:(lia)) as [(K & (HKr & HKt & HKmin) & HK)|[Hno _]];
        [|by destruct (Hno (I + 2 ^ Z.of_nat lp) Hr Ht)].
      assert (K = I + 2 ^ Z.of_nat lp) as -> by
        (apply Z.le_antisymm; [by apply HKmin|by apply Hmin]).
      rewrite HK in Hc. injection Hc as <-. cbn [index secret]. unfold derive_secret at 1.
      replace (Z.to_nat (Z.of_nat b - 1 + 1)) with b by lia.
      apply derive_prefix; [done|apply Hb|].
      destruct Hb as [H0 _]. pose proof (Z.div_mod I (2 ^ Z.of_nat b)) as Hdm.
      assert (2 ^ Z.of_nat lp < 2 ^ Z.of_nat b) by (apply Z.pow_lt_mono_r; lia).
      assert (0 < 2 ^ Z.of_nat lp) by lia.
      symmetry. apply (Z.div_unique _ _ _ (2 ^ Z.of_nat lp)); lia. }
    rewrite (run_bind_ret _ _ _ _ _ E). done.
  - split; [by rewrite length_insert|]. intros lp Hlp.
    destruct (decide (lp = b)) as [->|Hne].
    + left. exists I. split; [split; [lia|split; [done|lia]]|].
      apply list_lookup_insert_eq. lia.
    + rewrite list_lookup_insert_ne by done.
      destruct (Hh lp Hlp) as [(K & (HKr & HKt & HKmin) & HK)|[Hno Hini]].
      * left. exists K. split; [|done]. split; [lia|split; [done|]]. intros K' HK' Ht.
        destruct (decide (K' = I)) as [->|]; [by destruct Hne; eapply tz_unique|].
        apply HKmin; [lia|done].
      * right. split; [|done]. intros K' HK' Ht.
        destruct (decide (K' = I)) as [->|]; [by destruct Hne; eapply tz_unique|].
        apply (Hno K'); [lia|done].
Qed.

(** ** Looking a secret up *)

(** [Index & MASK] clears the low bits. *)
Lemma mask_top J lp :
  0 ≤ J < 2 ^ 64 →
  Z.land J (u64 (Z.lnot (Z.shiftl 1 (Z.of_nat lp) - 1))) =
  J / 2 ^ Z.of_nat lp * 2 ^ Z.of_nat lp.
Proof.
  intros HJ. rewrite Z.shiftl_1_l, Z.sub_1_r, <- Z.ones_equiv. unfold wrap.
  rewrite <- Z.land_ones, (Z.land_comm (Z.lnot _)), Z.land_assoc, Z.land_ones by lia.
  rewrite Z.mod_small, <- Z.ldiff_land, Z.ldiff_ones_r by lia.
  rewrite Z.shiftl_mul_pow2, Z.shiftr_div_pow2 by lia. done.
Qed.

(** What bucket [lp] answers for [J]. *)
Definition bucket_hit (st : ln_derkey_storage_t) (J : Z) (lp : nat) : Prop :=
  ∃ b, st !! lp = Some b ∧ J / 2 ^ Z.of_nat lp * 2 ^ Z.of_nat lp = index b.

(** The difference to a bucket's index has the low bits of the index asked for. *)
Lemma derive_offset P J K lp :
  (lp < 49)%nat → 0 ≤ J → K = J / 2 ^ Z.of_nat lp * 2 ^ Z.of_nat lp →
  derive_secret P (Z.of_nat lp) (u64 (J - K)) = derive_loop lp P J.
Proof.
  intros Hlp HJ ->. pose proof (Z.div_mod J (2 ^ Z.of_nat lp)) as Hdm.
  pose proof (Z.mod_pos_bound J (2 ^ Z.of_nat lp)) as Hmb.
  replace (J - _) with (J mod 2 ^ Z.of_nat lp) by lia.
  rewrite wrap_small by (unfold in_range; pose proof (Z.pow_le_mono_r 2 (Z.of_nat lp) 48); lia).
  unfold derive_secret. replace (Z.to_nat (Z.of_nat lp + 1)) with (S lp) by lia.
  cbn [derive_loop]. rewrite bit_set_testbit, Z.mod_pow2_bits_high by lia.
  apply derive_loop_ext. intros k Hk. by rewrite Z.mod_pow2_bits_low by lia.
Qed.

Lemma get_hit pSeed I J K lp pS st :
  0 ≤ I → (lp < 49)%nat → 0 ≤ J < 2 ^ 48 → first_tz I K lp →
  st !! lp = Some (mk_bucket (ln_derkey_create_secret pSeed K) K) →
  J / 2 ^ Z.of_nat lp * 2 ^ Z.of_nat lp = K →
  get_loop (S lp) pS st J = Some (true, ln_derkey_create_secret pSeed J).
Proof.
  intros HI Hlp HJ (HKr & HKt & _) Hst HK. cbn [get_loop]. rewrite Hst. cbn [mbind option_bind].
  rewrite mask_top, HK by lia. cbn [index secret]. rewrite Z.eqb_refl.
  destruct (Z.eqb_spec J K) as [->|Hne]; [reflexivity|].
  rewrite derive_offset by (try lia; subst K; lia).
  rewrite derive_prefix; [reflexivity|lia|apply HKt|]. rewrite <- HK.
  by rewrite Z.div_mul by lia.
Qed.

Lemma get_miss lp pS st J :
  0 ≤ J < 2 ^ 64 → (lp < length st)%nat → ¬ bucket_hit st J lp →
  get_loop (S lp) pS st J = get_loop lp pS st J.
Proof.
  intros HJ Hlen Hno. cbn [get_loop].
  destruct (lookup_lt_is_Some_2 st lp Hlen) as [b Hb]. rewrite Hb. cbn [mbind option_bind].
  rewrite mask_top by lia. case_match eqn:E; [|done]. apply Z.eqb_eq in E.
  destruct Hno. by exists b.
Qed.

(** An index among any [2^(lp+1)] successive ones belongs to bucket [lp]. *)
Lemma tz_exists I lp :
  (lp < 48)%nat → ∃ K, I ≤ K < I + 2 * 2 ^ Z.of_nat lp ∧ tz K lp.
Proof.
  intros Hlp. assert (0 < 2 ^ Z.of_nat lp) as Hp by lia.
  set (P := 2 ^ Z.of_nat lp) in *.
  exists ((2 * ((I + P - 1) / (2 * P)) + 1) * P). split; [|by apply odd_tz].
  pose proof (Z.div_mod (I + P - 1) (2 * P)). pose proof (Z.mod_pos_bound (I + P - 1) (2 * P)).
  nia.
Qed.

Lemma init_hit_low J lp :
  J / 2 ^ Z.of_nat lp * 2 ^ Z.of_nat lp = 0x123456789abc → (lp < 3)%nat.
Proof.
  intros Hhit. destruct (decide (lp < 3)%nat); [done|]. exfalso.
  assert (0x123456789abc mod 2 ^ 3 = 0) as H; [|done].
  rewrite <- Hhit. replace (Z.of_nat lp) with (Z.of_nat lp - 3 + 3) at 2 by lia.
  rewrite Z.pow_add_r, Z.mul_assoc by lia. by apply Z.mod_mul.
Qed.

(** The index an unused bucket is initialised with is never hit when it could
    be confused with one that was inserted. *)
Lemma init_no_hit I J st lp :
  0 ≤ I ≤ J → J < 2 ^ 48 → (∀ K', I ≤ K' < 2 ^ 48 → ¬ tz K' lp) →
  st !! lp = Some init_bucket → ¬ bucket_hit st J lp.
Proof.
  intros HI HJ Hno Hst (b & Hb & Hhit). rewrite Hst in Hb. injection Hb as <-.
  cbn [index init_bucket] in Hhit.
  assert (lp < 3)%nat as Hlt by (by apply init_hit_low in Hhit).
  destruct (tz_exists I lp) as (K & HK & Ht); [lia|].
  apply (Hno K); [|done]. split; [lia|].
  assert (2 ^ Z.of_nat lp ≤ 4) by (change 4 with (2 ^ 2); apply Z.pow_le_mono_r; lia).
  pose proof (Z.div_mod J (2 ^ Z.of_nat lp)). pose proof (Z.mod_pos_bound J (2 ^ Z.of_nat lp)).
  lia.
Qed.

(** Some bucket is hit by every index that has been inserted. *)
Lemma hit_exists_below pSeed I J st n :
  0 ≤ I ≤ J → J < 2 ^ 48 → holds pSeed I st → (n ≤ 48)%nat →
  J / 2 ^ Z.of_nat n * 2 ^ Z.of_nat n < I →
  ∃ lp, (lp < n)%nat ∧ bucket_hit st J lp.
Proof.
  intros HI HJ [Hlen Hh]. induction n as [|n IH]; intros Hn Htop.
  { rewrite Z.div_1_r in Htop. lia. }
  assert (0 < 2 ^ Z.of_nat n) as Hp by lia.
  destruct (Z.lt_ge_cases (J / 2 ^ Z.of_nat n * 2 ^ Z.of_nat n) I) as [Hlt|Hge].
  { destruct IH as (lp & ? & ?); [lia|done|]. exists lp. split; [lia|done]. }
  exists n. split; [lia|].
  rewrite Nat2Z.inj_succ, Z.pow_succ_r in Htop by lia.
  set (P := 2 ^ Z.of_nat n) in *. set (q := J / (2 * P)) in *.
  assert (J / P = 2 * q + 1) as Hq.
  { pose proof (Z.div_mod J (2 * P)). pose proof (Z.mod_pos_bound J (2 * P)).
    pose proof (Z.div_mod J P). pose proof (Z.mod_pos_bound J P). fold q in H. nia. }
  pose proof (Z.div_mod J P). pose proof (Z.mod_pos_bound J P).
  assert (tz (J / P * P) n) as Ht by (rewrite Hq; apply odd_tz; lia).
  destruct (Hh n ltac:(lia)) as [(K & (HKr & HKt & HKmin) & HK)|[Hno _]];
    [|by destruct (Hno (J / P * P) ltac:(lia) Ht)].
  assert (K = J / P * P) as ->.
  { apply Z.le_antisymm; [apply HKmin; [lia|done]|].
    destruct (tz_odd K n) as [r Hr]; [lia|done|]. fold P in Hr. rewrite Hq, Hr in *.
    assert (q ≤ r); [|nia]. destruct (Z.le_gt_cases q r); [done|].
    assert (2 * r + 1 < 2 * q) by lia. nia. }
  by eexists.
Qed.

Lemma hit_exists pSeed I J st :
  0 ≤ I ≤ J → J < 2 ^ 48 → holds pSeed I st → ∃ lp, (lp < 49)%nat ∧ bucket_hit st J lp.
Proof.
  intros HI HJ Hh.
  assert (J / 2 ^ Z.of_nat 48 = 0) as H0 by (apply Z.div_small; lia).
  destruct (Z.eq_dec I 0) as [->|Hne].
  - exists 48%nat. split; [lia|]. destruct Hh as [Hlen Hh].
    destruct (Hh 48%nat ltac:(lia)) as [(K & (_ & HKt & _) & HK)|[Hno _]].
    + eexists. split; [done|]. cbn [index]. rewrite H0.
      destruct HKt as [_ [[? _]|[_ ->]]]; lia.
    + destruct (Hno 0); [lia|]. split; [done|]. by right.
  - destruct (hit_exists_below pSeed I J st 48) as (lp & Hlp & Hhit); try done.
    + rewrite H0. lia.
    + exists lp. split; [lia|done].
Qed.

(** Every secret that has been inserted is found again. *)
Lemma get_inserted pSeed I J pS st :
  0 ≤ I ≤ J → J < 2 ^ 48 → holds pSeed I st →
  ln_derkey_storage_get_secret pS st J = Some (true, ln_derkey_create_secret pSeed J).
Proof.
  intros HI HJ Hh. unfold ln_derkey_storage_get_secret.
  assert (∀ n, (n ≤ 49)%nat → (∃ lp, (lp < n)%nat ∧ bucket_hit st J lp) →
    get_loop n pS st J = Some (true, ln_derkey_create_secret pSeed J)) as H;
    [|apply H; [lia|by eapply hit_exists]].
  induction n as [|n IH]; intros Hn (lp & Hlp & Hhit); [lia|].
  assert (bucket_hit st J n ∨ ¬ bucket_hit st J n) as [Hn'|Hn'].
  { unfold bucket_hit. destruct (st !! n) as [b|]; [|right; by intros (? & ? & ?)].
    destruct (decide (J / 2 ^ Z.of_nat n * 2 ^ Z.of_nat n = index b));
      [left; eauto|right; intros (? & [= <-] & ?); done]. }
  - destruct Hh as [Hlen Hh].
    destruct (Hh n ltac:(lia)) as [(K & HK & Hst)|[Hno Hst]].
    + destruct Hn' as (b & Hb & Hi). rewrite Hst in Hb. injection Hb as <-.
      apply (get_hit pSeed I J K n); try lia; done.
    + by destruct (init_no_hit I J st n ltac:(lia) HJ Hno Hst).
  - rewrite get_miss by (first [lia | by destruct Hh; lia | done]).
    apply IH; [lia|]. exists lp. split; [|done].
    destruct (decide (lp = n)) as [->|]; [done|lia].
Qed.

(** No secret that has not been inserted is, once the first four have been. *)
Lemma get_not_inserted pSeed I J pS st :
  0 ≤ J < I → I ≤ 2 ^ 48 - 4 → holds pSeed I st →
  ln_derkey_storage_get_secret pS st J = Some (false, pS).
Proof.
  intros HJ HI [Hlen Hh]. unfold ln_derkey_storage_get_secret.
  assert (∀ n, (n ≤ 49)%nat → get_loop n pS st J = Some (false, pS)) as H; [|by apply H].
  induction n as [|n IH]; intros Hn; [done|].
  rewrite get_miss; [apply IH; lia|lia|lia|]. intros (b & Hb & Hhit).
  assert (0 < 2 ^ Z.of_nat n) as Hp by lia.
  pose proof (Z.div_mod J (2 ^ Z.of_nat n)). pose proof (Z.mod_pos_bound J (2 ^ Z.of_nat n)).
  destruct (Hh n ltac:(lia)) as [(K & (HKr & _ & _) & HK)|[Hno Hst]].
  - rewrite HK in Hb. injection Hb as <-. cbn [index] in Hhit. lia.
  - rewrite Hst in Hb. injection Hb as <-. apply init_hit_low in Hhit as Hn3.
    assert (∃ K, I ≤ K < 2 ^ 48 ∧ tz K n) as (K & HK & Ht).
    { assert (n = 0 ∨ n = 1 ∨ n = 2)%nat as [-> | [-> | ->]] by lia.
      - exists (2 ^ 48 - 1). split; [lia|]. apply (odd_tz (2 ^ 47 - 1) 0). lia.
      - exists (2 ^ 48 - 2). split; [lia|]. apply (odd_tz (2 ^ 46 - 1) 1). lia.
      - exists (2 ^ 48 - 4). split; [lia|]. apply (odd_tz (2 ^ 45 - 1) 2). lia. }
    by apply (Hno K).
Qed.

(** ** The storage over the life of a channel *)

(** The peer reveals the secrets of a seed from index [2^48 - 1] down; [n] of
    them have been inserted. *)
Fixpoint reveal (pSeed : bytes) (n : nat) : out ln_derkey_storage_t bool :=
  match n with
  | O => Ret true ln_derkey_storage_init
  | S n =>
      match reveal pSeed n with
      | Ret true st =>
          let I := 2 ^ 48 - 1 - Z.of_nat n in
          run (ln_derkey_storage_insert_secret (ln_derkey_create_secret pSeed I) I) st
      | r => r
      end
  end.

(** C35: inserting the secrets of a seed one after the other always succeeds (the
    consistency check never fires), every secret inserted so far can be looked
    up again from the 49 buckets, and, once four are in, no other can. *)
Theorem storage_correct pSeed n pS :
  Z.of_nat n ≤ 2 ^ 48 →
  ∃ st, reveal pSeed n = Ret true st ∧ length st = 49%nat ∧
    (∀ J, 2 ^ 48 - Z.of_nat n ≤ J < 2 ^ 48 →
       ln_derkey_storage_get_secret pS st J = Some (true, ln_derkey_create_secret pSeed J)) ∧
    ((4 ≤ n)%nat → ∀ J, 0 ≤ J < 2 ^ 48 - Z.of_nat n →
       ln_derkey_storage_get_secret pS st J = Some (false, pS)).
Proof.
  intros Hn.
  assert (∃ st, reveal pSeed n = Ret true st ∧ holds pSeed (2 ^ 48 - Z.of_nat n) st)
    as (st & Hr & Hh).
  { induction n as [|n IH]; [by eexists; split; [done|apply holds_init]|].
    destruct IH as (st & Hr & Hh); [lia|]. cbn [reveal]. rewrite Hr.
    replace (2 ^ 48 - Z.of_nat n) with (2 ^ 48 - 1 - Z.of_nat n + 1) in Hh by lia.
    apply insert_next in Hh as (st' & Hi & Hh'); [|lia].
    exists st'. split; [done|].
    by replace (2 ^ 48 - Z.of_nat (S n)) with (2 ^ 48 - 1 - Z.of_nat n) by lia. }
  exists st. split; [done|]. split; [apply Hh|]. split.
  - intros J HJ. apply (get_inserted pSeed (2 ^ 48 - Z.of_nat n)); [lia|lia|done].
  - intros H4 J HJ. apply (get_not_inserted pSeed (2 ^ 48 - Z.of_nat n)); [lia|lia|done].
Qed.

Lemma insert_outcome s I st :
  0 ≤ I < 2 ^ 48 → length st = 49%nat →
  run (ln_derkey_storage_insert_secret s I) st =
  let bit := where_to_put_secret I in
  if decide (Forall (λ b, derive_secret s (Z.of_nat bit - 1) (index b) = secret b) (take bit st))
  then Ret true (<[bit := mk_bucket s I]> st) else AbortOut.
Proof.
  intros HI Hlen. destruct (where_to_put_tz I HI) as [_ Hle].
  unfold ln_derkey_storage_insert_secret. set (bit := where_to_put_secret I) in *. cbv zeta.
  destruct (decide _) as [Hf|Hf].
  - erewrite run_bind_ret; [reflexivity|]. apply check_loop_ok; [lia|].
    intros k b Hk Hb. apply (Forall_lookup_1 _ _ k b Hf). by rewrite lookup_take_lt by lia.
  - apply not_Forall_Exists in Hf; [|intros b; apply _].
    apply Exists_exists in Hf as (b & Hb & Hne).
    assert (check_loop bit 0 s bit st = AbortOut) as E.
    { apply check_loop_bad; [lia|]. apply list_elem_of_In, list_elem_of_lookup in Hb as [k Hk].
      apply lookup_take_Some in Hk as [Hk Hlt]. exists k, b. split; [lia|]. by split. }
    unfold run, mbind, prog_bind. by rewrite E.
Qed.

(** a secret is stored exactly when every secret in a lower bucket derives
    from it; otherwise the [assert] fires and nothing is stored. *)
Theorem insert_checks s I st :
  0 ≤ I < 2 ^ 48 → length st = 49%nat →
  run (ln_derkey_storage_insert_secret s I) st =
  let bit := where_to_put_secret I in
  if decide (Forall (λ b, derive_secret s (Z.of_nat bit - 1) (index b) = secret b) (take bit st))
  then Ret true (<[bit := mk_bucket s I]> st) else AbortOut.
Proof. apply insert_outcome. Qed.

End sha.

(** The initial content of a bucket is taken for a secret: before anything has
    been revealed, index 0x123456789abc is answered with 32 bytes of 0xcc. *)
Theorem storage_sentinel_hit sha256 pS :
  ln_derkey_storage_get_secret sha256 pS ln_derkey_storage_init 0x123456789abc =
  Some (true, replicate 32 0xcc).
Proof. reflexivity. Qed.

(** A stand-in for SHA-256: the bytes rotated and incremented. *)
Definition toy_hash (d : bytes) : bytes :=
  (λ b, u8 (b * 5 + 1)) <$> (drop 1 d ++ take 1 d).

Lemma storage_correct_witness :
  Z.of_nat 40 ≤ 2 ^ 48 ∧
  ∃ st, reveal toy_hash (replicate 32 7) 40 = Ret true st ∧
    ln_derkey_storage_get_secret toy_hash [] st (2 ^ 48 - 17) =
    Some (true, ln_derkey_create_secret toy_hash (replicate 32 7) (2 ^ 48 - 17)).
Proof.
  assert (Z.of_nat 40 ≤ 2 ^ 48) as H by lia. split; [exact H|].
  destruct (storage_correct toy_hash (replicate 32 7) 40 [] H) as (st & Hr & _ & Hg & _).
  exists st. split; [exact Hr|]. apply Hg. lia.
Defined.

Lemma insert_checks_witness :
  run (ln_derkey_storage_insert_secret toy_hash (replicate 32 1) (2 ^ 48 - 2))
    ln_derkey_storage_init = AbortOut.
Proof.
  etrans; [apply insert_checks; [lia|reflexivity]|]. vm_compute. reflexivity.
Defined.

End ShaChain.

(** ** Public and private key derivation *)

(** What the code relies on of the secp256k1 group of mbedtls: a cyclic group of
    order [order], multiplication of a point by an integer, and the codec of
    compressed keys. [pt_read] is [btc_util_ecp_point_read_binary2] together with
    the check of the multiplication behind it that the point is on the curve,
    [pt_write] is [mbedtls_ecp_point_write_binary] with
    [MBEDTLS_ECP_PF_COMPRESSED]. *)
Class Curve := {
  pt : Type;
  pt_dec :: EqDecision pt;
  inf : pt;
  gen : pt;
  padd : pt → pt → pt;
  smul : Z → pt → pt;
  order : Z;
  pt_read : bytes → option pt;
  pt_write : pt → bytes;
}.

Class CurveLaws (C : Curve) : Prop := {
  order_pos : 0 < order < 2 ^ 256;
  padd_comm p q : padd p q = padd q p;
  smul_add a b p : smul (a + b) p = padd (smul a p) (smul b p);
  smul_mul a b p : smul (a * b) p = smul a (smul b p);
  smul_one p : smul 1 p = p;
  smul_order a : smul (a mod order) gen = smul a gen;
  read_write p : p ≠ inf → pt_read (pt_write p) = Some p;
}.

(** Besides, no point but the one at infinity has a small multiple there. *)
Class PrimeCurve (C : Curve) : Prop := {
  prime_laws :: CurveLaws C;
  smul_finite a p : 1 ≤ a < order → p ≠ inf → smul a p ≠ inf;
  gen_finite : gen ≠ inf;
  written_length p : p ≠ inf → length (pt_write p) = 33%nat;
  written_parity p : p ≠ inf → head (pt_write p) = Some 2 ∨ head (pt_write p) = Some 3;
}.

Module Derkey.

Section keys.
Context {C : Curve}.

(** [btc_keys_chkpriv]: the numbers from 1 to the order of the group. *)
Definition btc_keys_chkpriv (pPrivKey : bytes) : bool :=
  let priv := be_val pPrivKey in
  (0 <? priv) && (priv <? order).

(** [btc_keys_chkpub] asks [btc_util_ecp_point_read_binary2] only, which looks
    at the parity byte and computes a [Y] whatever the [X]. *)
Definition btc_keys_chkpub (pPubKey : bytes) : bool :=
  match pPubKey with
  | parity :: _ => (parity =? 2) || (parity =? 3)
  | [] => false
  end.
#[global] Arguments btc_keys_chkpub : simpl never.

(** mbedtls multiplies by these numbers only. *)
Definition btc_keys_priv2pub (pPrivKey : bytes) : option bytes :=
  let m := be_val pPrivKey in
  if (1 <=? m) && (m <? order) then Some (pt_write (smul m gen)) else None.

(** [None] leaves [pResult] as it was, or writes the one byte of the point at
    infinity into it. *)
Definition btc_util_mul_pubkey (pPubKey pMul : bytes) : option bytes :=
  Q ← pt_read pPubKey;
  let m := be_val pMul in
  if (1 <=? m) && (m <? order) then
    let pnt := smul m Q in
    if decide (pnt = inf) then None else Some (pt_write pnt)
  else None.
End keys.

(** [MSG_FUNDIDX_*] and [MSG_SCRIPTIDX_*]. *)
Abbreviation MSG_FUNDIDX_FUNDING := 0%nat.
Abbreviation MSG_FUNDIDX_REVOCATION := 1%nat.
Abbreviation MSG_FUNDIDX_PAYMENT := 2%nat.
Abbreviation MSG_FUNDIDX_DELAYED := 3%nat.
Abbreviation MSG_FUNDIDX_HTLC := 4%nat.
Abbreviation MSG_FUNDIDX_PER_COMMIT := 5%nat.
Abbreviation MSG_SCRIPTIDX_REMOTEKEY := 0%nat.
Abbreviation MSG_SCRIPTIDX_DELAYED := 1%nat.
Abbreviation MSG_SCRIPTIDX_REVOCATION := 2%nat.
Abbreviation MSG_SCRIPTIDX_LOCALHTLCKEY := 3%nat.
Abbreviation MSG_SCRIPTIDX_REMOTEHTLCKEY := 4%nat.

Section derkey.
Context {C : Curve} (sha256 : bytes → bytes).

(** [btc_util_ecp_muladd] of [btc/btc_util.c]: [A * G + P], unless it is the
    point at infinity. [None] is a failure: nothing is written. *)
Definition btc_util_ecp_muladd (pPubKeyIn : bytes) (A : Z) : option bytes :=
  P1 ← pt_read pPubKeyIn;
  let P2 := padd (smul A gen) (smul 1 P1) in
  if decide (P2 = inf) then None else Some (pt_write P2).

Definition ln_derkey_pubkey (pBasePoint pPerCommitPoint : bytes) : option bytes :=
  let base := sha256 (pPerCommitPoint ++ pBasePoint) in
  btc_util_ecp_muladd pBasePoint (be_val base).

Definition ln_derkey_privkey (pBasePoint pPerCommitPoint pBaseSecret : bytes) : bytes :=
  let pPrivKey := sha256 (pPerCommitPoint ++ pBasePoint) in
  let a := be_val pPrivKey in
  let b := be_val pBaseSecret in
  let a := a + b in
  let a := a mod order in
  be_bytes 32 a.

Definition ln_derkey_revocationkey (pBasePoint pPerCommitPoint : bytes) : option bytes :=
  let base1 := sha256 (pBasePoint ++ pPerCommitPoint) in
  let base2 := sha256 (pPerCommitPoint ++ pBasePoint) in
  let bp1 := be_val base1 in
  S1 ← pt_read pBasePoint;
  let bp2 := be_val base2 in
  S2 ← pt_read pPerCommitPoint;
  let S := padd (smul bp1 S1) (smul bp2 S2) in
  Some (pt_write S).

Definition ln_derkey_revocationprivkey
    (pBasePoint pPerCommitPoint pBaseSecret pPerCommitSecret : bytes) : bytes :=
  let pRevPrivKey := sha256 (pBasePoint ++ pPerCommitPoint) in
  let a := be_val pRevPrivKey in
  let b := be_val pBaseSecret in
  let a := a * b in
  let base2 := sha256 (pPerCommitPoint ++ pBasePoint) in
  let b := be_val base2 in
  let c := be_val pPerCommitSecret in
  let b := b * c in
  let a := a + b in
  let a := a mod order in
  be_bytes 32 a.

(** The public key of a private key. *)
Definition pub_of (pPrivKey : bytes) : bytes := pt_write (smul (be_val pPrivKey) gen).

(** The keys of one side of a channel that [ln_misc_update_scriptkeys] touches:
    [pubkeys[MSG_FUNDIDX_*]] and [scriptpubkeys[MSG_SCRIPTIDX_*]]. *)
Record funding_data := mk_funding { pubkeys : list bytes; scriptpubkeys : list bytes }.


Definition fund_key (x : funding_data) (i : nat) : bytes := default [] (pubkeys x !! i).

(** Store a derived key; a failed derivation leaves what was there. *)
Definition set_script (i : nat) (k : option bytes) (x : funding_data) : funding_data :=
  match k with
  | Some k => mk_funding (pubkeys x) (<[i := k]> (scriptpubkeys x))
  | None => x
  end.

Definition ln_misc_update_scriptkeys (pLocal pRemote : funding_data)
    : funding_data * funding_data :=
  let pLocal := set_script MSG_SCRIPTIDX_REMOTEKEY
    (ln_derkey_pubkey (fund_key pRemote MSG_FUNDIDX_PAYMENT)
       (fund_key pLocal MSG_FUNDIDX_PER_COMMIT)) pLocal in
  let pLocal := set_script MSG_SCRIPTIDX_DELAYED
    (ln_derkey_pubkey (fund_key pLocal MSG_FUNDIDX_DELAYED)
       (fund_key pLocal MSG_FUNDIDX_PER_COMMIT)) pLocal in
  let pLocal := set_script MSG_SCRIPTIDX_REVOCATION
    (ln_derkey_revocationkey (fund_key pRemote MSG_FUNDIDX_REVOCATION)
       (fund_key pLocal MSG_FUNDIDX_PER_COMMIT)) pLocal in
  let pLocal := set_script MSG_SCRIPTIDX_LOCALHTLCKEY
    (ln_derkey_pubkey (fund_key pLocal MSG_FUNDIDX_HTLC)
       (fund_key pLocal MSG_FUNDIDX_PER_COMMIT)) pLocal in
  let pLocal := set_script MSG_SCRIPTIDX_REMOTEHTLCKEY
    (ln_derkey_pubkey (fund_key pRemote MSG_FUNDIDX_HTLC)
       (fund_key pLocal MSG_FUNDIDX_PER_COMMIT)) pLocal in
  let pRemote := set_script MSG_SCRIPTIDX_REMOTEKEY
    (ln_derkey_pubkey (fund_key pLocal MSG_FUNDIDX_PAYMENT)
       (fund_key pRemote MSG_FUNDIDX_PER_COMMIT)) pRemote in
  let pRemote := set_script MSG_SCRIPTIDX_DELAYED
    (ln_derkey_pubkey (fund_key pRemote MSG_FUNDIDX_DELAYED)
       (fund_key pRemote MSG_FUNDIDX_PER_COMMIT)) pRemote in
  let pRemote := set_script MSG_SCRIPTIDX_REVOCATION
    (ln_derkey_revocationkey (fund_key pLocal MSG_FUNDIDX_REVOCATION)
       (fund_key pRemote MSG_FUNDIDX_PER_COMMIT)) pRemote in
  let pRemote := set_script MSG_SCRIPTIDX_LOCALHTLCKEY
    (ln_derkey_pubkey (fund_key pRemote MSG_FUNDIDX_HTLC)
       (fund_key pRemote MSG_FUNDIDX_PER_COMMIT)) pRemote in
  let pRemote := set_script MSG_SCRIPTIDX_REMOTEHTLCKEY
    (ln_derkey_pubkey (fund_key pLocal MSG_FUNDIDX_HTLC)
       (fund_key pRemote MSG_FUNDIDX_PER_COMMIT)) pRemote in
  (pLocal, pRemote).

Lemma fund_key_set_script i k x j : fund_key (set_script i k x) j = fund_key x j.
Proof. by destruct k. Qed.

Lemma scriptkeys_swap L R :
  ln_misc_update_scriptkeys R L = prod_swap (ln_misc_update_scriptkeys L R).
Proof.
  unfold ln_misc_update_scriptkeys. cbv zeta. by rewrite !fund_key_set_script.
Qed.

(** Both peers of a channel derive the same script keys for both commitment
    transactions: the function does not care which side is called local. *)
Theorem scriptkeys_agree L R L' R' :
  ln_misc_update_scriptkeys L R = (L', R') → ln_misc_update_scriptkeys R L = (R', L').
Proof. intros E. by rewrite scriptkeys_swap, E. Qed.

Context {W : CurveLaws C}.

Lemma be_val_mod_order a : be_val (be_bytes 32 (a mod order)) = a mod order.
Proof.
  rewrite be_val_be_bytes. apply wrap_small. unfold in_range.
  pose proof order_pos. pose proof (Z.mod_pos_bound a order). lia.
Qed.

Lemma read_pub_of k : smul (be_val k) gen ≠ inf → pt_read (pub_of k) = Some (smul (be_val k) gen).
Proof. by apply read_write. Qed.

Lemma revocation_match base_secret pc_secret :
  smul (be_val base_secret) gen ≠ inf → smul (be_val pc_secret) gen ≠ inf →
  ln_derkey_revocationkey (pub_of base_secret) (pub_of pc_secret) =
    Some (pub_of (ln_derkey_revocationprivkey (pub_of base_secret) (pub_of pc_secret) base_secret pc_secret)).
Proof.
  intros Hb Hp. unfold ln_derkey_revocationkey. rewrite !read_pub_of by done. cbn [mbind option_bind].
  unfold pub_of at 5, ln_derkey_revocationprivkey.
  by rewrite be_val_mod_order, smul_order, smul_add, !smul_mul.
Qed.

(** The derived private key belongs to the derived public key, for payment
    keys and for revocation keys, given the secrets of the points. *)
Theorem derived_keys_match base_secret pc_secret :
  smul (be_val base_secret) gen ≠ inf → smul (be_val pc_secret) gen ≠ inf →
  let base := pub_of base_secret in
  let pc := pub_of pc_secret in
  (∀ k, ln_derkey_pubkey base pc = Some k →
     k = pub_of (ln_derkey_privkey base pc base_secret)) ∧
  ln_derkey_revocationkey base pc =
    Some (pub_of (ln_derkey_revocationprivkey base pc base_secret pc_secret)).
Proof.
  intros Hb Hp base pc. split; [|by apply revocation_match].
  intros k. subst base pc. unfold ln_derkey_pubkey, btc_util_ecp_muladd. rewrite read_pub_of by done. cbn [mbind option_bind].
  case_decide; [done|]. intros [= <-]. unfold pub_of at 3, ln_derkey_privkey.
  by rewrite be_val_mod_order, smul_order, smul_add, smul_one.
Qed.
End derkey.

(** A concrete group for the witnesses: the two residues modulo 2, written as 33
    bytes, with the point at infinity 0. *)
#[local] Instance toy_curve : Curve := {|
  pt := bool;
  inf := false;
  gen := true;
  padd := xorb;
  smul := λ a p, Z.odd a && p;
  order := 2;
  pt_read := λ d, if be_val d =? 0 then Some false
                  else if be_val d =? 1 then Some true else None;
  pt_write := λ p, be_bytes 33 (Z.b2z p);
|}.

#[local] Instance toy_curve_laws : CurveLaws toy_curve.
Proof.
  split; cbn [order padd smul pt inf gen pt_read pt_write toy_curve].
  - lia.
  - apply xorb_comm.
  - intros a b [|]; rewrite Z.odd_add; by destruct (Z.odd a), (Z.odd b).
  - intros a b [|]; rewrite Z.odd_mul; by destruct (Z.odd a), (Z.odd b).
  - by intros [|].
  - intros a. rewrite !andb_true_r, <- !Z.bit0_odd. by apply (Z.mod_pow2_bits_low a 1 0).
  - by intros [|].
Qed.

Definition toy_sha (d : bytes) : bytes := take 32 (d ++ replicate 32 0).

Lemma derived_keys_match_witness :
  pub_of (be_bytes 32 5) = be_bytes 33 1 ∧
  ln_derkey_revocationkey toy_sha (pub_of (be_bytes 32 5)) (pub_of (be_bytes 32 3)) =
  Some (pub_of (ln_derkey_revocationprivkey toy_sha (pub_of (be_bytes 32 5))
                  (pub_of (be_bytes 32 3)) (be_bytes 32 5) (be_bytes 32 3))).
Proof.
  split; [reflexivity|].
  apply (derived_keys_match toy_sha (be_bytes 32 5) (be_bytes 32 3)); by_compute.
Defined.

Definition toy_side (n : Z) : funding_data :=
  mk_funding ((λ i, be_bytes 33 ((n + Z.of_nat i) mod 2)) <$> seq 0 6) (replicate 5 []).

Lemma scriptkeys_agree_witness :
  ln_misc_update_scriptkeys toy_sha (toy_side 1) (toy_side 0) =
  prod_swap (ln_misc_update_scriptkeys toy_sha (toy_side 0) (toy_side 1)).
Proof.
  destruct (ln_misc_update_scriptkeys toy_sha (toy_side 0) (toy_side 1)) as [L' R'] eqn:E.
  exact (scriptkeys_agree toy_sha _ _ _ _ E).
Defined.

End Derkey.
