(* ===== verification/LnMisc.v ===== *)
(** Shared helpers of the Lightning messages: [ln/ln_misc.c].

    Big-endian readers and the writers that append to a [utl_push_t], the
    message names, channel ids and short channel ids. The BOLT wire layouts
    of the message files are stated with [be_bytes] and the lemmas here that
    run one encoder step ([push_step_*]) or one decoder step ([get*_at_sl]). *)
From stdpp Require Import base list numbers strings tactics.
From Stdlib Require Import ZArith Lia.
From S2P Require Import Prelude CProg UtlInt UtlBuf UtlPush.
Import UtlInt UtlBuf UtlPush.
Open Scope Z_scope.

Module LnMisc.

(** ** Sizes and message types *)

Abbreviation LN_SZ_CHANNEL_ID := 32.
Abbreviation LN_SZ_SIGNATURE := 64.
Abbreviation LN_SZ_ONION_ROUTE := 1366.
Abbreviation LN_SZ_SHORT_CHANNEL_ID := 8.
Abbreviation BTC_SZ_HASH256 := 32.
Abbreviation BTC_SZ_TXID := 32.
Abbreviation BTC_SZ_PRIVKEY := 32.
Abbreviation BTC_SZ_PUBKEY := 33.

Abbreviation MSGTYPE_INIT := 0x0010.
Abbreviation MSGTYPE_ERROR := 0x0011.
Abbreviation MSGTYPE_PING := 0x0012.
Abbreviation MSGTYPE_PONG := 0x0013.
Abbreviation MSGTYPE_OPEN_CHANNEL := 0x0020.
Abbreviation MSGTYPE_ACCEPT_CHANNEL := 0x0021.
Abbreviation MSGTYPE_FUNDING_CREATED := 0x0022.
Abbreviation MSGTYPE_FUNDING_SIGNED := 0x0023.
Abbreviation MSGTYPE_FUNDING_LOCKED := 0x0024.
Abbreviation MSGTYPE_SHUTDOWN := 0x0026.
Abbreviation MSGTYPE_CLOSING_SIGNED := 0x0027.
Abbreviation MSGTYPE_UPDATE_ADD_HTLC := 0x0080.
Abbreviation MSGTYPE_UPDATE_FULFILL_HTLC := 0x0082.
Abbreviation MSGTYPE_UPDATE_FAIL_HTLC := 0x0083.
Abbreviation MSGTYPE_COMMITMENT_SIGNED := 0x0084.
Abbreviation MSGTYPE_REVOKE_AND_ACK := 0x0085.
Abbreviation MSGTYPE_UPDATE_FEE := 0x0086.
Abbreviation MSGTYPE_UPDATE_FAIL_MALFORMED_HTLC := 0x0087.
Abbreviation MSGTYPE_CHANNEL_REESTABLISH := 0x0088.
Abbreviation MSGTYPE_CHANNEL_ANNOUNCEMENT := 0x0100.
Abbreviation MSGTYPE_NODE_ANNOUNCEMENT := 0x0101.
Abbreviation MSGTYPE_CHANNEL_UPDATE := 0x0102.
Abbreviation MSGTYPE_ANNOUNCEMENT_SIGNATURES := 0x0103.

Definition MESSAGE : list (Z * string) := [
  (0x0010, "init"%string); (0x0011, "error"%string); (0x0012, "ping"%string);
  (0x0013, "pong"%string); (0x0020, "open_channel"%string);
  (0x0021, "accept_channel"%string); (0x0022, "funding_created"%string);
  (0x0023, "funding_signed"%string); (0x0024, "funding_locked"%string);
  (0x0026, "shutdown"%string); (0x0027, "closing_signed"%string);
  (0x0080, "update_add_htlc"%string); (0x0082, "update_fulfill_htlc"%string);
  (0x0083, "update_fail_htlc"%string); (0x0084, "commitment_signed"%string);
  (0x0085, "revoke_and_ack"%string); (0x0086, "update_fee"%string);
  (0x0087, "update_fail_malformed_htlc"%string);
  (0x0088, "channel_reestablish"%string); (0x0100, "channel_announcement"%string);
  (0x0101, "node_announcement"%string); (0x0102, "channel_update"%string);
  (0x0103, "announcement_signatures"%string) ].

Fixpoint msgname_loop (tbl : list (Z * string)) (Type_ : Z) : string :=
  match tbl with
  | [] => "UNKNOWN MESSAGE"%string
  | (type, name) :: tbl => if Type_ =? type then name else msgname_loop tbl Type_
  end.

Definition ln_misc_msgname (Type_ : Z) : string := msgname_loop MESSAGE Type_.

(** ** Big-endian readers *)

Definition ln_misc_get16be (pData : bytes) : option Z :=
  match pData with
  | b0 :: b1 :: _ => Some (u16 (Z.lor (Z.shiftl b0 8) b1))
  | _ => None
  end.

Definition ln_misc_get32be (pData : bytes) : option Z :=
  match pData with
  | b0 :: b1 :: b2 :: b3 :: _ =>
      Some (u32 (Z.lor (Z.lor (Z.lor (Z.shiftl b0 24) (Z.shiftl b1 16)) (Z.shiftl b2 8)) b3))
  | _ => None
  end.

Definition ln_misc_get64be (pData : bytes) : option Z :=
  match pData with
  | b0 :: b1 :: b2 :: b3 :: b4 :: b5 :: b6 :: b7 :: _ =>
      Some (u64 (Z.lor (Z.lor (Z.lor (Z.lor (Z.lor (Z.lor (Z.lor (Z.shiftl b0 56)
        (Z.shiftl b1 48)) (Z.shiftl b2 40)) (Z.shiftl b3 32)) (Z.shiftl b4 24))
        (Z.shiftl b5 16)) (Z.shiftl b6 8)) b7))
  | _ => None
  end.

(** [f(pData + pos)] *)
Definition get_at {S} (f : bytes → option Z) (pData : bytes) (pos : Z) : prog S Z :=
  of_option (if 0 <=? pos then f (drop (Z.to_nat pos) pData) else None).

(** ** Writers *)

Section push.
Context {A : Alloc}.

(** [utl_push_data(&proto, p, n)] with the result dropped, [p] leading to bytes. *)
Definition push_bytes (p : bytes) (n : Z) : prog utl_push_t unit :=
  call (utl_push_data (init_cells p) n);; mret tt.

Definition ln_misc_push8 (Value : Z) : prog utl_push_t unit := push_bytes [u8 Value] 1.

Definition ln_misc_push16be (Value : Z) : prog utl_push_t unit :=
  let Value := u16 Value in
  push_bytes [u8 (Z.shiftr Value 8); u8 Value] 2.

Definition ln_misc_push32be (Value : Z) : prog utl_push_t unit :=
  let Value := u32 Value in
  let V1 := Z.shiftr Value 8 in
  let V2 := Z.shiftr V1 8 in
  push_bytes [u8 (Z.shiftr V2 8); u8 V2; u8 V1; u8 Value] 4.

Definition ln_misc_push64be (Value : Z) : prog utl_push_t unit :=
  let Value := u64 Value in
  let V1 := Z.shiftr Value 8 in
  let V2 := Z.shiftr V1 8 in
  let V3 := Z.shiftr V2 8 in
  let V4 := Z.shiftr V3 8 in
  let V5 := Z.shiftr V4 8 in
  let V6 := Z.shiftr V5 8 in
  push_bytes [u8 (Z.shiftr V6 8); u8 V6; u8 V5; u8 V4; u8 V3; u8 V2; u8 V1; u8 Value] 8.
End push.

(** The bytes stored at [pBuf]; [None] is a read before or past [pData]. *)
Definition ln_misc_setbe (pData : bytes) (Len : Z) : option bytes :=
  mapM (λ lp, if Len <=? Z.of_nat (length pData) then pData !! (Z.to_nat Len - lp - 1)%nat
              else None) (seq 0 (Z.to_nat Len)).

(** ** Channel ids *)

(** The 32 bytes stored at [pChannelId]. *)
Definition ln_misc_calc_channel_id (pTxid : bytes) (Index : Z) : option bytes :=
  hd ← sub_bytes pTxid 0 (LN_SZ_CHANNEL_ID - 2);
  t30 ← pTxid !! Z.to_nat (LN_SZ_CHANNEL_ID - 2);
  t31 ← pTxid !! Z.to_nat (LN_SZ_CHANNEL_ID - 1);
  Some (hd ++ [u8 (Z.lxor t30 (Z.shiftr Index 8)); u8 (Z.lxor t31 (Z.land Index 0xff))]).

Definition ln_misc_calc_short_channel_id (Height BIndex VIndex : Z) : Z :=
  Z.lor (Z.lor (Z.shiftl (Z.land Height 0xffffff) 40) (Z.shiftl (Z.land BIndex 0xffffff) 16))
        (Z.land VIndex 0xffff).

Definition ln_misc_get_short_channel_id_param (short_channel_id : Z) : Z * Z * Z :=
  (u32 (Z.shiftr short_channel_id 40),
   u32 (Z.land (Z.shiftr short_channel_id 16) 0xffffff),
   u32 (Z.land short_channel_id 0xffff)).

(** ** The readers *)

Lemma get16be_pack d : ln_misc_get16be d = utl_int_pack_u16be d.
Proof. done. Qed.
Lemma get32be_pack d : ln_misc_get32be d = utl_int_pack_u32be d.
Proof. done. Qed.
Lemma get64be_pack d : ln_misc_get64be d = utl_int_pack_u64be d.
Proof. done. Qed.

Lemma get_at_sl {S} f n d pos (s : S) :
  pack_as f n be_val → is_bytes d → 0 ≤ pos → pos + Z.of_nat n ≤ Z.of_nat (length d) →
  get_at f d pos s = Ret (be_val (sl d pos (Z.of_nat n))) s.
Proof.
  intros [Hf _] Hd Hp Hn. unfold get_at. rewrite (proj2 (Z.leb_le _ _)) by done.
  unfold sl. rewrite Nat2Z.id.
  rewrite <- (take_drop n (drop (Z.to_nat pos) d)) at 1.
  rewrite Hf; [done| by apply Forall_take, Forall_drop |].
  rewrite length_take, length_drop. lia.
Qed.

Lemma get_at_oob {S} f n val d pos (s : S) :
  pack_as f n val → Z.of_nat (length d) < pos + Z.of_nat n → (0 < n)%nat →
  get_at f d pos s = UB.
Proof.
  intros [_ Hf] Hn Hpos. unfold get_at. case_match eqn:E; [|done]. apply Z.leb_le in E.
  rewrite Hf; [done|]. rewrite length_drop. lia.
Qed.

Lemma get16be_sl {S} d pos (s : S) :
  is_bytes d → 0 ≤ pos → pos + 2 ≤ Z.of_nat (length d) →
  get_at ln_misc_get16be d pos s = Ret (be_val (sl d pos 2)) s.
Proof. intros. by apply (get_at_sl _ 2 _ _ _ pack_u16be_spec). Qed.

Lemma get32be_sl {S} d pos (s : S) :
  is_bytes d → 0 ≤ pos → pos + 4 ≤ Z.of_nat (length d) →
  get_at ln_misc_get32be d pos s = Ret (be_val (sl d pos 4)) s.
Proof. intros. by apply (get_at_sl _ 4 _ _ _ pack_u32be_spec). Qed.

Lemma get64be_sl {S} d pos (s : S) :
  is_bytes d → 0 ≤ pos → pos + 8 ≤ Z.of_nat (length d) →
  get_at ln_misc_get64be d pos s = Ret (be_val (sl d pos 8)) s.
Proof. intros. by apply (get_at_sl _ 8 _ _ _ pack_u64be_spec). Qed.

(** The integer read from a slice encodes back to the slice. *)
Lemma be_bytes_sl d pos n k :
  is_bytes d → 0 ≤ pos → pos + n ≤ Z.of_nat (length d) → 0 ≤ n → k = Z.to_nat n →
  be_bytes k (be_val (sl d pos n)) = sl d pos n.
Proof.
  intros Hd Hp Hn Hn0 ->.
  rewrite <- (length_sl d pos n) by lia. apply be_bytes_be_val. auto with ptarm.
Qed.

Lemma be_val_sl_range w d pos n :
  is_bytes d → 0 ≤ pos → pos + n ≤ Z.of_nat (length d) → 0 ≤ n → w = 8 * n →
  in_range w (be_val (sl d pos n)).
Proof.
  intros Hd Hp Hn Hn0 ->. unfold in_range.
  pose proof (be_val_range (sl d pos n) (sl_is_bytes _ _ _ Hd)) as H.
  rewrite length_sl, Z2Nat.id, pow_256 in H by lia. done.
Qed.

Lemma be_val_be_bytes_small w n v :
  in_range w v → w = 8 * Z.of_nat n → be_val (be_bytes n v) = v.
Proof. intros Hv ->. rewrite be_val_be_bytes. by apply wrap_small. Qed.

(** ** One encoder step *)

(** [d] has been written into a buffer of [n] bytes. *)
Definition pushedb (d : bytes) (n : Z) : utl_push_t := pushed (init_cells d) n.

Lemma be_bytes_wrap n v : be_bytes n (wrap (8 * Z.of_nat n) v) = be_bytes n v.
Proof.
  unfold wrap. rewrite <- pow_256 by lia.
  rewrite (Z.div_mod v (256 ^ Z.of_nat n)) at 2 by lia.
  by rewrite (Z.mul_comm (256 ^ _)), be_bytes_mod_hi.
Qed.

Section steps.
Context {A : Alloc} {T : AllocTotal A}.
Lemma push_step_init {B} n st (K : bool → prog utl_push_t B) :
  0 < n < 2 ^ 32 → (call (utl_push_init n) ≫= K) st = K true (pushedb [] n).
Proof. intros. apply bind_ret. by apply push_init_spec. Qed.

Lemma push_step_cells {B} src k d n (K : bool → prog utl_push_t B) :
  k = Z.of_nat (length src) → Z.of_nat (length d) + k ≤ n → n < 2 ^ 31 →
  (call (utl_push_data (init_cells src) k) ≫= K) (pushedb d n) = K true (pushedb (d ++ src) n).
Proof.
  intros -> Hn Hb. apply bind_ret. unfold call, pushedb. rewrite init_cells_app.
  apply push_data_within; rewrite ?length_init_cells; lia.
Qed.

Lemma push_step_bytes {B} src k d n (K : unit → prog utl_push_t B) :
  k = Z.of_nat (length src) → Z.of_nat (length d) + k ≤ n → n < 2 ^ 31 →
  (push_bytes src k ≫= K) (pushedb d n) = K tt (pushedb (d ++ src) n).
Proof. intros. apply bind_ret. unfold push_bytes. by rewrite push_step_cells. Qed.

Lemma push_step_8 {B} v d n (K : unit → prog utl_push_t B) :
  Z.of_nat (length d) + 1 ≤ n → n < 2 ^ 31 →
  (ln_misc_push8 v ≫= K) (pushedb d n) = K tt (pushedb (d ++ be_bytes 1 v) n).
Proof. intros. by apply push_step_bytes. Qed.

Lemma push16be_eq v : ln_misc_push16be v = push_bytes (be_bytes 2 v) 2.
Proof.
  unfold ln_misc_push16be. rewrite <- (be_bytes_wrap 2 v). reflexivity.
Qed.

Lemma push32be_eq v : ln_misc_push32be v = push_bytes (be_bytes 4 v) 4.
Proof.
  unfold ln_misc_push32be. rewrite <- (be_bytes_wrap 4 v).
  rewrite !Z.shiftr_shiftr by lia. reflexivity.
Qed.

Lemma push64be_eq v : ln_misc_push64be v = push_bytes (be_bytes 8 v) 8.
Proof.
  unfold ln_misc_push64be. rewrite <- (be_bytes_wrap 8 v).
  rewrite !Z.shiftr_shiftr by lia. reflexivity.
Qed.

Lemma push_step_16 {B} v d n (K : unit → prog utl_push_t B) :
  Z.of_nat (length d) + 2 ≤ n → n < 2 ^ 31 →
  (ln_misc_push16be v ≫= K) (pushedb d n) = K tt (pushedb (d ++ be_bytes 2 v) n).
Proof. intros. rewrite push16be_eq. by apply push_step_bytes. Qed.

Lemma push_step_32 {B} v d n (K : unit → prog utl_push_t B) :
  Z.of_nat (length d) + 4 ≤ n → n < 2 ^ 31 →
  (ln_misc_push32be v ≫= K) (pushedb d n) = K tt (pushedb (d ++ be_bytes 4 v) n).
Proof. intros. rewrite push32be_eq. by apply push_step_bytes. Qed.

Lemma push_step_64 {B} v d n (K : unit → prog utl_push_t B) :
  Z.of_nat (length d) + 8 ≤ n → n < 2 ^ 31 →
  (ln_misc_push64be v ≫= K) (pushedb d n) = K tt (pushedb (d ++ be_bytes 8 v) n).
Proof. intros. rewrite push64be_eq. by apply push_step_bytes. Qed.

Lemma push_step_trim {B} d n (K : bool → prog utl_push_t B) :
  Z.of_nat (length d) = n → 0 < n →
  (call utl_push_trim ≫= K) (pushedb d n) = K true (mk_push n (of_bytes d)).
Proof.
  intros <- Hn. apply bind_ret. unfold call, pushedb.
  rewrite push_trim_full by (rewrite ?length_init_cells; lia). done.
Qed.
End steps.

(** ** Other helpers *)

Lemma bind_get_st {S B} (K : S → prog S B) s : (get_st ≫= K) s = K s s.
Proof. done. Qed.

Lemma bind_modify {S B} f (K : unit → prog S B) s : (modify f ≫= K) s = K tt (f s).
Proof. done. Qed.

Lemma bind_assert {S B} (K : unit → prog S B) (b : bool) s :
  b = true → (c_assert b ≫= K) s = K tt s.
Proof. by intros ->. Qed.

Lemma setbe_rev pData :
  ln_misc_setbe pData (Z.of_nat (length pData)) = Some (reverse pData).
Proof.
  unfold ln_misc_setbe. rewrite Z.leb_refl, Nat2Z.id. apply mapM_Some_2.
  apply Forall2_same_length_lookup_2; [by rewrite length_seq, length_reverse|].
  intros i lp b Hlp Hb. apply lookup_seq in Hlp as [-> Hi]. cbn.
  rewrite reverse_lookup in Hb by lia. rewrite <- Hb. f_equal. lia.
Qed.

(** The mask of the low [n] bits. *)
Lemma land_mask x n m : 0 ≤ n → m = Z.ones n → Z.land x m = x mod 2 ^ n.
Proof. intros Hn ->. by apply Z.land_ones. Qed.

Lemma short_channel_id_sum h b v :
  ln_misc_calc_short_channel_id h b v =
  (h mod 2 ^ 24) * 2 ^ 40 + (b mod 2 ^ 24) * 2 ^ 16 + v mod 2 ^ 16.
Proof.
  unfold ln_misc_calc_short_channel_id.
  rewrite (land_mask h 24), (land_mask b 24), (land_mask v 16) by done.
  pose proof (Z.mod_pos_bound b (2 ^ 24)). pose proof (Z.mod_pos_bound v (2 ^ 16)).
  rewrite <- Z.lor_assoc.
  rewrite (lor_shiftl_add 16) by lia. rewrite lor_shiftl_add by lia. lia.
Qed.

(** The three parts of a short channel id, cut to 24, 24 and 16 bits, are
    exactly what unpacking it returns, and every 64-bit value is the short
    channel id of the parts it unpacks to. *)
Theorem short_channel_id_roundtrip :
  (∀ h b v, in_range 32 h → in_range 32 b → in_range 32 v →
     in_range 64 (ln_misc_calc_short_channel_id h b v) ∧
     ln_misc_get_short_channel_id_param (ln_misc_calc_short_channel_id h b v) =
     (h mod 2 ^ 24, b mod 2 ^ 24, v mod 2 ^ 16)) ∧
  (∀ id, in_range 64 id →
     let '(h, b, v) := ln_misc_get_short_channel_id_param id in
     ln_misc_calc_short_channel_id h b v = id).
Proof.
  split.
  - intros h b v _ _ _. rewrite short_channel_id_sum.
    pose proof (Z.mod_pos_bound h (2 ^ 24)). pose proof (Z.mod_pos_bound b (2 ^ 24)).
    pose proof (Z.mod_pos_bound v (2 ^ 16)).
    split; [unfold in_range; lia|].
    unfold ln_misc_get_short_channel_id_param.
    rewrite (land_mask _ 24), (land_mask _ 16) by done.
    rewrite !Z.shiftr_div_pow2 by lia.
    f_equal; [f_equal|].
    + rewrite wrap_small; [|unfold in_range]; Z.div_mod_to_equations; lia.
    + rewrite wrap_small; [|unfold in_range]; Z.div_mod_to_equations; lia.
    + rewrite wrap_small; [|unfold in_range]; Z.div_mod_to_equations; lia.
  - intros id Hid. unfold ln_misc_get_short_channel_id_param.
    rewrite short_channel_id_sum. unfold in_range in Hid.
    rewrite (land_mask _ 24), (land_mask _ 16) by done.
    rewrite !Z.shiftr_div_pow2 by lia. unfold wrap.
    Z.div_mod_to_equations. lia.
Qed.

(** The channel id is the funding txid with the output index xored into its
    last two bytes, read as a big-endian number. *)
Lemma calc_channel_id_spec txid Index :
  is_bytes txid → length txid = 32%nat → in_range 16 Index →
  ln_misc_calc_channel_id txid Index =
  Some (sl txid 0 30 ++ be_bytes 2 (Z.lxor (be_val (sl txid 30 2)) Index)).
Proof.
  intros Hd Hl HI. unfold ln_misc_calc_channel_id.
  change (32 - 2) with 30. change (32 - 1) with 31.
  unfold sub_bytes. rewrite bool_decide_eq_true_2 by lia. cbn [mbind option_bind].
  destruct (lookup_lt_is_Some_2 txid (Z.to_nat 30)) as [a Ha]; [lia|].
  destruct (lookup_lt_is_Some_2 txid (Z.to_nat 31)) as [b Hb]; [lia|].
  rewrite Ha, Hb. cbn [mbind option_bind].
  assert (sl txid 30 2 = [a; b]) as ->.
  { unfold sl. rewrite (drop_S _ _ _ Ha).
    change (S (Z.to_nat 30)) with (Z.to_nat 31). by rewrite (drop_S _ _ _ Hb). }
  pose proof (Forall_lookup_1 _ _ _ _ Hd Ha) as Hba.
  pose proof (Forall_lookup_1 _ _ _ _ Hd Hb) as Hbb. unfold is_byte in *.
  assert (be_val [a; b] = Z.lor (Z.shiftl a 8) b) as ->
    by (rewrite lor_shiftl_add by lia; unfold be_val; cbn [foldl]; lia).
  do 2 f_equal. rewrite <- unpack_u16be_spec. unfold utl_int_unpack_u16be, wrap. rewrite <- !Z.land_ones by lia.
  f_equal; [|f_equal]; apply Z.bits_inj'; intros k Hk; change 255 with (Z.ones 8);
    rewrite ?Z.land_spec, ?Z.shiftr_spec, ?Z.lxor_spec, ?Z.land_spec, ?Z.lor_spec,
      ?Z.shiftr_spec, ?Z.shiftl_spec by lia; rewrite Z.testbit_ones by lia.
  - replace (k + 8 - 8) with k by lia.
    rewrite <- (Z.mod_small b (2 ^ 8)), Z.mod_pow2_bits_high by lia.
    by rewrite orb_false_r.
  - destruct (Z.ltb_spec k 8); rewrite ?andb_false_r; [|done].
    rewrite (Z.testbit_neg_r a) by lia. rewrite (proj2 (Z.leb_le 0 k)) by lia.
    by rewrite !andb_true_r.
Qed.

End LnMisc.
