(* ===== verification/LnOnion.v ===== *)
(** Onion packets: [ln/ln_onion.c].

    HMAC-SHA256, ChaCha20, SHA-256 and the curve are mbedtls
    ([M_USE_SODIUM] is not defined). The local arrays of the C functions have the
    sizes their accesses need; what is kept of them is what is read of
    them. [None] is the read of memory that was never written: a scalar
    multiplication that fails leaves its result so. *)
From stdpp Require Import base list numbers strings tactics.
From Stdlib Require Import ZArith Lia.
From Stdlib Require String.
From S2P Require Import Prelude CProg UtlBuf UtlPush LnDerkey LnMisc.
Import UtlBuf UtlPush Derkey LnMisc.
Open Scope Z_scope.

Abbreviation LN_HOP_MAX := 20%nat.
Abbreviation M_SZ_HOP_DATA := 65%nat.
Abbreviation M_SZ_HMAC := 32%nat.
Abbreviation M_SZ_ROUTING_INFO := 1300%nat.
Abbreviation M_SZ_STREAM_BYTES := 1365%nat.
Abbreviation RHO := ([114; 104; 111] : bytes).
Abbreviation MU := ([109; 117] : bytes).
Abbreviation UM := ([117; 109] : bytes).
Abbreviation AMMAG := ([97; 109; 109; 97; 103] : bytes).
Abbreviation DATALEN := 256.
Abbreviation LNERR_ONION_BADONION := 0x8000.
Abbreviation LNERR_ONION_PERM := 0x4000.
Abbreviation LNERR_ONION_NODE := 0x2000.
Abbreviation LNERR_ONION_UPDATE := 0x1000.
Abbreviation LNONION_INV_REALM := (Z.lor LNERR_ONION_PERM 1).
Abbreviation LNONION_TMP_NODE_FAIL := (Z.lor LNERR_ONION_NODE 2).
Abbreviation LNONION_PERM_NODE_FAIL := (Z.lor (Z.lor LNERR_ONION_PERM LNERR_ONION_NODE) 2).
Abbreviation LNONION_REQ_NODE_FTR_MISSING := (Z.lor (Z.lor LNERR_ONION_PERM LNERR_ONION_NODE) 3).
Abbreviation LNONION_INV_ONION_VERSION := (Z.lor (Z.lor LNERR_ONION_BADONION LNERR_ONION_PERM) 4).
Abbreviation LNONION_INV_ONION_HMAC := (Z.lor (Z.lor LNERR_ONION_BADONION LNERR_ONION_PERM) 5).
Abbreviation LNONION_INV_ONION_KEY := (Z.lor (Z.lor LNERR_ONION_BADONION LNERR_ONION_PERM) 6).
Abbreviation LNONION_TMP_CHAN_FAIL := (Z.lor LNERR_ONION_UPDATE 7).
Abbreviation LNONION_PERM_CHAN_FAIL := (Z.lor LNERR_ONION_PERM 8).
Abbreviation LNONION_REQ_CHAN_FTR_MISSING := (Z.lor LNERR_ONION_PERM 9).
Abbreviation LNONION_UNKNOWN_NEXT_PEER := (Z.lor LNERR_ONION_PERM 10).
Abbreviation LNONION_AMT_BELOW_MIN := (Z.lor LNERR_ONION_UPDATE 11).
Abbreviation LNONION_FEE_INSUFFICIENT := (Z.lor LNERR_ONION_UPDATE 12).
Abbreviation LNONION_INCORR_CLTV_EXPIRY := (Z.lor LNERR_ONION_UPDATE 13).
Abbreviation LNONION_EXPIRY_TOO_SOON := (Z.lor LNERR_ONION_UPDATE 14).
Abbreviation LNONION_UNKNOWN_PAY_HASH := (Z.lor LNERR_ONION_PERM 15).
Abbreviation LNONION_INCORR_PAY_AMT := (Z.lor LNERR_ONION_PERM 16).
Abbreviation LNONION_FINAL_EXPIRY_TOO_SOON := 17.
Abbreviation LNONION_FINAL_INCORR_CLTV_EXP := 18.
Abbreviation LNONION_FINAL_INCORR_HTLC_AMT := 19.
Abbreviation LNONION_CHAN_DISABLE := (Z.lor LNERR_ONION_UPDATE 20).
Abbreviation LNONION_EXPIRY_TOO_FAR := 21.

(** The primitives and the debug setting. *)
Class Onion := {
  onion_curve :: Curve;
  onion_alloc :: Alloc;
  onion_sha256 : bytes → bytes;
  (* key and message *)
  mbedtls_md_hmac : bytes → bytes → bytes;
  (* key and length: the key stream from its start, under the nonce 0 *)
  chacha20_stream : bytes → nat → bytes;
  onion_debug_get : Z;
}.

Class OnionLaws (O : Onion) : Prop := {
  onion_curve_laws :: PrimeCurve onion_curve;
  onion_alloc_total :: AllocTotal onion_alloc;
  onion_sha256_length d : length (onion_sha256 d) = 32%nat;
  hmac_length k m : length (mbedtls_md_hmac k m) = 32%nat;
  stream_length k n : length (chacha20_stream k n) = n;
  onion_debug_off : onion_debug_get = 0;
}.

Module LnOnion.

Record ln_hop_datain_t := mk_hop_in {
  in_short_channel_id : Z;
  in_amt_to_forward : Z;
  in_outgoing_cltv_value : Z;
  in_pubkey : bytes;
}.

Record ln_hop_dataout_t := mk_hop {
  b_exit : bool;
  hop_short_channel_id : Z;
  amt_to_forward : Z;
  outgoing_cltv_value : Z;
}.

Section onion.
Context {O : Onion}.

(** ** Private functions *)

Definition ln_misc_calc_mac (pKeyStr pMsg : bytes) : bytes := mbedtls_md_hmac pKeyStr pMsg.

Definition generate_key (pKeyStr pSharedSecret : bytes) : bytes := ln_misc_calc_mac pKeyStr pSharedSecret.

Definition generate_cipher_stream (pKey : bytes) (Len : nat) : bytes := chacha20_stream pKey Len.

Definition right_shift (pData : bytes) : bytes :=
  replicate M_SZ_HOP_DATA 0 ++ take (M_SZ_ROUTING_INFO - M_SZ_HOP_DATA) pData.

(** The first [Len] bytes of the result; the rest of [pResult] is kept by the
    callers that need it. *)
Definition xor_bytes (pSrc1 pSrc2 : bytes) (Len : nat) : bytes :=
  zip_with Z.lxor (take Len pSrc1) (take Len pSrc2).

Definition blind_group_element (pPubKey pBlindingFactor : bytes) : option bytes :=
  btc_util_mul_pubkey pPubKey pBlindingFactor.

(** In place: [pResult] keeps its bytes when the key cannot be read; a failed
    multiplication leaves the point at infinity, which is written as one byte. *)
Definition blind_in_place (pResult pBlindingFactor : bytes) : bytes :=
  match btc_util_mul_pubkey pResult pBlindingFactor with
  | Some r => r
  | None => if btc_keys_chkpub pResult then 0 :: drop 1 pResult else pResult
  end.

Definition multi_scalar_mul (pPubKey : bytes) (pBlindingFactors : list bytes) : bytes :=
  foldl blind_in_place pPubKey pBlindingFactors.

Definition compute_blinding_factor (pPubKey pSharedSecret : bytes) : bytes :=
  onion_sha256 (pPubKey ++ pSharedSecret).

(** One round of the loop of [generate_header_padding]. *)
Definition padding_step (pKeyStr : bytes) (NumHops lp : nat) (pSharedSecret pResult : bytes)
    : nat * bytes :=
  let sz := ((LN_HOP_MAX - lp + 1) * M_SZ_HOP_DATA)%nat in
  let streamBytes := generate_cipher_stream (generate_key pKeyStr pSharedSecret) M_SZ_STREAM_BYTES in
  let len := if decide (M_SZ_HOP_DATA * (NumHops - 1) < M_SZ_HOP_DATA * lp)%nat
             then (M_SZ_HOP_DATA * (NumHops - 1))%nat else (M_SZ_HOP_DATA * lp)%nat in
  (len, xor_bytes pResult (drop sz streamBytes) len ++ drop len pResult).

Fixpoint padding_loop (pKeyStr : bytes) (NumHops lp : nat) (pSharedSecrets : list bytes)
    (x : nat * bytes) : nat * bytes :=
  match pSharedSecrets with
  | [] => x
  | ss :: pSharedSecrets =>
      if decide (lp < NumHops)%nat
      then padding_loop pKeyStr NumHops (S lp) pSharedSecrets (padding_step pKeyStr NumHops lp ss x.2)
      else x
  end.

(** The length and the filler. *)
Definition generate_header_padding (pKeyStr : bytes) (NumHops : nat) (pSharedSecrets : list bytes)
    : nat * bytes :=
  padding_loop pKeyStr NumHops 1 pSharedSecrets (0%nat, replicate (M_SZ_HOP_DATA * (NumHops - 1)) 0).

Definition set_reason_sha256 (pPacket : bytes) (Code : Z) : prog utl_push_t unit :=
  ln_misc_push16be Code;;
  d ← of_option (sub_bytes pPacket 0 1366);
  push_bytes (onion_sha256 d) 32.

(** ** Creating a packet *)

Definition LN_DBG_ONION_CREATE_NORMAL_REALM : bool := Z.land onion_debug_get 0x10 =? 0.
Definition LN_DBG_ONION_CREATE_NORMAL_VERSION : bool := Z.land onion_debug_get 0x20 =? 0.

(** The shared secrets of the hops after the first: [eph_pubkey] and
    [blind_factor] are those of the hop before, [blind_factors] all so far. *)
Fixpoint session_loop (pHopData : list ln_hop_datain_t) (eph_pubkey blind_factor : bytes)
    (blind_factors : list bytes) (pSessionKey : bytes) : option (list bytes) :=
  match pHopData with
  | [] => Some []
  | hop :: pHopData =>
      eph_pubkey ← blind_group_element eph_pubkey blind_factor;
      yToX ← blind_group_element (in_pubkey hop) pSessionKey;
      let shd_secret := onion_sha256 (multi_scalar_mul yToX blind_factors) in
      let blind_factor := compute_blinding_factor eph_pubkey shd_secret in
      rest ← session_loop pHopData eph_pubkey blind_factor (blind_factors ++ [blind_factor]) pSessionKey;
      Some (shd_secret :: rest)
  end.

(** The first ephemeral key and the shared secrets. *)
Definition session_secrets (pHopData : list ln_hop_datain_t) (pSessionKey : bytes)
    : option (bytes * list bytes) :=
  match pHopData with
  | [] => None
  | hop :: pHopData =>
      eph_pubkey ← btc_keys_priv2pub pSessionKey;
      pub ← btc_util_mul_pubkey (in_pubkey hop) pSessionKey;
      let shd_secret := onion_sha256 pub in
      let blind_factor := compute_blinding_factor eph_pubkey shd_secret in
      rest ← session_loop pHopData eph_pubkey blind_factor [blind_factor] pSessionKey;
      Some (eph_pubkey, shd_secret :: rest)
  end.

Definition hop_data (hop : ln_hop_datain_t) (next_hmac : bytes) : option bytes :=
  scid ← ln_misc_setbe (le_bytes 8 (in_short_channel_id hop)) 8;
  amt ← ln_misc_setbe (le_bytes 8 (in_amt_to_forward hop)) 8;
  cltv ← ln_misc_setbe (le_bytes 4 (in_outgoing_cltv_value hop)) 4;
  Some ((if LN_DBG_ONION_CREATE_NORMAL_REALM then 0 else 255) ::
        scid ++ amt ++ cltv ++ replicate 12 0 ++ next_hmac).

(** One round of the loop over the hops: [mix_header] and [next_hmac]. *)
Definition wrap_hop (filler : option bytes) (hop : ln_hop_datain_t) (shd_secret pAssocData : bytes)
    (st : bytes * bytes) : option (bytes * bytes) :=
  let '(mix_header, next_hmac) := st in
  let rho_key := generate_key RHO shd_secret in
  let mu_key := generate_key MU shd_secret in
  let stream_bytes := generate_cipher_stream rho_key M_SZ_STREAM_BYTES in
  d ← hop_data hop next_hmac;
  let mix_header := d ++ drop M_SZ_HOP_DATA (right_shift mix_header) in
  let mix_header := xor_bytes mix_header stream_bytes M_SZ_ROUTING_INFO in
  let mix_header := match filler with
                    | Some filler => take (M_SZ_ROUTING_INFO - length filler) mix_header ++ filler
                    | None => mix_header
                    end in
  Some (mix_header, ln_misc_calc_mac mu_key (mix_header ++ pAssocData)).

(** From the last hop to the first; the filler is for the last. *)
Fixpoint wrap_loop (hops : list (ln_hop_datain_t * bytes)) (filler pAssocData : bytes)
    : option (bytes * bytes) :=
  match hops with
  | [] => Some (replicate M_SZ_ROUTING_INFO 0, replicate M_SZ_HMAC 0)
  | (hop, ss) :: hops =>
      st ← wrap_loop hops filler pAssocData;
      wrap_hop (match hops with [] => Some filler | _ => None end) hop ss pAssocData st
  end.

(** The packet and [pSecrets]; [Some None] is [return false]. The packet has room
    for 66 bytes of [pAssocData] behind the routing info. *)
Definition ln_onion_create_packet (pHopData : list ln_hop_datain_t) (pSessionKey pAssocData : bytes)
    : option (option (bytes * bytes)) :=
  let NumHops := length pHopData in
  if decide (LN_HOP_MAX < NumHops)%nat then Some None
  else
    s ← session_secrets pHopData pSessionKey;
    let '(eph_pubkey, shd_secrets) := s in
    let '(filler_len, filler) := generate_header_padding RHO NumHops shd_secrets in
    if decide (66 < length pAssocData)%nat then None
    else
      st ← wrap_loop (zip pHopData shd_secrets) (take filler_len filler) pAssocData;
      let '(mix_header, next_hmac) := st in
      let version := if LN_DBG_ONION_CREATE_NORMAL_VERSION then 0 else 255 in
      Some (Some (version :: eph_pubkey ++ mix_header ++ next_hmac, concat shd_secrets)).

(** ** Reading a packet *)

(** What is left behind: the result, the next packet, what the packet says, and
    [pSharedSecret]. *)
Record onion_result := mk_onion_result {
  onr_ret : bool;
  onr_next : option bytes;
  onr_data : option ln_hop_dataout_t;
  onr_secret : option bytes;
}.

Definition refused : onion_result := mk_onion_result false None None None.

Definition ln_onion_read_packet (node_priv pPacket pAssocData : bytes)
    : prog utl_push_t onion_result :=
  d ← of_option (sub_bytes pPacket 0 1366);
  let version := take 1 d in
  if negb (bool_decide (version = [0])) then
    set_reason_sha256 pPacket LNONION_INV_ONION_VERSION;; mret refused
  else
    let p_dhkey := sl d 1 33 in
    let p_route := sl d 34 1300 in
    let p_hmac := sl d 1334 32 in
    if negb (btc_keys_chkpub p_dhkey) then
      set_reason_sha256 pPacket LNONION_INV_ONION_KEY;; mret refused
    else
      pub ← of_option (btc_util_mul_pubkey p_dhkey node_priv);
      let shared_secret := onion_sha256 pub in
      let mu_key := generate_key MU shared_secret in
      let next_hmac := ln_misc_calc_mac mu_key (p_route ++ pAssocData) in
      if negb (bool_decide (next_hmac = p_hmac)) then
        set_reason_sha256 pPacket LNONION_INV_ONION_HMAC;;
        mret (mk_onion_result false None None (Some shared_secret))
      else
        let rho_key := generate_key RHO shared_secret in
        let stream_bytes := generate_cipher_stream rho_key M_SZ_STREAM_BYTES in
        let stream_bytes := xor_bytes p_route stream_bytes M_SZ_ROUTING_INFO ++
                            drop M_SZ_ROUTING_INFO stream_bytes in
        if negb (bool_decide (take 1 stream_bytes = [0])) then
          ln_misc_push16be LNONION_INV_REALM;;
          mret (mk_onion_result false None None (Some shared_secret))
        else
          scid ← get_at ln_misc_get64be stream_bytes 1;
          amt ← get_at ln_misc_get64be stream_bytes 9;
          cltv ← get_at ln_misc_get32be stream_bytes 17;
          let blind_factor := compute_blinding_factor p_dhkey shared_secret in
          eph_pubkey ← of_option (blind_group_element p_dhkey blind_factor);
          let hmac := sl stream_bytes 33 32 in
          let next := version ++ eph_pubkey ++ sl stream_bytes 65 1300 ++ hmac in
          mret (mk_onion_result true (Some next)
            (Some (mk_hop (forallb (Z.eqb 0) hmac) scid amt cltv)) (Some shared_secret)).

(** ** Failures on the way back *)

Definition ln_onion_failure_forward (pSharedSecret pPacket : utl_buf_t) : option utl_buf_t :=
  ss ← read_cells (buf pSharedSecret) 32;
  d ← read_cells (buf pPacket) (len pPacket);
  let ammag_key := generate_key AMMAG ss in
  let pNextPacket := (utl_buf_alloc (mk_buf None 0) (len pPacket)).2 in
  let stream_bytes := generate_cipher_stream ammag_key (length d) in
  b ← write_cells (buf pNextPacket) 0 (init_cells (xor_bytes d stream_bytes (length d))) (len pPacket);
  Some (set_buf b pNextPacket).

(** The failure message before it is encrypted, without its MAC. *)
Definition failure_fill (pReason : utl_buf_t) : prog utl_push_t unit :=
  call (utl_push_init (Z.of_nat M_SZ_HMAC + 2 + 2 + DATALEN));;
  modify (set_pos (Z.of_nat M_SZ_HMAC));;
  ln_misc_push16be (len pReason);;
  call (utl_push_data (default [] (buf pReason)) (len pReason));;
  ln_misc_push16be (u32 (DATALEN - len pReason));;
  push_memset 0 (u32 (DATALEN - len pReason)).

Definition ln_onion_failure_create (pSharedSecret pReason : utl_buf_t) : option utl_buf_t :=
  ss ← read_cells (buf pSharedSecret) 32;
  let um_key := generate_key UM ss in
  match failure_fill pReason (mk_push 0 (mk_buf None 0)) with
  | Ret _ proto =>
      m ← read_cells (drop M_SZ_HMAC <$> buf (data proto)) (u32 (pos proto - Z.of_nat M_SZ_HMAC));
      b ← write_cells (buf (data proto)) 0 (init_cells (ln_misc_calc_mac um_key m)) (Z.of_nat M_SZ_HMAC);
      ln_onion_failure_forward pSharedSecret (set_buf b (data proto))
  | _ => None
  end.

(** Whether the [n] bytes from [pos] on are zero. *)
Fixpoint pad_zero (d : bytes) (pos n : nat) : option bool :=
  match n with
  | 0%nat => Some true
  | S n => b ← d !! pos; if b =? 0 then pad_zero d (S pos) n else Some false
  end.

Definition get16_at (d : bytes) (pos : Z) : option Z := ln_misc_get16be (drop (Z.to_nat pos) d).

(** The loop over the hops from [lp] on; [p_in] is the packet as it reached this
    hop. The result: whether a layer was the origin of the failure, its hop and
    the reason. *)
Fixpoint failure_read_loop (n : nat) (lp : Z) (pSharedSecrets p_in : utl_buf_t)
    : option (option (Z * utl_buf_t)) :=
  match n with
  | 0%nat => Some None
  | S n =>
      let sharedsecret := mk_buf (drop (Z.to_nat (32 * lp)) <$> buf pSharedSecrets) 32 in
      p_out ← ln_onion_failure_forward sharedsecret p_in;
      d ← read_cells (buf p_out) (len p_out);
      let next := failure_read_loop n (lp + 1) pSharedSecrets p_out in
      reason_len ← get16_at d 32;
      if reason_len <? DATALEN then
        pad_len ← get16_at d (34 + reason_len);
        if reason_len + pad_len =? DATALEN then
          zero ← pad_zero d (Z.to_nat (36 + reason_len)) (Z.to_nat pad_len);
          if (zero : bool) then
            ss ← read_cells (buf sharedsecret) 32;
            let um_key := generate_key UM ss in
            let hmac := ln_misc_calc_mac um_key (drop M_SZ_HMAC d) in
            if bool_decide (take M_SZ_HMAC d = hmac) then
              pReason ← utl_buf_alloccopy (mk_buf None 0) (init_cells (drop 34 d)) reason_len;
              Some (Some (lp, pReason.2))
            else Some None
          else next
        else next
      else next
  end.

(** The result, [*pHop], and [pReason] where it is written. *)
Definition ln_onion_failure_read (pSharedSecrets pPacket : utl_buf_t) : option (bool * Z * option utl_buf_t) :=
  buf1 ← utl_buf_alloccopy (mk_buf None 0) (default [] (buf pPacket)) (len pPacket);
  x ← failure_read_loop (Z.to_nat (len pSharedSecrets / 32)) 0 pSharedSecrets buf1.2;
  Some (match x with
        | Some (pHop, pReason) => (true, pHop, Some pReason)
        | None => (false, -1, None)
        end).

(** [pOnionErr->reason] *)
Definition ln_onion_read_err (pReason : utl_buf_t) : option Z :=
  d ← read_cells (buf pReason) 2;
  b0 ← d !! 0%nat; b1 ← d !! 1%nat;
  Some (Z.lor (u16 (Z.shiftl b0 8)) b1).

Definition M_EXCHANGE_ENDIAN16 (val : Z) : Z := Z.lor (u16 (Z.shiftr val 8)) (Z.shiftl (Z.land val 0xff) 8).

Definition ln_onion_create_reason_temp_node (pReason : utl_buf_t) : option utl_buf_t :=
  let code := u16 (M_EXCHANGE_ENDIAN16 LNONION_TMP_NODE_FAIL) in
  x ← utl_buf_alloccopy pReason (init_cells (le_bytes 2 code)) 2; Some x.2.

Definition ln_onion_create_reason_perm_node (pReason : utl_buf_t) : option utl_buf_t :=
  let code := u16 (M_EXCHANGE_ENDIAN16 LNONION_PERM_NODE_FAIL) in
  x ← utl_buf_alloccopy pReason (init_cells (le_bytes 2 code)) 2; Some x.2.

End onion.

(** ** What a failure is called *)

Definition ONIONERR : list (Z * string) :=
  [ (LNONION_INV_REALM, "invalid realm"%string); (LNONION_TMP_NODE_FAIL, "temporary_node_failure"%string);
    (LNONION_PERM_NODE_FAIL, "permanent_node_failure"%string);
    (LNONION_REQ_NODE_FTR_MISSING, "required_node_feature_missing"%string);
    (LNONION_INV_ONION_VERSION, "invalid_onion_version"%string);
    (LNONION_INV_ONION_HMAC, "invalid_onion_hmac"%string);
    (LNONION_INV_ONION_KEY, "invalid_onion_key"%string);
    (LNONION_TMP_CHAN_FAIL, "temporary_channel_failure"%string);
    (LNONION_PERM_CHAN_FAIL, "permanent_channel_failure"%string);
    (LNONION_REQ_CHAN_FTR_MISSING, "required_channel_feature_missing"%string);
    (LNONION_UNKNOWN_NEXT_PEER, "unknown_next_peer"%string);
    (LNONION_AMT_BELOW_MIN, "amount_below_minimum"%string);
    (LNONION_FEE_INSUFFICIENT, "fee_insufficient"%string);
    (LNONION_INCORR_CLTV_EXPIRY, "incorrect_cltv_expiry"%string);
    (LNONION_EXPIRY_TOO_SOON, "expiry_too_soon"%string);
    (LNONION_UNKNOWN_PAY_HASH, "unknown_payment_hash"%string);
    (LNONION_INCORR_PAY_AMT, "incorrect_payment_amount"%string);
    (LNONION_FINAL_EXPIRY_TOO_SOON, "final_expiry_too_soon"%string);
    (LNONION_FINAL_INCORR_CLTV_EXP, "final_incorrect_cltv_expiry"%string);
    (LNONION_FINAL_INCORR_HTLC_AMT, "final_incorrect_htlc_amount"%string);
    (LNONION_CHAN_DISABLE, "channel_disabled"%string); (LNONION_EXPIRY_TOO_FAR, "expiry_too_far"%string) ].

(** ["%04x"] of 16 bits *)
Definition hex_digit (d : Z) : string :=
  String.substring (Z.to_nat d) 1 "0123456789abcdef"%string.

Definition hex4 (v : Z) : string :=
  (hex_digit (Z.land (Z.shiftr v 12) 15) ++ hex_digit (Z.land (Z.shiftr v 8) 15) ++
   hex_digit (Z.land (Z.shiftr v 4) 15) ++ hex_digit (Z.land v 15))%string.

Fixpoint errstr_loop (tbl : list (Z * string)) (reason : Z) : string :=
  match tbl with
  | [] => ("unknown reason[" ++ hex4 reason ++ "]")%string
  | (err, str) :: tbl => if reason =? err then str else errstr_loop tbl reason
  end.

Definition ln_onion_get_errstr (reason : Z) : string := errstr_loop ONIONERR reason.

End LnOnion.
