(* ===== verification/LnMsg.v ===== *)
(** What a Lightning message's encoder and decoder promise each other.

    [MsgCodec wf wire create read] is the contract of one [ln_msg_*_create] /
    [ln_msg_*_read] pair: the encoder leaves exactly the wire layout in the
    buffer, the decoder gets the message back whatever follows it, and it
    accepts nothing that does not start with a message's layout. [SafeReader]
    adds that no packet takes the decoder outside the packet or into a failed
    [assert]. The client of the messages (and the theorems below) need only
    the interface; each message file discharges it with [reads_as_codec]. *)
From stdpp Require Import base list numbers vector tactics.
From Stdlib Require Import ZArith Lia.
From S2P Require Import Prelude CProg UtlInt UtlBuf UtlPush LnMisc.
Import UtlInt UtlBuf UtlPush LnMisc.
Open Scope Z_scope.

Module LnMsg.

Section codec.
Context {M : Type}.
Implicit Types (m : M) (d : bytes).

(** Any bytes may follow the message. *)
Definition any_ext (m : M) (rest : bytes) : Prop := True.

(** A packet: bytes whose number fits [uint16_t Len]. *)
Definition packet (d : bytes) : Prop := is_bytes d ∧ Z.of_nat (length d) < 2 ^ 16.

(** [read] called on the whole packet. *)
Definition read_packet (read : bytes → Z → prog M bool) (d : bytes) : prog M bool :=
  call (read d (Z.of_nat (length d))).

(** [upd m0 m] is what a decoder leaves of a struct [m0] when it reads the
    message [m]: the fields that are not on the wire stay. [ext m rest] holds of
    the bytes [rest] that may follow [m]: all of them, unless [m] leaves out an
    optional part that [rest] would be read as. *)
Class MsgCodec (ext : M → bytes → Prop) (upd : M → M → M) (wf : M → Prop) (wire : M → bytes)
    (create : M → prog utl_push_t bool) (read : bytes → Z → prog M bool) : Prop := {
  msg_create m st : wf m →
    call (create m) st = Ret true (mk_push (Z.of_nat (length (wire m))) (of_bytes (wire m)));
  msg_read m0 m rest : wf m → ext m rest → packet (wire m ++ rest) →
    read_packet read (wire m ++ rest) m0 = Ret true (upd m0 m);
  msg_sound m0 d m : packet d → read_packet read d m0 = Ret true m →
    wf m ∧ upd m0 m = m ∧ ∃ rest, ext m rest ∧ d = wire m ++ rest;
}.

Class SafeReader (read : bytes → Z → prog M bool) : Prop :=
  msg_safe m0 d : packet d → ∃ b m, read_packet read d m0 = Ret b m.

(** [reads_as read ok dec]: the decoder accepts exactly the packets [ok], and
    then the struct [m0] becomes [dec m0 d]; otherwise it returns [false]. *)
Definition reads_as (read : bytes → Z → prog M bool) (ok : bytes → bool)
    (dec : M → bytes → M) : Prop :=
  ∀ m0 d, packet d →
    if ok d then read_packet read d m0 = Ret true (dec m0 d)
    else ∃ m, read_packet read d m0 = Ret false m.

Lemma reads_as_true read ok dec (R : reads_as read ok dec) m0 d :
  packet d → ok d = true → read_packet read d m0 = Ret true (dec m0 d).
Proof. intros Hp Hok. specialize (R m0 d Hp). by rewrite Hok in R. Qed.

Lemma reads_as_inv read ok dec (R : reads_as read ok dec) m0 d m :
  packet d → read_packet read d m0 = Ret true m → ok d = true ∧ m = dec m0 d.
Proof.
  intros Hp Hr. specialize (R m0 d Hp). destruct (ok d); [|destruct R]; split; congruence.
Qed.

Lemma reads_as_safe read ok dec : reads_as read ok dec → SafeReader read.
Proof. intros R m0 d Hp. specialize (R m0 d Hp). destruct (ok d); [eauto|destruct R; eauto]. Qed.

(** The same for a decoder that leaves the packet on the packets [bad]. *)
Definition reads_as_ub (read : bytes → Z → prog M bool) (ok bad : bytes → bool)
    (dec : M → bytes → M) : Prop :=
  ∀ m0 d, packet d →
    if ok d then read_packet read d m0 = Ret true (dec m0 d)
    else if bad d then read_packet read d m0 = UB
    else ∃ m, read_packet read d m0 = Ret false m.

Lemma reads_as_ub_codec ext upd wf wire create read ok bad dec :
  (∀ m st, wf m → call (create m) st =
     Ret true (mk_push (Z.of_nat (length (wire m))) (of_bytes (wire m)))) →
  reads_as_ub read ok bad dec →
  (∀ m0 m rest, wf m → ext m rest → packet (wire m ++ rest) →
     ok (wire m ++ rest) = true ∧ dec m0 (wire m ++ rest) = upd m0 m) →
  (∀ m0 d, packet d → ok d = true →
     wf (dec m0 d) ∧ upd m0 (dec m0 d) = dec m0 d ∧
     ∃ rest, ext (dec m0 d) rest ∧ d = wire (dec m0 d) ++ rest) →
  MsgCodec ext upd wf wire create read.
Proof.
  intros Hc Hr Hcomp Hsound. split; [done| |].
  - intros m0 m rest Hm He Hp. specialize (Hr m0 _ Hp).
    destruct (Hcomp m0 m rest Hm He Hp) as [E Ed]. by rewrite E, Ed in Hr.
  - intros m0 d m Hp Hret. specialize (Hr m0 _ Hp). destruct (ok d) eqn:E.
    + rewrite Hr in Hret. injection Hret as <-. by apply Hsound.
    + destruct (bad d); [congruence|]. destruct Hr as [m' Hr]. by rewrite Hr in Hret.
Qed.

Lemma reads_as_codec ext upd wf wire create read ok dec :
  (∀ m st, wf m → call (create m) st =
     Ret true (mk_push (Z.of_nat (length (wire m))) (of_bytes (wire m)))) →
  reads_as read ok dec →
  (∀ m0 m rest, wf m → ext m rest → packet (wire m ++ rest) →
     ok (wire m ++ rest) = true ∧ dec m0 (wire m ++ rest) = upd m0 m) →
  (∀ m0 d, packet d → ok d = true →
     wf (dec m0 d) ∧ upd m0 (dec m0 d) = dec m0 d ∧
     ∃ rest, ext (dec m0 d) rest ∧ d = wire (dec m0 d) ++ rest) →
  MsgCodec ext upd wf wire create read ∧ SafeReader read.
Proof.
  intros Hc Hr Hcomp Hsound. split.
  - by apply (reads_as_ub_codec ext upd wf wire create read ok (λ _, false) dec).
  - intros m0 d Hp. specialize (Hr m0 _ Hp). destruct (ok d); eauto.
Qed.
End codec.

Arguments MsgCodec {M} ext upd wf wire create read.
Arguments SafeReader {M} read.

(** ** What clients get from the interface *)

Section client.
Context {M : Type} {ext : M → bytes → Prop} {upd : M → M → M} {wf : M → Prop}.
Context {wire : M → bytes} {create : M → prog utl_push_t bool} {read : bytes → Z → prog M bool}.
Context {C : MsgCodec ext upd wf wire create read}.

(** The layouts are prefix-free: two packets that start with them and agree
    hold the same message. *)
Lemma codec_wire_inj m0 m1 m2 r1 r2 :
  wf m1 → wf m2 → ext m1 r1 → ext m2 r2 → packet (wire m1 ++ r1) →
  wire m1 ++ r1 = wire m2 ++ r2 → upd m0 m1 = upd m0 m2.
Proof.
  intros H1 H2 E1 E2 Hp E. pose proof (msg_read m0 m1 r1 H1 E1 Hp) as R1.
  rewrite E in R1, Hp. rewrite (msg_read m0 m2 r2 H2 E2 Hp) in R1. congruence.
Qed.

(** What the peer's decoder makes of the buffer the encoder filled. *)
Lemma codec_roundtrip m st m0 :
  wf m → ext m [] → packet (wire m) →
  ∃ st', call (create m) st = Ret true st' ∧ data st' = of_bytes (wire m) ∧
         read_packet read (wire m) m0 = Ret true (upd m0 m).
Proof.
  intros Hm He Hp. eexists. split; [by apply msg_create|]. split; [done|].
  rewrite <- (app_nil_r (wire m)) at 1. apply msg_read; [done|done|]. by rewrite app_nil_r.
Qed.
End client.

(** ** Buffers a message holds *)

(** The buffer [utl_buf_alloccopy] makes of [d]: empty data is the null pointer. *)
Definition buf_of (d : bytes) : utl_buf_t :=
  if bool_decide (d = []) then mk_buf None 0 else of_bytes d.

(** The initialised bytes a buffer holds. *)
Definition buf_data (x : utl_buf_t) : bytes := default [] (read_cells (buf x) (len x)).

Definition buf_canon (x : utl_buf_t) : Prop := x = buf_of (buf_data x) ∧ is_bytes (buf_data x).

Lemma buf_data_of d : buf_data (buf_of d) = d.
Proof.
  unfold buf_data, buf_of. case_bool_decide; [by subst|]. cbn [buf len of_bytes].
  by rewrite read_of_bytes.
Qed.

Lemma buf_canon_of d : is_bytes d → buf_canon (buf_of d).
Proof. intros. unfold buf_canon. by rewrite buf_data_of. Qed.

Lemma len_buf_of d : len (buf_of d) = Z.of_nat (length d).
Proof. unfold buf_of. case_bool_decide; by subst. Qed.

Lemma buf_canon_len x : buf_canon x → len x = Z.of_nat (length (buf_data x)).
Proof. intros [E _]. rewrite E at 1. apply len_buf_of. Qed.

Lemma cells_buf_of d : default [] (buf (buf_of d)) = init_cells d.
Proof. unfold buf_of. case_bool_decide; by subst. Qed.

Lemma buf_canon_eq x : buf_canon x → x = buf_of (buf_data x).
Proof. by intros [E _]. Qed.

Lemma length_buf_data_of d n :
  Z.of_nat (length d) = n → Z.of_nat (length (buf_data (buf_of d))) = n.
Proof. by rewrite buf_data_of. Qed.

Lemma len_buf_sl d p n :
  0 ≤ p → 0 ≤ n → p + n ≤ Z.of_nat (length d) → len (buf_of (sl d p n)) = n.
Proof. intros. by rewrite len_buf_of, length_sl_Z. Qed.

Lemma buf_canon_cells x : buf_canon x → default [] (buf x) = init_cells (buf_data x).
Proof. intros [E _]. rewrite E at 1. apply cells_buf_of. Qed.

Section ops.
Context {A : Alloc}.

(** [utl_push_data(&proto, b.buf, n)] *)
Definition push_buf (b : utl_buf_t) (n : Z) : prog utl_push_t unit :=
  call (utl_push_data (default [] (buf b)) n);; mret tt.

(** [utl_push_data(&proto, p, n)] of a block a message points to. *)
Definition push_ptr (p : option (list cell)) (n : Z) : prog utl_push_t unit :=
  call (utl_push_data (default [] p) n);; mret tt.

(** [p = malloc(n); memcpy(p, pData + pos, n)] *)
Definition malloc_copy_at {S} (pData : bytes) (pos n : Z) : prog S (option (list cell)) :=
  of_option (write_cells (malloc n) 0 (init_cells (drop (Z.to_nat pos) pData)) n).

(** [utl_buf_alloccopy(&b, p, n)] with the result dropped, [p] leading to
    the rest of the packet from [pos]. *)
Definition buf_alloccopy_at {S} (b : utl_buf_t) (pData : bytes) (pos n : Z)
    : prog S utl_buf_t :=
  x ← of_option (utl_buf_alloccopy b (init_cells (drop (Z.to_nat pos) pData)) n);
  mret x.2.

Context {T : AllocTotal A}.

Lemma push_step_buf {B} b k d n (K : unit → prog utl_push_t B) :
  buf_canon b → k = Z.of_nat (length (buf_data b)) →
  Z.of_nat (length d) + k ≤ n → n < 2 ^ 31 →
  (push_buf b k ≫= K) (pushedb d n) = K tt (pushedb (d ++ buf_data b) n).
Proof.
  intros Hb -> Hn Hlt. unfold push_buf. rewrite buf_canon_cells by done.
  by apply push_step_bytes.
Qed.

Lemma alloccopy_step {S B} b d pos n (K : utl_buf_t → prog S B) s :
  0 ≤ pos → 0 ≤ n → pos + n ≤ Z.of_nat (length d) →
  (buf_alloccopy_at b d pos n ≫= K) s = K (buf_of (sl d pos n)) s.
Proof.
  intros Hp Hn Hd. apply bind_ret. unfold buf_alloccopy_at.
  rewrite <- (take_drop (Z.to_nat n) (drop (Z.to_nat pos) d)), init_cells_app.
  fold (sl d pos n).
  replace n with (Z.of_nat (length (sl d pos n))) at 3 by (rewrite length_sl; lia).
  by rewrite alloccopy_bytes.
Qed.

(** [if (b.len > 0) utl_push_data(&proto, b.buf, b.len)] *)
Lemma push_step_buf_opt {B} b k d n (K : unit → prog utl_push_t B) :
  buf_canon b → k = Z.of_nat (length (buf_data b)) →
  Z.of_nat (length d) + k ≤ n → n < 2 ^ 31 →
  ((if 0 <? k then push_buf b k else mret tt) ≫= K) (pushedb d n) =
  K tt (pushedb (d ++ buf_data b) n).
Proof.
  intros Hb -> Hn Hlt. destruct (Z.ltb_spec 0 (Z.of_nat (length (buf_data b)))).
  - by apply push_step_buf.
  - destruct (buf_data b); [by rewrite app_nil_r | cbn [length] in *; lia].
Qed.

(** [memset(pBuf->buf + proto.pos, v, k); proto.pos += k] *)
Lemma push_step_memset {B} v k d n (K : unit → prog utl_push_t B) :
  0 ≤ k → Z.of_nat (length d) + k ≤ n → n < 2 ^ 31 →
  (push_memset v k ≫= K) (pushedb d n) =
  K tt (pushedb (d ++ replicate (Z.to_nat k) v) n).
Proof.
  intros Hk Hn Hlt. apply bind_ret. unfold pushedb.
  rewrite init_cells_app. unfold init_cells at 3. rewrite fmap_replicate.
  apply push_memset_spec; rewrite ?length_init_cells; lia.
Qed.

Lemma push_step_ptr {B} p c k d n (K : unit → prog utl_push_t B) :
  p = Some (init_cells c) → k = Z.of_nat (length c) →
  Z.of_nat (length d) + k ≤ n → n < 2 ^ 31 →
  (push_ptr p k ≫= K) (pushedb d n) = K tt (pushedb (d ++ c) n).
Proof. intros -> -> Hn Hlt. unfold push_ptr. by apply push_step_bytes. Qed.

Lemma malloc_copy_step {S B} d pos n (K : option (list cell) → prog S B) s :
  0 ≤ pos → 0 ≤ n → pos + n ≤ Z.of_nat (length d) →
  (malloc_copy_at d pos n ≫= K) s = K (Some (init_cells (sl d pos n))) s.
Proof.
  intros Hp Hn Hd. apply bind_ret. unfold malloc_copy_at. rewrite malloc_eq.
  unfold write_cells. destruct (Z.eqb_spec n 0) as [->|Hne]; [done|]. cbv iota.
  rewrite bool_decide_eq_true_2
    by (rewrite length_junk, length_init_cells, length_drop; lia).
  rewrite (drop_ge (junk n)) by (rewrite length_junk; lia). rewrite app_nil_r.
  cbn [take Z.to_nat app]. unfold sl, init_cells. by rewrite fmap_take.
Qed.

Lemma malloc_copy_oob {S B} d pos n (K : option (list cell) → prog S B) s :
  0 ≤ pos → 0 < n → Z.of_nat (length d) < pos + n →
  (malloc_copy_at d pos n ≫= K) s = UB.
Proof.
  intros Hp Hn Hd. apply bind_ub. unfold malloc_copy_at. rewrite malloc_eq.
  unfold write_cells. rewrite (proj2 (Z.eqb_neq _ _)) by lia. cbv iota.
  rewrite bool_decide_eq_false_2; [done|]. rewrite length_init_cells, length_drop. lia.
Qed.
End ops.

(** ** One decoder step *)

Section read_steps.
Context {S B : Type}.
Implicit Types (s : S).

Lemma bind_assoc {C D} (m : prog S C) (f : C → prog S D) (K : D → prog S B) s :
  ((m ≫= f) ≫= K) s = (m ≫= (λ x, f x ≫= K)) s.
Proof. unfold mbind, prog_bind. by destruct (m s). Qed.

Lemma bind_mret {C} (a : C) (K : C → prog S B) s : (mret a ≫= K) s = K a s.
Proof. done. Qed.

Lemma exit_no c b (K : unit → prog S B) s :
  c = false → (exit_if c b ≫= K) s = K tt s.
Proof. by intros ->. Qed.

Lemma exit_step c b (K : unit → prog S B) s :
  (exit_if c b ≫= K) s = if c then Exit b s else K tt s.
Proof. by destruct c. Qed.

Lemma rd_step d p n (K : bytes → prog S B) s :
  0 ≤ p → 0 ≤ n → p + n ≤ Z.of_nat (length d) → (rd_bytes d p n ≫= K) s = K (sl d p n) s.
Proof. intros. apply bind_ret. by apply rd_bytes_sl. Qed.

Lemma rd_step_oob d p n (K : bytes → prog S B) s :
  ¬ (0 ≤ p ∧ 0 ≤ n ∧ p + n ≤ Z.of_nat (length d)) → (rd_bytes d p n ≫= K) s = UB.
Proof. intros. apply bind_ub. by apply rd_bytes_oob. Qed.

Lemma get16_step d p (K : Z → prog S B) s :
  is_bytes d → 0 ≤ p → p + 2 ≤ Z.of_nat (length d) →
  (get_at ln_misc_get16be d p ≫= K) s = K (be_val (sl d p 2)) s.
Proof. intros. apply bind_ret. by apply get16be_sl. Qed.

Lemma get16_oob d p (K : Z → prog S B) s :
  Z.of_nat (length d) < p + 2 → (get_at ln_misc_get16be d p ≫= K) s = UB.
Proof.
  intros. apply bind_ub. apply (get_at_oob _ 2 be_val); [exact pack_u16be_spec|lia|lia].
Qed.

Lemma get32_step d p (K : Z → prog S B) s :
  is_bytes d → 0 ≤ p → p + 4 ≤ Z.of_nat (length d) →
  (get_at ln_misc_get32be d p ≫= K) s = K (be_val (sl d p 4)) s.
Proof. intros. apply bind_ret. by apply get32be_sl. Qed.

Lemma get64_step d p (K : Z → prog S B) s :
  is_bytes d → 0 ≤ p → p + 8 ≤ Z.of_nat (length d) →
  (get_at ln_misc_get64be d p ≫= K) s = K (be_val (sl d p 8)) s.
Proof. intros. apply bind_ret. by apply get64be_sl. Qed.
End read_steps.

Lemma call_ret {S} (m : prog S bool) s b s' : m s = Ret b s' → call m s = Ret b s'.
Proof. unfold call, run. by intros ->. Qed.

Lemma call_exit {S} (m : prog S bool) s b s' : m s = Exit b s' → call m s = Ret b s'.
Proof. unfold call, run. by intros ->. Qed.

Lemma call_ub {S} (m : prog S bool) s : m s = UB → call m s = UB.
Proof. unfold call, run. by intros ->. Qed.

Lemma len_pushedb d n : len (data (pushedb d n)) = n.
Proof. done. Qed.

Lemma create_done n d w :
  d = w → n = Z.of_nat (length d) →
  Ret true (mk_push n (of_bytes d)) =
  Ret true (mk_push (Z.of_nat (length w)) (of_bytes w)).
Proof. by intros -> ->. Qed.

(** ** Running encoders and decoders *)

Ltac len_side :=
  unfold packet, in_range in *; autorewrite with ptarm in *; cbn [length] in *; try lia.

(** What a message file adds to the steps below. *)
Ltac wf_hook := idtac.
Ltac proj_red := idtac.
Ltac push_hook := fail.
Ltac read_hook := fail.
Ltac red_hook := idtac.
Ltac sl_hook := fail.
Ltac sl_wf_hook := fail.
Ltac sl_red_hook := idtac.
Ltac dec_hook := fail.

(** Split the well-formedness hypothesis of the message. *)
Ltac split_and_hyps :=
  repeat match goal with H : _ ∧ _ |- _ => destruct H end;
  wf_hook;
  repeat match goal with
  | H : buf_canon ?x |- _ =>
      lazymatch goal with
      | _ : len x = _ |- _ => fail
      | |- _ => pose proof (buf_canon_len x H)
      end
  end.

(** Facts about each element of a list given element by element. *)
Ltac split_forall :=
  repeat match goal with
  | H : Forall _ (vec_to_list (_ ::: _)) |- _ => cbn [vec_to_list] in H
  | H : Forall _ (_ :: _) |- _ => apply Forall_cons_1 in H; destruct H
  end.

Ltac push_step :=
  first
    [ push_hook | rewrite push_step_init by len_side | rewrite push_step_8 by len_side
    | rewrite push_step_16 by len_side | rewrite push_step_32 by len_side
    | rewrite push_step_64 by len_side | rewrite push_step_bytes by len_side
    | rewrite push_step_buf by (first [done | len_side])
    | rewrite push_step_buf_opt by (first [done | len_side])
    | rewrite push_step_memset by len_side
    | erewrite push_step_ptr by (first [eassumption | len_side])
    | rewrite bind_assoc | rewrite bind_mret
    | rewrite exit_no by (rewrite ?orb_false_iff, ?negb_false_iff; first [done | len_side])
    | rewrite bind_get_st; rewrite ?len_pushedb | rewrite bind_assert by len_side
    | rewrite push_step_trim by len_side ]; cbv beta.

Ltac assert_side :=
  first [ solve [len_side]
        | repeat match goal with |- context [if ?c then _ else _] => destruct c eqn:? end; lia ].

Ltac read_step :=
  first
    [ read_hook | rewrite rd_step by len_side | rewrite rd_byte_step by len_side | rewrite get16_step by (first [done | len_side])
    | rewrite get32_step by (first [done | len_side])
    | rewrite get64_step by (first [done | len_side])
    | rewrite bind_assoc | rewrite bind_mret
    | rewrite bind_get_st | rewrite bind_modify | rewrite alloccopy_step by len_side
    | rewrite malloc_copy_step by len_side
    | rewrite bind_assert by assert_side ]; cbv beta zeta.

Ltac codec_create :=
  intros m st Hwf; hnf in Hwf; split_and_hyps;
  match goal with |- call (?f m) _ = _ => unfold f end;
  apply call_ret; repeat push_step;
  apply create_done; [by rewrite ?app_nil_l, <- ?app_assoc | len_side].

(** What a function call returns for the way its body ended. *)
Definition returned {S} (r : out S bool) : out S bool :=
  match r with
  | Ret b s | Exit b s => Ret b s
  | UB => UB
  | AbortOut => AbortOut
  end.

Lemma call_returned {S} (m : prog S bool) s : call m s = returned (m s).
Proof. unfold call, run. by destruct (m s). Qed.

(** Add up the literal offsets. *)
Ltac is_lit z :=
  lazymatch z with Z0 => idtac | Zpos _ => idtac | Zneg _ => idtac end.
Ltac add_lits :=
  repeat match goal with
  | |- context [Z.add ?a ?b] =>
      is_lit a; is_lit b; let c := eval vm_compute in (Z.add a b) in change (Z.add a b) with c
  | |- context [Z.mul ?a ?b] =>
      is_lit a; is_lit b; let c := eval vm_compute in (Z.mul a b) in change (Z.mul a b) with c
  end.

(** Boolean conditions as facts. *)
Ltac cond_facts H :=
  rewrite ?negb_true_iff, ?negb_false_iff, ?andb_true_iff, ?andb_false_iff,
    ?orb_true_iff, ?orb_false_iff, ?Z.leb_le, ?Z.leb_gt, ?Z.ltb_lt, ?Z.ltb_ge,
    ?Z.eqb_eq, ?Z.eqb_neq in H.

(** The facts at hand contradict each other. *)
Ltac absurd_facts := exfalso; first [lia | intuition (first [congruence | lia])].

(** An early [return]: decided by the facts at hand, or both ways. *)
Ltac exit_branch :=
  rewrite exit_step; cbv beta; red_hook;
  match goal with
  | |- context [if ?c then Exit _ _ else _] =>
      let H := fresh "Hc" in
      destruct c eqn:H; cond_facts H;
      [ first [eexists; reflexivity | reflexivity | absurd_facts]
      | try (exfalso; lia) ]; cbv beta iota
  end.

(** A choice between two statements. *)
Ltac if_branch :=
  match goal with
  | |- context [((if ?c then _ else _) ≫= _) _] =>
      let H := fresh "Hc" in destruct c eqn:H; cond_facts H
  end.

(** The range of every integer read so far, once each. *)
Ltac pose_range v Hr :=
  lazymatch goal with
  | _ : 0 ≤ v < _ |- _ => fail
  | |- _ => pose proof Hr
  end.
Ltac be_ranges :=
  repeat match goal with
  | H : is_bytes ?d |- context [be_val (sl ?d ?p ?n)] =>
      pose_range (be_val (sl d p n))
        (be_val_range (sl d p n) (sl_is_bytes d p n H) : 0 ≤ be_val (sl d p n) < _)
  end.

Ltac run_steps := be_ranges; repeat first [ progress add_lits | read_step; be_ranges | exit_branch | progress red_hook | if_branch ].

Ltac codec_reads :=
  intros m0 d [Hd Hlt];
  match goal with |- if ?o d then _ else _ =>
    let Hok := fresh "Hok" in destruct (o d) eqn:Hok; unfold o in Hok; cond_facts Hok
  end;
  match goal with |- context [read_packet ?r] => unfold read_packet, r end;
  rewrite call_returned; run_steps; first [reflexivity | absurd_facts | dec_hook].

(** The laws between the layout and the decoder's slices. *)
Ltac sl_step :=
  first
    [ sl_hook
    | match goal with
      | |- context [sl (?a ++ ?b) ?p ?n] =>
          first [ rewrite (sl_head a b p n) by len_side | rewrite (sl_app_r a b p n) by len_side ]
      | |- context [sl ?a ?p ?n] => rewrite (sl_all a p n) by len_side
      end
    | match goal with H : buf_canon ?x |- context [buf_of (buf_data ?x)] => rewrite <- (buf_canon_eq x H) end
    | rewrite (be_val_be_bytes_small 8 1) by done
    | rewrite (be_val_be_bytes_small 16 2) by done
    | rewrite (be_val_be_bytes_small 32 4) by done
    | rewrite (be_val_be_bytes_small 64 8) by done ].

Ltac codec_complete :=
  intros m0 m rest Hwf _ [_ Hlen]; hnf in Hwf; split_and_hyps;
  match goal with |- ?o _ = true ∧ _ = ?r =>
    unfold o;
    match goal with |- context [?w m ++ rest] => unfold w in *; rewrite <- !app_assoc in * end
  end;
  split; [ repeat sl_step; rewrite ?andb_true_iff, ?Z.leb_le, ?Z.ltb_lt, ?Z.eqb_eq; repeat split;
           lazymatch goal with
           | |- bool_decide _ = true => by apply bool_decide_eq_true_2
           | |- _ => len_side
           end
         | match goal with |- ?f m0 _ = _ => unfold f end; repeat sl_step; by destruct m ].

Ltac sl_red := proj_red; rewrite ?buf_data_of, ?len_buf_sl by lia; sl_red_hook.

Ltac sl_wf :=
  be_ranges;
  repeat match goal with |- _ ∧ _ => split | |- _ = true → _ => intros ? end; sl_red;
  first
    [ sl_wf_hook | apply sl_is_bytes; done
    | apply buf_canon_of, sl_is_bytes; done
    | apply length_buf_data_of, length_sl_Z; lia
    | apply length_sl_Z; lia
    | apply be_val_sl_range; first [done | lia] | assumption | lia | discriminate ].

(** Turn the layout of a decoded message back into the packet. *)
Ltac sl_merge :=
  match goal with H : be_bytes 2 _ = sl ?d 0 2 |- _ = ?w _ ++ _ =>
    unfold w; be_ranges; sl_red; rewrite H; rewrite ?be_bytes_sl by (first [done | lia | reflexivity]);
    repeat rewrite sl_app by lia; apply sl_rest
  end.

Ltac codec_sound :=
  intros m0 d [Hd Hlen] Hok;
  match type of Hok with ?o _ = true => unfold o in Hok end; cond_facts Hok;
  rewrite ?bool_decide_eq_true in Hok; split_and_hyps;
  match goal with Htype : be_val (sl d 0 2) = ?t |- _ =>
    assert (be_bytes 2 t = sl d 0 2) as Ht
      by (rewrite <- Htype; apply be_bytes_sl; first [done | lia])
  end;
  match goal with |- ?w (?f m0 d) ∧ _ =>
    unfold f; split; [ hnf; sl_wf | split; [ reflexivity | eexists; split; [exact I | sl_merge] ] ]
  end.

End LnMsg.
