(* ===== verification/LnSig.v ===== *)
(** Signatures: the DER codec of [ln/ln_misc.c] ([ln_misc_sigexpand],
    [ln_misc_sigtrim]) and the BIP-66 check of [btc/btc_tx.c]
    ([is_valid_signature_encoding]). *)
From stdpp Require Import base list numbers tactics.
From Stdlib Require Import ZArith Lia.
From S2P Require Import Prelude CProg UtlBuf UtlPush LnMisc LnMsg.
Import UtlBuf UtlPush LnMisc LnMsg.
Open Scope Z_scope.

Module LnSig.

(** ** The code *)

(** [b & 0x80] *)
Definition top_bit (b : Z) : bool := negb (Z.land b 0x80 =? 0).

Section check.
Context {S : Type}.

Definition is_valid_signature_encoding (sig : bytes) (size : Z) : prog S bool :=
exit_if (size <? 9) false;;
exit_if (73 <? size) false;;
b0 ← rd_byte sig 0;
exit_if (negb (b0 =? 0x30)) false;;
b1 ← rd_byte sig 1;
exit_if (negb (b1 =? size - 3)) false;;
lenR ← rd_byte sig 3;
exit_if (size <=? 5 + lenR) false;;
lenS ← rd_byte sig (5 + lenR);
exit_if (negb (lenR + lenS + 7 =? size)) false;;
b2 ← rd_byte sig 2;
exit_if (negb (b2 =? 0x02)) false;;
exit_if (lenR =? 0) false;;
b4 ← rd_byte sig 4;
exit_if (top_bit b4) false;;
bad ← (if (1 <? lenR) && (b4 =? 0x00)
       then b5 ← rd_byte sig 5; mret (negb (top_bit b5)) else mret false);
exit_if bad false;;
c ← rd_byte sig (lenR + 4);
exit_if (negb (c =? 0x02)) false;;
exit_if (lenS =? 0) false;;
c6 ← rd_byte sig (lenR + 6);
exit_if (top_bit c6) false;;
bad ← (if (1 <? lenS) && (c6 =? 0x00)
       then c7 ← rd_byte sig (lenR + 7); mret (negb (top_bit c7)) else mret false);
exit_if bad false;;
mret true.

(** The loop that removes leading zeros in [ln_misc_sigtrim]: its bound
  [sz - 1] shrinks as it runs. The result is [sz] and [p] after it. *)
Fixpoint trim_loop (fuel : nat) (pBuf : bytes) (lp sz p : Z) : prog S (Z * Z) :=
match fuel with
| O => ub
| Datatypes.S fuel =>
    if lp <? sz - 1
    then b ← rd_byte pBuf p;
         if negb (b =? 0) then mret (sz, p)
         else trim_loop fuel pBuf (lp + 1) (u8 (sz - 1)) (p + 1)
    else mret (sz, p)
end.

(** The loop that skips leading zeros in [ln_misc_sigexpand]. *)
Fixpoint skip_loop (n : nat) (pBuf : bytes) (p len : Z) : prog S (Z * Z) :=
match n with
| O => mret (p, len)
| Datatypes.S n =>
    b ← rd_byte pBuf p;
    if negb (b =? 0) then mret (p, len) else skip_loop n pBuf (p + 1) (u8 (len - 1))
end.
End check.

(** [memset]/[memcpy] to [pSig + off], the state being the object [pSig] leads to. *)
Definition store (off : Z) (src : bytes) : prog bytes unit := λ s,
  if bool_decide (0 ≤ off ∧ off + Z.of_nat (length src) ≤ Z.of_nat (length s))
  then Ret tt (take (Z.to_nat off) s ++ src ++ drop (Z.to_nat off + length src) s)
  else UB.

(** One integer of [ln_misc_sigtrim]: [32 - sz] zeros and its [sz] bytes at
    [pSig + o]; the result is [o] and [p] after it. *)
Definition trim_int (pBuf : bytes) (o p sz : Z) : prog bytes (Z * Z) :=
  r ← trim_loop 256 pBuf 0 sz p;
  let '(sz, p) := r in
  exit_if (32 <? sz) false;;
  (if sz <? 32 then store o (replicate (Z.to_nat (32 - sz)) 0) else mret tt);;
  let o := (if sz <? 32 then o + (32 - sz) else o) in
  v ← rd_bytes pBuf p sz;
  store o v;;
  mret (o + sz, p + sz).

Definition ln_misc_sigtrim (pBuf : bytes) : prog bytes bool :=
  b1 ← rd_byte pBuf 1;
  let sz := u8 (b1 - 4) in
  sz_r ← rd_byte pBuf 3;
  sz_s ← rd_byte pBuf (4 + sz_r + 1);
  let p := 4 in
  exit_if (negb (sz =? sz_r + sz_s)) false;;
  r ← trim_int pBuf 0 p sz_r;
  let '(o, p) := r in
  trim_int pBuf o (p + 2) sz_s;;
  mret true.

Section expand.
Context {A : Alloc}.

(** [utl_push_data(&push, p, n)] with [p] inside [pBuf]. *)
Definition push_from (pBuf : bytes) (p n : Z) : prog utl_push_t unit :=
push_bytes (drop (Z.to_nat p) pBuf) n.

Definition ln_misc_sigexpand (pBuf : bytes) : prog utl_push_t unit :=
r ← skip_loop 31 pBuf 0 32;
let '(r_p, r_len) := r in
r0 ← rd_byte pBuf r_p;
let r_len := (if top_bit r0 then u8 (r_len + 1) else r_len) in
s ← skip_loop 31 pBuf 32 32;
let '(s_p, s_len) := s in
s0 ← rd_byte pBuf s_p;
let s_len := (if top_bit s0 then u8 (s_len + 1) else s_len) in
call (utl_push_init (7 + r_len + s_len));;
push_bytes [0x30; u8 (4 + r_len + s_len); 0x02; r_len] 4;;
(if top_bit r0 then push_bytes [0x00] 1 else mret tt);;
let r_len := (if top_bit r0 then u8 (r_len - 1) else r_len) in
push_from pBuf r_p r_len;;
push_bytes [0x02; s_len] 2;;
(if top_bit s0 then push_bytes [0x00] 1 else mret tt);;
let s_len := (if top_bit s0 then u8 (s_len - 1) else s_len) in
push_from pBuf s_p s_len;;
push_bytes [0x01] 1.
End expand.

(** ** DER integers *)

Lemma top_bit_spec b : is_byte b → top_bit b = (128 <=? b).
Proof.
  intros Hb. assert (Forall (λ n, top_bit (Z.of_nat n) = (128 <=? Z.of_nat n)) (seq 0 256)) as H
    by by_compute.
  rewrite Forall_forall in H. unfold is_byte in Hb.
  specialize (H (Z.to_nat b)). rewrite Z2Nat.id in H by lia. apply H, in_seq. lia.
Qed.

(** [x] without its leading zeros, at most [n] of them. *)
Fixpoint strip (n : nat) (x : bytes) : bytes :=
  match n, x with
  | S n, b :: x' => if b =? 0 then strip n x' else x
  | _, _ => x
  end.

(** The shortest non-negative DER integer of a 32-byte number. *)
Definition der_int (x : bytes) : bytes :=
  match strip 31 x with
  | b :: t => if 128 <=? b then 0 :: b :: t else b :: t
  | [] => []
  end.

(** The DER signature with SIGHASH_ALL. *)
Definition der (r s : bytes) : bytes :=
  let zr := Z.of_nat (length (der_int r)) in
  let zs := Z.of_nat (length (der_int s)) in
  [0x30; 4 + zr + zs; 0x02; zr] ++ der_int r ++ [0x02; zs] ++ der_int s ++ [0x01].

(** What stripping leaves of a number: its last bytes, the first of them not
    zero unless it is the only one. *)
Lemma strip_spec n x :
  (n < length x)%nat →
  ∃ k b t, x = replicate k 0 ++ b :: t ∧ strip n x = b :: t ∧ (k ≤ n)%nat ∧
    (b = 0 → k = n).
Proof.
  revert x. induction n as [|n IH]; intros x Hl.
  - destruct x as [|b t]; [cbn in Hl; lia|]. exists 0%nat, b, t. done.
  - destruct x as [|b x]; [cbn in Hl; lia|]. cbn [strip length] in *.
    destruct (Z.eqb_spec b 0) as [->|Hne].
    + destruct (IH x) as (k & c & t & -> & -> & Hk & Hz); [lia|].
      exists (S k), c, t. split; [done|]. split; [done|]. split; lia.
    + exists 0%nat, b, x. split; [done|]. split; [done|]. split; [lia|done].
Qed.

(** The form every 32-byte number takes in DER. *)
Lemma der_int_spec x :
  is_bytes x → length x = 32%nat →
  ∃ k b t, x = replicate k 0 ++ b :: t ∧ strip 31 x = b :: t ∧ is_byte b ∧
    (k + S (length t) = 32)%nat ∧ (b = 0 → t = []) ∧
    der_int x = (if 128 <=? b then [0] else []) ++ b :: t.
Proof.
  intros Hx Hl. destruct (strip_spec 31 x) as (k & b & t & -> & Hs & Hk & Hz); [lia|].
  rewrite length_app, length_replicate in Hl. cbn [length] in Hl.
  exists k, b, t. apply Forall_app in Hx as [_ [Hb _]%Forall_cons_1].
  split_and!; try done.
  - intros Hb0. specialize (Hz Hb0). destruct t; [done|cbn [length] in Hl; lia].
  - unfold der_int. rewrite Hs. by destruct (128 <=? b).
Qed.

(** ** Running the loops *)

Section loops.
Context {St : Type}.
Implicit Types (s : St).

Lemma skip_loop_spec n pBuf p len k b rest s :
at_pos pBuf p (replicate k 0 ++ b :: rest) → (k ≤ n)%nat → (b = 0 → k = n) →
Z.of_nat k ≤ len < 256 →
skip_loop n pBuf p len s = Ret (p + Z.of_nat k, len - Z.of_nat k) s.
Proof.
revert p len k. induction n as [|n IH]; intros p len k Hat Hk Hb Hl.
- assert (k = 0)%nat as -> by lia. cbn [skip_loop]. by rewrite Z.add_0_r, Z.sub_0_r.
- cbn [skip_loop]. destruct k as [|k]; cbn [replicate app] in Hat.
  + erewrite rd_byte_at by exact Hat. destruct (Z.eqb_spec b 0); [lia|]. cbn [negb].
    by rewrite Z.add_0_r, Z.sub_0_r.
  + erewrite rd_byte_at by exact Hat. cbn [Z.eqb negb].
    rewrite IH with (k := k); [f_equal; f_equal; rewrite ?wrap_small; unfold in_range; lia|..].
    * by eapply at_pos_cons.
    * lia.
    * intros ->. specialize (Hb eq_refl). lia.
    * rewrite wrap_small; unfold in_range; lia.
Qed.

(** The zero removal stops at once on a number without a leading zero. *)
Lemma trim_loop_stop f pBuf lp p b t rest s :
at_pos pBuf p (b :: t ++ rest) → (b = 0 → t = []) → 0 ≤ lp →
trim_loop (S f) pBuf lp (Z.of_nat (S (length t))) p s =
Ret (Z.of_nat (S (length t)), p) s.
Proof.
intros Hat Hb Hlp. cbn [trim_loop]. destruct (Z.ltb_spec lp (Z.of_nat (S (length t)) - 1)).
- erewrite rd_byte_at by done. destruct (Z.eqb_spec b 0) as [->|]; [|done].
  rewrite Hb in * by done. cbn [length] in *. lia.
- done.
Qed.

Lemma trim_loop_der f pBuf p b t rest s :
is_byte b → (length t < 32)%nat → (b = 0 → t = []) →
at_pos pBuf p ((if 128 <=? b then [0] else []) ++ b :: t ++ rest) →
let pad := if 128 <=? b then 1 else 0 in
trim_loop (S (S f)) pBuf 0 (pad + Z.of_nat (S (length t))) p s =
Ret (Z.of_nat (S (length t)), p + pad) s.
Proof.
intros Hby Ht Hb Hat. cbv zeta. destruct (Z.leb_spec 128 b).
- cbn [app] in Hat. remember (S f) as g eqn:Eg. cbn [trim_loop].
  rewrite (proj2 (Z.ltb_lt _ _)) by lia. erewrite rd_byte_at by exact Hat. cbn [Z.eqb negb].
  rewrite wrap_small by (unfold in_range; lia).
  replace (1 + Z.of_nat (S (length t)) - 1) with (Z.of_nat (S (length t))) by lia.
  subst g. apply (trim_loop_stop _ _ _ _ b t rest); [by eapply at_pos_cons|done|lia].
- rewrite Z.add_0_l, Z.add_0_r. by apply (trim_loop_stop _ _ _ _ b t rest).
Qed.
End loops.

Lemma store_step {B} off src (K : unit → prog bytes B) s :
  0 ≤ off → off + Z.of_nat (length src) ≤ Z.of_nat (length s) →
  (store off src ≫= K) s =
  K tt (take (Z.to_nat off) s ++ src ++ drop (Z.to_nat off + length src) s).
Proof. intros. apply bind_ret. unfold store. by rewrite bool_decide_eq_true_2 by lia. Qed.

(** One integer of a signature is written back to its 32 bytes. *)
Lemma trim_int_der pBuf o p x rest pSig :
  is_bytes x → length x = 32%nat → at_pos pBuf p (der_int x ++ rest) →
  0 ≤ o → o + 32 ≤ Z.of_nat (length pSig) →
  trim_int pBuf o p (Z.of_nat (length (der_int x))) pSig =
  Ret (o + 32, p + Z.of_nat (length (der_int x)))
    (take (Z.to_nat o) pSig ++ x ++ drop (Z.to_nat o + 32) pSig).
Proof.
  intros Hx Hl Hat Ho Hlen.
  destruct (der_int_spec x Hx Hl) as (k & b & t & -> & _ & Hb & Hk & Hz & Ed).
  rewrite Ed in *. set (pad := if 128 <=? b then 1 else 0).
  assert (Z.of_nat (length ((if 128 <=? b then [0] else []) ++ b :: t)) =
          pad + Z.of_nat (S (length t))) as El.
  { rewrite length_app. subst pad. destruct (128 <=? b); cbn [length]; lia. }
  rewrite El. unfold trim_int. rewrite <- app_assoc in Hat.
  rewrite (bind_ret _ _ _ _ _ (trim_loop_der 254 pBuf p b t rest pSig Hb ltac:(lia) Hz Hat)).
  fold pad. cbv beta iota. rewrite exit_no by (apply Z.ltb_ge; lia).
  assert (at_pos pBuf (p + pad) ((b :: t) ++ rest)) as Hat'.
  { subst pad. destruct (128 <=? b); [by eapply at_pos_cons|by rewrite Z.add_0_r]. }
  set (n := Z.of_nat (S (length t))) in *.
  assert ((if n <? 32 then store o (replicate (Z.to_nat (32 - n)) 0) else mret tt) pSig =
          Ret tt (take (Z.to_nat o) pSig ++ replicate k 0 ++ drop (Z.to_nat o + k) pSig)) as Es.
  { replace (Z.to_nat (32 - n)) with k by lia. destruct (Z.ltb_spec n 32).
    - unfold store. rewrite length_replicate. by rewrite bool_decide_eq_true_2 by lia.
    - replace k with 0%nat by lia. rewrite Nat.add_0_r. cbn [replicate app].
      by rewrite take_drop. }
  rewrite (bind_ret _ _ _ _ _ Es). cbv zeta.
  replace (if n <? 32 then o + (32 - n) else o) with (o + Z.of_nat k)
    by (destruct (Z.ltb_spec n 32); lia).
  erewrite bind_ret by (eapply (rd_bytes_at _ _ (b :: t)); [exact Hat'|done]).
  rewrite store_step
    by (rewrite ?length_app, ?length_take, ?length_drop, ?length_replicate; cbn [length]; lia).
  unfold mret, prog_ret. f_equal; [f_equal; lia|].
  assert (length (take (Z.to_nat o) pSig ++ replicate k 0) = Z.to_nat (o + Z.of_nat k)) as Ek
    by (rewrite length_app, length_take, length_replicate; lia).
  rewrite (app_assoc (take _ pSig)). rewrite take_app_length' by done.
  rewrite drop_app_ge, drop_drop, Ek by lia.
  replace (Z.to_nat o + k + _)%nat with (Z.to_nat o + 32)%nat by (cbn [length]; lia).
  by rewrite <- !app_assoc.
Qed.

(** ** The three functions on DER signatures *)

Lemma length_der_int x :
  is_bytes x → length x = 32%nat → 1 ≤ Z.of_nat (length (der_int x)) ≤ 33.
Proof.
  intros Hx Hl. destruct (der_int_spec x Hx Hl) as (k & b & t & _ & _ & _ & Hk & _ & ->).
  rewrite length_app. destruct (128 <=? b); cbn [length]; lia.
Qed.

Lemma is_bytes_der_int x : is_bytes x → length x = 32%nat → is_bytes (der_int x).
Proof.
  intros Hx Hl. destruct (der_int_spec x Hx Hl) as (k & b & t & E & _ & _ & _ & _ & ->).
  rewrite E in Hx. apply Forall_app in Hx as [_ Hx]. apply Forall_app. split; [|done].
  destruct (128 <=? b); by repeat constructor.
Qed.

Lemma length_der r s :
  length (der r s) = (7 + length (der_int r) + length (der_int s))%nat.
Proof. unfold der. rewrite !length_app. cbn [length]. lia. Qed.

(** Positions in a DER signature. *)
Lemma der_at r s :
  let zr := Z.of_nat (length (der_int r)) in
  let zs := Z.of_nat (length (der_int s)) in
  at_pos (der r s) 1 ([4 + zr + zs; 0x02; zr] ++ der_int r ++ [0x02; zs] ++ der_int s ++ [0x01]) ∧
  at_pos (der r s) 2 ([0x02; zr] ++ der_int r ++ [0x02; zs] ++ der_int s ++ [0x01]) ∧
  at_pos (der r s) 3 ([zr] ++ der_int r ++ [0x02; zs] ++ der_int s ++ [0x01]) ∧
  at_pos (der r s) 4 (der_int r ++ [0x02; zs] ++ der_int s ++ [0x01]) ∧
  at_pos (der r s) (zr + 4) ([0x02; zs] ++ der_int s ++ [0x01]) ∧
  at_pos (der r s) (5 + zr) ([zs] ++ der_int s ++ [0x01]) ∧
  at_pos (der r s) (zr + 6) (der_int s ++ [0x01]).
Proof.
  cbv zeta. pose proof (at_pos_0 (der r s)) as H0. unfold der in H0 at 2. cbn [app] in H0.
  assert (H1 := at_pos_cons _ _ _ _ 1 H0 eq_refl). assert (H2 := at_pos_cons _ _ _ _ 2 H1 eq_refl).
  assert (H3 := at_pos_cons _ _ _ _ 3 H2 eq_refl). assert (H4 := at_pos_cons _ _ _ _ 4 H3 eq_refl).
  assert (H5 := at_pos_app _ _ _ _ H4).
  assert (H6 := at_pos_cons _ _ _ _ (5 + Z.of_nat (length (der_int r))) H5 ltac:(lia)).
  assert (H7 := at_pos_cons _ _ _ _ (Z.of_nat (length (der_int r)) + 6) H6 ltac:(lia)).
  rewrite Z.add_comm in H5. by split_and!.
Qed.

(** [ln_misc_sigtrim] gets the 64 bytes back. *)
Lemma sigtrim_der r s pSig :
  is_bytes r → is_bytes s → length r = 32%nat → length s = 32%nat → length pSig = 64%nat →
  run (ln_misc_sigtrim (der r s)) pSig = Ret true (r ++ s).
Proof.
  intros Hr Hs Hlr Hls Hl. pose proof (length_der_int r Hr Hlr) as Lr.
  pose proof (length_der_int s Hs Hls) as Ls.
  destruct (der_at r s) as (A1 & _ & A3 & A4 & _ & A5 & A6).
  unfold ln_misc_sigtrim, run.
  erewrite rd_byte_at by exact A1. erewrite rd_byte_at by exact A3.
  replace (4 + _ + 1) with (5 + Z.of_nat (length (der_int r))) by lia.
  erewrite rd_byte_at by exact A5. cbv zeta.
  rewrite wrap_small by (unfold in_range; lia). rewrite exit_no
    by (apply negb_false_iff, Z.eqb_eq; lia).
  erewrite bind_ret by (apply (trim_int_der _ 0 4 r _ pSig Hr Hlr A4); lia).
  cbv beta iota.
  replace (4 + _ + 2) with (Z.of_nat (length (der_int r)) + 6) by lia.
  erewrite bind_ret.
  2:{ apply (trim_int_der _ _ _ s [0x01]); try done.
      rewrite length_app, length_app, length_take, length_drop. lia. }
  unfold mret, prog_ret. f_equal.
  change (Z.to_nat (0 + 32)) with 32%nat. change (Z.to_nat 0) with 0%nat.
  rewrite take_0. change ([] ++ ?l) with l. rewrite take_app_length' by done. f_equal.
  rewrite (drop_ge (r ++ _)) by (rewrite length_app, length_drop; lia). apply app_nil_r.
Qed.

(** The checks of one integer pass. *)
Lemma int_check_step {St} x tail sig p p1 n (K : prog St bool) st :
  is_bytes x → length x = 32%nat → at_pos sig p (der_int x ++ tail) → p1 = p + 1 →
  n = Z.of_nat (length (der_int x)) →
  (b ← rd_byte sig p;
   exit_if (top_bit b) false;;
   bad ← (if (1 <? n) && (b =? 0x00)
          then b5 ← rd_byte sig p1; mret (negb (top_bit b5)) else mret false);
   exit_if bad false;;
   K) st = K st.
Proof.
  intros Hx Hl Hat -> ->.
  destruct (der_int_spec x Hx Hl) as (k & b & t & _ & _ & Hb & Hk & Hz & E). rewrite E in *.
  destruct (Z.leb_spec 128 b) as [H8|H8]; cbn [app] in Hat.
  - erewrite rd_byte_at by exact Hat. rewrite exit_no by done.
    cbn [app length]. rewrite (proj2 (Z.ltb_lt 1 _)) by lia. cbn [andb Z.eqb].
    rewrite bind_assoc. erewrite rd_byte_at by (by eapply at_pos_cons).
    rewrite bind_mret, top_bit_spec by done. rewrite (proj2 (Z.leb_le 128 b)) by done. done.
  - erewrite rd_byte_at by exact Hat.
    rewrite exit_no by (rewrite top_bit_spec by done; apply Z.leb_gt; lia).
    destruct ((1 <? _) && (b =? 0)) eqn:Ec; [|done].
    apply andb_true_iff in Ec as [Hn%Z.ltb_lt ->%Z.eqb_eq]. rewrite Hz in Hn by done.
    cbn in Hn. lia.
Qed.

(** The check of BIP-66 accepts it. *)
Lemma der_valid {St} r s (st : St) :
  is_bytes r → is_bytes s → length r = 32%nat → length s = 32%nat →
  run (is_valid_signature_encoding (der r s) (Z.of_nat (length (der r s)))) st = Ret true st.
Proof.
  intros Hr Hs Hlr Hls. pose proof (length_der_int r Hr Hlr) as Lr.
  pose proof (length_der_int s Hs Hls) as Ls. rewrite length_der.
  destruct (der_at r s) as (A1 & A2 & A3 & A4 & A5' & A5 & A6).
  pose proof (at_pos_0 (der r s)) as A0. unfold der in A0 at 2.
  unfold run.
  assert (is_valid_signature_encoding (der r s)
            (Z.of_nat (7 + length (der_int r) + length (der_int s))) st = Ret true st) as ->;
    [|done].
  unfold is_valid_signature_encoding.
  rewrite !exit_no by (apply Z.ltb_ge; lia). erewrite rd_byte_at by exact A0.
  rewrite exit_no by done.
  erewrite rd_byte_at by exact A1. rewrite exit_no by (apply negb_false_iff, Z.eqb_eq; lia).
  erewrite rd_byte_at by exact A3. rewrite exit_no by (apply Z.leb_gt; lia).
  erewrite rd_byte_at by exact A5. rewrite exit_no by (apply negb_false_iff, Z.eqb_eq; lia).
  erewrite rd_byte_at by exact A2. rewrite exit_no by done.
  rewrite exit_no by (apply Z.eqb_neq; lia).
  etrans; [by eapply (int_check_step r _ _ 4 5); eauto|].
  erewrite rd_byte_at by exact A5'. rewrite exit_no by done.
  rewrite exit_no by (apply Z.eqb_neq; lia).
  etrans; [eapply (int_check_step s); [done|done|exact A6|lia|done]|].
  done.
Qed.

(** ** Expanding a compact signature *)

Section expanding.
Context {A : Alloc} {T : AllocTotal A}.

Lemma bind_mret_r {St B} (m : prog St B) s : (m ≫= mret) s = m s.
Proof. unfold mbind, prog_bind. by destruct (m s). Qed.

(** A buffer that has been filled. *)
Lemma pushedb_full d : pushedb d (Z.of_nat (length d)) = mk_push (Z.of_nat (length d)) (of_bytes d).
Proof.
  unfold pushedb, pushed, of_bytes. rewrite length_init_cells, Z.sub_diag.
  change (junk 0) with (@nil cell). by rewrite app_nil_r.
Qed.

Lemma push_from_step {B} pBuf p src more n d k (K : unit → prog utl_push_t B) :
  at_pos pBuf p (src ++ more) → n = Z.of_nat (length src) →
  Z.of_nat (length d) + n ≤ k → k < 2 ^ 31 →
  (push_from pBuf p n ≫= K) (pushedb d k) = K tt (pushedb (d ++ src) k).
Proof.
  intros Hat -> Hn Hk. unfold push_from. rewrite (drop_at _ _ _ Hat).
  apply bind_ret. unfold push_bytes, call, run, mbind, prog_bind.
  rewrite init_cells_app.
  rewrite push_data_prefix by (rewrite ?length_init_cells; lia).
  pose proof (push_data_within (init_cells d) k (init_cells src) (Z.of_nat (length src))) as H.
  rewrite !length_init_cells in H. specialize (H Hn Hk eq_refl). unfold run in H.
  unfold pushedb. rewrite init_cells_app. destruct (utl_push_data _ _ _); by simplify_eq.
Qed.

(** What one integer of [ln_misc_sigexpand] comes to. *)
Lemma expand_int_spec {St} x pBuf p tail (s : St) :
  is_bytes x → length x = 32%nat → at_pos pBuf p (x ++ tail) →
  ∃ q b t, skip_loop 31 pBuf p 32 s = Ret (q, Z.of_nat (S (length t))) s ∧
    at_pos pBuf q (b :: t ++ tail) ∧ (length t < 32)%nat ∧
    top_bit b = (128 <=? b) ∧
    der_int x = (if 128 <=? b then [0] else []) ++ b :: t.
Proof.
  intros Hx Hl Hat. destruct (der_int_spec x Hx Hl) as (k & b & t & -> & _ & Hb & Hk & Hz & E).
  rewrite <- app_assoc in Hat. exists (p + Z.of_nat k), b, t.
  split; [|split; [|split; [lia|split; [by apply top_bit_spec|done]]]].
  - erewrite skip_loop_spec; [f_equal; f_equal; lia|exact Hat|lia| |lia].
    intros Hb0. rewrite Hz in Hk by done. cbn [length] in Hk. lia.
  - eapply at_pos_step; [exact Hat|]. by rewrite length_replicate.
Qed.

(** The integer is written with its padding. *)
Lemma push_int_step {B} pBuf q b t tail d k (K : unit → prog utl_push_t B) :
  let n := (if 128 <=? b then 1 else 0) + Z.of_nat (S (length t)) in
  at_pos pBuf q (b :: t ++ tail) → (length t < 32)%nat →
  Z.of_nat (length d) + n ≤ k → k < 2 ^ 31 →
  ((if 128 <=? b then push_bytes [0x00] 1 else mret tt) ≫= λ _,
   push_from pBuf q (if 128 <=? b then u8 (n - 1) else n) ≫= K) (pushedb d k) =
  K tt (pushedb (d ++ (if 128 <=? b then [0] else []) ++ b :: t) k).
Proof.
  cbv zeta. intros Hat Ht Hn Hk.
  destruct (128 <=? b).
  - rewrite push_step_bytes by (try done; cbn [length] in *; lia).
    rewrite wrap_small by (unfold in_range; lia).
    erewrite (push_from_step _ _ (b :: t)); [by rewrite <- app_assoc|exact Hat|..];
      rewrite ?length_app; cbn [length] in *; lia.
  - rewrite bind_mret. by rewrite (push_from_step _ _ (b :: t) tail).
Qed.

Lemma sigexpand_der r s st :
  is_bytes r → is_bytes s → length r = 32%nat → length s = 32%nat →
  ln_misc_sigexpand (r ++ s) st =
  Ret tt (mk_push (Z.of_nat (length (der r s))) (of_bytes (der r s))).
Proof.
  intros Hr Hs Hlr Hls. unfold ln_misc_sigexpand.
  destruct (expand_int_spec r (r ++ s) 0 s st Hr Hlr (at_pos_0 _))
    as (q & b & t & Sk & Hat & Ht & Hb & Er).
  assert (at_pos (r ++ s) 32 (s ++ [])) as Hat2.
  { rewrite app_nil_r. eapply at_pos_step; [apply at_pos_0|]. by rewrite Hlr. }
  destruct (expand_int_spec s (r ++ s) 32 [] st Hs Hls Hat2)
    as (q' & b' & t' & Sk' & Hat' & Ht' & Hb' & Es).
  rewrite (bind_ret _ _ _ _ _ Sk). cbv beta iota. erewrite rd_byte_at by exact Hat.
  cbv zeta. rewrite (bind_ret _ _ _ _ _ Sk'). cbv beta iota.
  erewrite rd_byte_at by exact Hat'. rewrite Hb, Hb'.
  set (n := (if 128 <=? b then 1 else 0) + Z.of_nat (S (length t))).
  set (n' := (if 128 <=? b' then 1 else 0) + Z.of_nat (S (length t'))).
  assert (Z.of_nat (length (der_int r)) = n) as Ln
    by (rewrite Er, length_app; subst n; destruct (128 <=? b); cbn [length]; lia).
  assert (Z.of_nat (length (der_int s)) = n') as Ln'
    by (rewrite Es, length_app; subst n'; destruct (128 <=? b'); cbn [length]; lia).
  pose proof (length_der_int r Hr Hlr). pose proof (length_der_int s Hs Hls).
  pose proof (length_der r s) as Ld.
  replace (if 128 <=? b then u8 (Z.of_nat (S (length t)) + 1) else Z.of_nat (S (length t)))
    with n by (subst n; destruct (128 <=? b); [rewrite wrap_small by (unfold in_range; lia)|]; lia).
  replace (if 128 <=? b' then u8 (Z.of_nat (S (length t')) + 1) else Z.of_nat (S (length t')))
    with n' by (subst n'; destruct (128 <=? b'); [rewrite wrap_small by (unfold in_range; lia)|]; lia).
  rewrite push_step_init by lia.
  rewrite push_step_bytes by (try done; cbn [length]; lia).
  rewrite (push_int_step (r ++ s) q b t s) by (try done; rewrite ?length_app; cbn [length] in *; lia).
  rewrite <- Er. rewrite push_step_bytes by (try done; rewrite ?length_app; cbn [length] in *; lia).
  rewrite (push_int_step (r ++ s) q' b' t' []) by (try done; rewrite ?length_app; cbn [length] in *; lia).
  rewrite <- Es. rewrite (wrap_small 8) by (unfold in_range; lia).
  rewrite <- bind_mret_r.
  rewrite push_step_bytes by (try done; rewrite ?length_app; cbn [length] in *; lia).
  unfold mret, prog_ret. f_equal.
  assert (∀ d : bytes, d = der r s → pushedb d (7 + n + n') =
    mk_push (Z.of_nat (length (der r s))) (of_bytes (der r s))) as He.
  { intros d ->. rewrite <- pushedb_full. f_equal. lia. }
  apply He. unfold der. by rewrite <- !app_assoc, Ln, Ln'.
Qed.

(** a 64-byte signature survives the wallet's DER form: what
    [ln_misc_sigexpand] writes passes the strict DER check of
    [is_valid_signature_encoding], takes 9 to 73 bytes, ends in SIGHASH_ALL, and
    [ln_misc_sigtrim] turns it back into the same 64 bytes. *)
Theorem signature_codec r s st pSig :
  is_bytes r → is_bytes s → length r = 32%nat → length s = 32%nat → length pSig = 64%nat →
  ∃ sig, ln_misc_sigexpand (r ++ s) st = Ret tt (mk_push (Z.of_nat (length sig)) (of_bytes sig)) ∧
    run (is_valid_signature_encoding sig (Z.of_nat (length sig))) tt = Ret true tt ∧
    run (ln_misc_sigtrim sig) pSig = Ret true (r ++ s) ∧
    (9 ≤ length sig ≤ 73)%nat ∧ drop (length sig - 1) sig = [0x01].
Proof.
  intros Hr Hs Hlr Hls Hl. exists (der r s).
  split_and!; [by apply sigexpand_der|by apply der_valid|by apply sigtrim_der|..].
  - rewrite length_der. pose proof (length_der_int r Hr Hlr).
    pose proof (length_der_int s Hs Hls). lia.
  - rewrite length_der. pose proof (length_der_int r Hr Hlr).
    pose proof (length_der_int s Hs Hls). lia.
  - unfold der. rewrite !app_assoc. apply drop_app_length'. rewrite !length_app. cbn [length]. lia.
Qed.

End expanding.

Lemma signature_codec_witness :
  is_bytes (replicate 32 200) ∧ is_bytes (replicate 31 0 ++ [5]) ∧
  ∃ sig, run (ln_misc_sigtrim sig) (replicate 64 0) =
    Ret true (replicate 32 200 ++ replicate 31 0 ++ [5]).
Proof.
  assert (is_bytes (replicate 32 200)) as H1 by by_compute.
  assert (is_bytes (replicate 31 0 ++ [5])) as H2 by by_compute.
  split; [exact H1|]. split; [exact H2|].
  destruct (@signature_codec total_alloc total_alloc_total _ _ (mk_push 0 (of_bytes []))
    (replicate 64 0) H1 H2 eq_refl eq_refl eq_refl) as (sig & _ & _ & H & _).
  exists sig. exact H.
Defined.

End LnSig.
