(* ===== verification/LnMsgNormal.v ===== *)
(** The messages of normal operation: [ln/ln_msg_normalope.c].

    One Module per message: its struct, [ln_msg_*_create], [ln_msg_*_read],
    the BOLT #2 layout they implement ([wire]) and the proof that they meet
    [MsgCodec]. A pointer field is the bytes it leads to. The structs are
    those of [ln/ln.h]. *)
From stdpp Require Import base list numbers tactics.
From Stdlib Require Import ZArith Lia.
From S2P Require Import Prelude CProg UtlInt UtlBuf UtlPush LnMisc LnMsg.
Import UtlBuf UtlPush LnMisc LnMsg.
Open Scope Z_scope.

Module LnMsgNormal.

(** ** update_add_htlc *)

Module UpdateAddHtlc.

(** [ln_update_add_htlc_t]: the wire fields and what the node keeps with an HTLC. [stat_bits]
    is the [bits] view of the union [stat]. *)
Record t := mk {
  p_channel_id : bytes;
  id : Z;
  amount_msat : Z;
  cltv_expiry : Z;
  payment_sha256 : bytes;
  buf_payment_preimage : utl_buf_t;
  buf_onion_reason : utl_buf_t;
  stat_bits : Z;
  next_short_channel_id : Z;
  next_idx : Z;
  signature : bytes;
  prev_short_channel_id : Z;
  prev_idx : Z;
  buf_shared_secret : utl_buf_t;
}.

Definition set_p_channel_id (v : bytes) (m : t) : t :=
  mk v (id m) (amount_msat m) (cltv_expiry m) (payment_sha256 m) (buf_payment_preimage m)
    (buf_onion_reason m) (stat_bits m) (next_short_channel_id m) (next_idx m) (signature m)
    (prev_short_channel_id m) (prev_idx m) (buf_shared_secret m).
Definition set_id (v : Z) (m : t) : t :=
  mk (p_channel_id m) v (amount_msat m) (cltv_expiry m) (payment_sha256 m)
    (buf_payment_preimage m) (buf_onion_reason m) (stat_bits m) (next_short_channel_id m)
    (next_idx m) (signature m) (prev_short_channel_id m) (prev_idx m) (buf_shared_secret m).
Definition set_amount_msat (v : Z) (m : t) : t :=
  mk (p_channel_id m) (id m) v (cltv_expiry m) (payment_sha256 m) (buf_payment_preimage m)
    (buf_onion_reason m) (stat_bits m) (next_short_channel_id m) (next_idx m) (signature m)
    (prev_short_channel_id m) (prev_idx m) (buf_shared_secret m).
Definition set_cltv_expiry (v : Z) (m : t) : t :=
  mk (p_channel_id m) (id m) (amount_msat m) v (payment_sha256 m) (buf_payment_preimage m)
    (buf_onion_reason m) (stat_bits m) (next_short_channel_id m) (next_idx m) (signature m)
    (prev_short_channel_id m) (prev_idx m) (buf_shared_secret m).
Definition set_payment_sha256 (v : bytes) (m : t) : t :=
  mk (p_channel_id m) (id m) (amount_msat m) (cltv_expiry m) v (buf_payment_preimage m)
    (buf_onion_reason m) (stat_bits m) (next_short_channel_id m) (next_idx m) (signature m)
    (prev_short_channel_id m) (prev_idx m) (buf_shared_secret m).
Definition set_buf_payment_preimage (v : utl_buf_t) (m : t) : t :=
  mk (p_channel_id m) (id m) (amount_msat m) (cltv_expiry m) (payment_sha256 m) v
    (buf_onion_reason m) (stat_bits m) (next_short_channel_id m) (next_idx m) (signature m)
    (prev_short_channel_id m) (prev_idx m) (buf_shared_secret m).
Definition set_buf_onion_reason (v : utl_buf_t) (m : t) : t :=
  mk (p_channel_id m) (id m) (amount_msat m) (cltv_expiry m) (payment_sha256 m)
    (buf_payment_preimage m) v (stat_bits m) (next_short_channel_id m) (next_idx m)
    (signature m) (prev_short_channel_id m) (prev_idx m) (buf_shared_secret m).
Definition set_stat_bits (v : Z) (m : t) : t :=
  mk (p_channel_id m) (id m) (amount_msat m) (cltv_expiry m) (payment_sha256 m)
    (buf_payment_preimage m) (buf_onion_reason m) v (next_short_channel_id m) (next_idx m)
    (signature m) (prev_short_channel_id m) (prev_idx m) (buf_shared_secret m).
Definition set_next_short_channel_id (v : Z) (m : t) : t :=
  mk (p_channel_id m) (id m) (amount_msat m) (cltv_expiry m) (payment_sha256 m)
    (buf_payment_preimage m) (buf_onion_reason m) (stat_bits m) v (next_idx m) (signature m)
    (prev_short_channel_id m) (prev_idx m) (buf_shared_secret m).
Definition set_next_idx (v : Z) (m : t) : t :=
  mk (p_channel_id m) (id m) (amount_msat m) (cltv_expiry m) (payment_sha256 m)
    (buf_payment_preimage m) (buf_onion_reason m) (stat_bits m) (next_short_channel_id m) v
    (signature m) (prev_short_channel_id m) (prev_idx m) (buf_shared_secret m).
Definition set_signature (v : bytes) (m : t) : t :=
  mk (p_channel_id m) (id m) (amount_msat m) (cltv_expiry m) (payment_sha256 m)
    (buf_payment_preimage m) (buf_onion_reason m) (stat_bits m) (next_short_channel_id m)
    (next_idx m) v (prev_short_channel_id m) (prev_idx m) (buf_shared_secret m).
Definition set_prev_short_channel_id (v : Z) (m : t) : t :=
  mk (p_channel_id m) (id m) (amount_msat m) (cltv_expiry m) (payment_sha256 m)
    (buf_payment_preimage m) (buf_onion_reason m) (stat_bits m) (next_short_channel_id m)
    (next_idx m) (signature m) v (prev_idx m) (buf_shared_secret m).
Definition set_prev_idx (v : Z) (m : t) : t :=
  mk (p_channel_id m) (id m) (amount_msat m) (cltv_expiry m) (payment_sha256 m)
    (buf_payment_preimage m) (buf_onion_reason m) (stat_bits m) (next_short_channel_id m)
    (next_idx m) (signature m) (prev_short_channel_id m) v (buf_shared_secret m).
Definition set_buf_shared_secret (v : utl_buf_t) (m : t) : t :=
  mk (p_channel_id m) (id m) (amount_msat m) (cltv_expiry m) (payment_sha256 m)
    (buf_payment_preimage m) (buf_onion_reason m) (stat_bits m) (next_short_channel_id m)
    (next_idx m) (signature m) (prev_short_channel_id m) (prev_idx m) v.

Ltac proj_red ::= cbn [p_channel_id id amount_msat cltv_expiry payment_sha256 buf_payment_preimage buf_onion_reason stat_bits next_short_channel_id next_idx signature prev_short_channel_id prev_idx buf_shared_secret].

Section ops.
Context {A : Alloc}.

Definition ln_msg_update_add_htlc_create (pMsg : t) : prog utl_push_t bool :=
  call (utl_push_init (2 + 1450));;
  ln_misc_push16be MSGTYPE_UPDATE_ADD_HTLC;;
  push_bytes (p_channel_id pMsg) LN_SZ_CHANNEL_ID;;
  ln_misc_push64be (id pMsg);;
  ln_misc_push64be (amount_msat pMsg);;
  push_bytes (payment_sha256 pMsg) BTC_SZ_HASH256;;
  ln_misc_push32be (cltv_expiry pMsg);;
  push_buf (buf_onion_reason pMsg) LN_SZ_ONION_ROUTE;;
  proto ← get_st;
  c_assert (2 + 1450 =? len (data proto));;
  call utl_push_trim;;
  mret true.

Definition ln_msg_update_add_htlc_read (pData : bytes) (Len : Z) : prog t bool :=
  exit_if (Len <? 2 + 1450) false;;
  type ← get_at ln_misc_get16be pData 0;
  exit_if (negb (type =? MSGTYPE_UPDATE_ADD_HTLC)) false;;
  let pos := 2 in
  v ← rd_bytes pData pos LN_SZ_CHANNEL_ID;
  modify (set_p_channel_id v);;
  let pos := pos + LN_SZ_CHANNEL_ID in
  v ← get_at ln_misc_get64be pData pos;
  modify (set_id v);;
  let pos := pos + 8 in
  v ← get_at ln_misc_get64be pData pos;
  modify (set_amount_msat v);;
  let pos := pos + 8 in
  v ← rd_bytes pData pos BTC_SZ_HASH256;
  modify (set_payment_sha256 v);;
  let pos := pos + BTC_SZ_HASH256 in
  v ← get_at ln_misc_get32be pData pos;
  modify (set_cltv_expiry v);;
  let pos := pos + 4 in
  modify (λ m, set_buf_onion_reason (utl_buf_free (buf_onion_reason m)) m);;
  pMsg ← get_st;
  v ← buf_alloccopy_at (buf_onion_reason pMsg) pData pos LN_SZ_ONION_ROUTE;
  modify (set_buf_onion_reason v);;
  let pos := pos + LN_SZ_ONION_ROUTE in
  c_assert (pos <=? Len);;
  mret true.

(** The layout in BOLT #2. *)
Definition wire (m : t) : bytes :=
  be_bytes 2 MSGTYPE_UPDATE_ADD_HTLC ++ p_channel_id m ++ be_bytes 8 (id m) ++ be_bytes 8 (amount_msat m) ++ payment_sha256 m ++ be_bytes 4 (cltv_expiry m) ++ buf_data (buf_onion_reason m).

Definition wf (m : t) : Prop :=
  is_bytes (p_channel_id m) ∧ Z.of_nat (length (p_channel_id m)) = LN_SZ_CHANNEL_ID ∧
  in_range 64 (id m) ∧
  in_range 64 (amount_msat m) ∧
  is_bytes (payment_sha256 m) ∧ Z.of_nat (length (payment_sha256 m)) = BTC_SZ_HASH256 ∧
  in_range 32 (cltv_expiry m) ∧
  buf_canon (buf_onion_reason m) ∧
  Z.of_nat (length (buf_data (buf_onion_reason m))) = LN_SZ_ONION_ROUTE.

(** The fields that are not on the wire keep what they held. *)
Definition upd (m0 m : t) : t :=
  mk (p_channel_id m) (id m) (amount_msat m) (cltv_expiry m) (payment_sha256 m)
    (buf_payment_preimage m0) (buf_onion_reason m) (stat_bits m0) (next_short_channel_id m0)
    (next_idx m0) (signature m0) (prev_short_channel_id m0) (prev_idx m0) (buf_shared_secret m0).

Definition ok (d : bytes) : bool :=
  (2 + 1450 <=? Z.of_nat (length d)) && (be_val (sl d 0 2) =? MSGTYPE_UPDATE_ADD_HTLC).

Definition dec (m : t) (d : bytes) : t :=
  mk (sl d 2 32) (be_val (sl d 34 8)) (be_val (sl d 42 8)) (be_val (sl d 82 4)) (sl d 50 32)
    (buf_payment_preimage m) (buf_of (sl d 86 1366)) (stat_bits m) (next_short_channel_id m)
    (next_idx m) (signature m) (prev_short_channel_id m) (prev_idx m) (buf_shared_secret m).

Context {T : AllocTotal A}.

Lemma update_add_htlc_codec :
  MsgCodec any_ext upd wf wire ln_msg_update_add_htlc_create ln_msg_update_add_htlc_read ∧
  SafeReader ln_msg_update_add_htlc_read.
Proof.
  apply reads_as_codec with (ok := ok) (dec := dec).
  - codec_create.
  - codec_reads.
  - codec_complete.
  - codec_sound.
Qed.

End ops.

End UpdateAddHtlc.

(** ** update_fulfill_htlc *)

Module UpdateFulfillHtlc.

(** [ln_update_fulfill_htlc_t] *)
Record t := mk {
  p_channel_id : bytes;
  id : Z;
  p_payment_preimage : bytes;
}.

Definition set_p_channel_id (v : bytes) (m : t) : t := mk v (id m) (p_payment_preimage m).
Definition set_id (v : Z) (m : t) : t := mk (p_channel_id m) v (p_payment_preimage m).
Definition set_p_payment_preimage (v : bytes) (m : t) : t := mk (p_channel_id m) (id m) v.

Ltac proj_red ::= cbn [p_channel_id id p_payment_preimage].

Section ops.
Context {A : Alloc}.

Definition ln_msg_update_fulfill_htlc_create (pMsg : t) : prog utl_push_t bool :=
  call (utl_push_init (2 + 72));;
  ln_misc_push16be MSGTYPE_UPDATE_FULFILL_HTLC;;
  push_bytes (p_channel_id pMsg) LN_SZ_CHANNEL_ID;;
  ln_misc_push64be (id pMsg);;
  push_bytes (p_payment_preimage pMsg) BTC_SZ_PRIVKEY;;
  proto ← get_st;
  c_assert (2 + 72 =? len (data proto));;
  call utl_push_trim;;
  mret true.

Definition ln_msg_update_fulfill_htlc_read (pData : bytes) (Len : Z) : prog t bool :=
  exit_if (Len <? 2 + 72) false;;
  type ← get_at ln_misc_get16be pData 0;
  exit_if (negb (type =? MSGTYPE_UPDATE_FULFILL_HTLC)) false;;
  let pos := 2 in
  v ← rd_bytes pData pos LN_SZ_CHANNEL_ID;
  modify (set_p_channel_id v);;
  let pos := pos + LN_SZ_CHANNEL_ID in
  v ← get_at ln_misc_get64be pData pos;
  modify (set_id v);;
  let pos := pos + 8 in
  v ← rd_bytes pData pos BTC_SZ_PRIVKEY;
  modify (set_p_payment_preimage v);;
  let pos := pos + BTC_SZ_PRIVKEY in
  c_assert (pos <=? Len);;
  mret true.

(** The layout in BOLT #2. *)
Definition wire (m : t) : bytes :=
  be_bytes 2 MSGTYPE_UPDATE_FULFILL_HTLC ++ p_channel_id m ++ be_bytes 8 (id m) ++ p_payment_preimage m.

Definition wf (m : t) : Prop :=
  is_bytes (p_channel_id m) ∧ Z.of_nat (length (p_channel_id m)) = LN_SZ_CHANNEL_ID ∧
  in_range 64 (id m) ∧
  is_bytes (p_payment_preimage m) ∧ Z.of_nat (length (p_payment_preimage m)) = BTC_SZ_PRIVKEY.

Definition ok (d : bytes) : bool :=
  (2 + 72 <=? Z.of_nat (length d)) && (be_val (sl d 0 2) =? MSGTYPE_UPDATE_FULFILL_HTLC).

Definition dec (m : t) (d : bytes) : t :=
  mk (sl d 2 32) (be_val (sl d 34 8)) (sl d 42 32).

Context {T : AllocTotal A}.

Lemma update_fulfill_htlc_codec :
  MsgCodec any_ext (λ _ m, m) wf wire ln_msg_update_fulfill_htlc_create ln_msg_update_fulfill_htlc_read ∧
  SafeReader ln_msg_update_fulfill_htlc_read.
Proof.
  apply reads_as_codec with (ok := ok) (dec := dec).
  - codec_create.
  - codec_reads.
  - codec_complete.
  - codec_sound.
Qed.

End ops.

End UpdateFulfillHtlc.

(** ** update_fail_htlc *)

Module UpdateFailHtlc.

(** [ln_update_fail_htlc_t] *)
Record t := mk {
  p_channel_id : bytes;
  id : Z;
  p_reason : utl_buf_t;
}.

Definition set_p_channel_id (v : bytes) (m : t) : t := mk v (id m) (p_reason m).
Definition set_id (v : Z) (m : t) : t := mk (p_channel_id m) v (p_reason m).
Definition set_p_reason (v : utl_buf_t) (m : t) : t := mk (p_channel_id m) (id m) v.

Ltac proj_red ::= cbn [p_channel_id id p_reason].

Section ops.
Context {A : Alloc}.

Definition ln_msg_update_fail_htlc_create (pMsg : t) : prog utl_push_t bool :=
  call (utl_push_init (2 + 42 + len (p_reason pMsg)));;
  ln_misc_push16be MSGTYPE_UPDATE_FAIL_HTLC;;
  push_bytes (p_channel_id pMsg) LN_SZ_CHANNEL_ID;;
  ln_misc_push64be (id pMsg);;
  ln_misc_push16be (len (p_reason pMsg));;
  push_buf (p_reason pMsg) (len (p_reason pMsg));;
  proto ← get_st;
  c_assert (2 + 42 + len (p_reason pMsg) =? len (data proto));;
  call utl_push_trim;;
  mret true.

Definition ln_msg_update_fail_htlc_read (pData : bytes) (Len : Z) : prog t bool :=
  exit_if (Len <? 2 + 42) false;;
  type ← get_at ln_misc_get16be pData 0;
  exit_if (negb (type =? MSGTYPE_UPDATE_FAIL_HTLC)) false;;
  let pos := 2 in
  v ← rd_bytes pData pos LN_SZ_CHANNEL_ID;
  modify (set_p_channel_id v);;
  let pos := pos + LN_SZ_CHANNEL_ID in
  v ← get_at ln_misc_get64be pData pos;
  modify (set_id v);;
  let pos := pos + 8 in
  len ← get_at ln_misc_get16be pData pos;
  let pos := pos + 2 in
  exit_if (Len - pos <? len) false;;
  pMsg ← get_st;
  v ← buf_alloccopy_at (p_reason pMsg) pData pos len;
  modify (set_p_reason v);;
  let pos := pos + len in
  c_assert (pos <=? Len);;
  mret true.

(** The layout in BOLT #2. *)
Definition wire (m : t) : bytes :=
  be_bytes 2 MSGTYPE_UPDATE_FAIL_HTLC ++ p_channel_id m ++ be_bytes 8 (id m) ++
  be_bytes 2 (len (p_reason m)) ++ buf_data (p_reason m).

Definition wf (m : t) : Prop :=
  is_bytes (p_channel_id m) ∧ Z.of_nat (length (p_channel_id m)) = LN_SZ_CHANNEL_ID ∧
  in_range 64 (id m) ∧ buf_canon (p_reason m) ∧ in_range 16 (len (p_reason m)).

Definition ok (d : bytes) : bool :=
  (2 + 42 <=? Z.of_nat (length d)) && (be_val (sl d 0 2) =? MSGTYPE_UPDATE_FAIL_HTLC)
  && (be_val (sl d 42 2) <=? Z.of_nat (length d) - 44).

Definition dec (m : t) (d : bytes) : t :=
  mk (sl d 2 32) (be_val (sl d 34 8)) (buf_of (sl d 44 (be_val (sl d 42 2)))).

Context {T : AllocTotal A}.

Lemma update_fail_htlc_codec :
  MsgCodec any_ext (λ _ m, m) wf wire ln_msg_update_fail_htlc_create ln_msg_update_fail_htlc_read ∧
  SafeReader ln_msg_update_fail_htlc_read.
Proof.
  apply reads_as_codec with (ok := ok) (dec := dec).
  - codec_create.
  - codec_reads.
  - codec_complete.
  - codec_sound.
Qed.

End ops.

End UpdateFailHtlc.

(** ** commitment_signed *)

Module CommitSigned.

(** [ln_commit_signed_t]; [p_htlc_signature] is a block the decoder allocates. *)
Record t := mk {
  p_channel_id : bytes;
  p_signature : bytes;
  num_htlcs : Z;
  p_htlc_signature : option (list cell);
}.

Definition set_p_channel_id (v : bytes) (m : t) : t :=
  mk v (p_signature m) (num_htlcs m) (p_htlc_signature m).
Definition set_p_signature (v : bytes) (m : t) : t :=
  mk (p_channel_id m) v (num_htlcs m) (p_htlc_signature m).
Definition set_num_htlcs (v : Z) (m : t) : t :=
  mk (p_channel_id m) (p_signature m) v (p_htlc_signature m).
Definition set_p_htlc_signature (v : option (list cell)) (m : t) : t :=
  mk (p_channel_id m) (p_signature m) (num_htlcs m) v.

Ltac proj_red ::= cbn [p_channel_id p_signature num_htlcs p_htlc_signature].

Section ops.
Context {A : Alloc}.

Definition ln_msg_commit_signed_create (pMsg : t) : prog utl_push_t bool :=
  call (utl_push_init (2 + 98 + num_htlcs pMsg * LN_SZ_SIGNATURE));;
  ln_misc_push16be MSGTYPE_COMMITMENT_SIGNED;;
  push_bytes (p_channel_id pMsg) LN_SZ_CHANNEL_ID;;
  push_bytes (p_signature pMsg) LN_SZ_SIGNATURE;;
  ln_misc_push16be (num_htlcs pMsg);;
  push_ptr (p_htlc_signature pMsg) (num_htlcs pMsg * LN_SZ_SIGNATURE);;
  proto ← get_st;
  c_assert (2 + 98 + num_htlcs pMsg * LN_SZ_SIGNATURE =? len (data proto));;
  call utl_push_trim;;
  mret true.

Definition ln_msg_commit_signed_read (pData : bytes) (Len : Z) : prog t bool :=
  exit_if (Len <? 2 + 98) false;;
  type ← get_at ln_misc_get16be pData 0;
  exit_if (negb (type =? MSGTYPE_COMMITMENT_SIGNED)) false;;
  let pos := 2 in
  v ← rd_bytes pData pos LN_SZ_CHANNEL_ID;
  modify (set_p_channel_id v);;
  let pos := pos + LN_SZ_CHANNEL_ID in
  v ← rd_bytes pData pos LN_SZ_SIGNATURE;
  modify (set_p_signature v);;
  let pos := pos + LN_SZ_SIGNATURE in
  v ← get_at ln_misc_get16be pData pos;
  modify (set_num_htlcs v);;
  let pos := pos + 2 in
  pMsg ← get_st;
  v ← malloc_copy_at pData pos (num_htlcs pMsg * LN_SZ_SIGNATURE);
  modify (set_p_htlc_signature v);;
  let pos := pos + num_htlcs pMsg * LN_SZ_SIGNATURE in
  c_assert (pos <=? Len);;
  mret true.

(** The bytes of the HTLC signatures. *)
Definition sigs (m : t) : bytes := default [] (read_cells (p_htlc_signature m)
  (num_htlcs m * LN_SZ_SIGNATURE)).

(** The layout in BOLT #2. *)
Definition wire (m : t) : bytes :=
  be_bytes 2 MSGTYPE_COMMITMENT_SIGNED ++ p_channel_id m ++ p_signature m ++
  be_bytes 2 (num_htlcs m) ++ sigs m.

Definition wf (m : t) : Prop :=
  is_bytes (p_channel_id m) ∧ Z.of_nat (length (p_channel_id m)) = LN_SZ_CHANNEL_ID ∧
  is_bytes (p_signature m) ∧ Z.of_nat (length (p_signature m)) = LN_SZ_SIGNATURE ∧
  in_range 16 (num_htlcs m) ∧
  p_htlc_signature m = Some (init_cells (sigs m)) ∧ is_bytes (sigs m) ∧
  Z.of_nat (length (sigs m)) = num_htlcs m * LN_SZ_SIGNATURE.

(** Long enough for the fixed part, and the right type. *)
Definition head_ok (d : bytes) : bool :=
  (2 + 98 <=? Z.of_nat (length d)) && (be_val (sl d 0 2) =? MSGTYPE_COMMITMENT_SIGNED).

(** The signatures it announces are there. *)
Definition sigs_fit (d : bytes) : bool :=
  100 + be_val (sl d 98 2) * 64 <=? Z.of_nat (length d).

Definition dec (m : t) (d : bytes) : t :=
  mk (sl d 2 32) (sl d 34 64) (be_val (sl d 98 2))
    (Some (init_cells (sl d 100 (be_val (sl d 98 2) * 64)))).

Context {T : AllocTotal A}.

Lemma commit_signed_reads :
  reads_as_ub ln_msg_commit_signed_read (λ d, head_ok d && sigs_fit d) head_ok dec.
Proof.
  intros m0 d [Hd Hlt]. unfold read_packet, ln_msg_commit_signed_read. rewrite call_returned.
  destruct (head_ok d) eqn:Hok; unfold head_ok in Hok; cond_facts Hok; cbn [andb].
  - destruct (sigs_fit d) eqn:Hf; unfold sigs_fit in Hf; cond_facts Hf.
    + run_steps. cbn [num_htlcs set_num_htlcs]. by run_steps.
    + run_steps. cbn [num_htlcs set_num_htlcs]. by rewrite malloc_copy_oob by len_side.
  - run_steps; exfalso; lia.
Qed.

Lemma sigs_dec c n h i :
  Z.of_nat (length c) = n * LN_SZ_SIGNATURE → sigs (mk h i n (Some (init_cells c))) = c.
Proof. intros Hn. unfold sigs. cbn [p_htlc_signature num_htlcs]. by rewrite <- Hn, read_of_bytes. Qed.

Lemma commit_signed_codec :
  MsgCodec any_ext (λ _ m, m) wf wire ln_msg_commit_signed_create ln_msg_commit_signed_read.
Proof.
  apply reads_as_ub_codec with (ok := λ d, head_ok d && sigs_fit d) (bad := head_ok) (dec := dec).
  - codec_create.
  - apply commit_signed_reads.
  - intros m0 m rest Hwf _ [_ Hlen]; hnf in Hwf; split_and_hyps.
    unfold head_ok, sigs_fit. unfold wire in *. rewrite <- !app_assoc in *.
    split; [repeat sl_step; rewrite ?andb_true_iff, ?Z.leb_le, ?Z.eqb_eq; repeat split; len_side|].
    unfold dec. repeat sl_step.
    match goal with H : p_htlc_signature m = _ |- _ => rewrite <- H end. by destruct m.
  - intros m0 d [Hd Hlen] Hok. unfold head_ok, sigs_fit in Hok. cond_facts Hok. split_and_hyps.
    assert (be_bytes 2 MSGTYPE_COMMITMENT_SIGNED = sl d 0 2) as Ht
      by (match goal with H : be_val _ = 132 |- _ => rewrite <- H end;
          apply be_bytes_sl; first [done | lia]).
    assert (0 ≤ be_val (sl d 98 2) < 256 ^ Z.of_nat (length (sl d 98 2))) as Hr
      by (apply be_val_range; auto with ptarm).
    assert (sigs (dec m0 d) = sl d 100 (be_val (sl d 98 2) * 64)) as Hs
      by (apply sigs_dec, length_sl_Z; lia).
    split; [|split; [done|]].
    + unfold wf. rewrite Hs. cbn [dec p_channel_id p_signature num_htlcs p_htlc_signature].
      repeat split; try done; auto with ptarm; try (apply length_sl_Z; lia);
        apply (be_val_sl_range 16); first [done | lia].
    + eexists. split; [exact I|]. unfold wire. rewrite Hs, Ht. cbn [dec p_channel_id p_signature num_htlcs].
      rewrite be_bytes_sl by (first [done | lia]). repeat rewrite sl_app by lia. apply sl_rest.
Qed.

End ops.

End CommitSigned.

(** ** revoke_and_ack *)

Module RevokeAndAck.

(** [ln_revoke_and_ack_t] *)
Record t := mk {
  p_channel_id : bytes;
  p_per_commit_secret : bytes;
  p_per_commitpt : bytes;
}.

Definition set_p_channel_id (v : bytes) (m : t) : t :=
  mk v (p_per_commit_secret m) (p_per_commitpt m).
Definition set_p_per_commit_secret (v : bytes) (m : t) : t :=
  mk (p_channel_id m) v (p_per_commitpt m).
Definition set_p_per_commitpt (v : bytes) (m : t) : t :=
  mk (p_channel_id m) (p_per_commit_secret m) v.

Ltac proj_red ::= cbn [p_channel_id p_per_commit_secret p_per_commitpt].

Section ops.
Context {A : Alloc}.

Definition ln_msg_revoke_and_ack_create (pMsg : t) : prog utl_push_t bool :=
  call (utl_push_init (2 + 97));;
  ln_misc_push16be MSGTYPE_REVOKE_AND_ACK;;
  push_bytes (p_channel_id pMsg) LN_SZ_CHANNEL_ID;;
  push_bytes (p_per_commit_secret pMsg) BTC_SZ_PRIVKEY;;
  push_bytes (p_per_commitpt pMsg) BTC_SZ_PUBKEY;;
  proto ← get_st;
  c_assert (2 + 97 =? len (data proto));;
  call utl_push_trim;;
  mret true.

Definition ln_msg_revoke_and_ack_read (pData : bytes) (Len : Z) : prog t bool :=
  exit_if (Len <? 2 + 97) false;;
  type ← get_at ln_misc_get16be pData 0;
  exit_if (negb (type =? MSGTYPE_REVOKE_AND_ACK)) false;;
  let pos := 2 in
  v ← rd_bytes pData pos LN_SZ_CHANNEL_ID;
  modify (set_p_channel_id v);;
  let pos := pos + LN_SZ_CHANNEL_ID in
  v ← rd_bytes pData pos BTC_SZ_PRIVKEY;
  modify (set_p_per_commit_secret v);;
  let pos := pos + BTC_SZ_PRIVKEY in
  v ← rd_bytes pData pos BTC_SZ_PUBKEY;
  modify (set_p_per_commitpt v);;
  let pos := pos + BTC_SZ_PUBKEY in
  c_assert (pos <=? Len);;
  mret true.

(** The layout in BOLT #2. *)
Definition wire (m : t) : bytes :=
  be_bytes 2 MSGTYPE_REVOKE_AND_ACK ++ p_channel_id m ++ p_per_commit_secret m ++ p_per_commitpt m.

Definition wf (m : t) : Prop :=
  is_bytes (p_channel_id m) ∧ Z.of_nat (length (p_channel_id m)) = LN_SZ_CHANNEL_ID ∧
  is_bytes (p_per_commit_secret m) ∧ Z.of_nat (length (p_per_commit_secret m)) = BTC_SZ_PRIVKEY ∧
  is_bytes (p_per_commitpt m) ∧ Z.of_nat (length (p_per_commitpt m)) = BTC_SZ_PUBKEY.

Definition ok (d : bytes) : bool :=
  (2 + 97 <=? Z.of_nat (length d)) && (be_val (sl d 0 2) =? MSGTYPE_REVOKE_AND_ACK).

Definition dec (m : t) (d : bytes) : t :=
  mk (sl d 2 32) (sl d 34 32) (sl d 66 33).

Context {T : AllocTotal A}.

Lemma revoke_and_ack_codec :
  MsgCodec any_ext (λ _ m, m) wf wire ln_msg_revoke_and_ack_create ln_msg_revoke_and_ack_read ∧
  SafeReader ln_msg_revoke_and_ack_read.
Proof.
  apply reads_as_codec with (ok := ok) (dec := dec).
  - codec_create.
  - codec_reads.
  - codec_complete.
  - codec_sound.
Qed.

End ops.

End RevokeAndAck.

(** ** update_fee *)

Module UpdateFee.

(** [ln_update_fee_t] *)
Record t := mk {
  p_channel_id : bytes;
  feerate_per_kw : Z;
}.

Definition set_p_channel_id (v : bytes) (m : t) : t := mk v (feerate_per_kw m).
Definition set_feerate_per_kw (v : Z) (m : t) : t := mk (p_channel_id m) v.

Ltac proj_red ::= cbn [p_channel_id feerate_per_kw].

Section ops.
Context {A : Alloc}.

Definition ln_msg_update_fee_create (pMsg : t) : prog utl_push_t bool :=
  call (utl_push_init (2 + 36));;
  ln_misc_push16be MSGTYPE_UPDATE_FEE;;
  push_bytes (p_channel_id pMsg) LN_SZ_CHANNEL_ID;;
  ln_misc_push32be (feerate_per_kw pMsg);;
  proto ← get_st;
  c_assert (2 + 36 =? len (data proto));;
  call utl_push_trim;;
  mret true.

Definition ln_msg_update_fee_read (pData : bytes) (Len : Z) : prog t bool :=
  exit_if (Len <? 2 + 36) false;;
  type ← get_at ln_misc_get16be pData 0;
  exit_if (negb (type =? MSGTYPE_UPDATE_FEE)) false;;
  let pos := 2 in
  v ← rd_bytes pData pos LN_SZ_CHANNEL_ID;
  modify (set_p_channel_id v);;
  let pos := pos + LN_SZ_CHANNEL_ID in
  v ← get_at ln_misc_get32be pData pos;
  modify (set_feerate_per_kw v);;
  let pos := pos + 4 in
  c_assert (pos <=? Len);;
  mret true.

(** The layout in BOLT #2. *)
Definition wire (m : t) : bytes :=
  be_bytes 2 MSGTYPE_UPDATE_FEE ++ p_channel_id m ++ be_bytes 4 (feerate_per_kw m).

Definition wf (m : t) : Prop :=
  is_bytes (p_channel_id m) ∧ Z.of_nat (length (p_channel_id m)) = LN_SZ_CHANNEL_ID ∧
  in_range 32 (feerate_per_kw m).

Definition ok (d : bytes) : bool :=
  (2 + 36 <=? Z.of_nat (length d)) && (be_val (sl d 0 2) =? MSGTYPE_UPDATE_FEE).

Definition dec (m : t) (d : bytes) : t :=
  mk (sl d 2 32) (be_val (sl d 34 4)).

Context {T : AllocTotal A}.

Lemma update_fee_codec :
  MsgCodec any_ext (λ _ m, m) wf wire ln_msg_update_fee_create ln_msg_update_fee_read ∧
  SafeReader ln_msg_update_fee_read.
Proof.
  apply reads_as_codec with (ok := ok) (dec := dec).
  - codec_create.
  - codec_reads.
  - codec_complete.
  - codec_sound.
Qed.

End ops.

End UpdateFee.

(** ** update_fail_malformed_htlc *)

Module UpdateFailMalformedHtlc.

(** [ln_update_fail_malformed_htlc_t] *)
Record t := mk {
  p_channel_id : bytes;
  id : Z;
  sha256_onion : bytes;
  failure_code : Z;
}.

Definition set_p_channel_id (v : bytes) (m : t) : t :=
  mk v (id m) (sha256_onion m) (failure_code m).
Definition set_id (v : Z) (m : t) : t :=
  mk (p_channel_id m) v (sha256_onion m) (failure_code m).
Definition set_sha256_onion (v : bytes) (m : t) : t :=
  mk (p_channel_id m) (id m) v (failure_code m).
Definition set_failure_code (v : Z) (m : t) : t :=
  mk (p_channel_id m) (id m) (sha256_onion m) v.

Ltac proj_red ::= cbn [p_channel_id id sha256_onion failure_code].

Section ops.
Context {A : Alloc}.

Definition ln_msg_update_fail_malformed_htlc_create (pMsg : t) : prog utl_push_t bool :=
  call (utl_push_init (2 + 74));;
  ln_misc_push16be MSGTYPE_UPDATE_FAIL_MALFORMED_HTLC;;
  push_bytes (p_channel_id pMsg) LN_SZ_CHANNEL_ID;;
  ln_misc_push64be (id pMsg);;
  push_bytes (sha256_onion pMsg) BTC_SZ_HASH256;;
  ln_misc_push16be (failure_code pMsg);;
  proto ← get_st;
  c_assert (2 + 74 =? len (data proto));;
  call utl_push_trim;;
  mret true.

Definition ln_msg_update_fail_malformed_htlc_read (pData : bytes) (Len : Z) : prog t bool :=
  exit_if (Len <? 2 + 74) false;;
  type ← get_at ln_misc_get16be pData 0;
  exit_if (negb (type =? MSGTYPE_UPDATE_FAIL_MALFORMED_HTLC)) false;;
  let pos := 2 in
  v ← rd_bytes pData pos LN_SZ_CHANNEL_ID;
  modify (set_p_channel_id v);;
  let pos := pos + LN_SZ_CHANNEL_ID in
  v ← get_at ln_misc_get64be pData pos;
  modify (set_id v);;
  let pos := pos + 8 in
  v ← rd_bytes pData pos BTC_SZ_HASH256;
  modify (set_sha256_onion v);;
  let pos := pos + BTC_SZ_HASH256 in
  v ← get_at ln_misc_get16be pData pos;
  modify (set_failure_code v);;
  let pos := pos + 2 in
  c_assert (pos <=? Len);;
  mret true.

(** The layout in BOLT #2. *)
Definition wire (m : t) : bytes :=
  be_bytes 2 MSGTYPE_UPDATE_FAIL_MALFORMED_HTLC ++ p_channel_id m ++ be_bytes 8 (id m) ++ sha256_onion m ++ be_bytes 2 (failure_code m).

Definition wf (m : t) : Prop :=
  is_bytes (p_channel_id m) ∧ Z.of_nat (length (p_channel_id m)) = LN_SZ_CHANNEL_ID ∧
  in_range 64 (id m) ∧
  is_bytes (sha256_onion m) ∧ Z.of_nat (length (sha256_onion m)) = BTC_SZ_HASH256 ∧
  in_range 16 (failure_code m).

Definition ok (d : bytes) : bool :=
  (2 + 74 <=? Z.of_nat (length d)) && (be_val (sl d 0 2) =? MSGTYPE_UPDATE_FAIL_MALFORMED_HTLC).

Definition dec (m : t) (d : bytes) : t :=
  mk (sl d 2 32) (be_val (sl d 34 8)) (sl d 42 32) (be_val (sl d 74 2)).

Context {T : AllocTotal A}.

Lemma update_fail_malformed_htlc_codec :
  MsgCodec any_ext (λ _ m, m) wf wire ln_msg_update_fail_malformed_htlc_create ln_msg_update_fail_malformed_htlc_read ∧
  SafeReader ln_msg_update_fail_malformed_htlc_read.
Proof.
  apply reads_as_codec with (ok := ok) (dec := dec).
  - codec_create.
  - codec_reads.
  - codec_complete.
  - codec_sound.
Qed.

End ops.

End UpdateFailMalformedHtlc.

(** ** Properties *)

(** C36: the seven encoder/decoder pairs of normal operation implement the
    layouts of BOLT #2: the encoder leaves exactly the layout in the buffer, the
    decoder gets the message back whatever follows, accepts only packets that
    start with a layout, and (commitment_signed apart) no packet takes it
    outside the packet or into a failed [assert]. *)
Theorem normal_operation_codecs {A : Alloc} {T : AllocTotal A} :
  (MsgCodec any_ext UpdateAddHtlc.upd UpdateAddHtlc.wf UpdateAddHtlc.wire
     UpdateAddHtlc.ln_msg_update_add_htlc_create UpdateAddHtlc.ln_msg_update_add_htlc_read ∧
   SafeReader UpdateAddHtlc.ln_msg_update_add_htlc_read) ∧
  (MsgCodec any_ext (λ _ m, m) UpdateFulfillHtlc.wf UpdateFulfillHtlc.wire
     UpdateFulfillHtlc.ln_msg_update_fulfill_htlc_create
     UpdateFulfillHtlc.ln_msg_update_fulfill_htlc_read ∧
   SafeReader UpdateFulfillHtlc.ln_msg_update_fulfill_htlc_read) ∧
  (MsgCodec any_ext (λ _ m, m) UpdateFailHtlc.wf UpdateFailHtlc.wire
     UpdateFailHtlc.ln_msg_update_fail_htlc_create UpdateFailHtlc.ln_msg_update_fail_htlc_read ∧
   SafeReader UpdateFailHtlc.ln_msg_update_fail_htlc_read) ∧
  MsgCodec any_ext (λ _ m, m) CommitSigned.wf CommitSigned.wire
    CommitSigned.ln_msg_commit_signed_create CommitSigned.ln_msg_commit_signed_read ∧
  (MsgCodec any_ext (λ _ m, m) RevokeAndAck.wf RevokeAndAck.wire
     RevokeAndAck.ln_msg_revoke_and_ack_create RevokeAndAck.ln_msg_revoke_and_ack_read ∧
   SafeReader RevokeAndAck.ln_msg_revoke_and_ack_read) ∧
  (MsgCodec any_ext (λ _ m, m) UpdateFee.wf UpdateFee.wire
     UpdateFee.ln_msg_update_fee_create UpdateFee.ln_msg_update_fee_read ∧
   SafeReader UpdateFee.ln_msg_update_fee_read) ∧
  (MsgCodec any_ext (λ _ m, m) UpdateFailMalformedHtlc.wf UpdateFailMalformedHtlc.wire
     UpdateFailMalformedHtlc.ln_msg_update_fail_malformed_htlc_create
     UpdateFailMalformedHtlc.ln_msg_update_fail_malformed_htlc_read ∧
   SafeReader UpdateFailMalformedHtlc.ln_msg_update_fail_malformed_htlc_read).
Proof.
  exact (conj UpdateAddHtlc.update_add_htlc_codec (conj UpdateFulfillHtlc.update_fulfill_htlc_codec
    (conj UpdateFailHtlc.update_fail_htlc_codec (conj CommitSigned.commit_signed_codec
    (conj RevokeAndAck.revoke_and_ack_codec (conj UpdateFee.update_fee_codec
      UpdateFailMalformedHtlc.update_fail_malformed_htlc_codec)))))).
Qed.

(** An update_fee of 253 sat/kw with the channel id 1, 2, ..., 32. *)
Definition fee_253 : UpdateFee.t := UpdateFee.mk (Z.of_nat <$> seq 1 32) 253.

Lemma normal_operation_codecs_witness :
  AllocTotal total_alloc ∧
  call (@UpdateFee.ln_msg_update_fee_create total_alloc fee_253) (mk_push 0 (mk_buf None 0)) =
  Ret true (mk_push 38 (of_bytes ([0; 134] ++ (Z.of_nat <$> seq 1 32) ++ [0; 0; 0; 253]))).
Proof.
  split; [exact total_alloc_total|].
  destruct (@normal_operation_codecs total_alloc total_alloc_total)
    as (_ & _ & _ & _ & _ & [C _] & _).
  assert (UpdateFee.wf fee_253) as Hwf.
  { unfold UpdateFee.wf, fee_253. cbn [UpdateFee.p_channel_id UpdateFee.feerate_per_kw].
    split; [|split; [reflexivity|split; lia]].
    by_compute. }
  exact (msg_create (MsgCodec := C) fee_253 (mk_push 0 (mk_buf None 0)) Hwf).
Defined.

(** [ln_msg_commit_signed_read] checks the fixed part of the packet but not
    that the HTLC signatures it announces are there: it returns [true] exactly
    when they are, and otherwise reads past the packet. *)
Theorem commit_signed_read_overrun {A : Alloc} {T : AllocTotal A} m0 d :
  packet d → CommitSigned.head_ok d = true →
  read_packet CommitSigned.ln_msg_commit_signed_read d m0 =
  if 100 + be_val (sl d 98 2) * 64 <=? Z.of_nat (length d)
  then Ret true (CommitSigned.dec m0 d) else UB.
Proof.
  intros Hp Hh. pose proof (CommitSigned.commit_signed_reads m0 d Hp) as H. cbv beta in H.
  rewrite Hh in H. unfold CommitSigned.sigs_fit in H. cbn [andb] in H. by case_match.
Qed.

(** A packet of 100 bytes that announces one signature. *)
Definition short_commit_signed : bytes := [0; 132] ++ replicate 96 0 ++ [0; 1].

Lemma commit_signed_read_overrun_witness :
  read_packet (@CommitSigned.ln_msg_commit_signed_read total_alloc) short_commit_signed
    (CommitSigned.mk [] [] 0 None) = UB.
Proof.
  etrans; [apply (@commit_signed_read_overrun total_alloc total_alloc_total);
           [split; [by_compute|vm_compute; reflexivity]
           |vm_compute; reflexivity]|].
  vm_compute. reflexivity.
Defined.

End LnMsgNormal.
