(* ===== verification/LnMsgEstablish.v ===== *)
(** The messages of channel establishment and reestablishment:
    [ln/ln_msg_establish.c].

    As in [LnMsgNormal], one Module per message. The check of a public key
    is the one of [LnDerkey]; the genesis hash the node was configured with
    ([gGenesisChainHash]) is an argument. *)
From stdpp Require Import base list numbers fin vector tactics.
From Stdlib Require Import ZArith Lia.
From S2P Require Import Prelude CProg UtlInt UtlBuf UtlPush LnDerkey LnMisc LnMsg.
Import Derkey(btc_keys_chkpub).
Import UtlBuf UtlPush LnMisc LnMsg.
Open Scope Z_scope.

Module LnMsgEstablish.

(** ** The six public keys of open_channel and accept_channel *)

Abbreviation LN_FUNDIDX_MAX := 6%nat.

(** [for (int lp = 0; lp < LN_FUNDIDX_MAX; lp++)] *)
Definition fundidx : list (fin LN_FUNDIDX_MAX) := [0; 1; 2; 3; 4; 5]%fin.

Section keys.
Context {A : Alloc}.
Implicit Types keys : vec bytes LN_FUNDIDX_MAX.

(** The loop over [p_pubkeys] of the encoders. *)
Fixpoint push_pubkeys (lps : list (fin LN_FUNDIDX_MAX)) (p_pubkeys : vec bytes LN_FUNDIDX_MAX)
    : prog utl_push_t unit :=
  match lps with
  | [] => mret tt
  | lp :: lps =>
      exit_if (negb (btc_keys_chkpub (p_pubkeys !!! lp))) false;;
      push_bytes (p_pubkeys !!! lp) BTC_SZ_PUBKEY;;
      push_pubkeys lps p_pubkeys
  end.

(** The loop of the decoders; [set] stores [pMsg->p_pubkeys[lp]], the result
    is [pos] after it. *)
Fixpoint read_pubkeys {M} (set : fin LN_FUNDIDX_MAX → bytes → M → M)
    (lps : list (fin LN_FUNDIDX_MAX)) (pData : bytes) (pos : Z) : prog M Z :=
  match lps with
  | [] => mret pos
  | lp :: lps =>
      v ← rd_bytes pData pos BTC_SZ_PUBKEY;
      exit_if (negb (btc_keys_chkpub v)) false;;
      modify (set lp v);;
      read_pubkeys set lps pData (pos + BTC_SZ_PUBKEY)
  end.

Definition key_ok (k : bytes) : Prop :=
  is_bytes k ∧ Z.of_nat (length k) = BTC_SZ_PUBKEY ∧ btc_keys_chkpub k = true.

Lemma push_step_pubkeys {T : AllocTotal A} {B} keys d n (K : unit → prog utl_push_t B) :
  Forall key_ok (vec_to_list keys) → Z.of_nat (length d) + 6 * BTC_SZ_PUBKEY ≤ n → n < 2 ^ 31 →
  (push_pubkeys fundidx keys ≫= K) (pushedb d n) =
  K tt (pushedb (d ++ concat (vec_to_list keys)) n).
Proof.
  inv_vec keys. intros k0 k1 k2 k3 k4 k5. unfold key_ok. intros Hk Hn Hlt. split_forall; split_and_hyps. unfold fundidx. cbn [push_pubkeys].
  set (ks := [# k0; k1; k2; k3; k4; k5]).
  change (ks !!! 0%fin) with k0. change (ks !!! 1%fin) with k1. change (ks !!! 2%fin) with k2.
  change (ks !!! 3%fin) with k3. change (ks !!! 4%fin) with k4. change (ks !!! 5%fin) with k5.
 
  repeat push_step. f_equal. f_equal. subst ks. cbn [vec_to_list concat]. by rewrite app_nil_r, <- ?app_assoc.
Qed.

(** The six keys of a packet, the first at [pos]. *)
Definition keys_at (d : bytes) (pos : Z) : vec bytes LN_FUNDIDX_MAX :=
  [# sl d pos 33; sl d (pos + 33) 33; sl d (pos + 66) 33; sl d (pos + 99) 33;
     sl d (pos + 132) 33; sl d (pos + 165) 33 ].

Definition keys_ok_at (d : bytes) (pos : Z) : bool :=
  forallb btc_keys_chkpub (vec_to_list (keys_at d pos)).

Lemma keys_at_sl d pos keys :
  0 ≤ pos → Forall key_ok (vec_to_list keys) →
  sl d pos (6 * BTC_SZ_PUBKEY) = concat (vec_to_list keys) → keys_at d pos = keys.
Proof.
  intros Hp. inv_vec keys. intros k0 k1 k2 k3 k4 k5 Hk E. split_forall.
  unfold key_ok in *. split_and_hyps. cbn [vec_to_list concat] in E.
  rewrite app_nil_r in E. unfold keys_at.
  assert (∀ q, 0 ≤ q → q + 33 ≤ 198 →
    sl d (pos + q) 33 = sl (k0 ++ k1 ++ k2 ++ k3 ++ k4 ++ k5) q 33) as Hs.
  { intros q Hq1 Hq2. rewrite <- E. by rewrite sl_sl by lia. }
  pose proof (Hs 0 ltac:(lia) ltac:(lia)) as H0'. rewrite Z.add_0_r in H0'.
  rewrite H0', !Hs by lia. by repeat sl_step.
Qed.

Lemma keys_ok_at_sl d pos keys :
  0 ≤ pos → Forall key_ok (vec_to_list keys) →
  sl d pos (6 * BTC_SZ_PUBKEY) = concat (vec_to_list keys) → keys_ok_at d pos = true.
Proof.
  intros Hp Hk E. unfold keys_ok_at. rewrite (keys_at_sl d pos keys Hp Hk E).
  apply forallb_forall. intros x Hx.
  rewrite Forall_forall in Hk. by destruct (Hk x Hx) as (_ & _ & ->).
Qed.

Lemma concat_keys_at d pos :
  0 ≤ pos → concat (vec_to_list (keys_at d pos)) = sl d pos (6 * BTC_SZ_PUBKEY).
Proof.
  intros Hp. unfold keys_at. cbn [vec_to_list concat]. rewrite app_nil_r.
  by repeat rewrite sl_app by lia.
Qed.

Lemma keys_at_ok d pos :
  is_bytes d → 0 ≤ pos → pos + 6 * BTC_SZ_PUBKEY ≤ Z.of_nat (length d) →
  keys_ok_at d pos = true → Forall key_ok (vec_to_list (keys_at d pos)).
Proof.
  unfold keys_ok_at, keys_at, key_ok. intros Hd Hp Hn Hk. cbn [vec_to_list forallb] in *.
  rewrite !andb_true_iff in Hk. split_and_hyps.
  repeat (constructor; [repeat split; [auto with ptarm|apply length_sl_Z; lia|done]|]).
  constructor.
Qed.

Lemma length_keys keys :
  Forall key_ok (vec_to_list keys) →
  Z.of_nat (length (concat (vec_to_list keys))) = 6 * BTC_SZ_PUBKEY.
Proof.
  inv_vec keys. intros k0 k1 k2 k3 k4 k5 Hk. split_forall. unfold key_ok in *.
  split_and_hyps. cbn [vec_to_list concat]. len_side.
Qed.

Section read.
Context {M B : Type} (set : fin LN_FUNDIDX_MAX → bytes → M → M).

(** All six keys check: they are stored one after the other. *)
Lemma read_step_pubkeys d pos (K : Z → prog M B) s :
  0 ≤ pos → pos + 6 * BTC_SZ_PUBKEY ≤ Z.of_nat (length d) → keys_ok_at d pos = true →
  (read_pubkeys set fundidx d pos ≫= K) s =
  K (pos + 6 * BTC_SZ_PUBKEY)
    (foldl (λ m lp, set lp (keys_at d pos !!! lp) m) s fundidx).
Proof.
  unfold keys_ok_at, keys_at. intros Hp Hn Hk. cbn [vec_to_list forallb] in Hk.
  rewrite !andb_true_iff in Hk. split_and_hyps.
  unfold fundidx. cbn [read_pubkeys].
  repeat (rewrite bind_assoc, rd_step by lia; cbv beta; rewrite <- ?Z.add_assoc; add_lits;
          rewrite bind_assoc, exit_no by (by apply negb_false_iff);
          rewrite bind_assoc, bind_modify).
  by rewrite bind_mret.
Qed.

(** One does not: the decoder stops there. *)
Lemma read_step_pubkeys_bad d pos (K : Z → prog M B) s :
  0 ≤ pos → pos + 6 * BTC_SZ_PUBKEY ≤ Z.of_nat (length d) → keys_ok_at d pos = false →
  ∃ s', (read_pubkeys set fundidx d pos ≫= K) s = Exit false s'.
Proof.
  unfold keys_ok_at, keys_at. intros Hp Hn Hk. cbn [vec_to_list forallb] in Hk.
  unfold fundidx. cbn [read_pubkeys].
  repeat (rewrite bind_assoc, rd_step by lia; cbv beta; rewrite <- ?Z.add_assoc; add_lits;
          rewrite bind_assoc, exit_step;
          match goal with |- context [if negb ?c then _ else _] =>
            destruct c eqn:?; cbn [negb andb] in *; [|by eexists]
          end; rewrite bind_assoc, bind_modify).
  done.
Qed.
End read.
End keys.

(** The steps of the two messages that carry keys. *)
Ltac wf_hook ::=
  try match goal with H : Forall key_ok (vec_to_list ?ks) |- _ =>
        lazymatch goal with
        | _ : Z.of_nat (length (concat (vec_to_list ks))) = _ |- _ => fail
        | |- _ => pose proof (length_keys ks H)
        end
      end.
Ltac push_hook ::= rewrite push_step_pubkeys by (first [done | len_side]).
Ltac read_hook ::=
  match goal with |- context [(read_pubkeys ?set fundidx ?d ?pos ≫= ?K) ?s] =>
    let Hk := fresh "Hk" in
    destruct (keys_ok_at d pos) eqn:Hk;
    [ rewrite (read_step_pubkeys set d pos K s) by (first [done | len_side])
    | let E := fresh "E" in
      destruct (read_step_pubkeys_bad set d pos K s) as [? E]; [lia|lia|done|];
      rewrite E; first [eexists; reflexivity | absurd_facts] ]
  end.
Ltac sl_hook ::=
  match goal with
  | H : Forall key_ok (vec_to_list ?ks) |- context [keys_at ?d ?p] =>
      rewrite (keys_at_sl d p ks) by (first [lia | exact H | by repeat sl_step])
  | H : Forall key_ok (vec_to_list ?ks) |- context [keys_ok_at ?d ?p] =>
      rewrite (keys_ok_at_sl d p ks) by (first [lia | exact H | by repeat sl_step])
  end.
Ltac sl_wf_hook ::= apply keys_at_ok; first [done | lia].
Ltac sl_red_hook ::=
  rewrite ?concat_keys_at by lia;
  try match goal with H : ?g = sl ?d 2 32 |- context [?g] => rewrite H end.
Ltac dec_hook ::=
  match goal with m0 : _ |- returned _ = Ret true (_ ?m0 _) =>
    destruct m0; match goal with ks : vec bytes _ |- _ => inv_vec ks end; reflexivity
  end.

(** [open_channel.channel_flags] *)
Abbreviation CHANNEL_FLAGS_MASK := 1.

Definition LN_SATOSHI2MSAT (sat : Z) : Z := u64 (sat * 1000).

(** ** open_channel *)

Module OpenChannel.

(** [ln_open_channel_t] *)
Record t := mk {
  funding_sat : Z;
  push_msat : Z;
  dust_limit_sat : Z;
  max_htlc_value_in_flight_msat : Z;
  channel_reserve_sat : Z;
  htlc_minimum_msat : Z;
  feerate_per_kw : Z;
  to_self_delay : Z;
  max_accepted_htlcs : Z;
  p_temp_channel_id : bytes;
  p_pubkeys : vec bytes LN_FUNDIDX_MAX;
  channel_flags : Z;
}.

Definition set_funding_sat (v : Z) (m : t) : t :=
  mk v (push_msat m) (dust_limit_sat m) (max_htlc_value_in_flight_msat m)
    (channel_reserve_sat m) (htlc_minimum_msat m) (feerate_per_kw m) (to_self_delay m)
    (max_accepted_htlcs m) (p_temp_channel_id m) (p_pubkeys m) (channel_flags m).
Definition set_push_msat (v : Z) (m : t) : t :=
  mk (funding_sat m) v (dust_limit_sat m) (max_htlc_value_in_flight_msat m)
    (channel_reserve_sat m) (htlc_minimum_msat m) (feerate_per_kw m) (to_self_delay m)
    (max_accepted_htlcs m) (p_temp_channel_id m) (p_pubkeys m) (channel_flags m).
Definition set_dust_limit_sat (v : Z) (m : t) : t :=
  mk (funding_sat m) (push_msat m) v (max_htlc_value_in_flight_msat m)
    (channel_reserve_sat m) (htlc_minimum_msat m) (feerate_per_kw m) (to_self_delay m)
    (max_accepted_htlcs m) (p_temp_channel_id m) (p_pubkeys m) (channel_flags m).
Definition set_max_htlc_value_in_flight_msat (v : Z) (m : t) : t :=
  mk (funding_sat m) (push_msat m) (dust_limit_sat m) v (channel_reserve_sat m)
    (htlc_minimum_msat m) (feerate_per_kw m) (to_self_delay m) (max_accepted_htlcs m)
    (p_temp_channel_id m) (p_pubkeys m) (channel_flags m).
Definition set_channel_reserve_sat (v : Z) (m : t) : t :=
  mk (funding_sat m) (push_msat m) (dust_limit_sat m) (max_htlc_value_in_flight_msat m) v
    (htlc_minimum_msat m) (feerate_per_kw m) (to_self_delay m) (max_accepted_htlcs m)
    (p_temp_channel_id m) (p_pubkeys m) (channel_flags m).
Definition set_htlc_minimum_msat (v : Z) (m : t) : t :=
  mk (funding_sat m) (push_msat m) (dust_limit_sat m) (max_htlc_value_in_flight_msat m)
    (channel_reserve_sat m) v (feerate_per_kw m) (to_self_delay m) (max_accepted_htlcs m)
    (p_temp_channel_id m) (p_pubkeys m) (channel_flags m).
Definition set_feerate_per_kw (v : Z) (m : t) : t :=
  mk (funding_sat m) (push_msat m) (dust_limit_sat m) (max_htlc_value_in_flight_msat m)
    (channel_reserve_sat m) (htlc_minimum_msat m) v (to_self_delay m) (max_accepted_htlcs m)
    (p_temp_channel_id m) (p_pubkeys m) (channel_flags m).
Definition set_to_self_delay (v : Z) (m : t) : t :=
  mk (funding_sat m) (push_msat m) (dust_limit_sat m) (max_htlc_value_in_flight_msat m)
    (channel_reserve_sat m) (htlc_minimum_msat m) (feerate_per_kw m) v (max_accepted_htlcs m)
    (p_temp_channel_id m) (p_pubkeys m) (channel_flags m).
Definition set_max_accepted_htlcs (v : Z) (m : t) : t :=
  mk (funding_sat m) (push_msat m) (dust_limit_sat m) (max_htlc_value_in_flight_msat m)
    (channel_reserve_sat m) (htlc_minimum_msat m) (feerate_per_kw m) (to_self_delay m) v
    (p_temp_channel_id m) (p_pubkeys m) (channel_flags m).
Definition set_p_temp_channel_id (v : bytes) (m : t) : t :=
  mk (funding_sat m) (push_msat m) (dust_limit_sat m) (max_htlc_value_in_flight_msat m)
    (channel_reserve_sat m) (htlc_minimum_msat m) (feerate_per_kw m) (to_self_delay m)
    (max_accepted_htlcs m) v (p_pubkeys m) (channel_flags m).
Definition set_p_pubkeys (v : vec bytes LN_FUNDIDX_MAX) (m : t) : t :=
  mk (funding_sat m) (push_msat m) (dust_limit_sat m) (max_htlc_value_in_flight_msat m)
    (channel_reserve_sat m) (htlc_minimum_msat m) (feerate_per_kw m) (to_self_delay m)
    (max_accepted_htlcs m) (p_temp_channel_id m) v (channel_flags m).
Definition set_channel_flags (v : Z) (m : t) : t :=
  mk (funding_sat m) (push_msat m) (dust_limit_sat m) (max_htlc_value_in_flight_msat m)
    (channel_reserve_sat m) (htlc_minimum_msat m) (feerate_per_kw m) (to_self_delay m)
    (max_accepted_htlcs m) (p_temp_channel_id m) (p_pubkeys m) v.

Ltac proj_red ::= cbn [funding_sat push_msat dust_limit_sat max_htlc_value_in_flight_msat channel_reserve_sat htlc_minimum_msat feerate_per_kw to_self_delay max_accepted_htlcs p_temp_channel_id p_pubkeys channel_flags].

Definition set_pubkey (lp : fin LN_FUNDIDX_MAX) (v : bytes) (m : t) : t :=
  set_p_pubkeys (vinsert lp v (p_pubkeys m)) m.

Section ops.
Context {A : Alloc} (gGenesisChainHash : bytes).

Definition ln_msg_open_channel_create (pMsg : t) : prog utl_push_t bool :=
  exit_if ((16777216 <=? funding_sat pMsg)
           || (LN_SATOSHI2MSAT (funding_sat pMsg) <? push_msat pMsg)
           || (483 <? max_accepted_htlcs pMsg)) false;;
  call (utl_push_init (2 + 319));;
  ln_misc_push16be MSGTYPE_OPEN_CHANNEL;;
  push_bytes gGenesisChainHash BTC_SZ_HASH256;;
  push_bytes (p_temp_channel_id pMsg) LN_SZ_CHANNEL_ID;;
  ln_misc_push64be (funding_sat pMsg);;
  ln_misc_push64be (push_msat pMsg);;
  ln_misc_push64be (dust_limit_sat pMsg);;
  ln_misc_push64be (max_htlc_value_in_flight_msat pMsg);;
  ln_misc_push64be (channel_reserve_sat pMsg);;
  ln_misc_push64be (htlc_minimum_msat pMsg);;
  ln_misc_push32be (feerate_per_kw pMsg);;
  ln_misc_push16be (to_self_delay pMsg);;
  ln_misc_push16be (max_accepted_htlcs pMsg);;
  push_pubkeys fundidx (p_pubkeys pMsg);;
  ln_misc_push8 (channel_flags pMsg);;
  proto ← get_st;
  c_assert (2 + 319 =? len (data proto));;
  call utl_push_trim;;
  mret true.

Definition ln_msg_open_channel_read (pData : bytes) (Len : Z) : prog t bool :=
  exit_if (Len <? 2 + 319) false;;
  type ← get_at ln_misc_get16be pData 0;
  exit_if (negb (type =? MSGTYPE_OPEN_CHANNEL)) false;;
  let pos := 2 in
  chain ← rd_bytes pData pos BTC_SZ_HASH256;
  exit_if (negb (bool_decide (gGenesisChainHash = chain))) false;;
  let pos := pos + BTC_SZ_HASH256 in
  v ← rd_bytes pData pos LN_SZ_CHANNEL_ID;
  modify (set_p_temp_channel_id v);;
  let pos := pos + LN_SZ_CHANNEL_ID in
  v ← get_at ln_misc_get64be pData pos;
  modify (set_funding_sat v);;
  exit_if (16777216 <=? v) false;;
  let pos := pos + 8 in
  v ← get_at ln_misc_get64be pData pos;
  modify (set_push_msat v);;
  pMsg ← get_st;
  exit_if (LN_SATOSHI2MSAT (funding_sat pMsg) <? push_msat pMsg) false;;
  let pos := pos + 8 in
  v ← get_at ln_misc_get64be pData pos;
  modify (set_dust_limit_sat v);;
  let pos := pos + 8 in
  v ← get_at ln_misc_get64be pData pos;
  modify (set_max_htlc_value_in_flight_msat v);;
  let pos := pos + 8 in
  v ← get_at ln_misc_get64be pData pos;
  modify (set_channel_reserve_sat v);;
  let pos := pos + 8 in
  v ← get_at ln_misc_get64be pData pos;
  modify (set_htlc_minimum_msat v);;
  let pos := pos + 8 in
  v ← get_at ln_misc_get32be pData pos;
  modify (set_feerate_per_kw v);;
  let pos := pos + 4 in
  v ← get_at ln_misc_get16be pData pos;
  modify (set_to_self_delay v);;
  let pos := pos + 2 in
  v ← get_at ln_misc_get16be pData pos;
  modify (set_max_accepted_htlcs v);;
  exit_if (483 <? v) false;;
  let pos := pos + 2 in
  pos ← read_pubkeys set_pubkey fundidx pData pos;
  v ← rd_byte pData pos;
  modify (set_channel_flags v);;
  exit_if (negb (Z.land v (Z.lnot CHANNEL_FLAGS_MASK) =? 0)) false;;
  let pos := pos + 1 in
  shutdown_len ← (if 2 <=? Len - pos then get_at ln_misc_get16be pData pos else mret 0);
  let pos := (if 2 <=? Len - pos then pos + 2 else pos) in
  let pos := (if shutdown_len <=? Len - pos then pos + shutdown_len else pos) in
  c_assert (pos <=? Len);;
  mret true.

(** The layout in BOLT #2. *)
Definition wire (m : t) : bytes :=
  be_bytes 2 MSGTYPE_OPEN_CHANNEL ++
  gGenesisChainHash ++
  p_temp_channel_id m ++
  be_bytes 8 (funding_sat m) ++
  be_bytes 8 (push_msat m) ++
  be_bytes 8 (dust_limit_sat m) ++
  be_bytes 8 (max_htlc_value_in_flight_msat m) ++
  be_bytes 8 (channel_reserve_sat m) ++
  be_bytes 8 (htlc_minimum_msat m) ++
  be_bytes 4 (feerate_per_kw m) ++
  be_bytes 2 (to_self_delay m) ++
  be_bytes 2 (max_accepted_htlcs m) ++
  concat (vec_to_list (p_pubkeys m)) ++
  be_bytes 1 (channel_flags m).

Definition wf (m : t) : Prop :=
  is_bytes (p_temp_channel_id m) ∧ Z.of_nat (length (p_temp_channel_id m)) = LN_SZ_CHANNEL_ID ∧
  in_range 64 (funding_sat m) ∧
  in_range 64 (push_msat m) ∧
  in_range 64 (dust_limit_sat m) ∧
  in_range 64 (max_htlc_value_in_flight_msat m) ∧
  in_range 64 (channel_reserve_sat m) ∧
  in_range 64 (htlc_minimum_msat m) ∧
  in_range 32 (feerate_per_kw m) ∧
  in_range 16 (to_self_delay m) ∧
  in_range 16 (max_accepted_htlcs m) ∧
  Forall key_ok (vec_to_list (p_pubkeys m)) ∧
  funding_sat m < 16777216 ∧
  push_msat m ≤ LN_SATOSHI2MSAT (funding_sat m) ∧
  max_accepted_htlcs m ≤ 483 ∧
  in_range 8 (channel_flags m) ∧
  Z.land (channel_flags m) (Z.lnot CHANNEL_FLAGS_MASK) = 0.

Definition ok (d : bytes) : bool :=
  (2 + 319 <=? Z.of_nat (length d)) && (be_val (sl d 0 2) =? MSGTYPE_OPEN_CHANNEL)
  && bool_decide (gGenesisChainHash = sl d 2 32) && (be_val (sl d 66 8) <? 16777216)
  && (be_val (sl d 74 8) <=? LN_SATOSHI2MSAT (be_val (sl d 66 8))) && (be_val (sl d 120 2) <=? 483)
  && keys_ok_at d 122
  && (Z.land (be_val (sl d 320 1)) (Z.lnot CHANNEL_FLAGS_MASK) =? 0).

Definition dec (m : t) (d : bytes) : t :=
  mk (be_val (sl d 66 8))
    (be_val (sl d 74 8))
    (be_val (sl d 82 8))
    (be_val (sl d 90 8))
    (be_val (sl d 98 8))
    (be_val (sl d 106 8))
    (be_val (sl d 114 4))
    (be_val (sl d 118 2))
    (be_val (sl d 120 2))
    (sl d 34 32)
    (keys_at d 122)
    (be_val (sl d 320 1)).

Context {T : AllocTotal A} (Hglen : Z.of_nat (length gGenesisChainHash) = BTC_SZ_HASH256).

Ltac red_hook ::= cbn [funding_sat push_msat set_funding_sat set_push_msat].

Lemma open_channel_codec :
  MsgCodec any_ext (λ _ m, m) wf wire ln_msg_open_channel_create ln_msg_open_channel_read ∧
  SafeReader ln_msg_open_channel_read.
Proof.
  apply reads_as_codec with (ok := ok) (dec := dec).
  - codec_create.
  - codec_reads.
  - codec_complete.
  - codec_sound.
Qed.

End ops.

End OpenChannel.

(** ** accept_channel *)

Module AcceptChannel.

(** [ln_accept_channel_t] *)
Record t := mk {
  dust_limit_sat : Z;
  max_htlc_value_in_flight_msat : Z;
  channel_reserve_sat : Z;
  htlc_minimum_msat : Z;
  min_depth : Z;
  to_self_delay : Z;
  max_accepted_htlcs : Z;
  p_temp_channel_id : bytes;
  p_pubkeys : vec bytes LN_FUNDIDX_MAX;
}.

Definition set_dust_limit_sat (v : Z) (m : t) : t :=
  mk v (max_htlc_value_in_flight_msat m) (channel_reserve_sat m) (htlc_minimum_msat m)
    (min_depth m) (to_self_delay m) (max_accepted_htlcs m) (p_temp_channel_id m) (p_pubkeys m).
Definition set_max_htlc_value_in_flight_msat (v : Z) (m : t) : t :=
  mk (dust_limit_sat m) v (channel_reserve_sat m) (htlc_minimum_msat m) (min_depth m)
    (to_self_delay m) (max_accepted_htlcs m) (p_temp_channel_id m) (p_pubkeys m).
Definition set_channel_reserve_sat (v : Z) (m : t) : t :=
  mk (dust_limit_sat m) (max_htlc_value_in_flight_msat m) v (htlc_minimum_msat m)
    (min_depth m) (to_self_delay m) (max_accepted_htlcs m) (p_temp_channel_id m) (p_pubkeys m).
Definition set_htlc_minimum_msat (v : Z) (m : t) : t :=
  mk (dust_limit_sat m) (max_htlc_value_in_flight_msat m) (channel_reserve_sat m) v
    (min_depth m) (to_self_delay m) (max_accepted_htlcs m) (p_temp_channel_id m) (p_pubkeys m).
Definition set_min_depth (v : Z) (m : t) : t :=
  mk (dust_limit_sat m) (max_htlc_value_in_flight_msat m) (channel_reserve_sat m)
    (htlc_minimum_msat m) v (to_self_delay m) (max_accepted_htlcs m) (p_temp_channel_id m)
    (p_pubkeys m).
Definition set_to_self_delay (v : Z) (m : t) : t :=
  mk (dust_limit_sat m) (max_htlc_value_in_flight_msat m) (channel_reserve_sat m)
    (htlc_minimum_msat m) (min_depth m) v (max_accepted_htlcs m) (p_temp_channel_id m)
    (p_pubkeys m).
Definition set_max_accepted_htlcs (v : Z) (m : t) : t :=
  mk (dust_limit_sat m) (max_htlc_value_in_flight_msat m) (channel_reserve_sat m)
    (htlc_minimum_msat m) (min_depth m) (to_self_delay m) v (p_temp_channel_id m)
    (p_pubkeys m).
Definition set_p_temp_channel_id (v : bytes) (m : t) : t :=
  mk (dust_limit_sat m) (max_htlc_value_in_flight_msat m) (channel_reserve_sat m)
    (htlc_minimum_msat m) (min_depth m) (to_self_delay m) (max_accepted_htlcs m) v
    (p_pubkeys m).
Definition set_p_pubkeys (v : vec bytes LN_FUNDIDX_MAX) (m : t) : t :=
  mk (dust_limit_sat m) (max_htlc_value_in_flight_msat m) (channel_reserve_sat m)
    (htlc_minimum_msat m) (min_depth m) (to_self_delay m) (max_accepted_htlcs m)
    (p_temp_channel_id m) v.

Ltac proj_red ::= cbn [dust_limit_sat max_htlc_value_in_flight_msat channel_reserve_sat htlc_minimum_msat min_depth to_self_delay max_accepted_htlcs p_temp_channel_id p_pubkeys].

Definition set_pubkey (lp : fin LN_FUNDIDX_MAX) (v : bytes) (m : t) : t :=
  set_p_pubkeys (vinsert lp v (p_pubkeys m)) m.

Section ops.
Context {A : Alloc}.

Definition ln_msg_accept_channel_create (pMsg : t) : prog utl_push_t bool :=
  call (utl_push_init (2 + 270));;
  ln_misc_push16be MSGTYPE_ACCEPT_CHANNEL;;
  push_bytes (p_temp_channel_id pMsg) LN_SZ_CHANNEL_ID;;
  ln_misc_push64be (dust_limit_sat pMsg);;
  ln_misc_push64be (max_htlc_value_in_flight_msat pMsg);;
  ln_misc_push64be (channel_reserve_sat pMsg);;
  ln_misc_push64be (htlc_minimum_msat pMsg);;
  ln_misc_push32be (min_depth pMsg);;
  ln_misc_push16be (to_self_delay pMsg);;
  ln_misc_push16be (max_accepted_htlcs pMsg);;
  push_pubkeys fundidx (p_pubkeys pMsg);;
  proto ← get_st;
  c_assert (2 + 270 =? len (data proto));;
  call utl_push_trim;;
  mret true.

Definition ln_msg_accept_channel_read (pData : bytes) (Len : Z) : prog t bool :=
  exit_if (Len <? 2 + 270) false;;
  type ← get_at ln_misc_get16be pData 0;
  exit_if (negb (type =? MSGTYPE_ACCEPT_CHANNEL)) false;;
  let pos := 2 in
  v ← rd_bytes pData pos LN_SZ_CHANNEL_ID;
  modify (set_p_temp_channel_id v);;
  let pos := pos + LN_SZ_CHANNEL_ID in
  v ← get_at ln_misc_get64be pData pos;
  modify (set_dust_limit_sat v);;
  let pos := pos + 8 in
  v ← get_at ln_misc_get64be pData pos;
  modify (set_max_htlc_value_in_flight_msat v);;
  let pos := pos + 8 in
  v ← get_at ln_misc_get64be pData pos;
  modify (set_channel_reserve_sat v);;
  let pos := pos + 8 in
  v ← get_at ln_misc_get64be pData pos;
  modify (set_htlc_minimum_msat v);;
  let pos := pos + 8 in
  v ← get_at ln_misc_get32be pData pos;
  modify (set_min_depth v);;
  let pos := pos + 4 in
  v ← get_at ln_misc_get16be pData pos;
  modify (set_to_self_delay v);;
  let pos := pos + 2 in
  v ← get_at ln_misc_get16be pData pos;
  modify (set_max_accepted_htlcs v);;
  let pos := pos + 2 in
  pos ← read_pubkeys set_pubkey fundidx pData pos;
  shutdown_len ← (if 2 <=? Len - pos then get_at ln_misc_get16be pData pos else mret 0);
  let pos := (if 2 <=? Len - pos then pos + 2 else pos) in
  let pos := (if shutdown_len <=? Len - pos then pos + shutdown_len else pos) in
  c_assert (pos <=? Len);;
  mret true.

(** The layout in BOLT #2. *)
Definition wire (m : t) : bytes :=
  be_bytes 2 MSGTYPE_ACCEPT_CHANNEL ++
  p_temp_channel_id m ++
  be_bytes 8 (dust_limit_sat m) ++
  be_bytes 8 (max_htlc_value_in_flight_msat m) ++
  be_bytes 8 (channel_reserve_sat m) ++
  be_bytes 8 (htlc_minimum_msat m) ++
  be_bytes 4 (min_depth m) ++
  be_bytes 2 (to_self_delay m) ++
  be_bytes 2 (max_accepted_htlcs m) ++
  concat (vec_to_list (p_pubkeys m)).

Definition wf (m : t) : Prop :=
  is_bytes (p_temp_channel_id m) ∧ Z.of_nat (length (p_temp_channel_id m)) = LN_SZ_CHANNEL_ID ∧
  in_range 64 (dust_limit_sat m) ∧
  in_range 64 (max_htlc_value_in_flight_msat m) ∧
  in_range 64 (channel_reserve_sat m) ∧
  in_range 64 (htlc_minimum_msat m) ∧
  in_range 32 (min_depth m) ∧
  in_range 16 (to_self_delay m) ∧
  in_range 16 (max_accepted_htlcs m) ∧
  Forall key_ok (vec_to_list (p_pubkeys m)).

Definition ok (d : bytes) : bool :=
  (2 + 270 <=? Z.of_nat (length d)) && (be_val (sl d 0 2) =? MSGTYPE_ACCEPT_CHANNEL)
  && keys_ok_at d 74.

Definition dec (m : t) (d : bytes) : t :=
  mk (be_val (sl d 34 8))
    (be_val (sl d 42 8))
    (be_val (sl d 50 8))
    (be_val (sl d 58 8))
    (be_val (sl d 66 4))
    (be_val (sl d 70 2))
    (be_val (sl d 72 2))
    (sl d 2 32)
    (keys_at d 74).

Context {T : AllocTotal A}.

Lemma accept_channel_codec :
  MsgCodec any_ext (λ _ m, m) wf wire ln_msg_accept_channel_create ln_msg_accept_channel_read ∧
  SafeReader ln_msg_accept_channel_read.
Proof.
  apply reads_as_codec with (ok := ok) (dec := dec).
  - codec_create.
  - codec_reads.
  - codec_complete.
  - codec_sound.
Qed.

End ops.

End AcceptChannel.

(** ** funding_created *)

Module FundingCreated.

(** [ln_funding_created_t] *)
Record t := mk {
  funding_output_idx : Z;
  p_temp_channel_id : bytes;
  p_funding_txid : bytes;
  p_signature : bytes;
}.

Definition set_funding_output_idx (v : Z) (m : t) : t :=
  mk v (p_temp_channel_id m) (p_funding_txid m) (p_signature m).
Definition set_p_temp_channel_id (v : bytes) (m : t) : t :=
  mk (funding_output_idx m) v (p_funding_txid m) (p_signature m).
Definition set_p_funding_txid (v : bytes) (m : t) : t :=
  mk (funding_output_idx m) (p_temp_channel_id m) v (p_signature m).
Definition set_p_signature (v : bytes) (m : t) : t :=
  mk (funding_output_idx m) (p_temp_channel_id m) (p_funding_txid m) v.

Ltac proj_red ::= cbn [funding_output_idx p_temp_channel_id p_funding_txid p_signature].

Section ops.
Context {A : Alloc}.

Definition ln_msg_funding_created_create (pMsg : t) : prog utl_push_t bool :=
  call (utl_push_init (2 + 130));;
  ln_misc_push16be MSGTYPE_FUNDING_CREATED;;
  push_bytes (p_temp_channel_id pMsg) LN_SZ_CHANNEL_ID;;
  push_bytes (p_funding_txid pMsg) BTC_SZ_TXID;;
  ln_misc_push16be (funding_output_idx pMsg);;
  push_bytes (p_signature pMsg) LN_SZ_SIGNATURE;;
  proto ← get_st;
  c_assert (2 + 130 =? len (data proto));;
  call utl_push_trim;;
  mret true.

Definition ln_msg_funding_created_read (pData : bytes) (Len : Z) : prog t bool :=
  exit_if (Len <? 2 + 130) false;;
  type ← get_at ln_misc_get16be pData 0;
  exit_if (negb (type =? MSGTYPE_FUNDING_CREATED)) false;;
  let pos := 2 in
  v ← rd_bytes pData pos LN_SZ_CHANNEL_ID;
  modify (set_p_temp_channel_id v);;
  let pos := pos + LN_SZ_CHANNEL_ID in
  v ← rd_bytes pData pos BTC_SZ_TXID;
  modify (set_p_funding_txid v);;
  let pos := pos + BTC_SZ_TXID in
  v ← get_at ln_misc_get16be pData pos;
  modify (set_funding_output_idx v);;
  let pos := pos + 2 in
  v ← rd_bytes pData pos LN_SZ_SIGNATURE;
  modify (set_p_signature v);;
  let pos := pos + LN_SZ_SIGNATURE in
  c_assert (pos <=? Len);;
  mret true.

(** The layout in BOLT #2. *)
Definition wire (m : t) : bytes :=
  be_bytes 2 MSGTYPE_FUNDING_CREATED ++ p_temp_channel_id m ++ p_funding_txid m ++ be_bytes 2 (funding_output_idx m) ++ p_signature m.

Definition wf (m : t) : Prop :=
  is_bytes (p_temp_channel_id m) ∧ Z.of_nat (length (p_temp_channel_id m)) = LN_SZ_CHANNEL_ID ∧
  is_bytes (p_funding_txid m) ∧ Z.of_nat (length (p_funding_txid m)) = BTC_SZ_TXID ∧
  in_range 16 (funding_output_idx m) ∧
  is_bytes (p_signature m) ∧ Z.of_nat (length (p_signature m)) = LN_SZ_SIGNATURE.

Definition ok (d : bytes) : bool :=
  (2 + 130 <=? Z.of_nat (length d)) && (be_val (sl d 0 2) =? MSGTYPE_FUNDING_CREATED).

Definition dec (m : t) (d : bytes) : t :=
  mk (be_val (sl d 66 2)) (sl d 2 32) (sl d 34 32) (sl d 68 64).

Context {T : AllocTotal A}.

Lemma funding_created_codec :
  MsgCodec any_ext (λ _ m, m) wf wire ln_msg_funding_created_create ln_msg_funding_created_read ∧
  SafeReader ln_msg_funding_created_read.
Proof.
  apply reads_as_codec with (ok := ok) (dec := dec).
  - codec_create.
  - codec_reads.
  - codec_complete.
  - codec_sound.
Qed.

End ops.

End FundingCreated.

(** ** funding_signed *)

Module FundingSigned.

(** [ln_funding_signed_t] *)
Record t := mk {
  p_channel_id : bytes;
  p_signature : bytes;
}.

Definition set_p_channel_id (v : bytes) (m : t) : t := mk v (p_signature m).
Definition set_p_signature (v : bytes) (m : t) : t := mk (p_channel_id m) v.

Ltac proj_red ::= cbn [p_channel_id p_signature].

Section ops.
Context {A : Alloc}.

Definition ln_msg_funding_signed_create (pMsg : t) : prog utl_push_t bool :=
  call (utl_push_init (2 + 96));;
  ln_misc_push16be MSGTYPE_FUNDING_SIGNED;;
  push_bytes (p_channel_id pMsg) LN_SZ_CHANNEL_ID;;
  push_bytes (p_signature pMsg) LN_SZ_SIGNATURE;;
  proto ← get_st;
  c_assert (2 + 96 =? len (data proto));;
  call utl_push_trim;;
  mret true.

Definition ln_msg_funding_signed_read (pData : bytes) (Len : Z) : prog t bool :=
  exit_if (Len <? 2 + 96) false;;
  type ← get_at ln_misc_get16be pData 0;
  exit_if (negb (type =? MSGTYPE_FUNDING_SIGNED)) false;;
  let pos := 2 in
  v ← rd_bytes pData pos LN_SZ_CHANNEL_ID;
  modify (set_p_channel_id v);;
  let pos := pos + LN_SZ_CHANNEL_ID in
  v ← rd_bytes pData pos LN_SZ_SIGNATURE;
  modify (set_p_signature v);;
  let pos := pos + LN_SZ_SIGNATURE in
  c_assert (pos <=? Len);;
  mret true.

(** The layout in BOLT #2. *)
Definition wire (m : t) : bytes :=
  be_bytes 2 MSGTYPE_FUNDING_SIGNED ++ p_channel_id m ++ p_signature m.

Definition wf (m : t) : Prop :=
  is_bytes (p_channel_id m) ∧ Z.of_nat (length (p_channel_id m)) = LN_SZ_CHANNEL_ID ∧
  is_bytes (p_signature m) ∧ Z.of_nat (length (p_signature m)) = LN_SZ_SIGNATURE.

Definition ok (d : bytes) : bool :=
  (2 + 96 <=? Z.of_nat (length d)) && (be_val (sl d 0 2) =? MSGTYPE_FUNDING_SIGNED).

Definition dec (m : t) (d : bytes) : t :=
  mk (sl d 2 32) (sl d 34 64).

Context {T : AllocTotal A}.

Lemma funding_signed_codec :
  MsgCodec any_ext (λ _ m, m) wf wire ln_msg_funding_signed_create ln_msg_funding_signed_read ∧
  SafeReader ln_msg_funding_signed_read.
Proof.
  apply reads_as_codec with (ok := ok) (dec := dec).
  - codec_create.
  - codec_reads.
  - codec_complete.
  - codec_sound.
Qed.

End ops.

End FundingSigned.

(** ** funding_locked *)

Module FundingLocked.

(** [ln_funding_locked_t] *)
Record t := mk {
  p_channel_id : bytes;
  p_per_commitpt : bytes;
}.

Definition set_p_channel_id (v : bytes) (m : t) : t := mk v (p_per_commitpt m).
Definition set_p_per_commitpt (v : bytes) (m : t) : t := mk (p_channel_id m) v.

Ltac proj_red ::= cbn [p_channel_id p_per_commitpt].

Section ops.
Context {A : Alloc}.

Definition ln_msg_funding_locked_create (pMsg : t) : prog utl_push_t bool :=
  call (utl_push_init (2 + 65));;
  ln_misc_push16be MSGTYPE_FUNDING_LOCKED;;
  push_bytes (p_channel_id pMsg) LN_SZ_CHANNEL_ID;;
  push_bytes (p_per_commitpt pMsg) BTC_SZ_PUBKEY;;
  proto ← get_st;
  c_assert (2 + 65 =? len (data proto));;
  call utl_push_trim;;
  mret true.

Definition ln_msg_funding_locked_read (pData : bytes) (Len : Z) : prog t bool :=
  exit_if (Len <? 2 + 65) false;;
  type ← get_at ln_misc_get16be pData 0;
  exit_if (negb (type =? MSGTYPE_FUNDING_LOCKED)) false;;
  let pos := 2 in
  v ← rd_bytes pData pos LN_SZ_CHANNEL_ID;
  modify (set_p_channel_id v);;
  let pos := pos + LN_SZ_CHANNEL_ID in
  v ← rd_bytes pData pos BTC_SZ_PUBKEY;
  modify (set_p_per_commitpt v);;
  let pos := pos + BTC_SZ_PUBKEY in
  c_assert (pos <=? Len);;
  mret true.

(** The layout in BOLT #2. *)
Definition wire (m : t) : bytes :=
  be_bytes 2 MSGTYPE_FUNDING_LOCKED ++ p_channel_id m ++ p_per_commitpt m.

Definition wf (m : t) : Prop :=
  is_bytes (p_channel_id m) ∧ Z.of_nat (length (p_channel_id m)) = LN_SZ_CHANNEL_ID ∧
  is_bytes (p_per_commitpt m) ∧ Z.of_nat (length (p_per_commitpt m)) = BTC_SZ_PUBKEY.

Definition ok (d : bytes) : bool :=
  (2 + 65 <=? Z.of_nat (length d)) && (be_val (sl d 0 2) =? MSGTYPE_FUNDING_LOCKED).

Definition dec (m : t) (d : bytes) : t :=
  mk (sl d 2 32) (sl d 34 33).

Context {T : AllocTotal A}.

Lemma funding_locked_codec :
  MsgCodec any_ext (λ _ m, m) wf wire ln_msg_funding_locked_create ln_msg_funding_locked_read ∧
  SafeReader ln_msg_funding_locked_read.
Proof.
  apply reads_as_codec with (ok := ok) (dec := dec).
  - codec_create.
  - codec_reads.
  - codec_complete.
  - codec_sound.
Qed.

End ops.

End FundingLocked.

(** ** channel_reestablish *)

Module ChannelReestablish.

(** [ln_channel_reestablish_t] *)
Record t := mk {
  p_channel_id : bytes;
  next_local_commitment_number : Z;
  next_remote_revocation_number : Z;
  option_data_loss_protect : bool;
  your_last_per_commitment_secret : bytes;
  my_current_per_commitment_point : bytes;
}.

Definition set_p_channel_id (v : bytes) (m : t) : t :=
  mk v (next_local_commitment_number m) (next_remote_revocation_number m)
    (option_data_loss_protect m) (your_last_per_commitment_secret m)
    (my_current_per_commitment_point m).
Definition set_next_local_commitment_number (v : Z) (m : t) : t :=
  mk (p_channel_id m) v (next_remote_revocation_number m) (option_data_loss_protect m)
    (your_last_per_commitment_secret m) (my_current_per_commitment_point m).
Definition set_next_remote_revocation_number (v : Z) (m : t) : t :=
  mk (p_channel_id m) (next_local_commitment_number m) v (option_data_loss_protect m)
    (your_last_per_commitment_secret m) (my_current_per_commitment_point m).
Definition set_option_data_loss_protect (v : bool) (m : t) : t :=
  mk (p_channel_id m) (next_local_commitment_number m) (next_remote_revocation_number m) v
    (your_last_per_commitment_secret m) (my_current_per_commitment_point m).
Definition set_your_last_per_commitment_secret (v : bytes) (m : t) : t :=
  mk (p_channel_id m) (next_local_commitment_number m) (next_remote_revocation_number m)
    (option_data_loss_protect m) v (my_current_per_commitment_point m).
Definition set_my_current_per_commitment_point (v : bytes) (m : t) : t :=
  mk (p_channel_id m) (next_local_commitment_number m) (next_remote_revocation_number m)
    (option_data_loss_protect m) (your_last_per_commitment_secret m) v.

Ltac proj_red ::= cbn [p_channel_id next_local_commitment_number next_remote_revocation_number option_data_loss_protect your_last_per_commitment_secret my_current_per_commitment_point].

Ltac red_hook ::= cbn [option_data_loss_protect set_option_data_loss_protect
  set_p_channel_id set_next_local_commitment_number set_next_remote_revocation_number
  set_your_last_per_commitment_secret].

Section ops.
Context {A : Alloc}.

Definition ln_msg_channel_reestablish_create (pMsg : t) : prog utl_push_t bool :=
  let length := (if option_data_loss_protect pMsg then 2 + 48 + 65 else 2 + 48) in
  call (utl_push_init length);;
  ln_misc_push16be MSGTYPE_CHANNEL_REESTABLISH;;
  push_bytes (p_channel_id pMsg) LN_SZ_CHANNEL_ID;;
  ln_misc_push64be (next_local_commitment_number pMsg);;
  ln_misc_push64be (next_remote_revocation_number pMsg);;
  (if option_data_loss_protect pMsg
   then push_bytes (your_last_per_commitment_secret pMsg) BTC_SZ_PRIVKEY;;
        push_bytes (my_current_per_commitment_point pMsg) BTC_SZ_PUBKEY
   else mret tt);;
  proto ← get_st;
  c_assert (length =? len (data proto));;
  call utl_push_trim;;
  mret true.

Definition ln_msg_channel_reestablish_read (pData : bytes) (Len : Z) : prog t bool :=
  exit_if (Len <? 2 + 48) false;;
  modify (set_option_data_loss_protect (2 + 113 <=? Len));;
  type ← get_at ln_misc_get16be pData 0;
  exit_if (negb (type =? MSGTYPE_CHANNEL_REESTABLISH)) false;;
  let pos := 2 in
  v ← rd_bytes pData pos LN_SZ_CHANNEL_ID;
  modify (set_p_channel_id v);;
  let pos := pos + LN_SZ_CHANNEL_ID in
  v ← get_at ln_misc_get64be pData pos;
  modify (set_next_local_commitment_number v);;
  let pos := pos + 8 in
  v ← get_at ln_misc_get64be pData pos;
  modify (set_next_remote_revocation_number v);;
  let pos := pos + 8 in
  pMsg ← get_st;
  pos ← (if option_data_loss_protect pMsg
         then
           pos ← (if pos + BTC_SZ_PRIVKEY <=? Len
                  then v ← rd_bytes pData pos BTC_SZ_PRIVKEY;
                       modify (set_your_last_per_commitment_secret v);;
                       mret (pos + BTC_SZ_PRIVKEY)
                  else mret pos);
           (if pos + BTC_SZ_PUBKEY <=? Len
            then v ← rd_bytes pData pos BTC_SZ_PUBKEY;
                 modify (set_my_current_per_commitment_point v);;
                 mret (pos + BTC_SZ_PUBKEY)
            else mret pos)
         else mret pos);
  c_assert (pos <=? Len);;
  mret true.

(** The layout in BOLT #2, the last two fields with option_data_loss_protect. *)
Definition wire (m : t) : bytes :=
  be_bytes 2 MSGTYPE_CHANNEL_REESTABLISH ++ p_channel_id m ++
  be_bytes 8 (next_local_commitment_number m) ++
  be_bytes 8 (next_remote_revocation_number m) ++
  (if option_data_loss_protect m
   then your_last_per_commitment_secret m ++ my_current_per_commitment_point m else []).

Definition wf (m : t) : Prop :=
  is_bytes (p_channel_id m) ∧ Z.of_nat (length (p_channel_id m)) = LN_SZ_CHANNEL_ID ∧
  in_range 64 (next_local_commitment_number m) ∧
  in_range 64 (next_remote_revocation_number m) ∧
  (option_data_loss_protect m = true →
   is_bytes (your_last_per_commitment_secret m) ∧
   Z.of_nat (length (your_last_per_commitment_secret m)) = BTC_SZ_PRIVKEY ∧
   is_bytes (my_current_per_commitment_point m) ∧
   Z.of_nat (length (my_current_per_commitment_point m)) = BTC_SZ_PUBKEY).

(** Without the option, 65 more bytes would be read as its fields. *)
Definition ext (m : t) (rest : bytes) : Prop :=
  option_data_loss_protect m = true ∨ Z.of_nat (length rest) < 65.

(** Without the option, its fields keep what they held. *)
Definition upd (m0 m : t) : t :=
  mk (p_channel_id m) (next_local_commitment_number m) (next_remote_revocation_number m)
    (option_data_loss_protect m)
    (your_last_per_commitment_secret (if option_data_loss_protect m then m else m0))
    (my_current_per_commitment_point (if option_data_loss_protect m then m else m0)).

Definition ok (d : bytes) : bool :=
  (2 + 48 <=? Z.of_nat (length d)) && (be_val (sl d 0 2) =? MSGTYPE_CHANNEL_REESTABLISH).

Definition dec (m : t) (d : bytes) : t :=
  let opt := 2 + 113 <=? Z.of_nat (length d) in
  mk (sl d 2 32) (be_val (sl d 34 8)) (be_val (sl d 42 8)) opt
    (if opt then sl d 50 32 else your_last_per_commitment_secret m)
    (if opt then sl d 82 33 else my_current_per_commitment_point m).

Context {T : AllocTotal A}.

Lemma channel_reestablish_create m st :
  wf m → call (ln_msg_channel_reestablish_create m) st =
         Ret true (mk_push (Z.of_nat (length (wire m))) (of_bytes (wire m))).
Proof.
  unfold wf, wire, ln_msg_channel_reestablish_create. intros Hwf. split_and_hyps.
  destruct (option_data_loss_protect m); (lapply H3; [intros|done]) || clear H3;
    split_and_hyps; apply call_ret; repeat push_step;
    (apply create_done; [by rewrite ?app_nil_l, ?app_nil_r, <- ?app_assoc | len_side]).
Qed.

Lemma channel_reestablish_codec :
  MsgCodec ext upd wf wire ln_msg_channel_reestablish_create ln_msg_channel_reestablish_read ∧
  SafeReader ln_msg_channel_reestablish_read.
Proof.
  apply reads_as_codec with (ok := ok) (dec := dec).
  - exact channel_reestablish_create.
  - intros m0 d [Hd Hlt]. unfold read_packet, ln_msg_channel_reestablish_read.
    rewrite call_returned. unfold dec.
    destruct (ok d) eqn:Hok; unfold ok in Hok; cond_facts Hok;
      destruct (2 + 113 <=? Z.of_nat (length d)) eqn:Hopt; cond_facts Hopt;
      repeat progress (run_steps; red_hook); first [reflexivity | absurd_facts].
  - intros m0 m rest Hwf He [_ Hlen]. unfold wf in Hwf. split_and_hyps.
    unfold ok, dec, upd, wire in *. rewrite <- !app_assoc in *.
    destruct (option_data_loss_protect m) eqn:Hopt.
    + destruct H3 as (? & ? & ? & ?); [done|]. rewrite <- !app_assoc in *.
      split; [repeat sl_step; rewrite ?andb_true_iff, ?Z.leb_le; repeat split; len_side|].
      rewrite (proj2 (Z.leb_le _ _)) by len_side. by repeat sl_step.
    + destruct He as [He|He]; [congruence|]. rewrite app_nil_l in *.
      split; [repeat sl_step; rewrite ?andb_true_iff, ?Z.leb_le; repeat split; len_side|].
      rewrite (proj2 (Z.leb_gt _ _)) by len_side. by repeat sl_step.
  - intros m0 d [Hd Hlen] Hok. unfold ok in Hok. cond_facts Hok. split_and_hyps.
    assert (be_bytes 2 MSGTYPE_CHANNEL_REESTABLISH = sl d 0 2) as Ht
      by (rewrite <- H0; apply be_bytes_sl; first [done | lia]).
    unfold dec. destruct (Z.leb_spec (2 + 113) (Z.of_nat (length d))) as [Hopt|Hopt];
      (split; [unfold wf; sl_wf|]); (split; [done|]);
      eexists; split.
    + by left.
    + sl_merge.
    + right. instantiate (1 := drop 50 d). rewrite length_drop. lia.
    + unfold wire. proj_red. rewrite Ht, !be_bytes_sl by (first [done | lia]).
      rewrite app_nil_r. repeat rewrite sl_app by lia. apply (sl_rest d 50).
Qed.

End ops.

End ChannelReestablish.

(** The six establishment messages meet their contract for every genesis
    hash: only packets for our chain, with a
    funding amount below 2^24 sat that covers [push_msat], at most 483 HTLCs,
    valid keys and known flags are accepted, and every such message is encoded.
    channel_reestablish may only be followed by fewer than 65 bytes when it
    leaves its optional fields out. *)
Theorem establish_codecs {A : Alloc} {T : AllocTotal A}
    (genesis : bytes) (Hl : Z.of_nat (length genesis) = BTC_SZ_HASH256) :
  (MsgCodec any_ext (λ _ m, m) (OpenChannel.wf) (OpenChannel.wire genesis)
     (OpenChannel.ln_msg_open_channel_create genesis)
     (OpenChannel.ln_msg_open_channel_read genesis) ∧
   SafeReader (OpenChannel.ln_msg_open_channel_read genesis)) ∧
  (MsgCodec any_ext (λ _ m, m) (AcceptChannel.wf) AcceptChannel.wire
     (AcceptChannel.ln_msg_accept_channel_create)
     (AcceptChannel.ln_msg_accept_channel_read) ∧
   SafeReader (AcceptChannel.ln_msg_accept_channel_read)) ∧
  (MsgCodec any_ext (λ _ m, m) FundingCreated.wf FundingCreated.wire
     FundingCreated.ln_msg_funding_created_create FundingCreated.ln_msg_funding_created_read ∧
   SafeReader FundingCreated.ln_msg_funding_created_read) ∧
  (MsgCodec any_ext (λ _ m, m) FundingSigned.wf FundingSigned.wire
     FundingSigned.ln_msg_funding_signed_create FundingSigned.ln_msg_funding_signed_read ∧
   SafeReader FundingSigned.ln_msg_funding_signed_read) ∧
  (MsgCodec any_ext (λ _ m, m) FundingLocked.wf FundingLocked.wire
     FundingLocked.ln_msg_funding_locked_create FundingLocked.ln_msg_funding_locked_read ∧
   SafeReader FundingLocked.ln_msg_funding_locked_read) ∧
  (MsgCodec ChannelReestablish.ext ChannelReestablish.upd ChannelReestablish.wf
     ChannelReestablish.wire ChannelReestablish.ln_msg_channel_reestablish_create
     ChannelReestablish.ln_msg_channel_reestablish_read ∧
   SafeReader ChannelReestablish.ln_msg_channel_reestablish_read).
Proof.
  exact (conj (OpenChannel.open_channel_codec genesis Hl)
    (conj (AcceptChannel.accept_channel_codec)
    (conj FundingCreated.funding_created_codec (conj FundingSigned.funding_signed_codec
    (conj FundingLocked.funding_locked_codec ChannelReestablish.channel_reestablish_codec))))).
Qed.

(** A compressed key. *)
Definition key_2 : bytes := 2 :: replicate 32 1.

Definition open_1 : OpenChannel.t :=
  OpenChannel.mk 100000 1000 546 5000000 1000 1 253 144 30 (replicate 32 9)
    [# key_2; key_2; key_2; key_2; key_2; key_2] 1.

Lemma establish_codecs_witness :
  AllocTotal total_alloc ∧ OpenChannel.wf open_1 ∧
  call (@OpenChannel.ln_msg_open_channel_create total_alloc (replicate 32 6) open_1)
    (mk_push 0 (mk_buf None 0)) =
  Ret true (mk_push 321 (of_bytes (OpenChannel.wire (replicate 32 6) open_1))).
Proof.
  split; [exact total_alloc_total|]. 
  destruct (@establish_codecs total_alloc total_alloc_total (replicate 32 6) eq_refl)
    as ([C _] & _).
  assert (OpenChannel.wf open_1) as Hwf.
  { unfold OpenChannel.wf, key_ok. by_compute. }
  split; [exact Hwf|].
  exact (msg_create (MsgCodec := C) open_1 (mk_push 0 (mk_buf None 0)) Hwf).
Defined.

End LnMsgEstablish.
