(* ===== verification/LnMsgClose.v ===== *)
(** The messages of a cooperative close: [ln/ln_msg_close.c]. *)
From stdpp Require Import base list numbers tactics.
From Stdlib Require Import ZArith Lia.
From S2P Require Import Prelude CProg UtlInt UtlBuf UtlPush LnMisc LnMsg.
Import UtlBuf UtlPush LnMisc LnMsg.
Open Scope Z_scope.

Module LnMsgClose.

(** ** shutdown *)

Module Shutdown.

(** [ln_shutdown_t] *)
Record t := mk {
  p_channel_id : bytes;
  p_scriptpk : utl_buf_t;
}.

Definition set_p_channel_id (v : bytes) (m : t) : t := mk v (p_scriptpk m).
Definition set_p_scriptpk (v : utl_buf_t) (m : t) : t := mk (p_channel_id m) v.

Ltac proj_red ::= cbn [p_channel_id p_scriptpk].

Section ops.
Context {A : Alloc}.

Definition ln_msg_shutdown_create (pMsg : t) : prog utl_push_t bool :=
  call (utl_push_init (2 + 34 + len (p_scriptpk pMsg)));;
  ln_misc_push16be MSGTYPE_SHUTDOWN;;
  push_bytes (p_channel_id pMsg) LN_SZ_CHANNEL_ID;;
  ln_misc_push16be (len (p_scriptpk pMsg));;
  push_buf (p_scriptpk pMsg) (len (p_scriptpk pMsg));;
  proto ← get_st;
  c_assert (2 + 34 + len (p_scriptpk pMsg) =? len (data proto));;
  call utl_push_trim;;
  mret true.

Definition ln_msg_shutdown_read (pData : bytes) (Len : Z) : prog t bool :=
  exit_if (Len <? 2 + 34) false;;
  type ← get_at ln_misc_get16be pData 0;
  exit_if (negb (type =? MSGTYPE_SHUTDOWN)) false;;
  let pos := 2 in
  v ← rd_bytes pData pos LN_SZ_CHANNEL_ID;
  modify (set_p_channel_id v);;
  let pos := pos + LN_SZ_CHANNEL_ID in
  len ← get_at ln_misc_get16be pData pos;
  let pos := pos + 2 in
  exit_if (Len - pos <? len) false;;
  pMsg ← get_st;
  v ← buf_alloccopy_at (p_scriptpk pMsg) pData pos len;
  modify (set_p_scriptpk v);;
  let pos := pos + len in
  c_assert (pos <=? Len);;
  mret true.

(** The layout in BOLT #2. *)
Definition wire (m : t) : bytes :=
  be_bytes 2 MSGTYPE_SHUTDOWN ++ p_channel_id m ++
  be_bytes 2 (len (p_scriptpk m)) ++ buf_data (p_scriptpk m).

Definition wf (m : t) : Prop :=
  is_bytes (p_channel_id m) ∧ Z.of_nat (length (p_channel_id m)) = LN_SZ_CHANNEL_ID ∧
  buf_canon (p_scriptpk m) ∧ in_range 16 (len (p_scriptpk m)).

Definition ok (d : bytes) : bool :=
  (2 + 34 <=? Z.of_nat (length d)) && (be_val (sl d 0 2) =? MSGTYPE_SHUTDOWN)
  && (be_val (sl d 34 2) <=? Z.of_nat (length d) - 36).

Definition dec (m : t) (d : bytes) : t :=
  mk (sl d 2 32) (buf_of (sl d 36 (be_val (sl d 34 2)))).

Context {T : AllocTotal A}.

Lemma shutdown_codec :
  MsgCodec any_ext (λ _ m, m) wf wire ln_msg_shutdown_create ln_msg_shutdown_read ∧
  SafeReader ln_msg_shutdown_read.
Proof.
  apply reads_as_codec with (ok := ok) (dec := dec).
  - codec_create.
  - codec_reads.
  - codec_complete.
  - codec_sound.
Qed.

End ops.

End Shutdown.

(** ** closing_signed *)

Module ClosingSigned.

(** [ln_closing_signed_t] *)
Record t := mk {
  p_channel_id : bytes;
  fee_sat : Z;
  p_signature : bytes;
}.

Definition set_p_channel_id (v : bytes) (m : t) : t := mk v (fee_sat m) (p_signature m).
Definition set_fee_sat (v : Z) (m : t) : t := mk (p_channel_id m) v (p_signature m).
Definition set_p_signature (v : bytes) (m : t) : t := mk (p_channel_id m) (fee_sat m) v.

Ltac proj_red ::= cbn [p_channel_id fee_sat p_signature].

Section ops.
Context {A : Alloc}.

Definition ln_msg_closing_signed_create (pMsg : t) : prog utl_push_t bool :=
  call (utl_push_init (2 + 104));;
  ln_misc_push16be MSGTYPE_CLOSING_SIGNED;;
  push_bytes (p_channel_id pMsg) LN_SZ_CHANNEL_ID;;
  ln_misc_push64be (fee_sat pMsg);;
  push_bytes (p_signature pMsg) LN_SZ_SIGNATURE;;
  proto ← get_st;
  c_assert (2 + 104 =? len (data proto));;
  call utl_push_trim;;
  mret true.

Definition ln_msg_closing_signed_read (pData : bytes) (Len : Z) : prog t bool :=
  exit_if (Len <? 2 + 104) false;;
  type ← get_at ln_misc_get16be pData 0;
  exit_if (negb (type =? MSGTYPE_CLOSING_SIGNED)) false;;
  let pos := 2 in
  v ← rd_bytes pData pos LN_SZ_CHANNEL_ID;
  modify (set_p_channel_id v);;
  let pos := pos + LN_SZ_CHANNEL_ID in
  v ← get_at ln_misc_get64be pData pos;
  modify (set_fee_sat v);;
  let pos := pos + 8 in
  v ← rd_bytes pData pos LN_SZ_SIGNATURE;
  modify (set_p_signature v);;
  let pos := pos + LN_SZ_SIGNATURE in
  c_assert (pos <=? Len);;
  mret true.

(** The layout in BOLT #2. *)
Definition wire (m : t) : bytes :=
  be_bytes 2 MSGTYPE_CLOSING_SIGNED ++ p_channel_id m ++ be_bytes 8 (fee_sat m) ++ p_signature m.

Definition wf (m : t) : Prop :=
  is_bytes (p_channel_id m) ∧ Z.of_nat (length (p_channel_id m)) = LN_SZ_CHANNEL_ID ∧
  in_range 64 (fee_sat m) ∧
  is_bytes (p_signature m) ∧ Z.of_nat (length (p_signature m)) = LN_SZ_SIGNATURE.

Definition ok (d : bytes) : bool :=
  (2 + 104 <=? Z.of_nat (length d)) && (be_val (sl d 0 2) =? MSGTYPE_CLOSING_SIGNED).

Definition dec (m : t) (d : bytes) : t :=
  mk (sl d 2 32) (be_val (sl d 34 8)) (sl d 42 64).

Context {T : AllocTotal A}.

Lemma closing_signed_codec :
  MsgCodec any_ext (λ _ m, m) wf wire ln_msg_closing_signed_create ln_msg_closing_signed_read ∧
  SafeReader ln_msg_closing_signed_read.
Proof.
  apply reads_as_codec with (ok := ok) (dec := dec).
  - codec_create.
  - codec_reads.
  - codec_complete.
  - codec_sound.
Qed.

End ops.

End ClosingSigned.

(** shutdown and closing_signed meet their contract, for every packet. *)
Theorem close_codecs {A : Alloc} {T : AllocTotal A} :
  (MsgCodec any_ext (λ _ m, m) Shutdown.wf Shutdown.wire
     Shutdown.ln_msg_shutdown_create Shutdown.ln_msg_shutdown_read ∧
   SafeReader Shutdown.ln_msg_shutdown_read) ∧
  (MsgCodec any_ext (λ _ m, m) ClosingSigned.wf ClosingSigned.wire
     ClosingSigned.ln_msg_closing_signed_create ClosingSigned.ln_msg_closing_signed_read ∧
   SafeReader ClosingSigned.ln_msg_closing_signed_read).
Proof. exact (conj Shutdown.shutdown_codec ClosingSigned.closing_signed_codec). Qed.

(** A shutdown to a 3-byte script. *)
Definition shutdown_1 : Shutdown.t := Shutdown.mk (replicate 32 7) (buf_of [1; 2; 3]).

Lemma close_codecs_witness :
  AllocTotal total_alloc ∧
  call (@Shutdown.ln_msg_shutdown_create total_alloc shutdown_1) (mk_push 0 (mk_buf None 0)) =
  Ret true (mk_push 39 (of_bytes ([0; 38] ++ replicate 32 7 ++ [0; 3; 1; 2; 3]))).
Proof.
  split; [exact total_alloc_total|].
  destruct (@close_codecs total_alloc total_alloc_total) as ([C _] & _).
  assert (Shutdown.wf shutdown_1) as Hwf.
  { split; [by_compute|].
    split; [reflexivity|]. split; [|by_compute].
    apply buf_canon_of. by_compute. }
  exact (msg_create (MsgCodec := C) shutdown_1 (mk_push 0 (mk_buf None 0)) Hwf).
Defined.

End LnMsgClose.
