(* ===== verification/LnMsgSetup.v ===== *)
(** The setup and control messages: [ln/ln_msg_setupctl.c].

    [ping] and [pong] carry bytes the decoders ignore
    ([M_PING_NONZERO_CHK] and [M_PONG_NONZERO_CHK] are not defined), so a packet
    holds more than one layout of a message; their contract is stated for any
    such bytes. [ln_msg_error_read] checks less than it reads: its theorem says
    exactly which packets it leaves. *)
From stdpp Require Import base list numbers tactics.
From Stdlib Require Import ZArith Lia.
From S2P Require Import Prelude CProg UtlInt UtlBuf UtlPush LnMisc LnMsg.
Import UtlBuf UtlPush LnMisc LnMsg.
Open Scope Z_scope.

Module LnMsgSetup.

(** ** init *)

Module Init.

(** [ln_init_t] *)
Record t := mk {
  globalfeatures : utl_buf_t;
  localfeatures : utl_buf_t;
}.

Definition set_globalfeatures (v : utl_buf_t) (m : t) : t := mk v (localfeatures m).
Definition set_localfeatures (v : utl_buf_t) (m : t) : t := mk (globalfeatures m) v.

Ltac proj_red ::= cbn [globalfeatures localfeatures].

Section ops.
Context {A : Alloc}.

Definition ln_msg_init_create (pMsg : t) : prog utl_push_t bool :=
  call (utl_push_init (2 + 4 + len (globalfeatures pMsg) + len (localfeatures pMsg)));;
  ln_misc_push16be MSGTYPE_INIT;;
  ln_misc_push16be (len (globalfeatures pMsg));;
  (if 0 <? len (globalfeatures pMsg)
   then push_buf (globalfeatures pMsg) (len (globalfeatures pMsg)) else mret tt);;
  ln_misc_push16be (len (localfeatures pMsg));;
  (if 0 <? len (localfeatures pMsg)
   then push_buf (localfeatures pMsg) (len (localfeatures pMsg)) else mret tt);;
  proto ← get_st;
  c_assert (2 + 4 + len (globalfeatures pMsg) + len (localfeatures pMsg) =? len (data proto));;
  call utl_push_trim;;
  mret true.

Definition ln_msg_init_read (pData : bytes) (Len : Z) : prog t bool :=
  exit_if (Len <? 2 + 4) false;;
  type ← get_at ln_misc_get16be pData 0;
  exit_if (negb (type =? MSGTYPE_INIT)) false;;
  let pos := 2 in
  gflen ← get_at ln_misc_get16be pData pos;
  exit_if (Len <? 2 + 4 + gflen) false;;
  let pos := pos + 2 in
  pMsg ← get_st;
  v ← buf_alloccopy_at (globalfeatures pMsg) pData pos gflen;
  modify (set_globalfeatures v);;
  let pos := pos + gflen in
  lflen ← get_at ln_misc_get16be pData pos;
  exit_if (Len <? 2 + 4 + gflen + lflen) false;;
  let pos := pos + 2 in
  pMsg ← get_st;
  v ← buf_alloccopy_at (localfeatures pMsg) pData pos lflen;
  modify (set_localfeatures v);;
  let pos := pos + lflen in
  c_assert (pos <=? Len);;
  mret true.

(** The layout in BOLT #1. *)
Definition wire (m : t) : bytes :=
  be_bytes 2 MSGTYPE_INIT ++
  be_bytes 2 (len (globalfeatures m)) ++ buf_data (globalfeatures m) ++
  be_bytes 2 (len (localfeatures m)) ++ buf_data (localfeatures m).

Definition wf (m : t) : Prop :=
  buf_canon (globalfeatures m) ∧ in_range 16 (len (globalfeatures m)) ∧
  buf_canon (localfeatures m) ∧ in_range 16 (len (localfeatures m)).

(** The lengths a packet announces. *)
Abbreviation gflen d := (be_val (sl d 2 2)).
Abbreviation lflen d := (be_val (sl d (4 + gflen d) 2)).

Definition ok (d : bytes) : bool :=
  (2 + 4 <=? Z.of_nat (length d)) && (be_val (sl d 0 2) =? MSGTYPE_INIT)
  && (6 + gflen d <=? Z.of_nat (length d)) && (6 + gflen d + lflen d <=? Z.of_nat (length d)).

Definition dec (m : t) (d : bytes) : t :=
  mk (buf_of (sl d 4 (gflen d))) (buf_of (sl d (4 + gflen d + 2) (lflen d))).

Context {T : AllocTotal A}.

Lemma init_codec :
  MsgCodec any_ext (λ _ m, m) wf wire ln_msg_init_create ln_msg_init_read ∧
  SafeReader ln_msg_init_read.
Proof.
  apply reads_as_codec with (ok := ok) (dec := dec).
  - codec_create.
  - codec_reads.
  - codec_complete.
  - codec_sound.
Qed.

End ops.

End Init.

(** ** error *)

Module Error.

(** [ln_error_t]; [e_len] is its field [len]. *)
Record t := mk {
  p_channel_id : bytes;
  e_len : Z;
  p_data : option (list cell);
}.

Definition set_p_channel_id (v : bytes) (m : t) : t := mk v (e_len m) (p_data m).
Definition set_e_len (v : Z) (m : t) : t := mk (p_channel_id m) v (p_data m).
Definition set_p_data (v : option (list cell)) (m : t) : t := mk (p_channel_id m) (e_len m) v.

Ltac proj_red ::= cbn [p_channel_id e_len p_data].

Section ops.
Context {A : Alloc}.

Definition ln_msg_error_create (pMsg : t) : prog utl_push_t bool :=
  call (utl_push_init (2 + LN_SZ_CHANNEL_ID + 2 + e_len pMsg));;
  ln_misc_push16be MSGTYPE_ERROR;;
  push_bytes (p_channel_id pMsg) LN_SZ_CHANNEL_ID;;
  ln_misc_push16be (e_len pMsg);;
  (if 0 <? e_len pMsg then push_ptr (p_data pMsg) (e_len pMsg) else mret tt);;
  proto ← get_st;
  c_assert (2 + LN_SZ_CHANNEL_ID + 2 + e_len pMsg =? len (data proto));;
  call utl_push_trim;;
  mret true.

(** [p = malloc(n + 1); memcpy(p, pData + pos, n); p[n] = 0] *)
Definition malloc_copy_nul_at {S} (pData : bytes) (pos n : Z) : prog S (option (list cell)) :=
  b ← of_option (write_cells (malloc (n + 1)) 0 (init_cells (drop (Z.to_nat pos) pData)) n);
  of_option (write_cells b n [Some 0] 1).

Definition ln_msg_error_read (pData : bytes) (Len : Z) : prog t bool :=
  exit_if (Len <? 2 + 4) false;;
  type ← get_at ln_misc_get16be pData 0;
  exit_if (negb (type =? MSGTYPE_ERROR)) false;;
  let pos := 2 in
  v ← rd_bytes pData pos LN_SZ_CHANNEL_ID;
  modify (set_p_channel_id v);;
  let pos := pos + LN_SZ_CHANNEL_ID in
  n ← get_at ln_misc_get16be pData pos;
  let pos := pos + 2 in
  modify (set_e_len n);;
  v ← malloc_copy_nul_at pData pos n;
  modify (set_p_data v);;
  mret true.

(** The error text, without the terminating NUL. *)
Definition text (m : t) : bytes := default [] (read_cells (p_data m) (e_len m)).

(** The layout in BOLT #1. *)
Definition wire (m : t) : bytes :=
  be_bytes 2 MSGTYPE_ERROR ++ p_channel_id m ++ be_bytes 2 (e_len m) ++ text m.

Definition wf (m : t) : Prop :=
  is_bytes (p_channel_id m) ∧ Z.of_nat (length (p_channel_id m)) = LN_SZ_CHANNEL_ID ∧
  in_range 16 (e_len m) ∧ p_data m = Some (init_cells (text m ++ [0])) ∧
  is_bytes (text m) ∧ Z.of_nat (length (text m)) = e_len m.

(** What the decoder checks. *)
Definition head_ok (d : bytes) : bool :=
  (2 + 4 <=? Z.of_nat (length d)) && (be_val (sl d 0 2) =? MSGTYPE_ERROR).

(** What the message needs: the channel id, the length and the text. *)
Definition text_fits (d : bytes) : bool :=
  (36 <=? Z.of_nat (length d)) && (36 + be_val (sl d 34 2) <=? Z.of_nat (length d)).

Definition dec (m : t) (d : bytes) : t :=
  mk (sl d 2 32) (be_val (sl d 34 2))
    (Some (init_cells (sl d 36 (be_val (sl d 34 2)) ++ [0]))).

Context {T : AllocTotal A}.

Lemma malloc_copy_nul_step {S B} d pos n (K : option (list cell) → prog S B) s :
  0 ≤ pos → 0 ≤ n → pos + n ≤ Z.of_nat (length d) →
  (malloc_copy_nul_at d pos n ≫= K) s = K (Some (init_cells (sl d pos n ++ [0]))) s.
Proof.
  intros Hp Hn Hd. apply bind_ret. unfold malloc_copy_nul_at. rewrite malloc_eq.
  pose proof (write_pushed [] (n + 1) (init_cells (drop (Z.to_nat pos) d)) n) as Hw.
  change (Z.of_nat (length (@nil cell))) with 0 in Hw.
  rewrite Z.sub_0_r in Hw. cbn [app] in Hw.
  rewrite Hw by (rewrite ?length_init_cells, ?length_drop; lia).
  assert (take (Z.to_nat n) (init_cells (drop (Z.to_nat pos) d)) = init_cells (sl d pos n)) as ->
    by (unfold init_cells, sl; by rewrite fmap_take).
  assert (Z.of_nat (length (init_cells (sl d pos n))) = n) as En
    by (rewrite length_init_cells, length_sl_Z; lia).
  pose proof (write_pushed (init_cells (sl d pos n)) (n + 1) [Some 0] 1) as Hw2.
  rewrite En in *. cbn [of_option]. rewrite bind_mret.
  rewrite Hw2 by (cbn [length]; lia). change (take (Z.to_nat 1) [Some 0]) with [Some 0].
  rewrite length_app, Nat2Z.inj_add, En. cbn [length].
  replace (n + 1 - _) with 0 by lia. cbn [of_option].
  by rewrite init_cells_app, app_nil_r.
Qed.

Lemma malloc_copy_nul_oob {S B} d pos n (K : option (list cell) → prog S B) s :
  0 ≤ pos → 0 < n → Z.of_nat (length d) < pos + n →
  (malloc_copy_nul_at d pos n ≫= K) s = UB.
Proof.
  intros Hp Hn Hd. apply bind_ub. unfold malloc_copy_nul_at. rewrite malloc_eq.
  assert (write_cells (Some (junk (n + 1))) 0 (init_cells (drop (Z.to_nat pos) d)) n = None)
    as ->; [|done].
  unfold write_cells. rewrite (proj2 (Z.eqb_neq _ _)) by lia. cbv iota.
  rewrite bool_decide_eq_false_2; [done|]. rewrite length_init_cells, length_drop. lia.
Qed.

Lemma push_step_text {B} m d n (K : unit → prog utl_push_t B) :
  wf m → Z.of_nat (length d) + e_len m ≤ n → n < 2 ^ 31 →
  ((if 0 <? e_len m then push_ptr (p_data m) (e_len m) else mret tt) ≫= K) (pushedb d n) =
  K tt (pushedb (d ++ text m) n).
Proof.
  unfold wf. intros Hwf Hn Hlt. split_and_hyps. destruct (Z.ltb_spec 0 (e_len m)).
  - apply bind_ret. unfold push_ptr. rewrite H2. cbn [default id].
    assert (call (utl_push_data (init_cells (text m ++ [0])) (e_len m)) (pushedb d n) =
            Ret true (pushedb (d ++ text m) n)) as E.
    { unfold call, pushedb. rewrite (init_cells_app d), init_cells_app. unfold run.
      rewrite push_data_prefix by (rewrite ?length_init_cells; lia).
      apply push_data_within; rewrite ?length_init_cells; lia. }
    by rewrite (bind_ret _ _ _ _ _ E).
  - destruct (text m); [by rewrite app_nil_r | cbn [length] in *; lia].
Qed.

Lemma error_reads :
  reads_as_ub ln_msg_error_read (λ d, head_ok d && text_fits d) head_ok dec.
Proof.
  intros m0 d [Hd Hlt]. unfold read_packet, ln_msg_error_read. rewrite call_returned.
  destruct (head_ok d) eqn:Hok; unfold head_ok in Hok; cond_facts Hok; cbn [andb].
  - destruct (text_fits d) eqn:Hf; unfold text_fits in Hf; cond_facts Hf.
    + run_steps. rewrite malloc_copy_nul_step by lia. done.
    + destruct (Z.lt_ge_cases (Z.of_nat (length d)) 34).
      { run_steps. by rewrite rd_step_oob by lia. }
      destruct (Z.lt_ge_cases (Z.of_nat (length d)) 36).
      { run_steps. by rewrite get16_oob by lia. }
      run_steps. by rewrite malloc_copy_nul_oob by lia.
  - run_steps; absurd_facts.
Qed.

Lemma text_dec c i n :
  Z.of_nat (length c) = n → text (mk i n (Some (init_cells (c ++ [0])))) = c.
Proof.
  intros <-. unfold text. cbn [p_data e_len]. unfold read_cells.
  destruct c as [|b c]; [done|]. rewrite (proj2 (Z.eqb_neq _ _)) by (cbn [length]; lia).
  cbn [mbind option_bind]. rewrite bool_decide_eq_true_2
    by (rewrite length_init_cells, length_app; lia).
  rewrite init_cells_app, take_app_length' by (rewrite length_init_cells; lia).
  by rewrite mapM_id_init.
Qed.

Lemma error_codec :
  MsgCodec any_ext (λ _ m, m) wf wire ln_msg_error_create ln_msg_error_read.
Proof.
  apply reads_as_ub_codec with (ok := λ d, head_ok d && text_fits d) (bad := head_ok) (dec := dec).
  - intros m st Hwf. pose proof Hwf as Hwf'. unfold wf in Hwf. split_and_hyps.
    unfold ln_msg_error_create. apply call_ret.
    repeat first [rewrite push_step_text by (first [done | len_side]) | push_step].
    apply create_done; [by rewrite ?app_nil_l, <- ?app_assoc | len_side].
  - apply error_reads.
  - intros m0 m rest Hwf _ [_ Hlen]; hnf in Hwf; split_and_hyps.
    unfold head_ok, text_fits. unfold wire in *. rewrite <- !app_assoc in *.
    split; [repeat sl_step; rewrite ?andb_true_iff, ?Z.leb_le, ?Z.eqb_eq; repeat split; len_side|].
    unfold dec. repeat sl_step.
    match goal with H : p_data m = _ |- _ => rewrite <- H end. by destruct m.
  - intros m0 d [Hd Hlen] Hok. unfold head_ok, text_fits in Hok. cond_facts Hok. split_and_hyps.
    assert (be_bytes 2 MSGTYPE_ERROR = sl d 0 2) as Ht
      by (match goal with H : be_val _ = 17 |- _ => rewrite <- H end;
          apply be_bytes_sl; first [done | lia]).
    assert (0 ≤ be_val (sl d 34 2) < 256 ^ Z.of_nat (length (sl d 34 2))) as Hr
      by (apply be_val_range; auto with ptarm).
    assert (text (dec m0 d) = sl d 36 (be_val (sl d 34 2))) as Hs
      by (apply text_dec, length_sl_Z; lia).
    split; [|split; [done|]].
    + unfold wf. rewrite Hs. cbn [dec p_channel_id e_len p_data].
      repeat split; try done; auto with ptarm; try (apply length_sl_Z; lia);
        apply (be_val_sl_range 16); first [done | lia].
    + eexists. split; [exact I|]. unfold wire. rewrite Hs, Ht. cbn [dec p_channel_id e_len].
      rewrite be_bytes_sl by (first [done | lia]). repeat rewrite sl_app by lia. apply sl_rest.
Qed.

End ops.

End Error.

(** ** ping *)

Module Ping.

(** [ln_ping_t] *)
Record t := mk {
  num_pong_bytes : Z;
  byteslen : Z;
}.

Definition set_num_pong_bytes (v : Z) (m : t) : t := mk v (byteslen m).
Definition set_byteslen (v : Z) (m : t) : t := mk (num_pong_bytes m) v.

Ltac proj_red ::= cbn [num_pong_bytes byteslen].

Section ops.
Context {A : Alloc}.

Definition ln_msg_ping_create (pMsg : t) : prog utl_push_t bool :=
  exit_if (65532 <=? num_pong_bytes pMsg) false;;
  call (utl_push_init (2 + 4 + byteslen pMsg));;
  ln_misc_push16be MSGTYPE_PING;;
  ln_misc_push16be (num_pong_bytes pMsg);;
  ln_misc_push16be (byteslen pMsg);;
  push_memset 0 (byteslen pMsg);;
  proto ← get_st;
  c_assert (2 + 4 + byteslen pMsg =? len (data proto));;
  call utl_push_trim;;
  mret true.

Definition ln_msg_ping_read (pData : bytes) (Len : Z) : prog t bool :=
  exit_if (Len <? 2 + 4) false;;
  type ← get_at ln_misc_get16be pData 0;
  exit_if (negb (type =? MSGTYPE_PING)) false;;
  v ← get_at ln_misc_get16be pData 2;
  modify (set_num_pong_bytes v);;
  exit_if (65531 <? v) false;;
  v ← get_at ln_misc_get16be pData (2 + 2);
  modify (set_byteslen v);;
  exit_if (Len <? 2 + 4 + v) false;;
  c_assert (2 + 4 + v <=? Len);;
  mret true.

(** The layout in BOLT #1 before the ignored bytes. *)
Definition head (m : t) : bytes :=
  be_bytes 2 MSGTYPE_PING ++ be_bytes 2 (num_pong_bytes m) ++ be_bytes 2 (byteslen m).

Definition wf (m : t) : Prop :=
  in_range 16 (num_pong_bytes m) ∧ num_pong_bytes m < 65532 ∧ in_range 16 (byteslen m).

Definition ok (d : bytes) : bool :=
  (2 + 4 <=? Z.of_nat (length d)) && (be_val (sl d 0 2) =? MSGTYPE_PING)
  && (be_val (sl d 2 2) <? 65532) && (6 + be_val (sl d 4 2) <=? Z.of_nat (length d)).

Definition dec (m : t) (d : bytes) : t := mk (be_val (sl d 2 2)) (be_val (sl d 4 2)).

Context {T : AllocTotal A}.

Lemma ping_create m st :
  wf m → call (ln_msg_ping_create m) st =
  let w := head m ++ replicate (Z.to_nat (byteslen m)) 0 in
  Ret true (mk_push (Z.of_nat (length w)) (of_bytes w)).
Proof.
  unfold wf, head, ln_msg_ping_create. intros Hwf. split_and_hyps. apply call_ret.
  repeat push_step.
  apply create_done; [by rewrite ?app_nil_l, <- ?app_assoc | len_side].
Qed.

Lemma ping_create_reject m st :
  65532 ≤ num_pong_bytes m → call (ln_msg_ping_create m) st = Ret false st.
Proof.
  intros H. apply call_exit. unfold ln_msg_ping_create.
  by rewrite exit_step, (proj2 (Z.leb_le _ _)).
Qed.

Lemma ping_reads : reads_as ln_msg_ping_read ok dec.
Proof. codec_reads. Qed.

Lemma ping_ok m ignored rest :
  wf m → Z.of_nat (length ignored) = byteslen m →
  ok (head m ++ ignored ++ rest) = true ∧ ∀ m0, dec m0 (head m ++ ignored ++ rest) = m.
Proof.
  unfold wf, head, ok, dec. intros Hwf Hi. split_and_hyps. rewrite <- !app_assoc.
  split; [|intros _; repeat sl_step; by destruct m].
  repeat sl_step. rewrite ?andb_true_iff, ?Z.leb_le, ?Z.ltb_lt. repeat split; len_side.
Qed.

Lemma ping_ok_inv m0 d :
  packet d → ok d = true →
  wf (dec m0 d) ∧ ∃ ignored rest, Z.of_nat (length ignored) = byteslen (dec m0 d) ∧
    d = head (dec m0 d) ++ ignored ++ rest.
Proof.
  intros [Hd Hl] Hok. unfold ok in Hok. cond_facts Hok. split_and_hyps.
  unfold wf, head, dec. split; [sl_wf|]. proj_red. be_ranges.
  exists (sl d 6 (be_val (sl d 4 2))), (drop (Z.to_nat (6 + be_val (sl d 4 2))) d).
  split; [apply length_sl_Z; lia|].
  assert (be_bytes 2 MSGTYPE_PING = sl d 0 2) as ->
    by (match goal with H : be_val _ = 18 |- _ => rewrite <- H end;
        apply be_bytes_sl; first [done | lia]).
  rewrite !be_bytes_sl by (first [done | lia]). rewrite !app_assoc.
  repeat rewrite sl_app by lia. apply sl_rest.
Qed.

End ops.

End Ping.

(** ** pong *)

Module Pong.

(** [ln_pong_t] *)
Record t := mk {
  byteslen : Z;
}.

Definition set_byteslen (v : Z) (m : t) : t := mk v.

Ltac proj_red ::= cbn [byteslen].

Section ops.
Context {A : Alloc}.

Definition ln_msg_pong_create (pMsg : t) : prog utl_push_t bool :=
  exit_if (65532 <=? byteslen pMsg) false;;
  call (utl_push_init (2 + 2 + byteslen pMsg));;
  ln_misc_push16be MSGTYPE_PONG;;
  ln_misc_push16be (byteslen pMsg);;
  push_memset 0 (byteslen pMsg);;
  proto ← get_st;
  c_assert (2 + 2 + byteslen pMsg =? len (data proto));;
  call utl_push_trim;;
  mret true.

Definition ln_msg_pong_read (pData : bytes) (Len : Z) : prog t bool :=
  exit_if (Len <? 2 + 2) false;;
  type ← get_at ln_misc_get16be pData 0;
  exit_if (negb (type =? MSGTYPE_PONG)) false;;
  v ← get_at ln_misc_get16be pData 2;
  modify (set_byteslen v);;
  exit_if (65531 <? v) false;;
  exit_if (Len <? 2 + 2 + v) false;;
  c_assert (2 + 2 + v <=? Len);;
  mret true.

(** The layout in BOLT #1 before the ignored bytes. *)
Definition head (m : t) : bytes :=
  be_bytes 2 MSGTYPE_PONG ++ be_bytes 2 (byteslen m).

Definition wf (m : t) : Prop :=
  in_range 16 (byteslen m) ∧ byteslen m < 65532.

Definition ok (d : bytes) : bool :=
  (2 + 2 <=? Z.of_nat (length d)) && (be_val (sl d 0 2) =? MSGTYPE_PONG)
  && (be_val (sl d 2 2) <? 65532) && (4 + be_val (sl d 2 2) <=? Z.of_nat (length d)).

Definition dec (m : t) (d : bytes) : t := mk (be_val (sl d 2 2)).

Context {T : AllocTotal A}.

Lemma pong_create m st :
  wf m → call (ln_msg_pong_create m) st =
  let w := head m ++ replicate (Z.to_nat (byteslen m)) 0 in
  Ret true (mk_push (Z.of_nat (length w)) (of_bytes w)).
Proof.
  unfold wf, head, ln_msg_pong_create. intros Hwf. split_and_hyps. apply call_ret.
  repeat push_step.
  apply create_done; [by rewrite ?app_nil_l, <- ?app_assoc | len_side].
Qed.

Lemma pong_create_reject m st :
  65532 ≤ byteslen m → call (ln_msg_pong_create m) st = Ret false st.
Proof.
  intros H. apply call_exit. unfold ln_msg_pong_create.
  by rewrite exit_step, (proj2 (Z.leb_le _ _)).
Qed.

Lemma pong_reads : reads_as ln_msg_pong_read ok dec.
Proof. codec_reads. Qed.

Lemma pong_ok m ignored rest :
  wf m → Z.of_nat (length ignored) = byteslen m →
  ok (head m ++ ignored ++ rest) = true ∧ ∀ m0, dec m0 (head m ++ ignored ++ rest) = m.
Proof.
  unfold wf, head, ok, dec. intros Hwf Hi. split_and_hyps. rewrite <- !app_assoc.
  split; [|intros _; repeat sl_step; by destruct m].
  repeat sl_step. rewrite ?andb_true_iff, ?Z.leb_le, ?Z.ltb_lt. repeat split; len_side.
Qed.

Lemma pong_ok_inv m0 d :
  packet d → ok d = true →
  wf (dec m0 d) ∧ ∃ ignored rest, Z.of_nat (length ignored) = byteslen (dec m0 d) ∧
    d = head (dec m0 d) ++ ignored ++ rest.
Proof.
  intros [Hd Hl] Hok. unfold ok in Hok. cond_facts Hok. split_and_hyps.
  unfold wf, head, dec. split; [sl_wf|]. proj_red. be_ranges.
  exists (sl d 4 (be_val (sl d 2 2))), (drop (Z.to_nat (4 + be_val (sl d 2 2))) d).
  split; [apply length_sl_Z; lia|].
  assert (be_bytes 2 MSGTYPE_PONG = sl d 0 2) as ->
    by (match goal with H : be_val _ = 19 |- _ => rewrite <- H end;
        apply be_bytes_sl; first [done | lia]).
  rewrite !be_bytes_sl by (first [done | lia]). rewrite !app_assoc.
  repeat rewrite sl_app by lia. apply sl_rest.
Qed.

End ops.

End Pong.

(** init and error meet their contract; [init] for every packet. *)
Theorem init_error_codecs {A : Alloc} {T : AllocTotal A} :
  (MsgCodec any_ext (λ _ m, m) Init.wf Init.wire
     Init.ln_msg_init_create Init.ln_msg_init_read ∧ SafeReader Init.ln_msg_init_read) ∧
  MsgCodec any_ext (λ _ m, m) Error.wf Error.wire
    Error.ln_msg_error_create Error.ln_msg_error_read.
Proof. exact (conj Init.init_codec Error.error_codec). Qed.

Definition init_1 : Init.t := Init.mk (buf_of []) (buf_of [0x82]).

Lemma init_error_codecs_witness :
  AllocTotal total_alloc ∧
  call (@Init.ln_msg_init_create total_alloc init_1) (mk_push 0 (mk_buf None 0)) =
  Ret true (mk_push 7 (of_bytes [0; 16; 0; 0; 0; 1; 0x82])).
Proof.
  split; [exact total_alloc_total|].
  destruct (@init_error_codecs total_alloc total_alloc_total) as ([C _] & _).
  assert (Init.wf init_1) as Hwf.
  { split; [apply buf_canon_of; by_compute|]. split; [by_compute|].
    split; [apply buf_canon_of; by_compute|]. by_compute. }
  exact (msg_create (MsgCodec := C) init_1 (mk_push 0 (mk_buf None 0)) Hwf).
Defined.

(** [ln_msg_error_read] checks that the packet has 6 bytes and then reads a
    channel id, a length and a text: of the packets that pass the check, it
    returns [true] exactly when all of them are there and reads past the packet
    otherwise. *)
Theorem error_read_overrun {A : Alloc} {T : AllocTotal A} m0 d :
  packet d → Error.head_ok d = true →
  read_packet Error.ln_msg_error_read d m0 =
  if (36 <=? Z.of_nat (length d)) && (36 + be_val (sl d 34 2) <=? Z.of_nat (length d))
  then Ret true (Error.dec m0 d) else UB.
Proof.
  intros Hp Hh. pose proof (Error.error_reads m0 d Hp) as H. cbv beta in H.
  rewrite Hh in H. unfold Error.text_fits in H. cbn [andb] in H. by case_match.
Qed.

Lemma error_read_overrun_witness :
  read_packet (@Error.ln_msg_error_read total_alloc) [0; 17; 0; 0; 0; 0] (Error.mk [] 0 None)
  = UB.
Proof.
  etrans; [apply (@error_read_overrun total_alloc total_alloc_total);
           [split; [by_compute|vm_compute; reflexivity]|vm_compute; reflexivity]|].
  vm_compute. reflexivity.
Defined.

(** ping and pong. The encoders fill the ignored bytes with zeros and refuse
    to ask for, or answer with, 65532 bytes or more without touching the buffer;
    the decoders take any ignored bytes, accept only packets that hold all they
    announce, and never leave the packet. *)
Theorem ping_pong_contract {A : Alloc} {T : AllocTotal A} :
  ((∀ m st, Ping.wf m → call (Ping.ln_msg_ping_create m) st =
      let w := Ping.head m ++ replicate (Z.to_nat (Ping.byteslen m)) 0 in
      Ret true (mk_push (Z.of_nat (length w)) (of_bytes w))) ∧
   (∀ m st, 65532 ≤ Ping.num_pong_bytes m → call (Ping.ln_msg_ping_create m) st = Ret false st) ∧
   (∀ m0 m ignored rest, Ping.wf m → Z.of_nat (length ignored) = Ping.byteslen m →
      packet (Ping.head m ++ ignored ++ rest) →
      read_packet Ping.ln_msg_ping_read (Ping.head m ++ ignored ++ rest) m0 = Ret true m) ∧
   (∀ m0 m d, packet d → read_packet Ping.ln_msg_ping_read d m0 = Ret true m →
      Ping.wf m ∧ ∃ ignored rest, Z.of_nat (length ignored) = Ping.byteslen m ∧
        d = Ping.head m ++ ignored ++ rest) ∧
   SafeReader Ping.ln_msg_ping_read) ∧
  ((∀ m st, Pong.wf m → call (Pong.ln_msg_pong_create m) st =
      let w := Pong.head m ++ replicate (Z.to_nat (Pong.byteslen m)) 0 in
      Ret true (mk_push (Z.of_nat (length w)) (of_bytes w))) ∧
   (∀ m st, 65532 ≤ Pong.byteslen m → call (Pong.ln_msg_pong_create m) st = Ret false st) ∧
   (∀ m0 m ignored rest, Pong.wf m → Z.of_nat (length ignored) = Pong.byteslen m →
      packet (Pong.head m ++ ignored ++ rest) →
      read_packet Pong.ln_msg_pong_read (Pong.head m ++ ignored ++ rest) m0 = Ret true m) ∧
   (∀ m0 m d, packet d → read_packet Pong.ln_msg_pong_read d m0 = Ret true m →
      Pong.wf m ∧ ∃ ignored rest, Z.of_nat (length ignored) = Pong.byteslen m ∧
        d = Pong.head m ++ ignored ++ rest) ∧
   SafeReader Pong.ln_msg_pong_read).
Proof.
  split; (split; [|split; [|split; [|split]]]).
  - exact Ping.ping_create.
  - exact Ping.ping_create_reject.
  - intros m0 m ig rest Hwf Hi Hp. destruct (Ping.ping_ok m ig rest Hwf Hi) as [Hok Hdec].
    rewrite <- (Hdec m0) at 2. by apply (reads_as_true _ _ _ Ping.ping_reads).
  - intros m0 m d Hp Hr. destruct (reads_as_inv _ _ _ Ping.ping_reads _ _ _ Hp Hr) as [Hok ->].
    by apply Ping.ping_ok_inv.
  - exact (reads_as_safe _ _ _ Ping.ping_reads).
  - exact Pong.pong_create.
  - exact Pong.pong_create_reject.
  - intros m0 m ig rest Hwf Hi Hp. destruct (Pong.pong_ok m ig rest Hwf Hi) as [Hok Hdec].
    rewrite <- (Hdec m0) at 2. by apply (reads_as_true _ _ _ Pong.pong_reads).
  - intros m0 m d Hp Hr. destruct (reads_as_inv _ _ _ Pong.pong_reads _ _ _ Hp Hr) as [Hok ->].
    by apply Pong.pong_ok_inv.
  - exact (reads_as_safe _ _ _ Pong.pong_reads).
Qed.

Lemma ping_pong_contract_witness :
  AllocTotal total_alloc ∧
  read_packet Ping.ln_msg_ping_read [0; 18; 0; 5; 0; 2; 1; 2; 99] (Ping.mk 0 0)
  = Ret true (Ping.mk 5 2).
Proof.
  split; [exact total_alloc_total|].
  destruct (@ping_pong_contract total_alloc total_alloc_total) as ((_ & _ & R & _) & _).
  apply (R (Ping.mk 0 0) (Ping.mk 5 2) [1; 2] [99]).
  - split; [by_compute|]. split; by_compute.
  - reflexivity.
  - split; [by_compute|vm_compute; reflexivity].
Defined.

End LnMsgSetup.
