(* ===== verification/LnMsgAnno.v ===== *)
(** Gossip messages: [ln/ln_msg_anno.c]. The chain the node was configured with
    ([gGenesisChainHash]), the double SHA256 and the node key's signature are
    arguments. *)
From stdpp Require Import base list numbers tactics.
From Stdlib Require Import ZArith Lia.
From S2P Require Import Prelude CProg UtlInt UtlBuf UtlPush LnMisc LnMsg.
Import UtlBuf UtlPush LnMisc LnMsg.
Open Scope Z_scope.

Module LnMsgAnno.

(** ** channel_update *)

Module CnlUpdate.

(** [ln_cnl_update_t] *)
Record t := mk {
  short_channel_id : Z;
  timestamp : Z;
  flags : Z;
  cltv_expiry_delta : Z;
  htlc_minimum_msat : Z;
  fee_base_msat : Z;
  fee_prop_millionths : Z;
  htlc_maximum_msat : Z;
}.

Definition set_short_channel_id (v : Z) (m : t) : t :=
  mk v (timestamp m) (flags m) (cltv_expiry_delta m) (htlc_minimum_msat m) (fee_base_msat m)
    (fee_prop_millionths m) (htlc_maximum_msat m).
Definition set_timestamp (v : Z) (m : t) : t :=
  mk (short_channel_id m) v (flags m) (cltv_expiry_delta m) (htlc_minimum_msat m)
    (fee_base_msat m) (fee_prop_millionths m) (htlc_maximum_msat m).
Definition set_flags (v : Z) (m : t) : t :=
  mk (short_channel_id m) (timestamp m) v (cltv_expiry_delta m) (htlc_minimum_msat m)
    (fee_base_msat m) (fee_prop_millionths m) (htlc_maximum_msat m).
Definition set_cltv_expiry_delta (v : Z) (m : t) : t :=
  mk (short_channel_id m) (timestamp m) (flags m) v (htlc_minimum_msat m)
    (fee_base_msat m) (fee_prop_millionths m) (htlc_maximum_msat m).
Definition set_htlc_minimum_msat (v : Z) (m : t) : t :=
  mk (short_channel_id m) (timestamp m) (flags m) (cltv_expiry_delta m) v
    (fee_base_msat m) (fee_prop_millionths m) (htlc_maximum_msat m).
Definition set_fee_base_msat (v : Z) (m : t) : t :=
  mk (short_channel_id m) (timestamp m) (flags m) (cltv_expiry_delta m) (htlc_minimum_msat m)
    v (fee_prop_millionths m) (htlc_maximum_msat m).
Definition set_fee_prop_millionths (v : Z) (m : t) : t :=
  mk (short_channel_id m) (timestamp m) (flags m) (cltv_expiry_delta m) (htlc_minimum_msat m)
    (fee_base_msat m) v (htlc_maximum_msat m).
Definition set_htlc_maximum_msat (v : Z) (m : t) : t :=
  mk (short_channel_id m) (timestamp m) (flags m) (cltv_expiry_delta m) (htlc_minimum_msat m)
    (fee_base_msat m) (fee_prop_millionths m) v.

Ltac proj_red ::= cbn [short_channel_id timestamp flags cltv_expiry_delta htlc_minimum_msat
  fee_base_msat fee_prop_millionths htlc_maximum_msat].

Section read.
Context (gGenesisChainHash : bytes).

Definition ln_msg_cnl_update_read (pData : bytes) (Len : Z) : prog t bool :=
  exit_if (Len <? 2 + 128) false;;
  type ← get_at ln_misc_get16be pData 0;
  exit_if (negb (type =? MSGTYPE_CHANNEL_UPDATE)) false;;
  let pos := 2 in
  let pos := pos + LN_SZ_SIGNATURE in
  chain ← rd_bytes pData pos BTC_SZ_HASH256;
  let chain_match := bool_decide (gGenesisChainHash = chain) in
  let pos := pos + BTC_SZ_HASH256 in
  v ← get_at ln_misc_get64be pData pos;
  modify (set_short_channel_id v);;
  exit_if (v =? 0) false;;
  let pos := pos + LN_SZ_SHORT_CHANNEL_ID in
  v ← get_at ln_misc_get32be pData pos;
  modify (set_timestamp v);;
  let pos := pos + 4 in
  v ← get_at ln_misc_get16be pData pos;
  modify (set_flags v);;
  let pos := pos + 2 in
  v ← get_at ln_misc_get16be pData pos;
  modify (set_cltv_expiry_delta v);;
  let pos := pos + 2 in
  v ← get_at ln_misc_get64be pData pos;
  modify (set_htlc_minimum_msat v);;
  let pos := pos + 8 in
  v ← get_at ln_misc_get32be pData pos;
  modify (set_fee_base_msat v);;
  let pos := pos + 4 in
  v ← get_at ln_misc_get32be pData pos;
  modify (set_fee_prop_millionths v);;
  let pos := pos + 4 in
  pos ← (if pos + 8 <=? Len
         then v ← get_at ln_misc_get64be pData pos;
              modify (set_htlc_maximum_msat v);;
              mret (pos + 8)
         else modify (set_htlc_maximum_msat 0);; mret pos);
  c_assert (pos <=? Len);;
  mret chain_match.

Definition ok (d : bytes) : bool :=
  (2 + 128 <=? Z.of_nat (length d)) && (be_val (sl d 0 2) =? MSGTYPE_CHANNEL_UPDATE)
  && negb (be_val (sl d 98 8) =? 0) && bool_decide (gGenesisChainHash = sl d 66 32).

Definition dec (m : t) (d : bytes) : t :=
  mk (be_val (sl d 98 8)) (be_val (sl d 106 4)) (be_val (sl d 110 2)) (be_val (sl d 112 2))
    (be_val (sl d 114 8)) (be_val (sl d 122 4)) (be_val (sl d 126 4))
    (if 138 <=? Z.of_nat (length d) then be_val (sl d 130 8) else 0).

Lemma cnl_update_reads : reads_as ln_msg_cnl_update_read ok dec.
Proof.
  intros m0 d [Hd Hlt]. destruct (ok d) eqn:Hok; unfold ok in Hok; cond_facts Hok;
  unfold read_packet, ln_msg_cnl_update_read; rewrite call_returned.
  - split_and_hyps. run_steps; rewrite H0; unfold dec;
      [rewrite (proj2 (Z.leb_le 138 _)) by lia | rewrite (proj2 (Z.leb_gt 138 _)) by lia];
      reflexivity.
  - run_steps; eexists; unfold returned, mret, prog_ret;
      (replace (bool_decide (gGenesisChainHash = sl d 66 32)) with false
         by intuition (first [congruence | lia])); reflexivity.
Qed.
End read.

End CnlUpdate.

End LnMsgAnno.
