(* ===== verification/LnHtlc.v ===== *)
(** The HTLC flags of a channel ([ln_htlcflag_t] of [ln/ln.h]), the macros of
    [ln/ln_local.h] that read them, and the functions of [ln/ln.c] that decide
    from them what a commitment transaction pays to whom. *)
From stdpp Require Import base list numbers tactics.
From Stdlib Require Import ZArith Lia.
From S2P Require Import Prelude UtlBuf LnMsgNormal.
Import UtlBuf LnMsgNormal.
Open Scope Z_scope.

Module LnHtlc.

(** ** The bit fields of [stat.flag], in the [stat.bits] view *)

(** The field of [w] bits at [pos]: reading it and assigning [v] to it. *)
Definition bits_get (pos w b : Z) : Z := Z.land (Z.shiftr b pos) (Z.ones w).
Definition bits_set (pos w v b : Z) : Z :=
  Z.lor (Z.land b (Z.lnot (Z.shiftl (Z.ones w) pos)))
        (Z.shiftl (Z.land v (Z.ones w)) pos).

Abbreviation htlc := UpdateAddHtlc.t.
Abbreviation amount_msat := UpdateAddHtlc.amount_msat.
Abbreviation bits := UpdateAddHtlc.stat_bits.

Definition addhtlc (h : htlc) : Z := bits_get 0 2 (bits h).
Definition delhtlc (h : htlc) : Z := bits_get 2 2 (bits h).
Definition updsend (h : htlc) : Z := bits_get 4 1 (bits h).
Definition comsend (h : htlc) : Z := bits_get 5 1 (bits h).
Definition revrecv (h : htlc) : Z := bits_get 6 1 (bits h).
Definition comrecv (h : htlc) : Z := bits_get 7 1 (bits h).
Definition revsend (h : htlc) : Z := bits_get 8 1 (bits h).
Definition fin_delhtlc (h : htlc) : Z := bits_get 9 2 (bits h).
Definition updwait (h : htlc) : Z := bits_get 11 1 (bits h).

Definition put (pos w v : Z) (h : htlc) : htlc :=
  UpdateAddHtlc.set_stat_bits (bits_set pos w v (bits h)) h.
Definition set_addhtlc : Z → htlc → htlc := put 0 2.
Definition set_delhtlc : Z → htlc → htlc := put 2 2.
Definition set_updsend : Z → htlc → htlc := put 4 1.
Definition set_comsend : Z → htlc → htlc := put 5 1.
Definition set_revrecv : Z → htlc → htlc := put 6 1.
Definition set_comrecv : Z → htlc → htlc := put 7 1.
Definition set_revsend : Z → htlc → htlc := put 8 1.
Definition set_fin_delhtlc : Z → htlc → htlc := put 9 2.

(** ** Constants *)

Abbreviation LN_HTLC_MAX := 6%nat.
Abbreviation LN_ADDHTLC_NONE := 0.
Abbreviation LN_ADDHTLC_OFFER := 1.
Abbreviation LN_ADDHTLC_RECV := 2.
Abbreviation LN_DELHTLC_NONE := 0.
Abbreviation LN_DELHTLC_FULFILL := 1.
Abbreviation LN_DELHTLC_FAIL := 2.
Abbreviation LN_DELHTLC_MALFORMED := 3.
Abbreviation LN_HTLCFLAG_MASK_COMSIG1 := 0x0060.
Abbreviation LN_HTLCFLAG_MASK_COMSIG2 := 0x0180.

(** ** The macros *)

Section macros.
Context (h : htlc).

Definition LN_HTLC_EMPTY : bool := (addhtlc h =? LN_ADDHTLC_NONE) && (amount_msat h =? 0).

Definition LN_HTLC_ENABLE : bool := negb LN_HTLC_EMPTY.

Definition LN_HTLC_WILL_ADDHTLC : bool :=
  (addhtlc h =? LN_ADDHTLC_OFFER) && (delhtlc h =? LN_DELHTLC_NONE) &&
  (updsend h =? 0) && (updwait h =? 0).

Definition LN_HTLC_ENABLE_LOCAL_ADDHTLC_OFFER : bool :=
  (addhtlc h =? LN_ADDHTLC_OFFER) && (delhtlc h =? LN_DELHTLC_NONE) &&
  (updsend h =? 1) && (comsend h =? 1) && (revrecv h =? 1).

Definition LN_HTLC_ENABLE_LOCAL_DELHTLC_OFFER : bool :=
  (addhtlc h =? LN_ADDHTLC_OFFER) && negb (delhtlc h =? LN_DELHTLC_NONE).

Definition LN_HTLC_ENABLE_LOCAL_FULFILL_OFFER : bool :=
  (addhtlc h =? LN_ADDHTLC_OFFER) && (delhtlc h =? LN_DELHTLC_FULFILL).

Definition LN_HTLC_ENABLE_REMOTE_ADDHTLC_OFFER : bool :=
  (addhtlc h =? LN_ADDHTLC_OFFER) && (updsend h =? 1) &&
  negb (negb (delhtlc h =? LN_DELHTLC_NONE) && (comrecv h =? 1) && (revsend h =? 1)).

Definition LN_HTLC_ENABLE_REMOTE_DELHTLC_OFFER : bool :=
  (addhtlc h =? LN_ADDHTLC_OFFER) && negb (delhtlc h =? LN_DELHTLC_NONE) &&
  (comrecv h =? 1) && (revsend h =? 1).

Definition LN_HTLC_ENABLE_REMOTE_FULFILL_OFFER : bool :=
  (addhtlc h =? LN_ADDHTLC_OFFER) && (delhtlc h =? LN_DELHTLC_FULFILL) &&
  (comrecv h =? 1) && (revsend h =? 1).

Definition LN_HTLC_WILL_COMSIG_OFFER : bool :=
  ((LN_HTLC_ENABLE_REMOTE_ADDHTLC_OFFER && (delhtlc h =? LN_DELHTLC_NONE)) ||
   LN_HTLC_ENABLE_REMOTE_DELHTLC_OFFER) && (comsend h =? 0).

Definition LN_HTLC_WILL_DELHTLC : bool :=
  (addhtlc h =? LN_ADDHTLC_RECV) && negb (delhtlc h =? LN_DELHTLC_NONE) &&
  (updsend h =? 0) && (updwait h =? 0).

Definition LN_HTLC_ENABLE_LOCAL_ADDHTLC_RECV : bool :=
  (addhtlc h =? LN_ADDHTLC_RECV) &&
  negb ((updsend h =? 1) && (comsend h =? 1) && (revrecv h =? 1)).

Definition LN_HTLC_ENABLE_LOCAL_DELHTLC_RECV : bool :=
  (addhtlc h =? LN_ADDHTLC_RECV) && negb (delhtlc h =? 0) &&
  (updsend h =? 1) && (comsend h =? 1) && (revrecv h =? 1).

Definition LN_HTLC_ENABLE_LOCAL_FULFILL_RECV : bool :=
  (addhtlc h =? LN_ADDHTLC_RECV) && (delhtlc h =? LN_DELHTLC_FULFILL) &&
  (updsend h =? 1) && (comsend h =? 1) && (revrecv h =? 1).

Definition LN_HTLC_ENABLE_REMOTE_ADDHTLC_RECV : bool :=
  (addhtlc h =? LN_ADDHTLC_RECV) && (updsend h =? 0) && (comrecv h =? 1) && (revsend h =? 1).

Definition LN_HTLC_ENABLE_REMOTE_DELHTLC_RECV : bool :=
  (addhtlc h =? LN_ADDHTLC_RECV) && (updsend h =? 1).

Definition LN_HTLC_ENABLE_REMOTE_FULFILL_RECV : bool :=
  LN_HTLC_ENABLE_REMOTE_DELHTLC_RECV && (delhtlc h =? LN_DELHTLC_FULFILL).

Definition LN_HTLC_WILL_COMSIG_RECV : bool :=
  (LN_HTLC_ENABLE_REMOTE_ADDHTLC_RECV || LN_HTLC_ENABLE_REMOTE_DELHTLC_RECV) &&
  (comsend h =? 0).

(** The two conditions the handlers of [ln.c] repeat: the HTLC takes part in
    our commitment transaction, and in the peer's. *)
Definition in_local : bool :=
  LN_HTLC_ENABLE &&
  (LN_HTLC_ENABLE_LOCAL_ADDHTLC_OFFER || LN_HTLC_ENABLE_LOCAL_ADDHTLC_RECV ||
   LN_HTLC_ENABLE_LOCAL_DELHTLC_OFFER || LN_HTLC_ENABLE_LOCAL_DELHTLC_RECV).
Definition in_remote : bool :=
  LN_HTLC_ENABLE &&
  (LN_HTLC_ENABLE_REMOTE_ADDHTLC_OFFER || LN_HTLC_ENABLE_REMOTE_ADDHTLC_RECV ||
   LN_HTLC_ENABLE_REMOTE_DELHTLC_OFFER || LN_HTLC_ENABLE_REMOTE_DELHTLC_RECV).

(** All of [comsend], [revrecv], [comrecv] and [revsend] are set. *)
Definition committed : bool :=
  negb (comsend h =? 0) && negb (revrecv h =? 0) && negb (comrecv h =? 0) &&
  negb (revsend h =? 0).

(** No half of a commitment_signed / revoke_and_ack exchange is open. *)
Definition exchange_closed : bool :=
  ((Z.land (bits h) LN_HTLCFLAG_MASK_COMSIG1 =? 0) ||
   (Z.land (bits h) LN_HTLCFLAG_MASK_COMSIG1 =? LN_HTLCFLAG_MASK_COMSIG1)) &&
  ((Z.land (bits h) LN_HTLCFLAG_MASK_COMSIG2 =? 0) ||
   (Z.land (bits h) LN_HTLCFLAG_MASK_COMSIG2 =? LN_HTLCFLAG_MASK_COMSIG2)).

Definition clear_htlc_comrevflag (DelHtlc : Z) : htlc :=
  if committed
  then set_revsend 0 (set_comrecv 0 (set_revrecv 0 (set_comsend 0 (set_delhtlc DelHtlc h))))
  else h.
End macros.

(** ** What a commitment transaction holds *)

Inductive ln_htlctype_t := LN_HTLCTYPE_OFFERED | LN_HTLCTYPE_RECEIVED.

Record ln_script_htlcinfo_t := mk_htlcinfo {
  type : ln_htlctype_t;
  add_htlc_idx : nat;
  expiry : Z;
  info_amount_msat : Z;
  preimage_hash : bytes;
}.

(** The HTLCs of a commitment transaction and the balances of its owner and of
    the other side: [ppHtlcInfo], [*pOurMsat] and [*pTheirMsat]. *)
Abbreviation htlcinfo := (list ln_script_htlcinfo_t * Z * Z)%type.

Definition info_of (t : ln_htlctype_t) (idx : nat) (h : htlc) : ln_script_htlcinfo_t :=
  mk_htlcinfo t idx (UpdateAddHtlc.cltv_expiry h) (amount_msat h)
    (UpdateAddHtlc.payment_sha256 h).

(** One round of the loop of [create_to_local_htlcinfo_amount]. *)
Definition to_local_step (idx : nat) (h : htlc) (x : htlcinfo) : htlcinfo :=
  let '(infos, pOurMsat, pTheirMsat) := x in
  if LN_HTLC_ENABLE h then
    let htlcadd := false in
    let '(htlcadd, pOurMsat, pTheirMsat) :=
      if LN_HTLC_ENABLE_LOCAL_ADDHTLC_OFFER h || LN_HTLC_ENABLE_LOCAL_FULFILL_OFFER h then
        let pOurMsat := u64 (pOurMsat - amount_msat h) in
        if LN_HTLC_ENABLE_LOCAL_ADDHTLC_OFFER h then (true, pOurMsat, pTheirMsat)
        else (htlcadd, pOurMsat, u64 (pTheirMsat + amount_msat h))
      else (htlcadd, pOurMsat, pTheirMsat) in
    let '(htlcadd, pOurMsat, pTheirMsat) :=
      if LN_HTLC_ENABLE_LOCAL_ADDHTLC_RECV h || LN_HTLC_ENABLE_LOCAL_FULFILL_RECV h then
        let pTheirMsat := u64 (pTheirMsat - amount_msat h) in
        if LN_HTLC_ENABLE_LOCAL_ADDHTLC_RECV h then (true, pOurMsat, pTheirMsat)
        else (htlcadd, u64 (pOurMsat + amount_msat h), pTheirMsat)
      else (htlcadd, pOurMsat, pTheirMsat) in
    if htlcadd
    then (infos ++ [info_of (if addhtlc h =? LN_ADDHTLC_RECV then LN_HTLCTYPE_RECEIVED
                             else LN_HTLCTYPE_OFFERED) idx h], pOurMsat, pTheirMsat)
    else (infos, pOurMsat, pTheirMsat)
  else x.

(** One round of the loop of [create_to_remote_htlcinfo]: offered and received
    change sides. *)
Definition to_remote_step (idx : nat) (h : htlc) (x : htlcinfo) : htlcinfo :=
  let '(infos, pOurMsat, pTheirMsat) := x in
  if LN_HTLC_ENABLE h then
    let htlcadd := false in
    let '(htlcadd, pOurMsat, pTheirMsat) :=
      if LN_HTLC_ENABLE_REMOTE_ADDHTLC_OFFER h || LN_HTLC_ENABLE_REMOTE_FULFILL_OFFER h then
        let pTheirMsat := u64 (pTheirMsat - amount_msat h) in
        if LN_HTLC_ENABLE_REMOTE_ADDHTLC_OFFER h then (true, pOurMsat, pTheirMsat)
        else (htlcadd, u64 (pOurMsat + amount_msat h), pTheirMsat)
      else (htlcadd, pOurMsat, pTheirMsat) in
    let '(htlcadd, pOurMsat, pTheirMsat) :=
      if LN_HTLC_ENABLE_REMOTE_ADDHTLC_RECV h || LN_HTLC_ENABLE_REMOTE_FULFILL_RECV h then
        let pOurMsat := u64 (pOurMsat - amount_msat h) in
        if LN_HTLC_ENABLE_REMOTE_ADDHTLC_RECV h then (true, pOurMsat, pTheirMsat)
        else (htlcadd, pOurMsat, u64 (pTheirMsat + amount_msat h))
      else (htlcadd, pOurMsat, pTheirMsat) in
    if htlcadd
    then (infos ++ [info_of (if addhtlc h =? LN_ADDHTLC_RECV then LN_HTLCTYPE_OFFERED
                             else LN_HTLCTYPE_RECEIVED) idx h], pOurMsat, pTheirMsat)
    else (infos, pOurMsat, pTheirMsat)
  else x.

(** The loops, over [self->cnl_add_htlc] from [idx] on. *)
Fixpoint htlcinfo_loop (step : nat → htlc → htlcinfo → htlcinfo) (idx : nat)
    (hs : list htlc) (x : htlcinfo) : htlcinfo :=
  match hs with
  | [] => x
  | h :: hs => htlcinfo_loop step (S idx) hs (step idx h x)
  end.

Definition create_to_local_htlcinfo_amount (cnl_add_htlc : list htlc)
    (pOurMsat pTheirMsat : Z) : htlcinfo :=
  htlcinfo_loop to_local_step 0 cnl_add_htlc ([], pOurMsat, pTheirMsat).

Definition create_to_remote_htlcinfo (cnl_add_htlc : list htlc)
    (pOurMsat pTheirMsat : Z) : htlcinfo :=
  htlcinfo_loop to_remote_step 0 cnl_add_htlc ([], pOurMsat, pTheirMsat).

(** ** The bit fields are independent *)

Lemma testbit_get pos w b n :
  0 ≤ pos → 0 ≤ w → 0 ≤ n → Z.testbit (bits_get pos w b) n = Z.testbit b (n + pos) && (n <? w).
Proof.
  intros. unfold bits_get.
  by rewrite Z.land_spec, Z.shiftr_spec, Z.testbit_ones_nonneg by lia.
Qed.

Lemma testbit_set pos w v b n :
  0 ≤ pos → 0 ≤ w → 0 ≤ n →
  Z.testbit (bits_set pos w v b) n =
  if (pos <=? n) && (n <? pos + w) then Z.testbit v (n - pos) else Z.testbit b n.
Proof.
  intros. unfold bits_set.
  rewrite Z.lor_spec, Z.land_spec, Z.lnot_spec, !Z.shiftl_spec by lia.
  destruct (Z.leb_spec pos n) as [Hp|Hp]; cbn [andb].
  - rewrite Z.land_spec, Z.testbit_ones_nonneg by lia.
    replace (n - pos <? w) with (n <? pos + w)
      by (destruct (Z.ltb_spec n (pos + w)), (Z.ltb_spec (n - pos) w); lia).
    destruct (n <? pos + w), (Z.testbit b n), (Z.testbit v (n - pos)); done.
  - rewrite !(Z.testbit_neg_r _ (n - pos)) by lia. by rewrite andb_true_r, orb_false_r.
Qed.

Lemma get_set_same pos w v b :
  0 ≤ pos → 0 ≤ w → bits_get pos w (bits_set pos w v b) = Z.land v (Z.ones w).
Proof.
  intros. apply Z.bits_inj'. intros n Hn.
  rewrite testbit_get, testbit_set, Z.land_spec, Z.testbit_ones_nonneg by lia.
  rewrite Z.add_simpl_r, (proj2 (Z.leb_le _ _)) by lia. cbn [andb].
  destruct (Z.ltb_spec n w).
  - by rewrite (proj2 (Z.ltb_lt _ _)) by lia.
  - by rewrite !andb_false_r.
Qed.

Lemma get_set_other pos w pos' w' v b :
  0 ≤ pos → 0 ≤ w → 0 ≤ pos' → 0 ≤ w' → pos + w ≤ pos' ∨ pos' + w' ≤ pos →
  bits_get pos' w' (bits_set pos w v b) = bits_get pos' w' b.
Proof.
  intros. apply Z.bits_inj'. intros n Hn. rewrite !testbit_get, testbit_set by lia.
  destruct (Z.ltb_spec n w'); [|by rewrite !andb_false_r].
  destruct (Z.leb_spec pos (n + pos')), (Z.ltb_spec (n + pos') (pos + w)); try done; lia.
Qed.

Lemma bits_get_range pos w b : 0 ≤ w → 0 ≤ bits_get pos w b < 2 ^ w.
Proof. intros. unfold bits_get. rewrite Z.land_ones by lia. apply Z.mod_pos_bound. lia. Qed.

(** Read a field of an HTLC some of whose fields have been assigned. *)
Ltac flag_unfold :=
  unfold addhtlc, delhtlc, updsend, comsend, revrecv, comrecv, revsend, fin_delhtlc, updwait,
    set_addhtlc, set_delhtlc, set_updsend, set_comsend, set_revrecv, set_comrecv,
    set_revsend, set_fin_delhtlc, put in *;
  cbn [UpdateAddHtlc.stat_bits UpdateAddHtlc.set_stat_bits UpdateAddHtlc.amount_msat] in *.
Ltac flag_simpl :=
  flag_unfold;
  repeat first
    [ rewrite get_set_same in * by lia
    | rewrite get_set_other in * by lia ].

(** ** The money of a commitment transaction *)

Definition total_of (infos : list ln_script_htlcinfo_t) : Z :=
  foldr (λ x n, info_amount_msat x + n) 0 infos.

(** The sum of the HTLCs one side offers. *)
Definition pending (who : Z) (hs : list htlc) : Z :=
  foldr (λ h n, (if addhtlc h =? who then amount_msat h else 0) + n) 0 hs.

(** The HTLCs [sel] chooses, with their place in the array. *)
Definition outputs_of (sel : htlc → bool) (ty : htlc → ln_htlctype_t) (hs : list htlc)
    : list ln_script_htlcinfo_t :=
  concat (imap (λ i h, if sel h then [info_of (ty h) i h] else []) hs).

Definition in_local_tx (h : htlc) : bool :=
  LN_HTLC_ENABLE h && (LN_HTLC_ENABLE_LOCAL_ADDHTLC_OFFER h || LN_HTLC_ENABLE_LOCAL_ADDHTLC_RECV h).
Definition in_remote_tx (h : htlc) : bool :=
  LN_HTLC_ENABLE h && (LN_HTLC_ENABLE_REMOTE_ADDHTLC_OFFER h || LN_HTLC_ENABLE_REMOTE_ADDHTLC_RECV h).
Definition local_type (h : htlc) : ln_htlctype_t :=
  if addhtlc h =? LN_ADDHTLC_RECV then LN_HTLCTYPE_RECEIVED else LN_HTLCTYPE_OFFERED.
Definition remote_type (h : htlc) : ln_htlctype_t :=
  if addhtlc h =? LN_ADDHTLC_RECV then LN_HTLCTYPE_OFFERED else LN_HTLCTYPE_RECEIVED.

Lemma total_app x y : total_of (x ++ y) = total_of x + total_of y.
Proof. unfold total_of. induction x as [|a x IH]; cbn [foldr app]; [done|]. rewrite IH. lia. Qed.

(** What one round of either loop does when no balance runs short: [w] is the
    flag of the HTLCs [*pOurMsat] pays for, [w'] of those [*pTheirMsat] does. *)
Definition step_exact (step : nat → htlc → htlcinfo → htlcinfo) (w w' : Z)
    (sel : htlc → bool) (ty : htlc → ln_htlctype_t) : Prop :=
  ∀ idx h infos o t,
    0 ≤ amount_msat h → 0 ≤ o → 0 ≤ t → o + t < 2 ^ 64 →
    (addhtlc h = w → amount_msat h ≤ o) → (addhtlc h = w' → amount_msat h ≤ t) →
    ∃ o' t', step idx h (infos, o, t) =
        (infos ++ (if sel h then [info_of (ty h) idx h] else []), o', t') ∧
      0 ≤ o' ∧ 0 ≤ t' ∧
      o' + t' + (if sel h then amount_msat h else 0) = o + t ∧
      o - (if addhtlc h =? w then amount_msat h else 0) ≤ o' ∧
      t - (if addhtlc h =? w' then amount_msat h else 0) ≤ t'.

(** The macros name the side they are about. *)
Ltac macro_side := intros h H; repeat (apply andb_true_iff in H as [H _]); by apply Z.eqb_eq.
Lemma local_add_offer h : LN_HTLC_ENABLE_LOCAL_ADDHTLC_OFFER h = true → addhtlc h = LN_ADDHTLC_OFFER.
Proof. revert h. macro_side. Qed.
Lemma local_fulfill_offer h : LN_HTLC_ENABLE_LOCAL_FULFILL_OFFER h = true → addhtlc h = LN_ADDHTLC_OFFER.
Proof. revert h. macro_side. Qed.
Lemma local_add_recv h : LN_HTLC_ENABLE_LOCAL_ADDHTLC_RECV h = true → addhtlc h = LN_ADDHTLC_RECV.
Proof. revert h. macro_side. Qed.
Lemma local_fulfill_recv h : LN_HTLC_ENABLE_LOCAL_FULFILL_RECV h = true → addhtlc h = LN_ADDHTLC_RECV.
Proof. revert h. macro_side. Qed.
Lemma remote_add_offer h : LN_HTLC_ENABLE_REMOTE_ADDHTLC_OFFER h = true → addhtlc h = LN_ADDHTLC_OFFER.
Proof. revert h. macro_side. Qed.
Lemma remote_fulfill_offer h : LN_HTLC_ENABLE_REMOTE_FULFILL_OFFER h = true → addhtlc h = LN_ADDHTLC_OFFER.
Proof. revert h. macro_side. Qed.
Lemma remote_add_recv h : LN_HTLC_ENABLE_REMOTE_ADDHTLC_RECV h = true → addhtlc h = LN_ADDHTLC_RECV.
Proof. revert h. macro_side. Qed.
Lemma remote_fulfill_recv h : LN_HTLC_ENABLE_REMOTE_FULFILL_RECV h = true → addhtlc h = LN_ADDHTLC_RECV.
Proof. revert h. macro_side. Qed.

(** One case of a round, the macros [a] to [d] having been evaluated. *)
Ltac step_cases a b c d La Lb Lc Ld :=
  intros idx h infos o t Ha Ho Ht Hs Hw Hw';
  set (n := amount_msat h) in *;
  assert (∀ z, 0 ≤ z < 2 ^ 64 → u64 z = z) as Hu
    by (intros; apply wrap_small; unfold in_range; lia);
  pose proof (La h); pose proof (Lb h); pose proof (Lc h); pose proof (Ld h);
  destruct (LN_HTLC_ENABLE h), (a h), (b h), (c h), (d h); cbn [andb orb];
  repeat match goal with H : true = true → _ |- _ => specialize (H eq_refl) end;
  try congruence;
  (eexists _, _; split; [rewrite ?app_nil_r; reflexivity|]);
  repeat match goal with |- context [addhtlc h =? ?c] =>
    destruct (Z.eqb_spec (addhtlc h) c) end; try congruence;
  rewrite ?(Hu (o - n)), ?(Hu (t - n)) by lia;
  rewrite ?(Hu (o + n)), ?(Hu (t + n)) by lia; split_and!; lia.

Lemma to_local_exact :
  step_exact to_local_step LN_ADDHTLC_OFFER LN_ADDHTLC_RECV in_local_tx local_type.
Proof.
  unfold step_exact, to_local_step, in_local_tx, local_type.
  step_cases LN_HTLC_ENABLE_LOCAL_ADDHTLC_OFFER LN_HTLC_ENABLE_LOCAL_FULFILL_OFFER
    LN_HTLC_ENABLE_LOCAL_ADDHTLC_RECV LN_HTLC_ENABLE_LOCAL_FULFILL_RECV
    local_add_offer local_fulfill_offer local_add_recv local_fulfill_recv.
Qed.

Lemma to_remote_exact :
  step_exact to_remote_step LN_ADDHTLC_RECV LN_ADDHTLC_OFFER in_remote_tx remote_type.
Proof.
  unfold step_exact, to_remote_step, in_remote_tx, remote_type.
  step_cases LN_HTLC_ENABLE_REMOTE_ADDHTLC_OFFER LN_HTLC_ENABLE_REMOTE_FULFILL_OFFER
    LN_HTLC_ENABLE_REMOTE_ADDHTLC_RECV LN_HTLC_ENABLE_REMOTE_FULFILL_RECV
    remote_add_offer remote_fulfill_offer remote_add_recv remote_fulfill_recv.
Qed.

Lemma pending_nonneg w hs : Forall (λ h, 0 ≤ amount_msat h) hs → 0 ≤ pending w hs.
Proof. induction 1; cbn [pending foldr]; [done|]. unfold pending in *. destruct (_ =? _); lia. Qed.

(** A whole loop. *)
Lemma loop_exact step w w' sel ty :
  step_exact step w w' sel ty → ∀ hs idx infos o t,
  Forall (λ h, 0 ≤ amount_msat h) hs → pending w hs ≤ o → pending w' hs ≤ t →
  o + t < 2 ^ 64 →
  ∃ o' t', htlcinfo_loop step idx hs (infos, o, t) =
      (infos ++ concat (imap (λ i h, if sel h then [info_of (ty h) (idx + i) h] else []) hs), o', t') ∧
    0 ≤ o' ∧ 0 ≤ t' ∧
    o' + t' + total_of (concat (imap (λ i h, if sel h then [info_of (ty h) (idx + i) h] else []) hs))
    = o + t.
Proof.
  intros Hstep hs. induction hs as [|h hs IH]; intros idx infos o t Hpos Ho Ht Hs.
  - exists o, t. cbn. rewrite app_nil_r. split_and!; try done; cbn in *; lia.
  - apply Forall_cons_1 in Hpos as [Hh Hpos].
    pose proof (pending_nonneg w hs Hpos). pose proof (pending_nonneg w' hs Hpos).
    cbn [htlcinfo_loop pending foldr] in *. fold (pending w hs) (pending w' hs) in *.
    edestruct (Hstep idx h infos o t) as (o1 & t1 & -> & H1 & H2 & H3 & H4 & H5); try lia.
    1,2: repeat destruct (_ =? _); lia.
    1,2: intros E; rewrite E, Z.eqb_refl in *; lia.
    edestruct (IH (S idx) (infos ++ (if sel h then [info_of (ty h) idx h] else [])) o1 t1)
      as (o2 & t2 & -> & H6 & H7 & H8); [done|lia|lia|destruct (sel h); lia|].
    exists o2, t2. rewrite imap_cons. cbn [concat]. rewrite Nat.add_0_r, <- app_assoc.
    rewrite (imap_ext _ ((λ i h, if sel h then [info_of (ty h) (idx + i) h] else []) ∘ S))
      in H8 |- * by (intros; cbn; by rewrite Nat.add_succ_r).
    split; [done|]. split; [done|]. split; [done|].
    rewrite total_app. destruct (sel h); cbn [total_of foldr info_of info_amount_msat]; lia.
Qed.

(** C9: both commitment transactions account for every millisatoshi. While the
    HTLCs a side offers fit its balance, the loops that build our and the
    peer's transaction put exactly the HTLCs the flags select on it, with the
    sides exchanged on the peer's, and what remains for the two sides plus the
    HTLCs is the channel's balance: nothing wraps, is lost or counted twice. *)
Theorem commit_amounts_exact hs our their :
  Forall (λ h, 0 ≤ amount_msat h) hs →
  pending LN_ADDHTLC_OFFER hs ≤ our → pending LN_ADDHTLC_RECV hs ≤ their →
  our + their < 2 ^ 64 →
  (∃ o t, create_to_local_htlcinfo_amount hs our their =
      (outputs_of in_local_tx local_type hs, o, t) ∧
    0 ≤ o ∧ 0 ≤ t ∧ o + t + total_of (outputs_of in_local_tx local_type hs) = our + their) ∧
  (∃ o t, create_to_remote_htlcinfo hs their our =
      (outputs_of in_remote_tx remote_type hs, o, t) ∧
    0 ≤ o ∧ 0 ≤ t ∧ o + t + total_of (outputs_of in_remote_tx remote_type hs) = our + their).
Proof.
  intros Hpos Ho Ht Hs. split.
  - apply (loop_exact _ _ _ _ _ to_local_exact hs 0 [] our their); done.
  - rewrite (Z.add_comm our). apply (loop_exact _ _ _ _ _ to_remote_exact hs 0 []); try done. lia.
Qed.

(** An HTLC we offered and the peer has committed to, and one we received. *)
Definition two_htlcs : list htlc :=
  let mk b a := UpdateAddHtlc.mk [] 0 a 400000 (replicate 32 4) (mk_buf None 0) (mk_buf None 0)
                  b 0 0 (replicate 64 0) 0 0 (mk_buf None 0) in
  [mk 0x71 5000; mk 0x182 7000].

Lemma commit_amounts_exact_witness :
  pending LN_ADDHTLC_OFFER two_htlcs ≤ 10000 ∧
  ∃ o t, create_to_local_htlcinfo_amount two_htlcs 10000 20000 =
    (outputs_of in_local_tx local_type two_htlcs, o, t) ∧
    o + t + total_of (outputs_of in_local_tx local_type two_htlcs) = 30000.
Proof.
  assert (Forall (λ h, 0 ≤ amount_msat h) two_htlcs) as H1 by by_compute.
  assert (pending LN_ADDHTLC_OFFER two_htlcs ≤ 10000) as H2 by by_compute.
  assert (pending LN_ADDHTLC_RECV two_htlcs ≤ 20000) as H3 by by_compute.
  split; [exact H2|].
  destruct (commit_amounts_exact two_htlcs 10000 20000 H1 H2 H3 eq_refl)
    as [(o & t & E & _ & _ & Hs) _].
  exists o, t. split; [exact E|exact Hs].
Defined.

End LnHtlc.
