(* ===== verification/LnSelf.v ===== *)
(** The state of a channel ([ln_self_t] of [ln/ln.h]), the calls out of it, and
    what its operations rely on that other components provide. *)
From stdpp Require Import base list numbers tactics.
From Stdlib Require Import ZArith Lia.
From S2P Require Import Prelude CProg UtlBuf UtlPush LnDerkey LnMisc LnOnion LnMsg LnMsgNormal LnHtlc.
Import UtlBuf UtlPush ShaChain Derkey LnMisc LnMsg LnMsgNormal LnHtlc.
Open Scope Z_scope.

Module LnSelf.

(** The codes of [ln/ln_err.h] these operations set. *)
Inductive ln_err :=
| LNERR_INV_STATE | LNERR_INV_VALUE | LNERR_INV_CHANNEL | LNERR_INV_ID
| LNERR_MSG_READ | LNERR_MSG_ERROR | LNERR_HTLC_FULL | LNERR_ERROR | LNERR_ONION
| LNERR_BITCOIND | LNERR_INV_PRIVKEY | LNERR_CREATE_MSG.

(** A call that leaves the channel: a callback ([LN_CB_*]) with its argument,
    an error message ([send_error]) or a write to the database. *)
Inductive event :=
| LN_CB_QUIT
| LN_CB_REESTABLISH_RECV
| LN_CB_GETBLOCKCOUNT
| LN_CB_ADD_HTLC_RECV_PREV (next_short_channel_id : Z)
| LN_CB_ADD_HTLC_RECV (id amount_msat cltv_expiry idx : Z) (payment_hash : bytes)
| LN_CB_FWD_ADDHTLC_START (short_channel_id idx : Z)
| LN_CB_BWD_DELHTLC_START (fin_delhtlc : Z)
| LN_CB_FULFILL_HTLC_RECV (prev_short_channel_id prev_idx : Z) (preimage : bytes)
    (id amount_msat : Z)
| LN_CB_FAIL_HTLC_RECV (prev_short_channel_id : Z) (reason shared_secret : utl_buf_t)
    (prev_idx orig_id : Z) (payment_hash : bytes) (malformed_failure : Z)
| LN_CB_REV_AND_ACK_EXCG
| LN_CB_PAYMENT_RETRY (payment_hash : bytes)
| LN_CB_UPDATE_FEE_RECV (old_fee : Z)
| LN_CB_SEND_REQ (buf_bolt : utl_buf_t)
| SEND_ERR (err : ln_err)
| DB_SELF_SAVE
| DB_SECRET_SAVE
| DB_PREIMG_DEL (preimage : option (list cell)).

(** [ln_commit_data_t]: what a commitment transaction is built with. *)
Record ln_commit_data_t := mk_commit {
  dust_limit_sat : Z;
  max_htlc_value_in_flight_msat : Z;
  channel_reserve_sat : Z;
  htlc_minimum_msat : Z;
  to_self_delay : Z;
  max_accepted_htlcs : Z;
  signature : bytes;
  txid : bytes;
  htlc_num : Z;
  commit_num : Z;
  revoke_num : Z;
}.

Definition set_dust_limit_sat (v : Z) (c : ln_commit_data_t) : ln_commit_data_t :=
  mk_commit v (max_htlc_value_in_flight_msat c) (channel_reserve_sat c) (htlc_minimum_msat c)
    (to_self_delay c) (max_accepted_htlcs c) (signature c) (txid c) (htlc_num c) (commit_num c)
    (revoke_num c).
Definition set_max_htlc_value_in_flight_msat (v : Z) (c : ln_commit_data_t) : ln_commit_data_t :=
  mk_commit (dust_limit_sat c) v (channel_reserve_sat c) (htlc_minimum_msat c) (to_self_delay c)
    (max_accepted_htlcs c) (signature c) (txid c) (htlc_num c) (commit_num c) (revoke_num c).
Definition set_channel_reserve_sat (v : Z) (c : ln_commit_data_t) : ln_commit_data_t :=
  mk_commit (dust_limit_sat c) (max_htlc_value_in_flight_msat c) v (htlc_minimum_msat c)
    (to_self_delay c) (max_accepted_htlcs c) (signature c) (txid c) (htlc_num c) (commit_num c)
    (revoke_num c).
Definition set_htlc_minimum_msat (v : Z) (c : ln_commit_data_t) : ln_commit_data_t :=
  mk_commit (dust_limit_sat c) (max_htlc_value_in_flight_msat c) (channel_reserve_sat c) v
    (to_self_delay c) (max_accepted_htlcs c) (signature c) (txid c) (htlc_num c) (commit_num c)
    (revoke_num c).
Definition set_to_self_delay (v : Z) (c : ln_commit_data_t) : ln_commit_data_t :=
  mk_commit (dust_limit_sat c) (max_htlc_value_in_flight_msat c) (channel_reserve_sat c)
    (htlc_minimum_msat c) v (max_accepted_htlcs c) (signature c) (txid c) (htlc_num c)
    (commit_num c) (revoke_num c).
Definition set_max_accepted_htlcs (v : Z) (c : ln_commit_data_t) : ln_commit_data_t :=
  mk_commit (dust_limit_sat c) (max_htlc_value_in_flight_msat c) (channel_reserve_sat c)
    (htlc_minimum_msat c) (to_self_delay c) v (signature c) (txid c) (htlc_num c) (commit_num c)
    (revoke_num c).
Definition set_signature (v : bytes) (c : ln_commit_data_t) : ln_commit_data_t :=
  mk_commit (dust_limit_sat c) (max_htlc_value_in_flight_msat c) (channel_reserve_sat c)
    (htlc_minimum_msat c) (to_self_delay c) (max_accepted_htlcs c) v (txid c) (htlc_num c)
    (commit_num c) (revoke_num c).
Definition set_txid (v : bytes) (c : ln_commit_data_t) : ln_commit_data_t :=
  mk_commit (dust_limit_sat c) (max_htlc_value_in_flight_msat c) (channel_reserve_sat c)
    (htlc_minimum_msat c) (to_self_delay c) (max_accepted_htlcs c) (signature c) v (htlc_num c)
    (commit_num c) (revoke_num c).
Definition set_htlc_num (v : Z) (c : ln_commit_data_t) : ln_commit_data_t :=
  mk_commit (dust_limit_sat c) (max_htlc_value_in_flight_msat c) (channel_reserve_sat c)
    (htlc_minimum_msat c) (to_self_delay c) (max_accepted_htlcs c) (signature c) (txid c) v
    (commit_num c) (revoke_num c).
Definition set_commit_num (v : Z) (c : ln_commit_data_t) : ln_commit_data_t :=
  mk_commit (dust_limit_sat c) (max_htlc_value_in_flight_msat c) (channel_reserve_sat c)
    (htlc_minimum_msat c) (to_self_delay c) (max_accepted_htlcs c) (signature c) (txid c)
    (htlc_num c) v (revoke_num c).
Definition set_revoke_num (v : Z) (c : ln_commit_data_t) : ln_commit_data_t :=
  mk_commit (dust_limit_sat c) (max_htlc_value_in_flight_msat c) (channel_reserve_sat c)
    (htlc_minimum_msat c) (to_self_delay c) (max_accepted_htlcs c) (signature c) (txid c)
    (htlc_num c) (commit_num c) v.

(** [ln_self_t]: the fields the operations below read or write. [storage_index],
    [storage_seed] and [priv] are [priv_data], [prev_percommit] is
    [funding_remote.prev_percommit]; [trace] records the calls out of the
    component, the latest last. *)
Record ln_self_t := mk_self {
  peer_node_id : bytes;
  peer_storage : list bucket;
  peer_storage_index : Z;
  storage_index : Z;
  storage_seed : bytes;
  priv : list bytes;
  funding_local : funding_data;
  funding_remote : funding_data;
  prev_percommit : bytes;
  init_flag : Z;
  lfeature_local : Z;
  reest_commit_num : Z;
  reest_revoke_num : Z;
  shutdown_flag : Z;
  htlc_id_num : Z;
  our_msat : Z;
  their_msat : Z;
  channel_id : bytes;
  short_channel_id : Z;
  cnl_add_htlc : list htlc;
  commit_local : ln_commit_data_t;
  commit_remote : ln_commit_data_t;
  feerate_per_kw : Z;
  err : option ln_err;
  trace : list event;
}.

Definition set_peer_node_id (v : bytes) (self : ln_self_t) : ln_self_t :=
  mk_self v (peer_storage self) (peer_storage_index self) (storage_index self)
    (storage_seed self) (priv self) (funding_local self) (funding_remote self)
    (prev_percommit self) (init_flag self) (lfeature_local self) (reest_commit_num self)
    (reest_revoke_num self) (shutdown_flag self) (htlc_id_num self) (our_msat self)
    (their_msat self) (channel_id self) (short_channel_id self) (cnl_add_htlc self)
    (commit_local self) (commit_remote self) (feerate_per_kw self) (err self) (trace self).
Definition set_peer_storage (v : list bucket) (self : ln_self_t) : ln_self_t :=
  mk_self (peer_node_id self) v (peer_storage_index self) (storage_index self)
    (storage_seed self) (priv self) (funding_local self) (funding_remote self)
    (prev_percommit self) (init_flag self) (lfeature_local self) (reest_commit_num self)
    (reest_revoke_num self) (shutdown_flag self) (htlc_id_num self) (our_msat self)
    (their_msat self) (channel_id self) (short_channel_id self) (cnl_add_htlc self)
    (commit_local self) (commit_remote self) (feerate_per_kw self) (err self) (trace self).
Definition set_peer_storage_index (v : Z) (self : ln_self_t) : ln_self_t :=
  mk_self (peer_node_id self) (peer_storage self) v (storage_index self) (storage_seed self)
    (priv self) (funding_local self) (funding_remote self) (prev_percommit self)
    (init_flag self) (lfeature_local self) (reest_commit_num self) (reest_revoke_num self)
    (shutdown_flag self) (htlc_id_num self) (our_msat self) (their_msat self) (channel_id self)
    (short_channel_id self) (cnl_add_htlc self) (commit_local self) (commit_remote self)
    (feerate_per_kw self) (err self) (trace self).
Definition set_storage_index (v : Z) (self : ln_self_t) : ln_self_t :=
  mk_self (peer_node_id self) (peer_storage self) (peer_storage_index self) v
    (storage_seed self) (priv self) (funding_local self) (funding_remote self)
    (prev_percommit self) (init_flag self) (lfeature_local self) (reest_commit_num self)
    (reest_revoke_num self) (shutdown_flag self) (htlc_id_num self) (our_msat self)
    (their_msat self) (channel_id self) (short_channel_id self) (cnl_add_htlc self)
    (commit_local self) (commit_remote self) (feerate_per_kw self) (err self) (trace self).
Definition set_storage_seed (v : bytes) (self : ln_self_t) : ln_self_t :=
  mk_self (peer_node_id self) (peer_storage self) (peer_storage_index self) (storage_index self)
    v (priv self) (funding_local self) (funding_remote self) (prev_percommit self)
    (init_flag self) (lfeature_local self) (reest_commit_num self) (reest_revoke_num self)
    (shutdown_flag self) (htlc_id_num self) (our_msat self) (their_msat self) (channel_id self)
    (short_channel_id self) (cnl_add_htlc self) (commit_local self) (commit_remote self)
    (feerate_per_kw self) (err self) (trace self).
Definition set_priv (v : list bytes) (self : ln_self_t) : ln_self_t :=
  mk_self (peer_node_id self) (peer_storage self) (peer_storage_index self) (storage_index self)
    (storage_seed self) v (funding_local self) (funding_remote self) (prev_percommit self)
    (init_flag self) (lfeature_local self) (reest_commit_num self) (reest_revoke_num self)
    (shutdown_flag self) (htlc_id_num self) (our_msat self) (their_msat self) (channel_id self)
    (short_channel_id self) (cnl_add_htlc self) (commit_local self) (commit_remote self)
    (feerate_per_kw self) (err self) (trace self).
Definition set_funding_local (v : funding_data) (self : ln_self_t) : ln_self_t :=
  mk_self (peer_node_id self) (peer_storage self) (peer_storage_index self) (storage_index self)
    (storage_seed self) (priv self) v (funding_remote self) (prev_percommit self)
    (init_flag self) (lfeature_local self) (reest_commit_num self) (reest_revoke_num self)
    (shutdown_flag self) (htlc_id_num self) (our_msat self) (their_msat self) (channel_id self)
    (short_channel_id self) (cnl_add_htlc self) (commit_local self) (commit_remote self)
    (feerate_per_kw self) (err self) (trace self).
Definition set_funding_remote (v : funding_data) (self : ln_self_t) : ln_self_t :=
  mk_self (peer_node_id self) (peer_storage self) (peer_storage_index self) (storage_index self)
    (storage_seed self) (priv self) (funding_local self) v (prev_percommit self)
    (init_flag self) (lfeature_local self) (reest_commit_num self) (reest_revoke_num self)
    (shutdown_flag self) (htlc_id_num self) (our_msat self) (their_msat self) (channel_id self)
    (short_channel_id self) (cnl_add_htlc self) (commit_local self) (commit_remote self)
    (feerate_per_kw self) (err self) (trace self).
Definition set_prev_percommit (v : bytes) (self : ln_self_t) : ln_self_t :=
  mk_self (peer_node_id self) (peer_storage self) (peer_storage_index self) (storage_index self)
    (storage_seed self) (priv self) (funding_local self) (funding_remote self) v
    (init_flag self) (lfeature_local self) (reest_commit_num self) (reest_revoke_num self)
    (shutdown_flag self) (htlc_id_num self) (our_msat self) (their_msat self) (channel_id self)
    (short_channel_id self) (cnl_add_htlc self) (commit_local self) (commit_remote self)
    (feerate_per_kw self) (err self) (trace self).
Definition set_init_flag (v : Z) (self : ln_self_t) : ln_self_t :=
  mk_self (peer_node_id self) (peer_storage self) (peer_storage_index self) (storage_index self)
    (storage_seed self) (priv self) (funding_local self) (funding_remote self)
    (prev_percommit self) v (lfeature_local self) (reest_commit_num self)
    (reest_revoke_num self) (shutdown_flag self) (htlc_id_num self) (our_msat self)
    (their_msat self) (channel_id self) (short_channel_id self) (cnl_add_htlc self)
    (commit_local self) (commit_remote self) (feerate_per_kw self) (err self) (trace self).
Definition set_lfeature_local (v : Z) (self : ln_self_t) : ln_self_t :=
  mk_self (peer_node_id self) (peer_storage self) (peer_storage_index self) (storage_index self)
    (storage_seed self) (priv self) (funding_local self) (funding_remote self)
    (prev_percommit self) (init_flag self) v (reest_commit_num self) (reest_revoke_num self)
    (shutdown_flag self) (htlc_id_num self) (our_msat self) (their_msat self) (channel_id self)
    (short_channel_id self) (cnl_add_htlc self) (commit_local self) (commit_remote self)
    (feerate_per_kw self) (err self) (trace self).
Definition set_reest_commit_num (v : Z) (self : ln_self_t) : ln_self_t :=
  mk_self (peer_node_id self) (peer_storage self) (peer_storage_index self) (storage_index self)
    (storage_seed self) (priv self) (funding_local self) (funding_remote self)
    (prev_percommit self) (init_flag self) (lfeature_local self) v (reest_revoke_num self)
    (shutdown_flag self) (htlc_id_num self) (our_msat self) (their_msat self) (channel_id self)
    (short_channel_id self) (cnl_add_htlc self) (commit_local self) (commit_remote self)
    (feerate_per_kw self) (err self) (trace self).
Definition set_reest_revoke_num (v : Z) (self : ln_self_t) : ln_self_t :=
  mk_self (peer_node_id self) (peer_storage self) (peer_storage_index self) (storage_index self)
    (storage_seed self) (priv self) (funding_local self) (funding_remote self)
    (prev_percommit self) (init_flag self) (lfeature_local self) (reest_commit_num self) v
    (shutdown_flag self) (htlc_id_num self) (our_msat self) (their_msat self) (channel_id self)
    (short_channel_id self) (cnl_add_htlc self) (commit_local self) (commit_remote self)
    (feerate_per_kw self) (err self) (trace self).
Definition set_shutdown_flag (v : Z) (self : ln_self_t) : ln_self_t :=
  mk_self (peer_node_id self) (peer_storage self) (peer_storage_index self) (storage_index self)
    (storage_seed self) (priv self) (funding_local self) (funding_remote self)
    (prev_percommit self) (init_flag self) (lfeature_local self) (reest_commit_num self)
    (reest_revoke_num self) v (htlc_id_num self) (our_msat self) (their_msat self)
    (channel_id self) (short_channel_id self) (cnl_add_htlc self) (commit_local self)
    (commit_remote self) (feerate_per_kw self) (err self) (trace self).
Definition set_htlc_id_num (v : Z) (self : ln_self_t) : ln_self_t :=
  mk_self (peer_node_id self) (peer_storage self) (peer_storage_index self) (storage_index self)
    (storage_seed self) (priv self) (funding_local self) (funding_remote self)
    (prev_percommit self) (init_flag self) (lfeature_local self) (reest_commit_num self)
    (reest_revoke_num self) (shutdown_flag self) v (our_msat self) (their_msat self)
    (channel_id self) (short_channel_id self) (cnl_add_htlc self) (commit_local self)
    (commit_remote self) (feerate_per_kw self) (err self) (trace self).
Definition set_our_msat (v : Z) (self : ln_self_t) : ln_self_t :=
  mk_self (peer_node_id self) (peer_storage self) (peer_storage_index self) (storage_index self)
    (storage_seed self) (priv self) (funding_local self) (funding_remote self)
    (prev_percommit self) (init_flag self) (lfeature_local self) (reest_commit_num self)
    (reest_revoke_num self) (shutdown_flag self) (htlc_id_num self) v (their_msat self)
    (channel_id self) (short_channel_id self) (cnl_add_htlc self) (commit_local self)
    (commit_remote self) (feerate_per_kw self) (err self) (trace self).
Definition set_their_msat (v : Z) (self : ln_self_t) : ln_self_t :=
  mk_self (peer_node_id self) (peer_storage self) (peer_storage_index self) (storage_index self)
    (storage_seed self) (priv self) (funding_local self) (funding_remote self)
    (prev_percommit self) (init_flag self) (lfeature_local self) (reest_commit_num self)
    (reest_revoke_num self) (shutdown_flag self) (htlc_id_num self) (our_msat self) v
    (channel_id self) (short_channel_id self) (cnl_add_htlc self) (commit_local self)
    (commit_remote self) (feerate_per_kw self) (err self) (trace self).
Definition set_channel_id (v : bytes) (self : ln_self_t) : ln_self_t :=
  mk_self (peer_node_id self) (peer_storage self) (peer_storage_index self) (storage_index self)
    (storage_seed self) (priv self) (funding_local self) (funding_remote self)
    (prev_percommit self) (init_flag self) (lfeature_local self) (reest_commit_num self)
    (reest_revoke_num self) (shutdown_flag self) (htlc_id_num self) (our_msat self)
    (their_msat self) v (short_channel_id self) (cnl_add_htlc self) (commit_local self)
    (commit_remote self) (feerate_per_kw self) (err self) (trace self).
Definition set_short_channel_id (v : Z) (self : ln_self_t) : ln_self_t :=
  mk_self (peer_node_id self) (peer_storage self) (peer_storage_index self) (storage_index self)
    (storage_seed self) (priv self) (funding_local self) (funding_remote self)
    (prev_percommit self) (init_flag self) (lfeature_local self) (reest_commit_num self)
    (reest_revoke_num self) (shutdown_flag self) (htlc_id_num self) (our_msat self)
    (their_msat self) (channel_id self) v (cnl_add_htlc self) (commit_local self)
    (commit_remote self) (feerate_per_kw self) (err self) (trace self).
Definition set_cnl_add_htlc (v : list htlc) (self : ln_self_t) : ln_self_t :=
  mk_self (peer_node_id self) (peer_storage self) (peer_storage_index self) (storage_index self)
    (storage_seed self) (priv self) (funding_local self) (funding_remote self)
    (prev_percommit self) (init_flag self) (lfeature_local self) (reest_commit_num self)
    (reest_revoke_num self) (shutdown_flag self) (htlc_id_num self) (our_msat self)
    (their_msat self) (channel_id self) (short_channel_id self) v (commit_local self)
    (commit_remote self) (feerate_per_kw self) (err self) (trace self).
Definition set_commit_local (v : ln_commit_data_t) (self : ln_self_t) : ln_self_t :=
  mk_self (peer_node_id self) (peer_storage self) (peer_storage_index self) (storage_index self)
    (storage_seed self) (priv self) (funding_local self) (funding_remote self)
    (prev_percommit self) (init_flag self) (lfeature_local self) (reest_commit_num self)
    (reest_revoke_num self) (shutdown_flag self) (htlc_id_num self) (our_msat self)
    (their_msat self) (channel_id self) (short_channel_id self) (cnl_add_htlc self) v
    (commit_remote self) (feerate_per_kw self) (err self) (trace self).
Definition set_commit_remote (v : ln_commit_data_t) (self : ln_self_t) : ln_self_t :=
  mk_self (peer_node_id self) (peer_storage self) (peer_storage_index self) (storage_index self)
    (storage_seed self) (priv self) (funding_local self) (funding_remote self)
    (prev_percommit self) (init_flag self) (lfeature_local self) (reest_commit_num self)
    (reest_revoke_num self) (shutdown_flag self) (htlc_id_num self) (our_msat self)
    (their_msat self) (channel_id self) (short_channel_id self) (cnl_add_htlc self)
    (commit_local self) v (feerate_per_kw self) (err self) (trace self).
Definition set_feerate_per_kw (v : Z) (self : ln_self_t) : ln_self_t :=
  mk_self (peer_node_id self) (peer_storage self) (peer_storage_index self) (storage_index self)
    (storage_seed self) (priv self) (funding_local self) (funding_remote self)
    (prev_percommit self) (init_flag self) (lfeature_local self) (reest_commit_num self)
    (reest_revoke_num self) (shutdown_flag self) (htlc_id_num self) (our_msat self)
    (their_msat self) (channel_id self) (short_channel_id self) (cnl_add_htlc self)
    (commit_local self) (commit_remote self) v (err self) (trace self).
Definition set_err (v : option ln_err) (self : ln_self_t) : ln_self_t :=
  mk_self (peer_node_id self) (peer_storage self) (peer_storage_index self) (storage_index self)
    (storage_seed self) (priv self) (funding_local self) (funding_remote self)
    (prev_percommit self) (init_flag self) (lfeature_local self) (reest_commit_num self)
    (reest_revoke_num self) (shutdown_flag self) (htlc_id_num self) (our_msat self)
    (their_msat self) (channel_id self) (short_channel_id self) (cnl_add_htlc self)
    (commit_local self) (commit_remote self) (feerate_per_kw self) v (trace self).
Definition set_trace (v : list event) (self : ln_self_t) : ln_self_t :=
  mk_self (peer_node_id self) (peer_storage self) (peer_storage_index self) (storage_index self)
    (storage_seed self) (priv self) (funding_local self) (funding_remote self)
    (prev_percommit self) (init_flag self) (lfeature_local self) (reest_commit_num self)
    (reest_revoke_num self) (shutdown_flag self) (htlc_id_num self) (our_msat self)
    (their_msat self) (channel_id self) (short_channel_id self) (cnl_add_htlc self)
    (commit_local self) (commit_remote self) (feerate_per_kw self) (err self) v.

(** ** What other components provide *)

(** What building and checking a commitment transaction leaves behind: the
    result and the values of the fields it writes. [create_to_local] writes
    [commit_local.txid], [commit_local.htlc_num] and the HTLCs' [signature]s;
    [create_to_remote] writes [signature], [txid] and [htlc_num] of the commitment
    data it is given and allocates the HTLC signatures. *)
Record local_tx := mk_local_tx {
  lt_ret : bool;
  lt_txid : bytes;
  lt_htlc_num : Z;
  lt_signatures : list bytes;
}.

Record remote_tx := mk_remote_tx {
  rt_ret : bool;
  rt_signature : bytes;
  rt_txid : bytes;
  rt_htlc_num : Z;
  rt_htlc_sigs : option (list cell);
}.

Class Env := {
  (* [btc_util_sha256], [btc_util_ecp_*] and the curve are mbedtls *)
  btc_util_sha256 : bytes → bytes;
  curve :: Curve;
  alloc :: Alloc;
  (* the node's configuration *)
  ln_debug_get : Z;
  gGenesisChainHash : bytes;
  ln_node_getid : bytes;
  (* the announcement database: short_channel_id and direction *)
  ln_db_annocnlupd_load : Z → Z → option bytes;
  (* the commitment transactions: HTLC signatures, their number, commitment
     number, to_self_delay and dust limit *)
  create_to_local : ln_self_t → option (list cell) → Z → Z → Z → Z → local_tx;
  create_to_remote : ln_self_t → ln_commit_data_t → Z → remote_tx;
  (* HMAC-SHA256 and ChaCha20 of the onion are mbedtls *)
  mbedtls_md_hmac : bytes → bytes → bytes;
  chacha20_stream : bytes → nat → bytes;
}.

(** The primitives of the onion packets. It is passed on by name, so that the
    curve of the node is found one way only. *)
Definition env_onion {E : Env} : Onion := {|
  onion_curve := curve;
  onion_alloc := alloc;
  onion_sha256 := btc_util_sha256;
  LnOnion.mbedtls_md_hmac := mbedtls_md_hmac;
  LnOnion.chacha20_stream := chacha20_stream;
  onion_debug_get := ln_debug_get;
|}.

(** ** Steps on a channel *)

Abbreviation M := (prog ln_self_t).

Definition emit (e : event) : M unit := modify (λ self, set_trace (trace self ++ [e]) self).

(** [M_SET_ERR]; the formatted text is left out. *)
Definition M_SET_ERR (e : ln_err) : M unit := modify (set_err (Some e)).

(** [M_SEND_ERR]. *)
Definition M_SEND_ERR (e : ln_err) : M unit := M_SET_ERR e;; emit (SEND_ERR e).

(** [if (c) { M_SET_ERR(e); return false; }] *)
Definition fail_if (c : bool) (e : ln_err) : M unit :=
  if c then M_SET_ERR e;; exit_with false else mret tt.

(** Call a message encoder on an empty buffer: its result and the buffer. *)
Definition encode {S} (m : prog utl_push_t bool) : prog S (bool * utl_buf_t) :=
  r ← on_local m (mk_push 0 (mk_buf None 0)); mret (r.1, data r.2).

(** [self->cnl_add_htlc[idx]]: reading it, changing it, changing all of them. *)
Definition get_htlc (idx : nat) : M htlc :=
  hs ← gets cnl_add_htlc; of_option (hs !! idx).
Definition mod_htlc (idx : nat) (f : htlc → htlc) : M unit :=
  modify (λ self, set_cnl_add_htlc (alter f idx (cnl_add_htlc self)) self).
Definition map_htlc (f : htlc → htlc) : M unit :=
  modify (λ self, set_cnl_add_htlc (map f (cnl_add_htlc self)) self).

(** The first index of the array whose HTLC satisfies [p]: the loops that end
    in [break]. *)
Fixpoint find_htlc (p : htlc → bool) (idx : nat) (hs : list htlc) : option nat :=
  match hs with
  | [] => None
  | h :: hs => if p h then Some idx else find_htlc p (S idx) hs
  end.

Abbreviation all_htlcs := (seq 0 LN_HTLC_MAX).

(** ** Running steps on a slot *)

Lemma alter_middle {X} (f : X → X) pre h post :
  alter f (length pre) (pre ++ h :: post) = pre ++ f h :: post.
Proof. induction pre as [|a pre IH]; [done|]. cbn. by f_equal. Qed.

Lemma get_htlc_step {B} pre h post (K : htlc → M B) self :
  cnl_add_htlc self = pre ++ h :: post → (get_htlc (length pre) ≫= K) self = K h self.
Proof.
  intros Hs. apply bind_ret. unfold get_htlc, gets, mbind, prog_bind. rewrite Hs.
  by rewrite list_lookup_middle.
Qed.

Lemma mod_htlc_step {B} pre h post f (K : unit → M B) self :
  cnl_add_htlc self = pre ++ h :: post →
  (mod_htlc (length pre) f ≫= K) self = K tt (set_cnl_add_htlc (pre ++ f h :: post) self).
Proof. intros Hs. apply bind_ret. unfold mod_htlc, modify. by rewrite Hs, alter_middle. Qed.

Lemma emit_step {B} e (K : unit → M B) self :
  (emit e ≫= K) self = K tt (set_trace (trace self ++ [e]) self).
Proof. done. Qed.

Lemma map_htlc_step {B} f (K : unit → M B) self :
  (map_htlc f ≫= K) self = K tt (set_cnl_add_htlc (map f (cnl_add_htlc self)) self).
Proof. done. Qed.

(** ** Running calls on other objects *)

(** A packet that is a message is decoded to it. *)
Lemma read_step {S T B} ext upd wf wire create read
    {C : MsgCodec (M := T) ext upd wf wire create read} m rest (t : T) (K : bool * T → prog S B) s :
  wf m → ext m rest → packet (wire m ++ rest) →
  (on_local (read (wire m ++ rest) (Z.of_nat (length (wire m ++ rest)))) t ≫= K) s =
  K (true, upd t m) s.
Proof. intros Hm He Hp. apply on_local_step. by apply (msg_read t m rest). Qed.

(** A message is encoded to its layout. *)
Lemma encode_step {S T B} ext upd wf wire create read
    {C : MsgCodec (M := T) ext upd wf wire create read} m (K : bool * utl_buf_t → prog S B) s :
  wf m → (encode (create m) ≫= K) s = K (true, of_bytes (wire m)) s.
Proof.
  intros Hm. unfold encode. rewrite bind_assoc. erewrite on_local_step by (by apply msg_create).
  by rewrite bind_mret.
Qed.

Lemma fail_if_false {B} e (K : unit → M B) self : (fail_if false e ≫= K) self = K tt self.
Proof. done. Qed.

(** What the code relies on of its environment: allocation succeeds, a SHA256
    has 32 bytes, a compressed public key 33. *)
Class EnvLaws (E : Env) : Prop := {
  env_alloc :: AllocTotal alloc;
  sha256_size x : is_bytes (btc_util_sha256 x) ∧ length (btc_util_sha256 x) = 32%nat;
  pt_write_size p : is_bytes (pt_write p) ∧ length (pt_write p) = 33%nat;
}.

End LnSelf.
