(* ===== verification/LnNormal.v ===== *)
(** Normal operation of a channel: the handlers of [ln/ln.c] that add, settle
    and commit HTLCs, and the work done between messages.

    Each definition is one function of the C file, with the same guards in the
    same order. A handler is a [prog ln_self_t bool]; what it sends, stores or
    reports is appended to [trace]. *)
From stdpp Require Import base list numbers tactics.
From Stdlib Require Import ZArith Lia.
From S2P Require Import Prelude CProg UtlInt UtlBuf UtlPush LnDerkey LnMisc LnOnion LnMsg.
From S2P Require Import LnMsgNormal LnMsgEstablish LnMsgAnno LnHtlc LnSelf.
Import UtlInt UtlBuf UtlPush ShaChain Derkey LnMisc LnMsg LnMsgNormal LnMsgEstablish LnMsgAnno.
Import LnHtlc LnSelf.
Open Scope Z_scope.

Module LnNormal.

Abbreviation UTL_BUF_INIT := (mk_buf None 0).
Abbreviation M_INIT_FLAG_SEND := 0x01.
Abbreviation M_INIT_FLAG_RECV := 0x02.
Abbreviation LN_SHDN_FLAG_RECV := 0x02.
Abbreviation LN_INIT_LF_OPT_DATALOSS := (Z.shiftl 1 1).
Abbreviation LN_CNLUPD_FLAGS_DISABLE := 0x0002.
Abbreviation LN_SECINDEX_INIT := 0xffffffffffff.
Abbreviation LN_FEE_COMMIT_BASE := 724.
Abbreviation BTC_TX_LOCKTIME_LIMIT := 500000000.
Abbreviation LN_HTLCFLAG_MASK_FINDELHTLC := 0x0600.
Abbreviation LN_SZ_PREIMAGE := 32.

Definition M_INIT_FLAG_EXCHNAGED (flag : Z) : bool :=
  Z.land flag (Z.lor M_INIT_FLAG_SEND M_INIT_FLAG_RECV) =?
  Z.lor M_INIT_FLAG_SEND M_INIT_FLAG_RECV.

(** [memcmp(recv_id, mine_id, LN_SZ_CHANNEL_ID) == 0] *)
Definition chk_channelid (recv_id mine_id : bytes) : bool := bool_decide (recv_id = mine_id).

(** The slot [clear_htlc] leaves: every byte zero. *)
Definition no_htlc : htlc :=
  UpdateAddHtlc.mk [] 0 0 0 (replicate 32 0) UTL_BUF_INIT UTL_BUF_INIT 0 0 0
    (replicate 64 0) 0 0 UTL_BUF_INIT.

Section normal.
Context {E : Env}.

Definition LN_DBG_FULFILL : bool := Z.land ln_debug_get 0x01 =? 0.

(** ** Keys *)

(** The per-commitment secret of an index, and its point. *)
Definition create_percommitsec (self : ln_self_t) (Index : Z) : bytes * option bytes :=
  let pSecret := ln_derkey_create_secret btc_util_sha256 (storage_seed self) Index in
  (pSecret, btc_keys_priv2pub pSecret).

Definition set_percommit (k : bytes) (x : funding_data) : funding_data :=
  mk_funding (<[MSG_FUNDIDX_PER_COMMIT := k]> (pubkeys x)) (scriptpubkeys x).

Definition ln_signer_keys_update_force (Index : Z) : M unit :=
  self ← get_st;
  let '(sec, pub) := create_percommitsec self Index in
  pub ← of_option pub;
  modify (λ self, set_priv (<[MSG_FUNDIDX_PER_COMMIT := sec]> (priv self)) self);;
  modify (λ self, set_funding_local (set_percommit pub (funding_local self)) self).

Definition ln_signer_keys_update_storage : M unit :=
  self ← get_st;
  ln_signer_keys_update_force (storage_index self);;
  modify (λ self, set_storage_index (u64 (storage_index self - 1)) self).

(** The previous per-commitment secret and its point ([pPerCommitPt]). *)
Definition ln_signer_create_prev_percommitsec (self : ln_self_t) : bytes * option bytes :=
  if u64 (storage_index self + 2) <=? LN_SECINDEX_INIT
  then create_percommitsec self (u64 (storage_index self + 2))
  else (replicate 32 0, Some (fund_key (funding_local self) MSG_FUNDIDX_PER_COMMIT)).

Definition update_scriptkeys : M unit :=
  modify (λ self,
    let '(l, r) := ln_misc_update_scriptkeys btc_util_sha256 (funding_local self)
                     (funding_remote self) in
    set_funding_remote r (set_funding_local l self)).

(** [store_peer_percommit_secret] *)
Definition store_peer_percommit_secret (p_prev_secret : bytes) : M bool :=
  self ← get_st;
  r ← on_local (ln_derkey_storage_insert_secret btc_util_sha256 p_prev_secret
                  (peer_storage_index self)) (peer_storage self);
  let '(ret, st) := r in
  modify (set_peer_storage st);;
  (if (ret : bool)
   then modify (λ self, set_peer_storage_index (u64 (peer_storage_index self - 1)) self)
   else c_assert false);;
  mret ret.

(** ** Slots *)

Definition clear_htlc (idx : nat) : M unit :=
  p_htlc ← get_htlc idx;
  emit (DB_PREIMG_DEL (buf (UpdateAddHtlc.buf_payment_preimage p_htlc)));;
  mod_htlc idx (λ _, no_htlc).

(** ** Messages that change an HTLC *)

Definition add_htlc_create (Idx : nat) : M utl_buf_t :=
  p_htlc ← get_htlc Idx;
  r ← encode (UpdateAddHtlc.ln_msg_update_add_htlc_create p_htlc);
  let '(ret, pAdd) := r in
  if (ret : bool)
  then mod_htlc Idx (set_updsend 1);; mret pAdd
  else M_SEND_ERR LNERR_ERROR;; mret (utl_buf_free pAdd).

Definition fulfill_htlc_create (Idx : nat) : M utl_buf_t :=
  self ← get_st;
  p_htlc ← get_htlc Idx;
  preimage ← of_option (read_cells (buf (UpdateAddHtlc.buf_payment_preimage p_htlc)) LN_SZ_PREIMAGE);
  r ← encode (UpdateFulfillHtlc.ln_msg_update_fulfill_htlc_create
                (UpdateFulfillHtlc.mk (channel_id self) (UpdateAddHtlc.id p_htlc) preimage));
  let '(ret, pFulfill) := r in
  if (ret : bool)
  then mod_htlc Idx (set_updsend 1);; mret pFulfill
  else M_SEND_ERR LNERR_ERROR;; mret (utl_buf_free pFulfill).

Definition fail_htlc_create (Idx : nat) : M utl_buf_t :=
  self ← get_st;
  p_htlc ← get_htlc Idx;
  r ← encode (UpdateFailHtlc.ln_msg_update_fail_htlc_create
                (UpdateFailHtlc.mk (channel_id self) (UpdateAddHtlc.id p_htlc)
                   (UpdateAddHtlc.buf_onion_reason p_htlc)));
  let '(ret, pFail) := r in
  if (ret : bool)
  then mod_htlc Idx (set_updsend 1);; mret pFail
  else M_SEND_ERR LNERR_ERROR;; mret (utl_buf_free pFail).

Definition fail_malformed_htlc_create (Idx : nat) : M utl_buf_t :=
  self ← get_st;
  p_htlc ← get_htlc Idx;
  reason ← of_option (read_cells (buf (UpdateAddHtlc.buf_onion_reason p_htlc)) (2 + BTC_SZ_HASH256));
  failure_code ← of_option (utl_misc_be16 reason);
  r ← encode (UpdateFailMalformedHtlc.ln_msg_update_fail_malformed_htlc_create
                (UpdateFailMalformedHtlc.mk (channel_id self) (UpdateAddHtlc.id p_htlc)
                   (drop 2 reason) failure_code));
  let '(ret, pFail) := r in
  if (ret : bool)
  then mod_htlc Idx (set_updsend 1);; mret pFail
  else M_SEND_ERR LNERR_ERROR;; mret (utl_buf_free pFail).

(** ** Commitment transactions *)

(** What [create_to_local] writes to the channel. *)
Definition store_local_tx (x : local_tx) (self : ln_self_t) : ln_self_t :=
  set_commit_local (set_txid (lt_txid x) (set_htlc_num (lt_htlc_num x) (commit_local self)))
    (set_cnl_add_htlc
       (imap (λ i h, UpdateAddHtlc.set_signature
                       (default (UpdateAddHtlc.signature h) (lt_signatures x !! i)) h)
          (cnl_add_htlc self)) self).

(** What [create_to_remote] writes to [self->commit_remote]. *)
Definition store_remote_tx (x : remote_tx) (self : ln_self_t) : ln_self_t :=
  set_commit_remote
    (set_signature (rt_signature x)
       (set_txid (rt_txid x) (set_htlc_num (rt_htlc_num x) (commit_remote self)))) self.

(** The result and [pCommSig]. *)
Definition create_commitment_signed : M (bool * utl_buf_t) :=
  self ← get_st;
  if negb (M_INIT_FLAG_EXCHNAGED (init_flag self))
  then M_SET_ERR LNERR_INV_STATE;; mret (false, UTL_BUF_INIT)
  else
    let tx := create_to_remote self (commit_remote self) (u64 (commit_num (commit_remote self) + 1)) in
    modify (store_remote_tx tx);;
    if negb (rt_ret tx)
    then M_SET_ERR LNERR_MSG_ERROR;; mret (false, UTL_BUF_INIT)
    else
      modify (λ self, set_commit_remote
        (set_commit_num (u64 (commit_num (commit_remote self) + 1)) (commit_remote self)) self);;
      self ← get_st;
      encode (CommitSigned.ln_msg_commit_signed_create
        (CommitSigned.mk (channel_id self) (signature (commit_remote self))
           (htlc_num (commit_remote self)) (rt_htlc_sigs tx))).

(** ** Between messages *)

(** One round of [recv_idle_proc_final]; the flags are [db_upd] and [revack]. *)
Definition idle_final_slot (idx : nat) (flags : bool * bool) : M (bool * bool) :=
  let '(db_upd, revack) := flags in
  p_htlc ← get_htlc idx;
  if LN_HTLC_ENABLE p_htlc then
    if LN_HTLC_ENABLE_LOCAL_ADDHTLC_OFFER p_htlc then mret (db_upd, revack)
    else if LN_HTLC_ENABLE_LOCAL_ADDHTLC_RECV p_htlc then
      if LN_DBG_FULFILL then
        db_upd ← (if negb (UpdateAddHtlc.next_short_channel_id p_htlc =? 0)
                  then emit (LN_CB_FWD_ADDHTLC_START (UpdateAddHtlc.next_short_channel_id p_htlc)
                               (UpdateAddHtlc.next_idx p_htlc));;
                       mod_htlc idx (UpdateAddHtlc.set_next_short_channel_id 0);;
                       mret true
                  else mret db_upd);
        db_upd ← (if negb (fin_delhtlc p_htlc =? LN_DELHTLC_NONE)
                  then emit (LN_CB_BWD_DELHTLC_START (fin_delhtlc p_htlc));;
                       mod_htlc idx (λ h, clear_htlc_comrevflag h (fin_delhtlc p_htlc));;
                       mret true
                  else mret db_upd);
        mret (db_upd, revack)
      else mret (db_upd, revack)
    else
      (if addhtlc p_htlc =? LN_ADDHTLC_OFFER then
         (if delhtlc p_htlc =? LN_DELHTLC_FULFILL
          then modify (λ self, set_our_msat (u64 (our_msat self - amount_msat p_htlc)) self);;
               modify (λ self, set_their_msat (u64 (their_msat self + amount_msat p_htlc)) self)
          else mret tt);;
         (if (UpdateAddHtlc.prev_short_channel_id p_htlc =? 0) &&
             negb (delhtlc p_htlc =? LN_DELHTLC_FULFILL)
          then emit (LN_CB_PAYMENT_RETRY (UpdateAddHtlc.payment_sha256 p_htlc))
          else mret tt)
       else if addhtlc p_htlc =? LN_ADDHTLC_RECV then
         (if delhtlc p_htlc =? LN_DELHTLC_FULFILL
          then modify (λ self, set_our_msat (u64 (our_msat self + amount_msat p_htlc)) self);;
               modify (λ self, set_their_msat (u64 (their_msat self - amount_msat p_htlc)) self)
          else mret tt)
       else mret tt);;
      clear_htlc idx;;
      mret (true, true)
  else mret (db_upd, revack).

Definition recv_idle_proc_final : M unit :=
  flags ← for_idx all_htlcs idle_final_slot (false, false);
  let '(db_upd, revack) := flags in
  if (db_upd : bool)
  then emit DB_SELF_SAVE;;
       if (revack : bool) then emit LN_CB_REV_AND_ACK_EXCG else mret tt
  else mret tt.

(** One round of the first loop over messages of [recv_idle_proc_nonfinal]; the
    flag is [b_comsig]. *)
Definition idle_nonfinal_slot (idx : nat) (b_comsig : bool) : M bool :=
  p_htlc ← get_htlc idx;
  if LN_HTLC_ENABLE p_htlc then
    x ← (if LN_HTLC_WILL_ADDHTLC p_htlc then
           buf_bolt ← add_htlc_create idx; mret (buf_bolt, b_comsig)
         else if LN_HTLC_WILL_DELHTLC p_htlc then
           if negb LN_DBG_FULFILL then mret (UTL_BUF_INIT, b_comsig)
           else if delhtlc p_htlc =? LN_DELHTLC_FULFILL then
             buf_bolt ← fulfill_htlc_create idx; mret (buf_bolt, b_comsig)
           else if delhtlc p_htlc =? LN_DELHTLC_FAIL then
             buf_bolt ← fail_htlc_create idx; mret (buf_bolt, b_comsig)
           else if delhtlc p_htlc =? LN_DELHTLC_MALFORMED then
             buf_bolt ← fail_malformed_htlc_create idx; mret (buf_bolt, b_comsig)
           else mret (UTL_BUF_INIT, b_comsig)
         else if LN_HTLC_WILL_COMSIG_OFFER p_htlc || LN_HTLC_WILL_COMSIG_RECV p_htlc then
           mret (UTL_BUF_INIT, true)
         else mret (UTL_BUF_INIT, b_comsig));
    let '(buf_bolt, b_comsig) := x in
    (if 0 <? len buf_bolt
     then emit (LN_CB_SEND_REQ buf_bolt);; mod_htlc idx (set_updsend 1)
     else mret tt);;
    mret b_comsig
  else mret b_comsig.

Definition recv_idle_proc_nonfinal : M unit :=
  self ← get_st;
  let b_comsiging := negb (forallb exchange_closed (cnl_add_htlc self)) in
  b_comsig ← (if negb b_comsiging then for_idx all_htlcs idle_nonfinal_slot false
              else mret false);
  if (b_comsig : bool) then
    r ← create_commitment_signed;
    let '(ret, buf_bolt) := r in
    if (ret : bool)
    then emit (LN_CB_SEND_REQ buf_bolt);;
         map_htlc (λ h, if in_remote h then set_comsend 1 h else h);;
         emit DB_SELF_SAVE
    else emit LN_CB_QUIT
  else mret tt.

(** The loop of [ln_recv_idle_proc]: [htlc_num] and [b_final]. *)
Fixpoint idle_scan (hs : list htlc) (htlc_num : nat) : nat * bool :=
  match hs with
  | [] => (htlc_num, true)
  | h :: hs =>
      if LN_HTLC_ENABLE h then
        let htlc_num := S htlc_num in
        if negb (committed h) then (htlc_num, false) else idle_scan hs htlc_num
      else idle_scan hs htlc_num
  end.

Definition ln_recv_idle_proc : M unit :=
  self ← get_st;
  let '(htlc_num, b_final) := idle_scan (cnl_add_htlc self) 0 in
  if Nat.eqb htlc_num 0 then mret tt
  else if (b_final : bool) then recv_idle_proc_final else recv_idle_proc_nonfinal.

End normal.

End LnNormal.
