(* ===== verification/LnRecv.v ===== *)
(** The messages of normal operation a channel receives ([recv_*] of
    [ln/ln.c]), the requests of the application ([ln_add_htlc_set] and the
    like), and the checks both make. *)
From stdpp Require Import base list numbers tactics.
From Stdlib Require Import ZArith Lia.
From S2P Require Import Prelude CProg UtlInt UtlBuf UtlPush LnDerkey LnMisc LnOnion LnMsg.
From S2P Require Import LnMsgNormal LnMsgEstablish LnMsgAnno LnHtlc LnSelf LnNormal.
Import UtlInt UtlBuf UtlPush ShaChain Derkey LnMisc LnMsg LnMsgNormal LnMsgEstablish LnMsgAnno.
Import LnHtlc LnSelf LnNormal.
Open Scope Z_scope.

Module LnRecv.

Section recv.
Context {E : Env}.

(** A local array before anything is stored in it: no handler reads it then. *)
Definition uninit : bytes := [].

(** ** update_fulfill_htlc, update_fail_htlc, update_fail_malformed_htlc *)

Definition recv_update_fulfill_htlc (pData : bytes) (Len : Z) : M bool :=
  r ← on_local (UpdateFulfillHtlc.ln_msg_update_fulfill_htlc_read pData Len)
        (UpdateFulfillHtlc.mk uninit 0 uninit);
  let '(ret, fulfill_htlc) := r in
  fail_if (negb ret) LNERR_MSG_READ;;
  self ← get_st;
  fail_if (negb (chk_channelid (UpdateFulfillHtlc.p_channel_id fulfill_htlc) (channel_id self)))
    LNERR_INV_CHANNEL;;
  let preimage := UpdateFulfillHtlc.p_payment_preimage fulfill_htlc in
  let sha256 := btc_util_sha256 preimage in
  p_htlc ←
    (match find_htlc (λ h, (UpdateAddHtlc.id h =? UpdateFulfillHtlc.id fulfill_htlc) &&
                           (addhtlc h =? LN_ADDHTLC_OFFER)) 0 (cnl_add_htlc self) with
     | Some idx =>
         h ← get_htlc idx;
         mret (if bool_decide (sha256 = UpdateAddHtlc.payment_sha256 h) then Some idx else None)
     | None => mret None
     end);
  (match p_htlc with
   | Some idx =>
       mod_htlc idx (λ h, clear_htlc_comrevflag h LN_DELHTLC_FULFILL);;
       h ← get_htlc idx;
       emit (LN_CB_FULFILL_HTLC_RECV (UpdateAddHtlc.prev_short_channel_id h)
               (UpdateAddHtlc.prev_idx h) preimage (UpdateAddHtlc.id h) (amount_msat h))
   | None => M_SET_ERR LNERR_INV_ID
   end);;
  mret ret.

Definition recv_update_fail_htlc (pData : bytes) (Len : Z) : M bool :=
  r ← on_local (UpdateFailHtlc.ln_msg_update_fail_htlc_read pData Len)
        (UpdateFailHtlc.mk uninit 0 UTL_BUF_INIT);
  let '(ret, fail_htlc) := r in
  fail_if (negb ret) LNERR_MSG_READ;;
  self ← get_st;
  fail_if (negb (chk_channelid (UpdateFailHtlc.p_channel_id fail_htlc) (channel_id self)))
    LNERR_INV_CHANNEL;;
  match find_htlc (λ h, (addhtlc h =? LN_ADDHTLC_OFFER) &&
                        (UpdateAddHtlc.id h =? UpdateFailHtlc.id fail_htlc)) 0 (cnl_add_htlc self) with
  | Some idx =>
      mod_htlc idx (λ h, clear_htlc_comrevflag h LN_DELHTLC_FAIL);;
      h ← get_htlc idx;
      emit (LN_CB_FAIL_HTLC_RECV (UpdateAddHtlc.prev_short_channel_id h)
              (UpdateFailHtlc.p_reason fail_htlc) (UpdateAddHtlc.buf_shared_secret h)
              (Z.of_nat idx) (UpdateAddHtlc.id h) (UpdateAddHtlc.payment_sha256 h) 0);;
      mret true
  | None => mret false
  end.

Definition recv_update_fail_malformed_htlc (pData : bytes) (Len : Z) : M bool :=
  r ← on_local (UpdateFailMalformedHtlc.ln_msg_update_fail_malformed_htlc_read pData Len)
        (UpdateFailMalformedHtlc.mk uninit 0 uninit 0);
  let '(ret, mal_htlc) := r in
  fail_if (negb ret) LNERR_MSG_READ;;
  self ← get_st;
  fail_if (negb (chk_channelid (UpdateFailMalformedHtlc.p_channel_id mal_htlc) (channel_id self)))
    LNERR_INV_CHANNEL;;
  fail_if (Z.land (UpdateFailMalformedHtlc.failure_code mal_htlc) LNERR_ONION_BADONION =? 0)
    LNERR_INV_CHANNEL;;
  match find_htlc (λ h, (addhtlc h =? LN_ADDHTLC_OFFER) &&
                        (UpdateAddHtlc.id h =? UpdateFailMalformedHtlc.id mal_htlc))
          0 (cnl_add_htlc self) with
  | Some idx =>
      mod_htlc idx (λ h, clear_htlc_comrevflag h LN_DELHTLC_MALFORMED);;
      h ← get_htlc idx;
      reason ← encode (call (utl_push_init (2 + BTC_SZ_HASH256));;
                       ln_misc_push16be (UpdateFailMalformedHtlc.failure_code mal_htlc);;
                       push_bytes (UpdateFailMalformedHtlc.sha256_onion mal_htlc) BTC_SZ_HASH256;;
                       mret true);
      emit (LN_CB_FAIL_HTLC_RECV (UpdateAddHtlc.prev_short_channel_id h)
              reason.2 (UpdateAddHtlc.buf_shared_secret h)
              (Z.of_nat idx) (UpdateAddHtlc.id h) (UpdateAddHtlc.payment_sha256 h)
              (UpdateFailMalformedHtlc.failure_code mal_htlc));;
      mret true
  | None => mret ret
  end.

(** ** commitment_signed *)

(** Up to [LABEL_EXIT]; [Exit] is [goto LABEL_EXIT]. *)
Definition commitment_signed_body (pData : bytes) (Len : Z) : M bool :=
  self ← get_st;
  r ← on_local (CommitSigned.ln_msg_commit_signed_read pData Len)
        (CommitSigned.mk uninit (signature (commit_local self)) 0 None);
  let '(ret, commsig) := r in
  modify (λ self, set_commit_local
    (set_signature (CommitSigned.p_signature commsig) (commit_local self)) self);;
  fail_if (negb ret) LNERR_MSG_READ;;
  fail_if (negb (chk_channelid (CommitSigned.p_channel_id commsig) (channel_id self)))
    LNERR_INV_CHANNEL;;
  self ← get_st;
  let tx := create_to_local self (CommitSigned.p_htlc_signature commsig)
              (u8 (CommitSigned.num_htlcs commsig)) (u64 (commit_num (commit_local self) + 1))
              (to_self_delay (commit_remote self)) (dust_limit_sat (commit_local self)) in
  modify (store_local_tx tx);;
  exit_if (negb (lt_ret tx)) false;;
  map_htlc (λ h, if in_local h then set_comrecv 1 h else h);;
  self ← get_st;
  let prev_secret := (ln_signer_create_prev_percommitsec self).1 in
  ln_signer_keys_update_storage;;
  update_scriptkeys;;
  self ← get_st;
  r ← encode (RevokeAndAck.ln_msg_revoke_and_ack_create
        (RevokeAndAck.mk (CommitSigned.p_channel_id commsig) prev_secret
           (fund_key (funding_local self) MSG_FUNDIDX_PER_COMMIT)));
  let '(ret, buf_bolt) := r in
  (if (ret : bool)
   then map_htlc (λ h, if in_local h then set_revsend 1 h else h);;
        emit (LN_CB_SEND_REQ buf_bolt)
   else mret tt);;
  mret ret.

Definition recv_commitment_signed (pData : bytes) (Len : Z) : M bool :=
  self ← get_st;
  let bak_sig := signature (commit_local self) in
  ret ← call (commitment_signed_body pData Len);
  (if (ret : bool)
   then modify (λ self, set_commit_local
          (set_revoke_num (commit_num (commit_local self))
             (set_commit_num (u64 (commit_num (commit_local self) + 1)) (commit_local self))) self);;
        emit DB_SECRET_SAVE;; emit DB_SELF_SAVE
   else modify (λ self, set_commit_local (set_signature bak_sig (commit_local self)) self));;
  mret ret.

(** ** revoke_and_ack *)

Definition recv_revoke_and_ack (pData : bytes) (Len : Z) : M bool :=
  r ← on_local (RevokeAndAck.ln_msg_revoke_and_ack_read pData Len)
        (RevokeAndAck.mk uninit uninit uninit);
  let '(ret, revack) := r in
  fail_if (negb ret) LNERR_MSG_READ;;
  self ← get_st;
  fail_if (negb (chk_channelid (RevokeAndAck.p_channel_id revack) (channel_id self)))
    LNERR_INV_CHANNEL;;
  let prev_secret := RevokeAndAck.p_per_commit_secret revack in
  let new_commitpt := RevokeAndAck.p_per_commitpt revack in
  exit_if (negb (bool_decide (is_Some (btc_keys_priv2pub prev_secret)))) false;;
  ret ← store_peer_percommit_secret prev_secret;
  exit_if (negb ret) false;;
  modify (λ self, set_prev_percommit (fund_key (funding_remote self) MSG_FUNDIDX_PER_COMMIT) self);;
  modify (λ self, set_funding_remote (set_percommit new_commitpt (funding_remote self)) self);;
  update_scriptkeys;;
  map_htlc (λ h, if in_remote h then set_revrecv 1 h else h);;
  modify (λ self, set_commit_remote
    (set_revoke_num (u64 (commit_num (commit_remote self) - 1)) (commit_remote self)) self);;
  emit DB_SELF_SAVE;;
  mret ret.

(** ** update_fee *)

Definition recv_update_fee (pData : bytes) (Len : Z) : M bool :=
  r ← on_local (UpdateFee.ln_msg_update_fee_read pData Len) (UpdateFee.mk uninit 0);
  let '(ret, upfee) := r in
  fail_if (negb ret) LNERR_MSG_READ;;
  self ← get_st;
  fail_if (negb (chk_channelid (UpdateFee.p_channel_id upfee) (channel_id self)))
    LNERR_INV_CHANNEL;;
  let old_fee := feerate_per_kw self in
  modify (set_feerate_per_kw (UpdateFee.feerate_per_kw upfee));;
  emit (LN_CB_UPDATE_FEE_RECV old_fee);;
  mret ret.

(** ** channel_reestablish *)

Definition recv_channel_reestablish (pData : bytes) (Len : Z) : M bool :=
  r ← on_local (ChannelReestablish.ln_msg_channel_reestablish_read pData Len)
        (ChannelReestablish.mk uninit 0 0 false uninit uninit);
  let '(ret, reest) := r in
  fail_if (negb ret) LNERR_MSG_READ;;
  self ← get_st;
  fail_if (negb (chk_channelid (ChannelReestablish.p_channel_id reest) (channel_id self)))
    LNERR_INV_CHANNEL;;
  let next_local := ChannelReestablish.next_local_commitment_number reest in
  let next_remote := ChannelReestablish.next_remote_revocation_number reest in
  modify (set_reest_commit_num next_local);;
  modify (set_reest_revoke_num next_remote);;
  let chk_commit_num :=
    if u64 (commit_num (commit_remote self) + 1) =? next_local then true
    else if commit_num (commit_remote self) =? next_local then true else false in
  let chk_revoke_num :=
    if u64 (revoke_num (commit_local self) + 1) =? next_remote then true
    else if revoke_num (commit_local self) =? next_remote then true else false in
  (if negb (chk_commit_num && chk_revoke_num) &&
      negb (Z.land (lfeature_local self) LN_INIT_LF_OPT_DATALOSS =? 0) &&
      ChannelReestablish.option_data_loss_protect reest
   then if commit_num (commit_local self) <? next_remote
        then let secret := ln_derkey_create_secret btc_util_sha256 (storage_seed self)
                             (u64 (storage_index self + 4)) in
             exit_if (negb (bool_decide
               (secret = ChannelReestablish.your_last_per_commitment_secret reest))) false
        else exit_with false
   else mret tt);;
  emit LN_CB_REESTABLISH_RECV;;
  mret ret.

Definition ln_channel_reestablish_create : M (bool * utl_buf_t) :=
  self ← get_st;
  let msg := ChannelReestablish.mk (channel_id self) (u64 (commit_num (commit_local self) + 1))
               (u64 (revoke_num (commit_remote self) + 1)) false uninit uninit in
  msg ← (if negb (Z.land (lfeature_local self) LN_INIT_LF_OPT_DATALOSS =? 0) then
           last ← (if commit_num (commit_remote self) =? 0 then mret (replicate 32 0)
                   else x ← of_option (ln_derkey_storage_get_secret btc_util_sha256 uninit
                                (peer_storage self)
                                (u64 (LN_SECINDEX_INIT - (commit_num (commit_remote self) - 1))));
                        mret (if negb x.1 then replicate 32 0 else x.2));
           point ← of_option (ln_signer_create_prev_percommitsec self).2;
           mret (ChannelReestablish.set_my_current_per_commitment_point point
                   (ChannelReestablish.set_your_last_per_commitment_secret last
                      (ChannelReestablish.set_option_data_loss_protect true msg)))
         else mret (ChannelReestablish.set_option_data_loss_protect false msg));
  encode (ChannelReestablish.ln_msg_channel_reestablish_create msg).

End recv.

End LnRecv.
