(* ===== verification/LnAddHtlc.v ===== *)
(** Offering and settling HTLCs: the requests of the application
    ([ln_add_htlc_set], [ln_add_htlc_set_fwd], [ln_fulfill_htlc_set],
    [ln_fail_htlc_set] of [ln/ln.c]), the checks of a new HTLC in both
    directions, and what is sent again after a reconnection. *)
From stdpp Require Import base list numbers tactics.
From Stdlib Require Import ZArith Lia.
From S2P Require Import Prelude CProg UtlInt UtlBuf UtlPush LnDerkey LnMisc LnOnion LnMsg.
From S2P Require Import LnMsgNormal LnMsgEstablish LnMsgAnno LnHtlc LnSelf LnNormal.
Import UtlInt UtlBuf UtlPush ShaChain Derkey LnMisc LnMsg LnMsgNormal LnMsgEstablish LnMsgAnno.
Import LnHtlc LnSelf LnNormal.
Open Scope Z_scope.

Module LnAddHtlc.

(** [LN_SATOSHI2MSAT] *)
Definition satoshi2msat (sat : Z) : Z := u64 (sat * 1000).

Section add.
Context {E : Env}.

(** ** Checks *)

(** [ln_closing_signed_initfee] *)
Definition ln_closing_signed_initfee (self : ln_self_t) : Z :=
  u64 (LN_FEE_COMMIT_BASE * feerate_per_kw self) / 1000.

(** The loop that sums the HTLCs we offer. *)
Definition in_flight_msat (hs : list htlc) : Z :=
  foldl (λ n h, if addhtlc h =? LN_ADDHTLC_OFFER then u64 (n + amount_msat h) else n) 0 hs.

(** [sort_nodeid(self, NULL)]: our node id comes first. *)
Fixpoint sort_nodeid_loop (p_nodeid p_peerid : bytes) : bool :=
  match p_nodeid, p_peerid with
  | a :: p_nodeid, b :: p_peerid =>
      if a =? b then sort_nodeid_loop p_nodeid p_peerid else a <? b
  | _, _ => false
  end.

(** [ln_channel_update_get_peer(self, &buf, NULL)] *)
Definition ln_channel_update_get_peer (self : ln_self_t) : option bytes :=
  let dir := if negb (sort_nodeid_loop ln_node_getid (peer_node_id self)) then 0 else 1 in
  ln_db_annocnlupd_load (short_channel_id self) dir.

(** The checks of [check_create_add_htlc] up to [LABEL_EXIT]. *)
Definition create_add_htlc_checks (amount_msat cltv_value : Z) : M bool :=
  self ← get_st;
  let close_fee_msat := satoshi2msat (ln_closing_signed_initfee self) in
  fail_if (BTC_TX_LOCKTIME_LIMIT <=? cltv_value) LNERR_INV_VALUE;;
  fail_if (our_msat self <?
           u64 (amount_msat + satoshi2msat (channel_reserve_sat (commit_remote self)))) LNERR_INV_VALUE;;
  fail_if (our_msat self <? u64 (amount_msat + close_fee_msat)) LNERR_INV_VALUE;;
  fail_if (max_accepted_htlcs (commit_remote self) <=? htlc_num (commit_remote self)) LNERR_INV_VALUE;;
  fail_if ((amount_msat =? 0) || (amount_msat <? htlc_minimum_msat (commit_remote self))) LNERR_INV_VALUE;;
  fail_if (max_htlc_value_in_flight_msat (commit_remote self) <? in_flight_msat (cnl_add_htlc self))
    LNERR_INV_VALUE;;
  fail_if (bool_decide (find_htlc LN_HTLC_EMPTY 0 (cnl_add_htlc self) = None)) LNERR_HTLC_FULL;;
  mret true.

(** The onion reason made of a failure code and a channel_update. *)
Definition reason_of (code : Z) (upd : bytes) : prog utl_push_t bool :=
  call (utl_push_init (2 + 2 + Z.of_nat (length upd)));;
  ln_misc_push16be code;;
  ln_misc_push16be (u16 (Z.of_nat (length upd)));;
  push_bytes upd (Z.of_nat (length upd));;
  mret true.

(** From [LABEL_EXIT] on: what becomes of [*pReason]. *)
Definition create_add_htlc_reason (ret : bool) (pReason : utl_buf_t) : M utl_buf_t :=
  self ← get_st;
  let buf_bolt := ln_channel_update_get_peer self in
  r ← (match buf_bolt with
       | Some d => on_local (CnlUpdate.ln_msg_cnl_update_read gGenesisChainHash d
                               (u16 (Z.of_nat (length d)))) (CnlUpdate.mk 0 0 0 0 0 0 0 0)
       | None => mret (false, CnlUpdate.mk 0 0 0 0 0 0 0 0)
       end);
  let '(retval, upd) := r in
  if ret then
    if (retval : bool) then
      if negb (Z.land (CnlUpdate.flags upd) LN_CNLUPD_FLAGS_DISABLE =? 0)
      then x ← encode (reason_of LNONION_CHAN_DISABLE (default [] buf_bolt)); mret x.2
      else mret pReason
    else mret pReason
  else
    if (retval : bool)
    then x ← encode (reason_of LNONION_TMP_CHAN_FAIL (default [] buf_bolt)); mret x.2
    else x ← encode (call (utl_push_init 2);; ln_misc_push16be LNONION_PERM_CHAN_FAIL;; mret true);
         mret x.2.

(** The result, [*pIdx] and [*pReason] ([None] is [pReason == NULL]). *)
Definition check_create_add_htlc (pReason : option utl_buf_t) (amount_msat cltv_value : Z)
    : M (option nat * option utl_buf_t) :=
  ret ← call (create_add_htlc_checks amount_msat cltv_value);
  hs ← gets cnl_add_htlc;
  let pIdx := if (ret : bool) then find_htlc LN_HTLC_EMPTY 0 hs else None in
  match pReason with
  | Some reason => reason ← create_add_htlc_reason ret reason; mret (pIdx, Some reason)
  | None => mret (pIdx, None)
  end.

Definition check_recv_add_htlc_bolt2 (p_htlc : htlc) : M bool :=
  self ← get_st;
  fail_if (negb (Z.land (shutdown_flag self) LN_SHDN_FLAG_RECV =? 0)) LNERR_INV_STATE;;
  fail_if (amount_msat p_htlc <? htlc_minimum_msat (commit_local self)) LNERR_INV_VALUE;;
  fail_if (their_msat self <? amount_msat p_htlc) LNERR_INV_VALUE;;
  fail_if (max_accepted_htlcs (commit_local self) <? htlc_num (commit_local self)) LNERR_INV_VALUE;;
  fail_if (max_htlc_value_in_flight_msat (commit_local self) <? in_flight_msat (cnl_add_htlc self))
    LNERR_INV_VALUE;;
  fail_if (BTC_TX_LOCKTIME_LIMIT <=? UpdateAddHtlc.cltv_expiry p_htlc) LNERR_INV_VALUE;;
  fail_if (negb (Z.land (amount_msat p_htlc) 0xffffffff00000000 =? 0)) LNERR_INV_VALUE;;
  mret true.

(** ** Offering an HTLC *)

(** The trial commitment transaction with the new HTLC sent. *)
Definition check_create_remote_commit_tx (Idx : nat) : M bool :=
  self ← get_st;
  p_htlc ← get_htlc Idx;
  let bak_flag := bits p_htlc in
  mod_htlc Idx (UpdateAddHtlc.set_stat_bits (Z.lor LN_ADDHTLC_OFFER (Z.shiftl 1 4)));;
  trial ← get_st;
  let ret := rt_ret (create_to_remote trial (commit_remote self) (u64 (commit_num (commit_remote self) + 1))) in
  mod_htlc Idx (UpdateAddHtlc.set_stat_bits bak_flag);;
  (if negb ret then M_SET_ERR LNERR_MSG_ERROR else mret tt);;
  mret ret.

(** [utl_buf_alloccopy(&b, p, n)] *)
Definition alloccopy (b : utl_buf_t) (p : bytes) (n : Z) : M utl_buf_t :=
  x ← of_option (utl_buf_alloccopy b (init_cells p) n); mret x.2.

(** The slot [idx] filled with a new HTLC of id [id]. *)
Definition fill_htlc (idx : nat) (id : Z) (pPacket : bytes) (AmountMsat CltvValue : Z)
    (pPaymentHash : bytes) (PrevShortChannelId PrevIdx : Z) (pSharedSecrets : option bytes)
    : M unit :=
  self ← get_st;
  h ← get_htlc idx;
  onion ← alloccopy (UpdateAddHtlc.buf_onion_reason h) pPacket LN_SZ_ONION_ROUTE;
  let secret := utl_buf_free (UpdateAddHtlc.buf_shared_secret h) in
  secret ← (match pSharedSecrets with
            | Some s => alloccopy secret s (Z.of_nat (length s))
            | None => mret secret
            end);
  mod_htlc idx (λ h,
    UpdateAddHtlc.mk (channel_id self) id AmountMsat CltvValue pPaymentHash
      (UpdateAddHtlc.buf_payment_preimage h) onion (bits h)
      (UpdateAddHtlc.next_short_channel_id h) (UpdateAddHtlc.next_idx h)
      (UpdateAddHtlc.signature h) PrevShortChannelId PrevIdx secret).

(** The result ([*pIdx] and [*pHtlcId] when true) and [*pReason]. *)
Definition set_add_htlc (pReason : option utl_buf_t) (pPacket : bytes)
    (AmountMsat CltvValue : Z) (pPaymentHash : bytes) (PrevShortChannelId PrevIdx : Z)
    (pSharedSecrets : option bytes) : M (option (nat * Z) * option utl_buf_t) :=
  r ← check_create_add_htlc pReason AmountMsat CltvValue;
  let '(pIdx, pReason) := r in
  match pIdx with
  | Some idx =>
      id ← gets htlc_id_num;
      modify (set_htlc_id_num (u64 (id + 1)));;
      fill_htlc idx id pPacket AmountMsat CltvValue pPaymentHash PrevShortChannelId PrevIdx
        pSharedSecrets;;
      ret ← check_create_remote_commit_tx idx;
      if (ret : bool) then mret (Some (idx, id), pReason)
      else M_SET_ERR LNERR_MSG_ERROR;; clear_htlc idx;; mret (None, pReason)
  | None => mret (None, pReason)
  end.

Definition ln_add_htlc_set (pReason : option utl_buf_t) (pPacket : bytes)
    (AmountMsat CltvValue : Z) (pPaymentHash : bytes) (PrevShortChannelId PrevIdx : Z)
    (pSharedSecrets : option bytes) : M (option (nat * Z) * option utl_buf_t) :=
  self ← get_st;
  if negb (shutdown_flag self =? 0) then M_SET_ERR LNERR_INV_STATE;; mret (None, pReason)
  else
    r ← set_add_htlc pReason pPacket AmountMsat CltvValue pPaymentHash PrevShortChannelId
          PrevIdx pSharedSecrets;
    (match r.1 with
     | Some (idx, _) => mod_htlc idx (set_addhtlc LN_ADDHTLC_OFFER)
     | None => mret tt
     end);;
    mret r.

Definition ln_add_htlc_set_fwd (pReason : option utl_buf_t) (pPacket : bytes)
    (AmountMsat CltvValue : Z) (pPaymentHash : bytes) (PrevShortChannelId PrevIdx : Z)
    (pSharedSecrets : option bytes) : M (option (nat * Z) * option utl_buf_t) :=
  self ← get_st;
  if negb (shutdown_flag self =? 0) then M_SET_ERR LNERR_INV_STATE;; mret (None, pReason)
  else set_add_htlc pReason pPacket AmountMsat CltvValue pPaymentHash PrevShortChannelId
         PrevIdx pSharedSecrets.

Definition ln_add_htlc_start_fwd (Idx : nat) : M unit :=
  _ ← get_htlc Idx;
  mod_htlc Idx (set_addhtlc LN_ADDHTLC_OFFER).

(** ** Settling one *)

Definition ln_fulfill_htlc_set (Idx : nat) (pPreImage : bytes) : M bool :=
  if negb LN_DBG_FULFILL then mret true
  else
    p_htlc ← get_htlc Idx;
    mod_htlc Idx (λ h, clear_htlc_comrevflag h LN_DELHTLC_FULFILL);;
    b ← alloccopy (UpdateAddHtlc.buf_payment_preimage p_htlc) pPreImage LN_SZ_PREIMAGE;
    mod_htlc Idx (UpdateAddHtlc.set_buf_payment_preimage b);;
    emit DB_SELF_SAVE;;
    mret true.

Definition ln_fail_htlc_set (Idx : nat) (pReason : utl_buf_t) : M bool :=
  p_htlc ← get_htlc Idx;
  mod_htlc Idx (λ h, clear_htlc_comrevflag h LN_DELHTLC_FAIL);;
  mod_htlc Idx (set_delhtlc LN_DELHTLC_FAIL);;
  b ← of_option (LnOnion.ln_onion_failure_forward (O := env_onion)
                   (UpdateAddHtlc.buf_shared_secret p_htlc) pReason);
  mod_htlc Idx (UpdateAddHtlc.set_buf_onion_reason b);;
  mret true.

(** ** After a reconnection *)

Abbreviation M_HTLCFLAG_BITS_ADDHTLC := (Z.lor (Z.lor LN_ADDHTLC_OFFER (Z.shiftl 1 4)) (Z.shiftl 1 5)).
Abbreviation M_HTLCFLAG_BITS_DEL d :=
  (Z.lor (Z.lor (Z.lor LN_ADDHTLC_RECV (Z.shiftl d 2)) (Z.shiftl 1 4)) (Z.shiftl 1 5)).

(** The loop that sends the last update again; it stops after the first. *)
Fixpoint resend_loop (idxs : list nat) : M unit :=
  match idxs with
  | [] => mret tt
  | idx :: idxs =>
      p_htlc ← get_htlc idx;
      if LN_HTLC_ENABLE p_htlc then
        let b := Z.land (bits p_htlc) (Z.lnot LN_HTLCFLAG_MASK_FINDELHTLC) in
        buf_bolt ←
          (if b =? M_HTLCFLAG_BITS_ADDHTLC then
             self ← get_st;
             mod_htlc idx (UpdateAddHtlc.set_p_channel_id (channel_id self));;
             p_htlc ← get_htlc idx;
             r ← encode (UpdateAddHtlc.ln_msg_update_add_htlc_create p_htlc);
             mret r.2
           else if b =? M_HTLCFLAG_BITS_DEL LN_DELHTLC_FULFILL then fulfill_htlc_create idx
           else if b =? M_HTLCFLAG_BITS_DEL LN_DELHTLC_FAIL then fail_htlc_create idx
           else if b =? M_HTLCFLAG_BITS_DEL LN_DELHTLC_MALFORMED then fail_malformed_htlc_create idx
           else mret UTL_BUF_INIT);
        if 0 <? len buf_bolt then
          mod_htlc idx (set_comsend 0);;
          emit (LN_CB_SEND_REQ buf_bolt);;
          mod_htlc idx (set_updsend 1);;
          modify (λ self, set_commit_remote
            (set_commit_num (u64 (commit_num (commit_remote self) - 1)) (commit_remote self)) self);;
          emit DB_SELF_SAVE
        else resend_loop idxs
      else resend_loop idxs
  end.

Definition ln_channel_reestablish_after : M unit :=
  self ← get_st;
  (if commit_num (commit_remote self) =? reest_commit_num self
   then resend_loop all_htlcs else mret tt);;
  self ← get_st;
  if revoke_num (commit_local self) =? reest_revoke_num self then
    let prev_secret := (ln_signer_create_prev_percommitsec self).1 in
    r ← encode (RevokeAndAck.ln_msg_revoke_and_ack_create
          (RevokeAndAck.mk (channel_id self) prev_secret
             (fund_key (funding_local self) MSG_FUNDIDX_PER_COMMIT)));
    let '(ret, buf_bolt) := r in
    if (ret : bool) then emit (LN_CB_SEND_REQ buf_bolt) else mret tt
  else mret tt.

End add.

End LnAddHtlc.
