(* ===== verification/LnToy.v ===== *)
(** A concrete node: an environment that satisfies the laws the theorems ask
    for, and channels to apply them to. *)
From stdpp Require Import base list numbers tactics.
From Stdlib Require Import ZArith Lia.
From S2P Require Import Prelude CProg UtlBuf UtlPush LnDerkey LnMisc LnMsg.
From S2P Require Import LnMsgNormal LnHtlc LnSelf LnNormal.
Import UtlBuf UtlPush ShaChain Derkey LnMisc LnMsg LnMsgNormal LnHtlc LnSelf LnNormal.
Open Scope Z_scope.

Module LnToy.

(** 32 bytes that depend on the input, a valid private key among them. *)
Definition hash (d : bytes) : bytes :=
  1 :: take 31 (((λ b, u8 (b * 5 + 1)) <$> (drop 2 d ++ take 2 d)) ++ replicate 31 0).

(** The integers modulo [2 ^ 255]. *)
Definition group : Curve := {|
  pt := Z;
  inf := 0;
  gen := 1;
  padd := λ p q, (p + q) mod 2 ^ 255;
  smul := λ a p, (a * p) mod 2 ^ 255;
  order := 2 ^ 255;
  pt_read := λ d, Some (be_val (drop 1 d));
  pt_write := λ p, 2 :: be_bytes 32 p;
|}.

(** Commitment transactions always check out, and have no HTLC output. *)
Definition env : Env := {|
  btc_util_sha256 := hash;
  curve := group;
  alloc := total_alloc;
  ln_debug_get := 0;
  gGenesisChainHash := replicate 32 6;
  ln_node_getid := replicate 33 2;
  ln_db_annocnlupd_load := λ _ _, None;
  create_to_local := λ _ _ _ _ _ _, mk_local_tx true (replicate 32 3) 0 [];
  create_to_remote := λ _ _ _, mk_remote_tx true (replicate 64 1) (replicate 32 3) 0 None;
  mbedtls_md_hmac := λ k m, hash (k ++ m);
  chacha20_stream := λ k n, replicate n (nth 1 k 0);
|}.

Lemma is_bytes_take n d : is_bytes d → is_bytes (take n d).
Proof. apply Forall_take. Qed.

#[export] Instance env_laws : EnvLaws env.
Proof.
  split.
  - exact total_alloc_total.
  - intros x. cbn [btc_util_sha256 env]. unfold hash. split.
    + constructor; [by vm_compute|]. apply is_bytes_take, Forall_app. split; [|by_compute].
      apply Forall_fmap, Forall_true. intros b. apply wrap_is_byte.
    + cbn [length]. rewrite length_take, length_app, length_replicate. lia.
  - intros p. cbn [pt_write curve env group]. split.
    + constructor; [by vm_compute|]. auto with ptarm.
    + cbn [length]. by rewrite length_be_bytes.
Qed.

Definition seed : bytes := Z.of_nat <$> seq 1 32.

(** The point of our commitment [n]. *)
Definition point (n : Z) : bytes :=
  default [] (@btc_keys_priv2pub group (ln_derkey_create_secret hash seed (LN_SECINDEX_INIT - n))).

Definition commit_0 : ln_commit_data_t :=
  mk_commit 546 1000000000 1000 1 144 6 (replicate 64 0) (replicate 32 0) 0 0 0.

(** A channel just opened: commitment 0 on both sides, the HTLCs [hs]. *)
Definition node (our their : Z) (hs : list htlc) : ln_self_t :=
  mk_self (replicate 33 3) ln_derkey_storage_init LN_SECINDEX_INIT (LN_SECINDEX_INIT - 2) seed
    (replicate 6 (replicate 32 1))
    (mk_funding (replicate 5 (replicate 33 2) ++ [point 1]) (replicate 5 []))
    (mk_funding (replicate 6 (replicate 33 2)) (replicate 5 []))
    (replicate 33 2) 3 0 0 0 0 7 our their (replicate 32 9) 42 hs commit_0 commit_0 500 None [].

(** An HTLC of [amount] with the flags [b]. *)
Definition an_htlc (b amount : Z) : htlc :=
  UpdateAddHtlc.mk (replicate 32 9) 5 amount 400000 (replicate 32 4) UTL_BUF_INIT
    (of_bytes (replicate 1366 0)) b 0 0 (replicate 64 0) 0 0 UTL_BUF_INIT.

(** Six slots, the first of them in use. *)
Definition slots (hs : list htlc) : list htlc := hs ++ replicate (6 - length hs) no_htlc.

End LnToy.
