(* ===== verification/LnIdle.v ===== *)
(** What [recv_idle_proc_final] does to a channel whose HTLCs have all been
    committed: it settles the finished ones and starts the removal of others,
    and no balance is created or lost. *)
From stdpp Require Import base list numbers tactics.
From Stdlib Require Import ZArith Lia.
From S2P Require Import Prelude CProg UtlBuf LnMisc LnMsg LnMsgNormal LnHtlc LnSelf LnNormal LnToy.
Import UtlBuf LnMisc LnMsg LnMsgNormal LnHtlc LnSelf LnNormal.
Open Scope Z_scope.

Module LnIdle.

Section final.
Context {E : Env}.

(** ** The specification *)

(** The HTLC is over: on neither the way in nor the way out. *)
Definition finished (h : htlc) : bool :=
  LN_HTLC_ENABLE h && negb (LN_HTLC_ENABLE_LOCAL_ADDHTLC_OFFER h) &&
  negb (LN_HTLC_ENABLE_LOCAL_ADDHTLC_RECV h).

(** What its end pays us. *)
Definition payment (h : htlc) : Z :=
  if finished h && (delhtlc h =? LN_DELHTLC_FULFILL) then
    if addhtlc h =? LN_ADDHTLC_OFFER then - amount_msat h
    else if addhtlc h =? LN_ADDHTLC_RECV then amount_msat h else 0
  else 0.

(** What is left of its slot. *)
Definition after_final (h : htlc) : htlc :=
  if finished h then no_htlc
  else if LN_HTLC_ENABLE h && LN_HTLC_ENABLE_LOCAL_ADDHTLC_RECV h && LN_DBG_FULFILL then
    let h' := if negb (UpdateAddHtlc.next_short_channel_id h =? 0)
              then UpdateAddHtlc.set_next_short_channel_id 0 h else h in
    if negb (fin_delhtlc h =? LN_DELHTLC_NONE) then clear_htlc_comrevflag h' (fin_delhtlc h) else h'
  else h.

(** The calls it causes. *)
Definition final_events (h : htlc) : list event :=
  if finished h then
    (if (addhtlc h =? LN_ADDHTLC_OFFER) && (UpdateAddHtlc.prev_short_channel_id h =? 0) &&
        negb (delhtlc h =? LN_DELHTLC_FULFILL)
     then [LN_CB_PAYMENT_RETRY (UpdateAddHtlc.payment_sha256 h)] else []) ++
    [DB_PREIMG_DEL (buf (UpdateAddHtlc.buf_payment_preimage h))]
  else if LN_HTLC_ENABLE h && LN_HTLC_ENABLE_LOCAL_ADDHTLC_RECV h &&
          negb (LN_HTLC_ENABLE_LOCAL_ADDHTLC_OFFER h) && LN_DBG_FULFILL then
    (if negb (UpdateAddHtlc.next_short_channel_id h =? 0)
     then [LN_CB_FWD_ADDHTLC_START (UpdateAddHtlc.next_short_channel_id h) (UpdateAddHtlc.next_idx h)]
     else []) ++
    (if negb (fin_delhtlc h =? LN_DELHTLC_NONE) then [LN_CB_BWD_DELHTLC_START (fin_delhtlc h)] else [])
  else [].

Definition paid (hs : list htlc) : Z := foldr (λ h n, payment h + n) 0 hs.

(** The channel after the slots [hs] have been dealt with, their new contents
    being [hs']. *)
Definition settle (our' their' : Z) (hs' : list htlc) (evs : list event) (self : ln_self_t)
    : ln_self_t :=
  set_trace (trace self ++ evs) (set_cnl_add_htlc hs' (set_their_msat their' (set_our_msat our' self))).

(** Whether the slot makes the channel be saved. *)
Definition touched (h : htlc) : bool :=
  finished h ||
  (LN_HTLC_ENABLE h && negb (LN_HTLC_ENABLE_LOCAL_ADDHTLC_OFFER h) &&
   LN_HTLC_ENABLE_LOCAL_ADDHTLC_RECV h && LN_DBG_FULFILL &&
   (negb (UpdateAddHtlc.next_short_channel_id h =? 0) || negb (fin_delhtlc h =? LN_DELHTLC_NONE))).

(** ** One slot *)

Lemma settle_nothing pre h post self :
  cnl_add_htlc self = pre ++ h :: post →
  in_range 64 (our_msat self) → in_range 64 (their_msat self) →
  settle (u64 (our_msat self + 0)) (u64 (their_msat self - 0)) (pre ++ h :: post) [] self = self.
Proof.
  intros Hs Ho Ht. rewrite Z.add_0_r, Z.sub_0_r, !wrap_small by done. rewrite <- Hs.
  unfold settle. rewrite app_nil_r. by destruct self.
Qed.

(** Run the next statement of a slot's round. *)
Ltac slot_step Hs :=
  first
    [ rewrite bind_assoc | rewrite bind_mret | rewrite bind_modify | rewrite emit_step
    | erewrite get_htlc_step by (cbn; first [exact Hs | reflexivity])
    | erewrite mod_htlc_step by (cbn; first [exact Hs | reflexivity]) ]; cbv beta zeta.

(** Two ways to write the same channel. *)
Ltac same_channel :=
  unfold mret, prog_ret, settle; cbn [fst snd];
  rewrite ?orb_true_r, ?orb_false_r, <- ?app_assoc, ?Z.add_opp_r, ?Z.sub_opp_r, ?Z.add_0_r,
    ?Z.sub_0_r, ?(wrap_small 64 (our_msat _)), ?(wrap_small 64 (their_msat _)) by done;
  match goal with self : ln_self_t |- _ => destruct self end; cbn in *; subst;
  rewrite ?app_nil_r, <- ?app_assoc; reflexivity.

Lemma final_slot pre h post d r self :
  cnl_add_htlc self = pre ++ h :: post →
  in_range 64 (our_msat self) → in_range 64 (their_msat self) →
  idle_final_slot (length pre) (d, r) self =
  Ret (d || touched h, r || finished h)
    (settle (u64 (our_msat self + payment h)) (u64 (their_msat self - payment h))
       (pre ++ after_final h :: post) (final_events h) self).
Proof.
  intros Hs Ho Ht. unfold idle_final_slot. rewrite (get_htlc_step _ _ _ _ _ Hs).
  unfold touched, payment, after_final, final_events, finished.
  destruct (LN_HTLC_ENABLE h); cbn [andb orb negb].
  2:{ by rewrite !orb_false_r, settle_nothing. }
  destruct (LN_HTLC_ENABLE_LOCAL_ADDHTLC_OFFER h) eqn:Eo; cbn [andb orb negb].
  { pose proof (local_add_offer h Eo) as Eoff. rewrite !orb_false_r.
    destruct (LN_HTLC_ENABLE_LOCAL_ADDHTLC_RECV h) eqn:Er; cbn [andb].
    - pose proof (local_add_recv h Er). congruence.
    - by rewrite settle_nothing. }
  destruct (LN_HTLC_ENABLE_LOCAL_ADDHTLC_RECV h); cbn [andb orb negb].
  - destruct LN_DBG_FULFILL; [|by rewrite !orb_false_r, settle_nothing].
    destruct (UpdateAddHtlc.next_short_channel_id h =? 0), (fin_delhtlc h =? 0);
      cbn [negb orb andb app]; repeat slot_step Hs; same_channel.
  - destruct (addhtlc h =? 1), (addhtlc h =? 2), (delhtlc h =? 1),
      (UpdateAddHtlc.prev_short_channel_id h =? 0);
      cbn [negb orb andb app]; unfold clear_htlc; repeat slot_step Hs; same_channel.
Qed.

(** ** All slots *)

Lemma settle_settle o t hs evs o' t' hs' evs' self :
  settle o' t' hs' evs' (settle o t hs evs self) = settle o' t' hs' (evs ++ evs') self.
Proof. unfold settle. destruct self. cbn. by rewrite app_assoc. Qed.

Lemma final_slots hs pre d r self :
  cnl_add_htlc self = pre ++ hs →
  in_range 64 (our_msat self) → in_range 64 (their_msat self) →
  for_idx (seq (length pre) (length hs)) idle_final_slot (d, r) self =
  Ret (d || existsb touched hs, r || existsb finished hs)
    (settle (u64 (our_msat self + paid hs)) (u64 (their_msat self - paid hs))
       (pre ++ map after_final hs) (concat (map final_events hs)) self).
Proof.
  revert pre d r self. induction hs as [|h hs IH]; intros pre d r self Hs Ho Ht.
  - cbn [for_idx seq length existsb map concat paid foldr]. rewrite !orb_false_r.
    unfold mret, prog_ret. f_equal. unfold settle. rewrite Z.add_0_r, Z.sub_0_r, !wrap_small by done.
    rewrite app_nil_r in *. destruct self; cbn in *. by rewrite app_nil_r, Hs.
  - cbn [seq length for_idx].
    rewrite (bind_ret _ _ _ _ _ (final_slot pre h hs d r self Hs Ho Ht)). cbv beta.
    replace (S (length pre)) with (length (pre ++ [after_final h]))
      by (rewrite length_app; cbn [length]; lia).
    rewrite IH.
    2:{ cbn. by rewrite <- app_assoc. }
    2,3: apply in_range_wrap; lia.
    cbn [existsb map concat paid foldr]. rewrite !orb_assoc, settle_settle, <- !app_assoc.
    cbn [settle our_msat their_msat set_trace set_cnl_add_htlc set_our_msat set_their_msat].
    rewrite wrap_add_l, wrap_sub_l, Z.add_assoc, Z.sub_add_distr. reflexivity.
Qed.

(** What the end of the loop reports. *)
Definition save_events (hs : list htlc) : list event :=
  if existsb touched hs
  then DB_SELF_SAVE :: (if existsb finished hs then [LN_CB_REV_AND_ACK_EXCG] else []) else [].

Lemma final_spec self :
  length (cnl_add_htlc self) = LN_HTLC_MAX →
  in_range 64 (our_msat self) → in_range 64 (their_msat self) →
  let hs := cnl_add_htlc self in
  recv_idle_proc_final self =
  Ret tt (settle (u64 (our_msat self + paid hs)) (u64 (their_msat self - paid hs))
            (map after_final hs) (concat (map final_events hs) ++ save_events hs) self).
Proof.
  intros Hl Ho Ht. cbv zeta. unfold recv_idle_proc_final, save_events.
  pose proof (final_slots (cnl_add_htlc self) [] false false self eq_refl Ho Ht) as H.
  cbn [length app orb] in H. rewrite Hl in H. rewrite (bind_ret _ _ _ _ _ H). cbv beta iota.
  destruct (existsb touched (cnl_add_htlc self)).
  - rewrite emit_step.
    destruct (existsb finished (cnl_add_htlc self));
      unfold mret, prog_ret, emit, modify, settle; destruct self; cbn;
      rewrite <- ?app_assoc; reflexivity.
  - by rewrite app_nil_r.
Qed.

Lemma paid_bounds hs :
  Forall (λ h, 0 ≤ amount_msat h) hs →
  - pending LN_ADDHTLC_OFFER hs ≤ paid hs ≤ pending LN_ADDHTLC_RECV hs.
Proof.
  induction 1 as [|h hs Hh _ IH]; [done|]. unfold paid, pending in *. cbn [foldr].
  unfold payment at 1 3.
  destruct (finished h && _), (Z.eqb_spec (addhtlc h) LN_ADDHTLC_OFFER),
    (Z.eqb_spec (addhtlc h) LN_ADDHTLC_RECV); lia.
Qed.

(** C8: what [recv_idle_proc_final] does with the six HTLCs, on every branch:
    exactly the finished ones are cleared and, if fulfilled, move their amount
    from the side that offered it to the other, so that while the offered HTLCs
    fit the balances nothing wraps and the channel's total stays the same; an
    incoming HTLC starts its forwarding or its removal; nothing else of the
    channel changes but the trace, which records a save when a slot was
    touched. *)
Theorem final_settles self :
  let hs := cnl_add_htlc self in
  length hs = LN_HTLC_MAX → Forall (λ h, 0 ≤ amount_msat h) hs →
  pending LN_ADDHTLC_OFFER hs ≤ our_msat self →
  pending LN_ADDHTLC_RECV hs ≤ their_msat self →
  our_msat self + their_msat self < 2 ^ 64 →
  let our' := our_msat self + paid hs in
  let their' := their_msat self - paid hs in
  recv_idle_proc_final self =
    Ret tt (settle our' their' (map after_final hs)
              (concat (map final_events hs) ++ save_events hs) self) ∧
  0 ≤ our' ∧ 0 ≤ their' ∧ our' + their' = our_msat self + their_msat self.
Proof.
  cbv zeta. intros Hl Hpos Ho Ht Hs. pose proof (paid_bounds _ Hpos).
  pose proof (pending_nonneg LN_ADDHTLC_OFFER _ Hpos).
  pose proof (pending_nonneg LN_ADDHTLC_RECV _ Hpos).
  split; [|lia]. rewrite final_spec by (try done; unfold in_range; lia).
  rewrite !wrap_small by (unfold in_range; lia). done.
Qed.

End final.

(** A fulfilled HTLC of 5000 msat, over on both sides. *)
Definition paying : ln_self_t := LnToy.node 100000 200000 (LnToy.slots [LnToy.an_htlc 0x1f5 5000]).

Lemma final_settles_witness :
  length (cnl_add_htlc paying) = LN_HTLC_MAX ∧
  ∃ self', @recv_idle_proc_final LnToy.env paying = Ret tt self' ∧
    our_msat self' = 95000 ∧ their_msat self' = 205000 ∧
    cnl_add_htlc self' = replicate 6 no_htlc.
Proof.
  split; [reflexivity|].
  destruct (@final_settles LnToy.env paying) as [H _]; [reflexivity|by_compute..|].
  eexists. split; [exact H|]. split_and!; reflexivity.
Defined.

End LnIdle.
