(* ===== verification/LnCommit.v ===== *)
(** The exchange of commitment_signed and revoke_and_ack: the commitment
    numbers, the secrets that are given away, the secrets that are kept, and the
    flags of the HTLCs. *)
From stdpp Require Import base list numbers tactics.
From Stdlib Require Import ZArith Lia.
From S2P Require Import Prelude CProg UtlBuf UtlPush LnDerkey LnMisc LnMsg.
From S2P Require Import LnMsgNormal LnHtlc LnSelf LnNormal LnRecv LnToy.
Import UtlBuf UtlPush ShaChain Derkey LnMisc LnMsg LnMsgNormal LnHtlc LnSelf LnNormal LnRecv.
Open Scope Z_scope.

Module LnCommit.

(** ** The flags a commitment sets do not change what it holds *)

Lemma in_local_comrecv v h : in_local (set_comrecv v h) = in_local h.
Proof.
  unfold in_local, LN_HTLC_ENABLE, LN_HTLC_EMPTY, LN_HTLC_ENABLE_LOCAL_ADDHTLC_OFFER,
    LN_HTLC_ENABLE_LOCAL_ADDHTLC_RECV, LN_HTLC_ENABLE_LOCAL_DELHTLC_OFFER,
    LN_HTLC_ENABLE_LOCAL_DELHTLC_RECV.
  by flag_simpl.
Qed.

(** What a valid commitment_signed and a revoke_and_ack make of a slot. *)
Definition on_commitment (h : htlc) : htlc :=
  if in_local h then set_revsend 1 (set_comrecv 1 h) else h.
Definition on_revocation (h : htlc) : htlc :=
  if in_remote h then set_revrecv 1 h else h.

Lemma map_on_commitment hs :
  map (λ h, if in_local h then set_revsend 1 h else h)
    (map (λ h, if in_local h then set_comrecv 1 h else h) hs) = map on_commitment hs.
Proof.
  rewrite map_map. apply map_ext. intros h. unfold on_commitment.
  destruct (in_local h) eqn:H; [by rewrite in_local_comrecv, H|by rewrite H].
Qed.

Section keys.
Context {E : Env} {L : EnvLaws E}.

(** ** Sizes of secrets and points *)

Lemma create_secret_size b I :
  is_bytes b → length b = 32%nat →
  is_bytes (ln_derkey_create_secret btc_util_sha256 b I) ∧
  length (ln_derkey_create_secret btc_util_sha256 b I) = 32%nat.
Proof.
  unfold ln_derkey_create_secret, derive_secret.
  generalize (Z.to_nat (47 + 1)) as n. intros n. revert b.
  induction n as [|n IH]; intros b Hb Hl; [done|]. cbn [derive_loop].
  destruct (bit_set I n); [|by apply IH]. apply IH; apply sha256_size.
Qed.

(** Deriving a secret takes 48 rounds: never by conversion. *)
#[local] Opaque ln_derkey_create_secret.

Lemma priv2pub_size k p : btc_keys_priv2pub k = Some p → is_bytes p ∧ length p = 33%nat.
Proof. unfold btc_keys_priv2pub. case_match; [|done]. intros [= <-]. apply pt_write_size. Qed.

Lemma update_scriptkeys_pubkeys l r l' r' :
  ln_misc_update_scriptkeys btc_util_sha256 l r = (l', r') →
  pubkeys l' = pubkeys l ∧ pubkeys r' = pubkeys r.
Proof.
  assert (∀ i k x, pubkeys (set_script i k x) = pubkeys x) as Hs by (by intros i [k|] x).
  unfold ln_misc_update_scriptkeys. intros [= <- <-]. by rewrite !Hs.
Qed.

#[local] Opaque ln_misc_update_scriptkeys.

(** ** The numbering of commitments *)

(** The per-commitment secret of our commitment [n], and its point. *)
Definition percommit_sec (self : ln_self_t) (n : Z) : bytes :=
  ln_derkey_create_secret btc_util_sha256 (storage_seed self) (LN_SECINDEX_INIT - n).

(** [storage_index] is two secrets ahead of the last commitment we have, and
    the point in use is that of the next one. *)
Definition keys_in_step (self : ln_self_t) : Prop :=
  0 ≤ commit_num (commit_local self) ∧ 0 ≤ storage_index self ∧
  storage_index self + commit_num (commit_local self) + 2 = LN_SECINDEX_INIT ∧
  is_bytes (storage_seed self) ∧ length (storage_seed self) = 32%nat ∧
  length (pubkeys (funding_local self)) = 6%nat ∧
  btc_keys_priv2pub (percommit_sec self (commit_num (commit_local self) + 1)) =
    Some (fund_key (funding_local self) MSG_FUNDIDX_PER_COMMIT).

Lemma prev_secret self :
  keys_in_step self →
  (ln_signer_create_prev_percommitsec self).1 = percommit_sec self (commit_num (commit_local self)).
Proof.
  intros (Hc & Hi & Hs & _). unfold ln_signer_create_prev_percommitsec.
  rewrite wrap_small by (unfold in_range; lia). rewrite (proj2 (Z.leb_le _ _)) by lia.
  unfold percommit_sec, create_percommitsec. cbn [fst]. f_equal. lia.
Qed.

(** Moving on to the next secret. *)
Lemma storage_step {B} (K : unit → M B) self pt :
  1 ≤ storage_index self < 2 ^ 64 →
  btc_keys_priv2pub (ln_derkey_create_secret btc_util_sha256 (storage_seed self) (storage_index self)) =
    Some pt →
  (ln_signer_keys_update_storage ≫= K) self =
  K tt (set_funding_local (set_percommit pt (funding_local self))
          (set_storage_index (storage_index self - 1)
             (set_priv (<[MSG_FUNDIDX_PER_COMMIT :=
                ln_derkey_create_secret btc_util_sha256 (storage_seed self) (storage_index self)]>
                (priv self)) self))).
Proof.
  intros Hi Hpt. unfold ln_signer_keys_update_storage. rewrite bind_assoc, bind_get_st, bind_assoc.
  unfold ln_signer_keys_update_force. rewrite bind_assoc, bind_get_st.
  unfold create_percommitsec. cbv beta iota zeta. rewrite Hpt. cbn [of_option].
  rewrite !bind_assoc, bind_mret, bind_assoc, !bind_modify.
  set (k := ln_derkey_create_secret _ _ _). clearbody k.
  cbv beta. destruct self as [? ? ? si]. cbn [storage_index] in *.
  cbn. rewrite (wrap_small 64 (si - 1)) by (unfold in_range; lia). reflexivity.
Qed.

Lemma set_set_funding_local a b self :
  set_funding_local a (set_funding_local b self) = set_funding_local a self.
Proof. by destruct self. Qed.

Lemma scriptkeys_step {B} (K : unit → M B) self :
  (update_scriptkeys ≫= K) self =
  let x := ln_misc_update_scriptkeys btc_util_sha256 (funding_local self) (funding_remote self) in
  K tt (set_funding_remote x.2 (set_funding_local x.1 self)).
Proof.
  unfold update_scriptkeys. rewrite bind_modify. by destruct (ln_misc_update_scriptkeys _ _ _).
Qed.

Lemma advance_keys self pt :
  keys_in_step self → 1 ≤ storage_index self →
  btc_keys_priv2pub (percommit_sec self (commit_num (commit_local self) + 2)) = Some pt →
  let k := ln_misc_update_scriptkeys btc_util_sha256 (set_percommit pt (funding_local self))
             (funding_remote self) in
  ∃ pr,
    (∀ B (K : unit → M B), (ln_signer_keys_update_storage ≫= λ _, update_scriptkeys ≫= K) self =
       K tt (set_funding_remote k.2 (set_funding_local k.1
              (set_storage_index (storage_index self - 1) (set_priv pr self))))) ∧
    (∀ i, i ≠ MSG_FUNDIDX_PER_COMMIT → pr !! i = priv self !! i) ∧
    length (pubkeys k.1) = 6%nat ∧ fund_key k.1 MSG_FUNDIDX_PER_COMMIT = pt.
Proof.
  intros (Hc & Hi & Hs & _ & _ & Hp & _) Hi1 Hpt k. unfold percommit_sec in Hpt.
  replace (LN_SECINDEX_INIT - (commit_num (commit_local self) + 2)) with (storage_index self) in Hpt by lia.
  assert (pubkeys k.1 = pubkeys (set_percommit pt (funding_local self))) as El.
  { subst k. destruct (ln_misc_update_scriptkeys _ _ _) as [l r] eqn:Ek.
    by destruct (update_scriptkeys_pubkeys _ _ _ _ Ek). }
  eexists. split; [|split; [|split]].
  - intros B K. rewrite (storage_step _ self pt); [|lia|exact Hpt].
    rewrite scriptkeys_step. cbv zeta. rewrite set_set_funding_local. reflexivity.
  - intros i Hne. by rewrite list_lookup_insert_ne.
  - rewrite El. unfold set_percommit. cbn [pubkeys]. by rewrite length_insert.
  - unfold fund_key. rewrite El. unfold set_percommit. cbn [pubkeys].
    by rewrite list_lookup_insert_eq by lia.
Qed.

(** ** commitment_signed *)

(** The channel with the signature of a received commitment_signed. *)
Definition with_signature (sig : bytes) (self : ln_self_t) : ln_self_t :=
  set_commit_local (set_signature sig (commit_local self)) self.

(** The commitment transaction it is checked against. *)
Definition local_tx_of (self : ln_self_t) (m : CommitSigned.t) : local_tx :=
  create_to_local (with_signature (CommitSigned.p_signature m) self)
    (CommitSigned.p_htlc_signature m) (u8 (CommitSigned.num_htlcs m))
    (u64 (commit_num (commit_local self) + 1)) (to_self_delay (commit_remote self))
    (dust_limit_sat (commit_local self)).

(** The new signature, transaction and keys, with the HTLCs flagged. *)
Definition committed_to (self : ln_self_t) (m : CommitSigned.t) (pt : bytes) (pr : list bytes)
    (t : list event) : ln_self_t :=
  let self1 := store_local_tx (local_tx_of self m) (with_signature (CommitSigned.p_signature m) self) in
  let k := ln_misc_update_scriptkeys btc_util_sha256 (set_percommit pt (funding_local self)) (funding_remote self) in
  set_trace (trace self ++ t)
    (set_cnl_add_htlc (map on_commitment (cnl_add_htlc self1))
      (set_funding_remote k.2 (set_funding_local k.1
        (set_storage_index (storage_index self - 1) (set_priv pr self1))))).

(** The revoke_and_ack of the current commitment. *)
Definition revocation_of (self : ln_self_t) (pt : bytes) : RevokeAndAck.t :=
  RevokeAndAck.mk (channel_id self) (percommit_sec self (commit_num (commit_local self))) pt.

Lemma revocation_wf self pt n :
  keys_in_step self → is_bytes (channel_id self) → Z.of_nat (length (channel_id self)) = LN_SZ_CHANNEL_ID →
  btc_keys_priv2pub (percommit_sec self n) = Some pt → RevokeAndAck.wf (revocation_of self pt).
Proof.
  intros (_ & _ & _ & Hs1 & Hs2 & _) H1 H2 Hpt. destruct (priv2pub_size _ _ Hpt) as [H3 H4].
  destruct (create_secret_size (storage_seed self) (LN_SECINDEX_INIT - commit_num (commit_local self)) Hs1 Hs2) as [H5 H6].
  unfold revocation_of. hnf. cbn [RevokeAndAck.p_channel_id RevokeAndAck.p_per_commit_secret
    RevokeAndAck.p_per_commitpt]. unfold percommit_sec.
  split_and!; [exact H1|exact H2|exact H5|by rewrite H6|exact H3|by rewrite H4].
Qed.

Section accepted.
Context (self : ln_self_t) (m : CommitSigned.t) (rest pt : bytes).
Context (Hk : keys_in_step self) (Hi : 1 ≤ storage_index self).
Context (Hm : CommitSigned.wf m) (Hp : packet (CommitSigned.wire m ++ rest)).
Context (Hid : CommitSigned.p_channel_id m = channel_id self) (Htx : lt_ret (local_tx_of self m) = true).
Context (Hpt : btc_keys_priv2pub (percommit_sec self (commit_num (commit_local self) + 2)) = Some pt).
Abbreviation d := (CommitSigned.wire m ++ rest).
Abbreviation send := (LN_CB_SEND_REQ (of_bytes (RevokeAndAck.wire (revocation_of self pt)))).

Lemma commitment_body : ∃ pr,
  commitment_signed_body d (Z.of_nat (length d)) self = Ret true (committed_to self m pt pr [send]) ∧
  (∀ i, i ≠ MSG_FUNDIDX_PER_COMMIT → pr !! i = priv self !! i) ∧
  ∀ t c, commit_num c = commit_num (commit_local self) + 1 →
    keys_in_step (set_commit_local c (committed_to self m pt pr t)).
Proof.
  set (self1 := store_local_tx (local_tx_of self m) (with_signature (CommitSigned.p_signature m) self)).
  set (self2 := set_cnl_add_htlc (map (λ h, if in_local h then set_comrecv 1 h else h) (cnl_add_htlc self1)) self1).
  assert (keys_in_step self2) as Hk2 by exact Hk.
  destruct (advance_keys self2 pt Hk2 Hi Hpt) as (pr & Hadv & Hpr & Hlen & Hfk).
  assert (RevokeAndAck.wf (revocation_of self pt)) as Hrv.
  { destruct Hm as (H1 & H2 & _). rewrite Hid in H1, H2. by eapply revocation_wf. }
  pose proof CommitSigned.commit_signed_codec as Cc. pose proof (proj1 RevokeAndAck.revoke_and_ack_codec) as Cr.
  exists pr. split; [|split; [exact Hpr|]].
  - unfold commitment_signed_body. rewrite bind_get_st.
    rewrite (read_step _ _ _ _ _ _ (C := Cc) m rest) by done. cbv beta iota. rewrite bind_modify.
    rewrite fail_if_false. unfold chk_channelid. rewrite bool_decide_eq_true_2 by done.
    rewrite fail_if_false, bind_get_st. cbv zeta.
    change (create_to_local _ _ _ _ _ _) with (local_tx_of self m).
    rewrite bind_modify. fold (with_signature (CommitSigned.p_signature m) self) self1.
    rewrite exit_no by (by rewrite Htx). rewrite map_htlc_step. fold self2.
    rewrite bind_get_st, (prev_secret self2 Hk2), Hadv, bind_get_st.
    cbn [funding_local set_funding_local set_funding_remote]. rewrite Hfk, Hid.
    change (RevokeAndAck.mk _ _ _) with (revocation_of self pt).
    rewrite (encode_step _ _ _ _ _ _ (C := Cr) (revocation_of self pt)) by done. cbv beta iota.
    rewrite bind_assoc, map_htlc_step, emit_step.
    unfold committed_to. fold self1. by rewrite <- map_on_commitment.
  - intros t c Ec. destruct Hk as (Hc & _ & Hs & Hb & Hl & _).
    match goal with |- keys_in_step ?s => set (self' := s) end.
    assert (storage_index self' = storage_index self - 1) as Ei by reflexivity.
    assert (percommit_sec self' (commit_num (commit_local self) + 1 + 1) =
      percommit_sec self (commit_num (commit_local self) + 2)) as Es by (unfold percommit_sec; f_equal; lia).
    unfold keys_in_step. change (commit_local self') with c. rewrite Ec.
    change (funding_local self') with (ln_misc_update_scriptkeys btc_util_sha256
      (set_percommit pt (funding_local self2)) (funding_remote self2)).1.
    rewrite Ei, Es, Hfk. split_and!; [lia|lia|lia|exact Hb|exact Hl|exact Hlen|exact Hpt].
Qed.

(** The whole of it. *)
Lemma commitment_accepted : ∃ pr,
  let n := commit_num (commit_local self) in
  let self1 := committed_to self m pt pr [send; DB_SECRET_SAVE; DB_SELF_SAVE] in
  let self' := set_commit_local (set_revoke_num n (set_commit_num (n + 1) (commit_local self1))) self1 in
  recv_commitment_signed d (Z.of_nat (length d)) self = Ret true self' ∧
  (∀ i, i ≠ MSG_FUNDIDX_PER_COMMIT → pr !! i = priv self !! i) ∧ keys_in_step self'.
Proof.
  destruct commitment_body as (pr & Hbody & Hpr & Hk'). exists pr. cbv zeta.
  split; [|split; [exact Hpr|by apply Hk']].
  unfold recv_commitment_signed. rewrite bind_get_st. cbv zeta.
  erewrite (bind_ret true) by (by apply call_ret).
  rewrite !bind_assoc, bind_modify, bind_assoc, !emit_step. unfold mret, prog_ret. f_equal.
  change (commit_num (commit_local (committed_to _ _ _ _ _))) with (commit_num (commit_local self)).
  rewrite wrap_small by (unfold in_range; destruct Hk as (? & ? & ? & _); lia).
  unfold committed_to. cbn. by rewrite <- !app_assoc.
Qed.
End accepted.

(** C5: a commitment_signed that checks out is answered with exactly one
    message: the revoke_and_ack of the commitment it replaces. The secret given
    away is that of the commitment numbered [commit_num], never that of the new
    one, and the point is that of commitment [commit_num + 2]; the numbers and
    keys move on by one together, the HTLCs in our commitment are flagged as
    received and revoked, no balance changes. The answer is sent first; the
    secrets and the channel are saved after it. *)
Theorem commitment_signed_revokes self m rest pt :
  let n := commit_num (commit_local self) in
  let d := CommitSigned.wire m ++ rest in
  keys_in_step self → 1 ≤ storage_index self →
  CommitSigned.wf m → packet d → CommitSigned.p_channel_id m = channel_id self →
  lt_ret (local_tx_of self m) = true →
  btc_keys_priv2pub (percommit_sec self (n + 2)) = Some pt →
  ∃ self', recv_commitment_signed d (Z.of_nat (length d)) self = Ret true self' ∧
    commit_num (commit_local self') = n + 1 ∧ revoke_num (commit_local self') = n ∧
    keys_in_step self' ∧
    cnl_add_htlc self' = map on_commitment
      (cnl_add_htlc (store_local_tx (local_tx_of self m) (with_signature (CommitSigned.p_signature m) self))) ∧
    our_msat self' = our_msat self ∧ their_msat self' = their_msat self ∧
    trace self' = trace self ++
      [LN_CB_SEND_REQ (of_bytes (RevokeAndAck.wire
         (RevokeAndAck.mk (channel_id self) (percommit_sec self n) pt)));
       DB_SECRET_SAVE; DB_SELF_SAVE].
Proof.
  intros n d Hk Hi Hm Hp Hid Htx Hpt.
  destruct (commitment_accepted self m rest pt Hk Hi Hm Hp Hid Htx Hpt) as (pr & Hr & _ & Hk').
  eexists. split; [exact Hr|]. by split_and!.
Qed.

Lemma refused_state (e : option ln_err) sig self :
  let s1 := set_err e (set_commit_local (set_signature sig (commit_local self)) self) in
  (mret false : M bool)
    (set_commit_local (set_signature (signature (commit_local self)) (commit_local s1)) s1) =
  Ret false (set_err e self).
Proof. by destruct self as [? ? ? ? ? ? ? ? ? ? ? ? ? ? ? ? ? ? ? ? [] ? ? ? ?]. Qed.

(** C6: a commitment_signed that is refused changes no number, no key and no
    flag, and nothing is sent: a packet that is not one or is for another
    channel only sets the error code; one whose transaction or signatures do
    not check out also leaves what [create_to_local] has written on the way
    (txid, number of HTLCs, HTLC signatures), but the commitment's own signature
    is the old one again. *)
Theorem commitment_signed_refused self :
  (∀ d, packet d → CommitSigned.head_ok d = false →
     recv_commitment_signed d (Z.of_nat (length d)) self =
     Ret false (set_err (Some LNERR_MSG_READ) self)) ∧
  (∀ m rest, CommitSigned.wf m → packet (CommitSigned.wire m ++ rest) →
     CommitSigned.p_channel_id m ≠ channel_id self →
     recv_commitment_signed (CommitSigned.wire m ++ rest)
       (Z.of_nat (length (CommitSigned.wire m ++ rest))) self =
     Ret false (set_err (Some LNERR_INV_CHANNEL) self)) ∧
  (∀ m rest, CommitSigned.wf m → packet (CommitSigned.wire m ++ rest) →
     CommitSigned.p_channel_id m = channel_id self → lt_ret (local_tx_of self m) = false →
     recv_commitment_signed (CommitSigned.wire m ++ rest)
       (Z.of_nat (length (CommitSigned.wire m ++ rest))) self =
     Ret false (store_local_tx (local_tx_of self m) self)).
Proof.
  pose proof CommitSigned.commit_signed_codec as Cc. split; [|split].
  - intros d Hp Hh. pose proof (CommitSigned.commit_signed_reads
      (CommitSigned.mk uninit (signature (commit_local self)) 0 None) d Hp) as Hr.
    cbv beta in Hr. rewrite Hh in Hr. cbn [andb] in Hr. destruct Hr as [m' Hr].
    unfold recv_commitment_signed. rewrite bind_get_st. cbv zeta.
    erewrite bind_ret.
    2:{ apply call_exit. unfold commitment_signed_body. rewrite bind_get_st.
        rewrite (on_local_step _ _ _ _ _ _ Hr). cbv beta iota. rewrite bind_modify. reflexivity. }
    cbv beta iota. rewrite bind_modify. apply refused_state.
  - intros m rest Hm Hp Hid. unfold recv_commitment_signed. rewrite bind_get_st. cbv zeta.
    erewrite bind_ret.
    2:{ apply call_exit. unfold commitment_signed_body. rewrite bind_get_st.
        rewrite (read_step _ _ _ _ _ _ (C := Cc) m rest) by done. cbv beta iota.
        rewrite bind_modify, fail_if_false. unfold chk_channelid.
        rewrite bool_decide_eq_false_2 by done. reflexivity. }
    cbv beta iota. rewrite bind_modify. apply refused_state.
  - intros m rest Hm Hp Hid Htx. unfold recv_commitment_signed. rewrite bind_get_st. cbv zeta.
    erewrite bind_ret.
    2:{ apply call_exit. unfold commitment_signed_body. rewrite bind_get_st.
        rewrite (read_step _ _ _ _ _ _ (C := Cc) m rest) by done. cbv beta iota.
        rewrite bind_modify, fail_if_false. unfold chk_channelid.
        rewrite bool_decide_eq_true_2 by done. rewrite fail_if_false, bind_get_st. cbv zeta.
        change (create_to_local _ _ _ _ _ _) with (local_tx_of self m).
        rewrite bind_modify, Htx. reflexivity. }
    cbv beta iota. rewrite bind_modify. generalize (local_tx_of self m). intros x.
    unfold store_local_tx. destruct self as [? ? ? ? ? ? ? ? ? ? ? ? ? ? ? ? ? ? ? ? [] ? ? ? ?].
    reflexivity.
Qed.

(** ** revoke_and_ack *)

(** The channel after a revocation, its secret having been put in [st]. *)
Definition revoked (m : RevokeAndAck.t) (st : list bucket) (self self' : ln_self_t) : Prop :=
  peer_storage self' = st ∧ peer_storage_index self' = u64 (peer_storage_index self - 1) ∧
  prev_percommit self' = fund_key (funding_remote self) MSG_FUNDIDX_PER_COMMIT ∧
  pubkeys (funding_remote self') =
    <[MSG_FUNDIDX_PER_COMMIT := RevokeAndAck.p_per_commitpt m]> (pubkeys (funding_remote self)) ∧
  (funding_local self', funding_remote self') =
    ln_misc_update_scriptkeys btc_util_sha256 (funding_local self)
      (set_percommit (RevokeAndAck.p_per_commitpt m) (funding_remote self)) ∧
  cnl_add_htlc self' = map on_revocation (cnl_add_htlc self) ∧
  commit_remote self' =
    set_revoke_num (u64 (commit_num (commit_remote self) - 1)) (commit_remote self) ∧
  commit_local self' = commit_local self ∧
  our_msat self' = our_msat self ∧ their_msat self' = their_msat self ∧
  channel_id self' = channel_id self ∧
  trace self' = trace self ++ [DB_SELF_SAVE].

Lemma storage_insert_step {B} s (K : bool → M B) self st :
  run (ln_derkey_storage_insert_secret btc_util_sha256 s (peer_storage_index self)) (peer_storage self) =
    Ret true st →
  (store_peer_percommit_secret s ≫= K) self =
  K true (set_peer_storage_index (u64 (peer_storage_index self - 1)) (set_peer_storage st self)).
Proof.
  intros H. unfold store_peer_percommit_secret. rewrite bind_assoc, bind_get_st, bind_assoc.
  rewrite (on_local_step _ _ _ _ _ _ H). cbv beta iota.
  by rewrite bind_assoc, bind_modify, bind_assoc, bind_modify, bind_mret.
Qed.

Lemma revoke_step self m rest p st :
  RevokeAndAck.wf m → packet (RevokeAndAck.wire m ++ rest) →
  RevokeAndAck.p_channel_id m = channel_id self →
  btc_keys_priv2pub (RevokeAndAck.p_per_commit_secret m) = Some p →
  run (ln_derkey_storage_insert_secret btc_util_sha256 (RevokeAndAck.p_per_commit_secret m)
         (peer_storage_index self)) (peer_storage self) = Ret true st →
  ∃ self', recv_revoke_and_ack (RevokeAndAck.wire m ++ rest)
      (Z.of_nat (length (RevokeAndAck.wire m ++ rest))) self = Ret true self' ∧
    revoked m st self self'.
Proof.
  intros Hm Hp Hid Hpub Hst. pose proof (proj1 RevokeAndAck.revoke_and_ack_codec) as Cr.
  unfold recv_revoke_and_ack. rewrite (read_step _ _ _ _ _ _ (C := Cr) m rest) by done.
  cbv beta iota. rewrite fail_if_false, bind_get_st. unfold chk_channelid.
  rewrite (bool_decide_eq_true_2 (_ = channel_id self)) by done. rewrite fail_if_false. cbv zeta.
  rewrite Hpub, (bool_decide_eq_true_2 (is_Some _)) by done. rewrite exit_no by done.
  rewrite (storage_insert_step _ _ _ _ Hst), exit_no by done.
  rewrite !bind_modify, scriptkeys_step. cbv zeta. rewrite map_htlc_step, bind_modify, emit_step.
  eexists. split; [reflexivity|].
  destruct (ln_misc_update_scriptkeys _ _ _) as [l r] eqn:Ek.
  pose proof Ek as [_ Er]%update_scriptkeys_pubkeys.
  unfold revoked. split_and!; try reflexivity; [exact Er|symmetry; exact Ek].
Qed.

(** What a revoke_and_ack for this channel does, in full: it is refused
    when its secret is no private key; the node dies in an [assert] when the
    secret does not derive one of the secrets stored below its bucket; in every
    other case it is accepted, stored and the HTLCs of the peer's commitment are
    flagged. The point announced for the commitment ([prev_percommit]) plays no
    part. *)
Theorem revocation_outcome self m rest :
  RevokeAndAck.wf m → packet (RevokeAndAck.wire m ++ rest) →
  RevokeAndAck.p_channel_id m = channel_id self →
  0 ≤ peer_storage_index self < 2 ^ 48 → length (peer_storage self) = 49%nat →
  let s := RevokeAndAck.p_per_commit_secret m in
  let bit := where_to_put_secret (peer_storage_index self) in
  let r := run (recv_revoke_and_ack (RevokeAndAck.wire m ++ rest)
             (Z.of_nat (length (RevokeAndAck.wire m ++ rest)))) self in
  match btc_keys_priv2pub s with
  | None => r = Ret false self
  | Some _ =>
      if decide (Forall (λ b, derive_secret btc_util_sha256 s (Z.of_nat bit - 1) (index b) = secret b)
                   (take bit (peer_storage self)))
      then ∃ self', r = Ret true self' ∧
             revoked m (<[bit := mk_bucket s (peer_storage_index self)]> (peer_storage self)) self self'
      else r = AbortOut
  end.
Proof.
  intros Hm Hp Hid HI Hlen s bit r. pose proof (proj1 RevokeAndAck.revoke_and_ack_codec) as Cr.
  pose proof (insert_outcome btc_util_sha256 s (peer_storage_index self) (peer_storage self) HI Hlen) as Hins.
  cbv zeta in Hins. fold bit in Hins.
  destruct (btc_keys_priv2pub s) as [p|] eqn:Hpub.
  - destruct (decide _) as [Hf|Hf].
    + destruct (revoke_step self m rest p _ Hm Hp Hid Hpub Hins) as (self' & Hr & Hrev).
      exists self'. split; [|exact Hrev]. unfold r, run. by rewrite Hr.
    + unfold r, run, recv_revoke_and_ack. rewrite (read_step _ _ _ _ _ _ (C := Cr) m rest) by done.
      cbv beta iota. rewrite fail_if_false, bind_get_st. unfold chk_channelid.
      rewrite (bool_decide_eq_true_2 (_ = channel_id self)) by done. rewrite fail_if_false. cbv zeta.
      fold s. rewrite Hpub, (bool_decide_eq_true_2 (is_Some _)) by done. rewrite exit_no by done.
      unfold store_peer_percommit_secret. rewrite bind_assoc, bind_get_st, bind_assoc.
      unfold on_local, mbind at 1, prog_bind. by rewrite Hins.
  - unfold r, run, recv_revoke_and_ack. rewrite (read_step _ _ _ _ _ _ (C := Cr) m rest) by done.
    cbv beta iota. rewrite fail_if_false, bind_get_st. unfold chk_channelid.
    rewrite (bool_decide_eq_true_2 (_ = channel_id self)) by done. rewrite fail_if_false. cbv zeta.
    fold s. rewrite Hpub. reflexivity.
Qed.

(** The peer has revoked its commitments below [k], their secrets being those of
    [seed]. *)
Definition peer_secrets (seed : bytes) (k : Z) (self : ln_self_t) : Prop :=
  holds btc_util_sha256 seed (2 ^ 48 - k) (peer_storage self) ∧
  peer_storage_index self = LN_SECINDEX_INIT - k.

Lemma honest_step self m rest seed k pt :
  RevokeAndAck.wf m → packet (RevokeAndAck.wire m ++ rest) →
  RevokeAndAck.p_channel_id m = channel_id self →
  0 ≤ k < 2 ^ 48 - 1 → peer_secrets seed k self →
  RevokeAndAck.p_per_commit_secret m =
    ln_derkey_create_secret btc_util_sha256 seed (LN_SECINDEX_INIT - k) →
  btc_keys_priv2pub (RevokeAndAck.p_per_commit_secret m) = Some pt →
  ∃ self' st, recv_revoke_and_ack (RevokeAndAck.wire m ++ rest)
      (Z.of_nat (length (RevokeAndAck.wire m ++ rest))) self = Ret true self' ∧
    revoked m st self self' ∧ peer_secrets seed (k + 1) self'.
Proof.
  intros Hm Hp Hid Hk [Hh Hi] Hsec Hpub.
  replace (2 ^ 48 - k) with (LN_SECINDEX_INIT - k + 1) in Hh by lia.
  destruct (insert_next btc_util_sha256 seed (LN_SECINDEX_INIT - k) (peer_storage self))
    as (st & Hst & Hh'); [lia|exact Hh|].
  rewrite <- Hsec, <- Hi in Hst.
  destruct (revoke_step self m rest pt st Hm Hp Hid Hpub Hst) as (self' & Hr & Hrev).
  exists self', st. split; [exact Hr|]. split; [exact Hrev|]. destruct Hrev as (Est & Eix & _).
  unfold peer_secrets. rewrite Est, Eix, Hi.
  replace (2 ^ 48 - (k + 1)) with (LN_SECINDEX_INIT - k) by lia. split; [exact Hh'|].
  rewrite wrap_small by (unfold in_range; lia). lia.
Qed.

Lemma secrets_known self seed k pS n : peer_secrets seed (k + 1) self → 0 ≤ n ≤ k → k < 2 ^ 48 - 1 →
  ln_derkey_storage_get_secret btc_util_sha256 pS (peer_storage self) (LN_SECINDEX_INIT - n) =
  Some (true, ln_derkey_create_secret btc_util_sha256 seed (LN_SECINDEX_INIT - n)).
Proof.
  intros [Hh _] Hn Hk. replace (2 ^ 48 - (k + 1)) with (LN_SECINDEX_INIT - k) in Hh by lia.
  apply (get_inserted _ seed (LN_SECINDEX_INIT - k)); [lia|lia|exact Hh].
Qed.

(** C7: a peer that reveals the secrets of its seed in order is always
    understood, and after each revocation the node can produce the secret of
    every commitment the peer has revoked so far, so that none of them can be
    published without penalty. *)
Theorem honest_revocation self m rest seed k pt pS :
  RevokeAndAck.wf m → packet (RevokeAndAck.wire m ++ rest) →
  RevokeAndAck.p_channel_id m = channel_id self →
  0 ≤ k < 2 ^ 48 - 1 → peer_secrets seed k self →
  RevokeAndAck.p_per_commit_secret m =
    ln_derkey_create_secret btc_util_sha256 seed (LN_SECINDEX_INIT - k) →
  btc_keys_priv2pub (RevokeAndAck.p_per_commit_secret m) = Some pt →
  ∃ self', recv_revoke_and_ack (RevokeAndAck.wire m ++ rest)
      (Z.of_nat (length (RevokeAndAck.wire m ++ rest))) self = Ret true self' ∧
    peer_secrets seed (k + 1) self' ∧
    cnl_add_htlc self' = map on_revocation (cnl_add_htlc self) ∧
    ∀ n, 0 ≤ n ≤ k →
      ln_derkey_storage_get_secret btc_util_sha256 pS (peer_storage self') (LN_SECINDEX_INIT - n) =
      Some (true, ln_derkey_create_secret btc_util_sha256 seed (LN_SECINDEX_INIT - n)).
Proof.
  intros Hm Hp Hid Hk Hs Hsec Hpub.
  destruct (honest_step self m rest seed k pt Hm Hp Hid Hk Hs Hsec Hpub) as (self' & st & Hr & Hrev & Hs').
  exists self'. split; [exact Hr|]. split; [exact Hs'|].
  split; [apply Hrev|]. intros n Hn. apply (secrets_known _ _ k); [exact Hs'|lia|lia].
Qed.

End keys.

(** ** On a concrete channel *)

(** A received HTLC the peer commits to. *)
Definition receiving : ln_self_t := LnToy.node 100000 200000 (LnToy.slots [LnToy.an_htlc 0x2 5000]).

Definition its_commitment : CommitSigned.t :=
  CommitSigned.mk (replicate 32 9) (replicate 64 5) 0 (Some []).

Lemma commitment_signed_revokes_witness :
  @keys_in_step LnToy.env receiving ∧
  ∃ self', @recv_commitment_signed LnToy.env (CommitSigned.wire its_commitment ++ [])
      100 receiving = Ret true self' ∧
    commit_num (commit_local self') = 1 ∧ revoke_num (commit_local self') = 0 ∧
    bits <$> head (cnl_add_htlc self') = Some 0x182.
Proof.
  assert (@keys_in_step LnToy.env receiving) as Hk by (unfold keys_in_step; split_and!; by_compute).
  split; [exact Hk|].
  destruct (@commitment_signed_revokes LnToy.env LnToy.env_laws receiving its_commitment []
    (LnToy.point 2) Hk) as (self' & H1 & H2 & H3 & _ & H4 & _);
    [by_compute|by_compute|by_compute|reflexivity|reflexivity|by_compute|].
  exists self'. split; [exact H1|]. split; [exact H2|]. split; [exact H3|]. rewrite H4. reflexivity.
Defined.

Lemma commitment_signed_refused_witness :
  packet [0; 132; 1] ∧
  @recv_commitment_signed LnToy.env [0; 132; 1] 3 receiving =
  Ret false (set_err (Some LNERR_MSG_READ) receiving).
Proof.
  assert (packet [0; 132; 1]) as H by (split; [by_compute|reflexivity]). split; [exact H|].
  apply (proj1 (@commitment_signed_refused LnToy.env LnToy.env_laws receiving) _ H). reflexivity.
Defined.

(** A channel whose offered HTLC has been committed to, and the peer's first
    revocation. *)
Definition offering : ln_self_t :=
  set_commit_remote (set_commit_num 1 LnToy.commit_0)
    (LnToy.node 100000 200000 (LnToy.slots [LnToy.an_htlc 0x31 5000])).

Definition its_revocation : RevokeAndAck.t :=
  RevokeAndAck.mk (replicate 32 9)
    (ln_derkey_create_secret LnToy.hash LnToy.seed LN_SECINDEX_INIT) (LnToy.point 2).

Lemma honest_revocation_witness :
  @peer_secrets LnToy.env LnToy.seed 0 offering ∧
  ∃ self', @recv_revoke_and_ack LnToy.env (RevokeAndAck.wire its_revocation ++ [])
      99 offering = Ret true self' ∧
    bits <$> head (cnl_add_htlc self') = Some 0x71 ∧
    ln_derkey_storage_get_secret LnToy.hash [] (peer_storage self') LN_SECINDEX_INIT =
    Some (true, ln_derkey_create_secret LnToy.hash LnToy.seed LN_SECINDEX_INIT).
Proof.
  assert (@peer_secrets LnToy.env LnToy.seed 0 offering) as Hs.
  { split; [|reflexivity]. apply holds_init. }
  split; [exact Hs|].
  destruct (@honest_revocation LnToy.env LnToy.env_laws offering its_revocation []
    LnToy.seed 0 (LnToy.point 0) []) as (self' & H1 & _ & H2 & H3);
    [by_compute|by_compute|reflexivity|lia|exact Hs|reflexivity|by_compute|].
  exists self'. split; [exact H1|]. split; [rewrite H2; reflexivity|].
  apply (H3 0). lia.
Defined.

(** A secret that is not the one promised. *)
Definition wrong_revocation : RevokeAndAck.t :=
  RevokeAndAck.mk (replicate 32 9) (replicate 32 7) (replicate 33 2).

Lemma revocation_outcome_witness :
  @btc_keys_priv2pub LnToy.group (replicate 32 7) ≠ Some (prev_percommit offering) ∧
  ∃ self', run (@recv_revoke_and_ack LnToy.env (RevokeAndAck.wire wrong_revocation ++ []) 99)
    offering = Ret true self'.
Proof.
  split; [vm_compute; discriminate|].
  pose proof (@revocation_outcome LnToy.env LnToy.env_laws offering wrong_revocation []) as H.
  destruct H as (self' & H & _); [by_compute|by_compute|reflexivity|by_compute|reflexivity|].
  exists self'. exact H.
Defined.

End LnCommit.
