(* ===== verification/LnOffer.v ===== *)
(** Offering HTLCs and accepting them: what the checks of [ln/ln.c] let through,
    and what an accepted request does to the channel. *)
From stdpp Require Import base list numbers tactics.
From Stdlib Require Import ZArith Lia.
From S2P Require Import Prelude CProg UtlBuf UtlPush LnDerkey LnMisc LnMsg.
From S2P Require Import LnMsgNormal LnHtlc LnSelf LnNormal LnAddHtlc LnToy.
Import UtlBuf UtlPush ShaChain Derkey LnMisc LnMsg LnMsgNormal LnHtlc LnSelf LnNormal LnAddHtlc.
Open Scope Z_scope.

Module LnOffer.

(** ** Searching the array *)

Lemma find_htlc_None p k hs : find_htlc p k hs = None ↔ Forall (λ h, p h = false) hs.
Proof.
  revert k. induction hs as [|h hs IH]; intros k; cbn [find_htlc]; [by split|].
  rewrite Forall_cons_iff. destruct (p h).
  - by split; [|intros [? _]].
  - rewrite IH. by split; [|intros [_ ?]].
Qed.

Lemma find_htlc_Some p hs k idx :
  find_htlc p k hs = Some idx →
  ∃ pre h post, hs = pre ++ h :: post ∧ idx = (k + length pre)%nat ∧ p h = true ∧
                Forall (λ h, p h = false) pre.
Proof.
  revert k. induction hs as [|h hs IH]; intros k; cbn [find_htlc]; [done|].
  destruct (p h) eqn:Hp.
  - intros [= <-]. exists [], h, hs. cbn. rewrite Nat.add_0_r. by repeat split.
  - intros H. destruct (IH _ H) as (pre & h' & post & -> & -> & Hh' & Hpre).
    exists (h :: pre), h', post. cbn [length app]. rewrite Nat.add_succ_r.
    repeat split; [done|by constructor].
Qed.

(** ** The checks, in exact arithmetic *)

(** A refused check leaves the function with its error recorded. *)
Lemma run_fail_if c e (K : unit → M bool) self :
  run (fail_if c e ≫= K) self = if c then Ret false (set_err (Some e) self) else run (K tt) self.
Proof. by destruct c. Qed.

Lemma run_get (K : ln_self_t → M bool) self : run (get_st ≫= K) self = run (K self) self.
Proof. done. Qed.

(** Some slot is found exactly when there is one. *)
Lemma find_htlc_none p k hs : bool_decide (find_htlc p k hs = None) = negb (existsb p hs).
Proof.
  revert k. induction hs as [|h hs IH]; intros k; cbn [find_htlc existsb]; [done|].
  destruct (p h); cbn [orb]; [done|]. apply IH.
Qed.

Lemma in_flight_pending hs acc :
  Forall (λ h, 0 ≤ amount_msat h) hs → 0 ≤ acc → acc + pending LN_ADDHTLC_OFFER hs < 2 ^ 64 →
  foldl (λ n h, if addhtlc h =? LN_ADDHTLC_OFFER then u64 (n + amount_msat h) else n) acc hs =
  acc + pending LN_ADDHTLC_OFFER hs.
Proof.
  intros H. revert acc. induction H as [|h hs Hh Hhs IH]; intros acc Ha; unfold pending;
    cbn [foldl foldr]; [intros; lia|].
  fold (pending LN_ADDHTLC_OFFER hs). pose proof (pending_nonneg LN_ADDHTLC_OFFER _ Hhs).
  destruct (addhtlc h =? LN_ADDHTLC_OFFER); intros.
  - rewrite wrap_small by (unfold in_range; lia). rewrite IH; lia.
  - rewrite IH; lia.
Qed.

Section offer.
Context {E : Env}.

(** The closing fee at the current feerate, and the reserve the peer asks for. *)
Definition fee_msat (self : ln_self_t) : Z := 1000 * (LN_FEE_COMMIT_BASE * feerate_per_kw self / 1000).
Definition reserve_msat (self : ln_self_t) : Z := 1000 * channel_reserve_sat (commit_remote self).

(** The checks when the amount comes to [with_reserve] with the reserve and to
    [with_fee] with the fee. *)
Definition let_through (self : ln_self_t) (amount_msat cltv_value with_reserve with_fee : Z) : Prop :=
  cltv_value < BTC_TX_LOCKTIME_LIMIT ∧ with_reserve ≤ our_msat self ∧ with_fee ≤ our_msat self ∧
  htlc_num (commit_remote self) < max_accepted_htlcs (commit_remote self) ∧
  0 < amount_msat ∧ htlc_minimum_msat (commit_remote self) ≤ amount_msat ∧
  pending LN_ADDHTLC_OFFER (cnl_add_htlc self) ≤ max_htlc_value_in_flight_msat (commit_remote self).

#[global] Instance let_through_dec self a c r f : Decision (let_through self a c r f).
Proof. unfold let_through. apply _. Defined.

(** What BOLT 2 asks of the offerer, except that the limit on the value in flight
    is checked before the new HTLC is counted. *)
Definition offerable (self : ln_self_t) (amount_msat cltv_value : Z) : Prop :=
  let_through self amount_msat cltv_value (amount_msat + reserve_msat self)
    (amount_msat + fee_msat self).

#[global] Instance offerable_dec self a c : Decision (offerable self a c).
Proof. unfold offerable. apply _. Defined.

(** The channel's own numbers are in range. *)
Definition offer_state (self : ln_self_t) : Prop :=
  0 ≤ reserve_msat self < 2 ^ 64 ∧ 0 ≤ feerate_per_kw self < 2 ^ 32 ∧
  Forall (λ h, 0 ≤ LnHtlc.amount_msat h) (cnl_add_htlc self) ∧
  pending LN_ADDHTLC_OFFER (cnl_add_htlc self) < 2 ^ 64.

#[global] Instance offer_state_dec self : Decision (offer_state self).
Proof. unfold offer_state. apply _. Defined.

Lemma fee_exact self :
  0 ≤ feerate_per_kw self < 2 ^ 32 →
  satoshi2msat (ln_closing_signed_initfee self) = fee_msat self ∧ 0 ≤ fee_msat self.
Proof.
  intros Hf. unfold satoshi2msat, ln_closing_signed_initfee, fee_msat.
  rewrite (wrap_small 64 (_ * feerate_per_kw self)) by (unfold in_range; lia).
  pose proof (Z.div_pos (LN_FEE_COMMIT_BASE * feerate_per_kw self) 1000 ltac:(lia) ltac:(lia)).
  pose proof (Z.mul_div_le (LN_FEE_COMMIT_BASE * feerate_per_kw self) 1000 ltac:(lia)).
  rewrite wrap_small by (unfold in_range; lia). lia.
Qed.

(** The result of the checks from whether the HTLC is let through. *)
Definition offer_result (ok : bool) (self : ln_self_t) : out ln_self_t bool :=
  if ok then
    if existsb LN_HTLC_EMPTY (cnl_add_htlc self) then Ret true self
    else Ret false (set_err (Some LNERR_HTLC_FULL) self)
  else Ret false (set_err (Some LNERR_INV_VALUE) self).

Lemma offer_check_spec self a c :
  offer_state self → 0 ≤ a →
  call (create_add_htlc_checks a c) self =
  offer_result (bool_decide (let_through self a c (u64 (a + reserve_msat self))
                               (u64 (a + fee_msat self)))) self.
Proof.
  intros (Hr & Hf & Hpos & Hp) Ha. destruct (fee_exact self Hf) as [Ef Hfee].
  unfold call, create_add_htlc_checks. rewrite run_get. cbv zeta. rewrite Ef.
  unfold satoshi2msat. rewrite (Z.mul_comm _ 1000). fold (reserve_msat self).
  rewrite (wrap_small 64 (reserve_msat self)) by done.
  generalize (u64 (a + reserve_msat self)) (u64 (a + fee_msat self)). intros wr wf.
  unfold in_flight_msat. rewrite in_flight_pending by (done || lia). rewrite Z.add_0_l.
  rewrite !run_fail_if. unfold let_through, offer_result.
  rewrite find_htlc_none.
  repeat match goal with
  | |- context [if ?x <=? ?y then Ret false _ else _] => destruct (Z.leb_spec x y)
  | |- context [if ?x <? ?y then Ret false _ else _] => destruct (Z.ltb_spec x y)
  | |- context [(?x =? 0) || _] => destruct (Z.eqb_spec x 0); cbn [orb]
  end.
  all: try (rewrite bool_decide_eq_false_2 by lia; reflexivity).
  rewrite bool_decide_eq_true_2 by lia. by destruct (existsb LN_HTLC_EMPTY (cnl_add_htlc self)).
Qed.

(** The sender's checks are exact while the sums fit 64 bits: an HTLC is let
    through exactly when it is [offerable] and a slot is free; then nothing
    changes, and otherwise only the error is recorded. *)
Theorem offer_check_exact self amount_msat cltv_value :
  offer_state self → 0 ≤ amount_msat →
  amount_msat + reserve_msat self < 2 ^ 64 → amount_msat + fee_msat self < 2 ^ 64 →
  call (create_add_htlc_checks amount_msat cltv_value) self =
  offer_result (bool_decide (offerable self amount_msat cltv_value)) self.
Proof.
  intros Hs Ha Hr Hf. rewrite offer_check_spec by done. unfold offerable.
  destruct Hs as (? & Hfee & _). pose proof (proj2 (fee_exact self Hfee)).
  by rewrite !wrap_small by (unfold in_range; lia).
Qed.

(** the sums do not always fit: an HTLC of [2 ^ 64 - 1] millisatoshi, more than
    any balance, passes the checks of every channel that could offer one of
    its reserve and one of its closing fee. *)
Theorem offer_check_wraps self cltv_value :
  offer_state self → in_range 64 (our_msat self) → cltv_value < BTC_TX_LOCKTIME_LIMIT →
  0 < reserve_msat self ≤ our_msat self → 0 < fee_msat self ≤ our_msat self →
  htlc_num (commit_remote self) < max_accepted_htlcs (commit_remote self) →
  htlc_minimum_msat (commit_remote self) < 2 ^ 64 →
  pending LN_ADDHTLC_OFFER (cnl_add_htlc self) ≤ max_htlc_value_in_flight_msat (commit_remote self) →
  existsb LN_HTLC_EMPTY (cnl_add_htlc self) = true →
  call (create_add_htlc_checks (2 ^ 64 - 1) cltv_value) self = Ret true self.
Proof.
  intros Hs Ho Hc Hr Hf Hn Hm Hp He. rewrite offer_check_spec by (done || lia).
  assert (∀ x, 0 < x ≤ our_msat self → u64 (2 ^ 64 - 1 + x) = x - 1) as wraps.
  { intros x Hx. unfold in_range in Ho. replace (2 ^ 64 - 1 + x) with (x - 1 + 1 * 2 ^ 64) by lia.
    unfold wrap. rewrite Z.mod_add, Z.mod_small by lia. done. }
  rewrite !wraps by done. unfold offer_result.
  rewrite bool_decide_eq_true_2 by (unfold let_through; lia). by rewrite He.
Qed.

(** ** The receiver's checks *)

Lemma high_half a : in_range 64 a → (Z.land a 0xffffffff00000000 =? 0) = (a <? 2 ^ 32).
Proof.
  intros Ha. assert (Z.land a 0xffffffff00000000 = Z.shiftl (Z.shiftr a 32) 32) as ->.
  { rewrite <- Z.ldiff_ones_r by lia. apply Z.bits_inj'. intros n Hn.
    rewrite Z.land_spec, Z.ldiff_spec.
    change 0xffffffff00000000 with (Z.shiftl (Z.ones 32) 32).
    rewrite Z.shiftl_spec by lia.
    destruct (Z.lt_ge_cases n 64) as [H|H].
    - rewrite (Z.testbit_ones_nonneg 32 n) by lia.
      destruct (Z.lt_ge_cases n 32); [rewrite (Z.testbit_neg_r _ (n - 32)) by lia|rewrite (Z.testbit_ones_nonneg 32) by lia].
      + rewrite (proj2 (Z.ltb_lt _ _)) by lia. by destruct (Z.testbit a n).
      + rewrite (proj2 (Z.ltb_lt _ _)), (proj2 (Z.ltb_ge _ _)) by lia. done.
    - rewrite <- (Z.mod_small a (2 ^ 64)) by done. by rewrite Z.mod_pow2_bits_high by lia. }
  rewrite Z.shiftl_mul_pow2, Z.shiftr_div_pow2 by lia. unfold in_range in Ha.
  destruct (Z.ltb_spec a (2 ^ 32)).
  - by rewrite Z.div_small by lia.
  - apply Z.eqb_neq. pose proof (Z.div_le_lower_bound a (2 ^ 32) 1 ltac:(lia) ltac:(lia)). lia.
Qed.

(** What the receiver asks of an HTLC. *)
Definition acceptable (self : ln_self_t) (h : htlc) : Prop :=
  htlc_minimum_msat (commit_local self) ≤ amount_msat h ≤ their_msat self ∧
  amount_msat h < 2 ^ 32 ∧ UpdateAddHtlc.cltv_expiry h < BTC_TX_LOCKTIME_LIMIT ∧
  htlc_num (commit_local self) ≤ max_accepted_htlcs (commit_local self) ∧
  pending LN_ADDHTLC_OFFER (cnl_add_htlc self) ≤ max_htlc_value_in_flight_msat (commit_local self).

#[global] Instance acceptable_dec self h : Decision (acceptable self h).
Proof. unfold acceptable. apply _. Defined.

(** The receiver's checks let an HTLC through exactly when it is [acceptable]
    and no shutdown has been received. Against what the function's comments
    say, an amount of 0 passes when the minimum is 0, one HTLC more than
    [max_accepted_htlcs] fits, and the value in flight is that of the HTLCs the
    receiver itself has offered. *)
Theorem recv_check_exact self h :
  in_range 64 (amount_msat h) → Forall (λ h, 0 ≤ amount_msat h) (cnl_add_htlc self) →
  pending LN_ADDHTLC_OFFER (cnl_add_htlc self) < 2 ^ 64 →
  call (check_recv_add_htlc_bolt2 h) self =
    if negb (Z.land (shutdown_flag self) LN_SHDN_FLAG_RECV =? 0)
    then Ret false (set_err (Some LNERR_INV_STATE) self)
    else if bool_decide (acceptable self h) then Ret true self
    else Ret false (set_err (Some LNERR_INV_VALUE) self).
Proof.
  intros Ha Hpos Hp. unfold call, check_recv_add_htlc_bolt2. rewrite run_get.
  unfold in_flight_msat. rewrite in_flight_pending by (done || lia). rewrite Z.add_0_l.
  rewrite !run_fail_if, high_half by done. unfold acceptable.
  destruct (negb _); [done|].
  repeat match goal with
  | |- context [if ?x <=? ?y then Ret false _ else _] => destruct (Z.leb_spec x y)
  | |- context [if ?x <? ?y then Ret false _ else _] => destruct (Z.ltb_spec x y)
  | |- context [negb (?x <? ?y)] => destruct (Z.ltb_spec x y); cbn [negb]
  end.
  all: try (rewrite bool_decide_eq_false_2 by lia; reflexivity).
  by rewrite bool_decide_eq_true_2 by lia.
Qed.

(** ** An accepted offer *)

Section accepted.
Context {L : EnvLaws E}.

Lemma htlc_alloccopy_step {B} b p (K : utl_buf_t → M B) self :
  (alloccopy b p (Z.of_nat (length p)) ≫= K) self =
  K (if bool_decide (p = []) then mk_buf None 0 else of_bytes p) self.
Proof.
  apply bind_ret. unfold alloccopy. pose proof (alloccopy_bytes b p []) as H.
  rewrite app_nil_r in H. by rewrite H.
Qed.

(** The slot as [set_add_htlc] fills it. *)
Definition new_htlc (self : ln_self_t) (h : htlc) (pPacket : bytes) (AmountMsat CltvValue : Z)
    (pPaymentHash : bytes) (PrevShortChannelId PrevIdx : Z) (pSharedSecrets : bytes) : htlc :=
  UpdateAddHtlc.mk (channel_id self) (htlc_id_num self) AmountMsat CltvValue pPaymentHash
    (UpdateAddHtlc.buf_payment_preimage h) (of_bytes pPacket) (bits h)
    (UpdateAddHtlc.next_short_channel_id h) (UpdateAddHtlc.next_idx h)
    (UpdateAddHtlc.signature h) PrevShortChannelId PrevIdx (of_bytes pSharedSecrets).

(** The channel with the slot between [pre] and [post] changed to [h], and the id
    of the next HTLC. *)
Definition with_slot (pre : list htlc) (h : htlc) (post : list htlc) (self : ln_self_t) : ln_self_t :=
  set_cnl_add_htlc (pre ++ h :: post) (set_htlc_id_num (u64 (htlc_id_num self + 1)) self).

(** The first slot the search accepts. *)
Lemma find_first p pre h post k :
  Forall (λ x, p x = false) pre → p h = true →
  find_htlc p k (pre ++ h :: post) = Some (k + length pre)%nat.
Proof.
  intros Hpre Hh. revert k. induction Hpre as [|x pre Hx _ IH]; intros k; cbn [app find_htlc length].
  - by rewrite Hh, Nat.add_0_r.
  - by rewrite Hx, IH, Nat.add_succ_r.
Qed.

Section slot.
Context (self : ln_self_t) (pre : list htlc) (h : htlc) (post : list htlc).
Context (Hs : cnl_add_htlc self = pre ++ h :: post).

Lemma fill_htlc_step {B} id pPacket a c hash sid idx secrets (K : unit → M B) :
  length pPacket = Z.to_nat LN_SZ_ONION_ROUTE → secrets ≠ [] →
  (fill_htlc (length pre) id pPacket a c hash sid idx (Some secrets) ≫= K) self =
  K tt (set_cnl_add_htlc (pre ++ UpdateAddHtlc.mk (channel_id self) id a c hash
          (UpdateAddHtlc.buf_payment_preimage h) (of_bytes pPacket) (bits h)
          (UpdateAddHtlc.next_short_channel_id h) (UpdateAddHtlc.next_idx h)
          (UpdateAddHtlc.signature h) sid idx (of_bytes secrets) :: post) self).
Proof.
  intros Hpk Hsec. apply bind_ret. unfold fill_htlc.
  rewrite get_st_step, (get_htlc_step _ _ _ _ _ Hs).
  replace LN_SZ_ONION_ROUTE with (Z.of_nat (length pPacket)) by lia.
  rewrite htlc_alloccopy_step, bool_decide_eq_false_2 by (intros ->; cbn in Hpk; lia).
  cbv zeta. rewrite htlc_alloccopy_step, bool_decide_eq_false_2 by done.
  unfold mod_htlc, modify. by rewrite Hs, alter_middle.
Qed.

(** The trial transaction sees the HTLC as sent; afterwards its flags are as
    before. *)
Lemma trial_step {B} (K : bool → M B) :
  let trial := set_cnl_add_htlc
    (pre ++ UpdateAddHtlc.set_stat_bits (Z.lor LN_ADDHTLC_OFFER (Z.shiftl 1 4)) h :: post) self in
  let ret := rt_ret (create_to_remote trial (commit_remote self)
                       (u64 (commit_num (commit_remote self) + 1))) in
  (check_create_remote_commit_tx (length pre) ≫= K) self =
  K ret (if ret then self else set_err (Some LNERR_MSG_ERROR) self).
Proof.
  cbv zeta. apply bind_ret. unfold check_create_remote_commit_tx.
  rewrite get_st_step, (get_htlc_step _ _ _ _ _ Hs), (mod_htlc_step _ _ _ _ _ _ Hs), get_st_step.
  cbv zeta. erewrite mod_htlc_step by reflexivity.
  replace (UpdateAddHtlc.set_stat_bits _ (UpdateAddHtlc.set_stat_bits _ h)) with h by (by destruct h).
  destruct (rt_ret _); unfold mret, prog_ret; destruct self; cbn in *; by rewrite Hs.
Qed.
Context (Hpre : Forall (λ x, LN_HTLC_EMPTY x = false) pre) (Hh : LN_HTLC_EMPTY h = true).

Lemma check_create_step {B} a c (K : option nat * option utl_buf_t → M B) :
  offer_state self → 0 ≤ a → a + reserve_msat self < 2 ^ 64 → a + fee_msat self < 2 ^ 64 →
  offerable self a c →
  (check_create_add_htlc None a c ≫= K) self = K (Some (length pre), None) self.
Proof.
  intros Hst Ha Hr Hf Ho. apply bind_ret. unfold check_create_add_htlc.
  rewrite (bind_ret true _ _ _ self).
  - by rewrite gets_step, Hs, find_first by done.
  - rewrite offer_check_spec by done. unfold offer_result.
    destruct Hst as (? & Hfee & _). pose proof (proj2 (fee_exact self Hfee)).
    rewrite !wrap_small by (unfold in_range; lia). rewrite bool_decide_eq_true_2 by done.
    by rewrite Hs, existsb_app; cbn [existsb]; rewrite Hh, orb_true_r.
Qed.
End slot.

(** A request to offer an HTLC that the checks let through fills the first
    free slot with it under a fresh id and marks the slot as offered, unless the
    commitment transaction with the new HTLC cannot be made: then the slot is
    empty again and the error is recorded. Nothing is sent, no other slot, no
    balance and no key changes. *)
Theorem add_htlc_set_effect self pre h post pPacket a c hash sid idx secrets :
  shutdown_flag self = 0 →
  offer_state self → 0 ≤ a → a + reserve_msat self < 2 ^ 64 → a + fee_msat self < 2 ^ 64 →
  offerable self a c →
  cnl_add_htlc self = pre ++ h :: post → Forall (λ x, LN_HTLC_EMPTY x = false) pre →
  LN_HTLC_EMPTY h = true → length pPacket = Z.to_nat LN_SZ_ONION_ROUTE → secrets ≠ [] →
  let h' := new_htlc self h pPacket a c hash sid idx secrets in
  let trial := with_slot pre (UpdateAddHtlc.set_stat_bits (Z.lor LN_ADDHTLC_OFFER (Z.shiftl 1 4)) h')
                 post self in
  ln_add_htlc_set None pPacket a c hash sid idx (Some secrets) self =
    if rt_ret (create_to_remote trial (commit_remote self) (u64 (commit_num (commit_remote self) + 1)))
    then Ret (Some (length pre, htlc_id_num self), None)
           (with_slot pre (set_addhtlc LN_ADDHTLC_OFFER h') post self)
    else Ret (None, None)
           (set_trace (trace self ++ [DB_PREIMG_DEL (buf (UpdateAddHtlc.buf_payment_preimage h))])
              (set_err (Some LNERR_MSG_ERROR) (with_slot pre no_htlc post self))).
Proof.
  intros Hsd Hst Ha Hr Hf Ho Hs Hpre Hh Hpk Hsec. cbv zeta.
  unfold ln_add_htlc_set. rewrite get_st_step, Hsd. cbn [Z.eqb negb].
  unfold set_add_htlc. rewrite bind_assoc.
  rewrite (check_create_step _ _ _ _ Hs Hpre Hh) by done. cbv beta iota.
  rewrite bind_assoc, gets_step, bind_assoc, bind_modify, bind_assoc.
  rewrite (fill_htlc_step _ pre h post) by done.
  rewrite bind_assoc. erewrite trial_step by reflexivity.
  fold (new_htlc self h pPacket a c hash sid idx secrets).
  set (h' := new_htlc _ _ _ _ _ _ _ _ _).
  change (set_cnl_add_htlc _ (set_htlc_id_num _ self)) with (with_slot pre h' post self).
  lazymatch goal with |- _ = (if ?b then _ else _) => set (ok := b) end.
  repeat match goal with |- context [rt_ret ?x] => change (rt_ret x) with ok end.
  destruct ok.
  - rewrite bind_mret. cbn [fst]. by erewrite mod_htlc_step by reflexivity.
  - unfold M_SET_ERR, clear_htlc. rewrite !bind_assoc, bind_modify, !bind_assoc.
    erewrite get_htlc_step by reflexivity. rewrite bind_assoc, emit_step.
    by erewrite mod_htlc_step by reflexivity.
Qed.
End accepted.
End offer.

(** A channel with 3,000,000 msat on our side, one HTLC of 1,000,000 msat offered. *)
Definition rich : ln_self_t :=
  set_htlc_id_num 6 (set_shutdown_flag 0
    (LnToy.node 3000000 1000000 (LnToy.slots [LnToy.an_htlc 0x1f1 1000000]))).

Lemma offer_check_exact_witness :
  offer_state rich ∧
  call (create_add_htlc_checks 1000000 400000) rich = Ret true rich ∧
  call (create_add_htlc_checks 2500000 400000) rich = Ret false (set_err (Some LNERR_INV_VALUE) rich).
Proof.
  split; [by_compute|].
  split; (rewrite (offer_check_exact rich _ 400000); [reflexivity|by_compute..]).
Defined.

Lemma offer_check_wraps_witness :
  0 < reserve_msat rich ≤ our_msat rich ∧
  call (create_add_htlc_checks (2 ^ 64 - 1) 400000) rich = Ret true rich.
Proof. split; [by_compute|]. apply (offer_check_wraps rich 400000); by_compute. Defined.

(** The comment says an amount of 0 is refused. *)
Lemma recv_check_exact_witness :
  call (check_recv_add_htlc_bolt2 (LnToy.an_htlc 0 0))
    (set_commit_local (set_htlc_minimum_msat 0 (commit_local rich)) rich) =
  Ret true (set_commit_local (set_htlc_minimum_msat 0 (commit_local rich)) rich).
Proof.
  rewrite (recv_check_exact (set_commit_local (set_htlc_minimum_msat 0 (commit_local rich)) rich)
             (LnToy.an_htlc 0 0)); [reflexivity|by_compute..].
Defined.

Lemma add_htlc_set_effect_witness :
  ∃ self', @ln_add_htlc_set LnToy.env None (replicate 1366 0) 1000000 400000 (replicate 32 4) 0 0
             (Some [7]) rich = Ret (Some (1%nat, 6), None) self' ∧
    htlc_id_num self' = 7 ∧ pending LN_ADDHTLC_OFFER (cnl_add_htlc self') = 2000000.
Proof.
  eexists. split.
  - apply (@add_htlc_set_effect LnToy.env LnToy.env_laws rich [LnToy.an_htlc 0x1f1 1000000] no_htlc
             (replicate 4 no_htlc) (replicate 1366 0) 1000000 400000 (replicate 32 4) 0 0 [7]);
      try reflexivity; by_compute.
  - split; reflexivity.
Defined.

End LnOffer.
