(* ===== verification/LnForward.v ===== *)
(** An incoming HTLC after BOLT 2: [recv_update_add_htlc] of [ln/ln.c], with the
    checks of BOLT 4 it makes for the final node
    ([check_recv_add_htlc_bolt4_final]) and for a node that forwards
    ([check_recv_add_htlc_bolt4_forward]).

    A failed check pushes the failure message for the origin; the push cursor
    is returned next to the result. *)
From stdpp Require Import base list numbers tactics.
From Stdlib Require Import ZArith Lia.
From S2P Require Import Prelude CProg UtlInt UtlBuf UtlPush LnDerkey LnMisc LnOnion LnMsg.
From S2P Require Import LnMsgNormal LnMsgEstablish LnMsgAnno LnHtlc LnSelf LnNormal LnAddHtlc.
Import UtlInt UtlBuf UtlPush ShaChain Derkey LnMisc LnMsg LnMsgNormal LnMsgEstablish LnMsgAnno.
Import LnOnion LnHtlc LnSelf LnNormal LnAddHtlc.
Open Scope Z_scope.

Module LnForward.

Abbreviation M_HYSTE_CLTV_EXPIRY_MIN := 7.
Abbreviation M_HYSTE_CLTV_EXPIRY_SOON := 1.
Abbreviation M_HYSTE_CLTV_EXPIRY_FAR := 2160.
Abbreviation LN_MIN_FINAL_CLTV_EXPIRY := 9.
Abbreviation LN_SHDN_FLAG_SEND := 0x01.
Abbreviation UINT32_MAX := 0xffffffff.
Abbreviation UINT64_MAX := 0xffffffffffffffff.

(** [self->anno_prm] *)
Record ln_anno_prm_t := mk_anno_prm {
  prm_cltv_expiry_delta : Z;
  prm_htlc_minimum_msat : Z;
  prm_fee_base_msat : Z;
  prm_fee_prop_millionths : Z;
}.

(** The channel an HTLC is forwarded to, as far as the check reads it:
    [commit_remote.htlc_minimum_msat], whether the status is
    [LN_STATUS_NORMAL], and [anno_prm]. *)
Record next_self := mk_next {
  next_htlc_minimum_msat : Z;
  next_normal : bool;
  next_anno_prm : ln_anno_prm_t;
}.

(** A row of the invoice table ([preimg_info_t] under its key). *)
Record preimg_info := mk_preimg {
  pi_preimage : bytes;
  pi_amount : Z;
  pi_creation : Z;
  pi_expiry : Z;
}.

(** What the application answers to [LN_CB_ADD_HTLC_RECV]. *)
Record add_htlc_recv := mk_add_htlc_recv { ahr_ret : bool; ahr_idx : Z }.

(** The rest of the node, as an incoming HTLC sees it. *)
Class Node := {
  (* the private key of the node, for the shared secret of an onion *)
  node_priv : bytes;
  time_now : Z;
  (* the rows a cursor over the invoice table meets *)
  preimg_rows : list preimg_info;
  ln_node_search_nodeid : Z → option bytes;
  (* [self->anno_prm] of the channel itself *)
  anno_prm : ln_anno_prm_t;
  (* the answers of the application *)
  cb_getblockcount : Z;
  cb_add_htlc_recv_prev : Z → option next_self;
  cb_add_htlc_recv : htlc → ln_hop_dataout_t → add_htlc_recv;
}.

Section forward.
Context {E : Env} {N : Node}.

(** Run a reader of onions on the failure message; it never stops early. *)
Definition with_reason {B} (m : prog utl_push_t B) (pPushReason : utl_push_t) : M (B * utl_push_t) := λ s,
  match m pPushReason with
  | Ret x reason => Ret (x, reason) s
  | Exit _ _ | UB => UB
  | AbortOut => AbortOut
  end.

(** Push onto the failure message. *)
Definition on_reason (m : prog utl_push_t unit) (pPushReason : utl_push_t) : M utl_push_t :=
  r ← on_local (m;; mret true) pPushReason; mret r.2.

(** [M_SET_ERR], a failure message, [return false]. *)
Definition refuse (m : prog utl_push_t unit) (pPushReason : utl_push_t) : M (bool * utl_push_t) :=
  M_SET_ERR LNERR_INV_VALUE;; reason ← on_reason m pPushReason; mret (false, reason).

(** ** The final node *)

(** [ln_db_preimg_cur_get]: whether the row is still valid. *)
Definition preimg_valid (row : preimg_info) : bool :=
  (pi_expiry row =? UINT32_MAX) || (time_now <=? u64 (pi_creation row + pi_expiry row)).

(** The loop over the invoices; rows that have expired are deleted on the way. *)
Fixpoint preimg_search (rows : list preimg_info) (payment_sha256 : bytes) : M (option preimg_info) :=
  match rows with
  | [] => mret None
  | row :: rows =>
      if preimg_valid row then
        if bool_decide (btc_util_sha256 (pi_preimage row) = payment_sha256) then mret (Some row)
        else preimg_search rows payment_sha256
      else
        emit (DB_PREIMG_DEL (Some (init_cells (pi_preimage row))));;
        preimg_search rows payment_sha256
  end.

(** The result and the failure message, and [pPreImage] when true. *)
Definition check_recv_add_htlc_bolt4_final (pDataOut : ln_hop_dataout_t) (pPushReason : utl_push_t)
    (pAddHtlc : htlc) (Height : Z) : M (bool * utl_push_t * bytes) :=
  found ← preimg_search preimg_rows (UpdateAddHtlc.payment_sha256 pAddHtlc);
  match found with
  | None =>
      r ← refuse (ln_misc_push16be LNONION_UNKNOWN_PAY_HASH) pPushReason; mret (r, [])
  | Some preimg =>
      let pPreImage := pi_preimage preimg in
      r ←
        (if amount_msat pAddHtlc <? pi_amount preimg then
           refuse (ln_misc_push16be LNONION_INCORR_PAY_AMT) pPushReason
         else if u64 (pi_amount preimg * 2) <? amount_msat pAddHtlc then
           refuse (ln_misc_push16be LNONION_INCORR_PAY_AMT) pPushReason
         else if (u32 (outgoing_cltv_value pDataOut + M_HYSTE_CLTV_EXPIRY_SOON) <?
                  u32 (u32 Height + LN_MIN_FINAL_CLTV_EXPIRY)) ||
                 (outgoing_cltv_value pDataOut <? u32 (u32 Height + M_HYSTE_CLTV_EXPIRY_MIN)) then
           refuse (ln_misc_push16be LNONION_FINAL_EXPIRY_TOO_SOON) pPushReason
         else if negb (outgoing_cltv_value pDataOut =? UpdateAddHtlc.cltv_expiry pAddHtlc) then
           refuse (ln_misc_push16be LNONION_FINAL_INCORR_CLTV_EXP;;
                   ln_misc_push32be (outgoing_cltv_value pDataOut)) pPushReason
         else if amount_msat pAddHtlc <? amt_to_forward pDataOut then
           refuse (ln_misc_push16be LNONION_FINAL_INCORR_HTLC_AMT;;
                   ln_misc_push32be (amount_msat pAddHtlc)) pPushReason
         else mret (true, pPushReason));
      mret (r, pPreImage)
  end.

(** ** A node that forwards *)

(** [ln_forward_fee(self, AmountMsat)], of the channel the HTLC came in on. *)
Definition ln_forward_fee (AmountMsat : Z) : Z :=
  u64 (prm_fee_base_msat anno_prm + u64 (AmountMsat * prm_fee_prop_millionths anno_prm) / 1000000).

(** The failure code and the channel_update. *)
Definition push_update (code : Z) (cnlupd_buf : bytes) : prog utl_push_t unit :=
  ln_misc_push16be code;;
  ln_misc_push16be (u16 (Z.of_nat (length cnlupd_buf)));;
  push_bytes cnlupd_buf (Z.of_nat (length cnlupd_buf)).

(** The channel_update of the outgoing channel, read and as received. *)
Definition outgoing_update (pDataOut : ln_hop_dataout_t) : M (option (CnlUpdate.t * bytes)) :=
  match ln_node_search_nodeid (hop_short_channel_id pDataOut) with
  | None => mret None
  | Some peer_id =>
      let dir := if negb (sort_nodeid_loop ln_node_getid peer_id) then 0 else 1 in
      match ln_db_annocnlupd_load (hop_short_channel_id pDataOut) dir with
      | None => mret None
      | Some cnlupd_buf =>
          r ← on_local (CnlUpdate.ln_msg_cnl_update_read gGenesisChainHash cnlupd_buf
                          (u16 (Z.of_nat (length cnlupd_buf)))) (CnlUpdate.mk 0 0 0 0 0 0 0 0);
          let '(ret, cnlupd) := r in
          mret (if (ret : bool) then Some (cnlupd, cnlupd_buf) else None)
      end
  end.

Definition check_recv_add_htlc_bolt4_forward (pDataOut : ln_hop_dataout_t) (pPushReason : utl_push_t)
    (pAddHtlc : htlc) (Height : Z) : M (bool * utl_push_t) :=
  p_next_self ←
    (if negb (hop_short_channel_id pDataOut =? 0)
     then emit (LN_CB_ADD_HTLC_RECV_PREV (hop_short_channel_id pDataOut));;
          mret (cb_add_htlc_recv_prev (hop_short_channel_id pDataOut))
     else mret None);
  match p_next_self with
  | None => refuse (ln_misc_push16be LNONION_UNKNOWN_NEXT_PEER) pPushReason
  | Some next =>
      if negb (next_normal next) then
        refuse (ln_misc_push16be LNONION_UNKNOWN_NEXT_PEER) pPushReason
      else
        upd ← outgoing_update pDataOut;
        match upd with
        | None => refuse (ln_misc_push16be LNONION_UNKNOWN_NEXT_PEER) pPushReason
        | Some (cnlupd, cnlupd_buf) =>
            let amt := amt_to_forward pDataOut in
            let cltv := UpdateAddHtlc.cltv_expiry pAddHtlc in
            let delta := CnlUpdate.cltv_expiry_delta cnlupd in
            if amt <? next_htlc_minimum_msat next then
              refuse (push_update LNONION_AMT_BELOW_MIN cnlupd_buf) pPushReason
            else if amount_msat pAddHtlc <? u64 (amt + ln_forward_fee amt) then
              refuse (push_update LNONION_FEE_INSUFFICIENT cnlupd_buf) pPushReason
            else if (cltv <=? outgoing_cltv_value pDataOut) ||
                    (u32 (cltv + prm_cltv_expiry_delta (next_anno_prm next)) <?
                     outgoing_cltv_value pDataOut) then
              refuse (push_update LNONION_INCORR_CLTV_EXPIRY cnlupd_buf) pPushReason
            else if (u32 (cltv + M_HYSTE_CLTV_EXPIRY_SOON) <? u32 (u32 Height + delta)) ||
                    (cltv <? u32 (u32 Height + M_HYSTE_CLTV_EXPIRY_MIN)) then
              refuse (push_update LNONION_EXPIRY_TOO_SOON cnlupd_buf) pPushReason
            else if u32 (u32 Height + delta + M_HYSTE_CLTV_EXPIRY_FAR) <? cltv then
              refuse (ln_misc_push16be LNONION_EXPIRY_TOO_FAR) pPushReason
            else mret (true, pPushReason)
        end
  end.

Definition check_recv_add_htlc_bolt4_common (pPushReason : utl_push_t) : M (bool * utl_push_t) :=
  self ← get_st;
  if negb (Z.land (shutdown_flag self) LN_SHDN_FLAG_SEND =? 0) then
    M_SET_ERR LNERR_INV_STATE;;
    reason ← on_reason (ln_misc_push16be LNONION_PERM_CHAN_FAIL) pPushReason;
    mret (false, reason)
  else mret (true, pPushReason).

End forward.

(** ** The handler *)

Inductive ln_cb_add_htlc_result_t :=
| LN_CB_ADD_HTLC_RESULT_OK
| LN_CB_ADD_HTLC_RESULT_FAIL
| LN_CB_ADD_HTLC_RESULT_MALFORMED.

#[export] Instance result_eq_dec : EqDecision ln_cb_add_htlc_result_t.
Proof. solve_decision. Defined.

Section handler.
Context {E : Env} {N : Node}.

(** [ln_onion_read_packet] in place: the next packet replaces the packet. *)
Definition read_onion (idx : nat) (push_htlc : utl_push_t) : M (bool * option ln_hop_dataout_t * utl_push_t) :=
  p_htlc ← get_htlc idx;
  packet ← of_option (read_cells (buf (UpdateAddHtlc.buf_onion_reason p_htlc)) LN_SZ_ONION_ROUTE);
  x ← with_reason (ln_onion_read_packet (O := env_onion) node_priv packet
                     (UpdateAddHtlc.payment_sha256 p_htlc)) push_htlc;
  let '(r, push_htlc) := x in
  match onr_secret r with
  | Some ss =>
      b ← alloccopy (UpdateAddHtlc.buf_shared_secret p_htlc) ss (Z.of_nat (length ss));
      mod_htlc idx (UpdateAddHtlc.set_buf_shared_secret b)
  | None => mret tt
  end;;
  match onr_next r with
  | Some next => mod_htlc idx (UpdateAddHtlc.set_buf_onion_reason (of_bytes next))
  | None => mret tt
  end;;
  mret (onr_ret r, onr_data r, push_htlc).

(** BOLT 4: the onion and what it asks for. The result of the check, what
    becomes of a refused HTLC, the onion's content (which a refused onion leaves
    unset) and the failure message. *)
Definition bolt4_checks (idx : nat) (push_htlc : utl_push_t)
    : M (bool * ln_cb_add_htlc_result_t * option ln_hop_dataout_t * utl_push_t) :=
  x ← read_onion idx push_htlc;
  let '(ret, hop_dataout, push_htlc) := x in
  if (ret : bool) then
    emit LN_CB_GETBLOCKCOUNT;;
    x ← (if 0 <? cb_getblockcount then
           p_htlc ← get_htlc idx;
           hop_dataout ← of_option hop_dataout;
           if b_exit hop_dataout then
             x ← check_recv_add_htlc_bolt4_final hop_dataout push_htlc p_htlc cb_getblockcount;
             let '(ret, push_htlc, preimage) := x in
             (if (ret : bool) then
                b ← alloccopy (UpdateAddHtlc.buf_payment_preimage p_htlc) preimage LN_SZ_PREIMAGE;
                mod_htlc idx (λ h,
                  UpdateAddHtlc.set_buf_onion_reason (utl_buf_free (UpdateAddHtlc.buf_onion_reason h))
                    (UpdateAddHtlc.set_buf_payment_preimage b
                       (UpdateAddHtlc.set_prev_short_channel_id UINT64_MAX h)))
              else mret tt);;
             mret (ret, push_htlc)
           else check_recv_add_htlc_bolt4_forward hop_dataout push_htlc p_htlc cb_getblockcount
         else M_SET_ERR LNERR_BITCOIND;; mret (false, push_htlc));
    mret (x.1, LN_CB_ADD_HTLC_RESULT_OK, hop_dataout, x.2)
  else
    M_SET_ERR LNERR_ONION;;
    code ← of_option (read_cells (buf (data push_htlc)) 2);
    failure_code ← of_option (utl_misc_be16 code);
    mod_htlc idx (λ h, UpdateAddHtlc.set_buf_onion_reason
                         (utl_buf_free (UpdateAddHtlc.buf_onion_reason h)) h);;
    mret (false,
          if negb (Z.land failure_code LNERR_ONION_BADONION =? 0)
          then LN_CB_ADD_HTLC_RESULT_MALFORMED else LN_CB_ADD_HTLC_RESULT_FAIL,
          hop_dataout, push_htlc).

(** The application is told of an HTLC that passed; it may still refuse it. Its answer is a
    function of the HTLC: that the callback can enter the channel again before it answers
    ([ln_fail_htlc_set]) is not modelled. *)
Definition notify_add_htlc (idx : nat) (hop_dataout : ln_hop_dataout_t) (push_htlc : utl_push_t)
    : M (ln_cb_add_htlc_result_t * utl_push_t) :=
  p_htlc ← get_htlc idx;
  emit (LN_CB_ADD_HTLC_RECV (UpdateAddHtlc.id p_htlc) (amount_msat p_htlc)
          (UpdateAddHtlc.cltv_expiry p_htlc) (Z.of_nat idx) (UpdateAddHtlc.payment_sha256 p_htlc));;
  let add_htlc := cb_add_htlc_recv p_htlc hop_dataout in
  if ahr_ret add_htlc then
    (if b_exit hop_dataout then mod_htlc idx (set_fin_delhtlc LN_DELHTLC_FULFILL)
     else mod_htlc idx (λ h, UpdateAddHtlc.set_next_idx (ahr_idx add_htlc)
                               (UpdateAddHtlc.set_next_short_channel_id
                                  (hop_short_channel_id hop_dataout) h)));;
    mret (LN_CB_ADD_HTLC_RESULT_OK, push_htlc)
  else
    self ← get_st;
    reason ← on_reason
      (match ln_channel_update_get_peer self with
       | Some buf_bolt => push_update LNONION_TMP_CHAN_FAIL buf_bolt
       | None => ln_misc_push16be LNONION_UNKNOWN_NEXT_PEER
       end) push_htlc;
    mret (LN_CB_ADD_HTLC_RESULT_FAIL, reason).

(** What the HTLC keeps of a failure until it is taken back. *)
Definition store_failure (idx : nat) (result : ln_cb_add_htlc_result_t) (buf_reason : utl_buf_t)
    : M unit :=
  match result with
  | LN_CB_ADD_HTLC_RESULT_OK => mret tt
  | LN_CB_ADD_HTLC_RESULT_FAIL =>
      mod_htlc idx (set_fin_delhtlc LN_DELHTLC_FAIL);;
      p_htlc ← get_htlc idx;
      b ← of_option (ln_onion_failure_create (O := env_onion)
                       (UpdateAddHtlc.buf_shared_secret p_htlc) buf_reason);
      mod_htlc idx (UpdateAddHtlc.set_buf_onion_reason b)
  | LN_CB_ADD_HTLC_RESULT_MALFORMED =>
      mod_htlc idx (set_fin_delhtlc LN_DELHTLC_MALFORMED);;
      p_htlc ← get_htlc idx;
      reason ← of_option (read_cells (buf buf_reason) (len buf_reason));
      b ← alloccopy (utl_buf_free (UpdateAddHtlc.buf_onion_reason p_htlc)) reason (len buf_reason);
      mod_htlc idx (UpdateAddHtlc.set_buf_onion_reason b)
  end.

(** The rest of the handler, once the message has been read into the slot [idx]. *)
Definition add_htlc_received (idx : nat) (ret : bool) (p_htlc : htlc) : M bool :=
  self ← get_st;
  fail_if (negb ret) LNERR_MSG_READ;;
  fail_if (negb (chk_channelid (UpdateAddHtlc.p_channel_id p_htlc) (channel_id self)))
    LNERR_INV_CHANNEL;;
  ret ← call (check_recv_add_htlc_bolt2 p_htlc);
  exit_if (negb ret) false;;
  x ← bolt4_checks idx (mk_push 0 UTL_BUF_INIT);
  let '(ret, result, hop_dataout, push_htlc) := x in
  x ← (if (ret : bool) then check_recv_add_htlc_bolt4_common push_htlc
       else mret (false, push_htlc));
  let '(ret, push_htlc) := x in
  let result := if negb ret && bool_decide (result = LN_CB_ADD_HTLC_RESULT_OK)
                then LN_CB_ADD_HTLC_RESULT_FAIL else result in
  mod_htlc idx (set_addhtlc LN_ADDHTLC_RECV);;
  x ← (if bool_decide (result = LN_CB_ADD_HTLC_RESULT_OK)
       then hop_dataout ← of_option hop_dataout; notify_add_htlc idx hop_dataout push_htlc
       else mret (result, push_htlc));
  let '(result, push_htlc) := x in
  store_failure idx result (data push_htlc);;
  mret true.

(** [p_htlc->p_channel_id] is a local array while the message is read. *)
Definition recv_update_add_htlc (pData : bytes) (Len : Z) : M bool :=
  self ← get_st;
  match find_htlc LN_HTLC_EMPTY 0 (cnl_add_htlc self) with
  | None => M_SET_ERR LNERR_HTLC_FULL;; mret false
  | Some idx =>
      p_htlc ← get_htlc idx;
      r ← on_local (UpdateAddHtlc.ln_msg_update_add_htlc_read pData Len)
            (UpdateAddHtlc.set_p_channel_id [] p_htlc);
      let '(ret, p_htlc) := r in
      mod_htlc idx (λ _, p_htlc);;
      add_htlc_received idx ret p_htlc
  end.

End handler.
End LnForward.
