(* ===== verification/LnToyNode.v ===== *)
(** A concrete forwarding node: the environment of [LnToy] with one announced
    outgoing channel, an invoice, and an application that takes every HTLC. *)
From stdpp Require Import base list numbers tactics.
From Stdlib Require Import ZArith Lia.
From S2P Require Import Prelude CProg UtlBuf LnDerkey LnMisc LnOnion LnMsg LnMsgAnno.
From S2P Require Import LnMsgNormal LnHtlc LnSelf LnNormal LnForward LnToy.
Import UtlBuf ShaChain Derkey LnMisc LnOnion LnMsg LnMsgNormal LnMsgAnno LnHtlc LnSelf LnNormal LnForward.
Open Scope Z_scope.

Module LnToyNode.

(** The channel_update of the channel 77: a delta of 144 blocks, a minimum of 1000
    and a fee of 500 and 100 millionths. *)
Definition channel_update : bytes :=
  be_bytes 2 MSGTYPE_CHANNEL_UPDATE ++ replicate 64 8 ++ replicate 32 6 ++ be_bytes 8 77 ++
  be_bytes 4 1500000000 ++ be_bytes 2 0 ++ be_bytes 2 144 ++ be_bytes 8 1000 ++
  be_bytes 4 500 ++ be_bytes 4 100.

Definition env : Env := {|
  btc_util_sha256 := LnToy.hash;
  curve := LnToy.group;
  alloc := total_alloc;
  ln_debug_get := 0;
  gGenesisChainHash := replicate 32 6;
  ln_node_getid := replicate 33 2;
  ln_db_annocnlupd_load := λ id _, if id =? 77 then Some channel_update else None;
  create_to_local := @create_to_local LnToy.env;
  create_to_remote := @create_to_remote LnToy.env;
  mbedtls_md_hmac := λ k m, LnToy.hash (k ++ m);
  chacha20_stream := λ k n, replicate n (nth 1 k 0);
|}.

#[export] Instance env_laws : EnvLaws env.
Proof. split; apply LnToy.env_laws. Qed.

Definition preimage : bytes := replicate 32 11.

(** An invoice of 40000 that does not expire, behind one that has. *)
Definition invoices : list preimg_info :=
  [mk_preimg (replicate 32 12) 40000 1000 3600; mk_preimg preimage 40000 1000 UINT32_MAX].

(** The node asks for the fee [base] and [prop]. *)
Definition node_of (base prop : Z) : Node := {|
  node_priv := be_bytes 32 77;
  time_now := 1500000000;
  preimg_rows := invoices;
  ln_node_search_nodeid := λ id, if id =? 77 then Some (replicate 33 3) else None;
  anno_prm := mk_anno_prm 36 1 base prop;
  cb_getblockcount := 399800;
  cb_add_htlc_recv_prev := λ id,
    if id =? 77 then Some (mk_next 1000 true (mk_anno_prm 144 1000 base prop)) else None;
  cb_add_htlc_recv := λ _ _, mk_add_htlc_recv true 0;
|}.

(** Forward [amt] on the channel 77. *)
Definition forward_hop (amt cltv : Z) : ln_hop_dataout_t := mk_hop false 77 amt cltv.

Definition final_hop : ln_hop_dataout_t := mk_hop true 0 40000 399900.

Definition node : Node := node_of 500 100.

(** An incoming HTLC. *)
Definition incoming (amount cltv : Z) (payment_hash : bytes) : htlc :=
  UpdateAddHtlc.mk (replicate 32 9) 5 amount cltv payment_hash UTL_BUF_INIT
    (of_bytes (replicate 1366 0)) 0 0 0 (replicate 64 0) 0 0 UTL_BUF_INIT.

End LnToyNode.
