(* ===== verification/LnRelay.v ===== *)
(** What the BOLT 4 checks of an incoming HTLC let through, and the failure
    message each violated rule sends back. *)
From stdpp Require Import base list numbers tactics.
From Stdlib Require Import ZArith Lia.
From S2P Require Import Prelude CProg UtlBuf UtlPush LnDerkey LnMisc LnOnion LnMsg LnMsgAnno.
From S2P Require Import LnMsgNormal LnHtlc LnSelf LnNormal LnAddHtlc LnForward LnToy LnToyNode.
Import UtlBuf UtlPush ShaChain Derkey LnMisc LnOnion LnMsg LnMsgNormal LnMsgAnno LnHtlc LnSelf LnNormal.
Import LnAddHtlc LnForward.
Open Scope Z_scope.

Module LnRelay.

(** The message of the first rule that is violated. *)
Fixpoint first_violated (rules : list (bool * bytes)) : option bytes :=
  match rules with
  | [] => None
  | (true, msg) :: _ => Some msg
  | (false, _) :: rules => first_violated rules
  end.

(** A failure message while it is being written. *)
Definition pushing (d : bytes) : utl_push_t := mk_push (Z.of_nat (length d)) (buf_of d).

Section relay.
Context {E : Env} {L : EnvLaws E} {N : Node}.

(** A null block grows like an empty one. *)
Lemma push_first {A : Alloc} {T : AllocTotal A} src :
  src ≠ [] → Z.of_nat (length src) < 2 ^ 31 →
  run (utl_push_data (init_cells src) (Z.of_nat (length src))) (pushing []) =
  run (utl_push_data (init_cells src) (Z.of_nat (length src))) (pushed [] 0).
Proof.
  intros Hne Hlt. assert (0 < Z.of_nat (length src)) by (destruct src; [done|cbn [length]; lia]).
  unfold utl_push_data. rewrite (wrap_small 32 (Z.of_nat (length src))) by (unfold in_range; lia).
  assert ((swrap 32 (u32 (0 - 0 - Z.of_nat (length src))) <? 0) = true) as Erest.
  { apply Z.ltb_lt. unfold swrap, wrap. rewrite Z.add_mod_idemp_l by lia.
    rewrite Z.mod_small by lia. lia. }
  prog_simpl.
  change (len (data (pushing []))) with 0. change (len (data (pushed [] 0))) with 0.
  change (pos (pushing [])) with 0. change (pos (pushed [] 0)) with 0.
  rewrite Erest. reflexivity.
Qed.

Lemma push_more {B} src d (K : unit → prog utl_push_t B) :
  src ≠ [] → Z.of_nat (length d) + Z.of_nat (length src) < 2 ^ 31 →
  (push_bytes src (Z.of_nat (length src)) ≫= K) (pushing d) = K tt (pushing (d ++ src)).
Proof.
  intros Hne Hlt. apply bind_ret. unfold push_bytes, call.
  rewrite (bind_ret true _ _ _ (pushing (d ++ src))); [done|].
  assert (∀ d, d ≠ [] → pushing d = pushed (init_cells d) (Z.of_nat (length d))) as full.
  { intros d' Hd. unfold pushing, buf_of, pushed. rewrite bool_decide_eq_false_2 by done.
    rewrite length_init_cells, Z.sub_diag. unfold of_bytes. change (junk 0) with (@nil cell).
    by rewrite app_nil_r. }
  rewrite (full (d ++ src)) by (by destruct d).
  pose proof (push_data_spec (init_cells d) (Z.of_nat (length d)) (init_cells src)) as H.
  rewrite !length_init_cells in H. rewrite init_cells_app, length_app, Nat2Z.inj_add.
  rewrite Z.max_r in H by lia. rewrite <- H by lia. destruct d as [|b d].
  - by apply push_first; [|cbn [length] in *; lia].
  - by rewrite full.
Qed.

Lemma on_reason_step {B} (m : prog utl_push_t unit) d d' (K : utl_push_t → M B) self :
  (m ≫= λ _, mret true) (pushing d) = Ret true (pushing d') →
  (on_reason m (pushing d) ≫= K) self = K (pushing d') self.
Proof.
  intros H. apply bind_ret. unfold on_reason. erewrite on_local_step; [done|].
  unfold run. by rewrite H.
Qed.

Lemma refuse_step (m : prog utl_push_t unit) d d' self :
  (m ≫= λ _, mret true) (pushing d) = Ret true (pushing d') →
  refuse m (pushing d) self = Ret (false, pushing d') (set_err (Some LNERR_INV_VALUE) self).
Proof. intros H. unfold refuse, M_SET_ERR. rewrite bind_modify. by erewrite on_reason_step. Qed.

(** ** The failure messages *)

Definition msg_code (code : Z) : bytes := be_bytes 2 code.
Definition msg_update (code : Z) (upd : bytes) : bytes :=
  be_bytes 2 code ++ be_bytes 2 (Z.of_nat (length upd)) ++ upd.

Lemma push_code {B} code d (K : unit → prog utl_push_t B) :
  Z.of_nat (length d) < 2 ^ 30 →
  (ln_misc_push16be code ≫= K) (pushing d) = K tt (pushing (d ++ msg_code code)).
Proof.
  intros Hd. rewrite push16be_eq. change 2 with (Z.of_nat (length (be_bytes 2 code))).
  apply push_more; [done|]. cbn; lia.
Qed.

Lemma push_code_done code d :
  Z.of_nat (length d) < 2 ^ 30 →
  (ln_misc_push16be code ≫= λ _, mret true) (pushing d) = Ret true (pushing (d ++ msg_code code)).
Proof. intros. by rewrite push_code. Qed.

Lemma push_update_done code upd d :
  Z.of_nat (length d) < 2 ^ 29 → upd ≠ [] → Z.of_nat (length upd) < 2 ^ 16 →
  (push_update code upd ≫= λ _, mret true) (pushing d) =
  Ret true (pushing (d ++ msg_update code upd)).
Proof.
  intros Hd Hne Hu. unfold push_update. rewrite bind_assoc, push_code, bind_assoc by lia.
  rewrite push_code by (unfold msg_code; rewrite length_app, length_be_bytes; lia).
  rewrite push_more.
  - unfold msg_code, msg_update. rewrite wrap_small by (unfold in_range; lia).
    by rewrite <- !app_assoc.
  - done.
  - unfold msg_code. rewrite !length_app, !length_be_bytes. lia.
Qed.

(** ** Forwarding *)

(** The channel_update [d] of the outgoing channel is in the database. *)
Definition update_known (hop : ln_hop_dataout_t) (d : bytes) : Prop :=
  ∃ peer_id, ln_node_search_nodeid (hop_short_channel_id hop) = Some peer_id ∧
  ln_db_annocnlupd_load (hop_short_channel_id hop)
    (if negb (sort_nodeid_loop ln_node_getid peer_id) then 0 else 1) = Some d ∧
  packet d ∧ CnlUpdate.ok gGenesisChainHash d = true.

Definition update_delta (d : bytes) : Z := be_val (sl d 112 2).

Lemma outgoing_update_step {B} hop d (K : option (CnlUpdate.t * bytes) → M B) self :
  update_known hop d →
  (outgoing_update hop ≫= K) self = K (Some (CnlUpdate.dec (CnlUpdate.mk 0 0 0 0 0 0 0 0) d, d)) self.
Proof.
  intros (peer & Hp & Hl & Hpk & Hok). unfold outgoing_update. rewrite Hp, Hl, bind_assoc.
  rewrite wrap_small by (destruct Hpk; unfold in_range; lia).
  rewrite (on_local_step _ _ _ _ _ _ (reads_as_true _ _ _
    (CnlUpdate.cnl_update_reads gGenesisChainHash) _ d Hpk Hok)).
  reflexivity.
Qed.

(** The fee asked for, in exact arithmetic. *)
Definition forward_fee (amt : Z) : Z :=
  prm_fee_base_msat anno_prm + amt * prm_fee_prop_millionths anno_prm / 1000000.

(** The rules a forwarded HTLC of [amt_in] with expiry [cltv] must meet when [need]
    is what it must bring in. That the expiry is later than the outgoing one by
    the outgoing channel's delta is not among them. *)
Definition forward_rules (next : next_self) (upd : bytes) (hop : ln_hop_dataout_t)
    (need amt_in cltv height : Z) : list (bool * bytes) :=
  [ (amt_to_forward hop <? next_htlc_minimum_msat next, msg_update LNONION_AMT_BELOW_MIN upd);
    (amt_in <? need, msg_update LNONION_FEE_INSUFFICIENT upd);
    (cltv <=? outgoing_cltv_value hop, msg_update LNONION_INCORR_CLTV_EXPIRY upd);
    ((cltv + 1 <? height + update_delta upd) || (cltv <? height + 7),
      msg_update LNONION_EXPIRY_TOO_SOON upd);
    (height + update_delta upd + 2160 <? cltv, msg_code LNONION_EXPIRY_TOO_FAR) ].

(** The sum of amount and fee does not wrap. *)
Definition fee_in_range (amt : Z) : Prop :=
  0 ≤ amt ∧ 0 ≤ prm_fee_base_msat anno_prm ∧ 0 ≤ prm_fee_prop_millionths anno_prm ∧
  amt * prm_fee_prop_millionths anno_prm < 2 ^ 64 ∧ amt + forward_fee amt < 2 ^ 64.

(** Block heights and expiries are in range. *)
Definition heights_in_range (next : next_self) (cltv height : Z) : Prop :=
  0 ≤ cltv < BTC_TX_LOCKTIME_LIMIT ∧ in_range 16 (prm_cltv_expiry_delta (next_anno_prm next)) ∧
  0 < height < 2 ^ 31.

(** What the check reports for the first violated rule. *)
Definition checked (r : option bytes) (d : bytes) (self : ln_self_t) : out ln_self_t (bool * utl_push_t) :=
  match r with
  | Some msg => Ret (false, pushing (d ++ msg)) (set_err (Some LNERR_INV_VALUE) self)
  | None => Ret (true, pushing d) self
  end.

Lemma update_delta_range d : packet d → 0 ≤ update_delta d < 2 ^ 16.
Proof.
  intros [Hd _]. unfold update_delta. pose proof (be_val_range (sl d 112 2) (sl_is_bytes _ _ _ Hd)).
  assert (length (sl d 112 2) ≤ 2)%nat by (unfold sl; rewrite length_take; lia).
  destruct (length (sl d 112 2)) as [|[|[|n]]]; cbn in *; lia.
Qed.

Lemma update_nonempty d : CnlUpdate.ok gGenesisChainHash d = true → d ≠ [].
Proof. by intros H ->. Qed.

(** What a forwarded amount must bring in, as the code computes it. *)
Definition need (amt : Z) : Z := u64 (amt + ln_forward_fee amt).

Lemma need_exact amt : fee_in_range amt → need amt = amt + forward_fee amt.
Proof.
  intros (Ha & Hb & Hp & Hm & Hs). unfold need. unfold ln_forward_fee, forward_fee in *.
  pose proof (Z.mul_nonneg_nonneg _ _ Ha Hp) as Hmul.
  pose proof (Z.div_pos _ 1000000 Hmul ltac:(lia)).
  rewrite (wrap_small 64 (amt * _)) by (unfold in_range; lia).
  rewrite (wrap_small 64 (prm_fee_base_msat anno_prm + _)) by (unfold in_range; lia).
  by rewrite wrap_small by (unfold in_range; lia).
Qed.

Lemma forward_check_spec hop d h height next upd self :
  Z.of_nat (length d) < 2 ^ 29 → hop_short_channel_id hop ≠ 0 →
  cb_add_htlc_recv_prev (hop_short_channel_id hop) = Some next → next_normal next = true →
  update_known hop upd → heights_in_range next (UpdateAddHtlc.cltv_expiry h) height →
  check_recv_add_htlc_bolt4_forward hop (pushing d) h height self =
  checked (first_violated (forward_rules next upd hop (need (amt_to_forward hop)) (amount_msat h) (UpdateAddHtlc.cltv_expiry h) height))
    d (set_trace (trace self ++ [LN_CB_ADD_HTLC_RECV_PREV (hop_short_channel_id hop)]) self).
Proof.
  intros Hd Hid Hn Hno Hu Hr. unfold check_recv_add_htlc_bolt4_forward.
  rewrite (proj2 (Z.eqb_neq _ _) Hid). cbn [negb]. rewrite bind_assoc, emit_step, bind_mret, Hn, Hno.
  cbn [negb]. rewrite (outgoing_update_step _ _ _ _ Hu). cbv zeta.
  fold (need (amt_to_forward hop)). clear Hn. destruct Hr as (Hc & Hdl & Hh). destruct Hu as (_ & _ & _ & Hpk & Hok).
  pose proof (update_delta_range _ Hpk). pose proof (update_nonempty _ Hok). destruct Hpk as [_ Hlen].
  change (CnlUpdate.cltv_expiry_delta (CnlUpdate.dec _ upd)) with (update_delta upd).
  unfold in_range in Hdl. rewrite (wrap_small 32 height) by (unfold in_range; lia).
  rewrite !(wrap_small 32) by (unfold in_range; lia).
  set (self' := set_trace _ self). unfold forward_rules.
  repeat match goal with
  | |- context [if ?x <? ?y then refuse _ _ else _] => destruct (Z.ltb_spec x y)
  | |- context [(?x <=? ?y) || (?z <? ?w)] =>
      destruct (Z.leb_spec x y); destruct (Z.ltb_spec z w); try lia; cbn [orb]
  | |- context [if (?x <? ?y) || (?z <? ?w) then _ else _] =>
      destruct ((x <? y) || (z <? w)) eqn:?
  end; cbn [first_violated checked].
  all: first
    [ done | apply refuse_step, push_update_done; done || lia | apply refuse_step, push_code_done; lia ].
Qed.

(** The channel an HTLC goes on to, with its channel_update: there is one when the
    onion names a channel of ours in normal operation whose peer is known, and the
    database has an update of it that can be read. *)
Definition next_hop (hop : ln_hop_dataout_t) : option (next_self * bytes) :=
  let id := hop_short_channel_id hop in
  if id =? 0 then None
  else
    next ← cb_add_htlc_recv_prev id;
    if negb (next_normal next) then None
    else
      peer_id ← ln_node_search_nodeid id;
      upd ← ln_db_annocnlupd_load id (if negb (sort_nodeid_loop ln_node_getid peer_id) then 0 else 1);
      if CnlUpdate.ok gGenesisChainHash upd then Some (next, upd) else None.

(** The database holds packets as they were received. *)
Definition db_packets : Prop := ∀ id dir upd, ln_db_annocnlupd_load id dir = Some upd → packet upd.

(** The channel the application is asked for, when the onion names one. *)
Definition prev_asked (hop : ln_hop_dataout_t) (self : ln_self_t) : ln_self_t :=
  if hop_short_channel_id hop =? 0 then self
  else set_trace (trace self ++ [LN_CB_ADD_HTLC_RECV_PREV (hop_short_channel_id hop)]) self.

Lemma next_hop_known hop next upd : db_packets → next_hop hop = Some (next, upd) →
  hop_short_channel_id hop ≠ 0 ∧ cb_add_htlc_recv_prev (hop_short_channel_id hop) = Some next ∧
  next_normal next = true ∧ update_known hop upd.
Proof.
  intros Hdb. unfold next_hop, update_known. destruct (Z.eqb_spec (hop_short_channel_id hop) 0); [done|].
  destruct (cb_add_htlc_recv_prev _) as [nx|]; [cbn|done]. destruct (next_normal nx) eqn:En; [cbn|done].
  destruct (ln_node_search_nodeid _) as [peer|]; [cbn|done].
  destruct (ln_db_annocnlupd_load _ _) as [u|] eqn:Eu; [cbn|done]. destruct (CnlUpdate.ok _ u) eqn:Eo; [|done].
  intros [= <- <-]. split_and!; try done. exists peer. split_and!; try done. by eapply Hdb.
Qed.

Lemma no_update_step {B} hop (K : option (CnlUpdate.t * bytes) → M B) self : db_packets →
  (peer_id ← ln_node_search_nodeid (hop_short_channel_id hop);
   upd ← ln_db_annocnlupd_load (hop_short_channel_id hop) (if negb (sort_nodeid_loop ln_node_getid peer_id) then 0 else 1);
   if CnlUpdate.ok gGenesisChainHash upd then Some upd else None) = None →
  (outgoing_update hop ≫= K) self = K None self.
Proof.
  intros Hdb. unfold outgoing_update. destruct (ln_node_search_nodeid _) as [peer|]; [cbn|done].
  destruct (ln_db_annocnlupd_load _ _) as [u|] eqn:Eu; [cbn|done]. destruct (CnlUpdate.ok _ u) eqn:Eo; [done|]. intros _.
  apply Hdb in Eu. pose proof (CnlUpdate.cnl_update_reads gGenesisChainHash (CnlUpdate.mk 0 0 0 0 0 0 0 0) u Eu) as Hr.
  rewrite Eo in Hr. destruct Hr as [m' Hr]. rewrite bind_assoc.
  rewrite wrap_small by (destruct Eu; unfold in_range; lia). by rewrite (on_local_step _ _ _ _ _ _ Hr).
Qed.

(** No such channel: nothing is checked. *)
Lemma unknown_next_peer hop d h height self : db_packets → Z.of_nat (length d) < 2 ^ 29 → next_hop hop = None →
  check_recv_add_htlc_bolt4_forward hop (pushing d) h height self =
  Ret (false, pushing (d ++ msg_code LNONION_UNKNOWN_NEXT_PEER)) (set_err (Some LNERR_INV_VALUE) (prev_asked hop self)).
Proof.
  intros Hdb Hd Hn. assert (∀ self', refuse (ln_misc_push16be LNONION_UNKNOWN_NEXT_PEER) (pushing d) self' =
    Ret (false, pushing (d ++ msg_code LNONION_UNKNOWN_NEXT_PEER)) (set_err (Some LNERR_INV_VALUE) self')) as Hr.
  { intros self'. apply refuse_step, push_code_done. lia. }
  unfold check_recv_add_htlc_bolt4_forward, prev_asked. unfold next_hop in Hn.
  destruct (hop_short_channel_id hop =? 0); cbn [negb]; [by rewrite bind_mret, Hr|].
  rewrite bind_assoc, emit_step, bind_mret. destruct (cb_add_htlc_recv_prev _) as [nx|]; [cbn in Hn|by rewrite Hr].
  destruct (negb (next_normal nx)); [by rewrite Hr|]. rewrite no_update_step; [by rewrite Hr|done|].
  destruct (ln_node_search_nodeid _) as [peer|]; [cbn in Hn |- *|done].
  destruct (ln_db_annocnlupd_load _ _) as [u|]; [cbn in Hn |- *|done]. by destruct (CnlUpdate.ok _ u).
Qed.

(** C23: an HTLC that is to be forwarded is refused with unknown_next_peer when
    there is no channel to send it on with ([next_hop]), and otherwise the first violated
    rule of [forward_rules], in their order, decides the failure message that goes
    back to the origin; an HTLC that violates none passes with nothing but the query of
    the outgoing channel on the trace. The messages carry the code and the
    channel_update, without the [htlc_msat] and [cltv_expiry] that the code's own
    comments list. The bounds are those of block heights, expiries and fees. *)
Theorem forward_check_exact hop d h height self :
  db_packets → Z.of_nat (length d) < 2 ^ 29 → fee_in_range (amt_to_forward hop) →
  (∀ next upd, next_hop hop = Some (next, upd) → heights_in_range next (UpdateAddHtlc.cltv_expiry h) height) →
  check_recv_add_htlc_bolt4_forward hop (pushing d) h height self =
  match next_hop hop with
  | None => Ret (false, pushing (d ++ msg_code LNONION_UNKNOWN_NEXT_PEER)) (set_err (Some LNERR_INV_VALUE) (prev_asked hop self))
  | Some (next, upd) =>
      checked (first_violated
          (forward_rules next upd hop (amt_to_forward hop + forward_fee (amt_to_forward hop))
             (amount_msat h) (UpdateAddHtlc.cltv_expiry h) height))
        d (prev_asked hop self)
  end.
Proof.
  intros Hdb Hd Hfee Hr. destruct (next_hop hop) as [[next upd]|] eqn:En; [|by apply unknown_next_peer].
  destruct (next_hop_known _ _ _ Hdb En) as (Hid & Hn & Hno & Hu). rewrite <- need_exact by done.
  unfold prev_asked. rewrite (proj2 (Z.eqb_neq _ _) Hid). by apply forward_check_spec; [..|eapply Hr].
Qed.

(** the advertised [cltv_expiry_delta] is not enforced: whatever the outgoing
    channel asks for, an HTLC that goes out one block before it came in passes. *)
Theorem cltv_delta_not_enforced hop d h height next upd self :
  Z.of_nat (length d) < 2 ^ 29 → hop_short_channel_id hop ≠ 0 →
  cb_add_htlc_recv_prev (hop_short_channel_id hop) = Some next → next_normal next = true →
  update_known hop upd → heights_in_range next (UpdateAddHtlc.cltv_expiry h) height →
  next_htlc_minimum_msat next ≤ amt_to_forward hop → need (amt_to_forward hop) ≤ amount_msat h →
  UpdateAddHtlc.cltv_expiry h = outgoing_cltv_value hop + 1 →
  height + Z.max (update_delta upd) 8 ≤ UpdateAddHtlc.cltv_expiry h ≤ height + 2160 →
  check_recv_add_htlc_bolt4_forward hop (pushing d) h height self =
  Ret (true, pushing d)
    (set_trace (trace self ++ [LN_CB_ADD_HTLC_RECV_PREV (hop_short_channel_id hop)]) self).
Proof.
  intros Hd Hid Hn Hno Hu Hr Hmin Hfee Hcltv Hh. rewrite (forward_check_spec _ _ _ _ next upd) by done.
  assert (0 ≤ update_delta upd) by (destruct Hu as (_ & _ & _ & Hpk & _); by apply update_delta_range).
  unfold forward_rules. rewrite (proj2 (Z.ltb_ge _ _)) by lia. rewrite (proj2 (Z.ltb_ge _ _)) by lia.
  rewrite (proj2 (Z.leb_gt _ _)) by lia.
  rewrite (proj2 (Z.ltb_ge _ _)) by lia. rewrite (proj2 (Z.ltb_ge _ _)) by lia.
  rewrite (proj2 (Z.ltb_ge _ _)) by lia. done.
Qed.

(** the fee rule wraps: when the node asks for a base fee only, an amount of
    [2 ^ 64] less that fee is forwarded for an HTLC that brings in nothing. *)
Theorem forward_fee_wraps hop d h height next upd self :
  Z.of_nat (length d) < 2 ^ 29 → hop_short_channel_id hop ≠ 0 →
  cb_add_htlc_recv_prev (hop_short_channel_id hop) = Some next → next_normal next = true →
  update_known hop upd → heights_in_range next (UpdateAddHtlc.cltv_expiry h) height →
  0 < prm_fee_base_msat anno_prm < 2 ^ 32 → prm_fee_prop_millionths anno_prm = 0 →
  amt_to_forward hop = 2 ^ 64 - prm_fee_base_msat anno_prm →
  next_htlc_minimum_msat next ≤ amt_to_forward hop → 0 ≤ amount_msat h →
  let rules := forward_rules next upd hop 0 0 (UpdateAddHtlc.cltv_expiry h) height in
  first_violated rules = None →
  check_recv_add_htlc_bolt4_forward hop (pushing d) h height self =
  Ret (true, pushing d)
    (set_trace (trace self ++ [LN_CB_ADD_HTLC_RECV_PREV (hop_short_channel_id hop)]) self).
Proof.
  intros Hd Hid Hn Hno Hu Hr Hb Hp Ha Hmin Hamt rules Hv.
  rewrite (forward_check_spec _ _ _ _ next upd) by done.
  assert (need (amt_to_forward hop) = 0) as ->.
  { unfold need, ln_forward_fee. rewrite Hp, Z.mul_0_r. change (u64 0 / 1000000) with 0.
    rewrite Z.add_0_r, (wrap_small 64 (prm_fee_base_msat anno_prm)) by (unfold in_range; lia).
    rewrite Ha. by replace (2 ^ 64 - _ + _) with (2 ^ 64) by lia. }
  subst rules. revert Hv. unfold forward_rules. cbn [first_violated].
  rewrite !(proj2 (Z.ltb_ge _ 0)) by lia. by intros ->.
Qed.

(** ** The final node *)

(** The rules for an HTLC that pays the invoice [inv]. *)
Definition final_rules (inv : preimg_info) (hop : ln_hop_dataout_t) (amt_in cltv height : Z)
    : list (bool * bytes) :=
  let out := outgoing_cltv_value hop in
  [ (amt_in <? pi_amount inv, msg_code LNONION_INCORR_PAY_AMT);
    (pi_amount inv * 2 <? amt_in, msg_code LNONION_INCORR_PAY_AMT);
    ((out + 1 <? height + 9) || (out <? height + 7), msg_code LNONION_FINAL_EXPIRY_TOO_SOON);
    (negb (out =? cltv), msg_code LNONION_FINAL_INCORR_CLTV_EXP ++ be_bytes 4 out);
    (amt_in <? amt_to_forward hop, msg_code LNONION_FINAL_INCORR_HTLC_AMT ++ be_bytes 4 amt_in) ].

(** The first valid invoice for a payment hash, and the rows deleted before it. *)
Fixpoint invoice_of (rows : list preimg_info) (hash : bytes) : option preimg_info * list event :=
  match rows with
  | [] => (None, [])
  | row :: rows =>
      if preimg_valid row then
        if bool_decide (btc_util_sha256 (pi_preimage row) = hash) then (Some row, [])
        else invoice_of rows hash
      else let r := invoice_of rows hash in
           (r.1, DB_PREIMG_DEL (Some (init_cells (pi_preimage row))) :: r.2)
  end.

Lemma search_step {B} rows hash (K : option preimg_info → M B) self :
  (preimg_search rows hash ≫= K) self =
  K (invoice_of rows hash).1 (set_trace (trace self ++ (invoice_of rows hash).2) self).
Proof.
  revert self. induction rows as [|row rows IH]; intros self; cbn [preimg_search invoice_of].
  - rewrite bind_mret. cbn [fst snd]. rewrite app_nil_r. by destruct self.
  - destruct (preimg_valid row).
    + destruct (bool_decide _); [|apply IH].
      rewrite bind_mret. cbn [fst snd]. rewrite app_nil_r. by destruct self.
    + rewrite bind_assoc, emit_step, IH. cbn [fst snd]. destruct self. cbn.
      by rewrite <- app_assoc.
Qed.

Lemma invoice_of_hash rows hash inv :
  (invoice_of rows hash).1 = Some inv → btc_util_sha256 (pi_preimage inv) = hash ∧ preimg_valid inv = true.
Proof.
  induction rows as [|row rows IH]; [done|]. cbn [invoice_of].
  destruct (preimg_valid row) eqn:Hv; [|exact IH]. case_bool_decide; [|exact IH].
  by intros [= <-].
Qed.

Lemma push_code32_done code v d :
  Z.of_nat (length d) < 2 ^ 29 →
  ((ln_misc_push16be code;; ln_misc_push32be v) ≫= λ _, mret true) (pushing d) =
  Ret true (pushing (d ++ msg_code code ++ be_bytes 4 v)).
Proof.
  intros Hd. rewrite bind_assoc, push_code, push32be_eq by lia.
  change 4 with (Z.of_nat (length (be_bytes 4 v))) at 1.
  rewrite push_more; [by rewrite <- app_assoc|done|].
  unfold msg_code. rewrite length_app, !length_be_bytes. lia.
Qed.

(** C24: an HTLC that ends here is taken exactly when its hash belongs to an invoice
    that has not expired and none of [final_rules] is violated; the preimage
    handed over hashes to the payment hash, and the first violated rule decides
    the failure message. *)
Theorem final_check_exact hop d h height self :
  Z.of_nat (length d) < 2 ^ 29 → 0 < height < 2 ^ 31 →
  0 ≤ outgoing_cltv_value hop < 2 ^ 32 - 1 →
  Forall (λ row, 0 ≤ pi_amount row < 2 ^ 63) preimg_rows →
  let r := invoice_of preimg_rows (UpdateAddHtlc.payment_sha256 h) in
  let self' := set_trace (trace self ++ r.2) self in
  check_recv_add_htlc_bolt4_final hop (pushing d) h height self =
  match r.1 with
  | None => Ret (false, pushing (d ++ msg_code LNONION_UNKNOWN_PAY_HASH), [])
              (set_err (Some LNERR_INV_VALUE) self')
  | Some inv =>
      match first_violated (final_rules inv hop (amount_msat h) (UpdateAddHtlc.cltv_expiry h) height) with
      | Some msg => Ret (false, pushing (d ++ msg), pi_preimage inv)
                      (set_err (Some LNERR_INV_VALUE) self')
      | None => Ret (true, pushing d, pi_preimage inv) self'
      end
  end ∧
  ∀ inv, r.1 = Some inv → btc_util_sha256 (pi_preimage inv) = UpdateAddHtlc.payment_sha256 h.
Proof.
  cbv zeta. intros Hd Hh Ho Hrows. split; [|by intros inv [? _]%invoice_of_hash].
  unfold check_recv_add_htlc_bolt4_final. rewrite search_step.
  set (self' := set_trace _ self). destruct (invoice_of _ _).1 as [inv|] eqn:Hinv.
  2:{ rewrite (bind_ret _ _ _ _ _ (refuse_step _ _ _ _ (push_code_done LNONION_UNKNOWN_PAY_HASH d ltac:(lia)))). done. }
  assert (0 ≤ pi_amount inv < 2 ^ 63) as Ha.
  { revert Hinv. clear self'. induction Hrows as [|row rows Hrow _ IH]; [done|]. cbn [invoice_of].
    destruct (preimg_valid row); [|exact IH]. case_bool_decide; [|exact IH]. by intros [= <-]. }
  rewrite (wrap_small 64) by (unfold in_range; lia).
  rewrite (wrap_small 32 height) by (unfold in_range; lia).
  rewrite !(wrap_small 32) by (unfold in_range; lia).
  unfold final_rules.
  repeat match goal with
  | |- context [if ?x <? ?y then refuse _ _ else _] => destruct (Z.ltb_spec x y)
  | |- context [if (?x <? ?y) || (?z <? ?w) then _ else _] =>
      destruct ((x <? y) || (z <? w)) eqn:?
  | |- context [if negb (?x =? ?y) then _ else _] => destruct (negb (x =? y)) eqn:?
  end; cbn [first_violated].
  all: first
    [ erewrite bind_ret by
        first [ apply refuse_step, push_code32_done; lia | apply refuse_step, push_code_done; lia ]; done
    | reflexivity ].
Qed.
End relay.

(** ** On a concrete node *)

Definition channel : ln_self_t := LnToy.node 100000 200000 (LnToy.slots []).

Lemma update_known_77 amt cltv :
  @update_known LnToyNode.env LnToyNode.node
    (LnToyNode.forward_hop amt cltv) LnToyNode.channel_update.
Proof. exists (replicate 33 3). split_and!; [reflexivity|reflexivity|split; by_compute|by_compute]. Qed.

Lemma toy_packets : @db_packets LnToyNode.env.
Proof. intros id dir upd. cbn. destruct (id =? 77); [|done]. intros [= <-]. split; by_compute. Qed.

Definition toy_next : next_self := mk_next 1000 true (mk_anno_prm 144 1000 500 100).

(** 50000 are to go on at the fee of 505, for an HTLC that brings 504 in; and one for a
    channel that is not there. *)
Lemma forward_check_exact_witness :
  let hop := LnToyNode.forward_hop 50000 400000 in
  let h := LnToyNode.incoming 50504 400144 (replicate 32 4) in
  let gone := LnToyNode.final_hop in
  @next_hop LnToyNode.env LnToyNode.node hop = Some (toy_next, LnToyNode.channel_update) ∧
  @check_recv_add_htlc_bolt4_forward LnToyNode.env LnToyNode.node hop (pushing []) h 399800 channel =
  Ret (false, pushing (msg_update LNONION_FEE_INSUFFICIENT LnToyNode.channel_update))
    (set_err (Some LNERR_INV_VALUE) (set_trace [LN_CB_ADD_HTLC_RECV_PREV 77] channel)) ∧
  @check_recv_add_htlc_bolt4_forward LnToyNode.env LnToyNode.node gone (pushing []) h 399800 channel =
  Ret (false, pushing (msg_code LNONION_UNKNOWN_NEXT_PEER)) (set_err (Some LNERR_INV_VALUE) channel).
Proof.
  cbv zeta. split; [reflexivity|]. split.
  - rewrite (@forward_check_exact LnToyNode.env LnToyNode.env_laws
      LnToyNode.node (LnToyNode.forward_hop 50000 400000) []
      (LnToyNode.incoming 50504 400144 (replicate 32 4)) 399800 channel); [reflexivity|apply toy_packets|by_compute|..].
    + split_and!; by_compute.
    + intros next upd Hn. assert (Some (toy_next, LnToyNode.channel_update) = Some (next, upd)) as [= <- <-] by exact Hn. split_and!; by_compute.
  - rewrite (@forward_check_exact LnToyNode.env LnToyNode.env_laws
      LnToyNode.node LnToyNode.final_hop []
      (LnToyNode.incoming 50504 400144 (replicate 32 4)) 399800 channel); [reflexivity|apply toy_packets|by_compute|..].
    + split_and!; by_compute.
    + intros next upd Hn. discriminate Hn.
Defined.

(** The outgoing channel asks for 144 blocks, and the HTLC has one. *)
Lemma cltv_delta_not_enforced_witness :
  let hop := LnToyNode.forward_hop 50000 400000 in
  let h := LnToyNode.incoming 50505 400001 (replicate 32 4) in
  update_delta LnToyNode.channel_update = 144 ∧
  @check_recv_add_htlc_bolt4_forward LnToyNode.env LnToyNode.node hop (pushing []) h 399800 channel =
  Ret (true, pushing []) (set_trace [LN_CB_ADD_HTLC_RECV_PREV 77] channel).
Proof.
  cbv zeta. split; [reflexivity|].
  apply (@cltv_delta_not_enforced LnToyNode.env LnToyNode.env_laws
    LnToyNode.node (LnToyNode.forward_hop 50000 400000) []
    (LnToyNode.incoming 50505 400001 (replicate 32 4)) 399800 toy_next LnToyNode.channel_update channel);
    [by_compute|by_compute|reflexivity|reflexivity|apply update_known_77| |by_compute|by_compute
    |reflexivity|by_compute].
  split_and!; by_compute.
Defined.

(** All but 500 of the money there is, for nothing. *)
Lemma forward_fee_wraps_witness :
  let hop := LnToyNode.forward_hop (2 ^ 64 - 500) 400000 in
  let h := LnToyNode.incoming 0 400144 (replicate 32 4) in
  first_violated (forward_rules toy_next LnToyNode.channel_update hop 0 0
    400144 399800) = None ∧
  @check_recv_add_htlc_bolt4_forward LnToyNode.env (LnToyNode.node_of 500 0) hop (pushing []) h
    399800 channel =
  Ret (true, pushing []) (set_trace [LN_CB_ADD_HTLC_RECV_PREV 77] channel).
Proof.
  cbv zeta. split; [reflexivity|].
  apply (@forward_fee_wraps LnToyNode.env LnToyNode.env_laws
    (LnToyNode.node_of 500 0)
    (LnToyNode.forward_hop (2 ^ 64 - 500) 400000) []
    (LnToyNode.incoming 0 400144 (replicate 32 4)) 399800
    (mk_next 1000 true (mk_anno_prm 144 1000 500 0)) LnToyNode.channel_update channel);
    try reflexivity; try by_compute.
  exists (replicate 33 3). split_and!; [reflexivity|reflexivity|split; by_compute|by_compute].
Defined.

(** An invoice of 40000 is paid. *)
Lemma final_check_exact_witness :
  let h := LnToyNode.incoming 40000 399900 (LnToy.hash LnToyNode.preimage) in
  @check_recv_add_htlc_bolt4_final LnToyNode.env LnToyNode.node LnToyNode.final_hop
    (pushing []) h 399800 channel =
  Ret (true, pushing [], LnToyNode.preimage)
    (set_trace [DB_PREIMG_DEL (Some (init_cells (replicate 32 12)))] channel).
Proof.
  cbv zeta.
  assert (Forall (λ row, 0 ≤ pi_amount row < 2 ^ 63)
    (@preimg_rows LnToyNode.node)) as Hrows by by_compute.
  exact (proj1 (@final_check_exact LnToyNode.env LnToyNode.env_laws LnToyNode.node
    LnToyNode.final_hop [] (LnToyNode.incoming 40000 399900 (LnToy.hash LnToyNode.preimage)) 399800 channel
    ltac:(reflexivity) ltac:(lia) ltac:(by_compute) Hrows)).
Defined.

End LnRelay.
