(* ===== verification/LnSpec.v ===== *)
(** An abstract channel: the ledger (balances and HTLC slots) and the writes that
    may happen to it, one rule per kind. [LnRefine] shows that every handler and
    every request of [ln/ln.c] is a sequence of these writes; what is proved of
    the rules therefore holds of the program. *)
From stdpp Require Import base list numbers relations tactics.
From Stdlib Require Import ZArith Lia.
From S2P Require Import Prelude CProg UtlBuf LnMsgNormal LnHtlc LnSelf LnNormal LnIdle.
Import UtlBuf LnMsgNormal LnHtlc LnSelf LnNormal LnIdle.
Open Scope Z_scope.

Module LnSpec.

(** ** The rules *)

(** The flags and the amount stay. *)
Definition same_htlc (h h' : htlc) : Prop := bits h' = bits h ∧ amount_msat h' = amount_msat h.

(** What may happen to one slot. *)
Inductive slot_write : htlc → htlc → Prop :=
| SW_info h h' : same_htlc h h' → slot_write h h'
| SW_fill h h' : LN_HTLC_EMPTY h = true → bits h' = bits h → slot_write h h'
| SW_unfill h : addhtlc h = LN_ADDHTLC_NONE → slot_write h no_htlc
| SW_offer h : slot_write h (set_addhtlc LN_ADDHTLC_OFFER h)
| SW_accept h : slot_write h (set_addhtlc LN_ADDHTLC_RECV h)
| SW_updsend h : slot_write h (set_updsend 1 h)
| SW_remove h d : slot_write h (clear_htlc_comrevflag h d)
| SW_fail h : slot_write h (set_delhtlc LN_DELHTLC_FAIL h)
| SW_result h d : slot_write h (set_fin_delhtlc d h)
| SW_resend h : slot_write h (set_comsend 0 h).

Definition set_slot (i : nat) (h : htlc) (s : ln_self_t) : ln_self_t :=
  set_cnl_add_htlc (<[i := h]> (cnl_add_htlc s)) s.

Definition same_ledger (s s' : ln_self_t) : Prop :=
  cnl_add_htlc s' = cnl_add_htlc s ∧ our_msat s' = our_msat s ∧ their_msat s' = their_msat s.

Definition transfer (amount : Z) (s : ln_self_t) : ln_self_t :=
  set_their_msat (u64 (their_msat s - amount)) (set_our_msat (u64 (our_msat s + amount)) s).

(** The end of an HTLC: its payment is made if it was fulfilled, and its slot
    cleared. *)
Definition settled (i : nat) (h : htlc) (s : ln_self_t) : ln_self_t :=
  set_slot i no_htlc
    (if delhtlc h =? LN_DELHTLC_FULFILL then
       if addhtlc h =? LN_ADDHTLC_OFFER then transfer (- amount_msat h) s
       else if addhtlc h =? LN_ADDHTLC_RECV then transfer (amount_msat h) s else s
     else s).

Inductive write : ln_self_t → ln_self_t → Prop :=
| W_other s s' : same_ledger s s' → write s s'
| W_slot s i h h' : cnl_add_htlc s !! i = Some h → slot_write h h' → write s (set_slot i h' s)
| W_signatures s hs : Forall2 same_htlc (cnl_add_htlc s) hs → write s (set_cnl_add_htlc hs s)
| W_settle s i h : cnl_add_htlc s !! i = Some h → finished h = true → committed h = true →
    write s (settled i h s)
| W_commitment_sent s : forallb exchange_closed (cnl_add_htlc s) = true →
    write s (set_cnl_add_htlc
               (map (λ h, if in_remote h then set_comsend 1 h else h) (cnl_add_htlc s)) s)
| W_commitment_received s :
    write s (set_cnl_add_htlc
               (map (λ h, if in_local h then set_comrecv 1 h else h) (cnl_add_htlc s)) s)
| W_revocation_sent s :
    write s (set_cnl_add_htlc
               (map (λ h, if in_local h then set_revsend 1 h else h) (cnl_add_htlc s)) s)
| W_revocation_received s :
    write s (set_cnl_add_htlc
               (map (λ h, if in_remote h then set_revrecv 1 h else h) (cnl_add_htlc s)) s).

(** ** What every write keeps *)

(** An invariant of the rules holds after any number of writes. *)
Lemma writes_keep (P : ln_self_t → Prop) s s' :
  (∀ s s', write s s' → P s → P s') → rtc write s s' → P s → P s'.
Proof. intros Hw. induction 1; eauto. Qed.

Lemma total_write s s' : write s s' →
  u64 (our_msat s' + their_msat s') = u64 (our_msat s + their_msat s).
Proof.
  destruct 1 as [s s' (_ & -> & ->)| | | | | | |]; [done| | | | | | |]; try (by destruct s).
  assert (∀ a, u64 (our_msat (transfer a s) + their_msat (transfer a s)) =
               u64 (our_msat s + their_msat s)) as Ht.
  { intros a. unfold transfer. destruct s; cbn. unfold wrap. rewrite <- Z.add_mod by lia. f_equal. lia. }
  unfold settled. destruct (delhtlc h =? _); [|done].
  destruct (addhtlc h =? LN_ADDHTLC_OFFER); [apply Ht|].
  destruct (addhtlc h =? LN_ADDHTLC_RECV); [apply Ht|done].
Qed.

Lemma settled_slots i h s : cnl_add_htlc (settled i h s) = <[i := no_htlc]> (cnl_add_htlc s).
Proof.
  unfold settled, set_slot, transfer.
  by destruct s, (delhtlc h =? _), (addhtlc h =? LN_ADDHTLC_OFFER), (addhtlc h =? LN_ADDHTLC_RECV).
Qed.

Lemma slots_write s s' : write s s' → length (cnl_add_htlc s') = length (cnl_add_htlc s).
Proof.
  destruct 1 as [s s' (-> & _)|s i h h'|s hs Hs|s i h| | | |]; [done|..];
    rewrite ?settled_slots; unfold set_slot; destruct s; cbn; rewrite ?length_insert, ?length_map; try done.
  symmetry. by eapply Forall2_length.
Qed.

(** ** A channel that has stalled *)

(** An HTLC for which a revocation has been received, but no commitment_signed
    sent. *)
Definition stuck (h : htlc) : Prop := addhtlc h ≠ LN_ADDHTLC_NONE ∧ comsend h = 0 ∧ revrecv h = 1.

#[global] Instance stuck_dec h : Decision (stuck h).
Proof. unfold stuck. apply _. Defined.

Definition stalled (s : ln_self_t) : Prop := Exists stuck (cnl_add_htlc s).

#[global] Instance stalled_dec s : Decision (stalled s).
Proof. unfold stalled. apply _. Defined.

Lemma stuck_enable h : stuck h → LN_HTLC_ENABLE h = true.
Proof.
  intros [Ha _]. unfold LN_HTLC_ENABLE, LN_HTLC_EMPTY.
  by rewrite (proj2 (Z.eqb_neq _ _) Ha).
Qed.

Lemma stuck_not_committed h : stuck h → committed h = false.
Proof. intros (_ & Hc & _). unfold committed. by rewrite Hc. Qed.

(** A flag of one bit. *)
Lemma flag_testbit pos b : 0 ≤ pos → bits_get pos 1 b = Z.b2z (Z.testbit b pos).
Proof.
  intros Hp. unfold bits_get. rewrite Z.land_ones by lia. rewrite <- Z.bit0_mod.
  by rewrite Z.shiftr_spec.
Qed.

Lemma stuck_open h : stuck h → exchange_closed h = false.
Proof.
  intros (_ & Hc & Hr). unfold comsend, revrecv in *. rewrite flag_testbit in Hc, Hr by lia.
  unfold exchange_closed.
  assert (Z.land (bits h) LN_HTLCFLAG_MASK_COMSIG1 ≠ 0) as H0.
  { intros H. apply (f_equal (λ x, Z.testbit x 6)) in H. rewrite Z.land_spec in H.
    destruct (Z.testbit (bits h) 6); done. }
  assert (Z.land (bits h) LN_HTLCFLAG_MASK_COMSIG1 ≠ LN_HTLCFLAG_MASK_COMSIG1) as H1.
  { intros H. apply (f_equal (λ x, Z.testbit x 5)) in H. rewrite Z.land_spec in H.
    destruct (Z.testbit (bits h) 5); done. }
  by rewrite (proj2 (Z.eqb_neq _ _) H0), (proj2 (Z.eqb_neq _ _) H1).
Qed.

Lemma stuck_slot h h' : slot_write h h' → stuck h → stuck h'.
Proof.
  intros Hw Hs. pose proof (stuck_not_committed h Hs) as Hnc. destruct Hs as (Ha & Hc & Hr).
  unfold stuck. destruct Hw as [h h' [Hb Hm]|h h' He Hb|h Hn|h|h|h|h d|h|h d|h].
  - unfold addhtlc, comsend, revrecv in *. by rewrite Hb.
  - unfold LN_HTLC_EMPTY in He. apply andb_true_iff in He as [He _]. by apply Z.eqb_eq in He.
  - done.
  - by flag_simpl.
  - by flag_simpl.
  - by flag_simpl.
  - unfold clear_htlc_comrevflag. by rewrite Hnc.
  - by flag_simpl.
  - by flag_simpl.
  - by flag_simpl.
Qed.

Lemma exists_lookup (P : htlc → Prop) hs : Exists P hs ↔ ∃ j h, hs !! j = Some h ∧ P h.
Proof.
  split.
  - induction 1 as [h hs Hh|h hs _ (j & x & Hj & Hx)]; [by exists 0%nat, h|by exists (S j), x].
  - intros (j & h & Hj & Hh). revert j Hj. induction hs as [|x hs IH]; intros [|j] Hj; simplify_eq/=.
    + by left.
    + right. by eapply IH.
Qed.

(** Setting flags of some HTLCs that leave a stuck one stuck. *)
Lemma stuck_map (sel : htlc → bool) f hs :
  (∀ h, stuck h → stuck (f h)) → Exists stuck hs → Exists stuck (map (λ h, if sel h then f h else h) hs).
Proof.
  intros Hf. induction 1 as [h hs Hh|h hs _ IH]; cbn [map].
  - left. destruct (sel h); auto.
  - by right.
Qed.

Lemma stalled_insert i h h' hs :
  hs !! i = Some h → (stuck h → stuck h') → Exists stuck hs → Exists stuck (<[i := h']> hs).
Proof.
  rewrite !exists_lookup. intros Hi Hs (j & x & Hj & Hst).
  destruct (decide (i = j)) as [->|Hne].
  - simplify_eq. exists j, h'. split; [|auto].
    rewrite list_lookup_insert_eq; [done|]. by eapply lookup_lt_Some.
  - exists j, x. split; [|done]. by rewrite list_lookup_insert_ne.
Qed.

Lemma stalled_write s s' : write s s' → stalled s → stalled s'.
Proof.
  unfold stalled. destruct 1 as [s s' (-> & _)|s i h h' Hi Hw|s hs Hs|s i h Hi _ Hc|s Hcl|s|s|s];
    rewrite ?settled_slots; unfold set_slot; [done|..]; intros Hst.
  - destruct s; cbn in *. eapply stalled_insert; [done| |done]. by apply stuck_slot.
  - destruct s; cbn in *. apply exists_lookup in Hst as (j & x & Hj & Hst).
    destruct (Forall2_lookup_l _ _ _ _ _ Hs Hj) as (y & Hy & Hxy).
    apply exists_lookup. exists j, y. split; [done|].
    eapply stuck_slot; [|done]. by apply SW_info.
  - destruct s; cbn in *. eapply stalled_insert; [done| |done].
    intros Hs%stuck_not_committed. congruence.
  - exfalso. revert Hcl. induction Hst as [h hs Hh|h hs _ IH]; cbn [forallb].
    + by rewrite (stuck_open _ Hh).
    + by intros [_ ?]%andb_true_iff.
  - destruct s; cbn in *. apply stuck_map; [|done]. intros h (Ha & Hc & Hr). unfold stuck. by flag_simpl.
  - destruct s; cbn in *. apply stuck_map; [|done]. intros h (Ha & Hc & Hr). unfold stuck. by flag_simpl.
  - destruct s; cbn in *. apply stuck_map; [|done]. intros h (Ha & Hc & Hr). unfold stuck. by flag_simpl.
Qed.

(** ** The types of the ledger *)

(** The flags of a slot: the four reserved bits are clear, and the side that added the
    HTLC is one of the three the code knows. *)
Definition typed_htlc (h : htlc) : Prop :=
  0 ≤ bits h < 2 ^ 12 ∧ addhtlc h ∈ [LN_ADDHTLC_NONE; LN_ADDHTLC_OFFER; LN_ADDHTLC_RECV].

Definition typed (s : ln_self_t) : Prop :=
  in_range 64 (our_msat s) ∧ in_range 64 (their_msat s) ∧
  length (cnl_add_htlc s) = LN_HTLC_MAX ∧ Forall typed_htlc (cnl_add_htlc s).

#[global] Instance typed_dec s : Decision (typed s).
Proof. unfold typed, typed_htlc, in_range. apply _. Defined.

Lemma bits_set_range n pos w v b : 0 ≤ pos → 0 ≤ w → pos + w ≤ n → 0 ≤ b < 2 ^ n → 0 ≤ bits_set pos w v b < 2 ^ n.
Proof.
  intros Hp Hw Hn Hb. assert (bits_set pos w v b = bits_set pos w v b mod 2 ^ n) as ->; [|apply Z.mod_pos_bound; lia].
  rewrite <- Z.land_ones by lia. apply Z.bits_inj'. intros i Hi. rewrite Z.land_spec, testbit_set, Z.testbit_ones_nonneg by lia.
  destruct (Z.ltb_spec i n); [by rewrite andb_true_r|]. rewrite andb_false_r.
  rewrite (proj2 (Z.ltb_ge i (pos + w))), andb_false_r by lia.
  rewrite <- (Z.mod_small b (2 ^ n)), <- Z.land_ones, Z.land_spec, Z.testbit_ones_nonneg by lia.
  by rewrite (proj2 (Z.ltb_ge i n)), andb_false_r by lia.
Qed.

(** Assigning a field other than the side. *)
Lemma typed_put pos w v h : 2 ≤ pos → 0 ≤ w → pos + w ≤ 12 → typed_htlc h → typed_htlc (put pos w v h).
Proof.
  intros Hp Hw Hn [Hb Ha]. unfold typed_htlc, addhtlc in *. unfold put. cbn [UpdateAddHtlc.stat_bits UpdateAddHtlc.set_stat_bits].
  rewrite get_set_other by lia. split; [|exact Ha]. apply bits_set_range; lia.
Qed.

Lemma typed_side v h : v ∈ [LN_ADDHTLC_NONE; LN_ADDHTLC_OFFER; LN_ADDHTLC_RECV] → typed_htlc h → typed_htlc (set_addhtlc v h).
Proof.
  intros Hv [Hb _]. unfold typed_htlc, addhtlc, set_addhtlc, put. cbn [UpdateAddHtlc.stat_bits UpdateAddHtlc.set_stat_bits].
  rewrite get_set_same by lia. split; [by apply bits_set_range|]. rewrite !elem_of_cons in Hv.
  destruct Hv as [->|[->|[->|Hv%not_elem_of_nil]]]; by rewrite ?elem_of_cons; auto.
Qed.

Lemma typed_no_htlc : typed_htlc no_htlc.
Proof. split; [done|]. change (addhtlc no_htlc) with 0. by left. Qed.

Lemma typed_slot h h' : slot_write h h' → typed_htlc h → typed_htlc h'.
Proof.
  intros Hw Ht. destruct Hw as [h h' [Hb Hm]|h h' He Hb|h Hn|h|h|h|h d|h|h d|h].
  - unfold typed_htlc, addhtlc in *. by rewrite Hb.
  - unfold typed_htlc, addhtlc in *. by rewrite Hb.
  - apply typed_no_htlc.
  - apply typed_side; [by set_solver|done].
  - apply typed_side; [by set_solver|done].
  - by apply typed_put.
  - unfold clear_htlc_comrevflag. destruct (committed h); [|done]. by repeat apply typed_put.
  - by apply typed_put.
  - by apply typed_put.
  - by apply typed_put.
Qed.

Lemma typed_map (sel : htlc → bool) f hs :
  (∀ h, typed_htlc h → typed_htlc (f h)) → Forall typed_htlc hs → Forall typed_htlc (map (λ h, if sel h then f h else h) hs).
Proof. intros Hf. induction 1 as [|h hs Hh _ IH]; constructor; [|done]. destruct (sel h); auto. Qed.

Lemma typed_transfer a s : in_range 64 (our_msat (transfer a s)) ∧ in_range 64 (their_msat (transfer a s)).
Proof. unfold transfer. destruct s; cbn. split; by apply wrap_range. Qed.

Lemma settled_msat i h s : in_range 64 (our_msat s) → in_range 64 (their_msat s) →
  in_range 64 (our_msat (settled i h s)) ∧ in_range 64 (their_msat (settled i h s)).
Proof.
  intros Ho Ht. unfold settled, set_slot.
  destruct (delhtlc h =? _); [|by destruct s]. destruct (addhtlc h =? LN_ADDHTLC_OFFER); [apply typed_transfer|].
  destruct (addhtlc h =? LN_ADDHTLC_RECV); [apply typed_transfer|by destruct s].
Qed.

Lemma typed_write s s' : write s s' → typed s → typed s'.
Proof.
  intros Hw (Ho & Ht & Hl & Hs). pose proof (slots_write s s' Hw) as Hlen. rewrite Hl in Hlen.
  cut (in_range 64 (our_msat s') ∧ in_range 64 (their_msat s') ∧ Forall typed_htlc (cnl_add_htlc s')).
  { intros (H1 & H2 & H3). exact (conj H1 (conj H2 (conj Hlen H3))). }
  destruct Hw as [s s' (-> & -> & ->)|s i h h' Hi Hw|s hs Hh|s i h Hi _ Hc|s Hcl|s|s|s]; [done|..].
  - destruct s; cbn in *. split; [done|]. split; [done|]. apply Forall_insert; [done|].
    eapply typed_slot; [done|]. by eapply Forall_lookup_1 in Hs.
  - destruct s; cbn in *. split; [done|]. split; [done|]. clear -Hs Hh. induction Hh as [|x y l l' Hxy _ IH]; [constructor|].
    apply Forall_cons_1 in Hs as [Hx Hs]. constructor; [|by apply IH]. eapply typed_slot; [by apply SW_info|done].
  - destruct (settled_msat i h s Ho Ht) as [H1 H2]. split; [done|]. split; [done|]. rewrite settled_slots.
    apply Forall_insert; [done|apply typed_no_htlc].
  - destruct s; cbn in *. split; [done|]. split; [done|]. apply typed_map; [|done]. intros h. by apply typed_put.
  - destruct s; cbn in *. split; [done|]. split; [done|]. apply typed_map; [|done]. intros h. by apply typed_put.
  - destruct s; cbn in *. split; [done|]. split; [done|]. apply typed_map; [|done]. intros h. by apply typed_put.
  - destruct s; cbn in *. split; [done|]. split; [done|]. apply typed_map; [|done]. intros h. by apply typed_put.
Qed.

End LnSpec.
