(* ===== verification/LnRefine.v ===== *)
(** The channel of [ln/ln.c] refines the abstract channel of [LnSpec]: whatever a
    handler or a request does, what it leaves behind is reached by writes that
    the rules allow. *)
From stdpp Require Import base list numbers relations tactics.
From Stdlib Require Import ZArith Lia.
From S2P Require Import Prelude CProg UtlInt UtlBuf UtlPush LnDerkey LnMisc LnOnion LnMsg.
From S2P Require Import LnMsgNormal LnMsgEstablish LnMsgAnno LnHtlc LnSelf LnNormal LnRecv.
From S2P Require Import LnAddHtlc LnForward LnToy LnIdle LnSpec LnOffer.
Import UtlInt UtlBuf UtlPush ShaChain Derkey LnMisc LnMsg LnMsgNormal LnMsgEstablish LnMsgAnno.
Import LnHtlc LnSelf LnNormal LnRecv LnAddHtlc LnForward LnIdle LnSpec.
Open Scope Z_scope.

Module LnRefine.

(** A relation between ledgers that a program may stay within: writing what is
    not in the ledger always does. *)
Class LedgerRel (R : relation ln_self_t) : Prop := {
  ledger_pre :: PreOrder R;
  ledger_other s s' : same_ledger s s' → R s s';
}.

#[export] Instance same_ledger_rel : LedgerRel same_ledger.
Proof.
  split; [|done]. split; [by intros s|].
  intros s1 s2 s3 (H1 & H2 & H3) (K1 & K2 & K3). unfold same_ledger. by rewrite K1, K2, K3.
Qed.

#[export] Instance write_rel : LedgerRel (rtc write).
Proof. split; [apply _|]. intros s s' H. by apply rtc_once, W_other. Qed.

(** A program all of whose outcomes are in [R] with where it starts. *)
Definition moves (R : relation ln_self_t) {A} (m : M A) : Prop :=
  ∀ s, wp True m (λ _ s', R s s') (λ _ s', R s s') s.

(** Every outcome is reached by writes; nothing of the ledger changes. *)
Abbreviation steps := (moves (rtc write)).
Abbreviation quiet := (moves same_ledger).

Create HintDb steps.

Section calculus.
Context {R : relation ln_self_t} {LR : LedgerRel R}.

Lemma moves_wp {A} (m : M A) (Q : A → ln_self_t → Prop) (X : bool → ln_self_t → Prop) s :
  moves R m → (∀ a s', R s s' → Q a s') → (∀ b s', R s s' → X b s') → wp True m Q X s.
Proof. intros Hm HQ HX. eapply wp_mono; [apply Hm|auto|auto]. Qed.

Lemma moves_ret {A} (a : A) : moves R (mret a).
Proof. intros s. by apply wp_ret. Qed.

(** What happened before [s] and what happens after it. *)
Lemma wp_after {A} (m : M A) s0 s :
  R s0 s → moves R m → wp True m (λ _ s', R s0 s') (λ _ s', R s0 s') s.
Proof. intros H0 Hm. apply moves_wp; [done|..]; intros; by etrans. Qed.

Lemma moves_bind {A B} (m : M A) (k : A → M B) : moves R m → (∀ a, moves R (k a)) → moves R (m ≫= k).
Proof.
  intros Hm Hk s. apply wp_bind. apply moves_wp; [done| |done].
  intros a s' H. by apply wp_after.
Qed.

Lemma moves_get : moves R get_st.
Proof. intros s. by apply wp_get. Qed.

Lemma moves_gets {A} (f : ln_self_t → A) : moves R (gets f).
Proof. intros s. unfold wp, gets. done. Qed.

Lemma moves_exit {A} b : moves R (exit_with (A := A) b).
Proof. intros s. by apply wp_exit. Qed.

Lemma moves_exit_if c b : moves R (exit_if c b).
Proof. intros s. by apply wp_exit_if. Qed.

Lemma moves_option {A} (o : option A) : moves R (of_option o).
Proof. intros s. by apply wp_option. Qed.

Lemma moves_assert b : moves R (c_assert b).
Proof. intros s. by apply wp_assert. Qed.

Lemma moves_call (m : M bool) : moves R m → moves R (call m).
Proof. intros Hm s. apply wp_run. apply moves_wp; auto. Qed.

Lemma moves_other f : (∀ s, same_ledger s (f s)) → moves R (modify f).
Proof. intros Hf s. apply wp_modify. by apply ledger_other. Qed.

Lemma moves_emit e : moves R (emit e).
Proof. by apply moves_other. Qed.

Lemma moves_set_err e : moves R (M_SET_ERR e).
Proof. by apply moves_other. Qed.

Lemma moves_send_err e : moves R (M_SEND_ERR e).
Proof. apply moves_bind; [apply moves_set_err|intros _; apply moves_emit]. Qed.

Lemma moves_fail_if c e : moves R (fail_if c e).
Proof.
  unfold fail_if. destruct c; [|apply moves_ret].
  apply moves_bind; [apply moves_set_err|intros _; apply moves_exit].
Qed.

Lemma moves_on_local {T} (m : prog T bool) (t : T) : moves R (on_local m t).
Proof. intros s. unfold wp, on_local. by destruct (run m t). Qed.

Lemma moves_with_reason {B} (m : prog utl_push_t B) r : moves R (with_reason m r).
Proof. intros s. unfold wp, with_reason. by destruct (m r). Qed.

Lemma moves_encode (m : prog utl_push_t bool) : moves R (encode m).
Proof. apply moves_bind; [apply moves_on_local|intros; apply moves_ret]. Qed.

Lemma moves_get_htlc idx : moves R (get_htlc idx).
Proof. apply moves_bind; [apply moves_gets|intros; apply moves_option]. Qed.

Lemma moves_for_idx {A} idxs (body : nat → A → M A) a :
  (∀ idx a, moves R (body idx a)) → moves R (for_idx idxs body a).
Proof.
  intros Hb. revert a. induction idxs as [|idx idxs IH]; intros a; [apply moves_ret|].
  apply moves_bind; auto.
Qed.
End calculus.

Lemma alter_lookup (f : htlc → htlc) (i : nat) (hs : list htlc) :
  alter f i hs = match hs !! i with Some h => <[i := f h]> hs | None => hs end.
Proof.
  revert i. induction hs as [|h hs IH]; intros [|i]; [done..|].
  change (h :: alter f i hs = match hs !! i with Some x => h :: <[i := f x]> hs | None => h :: hs end).
  rewrite IH. by destruct (hs !! i).
Qed.

Lemma set_slots_self s : set_cnl_add_htlc (cnl_add_htlc s) s = s.
Proof. by destruct s. Qed.

(** Changing the slot [idx], for what is in it. *)
Lemma wp_mod_htlc idx f Q X s :
  (∀ h, cnl_add_htlc s !! idx = Some h → Q tt (set_slot idx (f h) s)) →
  (cnl_add_htlc s !! idx = None → Q tt s) → wp True (mod_htlc idx f) Q X s.
Proof.
  intros H1 H2. apply wp_modify. rewrite alter_lookup. unfold set_slot in H1.
  destruct (cnl_add_htlc s !! idx) as [h|]; [by apply H1|]. rewrite set_slots_self. auto.
Qed.

Lemma steps_mod_htlc idx f : (∀ h, slot_write h (f h)) → steps (mod_htlc idx f).
Proof.
  intros Hf s. apply wp_mod_htlc; [|done].
  intros h Hh. apply rtc_once. by eapply W_slot.
Qed.


(** A write to a slot that one rule allows. *)
Ltac slot_rule :=
  first [ by apply SW_info | apply SW_offer | apply SW_accept | apply SW_updsend | apply SW_remove
        | apply SW_fail | apply SW_result | apply SW_resend ].

(** How a program may change a slot. *)
Ltac mod_rule := first [solve [trivial with steps nocore] | apply steps_mod_htlc; intros ?; slot_rule].

(** Go through a program statement by statement. *)
Ltac steps_tac :=
  repeat first
    [ progress cbv beta zeta
    | lazymatch goal with
      | |- moves _ (mbind _ _) => apply moves_bind; [|intros ?]
      | |- moves _ (mret _) => apply moves_ret
      | |- moves _ get_st => apply moves_get
      | |- moves _ (gets _) => apply moves_gets
      | |- moves _ (exit_with _) => apply moves_exit
      | |- moves _ (exit_if _ _) => apply moves_exit_if
      | |- moves _ (of_option _) => apply moves_option
      | |- moves _ (c_assert _) => apply moves_assert
      | |- moves _ (emit _) => apply moves_emit
      | |- moves _ (M_SET_ERR _) => apply moves_set_err
      | |- moves _ (M_SEND_ERR _) => apply moves_send_err
      | |- moves _ (fail_if _ _) => apply moves_fail_if
      | |- moves _ (on_local _ _) => apply moves_on_local
      | |- moves _ (encode _) => apply moves_encode
      | |- moves _ (get_htlc _) => apply moves_get_htlc
      | |- moves _ (call _) => apply moves_call
      | |- moves _ (for_idx _ _ _) => apply moves_for_idx; intros ? ?
      | |- moves _ (mod_htlc _ _) => mod_rule
      | |- moves _ (if ?c then _ else _) => destruct c
      | |- moves _ (match ?x with _ => _ end) => destruct x
      end
    | solve [trivial with steps nocore]
    | match goal with |- moves _ (modify _) => apply moves_other; intros ?; by repeat split end ].

(** Deriving secrets, encoding and decoding are never unfolded here. *)
#[local] Opaque create_percommitsec ln_derkey_create_secret ln_derkey_storage_insert_secret
  ln_derkey_storage_get_secret on_local encode moves.

Section refine.
Context {E : Env}.

(** The messages that change an HTLC only mark it as sent. *)
Section create.
Context {R : relation ln_self_t} {LR : LedgerRel R}.
Context (Hsend : ∀ idx, moves R (mod_htlc idx (set_updsend 1))).

Hint Resolve Hsend : steps.

Lemma moves_add_htlc_create idx : moves R (add_htlc_create idx).
Proof. unfold add_htlc_create. steps_tac. Qed.

Lemma moves_fulfill_htlc_create idx : moves R (fulfill_htlc_create idx).
Proof. unfold fulfill_htlc_create. steps_tac. Qed.

Lemma moves_fail_htlc_create idx : moves R (fail_htlc_create idx).
Proof. unfold fail_htlc_create. steps_tac. Qed.

Lemma moves_fail_malformed_htlc_create idx : moves R (fail_malformed_htlc_create idx).
Proof. unfold fail_malformed_htlc_create. steps_tac. Qed.

Hint Resolve moves_add_htlc_create moves_fulfill_htlc_create moves_fail_htlc_create
  moves_fail_malformed_htlc_create : steps.

Lemma moves_idle_nonfinal_slot idx b : moves R (idle_nonfinal_slot idx b).
Proof. unfold idle_nonfinal_slot. steps_tac. Qed.
End create.

Lemma steps_updsend idx : steps (mod_htlc idx (set_updsend 1)).
Proof. apply steps_mod_htlc. intros h. apply SW_updsend. Qed.

Lemma quiet_create_commitment_signed : quiet create_commitment_signed.
Proof. unfold create_commitment_signed. steps_tac. Qed.

Lemma steps_update_scriptkeys : steps update_scriptkeys.
Proof.
  apply moves_other. intros s. cbv beta. destruct (ln_misc_update_scriptkeys _ _ _) as [l r].
  by repeat split.
Qed.

Lemma steps_keys_update : steps ln_signer_keys_update_storage.
Proof. unfold ln_signer_keys_update_storage, ln_signer_keys_update_force. steps_tac. Qed.

Lemma steps_store_secret sec : steps (store_peer_percommit_secret sec).
Proof. unfold store_peer_percommit_secret. steps_tac. Qed.

Hint Resolve steps_updsend steps_update_scriptkeys steps_keys_update steps_store_secret : steps.

#[local] Transparent moves.

Lemma steps_comrecv : steps (map_htlc (λ h, if in_local h then set_comrecv 1 h else h)).
Proof. intros s. apply wp_modify, rtc_once, W_commitment_received. Qed.

Lemma steps_revsend : steps (map_htlc (λ h, if in_local h then set_revsend 1 h else h)).
Proof. intros s. apply wp_modify, rtc_once, W_revocation_sent. Qed.

Lemma steps_revrecv : steps (map_htlc (λ h, if in_remote h then set_revrecv 1 h else h)).
Proof. intros s. apply wp_modify, rtc_once, W_revocation_received. Qed.

(** The signatures of the HTLC transactions are stored in the slots. *)
Lemma steps_store_local_tx x : steps (modify (store_local_tx x)).
Proof.
  intros s. apply wp_modify. unfold store_local_tx. eapply rtc_l; [apply W_signatures|].
  2:{ apply rtc_once, W_other. by repeat split. }
  apply Forall2_same_length_lookup_2.
  { by rewrite length_imap. }
  intros i h h' Hh Hh'. rewrite list_lookup_imap, Hh in Hh'. by simplify_eq/=.
Qed.

Hint Resolve steps_comrecv steps_revsend steps_revrecv steps_store_local_tx : steps.

#[local] Opaque moves.

(** ** Messages *)

Lemma steps_recv_commitment_signed d n : steps (recv_commitment_signed d n).
Proof. unfold recv_commitment_signed, commitment_signed_body. steps_tac. Qed.

Lemma steps_recv_revoke_and_ack d n : steps (recv_revoke_and_ack d n).
Proof. unfold recv_revoke_and_ack. steps_tac. Qed.

Lemma steps_recv_update_fulfill_htlc d n : steps (recv_update_fulfill_htlc d n).
Proof. unfold recv_update_fulfill_htlc. steps_tac. Qed.

Lemma steps_recv_update_fail_htlc d n : steps (recv_update_fail_htlc d n).
Proof. unfold recv_update_fail_htlc. steps_tac. Qed.

Lemma steps_recv_update_fail_malformed_htlc d n : steps (recv_update_fail_malformed_htlc d n).
Proof. unfold recv_update_fail_malformed_htlc. steps_tac. Qed.

Lemma steps_recv_update_fee d n : steps (recv_update_fee d n).
Proof. unfold recv_update_fee. steps_tac. Qed.

Lemma steps_recv_channel_reestablish d n : steps (recv_channel_reestablish d n).
Proof. unfold recv_channel_reestablish. steps_tac. Qed.

Lemma steps_reestablish_create : steps ln_channel_reestablish_create.
Proof. unfold ln_channel_reestablish_create. steps_tac. Qed.

Lemma steps_reestablish_after : steps ln_channel_reestablish_after.
Proof.
  unfold ln_channel_reestablish_after.
  assert (∀ idxs, steps (resend_loop idxs)) by
    (induction idxs; cbn [resend_loop]; steps_tac;
     first [apply moves_fulfill_htlc_create | apply moves_fail_htlc_create
           | apply moves_fail_malformed_htlc_create]; apply steps_updsend).
  steps_tac.
Qed.

Lemma steps_fulfill_htlc_set idx p : steps (ln_fulfill_htlc_set idx p).
Proof. unfold ln_fulfill_htlc_set, alloccopy. steps_tac. Qed.

Lemma steps_fail_htlc_set idx r : steps (ln_fail_htlc_set idx r).
Proof. unfold ln_fail_htlc_set. steps_tac. Qed.

Lemma steps_start_fwd idx : steps (ln_add_htlc_start_fwd idx).
Proof. unfold ln_add_htlc_start_fwd. steps_tac. Qed.

(** ** Offering an HTLC: the writes depend on what the slot holds *)

#[local] Transparent moves.

Lemma quiet_steps {A} (m : M A) : quiet m → steps m.
Proof.
  intros Hm s. eapply wp_mono; [exact (Hm s)|..]; intros; by apply rtc_once, W_other.
Qed.

Lemma wp_get_htlc idx Q X s :
  (∀ h, cnl_add_htlc s !! idx = Some h → Q h s) → wp True (get_htlc idx) Q X s.
Proof. intros H. apply wp_bind. unfold wp, gets. apply wp_option; [|done]. auto. Qed.

Lemma wp_modify_slots (f : ln_self_t → ln_self_t) Q X s : Q tt (f s) → wp True (modify f) Q X s.
Proof. done. Qed.

(** The search found a free slot, and the checks change no ledger. *)
Definition slot_free (idx : nat) (s : ln_self_t) : Prop :=
  ∃ h, cnl_add_htlc s !! idx = Some h ∧ LN_HTLC_EMPTY h = true.

Lemma find_free s idx : find_htlc LN_HTLC_EMPTY 0 (cnl_add_htlc s) = Some idx → slot_free idx s.
Proof.
  intros (pre & h & post & Hs & -> & Hh & _)%LnOffer.find_htlc_Some. exists h.
  split; [|done]. rewrite Hs. cbn [Nat.add]. by apply list_lookup_middle.
Qed.

#[local] Opaque moves.
Lemma quiet_create_checks a c : quiet (create_add_htlc_checks a c).
Proof. unfold create_add_htlc_checks. steps_tac. Qed.

Lemma quiet_create_reason ret r : quiet (create_add_htlc_reason ret r).
Proof. unfold create_add_htlc_reason. steps_tac. Qed.
#[local] Transparent moves.

Lemma wp_check_create r a c s :
  wp True (check_create_add_htlc r a c)
    (λ x s', same_ledger s s' ∧ ∀ idx, x.1 = Some idx → slot_free idx s')
    (λ _ s', same_ledger s s') s.
Proof.
  unfold check_create_add_htlc. apply wp_bind. eapply wp_mono; [exact (moves_call _ (quiet_create_checks a c) s)| |done].
  intros ret s1 H1. apply wp_bind. unfold gets at 1, wp at 1.
  assert (∀ s2, same_ledger s1 s2 → ∀ idx,
    (if ret then find_htlc LN_HTLC_EMPTY 0 (cnl_add_htlc s1) else None) = Some idx → slot_free idx s2) as Hfree.
  { intros s2 (H2 & _) idx. destruct ret; [|done]. intros (h & Hh & He)%find_free. exists h. by rewrite H2. }
  cbv zeta. destruct r as [reason|].
  - apply wp_bind. eapply wp_mono; [exact (quiet_create_reason ret reason s1)| |].
    + intros r2 s2 H2. apply wp_ret. split; [etrans; [exact H1|exact H2]|]. by apply Hfree.
    + intros b s2 H2. etrans; [exact H1|exact H2].
  - apply wp_ret. split; [done|]. by apply Hfree.
Qed.

(** Filling a free slot leaves it without a direction. *)
Definition slot_new (idx : nat) (s : ln_self_t) : Prop :=
  ∃ h, cnl_add_htlc s !! idx = Some h ∧ addhtlc h = LN_ADDHTLC_NONE.

Lemma empty_none h : LN_HTLC_EMPTY h = true → addhtlc h = LN_ADDHTLC_NONE.
Proof. unfold LN_HTLC_EMPTY. intros [H _]%andb_true_iff. by apply Z.eqb_eq. Qed.

Lemma lookup_set_slot idx h h' s :
  cnl_add_htlc s !! idx = Some h → cnl_add_htlc (set_slot idx h' s) !! idx = Some h'.
Proof.
  intros Hh. unfold set_slot. destruct s; cbn in *.
  apply list_lookup_insert_eq. by eapply lookup_lt_Some.
Qed.

(** A free slot is filled in a way that keeps its flags. *)
Lemma wp_fill_slot idx f s :
  slot_free idx s → (∀ h, cnl_add_htlc s !! idx = Some h → bits (f h) = bits h) →
  wp True (mod_htlc idx f) (λ _ s', rtc write s s' ∧ slot_new idx s') (λ _ s', rtc write s s') s.
Proof.
  intros (h & Hh & He) Hf. apply wp_mod_htlc; intros; simplify_eq. split.
  - apply rtc_once. eapply W_slot; [done|]. apply SW_fill; auto.
  - exists (f h). split; [by eapply lookup_set_slot|]. unfold addhtlc. rewrite Hf by done. by apply empty_none.
Qed.

Lemma wp_fill idx id p a c hash sid pidx sec s :
  slot_free idx s →
  wp True (fill_htlc idx id p a c hash sid pidx sec)
    (λ _ s', rtc write s s' ∧ slot_new idx s') (λ _ s', rtc write s s') s.
Proof.
  intros Hfree. unfold fill_htlc. apply wp_bind, wp_get, wp_bind, wp_get_htlc. intros h Hh.
  apply wp_bind. unfold alloccopy at 1. apply wp_bind, wp_option; [|done]. intros x _. apply wp_ret.
  cbv zeta. apply wp_bind. destruct sec as [sec|].
  - unfold alloccopy. apply wp_bind, wp_option; [|done]. intros y _. apply wp_ret.
    by apply wp_fill_slot.
  - apply wp_ret. by apply wp_fill_slot.
Qed.

(** The trial transaction leaves the slots as they were. *)
Lemma quiet_trial idx : quiet (check_create_remote_commit_tx idx).
Proof.
  intros s. unfold check_create_remote_commit_tx. apply wp_bind, wp_get, wp_bind, wp_get_htlc.
  intros h Hh. cbv zeta. apply wp_bind, wp_mod_htlc; [|congruence]. intros h1 Hh1. simplify_eq.
  apply wp_bind, wp_get, wp_bind. apply wp_mod_htlc.
  2:{ intros Hn. by rewrite (lookup_set_slot _ h) in Hn. }
  intros h2 Hh2. rewrite (lookup_set_slot _ h) in Hh2 by done. simplify_eq.
  assert (∀ x, same_ledger s (set_slot idx (UpdateAddHtlc.set_stat_bits (bits h)
             (UpdateAddHtlc.set_stat_bits x h)) (set_slot idx (UpdateAddHtlc.set_stat_bits x h) s))) as Hsame.
  { intros x. replace (UpdateAddHtlc.set_stat_bits (bits h) _) with h by (by destruct h).
    unfold set_slot. destruct s; cbn in *. repeat split.
    by rewrite list_insert_insert_eq, list_insert_id. }
  apply wp_bind. destruct (negb _); [apply wp_modify|apply wp_ret]; apply wp_ret; apply Hsame.
Qed.

Lemma wp_unfill idx s :
  slot_new idx s → wp True (clear_htlc idx) (λ _ s', rtc write s s') (λ _ s', rtc write s s') s.
Proof.
  intros (h & Hh & Hn). unfold clear_htlc. apply wp_bind, wp_get_htlc. intros h1 Hh1. simplify_eq.
  apply wp_bind, wp_modify. set (s1 := set_trace _ s).
  assert (cnl_add_htlc s1 !! idx = Some h) as Hh1 by (by destruct s).
  apply wp_mod_htlc; [|congruence]. intros h2 Hh2. assert (h2 = h) as -> by congruence.
  eapply rtc_l; [apply (W_other s s1); by destruct s|]. apply rtc_once.
  eapply W_slot; [done|]. by apply SW_unfill.
Qed.

Lemma steps_set_add_htlc r p a c hash sid pidx sec : steps (set_add_htlc r p a c hash sid pidx sec).
Proof.
  intros s. unfold set_add_htlc. apply wp_bind.
  eapply wp_mono; [apply wp_check_create| |].
  2:{ intros b s1 H1. by apply rtc_once, W_other. }
  intros [[idx|] r1] s1 [H1 Hfree]; cbv beta iota.
  2:{ apply wp_ret, rtc_once. by apply W_other. }
  specialize (Hfree idx eq_refl). apply wp_bind. unfold gets at 1, wp at 1.
  apply wp_bind, wp_modify. set (s2 := set_htlc_id_num _ s1).
  assert (rtc write s s2) as H2.
  { eapply rtc_l; [by apply W_other|]. apply rtc_once, W_other. by destruct s1. }
  assert (slot_free idx s2) as Hfree2 by (by destruct s1).
  apply wp_bind. eapply wp_mono; [by apply wp_fill| |].
  2:{ intros b s3 H3. by etrans. }
  intros [] s3 [H3 Hnew]. apply wp_bind. eapply wp_mono; [exact (quiet_trial idx s3)| |].
  2:{ intros b s4 H4. etrans; [exact H2|]. etrans; [exact H3|]. by apply rtc_once, W_other. }
  intros ret s4 H4. assert (rtc write s s4) as H24.
  { etrans; [exact H2|]. etrans; [exact H3|]. by apply rtc_once, W_other. }
  destruct ret; [by apply wp_ret|].
  apply wp_bind, wp_modify. apply wp_bind. eapply wp_mono; [apply wp_unfill| |].
  - destruct Hnew as (h & Hh & Hn). exists h. destruct H4 as (Hs & _). split; [|done].
    rewrite <- Hh, <- Hs. by destruct s4.
  - intros [] s5 H5. apply wp_ret. etrans; [exact H24|]. etrans; [|exact H5].
    apply rtc_once, W_other. by destruct s4.
  - intros b s5 H5. etrans; [exact H24|]. etrans; [|exact H5].
    apply rtc_once, W_other. by destruct s4.
Qed.

#[local] Opaque moves.
Hint Resolve steps_set_add_htlc : steps.

Lemma steps_add_htlc_set r p a c hash sid pidx sec : steps (ln_add_htlc_set r p a c hash sid pidx sec).
Proof. unfold ln_add_htlc_set. steps_tac. Qed.

Lemma steps_add_htlc_set_fwd r p a c hash sid pidx sec :
  steps (ln_add_htlc_set_fwd r p a c hash sid pidx sec).
Proof. unfold ln_add_htlc_set_fwd. steps_tac. Qed.
#[local] Transparent moves.

(** ** Receiving an HTLC *)

(** Decoding an update_add_htlc into a slot does not touch its flags. *)
Lemma read_keeps_flags d n h :
  wp True (UpdateAddHtlc.ln_msg_update_add_htlc_read d n)
    (λ _ h', bits h' = bits h) (λ _ h', bits h' = bits h) h.
Proof.
  unfold UpdateAddHtlc.ln_msg_update_add_htlc_read, get_at, buf_alloccopy_at, rd_bytes.
  cbv zeta.
  repeat lazymatch goal with
  | |- wp _ (mbind _ _) _ _ _ => apply wp_bind
  | |- wp _ (exit_if _ _) _ _ _ => apply wp_exit_if; intros _; [reflexivity|]
  | |- wp _ (of_option _) _ _ _ => apply wp_option; [intros ? _|done]
  | |- wp _ (if _ then _ else _) _ _ _ => case_match
  | |- wp _ ub _ _ _ => exact I
  | |- wp _ (modify _) _ _ _ => apply wp_modify
  | |- wp _ get_st _ _ _ => apply wp_get
  | |- wp _ (mret _) _ _ _ => apply wp_ret
  | |- wp _ (c_assert _) _ _ _ => apply wp_assert; [intros _|done]
  end; reflexivity.
Qed.

#[local] Opaque moves.

Section node.
Context {N : Node}.

Lemma steps_on_reason m r : steps (on_reason m r).
Proof. unfold on_reason. steps_tac. Qed.
Hint Resolve steps_on_reason : steps.

Lemma steps_refuse m r : steps (refuse m r).
Proof. unfold refuse. steps_tac. Qed.
Hint Resolve steps_refuse : steps.

Lemma steps_preimg_search rows hash : steps (preimg_search rows hash).
Proof. induction rows; cbn [preimg_search]; steps_tac. Qed.
Hint Resolve steps_preimg_search : steps.

Lemma steps_final hop r h height : steps (check_recv_add_htlc_bolt4_final hop r h height).
Proof. unfold check_recv_add_htlc_bolt4_final. steps_tac. Qed.

Lemma steps_outgoing_update hop : steps (outgoing_update hop).
Proof. unfold outgoing_update. steps_tac. Qed.
Hint Resolve steps_final steps_outgoing_update : steps.

Lemma steps_forward hop r h height : steps (check_recv_add_htlc_bolt4_forward hop r h height).
Proof. unfold check_recv_add_htlc_bolt4_forward. steps_tac. Qed.
Hint Resolve steps_forward : steps.

Lemma steps_common r : steps (check_recv_add_htlc_bolt4_common r).
Proof. unfold check_recv_add_htlc_bolt4_common. steps_tac. Qed.

Lemma steps_read_onion idx r : steps (read_onion idx r).
Proof.
  unfold read_onion, alloccopy. apply moves_bind; [steps_tac|intros h].
  apply moves_bind; [steps_tac|intros d]. apply moves_bind; [apply moves_with_reason|intros x].
  steps_tac.
Qed.
Hint Resolve steps_read_onion : steps.

Lemma steps_bolt4 idx r : steps (bolt4_checks idx r).
Proof. unfold bolt4_checks, alloccopy. steps_tac. Qed.

Lemma steps_notify idx hop r : steps (notify_add_htlc idx hop r).
Proof. unfold notify_add_htlc. steps_tac. Qed.

Lemma steps_store_failure idx result r : steps (store_failure idx result r).
Proof. unfold store_failure, alloccopy. steps_tac. Qed.

Lemma steps_bolt2 h : steps (check_recv_add_htlc_bolt2 h).
Proof. unfold check_recv_add_htlc_bolt2. steps_tac. Qed.
Hint Resolve steps_common steps_bolt4 steps_notify steps_store_failure steps_bolt2 : steps.

#[local] Transparent on_local.
Lemma wp_on_local {T} (m : prog T bool) (t : T) (Q : bool * T → ln_self_t → Prop)
    (X : bool → ln_self_t → Prop) s :
  wp True m (λ b t', Q (b, t') s) (λ b t', Q (b, t') s) t → wp True (on_local m t) Q X s.
Proof. unfold wp, on_local, run. by destruct (m t). Qed.
#[local] Opaque on_local.

Lemma steps_add_htlc_received idx b h : steps (add_htlc_received idx b h).
Proof. unfold add_htlc_received. steps_tac. Qed.

#[local] Transparent moves.
Lemma steps_recv_update_add_htlc d n : steps (recv_update_add_htlc d n).
Proof.
  intros s. unfold recv_update_add_htlc. apply wp_bind, wp_get.
  destruct (find_htlc _ _ _) as [idx|] eqn:Hfind.
  2:{ apply wp_bind, wp_modify, wp_ret, rtc_once, W_other. by destruct s. }
  apply find_free in Hfind. apply wp_bind, wp_get_htlc. intros h Hh.
  apply wp_bind, wp_on_local.
  eapply wp_mono; [apply read_keeps_flags| |]; intros b h1 Hb; cbv beta iota;
    (apply wp_bind; eapply wp_mono; [apply (wp_fill_slot idx (λ _, h1)); [done|]| |];
     [ intros h2 Hh2; rewrite Hh in Hh2; injection Hh2 as <-; exact Hb
     | intros [] s1 [H1 _]; apply wp_after; [done|]; apply steps_add_htlc_received
     | done ]).
Qed.
End node.
(** ** Between messages *)

(** Writes that touch no slot but [idx]. *)
Definition local_write (idx : nat) (s s' : ln_self_t) : Prop :=
  rtc write s s' ∧ ∀ j, j ≠ idx → cnl_add_htlc s' !! j = cnl_add_htlc s !! j.

#[local] Instance local_write_rel idx : LedgerRel (local_write idx).
Proof.
  split.
  - split; [by intros s; split|]. intros s1 s2 s3 [H1 K1] [H2 K2]. split; [by etrans|].
    intros j Hj. by rewrite K2, K1.
  - intros s s' H. split; [by apply rtc_once, W_other|]. destruct H as (H & _). intros j _. by rewrite H.
Qed.

Lemma local_slot idx h h' s :
  cnl_add_htlc s !! idx = Some h → slot_write h h' → local_write idx s (set_slot idx h' s).
Proof.
  intros Hh Hw. split; [apply rtc_once; by eapply W_slot|].
  intros j Hj. unfold set_slot. destruct s; cbn. by apply list_lookup_insert_ne.
Qed.

#[local] Transparent moves.
Lemma moves_at R {A} (m : M A) s : moves R m → wp True m (λ _ s', R s s') (λ _ s', R s s') s.
Proof. intros H. apply H. Qed.

Lemma moves_local idx f : (∀ h, slot_write h (f h)) → moves (local_write idx) (mod_htlc idx f).
Proof. intros Hf s. apply wp_mod_htlc; [|done]. intros h Hh. by eapply local_slot. Qed.

Ltac mod_rule ::= first
  [ apply steps_mod_htlc; intros ?; slot_rule | apply moves_local; intros ?; slot_rule ].

(** A finished HTLC whose commitments are complete is settled. *)
Lemma local_settle idx h s s' :
  cnl_add_htlc s !! idx = Some h → finished h = true → committed h = true →
  same_ledger (settled idx h s) s' → local_write idx s s'.
Proof.
  intros Hh Hf Hc Hs. split.
  - eapply rtc_l; [by apply W_settle|]. by apply rtc_once, W_other.
  - destruct Hs as (Hs & _). intros j Hj. rewrite Hs, settled_slots. by apply list_lookup_insert_ne.
Qed.

(** The slots from [i] on that are in use have been committed. *)
Definition committed_from (i : nat) (s : ln_self_t) : Prop :=
  ∀ j h, (i ≤ j)%nat → cnl_add_htlc s !! j = Some h → LN_HTLC_ENABLE h = true → committed h = true.

#[local] Opaque moves.
Lemma wp_final_slot idx a s :
  (∀ h, cnl_add_htlc s !! idx = Some h → LN_HTLC_ENABLE h = true → committed h = true) →
  wp True (idle_final_slot idx a) (λ _ s', local_write idx s s') (λ _ s', local_write idx s s') s.
Proof.
  intros Hcom. unfold idle_final_slot. destruct a as [d r]. apply wp_bind, wp_get_htlc. intros h Hh.
  specialize (Hcom h Hh).
  assert (∀ s', same_ledger s s' → local_write idx s s') as Hsame by (intros; by apply ledger_other).
  destruct (LN_HTLC_ENABLE h) eqn:He; [|by apply wp_ret, Hsame].
  destruct (LN_HTLC_ENABLE_LOCAL_ADDHTLC_OFFER h) eqn:Eo; [by apply wp_ret, Hsame|].
  destruct (LN_HTLC_ENABLE_LOCAL_ADDHTLC_RECV h) eqn:Er.
  - apply (moves_at (local_write idx)). steps_tac.
  - assert (finished h = true) as Hfin by (unfold finished; by rewrite He, Eo, Er).
    assert (∀ s', same_ledger (settled idx h s) s' → local_write idx s s') as Hset
      by (intros; eapply local_settle; eauto).
    apply wp_bind.
    apply (wp_mono _ (λ _ s1, cnl_add_htlc s1 = cnl_add_htlc s ∧
                              same_ledger (settled idx h s) (set_slot idx no_htlc s1))
             _ (λ _ _, False)); [| |done].
    + unfold settled, transfer, emit, wp, modify, set_slot, same_ledger, mbind, prog_bind, mret, prog_ret.
      destruct (addhtlc h =? 1), (delhtlc h =? 1), (addhtlc h =? 2),
        (UpdateAddHtlc.prev_short_channel_id h =? 0);
        destruct s; cbn; rewrite ?Z.add_opp_r, ?Z.sub_opp_r; by repeat split.
    + intros [] s1 [Hsl H1]. unfold clear_htlc. apply wp_bind, wp_bind, wp_get_htlc. intros h1 Hh1.
      apply wp_bind, wp_modify. set (s2 := set_trace _ s1).
      apply wp_mod_htlc.
      * intros h2 _. apply wp_ret, Hset. etrans; [exact H1|]. unfold s2, set_slot. by destruct s1.
      * intros Hn. exfalso. assert (cnl_add_htlc s2 = cnl_add_htlc s1) as E2 by (by destruct s1).
        congruence.
Qed.
#[local] Transparent moves.

(** A loop keeps an invariant that each round hands to the next. *)
Lemma wp_for_idx {A} (I : nat → ln_self_t → Prop) (X : bool → ln_self_t → Prop) (body : nat → A → M A) n k a s :
  (∀ i a s, I i s → wp True (body i a) (λ _ s', I (S i) s') X s) →
  I k s → wp True (for_idx (seq k n) body a) (λ _ s', I (k + n)%nat s') X s.
Proof.
  intros Hbody. revert k a s. induction n as [|n IH]; intros k a s Hk; cbn [seq for_idx].
  - apply wp_ret. by rewrite Nat.add_0_r.
  - apply wp_bind. eapply wp_mono; [by apply Hbody| |done].
    intros a1 s1 H1. rewrite Nat.add_succ_r. by apply (IH (S k)).
Qed.

Lemma steps_idle_final s :
  committed_from 0 s →
  wp True recv_idle_proc_final (λ _ s', rtc write s s') (λ _ s', rtc write s s') s.
Proof.
  intros Hc. unfold recv_idle_proc_final. apply wp_bind.
  eapply wp_mono; [apply (wp_for_idx (λ i s', rtc write s s' ∧ committed_from i s')
                                     (λ _ s', rtc write s s'))| |done].
  - intros i a s1 [H1 Hc1]. eapply wp_mono; [apply wp_final_slot; intros h Hh; by apply (Hc1 i)| |].
    + intros a2 s2 [H2 Hsame]. split; [by etrans|].
      intros j h Hj Hh. apply (Hc1 j h); [lia|]. rewrite <- Hsame by lia. done.
    + intros b s2 [H2 _]. by etrans.
  - by split.
  - intros [d r] s1 [H1 _]. apply wp_after; [done|]. cbv beta iota.
    Opaque moves. steps_tac.
Qed.

(** Marking updates as sent opens no exchange of commitments. *)
Definition closed_write (s s' : ln_self_t) : Prop :=
  rtc write s s' ∧ (forallb exchange_closed (cnl_add_htlc s) = true →
                    forallb exchange_closed (cnl_add_htlc s') = true).

#[local] Instance closed_write_rel : LedgerRel closed_write.
Proof.
  split.
  - split; [by intros s; split|]. intros s1 s2 s3 [H1 K1] [H2 K2]. split; [by etrans|]. auto.
  - intros s s' H. split; [by apply rtc_once, W_other|]. destruct H as (H & _). by rewrite H.
Qed.

Lemma mask_updsend h m :
  Z.testbit m 4 = false → Z.land (bits (set_updsend 1 h)) m = Z.land (bits h) m.
Proof.
  intros Hm. apply Z.bits_inj'. intros n Hn. rewrite !Z.land_spec.
  destruct (decide (n = 4)) as [->|Hne]; [by rewrite Hm, !andb_false_r|].
  unfold set_updsend, put. cbn [UpdateAddHtlc.stat_bits UpdateAddHtlc.set_stat_bits].
  rewrite testbit_set by lia.
  destruct (Z.leb_spec 4 n), (Z.ltb_spec n (4 + 1)); cbn [andb]; try done; lia.
Qed.

Lemma forallb_insert (f : htlc → bool) (hs : list htlc) (i : nat) h h' :
  hs !! i = Some h → f h' = f h → forallb f (<[i := h']> hs) = forallb f hs.
Proof.
  intros Hi Hf. revert i Hi. induction hs as [|x hs IH]; intros [|i] Hi; simplify_eq/=.
  - by rewrite Hf.
  - f_equal. by apply IH.
Qed.

Lemma closed_updsend idx : moves closed_write (mod_htlc idx (set_updsend 1)).
Proof.
  Transparent moves.
  intros s. apply wp_mod_htlc; [|by intros; apply ledger_other].
  intros h Hh. split; [by apply rtc_once; eapply W_slot, SW_updsend|].
  intros Hc. unfold set_slot. destruct s; cbn in *. erewrite forallb_insert; [done|done|].
  unfold exchange_closed. by rewrite !mask_updsend by done.
Qed.

Lemma steps_idle_nonfinal : steps recv_idle_proc_nonfinal.
Proof.
  intros s. unfold recv_idle_proc_nonfinal. apply wp_bind, wp_get. cbv zeta. rewrite negb_involutive.
  apply wp_bind. destruct (forallb exchange_closed (cnl_add_htlc s)) eqn:Hcl.
  2:{ apply wp_ret. by apply wp_ret. }
  eapply wp_mono; [apply (moves_at closed_write)| |].
  { apply moves_for_idx. intros. apply moves_idle_nonfinal_slot, closed_updsend. }
  2:{ by intros b s1 [H1 _]. }
  intros [|] s1 [H1 Hcl1]; [|by apply wp_ret]. specialize (Hcl1 Hcl).
  apply wp_bind. eapply wp_mono; [exact (quiet_create_commitment_signed s1)| |].
  2:{ intros b s2 H2. etrans; [exact H1|]. by apply rtc_once, W_other. }
  intros [[|] b] s2 H2; cbv beta iota.
  2:{ apply wp_modify. etrans; [exact H1|]. apply rtc_once, W_other. etrans; [exact H2|]. by destruct s2. }
  apply wp_bind, wp_modify. set (s3 := set_trace _ s2).
  assert (same_ledger s1 s3) as H3 by (etrans; [exact H2|]; by destruct s2).
  apply wp_bind, wp_modify. apply wp_modify.
  etrans; [exact H1|]. eapply rtc_l; [by apply (W_other s1 s3)|].
  eapply rtc_l; [apply W_commitment_sent|apply rtc_once, W_other; by destruct s3].
  destruct H3 as (-> & _). done.
Qed.

(** The scan says final when every HTLC in use has been committed. *)
Lemma idle_scan_final hs n k :
  idle_scan hs n = (k, true) → Forall (λ h, LN_HTLC_ENABLE h = true → committed h = true) hs.
Proof.
  revert n. induction hs as [|h hs IH]; intros n; cbn [idle_scan]; [by constructor|].
  destruct (LN_HTLC_ENABLE h) eqn:He.
  - destruct (committed h) eqn:Hc; cbn [negb]; [|done]. intros H. constructor; [done|by eapply IH].
  - intros H. constructor; [congruence|by eapply IH].
Qed.

Lemma steps_recv_idle_proc : steps ln_recv_idle_proc.
Proof.
  intros s. unfold ln_recv_idle_proc. apply wp_bind, wp_get.
  destruct (idle_scan (cnl_add_htlc s) 0) as [k f] eqn:Hscan.
  destruct (Nat.eqb k 0); [by apply wp_ret|]. destruct f; [|apply steps_idle_nonfinal].
  apply steps_idle_final. intros j h _ Hh. apply idle_scan_final in Hscan.
  rewrite Forall_lookup in Hscan. by apply (Hscan j).
Qed.
End refine.
End LnRefine.
