(* ===== verification/LnChannel.v ===== *)
(** A channel as its environment uses it: the requests, the messages of normal
    operation and the work between messages, in any order. What every such
    history keeps, and how two HTLCs that cross stop the channel for good. *)
From stdpp Require Import base list numbers relations tactics.
From Stdlib Require Import ZArith Lia.
From S2P Require Import Prelude CProg UtlBuf UtlPush LnDerkey LnMisc LnOnion LnMsg.
From S2P Require Import LnMsgNormal LnHtlc LnSelf LnNormal LnRecv LnAddHtlc LnForward.
From S2P Require Import LnToy LnToyNode LnCommit LnSpec LnRefine.
Import UtlBuf UtlPush ShaChain Derkey LnMisc LnMsg LnMsgNormal LnHtlc LnSelf LnNormal LnRecv.
Import LnAddHtlc LnForward LnSpec LnRefine LnCommit.
Open Scope Z_scope.

Module LnChannel.

(** ** Histories *)

Inductive op :=
| RecvUpdateAddHtlc (pData : bytes) (Len : Z)
| RecvUpdateFulfillHtlc (pData : bytes) (Len : Z)
| RecvUpdateFailHtlc (pData : bytes) (Len : Z)
| RecvUpdateFailMalformedHtlc (pData : bytes) (Len : Z)
| RecvCommitmentSigned (pData : bytes) (Len : Z)
| RecvRevokeAndAck (pData : bytes) (Len : Z)
| RecvUpdateFee (pData : bytes) (Len : Z)
| RecvChannelReestablish (pData : bytes) (Len : Z)
| RecvIdleProc
| ChannelReestablishCreate
| ChannelReestablishAfter
| AddHtlcSet (pReason : option utl_buf_t) (pPacket : bytes) (AmountMsat CltvValue : Z)
    (pPaymentHash : bytes) (PrevShortChannelId PrevIdx : Z) (pSharedSecrets : option bytes)
| AddHtlcSetFwd (pReason : option utl_buf_t) (pPacket : bytes) (AmountMsat CltvValue : Z)
    (pPaymentHash : bytes) (PrevShortChannelId PrevIdx : Z) (pSharedSecrets : option bytes)
| AddHtlcStartFwd (Idx : nat)
| FulfillHtlcSet (Idx : nat) (pPreImage : bytes)
| FailHtlcSet (Idx : nat) (pReason : utl_buf_t).

Section channel.
Context {E : Env} {N : Node}.

(** Drop what a function returns. *)
Definition ignore {A} (m : M A) : M unit := m;; mret tt.

Definition exec (o : op) : M unit :=
  match o with
  | RecvUpdateAddHtlc d n => ignore (call (recv_update_add_htlc d n))
  | RecvUpdateFulfillHtlc d n => ignore (call (recv_update_fulfill_htlc d n))
  | RecvUpdateFailHtlc d n => ignore (call (recv_update_fail_htlc d n))
  | RecvUpdateFailMalformedHtlc d n => ignore (call (recv_update_fail_malformed_htlc d n))
  | RecvCommitmentSigned d n => ignore (call (recv_commitment_signed d n))
  | RecvRevokeAndAck d n => ignore (call (recv_revoke_and_ack d n))
  | RecvUpdateFee d n => ignore (call (recv_update_fee d n))
  | RecvChannelReestablish d n => ignore (call (recv_channel_reestablish d n))
  | RecvIdleProc => ln_recv_idle_proc
  | ChannelReestablishCreate => ignore ln_channel_reestablish_create
  | ChannelReestablishAfter => ln_channel_reestablish_after
  | AddHtlcSet r p a c h sid i sec => ignore (ln_add_htlc_set r p a c h sid i sec)
  | AddHtlcSetFwd r p a c h sid i sec => ignore (ln_add_htlc_set_fwd r p a c h sid i sec)
  | AddHtlcStartFwd i => ln_add_htlc_start_fwd i
  | FulfillHtlcSet i p => ignore (call (ln_fulfill_htlc_set i p))
  | FailHtlcSet i r => ignore (call (ln_fail_htlc_set i r))
  end.

(** One operation that returns. *)
Inductive runs (s s' : ln_self_t) : Prop :=
| runs_op o : exec o s = Ret tt s' → runs s s'.

Lemma exec_steps o : steps (exec o).
Proof.
  destruct o; cbn [exec]; unfold ignore;
    try (apply moves_bind; [try apply moves_call|intros; apply moves_ret]).
  - apply steps_recv_update_add_htlc.
  - apply steps_recv_update_fulfill_htlc.
  - apply steps_recv_update_fail_htlc.
  - apply steps_recv_update_fail_malformed_htlc.
  - apply steps_recv_commitment_signed.
  - apply steps_recv_revoke_and_ack.
  - apply steps_recv_update_fee.
  - apply steps_recv_channel_reestablish.
  - apply steps_recv_idle_proc.
  - apply steps_reestablish_create.
  - apply steps_reestablish_after.
  - apply steps_add_htlc_set.
  - apply steps_add_htlc_set_fwd.
  - apply steps_start_fwd.
  - apply steps_fulfill_htlc_set.
  - apply steps_fail_htlc_set.
Qed.

Lemma runs_writes s s' : rtc runs s s' → rtc write s s'.
Proof.
  induction 1 as [|s s1 s' [o Ho] _ IH]; [done|]. etrans; [|exact IH].
  pose proof (exec_steps o s) as H. unfold wp in H. by rewrite Ho in H.
Qed.

(** C1: the program refines the abstract channel: whatever sequence of requests,
    messages and idle rounds a channel goes through, its balances and slots
    change by the writes [LnSpec.write] allows, and by no others. *)
Theorem channel_refines s s' : rtc runs s s' → rtc write s s'.
Proof. apply runs_writes. Qed.

(** C2: no sequence of operations creates or destroys balance, loses a slot or
    adds one: the sum of both balances stays what it was (in the 64 bits the
    code keeps it in), whatever the peer sends. *)
Theorem balance_conserved s s' : rtc runs s s' →
  u64 (our_msat s' + their_msat s') = u64 (our_msat s + their_msat s) ∧
  length (cnl_add_htlc s') = length (cnl_add_htlc s).
Proof.
  intros Hr%runs_writes. split.
  - by apply (writes_keep (λ x, u64 (our_msat x + their_msat x) = u64 (our_msat s + their_msat s)) s s');
      [intros x y ->%total_write|..].
  - by apply (writes_keep (λ x, length (cnl_add_htlc x) = length (cnl_add_htlc s)) s s');
      [intros x y ->%slots_write|..].
Qed.

(** C3: the data of a channel keep their types: whatever is requested and received, both
    balances stay numbers of 64 bits, there are six HTLC slots, and in the flags of each the
    reserved bits stay clear and the side that added it is nobody, we or the peer
    (the fourth value of the field is never written). *)
Theorem channel_typed s s' : rtc runs s s' → typed s → typed s'.
Proof. intros Hr%runs_writes. apply (writes_keep typed); [exact typed_write|exact Hr]. Qed.

(** ** HTLCs that cross *)

(** The scan finds an HTLC that has not been committed. *)
Lemma idle_scan_stalled hs n :
  Exists stuck hs → ∃ k, idle_scan hs n = (S k, false).
Proof.
  intros H. revert n. induction H as [h hs Hh|h hs _ IH]; intros n; cbn [idle_scan].
  - rewrite (stuck_enable _ Hh), (stuck_not_committed _ Hh). by exists n.
  - destruct (LN_HTLC_ENABLE h); [|apply IH]. destruct (committed h); cbn [negb]; [apply IH|by exists n].
Qed.

Lemma stalled_open hs : Exists stuck hs → forallb exchange_closed hs = false.
Proof.
  induction 1 as [h hs Hh|h hs _ IH]; cbn [forallb].
  - by rewrite (stuck_open _ Hh).
  - by rewrite IH, andb_false_r.
Qed.

Lemma stalled_idle s : stalled s → ln_recv_idle_proc s = Ret tt s.
Proof.
  intros Hs. unfold ln_recv_idle_proc. rewrite get_st_step.
  destruct (idle_scan_stalled _ 0 Hs) as [k ->]. cbn [Nat.eqb].
  unfold recv_idle_proc_nonfinal. rewrite get_st_step. cbv zeta.
  by rewrite (stalled_open _ Hs).
Qed.

(** A peer's HTLC in our commitment that ours to the peer does not have yet. *)
Definition half_added (h : htlc) : Prop :=
  addhtlc h = LN_ADDHTLC_RECV ∧ updsend h = 0 ∧ comrecv h = 1 ∧ revsend h = 1 ∧ comsend h = 0.

#[global] Instance half_added_dec h : Decision (half_added h).
Proof. unfold half_added. apply _. Defined.

Lemma half_added_stuck h :
  half_added h → stuck (if in_remote h then set_revrecv 1 h else h).
Proof.
  intros (Ha & Hu & Hc & Hr & Hs). assert (in_remote h = true) as ->.
  { unfold in_remote, LN_HTLC_ENABLE, LN_HTLC_EMPTY, LN_HTLC_ENABLE_REMOTE_ADDHTLC_RECV.
    rewrite Ha, Hu, Hc, Hr. cbn. by rewrite orb_true_r. }
  unfold stuck. flag_simpl. rewrite Ha, Hs. done.
Qed.

Lemma crossed_stalled s s' :
  cnl_add_htlc s' = map on_revocation (cnl_add_htlc s) → Exists half_added (cnl_add_htlc s) → stalled s'.
Proof.
  unfold stalled. intros -> H. induction H as [h hs Hh|h hs _ IH]; cbn [map].
  - left. by apply half_added_stuck.
  - by right.
Qed.

Lemma stalled_runs s s' : rtc runs s s' → stalled s → stalled s'.
Proof. intros H%runs_writes. by apply (writes_keep stalled s s' stalled_write). Qed.

Context {L : EnvLaws E}.

(** C4: two HTLCs that cross stop the channel for good: when the peer's
    revoke_and_ack for our commitment_signed arrives while an HTLC of the peer
    is half added (in our commitment, but not yet in the peer's), that HTLC is
    flagged as if the peer had revoked for it too; from then on, whatever is
    received or requested, the idle round does nothing at all, so no
    commitment_signed is ever sent and no HTLC is ever settled. *)
Theorem crossing_adds_stall s m rest p st :
  RevokeAndAck.wf m → packet (RevokeAndAck.wire m ++ rest) →
  RevokeAndAck.p_channel_id m = channel_id s →
  btc_keys_priv2pub (RevokeAndAck.p_per_commit_secret m) = Some p →
  run (ln_derkey_storage_insert_secret btc_util_sha256 (RevokeAndAck.p_per_commit_secret m)
         (peer_storage_index s)) (peer_storage s) = Ret true st →
  Exists half_added (cnl_add_htlc s) →
  ∃ s1, recv_revoke_and_ack (RevokeAndAck.wire m ++ rest)
      (Z.of_nat (length (RevokeAndAck.wire m ++ rest))) s = Ret true s1 ∧
    ∀ s2, rtc runs s1 s2 → stalled s2 ∧ ln_recv_idle_proc s2 = Ret tt s2.
Proof.
  intros Hm Hp Hid Hpub Hst Hh.
  destruct (revoke_step s m rest p st Hm Hp Hid Hpub Hst) as (s1 & Hr & Hrev).
  exists s1. split; [exact Hr|]. destruct Hrev as (_ & _ & _ & _ & _ & Hs & _). intros s2 H2.
  pose proof (stalled_runs _ _ H2 (crossed_stalled _ _ Hs Hh)) as H. split; [exact H|by apply stalled_idle].
Qed.

End channel.

(** ** On a concrete channel *)

(** Our HTLC of 5000 has been sent and committed to; the peer, not having seen it,
    has sent one of 7000. *)
Definition crossing : ln_self_t :=
  set_commit_remote (set_commit_num 1 LnToy.commit_0)
    (LnToy.node 100000 200000 (LnToy.slots [LnToy.an_htlc 0x31 5000; LnToy.an_htlc 0x2 7000])).

(** The peer's commitment_signed for its HTLC, which half adds it. *)
Definition half_crossed : ln_self_t :=
  match @recv_commitment_signed LnToy.env (CommitSigned.wire its_commitment) 100 crossing with
  | Ret _ s => s
  | _ => crossing
  end.

Abbreviation toy_runs := (@runs LnToy.env LnToyNode.node).

Lemma crossing_runs : rtc toy_runs crossing half_crossed.
Proof.
  apply rtc_once, (runs_op _ _ (RecvCommitmentSigned (CommitSigned.wire its_commitment) 100)).
  vm_compute. reflexivity.
Qed.

Lemma channel_refines_witness : rtc toy_runs crossing half_crossed ∧ rtc write crossing half_crossed.
Proof. split; [apply crossing_runs|]. apply (channel_refines _ _ crossing_runs). Defined.

Lemma balance_conserved_witness :
  rtc toy_runs crossing half_crossed ∧ u64 (our_msat half_crossed + their_msat half_crossed) = 300000.
Proof. split; [apply crossing_runs|]. apply (balance_conserved _ _ crossing_runs). Defined.

Lemma channel_typed_witness : rtc toy_runs crossing half_crossed ∧ typed crossing ∧ typed half_crossed.
Proof.
  assert (typed crossing) as Ht by (apply (bool_decide_unpack (typed crossing)); vm_compute; exact I).
  split; [apply crossing_runs|]. split; [exact Ht|]. apply (channel_typed _ _ crossing_runs Ht).
Defined.

(** What the peer answers to our commitment_signed. *)
Lemma crossing_adds_stall_witness :
  Exists half_added (cnl_add_htlc half_crossed) ∧
  ∃ s1, @recv_revoke_and_ack LnToy.env (RevokeAndAck.wire its_revocation ++ []) 99 half_crossed =
    Ret true s1 ∧ @ln_recv_idle_proc LnToy.env s1 = Ret tt s1.
Proof.
  assert (Exists half_added (cnl_add_htlc half_crossed)) as Hh by by_compute.
  split; [exact Hh|].
  destruct (@crossing_adds_stall LnToy.env LnToyNode.node LnToy.env_laws half_crossed
    its_revocation [] (LnToy.point 0)
    (<[0%nat := mk_bucket (RevokeAndAck.p_per_commit_secret its_revocation) LN_SECINDEX_INIT]>
       ln_derkey_storage_init)) as (s1 & H1 & H2).
  - by_compute.
  - by_compute.
  - vm_compute. reflexivity.
  - by_compute.
  - vm_compute. reflexivity.
  - exact Hh.
  - exists s1. split; [exact H1|]. apply (H2 s1). apply rtc_refl.
Defined.

End LnChannel.
