(* ===== verification/LnNoise.v ===== *)
(** The encrypted transport: [ln/ln_enc_auth.c], the keys it multiplies
    ([ln_misc_generate_shared_secret], [ln_node_generate_shared_secret],
    [btc_util_createkeys]) and the receiving loop of [ptarmd/lnapp.c].

    ChaCha20-Poly1305, HKDF, SHA-256 and the curve are mbedtls
    ([M_USE_SODIUM] is not defined). The node's own keys [mNode.keys] are an
    argument of the functions that use them, since two nodes talk. *)
From stdpp Require Import base list numbers tactics.
From Stdlib Require Import ZArith Lia.
From S2P Require Import Prelude CProg UtlBuf UtlPush LnDerkey LnMisc.
Import UtlBuf UtlPush Derkey LnMisc.
Open Scope Z_scope.

Abbreviation M_PROTOCOL_NAME :=
  ([78; 111; 105; 115; 101; 95; 88; 75; 95; 115; 101; 99; 112; 50; 53; 54; 107; 49; 95; 67; 104; 97;
    67; 104; 97; 80; 111; 108; 121; 95; 83; 72; 65; 50; 53; 54] : bytes).
Abbreviation M_PROLOGUE := ([108; 105; 103; 104; 116; 110; 105; 110; 103] : bytes).
Abbreviation M_CHACHAPOLY_MAC := 16.
Abbreviation LN_SZ_NOISE_HEADER := 18.

(** The primitives. [None] is a failure the library reports. *)
Class Noise := {
  noise_curve :: Curve;
  noise_alloc :: Alloc;
  sha256 : bytes → bytes;
  (* salt and input keying material to 64 bytes *)
  mbedtls_hkdf : bytes → bytes → option bytes;
  chachapoly_setkey : bytes → bool;
  (* key, nonce, associated data and input to output and MAC *)
  chachapoly_encrypt_and_tag : bytes → bytes → bytes → bytes → option (bytes * bytes);
  (* key, nonce, associated data, MAC and input *)
  chachapoly_auth_decrypt : bytes → bytes → bytes → bytes → bytes → option bytes;
}.

(** What is documented of them. *)
Class NoiseLaws (N : Noise) : Prop := {
  noise_curve_laws :: PrimeCurve noise_curve;
  noise_alloc_total :: AllocTotal noise_alloc;
  hkdf_64 salt ikm : ∃ okm, mbedtls_hkdf salt ikm = Some okm ∧ length okm = 64%nat;
  setkey_ok k : chachapoly_setkey k = true;
  aead_ok k n ad m : ∃ c mac, chachapoly_encrypt_and_tag k n ad m = Some (c, mac) ∧
    length c = length m ∧ length mac = 16%nat ∧ chachapoly_auth_decrypt k n ad mac c = Some m;
}.

Module LnNoise.

(** ** The state *)

Inductive state_t :=
| INIT | START_INITIATOR | WAIT_ACT_TWO | END_INITIATOR | WAIT_ACT_ONE | WAIT_ACT_THREE
| END_RESPONDER.

#[export] Instance state_eq_dec : EqDecision state_t.
Proof. solve_decision. Defined.

(** [btc_util_keys_t] *)
Record btc_util_keys_t := mk_keys { k_priv : bytes; k_pub : bytes }.

(** [struct bolt8_t]; [temp_k] is indeterminate until the first HKDF. *)
Record bolt8_t := mk_bolt8 {
  e : btc_util_keys_t;
  h : bytes;
  b_ck : bytes;
  temp_k : option bytes;
  state : state_t;
}.

Definition set_h (v : bytes) (b : bolt8_t) : bolt8_t := mk_bolt8 (e b) v (b_ck b) (temp_k b) (state b).
Definition set_b_ck (v : bytes) (b : bolt8_t) : bolt8_t := mk_bolt8 (e b) (h b) v (temp_k b) (state b).
Definition set_temp_k (v : bytes) (b : bolt8_t) : bolt8_t :=
  mk_bolt8 (e b) (h b) (b_ck b) (Some v) (state b).
Definition set_state (v : state_t) (b : bolt8_t) : bolt8_t :=
  mk_bolt8 (e b) (h b) (b_ck b) (temp_k b) v.

(** [ln_noise_t] *)
Record ln_noise_t := mk_noise { key : bytes; nonce : Z; ck : bytes }.

Definition set_key (v : bytes) (n : ln_noise_t) : ln_noise_t := mk_noise v (nonce n) (ck n).
Definition set_nonce (v : Z) (n : ln_noise_t) : ln_noise_t := mk_noise (key n) v (ck n).
Definition set_ck (v : bytes) (n : ln_noise_t) : ln_noise_t := mk_noise (key n) (nonce n) v.

(** The members of [ln_self_t] the transport has, and the buffer argument. *)
Record peer := mk_peer {
  p_handshake : option bolt8_t;
  noise_send : ln_noise_t;
  noise_recv : ln_noise_t;
  pBuf : utl_buf_t;
}.

Definition set_handshake (v : option bolt8_t) (p : peer) : peer :=
  mk_peer v (noise_send p) (noise_recv p) (pBuf p).
Definition set_send (v : ln_noise_t) (p : peer) : peer :=
  mk_peer (p_handshake p) v (noise_recv p) (pBuf p).
Definition set_recv (v : ln_noise_t) (p : peer) : peer :=
  mk_peer (p_handshake p) (noise_send p) v (pBuf p).
Definition set_pBuf (v : utl_buf_t) (p : peer) : peer :=
  mk_peer (p_handshake p) (noise_send p) (noise_recv p) v.

Abbreviation M := (prog peer).

Section noise.
Context {N : Noise}.

(** ** Primitives in use *)

Definition btc_util_sha256cat (pData1 pData2 : bytes) : bytes := sha256 (pData1 ++ pData2).

(** 12 bytes: four zeros and the counter as the machine stores it. *)
Definition nonce_bytes (n : Z) : bytes := replicate 4 0 ++ le_bytes 8 n.

(** Encrypt and append the MAC; [fatal] where a failure is an [assert(0)]. *)
Definition seal (fatal : bool) (k n ad m : bytes) : M bytes :=
  exit_if (negb (chachapoly_setkey k)) false;;
  match chachapoly_encrypt_and_tag k n ad m with
  | Some (c, mac) => mret (c ++ mac)
  | None => c_assert (negb fatal);; exit_with false
  end.

Definition unseal (k n ad mac c : bytes) : option bytes :=
  if chachapoly_setkey k then chachapoly_auth_decrypt k n ad mac c else None.

Definition noise_hkdf (pSalt : bytes) (pIkm : option bytes) : option (bytes * bytes) :=
  okm ← mbedtls_hkdf pSalt (default [] pIkm);
  Some (take 32 okm, drop 32 okm).

(** A failed multiplication leaves [pub] indeterminate, and it is hashed. *)
Definition ln_misc_generate_shared_secret (pPubKey pPrivKey : bytes) : M bytes :=
  pub ← of_option (btc_util_mul_pubkey pPubKey pPrivKey);
  mret (sha256 pub).

Definition ln_node_generate_shared_secret (mNode : btc_util_keys_t) (pPubKey : bytes) : M bytes :=
  pub ← of_option (btc_util_mul_pubkey pPubKey (k_priv mNode));
  mret (sha256 pub).

(** The values a random source gives, up to the first that is a private key. *)
Fixpoint btc_util_createprivkey (rnd : list bytes) : option bytes :=
  match rnd with
  | [] => None
  | r :: rnd => if btc_keys_chkpriv r then Some r else btc_util_createprivkey rnd
  end.

Definition btc_util_createkeys (rnd : list bytes) : option (bool * btc_util_keys_t) :=
  priv ← btc_util_createprivkey rnd;
  Some (match btc_keys_priv2pub priv with
        | Some pub => (true, mk_keys priv pub)
        | None => (false, mk_keys priv [])
        end).

(** ** Steps *)

Definition get_hs : M bolt8_t := self ← get_st; of_option (p_handshake self).
Definition mod_hs (f : bolt8_t → bolt8_t) : M unit :=
  b ← get_hs; modify (set_handshake (Some (f b))).

(** [h = SHA-256(h || d)] *)
Definition mix_hash (d : bytes) : M unit := mod_hs (λ b, set_h (btc_util_sha256cat (h b) d) b).

(** [ck, temp_k = HKDF(ck, ss)] *)
Definition mix_key (ss : bytes) : M unit :=
  mod_hs (λ b, match noise_hkdf (b_ck b) (Some ss) with
               | Some (c, k) => set_temp_k k (set_b_ck c b)
               | None => b
               end).

Definition get_temp_k : M bytes := b ← get_hs; of_option (temp_k b).

(** [utl_buf_alloc(pBuf, Size)] and a [memcpy] of all of [d] into it. *)
Definition fill_buf (Size : Z) (d : bytes) : M unit :=
  self ← get_st;
  let x := (utl_buf_alloc (pBuf self) Size).2 in
  b ← of_option (write_cells (buf x) 0 (init_cells d) (Z.of_nat (length d)));
  modify (set_pBuf (set_buf b x)).

(** A message of an act: its first byte and the rest, when it has [Len] bytes
    and version 0. *)
Definition read_act (Len : Z) : M bytes :=
  self ← get_st;
  exit_if (negb (len (pBuf self) =? Len)) false;;
  v ← of_option (read_cells (buf (pBuf self)) 1);
  exit_if (negb (bool_decide (v = [0]))) false;;
  of_option (read_cells (buf (pBuf self)) Len).

(** Reset of both directions after the last act. *)
Definition end_handshake : M unit :=
  b ← get_hs;
  modify (λ self, set_send (set_ck (b_ck b) (noise_send self)) self);;
  modify (λ self, set_recv (set_ck (b_ck b) (noise_recv self)) self);;
  modify (set_handshake None);;
  modify (λ self, set_send (set_nonce 0 (noise_send self)) self);;
  modify (λ self, set_recv (set_nonce 0 (noise_recv self)) self).

(** ** The handshake *)

Definition ln_enc_auth_handshake_init (mNode : btc_util_keys_t) (rnd : list bytes)
    (pNodeId : option bytes) : M bool :=
  x ← of_option (btc_util_createkeys rnd);
  let '(ret, e) := x in
  if negb ret then modify (set_handshake None);; mret false
  else
    let ck := sha256 M_PROTOCOL_NAME in
    let h := btc_util_sha256cat ck M_PROLOGUE in
    let '(pNodeId, state) := match pNodeId with
                             | Some id => (id, START_INITIATOR)
                             | None => (k_pub mNode, WAIT_ACT_ONE)
                             end in
    modify (set_handshake (Some (mk_bolt8 e (btc_util_sha256cat h pNodeId) ck None state)));;
    mret true.

Definition actone_sender (pRS : bytes) : M bool :=
  b ← get_hs;
  mix_hash (k_pub (e b));;
  ss ← ln_misc_generate_shared_secret pRS (k_priv (e b));
  mix_key ss;;
  b ← get_hs; k ← get_temp_k;
  c ← seal true k (nonce_bytes 0) (h b) [];
  mix_hash c;;
  modify (λ self, set_pBuf (utl_buf_free (pBuf self)) self);;
  fill_buf (1 + 33 + M_CHACHAPOLY_MAC) (0 :: k_pub (e b) ++ c);;
  mret true.

Definition acttwo_sender (pRE : bytes) : M bool :=
  b ← get_hs;
  mix_hash (k_pub (e b));;
  ss ← ln_misc_generate_shared_secret pRE (k_priv (e b));
  mix_key ss;;
  b ← get_hs; k ← get_temp_k;
  c ← seal false k (nonce_bytes 0) (h b) [];
  mix_hash c;;
  modify (λ self, set_pBuf (utl_buf_free (pBuf self)) self);;
  fill_buf (1 + 33 + M_CHACHAPOLY_MAC) (0 :: k_pub (e b) ++ c);;
  mret true.

Definition actone_receiver (mNode : btc_util_keys_t) : M bool :=
  d ← read_act 50;
  let re := sl d 1 33 in
  let c := sl d 34 16 in
  mix_hash re;;
  ss ← ln_node_generate_shared_secret mNode re;
  mix_key ss;;
  b ← get_hs; k ← get_temp_k;
  exit_if (bool_decide (unseal k (nonce_bytes 0) (h b) c [] = None)) false;;
  mix_hash c;;
  call (acttwo_sender re).

Definition actthree_sender (mNode : btc_util_keys_t) (pRE : bytes) : M bool :=
  b ← get_hs; k ← get_temp_k;
  c ← seal false k (nonce_bytes 1) (h b) (k_pub mNode);
  mix_hash c;;
  ss ← ln_node_generate_shared_secret mNode pRE;
  mix_key ss;;
  b ← get_hs; k ← get_temp_k;
  t ← seal false k (nonce_bytes 0) (h b) [];
  match noise_hkdf (b_ck b) None with
  | Some (sk, rk) =>
      modify (λ self, set_send (set_key sk (noise_send self)) self);;
      modify (λ self, set_recv (set_key rk (noise_recv self)) self)
  | None => mret tt
  end;;
  modify (λ self, set_pBuf (utl_buf_free (pBuf self)) self);;
  fill_buf (1 + (33 + M_CHACHAPOLY_MAC) + M_CHACHAPOLY_MAC) (0 :: c ++ t);;
  mret true.

Definition acttwo_receiver (mNode : btc_util_keys_t) : M bool :=
  d ← read_act 50;
  let re := sl d 1 33 in
  let c := sl d 34 16 in
  mix_hash re;;
  b ← get_hs;
  ss ← ln_misc_generate_shared_secret re (k_priv (e b));
  mix_key ss;;
  b ← get_hs; k ← get_temp_k;
  exit_if (bool_decide (unseal k (nonce_bytes 0) (h b) c [] = None)) false;;
  mix_hash c;;
  call (actthree_sender mNode re).

(** The buffer holds the peer's node id when it is done. *)
Definition actthree_receiver : M bool :=
  d ← read_act 66;
  let c := sl d 1 49 in
  let t := sl d 50 16 in
  b ← get_hs; k ← get_temp_k;
  match unseal k (nonce_bytes 1) (h b) (drop 33 c) (take 33 c) with
  | None => exit_with false
  | Some rs =>
      mix_hash c;;
      ss ← ln_misc_generate_shared_secret rs (k_priv (e b));
      mix_key ss;;
      b ← get_hs; k ← get_temp_k;
      exit_if (bool_decide (unseal k (nonce_bytes 0) (h b) t [] = None)) false;;
      match noise_hkdf (b_ck b) None with
      | Some (rk, sk) =>
          modify (λ self, set_recv (set_key rk (noise_recv self)) self);;
          modify (λ self, set_send (set_key sk (noise_send self)) self)
      | None => mret tt
      end;;
      self ← get_st;
      x ← of_option (utl_buf_alloccopy (utl_buf_free (pBuf self)) (init_cells rs) 33);
      modify (set_pBuf x.2);;
      mret true
  end.

Definition ln_enc_auth_handshake_start (pNodeId : bytes) : M bool :=
  self ← get_st;
  match p_handshake self with
  | Some b =>
      if bool_decide (state b = START_INITIATOR) then
        ret ← call (actone_sender pNodeId);
        (if (ret : bool) then mod_hs (set_state WAIT_ACT_TWO) else modify (set_handshake None));;
        mret ret
      else mret false
  | None => mret false
  end.

Definition ln_enc_auth_handshake_recv (mNode : btc_util_keys_t) : M bool :=
  self ← get_st;
  match p_handshake self with
  | None => mret false
  | Some b =>
      ret ← match state b with
            | WAIT_ACT_TWO => ret ← call (acttwo_receiver mNode); end_handshake;; mret ret
            | WAIT_ACT_ONE =>
                ret ← call (actone_receiver mNode); mod_hs (set_state WAIT_ACT_THREE);; mret ret
            | WAIT_ACT_THREE => ret ← call actthree_receiver; end_handshake;; mret ret
            | _ => mret false
            end;
      (if (ret : bool) then mret tt else modify (set_handshake None));;
      mret ret
  end.

Definition ln_enc_auth_handshake_state : M bool :=
  self ← get_st; mret (bool_decide (is_Some (p_handshake self))).

Definition ln_enc_auth_handshake_free : M unit := modify (set_handshake None).

Definition ln_handshake_start (mNode : btc_util_keys_t) (rnd : list bytes) (pNodeId : option bytes)
    : M bool :=
  ret ← ln_enc_auth_handshake_init mNode rnd pNodeId;
  match pNodeId with
  | Some id => if (ret : bool) then ln_enc_auth_handshake_start id else mret ret
  | None => mret ret
  end.

(** The result, and [pCont] when it is true. *)
Definition ln_handshake_recv (mNode : btc_util_keys_t) : M (bool * option bool) :=
  ret ← ln_enc_auth_handshake_recv mNode;
  if (ret : bool) then c ← ln_enc_auth_handshake_state; mret (ret, Some c) else mret (ret, None).

(** ** Messages *)

(** The next nonce; at 1000, the key is rotated. *)
Definition rotate (n : ln_noise_t) : ln_noise_t :=
  let n := set_nonce (u64 (nonce n + 1)) n in
  if nonce n =? 1000 then
    set_nonce 0 (match noise_hkdf (ck n) (Some (key n)) with
                 | Some (c, k) => set_key k (set_ck c n)
                 | None => n
                 end)
  else n.

(** [malloc(size)] filled with [d]. *)
Definition out_block (size : Z) (d : bytes) : M (list cell) :=
  b ← of_option (write_cells (malloc size) 0 (init_cells d) (Z.of_nat (length d)));
  mret (default [] b).

Definition ln_enc_auth_enc (pBufIn : utl_buf_t) : M bool :=
  let l := u16 (Z.lor (Z.shiftr (len pBufIn) 8) (Z.shiftl (len pBufIn) 8)) in
  self ← get_st;
  let k := key (noise_send self) in
  cl ← seal true k (nonce_bytes (nonce (noise_send self))) [] (le_bytes 2 l);
  cl ← out_block (2 + M_CHACHAPOLY_MAC) cl;
  modify (λ self, set_send (set_nonce (u64 (nonce (noise_send self) + 1)) (noise_send self)) self);;
  self ← get_st;
  exit_if (nonce (noise_send self) =? 1000) false;;
  d ← of_option (read_cells (buf pBufIn) (len pBufIn));
  cm ← seal true k (nonce_bytes (nonce (noise_send self))) [] d;
  cm ← out_block (u32 (len pBufIn + M_CHACHAPOLY_MAC)) cm;
  modify (λ self, set_send (rotate (noise_send self)) self);;
  let x := (utl_buf_alloc (pBuf self) (u32 (2 + len pBufIn + 2 * M_CHACHAPOLY_MAC))).2 in
  b ← of_option (write_cells (buf x) 0 cl (2 + M_CHACHAPOLY_MAC));
  b ← of_option (write_cells b (2 + M_CHACHAPOLY_MAC) cm (u32 (len pBufIn + M_CHACHAPOLY_MAC)));
  modify (set_pBuf (set_buf b x));;
  mret true.

(** The length of what follows, 0 when it fails. *)
Definition ln_enc_auth_dec_len (pData : bytes) (Len : Z) : M Z :=
  if negb (Len =? LN_SZ_NOISE_HEADER) then mret 0
  else
    self ← get_st;
    d ← of_option (sub_bytes pData 0 LN_SZ_NOISE_HEADER);
    match unseal (key (noise_recv self)) (nonce_bytes (nonce (noise_recv self))) [] (drop 2 d) (take 2 d) with
    | None => mret 0
    | Some pl =>
        modify (λ self, set_recv (set_nonce (u64 (nonce (noise_recv self) + 1)) (noise_recv self)) self);;
        self ← get_st;
        if nonce (noise_recv self) =? 1000 then mret 0
        else mret (u16 (be_val pl + M_CHACHAPOLY_MAC))
    end.

(** The MAC is looked for [len - 16] bytes into the buffer, in 16 bits. *)
Definition ln_enc_auth_dec_msg : M bool :=
  self ← get_st;
  let l := u16 (len (pBuf self) - M_CHACHAPOLY_MAC) in
  let k := key (noise_recv self) in
  exit_if (negb (chachapoly_setkey k)) false;;
  d ← of_option (read_cells (buf (pBuf self)) (l + M_CHACHAPOLY_MAC));
  match chachapoly_auth_decrypt k (nonce_bytes (nonce (noise_recv self))) []
          (drop (Z.to_nat l) d) (take (Z.to_nat l) d) with
  | None => exit_with false
  | Some m =>
      pm ← out_block l m;
      modify (λ self, set_recv (rotate (noise_recv self)) self);;
      let x := (utl_buf_alloc (utl_buf_free (pBuf self)) l).2 in
      b ← of_option (write_cells (buf x) 0 pm l);
      modify (set_pBuf (set_buf b x));;
      mret true
  end.

End noise.
End LnNoise.
