(* ===== verification/LnappPeer.v ===== *)
(** The socket under the encrypted transport: [recv_peer], one round of
    [thread_recv_start] and [send_peer_noise] of [ptarmd/lnapp.c].

    A socket to read from is the list of the bytes that arrive before the peer
    closes it; one to write to is the list of the sizes [write] takes, which ends
    where [poll] or [write] fails. Locks, timeouts and the work done while
    waiting are left out. *)
From stdpp Require Import base list numbers tactics.
From Stdlib Require Import ZArith Lia.
From S2P Require Import Prelude CProg UtlBuf UtlPush LnDerkey LnMisc LnNoise.
Import UtlBuf UtlPush LnMisc LnNoise.
Open Scope Z_scope.

Module LnappPeer.

Section peer.
Context {N : Noise}.

(** What is read, and what is left. *)
Definition recv_peer (sock : bytes) (Len : Z) : bytes * bytes :=
  (take (Z.to_nat Len) sock, drop (Z.to_nat Len) sock).

(** One packet: the message for [ln_recv] and the rest of the stream; [None] ends
    the thread. The assertions are those of the default build; one with NDEBUG has none. *)
Definition thread_recv_round (sock : bytes) : M (option (bytes * bytes)) :=
  let '(head, sock) := recv_peer sock LN_SZ_NOISE_HEADER in
  let len := Z.of_nat (length head) in
  if len =? 0 then mret None
  else
    c_assert (len =? LN_SZ_NOISE_HEADER);;
    len ← ln_enc_auth_dec_len head len;
    let '(d, sock) := recv_peer sock len in
    let len_msg := Z.of_nat (length d) in
    if len_msg =? 0 then mret None
    else if len_msg =? len then
      modify (set_pBuf (of_bytes d));;
      ret ← call ln_enc_auth_dec_msg;
      if (ret : bool) then
        self ← get_st;
        d ← of_option (read_cells (buf (pBuf self)) (UtlBuf.len (pBuf self)));
        type ← of_option (ln_misc_get16be d);
        let _ : Z := type in
        mret (Some (d, sock))
      else mret None
    else mret None.

(** The loop of [send_peer_noise]: what reaches the socket, and [len]. *)
Fixpoint send_loop (buf_enc : bytes) (len : Z) (writes : list Z) : bytes * Z :=
  match writes with
  | [] => ([], len)
  | sz :: writes =>
      if len <=? 0 then ([], len)
      else
        let sz := Z.min sz len in
        let '(out, len) := send_loop buf_enc (len - sz) writes in
        (take (Z.to_nat sz) buf_enc ++ out, len)
  end.

Definition send_peer_noise (writes : list Z) (pBuf : utl_buf_t) : M (bool * bytes) :=
  d ← of_option (read_cells (buf pBuf) (UtlBuf.len pBuf));
  type ← of_option (ln_misc_get16be d);
  let _ : Z := type in
  ret ← call (ln_enc_auth_enc pBuf);
  if (ret : bool) then
    self ← get_st;
    buf_enc ← of_option (read_cells (buf (LnNoise.pBuf self)) (UtlBuf.len (LnNoise.pBuf self)));
    let '(out, len) := send_loop buf_enc (UtlBuf.len (LnNoise.pBuf self)) writes in
    mret (len =? 0, out)
  else mret (false, []).

End peer.
End LnappPeer.
