(* ===== verification/LnToyNoise.v ===== *)
(** Concrete primitives for the encrypted transport: the group of the integers
    modulo 251, an AEAD that sends its input and a tag, and an HKDF, all on a
    hash of 32 bytes. They satisfy the laws the theorems ask for, not more. *)
From stdpp Require Import base list numbers tactics.
From Stdlib Require Import ZArith Lia Eqdep_dec Znumtheory.
From S2P Require Import Prelude CProg UtlBuf LnDerkey LnToy LnNoise.
Import UtlBuf Derkey LnNoise.
Open Scope Z_scope.

Module LnToyNoise.

(** ** The group *)

Definition canonical (z : Z) : bool := (0 <=? z) && (z <? 251).
Definition point : Type := { z : Z | canonical z = true }.

Lemma mod_canonical z : canonical (z mod 251) = true.
Proof.
  pose proof (Z.mod_pos_bound z 251 ltac:(lia)). unfold canonical.
  by rewrite (proj2 (Z.leb_le _ _)), (proj2 (Z.ltb_lt _ _)) by lia.
Qed.

Definition to_point (z : Z) : point := (z mod 251) ↾ mod_canonical z.

Lemma point_eq (p q : point) : `p = `q → p = q.
Proof.
  destruct p as [p Hp], q as [q Hq]. cbn. intros ->. f_equal. apply UIP_dec. apply bool_eq_dec.
Qed.

#[export] Instance point_dec : EqDecision point.
Proof.
  intros p q. destruct (decide (`p = `q)) as [H|H].
  - left. by apply point_eq.
  - right. by intros ->.
Defined.

Lemma point_bound (p : point) : 0 ≤ `p < 251.
Proof.
  destruct p as [p Hp]. cbn. unfold canonical in Hp. apply andb_true_iff in Hp as [H1 H2].
  apply Z.leb_le in H1. apply Z.ltb_lt in H2. lia.
Qed.

Definition group : Curve := {|
  pt := point;
  inf := to_point 0;
  gen := to_point 1;
  padd := λ p q, to_point (`p + `q);
  smul := λ a p, to_point (a * `p);
  order := 251;
  pt_read := λ d, let v := be_val (drop 1 d) in if canonical v then Some (to_point v) else None;
  pt_write := λ p, 2 :: be_bytes 32 (`p);
|}.

Lemma curve_laws : CurveLaws group.
Proof.
  split; cbn [order padd smul pt inf gen pt_read pt_write group].
  - lia.
  - intros p q. by rewrite Z.add_comm.
  - intros a b p. apply point_eq. cbn. rewrite <- Z.add_mod by lia. f_equal. lia.
  - intros a b p. apply point_eq. cbn. rewrite Z.mul_mod_idemp_r by lia. f_equal. lia.
  - intros p. apply point_eq. cbn [to_point proj1_sig]. pose proof (point_bound p).
    rewrite Z.mul_1_l. apply Z.mod_small. lia.
  - intros a. apply point_eq. cbn [to_point proj1_sig]. change (1 mod 251) with 1.
    by rewrite !Z.mul_1_r, Z.mod_mod by lia.
  - intros p _. pose proof (point_bound p). cbv zeta. change (drop 1 (2 :: be_bytes 32 (`p))) with (be_bytes 32 (`p)).
    assert (be_val (be_bytes 32 (`p)) = `p) as ->.
    { rewrite be_val_be_bytes. apply wrap_small. unfold in_range. change (8 * Z.of_nat 32) with 256. lia. }
    rewrite (proj2_sig p).
    f_equal. apply point_eq. cbn. apply Z.mod_small. lia.
Qed.

(** Below a prime, no product of non-zero residues vanishes. *)
Lemma coprime_251 a : 1 ≤ a < 251 → Z.gcd 251 a = 1.
Proof.
  intros Ha. assert (∀ n, (1 ≤ n < 251)%nat → Z.gcd 251 (Z.of_nat n) = 1) as H.
  { assert (forallb (λ n, Z.gcd 251 (Z.of_nat n) =? 1) (seq 1 250) = true) as Hf by by_compute.
    intros n Hn. rewrite forallb_forall in Hf. apply Z.eqb_eq, Hf. apply in_seq. lia. }
  rewrite <- (Z2Nat.id a) by lia. apply H. lia.
Qed.

Lemma smul_nonzero a (p : point) : 1 ≤ a < 251 → p ≠ to_point 0 → to_point (a * `p) ≠ to_point 0.
Proof.
  intros Ha Hp H. apply Hp. apply point_eq. pose proof (point_bound p) as Hb.
  apply (f_equal proj1_sig) in H. cbn [to_point proj1_sig] in *. change (0 mod 251) with 0 in *.
  apply Z.mod_divide in H; [|lia]. apply Z.gauss in H; [|by apply coprime_251].
  destruct H as [k Hk]. lia.
Qed.

#[export] Instance group_laws : PrimeCurve group.
Proof.
  split.
  - apply curve_laws.
  - apply smul_nonzero.
  - cbn. intros H. by apply (f_equal proj1_sig) in H.
  - intros p _. cbn [pt_write group length]. by rewrite length_be_bytes.
  - intros p _. by left.
Qed.

(** ** The primitives *)

Definition tag (k n ad m : bytes) : bytes := take 16 (LnToy.hash (k ++ n ++ ad ++ m)).

Lemma length_hash d : length (LnToy.hash d) = 32%nat.
Proof. unfold LnToy.hash. cbn [length]. rewrite length_take, length_app, length_replicate. lia. Qed.

#[export] Instance noise : Noise := {|
  noise_curve := group;
  noise_alloc := total_alloc;
  sha256 := LnToy.hash;
  mbedtls_hkdf := λ salt ikm, Some (LnToy.hash (salt ++ ikm) ++ LnToy.hash (ikm ++ 1 :: salt));
  chachapoly_setkey := λ _, true;
  chachapoly_encrypt_and_tag := λ k n ad m, Some (m, tag k n ad m);
  chachapoly_auth_decrypt := λ k n ad mac c, if decide (mac = tag k n ad c) then Some c else None;
|}.

#[export] Instance noise_laws : NoiseLaws noise.
Proof.
  split.
  - apply group_laws.
  - apply total_alloc_total.
  - intros salt ikm. eexists. split; [reflexivity|]. by rewrite length_app, !length_hash.
  - done.
  - intros k n ad m. exists m, (tag k n ad m). cbn [chachapoly_encrypt_and_tag chachapoly_auth_decrypt noise].
    rewrite decide_True by done. split_and!; [done|done| |done].
    unfold tag. rewrite length_take, length_hash. lia.
Qed.

(** A key pair. *)
Definition keys (n : Z) : btc_util_keys_t :=
  mk_keys (be_bytes 32 n) (2 :: be_bytes 32 (n mod 251)).

(** A channel whose transport is idle. *)
Definition idle : peer := mk_peer None (mk_noise [] 0 []) (mk_noise [] 0 []) (mk_buf None 0).

(** A direction in use, and a peer that sends or receives with it. *)
Definition direction (n : Z) : ln_noise_t := mk_noise (replicate 32 5) n (replicate 32 6).
Definition busy (n : Z) : peer := mk_peer None (direction n) (direction n) (mk_buf None 0).

End LnToyNoise.
