(* ===== verification/LnHandshake.v ===== *)
(** The handshake of the encrypted transport: two nodes that run it get the same
    keys, and the one that was called knows who called. *)
From stdpp Require Import base list numbers tactics.
From Stdlib Require Import ZArith Lia.
From S2P Require Import Prelude CProg UtlBuf UtlPush LnDerkey LnMisc LnMsg LnNoise.
From S2P Require Import LnToy LnToyNoise.
Import UtlBuf UtlPush Derkey LnMisc LnMsg LnNoise.
Open Scope Z_scope.

Module LnHandshake.

Section handshake.
Context {N : Noise} {L : NoiseLaws N}.

(** ** The primitives at work *)

Definition sealed (k n ad m : bytes) : bytes :=
  match chachapoly_encrypt_and_tag k n ad m with
  | Some (c, mac) => c ++ mac
  | None => []
  end.

Lemma seal_step {B} fatal k n ad m (K : bytes → prog peer B) s :
  (seal fatal k n ad m ≫= K) s = K (sealed k n ad m) s.
Proof.
  unfold seal, sealed. rewrite setkey_ok. destruct (aead_ok k n ad m) as (c & mac & -> & _).
  reflexivity.
Qed.

Lemma sealed_length k n ad m : length (sealed k n ad m) = (length m + 16)%nat.
Proof.
  unfold sealed. destruct (aead_ok k n ad m) as (c & mac & -> & Hc & Hm & _).
  rewrite length_app. lia.
Qed.

Lemma unseal_sealed k n ad m i :
  i = length m → unseal k n ad (drop i (sealed k n ad m)) (take i (sealed k n ad m)) = Some m.
Proof.
  intros ->. unfold unseal, sealed. rewrite setkey_ok.
  destruct (aead_ok k n ad m) as (c & mac & -> & Hc & Hm & Hd).
  by rewrite drop_app_length', take_app_length' by lia.
Qed.

Lemma unseal_tag k n ad : unseal k n ad (sealed k n ad []) [] = Some [].
Proof. exact (unseal_sealed k n ad [] 0%nat eq_refl). Qed.

Definition kdf (salt : bytes) (ikm : option bytes) : bytes * bytes :=
  default ([], []) (noise_hkdf salt ikm).

Lemma hkdf_kdf salt ikm : noise_hkdf salt ikm = Some (kdf salt ikm).
Proof.
  unfold kdf, noise_hkdf. by destruct (hkdf_64 salt (default [] ikm)) as (okm & -> & _).
Qed.

(** ** Keys *)

Definition valid (x : btc_util_keys_t) : Prop := btc_keys_priv2pub (k_priv x) = Some (k_pub x).

(** What the owner of [y] shares with the owner of [x]. *)
Definition dh (x y : btc_util_keys_t) : bytes :=
  sha256 (pt_write (smul (be_val (k_priv y)) (smul (be_val (k_priv x)) gen))).

Lemma dh_comm x y : dh x y = dh y x.
Proof. unfold dh. rewrite <- !smul_mul. by rewrite Z.mul_comm. Qed.

Lemma valid_pub x : valid x →
  k_pub x = pt_write (smul (be_val (k_priv x)) gen) ∧ 1 ≤ be_val (k_priv x) < order ∧
  smul (be_val (k_priv x)) gen ≠ inf.
Proof.
  unfold valid, btc_keys_priv2pub. destruct (Z.leb_spec 1 (be_val (k_priv x))); [|done].
  destruct (Z.ltb_spec (be_val (k_priv x)) order); [|done]. cbn [andb]. intros [= <-].
  split_and!; [done|done|done|]. apply smul_finite; [lia|apply gen_finite].
Qed.

Lemma pub_length x : valid x → length (k_pub x) = 33%nat.
Proof. intros (-> & _ & Hf)%valid_pub. by apply written_length. Qed.

Lemma mul_pubkey x y : valid x → valid y →
  btc_util_mul_pubkey (k_pub x) (k_priv y) =
  Some (pt_write (smul (be_val (k_priv y)) (smul (be_val (k_priv x)) gen))).
Proof.
  intros (-> & Hx & Hfx)%valid_pub (_ & Hy & _)%valid_pub. unfold btc_util_mul_pubkey.
  rewrite read_write by done. cbn [mbind option_bind].
  rewrite (proj2 (Z.leb_le _ _)), (proj2 (Z.ltb_lt _ _)) by lia. cbn [andb].
  rewrite decide_False; [done|]. by apply smul_finite.
Qed.

Lemma shared_step {B} x y (K : bytes → prog peer B) s :
  valid x → valid y →
  (ln_misc_generate_shared_secret (k_pub x) (k_priv y) ≫= K) s = K (dh x y) s ∧
  (ln_node_generate_shared_secret y (k_pub x) ≫= K) s = K (dh x y) s.
Proof.
  intros Hx Hy. unfold ln_misc_generate_shared_secret, ln_node_generate_shared_secret.
  by rewrite mul_pubkey.
Qed.

(** ** Steps of the handshake *)

Lemma get_hs_step {B} b (K : bolt8_t → prog peer B) s :
  p_handshake s = Some b → (get_hs ≫= K) s = K b s.
Proof. intros H. unfold get_hs. by rewrite bind_assoc, bind_get_st, H. Qed.

Lemma mod_hs_step {B} f b (K : unit → prog peer B) s :
  p_handshake s = Some b → (mod_hs f ≫= K) s = K tt (set_handshake (Some (f b)) s).
Proof. intros H. unfold mod_hs. by rewrite bind_assoc, (get_hs_step b). Qed.

Lemma get_temp_k_step {B} b k (K : bytes → prog peer B) s :
  p_handshake s = Some b → temp_k b = Some k → (get_temp_k ≫= K) s = K k s.
Proof. intros H Hk. unfold get_temp_k. by rewrite bind_assoc, (get_hs_step b), Hk. Qed.

Lemma set_handshake_twice a b s : set_handshake a (set_handshake b s) = set_handshake a s.
Proof. done. Qed.

Lemma fill_buf_step {B} d n (K : unit → prog peer B) s :
  n = Z.of_nat (length d) → 0 < n → (fill_buf n d ≫= K) s = K tt (set_pBuf (of_bytes d) s).
Proof.
  intros Hn Hp. unfold fill_buf. rewrite bind_assoc, bind_get_st. cbv zeta.
  unfold utl_buf_alloc. cbn [snd buf]. rewrite <- Hn, write_whole by (done || apply noise_alloc_total).
  rewrite bind_assoc. cbn [of_option]. rewrite bind_mret, bind_modify.
  unfold set_buf, of_bytes. cbn [len]. by rewrite Hn.
Qed.

Lemma read_act_step {B} d n (K : bytes → prog peer B) s :
  pBuf s = of_bytes (0 :: d) → n = 1 + Z.of_nat (length d) → (read_act n ≫= K) s = K (0 :: d) s.
Proof.
  intros Hb Hn. unfold read_act. rewrite bind_assoc, bind_get_st, Hb. cbn [len of_bytes buf].
  assert (n = Z.of_nat (length (0 :: d))) as Hn' by (cbn [length]; lia).
  rewrite <- Hn', Z.eqb_refl, bind_assoc, exit_no by done.
  assert (read_cells (Some (init_cells (0 :: d))) 1 = Some [0]) as ->.
  { unfold read_cells. cbn [Z.eqb mbind option_bind init_cells fmap list_fmap].
    rewrite bool_decide_eq_true_2 by (cbn [length]; lia). done. }
  cbn [of_option]. rewrite bind_assoc, bind_mret, bool_decide_eq_true_2, bind_assoc, exit_no by done.
  by rewrite Hn', read_of_bytes.
Qed.

(** ** The acts *)

(** One round: a public key and a shared secret are mixed in, and a tag over the
    transcript is made with the new key. *)
Definition act_tag (b : bolt8_t) (pub ss : bytes) : bytes :=
  sealed (kdf (b_ck b) (Some ss)).2 (nonce_bytes 0) (btc_util_sha256cat (h b) pub) [].

Definition act (b : bolt8_t) (pub ss : bytes) : bolt8_t :=
  let x := kdf (b_ck b) (Some ss) in
  mk_bolt8 (e b) (btc_util_sha256cat (btc_util_sha256cat (h b) pub) (act_tag b pub ss)) x.1
    (Some x.2) (state b).

Definition act_msg (b : bolt8_t) (x : btc_util_keys_t) (ss : bytes) : bytes :=
  0 :: k_pub x ++ act_tag b (k_pub x) ss.

Lemma mix_hash_step {B} d b (K : unit → prog peer B) s :
  p_handshake s = Some b →
  (mix_hash d ≫= K) s = K tt (set_handshake (Some (set_h (btc_util_sha256cat (h b) d) b)) s).
Proof. intros H. unfold mix_hash. by rewrite (mod_hs_step _ b). Qed.

Lemma mix_key_step {B} ss b (K : unit → prog peer B) s :
  p_handshake s = Some b →
  (mix_key ss ≫= K) s =
  K tt (set_handshake (Some (set_temp_k (kdf (b_ck b) (Some ss)).2
                               (set_b_ck (kdf (b_ck b) (Some ss)).1 b))) s).
Proof.
  intros H. unfold mix_key. rewrite (mod_hs_step _ b) by done.
  rewrite hkdf_kdf. by destruct (kdf _ _).
Qed.

(** Run the steps of an act whose state is [set_handshake (Some _) _]. *)
Ltac hs_run :=
  repeat first
    [ erewrite get_hs_step by reflexivity
    | erewrite mix_hash_step by reflexivity
    | erewrite mix_key_step by reflexivity
    | erewrite get_temp_k_step by reflexivity
    | rewrite seal_step | rewrite bind_modify | rewrite set_handshake_twice ].

Lemma length_act_msg b x ss : valid x → length (act_msg b x ss) = 50%nat.
Proof.
  intros Hx. unfold act_msg, act_tag. cbn [length]. rewrite length_app, sealed_length.
  rewrite (pub_length x Hx). done.
Qed.

Lemma act_sender b x s :
  p_handshake s = Some b → valid (e b) → valid x →
  let r := Ret true (set_pBuf (of_bytes (act_msg b (e b) (dh x (e b))))
             (set_handshake (Some (act b (k_pub (e b)) (dh x (e b)))) s)) in
  actone_sender (k_pub x) s = r ∧ acttwo_sender (k_pub x) s = r.
Proof.
  intros Hb He Hx. cbv zeta. pose proof (length_act_msg b _ (dh x (e b)) He) as Hl.
  split; [unfold actone_sender|unfold acttwo_sender];
    rewrite (get_hs_step b), (mix_hash_step _ b), (proj1 (shared_step x (e b) _ _ Hx He)) by done;
    hs_run; (rewrite fill_buf_step; [by destruct b, s| |done]);
    revert Hl; unfold act_msg, act_tag; cbn; lia.
Qed.

Lemma act_fields d1 d2 :
  length d1 = 33%nat → length d2 = 16%nat →
  sl (0 :: d1 ++ d2) 1 33 = d1 ∧ sl (0 :: d1 ++ d2) 34 16 = d2.
Proof.
  intros H1 H2. unfold sl.
  change (drop (Z.to_nat 1) (0 :: d1 ++ d2)) with (d1 ++ d2).
  change (drop (Z.to_nat 34) (0 :: d1 ++ d2)) with (drop 33 (d1 ++ d2)).
  rewrite take_app_length', drop_app_length' by done. split; [done|]. apply take_ge. lia.
Qed.

Lemma tag_length b pub ss : length (act_tag b pub ss) = 16%nat.
Proof. apply sealed_length. Qed.

(** The responder checks act one and answers with act two. *)
Lemma actone_receiver_step b x node s :
  p_handshake s = Some b → valid (e b) → valid x → valid node →
  pBuf s = of_bytes (act_msg b x (dh x node)) →
  let b1 := act b (k_pub x) (dh x node) in
  actone_receiver node s =
  Ret true (set_pBuf (of_bytes (act_msg b1 (e b) (dh x (e b))))
    (set_handshake (Some (act b1 (k_pub (e b)) (dh x (e b)))) s)).
Proof.
  intros Hb He Hx Hn Hbuf. cbv zeta. unfold actone_receiver, act_msg in *.
  pose proof (tag_length b (k_pub x) (dh x node)) as Ht.
  rewrite (read_act_step _ _ _ _ Hbuf) by (rewrite length_app, (pub_length x Hx); lia).
  destruct (act_fields (k_pub x) _ (pub_length x Hx) Ht) as [-> ->].
  rewrite (mix_hash_step _ b) by done. rewrite (proj2 (shared_step x node _ _ Hx Hn)).
  hs_run.
  unfold act_tag at 1. cbn [h set_temp_k set_b_ck set_h b_ck].
  rewrite bool_decide_eq_false_2 by (by rewrite unseal_tag).
  rewrite exit_no by done. hs_run.
  match goal with |- call (acttwo_sender _) ?t = _ =>
    apply call_ret; rewrite (proj2 (act_sender (act b (k_pub x) (dh x node)) x t eq_refl He Hx)) end.
  destruct b, s. done.
Qed.

(** The last act: the initiator's node key, encrypted, and a tag with the key of
    the last shared secret. *)
Definition act3_id (b : bolt8_t) (k pub : bytes) : bytes := sealed k (nonce_bytes 1) (h b) pub.

Definition act3 (b : bolt8_t) (k pub ss : bytes) : bolt8_t :=
  let x := kdf (b_ck b) (Some ss) in
  mk_bolt8 (e b) (btc_util_sha256cat (h b) (act3_id b k pub)) x.1 (Some x.2) (state b).

Definition act3_tag (b : bolt8_t) (k pub ss : bytes) : bytes :=
  sealed (kdf (b_ck b) (Some ss)).2 (nonce_bytes 0) (h (act3 b k pub ss)) [].

Definition act3_msg (b : bolt8_t) (k pub ss : bytes) : bytes :=
  0 :: act3_id b k pub ++ act3_tag b k pub ss.

(** The keys of the two directions. *)
Definition split_keys (b : bolt8_t) : bytes * bytes := kdf (b_ck b) None.

Definition with_keys (snd rcv : bytes) (s : peer) : peer :=
  set_recv (set_key rcv (noise_recv s)) (set_send (set_key snd (noise_send s)) s).

Lemma act3_lengths b k x ss : valid x →
  length (act3_id b k (k_pub x)) = 49%nat ∧ length (act3_tag b k (k_pub x) ss) = 16%nat.
Proof. intros Hx. unfold act3_id, act3_tag. by rewrite !sealed_length, (pub_length x Hx). Qed.

Lemma actthree_sender_step b k node x s :
  p_handshake s = Some b → temp_k b = Some k → valid node → valid x →
  let b' := act3 b k (k_pub node) (dh x node) in
  actthree_sender node (k_pub x) s =
  Ret true (set_pBuf (of_bytes (act3_msg b k (k_pub node) (dh x node)))
    (with_keys (split_keys b').1 (split_keys b').2 (set_handshake (Some b') s))).
Proof.
  intros Hb Hk Hn Hx. cbv zeta. unfold actthree_sender.
  destruct (act3_lengths b k node (dh x node) Hn) as [Hi Ht].
  rewrite (get_hs_step b), (get_temp_k_step b k), seal_step, (mix_hash_step _ b) by done.
  rewrite (proj2 (shared_step x node _ _ Hx Hn)). hs_run. rewrite hkdf_kdf.
  unfold split_keys. cbn [b_ck act3 set_temp_k set_b_ck set_h].
  destruct (kdf (kdf (b_ck b) (Some (dh x node))).1 None) as [sk rk]. cbn [fst snd].
  rewrite bind_assoc. rewrite !bind_modify.
  rewrite fill_buf_step; [by destruct b, s| |done].
  revert Hi Ht. unfold act3_tag, act3_id. cbn [h act3 length].
  rewrite ?length_app, !sealed_length. cbn. lia.
Qed.

(** The initiator checks act two and answers with act three. *)
Lemma acttwo_receiver_step b x node s :
  p_handshake s = Some b → valid (e b) → valid x → valid node →
  pBuf s = of_bytes (act_msg b x (dh x (e b))) →
  let b1 := act b (k_pub x) (dh x (e b)) in
  let k := (kdf (b_ck b) (Some (dh x (e b)))).2 in
  let b2 := act3 b1 k (k_pub node) (dh x node) in
  acttwo_receiver node s =
  Ret true (set_pBuf (of_bytes (act3_msg b1 k (k_pub node) (dh x node)))
    (with_keys (split_keys b2).1 (split_keys b2).2 (set_handshake (Some b2) s))).
Proof.
  intros Hb He Hx Hn Hbuf. cbv zeta. unfold acttwo_receiver, act_msg in *.
  pose proof (tag_length b (k_pub x) (dh x (e b))) as Ht.
  rewrite (read_act_step _ _ _ _ Hbuf) by (rewrite length_app, (pub_length x Hx); lia).
  destruct (act_fields (k_pub x) _ (pub_length x Hx) Ht) as [-> ->].
  rewrite (mix_hash_step _ b) by done. hs_run. cbn [e set_h].
  rewrite (proj1 (shared_step x (e b) _ _ Hx He)). hs_run.
  unfold act_tag at 1. cbn [h set_temp_k set_b_ck set_h b_ck].
  rewrite bool_decide_eq_false_2 by (by rewrite unseal_tag).
  rewrite exit_no by done. hs_run.
  match goal with |- call (actthree_sender _ _) ?t = _ =>
    apply call_ret; rewrite (actthree_sender_step (act b (k_pub x) (dh x (e b)))
      (kdf (b_ck b) (Some (dh x (e b)))).2 node x t eq_refl eq_refl Hn Hx) end.
  by destruct b, s.
Qed.

Lemma act3_fields d1 d2 :
  length d1 = 49%nat → length d2 = 16%nat →
  sl (0 :: d1 ++ d2) 1 49 = d1 ∧ sl (0 :: d1 ++ d2) 50 16 = d2.
Proof.
  intros H1 H2. unfold sl.
  change (drop (Z.to_nat 1) (0 :: d1 ++ d2)) with (d1 ++ d2).
  change (drop (Z.to_nat 50) (0 :: d1 ++ d2)) with (drop 49 (d1 ++ d2)).
  rewrite take_app_length', drop_app_length' by done. split; [done|]. apply take_ge. lia.
Qed.

(** The responder learns who the initiator is. *)
Lemma actthree_receiver_step b k x s :
  p_handshake s = Some b → temp_k b = Some k → valid (e b) → valid x →
  pBuf s = of_bytes (act3_msg b k (k_pub x) (dh x (e b))) →
  let b' := act3 b k (k_pub x) (dh x (e b)) in
  actthree_receiver s =
  Ret true (set_pBuf (of_bytes (k_pub x))
    (with_keys (split_keys b').2 (split_keys b').1 (set_handshake (Some b') s))).
Proof.
  intros Hb Hk He Hx Hbuf. cbv zeta. unfold actthree_receiver, act3_msg in *.
  destruct (act3_lengths b k x (dh x (e b)) Hx) as [Hi Ht].
  rewrite (read_act_step _ _ _ _ Hbuf) by (rewrite length_app; lia).
  destruct (act3_fields _ _ Hi Ht) as [-> ->].
  rewrite (get_hs_step b), (get_temp_k_step b k) by done.
  unfold act3_id at 1 2. rewrite (unseal_sealed k _ (h b) (k_pub x)) by (by rewrite (pub_length x Hx)).
  rewrite (mix_hash_step _ b), (proj1 (shared_step x (e b) _ _ Hx He)) by done. hs_run.
  unfold act3_tag. cbn [h act3 set_temp_k set_b_ck set_h b_ck].
  rewrite bool_decide_eq_false_2 by (by rewrite unseal_tag).
  rewrite exit_no by done. rewrite hkdf_kdf.
  unfold split_keys. cbn [b_ck act3].
  destruct (kdf (kdf (b_ck b) (Some (dh x (e b)))).1 None) as [sk rk]. cbn [fst snd].
  rewrite bind_assoc, !bind_modify, bind_get_st.
  pose proof (alloccopy_bytes (A := noise_alloc) (utl_buf_free (pBuf s)) (k_pub x) []) as Ha.
  rewrite app_nil_r, (pub_length x Hx), bool_decide_eq_false_2 in Ha
    by (intros Hnil; pose proof (pub_length x Hx) as Hlen; by rewrite Hnil in Hlen).
  change (Z.of_nat 33) with 33 in Ha. destruct s; cbn in *. rewrite Ha. by destruct b.
Qed.

(** ** The handshake of two nodes *)

Definition key_source (rnd : list bytes) (x : btc_util_keys_t) : Prop :=
  btc_util_createkeys rnd = Some (true, x).

Lemma createkeys_valid rnd x : key_source rnd x → valid x.
Proof.
  unfold key_source, btc_util_createkeys. destruct (btc_util_createprivkey rnd) as [p|]; [|done].
  cbn [mbind option_bind]. destruct (btc_keys_priv2pub p) as [q|] eqn:Hq; [|done].
  intros [= <-]. exact Hq.
Qed.

Definition ck_0 : bytes := sha256 M_PROTOCOL_NAME.
Definition h_0 (responder : bytes) : bytes :=
  btc_util_sha256cat (btc_util_sha256cat ck_0 M_PROLOGUE) responder.

Lemma start_initiator node rnd e x s :
  key_source rnd e → valid x →
  let b := mk_bolt8 e (h_0 (k_pub x)) ck_0 None START_INITIATOR in
  ln_handshake_start node rnd (Some (k_pub x)) s =
  Ret true (set_pBuf (of_bytes (act_msg b e (dh x e)))
    (set_handshake (Some (set_state WAIT_ACT_TWO (act b (k_pub e) (dh x e)))) s)).
Proof.
  intros He Hx. cbv zeta. pose proof (createkeys_valid _ _ He) as Hv.
  unfold ln_handshake_start, ln_enc_auth_handshake_init. rewrite He. cbn [of_option].
  rewrite bind_assoc, bind_mret. cbn [negb]. cbv zeta. rewrite bind_assoc, bind_modify, bind_mret.
  unfold ln_enc_auth_handshake_start. rewrite bind_get_st. cbn [p_handshake set_handshake state].
  rewrite bool_decide_eq_true_2 by done.
  match goal with |- (call (actone_sender _) ≫= _) ?t = _ =>
    rewrite (bind_ret true _ t _ _ (call_ret _ _ _ _
      (proj1 (act_sender (mk_bolt8 e (h_0 (k_pub x)) ck_0 None START_INITIATOR) x t eq_refl Hv Hx)))) end.
  by destruct s.
Qed.

Lemma start_responder node rnd e s :
  key_source rnd e →
  ln_handshake_start node rnd None s =
  Ret true (set_handshake (Some (mk_bolt8 e (h_0 (k_pub node)) ck_0 None WAIT_ACT_ONE)) s).
Proof.
  intros He. unfold ln_handshake_start, ln_enc_auth_handshake_init. rewrite He. reflexivity.
Qed.

(** The state a direction starts in. *)
Definition started (snd rcv c : bytes) (s : peer) : peer :=
  set_handshake None (set_recv (mk_noise rcv 0 c) (set_send (mk_noise snd 0 c) s)).

Lemma recv_act_one node b x ss s :
  p_handshake s = Some b → state b = WAIT_ACT_ONE → valid (e b) → valid x → valid node →
  ss = dh x node → pBuf s = of_bytes (act_msg b x ss) →
  let b1 := act b (k_pub x) ss in
  ln_handshake_recv node s =
  Ret (true, Some true) (set_pBuf (of_bytes (act_msg b1 (e b) (dh x (e b))))
    (set_handshake (Some (set_state WAIT_ACT_THREE (act b1 (k_pub (e b)) (dh x (e b))))) s)).
Proof.
  intros Hb Hst He Hx Hn -> Hbuf. cbv zeta. unfold ln_handshake_recv, ln_enc_auth_handshake_recv.
  rewrite bind_assoc, bind_get_st, Hb, Hst, !bind_assoc.
  erewrite bind_ret by (apply call_ret; exact (actone_receiver_step b x node s Hb He Hx Hn Hbuf)).
  by destruct s.
Qed.

Lemma recv_act_two node b x ss s :
  p_handshake s = Some b → state b = WAIT_ACT_TWO → valid (e b) → valid x → valid node →
  ss = dh x (e b) → pBuf s = of_bytes (act_msg b x ss) →
  let b1 := act b (k_pub x) ss in
  let k := (kdf (b_ck b) (Some ss)).2 in
  let b2 := act3 b1 k (k_pub node) (dh x node) in
  ln_handshake_recv node s =
  Ret (true, Some false) (set_pBuf (of_bytes (act3_msg b1 k (k_pub node) (dh x node)))
    (started (split_keys b2).1 (split_keys b2).2 (b_ck b2) s)).
Proof.
  intros Hb Hst He Hx Hn -> Hbuf. cbv zeta. unfold ln_handshake_recv, ln_enc_auth_handshake_recv.
  rewrite bind_assoc, bind_get_st, Hb, Hst, !bind_assoc.
  erewrite bind_ret by (apply call_ret; exact (acttwo_receiver_step b x node s Hb He Hx Hn Hbuf)).
  by destruct s.
Qed.

Lemma recv_act_three node b k x ss s :
  p_handshake s = Some b → state b = WAIT_ACT_THREE → temp_k b = Some k → valid (e b) → valid x →
  ss = dh x (e b) → pBuf s = of_bytes (act3_msg b k (k_pub x) ss) →
  let b' := act3 b k (k_pub x) ss in
  ln_handshake_recv node s =
  Ret (true, Some false) (set_pBuf (of_bytes (k_pub x))
    (started (split_keys b').2 (split_keys b').1 (b_ck b') s)).
Proof.
  intros Hb Hst Hk He Hx -> Hbuf. cbv zeta. unfold ln_handshake_recv, ln_enc_auth_handshake_recv.
  rewrite bind_assoc, bind_get_st, Hb, Hst, !bind_assoc.
  erewrite bind_ret by (apply call_ret; exact (actthree_receiver_step b k x s Hb Hk He Hx Hbuf)).
  by destruct s.
Qed.

(** What one node sends, the other can read. *)
Definition linked (a b : peer) : Prop := noise_send a = noise_recv b.

(** Hand the buffer of [a] over to [b]. *)
Definition deliver (a b : peer) : peer := set_pBuf (pBuf a) b.

(** C27: a node that knows another's id completes the handshake with it: both sides
    accept every act, each direction gets the same key, chaining key and
    counter on both ends, and the responder ends up with the initiator's
    node id. *)
Theorem handshake_agrees nodeI nodeR rndI rndR eI eR i r :
  valid nodeI → valid nodeR → key_source rndI eI → key_source rndR eR →
  ∃ i1 r1 r2 i2 r3,
    ln_handshake_start nodeI rndI (Some (k_pub nodeR)) i = Ret true i1 ∧
    ln_handshake_start nodeR rndR None r = Ret true r1 ∧
    ln_handshake_recv nodeR (deliver i1 r1) = Ret (true, Some true) r2 ∧
    ln_handshake_recv nodeI (deliver r2 i1) = Ret (true, Some false) i2 ∧
    ln_handshake_recv nodeR (deliver i2 r2) = Ret (true, Some false) r3 ∧
    linked i2 r3 ∧ linked r3 i2 ∧ nonce (noise_send i2) = 0 ∧ nonce (noise_send r3) = 0 ∧
    pBuf r3 = of_bytes (k_pub nodeI) ∧ p_handshake i2 = None ∧ p_handshake r3 = None.
Proof.
  intros HI HR HeI HeR. pose proof (createkeys_valid _ _ HeI) as VI.
  pose proof (createkeys_valid _ _ HeR) as VR.
  do 5 eexists. split; [by apply start_initiator|]. split; [by apply start_responder|].
  split. { eapply (recv_act_one nodeR _ eI (dh nodeR eI)); try done; apply dh_comm. }
  split. { eapply (recv_act_two nodeI _ eR (dh eI eR)); try done; apply dh_comm. }
  split. { eapply (recv_act_three nodeR _ _ nodeI (dh eR nodeI)); try done; apply dh_comm. }
  done.
Qed.

(** How a handshake ends badly: whenever an act is refused the handshake is
    over and can only be started again; but a first act whose key is no point
    makes the responder hash memory it has never written. *)
Theorem handshake_refusals node s :
  (∀ c s', ln_handshake_recv node s = Ret (false, c) s' → p_handshake s' = None ∧ c = None) ∧
  (∀ b re c, p_handshake s = Some b → state b = WAIT_ACT_ONE →
     pBuf s = of_bytes (0 :: re ++ c) → length re = 33%nat → length c = 16%nat → pt_read re = None →
     ln_handshake_recv node s = UB).
Proof.
  split.
  - intros c s'. unfold ln_handshake_recv, ln_enc_auth_handshake_recv.
    rewrite bind_assoc, bind_get_st. destruct (p_handshake s) as [b|] eqn:Hb.
    2:{ rewrite bind_mret. by intros [= <- <-]. }
    rewrite bind_assoc. match goal with |- ((?m ≫= _) _ = _ → _) => generalize m end. intros m.
    unfold mbind at 1, prog_bind. destruct (m s) as [[|] t|r t| |]; [|  |done..].
    { prog_simpl. unfold ln_enc_auth_handshake_state. prog_simpl. by intros [=]. }
    prog_simpl. by intros [= <- <-].
  - intros b re c Hb Hst Hbuf Hre Hc Hpt. unfold ln_handshake_recv, ln_enc_auth_handshake_recv.
    rewrite bind_assoc, bind_get_st, Hb, Hst. rewrite !bind_assoc. apply bind_ub, call_ub.
    unfold actone_receiver.
    rewrite (read_act_step _ _ _ _ Hbuf) by (rewrite length_app; lia).
    destruct (act_fields re c Hre Hc) as [-> ->].
    rewrite (mix_hash_step _ b) by done. apply bind_ub. unfold ln_node_generate_shared_secret.
    unfold btc_util_mul_pubkey. by rewrite Hpt.
Qed.

End handshake.

(** ** On concrete nodes *)

Lemma toy_keys_valid n : 1 ≤ n < 251 → @valid LnToyNoise.noise (LnToyNoise.keys n).
Proof.
  intros Hn. unfold valid, btc_keys_priv2pub. cbn [k_priv k_pub LnToyNoise.keys].
  assert (be_val (be_bytes 32 n) = n) as ->.
  { rewrite be_val_be_bytes. apply wrap_small. unfold in_range. change (8 * Z.of_nat 32) with 256. lia. }
  cbn [order noise_curve LnToyNoise.noise LnToyNoise.group].
  rewrite (proj2 (Z.leb_le 1 n)), (proj2 (Z.ltb_lt n 251)) by lia. cbn. by rewrite Z.mul_1_r.
Qed.

(** The nodes 5 and 7, with the ephemeral keys 11 (after a draw that is no key)
    and 13. *)
Lemma handshake_agrees_witness :
  @valid LnToyNoise.noise (LnToyNoise.keys 5) ∧
  ∃ r3, (∃ r2, @ln_handshake_recv LnToyNoise.noise (LnToyNoise.keys 7) r2 = Ret (true, Some false) r3) ∧
    pBuf r3 = of_bytes (k_pub (LnToyNoise.keys 5)).
Proof.
  split; [by apply toy_keys_valid|].
  destruct (@handshake_agrees LnToyNoise.noise LnToyNoise.noise_laws (LnToyNoise.keys 5) (LnToyNoise.keys 7)
    [replicate 32 0; be_bytes 32 11] [be_bytes 32 13] (LnToyNoise.keys 11) (LnToyNoise.keys 13)
    LnToyNoise.idle LnToyNoise.idle)
    as (i1 & r1 & r2 & i2 & r3 & _ & _ & _ & _ & H5 & _ & _ & _ & _ & H6 & _);
    [by apply toy_keys_valid|by apply toy_keys_valid|by vm_compute|by vm_compute|].
  exists r3. split; [by eexists|exact H6].
Defined.

(** A responder that waits for a first act, and one with the key [02 ff ..]. *)
Definition waiting : bolt8_t :=
  mk_bolt8 (LnToyNoise.keys 13) (replicate 32 1) (replicate 32 2) None WAIT_ACT_ONE.
Definition bad_act : peer :=
  mk_peer (Some waiting) (LnToyNoise.direction 0) (LnToyNoise.direction 0)
    (of_bytes (0 :: (2 :: replicate 32 255) ++ replicate 16 0)).

Lemma handshake_refusals_witness :
  @pt_read LnToyNoise.group (2 :: replicate 32 255) = None ∧
  @ln_handshake_recv LnToyNoise.noise (LnToyNoise.keys 7) bad_act = UB.
Proof.
  assert (@pt_read LnToyNoise.group (2 :: replicate 32 255) = None) as H by (vm_compute; reflexivity).
  split; [exact H|].
  exact (proj2 (@handshake_refusals LnToyNoise.noise (LnToyNoise.keys 7) bad_act) waiting
    (2 :: replicate 32 255) (replicate 16 0) eq_refl eq_refl eq_refl eq_refl eq_refl H).
Defined.

End LnHandshake.
