(* ===== verification/LnTransport.v ===== *)
(** The messages of the encrypted transport: what one node sends after the
    handshake the other receives, through every change of keys; and where the
    socket code of [ptarmd/lnapp.c] breaks that promise. *)
From stdpp Require Import base list numbers tactics.
From Stdlib Require Import ZArith Lia.
From S2P Require Import Prelude CProg UtlBuf UtlPush LnDerkey LnMisc LnMsg LnNoise LnappPeer.
From S2P Require Import LnToy LnToyNoise LnHandshake.
Import UtlBuf UtlPush Derkey LnMisc LnMsg LnNoise LnappPeer LnHandshake.
Open Scope Z_scope.

Module LnTransport.

Section transport.
Context {N : Noise} {L : NoiseLaws N}.

(** ** Messages *)

(** What a message becomes on the wire when the sending direction is [n]: the
    length and the message, under two nonces in a row. *)
Definition packet_of (n : ln_noise_t) (m : bytes) : bytes :=
  sealed (key n) (nonce_bytes (nonce n)) [] (be_bytes 2 (Z.of_nat (length m))) ++
  sealed (key n) (nonce_bytes (nonce n + 1)) [] m.

(** The direction after a message. *)
Definition after (n : ln_noise_t) : ln_noise_t := rotate (set_nonce (nonce n + 1) n).

(** Between messages. *)
Definition in_step (n : ln_noise_t) : Prop := 0 ≤ nonce n < 1000 ∧ Z.even (nonce n) = true.

(** A message has a type, and its length with the MAC fits 16 bits. *)
Definition fits (m : bytes) : Prop := 2 ≤ Z.of_nat (length m) < 2 ^ 16 - 16.

Lemma even_bound n : in_step n → nonce n ≤ 998.
Proof.
  intros [Hb He]. destruct (decide (nonce n = 999)) as [H|H]; [|lia]. by rewrite H in He.
Qed.

Lemma rotate_plain n : 0 ≤ nonce n → nonce n + 1 < 1000 → rotate n = set_nonce (nonce n + 1) n.
Proof.
  intros. unfold rotate. rewrite wrap_small by (unfold in_range; lia). cbn [nonce set_nonce].
  by rewrite (proj2 (Z.eqb_neq _ _)) by lia.
Qed.

Lemma rotate_last n : nonce n = 999 →
  rotate n = mk_noise (kdf (ck n) (Some (key n))).2 0 (kdf (ck n) (Some (key n))).1.
Proof. intros H. unfold rotate. rewrite H. cbn. rewrite hkdf_kdf. by destruct (kdf _ _). Qed.

Lemma after_in_step n : in_step n → in_step (after n).
Proof.
  intros Hn. pose proof (even_bound _ Hn). destruct Hn as [Hb He]. unfold after.
  destruct (decide (nonce n = 998)) as [H8|H8].
  - by rewrite rotate_last by (cbn; lia).
  - assert (nonce n < 998) as Hlt by lia. rewrite rotate_plain by (cbn; lia).
    split; cbn [nonce set_nonce]; [lia|].
    replace (nonce n + 1 + 1) with (nonce n + 2) by lia. by rewrite Z.even_add, He.
Qed.

Lemma swapped_length n : 0 ≤ n < 2 ^ 16 →
  le_bytes 2 (u16 (Z.lor (Z.shiftr n 8) (Z.shiftl n 8))) = be_bytes 2 n.
Proof.
  intros Hn. change (2 ^ 16) with 65536 in Hn.
  assert (Z.shiftr n 8 = n / 256) as -> by (by rewrite Z.shiftr_div_pow2).
  assert (0 ≤ n / 256 < 256) by (Z.to_euclidean_division_equations; lia).
  rewrite Z.lor_comm, lor_shiftl_add by lia. cbn [le_bytes be_bytes Z.of_nat Z.mul Pos.mul].
  rewrite !Z.shiftr_div_pow2 by lia. unfold wrap. change (2 ^ 8) with 256. change (2 ^ 16) with 65536.
  change (2 ^ 0) with 1. rewrite Z.div_1_r.
  assert ((n * 256 + n / 256) mod 65536 = (n mod 256) * 256 + n / 256) as ->.
  { symmetry. apply (Z.mod_unique_pos _ _ (n / 256)); Z.to_euclidean_division_equations; lia. }
  f_equal; [|f_equal]; Z.to_euclidean_division_equations; lia.
Qed.

Lemma out_block_step {B} d n (K : list cell → prog peer B) s :
  n = Z.of_nat (length d) → (out_block n d ≫= K) s = K (init_cells d) s.
Proof.
  intros Hn. unfold out_block. rewrite <- Hn. destruct (decide (n = 0)) as [H0|H0].
  - destruct d; [|cbn [length] in *; lia]. unfold write_cells. rewrite H0. cbn [Z.eqb].
    by rewrite (malloc_eq 0).
  - by rewrite write_whole by (done || lia || apply noise_alloc_total).
Qed.

Lemma write_two d1 d2 n1 n2 n :
  n1 = Z.of_nat (length d1) → n2 = Z.of_nat (length d2) → n = n1 + n2 → 0 < n1 → 0 < n2 →
  (b ← write_cells (malloc n) 0 (init_cells d1) n1; write_cells b n1 (init_cells d2) n2) =
  Some (Some (init_cells (d1 ++ d2))).
Proof.
  intros -> -> -> H1 H2. rewrite (malloc_eq (A := noise_alloc)). unfold write_cells.
  rewrite !(proj2 (Z.eqb_neq _ _)) by lia.
  rewrite bool_decide_eq_true_2 by (rewrite length_junk, length_init_cells; lia).
  cbn [mbind option_bind]. set (l := take _ (junk _) ++ _ ++ _).
  assert (l = init_cells d1 ++ junk (Z.of_nat (length d2))) as ->.
  { subst l. change (Z.to_nat 0) with 0%nat. rewrite take_0, app_nil_l, Z.add_0_l.
    rewrite (take_ge (init_cells d1)) by (rewrite length_init_cells; lia). f_equal.
    unfold junk. rewrite drop_replicate. f_equal. lia. }
  rewrite bool_decide_eq_true_2
    by (rewrite length_app, length_junk, !length_init_cells; lia).
  rewrite take_app_length' by (rewrite length_init_cells; lia).
  rewrite (take_ge (init_cells d2)) by (rewrite length_init_cells; lia).
  rewrite drop_ge by (rewrite length_app, length_junk, length_init_cells; lia).
  by rewrite app_nil_r, init_cells_app.
Qed.

Lemma enc_step m s :
  in_step (noise_send s) → fits m →
  ln_enc_auth_enc (of_bytes m) s =
  Ret true (set_pBuf (of_bytes (packet_of (noise_send s) m)) (set_send (after (noise_send s)) s)).
Proof.
  intros Hn [Hf1 Hf2]. pose proof (even_bound _ Hn). destruct Hn as [Hb He].
  unfold ln_enc_auth_enc. cbn [len of_bytes buf]. rewrite swapped_length by lia. cbv zeta.
  rewrite bind_get_st, seal_step.
  rewrite out_block_step by (rewrite sealed_length, length_be_bytes; done).
  rewrite bind_modify, bind_get_st. cbn [noise_send set_send set_nonce nonce key].
  rewrite (wrap_small 64) by (unfold in_range; lia).
  rewrite (proj2 (Z.eqb_neq _ _)), exit_no by (done || lia).
  rewrite read_of_bytes. cbn [of_option]. rewrite bind_mret, seal_step.
  rewrite (wrap_small 32 (Z.of_nat (length m) + 16)) by (unfold in_range; lia).
  rewrite out_block_step by (rewrite sealed_length; lia).
  rewrite bind_modify. cbn [noise_send set_send]. rewrite (wrap_small 32) by (unfold in_range; lia).
  unfold utl_buf_alloc. cbn [snd buf].
  pose proof (write_two (sealed (key (noise_send s)) (nonce_bytes (nonce (noise_send s))) []
      (be_bytes 2 (Z.of_nat (length m))))
    (sealed (key (noise_send s)) (nonce_bytes (nonce (noise_send s) + 1)) [] m)
    18 (Z.of_nat (length m) + 16) (2 + Z.of_nat (length m) + 2 * 16)) as Hw.
  rewrite !sealed_length, length_be_bytes in Hw.
  specialize (Hw ltac:(done) ltac:(lia) ltac:(lia) ltac:(lia) ltac:(lia)).
  cbn [mbind option_bind] in Hw.
  change (2 + 16) with 18.
  destruct (write_cells (malloc _) 0 _ 18) as [b1|]; [|done]. cbn [of_option]. rewrite bind_mret.
  cbn [mbind option_bind] in Hw. rewrite Hw. cbn [of_option]. rewrite bind_mret, bind_modify.
  unfold packet_of, after, set_buf, of_bytes. cbn [len].
  rewrite length_app, !sealed_length, length_be_bytes, Nat2Z.inj_add.
  replace (Z.of_nat (2 + 16) + Z.of_nat (length m + 16)) with (2 + Z.of_nat (length m) + 2 * 16) by lia.
  by destruct s.
Qed.

Lemma dec_len_step {B} n (K : Z → prog peer B) s :
  0 ≤ nonce (noise_recv s) < 999 → 0 ≤ n < 2 ^ 16 →
  (ln_enc_auth_dec_len (sealed (key (noise_recv s)) (nonce_bytes (nonce (noise_recv s))) [] (be_bytes 2 n)) 18
     ≫= K) s =
  K (u16 (n + 16)) (set_recv (set_nonce (nonce (noise_recv s) + 1) (noise_recv s)) s).
Proof.
  intros Hn Hl. unfold ln_enc_auth_dec_len. cbn [Z.eqb Pos.eqb negb].
  set (d := sealed _ _ _ _).
  assert (sub_bytes d 0 18 = Some d) as ->.
  { unfold sub_bytes. rewrite bool_decide_eq_true_2 by (subst d; rewrite sealed_length, length_be_bytes; lia).
    f_equal. change (Z.to_nat 0) with 0%nat. rewrite drop_0. apply take_ge.
    subst d. rewrite sealed_length, length_be_bytes. lia. }
  rewrite bind_assoc, bind_get_st. cbn [of_option]. rewrite bind_assoc, bind_mret.
  subst d. rewrite (unseal_sealed _ _ _ _ 2%nat) by (by rewrite length_be_bytes).
  rewrite bind_assoc, bind_modify, bind_assoc, bind_get_st. cbn [noise_recv set_recv nonce set_nonce].
  rewrite (wrap_small 64) by (unfold in_range; lia).
  rewrite (proj2 (Z.eqb_neq _ _)) by lia.
  rewrite bind_mret, be_val_be_bytes. change (8 * Z.of_nat 2) with 16.
  by rewrite (wrap_small 16 n) by (unfold in_range; lia).
Qed.

Lemma dec_msg_step m s :
  0 ≤ nonce (noise_recv s) < 1000 → 0 < Z.of_nat (length m) < 2 ^ 16 - 16 →
  pBuf s = of_bytes (sealed (key (noise_recv s)) (nonce_bytes (nonce (noise_recv s))) [] m) →
  ln_enc_auth_dec_msg s =
  Ret true (set_pBuf (of_bytes m) (set_recv (rotate (noise_recv s)) s)).
Proof.
  intros Hn Hm Hb. unfold ln_enc_auth_dec_msg. rewrite bind_get_st, Hb. cbn [len of_bytes buf]. cbv zeta.
  pose proof (sealed_length (key (noise_recv s)) (nonce_bytes (nonce (noise_recv s))) [] m) as Hl.
  rewrite wrap_small by (unfold in_range; lia). rewrite setkey_ok, exit_no by done.
  rewrite Z.sub_add, read_of_bytes. cbn [of_option]. rewrite bind_mret.
  pose proof (unseal_sealed (key (noise_recv s)) (nonce_bytes (nonce (noise_recv s))) [] m
    (Z.to_nat (Z.of_nat (length (sealed (key (noise_recv s)) (nonce_bytes (nonce (noise_recv s))) [] m)) - 16))) as Hu.
  unfold unseal in Hu. rewrite setkey_ok in Hu. rewrite Hu by lia.
  rewrite Hl. replace (Z.of_nat (length m + 16) - 16) with (Z.of_nat (length m)) by lia.
  rewrite out_block_step, bind_modify by done. unfold utl_buf_alloc. cbn [snd buf].
  rewrite write_whole by (done || lia || apply noise_alloc_total). cbn [of_option].
  rewrite bind_mret, bind_modify. unfold set_buf. cbn [len]. by destruct s.
Qed.

Lemma packet_head n m rest :
  recv_peer (packet_of n m ++ rest) 18 =
  (sealed (key n) (nonce_bytes (nonce n)) [] (be_bytes 2 (Z.of_nat (length m))),
   sealed (key n) (nonce_bytes (nonce n + 1)) [] m ++ rest).
Proof.
  unfold recv_peer, packet_of. rewrite <- app_assoc.
  rewrite take_app_length', drop_app_length' by (rewrite sealed_length, length_be_bytes; done). done.
Qed.

Lemma type_readable m : 2 ≤ Z.of_nat (length m) → is_Some (ln_misc_get16be m).
Proof. destruct m as [|a [|b m]]; cbn [length]; try lia. cbn. eauto. Qed.

Lemma round_step m rest s :
  in_step (noise_recv s) → fits m →
  thread_recv_round (packet_of (noise_recv s) m ++ rest) s =
  Ret (Some (m, rest)) (set_pBuf (of_bytes m) (set_recv (after (noise_recv s)) s)).
Proof.
  intros Hn Hf. pose proof (even_bound _ Hn). destruct Hn as [Hb _]. destruct Hf as [Hf1 Hf2].
  unfold thread_recv_round. rewrite packet_head. rewrite sealed_length, length_be_bytes. cbv zeta.
  change (Z.of_nat (2 + 16)) with 18. cbn [Z.eqb Pos.eqb]. rewrite bind_assert by done.
  rewrite dec_len_step by lia. rewrite wrap_small by (unfold in_range; lia).
  set (c := sealed _ _ _ m). assert (length c = (length m + 16)%nat) as Hc by apply sealed_length.
  unfold recv_peer. rewrite take_app_length', drop_app_length' by (rewrite Hc; lia).
  rewrite (proj2 (Z.eqb_neq (Z.of_nat (length c)) 0)) by lia.
  rewrite (proj2 (Z.eqb_eq (Z.of_nat (length c)) _)) by lia.
  rewrite bind_modify. erewrite bind_ret.
  2:{ apply call_ret. apply (dec_msg_step m); cbn; [lia|lia|reflexivity]. }
  cbv beta iota. rewrite bind_get_st. cbn [pBuf set_pBuf buf of_bytes len].
  rewrite read_of_bytes. cbn [of_option]. rewrite bind_mret.
  destruct (type_readable m Hf1) as [t ->]. cbn [of_option]. rewrite bind_mret. by destruct s.
Qed.

Lemma send_whole d w writes : Z.of_nat (length d) ≤ w → 0 < Z.of_nat (length d) →
  send_loop d (Z.of_nat (length d)) (w :: writes) = (d, 0).
Proof.
  intros Hw Hd. cbn [send_loop]. rewrite (proj2 (Z.leb_gt _ 0)) by lia.
  rewrite Z.min_r, Z.sub_diag by lia.
  assert (send_loop d 0 writes = ([], 0)) as -> by (by destruct writes).
  by rewrite Nat2Z.id, firstn_all, app_nil_r.
Qed.

Lemma packet_length n m : length (packet_of n m) = (length m + 34)%nat.
Proof. unfold packet_of. rewrite length_app, !sealed_length, length_be_bytes. lia. Qed.

Lemma send_step writes m s :
  in_step (noise_send s) → fits m →
  send_peer_noise writes (of_bytes m) s =
  Ret (let '(out, len) := send_loop (packet_of (noise_send s) m) (Z.of_nat (length m) + 34) writes in
       (len =? 0, out))
    (set_pBuf (of_bytes (packet_of (noise_send s) m)) (set_send (after (noise_send s)) s)).
Proof.
  intros Hn Hf. unfold send_peer_noise. cbn [buf of_bytes len]. rewrite read_of_bytes. cbn [of_option].
  rewrite bind_mret. destruct (type_readable m (proj1 Hf)) as [t ->]. cbn [of_option]. rewrite bind_mret.
  erewrite bind_ret by (apply call_ret, (enc_step m); done).
  cbv beta iota. rewrite bind_get_st. cbn [pBuf set_pBuf buf of_bytes len].
  rewrite read_of_bytes. cbn [of_option]. rewrite bind_mret, packet_length.
  replace (Z.of_nat (length m + 34)) with (Z.of_nat (length m) + 34) by lia.
  by destruct (send_loop _ _ _).
Qed.

(** Messages sent one after the other, each taken by the socket in one write. *)
Fixpoint send_all (ms : list bytes) : M bytes :=
  match ms with
  | [] => mret []
  | m :: ms =>
      x ← send_peer_noise [2 ^ 20] (of_bytes m);
      out ← send_all ms;
      mret (x.2 ++ out)
  end.

Fixpoint recv_all (n : nat) (sock : bytes) : M (option (list bytes * bytes)) :=
  match n with
  | O => mret (Some ([], sock))
  | S n =>
      x ← thread_recv_round sock;
      match x with
      | Some (m, sock) =>
          x ← recv_all n sock;
          mret (match x with Some (ms, sock) => Some (m :: ms, sock) | None => None end)
      | None => mret None
      end
  end.

(** The direction [i] messages after [n], and what [ms] are on the wire. *)
Definition later (n : ln_noise_t) (i : nat) : ln_noise_t := Nat.iter i after n.

Fixpoint wire_of (n : ln_noise_t) (ms : list bytes) : bytes :=
  match ms with
  | [] => []
  | m :: ms => packet_of n m ++ wire_of (after n) ms
  end.

Lemma later_S n i : later n (S i) = later (after n) i.
Proof. unfold later. by rewrite Nat.iter_succ_r. Qed.

Lemma send_whole_step m s :
  in_step (noise_send s) → fits m →
  send_peer_noise [2 ^ 20] (of_bytes m) s =
  Ret (true, packet_of (noise_send s) m)
    (set_pBuf (of_bytes (packet_of (noise_send s) m)) (set_send (after (noise_send s)) s)).
Proof.
  intros Hn Hf. rewrite send_step by done. pose proof (packet_length (noise_send s) m) as Hl.
  destruct Hf. replace (Z.of_nat (length m) + 34) with (Z.of_nat (length (packet_of (noise_send s) m))) by lia.
  by rewrite send_whole by lia.
Qed.

Lemma send_all_spec ms s :
  in_step (noise_send s) → Forall fits ms →
  ∃ s', send_all ms s = Ret (wire_of (noise_send s) ms) s' ∧
    noise_send s' = later (noise_send s) (length ms).
Proof.
  intros Hn Hf. revert s Hn. induction Hf as [|m ms Hm _ IH]; intros s Hn; [by exists s|].
  destruct (IH (set_pBuf (of_bytes (packet_of (noise_send s) m)) (set_send (after (noise_send s)) s)))
    as (s' & Hs & Hl); [by apply after_in_step|].
  exists s'. split; [|by rewrite Hl; cbn [length]; rewrite later_S].
  cbn [send_all wire_of]. erewrite bind_ret by (by apply send_whole_step).
  by erewrite bind_ret by exact Hs.
Qed.

Lemma recv_all_spec ms rest s :
  in_step (noise_recv s) → Forall fits ms →
  ∃ s', recv_all (length ms) (wire_of (noise_recv s) ms ++ rest) s = Ret (Some (ms, rest)) s' ∧
    noise_recv s' = later (noise_recv s) (length ms).
Proof.
  intros Hn Hf. revert s Hn. induction Hf as [|m ms Hm _ IH]; intros s Hn; [by exists s|].
  destruct (IH (set_pBuf (of_bytes m) (set_recv (after (noise_recv s)) s)))
    as (s' & Hs & Hl); [by apply after_in_step|].
  exists s'. split; [|by rewrite Hl; cbn [length]; rewrite later_S].
  cbn [recv_all wire_of length]. rewrite <- app_assoc.
  erewrite bind_ret by (by apply round_step). cbv beta iota.
  by erewrite bind_ret by exact Hs.
Qed.

(** C28: what a node sends after the handshake is what the other node receives:
    every sequence of messages arrives complete, in order and unchanged, in a
    stream cut at the right places, across any number of key rotations, and
    both ends stay in step for what follows. *)
Theorem stream_delivered a b ms rest :
  linked a b → in_step (noise_send a) → Forall fits ms →
  ∃ wire a' b', send_all ms a = Ret wire a' ∧
    recv_all (length ms) (wire ++ rest) b = Ret (Some (ms, rest)) b' ∧
    linked a' b' ∧ in_step (noise_send a').
Proof.
  unfold linked. intros Hl Hn Hf. destruct (send_all_spec ms a Hn Hf) as (a' & Ha & Sa).
  rewrite Hl in Hn. destruct (recv_all_spec ms rest b Hn Hf) as (b' & Hb & Sb).
  exists (wire_of (noise_send a) ms), a', b'. split; [exact Ha|]. rewrite Hl. split; [exact Hb|].
  rewrite Sa, Sb, Hl. split; [done|]. generalize (length ms). intros i. revert Hn.
  generalize (noise_recv b). induction i as [|i IH]; intros n Hn; [done|].
  rewrite later_S. by apply IH, after_in_step.
Qed.

(** Chaining key and key after [i] rotations. *)
Definition epoch (n : ln_noise_t) (i : nat) : bytes * bytes :=
  Nat.iter i (λ x, kdf x.1 (Some x.2)) (ck n, key n).

Definition scheduled (n : ln_noise_t) (i : nat) : ln_noise_t :=
  mk_noise (epoch n (i / 500)).2 (2 * Z.of_nat (i mod 500)) (epoch n (i / 500)).1.

Lemma after_scheduled n i : after (scheduled n i) = scheduled n (S i).
Proof.
  unfold scheduled. pose proof (Nat.div_mod_eq i 500) as Hi. pose proof (Nat.mod_upper_bound i 500).
  destruct (decide (i mod 500 = 499)%nat) as [Hl|Hl].
  - assert (S i / 500 = S (i / 500) ∧ S i mod 500 = 0)%nat as [-> ->].
    { split; symmetry; [apply (Nat.div_unique _ _ _ 0)|apply (Nat.mod_unique _ _ (S (i / 500)))]; lia. }
    unfold after. rewrite rotate_last by (cbn [nonce set_nonce]; lia). done.
  - assert (S i / 500 = i / 500 ∧ S i mod 500 = S (i mod 500))%nat as [-> ->].
    { split; symmetry; [apply (Nat.div_unique _ _ _ (S (i mod 500)))|apply (Nat.mod_unique _ _ (i / 500))]; lia. }
    unfold after. rewrite rotate_plain by (cbn [nonce set_nonce]; lia). unfold set_nonce. cbn [nonce key ck]. f_equal. lia.
Qed.

Lemma later_scheduled n i : nonce n = 0 → later n i = scheduled n i.
Proof.
  intros H0. unfold later. induction i as [|i IH]; [destruct n; cbn in *; by rewrite H0|].
  cbn [Nat.iter nat_rect]. change (nat_rect _ n _ i) with (Nat.iter i after n).
  by rewrite IH, after_scheduled.
Qed.

Lemma wire_scheduled n j ms :
  wire_of (scheduled n j) ms = concat (imap (λ i m, packet_of (scheduled n (j + i)) m) ms).
Proof.
  revert j. induction ms as [|m ms IH]; intros j; [done|].
  cbn [wire_of imap concat]. rewrite Nat.add_0_r. f_equal. rewrite after_scheduled, IH. f_equal.
  apply imap_ext. intros i x _. cbn. by rewrite Nat.add_succ_r.
Qed.

(** The nonces of a message: seal [a] of message [i], the length ([a = 0]) or the
    text ([a = 1]). *)
Definition seal_nonce (n : ln_noise_t) (i : nat) (a : Z) : Z := nonce (scheduled n i) + a.

Lemma seal_once n i a j b : 0 ≤ a ≤ 1 → 0 ≤ b ≤ 1 → seal_nonce n i a = seal_nonce n j b → (i / 500)%nat = (j / 500)%nat →
  i = j ∧ a = b.
Proof.
  unfold seal_nonce, scheduled. cbn [nonce]. intros Ha Hb He Hd.
  pose proof (Nat.div_mod_eq i 500). pose proof (Nat.div_mod_eq j 500). split; lia.
Qed.

(** C29: the keys rotate as BOLT 8 asks: the message [i] after the handshake is
    sealed under the key of epoch [i / 500], its length with the nonce
    [2 * (i mod 500)] and its text with the one after. So a key is used for at most
    1000 seals, nonces 0 to 999, and two different seals have the same key and the same
    nonce only if they belong to different epochs to which the key derivation, a
    parameter, gives the same key. *)
Theorem key_schedule s ms :
  nonce (noise_send s) = 0 → Forall fits ms →
  let n := noise_send s in
  (∃ s', send_all ms s = Ret (concat (imap (λ i m, packet_of (scheduled n i) m) ms)) s' ∧
    noise_send s' = scheduled n (length ms)) ∧
  (∀ i a, 0 ≤ a ≤ 1 → 0 ≤ seal_nonce n i a < 1000) ∧
  ∀ i a j b, 0 ≤ a ≤ 1 → 0 ≤ b ≤ 1 → (i, a) ≠ (j, b) →
    key (scheduled n i) = key (scheduled n j) → seal_nonce n i a = seal_nonce n j b →
    (i / 500)%nat ≠ (j / 500)%nat ∧ (epoch n (i / 500)).2 = (epoch n (j / 500)).2.
Proof.
  intros H0 Hf n. assert (in_step n) as Hn by (unfold in_step, n; rewrite H0; done). split_and!.
  - destruct (send_all_spec ms s Hn Hf) as (s' & Hs & Hl). exists s'. fold n in Hs, Hl.
    rewrite (later_scheduled _ (length ms)) in Hl by done. split; [|exact Hl].
    rewrite Hs. f_equal. rewrite <- (wire_scheduled n 0). f_equal.
    change (scheduled n 0) with (mk_noise (key n) 0 (ck n)). unfold n in *. rewrite <- H0. by destruct (noise_send s).
  - intros i a Ha. unfold seal_nonce, scheduled. cbn [nonce]. pose proof (Nat.mod_upper_bound i 500). lia.
  - intros i a j b Ha Hb Hne Hk He. split; [|exact Hk]. intros Hd. apply Hne.
    by destruct (seal_once n i a j b Ha Hb He Hd) as [-> ->].
Qed.

(** ** Where it breaks *)

(** a [write] that takes only a part of a packet corrupts the stream: the next
    one starts at the beginning of the packet again, its end is never sent,
    and the caller is told of success. *)
Theorem partial_write_corrupts m sz s :
  in_step (noise_send s) → fits m → 0 < sz < Z.of_nat (length m) + 34 →
  let p := packet_of (noise_send s) m in
  ∃ s', send_peer_noise [sz; Z.of_nat (length m) + 34 - sz] (of_bytes m) s =
    Ret (true, take (Z.to_nat sz) p ++ take (length p - Z.to_nat sz) p) s'.
Proof.
  intros Hn Hf Hsz p. eexists. rewrite send_step by done. fold p. cbn [send_loop].
  rewrite !(proj2 (Z.leb_gt _ 0)) by lia. rewrite !Z.min_l by lia. rewrite Z.sub_diag, app_nil_r.
  replace (Z.to_nat (Z.of_nat (length m) + 34 - sz)) with (length p - Z.to_nat sz)%nat
    by (subst p; rewrite packet_length; lia).
  reflexivity.
Qed.

Lemma dec_msg_short d s :
  0 < Z.of_nat (length d) < 16 → pBuf s = of_bytes d → call ln_enc_auth_dec_msg s = UB.
Proof.
  intros Hd Hb. apply call_ub. unfold ln_enc_auth_dec_msg. rewrite bind_get_st, Hb. cbn [len of_bytes buf].
  cbv zeta. rewrite setkey_ok, exit_no by done.
  assert (u16 (Z.of_nat (length d) - 16) = Z.of_nat (length d) + 65520) as ->.
  { unfold wrap. change (2 ^ 16) with 65536. symmetry. apply (Z.mod_unique_pos _ _ (-1)); lia. }
  unfold read_cells. rewrite (proj2 (Z.eqb_neq _ _)) by lia. cbn [mbind option_bind].
  rewrite bool_decide_eq_false_2 by (rewrite length_init_cells; lia). done.
Qed.

Lemma dec_msg_empty s :
  0 ≤ nonce (noise_recv s) < 1000 →
  pBuf s = of_bytes (sealed (key (noise_recv s)) (nonce_bytes (nonce (noise_recv s))) [] []) →
  ln_enc_auth_dec_msg s =
  Ret true (set_pBuf (of_bytes []) (set_recv (rotate (noise_recv s)) s)).
Proof.
  intros Hn Hb. unfold ln_enc_auth_dec_msg. rewrite bind_get_st, Hb. cbn [len of_bytes buf]. cbv zeta.
  set (c := sealed _ _ _ []). assert (length c = 16%nat) as Hc by apply sealed_length.
  rewrite Hc. change (u16 (Z.of_nat 16 - 16)) with 0. rewrite setkey_ok, exit_no by done.
  replace (0 + 16) with (Z.of_nat (length c)) by lia. rewrite read_of_bytes. cbn [of_option].
  rewrite bind_mret. change (Z.to_nat 0) with 0%nat.
  pose proof (unseal_sealed (key (noise_recv s)) (nonce_bytes (nonce (noise_recv s))) [] [] 0 eq_refl) as Hu.
  unfold unseal in Hu. rewrite setkey_ok in Hu. fold c in Hu. rewrite Hu.
  rewrite (out_block_step [] 0), bind_modify by done. unfold utl_buf_alloc. cbn [snd buf].
  unfold write_cells. cbn [Z.eqb of_option]. rewrite bind_mret, bind_modify.
  rewrite (malloc_eq (A := noise_alloc) 0). by destruct s.
Qed.

(** C30: three packets the receiving thread does not survive: a stream that ends
    inside a header fails the [assert] on its length; a header that announces
    more than 65520 bytes wraps, and the MAC is read far behind the buffer; an
    empty message has no type to read. The last two take a peer that has done
    the handshake. *)
Theorem hostile_packets s :
  in_step (noise_recv s) →
  (∀ sock, (0 < length sock < 18)%nat → thread_recv_round sock s = AbortOut) ∧
  (∀ n tail, 2 ^ 16 - 16 < n < 2 ^ 16 → n + 16 - 2 ^ 16 ≤ Z.of_nat (length tail) →
     thread_recv_round (sealed (key (noise_recv s)) (nonce_bytes (nonce (noise_recv s))) []
       (be_bytes 2 n) ++ tail) s = UB) ∧
  ∀ rest, thread_recv_round (packet_of (noise_recv s) [] ++ rest) s = UB.
Proof.
  intros Hn. pose proof (even_bound _ Hn). destruct Hn as [Hb _]. split; [|split].
  - intros sock Hs. unfold thread_recv_round, recv_peer. rewrite take_ge by lia.
    rewrite (proj2 (Z.eqb_neq _ 0)) by lia. unfold c_assert.
    by rewrite (proj2 (Z.eqb_neq _ 18)) by lia.
  - intros n tail Hr Ht. unfold thread_recv_round.
    set (hd := sealed _ _ _ _). assert (length hd = 18%nat) as Hl.
    { subst hd. by rewrite sealed_length, length_be_bytes. }
    unfold recv_peer. rewrite take_app_length', drop_app_length' by (rewrite Hl; lia).
    rewrite Hl. change (Z.of_nat 18) with 18. cbn [Z.eqb Pos.eqb]. rewrite bind_assert by done.
    subst hd. rewrite dec_len_step by lia.
    assert (u16 (n + 16) = n + 16 - 2 ^ 16) as ->.
    { unfold wrap. change (2 ^ 16) with 65536 in *. symmetry. apply (Z.mod_unique_pos _ _ 1); lia. }
    set (d := take _ tail). assert (Z.of_nat (length d) = n + 16 - 2 ^ 16) as Hd.
    { subst d. rewrite length_take. lia. }
    rewrite Hd, (proj2 (Z.eqb_neq _ 0)), Z.eqb_refl by lia. rewrite bind_modify.
    apply bind_ub. apply (dec_msg_short d); [lia|done].
  - intros rest. unfold thread_recv_round. rewrite packet_head, sealed_length, length_be_bytes.
    change (Z.of_nat (2 + 16)) with 18. cbn [Z.eqb Pos.eqb]. rewrite bind_assert by done.
    rewrite dec_len_step by (cbn; lia). cbn [length]. change (u16 (Z.of_nat 0 + 16)) with 16.
    set (c := sealed _ _ _ []). assert (length c = 16%nat) as Hc by apply sealed_length.
    unfold recv_peer. rewrite take_app_length', drop_app_length' by (rewrite Hc; lia).
    rewrite Hc. change (Z.of_nat 16) with 16. cbn [Z.eqb Pos.eqb]. rewrite bind_modify.
    erewrite bind_ret by (apply call_ret, dec_msg_empty; cbn; [lia|reflexivity]).
    reflexivity.
Qed.

End transport.

(** ** On concrete nodes *)

(** The last two messages before a rotation and one after it. *)
Lemma stream_delivered_witness :
  @in_step (LnToyNoise.direction 998) ∧
  ∃ wire a' b',
    @send_all LnToyNoise.noise [[0; 18]; [0; 19; 1]; [1; 4]] (LnToyNoise.busy 996) = Ret wire a' ∧
    @recv_all LnToyNoise.noise 3 (wire ++ [9]) (LnToyNoise.busy 996) =
      Ret (Some ([[0; 18]; [0; 19; 1]; [1; 4]], [9])) b' ∧ linked a' b'.
Proof.
  split; [by_compute|].
  destruct (@stream_delivered LnToyNoise.noise LnToyNoise.noise_laws (LnToyNoise.busy 996) (LnToyNoise.busy 996)
    [[0; 18]; [0; 19; 1]; [1; 4]] [9]) as (wire & a' & b' & H1 & H2 & H3 & _);
    [reflexivity|by_compute|by_compute|].
  exists wire, a', b'. split; [exact H1|]. split; [exact H2|exact H3].
Defined.

Lemma key_schedule_witness :
  nonce (LnToyNoise.direction 0) = 0 ∧
  (∃ s', @send_all LnToyNoise.noise [[0; 18]; [0; 19; 1]] (LnToyNoise.busy 0) =
    Ret (@packet_of LnToyNoise.noise (LnToyNoise.direction 0) [0; 18] ++
         @packet_of LnToyNoise.noise (LnToyNoise.direction 2) [0; 19; 1] ++ []) s' ∧
    noise_send s' = LnToyNoise.direction 4) ∧
  0 ≤ @seal_nonce LnToyNoise.noise (LnToyNoise.direction 0) 1499 1 < 1000.
Proof.
  split; [reflexivity|].
  destruct (@key_schedule LnToyNoise.noise LnToyNoise.noise_laws (LnToyNoise.busy 0) [[0; 18]; [0; 19; 1]])
    as ((s' & H1 & H2) & H3 & _); [reflexivity|by_compute|].
  split; [exists s'; split; [exact H1|exact H2]|]. apply H3. lia.
Defined.

(** A packet of 36 bytes of which the first write takes 20. *)
Lemma partial_write_corrupts_witness :
  let p := @packet_of LnToyNoise.noise (LnToyNoise.direction 0) [0; 18] in
  length p = 36%nat ∧ take 20 p ++ take 16 p ≠ p ∧
  ∃ s', @send_peer_noise LnToyNoise.noise [20; 16] (of_bytes [0; 18]) (LnToyNoise.busy 0) =
    Ret (true, take 20 p ++ take 16 p) s'.
Proof.
  split; [by vm_compute|]. split; [by vm_compute|].
  apply (@partial_write_corrupts LnToyNoise.noise LnToyNoise.noise_laws [0; 18] 20 (LnToyNoise.busy 0)); by_compute.
Defined.

Lemma hostile_packets_witness :
  in_step (noise_recv (LnToyNoise.busy 0)) ∧
  @thread_recv_round LnToyNoise.noise [1; 2; 3] (LnToyNoise.busy 0) = AbortOut.
Proof.
  assert (in_step (noise_recv (LnToyNoise.busy 0))) as H by by_compute. split; [exact H|].
  exact (proj1 (@hostile_packets LnToyNoise.noise LnToyNoise.noise_laws (LnToyNoise.busy 0) H)
    [1; 2; 3] ltac:(by_compute)).
Defined.

End LnTransport.
