(* ===== verification/LnToyOnion.v ===== *)
(** Concrete primitives for the onion packets, on the group modulo 251: hashes
    that fit its scalars, and a key stream that depends on its key. They satisfy
    the laws the theorems ask for, not more. *)
From stdpp Require Import base list numbers tactics.
From Stdlib Require Import ZArith Lia.
From S2P Require Import Prelude CProg UtlBuf LnDerkey LnToyNoise LnOnion.
Import UtlBuf Derkey LnOnion.
Open Scope Z_scope.

Module LnToyOnion.

(** A checksum from 1 to 250. *)
Definition digest (d : bytes) : Z := 1 + foldl (λ a b, (31 * a + b) mod 250) 7 d.

Definition hash (d : bytes) : bytes := replicate 31 0 ++ [digest d].

Definition stream (k : bytes) (n : nat) : bytes := (λ i, (digest k * Z.of_nat i) mod 256) <$> seq 0 n.

#[export] Instance onion : Onion := {|
  onion_curve := LnToyNoise.group;
  onion_alloc := total_alloc;
  onion_sha256 := hash;
  mbedtls_md_hmac := λ k m, hash (k ++ m);
  chacha20_stream := stream;
  onion_debug_get := 0;
|}.

#[export] Instance onion_laws : OnionLaws onion.
Proof.
  split; [apply LnToyNoise.group_laws|apply total_alloc_total|done|done| |done].
  intros k n. unfold chacha20_stream, onion, stream. by rewrite length_fmap, length_seq.
Qed.

Definition key (n : Z) : bytes := be_bytes 32 n.

(** A hop at the node with the private key [n], for a channel. *)
Definition hop (n scid amt cltv : Z) : ln_hop_datain_t :=
  mk_hop_in scid amt cltv (2 :: be_bytes 32 n).

Definition route : list ln_hop_datain_t := [hop 11 0x102030405 5000 700; hop 22 0x60708 4000 600; hop 33 0 3000 500].
Definition nodes : list bytes := [key 11; key 22; key 33].

End LnToyOnion.
