(* ===== verification/LnOnionRoute.v ===== *)
(** An onion packet along its route: every hop that peels a layer finds its own
    data and the packet for the next hop, up to the last one. *)
From stdpp Require Import base list numbers tactics.
From Stdlib Require Import ZArith Lia.
From S2P Require Import Prelude CProg UtlInt UtlBuf UtlPush LnDerkey LnMisc LnOnion.
From S2P Require Import LnMsg LnToyNoise LnToyOnion.
Import UtlInt UtlBuf UtlPush Derkey LnMisc LnMsg LnOnion.
Open Scope Z_scope.

Module LnOnionRoute.

(** ** Byte-wise exclusive or *)

Abbreviation xor := (zip_with Z.lxor).

Lemma xor_zeros n (k : bytes) : length k = n → xor (replicate n 0) k = k.
Proof.
  intros H. rewrite zip_with_replicate_l by lia. rewrite <- (list_fmap_id k) at 2.
  apply list_fmap_ext. done.
Qed.

Lemma xor_involutive (a k : bytes) : (length a ≤ length k)%nat → xor (xor a k) k = a.
Proof.
  revert k. induction a as [|x a IH]; intros [|y k] H; cbn in *; try done; [lia|].
  rewrite IH by lia. f_equal. by rewrite Z.lxor_assoc, Z.lxor_nilpotent, Z.lxor_0_r.
Qed.

Section route.
Context {O : Onion} {L : OnionLaws O}.

(** ** The header and its filler *)

Definition hop_stream (ss : bytes) : bytes := generate_cipher_stream (generate_key RHO ss) M_SZ_STREAM_BYTES.

Lemma length_hop_stream ss : length (hop_stream ss) = M_SZ_STREAM_BYTES.
Proof. apply stream_length. Qed.

(** What the hops with these secrets leave behind the part of the header that is
    not shifted out: each appends zeros and encrypts. *)
Definition filler_step (f ss : bytes) : bytes :=
  xor (f ++ replicate M_SZ_HOP_DATA 0) (drop (M_SZ_ROUTING_INFO - length f) (hop_stream ss)).

Definition filler (sss : list bytes) : bytes := foldl filler_step [] sss.

Lemma filler_snoc sss ss : filler (sss ++ [ss]) = filler_step (filler sss) ss.
Proof. unfold filler. by rewrite foldl_app. Qed.

Lemma length_filler_step f ss :
  (length f ≤ M_SZ_ROUTING_INFO)%nat → length (filler_step f ss) = (length f + M_SZ_HOP_DATA)%nat.
Proof.
  intros H. unfold filler_step.
  rewrite length_zip_with, length_app, length_replicate, length_drop, length_hop_stream. lia.
Qed.

Lemma length_filler sss : (length sss ≤ LN_HOP_MAX)%nat → length (filler sss) = (M_SZ_HOP_DATA * length sss)%nat.
Proof.
  induction sss as [|ss sss IH] using rev_ind; intros H; [done|].
  rewrite length_app in *. cbn [length] in *.
  rewrite filler_snoc, length_filler_step, IH by lia || (rewrite IH by lia; lia). lia.
Qed.

(** [generate_header_padding] makes it. *)
Lemma padding_loop_filler n lp sss pre :
  length pre = (lp - 1)%nat → (1 ≤ lp ≤ n)%nat → (n ≤ LN_HOP_MAX)%nat → (n - lp ≤ length sss)%nat →
  padding_loop RHO n lp sss
    ((M_SZ_HOP_DATA * (lp - 1))%nat, filler pre ++ replicate (M_SZ_HOP_DATA * (n - lp)) 0) =
  ((M_SZ_HOP_DATA * (n - 1))%nat, filler (pre ++ take (n - lp) sss)).
Proof.
  revert lp pre. induction sss as [|ss sss IH]; intros lp pre Hpre Hlp Hn Hs; cbn [padding_loop].
  { cbn [length] in Hs. replace (n - lp)%nat with 0%nat by lia. replace lp with n by lia.
    by rewrite Nat.mul_0_r, take_nil, !app_nil_r. }
  destruct (decide (lp < n)%nat) as [Hlt|Hge]; [|replace lp with n by lia].
  2: { rewrite Nat.sub_diag, Nat.mul_0_r, take_0, !app_nil_r. done. }
  replace (n - lp)%nat with (S (n - S lp)) by lia. rewrite firstn_cons.
  replace (pre ++ ss :: take (n - S lp) sss) with ((pre ++ [ss]) ++ take (n - S lp) sss)
    by by rewrite <- app_assoc.
  pose proof (length_filler pre ltac:(lia)) as Hf.
  rewrite <- IH by (rewrite ?length_app; cbn [length] in *; lia). f_equal.
  unfold padding_step. cbn [snd].
  destruct (decide (M_SZ_HOP_DATA * (n - 1) < M_SZ_HOP_DATA * lp)%nat); [lia|].
  replace (S lp - 1)%nat with lp by lia. f_equal.
  rewrite filler_snoc. unfold filler_step, xor_bytes, hop_stream.
  replace (M_SZ_HOP_DATA * S (n - S lp))%nat with (M_SZ_HOP_DATA + M_SZ_HOP_DATA * (n - S lp))%nat by lia.
  rewrite replicate_add, app_assoc.
  rewrite take_app_length', drop_app_length' by (rewrite length_app, length_replicate; lia).
  replace ((LN_HOP_MAX - lp + 1) * M_SZ_HOP_DATA)%nat with (M_SZ_ROUTING_INFO - length (filler pre))%nat by lia.
  rewrite (take_ge (drop _ _)); [done|]. rewrite length_drop.
  unfold generate_cipher_stream. rewrite stream_length. lia.
Qed.

Lemma generate_header_padding_filler sss :
  (1 ≤ length sss ≤ LN_HOP_MAX)%nat →
  let '(len, f) := generate_header_padding RHO (length sss) sss in
  take len f = filler (take (length sss - 1) sss).
Proof.
  intros H. unfold generate_header_padding.
  pose proof (padding_loop_filler (length sss) 1 sss [] eq_refl ltac:(lia) ltac:(lia) ltac:(lia)) as Hp.
  change (M_SZ_HOP_DATA * (1 - 1))%nat with 0%nat in Hp. change (filler []) with (@nil Z) in Hp.
  rewrite !app_nil_l in Hp. rewrite Hp.
  apply take_ge. rewrite length_filler; rewrite length_take; lia.
Qed.

(** One layer: what [wrap_hop] makes of the header of the next hop. [pre] are the
    secrets of the hops before. *)
Definition tail_ok (pre : list bytes) (hd : bytes) : Prop :=
  length hd = M_SZ_ROUTING_INFO ∧
  drop (M_SZ_ROUTING_INFO - M_SZ_HOP_DATA * length pre) hd = filler pre.

Definition unwrap (hd ss : bytes) : bytes :=
  xor_bytes hd (hop_stream ss) M_SZ_ROUTING_INFO ++ drop M_SZ_ROUTING_INFO (hop_stream ss).

Definition layer (d hd ss : bytes) : bytes :=
  xor_bytes (d ++ drop M_SZ_HOP_DATA (right_shift hd)) (hop_stream ss) M_SZ_ROUTING_INFO.

Lemma right_shift_drop hd : drop M_SZ_HOP_DATA (right_shift hd) = take (M_SZ_ROUTING_INFO - M_SZ_HOP_DATA) hd.
Proof. unfold right_shift. by rewrite drop_app_length' by (rewrite length_replicate; lia). Qed.

Lemma layer_eq d hd ss :
  length d = M_SZ_HOP_DATA → length hd = M_SZ_ROUTING_INFO →
  layer d hd ss = xor (d ++ take (M_SZ_ROUTING_INFO - M_SZ_HOP_DATA) hd) (take M_SZ_ROUTING_INFO (hop_stream ss)).
Proof.
  intros Hd Hh. unfold layer, xor_bytes. rewrite right_shift_drop, take_ge; [done|].
  rewrite length_app, length_take. lia.
Qed.

Lemma length_layer d hd ss :
  length d = M_SZ_HOP_DATA → length hd = M_SZ_ROUTING_INFO → length (layer d hd ss) = M_SZ_ROUTING_INFO.
Proof.
  intros Hd Hh. rewrite layer_eq by done.
  rewrite length_zip_with, length_app, !length_take, length_hop_stream. lia.
Qed.

(** The 65 bytes that a hop appends are the bytes that were shifted out. *)
Lemma tail_next pre ss hd :
  (length pre < LN_HOP_MAX)%nat → tail_ok (pre ++ [ss]) hd →
  take (M_SZ_HOP_DATA * length pre) (drop (M_SZ_ROUTING_INFO - M_SZ_HOP_DATA - M_SZ_HOP_DATA * length pre) hd) =
    xor (filler pre) (drop (M_SZ_ROUTING_INFO - M_SZ_HOP_DATA * length pre) (hop_stream ss)) ∧
  drop (M_SZ_ROUTING_INFO - M_SZ_HOP_DATA) hd = drop M_SZ_ROUTING_INFO (hop_stream ss).
Proof.
  intros Hp [Hl Ht]. rewrite filler_snoc, length_app in Ht. cbn [length] in Ht.
  pose proof (length_filler pre ltac:(lia)) as Hf.
  replace (M_SZ_ROUTING_INFO - M_SZ_HOP_DATA - M_SZ_HOP_DATA * length pre)%nat
    with (M_SZ_ROUTING_INFO - M_SZ_HOP_DATA * (length pre + 1))%nat by lia.
  assert (drop (M_SZ_ROUTING_INFO - M_SZ_HOP_DATA) hd =
    drop (M_SZ_HOP_DATA * length pre) (drop (M_SZ_ROUTING_INFO - M_SZ_HOP_DATA * (length pre + 1)) hd)) as ->.
  { rewrite drop_drop. f_equal. lia. }
  rewrite Ht. unfold filler_step. rewrite zip_with_take, zip_with_drop, Hf.
  rewrite take_app_length', drop_app_length' by lia. split.
  - rewrite <- Hf. by apply zip_with_take_r'; lia.
  - rewrite drop_drop.
    replace (M_SZ_ROUTING_INFO - M_SZ_HOP_DATA * length pre + M_SZ_HOP_DATA * length pre)%nat
      with M_SZ_ROUTING_INFO by lia.
    apply xor_zeros. rewrite length_drop, length_hop_stream. done.
Qed.

Lemma layer_tail pre d hd ss :
  length d = M_SZ_HOP_DATA → (length pre < LN_HOP_MAX)%nat → tail_ok (pre ++ [ss]) hd →
  tail_ok pre (layer d hd ss).
Proof.
  intros Hd Hp Ht. destruct (tail_next _ _ _ Hp Ht) as [Hx _]. pose proof (proj1 Ht) as Hl.
  pose proof (length_filler pre ltac:(lia)) as Hf.
  split; [by apply length_layer|]. rewrite layer_eq by done. rewrite zip_with_drop.
  rewrite drop_app_ge by lia. rewrite Hd.
  replace (M_SZ_ROUTING_INFO - M_SZ_HOP_DATA * length pre - M_SZ_HOP_DATA)%nat
    with (M_SZ_ROUTING_INFO - M_SZ_HOP_DATA - M_SZ_HOP_DATA * length pre)%nat by lia.
  rewrite !skipn_firstn_comm.
  replace (M_SZ_ROUTING_INFO - M_SZ_HOP_DATA - (M_SZ_ROUTING_INFO - M_SZ_HOP_DATA - M_SZ_HOP_DATA * length pre))%nat
    with (M_SZ_HOP_DATA * length pre)%nat by lia.
  rewrite Hx.
  rewrite zip_with_take_r' by (rewrite length_zip_with; lia).
  apply xor_involutive. rewrite length_drop, length_hop_stream. lia.
Qed.

Lemma unwrap_layer pre d hd ss :
  length d = M_SZ_HOP_DATA → (length pre < LN_HOP_MAX)%nat → tail_ok (pre ++ [ss]) hd →
  unwrap (layer d hd ss) ss = d ++ hd.
Proof.
  intros Hd Hp Ht. destruct (tail_next _ _ _ Hp Ht) as [_ Hx]. pose proof (proj1 Ht) as Hl.
  unfold unwrap, xor_bytes. rewrite take_ge by (rewrite length_layer; done || lia).
  rewrite layer_eq by done. rewrite xor_involutive.
  2: { rewrite length_app, !length_take, length_hop_stream. lia. }
  rewrite <- app_assoc, <- Hx. by rewrite take_drop.
Qed.

(** The last layer, where the filler takes the end of the header. *)
Definition last_layer (f d ss : bytes) : bytes :=
  take (M_SZ_ROUTING_INFO - length f) (layer d (replicate M_SZ_ROUTING_INFO 0) ss) ++ f.

Lemma last_layer_tail pre d ss :
  length d = M_SZ_HOP_DATA → (length pre < LN_HOP_MAX)%nat →
  tail_ok pre (last_layer (filler pre) d ss).
Proof.
  intros Hd Hp. pose proof (length_filler pre ltac:(lia)) as Hf.
  pose proof (length_layer d (replicate M_SZ_ROUTING_INFO 0) ss Hd (length_replicate _ _)) as Hl.
  unfold tail_ok, last_layer. rewrite <- Hf. split.
  - rewrite length_app, length_take, Hl. lia.
  - apply drop_app_length'. rewrite length_take, Hl. lia.
Qed.

Lemma take_layer d hd ss :
  length d = M_SZ_HOP_DATA → length hd = M_SZ_ROUTING_INFO →
  take M_SZ_HOP_DATA (layer d hd ss) = xor d (take M_SZ_HOP_DATA (hop_stream ss)).
Proof.
  intros Hd Hh. rewrite layer_eq by done. rewrite zip_with_take, take_take.
  by rewrite take_app_length' by done.
Qed.

Lemma take_unwrap hd ss :
  length hd = M_SZ_ROUTING_INFO →
  take M_SZ_HOP_DATA (unwrap hd ss) = xor (take M_SZ_HOP_DATA hd) (take M_SZ_HOP_DATA (hop_stream ss)).
Proof.
  intros Hh. unfold unwrap, xor_bytes. rewrite (take_ge hd) by lia.
  rewrite take_app_le. 2: { rewrite length_zip_with, length_take, length_hop_stream. lia. }
  by rewrite zip_with_take, take_take.
Qed.

Lemma unwrap_last pre d ss :
  length d = M_SZ_HOP_DATA → (length pre < LN_HOP_MAX)%nat →
  take M_SZ_HOP_DATA (unwrap (last_layer (filler pre) d ss) ss) = d.
Proof.
  intros Hd Hp. pose proof (length_filler pre ltac:(lia)) as Hf.
  destruct (last_layer_tail pre d ss Hd Hp) as [Hl _]. rewrite take_unwrap by done.
  unfold last_layer in *. rewrite length_app, length_take in Hl.
  rewrite take_app_le by (rewrite length_take; lia). rewrite take_take.
  replace (M_SZ_HOP_DATA `min` (M_SZ_ROUTING_INFO - length (filler pre)))%nat with M_SZ_HOP_DATA by lia.
  rewrite take_layer by (done || apply length_replicate).
  apply xor_involutive. rewrite length_take, length_hop_stream. lia.
Qed.

(** ** What a hop is told *)

Definition hop_ok (hop : ln_hop_datain_t) : Prop :=
  in_range 64 (in_short_channel_id hop) ∧ in_range 64 (in_amt_to_forward hop) ∧
  in_range 32 (in_outgoing_cltv_value hop).

Definition hop_bytes (hop : ln_hop_datain_t) (mac : bytes) : bytes :=
  0 :: be_bytes 8 (in_short_channel_id hop) ++ be_bytes 8 (in_amt_to_forward hop) ++
  be_bytes 4 (in_outgoing_cltv_value hop) ++ replicate 12 0 ++ mac.

Definition hop_told (hop : ln_hop_datain_t) (mac : bytes) : ln_hop_dataout_t :=
  mk_hop (forallb (Z.eqb 0) mac) (in_short_channel_id hop) (in_amt_to_forward hop)
    (in_outgoing_cltv_value hop).

Lemma be_bytes_snoc n v : be_bytes (S n) v = be_bytes n (Z.shiftr v 8) ++ [u8 v].
Proof.
  induction n as [|n IH].
  { cbn. by rewrite Z.shiftr_0_r. }
  change (be_bytes (S (S n)) v) with (u8 (Z.shiftr v (8 * Z.of_nat (S n))) :: be_bytes (S n) v).
  rewrite IH. cbn [be_bytes app]. f_equal. rewrite Z.shiftr_shiftr by lia. do 2 f_equal. lia.
Qed.

Lemma reverse_le_bytes n v : reverse (le_bytes n v) = be_bytes n v.
Proof.
  revert v. induction n as [|n IH]; intros v; [done|]. cbn [le_bytes].
  by rewrite reverse_cons, IH, be_bytes_snoc.
Qed.

Lemma setbe_le n v : ln_misc_setbe (le_bytes n v) (Z.of_nat n) = Some (be_bytes n v).
Proof.
  rewrite <- (length_le_bytes n v) at 2. rewrite setbe_rev. f_equal. apply reverse_le_bytes.
Qed.

Lemma hop_data_bytes hop mac : hop_data hop mac = Some (hop_bytes hop mac).
Proof.
  unfold hop_data, LN_DBG_ONION_CREATE_NORMAL_REALM. rewrite onion_debug_off.
  change 8 with (Z.of_nat 8). change 4 with (Z.of_nat 4). rewrite !setbe_le. done.
Qed.

Lemma length_hop_bytes hop mac : length mac = M_SZ_HMAC → length (hop_bytes hop mac) = M_SZ_HOP_DATA.
Proof.
  intros H. unfold hop_bytes. cbn [length].
  rewrite !length_app, !length_be_bytes, length_replicate, H. done.
Qed.

(** ** The loop over the hops *)

Definition mac_of (ss hd assoc : bytes) : bytes := ln_misc_calc_mac (generate_key MU ss) (hd ++ assoc).

Lemma length_mac_of ss hd assoc : length (mac_of ss hd assoc) = M_SZ_HMAC.
Proof. apply hmac_length. Qed.

Lemma wrap_hop_mid hop ss assoc hd mac :
  wrap_hop None hop ss assoc (hd, mac) =
  Some (layer (hop_bytes hop mac) hd ss, mac_of ss (layer (hop_bytes hop mac) hd ss) assoc).
Proof. unfold wrap_hop. by rewrite hop_data_bytes. Qed.

Lemma wrap_hop_last f hop ss assoc :
  let d := hop_bytes hop (replicate M_SZ_HMAC 0) in
  wrap_hop (Some f) hop ss assoc (replicate M_SZ_ROUTING_INFO 0, replicate M_SZ_HMAC 0) =
  Some (last_layer f d ss, mac_of ss (last_layer f d ss) assoc).
Proof. cbv zeta. unfold wrap_hop. by rewrite hop_data_bytes. Qed.

(** The header of a route, the secrets before it in [pre]: its MAC is made with
    the first secret, and the first hop finds its own data and the header and
    the MAC of the rest. *)
Inductive onion (assoc : bytes) : list bytes → list (ln_hop_datain_t * bytes) → bytes → bytes → Prop :=
  | onion_last pre hop ss hd rest :
      length rest = M_SZ_ROUTING_INFO →
      unwrap hd ss = hop_bytes hop (replicate M_SZ_HMAC 0) ++ rest →
      tail_ok pre hd →
      onion assoc pre [(hop, ss)] hd (mac_of ss hd assoc)
  | onion_hop pre hop ss hops hd rest mac :
      onion assoc (pre ++ [ss]) hops rest mac →
      unwrap hd ss = hop_bytes hop mac ++ rest →
      tail_ok pre hd →
      onion assoc pre ((hop, ss) :: hops) hd (mac_of ss hd assoc).

Lemma onion_tail assoc pre hops hd mac :
  onion assoc pre hops hd mac → tail_ok pre hd ∧ length mac = M_SZ_HMAC.
Proof. intros [|]; by rewrite length_mac_of. Qed.

Lemma length_unwrap hd ss :
  length hd = M_SZ_ROUTING_INFO → length (unwrap hd ss) = M_SZ_STREAM_BYTES.
Proof.
  intros H. unfold unwrap, xor_bytes.
  rewrite length_app, length_zip_with, !length_take, length_drop, length_hop_stream. lia.
Qed.

Lemma secrets_before (pre : list bytes) hop ss (h2 : ln_hop_datain_t * bytes) hops :
  pre ++ take (length ((hop, ss) :: h2 :: hops) - 1) ((hop, ss) :: h2 :: hops).*2 =
  (pre ++ [ss]) ++ take (length (h2 :: hops) - 1) (h2 :: hops).*2.
Proof.
  rewrite <- app_assoc. cbn [length fmap list_fmap snd Nat.sub]. by rewrite Nat.sub_0_r.
Qed.

Lemma wrap_loop_onion assoc pre hops f :
  hops ≠ [] → (length pre + length hops ≤ LN_HOP_MAX)%nat →
  f = filler (pre ++ take (length hops - 1) hops.*2) →
  ∃ hd mac, wrap_loop hops f assoc = Some (hd, mac) ∧ onion assoc pre hops hd mac.
Proof.
  revert pre. induction hops as [|[hop ss] hops IH]; intros pre Hne Hlen ->; [done|].
  cbn [length] in Hlen. destruct hops as [|h2 hops].
  - change (take (length [(hop, ss)] - 1) [(hop, ss)].*2) with (@nil bytes).
    cbn [wrap_loop mbind option_bind]. rewrite wrap_hop_last, app_nil_r.
    pose proof (length_hop_bytes hop (replicate M_SZ_HMAC 0) (length_replicate _ _)) as Hd.
    destruct (last_layer_tail pre _ ss Hd ltac:(lia)) as [Hl Ht].
    eexists _, _. split; [reflexivity|].
    eapply onion_last with (rest := drop M_SZ_HOP_DATA (unwrap _ ss)); [| |by split].
    + rewrite length_drop, length_unwrap by done. lia.
    + rewrite <- (take_drop M_SZ_HOP_DATA (unwrap _ ss)) at 1. f_equal. by apply unwrap_last; [|lia].
  - destruct (IH (pre ++ [ss])) as (rest & mac & Hw & Ho).
    { done. } { rewrite length_app. cbn [length] in *. lia. } { f_equal. apply secrets_before. }
    destruct (onion_tail _ _ _ _ _ Ho) as [Ht Hm].
    pose proof (length_hop_bytes hop mac Hm) as Hd.
    eexists _, _. split.
    + change (wrap_loop ((hop, ss) :: h2 :: hops) ?f assoc) with
        (st ← wrap_loop (h2 :: hops) f assoc; wrap_hop None hop ss assoc st).
      rewrite Hw. cbn [mbind option_bind]. apply wrap_hop_mid.
    + eapply onion_hop; [done| |].
      * by apply (unwrap_layer pre); [|cbn [length] in *; lia|].
      * by apply layer_tail; [|cbn [length] in *; lia|].
Qed.

(** ** Reading a layer *)

Lemma get_at_app {S} f n a b c pos (s : S) :
  pack_as f n be_val → is_bytes b → length b = n → pos = Z.of_nat (length a) →
  get_at f (a ++ b ++ c) pos s = Ret (be_val b) s.
Proof.
  intros [Hf _] Hb Hn ->. unfold get_at. rewrite (proj2 (Z.leb_le _ _)) by lia.
  rewrite Nat2Z.id, drop_app_length. by rewrite Hf.
Qed.

(** The fields of the packet and of the data of a hop. *)
Lemma packet_fields eph hd mac :
  length eph = 33%nat → length hd = M_SZ_ROUTING_INFO → length mac = M_SZ_HMAC →
  let d := 0 :: eph ++ hd ++ mac in
  sub_bytes d 0 1366 = Some d ∧ sl d 1 33 = eph ∧ sl d 34 1300 = hd ∧ sl d 1334 32 = mac.
Proof.
  intros He Hh Hm d.
  assert (length d = Z.to_nat 1366) as Hl.
  { unfold d. cbn [length]. rewrite !length_app. lia. }
  split_and!.
  - unfold sub_bytes. rewrite bool_decide_eq_true_2 by lia. change (Z.to_nat 0) with 0%nat.
    rewrite drop_0, take_ge; [done|lia].
  - unfold sl, d. change (drop (Z.to_nat 1) (0 :: ?x)) with x. by apply take_app_length'.
  - unfold sl, d. change (drop (Z.to_nat 34) (0 :: ?x)) with (drop 33 x).
    rewrite drop_app_length' by lia. apply take_app_length'. lia.
  - unfold sl, d. rewrite app_assoc. change (Z.to_nat 1334) with (S (33 + 1300)). cbn [drop].
    rewrite drop_app_length' by (rewrite length_app; lia). apply take_ge. lia.
Qed.

Lemma hop_fields {S B} hop mac rest (s : S) (K1 : Z → Z → Z → prog S B) :
  hop_ok hop → length mac = M_SZ_HMAC → length rest = M_SZ_ROUTING_INFO →
  let d := hop_bytes hop mac ++ rest in
  take 1 d = [0] ∧ sl d 33 32 = mac ∧ sl d 65 1300 = rest ∧
  (scid ← get_at ln_misc_get64be d 1; amt ← get_at ln_misc_get64be d 9;
   cltv ← get_at ln_misc_get32be d 17; K1 scid amt cltv) s =
  K1 (in_short_channel_id hop) (in_amt_to_forward hop) (in_outgoing_cltv_value hop) s.
Proof.
  intros (Hs & Ha & Hc) Hm Hr d.
  set (b1 := be_bytes 8 (in_short_channel_id hop)). set (b2 := be_bytes 8 (in_amt_to_forward hop)).
  set (b3 := be_bytes 4 (in_outgoing_cltv_value hop)).
  assert (length b1 = 8%nat) as H1 by apply length_be_bytes.
  assert (length b2 = 8%nat) as H2 by apply length_be_bytes.
  assert (length b3 = 4%nat) as H3 by apply length_be_bytes.
  assert (d = ([0] ++ b1 ++ b2 ++ b3 ++ replicate 12 0) ++ mac ++ rest) as Hd.
  { unfold d, hop_bytes. cbn [app]. by rewrite <- !app_assoc. }
  split_and!.
  - done.
  - unfold sl. rewrite Hd, drop_app_length', take_app_length'; [done|done|].
    rewrite !length_app, H1, H2, H3, length_replicate. done.
  - unfold sl. rewrite Hd, app_assoc, drop_app_length'.
    + apply take_ge. lia.
    + rewrite !length_app, H1, H2, H3, length_replicate, Hm. done.
  - rewrite Hd, <- !app_assoc.
    erewrite bind_ret by (apply (get_at_app _ 8 [0] b1); [apply pack_u64be_spec|apply be_bytes_is_bytes|exact H1|done]).
    rewrite (app_assoc [0]).
    erewrite bind_ret by (apply (get_at_app _ 8 ([0] ++ b1) b2); [apply pack_u64be_spec|apply be_bytes_is_bytes|exact H2|by rewrite length_app, H1]).
    rewrite (app_assoc ([0] ++ b1)).
    erewrite bind_ret by (apply (get_at_app _ 4 (([0] ++ b1) ++ b2) b3);
      [apply pack_u32be_spec|apply be_bytes_is_bytes|exact H3|by rewrite !length_app, H1, H2]).
    unfold b1, b2, b3. rewrite !(be_val_be_bytes_small 64), (be_val_be_bytes_small 32) by done. done.
Qed.

(** A hop whose key makes the secret of the layer takes it off. *)
Lemma read_layer k eph eph' pub hop hd rest mac' assoc st :
  length eph = 33%nat → btc_keys_chkpub eph = true → btc_util_mul_pubkey eph k = Some pub →
  let ss := onion_sha256 pub in
  blind_group_element eph (compute_blinding_factor eph ss) = Some eph' →
  length hd = M_SZ_ROUTING_INFO → unwrap hd ss = hop_bytes hop mac' ++ rest →
  length mac' = M_SZ_HMAC → length rest = M_SZ_ROUTING_INFO → hop_ok hop →
  ln_onion_read_packet k (0 :: eph ++ hd ++ mac_of ss hd assoc) assoc st =
  Ret (mk_onion_result true (Some (0 :: eph' ++ rest ++ mac')) (Some (hop_told hop mac')) (Some ss)) st.
Proof.
  intros He Hc Hp ss Hb Hh Hu Hm Hr Hk. unfold ln_onion_read_packet.
  destruct (packet_fields eph hd _ He Hh (length_mac_of ss hd assoc)) as (-> & E1 & E2 & E3).
  cbn [of_option]. rewrite bind_mret. cbv zeta. rewrite E1, E2, E3, Hc, Hp.
  change (take 1 (0 :: _)) with [0]. rewrite bool_decide_eq_true_2 by done. cbn [negb of_option].
  rewrite bind_mret. fold ss. unfold mac_of at 1. rewrite bool_decide_eq_true_2 by done. cbn [negb].
  change (xor_bytes hd (generate_cipher_stream (generate_key RHO ss) M_SZ_STREAM_BYTES) M_SZ_ROUTING_INFO ++
    drop M_SZ_ROUTING_INFO (generate_cipher_stream (generate_key RHO ss) M_SZ_STREAM_BYTES)) with (unwrap hd ss).
  rewrite Hu.
  destruct (hop_fields hop mac' rest st (λ scid amt cltv,
    eph_pubkey ← of_option (blind_group_element eph (compute_blinding_factor eph ss));
    mret (mk_onion_result true (Some ([0] ++ eph_pubkey ++ rest ++ mac'))
       (Some (mk_hop (forallb (Z.eqb 0) mac') scid amt cltv)) (Some ss))) Hk Hm Hr)
    as (-> & F1 & F2 & F3).
  rewrite bool_decide_eq_true_2 by done. cbn [negb]. rewrite F1, F2.
  etransitivity; [exact F3|]. rewrite Hb. reflexivity.
Qed.

(** ** The keys of a route *)

Definition ephemeral (x : Z) : bytes := pt_write (smul x gen).

Definition secret (x : Z) (k : bytes) : bytes := onion_sha256 (pt_write (smul (be_val k) (smul x gen))).

Definition blinding (x : Z) (k : bytes) : Z := be_val (compute_blinding_factor (ephemeral x) (secret x k)).

(** What the nodes of a route with the private keys [ks] share with the sender,
    whose ephemeral key is [x * G] at the first of them; and the factors that
    the ephemeral key is multiplied with on the way. *)
Fixpoint route_secrets (x : Z) (ks : list bytes) : list bytes :=
  match ks with
  | [] => []
  | k :: ks => secret x k :: route_secrets (blinding x k * x) ks
  end.

Fixpoint route_blinds (x : Z) (ks : list bytes) : list Z :=
  match ks with
  | [] => []
  | k :: ks => blinding x k :: route_blinds (blinding x k * x) ks
  end.

Definition scalar (b : Z) : Prop := 1 ≤ b < order.

Lemma mul_pubkey_pt (P : pt) b :
  P ≠ inf → scalar (be_val b) → btc_util_mul_pubkey (pt_write P) b = Some (pt_write (smul (be_val b) P)).
Proof.
  intros HP [H1 H2]. unfold btc_util_mul_pubkey. rewrite read_write by done. cbn [mbind option_bind].
  rewrite (proj2 (Z.leb_le _ _)), (proj2 (Z.ltb_lt _ _)) by lia. cbn [andb].
  rewrite decide_False; [done|]. by apply smul_finite.
Qed.

Lemma multi_scalar_mul_pt (P : pt) bs :
  P ≠ inf → Forall (λ b, scalar (be_val b)) bs →
  multi_scalar_mul (pt_write P) bs = pt_write (foldl (λ Q b, smul (be_val b) Q) P bs).
Proof.
  intros HP H. revert P HP. induction H as [|b bs Hb Hbs IH]; intros P HP; [done|].
  cbn [foldl multi_scalar_mul]. unfold blind_in_place at 2. rewrite mul_pubkey_pt by done.
  apply IH. by apply smul_finite.
Qed.

Lemma foldl_smul (P : pt) x bs :
  foldl (λ Q b, smul (be_val b) Q) (smul x P) bs = smul (foldl (λ a b, be_val b * a) x bs) P.
Proof.
  revert x. induction bs as [|b bs IH]; intros x; [done|]. cbn [foldl]. by rewrite <- smul_mul, IH.
Qed.

Lemma chkpub_written (P : pt) : P ≠ inf → btc_keys_chkpub (pt_write P) = true.
Proof.
  intros H. unfold btc_keys_chkpub. destruct (written_parity P H) as [E|E];
    destruct (pt_write P); simplify_eq/=; done.
Qed.

(** [node k pub]: a node of the route with its key pair. *)
Definition node (k : bytes) (hop : ln_hop_datain_t) : Prop :=
  btc_keys_priv2pub k = Some (in_pubkey hop) ∧ hop_ok hop.

Lemma priv2pub_pt k pub :
  btc_keys_priv2pub k = Some pub → scalar (be_val k) ∧ pub = ephemeral (be_val k) ∧ smul (be_val k) gen ≠ inf.
Proof.
  unfold btc_keys_priv2pub, scalar. destruct (Z.leb_spec 1 (be_val k)); [|done].
  destruct (Z.ltb_spec (be_val k) order); [|done]. cbn [andb]. intros [= <-].
  split_and!; [done|done|done|]. apply smul_finite; [lia|apply gen_finite].
Qed.

Lemma smul_swap a b (P : pt) : smul a (smul b P) = smul b (smul a P).
Proof. by rewrite <- !smul_mul, Z.mul_comm. Qed.

(** Sender and hop compute the same secrets. *)
Lemma session_loop_secrets session x b bs ks hops :
  scalar (be_val session) → scalar (be_val b) → Forall (λ b, scalar (be_val b)) bs →
  smul x gen ≠ inf → foldl (λ a b, be_val b * a) (be_val session) bs = be_val b * x →
  Forall2 node ks hops → Forall scalar (route_blinds (be_val b * x) ks) →
  session_loop hops (ephemeral x) b bs session = Some (route_secrets (be_val b * x) ks).
Proof.
  intros Hs Hb Hbs Hx Hprod Hn. revert x b bs Hb Hbs Hx Hprod.
  induction Hn as [|k hop ks hops [Hk _] Hn IH]; intros x b bs Hb Hbs Hx Hprod Hr; [done|].
  cbn [route_blinds] in Hr. inversion Hr as [|? ? Hb' Hr']; subst. clear Hr.
  destruct (priv2pub_pt _ _ Hk) as (_ & Hpub & Hkf).
  assert (smul (be_val b * x) gen ≠ inf) as Hbx by (rewrite smul_mul; by apply smul_finite).
  cbn [session_loop]. unfold blind_group_element, ephemeral at 1.
  rewrite mul_pubkey_pt by done. cbn [mbind option_bind]. rewrite Hpub. unfold ephemeral at 1.
  rewrite mul_pubkey_pt by done. cbn [mbind option_bind].
  rewrite multi_scalar_mul_pt by (done || by apply smul_finite).
  rewrite foldl_smul, Hprod, smul_swap, <- (smul_mul (be_val b) x).
  change (onion_sha256 _) with (secret (be_val b * x) k).
  change (pt_write (smul (be_val b * x) gen)) with (ephemeral (be_val b * x)).
  rewrite (IH (be_val b * x) (compute_blinding_factor _ _)); [done|done| |done| |done].
  - apply Forall_app. split; [done|]. by constructor.
  - rewrite foldl_app, Hprod. done.
Qed.

Lemma session_secrets_route session ks hops :
  hops ≠ [] → scalar (be_val session) → Forall2 node ks hops →
  Forall scalar (route_blinds (be_val session) ks) →
  session_secrets hops session = Some (ephemeral (be_val session), route_secrets (be_val session) ks).
Proof.
  intros Hne Hs Hn Hr. destruct Hn as [|k hop ks hops [Hk _] Hn]; [done|].
  cbn [route_blinds] in Hr. inversion Hr as [|? ? Hb' Hr']; subst. clear Hr.
  destruct (priv2pub_pt _ _ Hk) as (_ & Hpub & Hkf).
  assert (smul (be_val session) gen ≠ inf) as Hxf by (apply smul_finite; [done|apply gen_finite]).
  cbn [session_secrets]. unfold btc_keys_priv2pub at 1. destruct Hs as [Hs1 Hs2].
  rewrite (proj2 (Z.leb_le _ _)), (proj2 (Z.ltb_lt _ _)) by lia. cbn [andb mbind option_bind].
  rewrite Hpub. unfold ephemeral at 1. rewrite mul_pubkey_pt by done. cbn [mbind option_bind].
  rewrite smul_swap.
  change (onion_sha256 _) with (secret (be_val session) k).
  change (pt_write (smul (be_val session) gen)) with (ephemeral (be_val session)).
  rewrite (session_loop_secrets session (be_val session) (compute_blinding_factor _ _) _ ks);
    [done|done|done|by constructor|done|done|done|done].
Qed.

(** ** The journey *)

(** The nodes with the private keys [ks] read the packet one after the other,
    each the one that the node before hands on: what they are told, and the
    shared secrets they keep for a failure. *)
Fixpoint peel (ks : list bytes) (packet assoc : bytes) : prog utl_push_t (list ln_hop_dataout_t * list bytes) :=
  match ks with
  | [] => mret ([], [])
  | k :: ks =>
      r ← ln_onion_read_packet k packet assoc;
      match onr_ret r, onr_next r, onr_data r, onr_secret r with
      | true, Some next, Some told, Some ss =>
          x ← peel ks next assoc;
          mret (told :: x.1, ss :: x.2)
      | _, _, _, _ => of_option None
      end
  end.

Lemma peel_step k ks packet next told ss assoc x st :
  ln_onion_read_packet k packet assoc st = Ret (mk_onion_result true (Some next) (Some told) (Some ss)) st →
  peel ks next assoc st = Ret x st →
  peel (k :: ks) packet assoc st = Ret (told :: x.1, ss :: x.2) st.
Proof. intros H1 H2. cbn [peel]. erewrite bind_ret by exact H1. cbn. by erewrite bind_ret by exact H2. Qed.

Lemma ephemeral_length x : smul x gen ≠ inf → length (ephemeral x) = 33%nat.
Proof. apply written_length. Qed.

(** One node on the way. *)
Lemma read_route x k hop hd rest mac' assoc st :
  smul x gen ≠ inf → node k hop → scalar (blinding x k) →
  length hd = M_SZ_ROUTING_INFO → unwrap hd (secret x k) = hop_bytes hop mac' ++ rest →
  length mac' = M_SZ_HMAC → length rest = M_SZ_ROUTING_INFO →
  ln_onion_read_packet k (0 :: ephemeral x ++ hd ++ mac_of (secret x k) hd assoc) assoc st =
  Ret (mk_onion_result true (Some (0 :: ephemeral (blinding x k * x) ++ rest ++ mac'))
         (Some (hop_told hop mac')) (Some (secret x k))) st.
Proof.
  intros Hx [Hk Hok] Hb Hh Hu Hm Hr. destruct (priv2pub_pt _ _ Hk) as (Hs & _ & _).
  apply (read_layer k (ephemeral x) _ (pt_write (smul (be_val k) (smul x gen)))); [| | | |done..].
  - by apply ephemeral_length.
  - by apply chkpub_written.
  - by apply mul_pubkey_pt.
  - unfold blind_group_element. unfold ephemeral at 1. rewrite mul_pubkey_pt by done.
    unfold ephemeral at 2. by rewrite smul_mul.
Qed.

(** [macs]: those that the nodes after the first check. *)
Definition checked (assoc : bytes) (mac ss : bytes) : Prop := ∃ hd, mac = mac_of ss hd assoc.

Lemma peel_onion assoc pre zs hd mac :
  onion assoc pre zs hd mac → ∀ x ks hops st,
  zs = zip hops (route_secrets x ks) →
  smul x gen ≠ inf → Forall2 node ks hops → Forall scalar (route_blinds x ks) →
  ∃ macs, peel ks (0 :: ephemeral x ++ hd ++ mac) assoc st =
    Ret (zip_with hop_told hops (macs ++ [replicate M_SZ_HMAC 0]), route_secrets x ks) st ∧
    Forall2 (checked assoc) macs (tail (route_secrets x ks)).
Proof.
  induction 1 as [pre hop ss hd rest Hr Hu [Hl _]|pre hop ss zs hd rest mac Ho IH Hu [Hl _]];
    intros x ks hops st Hz Hx Hn Hb; destruct Hn as [|k hop' ks hops Hk Hn]; try discriminate Hz;
    cbn [route_secrets zip_with] in Hz; injection Hz as <- -> Hz;
    cbn [route_blinds] in Hb; inversion Hb as [|? ? Hb1 Hb']; subst; clear Hb.
  - destruct Hn as [|k2 hop2 ks hops _ _]; [|discriminate Hz]. exists []. split; [|constructor].
    cbn [app zip_with route_secrets]. eapply (peel_step _ _ _ _ _ _ _ ([], [])); [|reflexivity].
    eapply read_route; done || apply length_replicate.
  - destruct (IH (blinding x k * x) ks hops st eq_refl) as (macs & Hp & Hm); [|done|done|].
    { rewrite smul_mul. by apply smul_finite. }
    destruct (onion_tail _ _ _ _ _ Ho) as [[Hlr _] Hlm].
    exists (mac :: macs). cbn [app zip_with route_secrets]. split.
    + by eapply (peel_step _ _ _ _ _ _ _ (_, _)); [by eapply read_route|].
    + cbn [tail]. destruct ks as [|k2 ks]; [destruct hops; inversion Ho|].
      cbn [route_secrets] in *. constructor; [|done].
      destruct hops as [|hop2 hops]; [inversion Ho|]. cbn [zip_with] in Ho.
      inversion Ho; subst; by eexists.
Qed.

Lemma length_route_secrets x ks : length (route_secrets x ks) = length ks.
Proof. revert x. induction ks as [|k ks IH]; intros x; cbn; [done|]. by rewrite IH. Qed.

(** C25: [ln_onion_create_packet] wraps a route of 1 to 20 nodes so that every node
    that runs [ln_onion_read_packet] on what the node before hands on is told
    its own channel, amount and expiry and shares its own secret with the sender;
    the MAC for the next hop is all zero, and [b_exit] set, at the last node,
    and at a node before only if the MAC that the next node checks is. *)
Theorem onion_roundtrip session ks hops assoc st :
  (1 ≤ length hops ≤ LN_HOP_MAX)%nat → scalar (be_val session) → Forall2 node ks hops →
  Forall scalar (route_blinds (be_val session) ks) → (length assoc ≤ 66)%nat →
  ∃ packet macs,
    ln_onion_create_packet hops session assoc =
      Some (Some (packet, concat (route_secrets (be_val session) ks))) ∧
    length packet = 1366%nat ∧
    peel ks packet assoc st =
      Ret (zip_with hop_told hops (macs ++ [replicate M_SZ_HMAC 0]), route_secrets (be_val session) ks) st ∧
    Forall2 (checked assoc) macs (tail (route_secrets (be_val session) ks)).
Proof.
  intros [Hlo Hhi] Hs Hn Hb Ha. set (x := be_val session) in *.
  assert (length ks = length hops) as Hlk by by eapply Forall2_length.
  pose proof (length_route_secrets x ks) as Hlr.
  assert (smul x gen ≠ inf) as Hx by (apply smul_finite; [done|apply gen_finite]).
  destruct (wrap_loop_onion assoc [] (zip hops (route_secrets x ks))
    (filler (take (length hops - 1) (route_secrets x ks)))) as (hd & mac & Hw & Ho).
  { intros Hz%(f_equal length). rewrite length_zip_with in Hz. cbn [length] in Hz. lia. }
  { rewrite length_zip_with. cbn [length]. lia. }
  { rewrite snd_zip, length_zip_with by lia. cbn [app]. f_equal. f_equal. lia. }
  destruct (onion_tail _ _ _ _ _ Ho) as [[Hlh _] Hlm].
  destruct (peel_onion _ _ _ _ _ Ho x ks hops st eq_refl Hx Hn Hb) as (macs & Hp & Hm).
  exists (0 :: ephemeral x ++ hd ++ mac), macs. split_and!; [|..|done|done].
  - unfold ln_onion_create_packet. rewrite decide_False by lia.
    rewrite (session_secrets_route session ks) by (done || (intros ->; cbn [length] in *; lia)). cbn [mbind option_bind]. fold x.
    pose proof (generate_header_padding_filler (route_secrets x ks)) as Hf.
    rewrite Hlr, Hlk in Hf. specialize (Hf (conj Hlo Hhi)).
    destruct (generate_header_padding _ _ _) as [len f]. rewrite Hf, decide_False by lia.
    rewrite Hw. unfold LN_DBG_ONION_CREATE_NORMAL_VERSION. by rewrite onion_debug_off.
  - cbn [length]. rewrite !length_app, ephemeral_length by done. lia.
Qed.

End route.

Lemma onion_roundtrip_witness :
  ∃ packet macs,
    @ln_onion_create_packet LnToyOnion.onion LnToyOnion.route (LnToyOnion.key 44) [7; 8; 9] =
      Some (Some (packet, concat (@route_secrets LnToyOnion.onion 44 LnToyOnion.nodes))) ∧
    length packet = 1366%nat ∧
    @peel LnToyOnion.onion LnToyOnion.nodes packet [7; 8; 9] (mk_push 0 (mk_buf None 0)) =
      Ret (zip_with hop_told LnToyOnion.route (macs ++ [replicate M_SZ_HMAC 0]),
           @route_secrets LnToyOnion.onion 44 LnToyOnion.nodes) (mk_push 0 (mk_buf None 0)) ∧
    Forall2 (@checked LnToyOnion.onion [7; 8; 9]) macs (tail (@route_secrets LnToyOnion.onion 44 LnToyOnion.nodes)).
Proof.
  refine (@onion_roundtrip LnToyOnion.onion LnToyOnion.onion_laws (LnToyOnion.key 44) LnToyOnion.nodes
    LnToyOnion.route [7; 8; 9] (mk_push 0 (mk_buf None 0)) _ _ _ _ _).
  - cbn. lia.
  - by_compute.
  - repeat constructor; by_compute.
  - repeat constructor; by_compute.
  - cbn. lia.
Defined.

End LnOnionRoute.
