(* ===== verification/LnOnionFail.v ===== *)
(** Failures of a payment on their way back: the origin finds the hop that
    failed and its reason; what a message that no node made can do to it. *)
From stdpp Require Import base list numbers tactics.
From Stdlib Require Import ZArith Lia.
From S2P Require Import Prelude CProg UtlInt UtlBuf UtlPush LnDerkey LnMisc LnOnion.
From S2P Require Import LnMsg LnToyNoise LnToyOnion LnOnionRoute.
Import UtlInt UtlBuf UtlPush Derkey LnMisc LnMsg LnOnion LnOnionRoute.
Open Scope Z_scope.

Module LnOnionFail.

Section fail.
Context {O : Onion} {L : OnionLaws O}.

Ltac lens :=
  repeat first [ rewrite length_app | rewrite length_junk | rewrite length_init_cells
               | rewrite length_be_bytes | rewrite length_replicate ];
  cbn [length]; change (Z.to_nat 32) with 32%nat; lia.

(** ** The encryption of a layer *)

Definition enc (ss d : bytes) : bytes := xor d (chacha20_stream (generate_key AMMAG ss) (length d)).

Lemma length_enc ss d : length (enc ss d) = length d.
Proof. unfold enc. rewrite length_zip_with, stream_length. lia. Qed.

Lemma enc_enc ss d : enc ss (enc ss d) = d.
Proof. unfold enc at 1. rewrite length_enc. apply xor_involutive. by rewrite stream_length. Qed.

Lemma forward_enc b ss d :
  read_cells (buf b) 32 = Some ss → (0 < length d)%nat →
  ln_onion_failure_forward b (of_bytes d) = Some (of_bytes (enc ss d)).
Proof.
  intros Hs Hd. unfold ln_onion_failure_forward. rewrite Hs. cbn [mbind option_bind buf of_bytes len].
  rewrite read_of_bytes. cbn [mbind option_bind]. unfold utl_buf_alloc. cbn [snd buf].
  assert (xor_bytes d (generate_cipher_stream (generate_key AMMAG ss) (length d)) (length d) = enc ss d) as ->.
  { unfold xor_bytes, generate_cipher_stream. rewrite !take_ge by (rewrite ?stream_length; lia). done. }
  rewrite write_whole by (rewrite ?length_enc; lia || apply onion_alloc_total).
  cbn [mbind option_bind]. unfold set_buf, of_bytes. by rewrite length_enc.
Qed.

Lemma secret_read ss : length ss = 32%nat → read_cells (buf (of_bytes ss)) 32 = Some ss.
Proof. intros H. change 32 with (Z.of_nat 32). rewrite <- H. apply read_of_bytes. Qed.

(** ** The message of the node that fails *)

Definition failure_body (r : bytes) : bytes :=
  be_bytes 2 (Z.of_nat (length r)) ++ r ++ be_bytes 2 (256 - Z.of_nat (length r)) ++
  replicate (256 - length r) 0.

Definition failure_plain (ss r : bytes) : bytes :=
  ln_misc_calc_mac (generate_key UM ss) (failure_body r) ++ failure_body r.

Lemma length_failure_body r : (length r ≤ 256)%nat → length (failure_body r) = 260%nat.
Proof.
  intros H. unfold failure_body. rewrite !length_app, !length_be_bytes, length_replicate. lia.
Qed.

Lemma length_failure_plain ss r : (length r ≤ 256)%nat → length (failure_plain ss r) = 292%nat.
Proof.
  intros H. unfold failure_plain, ln_misc_calc_mac. rewrite length_app, hmac_length, length_failure_body by done.
  done.
Qed.

(** The state after the first [n] cells are left as they are. *)
Lemma skip_pushed n st :
  0 < n < 2 ^ 31 → 32 ≤ n →
  (call (utl_push_init n);; modify (set_pos 32)) st = Ret tt (pushed (junk 32) n).
Proof.
  intros Hn Hs. erewrite bind_ret by (apply push_init_spec; lia). unfold modify, pushed, set_pos.
  cbn [data length app]. do 2 f_equal. do 2 f_equal. unfold junk. rewrite length_replicate.
  rewrite <- replicate_add. f_equal. lia.
Qed.

(** Bytes behind those cells. *)
Definition behind (d : bytes) : utl_push_t := pushed (junk 32 ++ init_cells d) 292.

Lemma behind_step {B} src k d (K : unit → prog utl_push_t B) :
  k = Z.of_nat (length src) → (length d + length src ≤ 260)%nat →
  (push_bytes src k ≫= K) (behind d) = K tt (behind (d ++ src)).
Proof.
  intros -> Hl. apply bind_ret. unfold push_bytes, behind. erewrite bind_ret.
  2: { apply push_data_within; lens. }
  by rewrite init_cells_app, app_assoc.
Qed.

Lemma failure_fill_plain r st :
  (length r ≤ 256)%nat →
  failure_fill (of_bytes r) st = Ret tt (behind (failure_body r)).
Proof.
  intros Hr. unfold failure_fill.
  change (Z.of_nat M_SZ_HMAC + 2 + 2 + DATALEN) with 292. change (Z.of_nat M_SZ_HMAC) with 32.
  rewrite <- bind_assoc. erewrite bind_ret by (apply skip_pushed; lia).
  change (pushed (junk 32) 292) with (behind []).
  cbn [len of_bytes buf default from_option id]. rewrite !push16be_eq, behind_step by lens.
  erewrite bind_ret.
  2: { apply push_data_within; lens. }
  rewrite (wrap_small 32) by (unfold in_range; lia).
  rewrite <- app_assoc, <- init_cells_app.
  fold (behind (([] ++ be_bytes 2 (Z.of_nat (length r))) ++ r)).
  rewrite behind_step by lens.
  unfold behind at 1. rewrite push_memset_spec; [|lia| |lia].
  2: lens.
  unfold behind, failure_body. do 2 f_equal.
  rewrite !init_cells_app. cbn [init_cells fmap list_fmap app]. rewrite <- !app_assoc.
  do 4 f_equal. unfold init_cells. rewrite fmap_replicate. f_equal. lia.
Qed.

Lemma behind_full d :
  length d = 260%nat → behind d = mk_push 292 (mk_buf (Some (junk 32 ++ init_cells d)) 292).
Proof.
  intros H. unfold behind, pushed. rewrite length_app, length_junk, length_init_cells, H.
  change (junk (292 - _)) with (@nil cell). by rewrite app_nil_r.
Qed.

Lemma failure_create_enc ss r :
  length ss = 32%nat → (length r ≤ 256)%nat →
  ln_onion_failure_create (of_bytes ss) (of_bytes r) = Some (of_bytes (enc ss (failure_plain ss r))).
Proof.
  intros Hs Hr. unfold ln_onion_failure_create. rewrite secret_read by done. cbn [mbind option_bind].
  rewrite failure_fill_plain by done. pose proof (length_failure_body r Hr) as Hb.
  rewrite behind_full by done. cbn [data pos buf]. change (u32 (292 - _)) with 260.
  cbn [fmap option_fmap option_map].
  rewrite drop_app_length' by (by rewrite length_junk).
  rewrite <- (app_nil_r (failure_body r)) at 1.
  rewrite read_prefix by (by rewrite Hb). cbn [mbind option_bind].
  pose proof (hmac_length (generate_key UM ss) (failure_body r)) as Hm. fold ln_misc_calc_mac in Hm.
  unfold write_cells. change (Z.of_nat M_SZ_HMAC =? 0) with false. cbv iota.
  rewrite bool_decide_eq_true_2.
  2: { rewrite length_app, length_junk, !length_init_cells, Hb. unfold ln_misc_calc_mac. rewrite Hm. lia. }
  cbn [mbind option_bind]. change (Z.to_nat 0) with 0%nat. rewrite take_0. cbn [app].
  change (Z.to_nat (Z.of_nat M_SZ_HMAC)) with 32%nat.
  change (Z.to_nat (0 + Z.of_nat M_SZ_HMAC)) with 32%nat.
  rewrite drop_app_length' by (by rewrite length_junk).
  rewrite take_ge by (rewrite length_init_cells; unfold ln_misc_calc_mac; lia).
  unfold set_buf. cbn [len]. rewrite <- init_cells_app. fold (failure_plain ss r).
  pose proof (length_failure_plain ss r Hr) as Hp.
  replace (mk_buf (Some (init_cells (failure_plain ss r))) 292) with (of_bytes (failure_plain ss r)).
  2: { unfold of_bytes. by rewrite Hp. }
  apply forward_enc; [by apply secret_read|lia].
Qed.

(** ** Reading *)

(** What the reader checks of a layer before it computes a MAC: two lengths that add
    up, and zeros. *)
Definition claims (d : bytes) : option bool :=
  reason_len ← get16_at d 32;
  if reason_len <? DATALEN then
    pad_len ← get16_at d (34 + reason_len);
    if reason_len + pad_len =? DATALEN then
      pad_zero d (Z.to_nat (36 + reason_len)) (Z.to_nat pad_len)
    else Some false
  else Some false.

(** The secrets from the hop [lp] on. *)
Definition secrets_at (lp : Z) (sss : list bytes) (b : utl_buf_t) : Prop :=
  ∃ pre, b = of_bytes (concat pre ++ concat sss) ∧ Z.of_nat (length (concat pre)) = 32 * lp.

Lemma secrets_head lp ss sss b :
  secrets_at lp (ss :: sss) b → length ss = 32%nat →
  read_cells (drop (Z.to_nat (32 * lp)) <$> buf b) 32 = Some ss ∧ secrets_at (lp + 1) sss b.
Proof.
  intros (pre & -> & Hl) Hs. split.
  - unfold of_bytes. cbn [buf fmap option_fmap option_map concat].
    rewrite init_cells_app, drop_app_length' by (rewrite length_init_cells; lia).
    apply read_prefix. by rewrite Hs.
  - exists (pre ++ [ss]). cbn [concat]. rewrite concat_app. cbn [concat]. rewrite app_nil_r.
    rewrite <- app_assoc. split; [done|]. rewrite length_app, Hs. lia.
Qed.

Lemma secrets_start sss : secrets_at 0 sss (of_bytes (concat sss)).
Proof. by exists []. Qed.

(** A layer that does not claim to be the origin is passed. *)
Lemma read_loop_next n lp ss sss b d :
  secrets_at lp (ss :: sss) b → length ss = 32%nat → (0 < length d)%nat →
  claims (enc ss d) = Some false →
  failure_read_loop (S n) lp b (of_bytes d) = failure_read_loop n (lp + 1) b (of_bytes (enc ss d)).
Proof.
  intros Hb Hs Hd Hc. destruct (secrets_head _ _ _ _ Hb Hs) as [Hr _]. cbn [failure_read_loop].
  rewrite (forward_enc _ ss) by done. cbn [mbind option_bind buf of_bytes len].
  rewrite read_of_bytes. cbn [mbind option_bind]. revert Hc. unfold claims.
  destruct (get16_at _ 32) as [rl|]; [|done]. cbn [mbind option_bind].
  destruct (rl <? DATALEN); [|done]. destruct (get16_at _ _) as [pl|]; [|done]. cbn [mbind option_bind].
  destruct (_ =? DATALEN); [|done]. by intros ->.
Qed.

Lemma get16_at_app a v c :
  in_range 16 v → get16_at (a ++ be_bytes 2 v ++ c) (Z.of_nat (length a)) = Some v.
Proof.
  intros Hv. unfold get16_at. rewrite Nat2Z.id, drop_app_length.
  destruct pack_u16be_spec as [Hp _]. rewrite get16be_pack, Hp by (auto with ptarm || apply length_be_bytes).
  f_equal. by apply (be_val_be_bytes_small 16).
Qed.

Lemma pad_zero_replicate d pos n :
  drop pos d = replicate n 0 → pad_zero d pos n = Some true.
Proof.
  revert pos. induction n as [|n IH]; intros pos Hd; [done|]. cbn [pad_zero].
  pose proof (lookup_drop d pos 0) as H. rewrite Hd, Nat.add_0_r in H. rewrite <- H.
  cbn [replicate lookup list_lookup mbind option_bind Z.eqb]. apply IH.
  replace (S pos) with (pos + 1)%nat by lia. by rewrite <- drop_drop, Hd.
Qed.

(** Where a reason that was copied out ends up. *)
Definition copy_of (r : bytes) : utl_buf_t := if bool_decide (r = []) then mk_buf None 0 else of_bytes r.

(** The layer of the origin. *)
Lemma plain_fields ss r :
  (length r < 256)%nat →
  let d := failure_plain ss r in
  get16_at d 32 = Some (Z.of_nat (length r)) ∧
  get16_at d (34 + Z.of_nat (length r)) = Some (256 - Z.of_nat (length r)) ∧
  pad_zero d (Z.to_nat (36 + Z.of_nat (length r))) (Z.to_nat (256 - Z.of_nat (length r))) = Some true ∧
  (∃ rest, drop 34 d = r ++ rest) ∧
  take M_SZ_HMAC d = ln_misc_calc_mac (generate_key UM ss) (drop M_SZ_HMAC d).
Proof.
  intros Hr d. set (mac := ln_misc_calc_mac (generate_key UM ss) (failure_body r)).
  assert (length mac = 32%nat) as Hm by apply hmac_length.
  set (l := be_bytes 2 (Z.of_nat (length r))). assert (length l = 2%nat) as Hl by apply length_be_bytes.
  set (p := be_bytes 2 (256 - Z.of_nat (length r))). assert (length p = 2%nat) as Hp by apply length_be_bytes.
  set (z := replicate (256 - length r) 0).
  assert (d = mac ++ l ++ r ++ p ++ z) as Hd by done.
  split_and!.
  - rewrite Hd. change 32 with (Z.of_nat 32). rewrite <- Hm at 1. apply get16_at_app. unfold in_range; lia.
  - rewrite Hd, !app_assoc, <- (app_assoc _ p).
    replace (34 + Z.of_nat (length r)) with (Z.of_nat (length ((mac ++ l) ++ r))) by (rewrite !length_app; lia).
    apply get16_at_app. unfold in_range; lia.
  - apply pad_zero_replicate. rewrite Hd, !app_assoc, drop_app_length' by (rewrite !length_app; lia).
    unfold z. f_equal. lia.
  - exists (p ++ z). rewrite Hd, app_assoc, drop_app_length' by (rewrite length_app; lia). done.
  - unfold d, failure_plain. fold mac. by rewrite take_app_length', drop_app_length' by done.
Qed.

Lemma read_loop_origin n lp ss sss b r :
  secrets_at lp (ss :: sss) b → length ss = 32%nat → (length r < 256)%nat →
  failure_read_loop (S n) lp b (of_bytes (enc ss (failure_plain ss r))) = Some (Some (lp, copy_of r)).
Proof.
  intros Hb Hs Hr. destruct (secrets_head _ _ _ _ Hb Hs) as [Hk _]. cbn [failure_read_loop].
  destruct (plain_fields ss r Hr) as (H1 & H2 & H3 & (rest & H4) & H5).
  rewrite (forward_enc _ ss) by (done || rewrite length_enc, length_failure_plain; lia).
  rewrite enc_enc. cbn [mbind option_bind buf of_bytes len].
  rewrite read_of_bytes. cbn [mbind option_bind]. rewrite H1. cbn [mbind option_bind].
  rewrite (proj2 (Z.ltb_lt _ _)) by lia. rewrite H2. cbn [mbind option_bind].
  rewrite (proj2 (Z.eqb_eq _ _)) by lia. rewrite H3. cbn [mbind option_bind]. rewrite Hk.
  cbn [mbind option_bind]. rewrite bool_decide_eq_true_2 by done.
  rewrite H4, init_cells_app, alloccopy_bytes. done.
Qed.

(** ** The way back *)

(** The hops with the secrets [pre], the first one last, add their layers. *)
Definition return_path (pre : list bytes) (p : utl_buf_t) : option utl_buf_t :=
  foldr (λ ss x, b ← x; ln_onion_failure_forward (of_bytes ss) b) (Some p) pre.

(** None of the hops before the origin seems to be it, when its layer is taken off. *)
Fixpoint quiet (pre : list bytes) (d : bytes) : bool :=
  match pre with
  | [] => true
  | _ :: pre => bool_decide (claims (foldr enc d pre) = Some false) && quiet pre d
  end.

Abbreviation secrets := (Forall (λ ss : bytes, length ss = 32%nat)).

Lemma length_layers pre d : length (foldr enc d pre) = length d.
Proof. induction pre as [|ss pre IH]; [done|]. cbn [foldr]. by rewrite length_enc. Qed.

Lemma return_path_enc pre d :
  secrets pre → (0 < length d)%nat → return_path pre (of_bytes d) = Some (of_bytes (foldr enc d pre)).
Proof.
  intros Hp Hd. induction Hp as [|ss pre Hs Hp IH]; [done|]. unfold return_path in *. cbn [foldr].
  rewrite IH. cbn [mbind option_bind]. apply forward_enc; [by apply secret_read|].
  by rewrite length_layers.
Qed.

Lemma read_loop_path pre n lp ss post b r :
  secrets_at lp (pre ++ ss :: post) b → secrets (pre ++ ss :: post) → (length r < 256)%nat →
  quiet pre (enc ss (failure_plain ss r)) = true → (length pre < n)%nat →
  failure_read_loop n lp b (of_bytes (foldr enc (enc ss (failure_plain ss r)) pre)) =
  Some (Some (lp + Z.of_nat (length pre), copy_of r)).
Proof.
  intros Hb Hs Hr. revert n lp Hb. induction pre as [|s pre IH]; intros n lp Hb Hq Hn;
    (destruct n as [|n]; [cbn [length] in Hn; lia|]).
  - cbn [foldr length app] in *. inversion Hs; subst. rewrite Z.add_0_r.
    by apply (read_loop_origin n lp ss post).
  - cbn [app] in *. inversion Hs; subst. cbn [quiet] in Hq. apply andb_true_iff in Hq as [Hc Hq].
    apply bool_decide_eq_true_1 in Hc. cbn [foldr].
    destruct (secrets_head _ _ _ _ Hb ltac:(done)) as [_ Hb'].
    rewrite (read_loop_next n lp s (pre ++ ss :: post)); [|done|done| |by rewrite enc_enc].
    2: { rewrite length_enc, length_layers, length_enc, length_failure_plain; lia. }
    rewrite enc_enc, IH by (done || cbn [length] in *; lia). do 3 f_equal. cbn [length]. lia.
Qed.

Lemma length_concat_secrets sss : secrets sss → Z.of_nat (length (concat sss)) = 32 * Z.of_nat (length sss).
Proof.
  induction 1 as [|ss sss Hs Hss IH]; [done|]. cbn [concat length]. rewrite length_app. lia.
Qed.

Lemma hop_count sss : secrets sss → Z.to_nat (Z.of_nat (length (concat sss)) / 32) = length sss.
Proof. intros H. rewrite length_concat_secrets, Z.mul_comm, Z.div_mul, Nat2Z.id by done || lia. done. Qed.

Lemma read_path pre ss post r :
  secrets (pre ++ ss :: post) → (length r < 256)%nat → quiet pre (enc ss (failure_plain ss r)) = true →
  ln_onion_failure_read (of_bytes (concat (pre ++ ss :: post)))
    (of_bytes (foldr enc (enc ss (failure_plain ss r)) pre)) =
  Some (true, Z.of_nat (length pre), Some (copy_of r)).
Proof.
  intros Hs Hr Hq. unfold ln_onion_failure_read.
  set (q := foldr enc _ pre).
  assert (length q = 292%nat) as Hl.
  { unfold q. rewrite length_layers, length_enc, length_failure_plain; lia. }
  cbn [buf of_bytes len default from_option id]. rewrite <- (app_nil_r (init_cells q)), alloccopy_bytes.
  rewrite bool_decide_eq_false_2 by (by intros E; rewrite E in Hl). cbn [mbind option_bind snd].
  rewrite hop_count by done. unfold q.
  rewrite (read_loop_path pre _ 0 ss post); [done|apply secrets_start|done..|].
  rewrite length_app. cbn [length]. lia.
Qed.

(** C26: a failure that a node of the route makes with [ln_onion_failure_create] and
    the nodes before it pass back with [ln_onion_failure_forward] is read by the
    origin's [ln_onion_failure_read]: it finds the number of the node and its
    reason, for every reason of less than 256 bytes, unless the layer of a node
    before happens to look like a message of its own. *)
Theorem failure_roundtrip pre ss post r :
  secrets (pre ++ ss :: post) → (length r < 256)%nat → quiet pre (enc ss (failure_plain ss r)) = true →
  ∃ p q, ln_onion_failure_create (of_bytes ss) (of_bytes r) = Some p ∧ return_path pre p = Some q ∧
    len q = 292 ∧
    ln_onion_failure_read (of_bytes (concat (pre ++ ss :: post))) q =
      Some (true, Z.of_nat (length pre), Some (copy_of r)).
Proof.
  intros Hs Hr Hq. pose proof Hs as [Hp Hs']%Forall_app. inversion Hs' as [|? ? Hss _]; subst.
  do 2 eexists. split; [by apply failure_create_enc; lia|].
  split; [apply return_path_enc; [done|]|split].
  - rewrite length_enc, length_failure_plain; lia.
  - cbn [len of_bytes]. rewrite length_layers, length_enc, length_failure_plain by lia. done.
  - by apply read_path.
Qed.

(** The origin is not safe from the messages it is sent back: one that is
    shorter than 34 bytes is read past its end, and an empty reason, which every
    node of the route can send, leads to a read through a null pointer. *)
Theorem failure_messages_unsafe ss sss :
  secrets (ss :: sss) →
  (∀ d, (length d < 34)%nat → ln_onion_failure_read (of_bytes (concat (ss :: sss))) (of_bytes d) = None) ∧
  ∃ p reason, ln_onion_failure_create (of_bytes ss) (of_bytes []) = Some p ∧
    ln_onion_failure_read (of_bytes (concat (ss :: sss))) p = Some (true, 0, Some reason) ∧
    ln_onion_read_err reason = None.
Proof.
  intros Hs. inversion Hs as [|? ? Hss Hs']; subst. split.
  - intros d Hd. unfold ln_onion_failure_read. cbn [buf of_bytes len default from_option id].
    rewrite <- (app_nil_r (init_cells d)), alloccopy_bytes. cbn [mbind option_bind snd].
    rewrite hop_count by done. cbn [length].
    destruct (secrets_head _ _ _ _ (secrets_start (ss :: sss)) Hss) as [Hk _].
    cbn [failure_read_loop].
    assert (get16_at (enc ss d) 32 = None) as Hg.
    { unfold get16_at. destruct pack_u16be_spec as [_ Hn]. rewrite get16be_pack. apply Hn.
      rewrite length_drop, length_enc. lia. }
    case_bool_decide as Hz.
    + unfold ln_onion_failure_forward. cbn [buf]. rewrite Hk. cbn [mbind option_bind read_cells len].
      unfold utl_buf_alloc. rewrite malloc_eq. done.
    + rewrite (forward_enc _ ss) by (done || (destruct d; [done|cbn; lia])).
      cbn [mbind option_bind buf of_bytes len]. rewrite read_of_bytes. cbn [mbind option_bind].
      by rewrite Hg.
  - do 2 eexists. split; [apply failure_create_enc; [done|cbn; lia]|].
    split; [apply (read_path [] ss sss []); [done|cbn; lia|done]|done].
Qed.

End fail.

(** The second of three hops fails with a reason of two bytes. *)
Lemma failure_roundtrip_witness :
  ∃ p q,
    @ln_onion_failure_create LnToyOnion.onion (of_bytes (LnToyOnion.key 22)) (of_bytes [0x20; 2]) = Some p ∧
    @return_path LnToyOnion.onion [LnToyOnion.key 11] p = Some q ∧ len q = 292 ∧
    @ln_onion_failure_read LnToyOnion.onion (of_bytes (concat LnToyOnion.nodes)) q =
      Some (true, 1, Some (copy_of [0x20; 2])).
Proof.
  refine (@failure_roundtrip LnToyOnion.onion LnToyOnion.onion_laws [LnToyOnion.key 11] (LnToyOnion.key 22)
    [LnToyOnion.key 33] [0x20; 2] _ _ _).
  - repeat constructor.
  - cbn. lia.
  - vm_compute. reflexivity.
Defined.

Lemma failure_messages_unsafe_witness :
  (∀ d, (length d < 34)%nat →
     @ln_onion_failure_read LnToyOnion.onion (of_bytes (concat LnToyOnion.nodes)) (of_bytes d) = None) ∧
  ∃ p reason,
    @ln_onion_failure_create LnToyOnion.onion (of_bytes (LnToyOnion.key 11)) (of_bytes []) = Some p ∧
    @ln_onion_failure_read LnToyOnion.onion (of_bytes (concat LnToyOnion.nodes)) p = Some (true, 0, Some reason) ∧
    ln_onion_read_err reason = None.
Proof.
  refine (@failure_messages_unsafe LnToyOnion.onion LnToyOnion.onion_laws (LnToyOnion.key 11)
    [LnToyOnion.key 22; LnToyOnion.key 33] _).
  repeat constructor.
Defined.

End LnOnionFail.
