(* ===== verification/BtcTx.v ===== *)
(** Transactions: the data of [btc/btc.h], building ([btc_tx_add_*]), checking
    ([btc_tx_is_valid]), writing ([btcl_util_create_tx], [btc_tx_txid]) and
    reading ([btc_tx_read]) them, from [btc/btc_tx.c] and [btc/btc_util.c].

    What they do is proved in [BtcTxWire]. *)
From stdpp Require Import base list numbers tactics.
From Stdlib Require Import ZArith Lia.
From S2P Require Import Prelude CProg UtlBuf UtlPush.
Import UtlBuf UtlPush.
Open Scope Z_scope.

(** SHA256 and RIPEMD160 of mbedtls. *)
Class BtcHash := {
  mbedtls_sha256 : bytes → bytes;
  mbedtls_ripemd160 : bytes → bytes;
}.

Class BtcHashLaws (H : BtcHash) : Prop := {
  sha256_32 x : is_bytes (mbedtls_sha256 x) ∧ length (mbedtls_sha256 x) = 32%nat;
  ripemd160_20 x : is_bytes (mbedtls_ripemd160 x) ∧ length (mbedtls_ripemd160 x) = 20%nat;
}.

Module BtcTx.

Abbreviation BTC_SZ_TXID := 32.
Abbreviation BTC_SZ_HASH160 := 20.
Abbreviation BTC_SZ_HASH256 := 32.
Abbreviation BTC_SZ_PUBKEY := 33.
Abbreviation BTC_TX_VERSION_INIT := 2.
Abbreviation BTC_TX_SEQUENCE := 0xffffffff.
Abbreviation VARINT_3BYTE_MIN := 0xfd.
Abbreviation SIGHASH_ALL := 0x01.

Abbreviation OP_0 := 0x00.
Abbreviation OP_HASH160 := 0xa9.
Abbreviation OP_EQUAL := 0x87.
Abbreviation OP_EQUALVERIFY := 0x88.
Abbreviation OP_CHECKSIG := 0xac.
Abbreviation OP_CHECKMULTISIG := 0xae.
Abbreviation OP_DUP := 0x76.
Abbreviation OP_x := 0x50.
Abbreviation OP_2 := 0x52.

Abbreviation BTC_PREF_P2PKH := 2.
Abbreviation BTC_PREF_P2SH := 3.
Abbreviation BTC_PREF_P2WPKH := 7.
Abbreviation BTC_PREF_P2WSH := 8.

(** ** Data

    An array on the heap is [None] while its pointer is null. The counters are
    fields the code keeps by hand, as it does for [utl_buf_t]. *)

Record btc_vin_t := mk_vin {
  txid : bytes;
  index : Z;
  vin_script : utl_buf_t;
  wit_cnt : Z;
  witness : option (list utl_buf_t);
  sequence : Z;
}.

Record btc_vout_t := mk_vout {
  value : Z;
  vout_script : utl_buf_t;
  opt : Z;
}.

Record btc_tx_t := mk_tx {
  version : Z;
  vin_cnt : Z;
  vin : option (list btc_vin_t);
  vout_cnt : Z;
  vout : option (list btc_vout_t);
  locktime : Z;
}.

Definition set_vin_script (s : utl_buf_t) (v : btc_vin_t) : btc_vin_t :=
  mk_vin (txid v) (index v) s (wit_cnt v) (witness v) (sequence v).
Definition set_witness (n : Z) (w : option (list utl_buf_t)) (v : btc_vin_t) : btc_vin_t :=
  mk_vin (txid v) (index v) (vin_script v) n w (sequence v).
Definition set_sequence (n : Z) (v : btc_vin_t) : btc_vin_t :=
  mk_vin (txid v) (index v) (vin_script v) (wit_cnt v) (witness v) n.
Definition set_vout_script (s : utl_buf_t) (o : btc_vout_t) : btc_vout_t :=
  mk_vout (value o) s (opt o).
Definition set_opt (n : Z) (o : btc_vout_t) : btc_vout_t :=
  mk_vout (value o) (vout_script o) n.
Definition set_vin (n : Z) (v : option (list btc_vin_t)) (t : btc_tx_t) : btc_tx_t :=
  mk_tx (version t) n v (vout_cnt t) (vout t) (locktime t).
Definition set_vout (n : Z) (v : option (list btc_vout_t)) (t : btc_tx_t) : btc_tx_t :=
  mk_tx (version t) (vin_cnt t) (vin t) n v (locktime t).
Definition set_version (n : Z) (t : btc_tx_t) : btc_tx_t :=
  mk_tx n (vin_cnt t) (vin t) (vout_cnt t) (vout t) (locktime t).
Definition set_locktime (n : Z) (t : btc_tx_t) : btc_tx_t :=
  mk_tx (version t) (vin_cnt t) (vin t) (vout_cnt t) (vout t) n.

(** What a fresh allocation holds in its [i]-th element: anything. *)
Class Fresh := {
  fresh_vin : nat → btc_vin_t;
  fresh_vout : nat → btc_vout_t;
  fresh_buf : nat → utl_buf_t;
}.

(** The sizes of the structs, for the allocator. *)
Definition sizeof_vin : Z := 80.
Definition sizeof_vout : Z := 32.
Definition sizeof_buf : Z := 16.

Section heap.
Context {A : Alloc}.

(** [malloc] and [realloc] of an array of [n] elements of [sz] bytes. *)
Definition arr_malloc {X} (fresh : nat → X) (sz n : Z) : option (list X) :=
  if malloc_ok (sz * n) then Some (fresh <$> seq 0 (Z.to_nat n)) else None.

Definition arr_realloc {X} (fresh : nat → X) (sz : Z) (a : option (list X)) (n : Z)
  : option (list X) :=
  if malloc_ok (sz * n)
  then Some (let old := default [] a in
             take (Z.to_nat n) old ++
             (fresh <$> seq (length old) (Z.to_nat n - length old)))
  else None.
End heap.

(** [a[i]], and [a[i] = x]: [None] outside the array. *)
Definition arr_get {X} (a : option (list X)) (i : Z) : option X :=
  if 0 <=? i then l ← a; l !! Z.to_nat i else None.

Definition arr_set {X} (a : option (list X)) (i : Z) (x : X) : option (option (list X)) :=
  _ ← arr_get a i; Some (<[Z.to_nat i := x]> <$> a).

(** [pTx->vin[lp]], [pTx->vout[lp]], [vin->witness[lp]]. *)
Definition vin_at {S} (pTx : btc_tx_t) (lp : nat) : prog S btc_vin_t :=
  of_option (arr_get (vin pTx) (Z.of_nat lp)).
Definition vout_at {S} (pTx : btc_tx_t) (lp : nat) : prog S btc_vout_t :=
  of_option (arr_get (vout pTx) (Z.of_nat lp)).
Definition wit_at {S} (v : btc_vin_t) (lp : nat) : prog S utl_buf_t :=
  of_option (arr_get (witness v) (Z.of_nat lp)).

(** [pTx->vin[i]] is changed by [f]. *)
Definition mod_vin (i : Z) (f : btc_vin_t → btc_vin_t) : prog btc_tx_t unit :=
  t ← get_st;
  v ← of_option (arr_get (vin t) i);
  a ← of_option (arr_set (vin t) i (f v));
  put_st (set_vin (vin_cnt t) a t).

Definition mod_vout (i : Z) (f : btc_vout_t → btc_vout_t) : prog btc_tx_t unit :=
  t ← get_st;
  o ← of_option (arr_get (vout t) i);
  a ← of_option (arr_set (vout t) i (f o));
  put_st (set_vout (vout_cnt t) a t).

(** ** Building *)

Definition btc_tx_init : btc_tx_t := mk_tx BTC_TX_VERSION_INIT 0 None 0 None 0.

(** The witnesses, scripts and arrays are released and the counters cleared;
    with [PTARM_DEBUG] the struct is zeroed. *)
Definition btc_tx_free (PTARM_DEBUG : bool) (pTx : btc_tx_t) : btc_tx_t :=
  if PTARM_DEBUG then mk_tx 2 0 None 0 None 0
  else mk_tx (version pTx)
         0 (if vin_cnt pTx =? 0 then vin pTx else None)
         0 (if vout_cnt pTx =? 0 then vout pTx else None)
         (locktime pTx).

Section code.
Context {A : Alloc} {F : Fresh}.

(** The element that was added is returned as its index: the code returns a
    pointer into the array. *)
Definition btc_tx_add_vin (pTxId : bytes) (Index : Z) : prog btc_tx_t Z :=
  t ← get_st;
  let n := vin_cnt t in
  let a := arr_realloc fresh_vin sizeof_vin (vin t) (n + 1) in
  let t := set_vin (u32 (n + 1)) a t in
  put_st t;;
  txid ← rd_bytes pTxId 0 BTC_SZ_TXID;
  mod_vin n (λ v, mk_vin txid (u32 Index) (utl_buf_init (vin_script v)) 0 None BTC_TX_SEQUENCE);;
  mret n.

Definition btc_tx_add_wit (pVin : btc_vin_t) : option btc_vin_t :=
  let n := wit_cnt pVin in
  let a := arr_realloc fresh_buf sizeof_buf (witness pVin) (n + 1) in
  b ← arr_get a n;
  a ← arr_set a n (utl_buf_init b);
  Some (set_witness (u32 (n + 1)) a pVin).

Definition btc_tx_add_vout (Value : Z) : prog btc_tx_t Z :=
  t ← get_st;
  let n := vout_cnt t in
  let a := arr_realloc fresh_vout sizeof_vout (vout t) (n + 1) in
  put_st (set_vout (u32 (n + 1)) a t);;
  mod_vout n (λ o, mk_vout Value (utl_buf_init (vout_script o)) 0);;
  mret n.

(** [utl_buf_alloccopy(&vout->script, ...)] and the like. *)
Definition fill_vout_script (i : Z) (src : list cell) (n : Z) : prog btc_tx_t unit :=
  r ← of_option (utl_buf_alloccopy (mk_buf None 0) src n);
  mod_vout i (set_vout_script r.2).

Definition btc_tx_add_vout_spk (Value : Z) (pScriptPk : utl_buf_t) : prog btc_tx_t unit :=
  i ← btc_tx_add_vout Value;
  fill_vout_script i (default [] (buf pScriptPk)) (len pScriptPk).

Definition btc_tx_is_valid (pTx : btc_tx_t) : prog unit Z :=
  (* the index of the enumerator of btc_txvalid_t *)
  let BTC_TXVALID_OK := 0 in let BTC_TXVALID_VERSION := 2 in
  let BTC_TXVALID_VIN_NONE := 3 in let BTC_TXVALID_VIN_NULL := 4 in
  let BTC_TXVALID_VIN_WIT_NULL := 5 in let BTC_TXVALID_VIN_WIT_BAD := 6 in
  let BTC_TXVALID_VOUT_NONE := 7 in let BTC_TXVALID_VOUT_NULL := 8 in
  let BTC_TXVALID_VOUT_NOPKH := 9 in let BTC_TXVALID_VOUT_VALUE := 10 in
  let M_OP_RETURN := 0x6a in
  if version pTx =? 0 then mret BTC_TXVALID_VERSION
  else if vin_cnt pTx =? 0 then mret BTC_TXVALID_VIN_NONE
  else if bool_decide (vin pTx = None) then mret BTC_TXVALID_VIN_NULL
  else if vout_cnt pTx =? 0 then mret BTC_TXVALID_VOUT_NONE
  else if bool_decide (vout pTx = None) then mret BTC_TXVALID_VOUT_NULL
  else
    ret ← for_idx (seq 0 (Z.to_nat (vin_cnt pTx))) (λ lp ret,
      if negb (ret =? BTC_TXVALID_OK) then mret ret else
      v ← vin_at pTx lp;
      if (0 <? wit_cnt v) && bool_decide (witness v = None) then mret BTC_TXVALID_VIN_WIT_NULL
      else if (wit_cnt v =? 0) && negb (bool_decide (witness v = None))
      then mret BTC_TXVALID_VIN_WIT_BAD
      else mret ret) BTC_TXVALID_OK;
    if negb (ret =? BTC_TXVALID_OK) then mret ret else
    for_idx (seq 0 (Z.to_nat (vout_cnt pTx))) (λ lp ret,
      if negb (ret =? BTC_TXVALID_OK) then mret ret else
      o ← vout_at pTx lp;
      if len (vout_script o) =? 0 then mret BTC_TXVALID_VOUT_NOPKH
      else if value o =? 0
      then first ← of_option (read_cells (buf (vout_script o)) 1);
           mret (if bool_decide (first = [M_OP_RETURN]) then ret else BTC_TXVALID_VOUT_VALUE)
      else mret ret) ret.

(** ** Writing

    The block that is filled and the pointer [p] into it are a [utl_push_t],
    [pos] being [p - pBuf->buf]. *)

(** [memcpy(p, src, n); p += n;] *)
Definition poke (src : list cell) (n : Z) : prog utl_push_t unit :=
  st ← get_st;
  b ← of_option (write_cells (buf (data st)) (pos st) src n);
  put_st (mk_push (pos st + n) (set_buf b (data st))).

Definition poke_bytes (d : bytes) : prog utl_push_t unit :=
  poke (init_cells d) (Z.of_nat (length d)).

(** [p += set_le32(p, val)], [p += set_le64(p, val)]. *)
Definition set_le32 (val : Z) : prog utl_push_t unit := poke_bytes (le_bytes 4 val).
Definition set_le64 (val : Z) : prog utl_push_t unit := poke_bytes (le_bytes 8 val).

Definition btcl_util_get_varint_len (Len : Z) : Z := if Len <? VARINT_3BYTE_MIN then 1 else 3.

(** What is written at [pData], and the number returned. *)
Definition btcl_util_set_varint_len (pOrg : option bytes) (Len : Z) (isScript : bool)
  : option (bytes * Z) :=
  small ← (if isScript && (Len =? 1) then pOrg ≫= head else Some 0);
  if (1 <=? small) && (small <=? 16) then Some ([u8 (OP_x + small)], 0)
  else if Len <? VARINT_3BYTE_MIN then Some ([u8 Len], 1)
  else Some ([VARINT_3BYTE_MIN; u8 Len; u8 (Z.shiftr Len 8)], 3).

(** [p += btcl_util_set_varint_len(p, NULL, Len, false)] *)
Definition poke_varint (Len : Z) : prog utl_push_t unit :=
  x ← of_option (btcl_util_set_varint_len None Len false);
  poke (init_cells x.1) x.2.

(** The length prefix of a buffer and its bytes. *)
Definition poke_buf (x : utl_buf_t) : prog utl_push_t unit :=
  poke_varint (len x);; poke (default [] (buf x)) (len x).

Definition tx_len_vin (enableSegWit : bool) (v : btc_vin_t) (x : Z * bool) : prog utl_push_t (Z * bool) :=
  let '(l, segwit) := x in
  let l := u32 (l + (BTC_SZ_TXID + 4 + len (vin_script v) + 4)) in
  let l := l + btcl_util_get_varint_len (len (vin_script v)) in
  if enableSegWit && negb (wit_cnt v =? 0)
  then l ← for_idx (seq 0 (Z.to_nat (wit_cnt v))) (λ lp2 l,
         b ← wit_at v lp2;
         mret (u32 (l + len b + btcl_util_get_varint_len (len b)))) (u32 (l + 1));
       mret (l, true)
  else mret (u32 l, segwit).

(** The number of bytes that are allocated, and whether the transaction has
    a witness. *)
Definition tx_len (pTx : btc_tx_t) (enableSegWit : bool) : prog utl_push_t (Z * bool) :=
  let l := 4 + btcl_util_get_varint_len (vin_cnt pTx) + btcl_util_get_varint_len (vout_cnt pTx) in
  x ← for_idx (seq 0 (Z.to_nat (vin_cnt pTx))) (λ lp x,
        v ← vin_at pTx lp; tx_len_vin enableSegWit v x)
        (l, false);
  let '(l, segwit) := x in
  let l := if segwit : bool then u32 (l + 2) else l in
  l ← for_idx (seq 0 (Z.to_nat (vout_cnt pTx))) (λ lp l,
        o ← vout_at pTx lp;
        mret (u32 (l + 8 + len (vout_script o) + btcl_util_get_varint_len (len (vout_script o))))) l;
  mret (u32 (l + 4), segwit).

Definition create_vin (v : btc_vin_t) : prog utl_push_t unit :=
  poke_bytes (txid v);;
  set_le32 (index v);;
  poke_buf (vin_script v);;
  set_le32 (sequence v).

Definition create_vout (o : btc_vout_t) : prog utl_push_t unit :=
  set_le64 (value o);;
  poke_buf (vout_script o).

Definition create_wit (v : btc_vin_t) : prog utl_push_t unit :=
  poke_varint (wit_cnt v);;
  for_idx (seq 0 (Z.to_nat (wit_cnt v))) (λ lp2 _,
    b ← wit_at v lp2; poke_buf b) tt.

(** The fields in the order they are written. *)
Definition create_fields (pTx : btc_tx_t) (segwit : bool) : prog utl_push_t unit :=
  set_le32 (version pTx);;
  (if segwit then poke_bytes [0x00; 0x01] else mret tt);;
  poke_varint (vin_cnt pTx);;
  for_idx (seq 0 (Z.to_nat (vin_cnt pTx))) (λ lp _,
    v ← vin_at pTx lp; create_vin v) tt;;
  poke_varint (vout_cnt pTx);;
  for_idx (seq 0 (Z.to_nat (vout_cnt pTx))) (λ lp _,
    o ← vout_at pTx lp; create_vout o) tt;;
  (if segwit
   then for_idx (seq 0 (Z.to_nat (vin_cnt pTx))) (λ lp _,
          v ← vin_at pTx lp; create_wit v) tt
   else mret tt);;
  set_le32 (locktime pTx).

Definition btcl_util_create_tx (pTx : btc_tx_t) (enableSegWit : bool) : prog utl_push_t bool :=
  x ← tx_len pTx enableSegWit;
  put_st (mk_push 0 (mk_buf (malloc x.1) x.1));;
  create_fields pTx x.2;;
  st ← get_st;
  mret (u32 (pos st) =? len (data st)).

Definition btc_tx_create (pTx : btc_tx_t) : prog utl_push_t bool :=
  call (btcl_util_create_tx pTx true).

(** ** Hashes of serialised data: the length is a [uint16_t]. *)

Context {H : BtcHash}.

Definition btc_util_sha256 (pData : bytes) (Len : Z) : prog unit bytes :=
  d ← rd_bytes pData 0 (u16 Len); mret (mbedtls_sha256 d).

Definition btc_util_hash256 (pData : bytes) (Len : Z) : prog unit bytes :=
  h ← btc_util_sha256 pData Len; btc_util_sha256 h BTC_SZ_HASH256.

Definition btc_util_hash160 (pData : bytes) (Len : Z) : prog unit bytes :=
  h ← btc_util_sha256 pData Len; mret (mbedtls_ripemd160 h).

(** The bytes of a buffer, all of them initialised. *)
Definition buf_bytes (x : utl_buf_t) : prog unit bytes := of_option (read_cells (buf x) (len x)).

(** [None]: false was returned, which the assertion turns into an abort. *)
Definition btc_tx_txid (pTx : btc_tx_t) : prog unit bytes :=
  r ← on_local (btcl_util_create_tx pTx false) (mk_push 0 (mk_buf None 0));
  c_assert r.1;;
  d ← buf_bytes (data r.2);
  btc_util_hash256 d (len (data r.2)).

(** ** Reading *)

Record rd := mk_rd {
  rd_tx : btc_tx_t;
  rd_pos : Z;
  rd_state : Z;
  rd_cnt : Z;
  rd_prev : Z;    (* prev_pos and pos_cnt, with PTARM_DEBUG *)
  rd_rep : Z;
}.

Definition set_rd_tx (t : btc_tx_t) (s : rd) : rd :=
  mk_rd t (rd_pos s) (rd_state s) (rd_cnt s) (rd_prev s) (rd_rep s).
Definition set_rd_pos (p : Z) (s : rd) : rd :=
  mk_rd (rd_tx s) (u32 p) (rd_state s) (rd_cnt s) (rd_prev s) (rd_rep s).
Definition set_rd_state (n : Z) (s : rd) : rd :=
  mk_rd (rd_tx s) (rd_pos s) n (rd_cnt s) (rd_prev s) (rd_rep s).
Definition set_rd_cnt (n : Z) (s : rd) : rd :=
  mk_rd (rd_tx s) (rd_pos s) (rd_state s) (u32 n) (rd_prev s) (rd_rep s).
Definition set_rd_prev (p n : Z) (s : rd) : rd :=
  mk_rd (rd_tx s) (rd_pos s) (rd_state s) (rd_cnt s) p n.

Section read.
Context (pData : bytes) (Len : Z).

(** The number that is returned and [*pLen]. *)
Definition get_varint (p : Z) : prog rd (Z * Z) :=
  b ← rd_byte pData p;
  if b <? VARINT_3BYTE_MIN then mret (1, b)
  else lo ← rd_byte pData (p + 1);
       hi ← rd_byte pData (p + 2);
       mret (3, Z.lor lo (Z.shiftl hi 8)).

Definition get_le32 (p : Z) : prog rd Z := d ← rd_bytes pData p 4; mret (le_val d).
Definition get_le64 (p : Z) : prog rd Z := d ← rd_bytes pData p 8; mret (le_val d).

(** [pos += n] *)
Definition advance (n : Z) : prog rd unit := modify (λ s, set_rd_pos (rd_pos s + n) s).

(** A script of [n] bytes at [pos]. *)
Definition read_script (n : Z) : prog rd utl_buf_t :=
  if negb (n =? 0)
  then p ← gets rd_pos;
       r ← of_option (utl_buf_alloccopy (mk_buf None 0) (init_cells (drop (Z.to_nat p) pData)) n);
       advance (len r.2);;
       mret r.2
  else mret (mk_buf None 0).

Definition read_txin_cnt : prog rd unit :=
  p ← gets rd_pos;
  v ← get_varint p;
  advance v.1;;
  (if v.2 =? 0
   then modify (λ s, set_rd_tx (set_vin 0 None (rd_tx s)) s);; modify (set_rd_state 2)
   else modify (λ s, set_rd_tx (set_vin v.2 (arr_malloc fresh_vin sizeof_vin v.2) (rd_tx s)) s);;
        modify (set_rd_state 1)).

Definition read_txin_body (tmp var : Z) : prog rd unit :=
  i ← gets rd_cnt;
  modify (λ s, set_rd_cnt (rd_cnt s + 1) s);;
  p ← gets rd_pos;
  id ← rd_bytes pData p BTC_SZ_TXID;
  advance BTC_SZ_TXID;;
  p ← gets rd_pos;
  ix ← get_le32 p;
  advance 4;;
  advance tmp;;
  scr ← read_script var;
  p ← gets rd_pos;
  sq ← get_le32 p;
  advance 4;;
  t ← gets rd_tx;
  a ← of_option (arr_set (vin t) i (mk_vin id ix scr 0 None sq));
  modify (λ s, set_rd_tx (set_vin (vin_cnt t) a t) s).

Definition read_txin : prog rd unit :=
  p ← gets rd_pos;
  if u32 (p + 41 + 1 + 4) <=? Len
  then v ← get_varint (p + BTC_SZ_TXID + 4);
       (if u32 (p + 40 + v.1 + v.2 + 1 + 4) <=? Len
        then read_txin_body v.1 v.2 else mret tt);;
       s ← get_st;
       (if vin_cnt (rd_tx s) <=? rd_cnt s then modify (set_rd_state 2) else mret tt)
  else modify (set_rd_state 2).

Definition read_txout_cnt (segwit : bool) : prog rd unit :=
  p ← gets rd_pos;
  v ← get_varint p;
  advance v.1;;
  (if v.2 =? 0
   then modify (λ s, set_rd_tx (set_vout 0 None (rd_tx s)) s);;
        modify (set_rd_state (if segwit then 4 else 5))
   else modify (λ s, set_rd_tx (set_vout v.2 (arr_malloc fresh_vout sizeof_vout v.2) (rd_tx s)) s);;
        modify (set_rd_state 3));;
  modify (set_rd_cnt 0).

Definition read_txout_body (tmp var : Z) : prog rd unit :=
  i ← gets rd_cnt;
  modify (λ s, set_rd_cnt (rd_cnt s + 1) s);;
  p ← gets rd_pos;
  val ← get_le64 p;
  advance 8;;
  advance tmp;;
  scr ← read_script var;
  t ← gets rd_tx;
  o ← of_option (arr_get (vout t) i);
  a ← of_option (arr_set (vout t) i (mk_vout val scr (opt o)));
  modify (λ s, set_rd_tx (set_vout (vout_cnt t) a t) s).

Definition read_txout (segwit : bool) : prog rd unit :=
  let next := (modify (set_rd_state (if segwit then 4 else 5));; modify (set_rd_cnt 0)) in
  p ← gets rd_pos;
  if u32 (p + 9 + 4) <=? Len
  then v ← get_varint (p + 8);
       (if u32 (p + 8 + v.1 + v.2 + 4) <=? Len
        then read_txout_body v.1 v.2 else mret tt);;
       s ← get_st;
       (if vout_cnt (rd_tx s) <=? rd_cnt s then next else mret tt)
  else next.

(** One item of a witness: [witness[lp]] stays as it was when the data would
    leave the packet. *)
Definition read_item (i : Z) (lp : nat) : prog rd unit :=
  p ← gets rd_pos;
  v ← get_varint p;
  advance v.1;;
  p ← gets rd_pos;
  if u32 (p + v.2 + 4) <=? Len
  then r ← of_option (utl_buf_alloccopy (mk_buf None 0) (init_cells (drop (Z.to_nat p) pData)) v.2);
       advance (len r.2);;
       t ← gets rd_tx;
       x ← of_option (arr_get (vin t) i);
       w ← of_option (arr_set (witness x) (Z.of_nat lp) r.2);
       a ← of_option (arr_set (vin t) i (set_witness (wit_cnt x) w x));
       modify (λ s, set_rd_tx (set_vin (vin_cnt t) a t) s)
  else mret tt.

Definition read_witness : prog rd unit :=
  s ← get_st;
  if (u32 (rd_pos s + 4) <=? Len) && (rd_cnt s <? vin_cnt (rd_tx s))
  then
    let i := rd_cnt s in
    v ← get_varint (rd_pos s);
    advance v.1;;
    t ← gets rd_tx;
    x ← of_option (arr_get (vin t) i);
    a ← of_option (arr_set (vin t) i
          (set_witness v.2 (arr_malloc fresh_buf sizeof_buf v.2) x));
    modify (λ s, set_rd_tx (set_vin (vin_cnt t) a t) s);;
    for_idx (seq 0 (Z.to_nat v.2)) (λ lp _, read_item i lp) tt;;
    modify (λ s, set_rd_cnt (rd_cnt s + 1) s);;
    s ← get_st;
    (if vin_cnt (rd_tx s) <=? rd_cnt s then modify (set_rd_state 5) else mret tt)
  else modify (set_rd_state 5).

Definition read_locktime : prog rd unit :=
  p ← gets rd_pos;
  n ← get_le32 p;
  modify (λ s, set_rd_tx (set_locktime n (rd_tx s)) s);;
  advance 4.

Definition read_switch (segwit : bool) : prog rd unit :=
  st ← gets rd_state;
  if st =? 0 then read_txin_cnt
  else if st =? 1 then read_txin
  else if st =? 2 then read_txout_cnt segwit
  else if st =? 3 then read_txout segwit
  else if st =? 4 then read_witness
  else if st =? 5 then read_locktime
  else c_assert false.

(** The loop. With [PTARM_DEBUG] it is left when the position has been the same
    six times. Out of fuel is [false]. *)
Fixpoint read_loop (PTARM_DEBUG segwit : bool) (fuel : nat) : prog rd bool :=
  match fuel with
  | O => mret false
  | S fuel =>
      s ← get_st;
      if rd_pos s <? Len
      then
        let rep := if rd_prev s =? rd_pos s then rd_rep s + 1 else rd_rep s in
        if PTARM_DEBUG && (rd_prev s =? rd_pos s) && (5 <? rep)
        then put_st (set_rd_prev (rd_prev s) rep s);; mret true
        else put_st (set_rd_prev (rd_pos s) rep s);;
             read_switch segwit;;
             read_loop PTARM_DEBUG segwit fuel
      else mret true
  end.
End read.

(** The loop from [pos] on, on the transaction [pTx] leads to: [None] when the
    fuel is used up while it still runs. *)
Definition read_from (PTARM_DEBUG : bool) (pData : bytes) (Len : Z) (segwit : bool) (fuel : nat)
  (pos : Z) : prog btc_tx_t (option bool) := λ t,
  match read_loop pData Len PTARM_DEBUG segwit fuel (mk_rd t pos 0 0 (pos - 1) 0) with
  | Ret true s => Ret (Some true) (rd_tx s)
  | Ret false s => Ret None (rd_tx s)
  | Exit b s => Exit b (rd_tx s)
  | UB => UB
  | AbortOut => AbortOut
  end.

Definition btc_tx_read (PTARM_DEBUG : bool) (pData : bytes) (Len : Z) (fuel : nat)
  : prog btc_tx_t (option bool) :=
  if Len <? 8 then mret (Some false) else
  v ← rd_bytes pData 0 4;
  modify (set_version (swrap 32 (le_val v)));;
  mark ← rd_byte pData 4;
  flag ← rd_byte pData 5;
  if (mark =? 0x00) && negb (flag =? 0x01) then mret (Some false) else
  let segwit := (mark =? 0x00) && (flag =? 0x01) in
  read_from PTARM_DEBUG pData Len segwit fuel (if segwit then 6 else 4).

(** The virtual size: three times the size without witness and once with. *)
Definition btc_tx_get_vbyte_raw (PTARM_DEBUG : bool) (pData : bytes) (Len : Z) (fuel : nat)
  : prog unit (option Z) :=
  mark ← rd_byte pData 4;
  flag ← rd_byte pData 5;
  if (mark =? 0x00) && negb (flag =? 0x01) then mret (Some 0) else
  if (mark =? 0x00) && (flag =? 0x01)
  then match btc_tx_read PTARM_DEBUG pData Len fuel btc_tx_init with
       | Ret (Some _) txold =>
           r ← on_local (btcl_util_create_tx txold false) (mk_push 0 (mk_buf None 0));
           mret (Some (if r.1 : bool
                       then u32 (u32 (len (data r.2) * 3 + Len + 3) / 4) else 0))
       | Ret None _ => mret None
       | Exit _ _ => mret None
       | UB => ub
       | AbortOut => λ _, AbortOut
       end
  else mret (Some Len).
End code.

End BtcTx.
