(* ===== verification/BtcTxWire.v ===== *)
(** What writing and reading a transaction does.

    A [transaction] is the content of a [btc_tx_t] without its pointers and
    counters; [rep] is the struct that holds it and [tx_wire] its serialisation
    by BIP 141. A writer that [pokes] [d] appends [d] when it fits in the
    allocated block and leaves the block otherwise, so one induction gives both
    the serialisation and the overflow of a wrongly computed size. *)
From stdpp Require Import base list numbers tactics.
From Stdlib Require Import ZArith Lia.
From S2P Require Import Prelude CProg UtlBuf UtlPush LnMisc LnMsg BtcTx.
Import UtlBuf UtlPush LnMisc LnMsg BtcTx.
Open Scope Z_scope.

Module BtcTxWire.

(** ** Transactions and their serialisation *)

Record tx_input := mk_in {
  in_prev : bytes; in_n : Z; in_sig : bytes; in_wit : list bytes; in_seq : Z }.

Record tx_output := mk_out { out_value : Z; out_spk : bytes; out_opt : Z }.

Record transaction := mk_trans {
  t_version : Z; t_ins : list tx_input; t_outs : list tx_output; t_lock : Z }.

(** CompactSize of the Bitcoin protocol. *)
Definition compact_size (n : Z) : bytes :=
  if n <? 0xfd then [n]
  else if n <=? 0xffff then 0xfd :: le_bytes 2 n
  else if n <=? 0xffffffff then 0xfe :: le_bytes 4 n
  else 0xff :: le_bytes 8 n.

Definition var_bytes (d : bytes) : bytes := compact_size (Z.of_nat (length d)) ++ d.

Definition var_list {X} (f : X → bytes) (l : list X) : bytes :=
  compact_size (Z.of_nat (length l)) ++ concat (f <$> l).

Definition in_wire (i : tx_input) : bytes :=
  in_prev i ++ le_bytes 4 (in_n i) ++ var_bytes (in_sig i) ++ le_bytes 4 (in_seq i).

Definition out_wire (o : tx_output) : bytes :=
  le_bytes 8 (out_value o) ++ var_bytes (out_spk o).

Definition wit_wire (i : tx_input) : bytes := var_list var_bytes (in_wit i).

(** With witnesses, or without them as for a txid. *)
Definition tx_wire (segwit : bool) (t : transaction) : bytes :=
  le_bytes 4 (t_version t) ++
  (if segwit then [0x00; 0x01] else []) ++
  var_list in_wire (t_ins t) ++
  var_list out_wire (t_outs t) ++
  (if segwit then concat (wit_wire <$> t_ins t) else []) ++
  le_bytes 4 (t_lock t).

(** ** Representation *)

Definition bufb (d : bytes) : utl_buf_t :=
  if bool_decide (d = []) then mk_buf None 0 else of_bytes d.

Definition arr {X} (l : list X) : option (list X) := if bool_decide (l = []) then None else Some l.

Definition rep_in (i : tx_input) : btc_vin_t :=
  mk_vin (in_prev i) (in_n i) (bufb (in_sig i)) (Z.of_nat (length (in_wit i)))
    (arr (bufb <$> in_wit i)) (in_seq i).

Definition rep_out (o : tx_output) : btc_vout_t :=
  mk_vout (out_value o) (bufb (out_spk o)) (out_opt o).

Definition rep (t : transaction) : btc_tx_t :=
  mk_tx (t_version t) (Z.of_nat (length (t_ins t))) (arr (rep_in <$> t_ins t))
    (Z.of_nat (length (t_outs t))) (arr (rep_out <$> t_outs t)) (t_lock t).

(** Counts and lengths for which [btcl_util_create_tx] writes a CompactSize. *)
Definition small {X} (l : list X) : Prop := Z.of_nat (length l) < 0x10000.

Record in_ok (i : tx_input) : Prop := {
  prev_32 : length (in_prev i) = 32%nat;
  sig_small : small (in_sig i);
  wit_small : small (in_wit i);
  items_small : Forall small (in_wit i);
}.

Record tx_ok (t : transaction) : Prop := {
  ins_ok : Forall in_ok (t_ins t);
  outs_ok : Forall (λ o, small (out_spk o)) (t_outs t);
  ins_small : small (t_ins t);
  outs_small : small (t_outs t);
}.

Lemma bufb_len d : len (bufb d) = Z.of_nat (length d).
Proof. unfold bufb. by case_bool_decide; subst. Qed.

Lemma arr_at {X Y} (f : X → Y) (l : list X) (i : nat) :
  arr_get (arr (f <$> l)) (Z.of_nat i) = f <$> l !! i.
Proof.
  unfold arr_get, arr. rewrite (proj2 (Z.leb_le _ _)), Nat2Z.id by lia.
  case_bool_decide as E; cbn [mbind option_bind].
  - apply fmap_nil_inv in E as ->. by rewrite lookup_nil.
  - apply list_lookup_fmap.
Qed.

(** ** Writers *)

Definition pokes (m : prog utl_push_t unit) (d : bytes) : Prop := ∀ w n,
  Z.of_nat (length w) ≤ n →
  m (pushedb w n) = if bool_decide (Z.of_nat (length (w ++ d)) ≤ n)
                    then Ret tt (pushedb (w ++ d) n) else UB.

Lemma pokes_nil : pokes (mret tt) [].
Proof. intros w n Hn. rewrite app_nil_r. by rewrite bool_decide_eq_true_2 by lia. Qed.

Lemma pokes_seq m d (k : unit → prog utl_push_t unit) e f :
  pokes m d → pokes (k tt) e → f = d ++ e → pokes (m ≫= k) f.
Proof.
  intros Hm Hk -> w n Hn. unfold mbind, prog_bind. rewrite (Hm w n Hn).
  case_bool_decide as H.
  - rewrite (Hk (w ++ d) n) by done. by rewrite <- app_assoc.
  - rewrite bool_decide_eq_false_2; [done|]. rewrite !length_app in *. lia.
Qed.

Lemma poke_bytes_pokes d : pokes (poke_bytes d) d.
Proof.
  intros w n Hn. unfold poke_bytes, poke, get_st, put_st, mbind, prog_bind, of_option.
  unfold pushedb, pushed. cbn [data buf pos]. rewrite !length_init_cells.
  case_bool_decide as H; rewrite length_app in H.
  - pose proof (write_pushed (init_cells w) n (init_cells d) (Z.of_nat (length d))) as E.
    rewrite length_init_cells in E. rewrite E by (rewrite ?length_init_cells; lia).
    cbn. rewrite take_ge by (rewrite length_init_cells; lia).
    rewrite <- init_cells_app. unfold pushedb, pushed, set_buf. cbn.
    by rewrite !length_init_cells, length_app, Nat2Z.inj_add.
  - unfold write_cells. rewrite (proj2 (Z.eqb_neq _ _)) by lia.
    rewrite bool_decide_eq_false_2; [done|].
    rewrite length_app, length_init_cells, length_junk. lia.
Qed.

Lemma compact_written n :
  0 ≤ n < 0x10000 → btcl_util_set_varint_len None n false = Some (compact_size n, Z.of_nat (length (compact_size n))).
Proof.
  intros Hn. unfold btcl_util_set_varint_len, compact_size. cbn [andb mbind option_bind].
  change ((1 <=? 0) && (0 <=? 16)) with false. cbn iota.
  destruct (Z.ltb_spec n 0xfd); [by rewrite (wrap_small 8) by (unfold in_range; lia)|].
  rewrite (proj2 (Z.leb_le _ _)) by lia. done.
Qed.

Lemma varint_len n :
  0 ≤ n < 0x10000 → btcl_util_get_varint_len n = Z.of_nat (length (compact_size n)).
Proof.
  intros Hn. unfold btcl_util_get_varint_len, compact_size.
  destruct (n <? 0xfd); [done|]. by rewrite (proj2 (Z.leb_le _ _)) by lia.
Qed.

Lemma poke_varint_pokes n : 0 ≤ n < 0x10000 → pokes (poke_varint n) (compact_size n).
Proof.
  intros Hn w k Hk. unfold poke_varint. rewrite compact_written by done.
  apply (poke_bytes_pokes _ w k Hk).
Qed.

Lemma poke_buf_pokes d : small d → pokes (poke_buf (bufb d)) (var_bytes d).
Proof.
  intros Hd. unfold poke_buf, var_bytes, small in *. rewrite bufb_len.
  eapply pokes_seq; [by apply poke_varint_pokes; lia | | done].
  intros w n Hn. rewrite <- (poke_bytes_pokes d w n Hn). unfold poke_bytes. f_equal.
  unfold bufb. by case_bool_decide; subst.
Qed.

(** A loop that writes the elements of an array. *)
Lemma pokes_each {X Y} (r : X → Y) (l : list X) (at_ : nat → prog utl_push_t Y) body (f : X → bytes) :
  (∀ i, at_ i = of_option (r <$> l !! i)) → Forall (λ x, pokes (body (r x)) (f x)) l →
  pokes (for_idx (seq 0 (length l)) (λ i _, y ← at_ i; body y) tt) (concat (f <$> l)).
Proof.
  intros Hat. change 0%nat with (length (@nil X)).
  assert (∀ l0 pre, l = pre ++ l0 → Forall (λ x, pokes (body (r x)) (f x)) l0 →
    pokes (for_idx (seq (length pre) (length l0)) (λ i _, y ← at_ i; body y) tt)
      (concat (f <$> l0))) as H; [|by apply (H l [])].
  induction l0 as [|x l0 IH]; intros pre El HF; [apply pokes_nil|].
  apply Forall_cons_1 in HF as [Hx HF]. cbn [length seq for_idx fmap list_fmap concat].
  eapply pokes_seq; [|  | done].
  - rewrite Hat, El, list_lookup_middle by done. exact Hx.
  - cbn beta. replace (S (length pre)) with (length (pre ++ [x])) by (rewrite length_app; cbn; lia).
    apply IH; [|done]. by rewrite El, <- app_assoc.
Qed.

Lemma create_vin_pokes i : in_ok i → pokes (create_vin (rep_in i)) (in_wire i).
Proof.
  intros [Hp Hs _ _]. unfold create_vin, in_wire. cbn [rep_in txid index vin_script sequence].
  repeat (eapply pokes_seq; [first [apply poke_bytes_pokes | by apply poke_buf_pokes] | | done]; cbn beta).
  apply poke_bytes_pokes.
Qed.

Lemma create_vout_pokes o : small (out_spk o) → pokes (create_vout (rep_out o)) (out_wire o).
Proof.
  intros Hs. unfold create_vout, out_wire. cbn [rep_out value vout_script].
  eapply pokes_seq; [apply poke_bytes_pokes | by apply poke_buf_pokes | done].
Qed.

Lemma create_wit_pokes i : in_ok i → pokes (create_wit (rep_in i)) (wit_wire i).
Proof.
  intros [_ _ Hw Hi]. unfold create_wit, wit_wire, var_list, small in *. cbn [rep_in wit_cnt].
  eapply pokes_seq; [by apply poke_varint_pokes; lia | | done]. cbn beta. rewrite Nat2Z.id.
  apply (pokes_each bufb (in_wit i) (λ lp2, wit_at (rep_in i) lp2)).
  - intros k. unfold wit_at. cbn [rep_in witness]. by rewrite arr_at.
  - eapply Forall_impl; [|exact Hi]. intros d. apply poke_buf_pokes.
Qed.

(** ** The size that is allocated *)

Abbreviation zlen l := (Z.of_nat (length l)).

Lemma for_idx_fold_ok {S X Y B} (r : X → Y) (P : X → Prop) (l : list X) (at_ : nat → prog S Y)
    (body : Y → B → prog S B) (h : X → B → B) (I : B → Prop) b s :
  (∀ i, at_ i = of_option (r <$> l !! i)) → Forall P l → I b →
  (∀ x b s, P x → I b → body (r x) b s = Ret (h x b) s ∧ I (h x b)) →
  for_idx (seq 0 (length l)) (λ i b, y ← at_ i; body y b) b s = Ret (foldl (λ b x, h x b) b l) s.
Proof.
  intros Hat HP HI Hb. change 0%nat with (length (@nil X)).
  assert (∀ l0 pre b, l = pre ++ l0 → Forall P l0 → I b →
    for_idx (seq (length pre) (length l0)) (λ i b, y ← at_ i; body y b) b s =
    Ret (foldl (λ b x, h x b) b l0) s) as H; [|by apply (H l [])].
  induction l0 as [|x l0 IH]; intros pre b0 El HF Hb0; [done|]. cbn [length seq for_idx foldl].
  apply Forall_cons_1 in HF as [Hx HF]. destruct (Hb x b0 s Hx Hb0) as [E Hb1].
  erewrite bind_ret.
  2:{ rewrite Hat, El, list_lookup_middle by done. exact E. }
  replace (Datatypes.S (length pre)) with (length (pre ++ [x])) by (rewrite length_app; cbn; lia).
  apply IH; [|done|done]. by rewrite El, <- app_assoc.
Qed.
Lemma for_idx_fold {S X Y B} (r : X → Y) (l : list X) (at_ : nat → prog S Y)
    (body : Y → B → prog S B) (h : X → B → B) b s :
  (∀ i, at_ i = of_option (r <$> l !! i)) → (∀ x b s, body (r x) b s = Ret (h x b) s) →
  for_idx (seq 0 (length l)) (λ i b, y ← at_ i; body y b) b s = Ret (foldl (λ b x, h x b) b l) s.
Proof.
  intros Hat Hb. apply (for_idx_fold_ok r (λ _, True) l at_ body h (λ _, True)); auto.
  by apply Forall_true.
Qed.

(** Sums taken in 32 bits are the sum in 32 bits. *)
Lemma u32_sum {X} (f : X → bytes) (l : list X) a (g : X → Z → Z) :
  (∀ x b, x ∈ l → g x (u32 b) = u32 (b + zlen (f x))) →
  foldl (λ b x, g x b) (u32 a) l = u32 (a + zlen (concat (f <$> l))).
Proof.
  revert a. induction l as [|x l IH]; intros a Hg; cbn [foldl fmap list_fmap concat length].
  - f_equal. lia.
  - rewrite Hg by (by left). rewrite IH.
    + f_equal. rewrite length_app. lia.
    + intros y b Hy. apply Hg. by right.
Qed.

Lemma var_bytes_len d : small d →
  zlen (var_bytes d) = len (bufb d) + btcl_util_get_varint_len (len (bufb d)).
Proof.
  intros Hd. unfold small in Hd. unfold var_bytes. rewrite bufb_len, varint_len by lia.
  rewrite length_app. lia.
Qed.

(** What the code counts for the witness of an input: one byte for the number
    of items, and nothing when there are none. *)
Definition counted (i : tx_input) : bytes :=
  if bool_decide (in_wit i = []) then [] else 0 :: concat (var_bytes <$> in_wit i).

Definition has_wit (t : transaction) : bool := existsb (λ i, negb (bool_decide (in_wit i = []))) (t_ins t).

Definition needed (segwit : bool) (t : transaction) : Z :=
  zlen (tx_wire false t) + (if segwit then 2 + zlen (concat (counted <$> t_ins t)) else 0).

Lemma tx_len_vin_spec en i l sw st : in_ok i →
  tx_len_vin en (rep_in i) (u32 l, sw) st =
  Ret (u32 (l + zlen (in_wire i) + (if en then zlen (counted i) else 0)),
       sw || en && negb (bool_decide (in_wit i = []))) st.
Proof.
  intros [Hp Hs Hw Hi]. unfold tx_len_vin.
  assert (zlen (in_wire i) = BTC_SZ_TXID + 4 + len (bufb (in_sig i)) + 4 +
          btcl_util_get_varint_len (len (bufb (in_sig i)))) as El.
  { unfold in_wire. rewrite !length_app, !length_le_bytes, Hp, !Nat2Z.inj_add.
    rewrite var_bytes_len by done. lia. }
  cbn [rep_in vin_script wit_cnt]. rewrite !wrap_add_l.
  destruct en; cbn [andb].
  2:{ rewrite orb_false_r. unfold mret, prog_ret. do 3 f_equal. lia. }
  unfold counted. case_bool_decide as E.
  { rewrite E. cbn. rewrite orb_false_r. do 3 f_equal. lia. }
  rewrite (proj2 (Z.eqb_neq _ _)) by (destruct (in_wit i); [done|cbn; lia]). cbn [negb].
  rewrite Nat2Z.id, orb_true_r.
  erewrite bind_ret.
  2:{ apply (for_idx_fold bufb (in_wit i) (λ lp2, wit_at (rep_in i) lp2)
        (λ b l, mret (u32 (l + len b + btcl_util_get_varint_len (len b))))).
      - intros k. unfold wit_at. cbn [rep_in witness]. by rewrite arr_at.
      - intros x b s. reflexivity. }
  unfold mret, prog_ret. rewrite (u32_sum var_bytes).
  { do 2 f_equal. rewrite <- !Z.add_assoc, wrap_add_l. f_equal. cbn [length]. lia. }
  intros d b Hd. rewrite <- Z.add_assoc, wrap_add_l. f_equal.
  rewrite var_bytes_len; [lia|]. rewrite Forall_forall in Hi. by apply Hi, list_elem_of_In.
Qed.

Lemma vin_at_rep {S} t lp : @vin_at S (rep t) lp = of_option (rep_in <$> t_ins t !! lp).
Proof. unfold vin_at. cbn [rep vin]. by rewrite arr_at. Qed.

Lemma vout_at_rep {S} t lp : @vout_at S (rep t) lp = of_option (rep_out <$> t_outs t !! lp).
Proof. unfold vout_at. cbn [rep vout]. by rewrite arr_at. Qed.

(** The first loop: what the inputs add, and whether one of them has a witness. *)
Lemma tx_len_vins (en : bool) ins : Forall in_ok ins → ∀ l sw,
  foldl (λ (x : Z * bool) (i : tx_input), (u32 (x.1 + zlen (in_wire i) + (if en then zlen (counted i) else 0)),
                 x.2 || en && negb (bool_decide (in_wit i = [])))) (u32 l, sw) ins =
  (u32 (l + zlen (concat (in_wire <$> ins)) + (if en then zlen (concat (counted <$> ins)) else 0)),
   sw || en && existsb (λ i, negb (bool_decide (in_wit i = []))) ins).
Proof.
  induction 1 as [|i ins Hi _ IH]; intros l sw; cbn [foldl fmap list_fmap concat existsb fst snd].
  - cbn. rewrite andb_false_r, orb_false_r. do 2 f_equal. destruct en; lia.
  - rewrite <- Z.add_assoc, wrap_add_l, IH. f_equal.
    + f_equal. rewrite !length_app. destruct en; lia.
    + by rewrite andb_orb_distrib_r, orb_assoc.
Qed.

Lemma counted_none t : has_wit t = false → concat (counted <$> t_ins t) = [].
Proof.
  unfold has_wit. induction (t_ins t) as [|i ins IH]; [done|]. cbn [existsb fmap list_fmap concat].
  intros [Hi Hins]%orb_false_iff. rewrite IH by done. unfold counted.
  by destruct (bool_decide (in_wit i = [])).
Qed.

Lemma tx_len_spec (en : bool) t st : tx_ok t →
  tx_len (rep t) en st = Ret (u32 (needed (en && has_wit t) t), en && has_wit t) st.
Proof.
  intros [Hi Ho Hsi Hso]. unfold small in *. unfold tx_len. cbn [rep vin_cnt vout_cnt].
  rewrite !varint_len, !Nat2Z.id by lia.
  set (c := zlen (compact_size (zlen (t_ins t)))). set (c' := zlen (compact_size (zlen (t_outs t)))).
  erewrite bind_ret.
  2:{ apply (for_idx_fold_ok rep_in in_ok (t_ins t) (vin_at (rep t)) (λ v, tx_len_vin en v)
        (λ (i : tx_input) (x : Z * bool), (u32 (x.1 + zlen (in_wire i) + (if en then zlen (counted i) else 0)),
                 x.2 || en && negb (bool_decide (in_wit i = [])))) (λ x : Z * bool, u32 x.1 = x.1)); [|done| |].
      - intros i. apply vin_at_rep.
      - apply wrap_small. unfold in_range, c, c', compact_size.
        repeat case_match; cbn [length le_bytes fst]; lia.
      - intros i [l sw] s Hok Hl. cbn [fst snd] in *. split.
        + rewrite <- Hl at 1. by rewrite tx_len_vin_spec.
        + apply wrap_small, in_range_wrap. lia. }
  rewrite <- (wrap_small 32 (4 + c + c')) by
    (unfold in_range, c, c', compact_size; repeat case_match; cbn [length le_bytes]; lia).
  rewrite tx_len_vins by done. cbn [orb]. fold (has_wit t).
  set (ci := zlen (concat (in_wire <$> t_ins t))). set (cw := zlen (concat (counted <$> t_ins t))).
  assert (∀ b, for_idx (seq 0 (length (t_outs t))) (λ lp l, o ← vout_at (rep t) lp;
        mret (u32 (l + 8 + len (vout_script o) + btcl_util_get_varint_len (len (vout_script o))))) (u32 b) st =
    Ret (u32 (b + zlen (concat (out_wire <$> t_outs t)))) st) as Hout.
  { intros b. rewrite (for_idx_fold rep_out (t_outs t) (vout_at (rep t))
      (λ o l, mret (u32 (l + 8 + len (vout_script o) + btcl_util_get_varint_len (len (vout_script o)))))
      (λ o l, u32 (l + 8 + len (bufb (out_spk o)) + btcl_util_get_varint_len (len (bufb (out_spk o)))))).
    - f_equal. apply (u32_sum out_wire). intros o b' Ho'.
      rewrite <- !Z.add_assoc, wrap_add_l. f_equal. unfold out_wire. rewrite length_app, length_le_bytes.
      rewrite Nat2Z.inj_add, var_bytes_len; [lia|].
      rewrite Forall_forall in Ho. by apply Ho, list_elem_of_In.
    - intros i. apply vout_at_rep.
    - done. }
  assert (needed (en && has_wit t) t = 4 + c + c' + ci + zlen (concat (out_wire <$> t_outs t)) + 4 +
    (if en && has_wit t then 2 + cw else 0)) as ->.
  { unfold needed, tx_wire, var_list. cbn iota. rewrite !length_app, !length_le_bytes. cbn [length].
    unfold c, c', ci, cw. lia. }
  erewrite bind_ret.
  2:{ rewrite <- Hout with (b := 4 + c + c' + ci + (if en && has_wit t then 2 + cw else 0)).
      f_equal. destruct en; cbn [andb]; [|f_equal; lia].
      destruct (has_wit t) eqn:Ew.
      - rewrite wrap_add_l. f_equal. lia.
      - f_equal. unfold cw. rewrite counted_none by done. cbn [length]. lia. }
  unfold mret, prog_ret. rewrite wrap_add_l. do 3 f_equal. lia.
Qed.
(** ** Writing a transaction *)

(** Every input has between 1 and 252 witness items. *)
Definition complete (t : transaction) : Prop :=
  Forall (λ i, 0 < zlen (in_wit i) < 0xfd) (t_ins t).

#[export] Instance complete_dec t : Decision (complete t).
Proof. unfold complete. apply _. Defined.

Lemma wit_wire_counted i : small (in_wit i) →
  zlen (counted i) ≤ zlen (wit_wire i) ∧
  (zlen (counted i) = zlen (wit_wire i) ↔ 0 < zlen (in_wit i) < 0xfd).
Proof.
  intros Hs. unfold small in Hs. unfold counted, wit_wire, var_list, compact_size.
  case_bool_decide as E.
  { rewrite E. split; [by vm_compute|]. split; [intros Hc | intros [Hc _]]; by vm_compute in Hc. }
  assert (0 < zlen (in_wit i)) by (destruct (in_wit i); [done|cbn; lia]).
  destruct (Z.ltb_spec (zlen (in_wit i)) 0xfd).
  - cbn [app length]. lia.
  - rewrite (proj2 (Z.leb_le _ _)) by lia. rewrite length_app. cbn [length le_bytes]. lia.
Qed.

Lemma needed_spec sw t : tx_ok t →
  needed sw t ≤ zlen (tx_wire sw t) ∧
  (zlen (tx_wire sw t) ≤ needed sw t ↔ (sw = true → complete t)).
Proof.
  intros [Hi _ _ _]. unfold needed. destruct sw; cbn iota; [|split; [lia|split; [done|intros _; lia]]].
  assert (zlen (tx_wire true t) = zlen (tx_wire false t) + 2 + zlen (concat (wit_wire <$> t_ins t))) as ->.
  { unfold tx_wire. cbn iota. rewrite !length_app. cbn [length]. lia. }
  assert (zlen (concat (counted <$> t_ins t)) ≤ zlen (concat (wit_wire <$> t_ins t)) ∧
    (zlen (concat (wit_wire <$> t_ins t)) ≤ zlen (concat (counted <$> t_ins t)) ↔ complete t)) as [Hle Heq].
  { unfold complete. induction Hi as [|i ins Hok _ [Hle Heq]]; [by split|].
    cbn [fmap list_fmap concat]. rewrite !length_app, Forall_cons_iff.
    destruct (wit_wire_counted i) as [Hc He]; [apply Hok|]. split; [lia|].
    rewrite <- Heq, <- He. lia. }
  split; [lia|].
  split; [intros H _; apply Heq; lia | intros H; specialize (proj2 Heq (H eq_refl)); lia].
Qed.

Lemma tx_pokes sw t : tx_ok t →
  pokes (create_fields (rep t) sw) (tx_wire sw t).
Proof.
  intros [Hi Ho Hsi Hso]. unfold create_fields, small, tx_wire, var_list in *.
  cbn [rep vin_cnt vout_cnt version locktime]. rewrite !Nat2Z.id, <- !app_assoc.
  eapply pokes_seq; [apply poke_bytes_pokes | | done].
  eapply pokes_seq; [| | done]; [destruct sw; [apply poke_bytes_pokes | apply pokes_nil]|].
  eapply pokes_seq; [by apply poke_varint_pokes; lia | | done].
  eapply pokes_seq; [| | done].
  { apply (pokes_each rep_in (t_ins t) (vin_at (rep t))); [apply vin_at_rep|].
    eapply Forall_impl; [|exact Hi]. apply create_vin_pokes. }
  eapply pokes_seq; [by apply poke_varint_pokes; lia | | done].
  eapply pokes_seq; [| | done].
  { apply (pokes_each rep_out (t_outs t) (vout_at (rep t))); [apply vout_at_rep|].
    eapply Forall_impl; [|exact Ho]. apply create_vout_pokes. }
  eapply pokes_seq; [| | done]; [|apply poke_bytes_pokes].
  destruct sw; [|apply pokes_nil].
  apply (pokes_each rep_in (t_ins t) (vin_at (rep t))); [apply vin_at_rep|].
  eapply Forall_impl; [|exact Hi]. apply create_wit_pokes.
Qed.

Section outcome.
Context {A : Alloc} {T : AllocTotal A}.

(** The size that is allocated is exact when a witness is written for every
    input or for none. *)
Lemma create_tx_eq t enableSegWit st :
  tx_ok t → zlen (tx_wire (enableSegWit && has_wit t) t) < 2 ^ 32 →
  run (btcl_util_create_tx (rep t) enableSegWit) st =
  if bool_decide (enableSegWit && has_wit t = true → complete t)
  then Ret true (mk_push (zlen (tx_wire (enableSegWit && has_wit t) t))
                         (of_bytes (tx_wire (enableSegWit && has_wit t) t)))
  else UB.
Proof.
  intros Hok Hlen. set (sw := enableSegWit && has_wit t) in *.
  destruct (needed_spec sw t Hok) as [Hle Hiff].
  unfold btcl_util_create_tx. unfold run.
  erewrite bind_ret by (by apply tx_len_spec). fold sw.
  rewrite wrap_small by (unfold in_range, needed in *; destruct sw; lia).
  unfold mbind, prog_bind, put_st, get_st, mret, prog_ret. cbn [fst snd]. rewrite malloc_eq.
  assert (mk_push 0 (mk_buf (Some (junk (needed sw t))) (needed sw t)) = pushedb [] (needed sw t)) as ->
    by (unfold pushedb, pushed; cbn; by rewrite Z.sub_0_r).
  rewrite tx_pokes by (try done; unfold needed; destruct sw; cbn; lia).
  cbn [app]. rewrite (bool_decide_ext _ _ Hiff). case_bool_decide as Hc; [|done].
  assert (needed sw t = zlen (tx_wire sw t)) as -> by (apply Hiff in Hc; lia).
  unfold pushedb, pushed. cbn [pos data len]. rewrite !length_init_cells, Z.sub_diag, app_nil_r.
  by rewrite wrap_small, Z.eqb_refl by (unfold in_range; lia).
Qed.

Lemma sha256_step {H : BtcHash} d n st : u16 n ≤ zlen d →
  btc_util_sha256 d n st = Ret (mbedtls_sha256 (take (Z.to_nat (u16 n)) d)) st.
Proof.
  intros Hn. assert (0 ≤ u16 n) by (apply wrap_range; lia).
  unfold btc_util_sha256. erewrite bind_ret by (apply rd_bytes_sl; lia). unfold sl. by rewrite drop_0.
Qed.

(** The hash of the form without witnesses: of its length modulo 2^16. *)
Lemma txid_eq {H : BtcHash} {HL : BtcHashLaws H} t st : tx_ok t → zlen (tx_wire false t) < 2 ^ 32 →
  btc_tx_txid (rep t) st =
  Ret (mbedtls_sha256 (mbedtls_sha256 (take (Z.to_nat (u16 (zlen (tx_wire false t)))) (tx_wire false t)))) st.
Proof.
  intros Hok Hlen. unfold btc_tx_txid.
  pose proof (create_tx_eq t false (mk_push 0 (mk_buf None 0)) Hok Hlen) as E. cbn [andb] in E.
  rewrite bool_decide_eq_true_2 in E by done.
  rewrite (on_local_step _ _ _ _ _ _ E). cbn [fst snd data]. erewrite bind_ret by done.
  unfold buf_bytes, of_bytes. cbn [buf len].
  rewrite read_of_bytes. erewrite bind_ret by done.
  fold (zlen (tx_wire false t)).
  assert (0 ≤ u16 (zlen (tx_wire false t)) ≤ zlen (tx_wire false t)).
  { split; [apply wrap_range; lia|]. unfold wrap. apply Z.mod_le; lia. }
  unfold btc_util_hash256. erewrite bind_ret by (apply sha256_step; lia).
  rewrite sha256_step by (rewrite (proj2 (sha256_32 _)); done).
  do 2 f_equal. apply take_ge. by rewrite (proj2 (sha256_32 _)).
Qed.

(** C39: Writing a transaction gives its serialisation, with the witnesses when one
    input has some and they are asked for. But the size is computed as if an
    input without witness needed no count and a count always one byte: exactly when
    witnesses are asked for, some input has one, and some input has none or more than
    252 items, the last bytes are written behind the allocated block. Without
    witnesses the form is always written in full; the identifier of a transaction hashes
    that one, up to its length modulo 2^16, since the length is passed on in 16 bits. *)
Theorem create_tx_outcome {H : BtcHash} {HL : BtcHashLaws H} t enableSegWit st :
  tx_ok t → zlen (tx_wire (enableSegWit && has_wit t) t) < 2 ^ 32 →
  run (btcl_util_create_tx (rep t) enableSegWit) st =
  (if bool_decide (enableSegWit && has_wit t = true → complete t)
   then Ret true (mk_push (zlen (tx_wire (enableSegWit && has_wit t) t))
                          (of_bytes (tx_wire (enableSegWit && has_wit t) t)))
   else UB) ∧
  let d := tx_wire false t in
  zlen d < 2 ^ 32 →
  btc_tx_txid (rep t) tt =
  Ret (mbedtls_sha256 (mbedtls_sha256 (take (Z.to_nat (u16 (zlen d))) d))) tt.
Proof. intros Hok Hlen. split; [by apply create_tx_eq | by apply txid_eq]. Qed.
End outcome.

(** ** A concrete transaction, with its witnesses and with one missing *)

Definition sample_in (wits : list bytes) : tx_input := mk_in (replicate 32 7) 1 [] wits 0xffffffff.

Definition sample_tx (wits : list (list bytes)) : transaction :=
  mk_trans 2 (sample_in <$> wits) [mk_out 1000 [0; 2; 5; 6] 0; mk_out 70000 [0x6a] 9] 17.

Lemma sample_ok wits : small wits → Forall (λ w, small w ∧ Forall small w) wits → tx_ok (sample_tx wits).
Proof.
  intros Hs Hw. split; cbn [sample_tx t_ins t_outs].
  - apply Forall_fmap. eapply Forall_impl; [|exact Hw]. intros w [H1 H2]. by split.
  - by repeat constructor.
  - unfold small. by rewrite length_fmap.
  - done.
Qed.

Definition toy_hash : BtcHash := Build_BtcHash (λ _, replicate 32 1) (λ _, replicate 20 2).

Lemma toy_hash_laws : BtcHashLaws toy_hash.
Proof. split; intros x; (split; [by repeat constructor | done]). Qed.

Lemma create_tx_outcome_witness :
  run (@btcl_util_create_tx total_alloc (rep (sample_tx [[[1; 2]; [3]]; [[4]]])) true) (mk_push 0 (mk_buf None 0)) =
    Ret true (mk_push (zlen (tx_wire true (sample_tx [[[1; 2]; [3]]; [[4]]])))
                      (of_bytes (tx_wire true (sample_tx [[[1; 2]; [3]]; [[4]]])))) ∧
  run (@btcl_util_create_tx total_alloc (rep (sample_tx [[[1; 2]; [3]]; []])) true) (mk_push 0 (mk_buf None 0)) = UB.
Proof.
  split.
  - refine (proj1 (@create_tx_outcome total_alloc _ toy_hash toy_hash_laws (sample_tx [[[1; 2]; [3]]; [[4]]]) true _ _ _));
      [apply sample_ok; by repeat constructor | by vm_compute].
  - refine (proj1 (@create_tx_outcome total_alloc _ toy_hash toy_hash_laws (sample_tx [[[1; 2]; [3]]; []]) true _ _ _));
      [apply sample_ok; by repeat constructor | by vm_compute].
Defined.
End BtcTxWire.
