(* ===== verification/BtcTxRead.v ===== *)
(** Reading a transaction: [btc_tx_read] inverts [btcl_util_create_tx], when its
    loop ends, and the packets on which it does not. *)
From stdpp Require Import base list numbers tactics.
From Stdlib Require Import ZArith Lia.
From S2P Require Import Prelude CProg UtlBuf UtlPush LnMisc LnMsg BtcTx BtcTxWire.
Import UtlBuf UtlPush LnMisc LnMsg BtcTx BtcTxWire.
Open Scope Z_scope.

Module BtcTxRead.

(** Values that fit in the fields of the structs. *)
Record tx_range (t : transaction) : Prop := {
  version_range : - 2 ^ 31 ≤ t_version t < 2 ^ 31;
  lock_range : in_range 32 (t_lock t);
  ins_range : Forall (λ i, in_range 32 (in_n i) ∧ in_range 32 (in_seq i)) (t_ins t);
  outs_range : Forall (λ o, in_range 64 (out_value o)) (t_outs t);
}.

Ltac u32s :=
  repeat match goal with
  | |- context [wrap 32 ?z] =>
      lazymatch z with
      | context [wrap 32 _] => fail
      | _ => rewrite (wrap_small 32 z) by (unfold in_range in *; lia)
      end
  end.

(** The state after a few field updates, its position within 32 bits. *)
Ltac rd_norm :=
  unfold set_rd_pos, set_rd_cnt, set_rd_state, set_rd_tx, set_rd_prev;
  cbn [rd_tx rd_pos rd_state rd_cnt rd_prev rd_rep]; u32s.

Section read.
Context {A : Alloc} {T : AllocTotal A} {F : Fresh}.
Context (d : bytes) (Hd : zlen d < 2 ^ 31).
Implicit Types (s : rd) (rest : bytes).

(** ** Reading one field *)

Lemma le16_lor n : 0 ≤ n < 0x10000 → Z.lor (u8 n) (Z.shiftl (u8 (Z.shiftr n 8)) 8) = n.
Proof.
  intros Hn. rewrite Z.lor_comm, lor_shiftl_add by (try apply (wrap_range 8); lia).
  unfold wrap. rewrite Z.shiftr_div_pow2 by lia. change (2 ^ 8) with 256.
  Z.to_euclidean_division_equations; lia.
Qed.

Lemma get_varint_at {B} p n rest (K : Z * Z → prog rd B) s :
  0 ≤ n < 0x10000 → at_pos d p (compact_size n ++ rest) →
  (get_varint d p ≫= K) s = K (zlen (compact_size n), n) s.
Proof.
  intros Hn Hat. apply bind_ret. unfold get_varint, compact_size in *.
  destruct (Z.ltb_spec n 0xfd).
  - cbn [app] in Hat. erewrite rd_byte_at by exact Hat. by rewrite (proj2 (Z.ltb_lt _ _)) by lia.
  - rewrite (proj2 (Z.leb_le _ _)) in * by lia. cbn [app le_bytes] in Hat.
    erewrite rd_byte_at by exact Hat.
    rewrite (proj2 (Z.ltb_ge _ _)) by lia.
    pose proof (at_pos_cons _ _ _ _ (p + 1) Hat eq_refl) as Hat1.
    erewrite rd_byte_at by exact Hat1.
    pose proof (at_pos_cons _ _ _ _ (p + 2) Hat1 ltac:(lia)) as Hat2.
    erewrite rd_byte_at by exact Hat2. cbn [length le_bytes]. unfold mret, prog_ret.
    by rewrite le16_lor.
Qed.

Lemma get_le_at {B} w p n rest (K : Z → prog rd B) s :
  at_pos d p (le_bytes w n ++ rest) → in_range (8 * Z.of_nat w) n →
  ((x ← rd_bytes d p (Z.of_nat w); mret (le_val x)) ≫= K) s = K n s.
Proof.
  intros Hat Hn. apply bind_ret. erewrite bind_ret.
  2:{ eapply rd_bytes_at; [exact Hat|]. by rewrite length_le_bytes. }
  unfold mret, prog_ret. by rewrite le_val_le_bytes, wrap_small.
Qed.

Lemma get_le32_at {B} p n rest (K : Z → prog rd B) s :
  at_pos d p (le_bytes 4 n ++ rest) → in_range 32 n → (get_le32 d p ≫= K) s = K n s.
Proof. intros Hat Hn. by apply (get_le_at 4 p n rest K s). Qed.

Lemma get_le64_at {B} p n rest (K : Z → prog rd B) s :
  at_pos d p (le_bytes 8 n ++ rest) → in_range 64 n → (get_le64 d p ≫= K) s = K n s.
Proof. intros Hat Hn. by apply (get_le_at 8 p n rest K s). Qed.

Lemma modify_step {S B} (f : S → S) (K : unit → prog S B) (s : S) :
  (modify f ≫= K) s = K tt (f s).
Proof. done. Qed.

Lemma advance_step {B} n (K : unit → prog rd B) s :
  (advance n ≫= K) s = K tt (set_rd_pos (rd_pos s + n) s).
Proof. done. Qed.

Lemma alloccopy_at p x rest :
  at_pos d p (x ++ rest) →
  utl_buf_alloccopy (mk_buf None 0) (init_cells (drop (Z.to_nat p) d)) (zlen x) = Some (true, bufb x).
Proof. intros Hat. rewrite (drop_at _ _ _ Hat), init_cells_app. apply alloccopy_bytes. Qed.

Lemma read_script_at {B} x rest (K : utl_buf_t → prog rd B) s :
  at_pos d (rd_pos s) (x ++ rest) → in_range 32 (rd_pos s) →
  (read_script d (zlen x) ≫= K) s = K (bufb x) (set_rd_pos (rd_pos s + zlen x) s).
Proof.
  intros Hat Hp. unfold read_script. destruct (Z.eqb_spec (zlen x) 0) as [E|E]; cbn [negb].
  - destruct x; [|cbn in E; lia]. cbn [length bufb bool_decide]. rewrite bind_mret.
    unfold bufb. rewrite bool_decide_eq_true_2 by done. f_equal.
    unfold set_rd_pos. change (Z.of_nat 0) with 0. rewrite Z.add_0_r, wrap_small by done. by destruct s.
  - rewrite bind_assoc, gets_step. rewrite (alloccopy_at _ _ _ Hat). cbn [of_option].
    rewrite bind_assoc, bind_mret. cbn [snd]. rewrite bind_assoc, advance_step, bind_mret.
    by rewrite bufb_len.
Qed.

(** ** Rounds of the loop *)

Section rounds.
Context (dbg segwit : bool).

Abbreviation L := (zlen d).

(** [n] rounds lead from [s] to [s']. *)
Definition runs (n : nat) s s' : Prop :=
  ∀ f, read_loop d L dbg segwit (n + f) s = read_loop d L dbg segwit f s'.

Lemma runs_refl s : runs 0 s s.
Proof. done. Qed.

Lemma runs_trans n m s1 s2 s3 : runs n s1 s2 → runs m s2 s3 → runs (n + m) s1 s3.
Proof. intros H1 H2 f. by rewrite <- Nat.add_assoc, H1, H2. Qed.

(** A round that starts at a new position. *)
Lemma runs_step s s' :
  rd_pos s < L → rd_prev s < rd_pos s →
  read_switch d L segwit (set_rd_prev (rd_pos s) (rd_rep s) s) = Ret tt s' → runs 1 s s'.
Proof.
  intros Hp Hprev Hs f. cbn [Nat.add read_loop].
  unfold mbind, prog_bind, get_st, put_st. rewrite (proj2 (Z.ltb_lt _ _)) by done.
  rewrite (proj2 (Z.eqb_neq _ _)) by lia. rewrite andb_false_r. cbn [andb].
  by rewrite Hs.
Qed.

Lemma runs_end f s : L ≤ rd_pos s → read_loop d L dbg segwit (S f) s = Ret true s.
Proof.
  intros Hp. cbn [read_loop]. unfold mbind, prog_bind, get_st.
  by rewrite (proj2 (Z.ltb_ge _ _)) by lia.
Qed.

(** An array of [n] elements of which the first ones are filled. *)
Definition filling {X} (fresh : nat → X) (l : list X) (n : nat) : option (list X) :=
  Some (l ++ (fresh <$> seq (length l) (n - length l))).

Lemma filling_get {X} (fresh : nat → X) l n :
  (length l < n)%nat → arr_get (filling fresh l n) (zlen l) = Some (fresh (length l)).
Proof.
  intros Hn. unfold arr_get, filling. rewrite (proj2 (Z.leb_le _ _)), Nat2Z.id by lia.
  cbn [mbind option_bind]. rewrite lookup_app_r, Nat.sub_diag by lia.
  by destruct (n - length l)%nat eqn:E; [lia|].
Qed.

Lemma filling_set {X} (fresh : nat → X) l n x :
  (length l < n)%nat → arr_set (filling fresh l n) (zlen l) x = Some (filling fresh (l ++ [x]) n).
Proof.
  intros Hn. unfold arr_set. rewrite filling_get by done. unfold filling.
  cbn [mbind option_bind fmap option_fmap option_map]. rewrite Nat2Z.id.
  rewrite <- (Nat.add_0_r (length l)) at 1. rewrite insert_app_r.
  destruct (n - length l)%nat eqn:E; [lia|]. cbn [seq fmap list_fmap insert list_insert].
  do 2 f_equal. rewrite <- app_assoc. cbn [app]. do 2 f_equal.
  rewrite length_app. cbn [length]. f_equal. f_equal; lia.
Qed.

Lemma filling_full {X} (fresh : nat → X) (l : list X) : filling fresh l (length l) = Some l.
Proof. unfold filling. by rewrite Nat.sub_diag, app_nil_r. Qed.

(** What is known of an input before its witness is read. *)
Definition raw_in (i : tx_input) : btc_vin_t :=
  mk_vin (in_prev i) (in_n i) (bufb (in_sig i)) 0 None (in_seq i).

Lemma txin_cnt_round n tx p cnt prev r rest :
  0 < n < 0x10000 → at_pos d p (compact_size n ++ rest) → prev < p → rest ≠ [] →
  runs 1 (mk_rd tx p 0 cnt prev r)
    (mk_rd (set_vin n (filling fresh_vin [] (Z.to_nat n)) tx)
       (p + zlen (compact_size n)) 1 cnt p r).
Proof.
  intros Hn Hat Hprev Hr. pose proof (at_pos_length _ _ _ Hat) as HL. rewrite length_app in HL.
  pose proof (proj1 Hat) as Hp. assert (0 < zlen rest) by (destruct rest; [done|cbn; lia]).
  apply runs_step; cbn [rd_pos rd_prev]; [lia..|].
  unfold read_switch. rewrite gets_step. cbn [set_rd_prev rd_state]. change (0 =? 0) with true. cbn iota.
  unfold read_txin_cnt. rewrite gets_step. cbn [set_rd_prev rd_pos].
  rewrite (get_varint_at _ n rest) by (try done; lia). rewrite advance_step. cbn [fst snd].
  rewrite (proj2 (Z.eqb_neq _ _)) by lia.
  unfold modify, mbind, prog_bind, set_rd_pos, set_rd_tx, set_rd_state, arr_malloc. rewrite T.
  cbn [rd_tx rd_pos rd_state rd_cnt rd_prev rd_rep set_rd_prev]. u32s.
  unfold filling. cbn [length]. by rewrite Nat.sub_0_r.
Qed.

Lemma txin_body i done_ n tx p st prev r rest :
  in_ok i → in_range 32 (in_n i) → in_range 32 (in_seq i) →
  at_pos d p (in_wire i ++ rest) → (length done_ < n)%nat → zlen done_ + 1 < 2 ^ 32 →
  vin tx = filling fresh_vin done_ n →
  read_txin_body d (zlen (compact_size (zlen (in_sig i)))) (zlen (in_sig i))
    (mk_rd tx p st (zlen done_) prev r) =
  Ret tt (mk_rd (set_vin (vin_cnt tx) (filling fresh_vin (done_ ++ [raw_in i]) n) tx)
            (p + zlen (in_wire i)) st (zlen (done_ ++ [raw_in i])) prev r).
Proof.
  intros [Hp32 _ _ _] Hn Hs Hat Hl Hl' Hv. pose proof (at_pos_length _ _ _ Hat) as HL.
  pose proof (proj1 Hat) as Hp. unfold in_wire in *. unfold var_bytes in *. rewrite <- !app_assoc in Hat.
  rewrite !length_app, !length_le_bytes, Hp32, !Nat2Z.inj_add in *.
  change (Z.of_nat 32) with 32 in *. change (Z.of_nat 4) with 4 in *.
  set (c := compact_size (zlen (in_sig i))) in *.
  pose proof (at_pos_step _ _ _ _ (p + 32) Hat ltac:(lia)) as Hat1.
  pose proof (at_pos_step _ _ _ _ (p + 36) Hat1 ltac:(rewrite length_le_bytes; lia)) as Hat2.
  pose proof (at_pos_step _ _ _ _ (p + 36 + zlen c) Hat2 ltac:(lia)) as Hat3.
  pose proof (at_pos_step _ _ _ _ (p + 36 + zlen c + zlen (in_sig i)) Hat3 ltac:(lia)) as Hat4.
  unfold read_txin_body. rewrite gets_step, modify_step, gets_step. rd_norm.
  erewrite bind_ret by (eapply rd_bytes_at; [exact Hat|lia]).
  rewrite advance_step, gets_step. rd_norm.
  erewrite get_le32_at by (try exact Hat1; done). rewrite !advance_step. rd_norm.
  rewrite read_script_at with (rest := le_bytes 4 (in_seq i) ++ rest).
  3:{ cbn [rd_pos]. unfold in_range. lia. }
  2:{ cbn [rd_pos]. eapply at_pos_step; [exact Hat2|]. lia. }
  rewrite gets_step. rd_norm.
  rewrite get_le32_at with (n := in_seq i) (rest := rest) by (try done; by (eapply at_pos_step; [exact Hat3|]; lia)).
  rewrite advance_step, gets_step. rd_norm. rewrite Hv, filling_set by done. cbn [of_option].
  unfold modify, mbind, prog_bind, mret, prog_ret. rd_norm. unfold raw_in at 2. f_equal. f_equal. lia.
Qed.

Lemma txin_round i done_ n tx p prev r rest :
  in_ok i → in_range 32 (in_n i) ∧ in_range 32 (in_seq i) →
  at_pos d p (in_wire i ++ rest) → prev < p → 5 ≤ zlen rest →
  (length done_ < n)%nat → Z.of_nat n < 2 ^ 31 → vin_cnt tx = Z.of_nat n →
  vin tx = filling fresh_vin done_ n →
  runs 1 (mk_rd tx p 1 (zlen done_) prev r)
    (mk_rd (set_vin (Z.of_nat n) (filling fresh_vin (done_ ++ [raw_in i]) n) tx)
       (p + zlen (in_wire i)) (if bool_decide (n ≤ length done_ + 1)%nat then 2 else 1)
       (zlen (done_ ++ [raw_in i])) p r).
Proof.
  intros Hok [Hn Hs] Hat Hprev Hr Hl Hn' Hc Hv.
  pose proof (at_pos_length _ _ _ Hat) as HL. rewrite length_app in HL.
  pose proof (proj1 Hat) as Hp.
  assert (zlen (in_wire i) = 40 + zlen (compact_size (zlen (in_sig i))) + zlen (in_sig i)) as Ew.
  { unfold in_wire, var_bytes. rewrite !length_app, !length_le_bytes, (prev_32 i Hok). lia. }
  assert (1 ≤ zlen (compact_size (zlen (in_sig i)))) as Hc1
    by (unfold compact_size; repeat case_match; cbn [length]; lia).
  apply runs_step; cbn [rd_pos rd_prev]; [lia..|].
  unfold read_switch. rewrite gets_step. cbn [set_rd_prev rd_state].
  change (1 =? 0) with false. change (1 =? 1) with true. cbn iota.
  unfold read_txin. rewrite gets_step. rd_norm. rewrite (proj2 (Z.leb_le _ _)) by lia.
  assert (at_pos d (p + 32 + 4) (compact_size (zlen (in_sig i)) ++ in_sig i ++ le_bytes 4 (in_seq i) ++ rest)) as Hat1.
  { unfold in_wire, var_bytes in Hat. rewrite <- !app_assoc in Hat.
    eapply at_pos_step; [eapply at_pos_step; [exact Hat|]|reflexivity]. by rewrite (prev_32 i Hok). }
  pose proof (sig_small i Hok) as Hsm. unfold small in Hsm.
  rewrite get_varint_at with (n := zlen (in_sig i))
    (rest := in_sig i ++ le_bytes 4 (in_seq i) ++ rest) by first [exact Hat1 | lia].
  cbn [fst snd]. rd_norm.
  rewrite (proj2 (Z.leb_le _ _)) by lia.
  erewrite bind_ret by (eapply txin_body; try done; lia).
  rewrite get_st_step. cbn [rd_tx rd_cnt set_vin vin_cnt]. rewrite Hc, length_app. cbn [length].
  case_bool_decide as Hb.
  - rewrite (proj2 (Z.leb_le _ _)) by lia. done.
  - rewrite (proj2 (Z.leb_gt _ _)) by lia. done.
Qed.

Lemma set_vin_set n a n' a' tx : set_vin n a (set_vin n' a' tx) = set_vin n a tx.
Proof. done. Qed.

Lemma txins_rounds ins : Forall in_ok ins →
  Forall (λ i, in_range 32 (in_n i) ∧ in_range 32 (in_seq i)) ins →
  ∀ done_ n tx p prev r rest, ins ≠ [] →
  at_pos d p (concat (in_wire <$> ins) ++ rest) → prev < p → 5 ≤ zlen rest →
  n = (length done_ + length ins)%nat → Z.of_nat n < 2 ^ 31 → vin_cnt tx = Z.of_nat n →
  vin tx = filling fresh_vin done_ n →
  ∃ prev', prev' < p + zlen (concat (in_wire <$> ins)) ∧
  runs (length ins) (mk_rd tx p 1 (zlen done_) prev r)
    (mk_rd (set_vin (Z.of_nat n) (Some (done_ ++ (raw_in <$> ins))) tx)
       (p + zlen (concat (in_wire <$> ins))) 2 (Z.of_nat n) prev' r).
Proof.
  induction 1 as [|i ins Hi Hins IH]; intros Hr done_ n tx p prev r rest Hne Hat Hprev Hrest Hn Hn' Hc Hv;
    [done|].
  apply Forall_cons_1 in Hr as [Hri Hr]. cbn [fmap list_fmap concat length] in *.
  rewrite <- app_assoc in Hat.
  assert (1 ≤ zlen (in_wire i)) as Hw1
    by (unfold in_wire; rewrite length_app, (prev_32 i Hi); lia).
  pose proof (txin_round i done_ n tx p prev r (concat (in_wire <$> ins) ++ rest) Hi Hri Hat Hprev
    ltac:(rewrite length_app; lia) ltac:(lia) Hn' Hc Hv) as Hround.
  pose proof (at_pos_app _ _ _ _ Hat) as Hat'.
  destruct ins as [|j ins].
  - exists p. cbn [fmap list_fmap concat length] in *. rewrite app_nil_r. split; [lia|].
    rewrite bool_decide_eq_true_2 in Hround by lia.
    replace (Z.of_nat n) with (zlen (done_ ++ [raw_in i])) at 2 by (rewrite length_app; cbn; lia).
    replace (filling fresh_vin (done_ ++ [raw_in i]) n) with (Some (done_ ++ [raw_in i])) in Hround; [exact Hround|].
    rewrite <- (filling_full fresh_vin). f_equal. rewrite length_app. cbn. lia.
  - rewrite bool_decide_eq_false_2 in Hround by (cbn [length] in Hn; lia).
    destruct (IH Hr (done_ ++ [raw_in i]) n
      (set_vin (Z.of_nat n) (filling fresh_vin (done_ ++ [raw_in i]) n) tx)
      (p + zlen (in_wire i)) p r rest) as (prev' & Hp' & Hruns); try done; try lia.
    { rewrite length_app. cbn [length] in *. lia. }
    exists prev'. rewrite length_app, Nat2Z.inj_add, Z.add_assoc. split; [lia|].
    eapply (runs_trans 1 (length (j :: ins))); [exact Hround|].
    rewrite <- app_assoc, set_vin_set in Hruns. exact Hruns.
Qed.
(** The outputs as they are read: [opt] is what the allocation held. *)
Fixpoint fresh_opts (k : nat) (outs : list tx_output) : list tx_output :=
  match outs with
  | [] => []
  | o :: outs => mk_out (out_value o) (out_spk o) (opt (fresh_vout k)) :: fresh_opts (S k) outs
  end.

Lemma txout_cnt_round n tx p cnt prev r rest :
  0 ≤ n < 0x10000 → at_pos d p (compact_size n ++ rest) → prev < p → rest ≠ [] →
  runs 1 (mk_rd tx p 2 cnt prev r)
    (mk_rd (set_vout n (if n =? 0 then None else filling fresh_vout [] (Z.to_nat n)) tx)
       (p + zlen (compact_size n)) (if n =? 0 then if segwit then 4 else 5 else 3) 0 p r).
Proof.
  intros Hn Hat Hprev Hr. pose proof (at_pos_length _ _ _ Hat) as HL. rewrite length_app in HL.
  pose proof (proj1 Hat) as Hp. assert (0 < zlen rest) by (destruct rest; [done|cbn; lia]).
  apply runs_step; cbn [rd_pos rd_prev]; [lia..|].
  unfold read_switch. rewrite gets_step. cbn [set_rd_prev rd_state].
  change (2 =? 0) with false. change (2 =? 1) with false. change (2 =? 2) with true. cbn iota.
  unfold read_txout_cnt. rewrite gets_step. cbn [set_rd_prev rd_pos].
  rewrite (get_varint_at _ n rest) by (try done; lia). rewrite advance_step. cbn [fst snd].
  destruct (Z.eqb_spec n 0) as [->|Hn0]; unfold modify, mbind, prog_bind, arr_malloc; rewrite ?T;
    rd_norm; [done|].
  unfold filling. cbn [length]. by rewrite Nat.sub_0_r.
Qed.

Lemma txout_body o done_ n tx p st prev r rest :
  small (out_spk o) → in_range 64 (out_value o) →
  at_pos d p (out_wire o ++ rest) → (length done_ < n)%nat → zlen done_ + 1 < 2 ^ 32 →
  vout tx = filling fresh_vout done_ n →
  read_txout_body d (zlen (compact_size (zlen (out_spk o)))) (zlen (out_spk o))
    (mk_rd tx p st (zlen done_) prev r) =
  Ret tt (mk_rd (set_vout (vout_cnt tx) (filling fresh_vout
                   (done_ ++ (rep_out <$> fresh_opts (length done_) [o])) n) tx)
            (p + zlen (out_wire o)) st (zlen done_ + 1) prev r).
Proof.
  intros Hs Hn Hat Hl Hl' Hv. pose proof (at_pos_length _ _ _ Hat) as HL.
  pose proof (proj1 Hat) as Hp. unfold out_wire, var_bytes in *. rewrite <- !app_assoc in Hat.
  rewrite !length_app, !length_le_bytes, !Nat2Z.inj_add in *.
  change (Z.of_nat 8) with 8 in *. set (c := compact_size (zlen (out_spk o))) in *.
  pose proof (at_pos_step _ _ _ _ (p + 8) Hat ltac:(rewrite length_le_bytes; lia)) as Hat1.
  pose proof (at_pos_step _ _ _ _ (p + 8 + zlen c) Hat1 ltac:(lia)) as Hat2.
  unfold read_txout_body. rewrite gets_step, modify_step, gets_step. rd_norm.
  erewrite get_le64_at by (try exact Hat; done). rewrite !advance_step. rd_norm.
  rewrite read_script_at with (rest := rest) by first [exact Hat2 | cbn [rd_pos]; unfold in_range; lia].
  rewrite gets_step. rd_norm. rewrite Hv, filling_get by done. cbn [of_option].
  rewrite bind_mret, filling_set by done. cbn [of_option].
  unfold modify, mbind, prog_bind, mret, prog_ret. rd_norm.
  f_equal. f_equal. lia.
Qed.

Lemma txout_round o done_ n tx p prev r rest :
  small (out_spk o) → in_range 64 (out_value o) →
  at_pos d p (out_wire o ++ rest) → prev < p → 4 ≤ zlen rest →
  (length done_ < n)%nat → Z.of_nat n < 2 ^ 31 → vout_cnt tx = Z.of_nat n →
  vout tx = filling fresh_vout done_ n →
  runs 1 (mk_rd tx p 3 (zlen done_) prev r)
    (mk_rd (set_vout (Z.of_nat n) (filling fresh_vout
              (done_ ++ (rep_out <$> fresh_opts (length done_) [o])) n) tx)
       (p + zlen (out_wire o))
       (if bool_decide (n ≤ length done_ + 1)%nat then if segwit then 4 else 5 else 3)
       (if bool_decide (n ≤ length done_ + 1)%nat then 0 else zlen done_ + 1) p r).
Proof.
  intros Hs Hn Hat Hprev Hr Hl Hn' Hc Hv.
  pose proof (at_pos_length _ _ _ Hat) as HL. rewrite length_app in HL.
  pose proof (proj1 Hat) as Hp.
  assert (zlen (out_wire o) = 8 + zlen (compact_size (zlen (out_spk o))) + zlen (out_spk o)) as Ew.
  { unfold out_wire, var_bytes. rewrite !length_app, !length_le_bytes. lia. }
  assert (1 ≤ zlen (compact_size (zlen (out_spk o)))) as Hc1
    by (unfold compact_size; repeat case_match; cbn [length]; lia).
  apply runs_step; cbn [rd_pos rd_prev]; [lia..|].
  unfold read_switch. rewrite gets_step. cbn [set_rd_prev rd_state].
  change (3 =? 0) with false. change (3 =? 1) with false. change (3 =? 2) with false.
  change (3 =? 3) with true. cbn iota.
  unfold read_txout. rewrite gets_step. rd_norm. rewrite (proj2 (Z.leb_le _ _)) by lia.
  assert (at_pos d (p + 8) (compact_size (zlen (out_spk o)) ++ out_spk o ++ rest)) as Hat1.
  { unfold out_wire, var_bytes in Hat. rewrite <- !app_assoc in Hat.
    eapply at_pos_step; [exact Hat|]. by rewrite length_le_bytes. }
  pose proof Hs as Hsm. unfold small in Hsm.
  rewrite get_varint_at with (n := zlen (out_spk o)) (rest := out_spk o ++ rest) by first [exact Hat1 | lia].
  cbn [fst snd]. rd_norm. rewrite (proj2 (Z.leb_le _ _)) by lia.
  erewrite bind_ret by (eapply txout_body; try done; lia).
  rewrite get_st_step. cbn [rd_tx rd_cnt set_vout vout_cnt]. rewrite Hc.
  case_bool_decide as Hb.
  - rewrite (proj2 (Z.leb_le _ _)) by lia. done.
  - rewrite (proj2 (Z.leb_gt _ _)) by lia. done.
Qed.

Lemma fresh_opts_app k os1 os2 :
  fresh_opts k (os1 ++ os2) = fresh_opts k os1 ++ fresh_opts (k + length os1) os2.
Proof.
  revert k. induction os1 as [|o os IH]; intros k; cbn [app fresh_opts length].
  - by rewrite Nat.add_0_r.
  - by rewrite IH, Nat.add_succ_r.
Qed.

Lemma length_fresh_opts k os : length (fresh_opts k os) = length os.
Proof. revert k. induction os as [|o os IH]; intros k; cbn [fresh_opts length]; [done|]. by rewrite IH. Qed.

Lemma txouts_rounds outs : Forall (λ o, small (out_spk o)) outs →
  Forall (λ o, in_range 64 (out_value o)) outs →
  ∀ done_ n tx p prev r rest, outs ≠ [] →
  at_pos d p (concat (out_wire <$> outs) ++ rest) → prev < p → 4 ≤ zlen rest →
  n = (length done_ + length outs)%nat → Z.of_nat n < 2 ^ 31 → vout_cnt tx = Z.of_nat n →
  vout tx = filling fresh_vout done_ n →
  ∃ prev', prev' < p + zlen (concat (out_wire <$> outs)) ∧
  runs (length outs) (mk_rd tx p 3 (zlen done_) prev r)
    (mk_rd (set_vout (Z.of_nat n) (Some (done_ ++ (rep_out <$> fresh_opts (length done_) outs))) tx)
       (p + zlen (concat (out_wire <$> outs))) (if segwit then 4 else 5) 0 prev' r).
Proof.
  induction 1 as [|o outs Ho Houts IH]; intros Hr done_ n tx p prev r rest Hne Hat Hprev Hrest Hn Hn' Hc Hv;
    [done|].
  apply Forall_cons_1 in Hr as [Hro Hr]. cbn [fmap list_fmap concat length] in *.
  rewrite <- app_assoc in Hat.
  assert (1 ≤ zlen (out_wire o)) as Hw1 by (unfold out_wire; rewrite length_app, length_le_bytes; lia).
  pose proof (txout_round o done_ n tx p prev r (concat (out_wire <$> outs) ++ rest) Ho Hro Hat Hprev
    ltac:(rewrite length_app; lia) ltac:(lia) Hn' Hc Hv) as Hround.
  pose proof (at_pos_app _ _ _ _ Hat) as Hat'.
  set (x := rep_out <$> fresh_opts (length done_) [o]) in *.
  assert (length (done_ ++ x) = (length done_ + 1)%nat) as Hx by (rewrite length_app; done).
  destruct outs as [|o' outs].
  - exists p. cbn [fmap list_fmap concat length] in *. rewrite app_nil_r. split; [lia|].
    rewrite !bool_decide_eq_true_2 in Hround by lia.
    replace (filling fresh_vout (done_ ++ x) n) with (Some (done_ ++ x)) in Hround; [exact Hround|].
    rewrite <- (filling_full fresh_vout). f_equal. lia.
  - rewrite !bool_decide_eq_false_2 in Hround by (cbn [length] in Hn; lia).
    destruct (IH Hr (done_ ++ x) n
      (set_vout (Z.of_nat n) (filling fresh_vout (done_ ++ x) n) tx)
      (p + zlen (out_wire o)) p r rest) as (prev' & Hp' & Hruns); try done; try lia.
    exists prev'. rewrite length_app, Nat2Z.inj_add, Z.add_assoc. split; [lia|].
    replace (zlen done_ + 1) with (Z.of_nat (S (length done_))) in Hround by lia.
    eapply (runs_trans 1 (length (o' :: outs))); [exact Hround|].
    rewrite Hx, <- app_assoc, Nat.add_1_r in Hruns. exact Hruns.
Qed.
Lemma arr_get_mid {X} (pre : list X) x post : arr_get (Some (pre ++ x :: post)) (zlen pre) = Some x.
Proof.
  unfold arr_get. rewrite (proj2 (Z.leb_le _ _)), Nat2Z.id by lia. by apply list_lookup_middle.
Qed.

Lemma arr_set_mid {X} (pre : list X) x y post :
  arr_set (Some (pre ++ x :: post)) (zlen pre) y = Some (Some (pre ++ y :: post)).
Proof.
  unfold arr_set. rewrite arr_get_mid. cbn. rewrite Nat2Z.id.
  rewrite <- (Nat.add_0_r (length pre)) at 1. by rewrite insert_app_r.
Qed.

Lemma read_item_at w done_ n m v pre post tx p st prev r rest :
  small w → at_pos d p (var_bytes w ++ rest) → 4 ≤ zlen rest → (length done_ < n)%nat →
  vin tx = Some (pre ++ set_witness m (filling fresh_buf (bufb <$> done_) n) v :: post) →
  read_item d L (zlen pre) (length done_) (mk_rd tx p st (zlen pre) prev r) =
  Ret tt (mk_rd (set_vin (vin_cnt tx)
                   (Some (pre ++ set_witness m (filling fresh_buf (bufb <$> done_ ++ [w]) n) v :: post)) tx)
            (p + zlen (var_bytes w)) st (zlen pre) prev r).
Proof.
  intros Hw Hat Hr Hl Hv. pose proof (at_pos_length _ _ _ Hat) as HL. rewrite length_app in HL.
  pose proof (proj1 Hat) as Hp. unfold small, var_bytes in *. rewrite <- app_assoc in Hat.
  rewrite length_app in *. set (c := compact_size (zlen w)) in *.
  pose proof (at_pos_step _ _ _ _ (p + zlen c) Hat ltac:(lia)) as Hat1.
  unfold read_item. rewrite gets_step. rd_norm.
  rewrite get_varint_at with (n := zlen w) (rest := w ++ rest) by first [exact Hat | lia].
  cbn [fst snd]. fold c. rewrite advance_step, gets_step. rd_norm. rewrite (proj2 (Z.leb_le _ _)) by lia.
  rewrite (alloccopy_at _ _ _ Hat1). cbn [of_option]. rewrite bind_mret. cbn [snd].
  rewrite advance_step, gets_step. rd_norm. rewrite bufb_len. u32s.
  rewrite Hv, arr_get_mid. cbn [of_option]. rewrite bind_mret. cbn [set_witness witness wit_cnt].
  rewrite <- (length_fmap bufb done_).
  rewrite filling_set by (rewrite length_fmap; done). cbn [of_option]. rewrite bind_mret.
  rewrite arr_set_mid. cbn [of_option]. rewrite bind_mret.
  unfold modify. rd_norm. rewrite fmap_app. f_equal. f_equal. lia.
Qed.

Lemma read_items ws : Forall small ws → ∀ done_ n m v pre post tx p st prev r rest,
  at_pos d p (concat (var_bytes <$> ws) ++ rest) → 4 ≤ zlen rest →
  n = (length done_ + length ws)%nat →
  vin tx = Some (pre ++ set_witness m (filling fresh_buf (bufb <$> done_) n) v :: post) →
  for_idx (seq (length done_) (length ws)) (λ lp _, read_item d L (zlen pre) lp) tt
    (mk_rd tx p st (zlen pre) prev r) =
  Ret tt (mk_rd (set_vin (vin_cnt tx)
                   (Some (pre ++ set_witness m (Some (bufb <$> done_ ++ ws)) v :: post)) tx)
            (p + zlen (concat (var_bytes <$> ws))) st (zlen pre) prev r).
Proof.
  induction 1 as [|w ws Hw _ IH]; intros done_ n m v pre post tx p st prev r rest Hat Hr Hn Hv.
  - cbn [length seq for_idx fmap list_fmap concat]. unfold mret, prog_ret.
    change (Z.of_nat 0) with 0. rewrite Z.add_0_r, app_nil_r.
    assert (filling fresh_buf (bufb <$> done_) n = Some (bufb <$> done_)) as E.
    { rewrite <- (filling_full fresh_buf). f_equal. rewrite length_fmap. cbn in Hn. lia. }
    rewrite E in Hv. rewrite <- Hv. by destruct tx.
  - cbn [length seq for_idx fmap list_fmap concat] in *. rewrite <- app_assoc in Hat.
    erewrite bind_ret.
    2:{ eapply read_item_at; try done; [rewrite length_app|]; lia. }
    pose proof (IH (done_ ++ [w]) n m v pre post
      (set_vin (vin_cnt tx) (Some (pre ++ set_witness m (filling fresh_buf (bufb <$> done_ ++ [w]) n) v :: post)) tx)
      (p + zlen (var_bytes w)) st prev r rest (at_pos_app _ _ _ _ Hat) Hr) as E.
    rewrite length_app, Nat.add_1_r in E. rewrite E by (try done; lia).
    rewrite <- app_assoc, length_app, Nat2Z.inj_add, Z.add_assoc. done.
Qed.

Lemma wit_round i pre post tx p prev r rest :
  in_ok i → in_wit i ≠ [] → at_pos d p (wit_wire i ++ rest) → prev < p → 4 ≤ zlen rest →
  vin_cnt tx = zlen (pre ++ raw_in i :: post) → vin_cnt tx < 2 ^ 31 →
  vin tx = Some (pre ++ raw_in i :: post) →
  runs 1 (mk_rd tx p 4 (zlen pre) prev r)
    (mk_rd (set_vin (vin_cnt tx) (Some (pre ++ rep_in i :: post)) tx)
       (p + zlen (wit_wire i)) (if bool_decide (post = []) then 5 else 4) (zlen pre + 1) p r).
Proof.
  intros Hok Hne Hat Hprev Hr Hc Hc31 Hv. pose proof (at_pos_length _ _ _ Hat) as HL.
  rewrite length_app in HL. pose proof (proj1 Hat) as Hp.
  pose proof (wit_small i Hok) as Hs. unfold small in Hs. rewrite length_app in Hc. cbn [length] in Hc.
  unfold wit_wire, var_list in *. rewrite <- app_assoc in Hat. rewrite length_app in *.
  set (c := compact_size (zlen (in_wit i))) in *.
  assert (1 ≤ zlen c) by (unfold c, compact_size; repeat case_match; cbn [length]; lia).
  apply runs_step; cbn [rd_pos rd_prev]; [lia..|].
  unfold read_switch. rewrite gets_step. cbn [set_rd_prev rd_state].
  change (4 =? 0) with false. change (4 =? 1) with false. change (4 =? 2) with false.
  change (4 =? 3) with false. change (4 =? 4) with true. cbn iota.
  unfold read_witness. rewrite get_st_step. rd_norm.
  rewrite (proj2 (Z.leb_le _ _)), (proj2 (Z.ltb_lt _ _)) by lia. cbn [andb].
  rewrite get_varint_at with (n := zlen (in_wit i)) (rest := concat (var_bytes <$> in_wit i) ++ rest)
    by first [exact Hat | lia].
  cbn [fst snd]. fold c. rewrite advance_step, gets_step. rd_norm. rewrite Hv, arr_get_mid.
  cbn [of_option]. rewrite bind_mret, arr_set_mid. cbn [of_option]. rewrite bind_mret, modify_step. rd_norm.
  unfold arr_malloc. rewrite T, Nat2Z.id.
  erewrite bind_ret.
  2:{ apply (read_items (in_wit i) (items_small i Hok) [] (length (in_wit i)) (zlen (in_wit i)) (raw_in i)
        pre post) with (rest := rest); [|done|done|].
      - eapply at_pos_step; [exact Hat|]. lia.
      - unfold filling. cbn [length fmap list_fmap app]. by rewrite Nat.sub_0_r. }
  rewrite modify_step, get_st_step. rd_norm. cbn [set_vin vin_cnt].
  assert (set_witness (zlen (in_wit i)) (Some (bufb <$> [] ++ in_wit i)) (raw_in i) = rep_in i) as ->.
  { unfold rep_in, set_witness, raw_in, arr. cbn [app txid index vin_script sequence].
    rewrite bool_decide_eq_false_2; [done|]. by intros ?%fmap_nil_inv. }
  case_bool_decide as Hb.
  - subst post. rewrite (proj2 (Z.leb_le _ _)) by (cbn [length] in Hc; lia).
    unfold modify. rd_norm. rewrite set_vin_set. f_equal. f_equal. lia.
  - rewrite (proj2 (Z.leb_gt _ _)) by (destruct post; [done|cbn [length] in Hc; lia]).
    unfold mret, prog_ret. rewrite set_vin_set. f_equal. f_equal. lia.
Qed.

Lemma wits_rounds ins : Forall in_ok ins → Forall (λ i, in_wit i ≠ []) ins →
  ∀ pre tx p prev r rest, ins ≠ [] →
  at_pos d p (concat (wit_wire <$> ins) ++ rest) → prev < p → 4 ≤ zlen rest →
  vin_cnt tx = zlen (pre ++ (raw_in <$> ins)) → vin_cnt tx < 2 ^ 31 →
  vin tx = Some (pre ++ (raw_in <$> ins)) →
  ∃ prev' cnt, prev' < p + zlen (concat (wit_wire <$> ins)) ∧
  runs (length ins) (mk_rd tx p 4 (zlen pre) prev r)
    (mk_rd (set_vin (vin_cnt tx) (Some (pre ++ (rep_in <$> ins))) tx)
       (p + zlen (concat (wit_wire <$> ins))) 5 cnt prev' r).
Proof.
  induction 1 as [|i ins Hi Hins IH]; intros Hw pre tx p prev r rest Hne Hat Hprev Hrest Hc Hc31 Hv; [done|].
  apply Forall_cons_1 in Hw as [Hwi Hw]. cbn [fmap list_fmap concat length] in *.
  rewrite <- app_assoc in Hat.
  assert (1 ≤ zlen (wit_wire i)) as Hw1.
  { unfold wit_wire, var_list, compact_size. rewrite length_app. repeat case_match; cbn [length]; lia. }
  pose proof (wit_round i pre (raw_in <$> ins) tx p prev r (concat (wit_wire <$> ins) ++ rest) Hi Hwi Hat
    Hprev ltac:(rewrite length_app; lia) Hc Hc31 Hv) as Hround.
  pose proof (at_pos_app _ _ _ _ Hat) as Hat'.
  destruct ins as [|j ins].
  - exists p, (zlen pre + 1). cbn [fmap list_fmap concat length] in *. rewrite app_nil_r. split; [lia|].
    by rewrite bool_decide_eq_true_2 in Hround.
  - rewrite bool_decide_eq_false_2 in Hround by done.
    destruct (IH Hw (pre ++ [rep_in i])
      (set_vin (vin_cnt tx) (Some (pre ++ rep_in i :: (raw_in <$> j :: ins))) tx)
      (p + zlen (wit_wire i)) p r rest) as (prev' & cnt & Hp' & Hruns); try done; try lia.
    { rewrite <- app_assoc. cbn [set_vin vin_cnt]. by rewrite Hc, !length_app. }
    { rewrite <- app_assoc. done. }
    exists prev', cnt. rewrite length_app, Nat2Z.inj_add, Z.add_assoc. split; [lia|].
    eapply (runs_trans 1 (length (j :: ins))); [exact Hround|].
    rewrite length_app, <- app_assoc, set_vin_set in Hruns.
    replace (zlen pre + 1) with (Z.of_nat (length pre + 1)) by lia. exact Hruns.
Qed.

Lemma locktime_round n tx p cnt prev r :
  in_range 32 n → at_pos d p (le_bytes 4 n) → prev < p →
  runs 1 (mk_rd tx p 5 cnt prev r) (mk_rd (set_locktime n tx) L 5 cnt p r).
Proof.
  intros Hn Hat Hprev. pose proof (at_pos_length _ _ _ Hat) as HL. rewrite length_le_bytes in HL.
  pose proof (proj1 Hat) as Hp. apply runs_step; cbn [rd_pos rd_prev]; [lia..|].
  unfold read_switch. rewrite gets_step. cbn [set_rd_prev rd_state].
  change (5 =? 0) with false. change (5 =? 1) with false. change (5 =? 2) with false.
  change (5 =? 3) with false. change (5 =? 4) with false. change (5 =? 5) with true. cbn iota.
  unfold read_locktime. rewrite gets_step. rd_norm.
  rewrite get_le32_at with (n := n) (rest := []) by first [by rewrite app_nil_r | done].
  rewrite modify_step. unfold advance, modify. rd_norm. f_equal. f_equal. lia.
Qed.
End rounds.
End read.

(** ** Reading back what was written *)

Section roundtrip.
Context {A : Alloc} {T : AllocTotal A} {F : Fresh}.

(** The transaction with the [opt] fields a reader leaves behind. *)
Definition read_back (t : transaction) : transaction :=
  mk_trans (t_version t) (t_ins t) (fresh_opts 0 (t_outs t)) (t_lock t).

Lemma swrap_wrap v : - 2 ^ 31 ≤ v < 2 ^ 31 → swrap 32 (wrap 32 v) = v.
Proof.
  intros Hv. unfold swrap, wrap. rewrite Z.add_mod_idemp_l by lia.
  rewrite Z.mod_small; lia.
Qed.

Lemma compact_first n rest : 0 < n < 0x10000 →
  ∃ b l, compact_size n ++ rest = b :: l ∧ b ≠ 0.
Proof.
  intros Hn. unfold compact_size. repeat case_match; cbn [app]; eexists _, _; (split; [done|]); lia.
Qed.

Lemma ins_stage d dbg sw t tx p prev rest :
  zlen d < 2 ^ 31 → tx_ok t → tx_range t → t_ins t ≠ [] →
  at_pos d p (var_list in_wire (t_ins t) ++ rest) → prev < p → 5 ≤ zlen rest →
  ∃ prev', prev' < p + zlen (var_list in_wire (t_ins t)) ∧
  runs d dbg sw (1 + length (t_ins t)) (mk_rd tx p 0 0 prev 0)
    (mk_rd (set_vin (zlen (t_ins t)) (Some (raw_in <$> t_ins t)) tx)
       (p + zlen (var_list in_wire (t_ins t))) 2 (zlen (t_ins t)) prev' 0).
Proof.
  intros Hd [Hi _ Hsi _] [_ _ Hir _] Hne Hat Hprev Hrest. unfold small, var_list in *.
  rewrite <- app_assoc in Hat. rewrite length_app, Nat2Z.inj_add, Z.add_assoc.
  assert (0 < length (t_ins t))%nat by (destruct (t_ins t); [done|cbn; lia]).
  pose proof (at_pos_app _ _ _ _ Hat) as Hat1.
  destruct (txins_rounds d Hd dbg sw (t_ins t) Hi Hir [] (length (t_ins t))
    (set_vin (zlen (t_ins t)) (filling fresh_vin [] (length (t_ins t))) tx)
    _ p 0 rest Hne Hat1) as (prev' & Hp' & Hr); try done; try lia.
  { unfold compact_size. repeat case_match; cbn [length]; lia. }
  assert (concat (in_wire <$> t_ins t) ++ rest ≠ []) as Hne'
    by (intros [_ ->]%app_nil; cbn in Hrest; lia).
  pose proof (txin_cnt_round d Hd dbg sw (zlen (t_ins t)) tx p 0 prev 0 _ ltac:(lia) Hat Hprev Hne') as R.
  rewrite Nat2Z.id in R. exists prev'. split; [done|]. eapply runs_trans; [exact R|exact Hr].
Qed.

Lemma outs_stage d dbg (sw : bool) t tx p cnt prev rest :
  zlen d < 2 ^ 31 → tx_ok t → tx_range t →
  at_pos d p (var_list out_wire (t_outs t) ++ rest) → prev < p → 4 ≤ zlen rest →
  ∃ prev', prev' < p + zlen (var_list out_wire (t_outs t)) ∧
  runs d dbg sw (1 + length (t_outs t)) (mk_rd tx p 2 cnt prev 0)
    (mk_rd (set_vout (zlen (t_outs t)) (arr (rep_out <$> fresh_opts 0 (t_outs t))) tx)
       (p + zlen (var_list out_wire (t_outs t))) (if sw then 4 else 5) 0 prev' 0).
Proof.
  intros Hd [_ Ho _ Hso] [_ _ _ Hor] Hat Hprev Hrest. unfold small, var_list in *.
  rewrite <- app_assoc in Hat. rewrite length_app, Nat2Z.inj_add, Z.add_assoc.
  pose proof (at_pos_app _ _ _ _ Hat) as Hat1.
  assert (0 < zlen (compact_size (zlen (t_outs t)))) as Hc
    by (unfold compact_size; repeat case_match; cbn [length]; lia).
  assert (concat (out_wire <$> t_outs t) ++ rest ≠ []) as Hne'
    by (intros [_ ->]%app_nil; cbn in Hrest; lia).
  pose proof (txout_cnt_round d Hd dbg sw (zlen (t_outs t)) tx p cnt prev 0 _ ltac:(lia) Hat Hprev Hne') as R.
  destruct (t_outs t) as [|o outs] eqn:Eo.
  - exists p. split; [cbn [fmap list_fmap concat length] in *; lia|].
    cbn [fmap list_fmap concat length] in *. rewrite Z.add_0_r. exact R.
  - rewrite (proj2 (Z.eqb_neq _ _)) in R by (cbn [length]; lia). rewrite Nat2Z.id in R.
    destruct (txouts_rounds d Hd dbg sw (o :: outs) Ho Hor [] (length (o :: outs))
      (set_vout (zlen (o :: outs)) (filling fresh_vout [] (length (o :: outs))) tx)
      _ p 0 rest ltac:(done) Hat1) as (prev' & Hp' & Hr); try done; try lia.
    exists prev'. split; [done|]. eapply runs_trans; [exact R|exact Hr].
Qed.

(** The loop, from the number of inputs to the end. *)
Lemma read_loop_wire t (sw : bool) dbg fuel d tx pos prev :
  at_pos d pos (var_list in_wire (t_ins t) ++ var_list out_wire (t_outs t) ++
    (if sw then concat (wit_wire <$> t_ins t) else []) ++ le_bytes 4 (t_lock t)) →
  prev < pos → tx_ok t → tx_range t → t_ins t ≠ [] → zlen d < 2 ^ 31 →
  Forall (λ i, if sw then in_wit i ≠ [] else in_wit i = []) (t_ins t) →
  (2 * length (t_ins t) + length (t_outs t) + 4 ≤ fuel)%nat → version tx = t_version t →
  ∃ s, read_loop d (zlen d) dbg sw fuel (mk_rd tx pos 0 0 prev 0) = Ret true s ∧
       rd_tx s = rep (read_back t).
Proof.
  intros Hat Hprev Hok Hr Hne Hd Hw Hfuel Hv.
  destruct (ins_stage d dbg sw t tx pos prev _ Hd Hok Hr Hne Hat Hprev) as (prev1 & Hp1 & R1).
  { rewrite !length_app, length_le_bytes. unfold var_list. rewrite length_app.
    unfold compact_size. repeat case_match; cbn [length]; lia. }
  apply at_pos_app in Hat.
  destruct (outs_stage d dbg sw t (set_vin (zlen (t_ins t)) (Some (raw_in <$> t_ins t)) tx)
    _ (zlen (t_ins t)) prev1 _ Hd Hok Hr Hat Hp1) as (prev2 & Hp2 & R2).
  { rewrite length_app, length_le_bytes. lia. }
  apply at_pos_app in Hat. set (tx2 := set_vout _ _ _) in R2. set (p2 := pos + _ + _) in *.
  assert (∃ n p3 cnt prev3, (n ≤ length (t_ins t))%nat ∧ prev3 < p3 ∧ at_pos d p3 (le_bytes 4 (t_lock t)) ∧
    runs d dbg sw n (mk_rd tx2 p2 (if sw then 4 else 5) 0 prev2 0)
      (mk_rd (set_vin (zlen (t_ins t)) (Some (rep_in <$> t_ins t)) tx2) p3 5 cnt prev3 0))
    as (n & p3 & cnt & prev3 & Hn & Hp3 & Hat3 & R3).
  { destruct sw.
    - destruct (wits_rounds d Hd dbg true (t_ins t) (ins_ok t Hok) Hw [] tx2 p2 prev2 0 (le_bytes 4 (t_lock t)))
        as (prev3 & cnt & Hp3 & R3); try done.
      { cbn [app]. by rewrite length_fmap. }
      { cbn. pose proof (ins_small t Hok) as Hs. unfold small in Hs. lia. }
      apply at_pos_app in Hat. eexists (length (t_ins t)), _, cnt, prev3. split; [lia|]. split; [done|]. split; [exact Hat|exact R3].
    - exists 0%nat, p2, 0, prev2. split; [lia|]. split; [done|]. split; [by cbn [app] in Hat|].
      assert (rep_in <$> t_ins t = raw_in <$> t_ins t) as ->; [|apply runs_refl].
      apply list_fmap_ext. intros k i Hk. rewrite Forall_forall in Hw.
      unfold rep_in, raw_in. rewrite (Hw i); [done|].
      apply list_elem_of_In. by eapply list_elem_of_lookup_2. }
  pose proof (locktime_round d Hd dbg sw (t_lock t) (set_vin (zlen (t_ins t)) (Some (rep_in <$> t_ins t)) tx2)
    p3 cnt prev3 0 (lock_range t Hr) Hat3 Hp3) as R4.
  pose proof (runs_trans _ _ _ _ _ _ _ _ (runs_trans _ _ _ _ _ _ _ _ (runs_trans _ _ _ _ _ _ _ _ R1 R2) R3) R4) as R.
  eexists. split.
  - replace fuel with (1 + length (t_ins t) + (1 + length (t_outs t)) + n + 1 +
      S (fuel - (1 + length (t_ins t) + (1 + length (t_outs t)) + n + 1) - 1))%nat by lia.
    rewrite R. apply runs_end. cbn [rd_pos]. lia.
  - cbn [rd_tx]. unfold rep, read_back, tx2. cbn [t_version t_ins t_outs t_lock].
    unfold set_locktime, set_vin, set_vout. cbn [version vin vin_cnt vout vout_cnt].
    rewrite Hv, length_fresh_opts. f_equal. unfold arr. rewrite bool_decide_eq_false_2; [done|].
    by intros ?%fmap_nil_inv.
Qed.

Lemma read_from_wire t (sw : bool) dbg fuel d pos tx :
  at_pos d pos (var_list in_wire (t_ins t) ++ var_list out_wire (t_outs t) ++
    (if sw then concat (wit_wire <$> t_ins t) else []) ++ le_bytes 4 (t_lock t)) →
  tx_ok t → tx_range t → t_ins t ≠ [] → zlen d < 2 ^ 31 →
  Forall (λ i, if sw then in_wit i ≠ [] else in_wit i = []) (t_ins t) →
  (2 * length (t_ins t) + length (t_outs t) + 4 ≤ fuel)%nat → version tx = t_version t →
  read_from dbg d (zlen d) sw fuel pos tx = Ret (Some true) (rep (read_back t)).
Proof.
  intros Hat Hok Hr Hne Hd Hw Hf Hv. unfold read_from.
  destruct (read_loop_wire t sw dbg fuel d tx pos (pos - 1) Hat) as (s & E & <-); try done; [lia|].
  by rewrite E.
Qed.

Lemma read_wire t (sw : bool) dbg fuel tx0 :
  tx_ok t → tx_range t → t_ins t ≠ [] → zlen (tx_wire sw t) < 2 ^ 31 →
  Forall (λ i, if sw then in_wit i ≠ [] else in_wit i = []) (t_ins t) →
  (2 * length (t_ins t) + length (t_outs t) + 4 ≤ fuel)%nat →
  btc_tx_read dbg (tx_wire sw t) (zlen (tx_wire sw t)) fuel tx0 = Ret (Some true) (rep (read_back t)).
Proof.
  intros Hok Hr Hne Hlen Hw Hfuel. set (wire := tx_wire sw t) in *.
  assert (at_pos wire 0 (tx_wire sw t)) as Hat by apply at_pos_0. unfold tx_wire in Hat.
  pose proof (at_pos_step _ _ _ _ 4 Hat ltac:(rewrite length_le_bytes; lia)) as Hat4.
  pose proof (at_pos_length _ _ _ Hat4) as HL. rewrite !length_app, length_le_bytes in HL.
  assert (0 < length (t_ins t))%nat as Hn by (destruct (t_ins t); [done|cbn; lia]).
  pose proof (ins_small t Hok) as Hs. unfold small in Hs.
  unfold btc_tx_read. rewrite (proj2 (Z.ltb_ge _ _)) by lia.
  erewrite bind_ret by (eapply rd_bytes_at; [exact Hat|by rewrite length_le_bytes]).
  rewrite modify_step, le_val_le_bytes. change (8 * Z.of_nat 4) with 32.
  rewrite swrap_wrap by (apply Hr). destruct sw.
  - cbn [app] in Hat4. erewrite rd_byte_at by exact Hat4.
    pose proof (at_pos_cons _ _ _ _ 5 Hat4 eq_refl) as Hat5.
    erewrite rd_byte_at by exact Hat5. cbn [Z.eqb Pos.eqb negb andb].
    apply (read_from_wire t true); try done. by apply (at_pos_cons _ _ _ _ 6 Hat5).
  - cbn [app] in Hat4. pose proof Hat4 as Hat4'. unfold var_list at 1 in Hat4'. rewrite <- app_assoc in Hat4'.
    destruct (compact_first (zlen (t_ins t)) (concat (in_wire <$> t_ins t) ++
      var_list out_wire (t_outs t) ++ le_bytes 4 (t_lock t))) as (b & l & E & Hb); [lia|].
    rewrite E in Hat4'. erewrite rd_byte_at by exact Hat4'.
    pose proof (at_pos_cons _ _ _ _ 5 Hat4' eq_refl) as Hat5.
    destruct l as [|fl l].
    { apply at_pos_length in Hat4'. cbn [length] in *. lia. }
    erewrite rd_byte_at by exact Hat5. rewrite (proj2 (Z.eqb_neq b 0)) by done. cbn [andb].
    by apply (read_from_wire t false).
Qed.

Lemma all_or_none t : (has_wit t = true → complete t) →
  Forall (λ i, if has_wit t then in_wit i ≠ [] else in_wit i = []) (t_ins t).
Proof.
  intros Hc. destruct (has_wit t) eqn:E.
  - eapply Forall_impl; [|exact (Hc eq_refl)]. intros i Hi Ei. cbn beta in Hi. rewrite Ei in Hi.
    cbn in Hi. lia.
  - unfold has_wit in E. clear Hc. induction (t_ins t) as [|i ins IH]; [done|].
    cbn [existsb] in E. apply orb_false_iff in E as [Ei E]. apply negb_false_iff in Ei.
    constructor; [by apply bool_decide_eq_true_1 in Ei | by apply IH].
Qed.

(** C37: What [btc_tx_create] writes is read back, with or without the check of
    [PTARM_DEBUG], into the same transaction: all of it but the [opt] fields,
    which the reader leaves as the allocation held them. *)
Theorem tx_roundtrip t PTARM_DEBUG fuel st tx0 :
  tx_ok t → tx_range t → t_ins t ≠ [] → (has_wit t = true → complete t) →
  zlen (tx_wire (has_wit t) t) < 2 ^ 31 →
  (2 * length (t_ins t) + length (t_outs t) + 4 ≤ fuel)%nat →
  run (btc_tx_create (rep t)) st =
    Ret true (mk_push (zlen (tx_wire (has_wit t) t)) (of_bytes (tx_wire (has_wit t) t))) ∧
  btc_tx_read PTARM_DEBUG (tx_wire (has_wit t) t) (zlen (tx_wire (has_wit t) t)) fuel tx0 =
    Ret (Some true) (rep (read_back t)).
Proof.
  intros Hok Hr Hne Hc Hlen Hfuel. split.
  - unfold btc_tx_create, call. unfold run at 1. rewrite create_tx_eq by (cbn [andb]; try done; lia).
    cbn [andb]. by rewrite bool_decide_eq_true_2.
  - apply read_wire; try done. by apply all_or_none.
Qed.
End roundtrip.

Definition zero_fresh : Fresh := {|
  fresh_vin _ := mk_vin [] 0 (mk_buf None 0) 0 None 0;
  fresh_vout k := mk_vout 0 (mk_buf None 0) (Z.of_nat k);
  fresh_buf _ := mk_buf None 0;
|}.

Lemma tx_roundtrip_witness :
  @btc_tx_read total_alloc zero_fresh true (tx_wire true (sample_tx [[[1; 2]; [3]]; [[4]]]))
    (zlen (tx_wire true (sample_tx [[[1; 2]; [3]]; [[4]]]))) 10 btc_tx_init =
  Ret (Some true) (rep (@read_back zero_fresh (sample_tx [[[1; 2]; [3]]; [[4]]]))).
Proof.
  refine (proj2 (@tx_roundtrip total_alloc _ zero_fresh (sample_tx [[[1; 2]; [3]]; [[4]]]) true 10
    (mk_push 0 (mk_buf None 0)) btc_tx_init _ _ _ _ _ _)).
  - apply sample_ok; by repeat constructor.
  - split; by repeat constructor.
  - done.
  - intros _. by repeat constructor.
  - by vm_compute.
  - by vm_compute; repeat constructor.
Defined.
End BtcTxRead.
