(* ===== verification/BtcTxLoop.v ===== *)
(** When the loop of [btc_tx_read] ends.

    A round moves the position, or the state of the switch, forward, or changes
    nothing at all ([round_progress]). With [PTARM_DEBUG] rounds of the last kind
    are counted and the loop is left; without, it never ends. *)
From stdpp Require Import base list numbers tactics.
From Stdlib Require Import ZArith Lia.
From S2P Require Import Prelude CProg UtlBuf UtlPush LnMsg BtcTx BtcTxWire BtcTxRead.
Import UtlBuf UtlPush LnMsg BtcTx BtcTxWire BtcTxRead.
Open Scope Z_scope.

Module BtcTxLoop.

Section loop.
Context {A : Alloc} {T : AllocTotal A} {F : Fresh}.
Context (d : bytes) (Hd : zlen d < 2 ^ 31) (Hb : is_bytes d) (Len : Z).

(** The position has moved from [p] and is at most 4 bytes past the data. *)
Definition ahead (p prev r : Z) (s : rd) : Prop :=
  p < rd_pos s ≤ zlen d + 4 ∧ rd_prev s = prev ∧ rd_rep s = r ∧ 0 ≤ rd_state s ≤ 5.

(** Another input, or output, is due and its script would end behind the packet. *)
Definition stuck (s : rd) : Prop :=
  rd_state s = 1 ∧ u32 (rd_pos s + 41 + 1 + 4) ≤ Len ∧ rd_cnt s < vin_cnt (rd_tx s) ∧
    (∃ k n, (∀ s0, get_varint d (rd_pos s + 32 + 4) s0 = Ret (k, n) s0) ∧
            Len < u32 (rd_pos s + 40 + k + n + 1 + 4)) ∨
  rd_state s = 3 ∧ u32 (rd_pos s + 9 + 4) ≤ Len ∧ rd_cnt s < vout_cnt (rd_tx s) ∧
    (∃ k n, (∀ s0, get_varint d (rd_pos s + 8) s0 = Ret (k, n) s0) ∧
            Len < u32 (rd_pos s + 8 + k + n + 4)).

(** What a round does. *)
Definition progress (s s' : rd) : Prop :=
  ahead (rd_pos s) (rd_prev s) (rd_rep s) s' ∨
  rd_pos s' = rd_pos s ∧ rd_prev s' = rd_prev s ∧ rd_rep s' = rd_rep s ∧
  rd_state s < rd_state s' ≤ 5 ∨
  s' = s ∧ stuck s.

Abbreviation never := (λ (_ : bool) (_ : rd), False).

Lemma wp_rd_byte p (Q : Z → rd → Prop) X s :
  (∀ b, 0 ≤ p < zlen d → 0 ≤ b < 256 → Q b s) → wp True (rd_byte d p) Q X s.
Proof.
  intros H. unfold rd_byte. apply wp_option; [|done]. intros b E.
  destruct (Z.leb_spec 0 p); [|done]. pose proof (lookup_lt_Some _ _ _ E).
  apply H; [lia|]. rewrite Forall_lookup in Hb. exact (Hb _ _ E).
Qed.

Lemma wp_rd_bytes p n (Q : bytes → rd → Prop) X s :
  (∀ c, 0 ≤ p → p + n ≤ zlen d → Q c s) → wp True (rd_bytes d p n) Q X s.
Proof.
  intros H. unfold rd_bytes. apply wp_option; [|done].
  intros c (_ & Hp & Hn)%sub_bytes_Some. by apply H.
Qed.

Lemma wp_get_le (n : nat) p (Q : Z → rd → Prop) X s :
  (∀ v, 0 ≤ p → p + Z.of_nat n ≤ zlen d → Q v s) →
  wp True (x ← rd_bytes d p (Z.of_nat n); mret (le_val x)) Q X s.
Proof. intros H. apply wp_bind, wp_rd_bytes. intros c Hp Hn. by apply wp_ret, H. Qed.

Lemma get_varint_any p s v s' : get_varint d p s = Ret v s' → ∀ s0, get_varint d p s0 = Ret v s0.
Proof.
  unfold get_varint, rd_byte, of_option, mbind, prog_bind, mret, prog_ret, ub. intros H s0.
  repeat (case_match; try done); congruence.
Qed.

Lemma varint_bounds p s :
  wp True (get_varint d p) (λ v s', s' = s ∧ 0 ≤ p < zlen d ∧ 1 ≤ v.1 ≤ 3 ∧ p + v.1 ≤ zlen d ∧
    0 ≤ v.2 < 0x10000) never s.
Proof.
  unfold get_varint. apply wp_bind, wp_rd_byte. intros b Hp Hb0.
  destruct (b <? 0xfd); [apply wp_ret; split; [done|cbn [fst snd]; lia]|].
  apply wp_bind, wp_rd_byte. intros lo Hlo Hlo'. apply wp_bind, wp_rd_byte. intros hi Hhi Hhi'.
  apply wp_ret. split; [done|]. cbn [fst snd]. rewrite Z.lor_comm, lor_shiftl_add by lia. lia.
Qed.

Lemma wp_get_varint p (Q : Z * Z → rd → Prop) s :
  (∀ k n, 0 ≤ p < zlen d → 1 ≤ k ≤ 3 → p + k ≤ zlen d → 0 ≤ n < 0x10000 →
     (∀ s0, get_varint d p s0 = Ret (k, n) s0) → Q (k, n) s) →
  wp True (get_varint d p) Q never s.
Proof.
  intros H. pose proof (varint_bounds p s) as Hv. unfold wp in *.
  destruct (get_varint d p s) as [[k n] s'|b s'| |] eqn:E; try done.
  cbn [fst snd] in Hv. destruct Hv as (-> & ? & ? & ? & ?).
  apply H; try done. by eapply get_varint_any.
Qed.

Lemma wp_advance n (Q : unit → rd → Prop) X s :
  0 ≤ rd_pos s + n < 2 ^ 32 →
  Q tt (mk_rd (rd_tx s) (rd_pos s + n) (rd_state s) (rd_cnt s) (rd_prev s) (rd_rep s)) →
  wp True (advance n) Q X s.
Proof.
  intros Hn HQ. unfold advance. apply wp_modify. unfold set_rd_pos. by rewrite wrap_small.
Qed.

Lemma wp_gets {B} (f : rd → B) (Q : B → rd → Prop) (X : bool → rd → Prop) s : Q (f s) s → wp True (gets f) Q X s.
Proof. done. Qed.

(** Copying [n] bytes from the position succeeds only inside the data. *)
Lemma alloccopy_inside p n r :
  0 ≤ p → utl_buf_alloccopy (mk_buf None 0) (init_cells (drop (Z.to_nat p) d)) n = Some r →
  len r.2 = Z.max 0 n ∧ (0 < n → p + n ≤ zlen d).
Proof.
  intros Hp. unfold utl_buf_alloccopy, utl_buf_alloc. rewrite malloc_eq.
  destruct (Z.ltb_spec 0 n) as [Hn|Hn]; [|intros [= <-]; cbn; split; lia].
  rewrite bool_decide_eq_true_2 by eauto. unfold write_cells. cbn [buf].
  rewrite (proj2 (Z.eqb_neq _ _)) by lia. case_bool_decide as H; [|done].
  intros [= <-]. cbn [snd set_buf len]. rewrite length_init_cells, length_drop in H. lia.
Qed.

Lemma wp_read_script n (Q : utl_buf_t → rd → Prop) X s :
  0 ≤ n → 0 ≤ rd_pos s ≤ zlen d + 4 →
  (∀ b p, rd_pos s ≤ p ≤ zlen d + 4 →
     Q b (mk_rd (rd_tx s) p (rd_state s) (rd_cnt s) (rd_prev s) (rd_rep s))) →
  wp True (read_script d n) Q X s.
Proof.
  intros Hn Hp H. unfold read_script. destruct (Z.eqb_spec n 0) as [->|Hn0]; cbn [negb].
  - apply wp_ret. specialize (H (mk_buf None 0) (rd_pos s) ltac:(lia)). by destruct s.
  - apply wp_bind, wp_gets, wp_bind, wp_option; [|done]. intros r E.
    destruct (alloccopy_inside _ _ _ (proj1 Hp) E) as [El Hin]. specialize (Hin ltac:(lia)).
    apply wp_bind, wp_advance; [lia|]. apply wp_ret, H. lia.
Qed.

(** Position and loop variables after [p], whatever the transaction holds. *)
Lemma round_txin_cnt s : 0 ≤ rd_pos s →
  wp True (read_txin_cnt d) (λ _, ahead (rd_pos s) (rd_prev s) (rd_rep s)) never s.
Proof.
  intros Hp. unfold read_txin_cnt. apply wp_bind, wp_gets, wp_bind, wp_get_varint.
  intros k n Hp' Hk Hpk Hn _. apply wp_bind, wp_advance; [cbn [fst]; lia|]. cbn [fst snd].
  destruct (n =? 0); apply wp_bind, wp_modify, wp_modify; unfold ahead; cbn in *; lia.
Qed.

Lemma round_txin_body tmp var s : 0 ≤ rd_pos s → 1 ≤ tmp ≤ 3 → 0 ≤ var →
  wp True (read_txin_body d tmp var)
    (λ _ s', rd_pos s < rd_pos s' ≤ zlen d + 4 ∧ rd_prev s' = rd_prev s ∧ rd_rep s' = rd_rep s ∧
             rd_state s' = rd_state s) never s.
Proof.
  intros Hp Ht Hv. unfold read_txin_body. apply wp_bind, wp_gets, wp_bind, wp_modify, wp_bind, wp_gets.
  cbn [set_rd_cnt rd_pos]. apply wp_bind, wp_rd_bytes. intros c _ Hc.
  apply wp_bind, wp_advance; [cbn in *; lia|]. apply wp_bind, wp_gets. cbn [rd_pos].
  apply wp_bind, (wp_get_le 4). intros v _ Hv4.
  apply wp_bind, wp_advance; [cbn in *; lia|]. apply wp_bind, wp_advance; [cbn in *; lia|]. cbn [rd_pos].
  apply wp_bind, wp_read_script; [done|cbn in *; lia|]. intros b q Hq. cbn [rd_pos] in Hq.
  apply wp_bind, wp_gets. cbn [rd_pos]. apply wp_bind, (wp_get_le 4). intros sq _ Hsq.
  apply wp_bind, wp_advance; [cbn in *; lia|]. apply wp_bind, wp_gets, wp_bind, wp_option; [|done].
  intros a _. apply wp_modify. cbn in *. lia.
Qed.

Lemma round_txin s : 0 ≤ rd_pos s → rd_state s = 1 →
  wp True (read_txin d Len) (λ _, progress s) never s.
Proof.
  intros Hp Hs. unfold read_txin. apply wp_bind, wp_gets.
  destruct (Z.leb_spec (u32 (rd_pos s + 41 + 1 + 4)) Len) as [HL1|_]; [|apply wp_modify; right; left; cbn in *; lia].
  apply wp_bind, wp_get_varint. intros k n _ Hk Hpk Hn Hkn. cbn [fst snd].
  destruct (Z.leb_spec (u32 (rd_pos s + 40 + k + n + 1 + 4)) Len) as [_|HL2].
  - apply wp_bind. eapply wp_mono; [apply round_txin_body; lia| |done].
    intros _ s1 (Hp1 & Hprev & Hrep & Hst). apply wp_bind, wp_get.
    destruct (_ <=? _); [apply wp_modify | apply wp_ret]; left; unfold ahead; cbn in *; lia.
  - apply wp_bind, wp_ret, wp_bind, wp_get.
    destruct (Z.leb_spec (vin_cnt (rd_tx s)) (rd_cnt s)); [apply wp_modify; right; left; cbn in *; lia|].
    apply wp_ret. right; right. split; [done|]. left. eauto 10.
Qed.

Lemma round_txout_cnt sw s : 0 ≤ rd_pos s →
  wp True (read_txout_cnt d sw) (λ _, ahead (rd_pos s) (rd_prev s) (rd_rep s)) never s.
Proof.
  intros Hp. unfold read_txout_cnt. apply wp_bind, wp_gets, wp_bind, wp_get_varint.
  intros k n Hp' Hk Hpk Hn _. apply wp_bind, wp_advance; [cbn [fst]; lia|]. cbn [fst snd].
  apply wp_bind. destruct (n =? 0); apply wp_bind, wp_modify, wp_modify, wp_modify;
    unfold ahead; cbn in *; destruct sw; lia.
Qed.

Lemma round_txout_body tmp var s : 0 ≤ rd_pos s → 1 ≤ tmp ≤ 3 → 0 ≤ var →
  wp True (read_txout_body d tmp var)
    (λ _ s', rd_pos s < rd_pos s' ≤ zlen d + 4 ∧ rd_prev s' = rd_prev s ∧ rd_rep s' = rd_rep s ∧
             rd_state s' = rd_state s) never s.
Proof.
  intros Hp Ht Hv. unfold read_txout_body. apply wp_bind, wp_gets, wp_bind, wp_modify, wp_bind, wp_gets.
  cbn [set_rd_cnt rd_pos]. apply wp_bind, (wp_get_le 8). intros v _ Hv8.
  apply wp_bind, wp_advance; [cbn in *; lia|]. apply wp_bind, wp_advance; [cbn in *; lia|]. cbn [rd_pos].
  apply wp_bind, wp_read_script; [done|cbn in *; lia|]. intros b q Hq. cbn [rd_pos] in Hq.
  apply wp_bind, wp_gets, wp_bind, wp_option; [|done]. intros o _.
  apply wp_bind, wp_option; [|done]. intros a _. apply wp_modify. cbn in *. lia.
Qed.

Lemma round_txout sw s : 0 ≤ rd_pos s → rd_state s = 3 →
  wp True (read_txout d Len sw) (λ _, progress s) never s.
Proof.
  intros Hp Hs. unfold read_txout. apply wp_bind, wp_gets.
  destruct (Z.leb_spec (u32 (rd_pos s + 9 + 4)) Len) as [HL1|_];
    [|apply wp_bind, wp_modify, wp_modify; right; left; cbn in *; destruct sw; lia].
  apply wp_bind, wp_get_varint. intros k n _ Hk Hpk Hn Hkn. cbn [fst snd].
  destruct (Z.leb_spec (u32 (rd_pos s + 8 + k + n + 4)) Len) as [_|HL2].
  - apply wp_bind. eapply wp_mono; [apply round_txout_body; lia| |done].
    intros _ s1 (Hp1 & Hprev & Hrep & Hst). apply wp_bind, wp_get.
    destruct (_ <=? _); [apply wp_bind, wp_modify, wp_modify | apply wp_ret]; left; unfold ahead; cbn in *;
      destruct sw; lia.
  - apply wp_bind, wp_ret, wp_bind, wp_get.
    destruct (Z.leb_spec (vout_cnt (rd_tx s)) (rd_cnt s));
      [apply wp_bind, wp_modify, wp_modify; right; left; cbn in *; destruct sw; lia|].
    apply wp_ret. right; right. split; [done|]. right. eauto 10.
Qed.

Lemma round_item i lp p prev r st s : 0 ≤ p → p < rd_pos s ≤ zlen d + 4 →
  rd_prev s = prev → rd_rep s = r → rd_state s = st →
  wp True (read_item d Len i lp)
    (λ _ s', p < rd_pos s' ≤ zlen d + 4 ∧ rd_prev s' = prev ∧ rd_rep s' = r ∧ rd_state s' = st) never s.
Proof.
  intros Hp Hps <- <- <-. unfold read_item. apply wp_bind, wp_gets, wp_bind, wp_get_varint.
  intros k n Hp' Hk Hpk Hn _. cbn [fst snd]. apply wp_bind, wp_advance; [cbn in *; lia|].
  apply wp_bind, wp_gets. cbn [rd_pos]. destruct (_ <=? Len); [|apply wp_ret; cbn in *; lia].
  apply wp_bind, wp_option; [|done]. intros x E.
  destruct (alloccopy_inside (rd_pos s + k) n x ltac:(lia) E) as [El Hin].
  apply wp_bind, wp_advance; [cbn in *; lia|]. apply wp_bind, wp_gets.
  apply wp_bind, wp_option; [|done]. intros v _. apply wp_bind, wp_option; [|done]. intros w _.
  apply wp_bind, wp_option; [|done]. intros a _. apply wp_modify. cbn in *. lia.
Qed.

Lemma round_items i lps p prev r st s : 0 ≤ p → p < rd_pos s ≤ zlen d + 4 →
  rd_prev s = prev → rd_rep s = r → rd_state s = st →
  wp True (for_idx lps (λ lp _, read_item d Len i lp) tt)
    (λ _ s', p < rd_pos s' ≤ zlen d + 4 ∧ rd_prev s' = prev ∧ rd_rep s' = r ∧ rd_state s' = st) never s.
Proof.
  revert s. induction lps as [|lp lps IH]; intros s Hp Hps Hprev Hrep Hst; [by apply wp_ret|].
  cbn [for_idx]. apply wp_bind. eapply wp_mono; [by apply round_item| |done].
  intros [] s1 (Hp1 & Hprev1 & Hrep1 & Hst1). by apply IH.
Qed.

Lemma round_witness s : 0 ≤ rd_pos s → rd_state s = 4 →
  wp True (read_witness d Len) (λ _, progress s) never s.
Proof.
  intros Hp Hs. unfold read_witness. apply wp_bind, wp_get.
  destruct (_ && _); [|apply wp_modify; right; left; cbn in *; lia].
  apply wp_bind, wp_get_varint. intros k n Hp' Hk Hpk Hn _. cbn [fst snd].
  apply wp_bind, wp_advance; [cbn in *; lia|]. apply wp_bind, wp_gets.
  apply wp_bind, wp_option; [|done]. intros v _. apply wp_bind, wp_option; [|done]. intros a _.
  apply wp_bind, wp_modify, wp_bind.
  eapply wp_mono; [apply (round_items _ _ (rd_pos s) (rd_prev s) (rd_rep s) 4); cbn in *; lia| |done].
  intros _ s1 (Hp1 & Hprev1 & Hrep1 & Hst1). apply wp_bind, wp_modify, wp_bind, wp_get.
  destruct (_ <=? _); [apply wp_modify | apply wp_ret]; left; unfold ahead; cbn in *; lia.
Qed.

Lemma round_locktime s : 0 ≤ rd_pos s → rd_state s = 5 →
  wp True (read_locktime d) (λ _, ahead (rd_pos s) (rd_prev s) (rd_rep s)) never s.
Proof.
  intros Hp Hs. unfold read_locktime. apply wp_bind, wp_gets, wp_bind, (wp_get_le 4).
  intros v _ Hv. apply wp_bind, wp_modify, wp_advance; [cbn in *; lia|]. unfold ahead. cbn in *. lia.
Qed.

(** A round moves the position or the state forward, or changes nothing. *)
Lemma round_progress sw s : 0 ≤ rd_pos s → 0 ≤ rd_state s ≤ 5 →
  wp True (read_switch d Len sw) (λ _, progress s) never s.
Proof.
  intros Hp Hs. unfold read_switch. apply wp_bind, wp_gets.
  destruct (Z.eqb_spec (rd_state s) 0) as [E0|E0];
    [|destruct (Z.eqb_spec (rd_state s) 1) as [E1|E1];
    [|destruct (Z.eqb_spec (rd_state s) 2) as [E2|E2];
    [|destruct (Z.eqb_spec (rd_state s) 3) as [E3|E3];
    [|destruct (Z.eqb_spec (rd_state s) 4) as [E4|E4];
    [|destruct (Z.eqb_spec (rd_state s) 5) as [E5|E5]; [|lia]]]]]].
  - eapply wp_mono; [by apply round_txin_cnt|by left|done].
  - by apply round_txin.
  - eapply wp_mono; [by apply round_txout_cnt|by left|done].
  - by apply round_txout.
  - by apply round_witness.
  - eapply wp_mono; [by apply round_locktime|by left|done].
Qed.

(** ** The loop *)

Abbreviation loop dbg sw fuel := (read_loop d Len dbg sw fuel).

(** What is left to do before the loop ends with [PTARM_DEBUG]. *)
Definition debug_measure (s : rd) : Z :=
  2 * Z.max 0 (Len - rd_pos s) + (6 - rd_rep s) + (if rd_prev s =? rd_pos s then 0 else 1).

Lemma debug_ends sw n s : 0 ≤ rd_pos s → 0 ≤ rd_state s ≤ 5 → rd_rep s ≤ 5 →
  debug_measure s ≤ Z.of_nat n → wp True (loop true sw (S n)) (λ b _, b = true) never s.
Proof.
  revert s. induction n as [n IH] using lt_wf_ind. intros s Hp Hs Hr HM. cbn [read_loop].
  apply wp_bind, wp_get. destruct (Z.ltb_spec (rd_pos s) Len) as [HL|]; [|by apply wp_ret].
  unfold debug_measure in HM. set (rep := if rd_prev s =? rd_pos s then _ else _).
  cbn [andb]. destruct (_ && _) eqn:Eb; [done|].
  assert (rep ≤ 5 ∧ 2 * (Len - rd_pos s) + (6 - rep) + 1 ≤ Z.of_nat n) as [Hrep HM'].
  { subst rep. destruct (rd_prev s =? rd_pos s); [|lia].
    cbn [andb] in Eb. apply Z.ltb_ge in Eb. lia. }
  apply wp_bind. unfold wp at 1, put_st. apply wp_bind.
  eapply wp_mono; [apply round_progress; cbn; lia| |done].
  intros [] s' Hs'. unfold progress, ahead in Hs'. cbn [set_rd_prev rd_pos rd_state rd_prev rd_rep] in Hs'.
  destruct n as [|n]; [lia|]. apply (IH n); [lia|..].
  all: destruct Hs' as [Hs'|[Hs'|[Heq _]]]; [| |rewrite Heq]; cbn [set_rd_prev rd_pos rd_state rd_prev rd_rep]; try lia.
  all: unfold debug_measure; cbn [set_rd_prev rd_pos rd_state rd_prev rd_rep];
    match goal with |- context [?a =? ?b] => destruct (Z.eqb_spec a b) end; lia.
Qed.

(** A stuck state stays as it is. *)
Lemma stuck_round sw s a b : stuck s →
  read_switch d Len sw (set_rd_prev a b s) = Ret tt (set_rd_prev a b s).
Proof.
  intros [(Hs & H1 & H2 & k & n & Hv & H3)|(Hs & H1 & H2 & k & n & Hv & H3)];
    unfold read_switch; rewrite gets_step; cbn [set_rd_prev rd_state]; rewrite Hs; cbn [Z.eqb Pos.eqb];
    [unfold read_txin | unfold read_txout]; rewrite gets_step; cbn [set_rd_prev rd_pos];
    rewrite (proj2 (Z.leb_le _ _)) by lia; erewrite bind_ret by apply Hv; cbn [fst snd];
    rewrite (proj2 (Z.leb_gt _ _)) by lia; rewrite bind_mret, get_st_step;
    cbn [set_rd_prev rd_tx rd_cnt]; by rewrite (proj2 (Z.leb_gt _ _)) by lia.
Qed.

Lemma stuck_hangs sw f s : stuck s → 0 ≤ rd_pos s < Len → ∃ s', loop false sw f s = Ret false s'.
Proof.
  revert s. induction f as [|f IH]; intros s Hs HL; [by eexists|]. cbn [read_loop].
  unfold mbind, prog_bind, get_st, put_st. rewrite (proj2 (Z.ltb_lt _ _)) by lia. cbn [andb].
  rewrite stuck_round by done. apply IH; [exact Hs|exact HL].
Qed.

Definition measure (s : rd) : Z := 8 * Z.max 0 (Len - rd_pos s) + (6 - rd_state s).

(** Without [PTARM_DEBUG] the loop ends within a number of rounds that depends on
    the length only, or it never does. *)
Lemma release_ends sw n s : 0 ≤ rd_pos s → 0 ≤ rd_state s ≤ 5 → measure s ≤ Z.of_nat n →
  wp True (loop false sw (S n)) (λ b _, b = true) never s ∨ ∀ f, ∃ s', loop false sw f s = Ret false s'.
Proof.
  revert s. induction n as [n IH] using lt_wf_ind. intros s Hp Hs HM. cbn [read_loop].
  destruct (Z.ltb_spec (rd_pos s) Len) as [HL|HL].
  2:{ left. apply wp_bind, wp_get. by rewrite (proj2 (Z.ltb_ge _ _)). }
  unfold measure in HM. set (s1 := set_rd_prev (rd_pos s)
    (if rd_prev s =? rd_pos s then rd_rep s + 1 else rd_rep s) s).
  pose proof (round_progress sw s1 ltac:(done) ltac:(done)) as Hr.
  assert (∀ g, loop false sw (S g) s =
    match read_switch d Len sw s1 with
    | Ret _ s' => loop false sw g s' | Exit b s' => Exit b s' | UB => UB | AbortOut => AbortOut end) as Hround.
  { intros g. cbn [read_loop]. unfold mbind, prog_bind, get_st, put_st.
    rewrite (proj2 (Z.ltb_lt _ _)) by lia. done. }
  change (wp True (loop false sw (S n)) (λ b _, b = true) never s ∨
          ∀ f, ∃ s', loop false sw f s = Ret false s').
  unfold wp in Hr |- *. rewrite Hround.
  destruct (read_switch d Len sw s1) as [[] s'|b s'| |] eqn:E; try by left.
  assert (∀ s2, measure s2 < Z.of_nat n → 0 ≤ rd_pos s2 → 0 ≤ rd_state s2 ≤ 5 → s' = s2 →
    match loop false sw n s' with Ret a _ => a = true | Exit _ _ => False | UB | AbortOut => True end ∨
    ∀ f, ∃ s', loop false sw f s = Ret false s') as Hnext.
  { intros s2 Hm Hp2 Hs2 ->. destruct n as [|n]; [unfold measure in Hm; lia|].
    destruct (IH n ltac:(lia) s2 Hp2 Hs2 ltac:(lia)) as [Hw|Hh]; [by left|]. right.
    intros [|f]; [by eexists|]. rewrite Hround. apply Hh. }
  unfold progress, ahead, s1 in Hr. cbn [set_rd_prev rd_pos rd_state rd_prev rd_rep] in Hr.
  destruct Hr as [Hr|[Hr|[Hs' Hstuck]]].
  - eapply Hnext; [|..|done]; unfold measure; lia.
  - eapply Hnext; [|..|done]; unfold measure; lia.
  - right. intros f. apply (stuck_hangs sw f s); [exact Hstuck|lia].
Qed.

Lemma read_from_ends sw p tx n m : 0 ≤ p →
  2 * Z.max 0 (Len - p) + 7 ≤ Z.of_nat n → 8 * Z.max 0 (Len - p) + 6 ≤ Z.of_nat m →
  wp True (read_from true d Len sw (S n) p) (λ r _, r ≠ None) (λ _ _, False) tx ∧
  (wp True (read_from false d Len sw (S m) p) (λ r _, r ≠ None) (λ _ _, False) tx ∨
   ∀ fuel, ∃ tx', read_from false d Len sw fuel p tx = Ret None tx').
Proof.
  intros Hp Hn Hm. unfold wp, read_from. split.
  - pose proof (debug_ends sw n (mk_rd tx p 0 0 (p - 1) 0) Hp ltac:(cbn; lia) ltac:(cbn; lia)) as H.
    unfold debug_measure, wp in H. cbn [rd_pos rd_rep rd_prev] in H. specialize (H ltac:(case_match; lia)).
    destruct (loop true sw _ _) as [b s|b s| |]; try done. by subst b.
  - destruct (release_ends sw m (mk_rd tx p 0 0 (p - 1) 0) Hp ltac:(cbn; lia)) as [H|H].
    + unfold measure. cbn [rd_pos rd_state]. lia.
    + left. unfold wp in H. destruct (loop false sw _ _) as [b s|b s| |]; try done. by subst b.
    + right. intros fuel. destruct (H fuel) as [s ->]. by eexists.
Qed.
End loop.

(** A version, one input, and a script of 252 bytes of which 10 are there. *)
Definition hang_packet : bytes := [2; 0; 0; 0; 1] ++ replicate 36 0 ++ [0xfc] ++ replicate 10 0.

Section read.
Context {A : Alloc} {T : AllocTotal A} {F : Fresh}.

Lemma hang_packet_hangs fuel tx :
  ∃ tx', btc_tx_read false hang_packet (zlen hang_packet) fuel tx = Ret None tx'.
Proof.
  set (s1 := mk_rd (set_vin 1 (filling fresh_vin [] 1) (set_version 2 tx)) 5 1 0 4 0).
  assert (∃ s', read_loop hang_packet (zlen hang_packet) false false fuel
    (mk_rd (set_version 2 tx) 4 0 0 3 0) = Ret false s') as [s' E].
  { destruct fuel as [|f]; [by eexists|].
    assert (stuck hang_packet (zlen hang_packet) s1) as Hs.
    { left. split; [done|]. split; [by vm_compute|]. split; [done|]. exists 1, 252. by split. }
    destruct (stuck_hangs hang_packet (zlen hang_packet) false f s1 Hs) as [s' Hs']; [by vm_compute|].
    exists s'. rewrite <- Hs'.
    eapply (txin_cnt_round hang_packet _ false false 1 (set_version 2 tx) 4 0 3 0
      (drop 5 hang_packet)); [lia| |lia|done].
    split; [lia|]. exists (take 4 hang_packet). by split. }
  exists (rd_tx s'). unfold btc_tx_read. change (zlen hang_packet <? 8) with false. cbn iota.
  erewrite bind_ret by (by apply rd_bytes_sl). rewrite modify_step.
  erewrite bind_ret by reflexivity. erewrite bind_ret by reflexivity.
  change (read_from false hang_packet (zlen hang_packet) false fuel 4 (set_version 2 tx) = Ret None (rd_tx s')).
  unfold read_from. change (4 - 1) with 3. by rewrite E.
  Unshelve. by vm_compute.
Qed.

(** C38: With [PTARM_DEBUG] the reader comes to an end on every packet, within about
    two rounds for each byte. Without it, the reader either ends within a number
    of rounds given by the length or runs forever: on a packet whose script
    length points behind its end, as in [hang_packet], the loop makes no progress
    and never ends. *)
Theorem tx_read_ends d tx :
  is_bytes d → zlen d < 2 ^ 31 →
  wp True (btc_tx_read true d (zlen d) (2 * length d)) (λ r _, r ≠ None) (λ _ _, False) tx ∧
  (wp True (btc_tx_read false d (zlen d) (8 * length d)) (λ r _, r ≠ None) (λ _ _, False) tx ∨
   ∀ fuel, ∃ tx', btc_tx_read false d (zlen d) fuel tx = Ret None tx') ∧
  ∀ fuel, ∃ tx', btc_tx_read false hang_packet (zlen hang_packet) fuel tx = Ret None tx'.
Proof.
  intros Hb Hd. assert (∀ P Q R : Prop, (P ∧ Q) ∧ R → P ∧ Q ∧ R) as Hand by tauto. apply Hand. clear Hand.
  split; [|intros fuel; apply hang_packet_hangs].
  destruct (Z.ltb_spec (zlen d) 8) as [Hs|Hs].
  { split; [|left]; unfold btc_tx_read; by rewrite (proj2 (Z.ltb_lt _ _)) by lia. }
  destruct (lookup_lt_is_Some_2 d 4) as [m Hm]; [lia|].
  destruct (lookup_lt_is_Some_2 d 5) as [fl Hfl]; [lia|].
  assert (∀ dbg n, btc_tx_read dbg d (zlen d) n tx =
    if (m =? 0) && negb (fl =? 1) then Ret (Some false) (set_version (swrap 32 (le_val (sl d 0 4))) tx)
    else read_from dbg d (zlen d) ((m =? 0) && (fl =? 1)) n (if (m =? 0) && (fl =? 1) then 6 else 4)
           (set_version (swrap 32 (le_val (sl d 0 4))) tx)) as E.
  { intros dbg n. unfold btc_tx_read. rewrite (proj2 (Z.ltb_ge _ _)) by lia.
    erewrite bind_ret by (apply rd_bytes_sl; lia). rewrite modify_step.
    erewrite bind_ret by (unfold rd_byte; change (if 0 <=? 4 then d !! Z.to_nat 4 else None) with (d !! 4%nat);
      by rewrite Hm).
    erewrite bind_ret by (unfold rd_byte; change (if 0 <=? 5 then d !! Z.to_nat 5 else None) with (d !! 5%nat);
      by rewrite Hfl).
    by destruct (_ && negb _). }
  assert (∃ k, length d = S k) as [k Ek] by (exists (length d - 1)%nat; lia).
  replace (2 * length d)%nat with (S (2 * k + 1)) by lia.
  replace (8 * length d)%nat with (S (8 * k + 7)) by lia.
  unfold wp. rewrite !E. destruct ((m =? 0) && negb (fl =? 1)); [split; [|left]; done|].
  setoid_rewrite E.
  destruct (read_from_ends d Hd Hb (zlen d) ((m =? 0) && (fl =? 1))
    (if (m =? 0) && (fl =? 1) then 6 else 4) (set_version (swrap 32 (le_val (sl d 0 4))) tx)
    (2 * k + 1) (8 * k + 7)) as [H1 H2]; try (destruct (_ && _); lia).
  split; [exact H1|exact H2].
Qed.
End read.

Lemma tx_read_ends_witness :
  wp True (@btc_tx_read total_alloc zero_fresh true hang_packet (zlen hang_packet) (2 * length hang_packet))
    (λ r _, r ≠ None) (λ _ _, False) btc_tx_init.
Proof.
  refine (proj1 (@tx_read_ends total_alloc _ zero_fresh hang_packet btc_tx_init _ _));
    [|by vm_compute].
  by_compute.
Defined.
End BtcTxLoop.
