(* ===== verification/BtcSw.v ===== *)
(** Segregated witness: output scripts, witnesses, the digest that is signed and
    its signature, and the sorting of a transaction, from [btc/btc_sw.c],
    [btc/btc_tx.c], [btc/btc_util.c] and [btc/btc_keys.c].

    What they do is proved in [BtcDigest] and [BtcSort]. *)
From stdpp Require Import base list numbers tactics.
From Stdlib Require Import ZArith Lia.
From S2P Require Import Prelude CProg UtlBuf UtlPush LnDerkey LnSig BtcTx.
Import UtlBuf UtlPush LnSig BtcTx.
Open Scope Z_scope.

(** ECDSA and ASN.1 of mbedtls on [Curve]: the deterministic signature of a hash
    (private key and hash), the check of a pair of numbers and of a DER
    signature (public key, hash, signature), and an ASN.1 integer. *)
Class Ecdsa := {
  ecdsa_curve :: Curve;
  mbedtls_ecdsa_sign_det : Z → bytes → option (Z * Z);
  mbedtls_ecdsa_verify : pt → bytes → Z → Z → bool;
  mbedtls_ecdsa_read_signature : pt → bytes → bytes → bool;
  mbedtls_asn1_write_mpi : Z → bytes;
}.

Module BtcSw.

Abbreviation BTC_SZ_PRIVKEY := 32.
Abbreviation BTC_SZ_2OF2 := 71.
Abbreviation BTC_SZ_WITPROG_P2WPKH := 22.
Abbreviation BTC_SZ_WITPROG_P2WSH := 34.

(** A block of [n] bytes for [pBuf] that [m] fills from its start. *)
Definition fill_block {S} (b : utl_buf_t) (m : prog utl_push_t unit) : prog S utl_buf_t := λ s,
  match m (mk_push 0 b) with
  | Ret _ st => Ret (data st) s
  | Exit _ st => Ret (data st) s
  | UB => UB
  | AbortOut => AbortOut
  end.

(** A call of a function on other objects. *)
Definition lift {S A} (m : prog unit A) : prog S A := λ s,
  match m tt with
  | Ret a _ => Ret a s
  | Exit b _ => Exit b s
  | UB => UB
  | AbortOut => AbortOut
  end.

Section code.
Context {A : Alloc} {F : Fresh} {H : BtcHash}.

(** [utl_buf_alloc(pBuf, n)], then writing from its start. *)
Definition alloc_fill {S} (n : Z) (m : prog utl_push_t unit) : prog S utl_buf_t :=
  fill_block (mk_buf (malloc (u32 n)) (u32 n)) m.

(** ** Scripts *)

Definition btc_util_ripemd160 (pData : bytes) (Len : Z) : prog unit bytes :=
  d ← rd_bytes pData 0 (u16 Len); mret (mbedtls_ripemd160 d).

Definition create_scriptpk_p2pkh (pPubKeyHash : bytes) : prog utl_push_t unit :=
  h ← rd_bytes pPubKeyHash 0 BTC_SZ_HASH160;
  poke_bytes [OP_DUP; OP_HASH160; BTC_SZ_HASH160];;
  poke_bytes h;;
  poke_bytes [OP_EQUALVERIFY; OP_CHECKSIG].

Definition create_scriptpk_p2sh (pPubKeyHash : bytes) : prog utl_push_t unit :=
  h ← rd_bytes pPubKeyHash 0 BTC_SZ_HASH160;
  poke_bytes [OP_HASH160; BTC_SZ_HASH160];;
  poke_bytes h;;
  poke_bytes [OP_EQUAL].

Definition create_scriptpk_native (pPubKeyHash : bytes) (Len : Z) : prog utl_push_t unit :=
  h ← rd_bytes pPubKeyHash 0 Len;
  poke_bytes [0x00; Len];;
  poke_bytes h.

Definition btc_util_create_scriptpk {S} (pPubKeyHash : bytes) (Prefix : Z) : prog S utl_buf_t :=
  if Prefix =? BTC_PREF_P2PKH
  then alloc_fill (3 + BTC_SZ_HASH160 + 2) (create_scriptpk_p2pkh pPubKeyHash)
  else if Prefix =? BTC_PREF_P2SH
  then alloc_fill (2 + BTC_SZ_HASH160 + 1) (create_scriptpk_p2sh pPubKeyHash)
  else if Prefix =? BTC_PREF_P2WPKH
  then alloc_fill (2 + BTC_SZ_HASH160) (create_scriptpk_native pPubKeyHash BTC_SZ_HASH160)
  else if Prefix =? BTC_PREF_P2WSH
  then alloc_fill (2 + BTC_SZ_HASH256) (create_scriptpk_native pPubKeyHash BTC_SZ_HASH256)
  else c_assert false;; mret (mk_buf None 0).

Definition btcl_util_add_vout_pkh (Value : Z) (pPubKeyHash : bytes) (Pref : Z) : prog btc_tx_t unit :=
  i ← btc_tx_add_vout Value;
  s ← btc_util_create_scriptpk pPubKeyHash Pref;
  mod_vout i (set_vout_script s).

Definition btcl_util_add_vout_pub (Value : Z) (pPubKey : bytes) (Pref : Z) : prog btc_tx_t unit :=
  pkh ← lift (btc_util_hash160 pPubKey BTC_SZ_PUBKEY);
  btcl_util_add_vout_pkh Value pkh Pref.

Definition btc_tx_add_vout_p2sh (Value : Z) (pPubKeyHash : bytes) : prog btc_tx_t unit :=
  i ← btc_tx_add_vout Value;
  s ← alloc_fill (2 + BTC_SZ_HASH160 + 1) (create_scriptpk_p2sh pPubKeyHash);
  mod_vout i (set_vout_script s).

Definition btc_tx_add_vout_p2sh_redeem (Value : Z) (pRedeem : utl_buf_t) : prog btc_tx_t unit :=
  d ← lift (buf_bytes pRedeem);
  sh ← lift (btc_util_hash160 d (len pRedeem));
  btc_tx_add_vout_p2sh Value sh.

Definition btc_sw_wit2prog_p2wsh (pWitScript : utl_buf_t) : prog unit bytes :=
  d ← buf_bytes pWitScript;
  h ← btc_util_sha256 d (len pWitScript);
  mret ([0x00; BTC_SZ_HASH256] ++ h).

(** ** Comparison of memory

    [memcmp] meets the first cell that differs; a cell that is indeterminate or
    not there is undefined behaviour. *)
Fixpoint memcmp (a b : list cell) (n : nat) : option Z :=
  match n with
  | O => Some 0
  | S n =>
      match a, b with
      | Some x :: a, Some y :: b =>
          if x <? y then Some (-1) else if y <? x then Some 1 else memcmp a b n
      | _, _ => None
      end
  end.

(** The keys in ascending order, and whether they were. *)
Definition keys_sort2of2 (pPubKey1 pPubKey2 : bytes) : prog unit (bool * bytes * bytes) :=
  cmp ← of_option (memcmp (init_cells pPubKey1) (init_cells pPubKey2) 33);
  mret (if cmp <? 0 then (true, pPubKey1, pPubKey2) else (false, pPubKey2, pPubKey1)).

Definition btc_keys_create2of2 (pPubKey1 pPubKey2 : bytes) : prog unit utl_buf_t :=
  alloc_fill BTC_SZ_2OF2 (
    k1 ← rd_bytes pPubKey1 0 BTC_SZ_PUBKEY;
    k2 ← rd_bytes pPubKey2 0 BTC_SZ_PUBKEY;
    poke_bytes [OP_2];;
    poke_bytes [BTC_SZ_PUBKEY];; poke_bytes k1;;
    poke_bytes [BTC_SZ_PUBKEY];; poke_bytes k2;;
    poke_bytes [OP_2];;
    poke_bytes [OP_CHECKMULTISIG]).

Definition btc_util_create2of2 (pPubKey1 pPubKey2 : bytes) : prog unit (utl_buf_t * bool) :=
  r ← keys_sort2of2 pPubKey1 pPubKey2;
  let '(sort, p1, p2) := r in
  redeem ← btc_keys_create2of2 p1 p2;
  mret (redeem, sort).

(** ** Sorting (BIP 69) *)

(** The first half of the two buffers is filled with the reversed identifiers;
    all of them is compared. *)
Definition txid_key (v : btc_vin_t) : prog btc_tx_t (list cell) :=
  d ← of_option (sub_bytes (txid v) 16 16);
  mret (init_cells (reverse d) ++ junk 16).

Definition vin_cmp (a b : btc_vin_t) : prog btc_tx_t Z :=
  vin1 ← txid_key a;
  vin2 ← txid_key b;
  cmp ← of_option (memcmp vin1 vin2 32);
  mret (if cmp <? 0 then cmp else if 0 <? cmp then cmp
        else if index a <? index b then -1 else 1).

Definition vout_cmp (a b : btc_vout_t) : prog btc_tx_t Z :=
  if value a <? value b then mret (-1)
  else if value b <? value a then mret 1
  else of_option (memcmp (default [] (buf (vout_script a))) (default [] (buf (vout_script b)))
         (Z.to_nat (if len (vout_script a) <? len (vout_script b)
                    then len (vout_script a) else len (vout_script b)))).

Definition swap_vin (lp lp2 : nat) : prog btc_tx_t unit :=
  t ← get_st;
  a ← vin_at t lp; b ← vin_at t lp2;
  l ← of_option (arr_set (vin t) (Z.of_nat lp) b);
  l ← of_option (arr_set l (Z.of_nat lp2) a);
  put_st (set_vin (vin_cnt t) l t).

Definition swap_vout (lp lp2 : nat) : prog btc_tx_t unit :=
  t ← get_st;
  a ← vout_at t lp; b ← vout_at t lp2;
  l ← of_option (arr_set (vout t) (Z.of_nat lp) b);
  l ← of_option (arr_set l (Z.of_nat lp2) a);
  put_st (set_vout (vout_cnt t) l t).

(** The two nested loops over an array of [n] elements. *)
Definition exchange_sort (n : nat) (body : nat → nat → prog btc_tx_t unit) : prog btc_tx_t unit :=
  if Nat.ltb 1 n
  then for_idx (seq 0 (n - 1)) (λ lp _,
         for_idx (seq (lp + 1) (n - (lp + 1))) (λ lp2 _, body lp lp2) tt) tt
  else mret tt.

Definition btc_util_sort_bip69 : prog btc_tx_t unit :=
  n ← gets vin_cnt;
  exchange_sort (Z.to_nat n) (λ lp lp2,
    t ← get_st;
    a ← vin_at t lp; b ← vin_at t lp2;
    cmp ← vin_cmp a b;
    if 0 <? cmp then swap_vin lp lp2 else mret tt);;
  n ← gets vout_cnt;
  exchange_sort (Z.to_nat n) (λ lp lp2,
    t ← get_st;
    a ← vout_at t lp; b ← vout_at t lp2;
    cmp ← vout_cmp a b;
    if 0 <? cmp then swap_vout lp lp2 else mret tt).

(** ** Witness programs. [mNativeSegwit] is a global of the library. *)

Section native.
Context (mNativeSegwit : bool).

Definition btc_sw_add_vout_p2wpkh_pub (Value : Z) (pPubKey : bytes) : prog btc_tx_t unit :=
  btcl_util_add_vout_pub Value pPubKey (if mNativeSegwit then BTC_PREF_P2WPKH else BTC_PREF_P2SH).

Definition btc_sw_add_vout_p2wpkh (Value : Z) (pPubKeyHash : bytes) : prog btc_tx_t unit :=
  btcl_util_add_vout_pkh Value pPubKeyHash (if mNativeSegwit then BTC_PREF_P2WPKH else BTC_PREF_P2SH).

Definition btc_sw_add_vout_p2wsh (Value : Z) (pWitScript : utl_buf_t) : prog btc_tx_t unit :=
  wit_prog ← lift (btc_sw_wit2prog_p2wsh pWitScript);
  if mNativeSegwit
  then i ← btc_tx_add_vout Value;
       fill_vout_script i (init_cells wit_prog) BTC_SZ_WITPROG_P2WSH
  else sh ← lift (btc_util_hash160 wit_prog BTC_SZ_WITPROG_P2WSH);
       btc_tx_add_vout_p2sh Value sh.

Definition btc_util_create_pkh2wpkh (pPubKeyHash : bytes) : prog unit bytes :=
  c_assert (negb mNativeSegwit);;
  h ← rd_bytes pPubKeyHash 0 BTC_SZ_HASH160;
  btc_util_hash160 ([0x00; BTC_SZ_HASH160] ++ h) BTC_SZ_WITPROG_P2WPKH.

(** The items a witness had are released, the array is kept. *)
Definition free_wits (v : btc_vin_t) : prog btc_tx_t btc_vin_t :=
  if negb (wit_cnt v =? 0)
  then l ← of_option (witness v);
       (if Z.of_nat (length l) <? wit_cnt v then ub else mret tt);;
       let k := Z.to_nat (wit_cnt v) in
       mret (set_witness 0 (Some ((utl_buf_free <$> take k l) ++ drop k l)) v)
  else mret v.

(** [p = btc_tx_add_wit(vin); utl_buf_alloccopy(p, src, n);] *)
Definition push_wit (src : list cell) (n : Z) (v : btc_vin_t) : prog btc_tx_t btc_vin_t :=
  let i := wit_cnt v in
  v ← of_option (btc_tx_add_wit v);
  b ← of_option (arr_get (witness v) i);
  r ← of_option (utl_buf_alloccopy b src n);
  w ← of_option (arr_set (witness v) i r.2);
  mret (set_witness (wit_cnt v) w v).

(** [p_buf->len = n; p_buf->buf = realloc(p_buf->buf, n)], then writing. *)
Definition realloc_fill (b : utl_buf_t) (n : Z) (m : prog utl_push_t unit) : prog btc_tx_t utl_buf_t :=
  fill_block (mk_buf (realloc (buf b) n) n) m.

Definition btc_sw_set_vin_p2wpkh (Index : Z) (pSig : utl_buf_t) (pPubKey : bytes) : prog btc_tx_t unit :=
  t ← get_st;
  v ← of_option (arr_get (vin t) Index);
  let p_buf := (if negb (len (vin_script v) =? 0) then utl_buf_free (vin_script v) else vin_script v) in
  p_buf ← (if mNativeSegwit then mret p_buf
           else h ← lift (btc_util_hash160 pPubKey BTC_SZ_PUBKEY);
                realloc_fill p_buf (3 + BTC_SZ_HASH160)
                  (poke_bytes [0x16; 0x00; BTC_SZ_HASH160];; poke_bytes h));
  v ← free_wits (set_vin_script p_buf v);
  v ← push_wit (default [] (buf pSig)) (len pSig) v;
  v ← push_wit (init_cells pPubKey) BTC_SZ_PUBKEY v;
  mod_vin Index (λ _, v).

(** [pWits] holds [Num] pointers. *)
Definition btc_sw_set_vin_p2wsh (Index : Z) (pWits : list utl_buf_t) : prog btc_tx_t unit :=
  t ← get_st;
  v ← of_option (arr_get (vin t) Index);
  let p_buf := vin_script v in
  p_buf ← (if mNativeSegwit then mret p_buf
           else s ← of_option (pWits !! (length pWits - 1)%nat);
                d ← lift (buf_bytes s);
                h ← lift (btc_util_sha256 d (len s));
                realloc_fill p_buf (3 + BTC_SZ_HASH256)
                  (poke_bytes [0x22; 0x00; BTC_SZ_HASH256];; poke_bytes h));
  v ← free_wits (set_vin_script p_buf v);
  v ← for_idx (seq 0 (length pWits)) (λ lp v,
        w ← of_option (pWits !! lp);
        push_wit (default [] (buf w)) (len w) v) v;
  mod_vin Index (λ _, v).
End native.

(** ** The digest (BIP 143) *)

Definition btc_sw_scriptcode_p2wpkh {S} (pPubKey : bytes) : prog S utl_buf_t :=
  pkh ← lift (btc_util_hash160 pPubKey BTC_SZ_PUBKEY);
  alloc_fill (1 + 0x19) (
    poke_bytes [0x19; OP_DUP; OP_HASH160; BTC_SZ_HASH160];;
    poke_bytes pkh;;
    poke_bytes [OP_EQUALVERIFY; OP_CHECKSIG]).

Definition btc_sw_scriptcode_p2wsh {S} (pWit : utl_buf_t) : prog S utl_buf_t :=
  alloc_fill (btcl_util_get_varint_len (len pWit) + len pWit) (poke_buf pWit).

(** [None]: [false] is returned and nothing is written. *)
Definition btc_sw_scriptcode_p2wpkh_vin {S} (pVin : btc_vin_t) : prog S (option utl_buf_t) :=
  if negb (wit_cnt pVin =? 2) then mret None else
  w ← wit_at pVin 1;
  d ← lift (of_option (read_cells (buf w) BTC_SZ_PUBKEY));
  b ← btc_sw_scriptcode_p2wpkh d; mret (Some b).

Definition btc_sw_scriptcode_p2wsh_vin {S} (pVin : btc_vin_t) : prog S (option utl_buf_t) :=
  if wit_cnt pVin =? 0 then mret None else
  w ← of_option (arr_get (witness pVin) (wit_cnt pVin - 1));
  b ← btc_sw_scriptcode_p2wsh w; mret (Some b).

(** The three lists that are hashed on their own. *)
Definition fill_prevouts (pTx : btc_tx_t) : prog unit utl_buf_t :=
  alloc_fill (vin_cnt pTx * (32 + 4)) (
    for_idx (seq 0 (Z.to_nat (vin_cnt pTx))) (λ lp _,
      v ← vin_at pTx lp; poke_bytes (txid v);; set_le32 (index v)) tt).

Definition fill_sequence (pTx : btc_tx_t) : prog unit utl_buf_t :=
  alloc_fill (vin_cnt pTx * 4) (
    for_idx (seq 0 (Z.to_nat (vin_cnt pTx))) (λ lp _,
      v ← vin_at pTx lp; set_le32 (sequence v)) tt).

(** The length of a script is written in one byte. *)
Definition fill_outputs (pTx : btc_tx_t) : prog unit utl_buf_t :=
  l ← for_idx (seq 0 (Z.to_nat (vout_cnt pTx))) (λ lp l,
        o ← vout_at pTx lp; mret (u32 (l + len (vout_script o)))) 0;
  alloc_fill (vout_cnt pTx * (8 + 1) + l) (
    for_idx (seq 0 (Z.to_nat (vout_cnt pTx))) (λ lp _,
      o ← vout_at pTx lp;
      set_le64 (value o);;
      poke_bytes [u8 (len (vout_script o))];;
      poke (default [] (buf (vout_script o))) (len (vout_script o))) tt).

Definition hash_buf (x : utl_buf_t) : prog unit bytes :=
  d ← buf_bytes x; btc_util_hash256 d (len x).

(** [None]: [false] is returned, the transaction being invalid. *)
Definition btc_sw_sighash (pTx : btc_tx_t) (Index Value : Z) (pScriptCode : utl_buf_t)
  : prog unit (option bytes) :=
  txvld ← btc_tx_is_valid pTx;
  if negb (txvld =? 0) then mret None else
  vin_now ← of_option (arr_get (vin pTx) Index);
  hash_prevouts ← fill_prevouts pTx;
  hash_sequence ← fill_sequence pTx;
  h_prevouts ← hash_buf hash_prevouts;
  h_sequence ← hash_buf hash_sequence;
  hash_outputs ← fill_outputs pTx;
  h_outputs ← hash_buf hash_outputs;
  preimg ← alloc_fill (156 + len pScriptCode) (
    set_le32 (version pTx);;
    poke_bytes h_prevouts;;
    poke_bytes h_sequence;;
    poke_bytes (txid vin_now);;
    set_le32 (index vin_now);;
    poke (default [] (buf pScriptCode)) (len pScriptCode);;
    set_le64 Value;;
    set_le32 (sequence vin_now);;
    poke_bytes h_outputs;;
    set_le32 (locktime pTx);;
    set_le32 1);
  h ← hash_buf preimg;
  mret (Some h).

Definition btc_util_calc_sighash_p2wsh (pTx : btc_tx_t) (Index Value : Z) (pWitScript : utl_buf_t)
  : prog unit (option bytes) :=
  txvalid ← btc_tx_is_valid pTx;
  if negb (txvalid =? 0) then mret None else
  script_code ← btc_sw_scriptcode_p2wsh pWitScript;
  btc_sw_sighash pTx Index Value script_code.

(** ** Signatures *)

Context {E : Ecdsa}.

(** The deterministic signature with the smaller of the two values of s. *)
Definition sign_rs (pTxHash pPrivKey : bytes) : prog unit (Z * Z) :=
  d ← rd_bytes pPrivKey 0 BTC_SZ_PRIVKEY;
  match mbedtls_ecdsa_sign_det (be_val d) pTxHash with
  | Some (r, s) =>
      let half_n := Z.shiftr order 1 in
      mret (r, if half_n <? s then order - s else s)
  | None => c_assert false;; mret (0, 0)
  end.

Definition ecdsa_signature_to_asn1 (r s : Z) : bytes :=
  let body := mbedtls_asn1_write_mpi r ++ mbedtls_asn1_write_mpi s in
  [0x30; Z.of_nat (length body)] ++ body.

Definition btc_tx_sign (pTxHash pPrivKey : bytes) : prog unit utl_buf_t :=
  rs ← sign_rs pTxHash pPrivKey;
  let sig := ecdsa_signature_to_asn1 rs.1 rs.2 ++ [SIGHASH_ALL] in
  r ← on_local (is_valid_signature_encoding sig (u16 (Z.of_nat (length sig)))) tt;
  c_assert r.1;;
  b ← of_option (utl_buf_alloccopy (mk_buf None 0) (init_cells sig) (Z.of_nat (length sig)));
  mret b.2.

Definition btc_tx_sign_rs (pTxHash pPrivKey : bytes) : prog unit bytes :=
  rs ← sign_rs pTxHash pPrivKey;
  c_assert ((rs.1 <? 2 ^ 256) && (rs.2 <? 2 ^ 256));;
  mret (be_bytes 32 rs.1 ++ be_bytes 32 rs.2).

Definition btc_tx_verify (pSig : utl_buf_t) (pTxHash pPubKey : bytes) : prog unit bool :=
  d ← buf_bytes pSig;
  b ← of_option (d !! Z.to_nat (len pSig - 1));
  if negb (b =? SIGHASH_ALL) then mret false else
  r ← on_local (is_valid_signature_encoding d (u16 (len pSig))) tt;
  if negb r.1 then mret false else
  k ← rd_bytes pPubKey 0 BTC_SZ_PUBKEY;
  mret (match pt_read k with
        | Some Q => mbedtls_ecdsa_read_signature Q pTxHash (take (length d - 1) d)
        | None => false
        end).

Definition btc_tx_verify_rs (pRS pTxHash pPubKey : bytes) : prog unit bool :=
  r ← rd_bytes pRS 0 32;
  s ← rd_bytes pRS 32 32;
  k ← rd_bytes pPubKey 0 BTC_SZ_PUBKEY;
  mret (match pt_read k with
        | Some Q => mbedtls_ecdsa_verify Q pTxHash (be_val r) (be_val s)
        | None => false
        end).

Section checks.
Context (mNativeSegwit : bool).

(** [Some false] is [false]; the code tells the refusals apart in its log only. *)
Definition btc_sw_verify_p2wpkh (pTx : btc_tx_t) (Index Value : Z) (pPubKeyHash : bytes)
  : prog unit bool :=
  v ← of_option (arr_get (vin pTx) Index);
  if negb (wit_cnt v =? 2) then mret false else
  p_sig ← wit_at v 0;
  p_pub ← wit_at v 1;
  if negb (len p_pub =? BTC_SZ_PUBKEY) then mret false else
  pub ← buf_bytes p_pub;
  script_code ← btc_sw_scriptcode_p2wpkh pub;
  txhash ← btc_sw_sighash pTx Index Value script_code;
  match txhash with
  | None => mret false
  | Some txhash =>
      ret ← btc_tx_verify p_sig txhash pub;
      if negb ret then mret false else
      pkh ← btc_util_hash160 pub BTC_SZ_PUBKEY;
      pkh ← (if mNativeSegwit then mret pkh else btc_util_create_pkh2wpkh mNativeSegwit pkh);
      cmp ← of_option (memcmp (init_cells pkh) (init_cells pPubKeyHash) 20);
      mret (cmp =? 0)
  end.

(** [if (c) return false;] *)
Definition reject_if (c : bool) : prog unit unit := exit_if c false.

Definition btc_sw_verify_2of2 (pTx : btc_tx_t) (Index : Z) (pTxHash : bytes) (pVout : utl_buf_t)
  : prog unit bool := call (
  v ← of_option (arr_get (vin pTx) Index);
  reject_if (negb (wit_cnt v =? 4));;
  wit ← wit_at v 0;
  reject_if (negb (len wit =? 0));;
  let not_all (sig : utl_buf_t) : prog unit bool :=
    (if len sig =? 0 then mret true
     else d ← buf_bytes sig; b ← of_option (d !! Z.to_nat (len sig - 1)); mret (negb (b =? SIGHASH_ALL))) in
  sig1 ← wit_at v 1;
  b ← not_all sig1; reject_if b;;
  sig2 ← wit_at v 2;
  b ← not_all sig2; reject_if b;;
  wit ← wit_at v 3;
  reject_if (negb (len wit =? BTC_SZ_2OF2));;
  p ← buf_bytes wit;
  let at_ (i c : Z) : prog unit bool := (x ← rd_byte p i; mret (x =? c)) in
  b0 ← at_ 0 OP_2; b1 ← at_ 1 BTC_SZ_PUBKEY; b35 ← at_ 35 BTC_SZ_PUBKEY;
  b69 ← at_ 69 OP_2; b70 ← at_ 70 OP_CHECKMULTISIG;
  reject_if (negb (b0 && b1 && b35 && b69 && b70));;
  let pub1 := drop 2 p in
  let pub2 := drop 36 p in
  vh ← of_option (read_cells (buf pVout) 1);
  reject_if (negb (bool_decide (vh = [0x00])));;
  vh ← of_option (read_cells (buf pVout) 2);
  reject_if (negb (bool_decide (vh = [0x00; BTC_SZ_HASH256])));;
  pkh ← btc_util_sha256 p (len wit);
  cmp ← of_option (memcmp (init_cells pkh) (drop 2 (default [] (buf pVout))) 32);
  reject_if (negb (cmp =? 0));;
  ret ← btc_tx_verify sig1 pTxHash pub1;
  if ret : bool then btc_tx_verify sig2 pTxHash pub2 else mret ret).

Definition btc_util_sign_p2wpkh (Index Value : Z) (pKeys : bytes * bytes) : prog btc_tx_t bool :=
  let '(priv, pub) := pKeys in
  pTx ← get_st;
  txvalid ← lift (btc_tx_is_valid pTx);
  if negb (txvalid =? 0) then mret false else
  script_code ← btc_sw_scriptcode_p2wpkh pub;
  txhash ← lift (btc_sw_sighash pTx Index Value script_code);
  match txhash with
  | None => mret false
  | Some txhash =>
      sigbuf ← lift (btc_tx_sign txhash priv);
      btc_sw_set_vin_p2wpkh mNativeSegwit Index sigbuf pub;;
      mret true
  end.
End checks.
End code.
End BtcSw.
