(* ===== verification/BtcSort.v ===== *)
(** What [btc_util_sort_bip69] does: its nested loops are an exchange sort, so
    the outputs come out in the order of BIP 69 when no script is a proper prefix of
    another, and the inputs when the second halves of their identifiers differ.
    Otherwise bytes that were never written decide. *)
From stdpp Require Import base list numbers tactics sorting lexico.
From Stdlib Require Import ZArith Lia.
From S2P Require Import Prelude CProg UtlBuf UtlPush LnMisc LnMsg BtcTx BtcTxWire BtcSw.
Import UtlBuf UtlPush LnMisc LnMsg BtcTx BtcTxWire BtcSw.
Open Scope Z_scope.

Module BtcSort.

(** ** The sort on lists *)

Section pure.
Context {X : Type} (gt : X → X → option bool).

(** One round of the outer loop: the candidate [x] is compared with the
    elements behind it. [None]: the comparison is undefined. *)
Fixpoint pass (x : X) (l : list X) : option (X * list X) :=
  match l with
  | [] => Some (x, [])
  | y :: l =>
      g ← gt x y;
      if g : bool then '(m, r) ← pass y l; Some (m, x :: r)
      else '(m, r) ← pass x l; Some (m, y :: r)
  end.

Fixpoint xsort (n : nat) (l : list X) : option (list X) :=
  match n, l with
  | S n, x :: l => '(m, r) ← pass x l; s ← xsort n r; Some (m :: s)
  | _, _ => Some l
  end.

Lemma pass_perm x l m r : pass x l = Some (m, r) → m :: r ≡ₚ x :: l.
Proof.
  revert x m r. induction l as [|y l IH]; intros x m r; cbn [pass]; [by intros [= <- <-]|].
  destruct (gt x y) as [[]|]; cbn; [| |done];
    (destruct (pass _ l) as [[m' r']|] eqn:Ep; cbn; [|done]); intros [= <- <-].
  - by rewrite Permutation_swap, (IH _ _ _ Ep).
  - by rewrite Permutation_swap, (IH _ _ _ Ep), Permutation_swap.
Qed.

Lemma pass_length x l m r : pass x l = Some (m, r) → length r = length l.
Proof. intros Hp%pass_perm%Permutation_length. by injection Hp. Qed.

(** The comparison is the order of a key, except that equal keys are undefined
    when [strict]. *)
Context {K} `{Lexico K, !StrictOrder (@lexico K _), !TrichotomyT (@lexico K _), !EqDecision K}.
Context (key : X → K) (strict : bool) (P : X → Prop).
Hypothesis gt_key : ∀ x y, P x → P y →
  gt x y = if strict && bool_decide (key x = key y) then None
           else Some (bool_decide (lexico (key y) (key x))).

Definition key_le (x y : X) : Prop := ¬ lexico (key y) (key x).

Lemma key_le_refl x : key_le x x.
Proof. intros Hx. by apply (irreflexivity lexico (key x)). Qed.

Lemma key_le_lt x y z : key_le x y → lexico (key y) (key z) → lexico (key x) (key z).
Proof.
  intros Hxy Hyz. destruct (trichotomyT lexico (key x) (key y)) as [[Hl|He]|Hg].
  - by trans (key y).
  - by rewrite He.
  - done.
Qed.

Lemma lt_le x y : lexico (key x) (key y) → key_le x y.
Proof. intros H1 H2. apply (irreflexivity lexico (key x)). by trans (key y). Qed.

Lemma key_le_trans x y z : key_le x y → key_le y z → key_le x z.
Proof.
  intros Hxy Hyz Hzx. apply Hyz. eapply (transitivity Hzx).
  destruct (trichotomyT lexico (key x) (key y)) as [[Hl|He]|Hg]; [done | | done].
  exfalso. apply Hyz. by rewrite <- He.
Qed.

Definition ahead (m y : X) : Prop := key_le m y ∧ (strict = true → key y ≠ key m).

Lemma pass_spec x l : P x → Forall P l →
  match pass x l with
  | Some (m, r) => m :: r ≡ₚ x :: l ∧ Forall (ahead m) r
  | None => strict = true ∧ ¬ NoDup (key <$> x :: l)
  end.
Proof.
  revert x. induction l as [|y l IH]; intros x Px Pl; cbn [pass]; [done|].
  apply Forall_cons_1 in Pl as [Py Pl]. rewrite gt_key by done.
  assert (∀ z m r, m :: r ≡ₚ z :: l → Forall (ahead m) r → key_le m z) as Hmz.
  { intros z m r Hp Hr. assert (z ∈ m :: r) as [->|Hz]%elem_of_cons by (rewrite Hp; by left).
    - apply key_le_refl.
    - rewrite Forall_forall in Hr. by destruct (Hr z Hz). }
  destruct (strict && bool_decide (key x = key y)) eqn:Es; cbn.
  { apply andb_true_iff in Es as [-> He]. apply bool_decide_eq_true_1 in He. split; [done|].
    intros Hnd. apply NoDup_cons in Hnd as [Hx _]. apply Hx. rewrite He. by left. }
  assert (strict = true → key x ≠ key y) as Hne.
  { intros -> He. by rewrite bool_decide_eq_true_2 in Es. }
  clear Es. case_bool_decide as Hl; [specialize (IH y Py Pl) | specialize (IH x Px Pl)];
    (destruct (pass _ l) as [[m r]|]; cbn; [destruct IH as [Hp Hr]|]).
  - specialize (Hmz y m r Hp Hr). split; [by rewrite Permutation_swap, Hp|].
    constructor; [|done]. pose proof (key_le_lt _ _ _ Hmz Hl) as Hmx. split; [by apply lt_le|].
    intros _ He. rewrite He in Hmx. by apply (irreflexivity lexico (key m)).
  - destruct IH as [Hs Hnd]. split; [done|]. intros Hd. apply Hnd.
    by apply NoDup_cons in Hd as [_ Hd].
  - specialize (Hmz x m r Hp Hr).
    split; [by rewrite Permutation_swap, Hp, Permutation_swap|].
    constructor; [|done]. split; [by apply (key_le_trans _ x)|].
    intros Hs He. destruct (trichotomyT lexico (key x) (key y)) as [[Hxy|Hxy]|Hyx];
      [|by apply Hne|done].
    apply Hmz. by rewrite <- He.
  - destruct IH as [Hs Hnd]. split; [done|]. intros Hd. apply Hnd.
    cbn in Hd |- *. rewrite !NoDup_cons, elem_of_cons in Hd. apply NoDup_cons.
    split; [intros Hx; apply (proj1 Hd); by right | apply Hd].
Qed.

(** The sort gives the elements in ascending order, unless equal keys are
    undefined and there are some. *)
Lemma xsort_spec n l : (length l ≤ n)%nat → Forall P l →
  match xsort n l with
  | Some s => s ≡ₚ l ∧ StronglySorted key_le s ∧ (strict = true → NoDup (key <$> l))
  | None => strict = true ∧ ¬ NoDup (key <$> l)
  end.
Proof.
  revert l. induction n as [|n IH]; intros [|x l] Hn Pl; cbn [xsort length] in *; try lia;
    try by (split_and!; [done | constructor | intros _; constructor]).
  apply Forall_cons_1 in Pl as [Px Pl]. pose proof (pass_spec x l Px Pl) as Hpass.
  destruct (pass x l) as [[m r]|] eqn:Ep; cbn; [|exact Hpass]. destruct Hpass as [Hp Hr].
  assert (Forall P r) as Pr.
  { assert (Forall P (m :: r)) as HF by (rewrite Hp; by constructor). by apply Forall_cons_1 in HF as [_ HF]. }
  specialize (IH r). rewrite (pass_length _ _ _ _ Ep) in IH. specialize (IH ltac:(lia) Pr).
  assert (NoDup (key <$> x :: l) ↔ NoDup (key <$> m :: r)) as Hnd by (by rewrite Hp).
  destruct (xsort n r) as [s|]; cbn.
  - destruct IH as (Hs & Hsort & Hd). split_and!.
    + by rewrite Hs.
    + constructor; [done|]. rewrite Hs. eapply Forall_impl; [exact Hr|]. by intros y [Hy _].
    + intros Es. apply Hnd. cbn. apply NoDup_cons. split; [|by apply Hd].
      intros Hin. apply list_elem_of_fmap in Hin as (y & Ey & Hy).
      rewrite Forall_forall in Hr. destruct (Hr y Hy) as [_ Hne].
      by apply (Hne Es).
  - destruct IH as [Hs Hd]. split; [done|]. intros Hx. apply Hd. apply Hnd in Hx. cbn in Hx.
    by apply NoDup_cons in Hx as [_ Hx].
Qed.
End pure.

(** ** The loops

    [st l] is the struct whose array holds [l]. *)

Section loops.
Context {X : Type} (gt : X → X → option bool) (st : list X → btc_tx_t)
  (body : nat → nat → prog btc_tx_t unit) (P : X → Prop).
Hypothesis body_step : ∀ pre x mid y rest, P x → P y →
  body (length pre) (length pre + 1 + length mid) (st (pre ++ x :: mid ++ y :: rest)) =
  match gt x y with
  | Some true => Ret tt (st (pre ++ y :: mid ++ x :: rest))
  | Some false => Ret tt (st (pre ++ x :: mid ++ y :: rest))
  | None => UB
  end.

Lemma inner_loop pre x mid rest : P x → Forall P rest →
  for_idx (seq (length pre + 1 + length mid) (length rest)) (λ lp2 _, body (length pre) lp2) tt
    (st (pre ++ x :: mid ++ rest)) =
  match pass gt x rest with
  | Some (m, r) => Ret tt (st (pre ++ m :: mid ++ r))
  | None => UB
  end.
Proof.
  revert x mid. induction rest as [|y rest IH]; intros x mid Px Pr; [done|].
  apply Forall_cons_1 in Pr as [Py Pr].
  cbn [length seq for_idx pass]. unfold mbind at 1, prog_bind at 1. rewrite body_step by done.
  replace (S (length pre + 1 + length mid)) with (length pre + 1 + length (mid ++ [x]))%nat
    by (rewrite length_app; cbn; lia).
  destruct (gt x y) as [[]|]; cbn [mbind option_bind]; [| |done].
  - replace (pre ++ y :: mid ++ x :: rest) with (pre ++ y :: (mid ++ [x]) ++ rest)
      by (by rewrite <- app_assoc).
    rewrite IH by done. destruct (pass gt y rest) as [[m r]|]; cbn; [|done]. by rewrite <- app_assoc.
  - replace (length (mid ++ [x])) with (length (mid ++ [y])) by (by rewrite !length_app).
    replace (pre ++ x :: mid ++ y :: rest) with (pre ++ x :: (mid ++ [y]) ++ rest)
      by (by rewrite <- app_assoc).
    rewrite IH by done. destruct (pass gt x rest) as [[m r]|]; cbn; [|done]. by rewrite <- app_assoc.
Qed.

Lemma outer_loop n l pre : length l = n → Forall P l →
  for_idx (seq (length pre) (n - 1)) (λ lp _,
    for_idx (seq (lp + 1) (length pre + n - (lp + 1))) (λ lp2 _, body lp lp2) tt) tt
    (st (pre ++ l)) =
  match xsort gt n l with Some s => Ret tt (st (pre ++ s)) | None => UB end.
Proof.
  revert l pre. induction n as [|n IH]; intros [|x l] pre Hl Pl; try done.
  injection Hl as Hl. cbn [xsort]. replace (S n - 1)%nat with n by lia.
  destruct n as [|n].
  { apply length_zero_iff_nil in Hl as ->. done. }
  cbn [seq for_idx]. unfold mbind at 1, prog_bind at 1.
  pose proof Pl as [Px Pl']%Forall_cons_1.
  pose proof (inner_loop pre x [] l Px Pl') as E. cbn [length app] in E. rewrite Nat.add_0_r in E.
  replace (length pre + S (S n) - (length pre + 1))%nat with (length l) by lia. rewrite E. clear E.
  destruct (pass gt x l) as [[m r]|] eqn:Ep; cbn [mbind option_bind]; [|done].
  specialize (IH r (pre ++ [m])). rewrite <- app_assoc, length_app in IH. cbn [length app] in IH.
  rewrite Nat.add_1_r in IH. replace (S n - 1)%nat with n in IH by lia.
  replace (length pre + S (S n))%nat with (S (length pre) + S n)%nat by lia.
  pose proof (pass_perm _ _ _ _ _ Ep) as Hp. rewrite <- Hp in Pl. apply Forall_cons_1 in Pl as [_ Pl].
  rewrite IH by (first [done | by rewrite (pass_length _ _ _ _ _ Ep)]).
  destruct (xsort gt (S n) r); cbn; [|done]. by rewrite <- app_assoc.
Qed.

Lemma exchange_sort_spec l : Forall P l →
  exchange_sort (length l) body (st l) =
  match xsort gt (length l) l with Some s => Ret tt (st s) | None => UB end.
Proof.
  intros Pl. unfold exchange_sort. destruct (Nat.ltb_spec 1 (length l)) as [Hl|Hl].
  - by apply (outer_loop (length l) l []).
  - destruct l as [|x [|y l]]; [done | done | cbn in Hl; lia].
Qed.
End loops.

(** ** The comparisons *)

Lemma memcmp_spec a b : memcmp (init_cells a) (init_cells b) (length a `min` length b) =
  Some (if bool_decide (a `prefix_of` b ∨ b `prefix_of` a) then 0
        else if bool_decide (lexico a b) then -1 else 1).
Proof.
  revert b. induction a as [|x a IH]; intros [|y b]; cbn [length Nat.min memcmp init_cells fmap list_fmap];
    try by (rewrite bool_decide_eq_true_2 by (first [left; apply prefix_nil | right; apply prefix_nil])).
  fold (init_cells a) (init_cells b).
  destruct (Z.ltb_spec x y) as [Hxy|Hxy]; [|destruct (Z.ltb_spec y x) as [Hyx|Hyx]].
  - rewrite bool_decide_eq_false_2, bool_decide_eq_true_2; [done | by left |].
    intros [Hp|Hp]; apply prefix_cons_inv_1 in Hp; lia.
  - rewrite !bool_decide_eq_false_2; [done | |].
    + intros [Hl|[He _]]; [|cbn in He; lia]. unfold lexico, Z_lexico in Hl. cbn in Hl. lia.
    + intros [Hp|Hp]; apply prefix_cons_inv_1 in Hp; lia.
  - assert (x = y) as -> by lia. rewrite IH. f_equal.
    rewrite (bool_decide_ext (y :: a `prefix_of` y :: b ∨ y :: b `prefix_of` y :: a)
               (a `prefix_of` b ∨ b `prefix_of` a)).
    2:{ split; intros [Hp|Hp]; [left|right|left|right];
          first [by eapply prefix_cons_inv_2 | by apply prefix_cons]. }
    destruct (bool_decide _); [done|]. rewrite (bool_decide_ext (lexico (y :: a) (y :: b)) (lexico a b)); [done|].
    unfold lexico at 1, list_lexico at 1. cbn. unfold lexico at 1, prod_lexico at 1. cbn.
    split; [|by right]. intros [Hl|[_ Hl]]; [|done]. unfold lexico, Z_lexico in Hl. lia.
Qed.

Lemma memcmp_half a b k : length a = length b → (length a < k)%nat →
  memcmp (init_cells a ++ junk 16) (init_cells b ++ junk 16) k =
  if bool_decide (a = b) then None else Some (if bool_decide (lexico a b) then -1 else 1).
Proof.
  revert b k. induction a as [|x a IH]; intros [|y b] k Hl Hk; try done.
  - rewrite bool_decide_eq_true_2 by done. destruct k; [cbn in Hk; lia|done].
  - destruct k as [|k]; [cbn in Hk; lia|]. cbn [init_cells fmap list_fmap app memcmp].
    fold (init_cells a) (init_cells b).
    destruct (Z.ltb_spec x y) as [Hxy|Hxy]; [|destruct (Z.ltb_spec y x) as [Hyx|Hyx]].
    + rewrite bool_decide_eq_false_2, bool_decide_eq_true_2; [done | by left |]. intros [= -> _]. lia.
    + rewrite !bool_decide_eq_false_2; [done | | intros [= -> _]; lia].
      intros [Hlx|[He _]]; [|cbn in He; lia]. unfold lexico, Z_lexico in Hlx. cbn in Hlx. lia.
    + assert (x = y) as -> by lia. rewrite IH by (cbn in *; lia).
      rewrite (bool_decide_ext (y :: a = y :: b) (a = b)) by naive_solver.
      rewrite (bool_decide_ext (lexico (y :: a) (y :: b)) (lexico a b)); [done|].
      unfold lexico at 1, list_lexico at 1. cbn. unfold lexico at 1, prod_lexico at 1. cbn.
      split; [|by right]. intros [Hlx|[_ Hlx]]; [|done]. unfold lexico, Z_lexico in Hlx. lia.
Qed.

(** ** Sorting a transaction *)

(** The orders of BIP 69: inputs by their identifier, last byte first, then by index;
    outputs by value, then by script. *)
Definition in_key (i : tx_input) : bytes * Z := (reverse (in_prev i), in_n i).
Definition out_key (o : tx_output) : Z * bytes := (out_value o, out_spk o).
Definition in_le : tx_input → tx_input → Prop := key_le in_key.
Definition out_le : tx_output → tx_output → Prop := key_le out_key.

(** What the code compares of an identifier. *)
Definition half_key (i : tx_input) : bytes := reverse (drop 16 (in_prev i)).

Definition unrelated (a b : bytes) : Prop := a = b ∨ ¬ (a `prefix_of` b ∨ b `prefix_of` a).

#[export] Instance unrelated_dec a b : Decision (unrelated a b).
Proof. unfold unrelated. apply _. Defined.

Definition with_ins (t : transaction) (l : list tx_input) : transaction :=
  mk_trans (t_version t) l (t_outs t) (t_lock t).
Definition with_outs (t : transaction) (l : list tx_output) : transaction :=
  mk_trans (t_version t) (t_ins t) l (t_lock t).

(** [vin[lp]] and [vin[lp2]] of an array that holds [pre ++ x :: mid ++ y :: rest]. *)
Lemma middle_2 {X} (pre mid rest : list X) x y :
  (pre ++ x :: mid ++ y :: rest) !! (length pre + 1 + length mid)%nat = Some y.
Proof.
  replace (pre ++ x :: mid ++ y :: rest) with ((pre ++ x :: mid) ++ y :: rest)
    by (by rewrite <- app_assoc).
  apply list_lookup_middle. rewrite length_app. cbn. lia.
Qed.

Lemma insert_2 {X} (pre mid rest : list X) x y :
  <[(length pre + 1 + length mid)%nat := x]> (<[length pre := y]> (pre ++ x :: mid ++ y :: rest)) =
  pre ++ y :: mid ++ x :: rest.
Proof.
  induction pre as [|z pre IH]; cbn; [|by f_equal].
  f_equal. induction mid as [|z mid IH]; cbn; by f_equal.
Qed.

Lemma arr_set_at {X Y} (f : X → Y) (l : list X) (i : nat) x :
  (i < length l)%nat → arr_set (arr (f <$> l)) (Z.of_nat i) (f x) = Some (arr (f <$> <[i := x]> l)).
Proof.
  intros Hi. unfold arr_set. rewrite arr_at. destruct (lookup_lt_is_Some_2 l i Hi) as [y Hy].
  rewrite Hy. cbn [fmap option_fmap option_map mbind option_bind]. rewrite Nat2Z.id. unfold arr.
  rewrite !bool_decide_eq_false_2.
  - cbn. by rewrite list_fmap_insert.
  - intros E%(f_equal length). rewrite length_fmap, length_insert in E. cbn in E. lia.
  - intros E%(f_equal length). rewrite length_fmap in E. cbn in E. lia.
Qed.

Lemma opt_step {S X B} (o : option X) a (K : X → prog S B) s : o = Some a → (of_option o ≫= K) s = K a s.
Proof. by intros ->. Qed.

Lemma lexico_prefix (a b c d : bytes) : length a = length b → lexico a b → lexico (a ++ c) (b ++ d).
Proof.
  revert b. induction a as [|x a IH]; intros [|y b] Hl; try done.
  intros [Hx|[Hx Hab]]; [by left|]. right. cbn in Hx, Hab |- *. split; [done|]. apply IH; [|done].
  by injection Hl.
Qed.

Section sort.
Context (t : transaction).

Lemma swap_vin_step pre x mid y rest :
  swap_vin (length pre) (length pre + 1 + length mid) (rep (with_ins t (pre ++ x :: mid ++ y :: rest))) =
  Ret tt (rep (with_ins t (pre ++ y :: mid ++ x :: rest))).
Proof.
  unfold swap_vin. rewrite get_st_step, !vin_at_rep. cbn [with_ins t_ins].
  rewrite middle_2, list_lookup_middle by done. rewrite !(opt_step _ (rep_in _)) by done.
  cbn [rep vin with_ins t_ins]. erewrite opt_step by (apply arr_set_at; rewrite length_app; cbn; lia).
  erewrite opt_step.
  2:{ apply arr_set_at. rewrite length_insert, length_app. cbn. rewrite length_app. cbn. lia. }
  rewrite insert_2. unfold put_st, rep, set_vin. cbn. do 2 f_equal.
  rewrite !length_app. cbn. rewrite !length_app. cbn. lia.
Qed.

Lemma swap_vout_step pre x mid y rest :
  swap_vout (length pre) (length pre + 1 + length mid) (rep (with_outs t (pre ++ x :: mid ++ y :: rest))) =
  Ret tt (rep (with_outs t (pre ++ y :: mid ++ x :: rest))).
Proof.
  unfold swap_vout. rewrite get_st_step, !vout_at_rep. cbn [with_outs t_outs].
  rewrite middle_2, list_lookup_middle by done. rewrite !(opt_step _ (rep_out _)) by done.
  cbn [rep vout with_outs t_outs]. erewrite opt_step by (apply arr_set_at; rewrite length_app; cbn; lia).
  erewrite opt_step.
  2:{ apply arr_set_at. rewrite length_insert, length_app. cbn. rewrite length_app. cbn. lia. }
  rewrite insert_2. unfold put_st, rep, set_vout. cbn. do 2 f_equal.
  rewrite !length_app. cbn. rewrite !length_app. cbn. lia.
Qed.

(** The comparison of two inputs. *)
Definition in_gt (a b : tx_input) : option bool :=
  if bool_decide (half_key a = half_key b) then None
  else Some (bool_decide (lexico (half_key b) (half_key a))).

Definition out_gt (a b : tx_output) : option bool := Some (bool_decide (lexico (out_key b) (out_key a))).

Lemma sub_half i : length (in_prev i) = 32%nat → sub_bytes (in_prev i) 16 16 = Some (drop 16 (in_prev i)).
Proof.
  intros Hl. unfold sub_bytes. rewrite bool_decide_eq_true_2 by (rewrite Hl; lia).
  f_equal. apply take_ge. rewrite length_drop. lia.
Qed.

Lemma vin_cmp_step a b (K : Z → prog btc_tx_t unit) s :
  length (in_prev a) = 32%nat → length (in_prev b) = 32%nat →
  (vin_cmp (rep_in a) (rep_in b) ≫= K) s =
  if bool_decide (half_key a = half_key b) then UB
  else K (if bool_decide (lexico (half_key b) (half_key a)) then 1 else -1) s.
Proof.
  intros Ha Hb. unfold vin_cmp, txid_key. cbn [rep_in txid index]. rewrite !sub_half by done.
  unfold mbind, prog_bind, of_option, mret, prog_ret.
  rewrite memcmp_half by (rewrite !length_reverse, !length_drop; lia).
  fold (half_key a) (half_key b). case_bool_decide as He; [done|].
  destruct (trichotomyT lexico (half_key a) (half_key b)) as [[Hl|Hl]|Hg]; [| done |].
  - rewrite (bool_decide_eq_true_2 (lexico (half_key a) _)) by done.
    rewrite bool_decide_eq_false_2; [done|]. intros Hg.
    apply (irreflexivity lexico (half_key a)). by trans (half_key b).
  - rewrite (bool_decide_eq_true_2 (lexico (half_key b) _)) by done.
    rewrite bool_decide_eq_false_2; [done|]. intros Hl.
    apply (irreflexivity lexico (half_key a)). by trans (half_key b).
Qed.

(** The comparison of two outputs. *)
Lemma vout_cmp_step a b (K : Z → prog btc_tx_t unit) s :
  unrelated (out_spk a) (out_spk b) →
  ∃ c, (vout_cmp (rep_out a) (rep_out b) ≫= K) s = K c s ∧
       (0 <? c) = bool_decide (lexico (out_key b) (out_key a)).
Proof.
  intros Hu. unfold vout_cmp. cbn [rep_out value vout_script]. unfold out_key, lexico at 1, prod_lexico. cbn [fst snd].
  change (lexico (out_value b) (out_value a)) with (out_value b < out_value a).
  destruct (Z.ltb_spec (out_value a) (out_value b)) as [Hab|Hab].
  { exists (-1). split; [done|]. rewrite bool_decide_eq_false_2; [done|]. lia. }
  destruct (Z.ltb_spec (out_value b) (out_value a)) as [Hba|Hba].
  { exists 1. split; [done|]. rewrite bool_decide_eq_true_2; [done|]. by left. }
  assert (out_value b = out_value a) as -> by lia. rewrite !bufb_len.
  assert (∀ d, default [] (buf (bufb d)) = init_cells d) as Hd
    by (intros d; unfold bufb; by case_bool_decide; subst).
  rewrite !Hd.
  assert (Z.to_nat (if zlen (out_spk a) <? zlen (out_spk b) then zlen (out_spk a) else zlen (out_spk b)) =
          (length (out_spk a) `min` length (out_spk b))%nat) as -> by (destruct (Z.ltb_spec (zlen (out_spk a)) (zlen (out_spk b))); lia).
  rewrite memcmp_spec. cbn [of_option]. eexists. split; [done|].
  destruct Hu as [->|Hn].
  - rewrite bool_decide_eq_true_2 by (by left). rewrite bool_decide_eq_false_2; [done|].
    intros [Hl|[_ Hl]]; [lia | by apply (irreflexivity lexico (out_spk b))].
  - rewrite bool_decide_eq_false_2 by done.
    destruct (trichotomyT lexico (out_spk a) (out_spk b)) as [[Hl|Hl]|Hg].
    + rewrite bool_decide_eq_true_2 by done. rewrite bool_decide_eq_false_2; [done|].
      intros [?|[_ Hg]]; [lia|]. apply (irreflexivity lexico (out_spk a)). by trans (out_spk b).
    + exfalso. apply Hn. left. by rewrite Hl.
    + rewrite bool_decide_eq_false_2.
      * rewrite bool_decide_eq_true_2; [done|]. by right.
      * intros Hl. apply (irreflexivity lexico (out_spk a)). by trans (out_spk b).
Qed.

End sort.

Lemma sorted_ins (l : list tx_input) : Forall (λ i, length (in_prev i) = 32%nat) l →
  NoDup (half_key <$> l) → StronglySorted (key_le half_key) l → StronglySorted in_le l.
Proof.
  intros Hp Hnd Hs. induction Hs as [|i l Hs IH Hi]; [constructor|].
  apply Forall_cons_1 in Hp as [Hpi Hp]. cbn in Hnd. apply NoDup_cons in Hnd as [Hni Hnd].
  constructor; [by apply IH|]. apply Forall_forall. intros j Hj.
  rewrite Forall_forall in Hp, Hi. specialize (Hi j Hj). specialize (Hp j Hj).
  assert (lexico (half_key i) (half_key j)) as Hl.
  { destruct (trichotomyT lexico (half_key i) (half_key j)) as [[Hl|Hl]|Hg]; [done| |done].
    exfalso. apply Hni. rewrite Hl. by apply list_elem_of_fmap_2. }
  apply lt_le. left. cbn [in_key fst].
  assert (∀ k, length (in_prev k) = 32%nat → reverse (in_prev k) = half_key k ++ reverse (take 16 (in_prev k))) as E.
  { intros k _. unfold half_key. by rewrite <- reverse_app, take_drop. }
  rewrite !E by done. apply lexico_prefix; [|done].
  unfold half_key. rewrite !length_reverse, !length_drop. lia.
Qed.

Lemma sort_bip69_eq t :
  Forall (λ i, length (in_prev i) = 32%nat) (t_ins t) →
  Forall (λ o, Forall (λ o', unrelated (out_spk o) (out_spk o')) (t_outs t)) (t_outs t) →
  btc_util_sort_bip69 (rep t) =
  match xsort in_gt (length (t_ins t)) (t_ins t), xsort out_gt (length (t_outs t)) (t_outs t) with
  | Some ins, Some outs => Ret tt (rep (mk_trans (t_version t) ins outs (t_lock t)))
  | _, _ => UB
  end.
Proof.
  intros Hp Hu. unfold btc_util_sort_bip69. rewrite gets_step. cbn [rep vin_cnt]. rewrite Nat2Z.id.
  unfold mbind at 1, prog_bind at 1.
  replace (rep t) with (rep (with_ins t (t_ins t))) by (by destruct t).
  rewrite (exchange_sort_spec in_gt (λ l, rep (with_ins t l)) _ (λ i, length (in_prev i) = 32%nat)); [|..|exact Hp].
  2:{ intros pre x mid y rest Hx Hy. rewrite get_st_step, !vin_at_rep. cbn [with_ins t_ins].
      rewrite middle_2, list_lookup_middle by done.
      rewrite !(opt_step _ (rep_in _)) by done. rewrite vin_cmp_step by done. unfold in_gt.
      destruct (bool_decide (half_key x = half_key y)); [done|].
      destruct (bool_decide (lexico _ _)); [apply swap_vin_step | done]. }
  destruct (xsort in_gt _ _) as [ins|]; [|done].
  rewrite gets_step. cbn [rep vout_cnt with_ins t_outs]. rewrite Nat2Z.id.
  set (t' := with_ins t ins). replace (rep t') with (rep (with_outs t' (t_outs t))) by (by destruct t).
  rewrite (exchange_sort_spec out_gt (λ l, rep (with_outs t' l)) _ (λ o, o ∈ t_outs t)).
  - done.
  - intros pre x mid y rest Hx Hy. rewrite get_st_step, !vout_at_rep. cbn [with_outs t_outs].
    rewrite middle_2, list_lookup_middle by done.
    rewrite !(opt_step _ (rep_out _)) by done.
    rewrite Forall_forall in Hu. specialize (Hu x Hx). rewrite Forall_forall in Hu.
    edestruct (vout_cmp_step x y) as (c & -> & Hc); [by apply Hu|]. rewrite Hc. unfold out_gt.
    destruct (bool_decide (lexico _ _)); [apply swap_vout_step | done].
  - by apply Forall_forall.
Qed.

(** One input: there is nothing to compare but the outputs. *)
Lemma sort_bip69_one t i : t_ins t = [i] → length (in_prev i) = 32%nat →
  Forall (λ o, Forall (λ o', unrelated (out_spk o) (out_spk o')) (t_outs t)) (t_outs t) →
  ∃ outs, btc_util_sort_bip69 (rep t) = Ret tt (rep (with_outs t outs)) ∧
          outs ≡ₚ t_outs t ∧ StronglySorted out_le outs.
Proof.
  intros Hi Hl Hu. rewrite sort_bip69_eq; [|rewrite Hi; by constructor|done].
  rewrite Hi. change (xsort in_gt _ [i]) with (Some [i]).
  pose proof (xsort_spec out_gt out_key false (λ _, True) (λ x y _ _, eq_refl)
    _ (t_outs t) (Nat.le_refl _) (Forall_true _ _ (λ _, I))) as Hs.
  destruct (xsort out_gt _ _) as [outs|]; [|by destruct Hs].
  destruct Hs as (Hperm & Hsort & _). exists outs. rewrite <- Hi. by split.
Qed.

(** C22: The transaction is sorted in the order of BIP 69 when no output script is a
    proper prefix of another, which holds for the standard scripts. Inputs are
    compared by the second half of their identifiers only: when two agree there,
    two outputs of one transaction for example, uninitialised memory is compared. *)
Theorem sort_bip69_sorts t :
  Forall (λ i, length (in_prev i) = 32%nat) (t_ins t) →
  Forall (λ o, Forall (λ o', unrelated (out_spk o) (out_spk o')) (t_outs t)) (t_outs t) →
  if bool_decide (NoDup (half_key <$> t_ins t))
  then ∃ ins outs,
    btc_util_sort_bip69 (rep t) = Ret tt (rep (mk_trans (t_version t) ins outs (t_lock t))) ∧
    ins ≡ₚ t_ins t ∧ StronglySorted in_le ins ∧
    outs ≡ₚ t_outs t ∧ StronglySorted out_le outs
  else btc_util_sort_bip69 (rep t) = UB.
Proof.
  intros Hp Hu. rewrite sort_bip69_eq by done.
  pose proof (xsort_spec in_gt half_key true (λ _, True) (λ x y _ _, eq_refl)
    _ (t_ins t) (Nat.le_refl _) (Forall_true _ _ (λ _, I))) as Hs.
  destruct (xsort in_gt _ _) as [ins|]; [|by rewrite bool_decide_eq_false_2 by apply Hs].
  destruct Hs as (Hperm & Hsort & Hnd). specialize (Hnd eq_refl). rewrite bool_decide_eq_true_2 by done.
  pose proof (xsort_spec out_gt out_key false (λ _, True) (λ x y _ _, eq_refl)
    _ (t_outs t) (Nat.le_refl _) (Forall_true _ _ (λ _, I))) as Hs.
  destruct (xsort out_gt _ _) as [outs|]; [|by destruct Hs].
  destruct Hs as (Hperm' & Hsort' & _). exists ins, outs. split_and!; try done.
  apply sorted_ins; [by rewrite Hperm | by rewrite Hperm | done].
Qed.

(** ** Two inputs and three outputs, and the two outputs of one transaction *)

Definition bip69_in (b n : Z) : tx_input := mk_in (replicate 32 b) n [] [] 0xffffffff.

Definition bip69_tx (ins : list tx_input) : transaction :=
  mk_trans 2 ins [mk_out 900 (0 :: 32 :: replicate 32 5) 1; mk_out 200 (0 :: 20 :: replicate 20 9) 2;
                  mk_out 900 (0 :: 20 :: replicate 20 7) 3] 0.

Lemma sort_bip69_sorts_witness :
  (∃ ins outs,
     btc_util_sort_bip69 (rep (bip69_tx [bip69_in 9 0; bip69_in 4 0])) = Ret tt (rep (mk_trans 2 ins outs 0)) ∧
     ins ≡ₚ [bip69_in 9 0; bip69_in 4 0] ∧ StronglySorted out_le outs) ∧
  btc_util_sort_bip69 (rep (bip69_tx [bip69_in 4 1; bip69_in 4 0])) = UB.
Proof.
  assert (∀ ins, Forall (λ o, Forall (λ o', unrelated (out_spk o) (out_spk o')) (t_outs (bip69_tx ins)))
    (t_outs (bip69_tx ins))) as Hu by (intros ins; by_compute).
  split.
  - pose proof (sort_bip69_sorts (bip69_tx [bip69_in 9 0; bip69_in 4 0]) ltac:(by repeat constructor) (Hu _)) as T.
    rewrite bool_decide_eq_true_2 in T by by_compute.
    destruct T as (ins & outs & E & H1 & _ & _ & H2). exists ins, outs. by split_and!.
  - pose proof (sort_bip69_sorts (bip69_tx [bip69_in 4 1; bip69_in 4 0]) ltac:(by repeat constructor) (Hu _)) as T.
    rewrite bool_decide_eq_false_2 in T; [exact T|]. cbn. intros [Hn _]%NoDup_cons. apply Hn. by left.
Defined.
End BtcSort.
