(* ===== verification/BtcDigest.v ===== *)
(** What is signed and how: [btc_sw_sighash] is the digest of BIP 143, a
    signature is strict DER with a small s and passes its own check. *)
From stdpp Require Import base list numbers tactics.
From Stdlib Require Import ZArith Lia.
From S2P Require Import Prelude CProg UtlBuf UtlPush LnDerkey LnMisc LnMsg LnSig LnToyNoise BtcTx BtcTxWire BtcSw.
Import UtlBuf UtlPush LnMisc LnMsg LnSig BtcTx BtcTxWire BtcSw.
Open Scope Z_scope.

Module BtcDigest.

(** ** Validity *)

Definition valid_out (o : tx_output) : bool :=
  match out_spk o with
  | [] => false
  | op :: _ => negb (out_value o =? 0) || (op =? 0x6a)
  end.

Definition valid (t : transaction) : bool :=
  negb (t_version t =? 0) && negb (bool_decide (t_ins t = [])) &&
  negb (bool_decide (t_outs t = [])) && forallb valid_out (t_outs t).

(** A loop whose rounds leave the state alone is a fold. *)
Lemma for_idx_foldl {S X B} (l : list X) (body : nat → B → prog S B) (h : X → B → B) b s :
  (∀ i x b, l !! i = Some x → body i b s = Ret (h x b) s) →
  for_idx (seq 0 (length l)) body b s = Ret (foldl (λ b x, h x b) b l) s.
Proof.
  intros Hb. change 0%nat with (length (@nil X)).
  assert (∀ l0 pre b, l = pre ++ l0 →
    for_idx (seq (length pre) (length l0)) body b s = Ret (foldl (λ b x, h x b) b l0) s) as H;
    [|by apply (H l [])].
  induction l0 as [|x l0 IH]; intros pre b0 El; [done|]. cbn [length seq for_idx foldl].
  erewrite bind_ret by (apply Hb; rewrite El; by apply list_lookup_middle).
  replace (Datatypes.S (length pre)) with (length (pre ++ [x])) by (rewrite length_app; cbn; lia).
  apply IH. by rewrite El, <- app_assoc.
Qed.

Lemma foldl_const {X B} (h : X → B → B) b l : (∀ x, h x b = b) → foldl (λ b x, h x b) b l = b.
Proof. intros Hh. induction l as [|x l IH]; [done|]. cbn. by rewrite Hh. Qed.

Definition out_code (o : tx_output) (ret : Z) : Z :=
  if negb (ret =? 0) then ret
  else match out_spk o with
       | [] => 9
       | op :: _ => if out_value o =? 0 then if op =? 0x6a then ret else 10 else ret
       end.

Lemma out_codes l ret : (foldl (λ b x, out_code x b) ret l =? 0) = (ret =? 0) && forallb valid_out l.
Proof.
  revert ret. induction l as [|o l IH]; intros ret; cbn [foldl forallb]; [by rewrite andb_true_r|].
  rewrite IH, andb_assoc. f_equal. unfold out_code, valid_out.
  destruct (Z.eqb_spec ret 0) as [->|Hr]; cbn [negb andb].
  - destruct (out_spk o) as [|op spk]; [done|]. destruct (out_value o =? 0); cbn [negb orb]; [|done].
    by destruct (op =? 0x6a).
  - by rewrite (proj2 (Z.eqb_neq _ _)).
Qed.

Lemma arr_none {X} (l : list X) : bool_decide (arr l = None) = bool_decide (l = []).
Proof. unfold arr. apply bool_decide_ext. by case_bool_decide. Qed.

Lemma first_cell op spk : read_cells (buf (bufb (op :: spk))) 1 = Some [op].
Proof.
  unfold bufb. rewrite bool_decide_eq_false_2 by done. cbn [of_bytes buf].
  apply (read_prefix [op] spk). done.
Qed.

Lemma is_valid_spec t s : ∃ c, btc_tx_is_valid (rep t) s = Ret c s ∧ (c =? 0) = valid t.
Proof.
  unfold btc_tx_is_valid, valid. cbn [rep version vin_cnt vin vout_cnt vout]. rewrite !arr_none.
  destruct (t_version t =? 0); [by eexists|]. cbn [negb andb].
  destruct (bool_decide_reflect (t_ins t = [])) as [->|Hi]; [by eexists|]. cbn [negb andb].
  destruct (bool_decide_reflect (t_outs t = [])) as [->|Ho]; [eexists|]; cbn [negb andb].
  { destruct (t_ins t); done. }
  rewrite !(proj2 (Z.eqb_neq _ _)) by (destruct (t_ins t), (t_outs t); cbn; congruence || lia).
  assert (∀ X Y (f : X → Y) l, l ≠ [] → bool_decide (f <$> l = []) = false) as Hf
    by (intros X Y f [|] ?; by rewrite bool_decide_eq_false_2).
  rewrite !Hf by done. rewrite !Nat2Z.id.
  erewrite bind_ret.
  2:{ apply (for_idx_foldl (t_ins t) _ (λ _ ret, ret)). intros i x b Hx.
      destruct (negb (b =? 0)); [done|]. rewrite vin_at_rep, Hx.
      cbn [fmap option_fmap option_map of_option]. erewrite bind_ret by done.
      cbn [rep_in wit_cnt witness]. rewrite arr_none.
      destruct (in_wit x) as [|w ws]; [done|]. cbn [length]. rewrite (proj2 (Z.ltb_lt _ _)) by lia.
      rewrite bool_decide_eq_false_2 by done. by rewrite (proj2 (Z.eqb_neq _ _)) by lia. }
  rewrite foldl_const by done. rewrite Z.eqb_refl. cbn [negb].
  eexists. split; [apply (for_idx_foldl (t_outs t) _ out_code)|].
  - intros i x b Hx. unfold out_code. destruct (negb (b =? 0)); [done|]. rewrite vout_at_rep, Hx.
    cbn [fmap option_fmap option_map of_option]. erewrite bind_ret by done.
    cbn [rep_out value vout_script]. rewrite bufb_len.
    destruct (out_spk x) as [|op spk] eqn:Es; [done|]. cbn [length].
    rewrite (proj2 (Z.eqb_neq _ _)) by lia. destruct (out_value x =? 0); [|done].
    rewrite first_cell. erewrite bind_ret by done. unfold mret, prog_ret. f_equal.
    rewrite (bool_decide_ext ([op] = [0x6a]) (op = 0x6a)) by naive_solver.
    by destruct (Z.eqb_spec op 0x6a); [rewrite bool_decide_eq_true_2 | rewrite bool_decide_eq_false_2].
  - by rewrite out_codes.
Qed.

(** A sequence of writes is done by the bytes in order. *)
Lemma pokes_bind m d (k : unit → prog utl_push_t unit) e :
  pokes m d → pokes (k tt) e → pokes (m ≫= k) (d ++ e).
Proof. intros Hm Hk. by eapply pokes_seq. Qed.

Lemma pokes_cast m d e : pokes m d → e = d → pokes m e.
Proof. by intros Hm ->. Qed.

Ltac solve_pokes := repeat first [apply poke_bytes_pokes | eapply pokes_bind; [|cbn beta]].

(** ** The digest *)

Section digest.
Context {A : Alloc} {T : AllocTotal A} {F : Fresh} {H : BtcHash} {L : BtcHashLaws H}.

Definition sha256d (d : bytes) : bytes := mbedtls_sha256 (mbedtls_sha256 d).

Definition outpoint (i : tx_input) : bytes := in_prev i ++ le_bytes 4 (in_n i).

(** What BIP 143 has signed for the input [i], whose script is [code] with its
    length and whose coins are [amount]; [out] is the serialisation of an output. *)
Definition bip143 (out : tx_output → bytes) (t : transaction) (i : tx_input) (code : bytes)
  (amount : Z) : bytes :=
  le_bytes 4 (t_version t) ++
  sha256d (concat (outpoint <$> t_ins t)) ++
  sha256d (concat ((λ i, le_bytes 4 (in_seq i)) <$> t_ins t)) ++
  outpoint i ++ code ++ le_bytes 8 amount ++ le_bytes 4 (in_seq i) ++
  sha256d (concat (out <$> t_outs t)) ++
  le_bytes 4 (t_lock t) ++ le_bytes 4 1.

(** The serialisation of an output in the code: the length is one byte. *)
Definition short_out (o : tx_output) : bytes :=
  le_bytes 8 (out_value o) ++ [u8 (zlen (out_spk o))] ++ out_spk o.

Lemma short_out_wire o : zlen (out_spk o) < 0xfd → short_out o = out_wire o.
Proof.
  intros Hl. unfold short_out, out_wire, var_bytes, compact_size.
  rewrite (proj2 (Z.ltb_lt _ _)) by lia. by rewrite (wrap_small 8) by (unfold in_range; lia).
Qed.

Lemma short_out_longer o : 0xfd ≤ zlen (out_spk o) → zlen (short_out o) < zlen (out_wire o).
Proof.
  intros Hl. unfold short_out, out_wire, var_bytes, compact_size.
  rewrite (proj2 (Z.ltb_ge _ _)) by lia. rewrite !length_app.
  repeat case_match; cbn [length le_bytes]; lia.
Qed.

Lemma alloc_fill_bytes {S} n m d (s : S) : pokes m d → n = zlen d → n < 2 ^ 32 →
  alloc_fill n m s = Ret (of_bytes d) s.
Proof.
  intros Hm -> Hn. unfold alloc_fill, fill_block. rewrite (wrap_small 32) by (unfold in_range; lia).
  rewrite malloc_eq. pose proof (Hm [] (zlen d) ltac:(cbn; lia)) as E. cbn [app] in E.
  assert (mk_push 0 (mk_buf (Some (junk (zlen d))) (zlen d)) = pushedb [] (zlen d)) as ->
    by (unfold pushedb, pushed; cbn; by rewrite Z.sub_0_r).
  rewrite E, bool_decide_eq_true_2 by lia. unfold pushedb, pushed. cbn [data].
  by rewrite !length_init_cells, Z.sub_diag, app_nil_r.
Qed.

Lemma hash_buf_spec d s : zlen d < 2 ^ 16 → hash_buf (of_bytes d) s = Ret (sha256d d) s.
Proof.
  intros Hd. unfold hash_buf, buf_bytes, of_bytes. cbn [buf len]. rewrite read_of_bytes.
  erewrite bind_ret by done. unfold btc_util_hash256.
  erewrite bind_ret by (apply sha256_step; rewrite wrap_small by (unfold in_range; lia); lia).
  rewrite sha256_step by (rewrite (proj2 (sha256_32 _)); done).
  rewrite (wrap_small 16 (zlen d)) by (unfold in_range; lia). unfold sha256d. rewrite (take_ge d) by lia.
  do 2 f_equal. apply take_ge. by rewrite (proj2 (sha256_32 _)).
Qed.

Lemma outpoint_len i : in_ok i → length (outpoint i) = 36%nat.
Proof. intros [Hp _ _ _]. unfold outpoint. rewrite length_app, length_le_bytes, Hp. done. Qed.

Lemma concat_len {X} (f : X → bytes) (l : list X) k : (∀ x, x ∈ l → length (f x) = k) →
  length (concat (f <$> l)) = (length l * k)%nat.
Proof.
  induction l as [|x l IH]; intros Hf; [done|]. cbn [fmap list_fmap concat length].
  rewrite length_app, Hf, IH; [lia | intros y Hy; apply Hf; by right | by left].
Qed.

Lemma fill_prevouts_spec t : tx_ok t → zlen (t_ins t) * 36 < 2 ^ 16 →
  fill_prevouts (rep t) tt = Ret (of_bytes (concat (outpoint <$> t_ins t))) tt.
Proof.
  intros [Hi _ _ _] Hl. unfold fill_prevouts. cbn [rep vin_cnt]. rewrite Nat2Z.id.
  apply alloc_fill_bytes; [|rewrite (concat_len _ _ 36); [lia|]|lia].
  - apply (pokes_each rep_in (t_ins t) (vin_at (rep t)) (λ v, poke_bytes (txid v);; set_le32 (index v)));
      [apply vin_at_rep|].
    apply Forall_true. intros i. cbn [rep_in txid index].
    eapply pokes_seq; [apply poke_bytes_pokes | apply poke_bytes_pokes | done].
  - intros i Hx. apply outpoint_len. rewrite Forall_forall in Hi. apply Hi. by apply list_elem_of_In.
Qed.

Lemma fill_sequence_spec t : zlen (t_ins t) * 36 < 2 ^ 16 →
  fill_sequence (rep t) tt = Ret (of_bytes (concat ((λ i, le_bytes 4 (in_seq i)) <$> t_ins t))) tt.
Proof.
  intros Hl. unfold fill_sequence. cbn [rep vin_cnt]. rewrite Nat2Z.id.
  apply alloc_fill_bytes; [|rewrite (concat_len _ _ 4); [lia|]|lia].
  - apply (pokes_each rep_in (t_ins t) (vin_at (rep t)) (λ v, set_le32 (sequence v)));
      [apply vin_at_rep|].
    apply Forall_true. intros i. apply poke_bytes_pokes.
  - intros i _. apply length_le_bytes.
Qed.

Lemma poke_bufb d : pokes (poke (default [] (buf (bufb d))) (len (bufb d))) d.
Proof.
  intros w n Hn. rewrite <- (poke_bytes_pokes d w n Hn). unfold poke_bytes, bufb.
  by case_bool_decide; subst.
Qed.

Lemma fill_outputs_spec t : tx_ok t → zlen (concat (short_out <$> t_outs t)) < 2 ^ 16 →
  fill_outputs (rep t) tt = Ret (of_bytes (concat (short_out <$> t_outs t))) tt.
Proof.
  intros [_ Ho _ _] Hl. unfold fill_outputs. cbn [rep vout_cnt]. rewrite !Nat2Z.id.
  assert (∀ l a, 0 ≤ a → a + zlen (concat (short_out <$> l)) < 2 ^ 16 →
    foldl (λ b o, u32 (b + len (bufb (out_spk o)))) a l + zlen l * 9 = a + zlen (concat (short_out <$> l))) as Hsum.
  { induction l as [|o l IH]; intros a Ha Hb; cbn [foldl fmap list_fmap concat length] in *; [lia|].
    rewrite bufb_len. 
    assert (length (short_out o) = 9 + length (out_spk o))%nat as El
      by (unfold short_out; rewrite !length_app, length_le_bytes; cbn; lia).
    rewrite length_app, El in *.
    rewrite (wrap_small 32) by (unfold in_range; lia).
    specialize (IH (a + zlen (out_spk o)) ltac:(lia) ltac:(lia)). lia. }
  specialize (Hsum (t_outs t) 0 ltac:(lia) ltac:(lia)).
  erewrite bind_ret.
  2:{ apply (for_idx_foldl (t_outs t) _ (λ o b, u32 (b + len (bufb (out_spk o))))).
      intros i o b Ho'. rewrite vout_at_rep, Ho'. done. }
  apply alloc_fill_bytes; [|lia|lia].
  apply (pokes_each rep_out (t_outs t) (vout_at (rep t)) (λ o,
    set_le64 (value o);; poke_bytes [u8 (len (vout_script o))];;
    poke (default [] (buf (vout_script o))) (len (vout_script o)))); [apply vout_at_rep|].
  apply Forall_true. intros o. cbn [rep_out value vout_script].
  eapply pokes_seq; [apply poke_bytes_pokes | | done]. cbn beta.
  eapply pokes_seq; [apply poke_bytes_pokes | apply poke_bufb | by rewrite bufb_len].
Qed.

Lemma sha256d_len d : length (sha256d d) = 32%nat.
Proof. apply (sha256_32 (mbedtls_sha256 d)). Qed.

(** The digest in full: of the form BIP 143 prescribes, but for outputs whose
    script has 253 bytes or more. *)
Lemma sighash_spec t (n : nat) i code amount :
  tx_ok t → t_ins t !! n = Some i →
  zlen (t_ins t) * 36 < 2 ^ 16 → zlen (concat (short_out <$> t_outs t)) < 2 ^ 16 →
  156 + zlen code < 2 ^ 16 →
  btc_sw_sighash (rep t) (Z.of_nat n) amount (of_bytes code) tt =
  Ret (if valid t then Some (sha256d (bip143 short_out t i code amount)) else None) tt.
Proof.
  intros Hok Hn Hins Houts Hcode. unfold btc_sw_sighash.
  destruct (is_valid_spec t tt) as (c & Ec & Hc). erewrite bind_ret by exact Ec. rewrite Hc.
  destruct (valid t); [|done]. cbn [negb rep vin]. rewrite arr_at, Hn.
  cbn [fmap option_fmap option_map of_option]. erewrite bind_ret by done.
  erewrite bind_ret by (by apply fill_prevouts_spec). erewrite bind_ret by (by apply fill_sequence_spec).
  assert (in_ok i) as Hi.
  { destruct Hok as [Hi _ _ _]. rewrite Forall_forall in Hi. apply Hi.
    apply list_elem_of_In. by eapply list_elem_of_lookup_2. }
  erewrite bind_ret.
  2:{ apply hash_buf_spec. rewrite (concat_len _ _ 36); [lia|]. intros j Hj. apply outpoint_len.
      destruct Hok as [Hi' _ _ _]. rewrite Forall_forall in Hi'. apply Hi'. by apply list_elem_of_In. }
  erewrite bind_ret.
  2:{ apply hash_buf_spec. rewrite (concat_len _ _ 4); [lia|]. intros j _. apply length_le_bytes. }
  erewrite bind_ret by (by apply fill_outputs_spec). erewrite bind_ret by (by apply hash_buf_spec).
  set (d := bip143 short_out t i code amount).
  assert (zlen d = 156 + zlen code) as Hd.
  { unfold d, bip143. rewrite !length_app, !sha256d_len, outpoint_len, !length_le_bytes by done. lia. }
  erewrite bind_ret.
  2:{ apply (alloc_fill_bytes _ _ d); [|cbn [of_bytes len]; lia|cbn [of_bytes len]; lia].
      cbn [rep_in txid index sequence rep version locktime of_bytes buf len default].
      unfold d, bip143, outpoint.
      eapply pokes_cast; [solve_pokes|]. cbn [le_bytes app]. by rewrite <- !app_assoc. }
  erewrite bind_ret by (apply hash_buf_spec; lia). done.
Qed.

Lemma scriptcode_p2wsh_spec {S} script (s : S) : small script →
  btc_sw_scriptcode_p2wsh (bufb script) s = Ret (of_bytes (var_bytes script)) s.
Proof.
  intros Hs. unfold btc_sw_scriptcode_p2wsh. unfold small in Hs. apply alloc_fill_bytes.
  - by apply poke_buf_pokes.
  - rewrite var_bytes_len by done. lia.
  - rewrite bufb_len. unfold btcl_util_get_varint_len. case_match; lia.
Qed.

Lemma calc_sighash_spec t (n : nat) i script amount :
  tx_ok t → t_ins t !! n = Some i →
  zlen (t_ins t) * 36 < 2 ^ 16 → zlen (concat (short_out <$> t_outs t)) < 2 ^ 16 →
  zlen script < 0xff00 →
  btc_util_calc_sighash_p2wsh (rep t) (Z.of_nat n) amount (bufb script) tt =
  Ret (if valid t then Some (sha256d (bip143 short_out t i (var_bytes script) amount)) else None) tt.
Proof.
  intros Hok Hn Hins Houts Hs.
  unfold btc_util_calc_sighash_p2wsh. destruct (is_valid_spec t tt) as (c & Ec & Hc).
  erewrite bind_ret by exact Ec. rewrite Hc. destruct (valid t) eqn:Ev; [|done]. cbn [negb].
  erewrite bind_ret by (apply scriptcode_p2wsh_spec; unfold small; lia).
  rewrite (sighash_spec t n i) by (try done; rewrite var_bytes_len by (unfold small; lia);
    rewrite bufb_len; unfold btcl_util_get_varint_len; case_match; lia).
  by rewrite Ev.
Qed.

Lemma bip143_short t i code amount : Forall (λ o, zlen (out_spk o) < 0xfd) (t_outs t) →
  bip143 short_out t i code amount = bip143 out_wire t i code amount.
Proof.
  intros Ho. unfold bip143. do 10 f_equal.
  induction Ho as [|o l Hl _ IH]; [done|]. cbn [fmap list_fmap concat].
  by rewrite short_out_wire, IH.
Qed.

(** The outputs as they are hashed are as long as their serialisation exactly when every
    script is short. *)
Lemma short_outs_len l : zlen (concat (short_out <$> l)) ≤ zlen (concat (out_wire <$> l)) ∧
  (zlen (concat (short_out <$> l)) = zlen (concat (out_wire <$> l)) → Forall (λ o, zlen (out_spk o) < 0xfd) l).
Proof.
  induction l as [|o l [IH1 IH2]]; [by split|]. cbn [fmap list_fmap concat]. rewrite !length_app.
  destruct (Z.ltb_spec (zlen (out_spk o)) 0xfd) as [Ho|Ho].
  - rewrite short_out_wire by done. split; [lia|]. intros He. constructor; [done|]. apply IH2. lia.
  - pose proof (short_out_longer o Ho). split; [lia|]. intros He. lia.
Qed.

Lemma short_outs_exact l : concat (short_out <$> l) = concat (out_wire <$> l) ↔ Forall (λ o, zlen (out_spk o) < 0xfd) l.
Proof.
  split; [intros He; apply short_outs_len; by rewrite He|].
  induction 1 as [|o l Hl _ IH]; [done|]. cbn [fmap list_fmap concat]. by rewrite short_out_wire, IH.
Qed.

(** C20: For a transaction whose outpoints together and outputs together take less than
    2^16 bytes (the lengths are passed on in 16 bits) and a witness script of less than
    65280 bytes, the digest of an input that spends a P2WSH
    output is [sha256d] of the message of BIP 143, except that the length of
    every output script is written in one byte. The outputs that are hashed into
    hashOutputs are then the serialised ones of BIP 143 exactly when every output script is
    shorter than 253 bytes, and in that case the digest is the one of BIP 143. An
    invalid transaction has none. *)
Theorem sighash_bip143 t (n : nat) i script amount :
  tx_ok t → t_ins t !! n = Some i →
  zlen (t_ins t) * 36 < 2 ^ 16 → zlen (concat (short_out <$> t_outs t)) < 2 ^ 16 →
  zlen script < 0xff00 →
  btc_util_calc_sighash_p2wsh (rep t) (Z.of_nat n) amount (bufb script) tt =
  Ret (if valid t then Some (sha256d (bip143 short_out t i (var_bytes script) amount)) else None) tt ∧
  (concat (short_out <$> t_outs t) = concat (out_wire <$> t_outs t) ↔ Forall (λ o, zlen (out_spk o) < 0xfd) (t_outs t)) ∧
  (Forall (λ o, zlen (out_spk o) < 0xfd) (t_outs t) →
   bip143 short_out t i (var_bytes script) amount = bip143 out_wire t i (var_bytes script) amount).
Proof.
  intros Hok Hn Hins Houts Hs. split_and!; [by apply calc_sighash_spec | apply short_outs_exact | apply bip143_short].
Qed.
End digest.

(** ** Signatures *)

(** What ECDSA and mbedtls promise: a valid key signs, its public key verifies,
    the negated s verifies as well; an ASN.1 integer is in its shortest form and
    [mbedtls_ecdsa_read_signature] reads what was written. *)
Class EcdsaLaws (E : Ecdsa) : Prop := {
  ecdsa_prime :: PrimeCurve ecdsa_curve;
  ecdsa_sign_verify d h : 1 ≤ d < order →
    ∃ r s, mbedtls_ecdsa_sign_det d h = Some (r, s) ∧ 1 ≤ r < order ∧ 1 ≤ s < order ∧
           mbedtls_ecdsa_verify (smul d gen) h r s = true;
  ecdsa_verify_neg Q h r s :
    mbedtls_ecdsa_verify Q h r (order - s) = mbedtls_ecdsa_verify Q h r s;
  asn1_write_mpi_spec v : 0 ≤ v < 2 ^ 256 →
    mbedtls_asn1_write_mpi v =
    [0x02; zlen (der_int (be_bytes 32 v))] ++ der_int (be_bytes 32 v);
  ecdsa_read_der Q h r s : 0 ≤ r < 2 ^ 256 → 0 ≤ s < 2 ^ 256 →
    mbedtls_ecdsa_read_signature Q h (ecdsa_signature_to_asn1 r s) = mbedtls_ecdsa_verify Q h r s;
}.

(** An ASN.1 integer in its shortest form. *)
Definition asn1_int (v : Z) : bytes :=
  [0x02; zlen (der_int (be_bytes 32 v))] ++ der_int (be_bytes 32 v).

Lemma asn1_der_of {E : Ecdsa} r s :
  mbedtls_asn1_write_mpi r = asn1_int r → mbedtls_asn1_write_mpi s = asn1_int s →
  ecdsa_signature_to_asn1 r s ++ [SIGHASH_ALL] = der (be_bytes 32 r) (be_bytes 32 s).
Proof.
  intros Hr Hs. unfold ecdsa_signature_to_asn1, der. rewrite Hr, Hs. unfold asn1_int.
  rewrite !length_app. cbn [length app]. rewrite <- !app_assoc. cbn [app].
  replace (Z.of_nat _) with (4 + zlen (der_int (be_bytes 32 r)) + zlen (der_int (be_bytes 32 s))) by lia.
  done.
Qed.

Section sign.
Context {A : Alloc} {T : AllocTotal A} {E : Ecdsa} {L : EcdsaLaws E}.

Lemma asn1_der r s : 0 ≤ r < 2 ^ 256 → 0 ≤ s < 2 ^ 256 →
  ecdsa_signature_to_asn1 r s ++ [SIGHASH_ALL] = der (be_bytes 32 r) (be_bytes 32 s).
Proof. intros Hr Hs. apply asn1_der_of; by apply asn1_write_mpi_spec. Qed.

Lemma len_der r s : 0 ≤ r < 2 ^ 256 → 0 ≤ s < 2 ^ 256 →
  zlen (der (be_bytes 32 r) (be_bytes 32 s)) < 2 ^ 16.
Proof.
  intros Hr Hs. rewrite length_der.
  pose proof (length_der_int (be_bytes 32 r) (be_bytes_is_bytes _ _) (length_be_bytes _ _)).
  pose proof (length_der_int (be_bytes 32 s) (be_bytes_is_bytes _ _) (length_be_bytes _ _)). lia.
Qed.

Lemma verify_der_eq r s Q pub h : 0 ≤ r < 2 ^ 256 → 0 ≤ s < 2 ^ 256 → length pub = 33%nat → pt_read pub = Some Q →
  btc_tx_verify (of_bytes (der (be_bytes 32 r) (be_bytes 32 s))) h pub tt = Ret (mbedtls_ecdsa_verify Q h r s) tt.
Proof.
  intros Hr Hs Hl Hread. pose proof (len_der r s Hr Hs) as Hlen.
  pose proof (der_valid (be_bytes 32 r) (be_bytes 32 s) tt (be_bytes_is_bytes _ _)
    (be_bytes_is_bytes _ _) (length_be_bytes _ _) (length_be_bytes _ _)) as Hval.
  pose proof (asn1_der r s Hr Hs) as Ed. set (sig := der _ _) in *.
  unfold btc_tx_verify, buf_bytes. cbn [of_bytes buf len]. rewrite read_of_bytes.
  erewrite bind_ret by done. rewrite (wrap_small 16) by (unfold in_range; lia).
  assert (sig !! Z.to_nat (zlen sig - 1) = Some SIGHASH_ALL) as ->.
  { rewrite <- Ed. apply list_lookup_middle. rewrite length_app. cbn [length]. lia. }
  erewrite bind_ret by done. rewrite Z.eqb_refl. cbn [negb].
  rewrite (on_local_step _ _ _ _ _ _ Hval). cbn [fst negb].
  erewrite bind_ret by (apply rd_bytes_sl; lia). rewrite sl_all by lia. rewrite Hread.
  assert (take (length sig - 1) sig = ecdsa_signature_to_asn1 r s) as ->.
  { rewrite <- Ed. apply take_app_length'. rewrite length_app. cbn [length]. lia. }
  by rewrite ecdsa_read_der.
Qed.

Lemma verify_der r s Q pub h : 0 ≤ r < 2 ^ 256 → 0 ≤ s < 2 ^ 256 → length pub = 33%nat → pt_read pub = Some Q →
  mbedtls_ecdsa_verify Q h r s = true →
  btc_tx_verify (of_bytes (der (be_bytes 32 r) (be_bytes 32 s))) h pub tt = Ret true tt.
Proof. intros Hr Hs Hl Hread Hv. by rewrite (verify_der_eq r s Q) by done; rewrite Hv. Qed.

(** The pair that is signed with: its s is in the lower half. *)
Lemma sign_rs_spec priv h : length priv = 32%nat → 1 ≤ be_val priv < order →
  ∃ r s, sign_rs h priv tt = Ret (r, s) tt ∧ 1 ≤ r < order ∧ 1 ≤ s < order ∧ 2 * s ≤ order ∧
         mbedtls_ecdsa_verify (smul (be_val priv) gen) h r s = true.
Proof.
  intros Hl Hd. destruct (ecdsa_sign_verify (be_val priv) h Hd) as (r & s0 & Esig & Hr & Hs0 & Hv).
  pose proof order_pos as [_ Ho].
  set (s := if Z.shiftr order 1 <? s0 then order - s0 else s0). exists r, s.
  assert (1 ≤ s < order ∧ 2 * s ≤ order) as [Hs Hlow].
  { unfold s. rewrite Z.shiftr_div_pow2 by lia. change (2 ^ 1) with 2.
    destruct (Z.ltb_spec (order / 2) s0); Z.to_euclidean_division_equations; lia. }
  split_and!; try done; try lia.
  - unfold sign_rs. erewrite bind_ret by (apply rd_bytes_sl; lia). rewrite sl_all by lia. by rewrite Esig.
  - unfold s. destruct (Z.shiftr order 1 <? s0); [by rewrite ecdsa_verify_neg | done].
Qed.

(** A public key is 33 bytes and is read back. *)
Lemma pub_read d : 1 ≤ d < order →
  length (pt_write (smul d gen)) = 33%nat ∧ pt_read (pt_write (smul d gen)) = Some (smul d gen).
Proof.
  intros Hd. assert (smul d gen ≠ inf) as Hf by (apply smul_finite; [lia | apply gen_finite]).
  split; [by apply written_length | by apply read_write].
Qed.

Lemma tx_sign_der priv h r s : sign_rs h priv tt = Ret (r, s) tt → 0 ≤ r < 2 ^ 256 → 0 ≤ s < 2 ^ 256 →
  btc_tx_sign h priv tt = Ret (of_bytes (der (be_bytes 32 r) (be_bytes 32 s))) tt.
Proof.
  intros Ers Hr Hs. unfold btc_tx_sign. erewrite bind_ret by exact Ers. cbn [fst snd].
  rewrite asn1_der by lia. set (sig := der _ _).
  assert (u16 (zlen sig) = zlen sig) as -> by (apply wrap_small; unfold in_range; split; [lia | by apply len_der]).
  rewrite (on_local_step _ _ _ _ _ _ (der_valid (be_bytes 32 r) (be_bytes 32 s) tt (be_bytes_is_bytes _ _)
    (be_bytes_is_bytes _ _) (length_be_bytes _ _) (length_be_bytes _ _))).
  cbn [fst]. erewrite bind_ret by done. fold sig.
  rewrite <- (app_nil_r (init_cells sig)), alloccopy_bytes. by rewrite bool_decide_eq_false_2.
Qed.

Lemma verify_rs_ok r s Q pub h : 0 ≤ r < 2 ^ 256 → 0 ≤ s < 2 ^ 256 → length pub = 33%nat →
  pt_read pub = Some Q → mbedtls_ecdsa_verify Q h r s = true →
  btc_tx_verify_rs (be_bytes 32 r ++ be_bytes 32 s) h pub tt = Ret true tt.
Proof.
  intros Hr Hs Hl Hread Hv. unfold btc_tx_verify_rs.
  erewrite bind_ret by (apply rd_bytes_sl; rewrite ?length_app, ?length_be_bytes; lia).
  erewrite bind_ret by (apply rd_bytes_sl; rewrite ?length_app, ?length_be_bytes; lia).
  erewrite bind_ret by (apply rd_bytes_sl; lia). rewrite (sl_all pub), Hread by lia.
  rewrite sl_head by (rewrite ?length_be_bytes; lia).
  rewrite sl_app_r, sl_all by (rewrite ?length_be_bytes; lia).
  rewrite !be_val_be_bytes, !wrap_small by (unfold in_range; lia). by rewrite Hv.
Qed.

(** A key's signature is accepted for its public key. *)
Lemma sign_accepted priv h : length priv = 32%nat → 1 ≤ be_val priv < order →
  ∃ sig, btc_tx_sign h priv tt = Ret (of_bytes sig) tt ∧
         btc_tx_verify (of_bytes sig) h (pt_write (smul (be_val priv) gen)) tt = Ret true tt.
Proof.
  intros Hl Hd. destruct (sign_rs_spec priv h Hl Hd) as (r & s & Ers & Hr & Hs & _ & Hv).
  pose proof order_pos as [_ Ho]. destruct (pub_read _ Hd) as [Hpub Hread].
  eexists. split; [apply (tx_sign_der _ _ r s); lia || done|].
  by apply (verify_der r s (smul (be_val priv) gen)); lia || done.
Qed.

(** C21: A private key signs with an s in the lower half, in strict DER; the check
    with its public key accepts the signature in both of its forms, and the two
    forms are each other's [ln_misc_sigtrim] and [ln_misc_sigexpand]. *)
Theorem sign_verifies priv h st pSig :
  length priv = 32%nat → 1 ≤ be_val priv < order → length pSig = 64%nat →
  ∃ r s sig,
    let pub := pt_write (smul (be_val priv) gen) in
    let rs := be_bytes 32 r ++ be_bytes 32 s in
    btc_tx_sign h priv tt = Ret (of_bytes sig) tt ∧
    btc_tx_sign_rs h priv tt = Ret rs tt ∧
    2 * s ≤ order ∧
    run (is_valid_signature_encoding sig (zlen sig)) tt = Ret true tt ∧
    btc_tx_verify (of_bytes sig) h pub tt = Ret true tt ∧
    btc_tx_verify_rs rs h pub tt = Ret true tt ∧
    run (ln_misc_sigtrim sig) pSig = Ret true rs ∧
    ln_misc_sigexpand rs st = Ret tt (mk_push (zlen sig) (of_bytes sig)).
Proof.
  intros Hl Hd Hp. destruct (sign_rs_spec priv h Hl Hd) as (r & s & Ers & Hr & Hs & Hlow & Hv).
  pose proof order_pos as [_ Ho]. destruct (pub_read _ Hd) as [Hpub Hread].
  exists r, s, (der (be_bytes 32 r) (be_bytes 32 s)). cbn zeta. split_and!; try done.
  - apply tx_sign_der; lia || done.
  - unfold btc_tx_sign_rs. erewrite bind_ret by exact Ers. cbn [fst snd].
    by rewrite !(proj2 (Z.ltb_lt _ _)) by lia.
  - by apply der_valid; try apply be_bytes_is_bytes; try apply length_be_bytes.
  - by apply (verify_der r s (smul (be_val priv) gen)); lia || done.
  - by apply (verify_rs_ok r s (smul (be_val priv) gen)); lia || done.
  - by apply sigtrim_der; try apply be_bytes_is_bytes; try apply length_be_bytes.
  - by apply sigexpand_der; try apply be_bytes_is_bytes; try apply length_be_bytes.
Qed.
End sign.

(** ** Concrete primitives: the signature (1, 1) is the only one, with its negation. *)

Definition toy_verify (r s : Z) : bool := (r =? 1) && ((s =? 1) || (s =? 250)).

#[export] Instance toy_ecdsa : Ecdsa := {|
  ecdsa_curve := LnToyNoise.group;
  mbedtls_ecdsa_sign_det := λ _ _, Some (1, 1);
  mbedtls_ecdsa_verify := λ _ _ r s, toy_verify r s;
  mbedtls_ecdsa_read_signature := λ _ _ d,
    bool_decide (d ++ [0x01] = der (be_bytes 32 1) (be_bytes 32 1) ∨
                 d ++ [0x01] = der (be_bytes 32 1) (be_bytes 32 250));
  mbedtls_asn1_write_mpi := asn1_int;
|}.

Lemma der_inj r s r' s' : 0 ≤ r < 2 ^ 256 → 0 ≤ s < 2 ^ 256 → 0 ≤ r' < 2 ^ 256 → 0 ≤ s' < 2 ^ 256 →
  der (be_bytes 32 r) (be_bytes 32 s) = der (be_bytes 32 r') (be_bytes 32 s') → r = r' ∧ s = s'.
Proof.
  intros Hr Hs Hr' Hs' Ed.
  assert (∀ a b, run (ln_misc_sigtrim (der (be_bytes 32 a) (be_bytes 32 b))) (replicate 64 0) =
    Ret true (be_bytes 32 a ++ be_bytes 32 b)) as Ht.
  { intros a b. by apply sigtrim_der; try apply be_bytes_is_bytes; try apply length_be_bytes. }
  pose proof (Ht r s) as H1. rewrite Ed, Ht in H1.
  apply (f_equal (λ o : out bytes bool, match o with Ret _ x => x | _ => [] end)) in H1. cbv beta iota in H1.
  apply app_inj_1 in H1 as [H1 H2]; [|by rewrite !length_be_bytes].
  apply (f_equal be_val) in H1, H2. rewrite !be_val_be_bytes, !wrap_small in H1 by (unfold in_range; lia).
  rewrite !be_val_be_bytes, !wrap_small in H2 by (unfold in_range; lia). done.
Qed.

Lemma toy_ecdsa_laws : EcdsaLaws toy_ecdsa.
Proof.
  split; cbn [toy_ecdsa ecdsa_curve mbedtls_ecdsa_sign_det mbedtls_ecdsa_verify
    mbedtls_ecdsa_read_signature mbedtls_asn1_write_mpi].
  - apply LnToyNoise.group_laws.
  - intros d h _. exists 1, 1. split_and!; try done; cbn; lia.
  - intros Q h r s. unfold toy_verify. cbn [order LnToyNoise.group]. f_equal.
    destruct (Z.eqb_spec s 1), (Z.eqb_spec s 250), (Z.eqb_spec (251 - s) 1), (Z.eqb_spec (251 - s) 250); lia || done.
  - done.
  - intros Q h r s Hr Hs. rewrite (asn1_der_of (E := toy_ecdsa)) by done. unfold toy_verify.
    apply eq_bool_prop_intro. split; intros Hx.
    + apply bool_decide_unpack in Hx as [[-> ->]%der_inj|[-> ->]%der_inj]; done || lia.
    + apply bool_decide_pack. apply Is_true_true, andb_true_iff in Hx as [->%Z.eqb_eq Hx].
      apply orb_true_iff in Hx as [->%Z.eqb_eq | ->%Z.eqb_eq]; [by left | by right].
Qed.

Lemma sign_verifies_witness :
  let priv := be_bytes 32 7 in
  is_bytes priv ∧ 1 ≤ be_val priv < 251 ∧
  ∃ sig, @btc_tx_sign total_alloc toy_ecdsa [3; 4] priv tt = Ret (of_bytes sig) tt ∧
    btc_tx_verify (of_bytes sig) [3; 4] (@pt_write LnToyNoise.group (LnToyNoise.to_point 7)) tt = Ret true tt.
Proof.
  cbn zeta. assert (is_bytes (be_bytes 32 7)) as Hb by apply be_bytes_is_bytes.
  assert (1 ≤ be_val (be_bytes 32 7) < 251) as Hv by (by vm_compute).
  split; [exact Hb|]. split; [exact Hv|].
  destruct (@sign_verifies total_alloc total_alloc_total toy_ecdsa toy_ecdsa_laws (be_bytes 32 7) [3; 4]
    (mk_push 0 (mk_buf None 0)) (replicate 64 0) eq_refl Hv eq_refl)
    as (r & s & sig & H1 & _ & _ & _ & H2 & _).
  exists sig. by split.
Defined.

(** With a script of 300 bytes. *)
Definition long_tx : transaction := mk_trans 2 [sample_in []] [mk_out 1000 (replicate 300 0x6a) 0] 17.

Lemma sighash_bip143_witness :
  (let t := sample_tx [[]; []] in
   @btc_util_calc_sighash_p2wsh total_alloc toy_hash (rep t) 1 50 (bufb [1; 2; 3]) tt =
   Ret (Some (@sha256d toy_hash (@bip143 toy_hash out_wire t (sample_in []) (var_bytes [1; 2; 3]) 50))) tt) ∧
  @btc_util_calc_sighash_p2wsh total_alloc toy_hash (rep long_tx) 0 50 (bufb [1; 2; 3]) tt =
    Ret (Some (@sha256d toy_hash (@bip143 toy_hash short_out long_tx (sample_in []) (var_bytes [1; 2; 3]) 50))) tt ∧
  concat (short_out <$> t_outs long_tx) ≠ concat (out_wire <$> t_outs long_tx).
Proof.
  cbn zeta. split.
  - destruct (@sighash_bip143 total_alloc total_alloc_total toy_hash toy_hash_laws (sample_tx [[]; []]) 1%nat
      (sample_in []) [1; 2; 3] 50 ltac:(apply sample_ok; by repeat constructor) eq_refl ltac:(by vm_compute)
      ltac:(by vm_compute) ltac:(by vm_compute)) as (H1 & _ & H2).
    rewrite <- H2 by (by repeat constructor). exact H1.
  - assert (tx_ok long_tx) as Hok by (split; by repeat constructor).
    destruct (@sighash_bip143 total_alloc total_alloc_total toy_hash toy_hash_laws long_tx 0%nat
      (sample_in []) [1; 2; 3] 50 Hok eq_refl ltac:(by vm_compute) ltac:(by vm_compute) ltac:(by vm_compute)) as (H1 & H2 & _).
    split; [exact H1|]. intros He. apply H2 in He. apply Forall_cons_1 in He as [He _]. by vm_compute in He.
Defined.
End BtcDigest.
