(* ===== verification/BtcBuild.v ===== *)
(** What building a transaction does: [btc_tx_add_vin], [btc_tx_add_vout] and
    the outputs and witnesses of [btc_sw.c] on the struct that holds a
    transaction. *)
From stdpp Require Import base list numbers tactics.
From Stdlib Require Import ZArith Lia.
From S2P Require Import Prelude CProg UtlBuf UtlPush LnDerkey LnMisc LnMsg LnSig BtcTx BtcTxWire.
From S2P Require Import BtcTxRead BtcSw BtcSort BtcDigest.
Import UtlBuf UtlPush LnMisc LnMsg BtcTx BtcTxWire BtcTxRead BtcSw BtcSort BtcDigest.
Open Scope Z_scope.

Module BtcBuild.

(** ** Changes of a transaction *)

Definition add_in (i : tx_input) (t : transaction) : transaction :=
  mk_trans (t_version t) (t_ins t ++ [i]) (t_outs t) (t_lock t).
Definition add_out (o : tx_output) (t : transaction) : transaction :=
  mk_trans (t_version t) (t_ins t) (t_outs t ++ [o]) (t_lock t).
Definition put_in (n : nat) (i : tx_input) (t : transaction) : transaction :=
  mk_trans (t_version t) (<[n := i]> (t_ins t)) (t_outs t) (t_lock t).
Definition with_lock (n : Z) (t : transaction) : transaction :=
  mk_trans (t_version t) (t_ins t) (t_outs t) n.

Definition put_opt (v : Z) (o : tx_output) : tx_output := mk_out (out_value o) (out_spk o) v.
Definition put_seq (v : Z) (i : tx_input) : tx_input :=
  mk_in (in_prev i) (in_n i) (in_sig i) (in_wit i) v.
Definition put_wit (sig : bytes) (w : list bytes) (i : tx_input) : tx_input :=
  mk_in (in_prev i) (in_n i) sig w (in_seq i).

Section build.
Context {A : Alloc} {T : AllocTotal A} {F : Fresh}.

Lemma arr_grow {X Y} (f : X → Y) (fresh : nat → Y) sz (l : list X) :
  arr_realloc fresh sz (arr (f <$> l)) (zlen l + 1) = Some ((f <$> l) ++ [fresh (length l)]).
Proof.
  unfold arr_realloc. rewrite (malloc_total (A := A)). f_equal.
  assert (default [] (arr (f <$> l)) = f <$> l) as -> by (unfold arr; by case_bool_decide as E; rewrite ?E).
  replace (Z.to_nat (zlen l + 1)) with (S (length l)) by lia. rewrite length_fmap.
  replace (S (length l) - length l)%nat with 1%nat by lia. rewrite take_ge by (rewrite length_fmap; lia). done.
Qed.

Lemma arr_snoc {X Y} (f : X → Y) (l : list X) x : Some ((f <$> l) ++ [f x]) = arr (f <$> (l ++ [x])).
Proof.
  unfold arr. rewrite fmap_app. rewrite bool_decide_eq_false_2; [done|]. by destruct l.
Qed.

Lemma mod_vin_put t (n : nat) i f g : t_ins t !! n = Some i → f (rep_in i) = rep_in (g i) →
  mod_vin (Z.of_nat n) f (rep t) = Ret tt (rep (put_in n (g i) t)).
Proof.
  intros Hn Hf. unfold mod_vin. rewrite get_st_step. cbn [rep vin]. rewrite arr_at, Hn.
  rewrite (opt_step _ (rep_in i)) by done. rewrite Hf.
  erewrite opt_step by (apply arr_set_at; by apply lookup_lt_Some in Hn).
  unfold put_st, rep, set_vin. cbn. by rewrite length_insert.
Qed.
Lemma arr_snoc_get {X Y} (f : X → Y) (l : list X) y : arr_get (Some ((f <$> l) ++ [y])) (zlen l) = Some y.
Proof. rewrite <- (length_fmap f l). apply (arr_get_mid []). Qed.

Lemma arr_snoc_set {X Y} (f : X → Y) (l : list X) y x :
  arr_set (Some ((f <$> l) ++ [y])) (zlen l) (f x) = Some (arr (f <$> (l ++ [x]))).
Proof. rewrite <- arr_snoc, <- (length_fmap f l). apply (arr_set_mid []). Qed.

Lemma mod_vout_put t (n : nat) o f g : t_outs t !! n = Some o → f (rep_out o) = rep_out (g o) →
  mod_vout (Z.of_nat n) f (rep t) =
  Ret tt (rep (mk_trans (t_version t) (t_ins t) (<[n := g o]> (t_outs t)) (t_lock t))).
Proof.
  intros Hn Hf. unfold mod_vout. rewrite get_st_step. cbn [rep vout]. rewrite arr_at, Hn.
  rewrite (opt_step _ (rep_out o)) by done. rewrite Hf.
  erewrite opt_step by (apply arr_set_at; by apply lookup_lt_Some in Hn).
  unfold put_st, rep, set_vout. cbn. by rewrite length_insert.
Qed.

(** The output that was added last. *)
Lemma mod_vout_last t o f o' : f (rep_out o) = rep_out o' →
  mod_vout (zlen (t_outs t)) f (rep (add_out o t)) = Ret tt (rep (add_out o' t)).
Proof.
  intros Hf. rewrite (mod_vout_put _ (length (t_outs t)) o f (λ _, o')); [| |done].
  - unfold add_out. cbn. by rewrite <- (Nat.add_0_r (length (t_outs t))), insert_app_r.
  - cbn [add_out t_outs]. by apply list_lookup_middle.
Qed.

Lemma add_vin_spec t txid_ n : zlen (t_ins t) + 1 < 2 ^ 32 → length txid_ = 32%nat →
  btc_tx_add_vin txid_ n (rep t) =
  Ret (zlen (t_ins t)) (rep (add_in (mk_in txid_ (u32 n) [] [] BTC_TX_SEQUENCE) t)).
Proof.
  intros Ht Hl. unfold btc_tx_add_vin. rewrite get_st_step. cbn [rep vin vin_cnt].
  rewrite arr_grow, (wrap_small 32 (zlen (t_ins t) + 1)) by (unfold in_range; lia). unfold put_st at 1.
  erewrite bind_ret by done. erewrite bind_ret by (apply rd_bytes_sl; lia). rewrite sl_all by lia.
  erewrite bind_ret; [reflexivity|]. unfold mod_vin. rewrite get_st_step. cbn [set_vin vin].
  rewrite arr_snoc_get. erewrite opt_step by done.
  erewrite opt_step by exact (arr_snoc_set rep_in _ _ (mk_in txid_ (u32 n) [] [] BTC_TX_SEQUENCE)).
  unfold put_st, rep, add_in, set_vin. cbn. rewrite length_app. cbn. do 2 f_equal. lia.
Qed.

Lemma add_vout_spec t v : zlen (t_outs t) + 1 < 2 ^ 32 →
  btc_tx_add_vout v (rep t) = Ret (zlen (t_outs t)) (rep (add_out (mk_out v [] 0) t)).
Proof.
  intros Ht. unfold btc_tx_add_vout. rewrite get_st_step. cbn [rep vout vout_cnt].
  rewrite arr_grow, (wrap_small 32 (zlen (t_outs t) + 1)) by (unfold in_range; lia). unfold put_st at 1.
  erewrite bind_ret by done. erewrite bind_ret; [reflexivity|].
  unfold mod_vout. rewrite get_st_step. cbn [set_vout vout].
  rewrite arr_snoc_get. erewrite opt_step by done.
  erewrite opt_step by exact (arr_snoc_set rep_out _ _ (mk_out v [] 0)).
  unfold put_st, rep, add_out, set_vout. cbn. rewrite length_app. cbn. do 2 f_equal. lia.
Qed.

Lemma fill_vout_script_spec t v d : d ≠ [] →
  fill_vout_script (zlen (t_outs t)) (init_cells d) (zlen d) (rep (add_out (mk_out v [] 0) t)) =
  Ret tt (rep (add_out (mk_out v d 0) t)).
Proof.
  intros Hd. unfold fill_vout_script.
  erewrite opt_step by (rewrite <- (app_nil_r (init_cells d)); apply alloccopy_bytes).
  apply mod_vout_last. unfold rep_out, bufb. cbn. by rewrite bool_decide_eq_false_2.
Qed.

(** A writer of some bytes is a script that is allocated and filled. *)
Lemma alloc_script t v m d n : pokes m d → n = zlen d → n < 2 ^ 32 → d ≠ [] →
  (s ← alloc_fill n m; mod_vout (zlen (t_outs t)) (set_vout_script s)) (rep (add_out (mk_out v [] 0) t)) =
  Ret tt (rep (add_out (mk_out v d 0) t)).
Proof.
  intros Hm Hn Hl Hd. erewrite bind_ret by (by apply (alloc_fill_bytes _ _ d)).
  apply mod_vout_last. unfold rep_out, bufb. cbn. by rewrite bool_decide_eq_false_2.
Qed.

(** ** Outputs *)

Section outputs.
Context {H : BtcHash} {L : BtcHashLaws H}.

Definition hash160 (d : bytes) : bytes := mbedtls_ripemd160 (mbedtls_sha256 d).

Lemma hash160_20 d : length (hash160 d) = 20%nat.
Proof. apply ripemd160_20. Qed.

Lemma sha256_len d : length (mbedtls_sha256 d) = 32%nat.
Proof. apply sha256_32. Qed.

Lemma sha256_all d s : zlen d < 2 ^ 16 → btc_util_sha256 d (zlen d) s = Ret (mbedtls_sha256 d) s.
Proof.
  intros Hd. rewrite sha256_step by (rewrite (wrap_small 16); [|unfold in_range]; lia).
  rewrite (wrap_small 16) by (unfold in_range; lia). by rewrite take_ge by lia.
Qed.

Lemma lift_ret {S X} (m : prog unit X) x (s : S) : m tt = Ret x tt → lift m s = Ret x s.
Proof. intros Hm. unfold lift. by rewrite Hm. Qed.

Lemma hash160_all d n s : n = zlen d → n < 2 ^ 16 → btc_util_hash160 d n s = Ret (hash160 d) s.
Proof. intros -> Hn. unfold btc_util_hash160. by erewrite bind_ret by (by apply sha256_all). Qed.

Definition p2wsh_program (script : bytes) : bytes := [0x00; 0x20] ++ mbedtls_sha256 script.
Definition p2wpkh_program (pub : bytes) : bytes := [0x00; 0x14] ++ hash160 pub.
Definition p2sh_script (redeem : bytes) : bytes := [0xa9; 0x14] ++ hash160 redeem ++ [0x87].
Definition p2pkh_script (pub : bytes) : bytes := [0x76; 0xa9; 0x14] ++ hash160 pub ++ [0x88; 0xac].

(** The writers of the output scripts on a hash. *)
Lemma rd_then h n k (m : bytes → prog utl_push_t unit) d :
  k = zlen h → pokes (m h) d → n = 0 → pokes (x ← rd_bytes h n k; m x) d.
Proof.
  intros -> Hm -> w b Hb. erewrite bind_ret by (apply rd_bytes_sl; lia).
  rewrite sl_all by lia. by apply Hm.
Qed.

Lemma create_p2pkh_pokes h : length h = 20%nat →
  pokes (create_scriptpk_p2pkh h) ([0x76; 0xa9; 0x14] ++ h ++ [0x88; 0xac]).
Proof. intros Hh. apply rd_then; [lia | solve_pokes | done]. Qed.

Lemma create_p2sh_pokes h : length h = 20%nat → pokes (create_scriptpk_p2sh h) ([0xa9; 0x14] ++ h ++ [0x87]).
Proof. intros Hh. apply rd_then; [lia | solve_pokes | done]. Qed.

Lemma create_native_pokes h n : n = zlen h → pokes (create_scriptpk_native h n) ([0x00; n] ++ h).
Proof. intros Hh. apply rd_then; [done | solve_pokes | done]. Qed.

(** The output script for a witness script: nested in P2SH when [mNativeSegwit]
    is not set. *)
Definition spk_p2wsh (native : bool) (script : bytes) : bytes :=
  if native then p2wsh_program script else p2sh_script (p2wsh_program script).

Lemma wit2prog_spec script s : zlen script < 2 ^ 16 →
  btc_sw_wit2prog_p2wsh (of_bytes script) s = Ret (p2wsh_program script) s.
Proof.
  intros Hl. unfold btc_sw_wit2prog_p2wsh, buf_bytes. cbn [of_bytes buf len]. rewrite read_of_bytes.
  erewrite bind_ret by done. by erewrite bind_ret by (by apply sha256_all).
Qed.

Lemma add_vout_p2wsh_spec native v script t : zlen (t_outs t) + 1 < 2 ^ 32 → zlen script < 2 ^ 16 →
  btc_sw_add_vout_p2wsh native v (of_bytes script) (rep t) =
  Ret tt (rep (add_out (mk_out v (spk_p2wsh native script) 0) t)).
Proof.
  intros Ht Hs. unfold btc_sw_add_vout_p2wsh.
  erewrite bind_ret by (by apply lift_ret, wit2prog_spec).
  assert (length (p2wsh_program script) = 34%nat) as Hp
    by (unfold p2wsh_program; by rewrite length_app, sha256_len).
  destruct native; cbn [spk_p2wsh].
  - erewrite bind_ret by (by apply add_vout_spec).
    replace BTC_SZ_WITPROG_P2WSH with (zlen (p2wsh_program script)) by lia.
    by apply fill_vout_script_spec.
  - erewrite bind_ret by (apply lift_ret, hash160_all; lia). unfold btc_tx_add_vout_p2sh.
    erewrite bind_ret by (by apply add_vout_spec).
    apply alloc_script; [apply create_p2sh_pokes, hash160_20 | |lia|done].
    unfold p2sh_script. rewrite !length_app, hash160_20. done.
Qed.

(** The script of a hash for a prefix. *)
Definition scriptpk (prefix : Z) (h : bytes) : bytes :=
  if prefix =? BTC_PREF_P2PKH then [0x76; 0xa9; 0x14] ++ h ++ [0x88; 0xac]
  else if prefix =? BTC_PREF_P2SH then [0xa9; 0x14] ++ h ++ [0x87]
  else [0x00; zlen h] ++ h.

Definition prefix_len (prefix : Z) : option Z :=
  if (prefix =? BTC_PREF_P2PKH) || (prefix =? BTC_PREF_P2SH) || (prefix =? BTC_PREF_P2WPKH) then Some 20
  else if prefix =? BTC_PREF_P2WSH then Some 32 else None.

Lemma create_scriptpk_spec {S} prefix h (s : S) : prefix_len prefix = Some (zlen h) →
  btc_util_create_scriptpk h prefix s = Ret (of_bytes (scriptpk prefix h)) s.
Proof.
  unfold prefix_len, btc_util_create_scriptpk, scriptpk. intros Hp.
  destruct (Z.eqb_spec prefix BTC_PREF_P2PKH) as [->|_]; cbn [orb] in Hp.
  { injection Hp as Hp. apply alloc_fill_bytes; [apply create_p2pkh_pokes; lia | |lia].
    rewrite !length_app. cbn [length]. lia. }
  destruct (Z.eqb_spec prefix BTC_PREF_P2SH) as [->|_]; cbn [orb] in Hp.
  { injection Hp as Hp. apply alloc_fill_bytes; [apply create_p2sh_pokes; lia | |lia].
    rewrite !length_app. cbn [length]. lia. }
  destruct (Z.eqb_spec prefix BTC_PREF_P2WPKH) as [->|_]; cbn [orb] in Hp.
  { injection Hp as Hp. rewrite <- Hp.
    apply alloc_fill_bytes; [by apply create_native_pokes | rewrite length_app; cbn [length]; lia | lia]. }
  destruct (Z.eqb_spec prefix BTC_PREF_P2WSH) as [->|_]; [|done].
  injection Hp as Hp. rewrite <- Hp.
  apply alloc_fill_bytes; [by apply create_native_pokes | rewrite length_app; cbn [length]; lia | lia].
Qed.

Lemma add_vout_pkh_spec v h prefix t : zlen (t_outs t) + 1 < 2 ^ 32 → prefix_len prefix = Some (zlen h) →
  btcl_util_add_vout_pkh v h prefix (rep t) = Ret tt (rep (add_out (mk_out v (scriptpk prefix h) 0) t)).
Proof.
  intros Ht Hp. unfold btcl_util_add_vout_pkh. erewrite bind_ret by (by apply add_vout_spec).
  erewrite bind_ret by (by apply create_scriptpk_spec). apply mod_vout_last.
  unfold rep_out, bufb, set_vout_script. cbn [out_spk out_value out_opt].
  rewrite (bool_decide_eq_false_2 (scriptpk prefix h = [])); [done|].
  unfold scriptpk. by repeat case_match.
Qed.

(** The output for a public key. Without [mNativeSegwit] the hash of the key
    itself stands where the hash of its witness program belongs. *)
Definition spk_p2wpkh (native : bool) (pub : bytes) : bytes :=
  if native then p2wpkh_program pub else p2sh_script pub.

Lemma add_vout_p2wpkh_pub_spec native v pub t : zlen (t_outs t) + 1 < 2 ^ 32 → length pub = 33%nat →
  btc_sw_add_vout_p2wpkh_pub native v pub (rep t) =
  Ret tt (rep (add_out (mk_out v (spk_p2wpkh native pub) 0) t)).
Proof.
  intros Ht Hp. unfold btc_sw_add_vout_p2wpkh_pub, btcl_util_add_vout_pub.
  erewrite bind_ret by (apply lift_ret, hash160_all; lia).
  rewrite add_vout_pkh_spec by (destruct native; unfold prefix_len; cbn; rewrite ?hash160_20; done).
  destruct native; cbn [spk_p2wpkh]; [|done]. unfold scriptpk, p2wpkh_program. cbn.
  by rewrite hash160_20.
Qed.

(** ** Witnesses *)

Lemma free_wits_spec b i s :
  ∃ w, free_wits (set_vin_script b (rep_in i)) s = Ret (mk_vin (in_prev i) (in_n i) b 0 w (in_seq i)) s.
Proof.
  unfold free_wits, rep_in, set_vin_script. cbn [wit_cnt witness].
  destruct (in_wit i) as [|d ds]; [by eexists|]. eexists.
  rewrite (proj2 (Z.eqb_neq _ _)) by (cbn [length]; lia). cbn [negb].
  unfold arr. rewrite bool_decide_eq_false_2 by done. erewrite opt_step by done.
  rewrite (proj2 (Z.ltb_ge _ _)) by (rewrite length_fmap; lia). by erewrite bind_ret by done.
Qed.

Lemma push_wit_spec p n b ds w rest sq d s :
  default [] w = (bufb <$> ds) ++ rest → zlen ds + 1 < 2 ^ 32 →
  push_wit (default [] (buf (bufb d))) (len (bufb d)) (mk_vin p n b (zlen ds) w sq) s =
  Ret (mk_vin p n b (zlen (ds ++ [d])) (arr (bufb <$> (ds ++ [d]))) sq) s.
Proof.
  intros Hw Hl. unfold push_wit, btc_tx_add_wit. cbn [wit_cnt witness].
  unfold arr_realloc. rewrite (malloc_total (A := A)), Hw.
  assert (∃ x, take (Z.to_nat (zlen ds + 1)) ((bufb <$> ds) ++ rest) ++
    (fresh_buf <$> seq (length ((bufb <$> ds) ++ rest)) (Z.to_nat (zlen ds + 1) - length ((bufb <$> ds) ++ rest)))
    = (bufb <$> ds) ++ [x]) as [x ->].
  { replace (Z.to_nat (zlen ds + 1)) with (length (bufb <$> ds) + 1)%nat by (rewrite length_fmap; lia).
    rewrite take_app_add, length_app. destruct rest as [|y rest].
    - exists (fresh_buf (length (bufb <$> ds) + 0)). cbn [length take]. rewrite app_nil_r.
      by replace (length (bufb <$> ds) + 1 - (length (bufb <$> ds) + 0))%nat with 1%nat by lia.
    - exists y. cbn [length take].
      replace (length (bufb <$> ds) + 1 - (length (bufb <$> ds) + S (length rest)))%nat with 0%nat by lia.
      cbn. by rewrite take_0, app_nil_r. }
  rewrite arr_snoc_get. cbn [mbind option_bind].
  change (utl_buf_init x) with (bufb []). rewrite arr_snoc_set. cbn [mbind option_bind].
  rewrite (wrap_small 32 (zlen ds + 1)) by (unfold in_range; lia).
  erewrite opt_step by done. cbn [set_witness witness].
  rewrite <- arr_snoc, arr_snoc_get. erewrite opt_step by done.
  erewrite opt_step.
  2:{ rewrite bufb_len. rewrite <- (app_nil_r (default [] (buf (bufb d)))).
      assert (default [] (buf (bufb d)) = init_cells d) as -> by (unfold bufb; by case_bool_decide; subst).
      apply alloccopy_bytes. }
  cbn [snd]. fold (bufb d). erewrite opt_step by apply (arr_snoc_set bufb ds).
  unfold mret, prog_ret, set_witness. cbn. rewrite length_app. cbn. do 2 f_equal. lia.
Qed.
Lemma push_wits_spec p n b sq s items : zlen items < 2 ^ 32 → items ≠ [] → ∀ w,
  for_idx (seq 0 (length items)) (λ lp v,
    x ← of_option ((bufb <$> items) !! lp); push_wit (default [] (buf x)) (len x) v)
    (mk_vin p n b 0 w sq) s =
  Ret (mk_vin p n b (zlen items) (arr (bufb <$> items)) sq) s.
Proof.
  intros Hl Hne w0.
  assert (∀ l0 pre w, items = pre ++ l0 → (∃ rest, default [] w = (bufb <$> pre) ++ rest) →
    (l0 = [] → w = arr (bufb <$> pre)) →
    for_idx (seq (length pre) (length l0)) (λ lp v,
      x ← of_option ((bufb <$> items) !! lp); push_wit (default [] (buf x)) (len x) v)
      (mk_vin p n b (zlen pre) w sq) s =
    Ret (mk_vin p n b (zlen items) (arr (bufb <$> items)) sq) s) as Hi.
  { induction l0 as [|d l0 IH]; intros pre w E [rest Hw] Hnil.
    - cbn. rewrite Hnil, E, app_nil_r by done. done.
    - cbn [length seq for_idx]. rewrite E in Hl. rewrite length_app in Hl. cbn [length] in Hl.
      erewrite bind_ret.
      2:{ rewrite list_lookup_fmap, E, list_lookup_middle by done. cbn [fmap option_fmap option_map].
          erewrite opt_step by done. apply (push_wit_spec p n b pre w rest); [done|lia]. }
      replace (S (length pre)) with (length (pre ++ [d])) by (rewrite length_app; cbn; lia).
      apply IH; [by rewrite E, <- app_assoc | | done].
      exists []. rewrite app_nil_r. unfold arr. case_bool_decide as Hb; [by rewrite Hb | done]. }
  apply (Hi items [] w0); [done | by eexists | done].
Qed.

(** The redeem script of a nested P2WSH input. *)
Definition nested_sig (script : bytes) : bytes := [0x22; 0x00; 0x20] ++ mbedtls_sha256 script.

Lemma set_vin_p2wsh_spec native t (n : nat) i items script :
  t_ins t !! n = Some i → (native = false → in_sig i = []) → items !! (length items - 1)%nat = Some script →
  zlen items < 2 ^ 32 → zlen script < 2 ^ 16 →
  btc_sw_set_vin_p2wsh native (Z.of_nat n) (bufb <$> items) (rep t) =
  Ret tt (rep (put_in n (put_wit (if native then in_sig i else nested_sig script) items i) t)).
Proof.
  intros Hn Hsig Hlast Hl Hs. unfold btc_sw_set_vin_p2wsh. rewrite get_st_step. cbn [rep vin].
  rewrite arr_at, Hn. cbn [fmap option_fmap option_map]. erewrite opt_step by done.
  rewrite length_fmap. set (sig := if native then in_sig i else nested_sig script).
  erewrite (bind_ret (bufb sig) _ _ _ (rep t)).
  2:{ destruct native; [done|]. unfold sig. rewrite list_lookup_fmap.
      rewrite Hlast. cbn [fmap option_fmap option_map]. erewrite opt_step by done.
      assert (buf_bytes (bufb script) tt = Ret script tt) as E.
      { unfold buf_bytes, bufb. case_bool_decide; subst; [done|]. cbn [of_bytes buf len].
        by rewrite read_of_bytes. }
      erewrite bind_ret by (by apply lift_ret). rewrite bufb_len.
      erewrite bind_ret by (by apply lift_ret, sha256_all).
      unfold rep_in, realloc_fill. cbn [vin_script]. rewrite Hsig by done.
      rewrite <- (alloc_fill_bytes 35 (poke_bytes [0x22; 0x00; BTC_SZ_HASH256];;
        poke_bytes (mbedtls_sha256 script)) (nested_sig script)); [done|solve_pokes| |lia].
      unfold nested_sig. rewrite length_app, sha256_len. done. }
  destruct (free_wits_spec (bufb sig) i (rep t)) as [w Ew]. erewrite bind_ret by exact Ew.
  erewrite bind_ret by (apply push_wits_spec; [done | by destruct items]).
  by apply (mod_vin_put t n i _ (put_wit sig items)).
Qed.
End outputs.
End build.
End BtcBuild.
