(* ===== verification/BtcScript.v ===== *)
(** Bitcoin Script as the network runs it, for the operations the scripts of
    Lightning consist of: what it takes to spend an output (P2WSH, BIP 141; CLTV,
    BIP 65; CSV, BIP 112). This is the abstract specification the scripts and
    witnesses of [ln_script.c] are measured against; no code of the repository is
    modelled here. Limits on sizes and rules of relay policy are left out. *)
From stdpp Require Import base list numbers tactics.
From Stdlib Require Import ZArith Lia.
From S2P Require Import Prelude.
Open Scope Z_scope.

Module BtcScript.

(** ** Instructions *)

Inductive instr := Push (d : bytes) | Op (n : Z).

Abbreviation OP_IF := 0x63.
Abbreviation OP_NOTIF := 0x64.
Abbreviation OP_ELSE := 0x67.
Abbreviation OP_ENDIF := 0x68.
Abbreviation OP_DROP := 0x75.
Abbreviation OP_DUP := 0x76.
Abbreviation OP_SWAP := 0x7c.
Abbreviation OP_SIZE := 0x82.
Abbreviation OP_EQUAL := 0x87.
Abbreviation OP_EQUALVERIFY := 0x88.
Abbreviation OP_HASH160 := 0xa9.
Abbreviation OP_CHECKSIG := 0xac.
Abbreviation OP_CHECKMULTISIG := 0xae.
Abbreviation OP_CLTV := 0xb1.
Abbreviation OP_CSV := 0xb2.

(** A script in instructions: direct pushes, the small numbers, operations. *)
Fixpoint parse_n (fuel : nat) (d : bytes) : option (list instr) :=
  match fuel, d with
  | _, [] => Some []
  | S fuel, op :: d =>
      if (0 <=? op) && (op <=? 75)
      then let n := Z.to_nat op in
           if (length d <? n)%nat then None
           else c ← parse_n fuel (drop n d); Some (Push (take n d) :: c)
      else if (0x51 <=? op) && (op <=? 0x60)
      then c ← parse_n fuel d; Some (Push [op - 0x50] :: c)
      else c ← parse_n fuel d; Some (Op op :: c)
  | O, _ :: _ => None
  end.

Definition parse (d : bytes) : option (list instr) := parse_n (length d) d.

(** ** Values *)

(** Every byte is zero, but for the sign in the last one. *)
Fixpoint truthy (d : bytes) : bool :=
  match d with
  | [] => false
  | [b] => negb ((b =? 0) || (b =? 0x80))
  | b :: d => negb (b =? 0) || truthy d
  end.

(** A number: little endian, the sign in the top bit. *)
Definition num_val (d : bytes) : Z :=
  let top := 0x80 * 256 ^ (Z.of_nat (length d) - 1) in
  if bool_decide (d = []) then 0
  else if le_val d <? top then le_val d else - (le_val d - top).

Definition num (size : nat) (d : bytes) : option Z :=
  if (length d <=? size)%nat then Some (num_val d) else None.

(** The shortest form of a small number, as [OP_SIZE] and the comparisons leave it. *)
Definition num_bytes (n : Z) : bytes :=
  if n =? 0 then [] else if n <? 0x80 then [n] else [n mod 256; n / 256].

Definition bool_bytes (b : bool) : bytes := if b then [1] else [].

(** ** Execution *)

(** The transaction and the input that spend, and what checks a signature and
    hashes data. *)
Record spend := mk_spend {
  sp_version : Z;
  sp_locktime : Z;
  sp_sequence : Z;
  sp_checksig : bytes → bytes → bool;    (* signature and public key *)
}.

Section exec.
Context (hash160 : bytes → bytes) (sha256 : bytes → bytes) (sp : spend).

(** BIP 65: the lock time is reached, counted the same way, and the input is
    not final. *)
Definition cltv_ok (n : Z) : bool :=
  (0 <=? n) && Bool.eqb (n <? 500000000) (sp_locktime sp <? 500000000) &&
  (n <=? sp_locktime sp) && negb (sp_sequence sp =? 0xffffffff).

(** BIP 112 *)
Definition csv_ok (n : Z) : bool :=
  (0 <=? n) &&
  (Z.testbit n 31 ||
   (2 <=? sp_version sp) && negb (Z.testbit (sp_sequence sp) 31) &&
   Bool.eqb (Z.testbit n 22) (Z.testbit (sp_sequence sp) 22) &&
   (Z.land n 0xffff <=? Z.land (sp_sequence sp) 0xffff)).

(** Every signature matches a key, in order. *)
Fixpoint multisig (sigs keys : list bytes) : bool :=
  match sigs, keys with
  | [], _ => true
  | _ :: _, [] => false
  | s :: sigs', k :: keys =>
      if sp_checksig sp s k then multisig sigs' keys else multisig sigs keys
  end.

(** [n] elements from the top of the stack. *)
Definition pop_n (size : nat) (st : list bytes) : option (list bytes * list bytes) :=
  match st with
  | x :: st =>
      n ← num 4 x;
      if (0 <=? n) && (n <=? Z.of_nat (length st)) && (n <=? Z.of_nat size)
      then Some (take (Z.to_nat n) st, drop (Z.to_nat n) st) else None
  | [] => None
  end.

(** The stack after an operation, its top first. *)
Definition step (op : Z) (st : list bytes) : option (list bytes) :=
  if op =? OP_DROP then match st with _ :: st => Some st | _ => None end
  else if op =? OP_DUP then match st with x :: st => Some (x :: x :: st) | _ => None end
  else if op =? OP_SWAP then match st with x :: y :: st => Some (y :: x :: st) | _ => None end
  else if op =? OP_SIZE then
    match st with x :: st => Some (num_bytes (Z.of_nat (length x)) :: x :: st) | _ => None end
  else if op =? OP_EQUAL then
    match st with x :: y :: st => Some (bool_bytes (bool_decide (x = y)) :: st) | _ => None end
  else if op =? OP_EQUALVERIFY then
    match st with x :: y :: st => if bool_decide (x = y) then Some st else None | _ => None end
  else if op =? OP_HASH160 then match st with x :: st => Some (hash160 x :: st) | _ => None end
  else if op =? OP_CHECKSIG then
    match st with k :: s :: st => Some (bool_bytes (sp_checksig sp s k) :: st) | _ => None end
  else if op =? OP_CHECKMULTISIG then
    '(keys, st) ← pop_n 20 st;
    '(sigs, st) ← pop_n (length keys) st;
    match st with
    | [] :: st => Some (bool_bytes (multisig sigs keys) :: st)
    | _ => None
    end
  else if op =? OP_CLTV then
    match st with x :: _ => n ← num 5 x; if cltv_ok n then Some st else None | _ => None end
  else if op =? OP_CSV then
    match st with x :: _ => n ← num 5 x; if csv_ok n then Some st else None | _ => None end
  else None.

(** The branches that are open, the innermost first; an instruction is executed
    when all of them are taken. *)
Fixpoint exec (c : list instr) (cond : list bool) (st : list bytes) : option (list bool * list bytes) :=
  match c with
  | [] => Some (cond, st)
  | Push d :: c => if forallb id cond then exec c cond (d :: st) else exec c cond st
  | Op op :: c =>
      if (op =? OP_IF) || (op =? OP_NOTIF)
      then if forallb id cond
           then match st with
                | v :: st => exec c ((if op =? OP_IF then truthy v else negb (truthy v)) :: cond) st
                | [] => None
                end
           else exec c (false :: cond) st
      else if op =? OP_ELSE
      then match cond with b :: cond => exec c (negb b :: cond) st | [] => None end
      else if op =? OP_ENDIF
      then match cond with _ :: cond => exec c cond st | [] => None end
      else if forallb id cond then st ← step op st; exec c cond st
      else exec c cond st
  end.

(** A script accepts a witness, given in the order of the stack from the
    bottom, when it leaves one true element. *)
Definition accepts (script : bytes) (wits : list bytes) : bool :=
  match parse script with
  | Some c =>
      match exec c [] (reverse wits) with
      | Some ([], [v]) => truthy v
      | _ => false
      end
  | None => false
  end.

(** An output with a version 0 program of 32 bytes is spent by a witness whose
    last item hashes to the program and accepts the others. *)
Definition p2wsh_spends (spk : bytes) (wits : list bytes) : bool :=
  match reverse wits with
  | script :: items =>
      bool_decide (spk = [0x00; 0x20] ++ sha256 script) && accepts script (reverse items)
  | [] => false
  end.
End exec.

(** ** Parsing *)

Lemma parse_n_mono f f' d c : parse_n f d = Some c → (f ≤ f')%nat → parse_n f' d = Some c.
Proof.
  revert f' d c. induction f as [|f IH]; intros f' [|op d] c; cbn [parse_n]; try done.
  - intros [= <-] _. by destruct f'.
  - intros E Hf. by destruct f'.
  - intros E Hf. destruct f' as [|f']; [lia|]. cbn [parse_n].
    repeat case_match; try done;
      (match goal with |- context [parse_n f' ?x] => destruct (parse_n f x) as [c'|] eqn:Ep end; [|done]);
      by rewrite (IH _ _ _ Ep) by lia.
Qed.

(** [parses d c]: [d] is a script of the instructions [c], whatever follows. *)
Definition parses (d : bytes) (c : list instr) : Prop := ∀ rest more,
  parse rest = Some more → parse (d ++ rest) = Some (c ++ more).

Lemma parses_nil : parses [] [].
Proof. by intros rest more. Qed.

Lemma parses_app d c e js : parses d c → parses e js → parses (d ++ e) (c ++ js).
Proof. intros Hd He rest more Hr. rewrite <- !app_assoc. by apply Hd, He. Qed.

Lemma parses_push n d : n = Z.of_nat (length d) → n ≤ 75 → parses (n :: d) [Push d].
Proof.
  intros -> Hn rest more Hr. unfold parse in *. cbn [app length parse_n].
  rewrite !(proj2 (Z.leb_le _ _)) by lia. cbn [andb]. rewrite Nat2Z.id, length_app.
  rewrite (proj2 (Nat.ltb_ge _ _)) by lia. rewrite drop_app_length, take_app_length.
  by rewrite (parse_n_mono _ _ _ _ Hr) by lia.
Qed.

Lemma parses_small n : 1 ≤ n ≤ 16 → parses [0x50 + n] [Push [n]].
Proof.
  intros Hn rest more Hr. unfold parse in *. cbn [app length parse_n].
  rewrite (proj2 (Z.leb_gt (0x50 + n) 75)), andb_false_r by lia.
  rewrite !(proj2 (Z.leb_le _ _)) by lia. cbn [andb]. rewrite Hr. cbn.
  by replace (80 + n - 80) with n by lia.
Qed.

Lemma parses_op n : 0x60 < n → parses [n] [Op n].
Proof.
  intros Hn rest more Hr. unfold parse in *. cbn [app length parse_n].
  rewrite (proj2 (Z.leb_gt n 75)), andb_false_r by lia.
  rewrite (proj2 (Z.leb_gt n 0x60)), andb_false_r by lia. by rewrite Hr.
Qed.

Lemma parses_whole d c : parses d c → parse d = Some c.
Proof. intros Hd. specialize (Hd [] [] eq_refl). by rewrite !app_nil_r in Hd. Qed.

End BtcScript.
