(* ===== verification/LnScript.v ===== *)
(** The scripts of Lightning and the transactions made of them ([ln/ln_script.c]):
    output scripts, fees, the commitment transaction and the transactions that
    spend its HTLCs. What they are is proved in [LnSpend] and [LnCommitTx]. *)
From stdpp Require Import base list numbers tactics.
From Stdlib Require Import ZArith Lia.
From S2P Require Import Prelude CProg UtlBuf UtlPush LnDerkey LnMisc LnMsgNormal LnHtlc LnSig BtcTx BtcSw.
Import UtlBuf UtlPush LnMisc LnHtlc LnSig BtcTx BtcSw.
Open Scope Z_scope.

Module LnScript.

Abbreviation OP_IF := 0x63.
Abbreviation OP_NOTIF := 0x64.
Abbreviation OP_ELSE := 0x67.
Abbreviation OP_ENDIF := 0x68.
Abbreviation OP_DROP := 0x75.
Abbreviation OP_SWAP := 0x7c.
Abbreviation OP_SIZE := 0x82.
Abbreviation OP_CLTV := 0xb1.
Abbreviation OP_CSV := 0xb2.
Abbreviation SZ1 := 0x01.
Abbreviation SZ20 := 0x14.
Abbreviation SZ32 := 0x20.
Abbreviation SZ_PUBKEY := 0x21.

Abbreviation LN_SZ_PREIMAGE := 32.
Abbreviation M_FEE_HTLCSUCCESS := 703.
Abbreviation M_FEE_HTLCTIMEOUT := 663.
Abbreviation M_FEE_COMMIT_HTLC := 172.
Abbreviation LN_FEE_COMMIT_BASE := 724.
Abbreviation LN_HTLCTYPE_TOLOCAL := 0xfe.
Abbreviation LN_HTLCTYPE_TOREMOTE := 0xff.
Abbreviation MSG_FUNDIDX_FUNDING := 0%nat.

Definition LN_SEQUENCE (obs : Z) : Z := Z.lor 0x80000000 (Z.land (Z.shiftr obs 24) 0xffffff).
Definition LN_LOCKTIME (obs : Z) : Z := Z.lor 0x20000000 (Z.land obs 0xffffff).
Definition LN_MSAT2SATOSHI (msat : Z) : Z := msat / 1000.

(** The enumerators as numbers, as [vout->opt] holds them. *)
Definition htlctype_num (t : ln_htlctype_t) : Z :=
  match t with LN_HTLCTYPE_OFFERED => 1 | LN_HTLCTYPE_RECEIVED => 2 end.

Record ln_script_feeinfo_t := mk_fee {
  feerate_per_kw : Z;
  dust_limit_satoshi : Z;
  htlc_success : Z;
  htlc_timeout : Z;
  commit : Z;
}.

(** [pp_htlcinfo[]] holds the HTLCs with their scripts. *)
Record ln_script_committx_t := mk_cmt {
  fund_txid : bytes;
  fund_txid_index : Z;
  fund_satoshi : Z;
  fund_script : utl_buf_t;
  local_satoshi : Z;
  local_script : utl_buf_t;
  remote_satoshi : Z;
  remote_pubkey : bytes;
  obscured : Z;
  p_feeinfo : ln_script_feeinfo_t;
  pp_htlcinfo : list (ln_script_htlcinfo_t * utl_buf_t);
}.

Inductive ln_script_htlcsign_t :=
| LN_HTLCSIGN_NONE | LN_HTLCSIGN_TIMEOUT_SUCCESS | LN_HTLCSIGN_REMOTE_OFFER
| LN_HTLCSIGN_REMOTE_RECV | LN_HTLCSIGN_REVOKE_RECV | LN_HTLCSIGN_REVOKE_OFFER.

Section code.
Context {A : Alloc} {F : Fresh} {H : BtcHash} (mNativeSegwit : bool).

(** ** Scripts *)

Definition ln_script_calc_obscured_txnum (pOpenBasePt pAcceptBasePt : bytes) : prog unit Z :=
  k1 ← rd_bytes pOpenBasePt 0 BTC_SZ_PUBKEY;
  k2 ← rd_bytes pAcceptBasePt 0 BTC_SZ_PUBKEY;
  let base := mbedtls_sha256 (k1 ++ k2) in
  for_idx (seq 0 6) (λ lp obs,
    b ← rd_byte base (32 - 6 + Z.of_nat lp);
    mret (Z.lor (u64 (Z.shiftl obs 8)) b)) 0.

(** [utl_push_init], pushes and [utl_push_trim] on a buffer: the results are
    not looked at. *)
Definition push_script {S} (n : Z) (m : prog utl_push_t unit) : prog S utl_buf_t :=
  r ← on_local (call (utl_push_init n);; m;; call utl_push_trim) (mk_push 0 (mk_buf None 0));
  mret (data r.2).

Definition push_value (v : Z) : prog utl_push_t unit := call (utl_push_value v);; mret tt.

Definition ln_script_create_tolocal {S} (pLocalRevoKey pLocalDelayedKey : bytes) (LocalDelay : Z)
  : prog S utl_buf_t :=
  push_script 77 (
    push_bytes [OP_IF; SZ_PUBKEY] 2;;
    push_bytes pLocalRevoKey BTC_SZ_PUBKEY;;
    push_bytes [OP_ELSE] 1;;
    push_value LocalDelay;;
    push_bytes [OP_CSV; OP_DROP; SZ_PUBKEY] 3;;
    push_bytes pLocalDelayedKey BTC_SZ_PUBKEY;;
    push_bytes [OP_ENDIF; OP_CHECKSIG] 2).

Definition create_script_offered {S} (pLocalHtlcKey pLocalRevoKey pLocalPreImageHash160
    pRemoteHtlcKey : bytes) : prog S utl_buf_t :=
  h160 ← lift (btc_util_hash160 pLocalRevoKey BTC_SZ_PUBKEY);
  push_script 133 (
    push_bytes [OP_DUP; OP_HASH160; SZ20] 3;;
    push_bytes h160 BTC_SZ_HASH160;;
    push_bytes [OP_EQUAL; OP_IF; OP_CHECKSIG; OP_ELSE; SZ_PUBKEY] 5;;
    push_bytes pRemoteHtlcKey BTC_SZ_PUBKEY;;
    push_bytes [OP_SWAP; OP_SIZE; SZ1; SZ32; OP_EQUAL; OP_NOTIF; OP_DROP; OP_2; OP_SWAP; SZ_PUBKEY] 10;;
    push_bytes pLocalHtlcKey BTC_SZ_PUBKEY;;
    push_bytes [OP_2; OP_CHECKMULTISIG; OP_ELSE; OP_HASH160; SZ20] 5;;
    push_bytes pLocalPreImageHash160 BTC_SZ_HASH160;;
    push_bytes [OP_EQUALVERIFY; OP_CHECKSIG; OP_ENDIF; OP_ENDIF] 4).

Definition create_script_received {S} (pLocalHtlcKey pLocalRevoKey pRemoteHtlcKey
    pRemotePreImageHash160 : bytes) (RemoteExpiry : Z) : prog S utl_buf_t :=
  h160 ← lift (btc_util_hash160 pLocalRevoKey BTC_SZ_PUBKEY);
  push_script 138 (
    push_bytes [OP_DUP; OP_HASH160; SZ20] 3;;
    push_bytes h160 BTC_SZ_HASH160;;
    push_bytes [OP_EQUAL; OP_IF; OP_CHECKSIG; OP_ELSE; SZ_PUBKEY] 5;;
    push_bytes pRemoteHtlcKey BTC_SZ_PUBKEY;;
    push_bytes [OP_SWAP; OP_SIZE; SZ1; SZ32; OP_EQUAL; OP_IF; OP_HASH160; SZ20] 8;;
    push_bytes pRemotePreImageHash160 BTC_SZ_HASH160;;
    push_bytes [OP_EQUALVERIFY; OP_2; OP_SWAP; SZ_PUBKEY] 4;;
    push_bytes pLocalHtlcKey BTC_SZ_PUBKEY;;
    push_bytes [OP_2; OP_CHECKMULTISIG; OP_ELSE; OP_DROP] 4;;
    push_value RemoteExpiry;;
    push_bytes [OP_CLTV; OP_DROP; OP_CHECKSIG; OP_ENDIF; OP_ENDIF] 5).

Definition ln_script_htlcinfo_script {S} (Type_ : ln_htlctype_t)
    (pLocalHtlcKey pLocalRevoKey pRemoteHtlcKey pPaymentHash : bytes) (Expiry : Z) : prog S utl_buf_t :=
  hash160 ← lift (btc_util_ripemd160 pPaymentHash BTC_SZ_HASH256);
  match Type_ with
  | LN_HTLCTYPE_OFFERED =>
      create_script_offered pLocalHtlcKey pLocalRevoKey hash160 pRemoteHtlcKey
  | LN_HTLCTYPE_RECEIVED =>
      create_script_received pLocalHtlcKey pLocalRevoKey pRemoteHtlcKey hash160 Expiry
  end.

(** [None]: [false], nothing is written. *)
Definition ln_script_scriptpkh_create {S} (pPub : utl_buf_t) (Prefix : Z) : prog S (option utl_buf_t) :=
  if (Prefix =? BTC_PREF_P2PKH) || (Prefix =? BTC_PREF_P2WPKH) || (Prefix =? BTC_PREF_P2SH)
  then d ← lift (buf_bytes pPub);
       pkh ← lift (btc_util_hash160 d (len pPub));
       b ← btc_util_create_scriptpk pkh Prefix; mret (Some b)
  else if Prefix =? BTC_PREF_P2WSH
  then d ← lift (buf_bytes pPub);
       pkh ← lift (btc_util_sha256 d (len pPub));
       b ← btc_util_create_scriptpk pkh Prefix; mret (Some b)
  else mret None.

Definition ln_script_scriptpkh_check (pBuf : utl_buf_t) : prog unit bool :=
  let p (i : Z) : prog unit Z :=
    x ← of_option (default [] (buf pBuf) !! Z.to_nat i); of_option x in
  let is_ (i c : Z) : prog unit bool := b ← p i; mret (b =? c) in
  let both (a b : prog unit bool) : prog unit bool := x ← a; if x : bool then b else mret false in
  if len pBuf =? 25
  then both (is_ 0 OP_DUP) (both (is_ 1 OP_HASH160) (both (is_ 2 BTC_SZ_HASH160)
         (both (is_ 23 OP_EQUALVERIFY) (is_ 24 OP_CHECKSIG))))
  else if len pBuf =? 23
  then both (is_ 0 OP_HASH160) (both (is_ 1 BTC_SZ_HASH160) (is_ 22 OP_EQUAL))
  else if len pBuf =? 22 then both (is_ 0 OP_0) (is_ 1 BTC_SZ_HASH160)
  else if len pBuf =? 34 then both (is_ 0 OP_0) (is_ 1 BTC_SZ_HASH256)
  else mret false.

(** ** Fees *)

(** One HTLC: an output of its own when it is large enough, or part of the fee. *)
Definition fee_step (pFeeInfo : ln_script_feeinfo_t) (x : Z * Z) (h : ln_script_htlcinfo_t) : Z * Z :=
  let '(c, dusts) := x in
  let fee := match type h with
             | LN_HTLCTYPE_OFFERED => htlc_timeout pFeeInfo
             | LN_HTLCTYPE_RECEIVED => htlc_success pFeeInfo
             end in
  if u64 (dust_limit_satoshi pFeeInfo + fee) <=? LN_MSAT2SATOSHI (info_amount_msat h)
  then (u64 (c + M_FEE_COMMIT_HTLC), dusts)
  else (c, u64 (dusts + LN_MSAT2SATOSHI (info_amount_msat h))).

(** [pFeeInfo] with its calculated fields, and the result. *)
Definition ln_script_fee_calc (pFeeInfo : ln_script_feeinfo_t) (ppHtlcInfo : list ln_script_htlcinfo_t)
  : ln_script_feeinfo_t * Z :=
  let rate := feerate_per_kw pFeeInfo in
  let success := u64 (M_FEE_HTLCSUCCESS * rate) / 1000 in
  let timeout := u64 (M_FEE_HTLCTIMEOUT * rate) / 1000 in
  let f := mk_fee rate (dust_limit_satoshi pFeeInfo) success timeout LN_FEE_COMMIT_BASE in
  let '(c, dusts) := foldl (fee_step f) (LN_FEE_COMMIT_BASE, 0) ppHtlcInfo in
  let c := u64 (c * rate) / 1000 in
  (mk_fee rate (dust_limit_satoshi pFeeInfo) success timeout c, u64 (c + dusts)).

(** ** Transactions *)

(** [pTx->vout[pTx->vout_cnt - 1].opt = v] *)
Definition set_last_opt (v : Z) : prog btc_tx_t unit :=
  n ← gets vout_cnt; mod_vout (u32 (n - 1)) (set_opt v).

Definition committx_htlc (f : ln_script_feeinfo_t) (lp : nat) (x : ln_script_htlcinfo_t * utl_buf_t)
  : prog btc_tx_t unit :=
  let '(h, script) := x in
  let output_sat := LN_MSAT2SATOSHI (info_amount_msat h) in
  let fee := match type h with
             | LN_HTLCTYPE_OFFERED => htlc_timeout f
             | LN_HTLCTYPE_RECEIVED => htlc_success f
             end in
  if u64 (dust_limit_satoshi f + fee) <=? output_sat
  then btc_sw_add_vout_p2wsh mNativeSegwit output_sat script;;
       set_last_opt (u8 (Z.of_nat lp))
  else mret tt.

(** What is built before it is signed. *)
Definition committx_build (pCmt : ln_script_committx_t) (Local : bool) : prog btc_tx_t unit :=
  let f := p_feeinfo pCmt in
  let fee_local := (if Local then commit f else 0) in
  let fee_remote := (if Local then 0 else commit f) in
  (if u64 (dust_limit_satoshi f + fee_remote) <=? remote_satoshi pCmt
   then btc_sw_add_vout_p2wpkh_pub mNativeSegwit (u64 (remote_satoshi pCmt - fee_remote)) (remote_pubkey pCmt);;
        set_last_opt LN_HTLCTYPE_TOREMOTE
   else mret tt);;
  (if u64 (dust_limit_satoshi f + fee_local) <=? local_satoshi pCmt
   then btc_sw_add_vout_p2wsh mNativeSegwit (u64 (local_satoshi pCmt - fee_local)) (local_script pCmt);;
        set_last_opt LN_HTLCTYPE_TOLOCAL
   else mret tt);;
  for_idx (seq 0 (length (pp_htlcinfo pCmt))) (λ lp _,
    x ← of_option (pp_htlcinfo pCmt !! lp); committx_htlc f lp x) tt;;
  i ← btc_tx_add_vin (fund_txid pCmt) (fund_txid_index pCmt);
  mod_vin i (set_sequence (LN_SEQUENCE (obscured pCmt)));;
  modify (set_locktime (LN_LOCKTIME (obscured pCmt)));;
  btc_util_sort_bip69.

Definition ln_script_htlctx_create (Value : Z) (pScript : utl_buf_t) (Type_ : ln_htlctype_t)
    (CltvExpiry : Z) (pTxid : bytes) (Index : Z) : prog btc_tx_t unit :=
  btc_sw_add_vout_p2wsh mNativeSegwit Value pScript;;
  mod_vout 0 (set_opt (htlctype_num Type_));;
  modify (set_locktime (match Type_ with
                        | LN_HTLCTYPE_RECEIVED => 0
                        | LN_HTLCTYPE_OFFERED => CltvExpiry
                        end));;
  _ ← btc_tx_add_vin pTxid Index;
  mod_vin 0 (set_sequence 0).

(** ** Witnesses *)

(** A buffer over bytes that are somewhere else. *)
Definition view (d : bytes) : utl_buf_t := of_bytes d.

(** The private key stands where the signature will be. *)
Definition ln_script_tolocal_wit (priv : bytes) (pWitScript : utl_buf_t) (bRevoked : bool)
  : prog btc_tx_t unit :=
  btc_sw_set_vin_p2wsh mNativeSegwit 0
    [view priv; if bRevoked then view [0x01] else mk_buf None 0; pWitScript].

Definition ln_script_toremote_wit (priv pub : bytes) : prog btc_tx_t unit :=
  let p_wit := arr_malloc fresh_buf sizeof_buf 2 in
  b0 ← of_option (arr_get p_wit 0);
  w0 ← of_option (utl_buf_alloccopy b0 (init_cells priv) BTC_SZ_PRIVKEY);
  p_wit ← of_option (arr_set p_wit 0 w0.2);
  b1 ← of_option (arr_get p_wit 1);
  w1 ← of_option (utl_buf_alloccopy b1 (init_cells pub) BTC_SZ_PUBKEY);
  p_wit ← of_option (arr_set p_wit 1 w1.2);
  mod_vin 0 (set_witness 2 p_wit).

(** The witness that is put together: [None] is a failed assertion. *)
Definition htlctx_wits (pLocalSig : utl_buf_t) (pub : bytes) (pRemoteSig : option utl_buf_t)
    (pPreImage : option bytes) (pWitScript : utl_buf_t) (HtlcSign : ln_script_htlcsign_t)
  : option (list utl_buf_t) :=
  let wit0 := mk_buf None 0 in
  match HtlcSign with
  | LN_HTLCSIGN_TIMEOUT_SUCCESS =>
      match pRemoteSig with
      | Some remote =>
          Some [wit0; remote; pLocalSig;
                match pPreImage with Some d => view d | None => wit0 end; pWitScript]
      | None => Some []
      end
  | LN_HTLCSIGN_REMOTE_OFFER =>
      d ← pPreImage; Some [pLocalSig; view d; pWitScript]
  | LN_HTLCSIGN_REMOTE_RECV => Some [pLocalSig; wit0; pWitScript]
  | LN_HTLCSIGN_REVOKE_RECV | LN_HTLCSIGN_REVOKE_OFFER => Some [pLocalSig; view pub; pWitScript]
  | LN_HTLCSIGN_NONE => None
  end.

Definition ln_script_htlctx_wit (pLocalSig : utl_buf_t) (pub : bytes) (pRemoteSig : option utl_buf_t)
    (pPreImage : option bytes) (pWitScript : utl_buf_t) (HtlcSign : ln_script_htlcsign_t)
  : prog btc_tx_t unit :=
  match htlctx_wits pLocalSig pub pRemoteSig pPreImage pWitScript HtlcSign with
  | Some wits => btc_sw_set_vin_p2wsh mNativeSegwit 0 wits
  | None => c_assert false
  end.

(** ** Signing and checking *)

Context {E : Ecdsa}.

(** [ln_signer_p2wsh], [ln_signer_p2wsh_force] *)
Definition ln_signer_p2wsh (pTxHash : bytes) (priv : list bytes) (PrivIndex : nat) : prog unit utl_buf_t :=
  k ← of_option (priv !! PrivIndex); btc_tx_sign pTxHash k.

Definition ln_signer_p2wsh_force (pTxHash priv : bytes) : prog unit utl_buf_t :=
  btc_tx_sign pTxHash priv.

(** The signature; [None]: [false] is returned. *)
Definition ln_script_committx_create (pCmt : ln_script_committx_t) (Local : bool) (priv : list bytes)
  : prog btc_tx_t (option utl_buf_t) :=
  committx_build pCmt Local;;
  t ← get_st;
  txhash ← lift (btc_util_calc_sighash_p2wsh t 0 (fund_satoshi pCmt) (fund_script pCmt));
  match txhash with
  | Some h => s ← lift (ln_signer_p2wsh h priv MSG_FUNDIDX_FUNDING); mret (Some s)
  | None => mret None
  end.

Definition ln_script_htlctx_sign (Value : Z) (priv : bytes) (pWitScript : utl_buf_t)
  : prog btc_tx_t (option utl_buf_t) :=
  t ← get_st;
  if negb (vin_cnt t =? 1) || negb (vout_cnt t =? 1) then mret None else
  sighash ← lift (btc_util_calc_sighash_p2wsh t 0 Value pWitScript);
  match sighash with
  | Some h => s ← lift (ln_signer_p2wsh_force h priv); mret (Some s)
  | None => mret None
  end.

(** The key and the signature of the local side may be left out. *)
Definition ln_script_htlctx_verify (pTx : btc_tx_t) (Value : Z) (pLocalPubKey : option bytes)
    (pRemotePubKey : option bytes) (pLocalSig pRemoteSig : option utl_buf_t) (pWitScript : utl_buf_t)
  : prog unit bool :=
  if bool_decide (pLocalPubKey = None) && bool_decide (pLocalSig = None) &&
     bool_decide (pRemotePubKey = None) && bool_decide (pRemoteSig = None) then mret false else
  if negb (vin_cnt pTx =? 1) || negb (vout_cnt pTx =? 1) then mret false else
  sighash ← btc_util_calc_sighash_p2wsh pTx 0 Value pWitScript;
  match sighash with
  | None => mret false
  | Some h =>
      ret ← match pLocalPubKey, pLocalSig with
            | Some k, Some s => btc_tx_verify s h k
            | _, _ => mret true
            end;
      if ret : bool
      then k ← of_option pRemotePubKey; s ← of_option pRemoteSig; btc_tx_verify s h k
      else mret false
  end.
End code.
End LnScript.
