(* ===== verification/LnSpend.v ===== *)
(** Who can spend the outputs of a commitment transaction: the scripts of
    [ln_script.c] run by [BtcScript] accept exactly the witnesses BOLT 3 intends,
    and the witnesses [ln_script_htlctx_wit] puts together are among them. *)
From stdpp Require Import base list numbers tactics.
From Stdlib Require Import ZArith Lia.
From S2P Require Import Prelude CProg UtlBuf UtlPush LnDerkey LnMisc LnMsg LnHtlc BtcTx BtcTxWire BtcSw.
From S2P Require Import BtcDigest BtcBuild BtcScript LnScript.
Import UtlBuf UtlPush LnMisc LnMsg LnHtlc BtcTx BtcTxWire BtcSw BtcDigest BtcBuild BtcScript LnScript.
Open Scope Z_scope.

Module LnSpend.

(** ** What the pushes write *)

Section appends.
Context {A : Alloc} {T : AllocTotal A}.

Definition appends (m : prog utl_push_t unit) (d : bytes) : Prop := ∀ w n,
  zlen w ≤ n → n < 2 ^ 30 → zlen (w ++ d) < 2 ^ 30 →
  m (pushedb w n) = Ret tt (pushedb (w ++ d) (Z.max n (zlen (w ++ d)))).

Lemma appends_bind m d (k : unit → prog utl_push_t unit) e :
  appends m d → appends (k tt) e → appends (m ≫= k) (d ++ e).
Proof.
  intros Hm Hk w n Hw Hn Hl. rewrite !length_app in Hl. unfold mbind, prog_bind.
  rewrite Hm by (rewrite ?length_app; lia).
  rewrite Hk by (rewrite ?length_app; lia). rewrite <- app_assoc. do 2 f_equal.
  rewrite !length_app. lia.
Qed.

Lemma appends_bytes d k : k = zlen d → appends (push_bytes d k) d.
Proof.
  intros -> w n Hw Hn Hl. rewrite length_app in Hl. unfold push_bytes, pushedb.
  erewrite bind_ret.
  2:{ rewrite <- (length_init_cells d). apply (push_data_spec (init_cells w) n (init_cells d));
        rewrite ?length_init_cells; lia. }
  unfold mret, prog_ret. rewrite init_cells_app, !length_init_cells, length_app. do 3 f_equal. lia.
Qed.

(** The script push of a number. *)
Definition num_push (v : Z) : bytes := omap id (value_cells v).

Lemma num_push_ok v : 0 ≤ v ≤ 0x7fffffffff →
  value_cells v = init_cells (num_push v) ∧ script_num_read (num_push v) = Some v ∧
  (length (num_push v) ≤ 6)%nat.
Proof.
  intros Hv. destruct (value_cells_ok v Hv) as (d & E & Hr & Hl).
  assert (num_push v = d) as ->; [|done]. unfold num_push. rewrite E.
  clear. induction d as [|b d IH]; [done|]. cbn. by f_equal.
Qed.

Lemma appends_value v : 0 ≤ v ≤ 0x7fffffffff → appends (push_value v) (num_push v).
Proof.
  intros Hv w n Hw Hn Hl. destruct (num_push_ok v Hv) as (E & Hr & Hlen).
  rewrite length_app in Hl. unfold push_value, pushedb.
  erewrite bind_ret.
  2:{ apply (push_value_cells (init_cells w) n v (num_push v)); rewrite ?length_init_cells; done || lia. }
  unfold mret, prog_ret. rewrite init_cells_app, !length_init_cells, length_app. do 3 f_equal. lia.
Qed.

Lemma push_script_spec {S} n m d (s : S) : appends m d → d ≠ [] → 0 < n < 2 ^ 30 → zlen d < 2 ^ 30 →
  push_script n m s = Ret (of_bytes d) s.
Proof.
  intros Hm Hd Hn Hl. unfold push_script.
  assert (m (pushedb [] n) = Ret tt (pushedb d (Z.max n (zlen d)))) as Em
    by (apply (Hm [] n); cbn [length app]; lia).
  assert (run (call (utl_push_init n);; m;; call utl_push_trim) (mk_push 0 (mk_buf None 0)) =
    Ret true (mk_push (zlen d) (of_bytes d))) as Er; [|by rewrite (on_local_step _ _ _ _ _ _ Er)].
  unfold run. rewrite push_step_init by lia. rewrite (bind_ret _ _ _ _ _ Em).
  unfold call, pushedb. rewrite push_trim_spec by (rewrite length_init_cells; lia).
  rewrite length_init_cells, (bool_decide_eq_false_2 (init_cells d = [])), andb_false_r; [done|].
  by destruct d.
Qed.
End appends.

Ltac solve_appends :=
  repeat first [apply appends_bytes; (done || lia) | apply appends_value; lia
               | eapply appends_bind; [|cbn beta]].

(** ** The scripts *)

Definition tolocal_script (revo delayed : bytes) (delay : Z) : bytes :=
  [OP_IF; 0x21] ++ revo ++ [OP_ELSE] ++ num_push delay ++ [OP_CSV; OP_DROP; 0x21] ++ delayed ++
  [OP_ENDIF; OP_CHECKSIG].

Definition htlc_head (h160 remote : bytes) : bytes :=
  [OP_DUP; OP_HASH160; 0x14] ++ h160 ++ [OP_EQUAL; OP_IF; OP_CHECKSIG; OP_ELSE; 0x21] ++ remote.

Definition offered_script (h160 remote local payhash160 : bytes) : bytes :=
  htlc_head h160 remote ++
  [OP_SWAP; OP_SIZE; 0x01; 0x20; OP_EQUAL; OP_NOTIF; OP_DROP; 0x52; OP_SWAP; 0x21] ++ local ++
  [0x52; OP_CHECKMULTISIG; OP_ELSE; OP_HASH160; 0x14] ++ payhash160 ++
  [OP_EQUALVERIFY; OP_CHECKSIG; OP_ENDIF; OP_ENDIF].

Definition received_script (h160 remote local payhash160 : bytes) (expiry : Z) : bytes :=
  htlc_head h160 remote ++
  [OP_SWAP; OP_SIZE; 0x01; 0x20; OP_EQUAL; OP_IF; OP_HASH160; 0x14] ++ payhash160 ++
  [OP_EQUALVERIFY; 0x52; OP_SWAP; 0x21] ++ local ++ [0x52; OP_CHECKMULTISIG; OP_ELSE; OP_DROP] ++
  num_push expiry ++ [OP_CLTV; OP_DROP; OP_CHECKSIG; OP_ENDIF; OP_ENDIF].

(** *** In instructions *)

Lemma parses_num v : 0 ≤ v ≤ 0x7fffffffff → ∃ x, parses (num_push v) [Push x] ∧ num 5 x = Some v.
Proof.
  intros Hv. destruct (num_push_ok v Hv) as (_ & Hr & Hl). unfold script_num_read in Hr.
  destruct (num_push v) as [|n [|b payload]] eqn:E; [done | |].
  - destruct (Z.eqb_spec n 0) as [->|Hn].
    { injection Hr as <-. exists []. by split; [apply parses_push|]. }
    destruct ((0x51 <=? n) && (n <=? 0x60)) eqn:Hb; [|done]. apply andb_true_iff in Hb as [H1%Z.leb_le H2%Z.leb_le].
    injection Hr as <-. exists [n - 0x50]. split.
    + replace n with (0x50 + (n - 0x50)) at 1 by lia. apply parses_small. lia.
    + unfold num, num_val. cbn [length Nat.leb]. rewrite bool_decide_eq_false_2 by done.
      change (le_val [n - 80]) with (n - 80 + 256 * 0). rewrite Z.add_0_r.
      change (0x80 * 256 ^ (Z.of_nat 1 - 1)) with 0x80. by rewrite (proj2 (Z.ltb_lt _ _)) by lia.
  - cbv zeta in Hr. set (p := b :: payload) in *.
    destruct (_ && (16 <? le_val p)) eqn:Hb; [|done]. injection Hr as Hr.
    rewrite !andb_true_iff in Hb. destruct Hb as [[[H1%Z.eqb_eq H2%Z.ltb_lt] _] _].
    exists p. split; [apply parses_push; cbn [length] in *; lia|].
    unfold num. assert ((length p <=? 5)%nat = true) as -> by (apply Nat.leb_le; cbn [length] in *; lia).
    unfold num_val. rewrite bool_decide_eq_false_2 by done. rewrite (proj2 (Z.ltb_lt _ _)) by lia.
    f_equal. exact Hr.
Qed.

Lemma parses_key k : length k = 33%nat → parses (0x21 :: k) [Push k].
Proof. intros Hk. apply parses_push; lia. Qed.

Lemma parses_hash h : length h = 20%nat → parses (0x14 :: h) [Push h].
Proof. intros Hk. apply parses_push; lia. Qed.

(** [parses (op :: d) (Op op :: is)] *)
Lemma parses_cons op d c : 0x60 < op → parses d c → parses (op :: d) (Op op :: c).
Proof. intros Hop Hd. apply (parses_app [op] [Op op]); [by apply parses_op | done]. Qed.

Lemma tolocal_parses revo delayed delay : length revo = 33%nat → length delayed = 33%nat →
  0 ≤ delay ≤ 0x7fffffffff →
  ∃ x, num 5 x = Some delay ∧
  parse (tolocal_script revo delayed delay) =
  Some [Op OP_IF; Push revo; Op OP_ELSE; Push x; Op OP_CSV; Op OP_DROP; Push delayed;
        Op OP_ENDIF; Op OP_CHECKSIG].
Proof.
  intros Hr Hd Hv. destruct (parses_num delay Hv) as (x & Hx & Hn). exists x. split; [done|].
  apply parses_whole. apply (parses_cons OP_IF); [lia|].
  apply (parses_app (0x21 :: revo) [Push revo]); [by apply parses_key|].
  apply (parses_cons OP_ELSE); [lia|]. apply (parses_app _ [Push x]); [done|].
  apply (parses_cons OP_CSV); [lia|]. apply (parses_cons OP_DROP); [lia|].
  apply (parses_app (0x21 :: delayed) [Push delayed]); [by apply parses_key|].
  apply (parses_cons OP_ENDIF); [lia|]. apply (parses_cons OP_CHECKSIG); [lia|]. apply parses_nil.
Qed.

Definition head_instrs (h160 remote : bytes) : list instr :=
  [Op OP_DUP; Op OP_HASH160; Push h160; Op OP_EQUAL; Op OP_IF; Op OP_CHECKSIG; Op OP_ELSE; Push remote].

Lemma head_parses h160 remote : length h160 = 20%nat → length remote = 33%nat →
  parses (htlc_head h160 remote) (head_instrs h160 remote).
Proof.
  intros Hh Hr. apply (parses_cons OP_DUP); [lia|]. apply (parses_cons OP_HASH160); [lia|].
  apply (parses_app (0x14 :: h160) [Push h160]); [by apply parses_hash|].
  apply (parses_cons OP_EQUAL); [lia|]. apply (parses_cons OP_IF); [lia|].
  apply (parses_cons OP_CHECKSIG); [lia|]. apply (parses_cons OP_ELSE); [lia|]. by apply parses_key.
Qed.

Lemma offered_parses h160 remote local payhash160 :
  length h160 = 20%nat → length remote = 33%nat → length local = 33%nat → length payhash160 = 20%nat →
  parse (offered_script h160 remote local payhash160) =
  Some (head_instrs h160 remote ++
        [Op OP_SWAP; Op OP_SIZE; Push [0x20]; Op OP_EQUAL; Op OP_NOTIF; Op OP_DROP; Push [2]; Op OP_SWAP;
         Push local; Push [2]; Op OP_CHECKMULTISIG; Op OP_ELSE; Op OP_HASH160; Push payhash160;
         Op OP_EQUALVERIFY; Op OP_CHECKSIG; Op OP_ENDIF; Op OP_ENDIF]).
Proof.
  intros Hh Hr Hl Hp. apply parses_whole. apply parses_app; [by apply head_parses|].
  do 2 (apply parses_cons; [lia|]). apply (parses_app [0x01; 0x20] [Push [0x20]]); [by apply parses_push|].
  do 3 (apply parses_cons; [lia|]). apply (parses_app [0x52] [Push [2]]); [by apply (parses_small 2)|].
  apply parses_cons; [lia|]. apply (parses_app (0x21 :: local) [Push local]); [by apply parses_key|].
  apply (parses_app [0x52] [Push [2]]); [by apply (parses_small 2)|].
  do 3 (apply parses_cons; [lia|]).
  apply (parses_app (0x14 :: payhash160) [Push payhash160]); [by apply parses_hash|].
  do 4 (apply parses_cons; [lia|]). apply parses_nil.
Qed.

Lemma received_parses h160 remote local payhash160 expiry :
  length h160 = 20%nat → length remote = 33%nat → length local = 33%nat → length payhash160 = 20%nat →
  0 ≤ expiry ≤ 0x7fffffffff →
  ∃ x, num 5 x = Some expiry ∧
  parse (received_script h160 remote local payhash160 expiry) =
  Some (head_instrs h160 remote ++
        [Op OP_SWAP; Op OP_SIZE; Push [0x20]; Op OP_EQUAL; Op OP_IF; Op OP_HASH160; Push payhash160;
         Op OP_EQUALVERIFY; Push [2]; Op OP_SWAP; Push local; Push [2]; Op OP_CHECKMULTISIG; Op OP_ELSE;
         Op OP_DROP; Push x; Op OP_CLTV; Op OP_DROP; Op OP_CHECKSIG; Op OP_ENDIF; Op OP_ENDIF]).
Proof.
  intros Hh Hr Hl Hp He. destruct (parses_num expiry He) as (x & Hx & Hn). exists x. split; [done|].
  apply parses_whole. apply parses_app; [by apply head_parses|].
  do 2 (apply parses_cons; [lia|]). apply (parses_app [0x01; 0x20] [Push [0x20]]); [by apply parses_push|].
  do 3 (apply parses_cons; [lia|]).
  apply (parses_app (0x14 :: payhash160) [Push payhash160]); [by apply parses_hash|].
  apply parses_cons; [lia|]. apply (parses_app [0x52] [Push [2]]); [by apply (parses_small 2)|].
  apply parses_cons; [lia|]. apply (parses_app (0x21 :: local) [Push local]); [by apply parses_key|].
  apply (parses_app [0x52] [Push [2]]); [by apply (parses_small 2)|].
  do 3 (apply parses_cons; [lia|]). apply (parses_app _ [Push x]); [done|].
  do 5 (apply parses_cons; [lia|]). apply parses_nil.
Qed.

(** *** What they accept *)

Section run.
Context (hash160 : bytes → bytes) (sp : spend).

Lemma truthy_bool b : truthy (bool_bytes b) = b.
Proof. by destruct b. Qed.

Lemma num_bytes_32 n : 0 ≤ n → bool_decide ([0x20] = num_bytes n) = (n =? 32).
Proof.
  intros Hn. unfold num_bytes. destruct (Z.eqb_spec n 32) as [->|Hne]; [done|].
  apply bool_decide_eq_false_2. repeat case_match; intros [=]; subst; lia.
Qed.

(** With a true element on top the revocation key spends, with a false one the
    delayed key when the sequence lets it. *)
Lemma tolocal_accepts revo delayed delay wits : length revo = 33%nat → length delayed = 33%nat →
  0 ≤ delay ≤ 0x7fffffffff →
  accepts hash160 sp (tolocal_script revo delayed delay) wits =
  match reverse wits with
  | [sel; sig] => if truthy sel then sp_checksig sp sig revo
                  else csv_ok sp delay && sp_checksig sp sig delayed
  | _ => false
  end.
Proof.
  intros Hr Hd Hv. unfold accepts. destruct (tolocal_parses revo delayed delay Hr Hd Hv) as (x & Hx & ->).
  destruct (reverse wits) as [|sel [|sig rest]]; [done| |].
  - cbn. destruct (truthy sel); cbn; [done|]. rewrite Hx. cbn. by destruct (csv_ok sp delay).
  - cbn. destruct (truthy sel); cbn.
    + destruct rest; [apply truthy_bool | done].
    + rewrite Hx. cbn. destruct (csv_ok sp delay); [cbn|by destruct rest].
      destruct rest; [apply truthy_bool | done].
Qed.
(** Signatures of two keys, in the order of the keys. *)
Lemma multisig_2 s1 s2 k1 k2 : multisig sp [s1; s2] [k1; k2] = sp_checksig sp s1 k1 && sp_checksig sp s2 k2.
Proof. cbn. destruct (sp_checksig sp s1 k1); [by destruct (sp_checksig sp s2 k2)|]. by destruct (sp_checksig sp s1 k2). Qed.

Definition is_32 (x : bytes) : bool := Z.of_nat (length x) =? 32.

(** The penalty branch, then what [others] make of the rest: [Some] of a result or [None]. *)
Definition htlc_accepts (h160 : bytes) (others : list bytes → bool) (st : list bytes) : bool :=
  match st with
  | x :: st' =>
      if bool_decide (hash160 x = h160)
      then match st' with [sig] => sp_checksig sp sig x | _ => false end
      else others st
  | [] => false
  end.

(** Offered: a preimage and the remote signature, or two signatures (timeout). *)
Definition offered_others (remote local payhash160 : bytes) (st : list bytes) : bool :=
  match st with
  | [x; sig] => is_32 x && bool_decide (hash160 x = payhash160) && sp_checksig sp sig remote
  | [x; s1; s2; d] => negb (is_32 x) && bool_decide (d = []) && sp_checksig sp s1 local && sp_checksig sp s2 remote
  | _ => false
  end.

(** Received: a preimage and two signatures, or the remote signature past the expiry. *)
Definition received_others (remote local payhash160 : bytes) (expiry : Z) (st : list bytes) : bool :=
  match st with
  | [x; s1; s2; d] =>
      is_32 x && bool_decide (hash160 x = payhash160) && bool_decide (d = []) &&
      sp_checksig sp s1 local && sp_checksig sp s2 remote
  | [x; sig] => negb (is_32 x) && cltv_ok sp expiry && sp_checksig sp sig remote
  | _ => false
  end.

(** The last step of the run. *)
Definition final (r : option (list bool * list bytes)) : bool :=
  match r with Some ([], [v]) => truthy v | _ => false end.

Lemma accepts_parsed script c wits : parse script = Some c →
  accepts hash160 sp script wits = final (exec hash160 sp c [] (reverse wits)).
Proof. intros Hc. unfold accepts. by rewrite Hc. Qed.

Lemma run_head h160 remote c st :
  final (exec hash160 sp (head_instrs h160 remote ++ c) [] st) =
  match st with
  | x :: st' =>
      if bool_decide (hash160 x = h160)
      then match st' with
           | sig :: r => final (exec hash160 sp c [false] (bool_bytes (sp_checksig sp sig x) :: r))
           | [] => false
           end
      else final (exec hash160 sp c [true] (remote :: st))
  | [] => false
  end.
Proof.
  destruct st as [|x st']; [done|]. cbn.
  rewrite (bool_decide_ext (h160 = hash160 x) (hash160 x = h160)) by done.
  destruct (bool_decide (hash160 x = h160)); cbn; [by destruct st'|done].
Qed.

Lemma exec_size_32 c x st :
  exec hash160 sp (Op OP_SIZE :: Push [0x20] :: Op OP_EQUAL :: c) [true] (x :: st) =
  exec hash160 sp c [true] (bool_bytes (is_32 x) :: x :: st).
Proof. cbn. rewrite num_bytes_32 by lia. done. Qed.

Lemma pop_2 size st : (2 ≤ size)%nat →
  pop_n size ([2] :: st) = match st with a :: b :: st => Some ([a; b], st) | _ => None end.
Proof.
  intros Hs. unfold pop_n. change (num 4 [2]) with (Some 2). cbn [mbind option_bind].
  destruct st as [|a [|b st]]; [done..|].
  rewrite !(proj2 (Z.leb_le _ _)) by (cbn [length]; lia). done.
Qed.

Lemma step_multisig k1 k2 st :
  step hash160 sp OP_CHECKMULTISIG ([2] :: k1 :: k2 :: [2] :: st) =
  match st with
  | s1 :: s2 :: [] :: st => Some (bool_bytes (sp_checksig sp s1 k1 && sp_checksig sp s2 k2) :: st)
  | _ => None
  end.
Proof.
  unfold step. cbn [Z.eqb Pos.eqb]. rewrite pop_2 by lia. cbn [mbind option_bind length].
  rewrite pop_2 by lia. destruct st as [|s1 [|s2 [|[|] st]]]; try done.
  cbn [mbind option_bind]. by rewrite multisig_2.
Qed.

Lemma exec_op op c cond st : existsb (Z.eqb op) [OP_IF; OP_NOTIF; OP_ELSE; OP_ENDIF] = false →
  forallb id cond = true →
  exec hash160 sp (Op op :: c) cond st = (st ← step hash160 sp op st; exec hash160 sp c cond st).
Proof.
  cbn [existsb]. rewrite !orb_false_iff. intros (H1 & H2 & H3 & H4 & _) Hc. cbn [exec].
  rewrite H1, H2, H3, H4. cbn [orb]. by rewrite Hc.
Qed.

Lemma exec_multisig c k1 k2 st :
  exec hash160 sp (Op OP_CHECKMULTISIG :: c) [true; true] ([2] :: k1 :: k2 :: [2] :: st) =
  match st with
  | s1 :: s2 :: [] :: st =>
      exec hash160 sp c [true; true] (bool_bytes (sp_checksig sp s1 k1 && sp_checksig sp s2 k2) :: st)
  | _ => None
  end.
Proof.
  rewrite exec_op by reflexivity.
  rewrite step_multisig. by destruct st as [|s1 [|s2 [|[|] st]]].
Qed.

Lemma exec_swap c cond x y st : forallb id cond = true →
  exec hash160 sp (Op OP_SWAP :: c) cond (x :: y :: st) = exec hash160 sp c cond (y :: x :: st).
Proof. intros Hc. by rewrite exec_op. Qed.

Lemma offered_accepts h160 remote local payhash160 wits :
  length h160 = 20%nat → length remote = 33%nat → length local = 33%nat → length payhash160 = 20%nat →
  accepts hash160 sp (offered_script h160 remote local payhash160) wits =
  htlc_accepts h160 (offered_others remote local payhash160) (reverse wits).
Proof.
  intros Hh Hr Hl Hp. rewrite (accepts_parsed _ _ _ (offered_parses _ _ _ _ Hh Hr Hl Hp)), run_head.
  unfold htlc_accepts. destruct (reverse wits) as [|x st]; [done|]. clear. case_match.
  { destruct st as [|sig [|y st]]; [done| |]; cbn; [apply truthy_bool | done]. }
  rewrite exec_swap, exec_size_32 by done. unfold offered_others. destruct (is_32 x).
  - cbn. rewrite (bool_decide_ext (payhash160 = hash160 x) (hash160 x = payhash160)) by done.
    destruct (bool_decide (hash160 x = payhash160)), st as [|sig [|s2 [|d [|]]]]; cbn;
      rewrite ?truthy_bool; done.
  - assert (∀ c, exec hash160 sp (Op OP_NOTIF :: Op OP_DROP :: Push [2] :: Op OP_SWAP :: Push local ::
      Push [2] :: c) [true] (bool_bytes false :: x :: remote :: st) =
      exec hash160 sp c [true; true] ([2] :: local :: remote :: [2] :: st)) as -> by reflexivity.
    rewrite exec_multisig. destruct st as [|s1 [|s2 [|[|] [|]]]]; try reflexivity. apply truthy_bool.
Qed.

Lemma received_accepts h160 remote local payhash160 expiry wits :
  length h160 = 20%nat → length remote = 33%nat → length local = 33%nat → length payhash160 = 20%nat →
  0 ≤ expiry ≤ 0x7fffffffff →
  accepts hash160 sp (received_script h160 remote local payhash160 expiry) wits =
  htlc_accepts h160 (received_others remote local payhash160 expiry) (reverse wits).
Proof.
  intros Hh Hr Hl Hp He. destruct (received_parses h160 remote local payhash160 expiry) as (x' & Hx & Hc); try done.
  rewrite (accepts_parsed _ _ _ Hc), run_head. clear - Hx.
  unfold htlc_accepts. destruct (reverse wits) as [|x st]; [done|]. case_match.
  { destruct st as [|sig [|y st]]; [done| |]; cbn; [apply truthy_bool | done]. }
  rewrite exec_swap, exec_size_32 by done. unfold received_others. destruct (is_32 x).
  - assert (∀ c, exec hash160 sp (Op OP_IF :: Op OP_HASH160 :: Push payhash160 :: Op OP_EQUALVERIFY ::
      Push [2] :: Op OP_SWAP :: Push local :: Push [2] :: c) [true] (bool_bytes true :: x :: remote :: st) =
      if bool_decide (hash160 x = payhash160)
      then exec hash160 sp c [true; true] ([2] :: local :: remote :: [2] :: st) else None) as ->.
    { intros c. cbn. rewrite (bool_decide_ext (payhash160 = hash160 x) (hash160 x = payhash160)) by done.
      by destruct (bool_decide (hash160 x = payhash160)). }
    rewrite exec_multisig. destruct (bool_decide (hash160 x = payhash160)), st as [|s1 [|s2 [|[|] [|]]]];
      try reflexivity. apply truthy_bool.
  - cbn. rewrite Hx. cbn.
    destruct (cltv_ok sp expiry), st as [|sig [|s2 [|d [|]]]]; cbn; rewrite ?truthy_bool; done.
Qed.

End run.
(** ** What the code creates *)

Section create.
Context {A : Alloc} {T : AllocTotal A} {F : Fresh} {H : BtcHash} {L : BtcHashLaws H}.

Lemma create_tolocal_spec {S} revo delayed delay (s : S) :
  length revo = 33%nat → length delayed = 33%nat → 0 ≤ delay ≤ 0x7fffffffff →
  ln_script_create_tolocal revo delayed delay s = Ret (of_bytes (tolocal_script revo delayed delay)) s.
Proof.
  intros Hr Hd Hv. destruct (num_push_ok delay Hv) as (_ & _ & Hl).
  unfold ln_script_create_tolocal. apply push_script_spec; [|done|lia|].
  - unfold tolocal_script. solve_appends.
  - unfold tolocal_script. rewrite !length_app. cbn [length]. lia.
Qed.

Lemma appends_cast m d e : appends m d → e = d → appends m e.
Proof. by intros Hm ->. Qed.

Lemma create_offered_spec {S} local revo ph160 remote (s : S) :
  length local = 33%nat → length revo = 33%nat → length remote = 33%nat → length ph160 = 20%nat →
  create_script_offered local revo ph160 remote s =
  Ret (of_bytes (offered_script (hash160 revo) remote local ph160)) s.
Proof.
  intros Hl Hr Hm Hp. pose proof (hash160_20 revo) as Hh. unfold create_script_offered.
  erewrite bind_ret by (apply lift_ret, (hash160_all revo 33); lia).
  apply push_script_spec; [|done|lia|].
  - eapply appends_cast; [solve_appends|]. unfold offered_script, htlc_head. by rewrite <- !app_assoc.
  - unfold offered_script, htlc_head. rewrite !length_app. cbn [length]. lia.
Qed.

Lemma create_received_spec {S} local revo remote ph160 expiry (s : S) :
  length local = 33%nat → length revo = 33%nat → length remote = 33%nat → length ph160 = 20%nat →
  0 ≤ expiry ≤ 0x7fffffffff →
  create_script_received local revo remote ph160 expiry s =
  Ret (of_bytes (received_script (hash160 revo) remote local ph160 expiry)) s.
Proof.
  intros Hl Hr Hm Hp He. pose proof (hash160_20 revo) as Hh. destruct (num_push_ok expiry He) as (_ & _ & Hn).
  unfold create_script_received.
  erewrite bind_ret by (apply lift_ret, (hash160_all revo 33); lia).
  apply push_script_spec; [|done|lia|].
  - eapply appends_cast; [solve_appends|]. unfold received_script, htlc_head. by rewrite <- !app_assoc.
  - unfold received_script, htlc_head. rewrite !length_app. cbn [length]. lia.
Qed.

(** *** The output of an HTLC and of the delayed balance *)

Definition htlc_script (ty : ln_htlctype_t) (local revo remote payhash : bytes) (expiry : Z) : bytes :=
  match ty with
  | LN_HTLCTYPE_OFFERED => offered_script (hash160 revo) remote local (mbedtls_ripemd160 payhash)
  | LN_HTLCTYPE_RECEIVED => received_script (hash160 revo) remote local (mbedtls_ripemd160 payhash) expiry
  end.

Lemma htlcinfo_script_spec {S} ty local revo remote payhash expiry (s : S) :
  length local = 33%nat → length revo = 33%nat → length remote = 33%nat → length payhash = 32%nat →
  0 ≤ expiry ≤ 0x7fffffffff →
  ln_script_htlcinfo_script ty local revo remote payhash expiry s =
  Ret (of_bytes (htlc_script ty local revo remote payhash expiry)) s.
Proof.
  intros Hl Hr Hm Hp He. unfold ln_script_htlcinfo_script.
  assert (btc_util_ripemd160 payhash 32 tt = Ret (mbedtls_ripemd160 payhash) tt) as E.
  { unfold btc_util_ripemd160. change (u16 32) with 32.
    erewrite bind_ret by (apply rd_bytes_sl; lia). by rewrite sl_all by lia. }
  unfold lift at 1. erewrite bind_ret by (by rewrite E).
  destruct ty; [apply create_offered_spec | apply create_received_spec]; try done; apply ripemd160_20.
Qed.

Lemma spends_script sp script items :
  p2wsh_spends hash160 mbedtls_sha256 sp (p2wsh_program script) (items ++ [script]) =
  accepts hash160 sp script items.
Proof.
  unfold p2wsh_spends. rewrite reverse_snoc, bool_decide_eq_true_2 by done. by rewrite reverse_involutive.
Qed.

(** C18: The output that [ln_script_create_tolocal] makes for the delayed balance is
    spent by two items exactly: below a true one by a signature of the revocation
    key, below a false one by a signature of the delayed key, once the input's
    sequence has let the delay pass. *)
Theorem tolocal_spendable {S} sp revo delayed delay (s : S) :
  length revo = 33%nat → length delayed = 33%nat → 0 ≤ delay ≤ 0x7fffffffff →
  ∃ script, ln_script_create_tolocal revo delayed delay s = Ret (of_bytes script) s ∧
  ∃ prog, btc_sw_wit2prog_p2wsh (of_bytes script) tt = Ret prog tt ∧
  ∀ items, p2wsh_spends hash160 mbedtls_sha256 sp prog (items ++ [script]) =
    match reverse items with
    | [sel; sig] => if truthy sel then sp_checksig sp sig revo
                    else csv_ok sp delay && sp_checksig sp sig delayed
    | _ => false
    end.
Proof.
  intros Hr Hd Hv. eexists. split; [by apply create_tolocal_spec|]. eexists. split.
  { apply wit2prog_spec. destruct (num_push_ok delay Hv) as (_ & _ & Hl).
    unfold tolocal_script. rewrite !length_app. cbn [length]. lia. }
  intros items. by rewrite spends_script, tolocal_accepts.
Qed.

(** C16: The output of an HTLC is spent in three ways and no other: by a signature of
    the revocation key; when it was offered by the preimage and a signature of the
    remote key, or by signatures of both keys (the timeout transaction); when it
    was received by the preimage and signatures of both keys (the success
    transaction), or by a signature of the remote key from the expiry on. *)
Theorem htlc_spendable {S} sp ty local revo remote payhash expiry (s : S) :
  length local = 33%nat → length revo = 33%nat → length remote = 33%nat → length payhash = 32%nat →
  0 ≤ expiry ≤ 0x7fffffffff →
  ∃ script, ln_script_htlcinfo_script ty local revo remote payhash expiry s = Ret (of_bytes script) s ∧
  ∃ prog, btc_sw_wit2prog_p2wsh (of_bytes script) tt = Ret prog tt ∧
  ∀ items, p2wsh_spends hash160 mbedtls_sha256 sp prog (items ++ [script]) =
    match reverse items with
    | [] => false
    | x :: rest =>
        if bool_decide (hash160 x = hash160 revo)
        then match rest with [sig] => sp_checksig sp sig x | _ => false end
        else match ty, rest with
             | LN_HTLCTYPE_OFFERED, [sig] =>
                 is_32 x && bool_decide (hash160 x = mbedtls_ripemd160 payhash) && sp_checksig sp sig remote
             | LN_HTLCTYPE_OFFERED, [s1; s2; d] =>
                 negb (is_32 x) && bool_decide (d = []) && sp_checksig sp s1 local && sp_checksig sp s2 remote
             | LN_HTLCTYPE_RECEIVED, [s1; s2; d] =>
                 is_32 x && bool_decide (hash160 x = mbedtls_ripemd160 payhash) && bool_decide (d = []) &&
                 sp_checksig sp s1 local && sp_checksig sp s2 remote
             | LN_HTLCTYPE_RECEIVED, [sig] => negb (is_32 x) && cltv_ok sp expiry && sp_checksig sp sig remote
             | _, _ => false
             end
    end.
Proof.
  intros Hl Hr Hm Hp He. pose proof (hash160_20 revo) as Hh. pose proof (proj2 (ripemd160_20 payhash)) as Hph.
  eexists. split; [by apply htlcinfo_script_spec|]. eexists. split.
  { apply wit2prog_spec. destruct (num_push_ok expiry He) as (_ & _ & Hn).
    destruct ty; unfold htlc_script, offered_script, received_script, htlc_head;
      rewrite !length_app; cbn [length]; lia. }
  intros items. rewrite spends_script. unfold htlc_script.
  destruct ty; [rewrite offered_accepts by done | rewrite received_accepts by done];
    unfold htlc_accepts, offered_others, received_others;
    destruct (reverse items) as [|x [|y [|z [|d [|]]]]]; done.
Qed.
End create.

(** ** Spent at concrete inputs *)

(** A signature is the key itself. *)
Definition toy_spend (seq lock : Z) : spend := mk_spend 2 lock seq (λ sig key, bool_decide (sig = key)).

Definition toy_key (n : Z) : bytes := 2 :: replicate 32 n.

(** The first bytes stand for the hash. *)
Definition prefix_hash : BtcHash :=
  let pre n (x : bytes) := take n (((λ b, b mod 256) <$> x) ++ replicate n 0) in
  Build_BtcHash (pre 32%nat) (pre 20%nat).

Lemma prefix_hash_laws : BtcHashLaws prefix_hash.
Proof.
  assert (∀ n x, is_bytes (take n (((λ b, b mod 256) <$> x) ++ replicate n 0)) ∧
    length (take n (((λ b, b mod 256) <$> x) ++ replicate n 0)) = n) as Hn.
  { intros n x. split.
    - apply Forall_take, Forall_app. split; [|by apply Forall_replicate].
      apply Forall_fmap, Forall_true. intros b. apply Z.mod_pos_bound. lia.
    - rewrite length_take, length_app, length_replicate. lia. }
  split; intros x; apply Hn.
Qed.

(** What becomes of [items] on the output of a script that [m] makes. *)
Definition spent (m : prog unit utl_buf_t) (sp : spend) (items : list bytes) (b : bool) : Prop :=
  ∃ script, m tt = Ret (of_bytes script) tt ∧
  ∃ prog, @btc_sw_wit2prog_p2wsh prefix_hash (of_bytes script) tt = Ret prog tt ∧
  p2wsh_spends (@hash160 prefix_hash) (@mbedtls_sha256 prefix_hash) sp prog (items ++ [script]) = b.

(** The delayed key spends after its delay of 144 blocks and not before. *)
Lemma tolocal_spendable_witness :
  let out := @ln_script_create_tolocal total_alloc unit (toy_key 1) (toy_key 2) 144 in
  spent out (toy_spend 144 0) [toy_key 2; []] true ∧ spent out (toy_spend 143 0) [toy_key 2; []] false ∧
  spent out (toy_spend 0 0) [toy_key 1; [1]] true.
Proof.
  cbn zeta.
  assert (∀ seq items b, (match reverse items with
    | [sel; sig] => if truthy sel then sp_checksig (toy_spend seq 0) sig (toy_key 1)
                    else csv_ok (toy_spend seq 0) 144 && sp_checksig (toy_spend seq 0) sig (toy_key 2)
    | _ => false end) = b →
    spent (@ln_script_create_tolocal total_alloc unit (toy_key 1) (toy_key 2) 144) (toy_spend seq 0) items b) as Hs.
  { intros seq items b <-.
    destruct (tolocal_spendable (A := total_alloc) (H := prefix_hash) (toy_spend seq 0) (toy_key 1) (toy_key 2) 144 tt
      eq_refl eq_refl ltac:(lia)) as (script & E1 & prog & E2 & E3).
    exists script. split; [done|]. exists prog. by split. }
  split_and!; by apply Hs.
Defined.

(** An HTLC of payment hash 5…5 up to block 600: with the preimage, after the
    timeout, by the revocation key. *)
Lemma htlc_spendable_witness :
  let out ty := @ln_script_htlcinfo_script total_alloc prefix_hash unit ty (toy_key 1) (toy_key 2) (toy_key 3)
    (replicate 32 5) 600 in
  spent (out LN_HTLCTYPE_OFFERED) (toy_spend 0 0) [toy_key 3; replicate 32 5] true ∧
  spent (out LN_HTLCTYPE_OFFERED) (toy_spend 0 0) [[]; toy_key 3; toy_key 1; []] true ∧
  spent (out LN_HTLCTYPE_RECEIVED) (toy_spend 0 599) [toy_key 3; []] false ∧
  spent (out LN_HTLCTYPE_RECEIVED) (toy_spend 0 600) [toy_key 3; []] true ∧
  spent (out LN_HTLCTYPE_RECEIVED) (toy_spend 0 0) [toy_key 2; toy_key 2] true.
Proof.
  cbn zeta.
  pose proof (λ sp ty, @htlc_spendable total_alloc total_alloc_total prefix_hash prefix_hash_laws unit sp ty
    (toy_key 1) (toy_key 2) (toy_key 3) (replicate 32 5) 600 tt eq_refl eq_refl eq_refl eq_refl ltac:(lia)) as Hs.
  split_and!;
    match goal with |- spent (@ln_script_htlcinfo_script _ _ _ ?ty _ _ _ _ _) ?sp _ _ =>
      destruct (Hs sp ty) as (script & E1 & prog & E2 & E3) end;
    (exists script; split; [exact E1|]; exists prog; split; [exact E2|]; rewrite E3; by vm_compute).
Defined.
End LnSpend.
