(* ===== verification/LnWitness.v ===== *)
(** The transactions that spend HTLC outputs: what [ln_script_htlctx_create]
    builds, that what [ln_script_htlctx_sign] signs is accepted by
    [ln_script_htlctx_verify], and that the witnesses of [ln_script_htlctx_wit]
    spend. *)
From stdpp Require Import base list numbers tactics.
From Stdlib Require Import ZArith Lia.
From S2P Require Import Prelude CProg UtlBuf UtlPush LnDerkey LnMisc LnMsg LnSig LnHtlc LnToyNoise BtcTx.
From S2P Require Import BtcTxWire BtcTxRead BtcSw BtcDigest BtcBuild BtcScript LnScript LnSpend.
Import UtlBuf UtlPush LnMisc LnMsg LnHtlc BtcTx BtcTxWire BtcTxRead BtcSw BtcDigest BtcBuild BtcScript LnScript LnSpend.
Open Scope Z_scope.

Module LnWitness.

Section wit.
Context {A : Alloc} {T : AllocTotal A} {F : Fresh} {H : BtcHash} {L : BtcHashLaws H}.

(** *** Witnesses *)

Definition last_item (l : list bytes) : option bytes := l !! (length l - 1)%nat.

Lemma last_item_snoc l x : last_item (l ++ [x]) = Some x.
Proof.
  unfold last_item. rewrite length_app. cbn [length]. rewrite Nat.add_sub. by apply list_lookup_middle.
Qed.

(** The items of the witness below its script. *)
Definition htlc_items (lsig pub : bytes) (rsig : bytes) (pre : option bytes)
    (sign : ln_script_htlcsign_t) : list bytes :=
  match sign with
  | LN_HTLCSIGN_TIMEOUT_SUCCESS => [[]; rsig; lsig; default [] pre]
  | LN_HTLCSIGN_REMOTE_OFFER => [lsig; default [] pre]
  | LN_HTLCSIGN_REMOTE_RECV => [lsig; []]
  | _ => [lsig; pub]
  end.

Definition has_preimage (sign : ln_script_htlcsign_t) (pre : option bytes) : bool :=
  match sign with LN_HTLCSIGN_REMOTE_OFFER => bool_decide (is_Some pre) | LN_HTLCSIGN_NONE => false | _ => true end.

Lemma view_bufb d : d ≠ [] → view d = bufb d.
Proof. intros Hd. unfold view, bufb. by rewrite bool_decide_eq_false_2. Qed.

Lemma htlctx_wits_eq lsig pub rsig pre script sign :
  has_preimage sign pre = true → pub ≠ [] → (∀ d, pre = Some d → d ≠ []) →
  htlctx_wits (bufb lsig) pub (Some (bufb rsig)) pre (bufb script) sign =
  Some (bufb <$> (htlc_items lsig pub rsig pre sign ++ [script])).
Proof.
  intros Hs Hpub Hpre. unfold htlctx_wits, htlc_items.
  destruct sign, pre as [d|]; cbn [mbind option_bind]; rewrite ?view_bufb by (done || by apply Hpre); done.
Qed.

Lemma of_bytes_bufb d : d ≠ [] → of_bytes d = bufb d.
Proof. apply view_bufb. Qed.

Lemma htlc_script_len ty local revo remote payhash expiry :
  length local = 33%nat → length revo = 33%nat → length remote = 33%nat → 0 ≤ expiry ≤ 0x7fffffffff →
  0 < zlen (htlc_script ty local revo remote payhash expiry) < 200.
Proof.
  intros Hl Hr Hm He. pose proof (hash160_20 revo) as Hh. pose proof (proj2 (ripemd160_20 payhash)) as Hph.
  destruct (num_push_ok expiry He) as (_ & _ & Hn).
  destruct ty; unfold htlc_script, offered_script, received_script, htlc_head;
    rewrite !length_app; cbn [length]; lia.
Qed.

(** Which of them the script of an HTLC accepts. *)
Lemma htlc_items_accepted sp ty sign local revo remote payhash expiry lsig rsig pre :
  length local = 33%nat → length revo = 33%nat → length remote = 33%nat →
  0 ≤ expiry ≤ 0x7fffffffff → has_preimage sign pre = true →
  (∀ d, pre = Some d → length d = 32%nat ∧ mbedtls_sha256 d = payhash ∧ hash160 d ≠ hash160 revo) →
  hash160 [] ≠ hash160 revo →
  accepts hash160 sp (htlc_script ty local revo remote payhash expiry) (htlc_items lsig revo rsig pre sign) =
    match sign, ty, pre with
    | LN_HTLCSIGN_TIMEOUT_SUCCESS, LN_HTLCTYPE_OFFERED, None
    | LN_HTLCSIGN_TIMEOUT_SUCCESS, LN_HTLCTYPE_RECEIVED, Some _ =>
        sp_checksig sp lsig local && sp_checksig sp rsig remote
    | LN_HTLCSIGN_REMOTE_OFFER, LN_HTLCTYPE_OFFERED, Some _ => sp_checksig sp lsig remote
    | LN_HTLCSIGN_REMOTE_RECV, LN_HTLCTYPE_RECEIVED, _ => cltv_ok sp expiry && sp_checksig sp lsig remote
    | LN_HTLCSIGN_REVOKE_RECV, _, _ | LN_HTLCSIGN_REVOKE_OFFER, _, _ => sp_checksig sp lsig revo
    | _, _, _ => false
    end.
Proof.
  intros Hl Hr Hm He Hpre Hd Hz. pose proof (hash160_20 revo) as Hh.
  pose proof (proj2 (ripemd160_20 payhash)) as Hph.
  apply (bool_decide_eq_false_2 (hash160 [] = hash160 revo)) in Hz.
  assert (bool_decide (hash160 revo = hash160 revo) = true) as Hrr by (by apply bool_decide_eq_true_2).
  unfold htlc_script.
  destruct ty; [rewrite offered_accepts by done | rewrite received_accepts by done];
    unfold htlc_accepts, offered_others, received_others; destruct pre as [d|];
    try (destruct (Hd d eq_refl) as (Hd32%(f_equal Z.of_nat)%Z.eqb_eq & Hpd & Hdr);
      apply (f_equal mbedtls_ripemd160) in Hpd; apply (bool_decide_eq_true_2 (hash160 d = _)) in Hpd;
      apply (bool_decide_eq_false_2 (hash160 d = _)) in Hdr; change (is_32 d = true) in Hd32);
    destruct sign; try done; cbn [htlc_items reverse rev_append default]; cbn;
    unfold hash160 in *; rewrite ?Hrr, ?Hz, ?Hdr, ?Hpd, ?Hd32; done.
Qed.

(** C17: The witness that [ln_script_htlctx_wit] gives the first input spends the
    output of the HTLC exactly when its signatures check and it is made for the
    case at hand: the timeout transaction for an HTLC that was offered and the
    success transaction, with the preimage, for one that was received need both
    keys; the other side needs its own key, with the preimage for an HTLC offered
    to it and from the expiry on for one it received; the revocation key spends
    both. *)
Theorem htlctx_wit_spends native sp ty sign local revo remote payhash expiry lsig rsig pre t i rest :
  length local = 33%nat → length revo = 33%nat → length remote = 33%nat → length payhash = 32%nat →
  0 ≤ expiry ≤ 0x7fffffffff → t_ins t = i :: rest → (native = false → in_sig i = []) →
  has_preimage sign pre = true →
  (∀ d, pre = Some d → length d = 32%nat ∧ mbedtls_sha256 d = payhash ∧ hash160 d ≠ hash160 revo) →
  hash160 [] ≠ hash160 revo →
  ∃ script wits prog,
    ln_script_htlcinfo_script ty local revo remote payhash expiry tt = Ret script tt ∧
    ln_script_htlctx_wit native (bufb lsig) revo (Some (bufb rsig)) pre script sign (rep t) =
      Ret tt (rep (put_in 0 (put_wit (if native then in_sig i else nested_sig (default [] (last_item wits))) wits i) t)) ∧
    btc_sw_wit2prog_p2wsh script tt = Ret prog tt ∧
    p2wsh_spends hash160 mbedtls_sha256 sp prog wits =
    match sign, ty, pre with
    | LN_HTLCSIGN_TIMEOUT_SUCCESS, LN_HTLCTYPE_OFFERED, None
    | LN_HTLCSIGN_TIMEOUT_SUCCESS, LN_HTLCTYPE_RECEIVED, Some _ =>
        sp_checksig sp lsig local && sp_checksig sp rsig remote
    | LN_HTLCSIGN_REMOTE_OFFER, LN_HTLCTYPE_OFFERED, Some _ => sp_checksig sp lsig remote
    | LN_HTLCSIGN_REMOTE_RECV, LN_HTLCTYPE_RECEIVED, _ => cltv_ok sp expiry && sp_checksig sp lsig remote
    | LN_HTLCSIGN_REVOKE_RECV, _, _ | LN_HTLCSIGN_REVOKE_OFFER, _, _ => sp_checksig sp lsig revo
    | _, _, _ => false
    end.
Proof.
  intros Hl Hr Hm Hp He Ht Hsig Hpre Hd Hz.
  set (script := htlc_script ty local revo remote payhash expiry).
  pose proof (htlc_script_len ty local revo remote payhash expiry Hl Hr Hm He) as Hlen. fold script in Hlen.
  pose proof (hash160_20 revo) as Hh. pose proof (proj2 (ripemd160_20 payhash)) as Hph.
  exists (of_bytes script), (htlc_items lsig revo rsig pre sign ++ [script]), (p2wsh_program script).
  split_and!.
  - by apply htlcinfo_script_spec.
  - unfold ln_script_htlctx_wit. rewrite of_bytes_bufb by (intros E; rewrite E in Hlen; cbn in Hlen; lia).
    rewrite htlctx_wits_eq; [|done|by destruct revo|].
    2:{ intros d (? & _)%Hd. by destruct d. }
    rewrite last_item_snoc. apply (set_vin_p2wsh_spec native t 0 i _ script).
    + by rewrite Ht.
    + done.
    + rewrite length_app. cbn [length]. rewrite Nat.add_sub. by apply list_lookup_middle.
    + rewrite length_app. destruct sign; cbn [htlc_items length]; lia.
    + lia.
  - apply wit2prog_spec. lia.
  - rewrite spends_script. by apply htlc_items_accepted.
Qed.

(** *** The transaction *)

Definition htlc_tx (native : bool) (value : Z) (script : bytes) (ty : ln_htlctype_t) (expiry : Z)
    (txid_ : bytes) (n : Z) : transaction :=
  mk_trans 2 [mk_in txid_ (u32 n) [] [] 0] [mk_out value (spk_p2wsh native script) (htlctype_num ty)]
    (match ty with LN_HTLCTYPE_OFFERED => expiry | LN_HTLCTYPE_RECEIVED => 0 end).

Lemma htlctx_create_spec native value script ty expiry txid_ n :
  zlen script < 2 ^ 16 → length txid_ = 32%nat →
  ln_script_htlctx_create native value (of_bytes script) ty expiry txid_ n btc_tx_init =
  Ret tt (rep (htlc_tx native value script ty expiry txid_ n)).
Proof.
  intros Hs Ht. unfold ln_script_htlctx_create. change btc_tx_init with (rep (mk_trans 2 [] [] 0)).
  erewrite bind_ret by (by apply add_vout_p2wsh_spec).
  set (o := mk_out value (spk_p2wsh native script) 0).
  erewrite bind_ret by (by apply (mod_vout_put _ 0 o _ (put_opt (htlctype_num ty)))).
  cbn [add_out t_version t_ins t_outs t_lock app insert list_insert put_opt].
  set (lock := match ty with LN_HTLCTYPE_OFFERED => expiry | LN_HTLCTYPE_RECEIVED => 0 end).
  erewrite (bind_ret tt) by (assert (∀ t, modify (set_locktime match ty with LN_HTLCTYPE_RECEIVED => 0
    | LN_HTLCTYPE_OFFERED => expiry end) (rep t) = Ret tt (rep (with_lock lock t))) as E
    by (intros t; unfold modify, lock; by destruct ty); apply E).
  erewrite bind_ret by (by apply add_vin_spec).
  erewrite (mod_vin_put _ 0 (mk_in txid_ (u32 n) [] [] BTC_TX_SEQUENCE) _ (put_seq 0)); done.
Qed.

(** *** Signatures *)

Context {E : Ecdsa} {EL : EcdsaLaws E}.

Lemma htlc_tx_ok native value script ty expiry txid_ n : length txid_ = 32%nat →
  let t := htlc_tx native value script ty expiry txid_ n in
  tx_ok t ∧ valid t = negb (value =? 0) ∧ Forall (λ o, zlen (out_spk o) < 0xfd) (t_outs t).
Proof.
  intros Ht. cbn zeta.
  assert (zlen (spk_p2wsh native script) < 0xfd ∧ ∃ op d, spk_p2wsh native script = op :: d ∧ op ≠ 0x6a) as (Hl & op & d & Hop & Hne).
  { unfold spk_p2wsh, p2wsh_program, p2sh_script. destruct native; cbn [app];
      (split; [|by do 2 eexists]); cbn [length]; rewrite ?length_app, ?hash160_20, ?sha256_len; done. }
  split_and!.
  - split; [constructor; [|done] | constructor; [|done] |done..]; [by split|]. unfold small. cbn [out_spk]. lia.
  - unfold valid. cbn [htlc_tx t_version t_ins t_outs forallb]. unfold valid_out. cbn [out_spk out_value].
    rewrite Hop, (proj2 (Z.eqb_neq op _)) by done.
    rewrite !bool_decide_eq_false_2 by done. cbn. by rewrite andb_true_r, orb_false_r.
  - by constructor.
Qed.

Definition htlc_digest (amount : Z) (wscript : bytes) (t : transaction) (i : tx_input) : bytes :=
  sha256d (bip143 out_wire t i (var_bytes wscript) amount).

Lemma htlc_sighash native value script ty expiry txid_ n amount wscript :
  length txid_ = 32%nat → zlen wscript < 0xff00 →
  let t := htlc_tx native value script ty expiry txid_ n in
  btc_util_calc_sighash_p2wsh (rep t) 0 amount (bufb wscript) tt =
  Ret (if value =? 0 then None else Some (htlc_digest amount wscript t (mk_in txid_ (u32 n) [] [] 0))) tt.
Proof.
  intros Ht Hw. cbn zeta. destruct (htlc_tx_ok native value script ty expiry txid_ n Ht) as (Hok & Hv & Hshort).
  set (t := htlc_tx native value script ty expiry txid_ n) in *.
  rewrite (calc_sighash_spec t 0 (mk_in txid_ (u32 n) [] [] 0)); [|done|done|done| |done].
  - rewrite Hv, bip143_short by done. by destruct (value =? 0).
  - apply Forall_cons_1 in Hshort as [Ho _]. cbn [out_spk] in Ho. cbn [t htlc_tx t_outs fmap list_fmap concat].
    unfold short_out. cbn [out_spk out_value]. rewrite !length_app, length_le_bytes. cbn [length]. lia.
Qed.

(** C19: The transaction that spends the output of an HTLC on the commitment
    transaction has this input and one output, waits for the expiry exactly when
    the HTLC was offered, and is signed and checked over its BIP 143 digest: the
    signatures of the two keys are accepted together, and the remote one alone,
    as it comes with [commitment_signed]. Nothing is signed for an output of 0. *)
Theorem htlctx_signed native value script ty expiry txid_ n amount wscript priv rpriv :
  zlen script < 2 ^ 16 → length txid_ = 32%nat → zlen wscript < 0xff00 →
  length priv = 32%nat → 1 ≤ be_val priv < order → length rpriv = 32%nat → 1 ≤ be_val rpriv < order →
  let t := htlc_tx native value script ty expiry txid_ n in
  let digest := htlc_digest amount wscript t (mk_in txid_ (u32 n) [] [] 0) in
  let pub := pt_write (smul (be_val priv) gen) in
  let rpub := pt_write (smul (be_val rpriv) gen) in
  ln_script_htlctx_create native value (of_bytes script) ty expiry txid_ n btc_tx_init = Ret tt (rep t) ∧
  if value =? 0
  then ln_script_htlctx_sign amount priv (bufb wscript) (rep t) = Ret None (rep t)
  else ∃ sig rsig,
    btc_tx_sign digest priv tt = Ret sig tt ∧ btc_tx_sign digest rpriv tt = Ret rsig tt ∧
    ln_script_htlctx_sign amount priv (bufb wscript) (rep t) = Ret (Some sig) (rep t) ∧
    ln_script_htlctx_sign amount rpriv (bufb wscript) (rep t) = Ret (Some rsig) (rep t) ∧
    ln_script_htlctx_verify (rep t) amount (Some pub) (Some rpub) (Some sig) (Some rsig) (bufb wscript) tt =
      Ret true tt ∧
    ln_script_htlctx_verify (rep t) amount None (Some rpub) None (Some rsig) (bufb wscript) tt = Ret true tt.
Proof.
  intros Hs Ht Hw Hl Hd Hrl Hrd. cbn zeta. split; [by apply htlctx_create_spec|].
  pose proof (htlc_sighash native value script ty expiry txid_ n amount wscript Ht Hw) as Eh. cbn zeta in Eh.
  set (t := htlc_tx native value script ty expiry txid_ n) in *.
  assert (vin_cnt (rep t) = 1 ∧ vout_cnt (rep t) = 1) as [Hi Ho] by done.
  destruct (value =? 0).
  { unfold ln_script_htlctx_sign. rewrite get_st_step, Hi, Ho. cbn [Z.eqb Pos.eqb negb orb].
    by erewrite bind_ret by (apply lift_ret, Eh). }
  set (h := htlc_digest _ _ _ _) in *.
  destruct (sign_accepted priv h Hl Hd) as (sig & Es & Ev). destruct (sign_accepted rpriv h Hrl Hrd) as (rsig & Ers & Erv).
  exists (of_bytes sig), (of_bytes rsig).
  assert (∀ p s, btc_tx_sign h p tt = Ret s tt → ln_script_htlctx_sign amount p (bufb wscript) (rep t) = Ret (Some s) (rep t)) as Hsign.
  { intros p s E'. unfold ln_script_htlctx_sign. rewrite get_st_step, Hi, Ho. cbn [Z.eqb Pos.eqb negb orb].
    erewrite bind_ret by (apply lift_ret, Eh). cbv beta iota. by erewrite bind_ret by (by apply lift_ret). }
  split_and!; try done; try by apply Hsign.
  all: unfold ln_script_htlctx_verify; rewrite Hi, Ho; cbn [Z.eqb Pos.eqb negb orb andb];
    rewrite (bool_decide_eq_false_2 (Some _ = None)) by done; rewrite ?andb_false_r; cbn [andb].
  all: erewrite bind_ret by exact Eh.
  - cbv beta iota. erewrite bind_ret by exact Ev. cbn. exact Erv.
  - cbv beta iota. erewrite bind_ret by done. cbn. exact Erv.
Qed.
End wit.

(** ** At concrete inputs *)

(** The success transaction of an HTLC whose preimage is 5…5. *)
Lemma htlctx_wit_spends_witness :
  let t := mk_trans 2 [mk_in (replicate 32 9) 1 [] [] 0] [] 0 in
  ∃ script wits prog,
    @ln_script_htlcinfo_script total_alloc prefix_hash unit LN_HTLCTYPE_RECEIVED (toy_key 1) (toy_key 2)
      (toy_key 3) (replicate 32 5) 600 tt = Ret script tt ∧
    @ln_script_htlctx_wit total_alloc zero_fresh prefix_hash true (bufb (toy_key 1)) (toy_key 2)
      (Some (bufb (toy_key 3))) (Some (replicate 32 5)) script LN_HTLCSIGN_TIMEOUT_SUCCESS (rep t) =
      Ret tt (rep (put_in 0 (put_wit [] wits (mk_in (replicate 32 9) 1 [] [] 0)) t)) ∧
    @btc_sw_wit2prog_p2wsh prefix_hash script tt = Ret prog tt ∧
    p2wsh_spends (@hash160 prefix_hash) (@mbedtls_sha256 prefix_hash) (toy_spend 0 0) prog wits = true.
Proof.
  cbn zeta.
  refine (@htlctx_wit_spends total_alloc total_alloc_total zero_fresh prefix_hash prefix_hash_laws true
    (toy_spend 0 0) LN_HTLCTYPE_RECEIVED LN_HTLCSIGN_TIMEOUT_SUCCESS (toy_key 1) (toy_key 2) (toy_key 3)
    (replicate 32 5) 600 (toy_key 1) (toy_key 3) (Some (replicate 32 5)) _ _ [] _ _ _ _ _ _ _ _ _ _);
    try done.
  intros d [= <-]. split_and!; [done|done|]. by vm_compute.
Defined.

Lemma htlctx_signed_witness :
  let t := @htlc_tx prefix_hash true 1000 [1; 2] LN_HTLCTYPE_OFFERED 600 (replicate 32 9) 1 in
  @ln_script_htlctx_create total_alloc zero_fresh prefix_hash true 1000 (of_bytes [1; 2]) LN_HTLCTYPE_OFFERED 600
    (replicate 32 9) 1 btc_tx_init = Ret tt (rep t) ∧
  ∃ rsig,
    @ln_script_htlctx_sign total_alloc prefix_hash toy_ecdsa 2000 (be_bytes 32 7) (bufb [3]) (rep t) =
      Ret (Some rsig) (rep t) ∧
    @ln_script_htlctx_verify total_alloc prefix_hash toy_ecdsa (rep t) 2000 None
      (Some (@pt_write LnToyNoise.group (LnToyNoise.to_point 7))) None (Some rsig) (bufb [3]) tt = Ret true tt.
Proof.
  cbn zeta. assert (1 ≤ be_val (be_bytes 32 7) < 251) as Hv by (by vm_compute).
  destruct (@htlctx_signed total_alloc total_alloc_total zero_fresh prefix_hash prefix_hash_laws toy_ecdsa
    toy_ecdsa_laws true 1000 [1; 2] LN_HTLCTYPE_OFFERED 600 (replicate 32 9) 1 2000 [3] (be_bytes 32 7)
    (be_bytes 32 7) eq_refl eq_refl eq_refl eq_refl Hv eq_refl Hv) as (H1 & sig & rsig & _ & _ & _ & H2 & _ & H3).
  split; [exact H1|]. exists rsig. by split.
Defined.
End LnWitness.
