(* ===== verification/LnCommitTx.v ===== *)
(** The commitment transaction: what [ln_script_fee_calc] counts, what
    [ln_script_committx_create] builds and signs, that it pays exactly that fee,
    and that the commitment number is read back from it ([calc_commit_num] of
    [ln.c]). *)
From stdpp Require Import base list numbers tactics.
From Stdlib Require Import ZArith Lia Sorted.
From S2P Require Import Prelude CProg UtlBuf UtlPush LnDerkey LnMisc LnMsg LnMsgNormal LnSig LnHtlc.
From S2P Require Import LnToyNoise BtcTx BtcTxWire BtcTxRead BtcSw BtcSort BtcDigest BtcBuild LnScript.
From S2P Require Import LnSpend LnWitness.
Import UtlBuf UtlPush LnMisc LnMsg LnHtlc BtcTx BtcTxWire BtcTxRead BtcSw BtcSort BtcDigest BtcBuild LnScript LnSpend.
Open Scope Z_scope.

Module LnCommitTx.

(** ** The commitment number *)

(** [calc_commit_num] with [self->obscured] *)
Definition calc_commit_num (obscured_ : Z) (pTx : btc_tx_t) : prog unit Z :=
  v ← vin_at pTx 0;
  mret (Z.lxor (Z.lor (u64 (Z.shiftl (Z.land (sequence v) 0xffffff) 24)) (Z.land (locktime pTx) 0xffffff))
          obscured_).

Lemma sequence_bits obs : Z.land (LN_SEQUENCE obs) 0xffffff = Z.land (Z.shiftr obs 24) 0xffffff.
Proof.
  unfold LN_SEQUENCE. rewrite Z.land_lor_distr_l, <- Z.land_assoc, Z.land_diag.
  by change (Z.land 0x80000000 0xffffff) with 0.
Qed.

Lemma locktime_bits obs : Z.land (LN_LOCKTIME obs) 0xffffff = Z.land obs 0xffffff.
Proof.
  unfold LN_LOCKTIME. rewrite Z.land_lor_distr_l, <- Z.land_assoc, Z.land_diag.
  by change (Z.land 0x20000000 0xffffff) with 0.
Qed.

Lemma halves obs : 0 ≤ obs < 2 ^ 48 →
  Z.lor (u64 (Z.shiftl (Z.land (Z.shiftr obs 24) 0xffffff) 24)) (Z.land obs 0xffffff) = obs.
Proof.
  intros Ho. change 0xffffff with (Z.ones 24). rewrite !Z.land_ones by lia.
  rewrite Z.shiftr_div_pow2, Z.shiftl_mul_pow2 by lia.
  rewrite (Z.mod_small (obs / 2 ^ 24)) by (Z.to_euclidean_division_equations; lia).
  rewrite wrap_small by (unfold in_range; Z.to_euclidean_division_equations; lia).
  rewrite <- Z.shiftl_mul_pow2, lor_shiftl_add by (try apply Z.mod_pos_bound; lia).
  Z.to_euclidean_division_equations; lia.
Qed.

Lemma lxor_48 a b : 0 ≤ a < 2 ^ 48 → 0 ≤ b < 2 ^ 48 → 0 ≤ Z.lxor a b < 2 ^ 48.
Proof.
  intros Ha Hb. assert (Z.lxor a b = Z.lxor a b mod 2 ^ 48) as ->; [|apply Z.mod_pos_bound; lia].
  rewrite <- (Z.mod_small a (2 ^ 48)), <- (Z.mod_small b (2 ^ 48)) at 1 by lia.
  rewrite <- !Z.land_ones by lia. apply Z.bits_inj'. intros n Hn.
  rewrite !Z.lxor_spec, !Z.land_spec, Z.lxor_spec. by destruct (Z.testbit a n), (Z.testbit b n), (Z.testbit (Z.ones 48) n).
Qed.

Lemma commit_num_read base n t i rest : 0 ≤ base < 2 ^ 48 → 0 ≤ n < 2 ^ 48 →
  t_ins t = i :: rest → in_seq i = LN_SEQUENCE (Z.lxor base n) → t_lock t = LN_LOCKTIME (Z.lxor base n) →
  calc_commit_num base (rep t) tt = Ret n tt.
Proof.
  intros Hb Hn Hi Hs Hl. unfold calc_commit_num. rewrite vin_at_rep, Hi.
  erewrite opt_step by done. cbn [rep_in sequence rep locktime].
  rewrite Hs, Hl, sequence_bits, locktime_bits, halves by (by apply lxor_48).
  unfold mret, prog_ret. f_equal. by rewrite Z.lxor_comm, <- Z.lxor_assoc, Z.lxor_nilpotent, Z.lxor_0_l.
Qed.

(** Past any block: the transaction is final, and its lock time is a past time. *)
Lemma commit_final obs : Z.testbit (LN_SEQUENCE obs) 31 = true ∧ 0x20000000 ≤ LN_LOCKTIME obs < 0x21000000.
Proof.
  split.
  - unfold LN_SEQUENCE. by rewrite Z.lor_spec.
  - unfold LN_LOCKTIME. change 0xffffff with (Z.ones 24). rewrite Z.land_ones by lia.
    change 0x20000000 with (Z.shiftl 0x20 24). 
    pose proof (Z.mod_pos_bound obs (2 ^ 24) ltac:(lia)). rewrite lor_shiftl_add by lia.
    change (Z.shiftl 0x20 24) with (0x20 * 2 ^ 24). lia.
Qed.

(** ** What is built *)

Section build.
Context {A : Alloc} {T : AllocTotal A} {F : Fresh} {H : BtcHash} {L : BtcHashLaws H} (native : bool).

(** An HTLC has an output of its own. *)
Definition kept (f : ln_script_feeinfo_t) (h : ln_script_htlcinfo_t) : bool :=
  u64 (dust_limit_satoshi f + match type h with
                              | LN_HTLCTYPE_OFFERED => htlc_timeout f
                              | LN_HTLCTYPE_RECEIVED => htlc_success f
                              end) <=? LN_MSAT2SATOSHI (info_amount_msat h).

Definition htlc_out (f : ln_script_feeinfo_t) (lp : nat) (x : ln_script_htlcinfo_t * bytes) : list tx_output :=
  if kept f x.1
  then [mk_out (LN_MSAT2SATOSHI (info_amount_msat x.1)) (spk_p2wsh native x.2) (u8 (Z.of_nat lp))] else [].

(** The output of a balance: what is left of it after the fee, when that is not dust. *)
Definition balance_out (f : ln_script_feeinfo_t) (sat fee : Z) (spk : bytes) (opt : Z) : list tx_output :=
  if u64 (dust_limit_satoshi f + fee) <=? sat then [mk_out (u64 (sat - fee)) spk opt] else [].

(** The outputs in the order in which they are added; the one who opened the
    channel pays the fee. *)
Definition cmt_outs (c : ln_script_committx_t) (lscript : bytes) (hs : list (ln_script_htlcinfo_t * bytes))
    (Local : bool) : list tx_output :=
  let f := p_feeinfo c in
  balance_out f (remote_satoshi c) (if Local then 0 else commit f) (spk_p2wpkh native (remote_pubkey c))
    LN_HTLCTYPE_TOREMOTE ++
  balance_out f (local_satoshi c) (if Local then commit f else 0) (spk_p2wsh native lscript)
    LN_HTLCTYPE_TOLOCAL ++
  concat (imap (htlc_out f) hs).

Definition add_outs (l : list tx_output) (t : transaction) : transaction :=
  mk_trans (t_version t) (t_ins t) (t_outs t ++ l) (t_lock t).

Lemma add_outs_nil t : add_outs [] t = t.
Proof. destruct t. unfold add_outs. cbn. by rewrite app_nil_r. Qed.

Lemma add_outs_app l1 l2 t : add_outs l2 (add_outs l1 t) = add_outs (l1 ++ l2) t.
Proof. unfold add_outs. cbn. by rewrite app_assoc. Qed.

(** An output and its [opt]. *)
Lemma set_last_opt_spec v spk o t : zlen (t_outs t) + 1 < 2 ^ 32 →
  set_last_opt o (rep (add_out (mk_out v spk 0) t)) = Ret tt (rep (add_outs [mk_out v spk o] t)).
Proof.
  intros Ht. unfold set_last_opt. rewrite gets_step. cbn [rep vout_cnt add_out t_outs].
  rewrite length_app. cbn [length].
  rewrite (wrap_small 32) by (unfold in_range; lia).
  replace (Z.of_nat (length (t_outs t) + 1) - 1) with (zlen (t_outs t)) by lia.
  by apply (mod_vout_last t (mk_out v spk 0) _ (mk_out v spk o)).
Qed.

Lemma p2wsh_opt v script o t : zlen (t_outs t) + 1 < 2 ^ 32 → zlen script < 2 ^ 16 →
  (btc_sw_add_vout_p2wsh native v (of_bytes script);; set_last_opt o) (rep t) =
  Ret tt (rep (add_outs [mk_out v (spk_p2wsh native script) o] t)).
Proof.
  intros Ht Hs. erewrite bind_ret by (by apply add_vout_p2wsh_spec). by apply set_last_opt_spec.
Qed.

Lemma p2wpkh_opt v pub o t : zlen (t_outs t) + 1 < 2 ^ 32 → length pub = 33%nat →
  (btc_sw_add_vout_p2wpkh_pub native v pub;; set_last_opt o) (rep t) =
  Ret tt (rep (add_outs [mk_out v (spk_p2wpkh native pub) o] t)).
Proof.
  intros Ht Hs. erewrite bind_ret by (by apply add_vout_p2wpkh_pub_spec). by apply set_last_opt_spec.
Qed.

(** A step that adds outputs when the condition holds. *)
Lemma balance_step f sat fee spk o (m : prog btc_tx_t unit) t :
  ((u64 (dust_limit_satoshi f + fee) <=? sat) = true →
   m (rep t) = Ret tt (rep (add_outs [mk_out (u64 (sat - fee)) spk o] t))) →
  (if u64 (dust_limit_satoshi f + fee) <=? sat then m else mret tt) (rep t) =
  Ret tt (rep (add_outs (balance_out f sat fee spk o) t)).
Proof.
  intros Hm. unfold balance_out. destruct (_ <=? sat); [by apply Hm|]. by rewrite add_outs_nil.
Qed.

Lemma committx_htlc_spec f lp h script t : zlen (t_outs t) + 1 < 2 ^ 32 → zlen script < 2 ^ 16 →
  committx_htlc native f lp (h, of_bytes script) (rep t) = Ret tt (rep (add_outs (htlc_out f lp (h, script)) t)).
Proof.
  intros Ht Hs. unfold committx_htlc, htlc_out, kept. cbn [fst snd].
  destruct (_ <=? _); [by apply p2wsh_opt|]. by rewrite add_outs_nil.
Qed.

Definition with_script (x : ln_script_htlcinfo_t * bytes) : ln_script_htlcinfo_t * utl_buf_t :=
  (x.1, of_bytes x.2).

Lemma htlc_out_len f lp x : (length (htlc_out f lp x) ≤ 1)%nat.
Proof. unfold htlc_out. destruct (kept _ _); cbn; lia. Qed.

Lemma htlcs_spec f hs t : zlen (t_outs t) + zlen hs < 2 ^ 32 → Forall (λ x, zlen x.2 < 2 ^ 16) hs →
  for_idx (seq 0 (length hs)) (λ lp _,
    x ← of_option ((with_script <$> hs) !! lp); committx_htlc native f lp x) tt (rep t) =
  Ret tt (rep (add_outs (concat (imap (htlc_out f) hs)) t)).
Proof.
  intros Ht Hs.
  assert (∀ l0 pre t, hs = pre ++ l0 → zlen (t_outs t) + zlen l0 < 2 ^ 32 → Forall (λ x, zlen x.2 < 2 ^ 16) l0 →
    for_idx (seq (length pre) (length l0)) (λ lp _,
      x ← of_option ((with_script <$> hs) !! lp); committx_htlc native f lp x) tt (rep t) =
    Ret tt (rep (add_outs (concat (imap (λ lp, htlc_out f (length pre + lp)) l0)) t))) as Hi; [|by apply (Hi hs [])].
  clear t Ht Hs. induction l0 as [|[h script] l0 IH]; intros pre t E Ht Hs.
  { cbn. by rewrite add_outs_nil. }
  apply Forall_cons_1 in Hs as [Hh Hs]. cbn [length seq for_idx fst snd] in *.
  erewrite bind_ret.
  2:{ rewrite list_lookup_fmap, E, list_lookup_middle by done. cbn [fmap option_fmap option_map].
      erewrite opt_step by done. apply committx_htlc_spec; [lia|done]. }
  replace (S (length pre)) with (length (pre ++ [(h, script)])) by (rewrite length_app; cbn; lia).
  rewrite IH; [|by rewrite E, <- app_assoc| |done].
  - cbn [imap concat]. rewrite add_outs_app, Nat.add_0_r. do 5 f_equal. apply imap_ext. intros i x _. cbn.
    rewrite length_app. cbn. f_equal. lia.
  - cbn [add_outs t_outs fst snd]. rewrite length_app. pose proof (htlc_out_len f (length pre) (h, script)). lia.
Qed.

(** The transaction before its outputs are sorted. *)
Definition cmt_tx (c : ln_script_committx_t) (outs : list tx_output) : transaction :=
  mk_trans 2 [mk_in (fund_txid c) (u32 (fund_txid_index c)) [] [] (LN_SEQUENCE (obscured c))]
    outs (LN_LOCKTIME (obscured c)).

Lemma cmt_outs_len c lscript hs Local : (length (cmt_outs c lscript hs Local) ≤ length hs + 2)%nat.
Proof.
  unfold cmt_outs. rewrite !length_app. unfold balance_out.
  assert (∀ l (g : nat → ln_script_htlcinfo_t * bytes → list tx_output), (∀ i x, (length (g i x) ≤ 1)%nat) →
    (length (concat (imap g l)) ≤ length l)%nat) as Hc.
  { induction l as [|x l IH]; intros g Hg; [done|]. cbn [imap concat length]. rewrite length_app.
    specialize (IH (g ∘ S) (λ i x, Hg (S i) x)). specialize (Hg 0%nat x). lia. }
  specialize (Hc hs (htlc_out (p_feeinfo c)) (htlc_out_len _)).
  repeat case_match; cbn [length]; lia.
Qed.

(** All the output scripts are of two kinds, neither of which begins the other. *)
Definition is_spk (d : bytes) : Prop := (∃ s, d = spk_p2wsh native s) ∨ (∃ k, d = spk_p2wpkh native k).

Lemma same_length_unrelated (a b : bytes) : length a = length b → unrelated a b.
Proof.
  intros Hl. destruct (decide (a = b)) as [|Hne]; [by left|]. right.
  intros [[k ->]|[k ->]]; rewrite length_app in Hl; destruct k; try (cbn in Hl; lia);
    apply Hne; by rewrite app_nil_r.
Qed.

Lemma spk_unrelated a b : is_spk a → is_spk b → unrelated a b.
Proof.
  assert (∀ s, length (spk_p2wsh true s) = 34%nat) as H1
    by (intros s; unfold spk_p2wsh, p2wsh_program; by rewrite length_app, sha256_len).
  assert (∀ r, length (p2sh_script r) = 23%nat) as H2
    by (intros s; unfold p2sh_script; by rewrite !length_app, hash160_20).
  assert (∀ k, length (spk_p2wpkh true k) = 22%nat) as H3
    by (intros s; unfold spk_p2wpkh, p2wpkh_program; by rewrite length_app, hash160_20).
  unfold is_spk. destruct native; cycle 1.
  { intros [[s ->]|[s ->]] [[s' ->]|[s' ->]]; apply same_length_unrelated; unfold spk_p2wsh, spk_p2wpkh; by rewrite !H2. }
  intros [[s ->]|[s ->]] [[s' ->]|[s' ->]].
  - apply same_length_unrelated. by rewrite !H1.
  - right. intros [[k E]|[k E]]; discriminate E.
  - right. intros [[k E]|[k E]]; discriminate E.
  - apply same_length_unrelated. by rewrite !H3.
Qed.

Lemma cmt_outs_spk c lscript hs Local : Forall (λ o, is_spk (out_spk o)) (cmt_outs c lscript hs Local).
Proof.
  unfold cmt_outs, balance_out. rewrite !Forall_app. split_and!.
  - case_match; [|by constructor]. constructor; [|by constructor]. right. by eexists.
  - case_match; [|by constructor]. constructor; [|by constructor]. left. by eexists.
  - apply Forall_concat, Forall_lookup. intros i l Hl. rewrite list_lookup_imap in Hl.
    destruct (hs !! i) as [x|]; [|done]. injection Hl as <-. unfold htlc_out.
    case_match; [|by constructor]. constructor; [|by constructor]. left. by eexists.
Qed.

Lemma committx_built c lscript hs (Local : bool) :
  zlen hs + 2 < 2 ^ 32 → Forall (λ x, zlen x.2 < 2 ^ 16) hs → zlen lscript < 2 ^ 16 →
  length (remote_pubkey c) = 33%nat → length (fund_txid c) = 32%nat →
  local_script c = of_bytes lscript → pp_htlcinfo c = with_script <$> hs →
  ∃ outs, committx_build native c Local btc_tx_init = Ret tt (rep (cmt_tx c outs)) ∧
    outs ≡ₚ cmt_outs c lscript hs Local ∧ StronglySorted out_le outs.
Proof.
  intros Hn Hhs Hls Hpub Htx El Eh. pose proof (cmt_outs_len c lscript hs Local) as Hlen.
  unfold committx_build. change btc_tx_init with (rep (mk_trans 2 [] [] 0)). rewrite El, Eh, length_fmap.
  erewrite bind_ret by (apply balance_step; intros _; by apply p2wpkh_opt).
  erewrite bind_ret by (apply balance_step; intros _; apply p2wsh_opt; [|done];
    cbn [add_outs t_outs]; unfold balance_out; repeat case_match; cbn; lia).
  erewrite bind_ret by (apply htlcs_spec; [|done]; cbn [add_outs t_outs]; unfold balance_out;
    repeat case_match; cbn; lia).
  rewrite !add_outs_app. fold (cmt_outs c lscript hs Local).
  unfold add_outs. cbn [t_version t_ins t_outs t_lock app].
  erewrite bind_ret by (by apply add_vin_spec). cbn [t_ins length].
  erewrite bind_ret by (by apply (mod_vin_put _ 0 (mk_in (fund_txid c) (u32 (fund_txid_index c)) [] [] BTC_TX_SEQUENCE) _
    (put_seq (LN_SEQUENCE (obscured c))))).
  set (outs := cmt_outs c lscript hs Local) in *.
  destruct (sort_bip69_one (cmt_tx c outs) _ eq_refl Htx) as (outs' & E & Hp & Hs).
  { cbn [cmt_tx t_outs]. pose proof (cmt_outs_spk c lscript hs Local) as Hk. fold outs in Hk.
    eapply Forall_impl; [|exact Hk]. intros o Ho. eapply Forall_impl; [|exact Hk].
    intros o' Ho'. by apply spk_unrelated. }
  exists outs'. split; [|done]. rewrite modify_step. exact E.
Qed.

(** ** The fee *)

Definition total (l : list Z) : Z := foldr Z.add 0 l.

Lemma total_cat l1 l2 : total (l1 ++ l2) = total l1 + total l2.
Proof. induction l1 as [|x l IH]; cbn in *; [done|]. unfold total in *. cbn. rewrite IH. lia. Qed.

Lemma total_perm l1 l2 : l1 ≡ₚ l2 → total l1 = total l2.
Proof. unfold total. induction 1; cbn; lia. Qed.

Definition htlc_sat (h : ln_script_htlcinfo_t) : Z := LN_MSAT2SATOSHI (info_amount_msat h).

Definition trimmed (f : ln_script_feeinfo_t) (hs : list ln_script_htlcinfo_t) : Z :=
  total ((λ h, if kept f h then 0 else htlc_sat h) <$> hs).

Definition n_kept (f : ln_script_feeinfo_t) (hs : list ln_script_htlcinfo_t) : Z :=
  total ((λ h, if kept f h then 1 else 0) <$> hs).

Lemma fee_fold f hs : Forall (λ h, 0 ≤ htlc_sat h) hs → ∀ c d, 0 ≤ c → 0 ≤ d →
  c + M_FEE_COMMIT_HTLC * zlen hs < 2 ^ 64 → d + total (htlc_sat <$> hs) < 2 ^ 64 →
  foldl (fee_step f) (c, d) hs = (c + M_FEE_COMMIT_HTLC * n_kept f hs, d + trimmed f hs) ∧
  0 ≤ n_kept f hs ≤ zlen hs ∧ 0 ≤ trimmed f hs ≤ total (htlc_sat <$> hs).
Proof.
  unfold n_kept, trimmed. induction 1 as [|h hs Hh _ IH]; intros c d Hc Hd Hcb Hdb;
    cbn [foldl fmap list_fmap total foldr length] in *; [split; [f_equal; lia | lia]|].
  fold (total ((λ h, if kept f h then 0 else htlc_sat h) <$> hs)) in *.
  fold (total ((λ h, if kept f h then 1 else 0) <$> hs)) in *. fold (total (htlc_sat <$> hs)) in *.
  assert (0 ≤ total (htlc_sat <$> hs)) as Hpos.
  { destruct (IH 0 0) as (_ & _ & Ht); lia. }
  unfold fee_step at 2. fold (htlc_sat h).
  change (u64 (dust_limit_satoshi f + _) <=? _) with (kept f h). destruct (kept f h).
  - rewrite wrap_small by (unfold in_range; lia).
    destruct (IH (c + M_FEE_COMMIT_HTLC) d) as (-> & Hk & Ht); try lia. split; [f_equal; lia|lia].
  - rewrite wrap_small by (unfold in_range; lia).
    destruct (IH c (d + htlc_sat h)) as (-> & Hk & Ht); try lia. split; [f_equal; lia|lia].
Qed.

Lemma htlc_outs_total f hs : ∀ k,
  total (out_value <$> concat (imap (λ lp, htlc_out f (k + lp)) hs)) + trimmed f (fst <$> hs) =
  total (htlc_sat <$> (fst <$> hs)).
Proof.
  induction hs as [|x hs IH]; intros k; [done|]. cbn [imap concat fmap list_fmap].
  rewrite fmap_app, total_cat.
  assert (imap ((λ lp, htlc_out f (k + lp)) ∘ S) hs = imap (λ lp, htlc_out f (S k + lp)) hs) as ->.
  { apply imap_ext. intros i y _. unfold compose. f_equal. lia. }
  specialize (IH (S k)). unfold trimmed, total in *. cbn [fmap list_fmap foldr]. unfold htlc_out at 1.
  destruct (kept f x.1); cbn [fmap list_fmap foldr out_value]; unfold htlc_sat in *; lia.
Qed.

Lemma fee_calc_spec fi hs : 0 ≤ feerate_per_kw fi < 2 ^ 32 → zlen hs ≤ 1000 →
  Forall (λ h, 0 ≤ htlc_sat h) hs → total (htlc_sat <$> hs) < 2 ^ 63 →
  let rate := feerate_per_kw fi in
  let f := (ln_script_fee_calc fi hs).1 in
  dust_limit_satoshi f = dust_limit_satoshi fi ∧
  htlc_success f = 703 * rate / 1000 ∧ htlc_timeout f = 663 * rate / 1000 ∧
  commit f = (724 + 172 * n_kept f hs) * rate / 1000 ∧
  (ln_script_fee_calc fi hs).2 = commit f + trimmed f hs ∧ 0 ≤ commit f < 2 ^ 62 ∧ 0 ≤ trimmed f hs.
Proof.
  intros Hr Hn Hp Ht. cbn zeta. unfold ln_script_fee_calc. set (rate := feerate_per_kw fi) in *.
  rewrite !(wrap_small 64 (_ * rate)) by (unfold in_range; lia).
  set (f := mk_fee rate (dust_limit_satoshi fi) (703 * rate / 1000) (663 * rate / 1000) LN_FEE_COMMIT_BASE).
  destruct (fee_fold f hs Hp 724 0) as (-> & Hk & Htr); try lia.
  rewrite (wrap_small 64 (_ * rate)) by (unfold in_range; nia).
  set (com := (724 + 172 * n_kept f hs) * rate / 1000).
  assert (0 ≤ com < 2 ^ 62) as Hc by (unfold com; Z.to_euclidean_division_equations; nia).
  rewrite wrap_small by (unfold in_range; lia). cbn [fst snd dust_limit_satoshi htlc_success htlc_timeout commit].
  split_and!; (done || apply Hc || apply Htr).
Qed.

(** What is left of a balance. *)
Definition left_of (f : ln_script_feeinfo_t) (sat fee : Z) : Z :=
  if dust_limit_satoshi f + fee <=? sat then sat - fee else 0.

Lemma balance_out_total f sat fee spk o : 0 ≤ dust_limit_satoshi f < 2 ^ 32 → 0 ≤ fee < 2 ^ 62 → 0 ≤ sat < 2 ^ 62 →
  total (out_value <$> balance_out f sat fee spk o) = left_of f sat fee ∧
  Forall (λ o, dust_limit_satoshi f ≤ out_value o) (balance_out f sat fee spk o).
Proof.
  intros Hd Hf Hs. unfold balance_out, left_of. rewrite wrap_small by (unfold in_range; lia).
  destruct (Z.leb_spec (dust_limit_satoshi f + fee) sat); [|done].
  rewrite wrap_small by (unfold in_range; lia). cbn. split; [lia|]. repeat constructor. cbn. lia.
Qed.

Lemma htlc_outs_dust f hs : 0 ≤ dust_limit_satoshi f < 2 ^ 32 → 0 ≤ htlc_success f < 2 ^ 62 →
  0 ≤ htlc_timeout f < 2 ^ 62 → ∀ k,
  Forall (λ o, dust_limit_satoshi f ≤ out_value o) (concat (imap (λ lp, htlc_out f (k + lp)) hs)).
Proof.
  intros Hd Hs Ht k. apply Forall_concat, Forall_lookup. intros i l Hl. rewrite list_lookup_imap in Hl.
  destruct (hs !! i) as [x|]; [|done]. injection Hl as <-. unfold htlc_out, kept.
  destruct (Z.leb_spec (u64 (dust_limit_satoshi f + match type x.1 with
    | LN_HTLCTYPE_OFFERED => htlc_timeout f | LN_HTLCTYPE_RECEIVED => htlc_success f end))
    (LN_MSAT2SATOSHI (info_amount_msat x.1))) as [Hk|]; [|done].
  constructor; [|done]. cbn [out_value]. rewrite wrap_small in Hk by (unfold in_range; destruct (type x.1); lia).
  destruct (type x.1); lia.
Qed.

(** C15: The outputs of the commitment transaction are worth the two balances less the
    fee that [ln_script_fee_calc] counted and the HTLCs that have an output: when
    both balances are kept, what the transaction pays to the miner is exactly the
    number [ln_script_fee_calc] returns, by the weights of BOLT 3. No output is
    below the dust limit. *)
Theorem commit_fee_paid c fi lscript hs (Local : bool) :
  zlen hs ≤ 1000 → Forall (λ x, zlen x.2 < 2 ^ 16) hs → zlen lscript < 2 ^ 16 →
  length (remote_pubkey c) = 33%nat → length (fund_txid c) = 32%nat →
  local_script c = of_bytes lscript → pp_htlcinfo c = with_script <$> hs →
  0 ≤ feerate_per_kw fi < 2 ^ 32 → 0 ≤ dust_limit_satoshi fi < 2 ^ 32 →
  Forall (λ h, 0 ≤ htlc_sat h) (fst <$> hs) → total (htlc_sat <$> (fst <$> hs)) < 2 ^ 63 →
  0 ≤ local_satoshi c < 2 ^ 62 → 0 ≤ remote_satoshi c < 2 ^ 62 →
  p_feeinfo c = (ln_script_fee_calc fi (fst <$> hs)).1 →
  let f := p_feeinfo c in
  let fee := (ln_script_fee_calc fi (fst <$> hs)).2 in
  let fee_local := (if Local then commit f else 0) in
  let fee_remote := (if Local then 0 else commit f) in
  let in_htlcs := total (htlc_sat <$> (fst <$> hs)) in
  commit f = (724 + 172 * n_kept f (fst <$> hs)) * feerate_per_kw fi / 1000 ∧
  fee = commit f + trimmed f (fst <$> hs) ∧
  ∃ outs, committx_build native c Local btc_tx_init = Ret tt (rep (cmt_tx c outs)) ∧
    Forall (λ o, dust_limit_satoshi fi ≤ out_value o) outs ∧
    total (out_value <$> outs) + trimmed f (fst <$> hs) =
      left_of f (local_satoshi c) fee_local + left_of f (remote_satoshi c) fee_remote + in_htlcs ∧
    (dust_limit_satoshi f + fee_local ≤ local_satoshi c → dust_limit_satoshi f + fee_remote ≤ remote_satoshi c →
     total (out_value <$> outs) + fee = local_satoshi c + remote_satoshi c + in_htlcs).
Proof.
  intros Hn Hhs Hls Hpub Htx El Eh Hr Hd Hp Ht Hl Hrm Ef. cbn zeta.
  destruct (committx_built c lscript hs Local ltac:(lia) Hhs Hls Hpub Htx El Eh) as (outs & Eb & Hperm & _).
  destruct (fee_calc_spec fi (fst <$> hs) Hr ltac:(by rewrite length_fmap) Hp Ht)
    as (Edust & Esucc & Etime & Ecom & Efee & Hcom & Htr).
  rewrite <- Ef in *. split; [done|]. split; [done|]. exists outs. split; [done|].
  set (f := p_feeinfo c) in *.
  destruct (balance_out_total f (remote_satoshi c) (if Local then 0 else commit f)
    (spk_p2wpkh native (remote_pubkey c)) LN_HTLCTYPE_TOREMOTE) as [H1 H1']; [lia|destruct Local; lia|lia|].
  destruct (balance_out_total f (local_satoshi c) (if Local then commit f else 0)
    (spk_p2wsh native lscript) LN_HTLCTYPE_TOLOCAL) as [H2 H2']; [lia|destruct Local; lia|lia|].
  pose proof (htlc_outs_total f hs 0) as H3.
  assert (Forall (λ o, dust_limit_satoshi f ≤ out_value o) (concat (imap (λ lp, htlc_out f (0 + lp)) hs))) as H3'.
  { apply htlc_outs_dust; [lia|rewrite Esucc | rewrite Etime]; Z.to_euclidean_division_equations; lia. }
  assert (total (out_value <$> outs) + trimmed f (fst <$> hs) =
    left_of f (local_satoshi c) (if Local then commit f else 0) +
    left_of f (remote_satoshi c) (if Local then 0 else commit f) + total (htlc_sat <$> (fst <$> hs))) as Hsum.
  { rewrite (total_perm _ (out_value <$> cmt_outs c lscript hs Local)) by (by rewrite Hperm).
    unfold cmt_outs. rewrite !fmap_app, !total_cat. fold f.
    change (λ lp, htlc_out f (0 + lp)) with (htlc_out f) in H3. lia. }
  split_and!; [|done|].
  - rewrite <- Edust, Hperm. unfold cmt_outs. by rewrite !Forall_app.
  - intros Hkl Hkr. rewrite Efee. unfold left_of in Hsum.
    rewrite !(proj2 (Z.leb_le _ _)) in Hsum by done. destruct Local; lia.
Qed.

(** ** What is signed *)

Context {E : Ecdsa} {EL : EcdsaLaws E}.

Lemma spk_len d : is_spk d → (1 ≤ length d ≤ 34)%nat.
Proof.
  intros [[s ->]|[s ->]]; unfold spk_p2wsh, spk_p2wpkh, p2wsh_program, p2wpkh_program, p2sh_script;
    destruct native; rewrite ?length_app, ?sha256_len, ?hash160_20; cbn [length]; lia.
Qed.

Lemma outs_size outs : Forall (λ o, is_spk (out_spk o)) outs →
  zlen (concat (short_out <$> outs)) ≤ 43 * zlen outs.
Proof.
  induction 1 as [|o l Ho _ IH]; [cbn; lia|]. cbn [fmap list_fmap concat length].
  apply spk_len in Ho. rewrite length_app. unfold short_out at 1. rewrite !length_app, length_le_bytes.
  cbn [length]. lia.
Qed.

(** What is built, and the digest that is signed of it. *)
Lemma committx_digest c lscript hs (Local : bool) fscript :
  zlen hs ≤ 1000 → Forall (λ x, zlen x.2 < 2 ^ 16) hs → zlen lscript < 2 ^ 16 →
  length (remote_pubkey c) = 33%nat → length (fund_txid c) = 32%nat →
  local_script c = of_bytes lscript → pp_htlcinfo c = with_script <$> hs →
  fund_script c = bufb fscript → zlen fscript < 0xff00 →
  ∃ outs, let t := cmt_tx c outs in
    let i := mk_in (fund_txid c) (u32 (fund_txid_index c)) [] [] (LN_SEQUENCE (obscured c)) in
    outs ≡ₚ cmt_outs c lscript hs Local ∧ StronglySorted out_le outs ∧
    tx_ok t ∧ Forall (λ o, zlen (out_spk o) < 0xfd) outs ∧ zlen (concat (short_out <$> outs)) < 2 ^ 16 ∧
    ∀ priv, ln_script_committx_create native c Local priv btc_tx_init =
      (if valid t
       then s ← lift (ln_signer_p2wsh (sha256d (bip143 out_wire t i (var_bytes fscript) (fund_satoshi c))) priv
                        MSG_FUNDIDX_FUNDING);
            mret (Some s)
       else mret None) (rep t).
Proof.
  intros Hn Hhs Hls Hpub Htx El Eh Ef Hfl.
  destruct (committx_built c lscript hs Local ltac:(lia) Hhs Hls Hpub Htx El Eh) as (outs & Eb & Hp & Hs).
  set (i := mk_in (fund_txid c) (u32 (fund_txid_index c)) [] [] (LN_SEQUENCE (obscured c))).
  exists outs. cbn zeta.
  assert (Forall (λ o, is_spk (out_spk o)) outs) as Hspk by (rewrite Hp; apply cmt_outs_spk).
  assert (zlen outs ≤ 1002) as Hol.
  { apply Permutation_length in Hp. pose proof (cmt_outs_len c lscript hs Local). lia. }
  pose proof (outs_size outs Hspk) as Hsize. set (t := cmt_tx c outs) in *.
  assert (tx_ok t ∧ Forall (λ o, zlen (out_spk o) < 0xfd) outs) as [Hok Hshort].
  { assert (∀ n, 34 < n → Forall (λ o, zlen (out_spk o) < n) outs) as Ho.
    { intros n Hn'. eapply Forall_impl; [|exact Hspk]. intros o Ho%spk_len. cbn. lia. }
    split; [split|]; [by repeat constructor|by apply Ho|done| |by apply Ho]. unfold small. cbn. lia. }
  split_and!; try done; [lia|]. intros priv.
  pose proof (calc_sighash_spec t 0 i fscript (fund_satoshi c) Hok eq_refl ltac:(done)
    ltac:(cbn [t cmt_tx t_outs]; lia) Hfl) as Eh'.
  rewrite bip143_short in Eh' by done.
  unfold ln_script_committx_create. erewrite bind_ret by exact Eb.
  rewrite get_st_step, Ef. erewrite bind_ret by (apply lift_ret, Eh'). by destruct (valid t).
Qed.

(** C14: The commitment transaction spends the funding output and has, in the order of
    BIP 69, an output for each balance and each HTLC that is not dust, the fee
    being taken from the one who opened the channel; its number is read back from
    its sequence and lock time, it is final, and what is signed is its BIP 143
    digest: the public funding key accepts the signature. Nothing is signed when
    no output is left or one of them has the value 0. *)
Theorem committx_created c lscript hs (Local : bool) fscript priv k base num :
  zlen hs ≤ 1000 → Forall (λ x, zlen x.2 < 2 ^ 16) hs → zlen lscript < 2 ^ 16 →
  length (remote_pubkey c) = 33%nat → length (fund_txid c) = 32%nat →
  local_script c = of_bytes lscript → pp_htlcinfo c = with_script <$> hs →
  fund_script c = bufb fscript → zlen fscript < 0xff00 →
  0 ≤ base < 2 ^ 48 → 0 ≤ num < 2 ^ 48 → obscured c = Z.lxor base num →
  priv !! MSG_FUNDIDX_FUNDING = Some k → length k = 32%nat → 1 ≤ be_val k < order →
  ∃ outs i, let t := cmt_tx c outs in
    outs ≡ₚ cmt_outs c lscript hs Local ∧ StronglySorted out_le outs ∧
    t_ins t = [i] ∧ in_prev i = fund_txid c ∧ in_n i = u32 (fund_txid_index c) ∧
    Z.testbit (in_seq i) 31 = true ∧ 0x20000000 ≤ t_lock t < 0x21000000 ∧
    calc_commit_num base (rep t) tt = Ret num tt ∧
    if valid t
    then ∃ sig, ln_script_committx_create native c Local priv btc_tx_init = Ret (Some sig) (rep t) ∧
         btc_tx_verify sig (sha256d (bip143 out_wire t i (var_bytes fscript) (fund_satoshi c)))
           (pt_write (smul (be_val k) gen)) tt = Ret true tt
    else ln_script_committx_create native c Local priv btc_tx_init = Ret None (rep t).
Proof.
  intros Hn Hhs Hls Hpub Htx El Eh Ef Hfl Hb Hnum Hobs Hk Hkl Hkd.
  destruct (committx_digest c lscript hs Local fscript) as (outs & Hp & Hs & Hok & _ & _ & Hc); try done.
  set (i := mk_in (fund_txid c) (u32 (fund_txid_index c)) [] [] (LN_SEQUENCE (obscured c))) in *.
  exists outs, i. cbn zeta in *. pose proof (commit_final (obscured c)) as [Hfin Hlock].
  split_and!; try done; try apply Hlock.
  { apply (commit_num_read base num (cmt_tx c outs) i []); [done|done|done| |]; cbn; by rewrite Hobs. }
  rewrite Hc. set (h := sha256d _). destruct (valid _); [|done].
  destruct (sign_accepted k h Hkl Hkd) as (sig & Esig & Ever).
  exists (of_bytes sig). split; [|done]. unfold ln_signer_p2wsh. rewrite Hk.
  by erewrite bind_ret by (apply lift_ret; exact Esig).
Qed.
End build.

(** ** A channel of 10,000,000 satoshi with one HTLC that has an output and one that has none *)

Definition sample_htlcs : list (ln_script_htlcinfo_t * bytes) :=
  [(mk_htlcinfo LN_HTLCTYPE_OFFERED 0 600 5000000 (replicate 32 5), [1; 2; 3]);
   (mk_htlcinfo LN_HTLCTYPE_RECEIVED 1 600 546000 (replicate 32 6), [4; 5])].

Definition sample_fee : ln_script_feeinfo_t := mk_fee 5000 546 0 0 0.

Definition sample_cmt : ln_script_committx_t :=
  mk_cmt (replicate 32 9) 0 10000000 (bufb [7; 7]) 6995000 (of_bytes [8; 8]) 2999454 (toy_key 3)
    (Z.lxor 0x2bb038521914 42) (ln_script_fee_calc sample_fee (fst <$> sample_htlcs)).1
    (with_script <$> sample_htlcs).

Lemma commit_fee_paid_witness :
  ∃ outs,
    @committx_build total_alloc zero_fresh prefix_hash true sample_cmt true btc_tx_init = Ret tt (rep (cmt_tx sample_cmt outs)) ∧
    (ln_script_fee_calc sample_fee (fst <$> sample_htlcs)).2 = 5026 ∧
    total (out_value <$> outs) + 5026 = 10000000.
Proof.
  destruct (@commit_fee_paid total_alloc total_alloc_total zero_fresh prefix_hash prefix_hash_laws true
    sample_cmt sample_fee [8; 8] sample_htlcs true ltac:(by vm_compute) ltac:(by repeat constructor)
    ltac:(by vm_compute) eq_refl eq_refl eq_refl eq_refl ltac:(by vm_compute) ltac:(by vm_compute)
    ltac:(by repeat constructor) ltac:(by vm_compute) ltac:(by vm_compute) ltac:(by vm_compute) eq_refl)
    as (_ & _ & outs & H1 & _ & _ & H3).
  exists outs. split; [exact H1|]. split; [by vm_compute|].
  refine (H3 _ _); by vm_compute.
Defined.

Lemma committx_created_witness :
  ∃ outs sig, let t := cmt_tx sample_cmt outs in
    outs ≡ₚ @cmt_outs prefix_hash true sample_cmt [8; 8] sample_htlcs true ∧
    calc_commit_num 0x2bb038521914 (rep t) tt = Ret 42 tt ∧
    @ln_script_committx_create total_alloc zero_fresh prefix_hash true toy_ecdsa sample_cmt true [be_bytes 32 7] btc_tx_init =
      Ret (Some sig) (rep t).
Proof.
  assert (1 ≤ be_val (be_bytes 32 7) < 251) as Hv by (by vm_compute).
  destruct (@committx_created total_alloc total_alloc_total zero_fresh prefix_hash prefix_hash_laws true toy_ecdsa
    toy_ecdsa_laws sample_cmt [8; 8] sample_htlcs true [7; 7] [be_bytes 32 7] (be_bytes 32 7) 0x2bb038521914 42
    ltac:(by vm_compute) ltac:(by repeat constructor) ltac:(by vm_compute) eq_refl eq_refl eq_refl eq_refl eq_refl
    ltac:(by vm_compute) ltac:(by vm_compute) ltac:(by vm_compute) eq_refl eq_refl eq_refl Hv)
    as (outs & i & H1 & _ & _ & _ & _ & _ & _ & H2 & H3).
  assert (valid (cmt_tx sample_cmt outs) = true) as Ev.
  { unfold valid. cbn [cmt_tx t_version t_ins t_outs]. rewrite bool_decide_eq_false_2 by done.
    rewrite bool_decide_eq_false_2 by (intros ->; apply Permutation_length in H1; vm_compute in H1; done).
    cbn [negb Z.eqb andb]. apply forallb_forall. intros o Ho.
    apply (Permutation_in _ H1) in Ho. revert o Ho. apply forallb_forall. by vm_compute. }
  rewrite Ev in H3. destruct H3 as (sig & H3 & _). exists outs, sig. by split_and!.
Defined.
End LnCommitTx.
