(* ===== verification/LnBuild.v ===== *)
(** The builders of [ln.c]: the commitment transaction of either side with the
    transactions that spend it ([create_to_local], [create_to_remote]), the keys
    that sign them ([ln_signer.c]) and the ways out of a channel that use them.

    That the two sides build the same transactions is proved in [LnAgree]. *)
From stdpp Require Import base list numbers tactics.
From Stdlib Require Import ZArith Lia.
From S2P Require Import Prelude CProg UtlBuf UtlPush LnDerkey LnMisc LnOnion LnMsg LnMsgNormal LnSig LnHtlc.
From S2P Require Import LnSelf BtcTx BtcSw LnScript.
Import UtlBuf UtlPush Derkey LnMisc LnMsg LnMsgNormal LnSig LnHtlc BtcTx BtcSw LnScript LnSelf.LnSelf.
Open Scope Z_scope.

Module LnBuild.

Abbreviation LN_CLOSE_IDX_COMMIT := 0%nat.
Abbreviation LN_CLOSE_IDX_TOLOCAL := 1%nat.
Abbreviation LN_CLOSE_IDX_TOREMOTE := 2%nat.
Abbreviation LN_CLOSE_IDX_HTLC := 3%nat.
Abbreviation LN_CLOSE_IDX_NONE := 0xff.

(** The fields of [ln_self_t] that are fixed once the channel is funded:
    [funding_local.txid] and [.txindex], [funding_sat], [redeem_fund],
    [key_fund_sort] (is it ascending), [obscured], the script of the output in
    [tx_funding], and [ln_is_funder]. *)
Record ln_fund_t := mk_fund {
  f_txid : bytes;
  f_txindex : Z;
  funding_sat : Z;
  redeem_fund : utl_buf_t;
  key_fund_sort : bool;
  f_obscured : Z;
  f_spk : utl_buf_t;
  ln_is_funder : bool;
}.

(** [tx_buf] holds the structs that [utl_push_data] copies into it. *)
Record ln_close_force_t := mk_close {
  p_tx : list btc_tx_t;
  p_htlc_idx : list Z;
  tx_buf : list btc_tx_t;
}.

(** A write to the database. *)
Inductive db_event :=
| DB_PHASH_SAVE (pay_hash vout : bytes) (type_ : ln_htlctype_t) (expiry : Z)
| DB_PREIMG_SET_EXPIRY (preimage : bytes)
| DB_PREIMG_EXPIRED (preimage : bytes).

(** What a builder writes to: the channel or the commitment data, [pClose] and the
    database. *)
Record bst X := mk_bst { main : X; pClose : option ln_close_force_t; db : list db_event }.
#[global] Arguments mk_bst {X} main pClose db.
#[global] Arguments main {X} b.
#[global] Arguments pClose {X} b.
#[global] Arguments db {X} b.

(** A row of the preimage table: is it still valid, its expiry, the preimage. *)
Record preimg_row := mk_row { row_valid : bool; row_max_expiry : bool; row_preimage : bytes }.

(** Run [m] on an object of its own; an early return is one of the caller. *)
Definition sub {S T B} (m : prog T B) (t : T) : prog S (B * T) := λ s,
  match m t with
  | Ret b t => Ret (b, t) s
  | Exit b t => Exit b s
  | UB => UB
  | AbortOut => AbortOut
  end.

(** [for] loops that collect one result per element. *)
Fixpoint each {S X Y} (f : X → prog S Y) (l : list X) : prog S (list Y) :=
  match l with
  | [] => mret []
  | x :: l => y ← f x; ys ← each f l; mret (y :: ys)
  end.

Section state.
Context {X : Type}.

Definition save_db (e : db_event) : prog (bst X) unit :=
  modify (λ s, mk_bst (main s) (pClose s) (db s ++ [e])).

(** [pClose->p_tx[i] = tx], when there is a [pClose]. *)
Definition set_ptx (i : nat) (tx : btc_tx_t) : prog (bst X) unit :=
  s ← get_st;
  match pClose s with
  | Some c =>
      (if bool_decide (i < length (p_tx c))%nat then mret tt else ub);;
      put_st (mk_bst (main s) (Some (mk_close (<[i := tx]> (p_tx c)) (p_htlc_idx c) (tx_buf c))) (db s))
  | None => mret tt
  end.

Definition set_phtlc_idx (i : nat) (v : Z) : prog (bst X) unit :=
  s ← get_st;
  match pClose s with
  | Some c =>
      (if bool_decide (i < length (p_htlc_idx c))%nat then mret tt else ub);;
      put_st (mk_bst (main s) (Some (mk_close (p_tx c) (<[i := v]> (p_htlc_idx c)) (tx_buf c))) (db s))
  | None => mret tt
  end.

Definition push_tx (tx : btc_tx_t) : prog (bst X) unit :=
  modify (λ s, mk_bst (main s)
    ((λ c, mk_close (p_tx c) (p_htlc_idx c) (tx_buf c ++ [tx])) <$> pClose s) (db s)).

Definition mod_main (f : X → X) : prog (bst X) unit :=
  modify (λ s, mk_bst (f (main s)) (pClose s) (db s)).

Definition has_close : prog (bst X) bool := gets (λ s, bool_decide (is_Some (pClose s))).
End state.

(** [pCommit] and [*ppHtlcSigs]. *)
Record remote_st := mk_remote { pCommit : ln_commit_data_t; pHtlcSigs : option bytes }.

Definition mod_commit (f : ln_commit_data_t → ln_commit_data_t) : prog (bst remote_st) unit :=
  mod_main (λ r, mk_remote (f (pCommit r)) (pHtlcSigs r)).

Definition mod_self : (ln_self_t → ln_self_t) → prog (bst ln_self_t) unit := mod_main.

(** [memcpy(self->cnl_add_htlc[idx].signature, ...)] *)
Definition store_htlc_sig (idx : nat) (sig : bytes) : prog (bst ln_self_t) unit :=
  mod_self (λ self, set_cnl_add_htlc (alter (UpdateAddHtlc.set_signature sig) idx (cnl_add_htlc self)) self).

Section code.
Context {A : Alloc} {F : Fresh} {H : BtcHash} {E : Ecdsa} (mNativeSegwit : bool).
(** [LN_DBG_MATCH_PREIMAGE()], the rows of the preimage table, [self->revoked_sec]. *)
Context (LN_DBG_MATCH_PREIMAGE : bool) (preimg_rows : list preimg_row) (revoked_sec : bytes).
(** What allocated memory holds before it is written. *)
Context (garbage : nat → Z).

(** ** Keys ([ln_signer.c]) *)

Abbreviation keys_t := (bytes * bytes)%type.

Definition get_secret {S} (self : ln_self_t) (MsgFundIdx : nat) (pPerCommit : bytes) : prog S keys_t :=
  secret ← of_option (priv self !! MsgFundIdx);
  let priv := ln_derkey_privkey mbedtls_sha256 (fund_key (funding_local self) MsgFundIdx) pPerCommit secret in
  pub ← of_option (btc_keys_priv2pub priv);
  mret (priv, pub).

Definition ln_signer_get_revokesec {S} (self : ln_self_t) (pPerCommit pRevokedSec : bytes) : prog S keys_t :=
  secret ← of_option (priv self !! MSG_FUNDIDX_REVOCATION);
  let priv := ln_derkey_revocationprivkey mbedtls_sha256
    (fund_key (funding_local self) MSG_FUNDIDX_REVOCATION) pPerCommit secret pRevokedSec in
  pub ← of_option (btc_keys_priv2pub priv);
  mret (priv, pub).

Definition ln_signer_tolocal_key {S} (self : ln_self_t) (bRevoked : bool) : prog S keys_t :=
  if bRevoked
  then ln_signer_get_revokesec self (fund_key (funding_remote self) MSG_FUNDIDX_PER_COMMIT) revoked_sec
  else get_secret self MSG_FUNDIDX_DELAYED (fund_key (funding_local self) MSG_FUNDIDX_PER_COMMIT).

Definition ln_signer_toremote_key {S} (self : ln_self_t) : prog S keys_t :=
  get_secret self MSG_FUNDIDX_PAYMENT (fund_key (funding_remote self) MSG_FUNDIDX_PER_COMMIT).

Definition ln_signer_htlc_localkey {S} (self : ln_self_t) : prog S keys_t :=
  get_secret self MSG_FUNDIDX_HTLC (fund_key (funding_local self) MSG_FUNDIDX_PER_COMMIT).

Definition ln_signer_htlc_remotekey {S} (self : ln_self_t) : prog S keys_t :=
  get_secret self MSG_FUNDIDX_HTLC (fund_key (funding_remote self) MSG_FUNDIDX_PER_COMMIT).

(** ** Transactions for the wallet *)

Definition create_basetx (Value : Z) (pScriptPk : option utl_buf_t) (LockTime : Z) (pTxid : bytes)
    (Index : Z) (bRevoked : bool) : prog btc_tx_t unit :=
  i ← btc_tx_add_vout Value;
  match pScriptPk with
  | Some b => fill_vout_script i (default [] (buf b)) (len b)
  | None => mret tt
  end;;
  btc_tx_add_vin pTxid Index;;
  if bRevoked then mret tt else mod_vin 0 (set_sequence LockTime).

Definition ln_wallet_create_tolocal (self : ln_self_t) (Value ToSelfDelay : Z) (pScript : utl_buf_t)
    (pTxid : bytes) (Index : Z) (bRevoked : bool) : prog btc_tx_t unit :=
  create_basetx Value None ToSelfDelay pTxid Index bRevoked;;
  sigkey ← ln_signer_tolocal_key self bRevoked;
  ln_script_tolocal_wit mNativeSegwit sigkey.1 pScript bRevoked.

Definition ln_wallet_create_toremote (self : ln_self_t) (Value : Z) (pTxid : bytes) (Index : Z)
  : prog btc_tx_t unit :=
  create_basetx Value None 0 pTxid Index false;;
  sigkey ← ln_signer_toremote_key self;
  ln_script_toremote_wit sigkey.1 sigkey.2.

(** 0, the two signatures in the order of the keys, the script. *)
Definition set_vin_p2wsh_2of2 (Index : Z) (Sort : bool) (pSig1 pSig2 pWit2of2 : utl_buf_t)
  : prog btc_tx_t unit :=
  let wit0 := mk_buf None 0 in
  btc_sw_set_vin_p2wsh mNativeSegwit Index
    (if Sort then [wit0; pSig1; pSig2; pWit2of2] else [wit0; pSig2; pSig1; pWit2of2]).

(** [search_preimage]: the rows up to the first one that matches; rows that
    have expired are deleted on the way. *)
Fixpoint search_rows {X} (rows : list preimg_row) (pPayHash : bytes) (bClosing : bool)
  : prog (bst X) (option bytes) :=
  match rows with
  | [] => mret None
  | row :: rows =>
      if row_valid row then
        if bool_decide (mbedtls_sha256 (row_preimage row) = pPayHash) then
          (if bClosing && negb (row_max_expiry row) then save_db (DB_PREIMG_SET_EXPIRY (row_preimage row))
           else mret tt);;
          mret (Some (row_preimage row))
        else search_rows rows pPayHash bClosing
      else save_db (DB_PREIMG_EXPIRED (row_preimage row));; search_rows rows pPayHash bClosing
  end.

Definition search_preimage {X} (pPayHash : bytes) (bClosing : bool) : prog (bst X) (option bytes) :=
  if LN_DBG_MATCH_PREIMAGE then search_rows preimg_rows pPayHash bClosing else mret None.

Definition sigexpand {S} (sig : bytes) : prog S utl_buf_t :=
  r ← sub (ln_misc_sigexpand sig) (mk_push 0 (mk_buf None 0)); mret (data r.2).

(** [scriptpubkeys[i]] *)
Definition skey (x : funding_data) (i : nat) : bytes := default [] (scriptpubkeys x !! i).

(** The scripts of the HTLCs. *)
Definition htlcinfo_script {S} (x : funding_data) (h : ln_script_htlcinfo_t)
  : prog S (ln_script_htlcinfo_t * utl_buf_t) :=
  script ← ln_script_htlcinfo_script (type h) (skey x MSG_SCRIPTIDX_LOCALHTLCKEY)
             (skey x MSG_SCRIPTIDX_REVOCATION) (skey x MSG_SCRIPTIDX_REMOTEHTLCKEY)
             (preimage_hash h) (expiry h);
  mret (h, script).

Definition fee_of (f : ln_script_feeinfo_t) (h : ln_script_htlcinfo_t) : Z :=
  match type h with LN_HTLCTYPE_OFFERED => htlc_timeout f | LN_HTLCTYPE_RECEIVED => htlc_success f end.

(** [lntx_commit] *)
Definition lntx_commit (fd : ln_fund_t) (x : funding_data) (CommitNum our their : Z)
    (buf_ws : utl_buf_t) (feeinfo : ln_script_feeinfo_t) (pp : list (ln_script_htlcinfo_t * utl_buf_t))
  : ln_script_committx_t :=
  mk_cmt (f_txid fd) (f_txindex fd) (funding_sat fd) (redeem_fund fd)
    (LN_MSAT2SATOSHI our) buf_ws (LN_MSAT2SATOSHI their) (skey x MSG_SCRIPTIDX_REMOTEKEY)
    (Z.lxor (f_obscured fd) CommitNum) feeinfo pp.

(** ** Our commitment transaction *)

Definition create_to_local_sign_verify (fd : ln_fund_t) (self : ln_self_t) (pBufSig : utl_buf_t)
  : prog btc_tx_t bool :=
  buf_sig_from_remote ← sigexpand (signature (commit_local self));
  set_vin_p2wsh_2of2 0 (key_fund_sort fd) pBufSig buf_sig_from_remote (redeem_fund fd);;
  t ← get_st;
  script_code ← btc_sw_scriptcode_p2wsh (redeem_fund fd);
  sighash ← lift (btc_sw_sighash t 0 (funding_sat fd) script_code);
  match sighash with
  | Some h => lift (btc_sw_verify_2of2 t 0 h (f_spk fd))
  | None => mret false
  end.

Definition create_to_local_spentlocal (self : ln_self_t) (pBufWs : utl_buf_t) (Amount : Z) (VoutIdx : nat)
    (ToSelfDelay : Z) : prog (bst ln_self_t) bool :=
  c ← has_close;
  if c : bool
  then r ← sub (ln_wallet_create_tolocal self Amount ToSelfDelay pBufWs (txid (commit_local self))
                  (Z.of_nat VoutIdx) false) btc_tx_init;
       set_ptx LN_CLOSE_IDX_TOLOCAL r.2;; mret true
  else mret true.

Definition create_to_local_htlcverify (self : ln_self_t) (pTx : btc_tx_t) (pHtlcSig : bytes)
    (pScript : utl_buf_t) (Amount : Z) : prog (bst ln_self_t) bool :=
  buf_sig ← sigexpand pHtlcSig;
  lift (ln_script_htlctx_verify pTx Amount None
          (Some (skey (funding_local self) MSG_SCRIPTIDX_REMOTEHTLCKEY)) None (Some buf_sig) pScript).

Definition create_to_local_spenthtlc (self : ln_self_t) (HtlcNum : nat) (pTxHtlc : btc_tx_t) (Amount : Z)
    (pBufWs : utl_buf_t) (pHtlcInfo : ln_script_htlcinfo_t * utl_buf_t) (pHtlcKey : keys_t) (ToSelfDelay : Z)
  : prog (bst ln_self_t) bool :=
  let '(info, script) := pHtlcInfo in
  h ← of_option (cnl_add_htlc self !! add_htlc_idx info);
  buf_remote_sig ← sigexpand (UpdateAddHtlc.signature h);
  img ← match type info with
        | LN_HTLCTYPE_RECEIVED => search_preimage (UpdateAddHtlc.payment_sha256 h) true
        | LN_HTLCTYPE_OFFERED => mret None
        end;
  match type info, img with
  | LN_HTLCTYPE_RECEIVED, None => set_ptx (LN_CLOSE_IDX_HTLC + HtlcNum) btc_tx_init;; mret true
  | _, _ =>
      r ← sub (ln_script_htlctx_sign Amount pHtlcKey.1 script) pTxHtlc;
      match r.1 with
      | None => mret false
      | Some buf_local_sig =>
          r ← sub (ln_script_htlctx_wit mNativeSegwit buf_local_sig pHtlcKey.2 (Some buf_remote_sig) img
                     script LN_HTLCSIGN_TIMEOUT_SUCCESS) pTxHtlc;
          let tx_htlc := r.2 in
          set_ptx (LN_CLOSE_IDX_HTLC + HtlcNum) tx_htlc;;
          txid_ ← lift (btc_tx_txid tx_htlc);
          o ← vout_at tx_htlc 0;
          r ← sub (ln_wallet_create_tolocal self (value o) ToSelfDelay pBufWs txid_ 0 false) btc_tx_init;
          push_tx r.2;;
          mret true
      end
  end.

(** [pHtlcSigs + htlc_num * LN_SZ_SIGNATURE], read as a signature. *)
Definition htlc_sig_at {S} (pHtlcSigs : list cell) (htlc_num : nat) : prog S bytes :=
  of_option (read_cells (Some (drop (htlc_num * 64) pHtlcSigs)) LN_SZ_SIGNATURE).

(** One output of the transaction. [None]: the loop is left with [ret] false;
    otherwise [ret] and the number of HTLCs. *)
Definition spent_local_vout (self : ln_self_t) (pHtlcSigs : option (list cell)) (HtlcSigsNum : Z)
    (pTxCommit : btc_tx_t) (pBufWs : utl_buf_t) (pp : list (ln_script_htlcinfo_t * utl_buf_t))
    (pFeeInfo : ln_script_feeinfo_t) (ToSelfDelay : Z) (htlckey : option keys_t)
    (vout_idx : nat) (ret : bool) (htlc_num : nat) : prog (bst ln_self_t) (option (bool * nat)) :=
  vout ← vout_at pTxCommit vout_idx;
  let htlc_idx := opt vout in
  if htlc_idx =? LN_HTLCTYPE_TOLOCAL
  then ret ← create_to_local_spentlocal self pBufWs (value vout) vout_idx ToSelfDelay;
       mret (Some (ret, htlc_num))
  else if htlc_idx =? LN_HTLCTYPE_TOREMOTE then mret (Some (ret, htlc_num))
  else
    p_htlcinfo ← of_option (pp !! Z.to_nat htlc_idx);
    let '(info, script) := p_htlcinfo in
    let fee_sat := fee_of pFeeInfo info in
    c_assert (u64 (dust_limit_satoshi pFeeInfo + fee_sat) <=? value vout);;
    r ← sub (ln_script_htlctx_create mNativeSegwit (u64 (value vout - fee_sat)) pBufWs (type info) (expiry info)
               (txid (commit_local self)) (Z.of_nat vout_idx)) btc_tx_init;
    let tx := r.2 in
    let sigs := (if HtlcSigsNum =? 0 then None else pHtlcSigs) in
    match sigs, htlckey with
    | Some sigs, _ =>
        sig ← htlc_sig_at sigs htlc_num;
        ok ← create_to_local_htlcverify self tx sig script (value vout);
        if ok : bool
        then store_htlc_sig (add_htlc_idx info) sig;; mret (Some (true, S htlc_num))
        else mret None
    | None, Some key =>
        ok ← create_to_local_spenthtlc self htlc_num tx (value vout) pBufWs p_htlcinfo key ToSelfDelay;
        if ok : bool
        then set_phtlc_idx (LN_CLOSE_IDX_HTLC + htlc_num) htlc_idx;; mret (Some (true, S htlc_num))
        else mret None
    | None, None => mret (Some (ret, S htlc_num))
    end.

Section loop.
Context {X : Type} (body : nat → bool → nat → prog (bst X) (option (bool * nat))).

(** The outputs in turn, until one of them breaks out. *)
Fixpoint vout_loop (idxs : list nat) (ret : bool) (htlc_num : nat) : prog (bst X) (bool * nat) :=
  match idxs with
  | [] => mret (ret, htlc_num)
  | vout_idx :: idxs =>
      r ← body vout_idx ret htlc_num;
      match r with
      | Some (ret, htlc_num) => vout_loop idxs ret htlc_num
      | None => mret (false, htlc_num)
      end
  end.
End loop.

Definition create_to_local_spent (self : ln_self_t) (pHtlcSigs : option (list cell)) (HtlcSigsNum : Z)
    (pTxCommit : btc_tx_t) (pBufWs : utl_buf_t) (pp : list (ln_script_htlcinfo_t * utl_buf_t))
    (pFeeInfo : ln_script_feeinfo_t) (ToSelfDelay : Z) : prog (bst ln_self_t) bool :=
  c ← has_close;
  htlckey ← (if c : bool then k ← ln_signer_htlc_localkey self; mret (Some k) else mret None);
  r ← vout_loop (spent_local_vout self pHtlcSigs HtlcSigsNum pTxCommit pBufWs pp pFeeInfo ToSelfDelay htlckey)
        (seq 0 (Z.to_nat (vout_cnt pTxCommit))) true 0;
  let '(ret, htlc_num) := r in
  let ret := (if bool_decide (is_Some pHtlcSigs) && negb (Z.of_nat htlc_num =? HtlcSigsNum)
              then false else ret) in
  mod_self (λ self, set_commit_local (set_htlc_num (Z.of_nat htlc_num) (commit_local self)) self);;
  mret ret.

(** What both sides' transactions are built from: the scripts of the HTLCs, the
    fees, the transaction. *)
Definition with_scripts {S} (x : funding_data) (infos : list ln_script_htlcinfo_t)
  : prog S (list (ln_script_htlcinfo_t * utl_buf_t)) := each (htlcinfo_script x) infos.

Definition create_to_local (fd : ln_fund_t) (pHtlcSigs : option (list cell)) (HtlcSigsNum CommitNum
    ToSelfDelay DustLimitSat : Z) : prog (bst ln_self_t) bool :=
  self ← gets main;
  let x := funding_local self in
  buf_ws ← ln_script_create_tolocal (skey x MSG_SCRIPTIDX_REVOCATION) (skey x MSG_SCRIPTIDX_DELAYED) ToSelfDelay;
  let '(infos, our_msat, their_msat) :=
    create_to_local_htlcinfo_amount (cnl_add_htlc self) (our_msat self) (their_msat self) in
  pp ← with_scripts x infos;
  let feeinfo := (ln_script_fee_calc (mk_fee (feerate_per_kw self) DustLimitSat 0 0 0) infos).1 in
  let cmt := lntx_commit fd x CommitNum our_msat their_msat buf_ws feeinfo pp in
  r ← sub (ln_script_committx_create mNativeSegwit cmt (ln_is_funder fd) (priv self)) btc_tx_init;
  let '(sig, tx_commit) := r in
  r ← match sig with
      | Some buf_sig => on_local (create_to_local_sign_verify fd self buf_sig) tx_commit
      | None => mret (false, tx_commit)
      end;
  let '(ret, tx_commit) := r in
  ret ← (if ret : bool
         then t ← lift (btc_tx_txid tx_commit);
              mod_self (λ self, set_commit_local (set_txid t (commit_local self)) self);;
              self ← gets main;
              create_to_local_spent self pHtlcSigs HtlcSigsNum tx_commit buf_ws pp feeinfo ToSelfDelay
         else mret false);
  set_ptx LN_CLOSE_IDX_COMMIT tx_commit;;
  mret ret.

(** ** The commitment transaction of the peer *)

(** [UTL_DBG_MALLOC(LN_SZ_SIGNATURE * cnt)] *)
Definition alloc_sigs (cnt : nat) : prog (bst remote_st) unit :=
  mod_main (λ r, mk_remote (pCommit r) (Some (garbage <$> seq 0 (64 * cnt)))).

(** [ln_misc_sigtrim(pHtlcSigs + LN_SZ_SIGNATURE * HtlcNum, sig)] *)
Definition store_sig (HtlcNum : nat) (sig : bytes) : prog (bst remote_st) unit :=
  s ← get_st;
  match pHtlcSigs (main s) with
  | Some sigs =>
      slot ← rd_bytes sigs (64 * Z.of_nat HtlcNum) LN_SZ_SIGNATURE;
      r ← on_local (ln_misc_sigtrim sig) slot;
      put_st (mk_bst (mk_remote (pCommit (main s))
        (Some (take (64 * HtlcNum) sigs ++ r.2 ++ drop (64 * HtlcNum + 64) sigs))) (pClose s) (db s))
  | None => mret tt
  end.

Definition create_to_remote_spenthtlc (pTxCommit : btc_tx_t) (pBufWs : utl_buf_t)
    (pHtlcInfo : ln_script_htlcinfo_t * utl_buf_t) (pHtlcKey : keys_t) (pBufRemoteSig : utl_buf_t)
    (Fee : Z) (HtlcNum VoutIdx : nat) (pPayHash : bytes) (bClosing : bool) : prog (bst remote_st) bool :=
  let '(info, script) := pHtlcInfo in
  vout ← vout_at pTxCommit VoutIdx;
  pCommit ← gets (λ s, pCommit (main s));
  r ← sub (ln_script_htlctx_create mNativeSegwit (u64 (value vout - Fee)) pBufWs (type info) (expiry info)
             (txid pCommit) (Z.of_nat VoutIdx)) btc_tx_init;
  let tx := r.2 in
  let free_script := mod_vout 0 (set_vout_script (mk_buf None 0)) in
  let wit sig remote img := ln_script_htlctx_wit mNativeSegwit sig pHtlcKey.2 remote img script in
  close ← has_close;
  img ← match type info with
        | LN_HTLCTYPE_OFFERED => search_preimage pPayHash bClosing
        | LN_HTLCTYPE_RECEIVED => mret None
        end;
  (* the transaction, and whether it has still to be signed *)
  r ← match type info, img, close with
      | LN_HTLCTYPE_OFFERED, Some preimage, true =>
          r ← sub (free_script;; modify (set_locktime 0);;
                   wit (view pHtlcKey.1) None (Some preimage) LN_HTLCSIGN_REMOTE_OFFER) tx;
          mret (r.2, false)
      | LN_HTLCTYPE_RECEIVED, _, true =>
          r ← sub (free_script;; modify (set_locktime (expiry info));;
                   wit (view pHtlcKey.1) None None LN_HTLCSIGN_REMOTE_RECV) tx;
          mret (r.2, false)
      | _, _, _ => mret (tx, true)
      end;
  let '(tx, sign) := r in
  r ← (if sign : bool then
         r ← sub (ln_script_htlctx_sign (value vout) pHtlcKey.1 script) tx;
         match r.1 with
         | Some buf_localsig =>
             d ← lift (buf_bytes buf_localsig);
             store_sig HtlcNum d;;
             r ← sub (wit buf_localsig (Some pBufRemoteSig) img LN_HTLCSIGN_TIMEOUT_SUCCESS) tx;
             mret (true, r.2)
         | None => mret (false, tx)
         end
       else mret (true, tx));
  let '(ret, tx) := r in
  if ret : bool then set_ptx (LN_CLOSE_IDX_HTLC + HtlcNum) tx;; mret true else mret false.

(** One output: [None] breaks out of the loop. *)
Definition spent_remote_vout (self : ln_self_t) (pTxCommit : btc_tx_t) (pBufWs : utl_buf_t)
    (pp : list (ln_script_htlcinfo_t * utl_buf_t)) (pFeeInfo : ln_script_feeinfo_t) (htlckey : keys_t)
    (buf_remotesig : utl_buf_t) (vout_idx : nat) (ret : bool) (htlc_num : nat)
  : prog (bst remote_st) (option (bool * nat)) :=
  vout ← vout_at pTxCommit vout_idx;
  close ← has_close;
  let htlc_idx := opt vout in
  if htlc_idx =? LN_HTLCTYPE_TOLOCAL then mret (Some (ret, htlc_num))
  else if htlc_idx =? LN_HTLCTYPE_TOREMOTE then
    if close : bool
    then pCommit ← gets (λ s, pCommit (main s));
         r ← sub (ln_wallet_create_toremote self (value vout) (txid pCommit) (Z.of_nat vout_idx)) btc_tx_init;
         set_ptx LN_CLOSE_IDX_TOREMOTE r.2;; mret (Some (true, htlc_num))
    else mret (Some (ret, htlc_num))
  else
    p_htlcinfo ← of_option (pp !! Z.to_nat htlc_idx);
    h ← of_option (cnl_add_htlc self !! add_htlc_idx p_htlcinfo.1);
    let fee_sat := fee_of pFeeInfo p_htlcinfo.1 in
    if u64 (dust_limit_satoshi pFeeInfo + fee_sat) <=? value vout
    then ok ← create_to_remote_spenthtlc pTxCommit pBufWs p_htlcinfo htlckey buf_remotesig fee_sat htlc_num
                vout_idx (UpdateAddHtlc.payment_sha256 h) close;
         if ok : bool
         then set_phtlc_idx (LN_CLOSE_IDX_HTLC + htlc_num) htlc_idx;; mret (Some (true, S htlc_num))
         else mret None
    else mret (Some (ret, htlc_num)).

Definition create_to_remote_spent (self : ln_self_t) (pTxCommit : btc_tx_t) (pBufWs : utl_buf_t)
    (pp : list (ln_script_htlcinfo_t * utl_buf_t)) (pFeeInfo : ln_script_feeinfo_t)
  : prog (bst remote_st) bool :=
  buf_remotesig ← sigexpand (signature (commit_local self));
  htlckey ← ln_signer_htlc_remotekey self;
  r ← vout_loop (spent_remote_vout self pTxCommit pBufWs pp pFeeInfo htlckey buf_remotesig)
        (seq 0 (Z.to_nat (vout_cnt pTxCommit))) true 0;
  mod_commit (set_htlc_num (Z.of_nat r.2));;
  mret r.1.

(** [LN_UGLY_NORMAL]: the payment hash of an HTLC goes to the database, with the
    witness program its output will have. *)
Definition save_phash (x : ln_script_htlcinfo_t * utl_buf_t) : prog (bst remote_st) unit :=
  vout ← lift (btc_sw_wit2prog_p2wsh x.2);
  save_db (DB_PHASH_SAVE (preimage_hash x.1) vout (type x.1) (expiry x.1)).

(** [bSigs]: is [ppHtlcSigs] given? *)
Definition create_to_remote (fd : ln_fund_t) (self : ln_self_t) (bSigs : bool) (CommitNum : Z)
  : prog (bst remote_st) bool :=
  pCommit ← gets (λ s, pCommit (main s));
  let x := funding_remote self in
  buf_ws ← ln_script_create_tolocal (skey x MSG_SCRIPTIDX_REVOCATION) (skey x MSG_SCRIPTIDX_DELAYED)
             (to_self_delay (commit_local self));
  let '(infos, our_msat, their_msat) :=
    create_to_remote_htlcinfo (cnl_add_htlc self) (LnSelf.LnSelf.their_msat self) (LnSelf.LnSelf.our_msat self) in
  pp ← each (λ info, x ← htlcinfo_script x info; save_phash x;; mret x) infos;
  let feeinfo := (ln_script_fee_calc (mk_fee (feerate_per_kw self) (dust_limit_sat pCommit) 0 0 0) infos).1 in
  let cmt := lntx_commit fd x CommitNum our_msat their_msat buf_ws feeinfo pp in
  r ← sub (ln_script_committx_create mNativeSegwit cmt (negb (ln_is_funder fd)) (priv self)) btc_tx_init;
  let '(sig, tx_commit) := r in
  ret ← match sig with
        | Some buf_sig =>
            t ← lift (btc_tx_txid tx_commit);
            mod_commit (set_txid t);;
            d ← lift (buf_bytes buf_sig);
            r ← on_local (ln_misc_sigtrim d) (signature pCommit);
            mod_commit (set_signature r.2);;
            (if bSigs && (0 <? length infos)%nat then alloc_sigs (length infos) else mret tt);;
            create_to_remote_spent self tx_commit buf_ws pp feeinfo
        | None => mret false
        end;
  set_ptx LN_CLOSE_IDX_COMMIT tx_commit;;
  mret ret.

(** ** The transaction that takes an HTLC output of a revoked commitment *)

(** [p_revoked_type], [p_revoked_wit] of the output, [shutdown_scriptpk_local]. *)
Definition ln_revokedhtlc_create_spenttx (self : ln_self_t) (p_revoked_type : ln_htlctype_t)
    (p_revoked_wit shutdown_scriptpk_local : utl_buf_t) (Value : Z) (pTxid : bytes) (Index : Z)
  : prog btc_tx_t bool :=
  let feeinfo := (ln_script_fee_calc (mk_fee (feerate_per_kw self) 0 0 0 0) []).1 in
  let fee := match p_revoked_type with
             | LN_HTLCTYPE_OFFERED => htlc_timeout feeinfo
             | LN_HTLCTYPE_RECEIVED => htlc_success feeinfo
             end in
  ln_script_htlctx_create mNativeSegwit (u64 (Value - fee)) shutdown_scriptpk_local p_revoked_type 0 pTxid Index;;
  signkey ← ln_signer_get_revokesec self (fund_key (funding_remote self) MSG_FUNDIDX_PER_COMMIT) revoked_sec;
  buf_sig ← ln_script_htlctx_sign Value signkey.1 p_revoked_wit;
  match buf_sig with
  | Some buf_sig =>
      ln_script_htlctx_wit mNativeSegwit buf_sig signkey.2 None None p_revoked_wit
        match p_revoked_type with
        | LN_HTLCTYPE_OFFERED => LN_HTLCSIGN_REVOKE_OFFER
        | LN_HTLCTYPE_RECEIVED => LN_HTLCSIGN_REVOKE_RECV
        end;;
      mret true
  | None => mret false
  end.
End code.
End LnBuild.
