(* ===== verification/LnSignTx.v ===== *)
(** What [create_to_remote] signs and [create_to_local] checks, output by output:
    both loops run over the outputs of the sorted transaction and treat the
    HTLCs among them in that order. *)
From stdpp Require Import base list numbers tactics.
From Stdlib Require Import ZArith Lia.
From S2P Require Import Prelude CProg UtlBuf UtlPush LnDerkey LnMisc LnMsg LnMsgNormal LnSig LnHtlc LnSelf BtcTx.
From S2P Require Import BtcTxWire BtcTxRead BtcSw BtcSort BtcDigest BtcBuild LnScript LnSpend LnWitness LnCommitTx.
From S2P Require Import LnBuild.
Import UtlBuf UtlPush Derkey LnMisc LnMsg LnMsgNormal LnSig LnHtlc LnSelf.LnSelf BtcTx BtcTxWire BtcTxRead BtcSw.
Import BtcSort BtcDigest BtcBuild LnScript LnSpend LnWitness LnCommitTx LnBuild.
Open Scope Z_scope.

Module LnSignTx.

Lemma sub_step {S T B C} (m : prog T B) t b t' (K : B * T → prog S C) s : m t = Ret b t' →
  (sub m t ≫= K) s = K (b, t') s.
Proof. intros E. apply bind_ret. unfold sub. by rewrite E. Qed.

Section sign.
Context {A : Alloc} {T : AllocTotal A} {F : Fresh} {H : BtcHash} {L : BtcHashLaws H} {E : Ecdsa} {EL : EcdsaLaws E}.

(** ** One signature on its way: DER, 64 bytes, DER again, accepted *)

Definition good_key (k : bytes) : Prop := length k = 32%nat ∧ 1 ≤ be_val k < order.

Definition pub_of (k : bytes) : bytes := pt_write (smul (be_val k) gen).

(** The two numbers of a signature, and its DER form. *)
Definition rs_of (k h : bytes) : bytes :=
  match sign_rs h k tt with Ret (r, s) _ => be_bytes 32 r ++ be_bytes 32 s | _ => [] end.

Definition der_of (k h : bytes) : bytes :=
  match sign_rs h k tt with Ret (r, s) _ => der (be_bytes 32 r) (be_bytes 32 s) | _ => [] end.

Lemma verify_prefix sig h pub rest : length pub = 33%nat →
  btc_tx_verify sig h (pub ++ rest) tt = btc_tx_verify sig h pub tt.
Proof.
  intros Hl. unfold btc_tx_verify.
  assert (@rd_bytes unit (pub ++ rest) 0 BTC_SZ_PUBKEY = rd_bytes pub 0 BTC_SZ_PUBKEY) as ->; [|done].
  unfold rd_bytes, sub_bytes. rewrite !bool_decide_eq_true_2 by (rewrite ?length_app; lia).
  change (Z.to_nat 0) with 0%nat. by rewrite !drop_0, take_app_le by lia.
Qed.

Lemma sign_cycle k h : good_key k →
  btc_tx_sign h k tt = Ret (bufb (der_of k h)) tt ∧
  length (rs_of k h) = 64%nat ∧ is_bytes (rs_of k h) ∧
  (∀ slot, length slot = 64%nat → run (ln_misc_sigtrim (der_of k h)) slot = Ret true (rs_of k h)) ∧
  (∀ S (s : S), sigexpand (rs_of k h) s = Ret (bufb (der_of k h)) s) ∧
  (∀ pub, take 33 pub = pub_of k → btc_tx_verify (bufb (der_of k h)) h pub tt = Ret true tt) ∧
  1 < zlen (der_of k h) < 80 ∧ der_of k h !! Z.to_nat (zlen (der_of k h) - 1) = Some SIGHASH_ALL.
Proof.
  intros [Hl Hd]. destruct (sign_rs_spec k h Hl Hd) as (r & s & Ers & Hr & Hs & _ & Hv).
  pose proof order_pos as [_ Ho]. destruct (pub_read _ Hd) as [Hpub Hread].
  unfold rs_of, der_of. rewrite Ers. cbv beta iota.
  set (br := be_bytes 32 r). set (bs := be_bytes 32 s).
  assert (is_bytes br ∧ is_bytes bs ∧ length br = 32%nat ∧ length bs = 32%nat) as (Hbr & Hbs & Hlr & Hls)
    by (split_and!; try apply be_bytes_is_bytes; apply length_be_bytes).
  assert (1 < zlen (der br bs) < 80) as Hlen.
  { rewrite length_der. pose proof (length_der_int br Hbr Hlr). pose proof (length_der_int bs Hbs Hls). lia. }
  assert (of_bytes (der br bs) = bufb (der br bs)) as Eb
    by (apply of_bytes_bufb; intros Ee; rewrite Ee in Hlen; cbn in Hlen; lia).
  split_and!; try done; try apply Hlen.
  - rewrite <- Eb. apply tx_sign_der; lia || done.
  - by apply Forall_app.
  - intros slot Hslot. by apply sigtrim_der.
  - intros S s0. unfold sigexpand. erewrite sub_step by (by apply sigexpand_der). cbn [snd data].
    by rewrite Eb.
  - intros pub Hp. rewrite <- Eb, <- (take_drop 33 pub), Hp, verify_prefix by done.
    by apply (verify_der r s (smul (be_val k) gen)); lia || done.
  - fold br bs. pose proof (asn1_der r s ltac:(lia) ltac:(lia)) as Ea. fold br bs in Ea. rewrite <- Ea. apply list_lookup_middle. rewrite length_app. cbn [length]. lia.
Qed.

Lemma good_sign k h amount native value script ty expiry txid_ n wscript : good_key k →
  length txid_ = 32%nat → zlen wscript < 0xff00 → value ≠ 0 →
  let t := htlc_tx native value script ty expiry txid_ n in
  h = htlc_digest amount wscript t (mk_in txid_ (u32 n) [] [] 0) →
  ln_script_htlctx_sign amount k (bufb wscript) (rep t) = Ret (Some (bufb (der_of k h))) (rep t).
Proof.
  intros Hk Ht Hw Hv t ->. pose proof (htlc_sighash native value script ty expiry txid_ n amount wscript Ht Hw) as Eh.
  cbn zeta in Eh. fold t in Eh. rewrite (proj2 (Z.eqb_neq value 0) Hv) in Eh.
  assert (vin_cnt (rep t) = 1 ∧ vout_cnt (rep t) = 1) as [Hi Ho] by done.
  unfold ln_script_htlctx_sign. rewrite get_st_step, Hi, Ho. cbn [Z.eqb Pos.eqb negb orb].
  erewrite bind_ret by (apply lift_ret, Eh). cbv beta iota.
  destruct (sign_cycle k (htlc_digest amount wscript t (mk_in txid_ (u32 n) [] [] 0)) Hk) as (Es & _).
  by erewrite bind_ret by (by apply lift_ret).
Qed.

Lemma good_verify k h amount native value script ty expiry txid_ n wscript : good_key k →
  length txid_ = 32%nat → zlen wscript < 0xff00 → value ≠ 0 →
  let t := htlc_tx native value script ty expiry txid_ n in
  h = htlc_digest amount wscript t (mk_in txid_ (u32 n) [] [] 0) →
  ln_script_htlctx_verify (rep t) amount None (Some (pub_of k)) None (Some (bufb (der_of k h))) (bufb wscript) tt = Ret true tt.
Proof.
  intros Hk Ht Hw Hv t Hh. pose proof (htlc_sighash native value script ty expiry txid_ n amount wscript Ht Hw) as Eh.
  cbn zeta in Eh. fold t in Eh. rewrite (proj2 (Z.eqb_neq value 0) Hv), <- Hh in Eh.
  assert (vin_cnt (rep t) = 1 ∧ vout_cnt (rep t) = 1) as [Hi Ho] by done.
  unfold ln_script_htlctx_verify. rewrite Hi, Ho. cbn [Z.eqb Pos.eqb negb orb andb].
  rewrite (bool_decide_eq_false_2 (Some _ = None)) by done. rewrite ?andb_false_r. cbn [andb].
  erewrite bind_ret by exact Eh. cbv beta iota. erewrite bind_ret by done. cbn.
  destruct (sign_cycle k h Hk) as (_ & _ & _ & _ & _ & Hver & _). apply Hver.
  apply take_ge. destruct Hk as [_ Hd]. destruct (pub_read _ Hd) as [Hp _]. unfold pub_of. lia.
Qed.
End sign.

(** ** The outputs of a commitment transaction that belong to HTLCs *)

Section outs.
Context {A : Alloc} {T : AllocTotal A} {F : Fresh} {H : BtcHash} {L : BtcHashLaws H} {E : Ecdsa} {EL : EcdsaLaws E}.
Context (f : ln_script_feeinfo_t) (lscript : bytes) (hs : list (ln_script_htlcinfo_t * bytes)) (tid : bytes).

Definition out_info (o : tx_output) : option (ln_script_htlcinfo_t * bytes) :=
  if (out_opt o =? LN_HTLCTYPE_TOLOCAL) || (out_opt o =? LN_HTLCTYPE_TOREMOTE) then None
  else hs !! Z.to_nat (out_opt o).

(** The transaction that spends output [i], and what is signed of it. *)
Definition spend_tx (i : nat) (o : tx_output) (x : ln_script_htlcinfo_t * bytes) : transaction :=
  htlc_tx true (u64 (out_value o - fee_of f x.1)) lscript (type x.1) (expiry x.1) tid (Z.of_nat i).

Definition job (i : nat) (o : tx_output) (x : ln_script_htlcinfo_t * bytes) : bytes :=
  htlc_digest (out_value o) x.2 (spend_tx i o x) (mk_in tid (u32 (Z.of_nat i)) [] [] 0).

Fixpoint jobs (i : nat) (outs : list tx_output) : list (nat * bytes) :=
  match outs with
  | [] => []
  | o :: outs =>
      match out_info o with
      | Some x => (add_htlc_idx x.1, job i o x) :: jobs (S i) outs
      | None => jobs (S i) outs
      end
  end.

(** An output of a balance, or one of an HTLC that leaves something after its fee. *)
Definition fits (o : tx_output) : Prop :=
  out_opt o = LN_HTLCTYPE_TOLOCAL ∨ out_opt o = LN_HTLCTYPE_TOREMOTE ∨
  ∃ x, out_info o = Some x ∧ u64 (dust_limit_satoshi f + fee_of f x.1) ≤ out_value o ∧
       u64 (out_value o - fee_of f x.1) ≠ 0 ∧ 0 < zlen x.2 < 200.

Lemma out_info_opt o x : out_info o = Some x →
  (out_opt o =? LN_HTLCTYPE_TOLOCAL) = false ∧ (out_opt o =? LN_HTLCTYPE_TOREMOTE) = false ∧
  hs !! Z.to_nat (out_opt o) = Some x.
Proof. unfold out_info. destruct (_ =? _), (_ =? _); done. Qed.

Lemma with_script_at o x : out_info o = Some x → (with_script <$> hs) !! Z.to_nat (out_opt o) = Some (with_script x).
Proof. intros Hx. apply out_info_opt in Hx as (_ & _ & Hx). by rewrite list_lookup_fmap, Hx. Qed.

(** *** Signatures side by side *)

Definition put_sigs (n : nat) (l : list bytes) (sg : option bytes) : option bytes :=
  (λ d, take (64 * n) d ++ concat l ++ drop (64 * n + 64 * length l) d) <$> sg.

Lemma put_sigs_nil n sg : put_sigs n [] sg = sg.
Proof. destruct sg as [d|]; [|done]. cbn [put_sigs fmap option_fmap option_map concat app length]. by rewrite Nat.mul_0_r, Nat.add_0_r, take_drop. Qed.

Definition room (n : nat) (sg : option bytes) : Prop := ∀ d, sg = Some d → (64 * n ≤ length d)%nat.

Lemma concat_64 (l : list bytes) : Forall (λ x, length x = 64%nat) l → length (concat l) = (64 * length l)%nat.
Proof. induction 1 as [|x l Hx _ IH]; [done|]. cbn. rewrite length_app. lia. Qed.

Lemma put_sigs_cons n x l sg : length x = 64%nat → room (n + 1) sg →
  put_sigs (S n) l (put_sigs n [x] sg) = put_sigs n (x :: l) sg.
Proof.
  intros Hx Hr. destruct sg as [d|]; [|done]. specialize (Hr d eq_refl).
  cbn [put_sigs fmap option_fmap option_map concat app length]. f_equal. rewrite app_nil_r.
  assert (length (take (64 * n) d ++ x) = (64 * S n)%nat) as Hl by (rewrite length_app, length_take_le by lia; lia).
  rewrite (app_assoc _ x). rewrite take_app_length', drop_app_ge by lia. rewrite Hl, drop_drop, <- !app_assoc. do 4 f_equal. lia.
Qed.

Lemma put_sigs_room n x m sg : length x = 64%nat → room (n + 1) sg → room m sg → room m (put_sigs n [x] sg).
Proof.
  intros Hx Hr Hm d E'. destruct sg as [d0|]; [|done]. specialize (Hr d0 eq_refl). specialize (Hm d0 eq_refl).
  injection E' as <-. cbn [concat length]. rewrite app_nil_r, !length_app, length_drop, length_take_le by lia. lia.
Qed.

(** *** The peer's transaction: every HTLC is signed *)

Context (dbg : bool) (rows : list preimg_row) (Hrows : Forall (λ r, row_preimage r ≠ []) rows).

Lemma search_any {X} h close (s : bst X) :
  ∃ img d, search_preimage dbg rows h close s = Ret img (mk_bst (main s) (pClose s) d) ∧
           ∀ p, img = Some p → p ≠ [].
Proof.
  unfold search_preimage. destruct dbg; [|exists None, (db s); by destruct s].
  assert (∀ l, Forall (λ r, row_preimage r ≠ []) l → ∀ s : bst X, ∃ img d,
    search_rows l h close s = Ret img (mk_bst (main s) (pClose s) d) ∧ ∀ p, img = Some p → p ≠ []) as Hl; [|by apply Hl].
  clear s. induction 1 as [|r l Hr _ IH]; intros s; [exists None, (db s); by destruct s|].
  cbn [search_rows]. destruct (row_valid r).
  - case_bool_decide; [|apply IH].
    destruct (close && negb (row_max_expiry r)).
    + exists (Some (row_preimage r)). eexists. split; [reflexivity|]. by intros p [= <-].
    + exists (Some (row_preimage r)), (db s). split; [by destruct s|]. by intros p [= <-].
  - unfold save_db. rewrite modify_step. destruct (IH (mk_bst (main s) (pClose s) (db s ++ [DB_PREIMG_EXPIRED (row_preimage r)])))
      as (img & d & E' & Hp). by exists img, d.
Qed.

Lemma store_sig_step c sg n d db' k h : good_key k → room (n + 1) sg → d = der_of k h →
  store_sig n d (mk_bst (mk_remote c sg) None db') = Ret tt (mk_bst (mk_remote c (put_sigs n [rs_of k h] sg)) None db').
Proof.
  intros Hk Hr ->. destruct (sign_cycle k h Hk) as (_ & Hl & _ & Htrim & _).
  unfold store_sig. rewrite get_st_step. cbn [main pHtlcSigs pCommit pClose db].
  destruct sg as [d|]; [|done]. specialize (Hr d eq_refl).
  erewrite bind_ret by (apply rd_bytes_sl; lia).
  erewrite on_local_step by (apply Htrim; unfold sl; rewrite length_take, length_drop; lia).
  cbn [put_sigs fmap option_fmap option_map concat length snd]. unfold put_st. by rewrite app_nil_r.
Qed.

Context (Htid : length tid = 32%nat) (Hls : zlen lscript < 2 ^ 16).

Lemma spend_tx_wit i o x lsig pub rsig img : pub ≠ [] → (∀ p, img = Some p → p ≠ []) → 0 < zlen x.2 < 200 →
  ∃ t', ln_script_htlctx_wit true (bufb lsig) pub (Some (bufb rsig)) img (of_bytes x.2) LN_HTLCSIGN_TIMEOUT_SUCCESS
    (rep (spend_tx i o x)) = Ret tt t'.
Proof.
  intros Hp Hi Hx. rewrite of_bytes_bufb by (intros Ee; rewrite Ee in Hx; cbn in Hx; lia).
  unfold ln_script_htlctx_wit. rewrite htlctx_wits_eq by done. eexists.
  apply (set_vin_p2wsh_spec true _ 0 (mk_in tid (u32 (Z.of_nat i)) [] [] 0) _ x.2);
    [done|done|apply last_item_snoc|destruct img; done|lia].
Qed.

Lemma remote_spenthtlc t i o x c sg hk hpub rsig n payhash d :
  t_outs t !! i = Some o → out_info o = Some x → fits o → LnSelf.LnSelf.txid c = tid → good_key hk → hpub ≠ [] → room (n + 1) sg →
  ∃ d', create_to_remote_spenthtlc true dbg rows (rep t) (of_bytes lscript) (with_script x) (hk, hpub) (bufb rsig)
    (fee_of f x.1) n i payhash false (mk_bst (mk_remote c sg) None d) =
  Ret true (mk_bst (mk_remote c (put_sigs n [rs_of hk (job i o x)] sg)) None d').
Proof.
  intros Ho Hx Hf Htx Hk Hpub Hroom.
  assert (u64 (out_value o - fee_of f x.1) ≠ 0 ∧ 0 < zlen x.2 < 200) as [Hv Hlen].
  { destruct (out_info_opt o x Hx) as (H1%Z.eqb_neq & H2%Z.eqb_neq & _).
    destruct Hf as [?|[?|(x' & Hx' & _ & Hf)]]; [done|done|]. rewrite Hx in Hx'. by injection Hx' as <-. }
  destruct x as [info script]. unfold create_to_remote_spenthtlc, with_script. cbn [fst snd] in *.
  rewrite vout_at_rep, Ho. erewrite bind_ret by done. cbn [rep_out value]. rewrite gets_step. cbn [main pCommit].
  rewrite Htx. erewrite sub_step by (by apply htlctx_create_spec). cbv zeta. cbn [snd].
  change (htlc_tx true (u64 (out_value o - fee_of f info)) lscript (type info) (expiry info) tid (Z.of_nat i))
    with (spend_tx i o (info, script)). set (tx := spend_tx i o (info, script)) in *. erewrite bind_ret by done. cbn [pClose].
  rewrite bool_decide_eq_false_2 by (intros [? [=]]).
  assert (∃ img d', (match type info with
    | LN_HTLCTYPE_OFFERED => search_preimage dbg rows payhash false
    | LN_HTLCTYPE_RECEIVED => mret None
    end) (mk_bst (mk_remote c sg) None d) = Ret img (mk_bst (mk_remote c sg) None d') ∧
    (∀ p, img = Some p → p ≠ [])) as (img & d' & Ei & Himg).
  { destruct (type info); [|by exists None, d].
    destruct (search_any payhash false (mk_bst (mk_remote c sg) None d)) as (img & d' & E' & Hp). by exists img, d'. }
  exists d'. erewrite bind_ret by exact Ei.
  erewrite (bind_ret (rep tx, true) _ _ _ (mk_bst (mk_remote c sg) None d')) by (clearbody tx; by destruct (type info), img).
  destruct (spend_tx_wit i o (info, script) (der_of hk (job i o (info, script))) hpub rsig img Hpub Himg Hlen) as [t' Et].
  cbn [snd] in Et. cbv beta iota. erewrite bind_ret; cycle 1.
  { erewrite sub_step.
    2:{ rewrite of_bytes_bufb by (intros Ee; rewrite Ee in Hlen; cbn in Hlen; lia).
        apply (good_sign hk (job i o (info, script)) (out_value o) true (u64 (out_value o - fee_of f info)) lscript
          (type info) (expiry info) tid (Z.of_nat i) script Hk Htid); [lia|exact Hv|reflexivity]. }
    cbn [fst]. destruct (sign_cycle hk (job i o (info, script)) Hk) as (_ & _ & _ & _ & _ & _ & Hl & _).
    erewrite bind_ret.
    2:{ apply lift_ret. unfold buf_bytes. rewrite <- of_bytes_bufb by (intros Ee; rewrite Ee in Hl; cbn in Hl; lia).
        cbn [of_bytes buf len]. by rewrite read_of_bytes. }
    erewrite bind_ret by (by apply (store_sig_step c sg n _ d' hk (job i o (info, script)))).
    by erewrite sub_step by exact Et. }
  cbv beta iota. unfold set_ptx. rewrite bind_assoc. done.
Qed.

(** The slot of every HTLC is there. *)
Definition slots (cnl : list htlc) : Prop := ∀ o x, out_info o = Some x → is_Some (cnl !! add_htlc_idx x.1).

Lemma remote_loop t self hk hpub rsig c outs : slots (cnl_add_htlc self) → LnSelf.LnSelf.txid c = tid → good_key hk →
  hpub ≠ [] → ∀ k n sg d, drop k (t_outs t) = outs → Forall fits outs → room (n + length (jobs k outs)) sg →
  ∃ d', vout_loop (spent_remote_vout true dbg rows self (rep t) (of_bytes lscript) (with_script <$> hs) f (hk, hpub)
      (bufb rsig)) (seq k (length outs)) true n (mk_bst (mk_remote c sg) None d) =
    Ret (true, (n + length (jobs k outs))%nat)
      (mk_bst (mk_remote c (put_sigs n ((λ j, rs_of hk j.2) <$> jobs k outs) sg)) None d').
Proof.
  intros Hslot Htx Hk Hpub. induction outs as [|o outs IH]; intros k n sg d Hd Hf Hroom.
  { exists d. cbn [length seq vout_loop jobs fmap list_fmap]. by rewrite put_sigs_nil, Nat.add_0_r. }
  apply Forall_cons_1 in Hf as [Ho Hf].
  assert (t_outs t !! k = Some o) as Hat by (rewrite <- (Nat.add_0_r k), <- lookup_drop, Hd; done).
  assert (drop (S k) (t_outs t) = outs) as Hd'
    by (rewrite <- Nat.add_1_r, <- drop_drop, Hd; done).
  cbn [length seq vout_loop jobs]. destruct (out_info o) as [x|] eqn:Hx; cycle 1.
  { assert (Hr' : room (n + length (jobs (S k) outs)) sg) by (intros d0 E0; specialize (Hroom d0 E0); cbn [jobs] in Hroom; by rewrite Hx in Hroom).
    destruct (IH (S k) n sg d Hd' Hf Hr') as [d' IH']. exists d'.
    erewrite (bind_ret (Some (true, n)) _ _ _ (mk_bst (mk_remote c sg) None d)); [exact IH'|].
    unfold spent_remote_vout. rewrite vout_at_rep, Hat.
    erewrite bind_ret by done. cbn [rep_out opt]. erewrite bind_ret by done. cbv zeta.
    destruct Ho as [->|[->|(x & Hx' & _)]]; [done|by rewrite bool_decide_eq_false_2 by (intros [? [=]])|].
    by rewrite Hx in Hx'. }
  cbn [jobs] in Hroom. rewrite Hx in Hroom. cbn [length] in Hroom.
  assert (room (n + 1) sg) as Hr1 by (intros d0 E0; specialize (Hroom d0 E0); lia).
  destruct (sign_cycle hk (job k o x) Hk) as (_ & Hrs & _).
  destruct (remote_spenthtlc t k o x c sg hk hpub rsig n (default [] (UpdateAddHtlc.payment_sha256 <$> cnl_add_htlc self !! add_htlc_idx x.1)) d Hat Hx Ho Htx Hk Hpub Hr1) as [d1 E1].
  destruct (IH (S k) (S n) (put_sigs n [rs_of hk (job k o x)] sg) d1 Hd' Hf) as [d' IH'].
  { apply put_sigs_room; [done|done|]. intros d0 E0. specialize (Hroom d0 E0). lia. }
  exists d'. cbn [fmap list_fmap snd length]. rewrite <- put_sigs_cons by done.
  replace (n + S (length (jobs (S k) outs)))%nat with (S n + length (jobs (S k) outs))%nat by lia.
  erewrite (bind_ret (Some (true, S n)) _ _ _ (mk_bst (mk_remote c (put_sigs n [rs_of hk (job k o x)] sg)) None d1));
    [exact IH'|]. destruct (out_info_opt o x Hx) as (H1 & H2 & H3).
  unfold spent_remote_vout. rewrite vout_at_rep, Hat. erewrite bind_ret by done. cbn [rep_out opt].
  erewrite bind_ret by done. cbv zeta. rewrite H1, H2. erewrite opt_step by (by apply with_script_at).
  destruct (Hslot o x Hx) as [h Hh]. cbn [with_script fst]. erewrite opt_step by exact Hh.
  cbn [rep_out value]. assert ((u64 (dust_limit_satoshi f + fee_of f x.1) <=? out_value o) = true) as ->.
  { apply Z.leb_le. destruct Ho as [Ho|[Ho|(x' & Hx' & Ho & _)]].
    - by rewrite Ho in H1. - by rewrite Ho in H2. - rewrite Hx in Hx'. by injection Hx' as <-. }
  rewrite Hh in E1. cbn [fmap option_fmap option_map default] in E1.
  rewrite bool_decide_eq_false_2 by (intros [? [=]]).
  change (x.1, of_bytes x.2) with (with_script x). erewrite bind_ret by exact E1. done.
Qed.

(** The buffer of the signatures, filled. *)
Lemma remote_spent t self hk hpub c sg d : slots (cnl_add_htlc self) → LnSelf.LnSelf.txid c = tid → good_key hk →
  hpub ≠ [] → Forall fits (t_outs t) → room (length (jobs 0 (t_outs t))) sg →
  length (signature (commit_local self)) = 64%nat → is_bytes (signature (commit_local self)) →
  (∀ s : bst remote_st, ln_signer_htlc_remotekey self s = Ret (hk, hpub) s) →
  ∃ d', create_to_remote_spent true dbg rows self (rep t) (of_bytes lscript) (with_script <$> hs) f
      (mk_bst (mk_remote c sg) None d) =
    Ret true (mk_bst (mk_remote (set_htlc_num (zlen (jobs 0 (t_outs t))) c)
      (put_sigs 0 ((λ j, rs_of hk j.2) <$> jobs 0 (t_outs t)) sg)) None d').
Proof.
  intros Hslot Htx Hk Hpub Hf Hroom Hl Hb Hkey.
  set (rs := signature (commit_local self)) in *.
  assert (sigexpand rs (mk_bst (mk_remote c sg) None d) =
    Ret (bufb (der (take 32 rs) (drop 32 rs))) (mk_bst (mk_remote c sg) None d)) as Es.
  { assert (is_bytes (take 32 rs) ∧ is_bytes (drop 32 rs)) as [Hb1 Hb2]
      by (apply Forall_app; by rewrite take_drop).
    unfold sigexpand. erewrite sub_step.
    2:{ rewrite <- (take_drop 32 rs) at 1. apply sigexpand_der; rewrite ?length_take, ?length_drop; done || lia. }
    cbn [snd data]. by rewrite of_bytes_bufb. }
  destruct (remote_loop t self hk hpub (der (take 32 rs) (drop 32 rs)) c (t_outs t) Hslot Htx Hk Hpub 0 0 sg d
    eq_refl Hf Hroom) as [d' El].
  exists d'. unfold create_to_remote_spent. fold rs. erewrite bind_ret by exact Es.
  erewrite bind_ret by apply Hkey. cbn [rep vout_cnt]. rewrite Nat2Z.id. erewrite bind_ret by exact El.
  reflexivity.
Qed.

(** *** Our transaction: every HTLC signature is checked *)

Definition store_sigs (l : list (nat * bytes)) (cnl : list htlc) : list htlc :=
  foldl (λ cnl x, alter (UpdateAddHtlc.set_signature x.2) x.1 cnl) cnl l.

Definition signed (hk : bytes) (l : list (nat * bytes)) : list (nat * bytes) :=
  (λ j, (j.1, rs_of hk j.2)) <$> l.

Lemma sig_in_row (J0 J1 : list bytes) x (s : bst ln_self_t) : Forall (λ x, length x = 64%nat) J0 → length x = 64%nat →
  htlc_sig_at (init_cells (concat (J0 ++ x :: J1))) (length J0) s = Ret x s.
Proof.
  intros H0 Hx. unfold htlc_sig_at. rewrite concat_app. cbn [concat]. rewrite init_cells_app.
  rewrite drop_app_length' by (rewrite length_init_cells, concat_64 by done; lia).
  rewrite read_prefix by (rewrite Hx; done). done.
Qed.

Context (revs : bytes) (delay : Z).

Lemma htlcverify_ok self i o x hk : skey (funding_local self) MSG_SCRIPTIDX_REMOTEHTLCKEY = pub_of hk → good_key hk →
  u64 (out_value o - fee_of f x.1) ≠ 0 → 0 < zlen x.2 < 200 → ∀ s,
  create_to_local_htlcverify self (rep (spend_tx i o x)) (rs_of hk (job i o x)) (of_bytes x.2) (out_value o) s = Ret true s.
Proof.
  intros Hkey Hk Hv Hlen s. unfold create_to_local_htlcverify.
  destruct (sign_cycle hk (job i o x) Hk) as (_ & _ & _ & _ & Hexp & _).
  erewrite bind_ret by apply Hexp. apply lift_ret. rewrite Hkey.
  rewrite of_bytes_bufb by (intros Ee; rewrite Ee in Hlen; cbn in Hlen; lia).
  apply (good_verify hk (job i o x) (out_value o) true (u64 (out_value o - fee_of f x.1)) lscript (type x.1)
    (expiry x.1) tid (Z.of_nat i)); try done. lia.
Qed.

Lemma local_loop t self hk J outs : skey (funding_local self) MSG_SCRIPTIDX_REMOTEHTLCKEY = pub_of hk →
  LnSelf.LnSelf.txid (commit_local self) = tid → good_key hk → J = jobs 0 (t_outs t) →
  ∀ k J0 self' d, drop k (t_outs t) = outs → Forall fits outs → J = J0 ++ jobs k outs →
  vout_loop (spent_local_vout true dbg rows revs self (Some (init_cells (concat ((λ j, rs_of hk j.2) <$> J)))) (zlen J)
      (rep t) (of_bytes lscript) (with_script <$> hs) f delay None) (seq k (length outs)) true (length J0)
    (mk_bst self' None d) =
  Ret (true, length J) (mk_bst (set_cnl_add_htlc (store_sigs (signed hk (jobs k outs)) (cnl_add_htlc self')) self') None d).
Proof.
  intros Hkey Htx Hk HJ. induction outs as [|o outs IH]; intros k J0 self' d Hd Hf HJ0.
  { cbn [length seq vout_loop jobs signed store_sigs fmap list_fmap foldl]. cbn [jobs] in HJ0. rewrite app_nil_r in HJ0.
    subst J0. by destruct self'. }
  apply Forall_cons_1 in Hf as [Ho Hf].
  assert (t_outs t !! k = Some o) as Hat by (rewrite <- (Nat.add_0_r k), <- lookup_drop, Hd; done).
  assert (drop (S k) (t_outs t) = outs) as Hd' by (rewrite <- Nat.add_1_r, <- drop_drop, Hd; done).
  cbn [length seq vout_loop jobs]. cbn [jobs] in HJ0. destruct (out_info o) as [x|] eqn:Hx; cycle 1.
  { erewrite (bind_ret (Some (true, length J0)) _ _ _ (mk_bst self' None d)); [by apply IH|].
    unfold spent_local_vout. rewrite vout_at_rep, Hat. erewrite bind_ret by done. cbn [rep_out opt]. cbv zeta.
    destruct Ho as [->|[->|(x & Hx' & _)]]; [done..|]. by rewrite Hx in Hx'. }
  destruct (out_info_opt o x Hx) as (H1 & H2 & H3).
  assert (u64 (dust_limit_satoshi f + fee_of f x.1) ≤ out_value o ∧
    u64 (out_value o - fee_of f x.1) ≠ 0 ∧ 0 < zlen x.2 < 200) as (Hdust & Hv & Hlen).
  { destruct Ho as [Ho|[Ho|(x' & Hx' & Ho)]]; [by rewrite Ho in H1|by rewrite Ho in H2|].
    rewrite Hx in Hx'. by injection Hx' as <-. }
  set (rs := rs_of hk (job k o x)).
  set (self1 := set_cnl_add_htlc (alter (UpdateAddHtlc.set_signature rs) (add_htlc_idx x.1) (cnl_add_htlc self')) self').
  erewrite (bind_ret (Some (true, S (length J0))) _ _ _ (mk_bst self1 None d)).
  { replace (S (length J0)) with (length (J0 ++ [(add_htlc_idx x.1, job k o x)])) by (rewrite length_app; cbn; lia).
    rewrite IH; [|done|done|by rewrite <- app_assoc]. by destruct self'. }
  unfold spent_local_vout. rewrite vout_at_rep, Hat. erewrite bind_ret by done. cbn [rep_out opt value]. cbv zeta.
  rewrite H1, H2. erewrite opt_step by (by apply with_script_at). cbn [with_script fst snd].
  erewrite bind_ret by (unfold c_assert; by rewrite (proj2 (Z.leb_le _ _))).
  rewrite Htx. erewrite sub_step by (by apply htlctx_create_spec). cbn [snd].
  assert ((zlen J =? 0) = false) as -> by (apply Z.eqb_neq; rewrite HJ0, length_app; cbn [length]; lia).
  change (htlc_tx _ _ _ _ _ _ _) with (spend_tx k o x).
  erewrite bind_ret.
  2:{ rewrite HJ0, fmap_app. cbn [fmap list_fmap snd]. rewrite <- (length_fmap (λ j, rs_of hk j.2) J0).
      destruct (sign_cycle hk (job k o x) Hk) as (_ & Hrs & _). apply sig_in_row; [|done].
      apply Forall_fmap, Forall_true. intros j. by destruct (sign_cycle hk j.2 Hk) as (_ & Hl & _). }
  erewrite bind_ret by (by apply htlcverify_ok). cbv beta iota. done.
Qed.

Lemma local_spent t self hk sigs n self' d : skey (funding_local self) MSG_SCRIPTIDX_REMOTEHTLCKEY = pub_of hk →
  LnSelf.LnSelf.txid (commit_local self) = tid → good_key hk → Forall fits (t_outs t) →
  sigs = concat ((λ j, rs_of hk j.2) <$> jobs 0 (t_outs t)) → n = zlen (jobs 0 (t_outs t)) →
  create_to_local_spent true dbg rows revs self (Some (init_cells sigs)) n (rep t) (of_bytes lscript)
      (with_script <$> hs) f delay (mk_bst self' None d) =
  Ret true (mk_bst (set_commit_local (set_htlc_num n (commit_local self'))
    (set_cnl_add_htlc (store_sigs (signed hk (jobs 0 (t_outs t))) (cnl_add_htlc self')) self')) None d).
Proof.
  intros Hkey Htx Hk Hf -> ->. unfold create_to_local_spent. erewrite bind_ret by done. cbn [pClose].
  rewrite (bool_decide_eq_false_2 (is_Some (@None ln_close_force_t))) by (intros [? [=]]). erewrite bind_ret by done.
  cbn [rep vout_cnt]. rewrite Nat2Z.id.
  erewrite bind_ret by (by apply (local_loop t self hk _ (t_outs t) Hkey Htx Hk eq_refl 0 [])).
  cbv beta iota zeta. rewrite bool_decide_eq_true_2 by (by eexists). rewrite Z.eqb_refl. cbn [andb negb].
  by destruct self'.
Qed.
End outs.
End LnSignTx.
