(* ===== verification/LnAgree.v ===== *)
(** Both sides of a channel build the same commitment transaction: what
    [create_to_remote] signs on one side, [create_to_local] accepts on the other. *)
From stdpp Require Import base list numbers tactics sorting.
From Stdlib Require Import ZArith Lia.
From S2P Require Import Prelude CProg UtlBuf UtlPush LnDerkey LnMisc LnMsg LnMsgNormal LnSig LnHtlc LnSelf BtcTx.
From S2P Require Import BtcTxWire BtcTxRead BtcSw BtcSort BtcDigest BtcBuild LnScript LnSpend LnWitness LnCommitTx.
From S2P Require Import LnBuild LnSignTx.
Import UtlBuf UtlPush Derkey LnMisc LnMsg LnMsgNormal LnSig LnHtlc LnSelf.LnSelf BtcTx BtcTxWire BtcTxRead BtcSw.
Import BtcSort BtcDigest BtcBuild LnScript LnSpend LnWitness LnCommitTx LnBuild LnSignTx.
Open Scope Z_scope.

Module LnAgree.

(** ** Sorted outputs are determined by their values and scripts *)

Lemma out_keys_unique l1 l2 : StronglySorted out_le l1 → StronglySorted out_le l2 →
  out_key <$> l1 ≡ₚ out_key <$> l2 → out_key <$> l1 = out_key <$> l2.
Proof.
  set (R := λ a b : Z * bytes, ¬ lexico b a).
  assert (∀ l, StronglySorted out_le l → StronglySorted R (out_key <$> l)) as Hs.
  { induction 1 as [|o l _ IH Ho]; [constructor|]. cbn. constructor; [done|]. by apply Forall_fmap. }
  intros H1 H2 Hp. apply (StronglySorted_unique_strong R); [|by apply Hs..|done].
  intros x1 x2 _ _ Ha Hb. by destruct (trichotomyT lexico x1 x2) as [[Hl|He]|Hl]; [destruct Hb| |destruct Ha].
Qed.

Section agree.
Context {A : Alloc} {T : AllocTotal A} {F : Fresh} {H : BtcHash} {L : BtcHashLaws H} {E : Ecdsa} {EL : EcdsaLaws E}.

(** ** The 2-of-2 input *)

Definition two_of_two (p1 p2 : bytes) : bytes :=
  [OP_2; 0x21] ++ p1 ++ [0x21] ++ p2 ++ [OP_2; OP_CHECKMULTISIG].

Lemma two_of_two_len p1 p2 : length p1 = 33%nat → length p2 = 33%nat → length (two_of_two p1 p2) = 71%nat.
Proof. intros H1 H2. unfold two_of_two. rewrite !length_app, H1, H2. done. Qed.

Lemma buf_bytes_bufb d : buf_bytes (bufb d) tt = Ret d tt.
Proof.
  unfold buf_bytes, bufb. case_bool_decide; subst; [done|]. cbn [of_bytes buf len]. by rewrite read_of_bytes.
Qed.

(** The bytes of the script that are looked at. *)
Lemma two_of_two_bytes p1 p2 : length p1 = 33%nat → length p2 = 33%nat →
  Forall (λ x : Z * Z, ∀ B (K : Z → prog unit B), (rd_byte (two_of_two p1 p2) x.1 ≫= K) tt = K x.2 tt)
    [(0, OP_2); (1, 0x21); (35, 0x21); (69, OP_2); (70, OP_CHECKMULTISIG)].
Proof.
  intros H1 H2. set (d := two_of_two p1 p2).
  assert (∀ pre rest b, d = pre ++ b :: rest → ∀ B (K : Z → prog unit B), (rd_byte d (zlen pre) ≫= K) tt = K b tt) as Hat.
  { intros pre rest b Ed B K. apply (rd_byte_at d (zlen pre) b rest). split; [lia|]. by exists pre. }
  repeat apply Forall_cons_2; [..|done]; intros B K; cbn [fst snd].
  - by apply (Hat [] ([0x21] ++ p1 ++ [0x21] ++ p2 ++ [OP_2; OP_CHECKMULTISIG])).
  - by apply (Hat [OP_2] (p1 ++ [0x21] ++ p2 ++ [OP_2; OP_CHECKMULTISIG])).
  - replace 35 with (zlen ([OP_2; 0x21] ++ p1)) by (rewrite length_app, H1; done).
    apply (Hat _ (p2 ++ [OP_2; OP_CHECKMULTISIG])). unfold d, two_of_two. by rewrite <- !app_assoc.
  - replace 69 with (zlen ([OP_2; 0x21] ++ p1 ++ [0x21] ++ p2)) by (rewrite !length_app, H1, H2; done).
    apply (Hat _ [OP_CHECKMULTISIG]). unfold d, two_of_two. by rewrite <- !app_assoc.
  - replace 70 with (zlen ([OP_2; 0x21] ++ p1 ++ [0x21] ++ p2 ++ [OP_2])) by (rewrite !length_app, H1, H2; done).
    apply (Hat _ []). unfold d, two_of_two. by rewrite <- !app_assoc.
Qed.

(** What [not_all] wants of a signature. *)
Lemma sig_all s B (K : bool → prog unit B) : 1 < zlen s → s !! Z.to_nat (zlen s - 1) = Some SIGHASH_ALL →
  ((if len (bufb s) =? 0 then mret true
    else d ← buf_bytes (bufb s); b ← of_option (d !! Z.to_nat (len (bufb s) - 1)); mret (negb (b =? SIGHASH_ALL))) ≫= K) tt =
  K false tt.
Proof.
  intros Hl Hs. rewrite bufb_len, (proj2 (Z.eqb_neq _ _)) by lia.
  erewrite bind_ret; [done|]. erewrite bind_ret by apply buf_bytes_bufb. by rewrite Hs.
Qed.

Lemma verify_2of2_spec t i s1 s2 h p1 p2 b1 b2 : t_ins t = [i] → in_wit i = [[]; s1; s2; two_of_two p1 p2] →
  length p1 = 33%nat → length p2 = 33%nat →
  (∀ s p b, (s, p, b) ∈ [(s1, p1, b1); (s2, p2, b2)] → 1 < zlen s ∧ s !! Z.to_nat (zlen s - 1) = Some SIGHASH_ALL ∧
     ∀ pub, take 33 pub = p → btc_tx_verify (bufb s) h pub tt = Ret b tt) →
  btc_sw_verify_2of2 (rep t) 0 h (bufb (p2wsh_program (two_of_two p1 p2))) tt = Ret (b1 && b2) tt.
Proof.
  intros Ht Hw Hl1 Hl2 Hs. set (d := two_of_two p1 p2) in *.
  destruct i as [prev n sig wit sq]. cbn [in_wit] in Hw. subst wit.
  destruct (Hs s1 p1 b1) as (Hn1 & Hz1 & Hv1); [by left|]. destruct (Hs s2 p2 b2) as (Hn2 & Hz2 & Hv2); [by right; left|].
  pose proof (two_of_two_len p1 p2 Hl1 Hl2) as Hd. fold d in Hd.
  pose proof (two_of_two_bytes p1 p2 Hl1 Hl2) as Hb. fold d in Hb. rewrite !Forall_cons in Hb.
  destruct Hb as (B0 & B1 & B35 & B69 & B70 & _). cbn [fst snd] in *.
  unfold btc_sw_verify_2of2, call. cbn [rep vin].
  pose proof (arr_at rep_in (t_ins t) 0) as Ev. change (Z.of_nat 0) with 0 in Ev. rewrite Ev, Ht.
  match goal with |- run ?m tt = _ => assert (m tt = Ret (b1 && b2) tt) as Em; [|unfold run; by rewrite Em] end.
  erewrite opt_step by reflexivity. cbn [rep_in wit_cnt in_wit length].
  erewrite bind_ret by done. erewrite bind_ret by done. erewrite bind_ret by done. cbv zeta.
  erewrite bind_ret by done. rewrite sig_all by done. erewrite bind_ret by done.
  erewrite bind_ret by done. rewrite sig_all by done. erewrite bind_ret by done.
  erewrite bind_ret by done. rewrite bufb_len, Hd. erewrite bind_ret by done.
  erewrite bind_ret by apply buf_bytes_bufb.
  do 5 (erewrite bind_ret by (rewrite ?B0, ?B1, ?B35, ?B69, ?B70; reflexivity)).
  erewrite bind_ret by done. cbv zeta.
  assert (bufb (p2wsh_program d) = of_bytes ([0; 32] ++ mbedtls_sha256 d)) as -> by (by rewrite <- of_bytes_bufb).
  cbn [of_bytes buf default].
  erewrite opt_step by (apply (read_prefix [0] ([32] ++ mbedtls_sha256 d)); done).
  erewrite bind_ret by done.
  erewrite opt_step by (apply (read_prefix [0; 32] (mbedtls_sha256 d)); done).
  erewrite bind_ret by done.
  erewrite bind_ret by (rewrite <- Hd; apply sha256_all; lia).
  erewrite opt_step.
  2:{ pose proof (memcmp_spec (mbedtls_sha256 d) (mbedtls_sha256 d)) as Hm. rewrite sha256_len, bool_decide_eq_true_2 in Hm by (by left).
      exact Hm. }
  erewrite bind_ret by done. erewrite bind_ret.
  2:{ apply Hv1. unfold d, two_of_two. change (drop 2 _) with (p1 ++ [0x21] ++ p2 ++ [OP_2; OP_CHECKMULTISIG]).
      by apply take_app_length'. }
  destruct b1; [|done]. apply Hv2. assert (drop 36 d = p2 ++ [OP_2; OP_CHECKMULTISIG]) as ->; [|by apply take_app_length'].
  unfold d, two_of_two. rewrite !app_assoc, <- (app_assoc _ p2). apply drop_app_length'. rewrite !length_app, Hl1. done.
Qed.

(** ** Signatures of 64 bytes *)

Definition is_sig (s : bytes) : Prop := length s = 64%nat ∧ is_bytes s.

Lemma rs_is_sig k h : good_key k → is_sig (rs_of k h).
Proof. intros Hk. by destruct (sign_cycle k h Hk) as (_ & Hl & Hb & _). Qed.

(** Any 64 bytes are sent in DER; what the check says of it. *)
Definition der_sig (sg : bytes) : bytes := der (take 32 sg) (drop 32 sg).

Lemma any_sig sg : is_sig sg →
  (∀ S (s : S), sigexpand sg s = Ret (bufb (der_sig sg)) s) ∧ 1 < zlen (der_sig sg) < 80 ∧
  der_sig sg !! Z.to_nat (zlen (der_sig sg) - 1) = Some SIGHASH_ALL ∧
  ∀ k h pub, good_key k → take 33 pub = pub_of k →
    btc_tx_verify (bufb (der_sig sg)) h pub tt =
    Ret (mbedtls_ecdsa_verify (smul (be_val k) gen) h (be_val (take 32 sg)) (be_val (drop 32 sg))) tt.
Proof.
  intros [Hl Hb]. unfold der_sig. set (r := take 32 sg). set (s := drop 32 sg).
  assert (is_bytes r ∧ is_bytes s ∧ length r = 32%nat ∧ length s = 32%nat) as (Hr & Hs & Hlr & Hls).
  { unfold r, s. rewrite length_take, length_drop. split_and!; [by apply Forall_take|by apply Forall_drop|lia|lia]. }
  assert (∀ x, is_bytes x → length x = 32%nat → 0 ≤ be_val x < 2 ^ 256 ∧ be_bytes 32 (be_val x) = x) as Hx.
  { intros x Hx Hlx. split; [|by rewrite <- Hlx, be_bytes_be_val].
    pose proof (be_val_range x Hx) as Hv. rewrite Hlx in Hv. exact Hv. }
  destruct (Hx r Hr Hlr) as [Hrv Er]. destruct (Hx s Hs Hls) as [Hsv Es].
  assert (1 < zlen (der r s) < 80) as Hlen.
  { rewrite length_der. pose proof (length_der_int r Hr Hlr). pose proof (length_der_int s Hs Hls). lia. }
  assert (of_bytes (der r s) = bufb (der r s)) as Eb
    by (apply of_bytes_bufb; intros Ee; rewrite Ee in Hlen; cbn in Hlen; lia).
  split_and!; try apply Hlen.
  - intros S0 s0. rewrite <- (take_drop 32 sg). fold r s. unfold sigexpand.
    erewrite sub_step by (by apply sigexpand_der). cbn [snd data]. by rewrite Eb.
  - pose proof (asn1_der (be_val r) (be_val s) Hrv Hsv) as Ea. rewrite Er, Es in Ea. rewrite <- Ea.
    apply list_lookup_middle. rewrite length_app. cbn [length]. lia.
  - intros k h pub [_ Hk] Hp. destruct (pub_read _ Hk) as [Hpub Hread].
    rewrite <- Eb, <- (take_drop 33 pub), Hp, verify_prefix by done. rewrite <- Er at 1. rewrite <- Es at 1.
    by apply verify_der_eq.
Qed.

(** Is a signature one of the owner of [kr]? *)
Definition accepted (kr h sg : bytes) : bool :=
  mbedtls_ecdsa_verify (smul (be_val kr) gen) h (be_val (take 32 sg)) (be_val (drop 32 sg)).

Lemma accepted_own k h : good_key k → accepted k h (rs_of k h) = true.
Proof.
  intros [Hl Hd]. destruct (sign_rs_spec k h Hl Hd) as (r & s & Ers & Hr & Hs & _ & Hv). pose proof order_pos as [_ Ho].
  assert (∀ x, 1 ≤ x < order → be_val (be_bytes 32 x) = x) as Hx.
  { intros x Hx. rewrite be_val_be_bytes, wrap_small; [done|]. unfold in_range. change (8 * Z.of_nat 32) with 256. lia. }
  unfold accepted, rs_of. rewrite Ers. cbv beta iota.
  rewrite take_app_length', drop_app_length' by (symmetry; apply length_be_bytes).
  rewrite !Hx by lia. exact Hv.
Qed.

(** Both signatures in the order of the keys. *)
Definition sigs_2of2 (sorted : bool) (sl sr d : bytes) : list bytes :=
  if sorted then [[]; sl; sr; d] else [[]; sr; sl; d].

Lemma verify_pair (t : transaction) (i : tx_input) (kl kr p1 p2 : bytes) (sorted : bool) (h sg : bytes) : t_ins t = [i] → good_key kl → good_key kr → is_sig sg →
  (p1, p2) = (if sorted then (pub_of kl, pub_of kr) else (pub_of kr, pub_of kl)) →
  in_wit i = sigs_2of2 sorted (der_of kl h) (der_sig sg) (two_of_two p1 p2) →
  btc_sw_verify_2of2 (rep t) 0 h (bufb (p2wsh_program (two_of_two p1 p2))) tt = Ret (accepted kr h sg) tt.
Proof.
  intros Ht Hk Hkr Hsg Hp Hw. destruct (sign_cycle kl h Hk) as (_ & _ & _ & _ & _ & Hv & Hn & Hz).
  destruct (any_sig sg Hsg) as (_ & Hn' & Hz' & Hv').
  assert (∀ k, good_key k → length (pub_of k) = 33%nat) as Hpub by (intros k [_ Hd]; by apply pub_read).
  assert (∀ s p b, (s, p, b) = (der_of kl h, pub_of kl, true) ∨ (s, p, b) = (der_sig sg, pub_of kr, accepted kr h sg) →
    1 < zlen s ∧ s !! Z.to_nat (zlen s - 1) = Some SIGHASH_ALL ∧
    ∀ pub, take 33 pub = p → btc_tx_verify (bufb s) h pub tt = Ret b tt) as Hs.
  { intros s p b [[= -> -> ->]|[= -> -> ->]]; (split; [lia|split; [done|]]); [done|]. intros pub Hpb. by apply Hv'. }
  destruct sorted; injection Hp as -> ->.
  - apply (verify_2of2_spec _ i (der_of kl h) (der_sig sg) h (pub_of kl) (pub_of kr) true (accepted kr h sg)); auto.
    intros s p b Hi. apply Hs. rewrite !elem_of_cons in Hi. destruct Hi as [Hi|[Hi|Hi%not_elem_of_nil]]; [by left|by right|done].
  - rewrite <- (andb_true_r (accepted kr h sg)).
    apply (verify_2of2_spec _ i (der_sig sg) (der_of kl h) h (pub_of kr) (pub_of kl) (accepted kr h sg) true); auto.
    intros s p b Hi. apply Hs. rewrite !elem_of_cons in Hi. destruct Hi as [Hi|[Hi|Hi%not_elem_of_nil]]; [by right|by left|done].
Qed.

(** What our side does with the transaction: it puts both signatures in and checks them. *)
Definition signed_tx (w : list bytes) (i : tx_input) (t : transaction) : transaction :=
  mk_trans (t_version t) [put_wit (in_sig i) w i] (t_outs t) (t_lock t).

Lemma sign_verify_spec fd self t i kl kr p1 p2 :
  let d := two_of_two p1 p2 in
  let h := sha256d (bip143 out_wire t i (var_bytes d) (funding_sat fd)) in
  let sg := signature (commit_local self) in
  t_ins t = [i] → tx_ok t → valid t = true → Forall (λ o, zlen (out_spk o) < 0xfd) (t_outs t) →
  zlen (concat (short_out <$> t_outs t)) < 2 ^ 16 → good_key kl → good_key kr →
  (p1, p2) = (if key_fund_sort fd then (pub_of kl, pub_of kr) else (pub_of kr, pub_of kl)) →
  redeem_fund fd = bufb d → f_spk fd = bufb (p2wsh_program d) → is_sig sg →
  ∃ w, run (create_to_local_sign_verify true fd self (bufb (der_of kl h))) (rep t) = Ret (accepted kr h sg) (rep (signed_tx w i t)) ∧
       tx_ok (signed_tx w i t).
Proof.
  intros d h sg Ht Hok Hval Hshort Hsize Hkl Hkr Hp Hred Hspk Hsig.
  destruct (sign_cycle kl h Hkl) as (_ & _ & _ & _ & _ & _ & Hnl & _). destruct (any_sig sg Hsig) as (Hexp & Hnr & _).
  assert (length p1 = 33%nat ∧ length p2 = 33%nat) as [Hp1 Hp2].
  { assert (∀ k, good_key k → length (pub_of k) = 33%nat) as Hpub by (intros k [_ Hd]; by apply pub_read).
    destruct (key_fund_sort fd); injection Hp as -> ->; split; by apply Hpub. }
  pose proof (two_of_two_len p1 p2 Hp1 Hp2) as Hd. fold d in Hd.
  set (w := sigs_2of2 (key_fund_sort fd) (der_of kl h) (der_sig sg) d).
  assert (tx_ok (signed_tx w i t)) as Hok'.
  { destruct Hok as [Hi Ho Hni Hno]. rewrite Ht in Hi. apply Forall_cons_1 in Hi as [[Hpr Hsg _ _] _].
    split; [|done..]. constructor; [|done]. split; [done|done|..]; unfold w, sigs_2of2, small; destruct (key_fund_sort fd); try done;
      cbn [put_wit in_wit]; repeat (constructor; [cbn [length]; lia|]); constructor. }
  exists w. split; [|done]. unfold create_to_local_sign_verify. fold sg.
  assert (∀ b (m : prog btc_tx_t bool), m (rep t) = Ret b (rep (signed_tx w i t)) → run m (rep t) = Ret b (rep (signed_tx w i t)))
    as Hrun by (intros b m Em; unfold run; by rewrite Em).
  apply Hrun. erewrite bind_ret by apply Hexp.
  erewrite (bind_ret tt _ _ _ (rep (signed_tx w i t))).
  2:{ unfold set_vin_p2wsh_2of2. rewrite Hred.
      replace (if key_fund_sort fd then _ else _) with (bufb <$> w) by (unfold w, sigs_2of2; by destruct (key_fund_sort fd)).
      rewrite (set_vin_p2wsh_spec true t 0 i w d); [|by rewrite Ht|done|unfold w, sigs_2of2; by destruct (key_fund_sort fd)|unfold w, sigs_2of2; by destruct (key_fund_sort fd)|lia].
      unfold put_in, signed_tx. rewrite Ht. cbn [list_insert]. done. }
  rewrite get_st_step, Hred.
  erewrite bind_ret by (apply scriptcode_p2wsh_spec; unfold small; lia).
  erewrite bind_ret.
  2:{ apply lift_ret. apply (sighash_spec (signed_tx w i t) 0 (put_wit (in_sig i) w i)); [done|done|done|done|].
      rewrite var_bytes_len by (unfold small; lia). rewrite bufb_len, Hd. done. }
  assert (valid (signed_tx w i t) = true) as ->.
  { unfold valid in *. rewrite Ht in Hval. exact Hval. }
  rewrite bip143_short by done.
  assert (sha256d (bip143 out_wire (signed_tx w i t) (put_wit (in_sig i) w i) (var_bytes d) (funding_sat fd)) = h) as ->.
  { unfold h, bip143. rewrite Ht. done. }
  rewrite Hspk. apply lift_ret. by apply (verify_pair (signed_tx w i t) (put_wit (in_sig i) w i) kl kr p1 p2 (key_fund_sort fd)).
Qed.

(** ** The outputs of one side *)

(** The script of an HTLC, in the keys of [x]. *)
Definition sc (x : funding_data) (h : ln_script_htlcinfo_t) : bytes :=
  htlc_script (type h) (skey x MSG_SCRIPTIDX_LOCALHTLCKEY) (skey x MSG_SCRIPTIDX_REVOCATION)
    (skey x MSG_SCRIPTIDX_REMOTEHTLCKEY) (preimage_hash h) (expiry h).

Definition hs_of (x : funding_data) (infos : list ln_script_htlcinfo_t) : list (ln_script_htlcinfo_t * bytes) :=
  (λ h, (h, sc x h)) <$> infos.

(** The keys the scripts are made of are there. *)
Definition has_keys (x : funding_data) : Prop :=
  Forall (λ i, length (skey x i) = 33%nat)
    [MSG_SCRIPTIDX_LOCALHTLCKEY; MSG_SCRIPTIDX_REVOCATION; MSG_SCRIPTIDX_REMOTEHTLCKEY;
     MSG_SCRIPTIDX_DELAYED; MSG_SCRIPTIDX_REMOTEKEY].

Definition info_ok (h : ln_script_htlcinfo_t) : Prop :=
  length (preimage_hash h) = 32%nat ∧ 0 ≤ expiry h ≤ 0x7fffffffff ∧ 0 ≤ info_amount_msat h < 2 ^ 62.

Lemma htlcinfo_script_ok {S} x h (s : S) : has_keys x → info_ok h →
  htlcinfo_script x h s = Ret (with_script (h, sc x h)) s.
Proof.
  unfold has_keys. rewrite !Forall_cons. intros (H1 & H2 & H3 & _) (Hh & He & _).
  unfold htlcinfo_script. by erewrite bind_ret by (by apply htlcinfo_script_spec).
Qed.

Lemma with_scripts_ok {S} x infos (s : S) : has_keys x → Forall info_ok infos →
  with_scripts x infos s = Ret (with_script <$> hs_of x infos) s.
Proof.
  intros Hx. induction 1 as [|h l Hh _ IH]; [done|]. unfold with_scripts in *. cbn [each].
  erewrite bind_ret by (by apply htlcinfo_script_ok). by erewrite bind_ret by exact IH.
Qed.

Lemma sc_len x h : has_keys x → info_ok h → 0 < zlen (sc x h) < 200.
Proof.
  unfold has_keys. rewrite !Forall_cons. intros (H1 & H2 & H3 & _) (Hh & He & _). by apply htlc_script_len.
Qed.

(** With the database written on the way. *)
Lemma save_phashes x infos c sg d : has_keys x → Forall info_ok infos →
  ∃ d', each (λ info, x ← htlcinfo_script x info; save_phash x;; mret x) infos (mk_bst (mk_remote c sg) None d) =
    Ret (with_script <$> hs_of x infos) (mk_bst (mk_remote c sg) None d').
Proof.
  intros Hx Hi. revert d. induction Hi as [|h l Hh _ IH]; intros d; [by exists d|].
  cbn [each]. pose proof (sc_len x h Hx Hh) as Hl.
  destruct (IH (d ++ [DB_PHASH_SAVE (preimage_hash h) (p2wsh_program (sc x h)) (type h) (expiry h)])) as [d' E'].
  exists d'. erewrite bind_ret; cycle 1.
  { erewrite bind_ret by (by apply htlcinfo_script_ok). unfold save_phash. cbn [with_script fst snd].
    rewrite bind_assoc. erewrite bind_ret by (apply lift_ret, wit2prog_spec; lia). reflexivity. }
  by erewrite bind_ret by exact E'.
Qed.

(** What the fees are. *)
Definition fees (rate dust : Z) (infos : list ln_script_htlcinfo_t) : ln_script_feeinfo_t :=
  (ln_script_fee_calc (mk_fee rate dust 0 0 0) infos).1.

Definition fee_range (rate dust : Z) (infos : list ln_script_htlcinfo_t) : Prop :=
  0 ≤ rate < 2 ^ 32 ∧ 0 < dust < 2 ^ 32 ∧ Forall info_ok infos ∧ (length infos ≤ 200)%nat.

Lemma fees_ok rate dust infos : fee_range rate dust infos → let f := fees rate dust infos in
  feerate_per_kw f = rate ∧ dust_limit_satoshi f = dust ∧ htlc_success f = 703 * rate / 1000 ∧
  htlc_timeout f = 663 * rate / 1000 ∧ commit f = (724 + 172 * n_kept f infos) * rate / 1000 ∧ 0 ≤ commit f < 2 ^ 62.
Proof.
  intros (Hr & Hd & Hi & Hn). cbn zeta.
  assert (Forall (λ h, 0 ≤ htlc_sat h < 2 ^ 53) infos) as Hs.
  { eapply Forall_impl; [exact Hi|]. intros h (_ & _ & Ha). unfold htlc_sat, LN_MSAT2SATOSHI.
    Z.to_euclidean_division_equations. lia. }
  assert (total (htlc_sat <$> infos) ≤ 2 ^ 53 * zlen infos) as Ht.
  { clear Hi Hn. induction Hs as [|h l Hh _ IH]; [done|]. unfold total in *. cbn [fmap list_fmap foldr length]. lia. }
  destruct (fee_calc_spec (mk_fee rate dust 0 0 0) infos) as (H1 & H2 & H3 & H4 & _ & H5 & _); cbn [LnScript.feerate_per_kw]; try lia.
  { eapply Forall_impl; [exact Hs|]. intros h Hh. cbn in Hh. lia. }
  unfold fees. split_and!; try done; try apply H5. unfold ln_script_fee_calc. by destruct (foldl _ _ _).
Qed.

(** What an HTLC is apart from its place in the channel. *)
Definition blind (h : ln_script_htlcinfo_t) : ln_script_htlcinfo_t :=
  mk_htlcinfo (type h) 0 (expiry h) (info_amount_msat h) (preimage_hash h).

Lemma n_kept_blind f infos : n_kept f (blind <$> infos) = n_kept f infos.
Proof. unfold n_kept, total. induction infos as [|h l IH]; [done|]. cbn [fmap list_fmap foldr]. by rewrite IH. Qed.

Lemma n_kept_perm f l1 l2 : l1 ≡ₚ l2 → n_kept f l1 = n_kept f l2.
Proof. intros Hp. unfold n_kept. apply total_perm. by rewrite Hp. Qed.

Lemma fees_perm rate dust l1 l2 : fee_range rate dust l1 → fee_range rate dust l2 →
  blind <$> l1 ≡ₚ blind <$> l2 → fees rate dust l1 = fees rate dust l2.
Proof.
  intros H1 H2 Hp. destruct (fees_ok _ _ _ H1) as (E1 & E2 & E3 & E4 & E5 & _).
  destruct (fees_ok _ _ _ H2) as (F1 & F2 & F3 & F4 & F5 & _).
  destruct (fees rate dust l1) as [a1 b1 c1 d1 e1], (fees rate dust l2) as [a2 b2 c2 d2 e2].
  cbn [LnScript.feerate_per_kw dust_limit_satoshi htlc_success htlc_timeout commit] in *. subst. f_equal.
  rewrite E5, F5. do 4 f_equal. rewrite <- (n_kept_blind _ l1), (n_kept_perm _ _ _ Hp), n_kept_blind. done.
Qed.

Section lists.
Context (x : funding_data) (fd : ln_fund_t) (rate dust num our their delay : Z) (Local : bool).

Definition lscript : bytes := tolocal_script (skey x MSG_SCRIPTIDX_REVOCATION) (skey x MSG_SCRIPTIDX_DELAYED) delay.

Definition cmt (infos : list ln_script_htlcinfo_t) : ln_script_committx_t :=
  lntx_commit fd x num our their (of_bytes lscript) (fees rate dust infos) (with_script <$> hs_of x infos).

Definition all_outs (infos : list ln_script_htlcinfo_t) : list tx_output :=
  cmt_outs true (cmt infos) lscript (hs_of x infos) Local.

(** The key of the output of an HTLC does not depend on its place. *)
Definition htlc_key (f : ln_script_feeinfo_t) (h : ln_script_htlcinfo_t) : option (Z * bytes) :=
  if kept f h then Some (htlc_sat h, spk_p2wsh true (sc x h)) else None.

Lemma htlc_keys f infos : ∀ k,
  out_key <$> concat (imap (λ i, htlc_out true f (k + i)) (hs_of x infos)) = omap (htlc_key f) infos.
Proof.
  induction infos as [|h l IH]; intros k; [done|]. cbn [hs_of fmap list_fmap imap concat omap list_omap].
  rewrite fmap_app. specialize (IH (S k)). unfold htlc_out at 1, htlc_key at 1. cbn [fst snd].
  fold (hs_of x l).
  assert (imap ((λ i, htlc_out true f (k + i)) ∘ S) (hs_of x l) = imap (λ i, htlc_out true f (S k + i)) (hs_of x l)) as ->.
  { apply imap_ext. intros i y _. unfold compose. f_equal. lia. }
  rewrite IH. by destruct (kept f h).
Qed.

Definition balance_key (f : ln_script_feeinfo_t) (sat fee : Z) (spk : bytes) : list (Z * bytes) :=
  out_key <$> balance_out f sat fee spk 0.

Lemma balance_keys f sat fee spk o : out_key <$> balance_out f sat fee spk o = balance_key f sat fee spk.
Proof. unfold balance_key, balance_out. by destruct (_ <=? _). Qed.

Lemma all_keys infos : let f := fees rate dust infos in
  out_key <$> all_outs infos =
  balance_key f (LN_MSAT2SATOSHI their) (if Local then 0 else commit f) (spk_p2wpkh true (skey x MSG_SCRIPTIDX_REMOTEKEY)) ++
  balance_key f (LN_MSAT2SATOSHI our) (if Local then commit f else 0) (spk_p2wsh true lscript) ++
  omap (htlc_key f) infos.
Proof.
  cbn zeta. unfold all_outs, cmt_outs. rewrite !fmap_app, !balance_keys.
  pose proof (htlc_keys (fees rate dust infos) infos 0) as E'. cbn [Nat.add] in E'.
  rewrite <- E'. done.
Qed.

(** Which outputs there are. *)
Lemma outs_in infos o : (length infos ≤ 200)%nat → o ∈ all_outs infos → let f := fees rate dust infos in
  o ∈ balance_out f (LN_MSAT2SATOSHI their) (if Local then 0 else commit f)
        (spk_p2wpkh true (skey x MSG_SCRIPTIDX_REMOTEKEY)) LN_HTLCTYPE_TOREMOTE ∨
  o ∈ balance_out f (LN_MSAT2SATOSHI our) (if Local then commit f else 0) (spk_p2wsh true lscript) LN_HTLCTYPE_TOLOCAL ∨
  ∃ h, h ∈ infos ∧ out_info (hs_of x infos) o = Some (h, sc x h) ∧ kept f h = true ∧
       out_value o = htlc_sat h ∧ out_spk o = spk_p2wsh true (sc x h).
Proof.
  intros Hn Ho. cbn zeta. unfold all_outs, cmt_outs in Ho. rewrite !elem_of_app in Ho.
  destruct Ho as [Ho|[Ho|Ho]]; [by left|by right; left|right; right].
  apply list_elem_of_In, in_concat in Ho as (l & Hl & Ho).
  apply list_elem_of_In, list_elem_of_lookup in Hl as [i Hi]. rewrite list_lookup_imap in Hi.
  destruct (hs_of x infos !! i) as [y|] eqn:Hy; [|done]. injection Hi as <-.
  unfold hs_of in Hy. rewrite list_lookup_fmap in Hy.
  destruct (infos !! i) as [h|] eqn:Hh; [|done]. injection Hy as <-.
  apply list_elem_of_In in Ho. unfold htlc_out in Ho. cbn [fst snd cmt lntx_commit p_feeinfo] in Ho.
  destruct (kept (fees rate dust infos) h) eqn:Hk; [|by apply not_elem_of_nil in Ho].
  apply list_elem_of_singleton in Ho as ->. exists h. cbn [out_opt out_value out_spk].
  apply lookup_lt_Some in Hh as Hlt. split_and!; try done; [by eapply list_elem_of_lookup_2|].
  unfold out_info. cbn [out_opt]. rewrite (wrap_small 8) by (unfold in_range; lia).
  rewrite !(proj2 (Z.eqb_neq _ _)) by lia. rewrite Nat2Z.id. unfold hs_of. by rewrite list_lookup_fmap, Hh.
Qed.

Lemma balance_in f sat fee spk o y : y ∈ balance_out f sat fee spk o → out_opt y = o ∧ out_spk y = spk.
Proof.
  unfold balance_out. case_match; [|by intros Hy%not_elem_of_nil]. by intros ->%list_elem_of_singleton.
Qed.

Lemma out_kinds infos o : (length infos ≤ 200)%nat → o ∈ all_outs infos →
  (out_opt o = LN_HTLCTYPE_TOREMOTE ∧ out_spk o = spk_p2wpkh true (skey x MSG_SCRIPTIDX_REMOTEKEY)) ∨
  (out_opt o = LN_HTLCTYPE_TOLOCAL ∧ out_spk o = spk_p2wsh true lscript) ∨
  ∃ h, h ∈ infos ∧ out_info (hs_of x infos) o = Some (h, sc x h) ∧ kept (fees rate dust infos) h = true ∧
       out_value o = htlc_sat h ∧ out_spk o = spk_p2wsh true (sc x h).
Proof.
  intros Hn Ho. destruct (outs_in infos o Hn Ho) as [Hb%balance_in|[Hb%balance_in|Hh]]; auto.
Qed.

Lemma kept_range infos h : fee_range rate dust infos → h ∈ infos → let f := fees rate dust infos in
  kept f h = true → u64 (dust_limit_satoshi f + fee_of f h) ≤ htlc_sat h ∧
  0 < htlc_sat h - fee_of f h ∧ 0 < htlc_sat h ∧ u64 (htlc_sat h - fee_of f h) ≠ 0.
Proof.
  intros Hr Hin f Hk. pose proof (fees_ok _ _ _ Hr) as (_ & Ed & Es & Et & _). destruct Hr as (Hrate & Hdust & Hi & _).
  rewrite Forall_forall in Hi. destruct (Hi h Hin) as (_ & _ & Ha). fold f in Ed, Es, Et. apply Z.leb_le in Hk.
  fold (htlc_sat h) in Hk. change (match type h with LN_HTLCTYPE_OFFERED => htlc_timeout f
    | LN_HTLCTYPE_RECEIVED => htlc_success f end) with (fee_of f h) in Hk.
  assert (0 ≤ htlc_sat h < 2 ^ 63) as Hs by (unfold htlc_sat, LN_MSAT2SATOSHI; Z.to_euclidean_division_equations; lia).
  assert (0 ≤ fee_of f h < 2 ^ 62) as Hf
    by (unfold fee_of; destruct (type h); rewrite ?Es, ?Et; Z.to_euclidean_division_equations; lia).
  split; [exact Hk|]. rewrite Ed, wrap_small in Hk by (unfold in_range; lia).
  rewrite wrap_small by (unfold in_range; lia). lia.
Qed.

Lemma outs_fit infos outs : has_keys x → fee_range rate dust infos → outs ≡ₚ all_outs infos →
  Forall (fits (fees rate dust infos) (hs_of x infos)) outs.
Proof.
  intros Hx Hr Hp. apply Forall_forall. intros o Ho. rewrite Hp in Ho.
  destruct (out_kinds infos o ltac:(apply Hr) Ho) as [[H1 _]|[[H1 _]|(h & Hin & Hinfo & Hk & Hv & _)]];
    [by right; left|by left|]. right. right. exists (h, sc x h).
  destruct (kept_range infos h Hr Hin Hk) as (H1 & _ & _ & H2). rewrite Hv. split_and!; try done;
    apply (sc_len x h Hx); destruct Hr as (_ & _ & Hi & _); rewrite Forall_forall in Hi; by apply Hi.
Qed.

Lemma balance_positive f sat fee spk o y : 0 < dust_limit_satoshi f < 2 ^ 32 → 0 ≤ fee < 2 ^ 62 → 0 ≤ sat < 2 ^ 62 →
  y ∈ balance_out f sat fee spk o → 0 < out_value y.
Proof.
  intros Hd Hf Hs Hy. unfold balance_out in Hy. rewrite wrap_small in Hy by (unfold in_range; lia).
  destruct (Z.leb_spec (dust_limit_satoshi f + fee) sat); [|by apply not_elem_of_nil in Hy].
  apply list_elem_of_singleton in Hy as ->. cbn [out_value]. rewrite wrap_small by (unfold in_range; lia). lia.
Qed.

Lemma outs_valid infos outs : has_keys x → fee_range rate dust infos → 0 ≤ our < 2 ^ 62 → 0 ≤ their < 2 ^ 62 →
  outs ≡ₚ all_outs infos → outs ≠ [] → valid (cmt_tx (cmt infos) outs) = true.
Proof.
  intros Hx Hr Ho Ht Hp Hne. pose proof (fees_ok _ _ _ Hr) as (_ & Ed & _ & _ & _ & Hc).
  assert (0 ≤ LN_MSAT2SATOSHI our < 2 ^ 62 ∧ 0 ≤ LN_MSAT2SATOSHI their < 2 ^ 62) as [Hos Hts]
    by (unfold LN_MSAT2SATOSHI; Z.to_euclidean_division_equations; lia).
  unfold valid. cbn [cmt_tx t_version t_ins t_outs]. rewrite bool_decide_eq_false_2 by done.
  rewrite bool_decide_eq_false_2 by done. cbn [negb Z.eqb andb].
  apply forallb_forall. intros o Hin%list_elem_of_In. pose proof Hin as Hall. rewrite Hp in Hall.
  assert (∃ op d, out_spk o = op :: d) as (op & d & Eop).
  { destruct (out_kinds infos o ltac:(apply Hr) Hall) as [[_ ->]|[[_ ->]|(h & _ & _ & _ & _ & ->)]]; by do 2 eexists. }
  assert (0 < out_value o) as Hpos; [|unfold valid_out; rewrite Eop, (proj2 (Z.eqb_neq (out_value o) 0)) by lia; done].
  assert (0 < dust_limit_satoshi (fees rate dust infos) < 2 ^ 32) as Hdust by (rewrite Ed; apply Hr).
  destruct (outs_in infos o ltac:(apply Hr) Hall) as [Hb|[Hb|(h & Hh & _ & Hk & -> & _)]].
  1-2: by eapply balance_positive; [exact Hdust| | |exact Hb]; try destruct Local.
  apply (kept_range infos h Hr Hh Hk).
Qed.

Lemma lscript_len : has_keys x → 0 ≤ delay ≤ 0x7fffffffff → zlen lscript < 2 ^ 16.
Proof.
  unfold has_keys. rewrite !Forall_cons. intros (_ & H2 & _ & H4 & _) Hd. destruct (num_push_ok delay Hd) as (_ & _ & Hn).
  unfold lscript, tolocal_script. rewrite !length_app, H2, H4. cbn [length]. lia.
Qed.

(** What is built of this. *)
Lemma cmt_digest infos d : has_keys x → fee_range rate dust infos → 0 ≤ delay ≤ 0x7fffffffff →
  0 ≤ our < 2 ^ 62 → 0 ≤ their < 2 ^ 62 → length (f_txid fd) = 32%nat →
  redeem_fund fd = bufb d → zlen d < 0xff00 → all_outs infos ≠ [] →
  ∃ outs, let t := cmt_tx (cmt infos) outs in
    let i := mk_in (f_txid fd) (u32 (f_txindex fd)) [] [] (LN_SEQUENCE (Z.lxor (f_obscured fd) num)) in
    outs ≡ₚ all_outs infos ∧ StronglySorted out_le outs ∧
    tx_ok t ∧ valid t = true ∧ Forall (λ o, zlen (out_spk o) < 0xfd) outs ∧ zlen (concat (short_out <$> outs)) < 2 ^ 16 ∧
    ∀ priv k, priv !! MSG_FUNDIDX_FUNDING = Some k → good_key k →
      ln_script_committx_create true (cmt infos) Local priv btc_tx_init =
      Ret (Some (bufb (der_of k (sha256d (bip143 out_wire t i (var_bytes d) (funding_sat fd)))))) (rep t).
Proof.
  intros Hx Hr Hdel Ho Ht Htx Hred Hd Hne.
  destruct (committx_digest true (cmt infos) lscript (hs_of x infos) Local d) as (outs & Hp & Hs & Hok & Hsh & Hsz & Hc);
    try done.
  { unfold hs_of. rewrite length_fmap. destruct Hr as (_ & _ & _ & Hn). lia. }
  { apply Forall_fmap, Forall_forall. intros h Hh. cbn. destruct Hr as (_ & _ & Hi & _). rewrite Forall_forall in Hi.
    pose proof (sc_len x h Hx (Hi h Hh)). lia. }
  { by apply lscript_len. }
  { unfold has_keys in Hx. rewrite !Forall_cons in Hx. apply Hx. }
  exists outs. cbn zeta in *. fold (all_outs infos) in Hp.
  assert (valid (cmt_tx (cmt infos) outs) = true) as Hv.
  { apply outs_valid; try done. intros ->. by apply Permutation_nil in Hp. }
  split_and!; try done. intros priv k Hk Hgk. rewrite Hc, Hv. unfold ln_signer_p2wsh. rewrite Hk.
  set (h := sha256d _). destruct (sign_cycle k h Hgk) as (Es & _).
  by erewrite bind_ret by (apply lift_ret; exact Es).
Qed.

(** ** Two lists of the same HTLCs *)

Lemma script_type h y : sc x h = sc x y → type h = type y.
Proof.
  unfold sc, htlc_script, offered_script, received_script. destruct (type h), (type y); try done;
    intros Hs%app_inv_head; discriminate Hs.
Qed.

Lemma lscript_not_htlc h : lscript ≠ sc x h.
Proof. unfold lscript, tolocal_script, sc, htlc_script, offered_script, received_script, htlc_head. by destruct (type h). Qed.

Context (infos1 infos2 : list ln_script_htlcinfo_t) (Hp : blind <$> infos1 ≡ₚ blind <$> infos2).
Context (Hn1 : (length infos1 ≤ 200)%nat) (Hn2 : (length infos2 ≤ 200)%nat).
Context (Hf : fees rate dust infos1 = fees rate dust infos2).

(** No two scripts of the transaction have the same hash. *)
Context (Hsha : ∀ a b, a ∈ lscript :: (sc x <$> infos1) → b ∈ lscript :: (sc x <$> infos1) →
  mbedtls_sha256 a = mbedtls_sha256 b → a = b).

(** HTLCs whose outputs are equal expire together. *)
Context (Hexp : ∀ h y, h ∈ infos1 → y ∈ infos1 → sc x h = sc x y → htlc_sat h = htlc_sat y → expiry h = expiry y).

Lemma twin y : y ∈ infos2 → ∃ h, h ∈ infos1 ∧ type h = type y ∧ expiry h = expiry y ∧ htlc_sat h = htlc_sat y ∧ sc x h = sc x y.
Proof.
  intros Hy. assert (blind y ∈ blind <$> infos1) as Hb by (rewrite Hp; by apply list_elem_of_fmap_2).
  apply list_elem_of_fmap in Hb as (h & Eb & Hh). exists h. destruct h, y. unfold blind in Eb. cbn in Eb.
  injection Eb as -> -> -> ->. done.
Qed.

Lemma all_keys_perm : out_key <$> all_outs infos1 ≡ₚ out_key <$> all_outs infos2.
Proof.
  rewrite !all_keys, Hf. do 2 f_equiv.
  assert (∀ f (l : list ln_script_htlcinfo_t), omap (htlc_key f) l = omap (htlc_key f) (blind <$> l)) as Hb.
  { intros f. induction l as [|h l IH]; [done|]. cbn [fmap list_fmap omap list_omap]. rewrite <- IH. done. }
  rewrite (Hb _ infos1), (Hb _ infos2). by rewrite Hp.
Qed.

Lemma same_info o1 o2 : o1 ∈ all_outs infos1 → o2 ∈ all_outs infos2 → out_key o1 = out_key o2 →
  match out_info (hs_of x infos1) o1, out_info (hs_of x infos2) o2 with
  | Some (h, s), Some (y, s') => type h = type y ∧ expiry h = expiry y ∧ s = s'
  | None, None => True
  | _, _ => False
  end.
Proof.
  intros H1 H2 Hk. unfold out_key in Hk. injection Hk as Hv Hs.
  assert (∀ a s, spk_p2wpkh true a ≠ spk_p2wsh true s) as Hne.
  { intros a s. unfold spk_p2wpkh, spk_p2wsh, p2wpkh_program, p2wsh_program. discriminate. }
  assert (∀ a b, spk_p2wsh true a = spk_p2wsh true b → mbedtls_sha256 a = mbedtls_sha256 b) as Hi.
  { intros a b. unfold spk_p2wsh, p2wsh_program. by intros Ha%app_inv_head. }
  assert (∀ y, y ∈ infos2 → sc x y ∈ lscript :: (sc x <$> infos1)) as Hin2.
  { intros y (h & Hh & _ & _ & _ & <-)%twin. right. by apply list_elem_of_fmap_2. }
  destruct (out_kinds infos1 o1 Hn1 H1) as [[K1 S1]|[[K1 S1]|(h & Hh & E1 & _ & V1 & S1)]];
    destruct (out_kinds infos2 o2 Hn2 H2) as [[K2 S2]|[[K2 S2]|(y & Hy & E2 & _ & V2 & S2)]];
    rewrite S1, S2 in Hs; try (by destruct (Hne _ _ Hs)); try (by destruct (Hne _ _ (eq_sym Hs)));
    rewrite ?E1, ?E2; unfold out_info; rewrite ?K1, ?K2; try done.
  - apply Hi, Hsha in Hs; [by destruct (lscript_not_htlc y)|by left|by apply Hin2].
  - apply Hi, Hsha in Hs; [by destruct (lscript_not_htlc h)|right; by apply list_elem_of_fmap_2|by left].
  - apply Hi, Hsha in Hs; [|right; by apply list_elem_of_fmap_2|by apply Hin2].
    destruct (twin y Hy) as (h' & Hh' & Et & Ee & Ev & Es).
    split_and!; [by apply script_type| |done]. rewrite <- Ee. apply Hexp; [done|done|by rewrite Es|].
    rewrite Ev, <- V2, <- V1. done.
Qed.

Lemma jobs_agree tid outs1 outs2 : outs1 ⊆ all_outs infos1 → outs2 ⊆ all_outs infos2 → out_key <$> outs1 = out_key <$> outs2 →
  ∀ k, let f := fees rate dust infos1 in
  snd <$> jobs f lscript (hs_of x infos1) tid k outs1 = snd <$> jobs f lscript (hs_of x infos2) tid k outs2.
Proof.
  cbn zeta. revert outs2. induction outs1 as [|o1 outs1 IH]; intros [|o2 outs2] H1 H2 Hk k; try done.
  cbn [fmap list_fmap] in Hk. injection Hk as Hv Hs Hk.
  assert (out_key o1 = out_key o2) as Ek by (unfold out_key; by rewrite Hv, Hs).
  pose proof (same_info o1 o2 (H1 o1 ltac:(by left)) (H2 o2 ltac:(by left)) Ek) as Hi.
  specialize (IH outs2 (λ o Ho, H1 o (list_elem_of_further _ _ _ Ho)) (λ o Ho, H2 o (list_elem_of_further _ _ _ Ho)) Hk (S k)).
  cbn [jobs]. destruct (out_info (hs_of x infos1) o1) as [[h s]|], (out_info (hs_of x infos2) o2) as [[y s']|]; try done.
  destruct Hi as (Et & Ee & ->). cbn [fmap list_fmap snd]. rewrite IH. f_equal.
  unfold job, spend_tx, fee_of. cbn [fst snd]. by rewrite Et, Ee, Hv.
Qed.
End lists.

(** ** Room for the signatures *)

Lemma jobs_len f ls hs tid outs : ∀ k, length (jobs f ls hs tid k outs) = length (omap (out_info hs) outs).
Proof.
  induction outs as [|o outs IH]; intros k; [done|]. cbn [jobs omap list_omap]. destruct (out_info hs o); cbn [length]; by rewrite IH.
Qed.

Lemma jobs_room x fd rate dust num our their delay Local infos outs tid k : outs ≡ₚ all_outs x fd rate dust num our their delay Local infos →
  (length (jobs (fees rate dust infos) (lscript x delay) (hs_of x infos) tid k outs) ≤ length infos)%nat.
Proof.
  intros Hp. rewrite jobs_len, Hp. unfold all_outs, cmt_outs. rewrite !omap_app, !length_app.
  assert (∀ f sat fee spk o, o = LN_HTLCTYPE_TOREMOTE ∨ o = LN_HTLCTYPE_TOLOCAL →
    omap (out_info (hs_of x infos)) (balance_out f sat fee spk o) = []) as Hb.
  { intros f sat fee spk o Ho. unfold balance_out. case_match; [|done]. cbn [omap list_omap]. unfold out_info. cbn [out_opt].
    by destruct Ho as [->| ->]. }
  rewrite !Hb by auto. cbn [length Nat.add].
  assert (∀ l : list tx_output, (length (omap (out_info (hs_of x infos)) l) ≤ length l)%nat) as Ho.
  { induction l as [|o l IH]; [done|]. cbn [omap list_omap]. destruct (out_info _ o); cbn [length]; lia. }
  etransitivity; [apply Ho|].
  assert (∀ l (g : nat → ln_script_htlcinfo_t * bytes → list tx_output), (∀ i y, (length (g i y) ≤ 1)%nat) →
    (length (concat (imap g l)) ≤ length l)%nat) as Hc.
  { induction l as [|y l IH]; intros g Hg; [done|]. cbn [imap concat length]. rewrite length_app.
    specialize (IH (g ∘ S) (λ i y, Hg (S i) y)). specialize (Hg 0%nat y). lia. }
  etransitivity; [apply Hc; intros i y; apply htlc_out_len|]. unfold hs_of. by rewrite length_fmap.
Qed.

(** The slots the HTLCs come from. *)
Lemma loop_slots step : (∀ i h l o t, ∃ l' o' t', step i h (l, o, t) = (l', o', t') ∧ (l' = l ∨ ∃ ty, l' = l ++ [info_of ty i h])) →
  ∀ hs i l o t l' o' t', htlcinfo_loop step i hs (l, o, t) = (l', o', t') →
  Forall (λ h, (add_htlc_idx h < i)%nat) l → Forall (λ h, (add_htlc_idx h < i + length hs)%nat) l'.
Proof.
  intros Hst. induction hs as [|h hs IH]; intros i l o t l' o' t' He Hl.
  { cbn in He. injection He as <- _ _. cbn [length]. by rewrite Nat.add_0_r. }
  cbn [htlcinfo_loop] in He. destruct (Hst i h l o t) as (l1 & o1 & t1 & E1 & Hl1). rewrite E1 in He.
  cbn [length]. replace (i + S (length hs))%nat with (S i + length hs)%nat by lia. eapply IH; [exact He|].
  assert (Forall (λ h, (add_htlc_idx h < S i)%nat) l) as Hl' by (eapply Forall_impl; [exact Hl|]; cbn; lia).
  destruct Hl1 as [->|[ty ->]]; [done|]. apply Forall_app. split; [done|]. constructor; [cbn; lia|done].
Qed.

Lemma remote_slots cnl o t infos o' t' : create_to_remote_htlcinfo cnl o t = (infos, o', t') →
  Forall (λ h, is_Some (cnl !! add_htlc_idx h)) infos.
Proof.
  intros He. assert (Forall (λ h, (add_htlc_idx h < 0 + length cnl)%nat) infos) as Hl.
  { eapply loop_slots; [|exact He|done]. intros i h l o1 t1. unfold to_remote_step.
    repeat case_match; simplify_eq; do 3 eexists; (split; [reflexivity|]); eauto. }
  eapply Forall_impl; [exact Hl|]. cbn. intros h Hh. by apply lookup_lt_is_Some_2.
Qed.

(** ** The identifier of the transaction *)

Lemma wire_small t i : t_ins t = [i] → in_sig i = [] → length (in_prev i) = 32%nat →
  Forall (λ o, zlen (out_spk o) < 0xfd) (t_outs t) → zlen (concat (short_out <$> t_outs t)) < 2 ^ 16 →
  zlen (tx_wire false t) < 2 ^ 32.
Proof.
  intros Hi Hs Hp Ho Hl.
  assert (∀ n, (length (compact_size n) ≤ 9)%nat) as Hc
    by (intros n; unfold compact_size; repeat case_match; cbn [length]; rewrite ?length_le_bytes; lia).
  assert (short_out <$> t_outs t = out_wire <$> t_outs t) as Eo.
  { clear Hl. induction Ho as [|o l Hl _ IH]; [done|]. cbn [fmap list_fmap]. by rewrite IH, short_out_wire. }
  unfold tx_wire, var_list. rewrite Hi, <- Eo. cbn [fmap list_fmap concat length app].
  rewrite !length_app, !length_le_bytes. unfold in_wire, var_bytes. rewrite Hs, !length_app, Hp, !length_le_bytes.
  cbn [length]. pose proof (Hc (Z.of_nat 1)). pose proof (Hc (Z.of_nat 0)). pose proof (Hc (zlen (t_outs t))). lia.
Qed.

Definition txid_of (t : transaction) : bytes :=
  sha256d (take (Z.to_nat (u16 (zlen (tx_wire false t)))) (tx_wire false t)).

Lemma signed_txid w i t : t_ins t = [i] → in_sig i = [] → tx_ok t → tx_ok (signed_tx w i t) →
  Forall (λ o, zlen (out_spk o) < 0xfd) (t_outs t) → zlen (concat (short_out <$> t_outs t)) < 2 ^ 16 →
  ∃ tid, tid = txid_of t ∧ length tid = 32%nat ∧ btc_tx_txid (rep t) tt = Ret tid tt ∧
    btc_tx_txid (rep (signed_tx w i t)) tt = Ret tid tt.
Proof.
  intros Hi Hs Hok Hok' Ho Hl.
  assert (length (in_prev i) = 32%nat) as Hp by (destruct Hok as [Ho' _ _ _]; rewrite Hi in Ho'; apply Forall_cons_1 in Ho' as [[] _]; done).
  assert (tx_wire false (signed_tx w i t) = tx_wire false t) as Ew by (unfold tx_wire; rewrite Hi; done).
  pose proof (wire_small t i Hi Hs Hp Ho Hl) as Hw.
  rewrite !txid_eq by (rewrite ?Ew; done). rewrite Ew. exists (txid_of t). split_and!; [done|apply sha256d_len|done|done].
Qed.

Lemma keys_wire (l1 l2 : list tx_output) : out_key <$> l1 = out_key <$> l2 → out_wire <$> l1 = out_wire <$> l2.
Proof.
  revert l2. induction l1 as [|a l1 IH]; intros [|b l2] He; try done. cbn [fmap list_fmap] in *. injection He as H1 H2 H3.
  f_equal; [|by apply IH]. unfold out_wire. by rewrite H1, H2.
Qed.

Lemma keys_txid c (l1 l2 : list tx_output) : out_key <$> l1 = out_key <$> l2 → tx_wire false (cmt_tx c l1) = tx_wire false (cmt_tx c l2).
Proof.
  intros He. pose proof (f_equal length (keys_wire _ _ He)) as Hl. rewrite !length_fmap in Hl.
  unfold tx_wire, var_list. cbn [cmt_tx t_outs t_ins t_version t_lock]. by rewrite Hl, (keys_wire _ _ He).
Qed.

Lemma keys_bip143 c (l1 l2 : list tx_output) i code amount : out_key <$> l1 = out_key <$> l2 →
  bip143 out_wire (cmt_tx c l1) i code amount = bip143 out_wire (cmt_tx c l2) i code amount.
Proof. intros He. unfold bip143. cbn [cmt_tx t_outs t_ins t_version t_lock]. by rewrite (keys_wire _ _ He). Qed.

(** ** The peer's side *)

Section sides.
Context (dbg : bool) (rows : list preimg_row) (Hrows : Forall (λ r, row_preimage r ≠ []) rows).
Context (revs : bytes) (garbage : nat → Z).

Definition sigs_init (n : nat) : option bytes := if (0 <? n)%nat then Some (garbage <$> seq 0 (64 * n)) else None.

Lemma remote_builds fd self c x infos our their num d0 kf hk hpub dd :
  x = funding_remote self → create_to_remote_htlcinfo (cnl_add_htlc self) (LnSelf.LnSelf.their_msat self) (LnSelf.LnSelf.our_msat self) = (infos, our, their) →
  let rate := LnSelf.LnSelf.feerate_per_kw self in let dust := dust_limit_sat c in
  let delay := to_self_delay (commit_local self) in let Local := negb (ln_is_funder fd) in
  has_keys x → fee_range rate dust infos → 0 ≤ delay ≤ 0x7fffffffff → 0 ≤ our < 2 ^ 62 → 0 ≤ their < 2 ^ 62 →
  length (f_txid fd) = 32%nat → redeem_fund fd = bufb d0 → zlen d0 < 0xff00 →
  all_outs x fd rate dust num our their delay Local infos ≠ [] →
  LnSelf.LnSelf.priv self !! MSG_FUNDIDX_FUNDING = Some kf → good_key kf → good_key hk → hpub ≠ [] →
  (∀ s : bst remote_st, ln_signer_htlc_remotekey self s = Ret (hk, hpub) s) →
  length (signature (commit_local self)) = 64%nat → is_bytes (signature (commit_local self)) →
  length (signature c) = 64%nat →
  ∃ outs tid dd', let t := cmt_tx (cmt x fd rate dust num our their delay infos) outs in
    let i := mk_in (f_txid fd) (u32 (f_txindex fd)) [] [] (LN_SEQUENCE (Z.lxor (f_obscured fd) num)) in
    let h := sha256d (bip143 out_wire t i (var_bytes d0) (funding_sat fd)) in
    let js := jobs (fees rate dust infos) (lscript x delay) (hs_of x infos) tid 0 outs in
    outs ≡ₚ all_outs x fd rate dust num our their delay Local infos ∧ StronglySorted out_le outs ∧
    tid = txid_of t ∧
    create_to_remote true dbg rows garbage fd self true num (mk_bst (mk_remote c None) None dd) =
    Ret true (mk_bst (mk_remote (set_htlc_num (zlen js) (set_signature (rs_of kf h) (set_txid tid c)))
      (put_sigs 0 ((λ j, rs_of hk j.2) <$> js) (sigs_init (length infos)))) None dd').
Proof.
  intros Hx Hinfo. cbn zeta. intros Hkeys Hr Hdel Hour Htheir Htx Hred Hd0 Hne Hkf Hgf Hgk Hpub Hsk Hl Hb Hlc.
  set (rate := LnSelf.LnSelf.feerate_per_kw self) in *. set (dust := dust_limit_sat c) in *.
  set (delay := to_self_delay (commit_local self)) in *.
  destruct (cmt_digest x fd rate dust num our their delay (negb (ln_is_funder fd)) infos d0 Hkeys Hr Hdel Hour Htheir Htx Hred Hd0 Hne)
    as (outs & Hp & Hs & Hok & Hv & Hsh & Hsz & Hc).
  set (i := mk_in (f_txid fd) _ _ _ _) in *. set (cm := cmt x fd rate dust num our their delay infos) in *.
  set (h := sha256d _) in *. cbn zeta in *.
  assert (tx_ok (signed_tx [] i (cmt_tx cm outs))) as Hok'.
  { destruct Hok as [Ho' H2 H3 H4]. apply Forall_cons_1 in Ho' as [[P1 P2 _ _] _].
    split; [|done..]. constructor; [|done]. split; [done|done|done|constructor]. }
  destruct (signed_txid [] i (cmt_tx cm outs) eq_refl eq_refl Hok Hok' Hsh Hsz) as (tid & Eof & Htl & Etx & _).
  set (js := jobs (fees rate dust infos) (lscript x delay) (hs_of x infos) tid 0 outs).
  destruct (save_phashes x infos c None dd Hkeys) as [d1 E1]; [apply Hr|].
  set (c1 := set_signature (rs_of kf h) (set_txid tid c)).
  destruct (sign_cycle kf h Hgf) as (_ & _ & _ & Htrim & _).
  destruct (remote_spent (fees rate dust infos) (lscript x delay) (hs_of x infos) tid dbg rows Hrows Htl
    ltac:(by apply lscript_len) (cmt_tx cm outs) self hk hpub c1 (sigs_init (length infos)) d1) as [d2 E2]; try done.
  { intros o y Ho. apply out_info_opt in Ho as (_ & _ & Ho). apply remote_slots in Hinfo.
    rewrite Forall_forall in Hinfo. apply list_elem_of_lookup_2 in Ho. unfold hs_of in Ho.
    apply list_elem_of_fmap in Ho as (y' & -> & Hy'). by apply Hinfo. }
  { by apply (outs_fit x fd rate dust num our their delay (negb (ln_is_funder fd))). }
  { pose proof (jobs_room x fd rate dust num our their delay (negb (ln_is_funder fd)) infos outs tid 0 Hp) as Hroom.
    cbn [cmt_tx t_outs]. unfold room, sigs_init. intros sg Esg. case_match; [|done]. injection Esg as <-.
    rewrite length_fmap, length_seq. fold js in Hroom |- *. lia. }
  exists outs, tid, d2. split_and!; try done.
  assert (length (skey x MSG_SCRIPTIDX_REVOCATION) = 33%nat ∧ length (skey x MSG_SCRIPTIDX_DELAYED) = 33%nat) as [K1 K2]
    by (unfold has_keys in Hkeys; rewrite !Forall_cons in Hkeys; split; apply Hkeys).
  unfold create_to_remote. rewrite gets_step. cbn [main pCommit]. rewrite <- Hx.
  erewrite bind_ret by (by apply create_tolocal_spec). rewrite Hinfo.
  erewrite bind_ret by exact E1. cbv zeta. fold rate dust delay.
  erewrite sub_step by (by apply (Hc (LnSelf.LnSelf.priv self) kf)). cbv beta iota.
  erewrite (bind_ret true); cycle 1.
  {
  erewrite bind_ret by (apply lift_ret; exact Etx). erewrite (bind_ret tt) by reflexivity.
  erewrite bind_ret by apply lift_ret, buf_bytes_bufb. erewrite on_local_step by (apply Htrim; exact Hlc).
  erewrite (bind_ret tt) by reflexivity. cbn [snd pCommit main pClose db pHtlcSigs].
  erewrite (bind_ret tt _ _ _ (mk_bst (mk_remote c1 (sigs_init (length infos))) None d1)).
  2:{ unfold sigs_init. cbn [andb]. by destruct (0 <? length infos)%nat. }
  exact E2. }
  reflexivity.
Qed.

(** ** Our side *)

(** Up to the check of the peer's signature, whatever it is. *)
Lemma local_checked fd self x infos our their rate dust delay num p1 p2 kl kr :
  x = funding_local self → create_to_local_htlcinfo_amount (cnl_add_htlc self) (LnSelf.LnSelf.our_msat self) (LnSelf.LnSelf.their_msat self) = (infos, our, their) →
  rate = LnSelf.LnSelf.feerate_per_kw self → let Local := ln_is_funder fd in let d := two_of_two p1 p2 in
  has_keys x → fee_range rate dust infos → 0 ≤ delay ≤ 0x7fffffffff → 0 ≤ our < 2 ^ 62 → 0 ≤ their < 2 ^ 62 →
  length (f_txid fd) = 32%nat → redeem_fund fd = bufb d → f_spk fd = bufb (p2wsh_program d) →
  (p1, p2) = (if key_fund_sort fd then (pub_of kl, pub_of kr) else (pub_of kr, pub_of kl)) →
  all_outs x fd rate dust num our their delay Local infos ≠ [] →
  LnSelf.LnSelf.priv self !! MSG_FUNDIDX_FUNDING = Some kl → good_key kl → good_key kr → is_sig (signature (commit_local self)) →
  ∃ outs tid w, let t := cmt_tx (cmt x fd rate dust num our their delay infos) outs in
    let i := mk_in (f_txid fd) (u32 (f_txindex fd)) [] [] (LN_SEQUENCE (Z.lxor (f_obscured fd) num)) in
    let h := sha256d (bip143 out_wire t i (var_bytes d) (funding_sat fd)) in
    let self' := set_commit_local (set_txid tid (commit_local self)) self in
    outs ≡ₚ all_outs x fd rate dust num our their delay Local infos ∧ StronglySorted out_le outs ∧
    tid = txid_of t ∧ length tid = 32%nat ∧
    ∀ sigs n db0, create_to_local true dbg rows revs fd sigs n num delay dust (mk_bst self None db0) =
      (ret ← (if accepted kr h (signature (commit_local self))
              then mod_self (λ _, self');;
                   create_to_local_spent true dbg rows revs self' sigs n (rep (signed_tx w i t))
                     (of_bytes (lscript x delay)) (with_script <$> hs_of x infos) (fees rate dust infos) delay
              else mret false);
       set_ptx LN_CLOSE_IDX_COMMIT (rep (signed_tx w i t));; mret ret) (mk_bst self None db0).
Proof.
  intros Hx Hinfo Hrate. cbn zeta. intros Hkeys Hr Hdel Hour Htheir Htx Hred Hspk Hpp Hne Hkf Hgl Hgr Hsig.
  assert (∀ k, good_key k → length (pub_of k) = 33%nat) as Hpub by (intros k [_ Hd]; by apply pub_read).
  assert (length p1 = 33%nat ∧ length p2 = 33%nat) as [Hp1 Hp2]
    by (destruct (key_fund_sort fd); injection Hpp as -> ->; split; by apply Hpub).
  pose proof (two_of_two_len p1 p2 Hp1 Hp2) as Hd. set (d := two_of_two p1 p2) in *.
  destruct (cmt_digest x fd rate dust num our their delay (ln_is_funder fd) infos d Hkeys Hr Hdel Hour Htheir Htx Hred ltac:(lia) Hne)
    as (outs & Hp & Hs & Hok & Hv & Hsh & Hsz & Hc).
  set (i := mk_in (f_txid fd) _ _ _ _) in *. set (cm := cmt x fd rate dust num our their delay infos) in *. cbn zeta in *.
  destruct (sign_verify_spec fd self (cmt_tx cm outs) i kl kr p1 p2 eq_refl Hok Hv Hsh Hsz Hgl Hgr Hpp Hred Hspk Hsig)
    as (w & Ew & Hokw).
  destruct (signed_txid w i (cmt_tx cm outs) eq_refl eq_refl Hok Hokw Hsh Hsz) as (tid & Eof & Htl & _ & Etw).
  exists outs, tid, w. split_and!; try done. intros sigs n db0.
  assert (length (skey x MSG_SCRIPTIDX_REVOCATION) = 33%nat ∧ length (skey x MSG_SCRIPTIDX_DELAYED) = 33%nat) as [K1 K2]
    by (unfold has_keys in Hkeys; rewrite !Forall_cons in Hkeys; split; apply Hkeys).
  unfold create_to_local. rewrite gets_step. cbn [main]. rewrite <- Hx.
  erewrite bind_ret by (by apply create_tolocal_spec). rewrite Hinfo.
  erewrite bind_ret by (apply with_scripts_ok; [done|apply Hr]). cbv zeta. rewrite <- Hrate.
  erewrite sub_step by (by apply (Hc (LnSelf.LnSelf.priv self) kl)). cbv beta iota.
  erewrite on_local_step by exact Ew. cbv beta iota.
  set (b := accepted kr _ _). destruct b; [|reflexivity].
  rewrite bind_assoc. erewrite bind_ret by (apply lift_ret; exact Etw). reflexivity.
Qed.

Lemma local_accepts fd self x infos our their rate dust delay num p1 p2 kl kr hk :
  x = funding_local self → create_to_local_htlcinfo_amount (cnl_add_htlc self) (LnSelf.LnSelf.our_msat self) (LnSelf.LnSelf.their_msat self) = (infos, our, their) →
  rate = LnSelf.LnSelf.feerate_per_kw self → let Local := ln_is_funder fd in let d := two_of_two p1 p2 in
  has_keys x → fee_range rate dust infos → 0 ≤ delay ≤ 0x7fffffffff → 0 ≤ our < 2 ^ 62 → 0 ≤ their < 2 ^ 62 →
  length (f_txid fd) = 32%nat → redeem_fund fd = bufb d → f_spk fd = bufb (p2wsh_program d) →
  (p1, p2) = (if key_fund_sort fd then (pub_of kl, pub_of kr) else (pub_of kr, pub_of kl)) →
  all_outs x fd rate dust num our their delay Local infos ≠ [] →
  LnSelf.LnSelf.priv self !! MSG_FUNDIDX_FUNDING = Some kl → good_key kl → good_key kr → good_key hk →
  skey x MSG_SCRIPTIDX_REMOTEHTLCKEY = pub_of hk → is_sig (signature (commit_local self)) →
  ∃ outs tid, let t := cmt_tx (cmt x fd rate dust num our their delay infos) outs in
    let i := mk_in (f_txid fd) (u32 (f_txindex fd)) [] [] (LN_SEQUENCE (Z.lxor (f_obscured fd) num)) in
    let h := sha256d (bip143 out_wire t i (var_bytes d) (funding_sat fd)) in
    let js := jobs (fees rate dust infos) (lscript x delay) (hs_of x infos) tid 0 outs in
    outs ≡ₚ all_outs x fd rate dust num our their delay Local infos ∧ StronglySorted out_le outs ∧
    tid = txid_of t ∧
    ∀ sigs n db0, signature (commit_local self) = rs_of kr h → sigs = concat ((λ j, rs_of hk j.2) <$> js) → n = zlen js →
    create_to_local true dbg rows revs fd (Some (init_cells sigs)) n num delay dust (mk_bst self None db0) =
    Ret true (mk_bst (set_cnl_add_htlc (store_sigs (signed hk js) (cnl_add_htlc self))
      (set_commit_local (set_htlc_num n (set_txid tid (commit_local self))) self)) None db0).
Proof.
  intros Hx Hinfo Hrate. cbn zeta. intros Hkeys Hr Hdel Hour Htheir Htx Hred Hspk Hpp Hne Hkf Hgl Hgr Hgk Hhk Hisig.
  destruct (local_checked fd self x infos our their rate dust delay num p1 p2 kl kr Hx Hinfo Hrate Hkeys Hr Hdel Hour Htheir
    Htx Hred Hspk Hpp Hne Hkf Hgl Hgr Hisig) as (outs & tid & w & Hp & Hs & Htid & Htl & Ec). cbn zeta in *.
  set (i := mk_in (f_txid fd) _ _ _ _) in *. set (cm := cmt x fd rate dust num our their delay infos) in *.
  set (js := jobs (fees rate dust infos) (lscript x delay) (hs_of x infos) tid 0 outs).
  exists outs, tid. split_and!; try done. intros sigs n db0 Hsig Hsigs Hn. rewrite Ec, Hsig, accepted_own by done.
  erewrite (bind_ret true); cycle 1.
  { erewrite (bind_ret tt) by reflexivity.
    apply (local_spent (fees rate dust infos) (lscript x delay) (hs_of x infos) tid dbg rows Htl
      ltac:(by apply lscript_len) revs delay (signed_tx w i (cmt_tx cm outs)) _ hk sigs n); try done.
    - by rewrite <- Hhk, Hx.
    - by apply (outs_fit x fd rate dust num our their delay (ln_is_funder fd)). }
  by destruct self.
Qed.
End sides.

(** ** Both sides *)

(** Two peers, each with its part of the channel: [sA] is to receive a signature of its
    commitment transaction from [sB], which builds it from [c]. *)
Record peers (fdA fdB : ln_fund_t) (sA sB : ln_self_t) (c : ln_commit_data_t)
    (infosA infosB : list ln_script_htlcinfo_t) (our their : Z) (kA kB hk : bytes) : Prop := {
  (* the funding transaction; one of them pays the fees *)
  peers_fund : f_txid fdA = f_txid fdB ∧ f_txindex fdA = f_txindex fdB ∧ funding_sat fdA = funding_sat fdB ∧
    redeem_fund fdA = redeem_fund fdB ∧ f_obscured fdA = f_obscured fdB;
  peers_txid : length (f_txid fdA) = 32%nat;
  peers_funder : ln_is_funder fdA = negb (ln_is_funder fdB);
  peers_2of2 : ∃ p1 p2, (p1, p2) = (if key_fund_sort fdA then (pub_of kA, pub_of kB) else (pub_of kB, pub_of kA)) ∧
    redeem_fund fdA = bufb (two_of_two p1 p2) ∧ f_spk fdA = bufb (p2wsh_program (two_of_two p1 p2));
  peers_privA : LnSelf.LnSelf.priv sA !! MSG_FUNDIDX_FUNDING = Some kA ∧ good_key kA;
  peers_privB : LnSelf.LnSelf.priv sB !! MSG_FUNDIDX_FUNDING = Some kB ∧ good_key kB;
  (* the keys of the scripts, and sB's key for the HTLCs *)
  peers_scripts : scriptpubkeys (funding_local sA) = scriptpubkeys (funding_remote sB);
  peers_keys : has_keys (funding_local sA);
  peers_htlckey : ∃ sec, LnSelf.LnSelf.priv sB !! MSG_FUNDIDX_HTLC = Some sec ∧
    hk = ln_derkey_privkey mbedtls_sha256 (fund_key (funding_local sB) MSG_FUNDIDX_HTLC)
           (fund_key (funding_remote sB) MSG_FUNDIDX_PER_COMMIT) sec;
  peers_hk : good_key hk ∧ skey (funding_local sA) MSG_SCRIPTIDX_REMOTEHTLCKEY = pub_of hk;
  (* the same HTLCs, in slots of their own *)
  peers_local : create_to_local_htlcinfo_amount (cnl_add_htlc sA) (LnSelf.LnSelf.our_msat sA) (LnSelf.LnSelf.their_msat sA) =
    (infosA, our, their);
  peers_remote : create_to_remote_htlcinfo (cnl_add_htlc sB) (LnSelf.LnSelf.their_msat sB) (LnSelf.LnSelf.our_msat sB) =
    (infosB, our, their);
  peers_htlcs : blind <$> infosA ≡ₚ blind <$> infosB;
  (* the same rate, and numbers in their ranges *)
  peers_rate : LnSelf.LnSelf.feerate_per_kw sA = LnSelf.LnSelf.feerate_per_kw sB;
  peers_fees : fee_range (LnSelf.LnSelf.feerate_per_kw sA) (dust_limit_sat c) infosA;
  peers_amounts : 0 ≤ our < 2 ^ 62 ∧ 0 ≤ their < 2 ^ 62;
  peers_delay : 0 ≤ to_self_delay (commit_local sB) ≤ 0x7fffffffff;
  peers_sigs : length (signature (commit_local sB)) = 64%nat ∧ is_bytes (signature (commit_local sB)) ∧
    length (signature c) = 64%nat;
}.

Lemma take_sigs garbage l m : Forall (λ x, length x = 64%nat) l → (length l ≤ m)%nat →
  take (64 * length l) (default [] (put_sigs 0 l (sigs_init garbage m))) = concat l.
Proof.
  intros Hl Hm. unfold sigs_init. destruct (Nat.ltb_spec 0 m); cycle 1.
  { destruct l; [done|cbn in Hm; lia]. }
  cbn [put_sigs fmap option_fmap option_map default]. rewrite Nat.mul_0_r, take_0. cbn [app].
  apply take_app_length'. by rewrite concat_64.
Qed.

Lemma htlckey_known sB sec hk : LnSelf.LnSelf.priv sB !! MSG_FUNDIDX_HTLC = Some sec → good_key hk →
  hk = ln_derkey_privkey mbedtls_sha256 (fund_key (funding_local sB) MSG_FUNDIDX_HTLC)
         (fund_key (funding_remote sB) MSG_FUNDIDX_PER_COMMIT) sec →
  ∀ s : bst remote_st, ln_signer_htlc_remotekey sB s = Ret (hk, pub_of hk) s.
Proof.
  intros Hs [_ Hk] -> s. unfold ln_signer_htlc_remotekey, get_secret. erewrite opt_step by exact Hs. cbv zeta.
  unfold btc_keys_priv2pub. by rewrite (proj2 (Z.leb_le _ _)), (proj2 (Z.ltb_lt _ _)) by apply Hk.
Qed.

Lemma jobs_slots f ls hs tid outs : ∀ k, Forall (λ j, ∃ y, y ∈ hs ∧ j.1 = add_htlc_idx y.1) (jobs f ls hs tid k outs).
Proof.
  induction outs as [|o outs IH]; intros k; [done|]. cbn [jobs]. destruct (out_info hs o) as [y|] eqn:Hy; [|done].
  constructor; [|done]. exists y. split; [|done]. apply out_info_opt in Hy as (_ & _ & Hy). by eapply list_elem_of_lookup_2.
Qed.

(** *** What follows for the two lists of HTLCs *)

Section pair.
Context (fdA fdB : ln_fund_t) (sA sB : ln_self_t) (c : ln_commit_data_t).
Context (infosA infosB : list ln_script_htlcinfo_t) (our their num : Z) (kA kB hk : bytes).
Context (P : peers fdA fdB sA sB c infosA infosB our their kA kB hk).

Abbreviation x := (funding_local sA).
Abbreviation xB := (funding_remote sB).
Abbreviation rate := (LnSelf.LnSelf.feerate_per_kw sA).
Abbreviation dust := (dust_limit_sat c).
Abbreviation delay := (to_self_delay (commit_local sB)).

(** No two scripts of the transaction have the same hash. *)
Definition no_collision : Prop := ∀ a b, a ∈ lscript x delay :: (sc x <$> infosA) →
  b ∈ lscript x delay :: (sc x <$> infosA) → mbedtls_sha256 a = mbedtls_sha256 b → a = b.

(** HTLCs whose outputs are equal expire together. *)
Definition equal_expiry : Prop := ∀ h y, h ∈ infosA → y ∈ infosA → sc x h = sc x y →
  htlc_sat h = htlc_sat y → expiry h = expiry y.

Abbreviation outs_of l := (all_outs x fdA rate dust num our their delay (ln_is_funder fdA) l).

Lemma pair_fees : fee_range rate dust infosB.
Proof.
  destruct (peers_fees _ _ _ _ _ _ _ _ _ _ _ _ P) as (H1 & H2 & H3 & H4). pose proof (peers_htlcs _ _ _ _ _ _ _ _ _ _ _ _ P) as Hb.
  split_and!; try apply H1; try apply H2.
  - apply Forall_forall. intros y Hy. assert (blind y ∈ blind <$> infosA) as Hin by (rewrite Hb; by apply list_elem_of_fmap_2).
    apply list_elem_of_fmap in Hin as (h & Eb & Hh). rewrite Forall_forall in H3. specialize (H3 h Hh).
    destruct h, y. unfold blind in Eb. cbn in Eb. injection Eb as -> -> -> ->. exact H3.
  - apply Permutation_length in Hb. rewrite !length_fmap in Hb. lia.
Qed.

Lemma pair_scripts : (∀ l, hs_of xB l = hs_of x l) ∧ lscript xB delay = lscript x delay ∧ has_keys xB ∧
  ∀ l, all_outs xB fdB rate dust num our their delay (negb (ln_is_funder fdB)) l = outs_of l.
Proof.
  pose proof (peers_scripts _ _ _ _ _ _ _ _ _ _ _ _ P) as Hsk. pose proof (peers_keys _ _ _ _ _ _ _ _ _ _ _ _ P) as Hk.
  assert (∀ l, hs_of xB l = hs_of x l) as Ehs by (intros l; unfold hs_of, sc, skey; by rewrite <- Hsk).
  assert (lscript xB delay = lscript x delay) as Els by (unfold lscript, skey; by rewrite <- Hsk).
  split_and!; [done|done|unfold has_keys, skey; rewrite <- Hsk; exact Hk|].
  intros l. unfold all_outs. rewrite Ehs, Els, (peers_funder _ _ _ _ _ _ _ _ _ _ _ _ P).
  unfold cmt_outs, cmt, lntx_commit, skey. cbn [p_feeinfo remote_satoshi local_satoshi remote_pubkey]. by rewrite <- Hsk.
Qed.

Lemma pair_outs : outs_of infosA ≠ [] → outs_of infosB ≠ [].
Proof.
  intros Hne E0. pose proof (all_keys_perm x fdA rate dust num our their delay (ln_is_funder fdA) infosA infosB
    (peers_htlcs _ _ _ _ _ _ _ _ _ _ _ _ P)
    (fees_perm _ _ _ _ (peers_fees _ _ _ _ _ _ _ _ _ _ _ _ P) pair_fees (peers_htlcs _ _ _ _ _ _ _ _ _ _ _ _ P))) as Hpk.
  rewrite E0 in Hpk. apply Permutation_length in Hpk. rewrite length_fmap in Hpk. by destruct (outs_of infosA).
Qed.

(** The sorted outputs have the same values and scripts, and the same is signed. *)
Lemma pair_jobs outsA outsB tid : no_collision → equal_expiry → outsA ≡ₚ outs_of infosA → outsB ≡ₚ outs_of infosB →
  StronglySorted out_le outsA → StronglySorted out_le outsB →
  out_key <$> outsA = out_key <$> outsB ∧
  snd <$> jobs (fees rate dust infosA) (lscript x delay) (hs_of x infosA) tid 0 outsA =
  snd <$> jobs (fees rate dust infosB) (lscript x delay) (hs_of x infosB) tid 0 outsB.
Proof.
  intros Hsha Hexp HpA HpB HsA HsB. pose proof (peers_htlcs _ _ _ _ _ _ _ _ _ _ _ _ P) as Hb.
  pose proof (fees_perm _ _ _ _ (peers_fees _ _ _ _ _ _ _ _ _ _ _ _ P) pair_fees Hb) as Hfe.
  assert (out_key <$> outsA = out_key <$> outsB) as Ekey.
  { apply out_keys_unique; [done..|]. rewrite HpA, HpB. by apply all_keys_perm. }
  split; [done|]. rewrite <- Hfe.
  apply (jobs_agree x fdA rate dust num our their delay (ln_is_funder fdA) infosA infosB); try done.
  - apply (peers_fees _ _ _ _ _ _ _ _ _ _ _ _ P).
  - apply pair_fees.
  - intros o Ho. by rewrite <- HpA.
  - intros o Ho. by rewrite <- HpB.
Qed.

Lemma pair_sigs (jA jB : list (nat * bytes)) garbage m : good_key hk → snd <$> jA = snd <$> jB → (length jB ≤ m)%nat →
  length jA = length jB ∧
  take (64 * length jB) (default [] (put_sigs 0 ((λ j, rs_of hk j.2) <$> jB) (sigs_init garbage m))) =
  concat ((λ j : nat * bytes, rs_of hk j.2) <$> jA).
Proof.
  intros Hk Ej Hm. split; [by rewrite <- (length_fmap snd jA), Ej, length_fmap|].
  assert (∀ j : list (nat * bytes), ((λ j : nat * bytes, rs_of hk j.2) <$> j) = rs_of hk <$> (snd <$> j)) as Em
    by (intros j; by rewrite <- list_fmap_compose).
  rewrite (Em jA), Ej, <- Em, <- (length_fmap (λ j : nat * bytes, rs_of hk j.2) jB). apply take_sigs.
  - apply Forall_fmap, Forall_true. intros j. by destruct (sign_cycle hk j.2 Hk) as (_ & Hl & _).
  - by rewrite length_fmap.
Qed.
End pair.

Lemma commitments_agree fdA fdB sA sB c infosA infosB our their kA kB hk num dbgA dbgB rowsA rowsB revsA garbage dA dB :
  peers fdA fdB sA sB c infosA infosB our their kA kB hk →
  no_collision sA sB infosA → equal_expiry sA infosA →
  all_outs (funding_local sA) fdA (LnSelf.LnSelf.feerate_per_kw sA) (dust_limit_sat c) num our their
    (to_self_delay (commit_local sB)) (ln_is_funder fdA) infosA ≠ [] →
  Forall (λ r, row_preimage r ≠ []) rowsB →
  ∃ tid sig sigs n dB',
    create_to_remote true dbgB rowsB garbage fdB sB true num (mk_bst (mk_remote c None) None dB) =
      Ret true (mk_bst (mk_remote (set_htlc_num (Z.of_nat n) (set_signature sig (set_txid tid c))) sigs) None dB') ∧
    let hsigs := take (64 * n) (default [] sigs) in
    let sA1 := set_commit_local (set_signature sig (commit_local sA)) sA in
    ∃ stored,
    create_to_local true dbgA rowsA revsA fdA (Some (init_cells hsigs)) (Z.of_nat n) num
        (to_self_delay (commit_local sB)) (dust_limit_sat c) (mk_bst sA1 None dA) =
      Ret true (mk_bst (set_cnl_add_htlc (store_sigs stored (cnl_add_htlc sA))
        (set_commit_local (set_htlc_num (Z.of_nat n) (set_txid tid (commit_local sA1))) sA1)) None dA) ∧
    concat (snd <$> stored) = hsigs ∧ length stored = n ∧ (n ≤ 200)%nat ∧ is_sig sig ∧
    Forall (λ j, j.1 ∈ add_htlc_idx <$> infosA ∧ is_sig j.2) stored.
Proof.
  intros P Hsha Hexp Hne Hrows. pose proof (pair_outs _ _ _ _ _ _ _ _ _ num _ _ _ P Hne) as HneB.
  pose proof (pair_fees _ _ _ _ _ _ _ _ _ _ _ _ P) as HfeesB. pose proof (pair_jobs _ _ _ _ _ _ _ _ _ num _ _ _ P) as Hpair.
  destruct (pair_scripts _ _ _ _ _ _ _ _ _ num _ _ _ P) as (Ehs & Els & HkB & Eall).
  destruct P as [(E1 & E2 & E3 & E4 & E5) Htx _ (p1 & p2 & Hpp & Hred & Hspk) [HpA HgA] [HpB HgB] _ Hkeys (sec & Hsec & Ehk)
    [Hgk Hhk] HlA HrB _ Hrate Hfees [Hour Htheir] Hdel (Hl1 & Hl2 & Hl3)].
  set (rate := LnSelf.LnSelf.feerate_per_kw sA) in *. set (dust := dust_limit_sat c) in *.
  set (delay := to_self_delay (commit_local sB)) in *. set (x := funding_local sA) in *. set (xB := funding_remote sB) in *.
  assert (zlen (two_of_two p1 p2) < 0xff00) as Hdl.
  { rewrite two_of_two_len; [done| |]; destruct (key_fund_sort fdA); injection Hpp as -> ->; apply pub_read; (apply HgA || apply HgB). }
  assert (pub_of hk ≠ []) as Hpk by (destruct Hgk as [_ Hk]; apply pub_read in Hk as [Hk _]; intros E0; unfold pub_of in E0; by rewrite E0 in Hk).
  destruct (remote_builds dbgB rowsB Hrows garbage fdB sB c xB infosB our their num (two_of_two p1 p2) kB hk (pub_of hk) dB
    eq_refl HrB HkB ltac:(by rewrite <- Hrate) Hdel Hour Htheir ltac:(by rewrite <- E1) ltac:(by rewrite <- E4) Hdl
    ltac:(by rewrite <- Hrate, Eall) HpB HgB Hgk Hpk (htlckey_known sB sec hk Hsec Hgk Ehk) Hl1 Hl2 Hl3)
    as (outsB & tid & dB' & HpB' & HsB & Etid & Hremote).
  rewrite <- Hrate in HpB', Etid, Hremote. fold rate dust delay in HpB', Etid, Hremote. rewrite Eall in HpB'. rewrite Ehs, Els in Hremote.
  set (tB := cmt_tx (cmt xB fdB _ _ _ _ _ _ _) outsB) in *. set (iB := mk_in (f_txid fdB) _ _ _ _) in *.
  set (sig := rs_of kB _) in Hremote. set (jB := jobs _ _ _ tid 0 outsB) in *.
  set (sA1 := set_commit_local (set_signature sig (commit_local sA)) sA).
  destruct (local_accepts dbgA rowsA revsA fdA sA1 x infosA our their rate dust delay num p1 p2 kA kB hk eq_refl HlA eq_refl
    Hkeys Hfees Hdel Hour Htheir Htx Hred Hspk Hpp Hne HpA HgA HgB Hgk Hhk (rs_is_sig kB _ HgB)) as (outsA & tidA & HpA' & HsA & EtidA & Hlocal).
  cbn zeta in *. destruct (Hpair outsA outsB tid Hsha Hexp HpA' HpB' HsA HsB) as [Ekey Ejobs]. fold jB in Ejobs.
  assert (tB = cmt_tx (cmt x fdA rate dust num our their delay infosA) outsB) as EtB.
  { unfold tB, cmt_tx, cmt, lntx_commit. cbn [fund_txid fund_txid_index obscured]. by rewrite E1, E2, E5. }
  assert (tidA = tid) as -> by (rewrite EtidA, Etid, EtB; unfold txid_of; by rewrite (keys_txid _ outsA outsB) by done).
  set (jA := jobs (fees rate dust infosA) (lscript x delay) (hs_of x infosA) tid 0 outsA) in *.
  pose proof (jobs_room x fdA rate dust num our their delay (ln_is_funder fdA) infosB outsB tid 0 HpB') as Hroom.
  destruct (pair_sigs hk jA jB garbage (length infosB) Hgk Ejobs Hroom) as [Ejl Etake].
  exists tid, sig, (put_sigs 0 ((λ j, rs_of hk j.2) <$> jB) (sigs_init garbage (length infosB))), (length jB), dB'.
  split; [exact Hremote|]. fold sA1. exists (signed hk jA). rewrite Etake. split_and!.
  - apply Hlocal; [|done|by rewrite Ejl]. change (signature (commit_local sA1)) with sig. unfold sig, iB.
    rewrite EtB, <- E1, <- E2, <- E3, <- E5. by rewrite (keys_bip143 _ outsA outsB).
  - unfold signed. by rewrite <- list_fmap_compose.
  - unfold signed. by rewrite length_fmap.
  - etrans; [exact Hroom|apply HfeesB].
  - by apply rs_is_sig.
  - apply Forall_fmap. eapply Forall_impl; [apply jobs_slots|]. intros j (y & Hy & Ej). cbn. rewrite Ej.
    split; [|by apply rs_is_sig].
    unfold hs_of in Hy. apply list_elem_of_fmap in Hy as (h & -> & Hh). by apply list_elem_of_fmap_2.
Qed.

(** C11: Both peers build the same commitment transaction, whatever slots the HTLCs are in:
    the signature [create_to_remote] makes of it and the HTLC signatures it
    makes are accepted by [create_to_local] of the other side, which computes
    the same identifier and stores the signatures. This holds as long as HTLCs whose
    outputs have the same value and script expire at the same height. *)
Theorem peers_agree fdA fdB sA sB c infosA infosB our their kA kB hk num dbgA dbgB rowsA rowsB revsA garbage dA dB :
  peers fdA fdB sA sB c infosA infosB our their kA kB hk →
  no_collision sA sB infosA → equal_expiry sA infosA →
  all_outs (funding_local sA) fdA (LnSelf.LnSelf.feerate_per_kw sA) (dust_limit_sat c) num our their
    (to_self_delay (commit_local sB)) (ln_is_funder fdA) infosA ≠ [] →
  Forall (λ r, row_preimage r ≠ []) rowsB →
  ∃ tid sig sigs n dB',
    create_to_remote true dbgB rowsB garbage fdB sB true num (mk_bst (mk_remote c None) None dB) =
      Ret true (mk_bst (mk_remote (set_htlc_num (Z.of_nat n) (set_signature sig (set_txid tid c))) sigs) None dB') ∧
    let hsigs := take (64 * n) (default [] sigs) in
    let sA1 := set_commit_local (set_signature sig (commit_local sA)) sA in
    ∃ stored,
    create_to_local true dbgA rowsA revsA fdA (Some (init_cells hsigs)) (Z.of_nat n) num
        (to_self_delay (commit_local sB)) (dust_limit_sat c) (mk_bst sA1 None dA) =
      Ret true (mk_bst (set_cnl_add_htlc (store_sigs stored (cnl_add_htlc sA))
        (set_commit_local (set_htlc_num (Z.of_nat n) (set_txid tid (commit_local sA1))) sA1)) None dA) ∧
    concat (snd <$> stored) = hsigs ∧ length stored = n ∧ (n ≤ 200)%nat ∧ is_sig sig ∧
    Forall (λ j, j.1 ∈ add_htlc_idx <$> infosA ∧ is_sig j.2) stored.
Proof. apply commitments_agree. Qed.
End agree.
End LnAgree.
