(* ===== verification/LnExchange.v ===== *)
(** A round between two nodes: commitment_signed from one to the other and the
    revoke_and_ack back, with the transactions of [LnBuild] in the handlers of
    [LnNormal] and [LnRecv]. *)
From stdpp Require Import base list numbers tactics sorting.
From Stdlib Require Import ZArith Lia.
From S2P Require Import Prelude CProg UtlBuf UtlPush LnDerkey LnMisc LnMsg LnMsgNormal LnSig LnHtlc LnSelf BtcTx.
From S2P Require Import BtcTxWire BtcTxRead BtcSw BtcSort BtcDigest BtcBuild LnScript LnSpend LnWitness LnCommitTx.
From S2P Require Import LnBuild LnSignTx LnAgree LnNormal LnRecv LnCommit.
Import UtlBuf UtlPush ShaChain Derkey LnMisc LnMsg LnMsgNormal LnSig LnHtlc LnSelf.LnSelf BtcTx BtcTxWire BtcTxRead BtcSw.
Import BtcSort BtcDigest BtcBuild LnScript LnSpend LnWitness LnCommitTx LnBuild LnSignTx LnAgree.
Import LnSelf.LnSelf LnNormal.LnNormal LnRecv.LnRecv LnCommit.LnCommit.
Open Scope Z_scope.

Module LnExchange.

(** ** The encoder takes the signatures it needs *)

Section codec.
Context {A : Alloc}.

Lemma push_data_take l n st : utl_push_data (take (Z.to_nat (u32 n)) l) n st = utl_push_data l n st.
Proof.
  unfold utl_push_data. cbv zeta.
  assert (∀ (b : option (list cell)) pos, write_cells b pos (take (Z.to_nat (u32 n)) l) (u32 n) = write_cells b pos l (u32 n)) as Hw.
  { intros b pos. unfold write_cells. destruct (Z.eqb_spec (u32 n) 0); [done|]. destruct b as [c|]; [|done].
    rewrite take_take, Nat.min_id. pose proof (wrap_range 32 n ltac:(lia)) as Hr. unfold in_range, u32 in *.
    case_bool_decide as H1; case_bool_decide as H2; try done; rewrite length_take in *; lia. }
  unfold mbind, prog_bind, get_st, modify, of_option. cbn.
  match goal with |- match ?x with _ => _ end = _ => destruct x end; try done. by rewrite Hw.
Qed.

Lemma bind_cong {S X Y} (m : prog S X) (f g : X → prog S Y) s :
  (∀ a s', f a s' = g a s') → (m ≫= f) s = (m ≫= g) s.
Proof. intros Hfg. unfold mbind, prog_bind. by destruct (m s). Qed.

Lemma bind_first {S X Y} (m m' : prog S X) (f : X → prog S Y) s : m s = m' s → (m ≫= f) s = (m' ≫= f) s.
Proof. intros Hm. unfold mbind, prog_bind. by rewrite Hm. Qed.

Lemma push_ptr_take p k s : 0 ≤ k < 2 ^ 32 → push_ptr p k s = push_ptr (Some (take (Z.to_nat k) (default [] p))) k s.
Proof.
  intros Hk. assert (u32 k = k) as Eu by (apply wrap_small; unfold in_range; lia).
  unfold push_ptr. apply bind_first. unfold call, run. cbv beta. cbn [default]. rewrite <- (push_data_take (default [] p) k s), Eu. done.
Qed.

Lemma commit_signed_trim c sig n p st : 0 ≤ n < 2 ^ 16 →
  CommitSigned.ln_msg_commit_signed_create (CommitSigned.mk c sig n p) st =
  CommitSigned.ln_msg_commit_signed_create
    (CommitSigned.mk c sig n (Some (take (Z.to_nat (n * LN_SZ_SIGNATURE)) (default [] p)))) st.
Proof.
  intros Hn. unfold CommitSigned.ln_msg_commit_signed_create.
  do 5 (apply bind_cong; intros ? ?). cbn [CommitSigned.p_htlc_signature CommitSigned.num_htlcs].
  apply bind_first, push_ptr_take. lia.
Qed.

(** ** The messages *)

Lemma wire_sizes cid sig n sigs :
  let m := CommitSigned.mk cid sig n (Some (init_cells sigs)) in
  is_bytes cid → length cid = 32%nat → is_sig sig → is_bytes sigs →
  Z.of_nat (length sigs) = n * 64 → 0 ≤ n ≤ 200 →
  CommitSigned.wf m ∧ packet (CommitSigned.wire m ++ []).
Proof.
  intros m Hc Hcl [Hsl Hs] Hb Hl Hn.
  assert (CommitSigned.sigs m = sigs) as Es by (by apply CommitSigned.sigs_dec).
  split.
  - unfold CommitSigned.wf. rewrite Es. cbn [m CommitSigned.p_channel_id CommitSigned.p_signature
      CommitSigned.num_htlcs CommitSigned.p_htlc_signature].
    split_and!; try done; unfold in_range; lia.
  - rewrite app_nil_r. unfold CommitSigned.wire. rewrite Es. split.
    + repeat apply Forall_app_2; try done; apply be_bytes_is_bytes.
    + rewrite !length_app, !length_be_bytes. cbn [m CommitSigned.p_channel_id CommitSigned.p_signature]. lia.
Qed.

Lemma revocation_packet m : RevokeAndAck.wf m → packet (RevokeAndAck.wire m ++ []).
Proof.
  intros (H1 & H2 & H3 & H4 & H5 & H6). rewrite app_nil_r. unfold RevokeAndAck.wire. split.
  - repeat apply Forall_app_2; try done; apply be_bytes_is_bytes.
  - rewrite !length_app, length_be_bytes. lia.
Qed.
End codec.

(** What [create_commitment_signed] does with a transaction that could be made. *)
Lemma commitment_created {N : Env} {L : EnvLaws N} self sig tid n sigs cells :
  M_INIT_FLAG_EXCHNAGED (init_flag self) = true →
  LnSelf.LnSelf.create_to_remote self (commit_remote self) (u64 (commit_num (commit_remote self) + 1)) =
    mk_remote_tx true sig tid n cells →
  let m := CommitSigned.mk (channel_id self) sig n (Some (init_cells sigs)) in
  take (Z.to_nat (n * LN_SZ_SIGNATURE)) (default [] cells) = init_cells sigs →
  CommitSigned.wf m →
  create_commitment_signed self = Ret (true, of_bytes (CommitSigned.wire m))
    (set_commit_remote (set_commit_num (u64 (commit_num (commit_remote self) + 1))
      (set_signature sig (set_txid tid (set_htlc_num n (commit_remote self))))) self).
Proof.
  intros Hi Htx m Hc Hm. assert (0 ≤ n < 2 ^ 16) as Hn by apply Hm.
  unfold create_commitment_signed. rewrite bind_get_st, Hi, Htx. cbn [negb rt_ret]. cbv zeta.
  rewrite !bind_modify, bind_get_st. unfold store_remote_tx. cbn [rt_signature rt_txid rt_htlc_num rt_htlc_sigs].
  match goal with |- _ = Ret _ ?s => set (self' := s) end.
  match goal with |- _ ?s = _ => assert (s = self') as -> by (by destruct self) end.
  change (channel_id self') with (channel_id self). change (signature (commit_remote self')) with sig.
  change (htlc_num (commit_remote self')) with n.
  pose proof CommitSigned.commit_signed_codec as Cc. unfold encode.
  rewrite (on_local_step _ _ true (mk_push (Z.of_nat (length (CommitSigned.wire m))) (of_bytes (CommitSigned.wire m))));
    [reflexivity|]. unfold run. rewrite commit_signed_trim by done. rewrite Hc. exact (msg_create m _ Hm).
Qed.
(** ** A node whose commitment transactions are built *)

(** What a node has besides its channel: its configuration, its tables, and the
    channel's data that is fixed once it is funded. *)
Record config := mk_config {
  c_debug : Z;
  c_chain : bytes;
  c_id : bytes;
  c_annocnl : Z → Z → option bytes;
  c_hmac : bytes → bytes → bytes;
  c_chacha : bytes → nat → bytes;
  c_fund : ln_fund_t;
  c_match : bool;
  c_rows : list preimg_row;
  c_revoked : bytes;
  c_garbage : nat → Z;
}.

Section node.
Context {A : Alloc} {F : Fresh} {H : BtcHash} {E : Ecdsa}.

(** The fields the builders write. A run that ends in undefined behaviour or a
    failed assertion builds no transaction. *)
Definition built_local (c : config) (self : ln_self_t) (sigs : option (list cell))
    (num CommitNum delay dust : Z) : local_tx :=
  match LnBuild.create_to_local true (c_match c) (c_rows c) (c_revoked c) (c_fund c) sigs num CommitNum
          delay dust (mk_bst self None []) with
  | Ret ret s | Exit ret s =>
      let self := main s in
      mk_local_tx ret (txid (commit_local self)) (htlc_num (commit_local self))
        (UpdateAddHtlc.signature <$> cnl_add_htlc self)
  | UB | AbortOut => mk_local_tx false [] 0 []
  end.

Definition built_remote (c : config) (self : ln_self_t) (pCommit : ln_commit_data_t) (CommitNum : Z) : remote_tx :=
  match LnBuild.create_to_remote true (c_match c) (c_rows c) (c_garbage c) (c_fund c) self true CommitNum
          (mk_bst (mk_remote pCommit None) None []) with
  | Ret ret s | Exit ret s =>
      let d := LnBuild.pCommit (main s) in
      mk_remote_tx ret (signature d) (txid d) (htlc_num d) (init_cells <$> pHtlcSigs (main s))
  | UB | AbortOut => mk_remote_tx false [] [] 0 None
  end.

Definition node (c : config) : Env := {|
  btc_util_sha256 := mbedtls_sha256;
  curve := ecdsa_curve;
  alloc := A;
  ln_debug_get := c_debug c;
  gGenesisChainHash := c_chain c;
  ln_node_getid := c_id c;
  ln_db_annocnlupd_load := c_annocnl c;
  LnSelf.LnSelf.create_to_local := built_local c;
  LnSelf.LnSelf.create_to_remote := built_remote c;
  mbedtls_md_hmac := c_hmac c;
  chacha20_stream := c_chacha c;
|}.


(** ** Two nodes in step *)

Context {T : AllocTotal A} {HL : BtcHashLaws H} {EL : EcdsaLaws E}.

(** Each side holds the keys of the other; A has committed as often as B has asked
    it to, and revoked the commitments before. *)
Record in_step (cA cB : config) (sA sB : ln_self_t) : Prop := {
  step_keys : funding_local sA = funding_remote sB ∧ funding_remote sA = funding_local sB;
  step_num : commit_num (commit_remote sB) = commit_num (commit_local sA);
  step_id : channel_id sA = channel_id sB ∧ is_bytes (channel_id sA) ∧ length (channel_id sA) = 32%nat;
  step_terms : dust_limit_sat (commit_remote sB) = dust_limit_sat (commit_local sA) ∧
    to_self_delay (commit_local sB) = to_self_delay (commit_remote sA);
  step_index : @keys_in_step (node cA) sA;
  step_secrets : @peer_secrets (node cB) (storage_seed sA) (commit_num (commit_local sA)) sB;
}.

(** The transaction A is to get. *)
Record signable (cA cB : config) (sA sB : ln_self_t) infosA infosB our their kA kB hk : Prop := {
  sign_peers : peers (c_fund cA) (c_fund cB) sA sB (commit_remote sB) infosA infosB our their kA kB hk;
  sign_scripts : no_collision sA sB infosA;
  sign_expiry : equal_expiry sA infosA;
  sign_outs : all_outs (funding_local sA) (c_fund cA) (LnSelf.LnSelf.feerate_per_kw sA) (dust_limit_sat (commit_remote sB))
    (commit_num (commit_local sA) + 1) our their (to_self_delay (commit_local sB)) (ln_is_funder (c_fund cA)) infosA ≠ [];
  sign_rows : Forall (λ r, row_preimage r ≠ []) (c_rows cB);
}.

(** B's commitment_signed is made, and is the one A accepts. *)
Lemma signature_sent cA cB {LA : EnvLaws (node cA)} {LB : EnvLaws (node cB)} sA sB infosA infosB our their kA kB hk :
  in_step cA cB sA sB → signable cA cB sA sB infosA infosB our their kA kB hk →
  M_INIT_FLAG_EXCHNAGED (init_flag sB) = true →
  ∃ m tid sB', CommitSigned.wf m ∧ packet (CommitSigned.wire m ++ []) ∧
    CommitSigned.p_channel_id m = channel_id sA ∧
    @create_commitment_signed (node cB) sB = Ret (true, of_bytes (CommitSigned.wire m)) sB' ∧
    sB' = set_commit_remote (set_commit_num (commit_num (commit_local sA) + 1)
      (set_signature (CommitSigned.p_signature m) (set_txid tid (set_htlc_num (CommitSigned.num_htlcs m) (commit_remote sB))))) sB ∧
    ∃ stored, @local_tx_of (node cA) sA m =
      mk_local_tx true tid (CommitSigned.num_htlcs m)
        (UpdateAddHtlc.signature <$> store_sigs stored (cnl_add_htlc sA)).
Proof.
  intros [_ En (Eid & Hb & Hl) [Ed Et] Hk _] [P Hsha Hexp Hne Hrows] Hi.
  destruct (commitments_agree _ _ _ _ _ _ _ _ _ _ _ _ (commit_num (commit_local sA) + 1) (c_match cA) (c_match cB)
    (c_rows cA) (c_rows cB) (c_revoked cA) (c_garbage cB) [] [] P Hsha Hexp Hne Hrows)
    as (tid & sig & sigs & n & dB' & Hrem & stored & Hloc & Hcat & Hlen & Hn & Hsig & Hst).
  set (hsigs := take (64 * n) (default [] sigs)) in *.
  assert (u64 (commit_num (commit_local sA) + 1) = commit_num (commit_local sA) + 1) as Eu
    by (apply wrap_small; unfold in_range; destruct Hk as (? & ? & ? & _); lia).
  assert (is_bytes hsigs ∧ Z.of_nat (length hsigs) = Z.of_nat n * 64) as [Hhb Hhl].
  { rewrite <- Hcat. split.
    - apply Forall_concat, Forall_fmap. eapply Forall_impl; [exact Hst|]. intros j [_ [_ Hj]]. exact Hj.
    - subst n. clear -Hst. induction Hst as [|j l [_ [Hj _]] _ IH]; [done|].
      cbn [fmap list_fmap concat]. rewrite length_app, Hj. cbn [length] in *. lia. }
  destruct (wire_sizes (channel_id sB) sig (Z.of_nat n) hsigs) as [Hwf Hpk]; try done; try (rewrite <- Eid; done); [lia|].
  eexists _, tid, _. split; [exact Hwf|]. split; [exact Hpk|]. split; [done|].
  cbn [CommitSigned.p_signature CommitSigned.num_htlcs]. split; [|split; [reflexivity|]].
  - rewrite <- Eu at 1. rewrite <- En at 1.
    apply (commitment_created (N := node cB) sB sig tid (Z.of_nat n) hsigs (init_cells <$> sigs)); [done| | |exact Hwf].
    + cbn [LnSelf.LnSelf.create_to_remote node]. unfold built_remote. rewrite En, Eu, Hrem. reflexivity.
    + unfold hsigs. destruct sigs as [l|]; cbn [default fmap option_fmap option_map].
      * unfold init_cells. rewrite fmap_take. f_equal. lia.
      * by rewrite !take_nil.
  - exists stored. unfold local_tx_of. cbn [LnSelf.LnSelf.create_to_local node CommitSigned.p_signature
      CommitSigned.num_htlcs CommitSigned.p_htlc_signature]. unfold built_local, with_signature.
    rewrite Eu, <- Et, <- Ed, (wrap_small 8 (Z.of_nat n)) by (unfold in_range; lia). rewrite Hloc. reflexivity.
Qed.

(** Neither is ever computed by conversion. *)
#[local] Opaque ln_derkey_create_secret ln_misc_update_scriptkeys.

(** Both sides make the same script keys of the new point. *)
Lemma keys_meet (sA sB : ln_self_t) pt l r :
  funding_local sA = funding_remote sB → funding_remote sA = funding_local sB →
  (l, r) = ln_misc_update_scriptkeys mbedtls_sha256 (funding_local sB) (set_percommit pt (funding_remote sB)) →
  let k := ln_misc_update_scriptkeys mbedtls_sha256 (set_percommit pt (funding_local sA)) (funding_remote sA) in
  k.1 = r ∧ k.2 = l.
Proof. intros -> -> Hk. cbv zeta. rewrite scriptkeys_swap, <- Hk. done. Qed.

(** C10: one round between two nodes in step: the commitment_signed B makes is accepted by
    A, whose one answer is the revoke_and_ack that B accepts. They have built
    the same transaction, A has moved on by one commitment, B has the secret of
    every commitment A has revoked, and the two are in step again, so that the
    next round can follow. *)
Theorem commitment_round cA cB {LA : EnvLaws (node cA)} {LB : EnvLaws (node cB)} sA sB
    infosA infosB our their kA kB hk pt0 pt :
  let n := commit_num (commit_local sA) in
  let sec := @percommit_sec (node cA) sA in
  in_step cA cB sA sB → signable cA cB sA sB infosA infosB our their kA kB hk →
  M_INIT_FLAG_EXCHNAGED (init_flag sB) = true → 1 ≤ storage_index sA →
  btc_keys_priv2pub (sec n) = Some pt0 → btc_keys_priv2pub (sec (n + 2)) = Some pt →
  ∃ d r sB1 sA' sB',
    @create_commitment_signed (node cB) sB = Ret (true, of_bytes d) sB1 ∧
    @recv_commitment_signed (node cA) d (Z.of_nat (length d)) sA = Ret true sA' ∧
    trace sA' = trace sA ++ [LN_CB_SEND_REQ (of_bytes r); DB_SECRET_SAVE; DB_SELF_SAVE] ∧
    @recv_revoke_and_ack (node cB) r (Z.of_nat (length r)) sB1 = Ret true sB' ∧
    txid (commit_local sA') = txid (commit_remote sB') ∧
    commit_num (commit_local sA') = n + 1 ∧ in_step cA cB sA' sB' ∧
    ∀ pS k, 0 ≤ k ≤ n → ln_derkey_storage_get_secret mbedtls_sha256 pS (peer_storage sB') (LN_SECINDEX_INIT - k) =
      Some (true, sec k).
Proof.
  intros n sec Hstep Hsign Hinit Hidx Hpt0 Hpt.
  destruct (signature_sent _ _ _ _ _ _ _ _ _ _ _ Hstep Hsign Hinit)
    as (m & tid & sB1 & Hm & Hp & Hid & Hcreate & EsB1 & stored & Htx).
  destruct Hstep as [[K1 K2] En (Eid & Hb & Hl) [Ed Et] Hk Hsec]. rewrite app_nil_r in Hp.
  destruct (commitment_accepted (E := node cA) sA m [] pt Hk Hidx Hm ltac:(by rewrite app_nil_r) Hid
    ltac:(by rewrite Htx) Hpt) as (pr & Hrecv & _ & Hk').
  cbv zeta in Hrecv, Hk'. rewrite app_nil_r in Hrecv.
  assert (RevokeAndAck.wf (@revocation_of (node cA) sA pt)) as Hrv
    by (apply (revocation_wf (E := node cA) sA pt (n + 2) Hk Hb); [by rewrite Hl|exact Hpt]).
  destruct (honest_step (E := node cB) sB1 (@revocation_of (node cA) sA pt) [] (storage_seed sA) n pt0)
    as (sB' & st & Hrevoke & Hrev & Hsec').
  { exact Hrv. }
  { by apply revocation_packet. }
  { rewrite EsB1. exact Eid. }
  { unfold n. destruct Hk as (? & ? & ? & _). lia. }
  { rewrite EsB1. exact Hsec. }
  { reflexivity. }
  { exact Hpt0. }
  rewrite app_nil_r in Hrevoke.
  match type of Hrecv with _ = Ret true ?s => set (sA' := s) in * end.
  exists (CommitSigned.wire m), (RevokeAndAck.wire (@revocation_of (node cA) sA pt)), sB1, sA', sB'.
  destruct Hrev as (_ & _ & _ & _ & Hfund & _ & Erem & Eloc & _ & _ & Echan & _). rewrite EsB1 in Hfund, Erem, Eloc, Echan.
  split; [exact Hcreate|]. split; [exact Hrecv|]. split; [reflexivity|]. split; [exact Hrevoke|].
  split; [|split; [reflexivity|split]].
  - rewrite Erem. unfold sA', committed_to. rewrite Htx. reflexivity.
  - destruct (keys_meet sA sB pt _ _ K1 K2 Hfund) as [KA1 KA2]. split.
    + split; [exact KA1|exact KA2].
    + rewrite Erem. reflexivity.
    + rewrite Echan. split; [exact Eid|split; [exact Hb|exact Hl]].
    + rewrite Erem, Eloc. split; [exact Ed|exact Et].
    + exact Hk'.
    + exact Hsec'.
  - intros pS k Hkn. apply (secrets_known (E := node cB) _ _ n); [exact Hsec'|exact Hkn|].
    unfold n. destruct Hk as (? & ? & ? & _). lia.
Qed.
End node.
End LnExchange.
