(* ===== verification/LnToyPair.v ===== *)
(** Two peers of one channel, each with the HTLCs in slots of its own, on the concrete
    curve and hash of the other witnesses. *)
From stdpp Require Import base list numbers tactics sorting.
From Stdlib Require Import ZArith Lia.
From S2P Require Import Prelude CProg UtlBuf UtlPush LnDerkey LnMisc LnMsg LnMsgNormal LnSig LnHtlc LnSelf BtcTx.
From S2P Require Import BtcTxWire BtcTxRead BtcSw BtcSort BtcDigest BtcBuild LnScript LnSpend LnWitness LnCommitTx.
From S2P Require Import LnBuild LnSignTx LnAgree LnToyNoise LnNormal LnRecv LnCommit LnExchange.
Import UtlBuf UtlPush Derkey LnMisc LnMsg LnMsgNormal LnSig LnHtlc LnSelf.LnSelf BtcTx BtcTxWire BtcTxRead BtcSw.
Import BtcSort BtcDigest BtcBuild LnScript LnSpend LnWitness LnCommitTx LnBuild LnSignTx LnAgree.
Import ShaChain LnSelf.LnSelf LnNormal.LnNormal LnRecv.LnRecv LnCommit.LnCommit LnExchange.
Open Scope Z_scope.

Module LnToyPair.

(** A number from 1 to 250 stands for the hash, so that every secret is a private key. *)
Definition checksum (x : bytes) : Z := 1 + foldl (λ a b, (a * 3 + b) mod 250) 7 x.

#[local] Instance sum_hash : BtcHash :=
  Build_BtcHash (λ x, be_bytes 32 (checksum x)) (λ x, be_bytes 20 (checksum x)).

#[local] Instance sum_hash_laws : BtcHashLaws sum_hash.
Proof. split; intros x; split; [apply be_bytes_is_bytes|apply length_be_bytes|apply be_bytes_is_bytes|apply length_be_bytes]. Qed.

Definition fund (funder : bool) : ln_fund_t :=
  let d := two_of_two (pub_of (be_bytes 32 7)) (pub_of (be_bytes 32 9)) in
  mk_fund (replicate 32 9) 1 100000 (bufb d) true 0x2bb038521914 (bufb (p2wsh_program d)) funder.

Definition commit0 : ln_commit_data_t :=
  mk_commit 546 0 0 0 144 0 (replicate 64 0) [] 0 0 0.

Definition pair_htlc (bits amount : Z) : htlc :=
  UpdateAddHtlc.mk [] 0 amount 400000 (replicate 32 4) (mk_buf None 0) (mk_buf None 0)
    bits 0 0 (replicate 64 0) 0 0 (mk_buf None 0).

Definition seed : bytes := Z.of_nat <$> seq 1 32.

(** The point of A's commitment [n]. *)
Definition point (n : Z) : bytes :=
  default [] (btc_keys_priv2pub (ln_derkey_create_secret mbedtls_sha256 seed (LN_SECINDEX_INIT - n))).

Definition htlc_key : bytes :=
  ln_derkey_privkey mbedtls_sha256 (toy_key 5) (point 1) (be_bytes 32 11).

(** The keys of A, with the scripts of its next transaction, and those of B. *)
Definition keys_A : funding_data :=
  mk_funding (replicate 5 (toy_key 6) ++ [point 1]) [toy_key 1; toy_key 2; toy_key 3; toy_key 4; pub_of htlc_key].
Definition keys_B : funding_data := mk_funding (replicate 6 (toy_key 5)) [].

Definition side (secrets : list bytes) (local remote : funding_data) (our their : Z) (hs : list htlc) : ln_self_t :=
  mk_self (toy_key 1) ln_derkey_storage_init LN_SECINDEX_INIT (LN_SECINDEX_INIT - 2) seed secrets local remote []
    3 0 0 0 0 0 our their (replicate 32 9) 0 hs commit0 commit0 500 None [].

(** One HTLC offered by A, one by B: A has them in this order, B in the other. *)
Definition side_A : ln_self_t :=
  side [be_bytes 32 7] keys_A keys_B 60000000 40000000 [pair_htlc 0x71 5000000; pair_htlc 0x2 7000000].

Definition side_B : ln_self_t :=
  side [be_bytes 32 9; []; []; []; be_bytes 32 11] keys_B keys_A 40000000 60000000
    [pair_htlc 0x11 7000000; pair_htlc 0x182 5000000].

Definition infos_A : list ln_script_htlcinfo_t :=
  (create_to_local_htlcinfo_amount (cnl_add_htlc side_A) 60000000 40000000).1.1.
Definition infos_B : list ln_script_htlcinfo_t :=
  (create_to_remote_htlcinfo (cnl_add_htlc side_B) 60000000 40000000).1.1.

Lemma good_key_small n : 1 ≤ n < 251 → good_key (be_bytes 32 n).
Proof.
  intros Hn. split; [apply length_be_bytes|]. rewrite be_val_be_bytes, wrap_small; [exact Hn|].
  unfold in_range. change (8 * Z.of_nat 32) with 256. lia.
Qed.

Lemma htlc_key_value : htlc_key = be_bytes 32 142.
Proof. by vm_compute. Qed.

(** The two are peers of one channel. *)
Lemma pair_peers : peers (fund true) (fund false) side_A side_B commit0 infos_A infos_B 55000000 33000000
  (be_bytes 32 7) (be_bytes 32 9) htlc_key.
Proof.
  split.
  - by split_and!.
  - reflexivity.
  - reflexivity.
  - eexists _, _. split; [reflexivity|]. by split.
  - split; [reflexivity|]. by apply good_key_small.
  - split; [reflexivity|]. by apply good_key_small.
  - reflexivity.
  - repeat constructor.
  - exists (be_bytes 32 11). split; [reflexivity|]. by vm_compute.
  - split; [rewrite htlc_key_value; by apply good_key_small|reflexivity].
  - by vm_compute.
  - by vm_compute.
  - apply Permutation_swap.
  - reflexivity.
  - split_and!; [by vm_compute..| |apply Nat.leb_le; by vm_compute]. repeat constructor; by vm_compute.
  - split_and!; by vm_compute.
  - split; by vm_compute.
  - split_and!; [reflexivity| |reflexivity]. by apply Forall_replicate.
Qed.

Lemma pair_no_collision : no_collision side_A side_B infos_A.
Proof.
  assert (∀ l : list bytes, NoDup (mbedtls_sha256 <$> l) → ∀ a b, a ∈ l → b ∈ l →
    mbedtls_sha256 a = mbedtls_sha256 b → a = b) as Hl.
  { intros l Hn a b [i Ha]%list_elem_of_lookup [j Hb]%list_elem_of_lookup E.
    assert (i = j) as ->; [|by rewrite Ha in Hb; injection Hb].
    apply (NoDup_lookup _ i j (mbedtls_sha256 a) Hn); rewrite list_lookup_fmap; [by rewrite Ha|].
    by rewrite Hb, E. }
  intros a b. apply Hl. apply (bool_decide_unpack (NoDup _)). by vm_compute.
Qed.

Lemma pair_equal_expiry : equal_expiry side_A infos_A.
Proof.
  intros h y Hh Hy _ _. assert (∀ z, z ∈ infos_A → expiry z = 400000) as Hz.
  { apply Forall_forall. repeat constructor. }
  by rewrite (Hz h), (Hz y).
Qed.

(** B signs, A accepts: one signature per HTLC. *)
Lemma peers_agree_witness : ∃ tid sig sigs n dB' stored,
  @LnBuild.create_to_remote total_alloc zero_fresh sum_hash toy_ecdsa true false [] (λ _, 0) (fund false) side_B true 42
      (mk_bst (mk_remote commit0 None) None []) =
    Ret true (mk_bst (mk_remote (set_htlc_num (Z.of_nat n) (set_signature sig (set_txid tid commit0))) sigs) None dB') ∧
  let hsigs := take (64 * n) (default [] sigs) in
  let side_A1 := set_commit_local (set_signature sig (commit_local side_A)) side_A in
  @LnBuild.create_to_local total_alloc zero_fresh sum_hash toy_ecdsa true false [] [] (fund true) (Some (init_cells hsigs))
      (Z.of_nat n) 42 144 546 (mk_bst side_A1 None []) =
    Ret true (mk_bst (set_cnl_add_htlc (store_sigs stored (cnl_add_htlc side_A))
      (set_commit_local (set_htlc_num (Z.of_nat n) (set_txid tid (commit_local side_A1))) side_A1)) None []) ∧
  concat (snd <$> stored) = hsigs ∧ length stored = n.
Proof.
  destruct (@peers_agree total_alloc total_alloc_total zero_fresh sum_hash sum_hash_laws toy_ecdsa toy_ecdsa_laws
    (fund true) (fund false) side_A side_B commit0 infos_A infos_B 55000000 33000000
    (be_bytes 32 7) (be_bytes 32 9) htlc_key 42 false false [] [] [] (λ _, 0) [] [] pair_peers pair_no_collision
    pair_equal_expiry ltac:(intros E; vm_compute in E; discriminate E) ltac:(constructor))
    as (tid & sig & sigs & n & dB' & H1 & stored & H2 & H3 & H4 & _).
  exists tid, sig, sigs, n, dB', stored. split; [exact H1|]. split; [exact H2|]. by split.
Defined.

(** ** A round *)

Definition config_of (fd : ln_fund_t) : config :=
  mk_config 0 (replicate 32 6) (replicate 33 2) (λ _ _, None) (λ k m, mbedtls_sha256 (k ++ m))
    (λ k n, replicate n 0) fd false [] [] (λ _, 0).

#[local] Instance node_laws fd : EnvLaws (@node total_alloc zero_fresh sum_hash toy_ecdsa (config_of fd)).
Proof.
  split.
  - exact total_alloc_total.
  - intros x. split; [apply be_bytes_is_bytes|apply length_be_bytes].
  - intros p. cbn [pt_write curve node LnToyNoise.group ecdsa_curve toy_ecdsa]. split.
    + constructor; [by vm_compute|apply be_bytes_is_bytes].
    + cbn [length]. by rewrite length_be_bytes.
Qed.

Abbreviation node_A := (@node total_alloc zero_fresh sum_hash toy_ecdsa (config_of (fund true))).
Abbreviation node_B := (@node total_alloc zero_fresh sum_hash toy_ecdsa (config_of (fund false))).

Lemma pair_in_step : @in_step total_alloc zero_fresh sum_hash toy_ecdsa (config_of (fund true)) (config_of (fund false)) side_A side_B.
Proof.
  split.
  - split; reflexivity.
  - reflexivity.
  - split; [reflexivity|]. split; [by apply Forall_replicate|reflexivity].
  - split; reflexivity.
  - unfold keys_in_step. split_and!; by_compute.
  - split; [apply holds_init|reflexivity].
Qed.

Lemma pair_signable : signable (config_of (fund true)) (config_of (fund false)) side_A side_B
  infos_A infos_B 55000000 33000000 (be_bytes 32 7) (be_bytes 32 9) htlc_key.
Proof.
  split; [exact pair_peers|exact pair_no_collision|exact pair_equal_expiry| |constructor].
  intros E. vm_compute in E. discriminate E.
Qed.

(** A's first round with two HTLCs in its commitment. *)
Lemma commitment_round_witness : ∃ d r sB1 sA' sB',
  @create_commitment_signed node_B side_B = Ret (true, of_bytes d) sB1 ∧
  @recv_commitment_signed node_A d (Z.of_nat (length d)) side_A = Ret true sA' ∧
  trace sA' = [LN_CB_SEND_REQ (of_bytes r); DB_SECRET_SAVE; DB_SELF_SAVE] ∧
  @recv_revoke_and_ack node_B r (Z.of_nat (length r)) sB1 = Ret true sB' ∧
  commit_num (commit_local sA') = 1.
Proof.
  destruct (@commitment_round total_alloc zero_fresh sum_hash toy_ecdsa total_alloc_total sum_hash_laws toy_ecdsa_laws
    (config_of (fund true)) (config_of (fund false)) (node_laws _) (node_laws _) side_A side_B infos_A infos_B
    55000000 33000000 (be_bytes 32 7) (be_bytes 32 9) htlc_key (point 0) (point 2) pair_in_step pair_signable
    eq_refl ltac:(by_compute) ltac:(by_compute) ltac:(by_compute))
    as (d & r & sB1 & sA' & sB' & H1 & H2 & H3 & H4 & _ & H5 & _).
  exists d, r, sB1, sA', sB'. split; [exact H1|]. split; [exact H2|]. split; [exact H3|].
  split; [exact H4|exact H5].
Defined.

End LnToyPair.
