(* ===== verification/LnClose.v ===== *)
(** The ways out of a channel in [ln.c]: closing it alone
    ([ln_close_create_unilateral_tx]), following the peer that did
    ([ln_close_create_tx]) and answering a commitment transaction that the peer
    has revoked ([ln_close_remoterevoked]). *)
From stdpp Require Import base list numbers tactics.
From Stdlib Require Import ZArith Lia.
From S2P Require Import Prelude CProg UtlBuf UtlPush LnDerkey LnMisc LnMsg LnMsgNormal LnSig LnHtlc LnSelf BtcTx BtcTxWire.
From S2P Require Import BtcSw LnScript LnCommitTx LnBuild LnNormal LnRecv LnExchange.
Import UtlBuf UtlPush ShaChain Derkey LnMisc LnMsg LnMsgNormal LnSig LnHtlc BtcTx BtcTxWire BtcSw LnScript LnCommitTx LnBuild.
Import LnSelf.LnSelf LnNormal.LnNormal LnRecv.LnRecv LnExchange.
Open Scope Z_scope.

Module LnClose.

Abbreviation LN_RCLOSE_IDX_TOLOCAL := 0%nat.
Abbreviation LN_RCLOSE_IDX_TOREMOTE := 1%nat.
Abbreviation LN_RCLOSE_IDX_HTLC := 2%nat.

(** The fields of [ln_self_t] for a revoked transaction; [None] in [p_revoked_type]
    is [LN_HTLCTYPE_NONE]. *)
Record revoked_t := mk_revoked {
  p_revoked_vout : list utl_buf_t;
  p_revoked_wit : list utl_buf_t;
  p_revoked_type : list (option ln_htlctype_t);
  revoked_sec : utl_buf_t;
  revoked_num : Z;
  revoked_cnt : Z;
}.

(** A row of the table [M_DBI_PAYHASH]: its key, and what is stored for it. *)
Record phash_row := mk_phash {
  ph_vout : bytes;
  ph_type : ln_htlctype_t;
  ph_expiry : Z;
  ph_hash : bytes;
}.

(** The channel and its revoked outputs. *)
Record rst := mk_rst { r_self : ln_self_t; r_out : revoked_t }.

(** A step of one of the two. *)
Definition on_self {B} (m : prog ln_self_t B) : prog rst B := λ s,
  match m (r_self s) with
  | Ret b self => Ret b (mk_rst self (r_out s))
  | Exit b self => Exit b (mk_rst self (r_out s))
  | UB => UB
  | AbortOut => AbortOut
  end.

Definition mod_out (f : revoked_t → revoked_t) : prog rst unit :=
  modify (λ s, mk_rst (r_self s) (f (r_out s))).

(** The same for the builders' state. *)
Definition on_main {X B} (m : prog X B) : prog (bst X) B := λ s,
  match m (main s) with
  | Ret b x => Ret b (mk_bst x (pClose s) (db s))
  | Exit b x => Exit b (mk_bst x (pClose s) (db s))
  | UB => UB
  | AbortOut => AbortOut
  end.

(** [create_to_remote] with [&self->commit_remote]. *)
Definition on_commit_remote {B} (m : prog (bst remote_st) B) : prog (bst ln_self_t) B := λ s,
  let store s' := mk_bst (set_commit_remote (LnBuild.pCommit (main s')) (main s)) (pClose s') (db s') in
  match m (mk_bst (mk_remote (commit_remote (main s)) None) (pClose s) (db s)) with
  | Ret b s' => Ret b (store s')
  | Exit b s' => Exit b (store s')
  | UB => UB
  | AbortOut => AbortOut
  end.

Section code.
Context {A : Alloc} {F : Fresh} {H : BtcHash} {E : Ecdsa} (mNativeSegwit : bool) (c : config).
(** The output the node's funds go to, and the rows of [M_DBI_PAYHASH]. *)
Context (shutdown_scriptpk_local : utl_buf_t) (phash_rows : list phash_row).
#[local] Instance env : Env := node c.

(** ** Closing with the last commitment *)

Definition close_alloc {X} (Num : nat) : prog (bst X) unit :=
  modify (λ s, mk_bst (main s)
    (Some (mk_close (replicate Num btc_tx_init) (replicate Num LN_CLOSE_IDX_NONE) [])) (db s)).

Definition ln_close_free_forcetx {X} : prog (bst X) unit :=
  modify (λ s, mk_bst (main s) (Some (mk_close [] [] [])) (db s)).

(** The keys of the current commitments, the previous ones of those in use. *)
Definition use_prev_keys : prog (bst ln_self_t) unit :=
  self ← gets main;
  let '(secret, point) := ln_signer_create_prev_percommitsec self in
  point ← of_option point;
  mod_self (λ self, set_priv (<[MSG_FUNDIDX_PER_COMMIT := secret]> (priv self)) self);;
  mod_self (λ self, set_funding_local (set_percommit point (funding_local self)) self);;
  mod_self (λ self, set_funding_remote (set_percommit (prev_percommit self) (funding_remote self)) self);;
  on_main update_scriptkeys.

(** Back to the keys in use; a secret that is no private key leaves the point as it is. *)
Definition restore_keys (bak_percommit bak_remotecommit : bytes) : prog (bst ln_self_t) unit :=
  mod_self (λ self, set_priv (<[MSG_FUNDIDX_PER_COMMIT := bak_percommit]> (priv self)) self);;
  match btc_keys_priv2pub bak_percommit with
  | Some point => mod_self (λ self, set_funding_local (set_percommit point (funding_local self)) self)
  | None => mret tt
  end;;
  mod_self (λ self, set_funding_remote (set_percommit bak_remotecommit (funding_remote self)) self);;
  on_main update_scriptkeys.

Definition ln_close_create_unilateral_tx : prog (bst ln_self_t) bool :=
  c_assert (0 <? len shutdown_scriptpk_local);;
  self ← gets main;
  bak_percommit ← of_option (priv self !! MSG_FUNDIDX_PER_COMMIT);
  let bak_remotecommit := fund_key (funding_remote self) MSG_FUNDIDX_PER_COMMIT in
  use_prev_keys;;
  close_alloc (LN_CLOSE_IDX_HTLC + Z.to_nat (htlc_num (commit_local self)));;
  ret ← LnBuild.create_to_local mNativeSegwit (c_match c) (c_rows c) (c_revoked c) (c_fund c) None 0
          (commit_num (commit_local self)) (to_self_delay (commit_remote self)) (dust_limit_sat (commit_local self));
  (if ret : bool then mret tt else ln_close_free_forcetx);;
  restore_keys bak_percommit bak_remotecommit;;
  mret ret.

Definition ln_close_create_tx : prog (bst ln_self_t) bool :=
  self ← gets main;
  bak_percommit ← of_option (priv self !! MSG_FUNDIDX_PER_COMMIT);
  let bak_remotecommit := fund_key (funding_remote self) MSG_FUNDIDX_PER_COMMIT in
  use_prev_keys;;
  close_alloc (LN_CLOSE_IDX_HTLC + Z.to_nat (htlc_num (commit_remote self)));;
  self ← gets main;
  ret ← on_commit_remote (LnBuild.create_to_remote mNativeSegwit (c_match c) (c_rows c) (c_garbage c) (c_fund c)
          self false (commit_num (commit_remote self)));
  (if ret : bool then mret tt else ln_close_free_forcetx);;
  restore_keys bak_percommit bak_remotecommit;;
  mret ret.

(** ** A revoked transaction *)

Definition ln_revoked_buf_alloc : prog rst unit :=
  mod_out (λ o, let n := Z.to_nat (revoked_num o) in
    mk_revoked (replicate n UTL_BUF_INIT) (replicate n UTL_BUF_INIT) (replicate n None)
      (revoked_sec o) (revoked_num o) (revoked_cnt o)).

Definition ln_revoked_buf_free : prog rst unit :=
  o ← gets r_out;
  if revoked_num o =? 0 then mret tt
  else mod_out (λ o, mk_revoked [] [] [] (revoked_sec o) 0 0).

(** [self->p_revoked_vout[i] = x] and so on, in the allocated arrays. *)
Definition set_revoked_vout (i : nat) (x : utl_buf_t) : prog rst unit :=
  o ← gets r_out;
  _ ← of_option (p_revoked_vout o !! i);
  mod_out (λ o, mk_revoked (<[i := x]> (p_revoked_vout o)) (p_revoked_wit o) (p_revoked_type o)
    (revoked_sec o) (revoked_num o) (revoked_cnt o)).
Definition set_revoked_wit (i : nat) (x : utl_buf_t) : prog rst unit :=
  o ← gets r_out;
  _ ← of_option (p_revoked_wit o !! i);
  mod_out (λ o, mk_revoked (p_revoked_vout o) (<[i := x]> (p_revoked_wit o)) (p_revoked_type o)
    (revoked_sec o) (revoked_num o) (revoked_cnt o)).
Definition set_revoked_type (i : nat) (x : ln_htlctype_t) : prog rst unit :=
  o ← gets r_out;
  _ ← of_option (p_revoked_type o !! i);
  mod_out (λ o, mk_revoked (p_revoked_vout o) (p_revoked_wit o) (<[i := Some x]> (p_revoked_type o))
    (revoked_sec o) (revoked_num o) (revoked_cnt o)).

(** [utl_buf_alloc(&buf, 34)] and [btc_sw_wit2prog_p2wsh(buf.buf, script)] *)
Definition wit2prog_buf {S} (script : utl_buf_t) : prog S utl_buf_t :=
  let pBuf := (utl_buf_alloc UTL_BUF_INIT BTC_SZ_WITPROG_P2WSH).2 in
  prog_ ← lift (btc_sw_wit2prog_p2wsh script);
  b ← of_option (write_cells (buf pBuf) 0 (init_cells prog_) BTC_SZ_WITPROG_P2WSH);
  mret (mk_buf b BTC_SZ_WITPROG_P2WSH).

(** [ln_db_phash_search]: the first row whose key is the 34 bytes at [pVout]. *)
Fixpoint ln_db_phash_search {S} (rows : list phash_row) (pVout : utl_buf_t) : prog S (option phash_row) :=
  match rows with
  | [] => mret None
  | row :: rows =>
      if zlen (ph_vout row) =? BTC_SZ_WITPROG_P2WSH then
        d ← of_option (read_cells (buf pVout) BTC_SZ_WITPROG_P2WSH);
        if bool_decide (ph_vout row = d) then mret (Some row) else ln_db_phash_search rows pVout
      else ln_db_phash_search rows pVout
  end.

(** The outputs that are to be taken back: all but those of the size of a P2WPKH. *)
Definition count_revoked (pRevokedTx : btc_tx_t) : prog rst Z :=
  for_idx (seq 0 (Z.to_nat (vout_cnt pRevokedTx))) (λ lp cnt,
    o ← vout_at pRevokedTx lp;
    mret (if negb (len (vout_script o) =? BTC_SZ_WITPROG_P2WPKH) then u16 (cnt + 1) else cnt)) 0.

(** One output; the number of HTLCs so far. *)
Definition revoked_vout (pRevokedTx : btc_tx_t) (lp : nat) (htlc_cnt : nat) : prog rst nat :=
  vout ← vout_at pRevokedTx lp;
  s ← get_st;
  if len (vout_script vout) =? BTC_SZ_WITPROG_P2WPKH then
    set_revoked_wit LN_RCLOSE_IDX_TOREMOTE UTL_BUF_INIT;;
    r ← of_option (utl_buf_alloccopy UTL_BUF_INIT (default [] (buf (vout_script vout))) (len (vout_script vout)));
    set_revoked_vout LN_RCLOSE_IDX_TOREMOTE r.2;;
    mret htlc_cnt
  else
    tolocal ← of_option (p_revoked_vout (r_out s) !! LN_RCLOSE_IDX_TOLOCAL);
    same ← of_option (utl_buf_cmp (vout_script vout) tolocal);
    if same : bool then mret htlc_cnt
    else
      srch ← ln_db_phash_search phash_rows (vout_script vout);
      match srch with
      | Some row =>
          let htlc_idx := (LN_RCLOSE_IDX_HTLC + htlc_cnt)%nat in
          let x := funding_remote (r_self s) in
          wit ← ln_script_htlcinfo_script (ph_type row) (skey x MSG_SCRIPTIDX_LOCALHTLCKEY)
                  (skey x MSG_SCRIPTIDX_REVOCATION) (skey x MSG_SCRIPTIDX_REMOTEHTLCKEY) (ph_hash row) (ph_expiry row);
          set_revoked_wit htlc_idx wit;;
          vout ← wit2prog_buf wit;
          set_revoked_vout htlc_idx vout;;
          set_revoked_type htlc_idx (ph_type row);;
          mret (S htlc_cnt)
      | None => mret htlc_cnt
      end.

Definition revoked_vouts (pRevokedTx : btc_tx_t) : prog rst nat :=
  for_idx (seq 0 (Z.to_nat (vout_cnt pRevokedTx))) (revoked_vout pRevokedTx) 0%nat.

(** The keys of the time of the revoked commitment, and the scripts of its outputs. *)
Definition ln_close_remoterevoked (pRevokedTx : btc_tx_t) : prog rst bool :=
  cnt ← count_revoked pRevokedTx;
  mod_out (λ o, mk_revoked (p_revoked_vout o) (p_revoked_wit o) (p_revoked_type o) (revoked_sec o) (u16 (1 + cnt)) cnt);;
  ln_revoked_buf_alloc;;
  commit_num ← lift (calc_commit_num (f_obscured (c_fund c)) pRevokedTx);
  self ← gets r_self;
  r ← of_option (ln_derkey_storage_get_secret mbedtls_sha256 uninit (peer_storage self)
                   (u64 (LN_SECINDEX_INIT - commit_num)));
  let '(ret, secret) := r in
  mod_out (λ o, mk_revoked (p_revoked_vout o) (p_revoked_wit o) (p_revoked_type o) (of_bytes secret)
    (revoked_num o) (revoked_cnt o));;
  c_assert ret;;
  match btc_keys_priv2pub secret with
  | Some point => on_self (modify (λ self, set_funding_remote (set_percommit point (funding_remote self)) self))
  | None => mret tt
  end;;
  on_self (ln_signer_keys_update_force (u64 (LN_SECINDEX_INIT - commit_num)));;
  on_self update_scriptkeys;;
  self ← gets r_self;
  wit ← ln_script_create_tolocal (skey (funding_remote self) MSG_SCRIPTIDX_REVOCATION)
          (skey (funding_remote self) MSG_SCRIPTIDX_DELAYED) (to_self_delay (commit_local self));
  set_revoked_wit LN_RCLOSE_IDX_TOLOCAL wit;;
  vout ← wit2prog_buf wit;
  set_revoked_vout LN_RCLOSE_IDX_TOLOCAL vout;;
  _ ← revoked_vouts pRevokedTx;
  mret ret.
End code.
End LnClose.
