(* ===== verification/LnPenalty.v ===== *)
(** What answering a revoked commitment transaction does: [ln_close_remoterevoked]
    finds the keys and scripts of all its outputs again. *)
From stdpp Require Import base list numbers tactics sorting.
From Stdlib Require Import ZArith Lia.
From S2P Require Import Prelude CProg UtlBuf UtlPush LnDerkey LnMisc LnMsg LnMsgNormal LnSig LnHtlc LnSelf BtcTx.
From S2P Require Import BtcScript BtcTxWire BtcTxRead BtcSw BtcSort BtcDigest BtcBuild LnScript LnSpend LnWitness LnCommitTx.
From S2P Require Import LnBuild LnSignTx LnAgree LnNormal LnRecv LnCommit LnExchange LnClose.
Import UtlBuf UtlPush ShaChain Derkey LnMisc LnMsg LnMsgNormal LnSig LnHtlc LnSelf.LnSelf BtcTx BtcTxWire BtcTxRead BtcSw.
Import BtcScript BtcSort BtcDigest BtcBuild LnScript LnSpend LnWitness LnCommitTx LnBuild LnSignTx LnAgree.
Import LnSelf.LnSelf LnNormal.LnNormal LnRecv.LnRecv LnCommit.LnCommit LnExchange LnClose.
Open Scope Z_scope.

Module LnPenalty.

(** ** Rows and outputs *)

(** The row an output is found by. *)
Definition find_row (rows : list phash_row) (spk : bytes) : option phash_row :=
  List.find (λ r, bool_decide (length (ph_vout r) = 34%nat ∧ ph_vout r = spk)) rows.

Definition to_remote (spk : bytes) : bool := zlen spk =? 22.

(** The HTLC outputs of [outs] that are known, [p0] being the program of the to_local output. *)
Definition known (rows : list phash_row) (p0 : bytes) (o : tx_output) : option phash_row :=
  if to_remote (out_spk o) then None else if decide (out_spk o = p0) then None else find_row rows (out_spk o).

Definition n_revoked (outs : list tx_output) : nat :=
  length (filter (λ o, to_remote (out_spk o) = false) outs).

Lemma n_revoked_cons o outs :
  n_revoked (o :: outs) = if to_remote (out_spk o) then n_revoked outs else S (n_revoked outs).
Proof.
  unfold n_revoked. destruct (to_remote (out_spk o)) eqn:Eo.
  - rewrite filter_cons_False; [done|]. by rewrite Eo.
  - by rewrite filter_cons_True.
Qed.

Section recover.
Context {A : Alloc} {T : AllocTotal A} {F : Fresh} {H : BtcHash} {HL : BtcHashLaws H} {E : Ecdsa}.
Context (rows : list phash_row).

Lemma wit2prog_buf_spec {S} w (s : S) : zlen w < 2 ^ 16 → wit2prog_buf (of_bytes w) s = Ret (of_bytes (p2wsh_program w)) s.
Proof.
  intros Hw. unfold wit2prog_buf. erewrite bind_ret by (apply lift_ret, wit2prog_spec; lia).
  assert (length (p2wsh_program w) = 34%nat) as Hl by (unfold p2wsh_program; rewrite length_app, (proj2 (sha256_32 _)); done).
  unfold utl_buf_alloc. cbn [snd buf]. rewrite (write_whole A T) by (rewrite ?Hl; done).
  unfold mbind, prog_bind, of_option, mret, prog_ret, of_bytes. by rewrite Hl.
Qed.

Lemma phash_search_spec {S} spk (s : S) : length spk = 34%nat → ln_db_phash_search rows (bufb spk) s = Ret (find_row rows spk) s.
Proof.
  intros Hl. unfold find_row. induction rows as [|r l IH]; [done|]. cbn [ln_db_phash_search List.find].
  assert (spk ≠ []) as Hne by (intros ->; done). rewrite <- of_bytes_bufb in * by done. cbn [buf of_bytes] in *.
  destruct (Z.eqb_spec (zlen (ph_vout r)) 34) as [E1|E1].
  - assert (read_cells (Some (init_cells spk)) 34 = Some spk) as Er by (pose proof (read_of_bytes spk) as Hr; by rewrite Hl in Hr).
    erewrite opt_step by exact Er. case_bool_decide as E2; case_bool_decide as E3; try done; [|by destruct E3].
    destruct E3. split; [lia|done].
  - rewrite bool_decide_eq_false_2; [exact IH|]. intros [E2 _]. lia.
Qed.

(** ** Counting *)

Lemma at_vout {S B} (t : transaction) k o suf (K : btc_vout_t → prog S B) s : drop k (t_outs t) = o :: suf →
  (vout_at (rep t) k ≫= K) s = K (rep_out o) s.
Proof.
  intros Hd. apply opt_step. cbn [rep vout]. rewrite arr_at.
  assert (t_outs t !! k = Some o) as -> by (by rewrite <- (Nat.add_0_r k), <- lookup_drop, Hd). done.
Qed.

Lemma drop_next {X} (l : list X) k o suf : drop k l = o :: suf → drop (S k) l = suf.
Proof. intros Hd. replace (S k) with (k + 1)%nat by lia. by rewrite <- drop_drop, Hd. Qed.

Lemma count_revoked_spec t s : zlen (t_outs t) < 65535 →
  count_revoked (rep t) s = Ret (Z.of_nat (n_revoked (t_outs t))) s.
Proof.
  intros Hn. unfold count_revoked. cbn [rep vout_cnt]. rewrite Nat2Z.id.
  assert (∀ suf k cnt, drop k (t_outs t) = suf → Z.of_nat cnt + zlen suf < 65536 →
    for_idx (seq k (length suf)) (λ lp cnt, o ← vout_at (rep t) lp;
      mret (if negb (len (vout_script o) =? 22) then u16 (cnt + 1) else cnt)) (Z.of_nat cnt) s =
    Ret (Z.of_nat (cnt + n_revoked suf)) s) as Hl.
  { induction suf as [|o suf IH]; intros k cnt Hd Hc; [by rewrite Nat.add_0_r|].
    cbn [length seq for_idx] in *.
    assert (u16 (Z.of_nat cnt + 1) = Z.of_nat (S cnt)) as Eu by (rewrite (wrap_small 16); unfold in_range; lia).
    erewrite (bind_ret (if to_remote (out_spk o) then Z.of_nat cnt else Z.of_nat (S cnt))).
    2:{ rewrite (at_vout t k o suf) by done. unfold to_remote. cbn [rep_out vout_script]. rewrite bufb_len.
        destruct (_ =? 22); cbn [negb]; [done|]. by rewrite Eu. }
    rewrite n_revoked_cons. apply drop_next in Hd.
    destruct (to_remote (out_spk o)); rewrite IH by (done || lia); [done|]. f_equal. lia. }
  apply (Hl (t_outs t) 0%nat 0%nat); [done|lia].
Qed.

(** ** The outputs in turn *)

Context (self : ln_self_t) (p0 : bytes).
Abbreviation x := (funding_remote self).

(** The HTLC script of a row. *)
Definition row_script (r : phash_row) : bytes :=
  htlc_script (ph_type r) (skey x MSG_SCRIPTIDX_LOCALHTLCKEY) (skey x MSG_SCRIPTIDX_REVOCATION)
    (skey x MSG_SCRIPTIDX_REMOTEHTLCKEY) (ph_hash r) (ph_expiry r).

Definition row_ok (r : phash_row) : Prop := length (ph_hash r) = 32%nat ∧ 0 ≤ ph_expiry r ≤ 0x7fffffffff.

Definition put_remote (spk : bytes) (o : revoked_t) : revoked_t :=
  mk_revoked (<[LN_RCLOSE_IDX_TOREMOTE := bufb spk]> (p_revoked_vout o))
    (<[LN_RCLOSE_IDX_TOREMOTE := UTL_BUF_INIT]> (p_revoked_wit o)) (p_revoked_type o)
    (LnClose.revoked_sec o) (revoked_num o) (revoked_cnt o).

Definition put_htlc (i : nat) (r : phash_row) (o : revoked_t) : revoked_t :=
  mk_revoked (<[i := of_bytes (p2wsh_program (row_script r))]> (p_revoked_vout o))
    (<[i := of_bytes (row_script r)]> (p_revoked_wit o)) (<[i := Some (ph_type r)]> (p_revoked_type o))
    (LnClose.revoked_sec o) (revoked_num o) (revoked_cnt o).

(** The arrays have [n] elements. *)
Definition sized (n : nat) (o : revoked_t) : Prop :=
  length (p_revoked_vout o) = n ∧ length (p_revoked_wit o) = n ∧ length (p_revoked_type o) = n.

(** What the loop leaves; [None]: an element behind the arrays is written. *)
Fixpoint recovered (n : nat) (outs : list tx_output) (h : nat) (o : revoked_t) : option (nat * revoked_t) :=
  match outs with
  | [] => Some (h, o)
  | out :: outs =>
      if to_remote (out_spk out)
      then if decide (1 < n)%nat then recovered n outs h (put_remote (out_spk out) o) else None
      else match known rows p0 out with
           | Some r => if decide (2 + h < n)%nat then recovered n outs (S h) (put_htlc (2 + h) r o) else None
           | None => recovered n outs h o
           end
  end.

Lemma mod_out_step {B} f (K : unit → prog rst B) s : (mod_out f ≫= K) s = K tt (mk_rst (r_self s) (f (r_out s))).
Proof. done. Qed.

Lemma opt_none {S X B} (o : option X) (K : X → prog S B) s : o = None → (of_option o ≫= K) s = UB.
Proof. by intros ->. Qed.

Lemma row_script_len r : has_keys x → row_ok r → 0 < zlen (row_script r) < 200.
Proof.
  unfold has_keys. rewrite !Forall_cons. intros (H1 & H2 & H3 & _) (Hh & He). by apply htlc_script_len.
Qed.

Lemma known_row_ok o r : Forall row_ok rows → known rows p0 o = Some r → row_ok r.
Proof.
  intros Hr. unfold known, find_row. case_match; [done|]. case_decide; [done|]. intros [Hf _]%find_some.
  rewrite Forall_forall in Hr. apply Hr. by apply list_elem_of_In.
Qed.

Lemma revoked_vout_spec t k o suf h out n : has_keys x → Forall row_ok rows →
  drop k (t_outs t) = o :: suf → (length (out_spk o) = 22 ∨ length (out_spk o) = 34)%nat →
  sized n out → p_revoked_vout out !! 0%nat = Some (of_bytes p0) →
  revoked_vout rows (rep t) k h (mk_rst self out) =
    if to_remote (out_spk o)
    then if decide (1 < n)%nat then Ret h (mk_rst self (put_remote (out_spk o) out)) else UB
    else match known rows p0 o with
         | Some r => if decide (2 + h < n)%nat then Ret (S h) (mk_rst self (put_htlc (2 + h) r out)) else UB
         | None => Ret h (mk_rst self out)
         end.
Proof.
  intros Hk Hrows Hd Hl (N1 & N2 & N3) H0. unfold revoked_vout. rewrite (at_vout t k o suf) by done.
  rewrite get_st_step. cbn [rep_out vout_script r_self r_out]. rewrite bufb_len. fold (to_remote (out_spk o)).
  assert (out_spk o ≠ []) as Hne by (intros E0; rewrite E0 in Hl; by destruct Hl).
  destruct (to_remote (out_spk o)) eqn:Er.
  - unfold set_revoked_wit, set_revoked_vout. rewrite bind_assoc, gets_step, bind_assoc. cbn [r_out].
    case_decide as Hn.
    + destruct (lookup_lt_is_Some_2 (p_revoked_wit out) 1) as [w Hw]; [lia|]. erewrite opt_step by exact Hw.
      rewrite mod_out_step. cbn [r_self r_out].
      erewrite opt_step.
      2:{ rewrite <- of_bytes_bufb by done. cbn [of_bytes buf default]. rewrite <- (app_nil_r (init_cells _)). apply alloccopy_bytes. }
      rewrite bind_assoc, gets_step, bind_assoc. cbn [r_out p_revoked_vout].
      destruct (lookup_lt_is_Some_2 (p_revoked_vout out) 1) as [v Hv]; [lia|]. erewrite opt_step by exact Hv.
      rewrite mod_out_step. cbn [r_self r_out snd]. reflexivity.
    + by erewrite opt_none by (apply lookup_ge_None_2; lia).
  - erewrite opt_step by exact H0. unfold known. rewrite Er. erewrite opt_step by (rewrite <- of_bytes_bufb by done; apply buf_cmp_of_bytes).
    case_bool_decide as Ep; [by rewrite decide_True|]. rewrite decide_False by done.
    assert (length (out_spk o) = 34%nat) as H34.
    { destruct Hl as [Hl|Hl]; [|done]. unfold to_remote in Er. by rewrite Hl in Er. }
    erewrite bind_ret by (by apply phash_search_spec). destruct (find_row rows (out_spk o)) as [r|] eqn:Ef; [|done].
    assert (row_ok r) as Hr by (apply (known_row_ok o); [done|]; unfold known; by rewrite Er, decide_False).
    destruct Hr as [Hr1 Hr2]. pose proof (row_script_len r Hk (conj Hr1 Hr2)) as Hsl.
    unfold has_keys in Hk. rewrite !Forall_cons in Hk. destruct Hk as (K1 & K2 & K3 & _).
    erewrite bind_ret by (by apply htlcinfo_script_spec). fold (row_script r).
    unfold set_revoked_wit, set_revoked_vout, set_revoked_type. rewrite bind_assoc, gets_step, bind_assoc. cbn [r_out].
    case_decide as Hn.
    + destruct (lookup_lt_is_Some_2 (p_revoked_wit out) (2 + h)) as [w Hw]; [lia|]. erewrite opt_step by exact Hw.
      rewrite mod_out_step. cbn [r_self r_out].
      erewrite bind_ret by (apply wit2prog_buf_spec; lia). rewrite bind_assoc, gets_step, bind_assoc. cbn [r_out p_revoked_vout].
      destruct (lookup_lt_is_Some_2 (p_revoked_vout out) (2 + h)) as [v Hv]; [lia|]. erewrite opt_step by exact Hv.
      rewrite mod_out_step. cbn [r_self r_out]. rewrite bind_assoc, gets_step, bind_assoc. cbn [r_out p_revoked_type].
      destruct (lookup_lt_is_Some_2 (p_revoked_type out) (2 + h)) as [y Hy]; [lia|]. erewrite opt_step by exact Hy.
      rewrite mod_out_step. reflexivity.
    + by erewrite opt_none by (apply lookup_ge_None_2; lia).
Qed.

Lemma put_remote_sized n spk o : sized n o → sized n (put_remote spk o).
Proof. intros (H1 & H2 & H3). unfold sized, put_remote. cbn. by rewrite !length_insert. Qed.

Lemma put_htlc_sized n i r o : sized n o → sized n (put_htlc i r o).
Proof. intros (H1 & H2 & H3). unfold sized, put_htlc. cbn. by rewrite !length_insert. Qed.

Lemma revoked_loop t n : has_keys x → Forall row_ok rows →
  Forall (λ o, length (out_spk o) = 22 ∨ length (out_spk o) = 34)%nat (t_outs t) →
  ∀ suf k h out, drop k (t_outs t) = suf → sized n out → p_revoked_vout out !! 0%nat = Some (of_bytes p0) →
  for_idx (seq k (length suf)) (revoked_vout rows (rep t)) h (mk_rst self out) =
    match recovered n suf h out with Some (h, o) => Ret h (mk_rst self o) | None => UB end.
Proof.
  intros Hk Hr Hl. induction suf as [|o suf IH]; intros k h out Hd Hn H0; [done|]. cbn [length seq for_idx recovered].
  assert (length (out_spk o) = 22 ∨ length (out_spk o) = 34)%nat as Ho.
  { apply (Forall_drop _ k) in Hl. rewrite Hd in Hl. by apply Forall_cons_1 in Hl as [Ho _]. }
  pose proof (revoked_vout_spec t k o suf h out n Hk Hr Hd Ho Hn H0) as Hs. pose proof (drop_next _ _ _ _ Hd) as Hd'.
  destruct (to_remote (out_spk o)); [case_decide|destruct (known rows p0 o); [case_decide|]];
    try (unfold mbind, prog_bind; by rewrite Hs).
  - erewrite bind_ret by exact Hs. apply IH; [done|by apply put_remote_sized|]. cbn. by rewrite list_lookup_insert_ne.
  - erewrite bind_ret by exact Hs. apply IH; [done|by apply put_htlc_sized|]. cbn. by rewrite list_lookup_insert_ne.
  - erewrite bind_ret by exact Hs. by apply IH.
Qed.

(** What an HTLC output is found by. *)
Definition entry (o : revoked_t) (i : nat) (r : phash_row) : Prop :=
  p_revoked_vout o !! i = Some (of_bytes (p2wsh_program (row_script r))) ∧
  p_revoked_wit o !! i = Some (of_bytes (row_script r)) ∧ p_revoked_type o !! i = Some (Some (ph_type r)).

(** [o'] has the arrays of [o] at [i], and the rest of it. *)
Definition same_at (o o' : revoked_t) (i : nat) : Prop :=
  p_revoked_vout o' !! i = p_revoked_vout o !! i ∧ p_revoked_wit o' !! i = p_revoked_wit o !! i ∧
  p_revoked_type o' !! i = p_revoked_type o !! i.

Definition same_rest (o o' : revoked_t) : Prop :=
  LnClose.revoked_sec o' = LnClose.revoked_sec o ∧ revoked_num o' = revoked_num o ∧ revoked_cnt o' = revoked_cnt o.

Lemma recovered_ok n : (2 ≤ n)%nat → ∀ outs h o, sized n o → (2 + h + length (omap (known rows p0) outs) ≤ n)%nat →
  ∃ o', recovered n outs h o = Some (h + length (omap (known rows p0) outs), o')%nat ∧ same_rest o o' ∧
    (∀ i, (i < 2 + h)%nat → i ≠ 1%nat → same_at o o' i) ∧
    ∀ i r, omap (known rows p0) outs !! i = Some r → entry o' (2 + h + i) r.
Proof.
  intros Hn. induction outs as [|out outs IH]; intros h o Hs Hb.
  { exists o. cbn. rewrite Nat.add_0_r. by split_and!. }
  assert (known rows p0 out = if to_remote (out_spk out) then None else known rows p0 out) as Hkn
    by (unfold known; by destruct (to_remote (out_spk out))).
  change (omap (known rows p0) (out :: outs)) with
    (match known rows p0 out with Some r => r :: omap (known rows p0) outs | None => omap (known rows p0) outs end) in *.
  cbn [recovered]. rewrite Hkn in *. clear Hkn. destruct (to_remote (out_spk out)).
  - rewrite decide_True by lia. destruct (IH h (put_remote (out_spk out) o)) as (o' & Eo & Hr & Hsame & Hnew);
      [by apply put_remote_sized|done|].
    exists o'. split; [done|]. split; [done|]. split; [|done].
    intros i Hi H1. destruct (Hsame i Hi H1) as (E1 & E2 & E3). unfold same_at. rewrite E1, E2, E3. cbn.
    by rewrite !list_lookup_insert_ne by done.
  - destruct (known rows p0 out) as [r|]; [|by apply IH]. cbn [length] in Hb. rewrite decide_True by lia.
    destruct (IH (S h) (put_htlc (2 + h) r o)) as (o' & Eo & Hr & Hsame & Hnew); [by apply put_htlc_sized|lia|].
    exists o'. cbn [length]. replace (h + S _)%nat with (S h + length (omap (known rows p0) outs))%nat by lia.
    split; [done|]. split; [done|]. split.
    + intros i Hi H1. destruct (Hsame i) as (E1 & E2 & E3); [lia|done|]. unfold same_at. rewrite E1, E2, E3. cbn.
      by rewrite !list_lookup_insert_ne by lia.
    + intros [|i] r' Hi; [|replace (2 + h + S i)%nat with (2 + S h + i)%nat by lia; by apply Hnew].
      injection Hi as <-. rewrite Nat.add_0_r. destruct (Hsame (2 + h)%nat) as (E1 & E2 & E3); [lia|lia|].
      unfold entry. rewrite E1, E2, E3. unfold sized in Hs. cbn. by rewrite !list_lookup_insert_eq by lia.
Qed.

(** When the arrays are as long as [revoked_num] says and no output is the to_local one. *)
Lemma recovered_overflow n outs : ∀ h o, (n ≤ 1 + h + length (omap (known rows p0) outs))%nat →
  (0 < length (omap (known rows p0) outs))%nat ∨ n = 1%nat ∧ Exists (λ o, to_remote (out_spk o) = true) outs →
  recovered n outs h o = None.
Proof.
  induction outs as [|out outs IH]; intros h o Hb Hc.
  { destruct Hc as [Hc|[_ Hc]]; [cbn in Hc; lia|by apply Exists_nil in Hc]. }
  assert (known rows p0 out = if to_remote (out_spk out) then None else known rows p0 out) as Hkn
    by (unfold known; by destruct (to_remote (out_spk out))).
  change (omap (known rows p0) (out :: outs)) with
    (match known rows p0 out with Some r => r :: omap (known rows p0) outs | None => omap (known rows p0) outs end) in *.
  cbn [recovered]. rewrite Hkn in *. clear Hkn. rewrite Exists_cons in Hc. destruct (to_remote (out_spk out)) eqn:Et.
  - case_decide; [|done]. apply IH; [done|]. destruct Hc as [Hc|[Hc _]]; [by left|lia].
  - destruct (known rows p0 out) as [r|].
    + cbn [length] in *. case_decide; [|done]. apply IH; [lia|]. left. lia.
    + apply IH; [done|]. destruct Hc as [Hc|[Hc [He|He]]]; [by left|done|by right].
Qed.

Lemma known_fewer outs : Exists (λ o, to_remote (out_spk o) = false ∧ out_spk o = p0) outs →
  (length (omap (known rows p0) outs) < n_revoked outs)%nat.
Proof.
  assert (∀ l, length (omap (known rows p0) l) ≤ n_revoked l)%nat as Hle.
  { induction l as [|o l IH]; [done|]. rewrite n_revoked_cons. cbn [omap list_omap]. unfold known at 1.
    destruct (to_remote _); [done|]. case_decide; [lia|]. destruct (find_row _ _); cbn [length]; lia. }
  induction 1 as [o l [Ho Hp]|o l _ IH]; rewrite n_revoked_cons; cbn [omap list_omap]; unfold known at 1.
  - rewrite Ho, decide_True by done. specialize (Hle l). lia.
  - destruct (to_remote _); [done|]. case_decide; [lia|]. destruct (find_row _ _); cbn [length]; lia.
Qed.

Lemma known_all outs : Forall (λ o, to_remote (out_spk o) = true ∨ out_spk o ≠ p0 ∧ is_Some (find_row rows (out_spk o))) outs →
  length (omap (known rows p0) outs) = n_revoked outs.
Proof.
  induction 1 as [|o l Ho _ IH]; [done|]. rewrite n_revoked_cons. cbn [omap list_omap]. unfold known at 1.
  destruct Ho as [Ho|[Ho [r Hr]]]; [by rewrite Ho|]. destruct (to_remote _); [done|]. rewrite decide_False by done.
  rewrite Hr. cbn [length]. by rewrite IH.
Qed.

Lemma some_output outs : outs ≠ [] →
  (0 < n_revoked outs)%nat ∨ S (n_revoked outs) = 1%nat ∧ Exists (λ o, to_remote (out_spk o) = true) outs.
Proof.
  destruct outs as [|o l]; [done|]. intros _. rewrite n_revoked_cons. destruct (to_remote (out_spk o)) eqn:Et; [|left; lia].
  destruct (n_revoked l); [right|left; lia]. split; [done|]. by left.
Qed.
End recover.

(** ** The keys of the time *)

Section keys.
Context {H : BtcHash} {E : Ecdsa} {EL : EcdsaLaws E}.

(** The script keys of the remote side are made of the base points and of its
    per-commitment point; the local per-commitment point is not used. *)
Definition remote_scripts (L R : funding_data) : option (list bytes) :=
  let pt := fund_key R MSG_FUNDIDX_PER_COMMIT in
  k0 ← ln_derkey_pubkey mbedtls_sha256 (fund_key L MSG_FUNDIDX_PAYMENT) pt;
  k1 ← ln_derkey_pubkey mbedtls_sha256 (fund_key R MSG_FUNDIDX_DELAYED) pt;
  k2 ← ln_derkey_revocationkey mbedtls_sha256 (fund_key L MSG_FUNDIDX_REVOCATION) pt;
  k3 ← ln_derkey_pubkey mbedtls_sha256 (fund_key R MSG_FUNDIDX_HTLC) pt;
  k4 ← ln_derkey_pubkey mbedtls_sha256 (fund_key L MSG_FUNDIDX_HTLC) pt;
  Some [k0; k1; k2; k3; k4].

Lemma update_remote L R ks : length (scriptpubkeys R) = 5%nat → remote_scripts L R = Some ks →
  (ln_misc_update_scriptkeys mbedtls_sha256 L R).2 = mk_funding (pubkeys R) ks.
Proof.
  intros Hl Hk. unfold remote_scripts in Hk. unfold ln_misc_update_scriptkeys. cbv zeta. rewrite !fund_key_set_script. cbn [snd].
  repeat match type of Hk with (?o ≫= _) = _ => destruct o; cbn [mbind option_bind] in Hk; [|discriminate] end.
  injection Hk as <-. destruct R as [pk sk]. cbn [scriptpubkeys] in Hl.
  destruct sk as [|? [|? [|? [|? [|? [|]]]]]]; try done.
Qed.

Definition same_base (X Y : funding_data) : Prop := ∀ i, i ≠ MSG_FUNDIDX_PER_COMMIT → fund_key X i = fund_key Y i.

Lemma remote_scripts_base L R L' R' : same_base L L' → same_base R R' →
  fund_key R MSG_FUNDIDX_PER_COMMIT = fund_key R' MSG_FUNDIDX_PER_COMMIT → remote_scripts L R = remote_scripts L' R'.
Proof. intros HL HR Hp. unfold remote_scripts. by rewrite Hp, !HL, !HR. Qed.

Lemma percommit_base pt X : same_base X (set_percommit pt X).
Proof. intros i Hi. unfold fund_key, set_percommit. cbn [pubkeys]. by rewrite list_lookup_insert_ne. Qed.

Lemma percommit_point pt X : length (pubkeys X) = 6%nat → fund_key (set_percommit pt X) MSG_FUNDIDX_PER_COMMIT = pt.
Proof. intros Hl. unfold fund_key, set_percommit. cbn [pubkeys]. by rewrite list_lookup_insert_eq by lia. Qed.

(** A private key is a number of the group, and its point is finite. *)
Lemma priv2pub_finite sec pub : btc_keys_priv2pub sec = Some pub → pub = pub_of sec ∧ smul (be_val sec) gen ≠ inf.
Proof.
  unfold btc_keys_priv2pub. destruct (Z.leb_spec 1 (be_val sec)); [|done]. destruct (Z.ltb_spec (be_val sec) order); [|done].
  cbn [andb]. intros [= <-]. split; [done|]. apply smul_finite; [lia|apply gen_finite].
Qed.

(** The key to the revocation branch. *)
Lemma revoke_key {S} self (s : S) rs base sec pt rk :
  LnSelf.LnSelf.priv self !! MSG_FUNDIDX_REVOCATION = Some rs → btc_keys_priv2pub rs = Some base →
  btc_keys_priv2pub sec = Some pt → fund_key (funding_local self) MSG_FUNDIDX_REVOCATION = base →
  fund_key (funding_remote self) MSG_FUNDIDX_PER_COMMIT = pt →
  btc_keys_priv2pub (ln_derkey_revocationprivkey mbedtls_sha256 base pt rs sec) = Some rk →
  ∃ key, ln_signer_tolocal_key sec self true s = Ret (key, rk) s ∧ btc_keys_priv2pub key = Some rk ∧
    ln_derkey_revocationkey mbedtls_sha256 base pt = Some rk.
Proof.
  intros Hrs Hb Hsec Hbase Hpt Hrk. destruct (priv2pub_finite _ _ Hb) as [-> Hf]. destruct (priv2pub_finite _ _ Hsec) as [-> Hg].
  eexists. split; [|split; [exact Hrk|]].
  - unfold ln_signer_tolocal_key, ln_signer_get_revokesec. erewrite opt_step by exact Hrs. rewrite Hbase, Hpt.
    by erewrite opt_step by exact Hrk.
  - destruct (priv2pub_finite _ _ Hrk) as [-> _]. by apply (revocation_match mbedtls_sha256).
Qed.
End keys.

(** ** The whole answer *)

#[local] Opaque ln_misc_update_scriptkeys ln_derkey_create_secret.

Section answer.
Context {A : Alloc} {T : AllocTotal A} {F : Fresh} {H : BtcHash} {HL : BtcHashLaws H} {E : Ecdsa} {EL : EcdsaLaws E}.
Context (c : config) (rows : list phash_row).

(** The channel once the keys of a commitment are restored. *)
Definition restored (sec pt0 pt : bytes) (self : ln_self_t) : ln_self_t :=
  let k := ln_misc_update_scriptkeys mbedtls_sha256 (set_percommit pt0 (funding_local self)) (set_percommit pt (funding_remote self)) in
  set_funding_remote k.2 (set_funding_local k.1 (set_priv (<[MSG_FUNDIDX_PER_COMMIT := sec]> (priv self)) self)).

Lemma restore_step {B} (K : unit → prog rst B) self out I pt0 pt :
  (@create_percommitsec (node c) self I).2 = Some pt0 →
  (on_self (modify (λ self, set_funding_remote (set_percommit pt (funding_remote self)) self)) ≫= λ _,
   on_self (@ln_signer_keys_update_force (node c) I) ≫= λ _, on_self (@update_scriptkeys (node c)) ≫= K) (mk_rst self out) =
  K tt (mk_rst (restored (@create_percommitsec (node c) self I).1 pt0 pt self) out).
Proof.
  intros Hp. unfold mbind at 1, prog_bind, on_self at 1, modify. cbn [r_self r_out].
  unfold mbind at 1, prog_bind, on_self at 1. cbn [r_self r_out].
  assert (@ln_signer_keys_update_force (node c) I (set_funding_remote (set_percommit pt (funding_remote self)) self) =
    Ret tt (set_funding_local (set_percommit pt0 (funding_local self))
      (set_priv (<[MSG_FUNDIDX_PER_COMMIT := (@create_percommitsec (node c) self I).1]> (priv self))
        (set_funding_remote (set_percommit pt (funding_remote self)) self)))) as ->.
  { unfold ln_signer_keys_update_force. rewrite bind_get_st.
    change (@create_percommitsec (node c) (set_funding_remote _ self) I) with (@create_percommitsec (node c) self I).
    destruct (@create_percommitsec (node c) self I) as [s0 p0] eqn:Ec. cbn [snd fst] in *. subst p0.
    by destruct self. }
  unfold mbind, prog_bind, on_self, update_scriptkeys, modify. cbn [r_self r_out]. unfold restored.
  destruct self. cbn. by match goal with |- context [ln_misc_update_scriptkeys ?f ?l ?r] => destruct (ln_misc_update_scriptkeys f l r) end.
Qed.

(** The arrays with the to_local output. *)
Definition first_out (w sec : bytes) (n : nat) : revoked_t :=
  mk_revoked (<[0%nat := of_bytes (p2wsh_program w)]> (replicate n UTL_BUF_INIT))
    (<[0%nat := of_bytes w]> (replicate n UTL_BUF_INIT)) (replicate n None)
    (of_bytes sec) (Z.of_nat n) (Z.of_nat n - 1).

Lemma first_out_sized w sec n : sized n (first_out w sec n).
Proof. unfold sized, first_out. cbn. by rewrite !length_insert, !length_replicate. Qed.

(** The published transaction carries the number [n]. *)
Record numbered (n : Z) (t : transaction) : Prop := {
  num_range : 0 ≤ f_obscured (c_fund c) < 2 ^ 48 ∧ 0 ≤ n < 2 ^ 48;
  num_in : ∃ i rest, t_ins t = i :: rest ∧ in_seq i = LN_SEQUENCE (Z.lxor (f_obscured (c_fund c)) n);
  num_lock : t_lock t = LN_LOCKTIME (Z.lxor (f_obscured (c_fund c)) n);
  num_outs : zlen (t_outs t) < 65535;
  num_spks : Forall (λ o, length (out_spk o) = 22 ∨ length (out_spk o) = 34)%nat (t_outs t);
}.

Lemma set_wit_step {B} i b (K : unit → prog rst B) self out : (i < length (p_revoked_wit out))%nat →
  (set_revoked_wit i b ≫= K) (mk_rst self out) =
  K tt (mk_rst self (mk_revoked (p_revoked_vout out) (<[i := b]> (p_revoked_wit out)) (p_revoked_type out)
    (LnClose.revoked_sec out) (revoked_num out) (revoked_cnt out))).
Proof.
  intros [y Hy]%lookup_lt_is_Some_2. unfold set_revoked_wit. rewrite bind_assoc, gets_step, bind_assoc. cbn [r_out].
  erewrite opt_step by exact Hy. by rewrite mod_out_step.
Qed.

Lemma set_vout_step {B} i b (K : unit → prog rst B) self out : (i < length (p_revoked_vout out))%nat →
  (set_revoked_vout i b ≫= K) (mk_rst self out) =
  K tt (mk_rst self (mk_revoked (<[i := b]> (p_revoked_vout out)) (p_revoked_wit out) (p_revoked_type out)
    (LnClose.revoked_sec out) (revoked_num out) (revoked_cnt out))).
Proof.
  intros [y Hy]%lookup_lt_is_Some_2. unfold set_revoked_vout. rewrite bind_assoc, gets_step, bind_assoc. cbn [r_out].
  erewrite opt_step by exact Hy. by rewrite mod_out_step.
Qed.

Lemma revoked_run t self out0 sec pt0 pt n : numbered n t → Forall row_ok rows →
  ln_derkey_storage_get_secret mbedtls_sha256 uninit (peer_storage self) (LN_SECINDEX_INIT - n) = Some (true, sec) →
  btc_keys_priv2pub sec = Some pt →
  let own := @create_percommitsec (node c) self (LN_SECINDEX_INIT - n) in
  own.2 = Some pt0 → let self' := restored own.1 pt0 pt self in
  has_keys (funding_remote self') → 0 ≤ to_self_delay (commit_local self) ≤ 0x7fffffffff →
  let w := lscript (funding_remote self') (to_self_delay (commit_local self)) in
  let m := S (n_revoked (t_outs t)) in
  ln_close_remoterevoked c rows (rep t) (mk_rst self out0) =
    match recovered rows self' (p2wsh_program w) m (t_outs t) 0 (first_out w sec m) with
    | Some (_, o) => Ret true (mk_rst self' o)
    | None => UB
    end.
Proof.
  intros [(Hb & Hn) (i & rest & Hi & Hseq) Hlock Houts Hspk] Hrows Hsec Hpt own Hown self' Hk Hd w m.
  assert (u64 (LN_SECINDEX_INIT - n) = LN_SECINDEX_INIT - n) as Ei by (apply wrap_small; unfold in_range; lia).
  assert (n_revoked (t_outs t) ≤ length (t_outs t))%nat as Hle by apply length_filter.
  assert (u16 (1 + Z.of_nat (n_revoked (t_outs t))) = Z.of_nat m) as Em
    by (rewrite (wrap_small 16); unfold in_range, m; lia).
  unfold ln_close_remoterevoked. erewrite bind_ret by (by apply count_revoked_spec). rewrite mod_out_step. cbn [r_self r_out].
  unfold ln_revoked_buf_alloc at 1. rewrite mod_out_step. cbn [r_self r_out].
  erewrite bind_ret by (apply lift_ret; by eapply commit_num_read). rewrite gets_step. cbn [r_self]. rewrite Ei.
  erewrite opt_step by exact Hsec. cbv beta iota. rewrite mod_out_step. cbn [r_self r_out revoked_num revoked_cnt p_revoked_vout p_revoked_wit p_revoked_type].
  erewrite (bind_ret tt) by reflexivity.
  match goal with |- context [@btc_keys_priv2pub ?C sec] => change (@btc_keys_priv2pub C sec) with (btc_keys_priv2pub sec) end.
  rewrite Hpt. rewrite (restore_step _ _ _ _ pt0) by exact Hown.
  rewrite gets_step. cbn [r_self]. fold self'.
  pose proof (lscript_len (funding_remote self') _ Hk Hd) as Hw. fold w in Hw.
  assert (length (skey (funding_remote self') MSG_SCRIPTIDX_REVOCATION) = 33%nat ∧
          length (skey (funding_remote self') MSG_SCRIPTIDX_DELAYED) = 33%nat) as [K1 K2].
  { unfold has_keys in Hk. rewrite !Forall_cons in Hk. destruct Hk as (_ & Ha & _ & Hb' & _). exact (conj Ha Hb'). }
  change (to_self_delay (commit_local self')) with (to_self_delay (commit_local self)).
  erewrite bind_ret by (exact (create_tolocal_spec _ _ _ _ K1 K2 Hd)).
  fold (lscript (funding_remote self') (to_self_delay (commit_local self))). fold w.
  rewrite set_wit_step by (cbn [p_revoked_wit revoked_num]; rewrite length_replicate; lia).
  erewrite bind_ret by (apply wit2prog_buf_spec; exact Hw).
  rewrite set_vout_step by (cbn [p_revoked_vout revoked_num]; rewrite length_replicate; lia).
  cbn [p_revoked_vout p_revoked_wit p_revoked_type LnClose.revoked_sec revoked_num revoked_cnt].
  rewrite Em, Nat2Z.id. replace (Z.of_nat (n_revoked (t_outs t))) with (Z.of_nat m - 1) by lia.
  fold (first_out w sec m). unfold revoked_vouts. cbn [rep vout_cnt]. rewrite Nat2Z.id.
  assert (p_revoked_vout (first_out w sec m) !! 0%nat = Some (of_bytes (p2wsh_program w))) as H0.
  { unfold first_out, m. cbn [p_revoked_vout replicate]. reflexivity. }
  pose proof (revoked_loop rows self' (p2wsh_program w) t m Hk Hrows Hspk (t_outs t) 0 0 (first_out w sec m)
    (drop_0 _) (first_out_sized w sec m) H0) as Hloop.
  fold own. fold self'. unfold mbind, prog_bind. rewrite Hloop. destruct (recovered _ _ _ _ _ _ _) as [[h o]|]; reflexivity.
Qed.

(** The commitment number [n] of the peer is published: [L] and [R] are the keys of the
    time, with the base points of now, [ks] the script keys and [infos] the HTLCs; the
    HTLCs are in the table. *)
Record published (self : ln_self_t) (sec : bytes) (n : Z) (L R : funding_data) (ks : list bytes)
    (rate dust our their : Z) (Local : bool) (infos : list ln_script_htlcinfo_t) (t : transaction) : Prop := {
  pub_number : numbered n t;
  pub_bases : same_base (funding_local self) L ∧ same_base (funding_remote self) R;
  pub_point : btc_keys_priv2pub sec = Some (fund_key R MSG_FUNDIDX_PER_COMMIT);
  pub_scripts : remote_scripts L R = Some ks;
  pub_keys : Forall (λ k, length k = 33%nat) ks;
  pub_sizes : length (pubkeys (funding_remote self)) = 6%nat ∧ length (scriptpubkeys (funding_remote self)) = 5%nat;
  pub_delay : 0 ≤ to_self_delay (commit_local self) ≤ 0x7fffffffff;
  pub_outs : t_outs t ⊆ all_outs (mk_funding (pubkeys R) ks) (c_fund c) rate dust n our their
    (to_self_delay (commit_local self)) Local infos;
  pub_infos : fee_range rate dust infos;
  pub_rows : Forall row_ok rows ∧ Forall (λ h, ∃ r, find_row rows (p2wsh_program (sc (mk_funding (pubkeys R) ks) h)) = Some r ∧
    ph_type r = type h ∧ ph_hash r = preimage_hash h ∧ ph_expiry r = expiry h) infos;
}.

Lemma remote_scripts_len L R ks : remote_scripts L R = Some ks → length ks = 5%nat.
Proof.
  unfold remote_scripts. intros Hk.
  repeat match type of Hk with (?o ≫= _) = _ => destruct o; cbn [mbind option_bind] in Hk; [|discriminate] end.
  by injection Hk as <-.
Qed.

Lemma restored_scripts self sec n L R ks rate dust our their Local infos t sec0 pt0 :
  published self sec n L R ks rate dust our their Local infos t →
  let self' := restored sec0 pt0 (fund_key R MSG_FUNDIDX_PER_COMMIT) self in
  scriptpubkeys (funding_remote self') = ks ∧ has_keys (mk_funding (pubkeys R) ks) ∧
  fund_key (funding_remote self') MSG_FUNDIDX_PER_COMMIT = fund_key R MSG_FUNDIDX_PER_COMMIT ∧
  fund_key (funding_local self') MSG_FUNDIDX_REVOCATION = fund_key L MSG_FUNDIDX_REVOCATION.
Proof.
  intros [_ [BL BR] _ Hks Hk [H6 H5] _ _ _ _]. cbn zeta. unfold restored.
  set (fL := set_percommit pt0 (funding_local self)). set (fR := set_percommit _ (funding_remote self)).
  assert (remote_scripts fL fR = Some ks) as Hks'.
  { rewrite <- Hks. apply remote_scripts_base; [| |by apply percommit_point]; intros i Hi;
      [rewrite <- BL by done|rewrite <- BR by done]; symmetry; by apply percommit_base. }
  assert ((ln_misc_update_scriptkeys mbedtls_sha256 fL fR).2 = mk_funding (pubkeys fR) ks) as Eu by by apply update_remote.
  assert (∀ i, fund_key (ln_misc_update_scriptkeys mbedtls_sha256 fL fR).1 i = fund_key fL i) as El.
  { intros i. destruct (ln_misc_update_scriptkeys mbedtls_sha256 fL fR) as [l r] eqn:Ek.
    destruct (@update_scriptkeys_pubkeys (node c) _ _ _ _ Ek) as [Ep _]. unfold fund_key. cbn [fst]. by rewrite Ep. }
  change (funding_remote (set_funding_remote ?a ?b)) with a.
  change (funding_local (set_funding_remote ?a (set_funding_local ?b ?d))) with b.
  rewrite Eu, El. split; [done|]. split; [|split].
  - pose proof (remote_scripts_len _ _ _ Hks) as Hl. destruct ks as [|k0 [|k1 [|k2 [|k3 [|k4 []]]]]]; try done.
    rewrite !Forall_cons in Hk. destruct Hk as (? & ? & ? & ? & ? & _). unfold has_keys. by repeat constructor.
  - by apply percommit_point.
  - rewrite <- BL by done. symmetry. by apply percommit_base.
Qed.
Lemma skey_scripts X Y i : scriptpubkeys X = scriptpubkeys Y → skey X i = skey Y i.
Proof. unfold skey. by intros ->. Qed.

(** The state [o] has the output script [spk] with its script [w]. *)
Definition has_script (o : revoked_t) (spk w : bytes) (ty : option ln_htlctype_t) : Prop := ∃ i,
  spk = p2wsh_program w ∧ p_revoked_vout o !! i = Some (of_bytes spk) ∧ p_revoked_wit o !! i = Some (of_bytes w) ∧
  p_revoked_type o !! i = Some ty.

Lemma first_found w sec n : (0 < n)%nat → has_script (first_out w sec n) (p2wsh_program w) w None.
Proof. intros Hn. exists 0%nat. destruct n; [lia|done]. Qed.
Lemma remote_scripts_revocation L R ks rk : remote_scripts L R = Some ks →
  ln_derkey_revocationkey mbedtls_sha256 (fund_key L MSG_FUNDIDX_REVOCATION) (fund_key R MSG_FUNDIDX_PER_COMMIT) = Some rk →
  ks !! MSG_SCRIPTIDX_REVOCATION = Some rk.
Proof.
  intros Hk Hr. unfold remote_scripts in Hk. rewrite Hr in Hk.
  repeat match type of Hk with (?o ≫= _) = _ => destruct o; cbn [mbind option_bind] in Hk; [|discriminate] end.
  by injection Hk as <-.
Qed.

Lemma remote_spk_22 pub : length (p2wpkh_program pub) = 22%nat.
Proof. unfold p2wpkh_program. by rewrite length_app, hash160_20. Qed.

Lemma script_spk_34 w : length (p2wsh_program w) = 34%nat.
Proof. unfold p2wsh_program. by rewrite length_app, (proj2 (sha256_32 _)). Qed.

Lemma to_remote_22 spk : length spk = 22%nat → to_remote spk = true.
Proof. intros Hl. unfold to_remote. by rewrite Hl. Qed.

Lemma not_to_remote_34 spk : length spk = 34%nat → to_remote spk = false.
Proof. intros Hl. unfold to_remote. by rewrite Hl. Qed.

(** The keys and the arrays after the answer find every output. *)
Lemma found_outputs self self' x infos (outs : list tx_output) n o' w sec :
  scriptpubkeys (funding_remote self') = scriptpubkeys x → w = lscript x (to_self_delay (commit_local self)) →
  Forall (λ h, ∃ r, find_row rows (p2wsh_program (sc x h)) = Some r ∧
    ph_type r = type h ∧ ph_hash r = preimage_hash h ∧ ph_expiry r = expiry h) infos → (0 < n)%nat →
  same_at (first_out w sec n) o' 0 →
  (∀ i r, omap (known rows (p2wsh_program w)) outs !! i = Some r → entry self' o' (2 + i) r) →
  ∀ o, o ∈ outs → ∀ h, h ∈ infos → out_spk o = p2wsh_program (sc x h) →
    has_script o' (out_spk o) w None ∨ has_script o' (out_spk o) (sc x h) (Some (type h)).
Proof.
  intros Hs Hw Hrows Hn (S1 & S2 & S3) Hent o Ho h Hh Hspk.
  destruct (decide (out_spk o = p2wsh_program w)) as [Ep|Ep].
  { left. exists 0%nat. rewrite S1, S2, S3, Ep. destruct n; [lia|]. by split_and!. }
  right. rewrite Forall_forall in Hrows. destruct (Hrows h Hh) as (r & Hr & R1 & R2 & R3).
  assert (known rows (p2wsh_program w) o = Some r) as Hkn.
  { unfold known. rewrite Hspk, not_to_remote_34 by apply script_spk_34. rewrite decide_False by (by rewrite <- Hspk). done. }
  assert (r ∈ omap (known rows (p2wsh_program w)) outs) as [i Hi]%list_elem_of_lookup
    by (apply list_elem_of_omap; by exists o).
  destruct (Hent i r Hi) as (E1 & E2 & E3).
  assert (row_script self' r = sc x h) as Es.
  { unfold row_script, sc. by rewrite R1, R2, R3, !(skey_scripts _ _ _ Hs). }
  exists (2 + i)%nat. rewrite E1, E2, E3, Es, Hspk, R1. by split_and!.
Qed.
(** What the answer starts from, at a published commitment. *)
Lemma published_run self out0 seed k n L R ks rate dust our their Local infos t pt0 :
  let sec := ln_derkey_create_secret mbedtls_sha256 seed (LN_SECINDEX_INIT - n) in
  let x := mk_funding (pubkeys R) ks in
  let w := lscript x (to_self_delay (commit_local self)) in
  let m := S (n_revoked (t_outs t)) in
  let self' := restored (@create_percommitsec (node c) self (LN_SECINDEX_INIT - n)).1 pt0 (fund_key R MSG_FUNDIDX_PER_COMMIT) self in
  published self sec n L R ks rate dust our their Local infos t →
  @peer_secrets (node c) seed (k + 1) self → n ≤ k → k < 2 ^ 48 - 1 →
  (@create_percommitsec (node c) self (LN_SECINDEX_INIT - n)).2 = Some pt0 →
  scriptpubkeys (funding_remote self') = scriptpubkeys x ∧
  ln_close_remoterevoked c rows (rep t) (mk_rst self out0) =
    match recovered rows self' (p2wsh_program w) m (t_outs t) 0 (first_out w sec m) with
    | Some (_, o) => Ret true (mk_rst self' o)
    | None => UB
    end.
Proof.
  intros sec x w m self' Hpub Hsecs Hnk Hk Hown.
  destruct (restored_scripts self sec n L R ks rate dust our their Local infos t
    (@create_percommitsec (node c) self (LN_SECINDEX_INIT - n)).1 pt0 Hpub) as (Hs & Hkeys & _ & _).
  destruct Hpub as [Hnum _ Hpoint _ _ _ Hdelay _ _ [Hrows _]]. assert (0 ≤ n) as Hn0 by apply Hnum.
  pose proof (@secrets_known (node c) self seed k uninit n Hsecs (conj Hn0 Hnk) Hk) as Hsec.
  assert (scriptpubkeys (funding_remote self') = scriptpubkeys x) as Hsx by exact Hs. split; [exact Hsx|].
  assert (has_keys (funding_remote self')) as Hkeys'.
  { unfold has_keys. eapply Forall_impl; [exact Hkeys|]. intros i Hi. by rewrite (skey_scripts _ _ _ Hsx). }
  assert (lscript (funding_remote self') (to_self_delay (commit_local self)) = w) as Ew
    by (unfold w, lscript; by rewrite !(skey_scripts _ _ _ Hsx)).
  pose proof (revoked_run t self out0 sec pt0 _ n Hnum Hrows Hsec Hpoint Hown Hkeys' Hdelay) as Hrun.
  cbv zeta in Hrun. fold self' in Hrun. rewrite Ew in Hrun. exact Hrun.
Qed.

(** What the outputs pay to. *)
Lemma published_outs self sec n L R ks rate dust our their Local infos t o :
  let x := mk_funding (pubkeys R) ks in
  published self sec n L R ks rate dust our their Local infos t → o ∈ t_outs t →
  out_spk o = p2wpkh_program (skey x MSG_SCRIPTIDX_REMOTEKEY) ∨
  out_spk o = p2wsh_program (lscript x (to_self_delay (commit_local self))) ∨
  ∃ h, h ∈ infos ∧ out_spk o = p2wsh_program (sc x h).
Proof.
  intros x Hpub Ho. destruct Hpub as [_ _ _ _ _ _ _ Houts Hinfos _]. assert (length infos ≤ 200)%nat as Hl by apply Hinfos.
  destruct (out_kinds x (c_fund c) rate dust n our their (to_self_delay (commit_local self)) Local infos o Hl (Houts o Ho))
    as [[_ Hspk]|[[_ Hspk]|(h & Hh & _ & _ & _ & Hspk)]]; [by left|right; by left|right; right; by exists h].
Qed.

(** C12: a revoked commitment of the peer that has a to_local output is answered
    completely ([penalty_overflow] tells what happens without one). Whatever such commitment
    [n] the peer has revoked and publishes (with the outputs the node signed for it), the
    node, holding the secrets revealed so far, restores the keys of that
    commitment, finds the script of every output that pays to a script (the to_local
    one and each HTLC, with its kind) and has the private key that takes them by the
    revocation branch. *)
Theorem penalty_recovers self out0 seed k n L R ks rate dust our their Local infos t pt0 rs rk :
  let sec := ln_derkey_create_secret mbedtls_sha256 seed (LN_SECINDEX_INIT - n) in
  let x := mk_funding (pubkeys R) ks in
  let w := lscript x (to_self_delay (commit_local self)) in
  let base := fund_key L MSG_FUNDIDX_REVOCATION in
  let pt := fund_key R MSG_FUNDIDX_PER_COMMIT in
  published self sec n L R ks rate dust our their Local infos t →
  @peer_secrets (node c) seed (k + 1) self → n ≤ k → k < 2 ^ 48 - 1 →
  Exists (λ o, out_spk o = p2wsh_program w) (t_outs t) →
  (@create_percommitsec (node c) self (LN_SECINDEX_INIT - n)).2 = Some pt0 →
  LnSelf.LnSelf.priv self !! MSG_FUNDIDX_REVOCATION = Some rs → btc_keys_priv2pub rs = Some base →
  btc_keys_priv2pub (ln_derkey_revocationprivkey mbedtls_sha256 base pt rs sec) = Some rk →
  ∃ s', ln_close_remoterevoked c rows (rep t) (mk_rst self out0) = Ret true s' ∧
    (∀ o, o ∈ t_outs t → out_spk o = p2wpkh_program (skey x MSG_SCRIPTIDX_REMOTEKEY) ∨
       has_script (r_out s') (out_spk o) w None ∨
       ∃ h, h ∈ infos ∧ has_script (r_out s') (out_spk o) (sc x h) (Some (type h))) ∧
    LnClose.revoked_sec (r_out s') = of_bytes sec ∧
    ∃ key, ln_signer_tolocal_key sec (r_self s') true tt = Ret (key, skey x MSG_SCRIPTIDX_REVOCATION) tt ∧
      btc_keys_priv2pub key = Some (skey x MSG_SCRIPTIDX_REVOCATION).
Proof.
  intros sec x w base pt Hpub Hsecs Hnk Hk Hlocal Hown Hrs Hbase Hrk.
  destruct (published_run self out0 seed k n L R ks rate dust our their Local infos t pt0 Hpub Hsecs Hnk Hk Hown) as [Hsx Hrun].
  destruct (restored_scripts self sec n L R ks rate dust our their Local infos t
    (@create_percommitsec (node c) self (LN_SECINDEX_INIT - n)).1 pt0 Hpub) as (_ & _ & Hpt & Hrev).
  fold sec x w in Hrun. fold pt in Hrun, Hsx, Hpt, Hrev. fold x in Hsx.
  set (own := @create_percommitsec (node c) self (LN_SECINDEX_INIT - n)) in *.
  set (self' := restored own.1 pt0 pt self) in *. set (m := S (n_revoked (t_outs t))) in *.
  assert (length (omap (known rows (p2wsh_program w)) (t_outs t)) < n_revoked (t_outs t))%nat as Hfew.
  { apply known_fewer. eapply Exists_impl; [exact Hlocal|]. intros o Ho. split; [|exact Ho].
    rewrite Ho. apply not_to_remote_34, script_spk_34. }
  destruct (recovered_ok rows self' (p2wsh_program w) m ltac:(unfold m; lia) (t_outs t) 0 (first_out w sec m)
    (first_out_sized w sec m) ltac:(unfold m; lia)) as (o' & Er & (Rs & _) & Hsame & Hent).
  rewrite Er in Hrun. exists (mk_rst self' o'). split; [exact Hrun|]. cbn [r_self r_out].
  pose proof (Hsame 0%nat ltac:(lia) ltac:(lia)) as Hfirst. split; [|split; [exact Rs|]].
  - intros o Ho. destruct (published_outs _ _ _ _ _ _ _ _ _ _ _ _ _ o Hpub Ho) as [Hspk|[Hspk|(h & Hh & Hspk)]].
    + left. exact Hspk.
    + right. left. destruct Hfirst as (S1 & S2 & S3). exists 0%nat. rewrite S1, S2, S3, Hspk. by split_and!.
    + right. destruct (found_outputs self self' x infos (t_outs t) m o' w sec Hsx eq_refl (proj2 (pub_rows _ _ _ _ _ _ _ _ _ _ _ _ _ Hpub))
        ltac:(unfold m; lia) Hfirst Hent o Ho h Hh Hspk) as [Hf|Hf]; [left; exact Hf|right; exists h; exact (conj Hh Hf)].
  - assert (LnSelf.LnSelf.priv self' !! MSG_FUNDIDX_REVOCATION = Some rs) as Hrs'.
    { change (LnSelf.LnSelf.priv self') with (<[MSG_FUNDIDX_PER_COMMIT := own.1]> (LnSelf.LnSelf.priv self)).
      rewrite list_lookup_insert_ne by discriminate. exact Hrs. }
    destruct (revoke_key self' tt rs base sec pt rk Hrs' Hbase (pub_point _ _ _ _ _ _ _ _ _ _ _ _ _ Hpub) Hrev Hpt Hrk)
      as (key & K1 & K2 & K3).
    assert (skey x MSG_SCRIPTIDX_REVOCATION = rk) as ->.
    { unfold skey. cbn [x scriptpubkeys].
      rewrite (remote_scripts_revocation L R ks rk (pub_scripts _ _ _ _ _ _ _ _ _ _ _ _ _ Hpub) K3). reflexivity. }
    exists key. exact (conj K1 K2).
Qed.

(** C33: without a to_local output (it was below the dust limit, say) the answer writes
    behind the arrays: they have one element for it and one for each output to a
    script, but the HTLCs are counted from 2 and the to_remote output is 1. *)
Theorem penalty_overflow self out0 seed k n L R ks rate dust our their Local infos t pt0 :
  let sec := ln_derkey_create_secret mbedtls_sha256 seed (LN_SECINDEX_INIT - n) in
  let w := lscript (mk_funding (pubkeys R) ks) (to_self_delay (commit_local self)) in
  published self sec n L R ks rate dust our their Local infos t →
  @peer_secrets (node c) seed (k + 1) self → n ≤ k → k < 2 ^ 48 - 1 →
  (@create_percommitsec (node c) self (LN_SECINDEX_INIT - n)).2 = Some pt0 →
  Forall (λ o, out_spk o ≠ p2wsh_program w) (t_outs t) → t_outs t ≠ [] →
  ln_close_remoterevoked c rows (rep t) (mk_rst self out0) = UB.
Proof.
  intros sec w Hpub Hsecs Hnk Hk Hown Hno Hne.
  destruct (published_run self out0 seed k n L R ks rate dust our their Local infos t pt0 Hpub Hsecs Hnk Hk Hown) as [_ Hrun].
  fold sec w in Hrun. cbv zeta in Hrun.
  assert (length (omap (known rows (p2wsh_program w)) (t_outs t)) = n_revoked (t_outs t)) as Hall.
  { apply known_all, Forall_forall. intros o Ho. rewrite Forall_forall in Hno.
    destruct (published_outs _ _ _ _ _ _ _ _ _ _ _ _ _ o Hpub Ho) as [Hspk|[Hspk|(h & Hh & Hspk)]].
    - left. rewrite Hspk. apply to_remote_22, remote_spk_22.
    - by destruct (Hno o Ho).
    - right. split; [by apply Hno|]. destruct (pub_rows _ _ _ _ _ _ _ _ _ _ _ _ _ Hpub) as [_ Hf].
      rewrite Forall_forall in Hf. destruct (Hf h Hh) as (r & Hr & _). rewrite Hspk. by exists r. }
  match type of Hrun with context [recovered ?r ?s ?p ?m ?l ?h ?o] =>
    rewrite (recovered_overflow r s p m l h o) in Hrun end; [exact Hrun|rewrite Hall; lia|].
  rewrite Hall. exact (some_output _ Hne).
Qed.
End answer.

(** ** Where the HTLCs go *)

Section burnt.
Context {A : Alloc} {T : AllocTotal A} {F : Fresh} {H : BtcHash} {HL : BtcHashLaws H} {E : Ecdsa} {EL : EcdsaLaws E}.

(** A key's program as a script: two items more than there were. *)
Lemma program_script sp pub items : exec hash160 sp [Push []; Push (hash160 pub)] [] items = Some ([], hash160 pub :: [] :: items).
Proof. done. Qed.

Lemma program_parse pub : parse (p2wpkh_program pub) = Some [Push []; Push (hash160 pub)].
Proof.
  unfold p2wpkh_program, parse. pose proof (hash160_20 pub) as Hl. set (h := hash160 pub) in *. clearbody h.
  do 21 (destruct h as [|? h]; try discriminate Hl). reflexivity.
Qed.

Lemma program_refuses sp pub items : accepts hash160 sp (p2wpkh_program pub) items = false.
Proof. unfold accepts. rewrite program_parse, program_script. done. Qed.

(** C34: the transaction that takes an HTLC output of a revoked commitment pays to the
    P2WSH of the node's shutdown scriptPubKey, not to it: when that is a P2WPKH (the
    node's own kind), no witness with the script spends it and the money is lost. *)
Theorem revoked_htlc_burnt self ty wit pub value txid_ n sec rs key rk :
  let shut := p2wpkh_program pub in
  LnSelf.LnSelf.priv self !! MSG_FUNDIDX_REVOCATION = Some rs →
  key = ln_derkey_revocationprivkey mbedtls_sha256 (fund_key (funding_local self) MSG_FUNDIDX_REVOCATION)
    (fund_key (funding_remote self) MSG_FUNDIDX_PER_COMMIT) rs sec →
  btc_keys_priv2pub key = Some rk → rk ≠ [] →
  length txid_ = 32%nat → 0 < zlen wit < 0xff00 →
  let feeinfo := (ln_script_fee_calc (mk_fee (LnSelf.LnSelf.feerate_per_kw self) 0 0 0 0) []).1 in
  u64 (value - match ty with LN_HTLCTYPE_OFFERED => htlc_timeout feeinfo | LN_HTLCTYPE_RECEIVED => htlc_success feeinfo end) ≠ 0 →
  ∃ t, ln_revokedhtlc_create_spenttx true sec self ty (bufb wit) (bufb shut) value txid_ n btc_tx_init = Ret true (rep t) ∧
    out_spk <$> t_outs t = [p2wsh_program shut] ∧
    ∀ sp items, p2wsh_spends hash160 mbedtls_sha256 sp (p2wsh_program shut) (items ++ [shut]) = false.
Proof.
  intros shut Hrs Hkey Hrk Hne Htx Hwit feeinfo Hv.
  assert (length key = 32%nat) as Hlen by (rewrite Hkey; apply length_be_bytes).
  assert (good_key key) as Hgood.
  { split; [exact Hlen|]. unfold btc_keys_priv2pub in Hrk.
    destruct (Z.leb_spec 1 (be_val key)); [|done]. by destruct (Z.ltb_spec (be_val key) order). }
  assert (wit ≠ []) as Hw by (intros ->; cbn in Hwit; lia).
  set (t := htlc_tx true (u64 (value - match ty with LN_HTLCTYPE_OFFERED => htlc_timeout feeinfo
    | LN_HTLCTYPE_RECEIVED => htlc_success feeinfo end)) shut ty 0 txid_ n).
  assert (zlen shut < 2 ^ 16) as Hs by (unfold shut; rewrite remote_spk_22; done).
  assert (bufb shut = of_bytes shut) as Eb by done.
  eexists. split; [|split; [|intros sp items; rewrite spends_script; apply program_refuses]].
  - unfold ln_revokedhtlc_create_spenttx. rewrite Eb. fold feeinfo. cbv zeta.
    erewrite bind_ret by (by apply htlctx_create_spec). fold t.
    erewrite (bind_ret (key, rk)).
    2:{ unfold ln_signer_get_revokesec. erewrite opt_step by exact Hrs. rewrite <- Hkey. by erewrite opt_step by exact Hrk. }
    cbn [fst snd].
    erewrite bind_ret by (apply (good_sign key (htlc_digest value wit t (mk_in txid_ (u32 n) [] [] 0)) value true _ shut ty 0 txid_ n wit);
      [exact Hgood|exact Htx|lia|exact Hv|reflexivity]).
    cbv beta iota. fold t.
    erewrite bind_ret; [reflexivity|]. unfold ln_script_htlctx_wit.
    assert (htlctx_wits (bufb (der_of key (htlc_digest value wit t (mk_in txid_ (u32 n) [] [] 0)))) rk None None (bufb wit)
      match ty with LN_HTLCTYPE_OFFERED => LN_HTLCSIGN_REVOKE_OFFER | LN_HTLCTYPE_RECEIVED => LN_HTLCSIGN_REVOKE_RECV end =
      Some (bufb <$> [der_of key (htlc_digest value wit t (mk_in txid_ (u32 n) [] [] 0)); rk; wit])) as ->.
    { unfold htlctx_wits. destruct ty; by rewrite ?view_bufb. }
    apply (set_vin_p2wsh_spec true t 0 (mk_in txid_ (u32 n) [] [] 0) _ wit); [done|done|done|done|lia].
  - reflexivity.
Qed.
End burnt.
End LnPenalty.
