(* ===== verification/LnToyPenalty.v ===== *)
(** A revoked commitment with and without a to_local output, on the concrete curve and hash
    of [LnToyPair]. *)
From stdpp Require Import base list numbers tactics sorting.
From Stdlib Require Import ZArith Lia.
From S2P Require Import Prelude CProg UtlBuf UtlPush LnDerkey LnMisc LnMsg LnMsgNormal LnSig LnHtlc LnSelf BtcTx.
From S2P Require Import BtcScript BtcTxWire BtcTxRead BtcSw BtcSort BtcDigest BtcBuild LnScript LnSpend LnWitness LnCommitTx.
From S2P Require Import LnBuild LnSignTx LnAgree LnToyNoise LnNormal LnRecv LnCommit LnExchange LnToyPair LnClose LnPenalty.
Import UtlBuf UtlPush Derkey LnMisc LnMsg LnMsgNormal LnSig LnHtlc LnSelf.LnSelf BtcTx BtcTxWire BtcTxRead BtcSw.
Import BtcScript BtcSort BtcDigest BtcBuild LnScript LnSpend LnWitness LnCommitTx LnBuild LnSignTx LnAgree.
Import ShaChain LnSelf.LnSelf LnNormal.LnNormal LnRecv.LnRecv LnCommit.LnCommit LnExchange LnToyPair LnClose LnPenalty.
Open Scope Z_scope.

Module LnToyPenalty.

#[local] Existing Instance sum_hash.
#[local] Existing Instance sum_hash_laws.

Definition sec0 : bytes := ln_derkey_create_secret mbedtls_sha256 seed LN_SECINDEX_INIT.

(** The base points of the two sides, and the points of commitment 0. *)
Definition then_L : funding_data := mk_funding (replicate 6 (pub_of (be_bytes 32 11))) (replicate 5 []).
Definition then_R : funding_data := mk_funding (replicate 5 (pub_of (be_bytes 32 13)) ++ [point 0]) (replicate 5 []).
Definition now_R : funding_data := mk_funding (replicate 5 (pub_of (be_bytes 32 13)) ++ [point 2]) (replicate 5 (toy_key 1)).
Definition keys0 : list bytes := default [] (remote_scripts then_L then_R).
Definition keys_then : funding_data := mk_funding (pubkeys then_R) keys0.

(** The storage once the peer has revealed the secret of commitment 0. *)
Definition storage1 : ln_derkey_storage_t :=
  match run (ln_derkey_storage_insert_secret mbedtls_sha256 sec0 LN_SECINDEX_INIT) ln_derkey_storage_init with
  | Ret _ st => st
  | _ => []
  end.

Definition node1 : ln_self_t :=
  mk_self (toy_key 1) storage1 (LN_SECINDEX_INIT - 1) (LN_SECINDEX_INIT - 2) seed (replicate 5 (be_bytes 32 11) ++ [[]])
    then_L now_R [] 3 0 0 0 0 0 60000000 40000000 (replicate 32 9) 0 [] commit0 commit0 500 None [].

Definition info0 (ty : ln_htlctype_t) (amount : Z) : ln_script_htlcinfo_t :=
  mk_htlcinfo ty 0 400000 amount (replicate 32 4).

Definition infos0 : list ln_script_htlcinfo_t := [info0 LN_HTLCTYPE_OFFERED 5000000; info0 LN_HTLCTYPE_RECEIVED 7000000].

(** The table, as [ln_db_phash_save] left it. *)
Definition row0 (h : ln_script_htlcinfo_t) : phash_row :=
  mk_phash (p2wsh_program (sc keys_then h)) (type h) (expiry h) (preimage_hash h).
Definition rows0 : list phash_row := row0 <$> infos0.

Abbreviation conf := (config_of (fund true)).
Abbreviation conf_node := (@node total_alloc zero_fresh sum_hash toy_ecdsa conf).

(** Commitment 0 with our balance [our]. *)
Definition outs0 (our : Z) : list tx_output :=
  all_outs keys_then (c_fund conf) 500 546 0 our 33000000 144 false infos0.
Definition tx0 (our : Z) : transaction :=
  let obs := f_obscured (c_fund conf) in
  mk_trans 2 [mk_in (replicate 32 9) 1 [] [] (LN_SEQUENCE obs)] (outs0 our) (LN_LOCKTIME obs).

Lemma node1_secrets : @peer_secrets conf_node seed 1 node1.
Proof.
  split; [|reflexivity]. destruct (insert_next mbedtls_sha256 seed LN_SECINDEX_INIT ln_derkey_storage_init) as (st & Hst & Hh);
    [done|apply holds_init|].
  assert (peer_storage node1 = st) as ->; [|exact Hh].
  change (peer_storage node1) with storage1. unfold storage1, sec0. by rewrite Hst.
Qed.

Lemma rows0_found : Forall row_ok rows0 ∧ Forall (λ h, ∃ r, find_row rows0 (p2wsh_program (sc keys_then h)) = Some r ∧
    ph_type r = type h ∧ ph_hash r = preimage_hash h ∧ ph_expiry r = expiry h) infos0.
Proof.
  split; [repeat constructor; by vm_compute|].
  repeat constructor; eexists; (split; [by vm_compute|]); by split_and!.
Qed.

Lemma tx0_numbered our : (length (outs0 our) ≤ 4)%nat →
  Forall (λ o, length (out_spk o) = 22 ∨ length (out_spk o) = 34)%nat (outs0 our) → numbered conf 0 (tx0 our).
Proof.
  intros Hl Hs. split.
  - by split.
  - eexists _, _. split; reflexivity.
  - reflexivity.
  - cbn [tx0 t_outs]. lia.
  - exact Hs.
Qed.

Lemma tx0_published our : (length (outs0 our) ≤ 4)%nat →
  Forall (λ o, length (out_spk o) = 22 ∨ length (out_spk o) = 34)%nat (outs0 our) →
  published conf rows0 node1 sec0 0 then_L then_R keys0 500 546 our 33000000 false infos0 (tx0 our).
Proof.
  intros Hl Hs. split.
  - by apply tx0_numbered.
  - split; intros i Hi; [reflexivity|]. change (funding_remote node1) with now_R.
    unfold fund_key. cbn [pubkeys now_R then_R].
    destruct (decide (i < 5)%nat).
    + rewrite !lookup_app_l by (rewrite length_replicate; lia). reflexivity.
    + rewrite !lookup_ge_None_2 by (rewrite length_app, length_replicate; cbn [length]; lia). reflexivity.
  - by vm_compute.
  - by vm_compute.
  - vm_compute. by repeat constructor.
  - split; reflexivity.
  - by vm_compute.
  - reflexivity.
  - split_and!; [by vm_compute..| |apply Nat.leb_le; by vm_compute]. repeat constructor; by vm_compute.
  - exact rows0_found.
Qed.

#[local] Opaque ln_derkey_create_secret ln_misc_update_scriptkeys.

(** The two transactions that are published. *)
Lemma published0 our : our = 55000000 ∨ our = 0 →
  published conf rows0 node1 (ln_derkey_create_secret mbedtls_sha256 seed (LN_SECINDEX_INIT - 0)) 0 then_L then_R keys0
    500 546 our 33000000 false infos0 (tx0 our).
Proof.
  intros Ho. change (ln_derkey_create_secret mbedtls_sha256 seed (LN_SECINDEX_INIT - 0)) with sec0.
  apply tx0_published.
  - apply Nat.leb_le. destruct Ho as [-> | ->]; vm_compute; reflexivity.
  - apply (bool_decide_unpack (Forall _ _)). destruct Ho as [-> | ->]; vm_compute; exact I.
Qed.

Abbreviation close0 our := (@ln_close_remoterevoked total_alloc zero_fresh sum_hash toy_ecdsa conf rows0 (rep (tx0 our))).
Abbreviation no_outputs := (mk_revoked [] [] [] (mk_buf None 0) 0 0).

(** Four outputs, three of them taken. *)
Lemma penalty_recovers_witness : ∃ s', close0 55000000 (mk_rst node1 no_outputs) = Ret true s' ∧
  length (outs0 55000000) = 4%nat ∧ LnClose.revoked_sec (r_out s') = of_bytes sec0.
Proof.
  destruct (@penalty_recovers total_alloc total_alloc_total zero_fresh sum_hash sum_hash_laws toy_ecdsa toy_ecdsa_laws
    conf rows0 node1 no_outputs seed 0 0 then_L then_R keys0 500 546 55000000 33000000 false infos0 (tx0 55000000)
    (default [] (@create_percommitsec conf_node node1 LN_SECINDEX_INIT).2) (be_bytes 32 11)
    (skey keys_then MSG_SCRIPTIDX_REVOCATION))
    as (s' & H1 & _ & H2 & _).
  - apply published0. by left.
  - exact node1_secrets.
  - done.
  - done.
  - apply (bool_decide_unpack (Exists _ _)). by vm_compute.
  - by vm_compute.
  - done.
  - by vm_compute.
  - by vm_compute.
  - exists s'. split; [exact H1|]. split; [by vm_compute|exact H2].
Defined.

(** Without a balance there is no to_local output. *)
Lemma penalty_overflow_witness : length (outs0 0) = 3%nat ∧ close0 0 (mk_rst node1 no_outputs) = UB.
Proof.
  split; [by vm_compute|].
  apply (@penalty_overflow total_alloc total_alloc_total zero_fresh sum_hash sum_hash_laws toy_ecdsa
    conf rows0 node1 no_outputs seed 0 0 then_L then_R keys0 500 546 0 33000000 false infos0 (tx0 0)
    (default [] (@create_percommitsec conf_node node1 LN_SECINDEX_INIT).2)).
  - apply published0. by right.
  - exact node1_secrets.
  - done.
  - done.
  - by vm_compute.
  - apply (bool_decide_unpack (Forall _ _)). by vm_compute.
  - intros E. vm_compute in E. discriminate E.
Defined.

Lemma revoked_htlc_burnt_witness : ∃ t,
  @ln_revokedhtlc_create_spenttx total_alloc zero_fresh sum_hash toy_ecdsa true sec0 node1 LN_HTLCTYPE_OFFERED (bufb [0x51])
    (bufb (p2wpkh_program (toy_key 3))) 5000 (replicate 32 9) 1 btc_tx_init = Ret true (rep t) ∧
  out_spk <$> t_outs t = [p2wsh_program (p2wpkh_program (toy_key 3))].
Proof.
  destruct (@revoked_htlc_burnt total_alloc total_alloc_total zero_fresh sum_hash sum_hash_laws toy_ecdsa toy_ecdsa_laws
    node1 LN_HTLCTYPE_OFFERED [0x51] (toy_key 3) 5000 (replicate 32 9) 1 sec0 (be_bytes 32 11)
    (ln_derkey_revocationprivkey mbedtls_sha256 (fund_key then_L MSG_FUNDIDX_REVOCATION)
      (fund_key now_R MSG_FUNDIDX_PER_COMMIT) (be_bytes 32 11) sec0)
    (default [] (btc_keys_priv2pub (ln_derkey_revocationprivkey mbedtls_sha256 (fund_key then_L MSG_FUNDIDX_REVOCATION)
      (fund_key now_R MSG_FUNDIDX_PER_COMMIT) (be_bytes 32 11) sec0))))
    as (t & H1 & H2 & _); [by vm_compute|by vm_compute|by vm_compute| |done|done|by vm_compute|].
  { intros E. vm_compute in E. discriminate E. }
  exists t. exact (conj H1 H2).
Defined.
End LnToyPenalty.
