(* ===== verification/LnShutdown.v ===== *)
(** The cooperative close of [ln.c]: the shutdown messages, the closing transaction
    ([create_closing_tx]) and the negotiation of its fee, with the callbacks of
    [ptarmd/lnapp.c] that take part in it. [LnMutual] proves it. *)
From stdpp Require Import base list numbers tactics.
From Stdlib Require Import ZArith Lia.
From S2P Require Import Prelude CProg UtlBuf UtlPush LnDerkey LnMisc LnMsg LnMsgNormal LnMsgClose LnSig LnHtlc LnSelf.
From S2P Require Import BtcTx BtcSw LnScript LnBuild LnNormal LnAddHtlc LnRecv.
Import UtlBuf UtlPush Derkey LnMisc LnMsg LnMsgNormal LnMsgClose LnSig LnHtlc BtcTx BtcSw LnScript LnBuild.
Import LnSelf.LnSelf LnNormal.LnNormal LnAddHtlc.LnAddHtlc LnRecv.LnRecv.
Open Scope Z_scope.

Module LnShutdown.

Abbreviation LN_SHDN_FLAG_SEND := 0x01.
Abbreviation LN_SHDN_FLAG_RECV := 0x02.
Abbreviation BTC_DUST_LIMIT := 546.

Inductive ln_status_t :=
| LN_STATUS_NONE | LN_STATUS_ESTABLISH | LN_STATUS_NORMAL | LN_STATUS_CLOSE_WAIT | LN_STATUS_CLOSE_SPENT
| LN_STATUS_CLOSE_MUTUAL | LN_STATUS_CLOSE_UNI_LOCAL | LN_STATUS_CLOSE_UNI_REMOTE | LN_STATUS_CLOSE_REVOKED.

(** What leaves the channel while it is closed. *)
Inductive close_event :=
| CB_SHUTDOWN_RECV
| CB_CLOSED_FEE (fee_sat : Z)
| CB_CLOSED (p_tx_closing : utl_buf_t)
| CB_SEND_REQ (buf_bolt : utl_buf_t)
| SELF_SAVE.

(** The channel with its fields for a cooperative close. *)
Record closing := mk_closing {
  cl_self : ln_self_t;
  shutdown_scriptpk_local : utl_buf_t;
  shutdown_scriptpk_remote : utl_buf_t;
  close_fee_sat : Z;
  close_last_fee_sat : Z;
  status : ln_status_t;
  tx_closing : btc_tx_t;
  events : list close_event;
}.

Definition set_self (v : ln_self_t) (c : closing) : closing :=
  mk_closing v (shutdown_scriptpk_local c) (shutdown_scriptpk_remote c) (close_fee_sat c) (close_last_fee_sat c)
    (status c) (tx_closing c) (events c).
Definition set_spk_remote (v : utl_buf_t) (c : closing) : closing :=
  mk_closing (cl_self c) (shutdown_scriptpk_local c) v (close_fee_sat c) (close_last_fee_sat c)
    (status c) (tx_closing c) (events c).
Definition set_close_fee (v : Z) (c : closing) : closing :=
  mk_closing (cl_self c) (shutdown_scriptpk_local c) (shutdown_scriptpk_remote c) v (close_last_fee_sat c)
    (status c) (tx_closing c) (events c).
Definition set_last_fee (v : Z) (c : closing) : closing :=
  mk_closing (cl_self c) (shutdown_scriptpk_local c) (shutdown_scriptpk_remote c) (close_fee_sat c) v
    (status c) (tx_closing c) (events c).
Definition set_status (v : ln_status_t) (c : closing) : closing :=
  mk_closing (cl_self c) (shutdown_scriptpk_local c) (shutdown_scriptpk_remote c) (close_fee_sat c) (close_last_fee_sat c)
    v (tx_closing c) (events c).
Definition set_tx_closing (v : btc_tx_t) (c : closing) : closing :=
  mk_closing (cl_self c) (shutdown_scriptpk_local c) (shutdown_scriptpk_remote c) (close_fee_sat c) (close_last_fee_sat c)
    (status c) v (events c).
Definition add_event (e : close_event) (c : closing) : closing :=
  mk_closing (cl_self c) (shutdown_scriptpk_local c) (shutdown_scriptpk_remote c) (close_fee_sat c) (close_last_fee_sat c)
    (status c) (tx_closing c) (events c ++ [e]).

Definition mod_cl (f : ln_self_t → ln_self_t) : prog closing unit := modify (λ c, set_self (f (cl_self c)) c).
Definition note (e : close_event) : prog closing unit := modify (add_event e).

(** [M_SET_ERR(e); return false;] *)
Definition refuse_if (b : bool) (e : ln_err) : prog closing unit :=
  if b then mod_cl (set_err (Some e));; exit_with false else mret tt.

(** A step of [self->tx_closing]. *)
Definition on_tx {B} (m : prog btc_tx_t B) : prog closing B := λ c,
  match m (tx_closing c) with
  | Ret b t => Ret b (set_tx_closing t c)
  | Exit b t => Exit b (set_tx_closing t c)
  | UB => UB
  | AbortOut => AbortOut
  end.

Definition M_SHDN_FLAG_EXCHANGED (flag : Z) : bool :=
  Z.land flag (Z.lor LN_SHDN_FLAG_SEND LN_SHDN_FLAG_RECV) =? Z.lor LN_SHDN_FLAG_SEND LN_SHDN_FLAG_RECV.

Definition ln_status_is_closing (c : closing) : bool :=
  match status c with LN_STATUS_NONE | LN_STATUS_ESTABLISH | LN_STATUS_NORMAL => false | _ => true end.

Section code.
Context {A : Alloc} {F : Fresh} {H : BtcHash} {E : Ecdsa} (mNativeSegwit PTARM_DEBUG : bool) (fd : ln_fund_t).
(** [LN_DBG_CLOSING_TX()] and [btcrpc_send_rawtx]. *)
Context (LN_DBG_CLOSING_TX : bool) (btcrpc_send_rawtx : utl_buf_t → bool).

Definition ln_shutdown_update_fee (Fee : Z) : prog closing unit :=
  self ← gets cl_self;
  let feemax := ln_closing_signed_initfee self in
  modify (set_close_fee (if feemax <? Fee then feemax else Fee)).

(** *** The callbacks of [lnapp.c] *)

Definition cb_shutdown_recv : prog closing unit :=
  self ← gets cl_self;
  ln_shutdown_update_fee (ln_closing_signed_initfee self).

Definition cb_closed_fee (fee_sat : Z) : prog closing unit := ln_shutdown_update_fee fee_sat.

(** [p_closed->result] *)
Definition cb_closed (p_tx_closing : utl_buf_t) : prog closing bool :=
  if LN_DBG_CLOSING_TX
  then let result := btcrpc_send_rawtx p_tx_closing in c_assert result;; mret result
  else mret false.

(** *** The closing transaction *)

(** The outputs above the dust limit, the fee taken from the funder's. *)
Definition closing_build (self : ln_self_t) (spk_local spk_remote : utl_buf_t) (FeeSat : Z) : prog btc_tx_t unit :=
  let fee_local := if ln_is_funder fd then FeeSat else 0 in
  let fee_remote := if ln_is_funder fd then 0 else FeeSat in
  let vout_local := u64 (fee_local + BTC_DUST_LIMIT) <? LN_MSAT2SATOSHI (our_msat self) in
  let vout_remote := u64 (fee_remote + BTC_DUST_LIMIT) <? LN_MSAT2SATOSHI (their_msat self) in
  (if vout_local
   then i ← btc_tx_add_vout (u64 (LN_MSAT2SATOSHI (our_msat self) - fee_local));
        fill_vout_script i (default [] (buf spk_local)) (len spk_local)
   else mret tt);;
  (if vout_remote
   then i ← btc_tx_add_vout (u64 (LN_MSAT2SATOSHI (their_msat self) - fee_remote));
        fill_vout_script i (default [] (buf spk_remote)) (len spk_remote)
   else mret tt);;
  btc_tx_add_vin (f_txid fd) (f_txindex fd);;
  btc_util_sort_bip69.

(** With [&self->tx_closing], which is how it is called. *)
Definition create_closing_tx (FeeSat : Z) (bVerify : bool) : prog closing bool :=
  c ← get_st;
  let self := cl_self c in
  if (len (shutdown_scriptpk_local c) =? 0) || (len (shutdown_scriptpk_remote c) =? 0) then mret false else
  on_tx (closing_build self (shutdown_scriptpk_local c) (shutdown_scriptpk_remote c) FeeSat);;
  t ← gets tx_closing;
  sighash ← lift (btc_util_calc_sighash_p2wsh t 0 (funding_sat fd) (redeem_fund fd));
  match sighash with
  | None => on_tx (modify (btc_tx_free PTARM_DEBUG));; mret false
  | Some sighash =>
      buf_sig ← lift (ln_signer_p2wsh sighash (priv self) MSG_FUNDIDX_FUNDING);
      d ← lift (buf_bytes buf_sig);
      r ← on_local (ln_misc_sigtrim d) (signature (commit_remote self));
      mod_cl (λ self, set_commit_remote (set_signature r.2 (commit_remote self)) self);;
      if bVerify
      then buf_sig_from_remote ← sigexpand (signature (commit_local self));
           on_tx (set_vin_p2wsh_2of2 mNativeSegwit 0 (key_fund_sort fd) buf_sig buf_sig_from_remote (redeem_fund fd));;
           t ← gets tx_closing;
           lift (btc_sw_verify_2of2 t 0 sighash (f_spk fd))
      else mret true
  end.

(** *** The messages *)

Definition ln_shutdown_create : prog closing (bool * utl_buf_t) :=
  c ← get_st;
  r ← encode (Shutdown.ln_msg_shutdown_create
        (Shutdown.mk (channel_id (cl_self c)) (shutdown_scriptpk_local c)));
  (if (r.1 : bool)
   then mod_cl (λ self, set_shutdown_flag (Z.lor (shutdown_flag self) LN_SHDN_FLAG_SEND) self);; note SELF_SAVE
   else mret tt);;
  mret r.

(** [lnapp_close_channel]: the message is sent to the peer. [loop] tells whether the
    threads of the channel run. *)
Definition lnapp_close_channel (loop : bool) : prog closing bool :=
  if negb loop then mret false else
  c ← get_st;
  if ln_status_is_closing c then mret false else
  cb_shutdown_recv;;
  r ← ln_shutdown_create;
  (if (r.1 : bool) then note (CB_SEND_REQ r.2) else mret tt);;
  mret r.1.

(** The first closing_signed of the funder. *)
Definition send_first_closing : prog closing bool :=
  on_tx (modify (btc_tx_free PTARM_DEBUG));;
  fee ← gets close_fee_sat;
  ret ← create_closing_tx fee false;
  self ← gets cl_self;
  r ← (if ret : bool
       then encode (ClosingSigned.ln_msg_closing_signed_create
              (ClosingSigned.mk (channel_id self) fee (signature (commit_remote self))))
       else mret (false, UTL_BUF_INIT));
  (if (r.1 : bool)
   then modify (set_last_fee fee);; note (CB_SEND_REQ r.2);; note SELF_SAVE
   else mret tt);;
  mret r.1.

(** The fields the message is read into: a local channel id and the peer's script. *)
Definition shutdown_read (pData : bytes) (Len : Z) : prog closing (bool * bytes) :=
  c ← get_st;
  r ← on_local (Shutdown.ln_msg_shutdown_read pData Len) (Shutdown.mk uninit (shutdown_scriptpk_remote c));
  modify (set_spk_remote (Shutdown.p_scriptpk r.2));;
  mret (r.1, Shutdown.p_channel_id r.2).

(** The answer to a shutdown that was accepted. *)
Definition shutdown_received : prog closing bool :=
  flag ← gets (λ c, shutdown_flag (cl_self c));
  ret ← (if Z.land flag LN_SHDN_FLAG_SEND =? 0
         then note CB_SHUTDOWN_RECV;; cb_shutdown_recv;;
              r ← ln_shutdown_create;
              (if (r.1 : bool) then note (CB_SEND_REQ r.2) else mod_cl (set_err (Some LNERR_CREATE_MSG)));;
              mret r.1
         else mret true);
  flag ← gets (λ c, shutdown_flag (cl_self c));
  if M_SHDN_FLAG_EXCHANGED flag
  then modify (set_status LN_STATUS_CLOSE_WAIT);; note SELF_SAVE;;
       if ln_is_funder fd then send_first_closing else mret ret
  else mret ret.

Definition recv_shutdown (pData : bytes) (Len : Z) : prog closing bool :=
  flag ← gets (λ c, shutdown_flag (cl_self c));
  exit_if (negb (Z.land flag LN_SHDN_FLAG_RECV =? 0)) false;;
  r ← shutdown_read pData Len;
  refuse_if (negb r.1) LNERR_MSG_READ;;
  c ← get_st;
  refuse_if (negb (chk_channelid r.2 (channel_id (cl_self c)))) LNERR_INV_CHANNEL;;
  ok ← lift (ln_script_scriptpkh_check (shutdown_scriptpk_remote c));
  refuse_if (negb ok) LNERR_INV_PRIVKEY;;
  mod_cl (λ self, set_shutdown_flag (Z.lor (shutdown_flag self) LN_SHDN_FLAG_RECV) self);;
  note SELF_SAVE;;
  modify (set_last_fee 0);;
  shutdown_received.

(** The signature is read into the channel. *)
Definition closing_signed_read (pData : bytes) (Len : Z) : prog closing (bool * ClosingSigned.t) :=
  c ← get_st;
  r ← on_local (ClosingSigned.ln_msg_closing_signed_read pData Len)
        (ClosingSigned.mk uninit 0 (signature (commit_local (cl_self c))));
  mod_cl (λ self, set_commit_local (set_signature (ClosingSigned.p_signature r.2) (commit_local self)) self);;
  mret r.

(** A fee that is acceptable: the signature is checked, and the transaction sent when
    the fee is the one we asked for. *)
Definition closing_negotiate (fee_sat : Z) : prog closing bool :=
  on_tx (modify (btc_tx_free PTARM_DEBUG));;
  ret ← create_closing_tx fee_sat true;
  c_assert ret;;
  last ← gets close_last_fee_sat;
  let need_closetx := last =? fee_sat in
  (if need_closetx then mret tt else note (CB_CLOSED_FEE fee_sat);; cb_closed_fee fee_sat);;
  on_tx (modify (btc_tx_free PTARM_DEBUG));;
  fee ← gets close_fee_sat;
  ret ← create_closing_tx fee need_closetx;
  exit_if (negb ret) false;;
  c ← get_st;
  let self := cl_self c in
  ret ← (if need_closetx
         then r ← on_local (btc_tx_create (tx_closing c)) (mk_push 0 (mk_buf None 0));
              c_assert r.1;;
              note (CB_CLOSED (data r.2));;
              result ← cb_closed (data r.2);
              (if result : bool then modify (set_status LN_STATUS_CLOSE_SPENT) else mret tt);;
              mret r.1
         else r ← encode (ClosingSigned.ln_msg_closing_signed_create
                    (ClosingSigned.mk (channel_id self) fee_sat (signature (commit_remote self))));
              c_assert r.1;;
              modify (set_last_fee fee);; note (CB_SEND_REQ r.2);;
              mret r.1);
  note SELF_SAVE;;
  mret ret.

Definition recv_closing_signed (pData : bytes) (Len : Z) : prog closing bool :=
  c ← get_st;
  refuse_if (negb (M_SHDN_FLAG_EXCHANGED (shutdown_flag (cl_self c)))) LNERR_INV_STATE;;
  r ← closing_signed_read pData Len;
  refuse_if (negb r.1) LNERR_MSG_READ;;
  let cnl_close := r.2 in
  let fee_sat := ClosingSigned.fee_sat cnl_close in
  self ← gets cl_self;
  refuse_if (negb (chk_channelid (ClosingSigned.p_channel_id cnl_close) (channel_id self))) LNERR_INV_CHANNEL;;
  exit_if (ln_closing_signed_initfee self <? fee_sat) false;;
  closing_negotiate fee_sat.
End code.
End LnShutdown.
