(* ===== verification/LnMutual.v ===== *)
(** The cooperative close between two nodes: both build the same closing transaction,
    the exchange of messages ends with it signed by both sides, and what becomes of a
    closing_signed that is not in order. *)
From stdpp Require Import base list numbers tactics sorting.
From Stdlib Require Import ZArith Lia.
From S2P Require Import Prelude CProg UtlBuf UtlPush LnDerkey LnMisc LnMsg LnMsgNormal LnMsgClose LnSig LnHtlc LnSelf.
From S2P Require Import BtcTx BtcTxWire BtcTxRead BtcSw BtcSort BtcDigest BtcBuild LnScript LnSpend LnWitness LnCommitTx.
From S2P Require Import LnBuild LnSignTx LnAgree LnNormal LnAddHtlc LnRecv LnExchange LnShutdown.
Import UtlBuf UtlPush Derkey LnMisc LnMsg LnMsgNormal LnMsgClose LnSig LnHtlc BtcTx BtcTxWire BtcTxRead BtcSw.
Import BtcSort BtcDigest BtcBuild LnScript LnSpend LnWitness LnCommitTx LnBuild LnSignTx LnAgree.
Import LnSelf.LnSelf LnNormal.LnNormal LnAddHtlc.LnAddHtlc LnRecv.LnRecv LnExchange LnShutdown.
Open Scope Z_scope.

Module LnMutual.

(** ** The scripts that shutdown accepts *)

Inductive std_spk : bytes → Prop :=
| std_pkh h : length h = 20%nat → std_spk ([0x76; 0xa9; 0x14] ++ h ++ [0x88; 0xac])
| std_sh h : length h = 20%nat → std_spk ([0xa9; 0x14] ++ h ++ [0x87])
| std_wpkh h : length h = 20%nat → std_spk ([0x00; 0x14] ++ h)
| std_wsh h : length h = 32%nat → std_spk ([0x00; 0x20] ++ h).

Lemma std_len d : std_spk d → 22 ≤ zlen d ≤ 34.
Proof. destruct 1; rewrite !length_app; cbn [length]; lia. Qed.

Lemma std_unrelated a b : std_spk a → std_spk b → unrelated a b.
Proof.
  intros [h H|h H|h H|h H] [h' H'|h' H'|h' H'|h' H'];
    solve [ apply same_length_unrelated; rewrite !length_app, H, H'; done
          | right; intros [[k Ek]|[k Ek]]; discriminate Ek ].
Qed.

Lemma std_checked d : std_spk d → ln_script_scriptpkh_check (of_bytes d) tt = Ret true tt.
Proof.
  destruct 1 as [h Hl|h Hl|h Hl|h Hl].
  - do 20 (destruct h as [|? h]; [discriminate Hl|]). destruct h; [reflexivity|discriminate Hl].
  - do 20 (destruct h as [|? h]; [discriminate Hl|]). destruct h; [reflexivity|discriminate Hl].
  - do 20 (destruct h as [|? h]; [discriminate Hl|]). destruct h; [reflexivity|discriminate Hl].
  - do 32 (destruct h as [|? h]; [discriminate Hl|]). destruct h; [reflexivity|discriminate Hl].
Qed.

Section close.
Context {A : Alloc} {T : AllocTotal A} {F : Fresh} {H : BtcHash} {HL : BtcHashLaws H} {E : Ecdsa} {EL : EcdsaLaws E}.

(** ** The closing transaction *)

Section tx.
Context (fd : ln_fund_t) (our their : Z) (spk_local spk_remote : bytes) (fee : Z).

Definition output_if (msat fee : Z) (spk : bytes) : list tx_output :=
  if u64 (fee + BTC_DUST_LIMIT) <? LN_MSAT2SATOSHI msat
  then [mk_out (u64 (LN_MSAT2SATOSHI msat - fee)) spk 0] else [].

(** The fee is the funder's. *)
Definition closing_outs : list tx_output :=
  output_if our (if ln_is_funder fd then fee else 0) spk_local ++
  output_if their (if ln_is_funder fd then 0 else fee) spk_remote.

Definition closing_in : tx_input := mk_in (f_txid fd) (u32 (f_txindex fd)) [] [] BTC_TX_SEQUENCE.
Definition closing_tx (outs : list tx_output) : transaction := mk_trans 2 [closing_in] outs 0.

Lemma output_if_len msat f spk : (length (output_if msat f spk) ≤ 1)%nat.
Proof. unfold output_if. destruct (_ <? _); cbn; lia. Qed.

Lemma outs_len : (length closing_outs ≤ 2)%nat.
Proof.
  unfold closing_outs. rewrite length_app.
  pose proof (output_if_len our (if ln_is_funder fd then fee else 0) spk_local).
  pose proof (output_if_len their (if ln_is_funder fd then 0 else fee) spk_remote). lia.
Qed.

Lemma outs_spk o : o ∈ closing_outs → out_spk o = spk_local ∨ out_spk o = spk_remote.
Proof.
  unfold closing_outs, output_if. rewrite elem_of_app.
  intros [Ho|Ho]; destruct (_ <? _); try (by apply not_elem_of_nil in Ho); apply list_elem_of_singleton in Ho as ->; auto.
Qed.

Lemma outs_value o : 0 ≤ fee < 2 ^ 62 → 0 ≤ our < 2 ^ 62 → 0 ≤ their < 2 ^ 62 → o ∈ closing_outs → 0 < out_value o.
Proof.
  assert (∀ m f spk, 0 ≤ f < 2 ^ 62 → 0 ≤ m < 2 ^ 62 → o ∈ output_if m f spk → 0 < out_value o) as Ho.
  { intros m f spk Hf Hm. unfold output_if.
    assert (0 ≤ LN_MSAT2SATOSHI m < 2 ^ 62) as Hs by (unfold LN_MSAT2SATOSHI; Z.to_euclidean_division_equations; lia).
    rewrite (wrap_small 64 (f + _)) by (unfold in_range; lia).
    destruct (Z.ltb_spec (f + BTC_DUST_LIMIT) (LN_MSAT2SATOSHI m)); [|by intros ?%not_elem_of_nil].
    intros ->%list_elem_of_singleton. cbn [out_value]. rewrite wrap_small by (unfold in_range; lia). lia. }
  intros Hf Ho1 Ho2. unfold closing_outs. rewrite elem_of_app.
  intros [Hi|Hi]; (eapply Ho; [| |exact Hi]); [destruct (ln_is_funder fd); lia|lia|destruct (ln_is_funder fd); lia|lia].
Qed.

Context (Hl : std_spk spk_local) (Hr : std_spk spk_remote).

Lemma outs_std : Forall (λ o, std_spk (out_spk o)) closing_outs.
Proof. apply Forall_forall. intros o [-> | ->]%outs_spk; done. Qed.

(** *** What [create_closing_tx] builds *)

Lemma add_output t v d : zlen (t_outs t) + 1 < 2 ^ 32 → d ≠ [] →
  (i ← btc_tx_add_vout v; fill_vout_script i (default [] (buf (of_bytes d))) (len (of_bytes d))) (rep t) =
  Ret tt (rep (add_out (mk_out v d 0) t)).
Proof.
  intros Hn Hd. erewrite bind_ret by (by apply add_vout_spec). cbn [of_bytes buf len default]. by apply fill_vout_script_spec.
Qed.

Lemma std_nonempty d : std_spk d → d ≠ [].
Proof. intros Hd%std_len ->. cbn in Hd. lia. Qed.

Definition with_output (msat f : Z) (spk : bytes) (t : transaction) : transaction :=
  with_outs t (t_outs t ++ output_if msat f spk).

Lemma output_step {B} msat f spk t (K : unit → prog btc_tx_t B) : zlen (t_outs t) + 1 < 2 ^ 32 → std_spk spk →
  ((if u64 (f + BTC_DUST_LIMIT) <? LN_MSAT2SATOSHI msat
    then i ← btc_tx_add_vout (u64 (LN_MSAT2SATOSHI msat - f));
         fill_vout_script i (default [] (buf (of_bytes spk))) (len (of_bytes spk))
    else mret tt) ≫= K) (rep t) = K tt (rep (with_output msat f spk t)).
Proof.
  intros Hn Hs. unfold with_output, output_if. destruct (_ <? _).
  - erewrite bind_ret by (apply add_output; [done|by apply std_nonempty]). reflexivity.
  - rewrite app_nil_r. destruct t. reflexivity.
Qed.

Lemma closing_built self : our_msat self = our → their_msat self = their → length (f_txid fd) = 32%nat →
  ∃ outs, closing_build fd self (of_bytes spk_local) (of_bytes spk_remote) fee btc_tx_init = Ret tt (rep (closing_tx outs)) ∧
    outs ≡ₚ closing_outs ∧ StronglySorted out_le outs.
Proof.
  intros Ho Ht Hx. unfold closing_build. rewrite Ho, Ht. change btc_tx_init with (rep (mk_trans 2 [] [] 0)). cbv zeta.
  rewrite output_step by done. rewrite output_step; [|cbn; unfold output_if; destruct (_ <? _); cbn; lia|done].
  erewrite bind_ret by (apply add_vin_spec; done).
  destruct (sort_bip69_one (closing_tx closing_outs) closing_in) as (outs & Es & Hp & Hs); [done|done| |].
  { apply Forall_forall. intros o Hoo. apply Forall_forall. intros o' Ho'. pose proof outs_std as Hstd.
    rewrite Forall_forall in Hstd. apply std_unrelated; by apply Hstd. }
  exists outs. split; [exact Es|by split].
Qed.
End tx.

(** Both keys of the funding output, and what this side has of it. *)
Record funded (fd : ln_fund_t) (self : ln_self_t) (k kr : bytes) : Prop := {
  fund_priv : LnSelf.LnSelf.priv self !! MSG_FUNDIDX_FUNDING = Some k;
  fund_keys : good_key k ∧ good_key kr;
  fund_tx : length (f_txid fd) = 32%nat;
  fund_2of2 : ∃ p1 p2, (p1, p2) = (if key_fund_sort fd then (pub_of k, pub_of kr) else (pub_of kr, pub_of k)) ∧
    redeem_fund fd = bufb (two_of_two p1 p2) ∧ f_spk fd = bufb (p2wsh_program (two_of_two p1 p2));
  fund_msat : 0 ≤ our_msat self < 2 ^ 62 ∧ 0 ≤ their_msat self < 2 ^ 62;
  fund_sig : length (signature (commit_remote self)) = 64%nat;
}.

(** The script of the funding output. *)
Definition redeem (fd : ln_fund_t) (k kr : bytes) : bytes :=
  if key_fund_sort fd then two_of_two (pub_of k) (pub_of kr) else two_of_two (pub_of kr) (pub_of k).

Definition closing_hash (fd : ln_fund_t) (k kr : bytes) (outs : list tx_output) : bytes :=
  sha256d (bip143 out_wire (closing_tx fd outs) (closing_in fd) (var_bytes (redeem fd k kr)) (funding_sat fd)).

Lemma pub_33 k : good_key k → length (pub_of k) = 33%nat.
Proof. intros [_ Hd]. by apply pub_read. Qed.

Lemma redeem_71 fd k kr : good_key k → good_key kr → length (redeem fd k kr) = 71%nat.
Proof. intros Hk Hr. unfold redeem. destruct (key_fund_sort fd); apply two_of_two_len; by apply pub_33. Qed.

Lemma closing_sound fd our their sl sr fee outs : std_spk sl → std_spk sr → length (f_txid fd) = 32%nat →
  0 ≤ fee < 2 ^ 62 → 0 ≤ our < 2 ^ 62 → 0 ≤ their < 2 ^ 62 →
  outs ≡ₚ closing_outs fd our their sl sr fee → outs ≠ [] → let t := closing_tx fd outs in
  tx_ok t ∧ valid t = true ∧ Forall (λ o, zlen (out_spk o) < 0xfd) outs ∧ zlen (concat (short_out <$> outs)) < 2 ^ 16.
Proof.
  intros Hsl Hsr Hx Hf Ho Ht Hp Hne t. pose proof (outs_len fd our their sl sr fee) as Hlen.
  rewrite <- (Permutation_length Hp) in Hlen.
  assert (Forall (λ o, std_spk (out_spk o)) outs) as Hstd by (rewrite Hp; by apply outs_std).
  assert (∀ n, 34 < n → Forall (λ o, zlen (out_spk o) < n) outs) as Hn.
  { intros n Hn. eapply Forall_impl; [exact Hstd|]. intros o Hs%std_len. cbn. lia. }
  assert (Forall (λ o, zlen (short_out o) < 100) outs) as Hshort.
  { eapply Forall_impl; [exact Hstd|]. intros o Hs%std_len. unfold short_out. rewrite !length_app, length_le_bytes. cbn [length]. lia. }
  split_and!.
  - split; [by repeat constructor|by apply Hn|done|]. unfold small. cbn. lia.
  - unfold valid. cbn [t closing_tx t_version t_ins t_outs]. rewrite !bool_decide_eq_false_2 by done. cbn [negb andb Z.eqb].
    apply forallb_forall. intros o Hoi%list_elem_of_In. assert (Hoi' := Hoi). rewrite Hp in Hoi'.
    pose proof (outs_value fd our their sl sr fee o Hf Ho Ht Hoi') as Hv. rewrite Forall_forall in Hstd.
    specialize (Hstd o Hoi). unfold valid_out. rewrite (proj2 (Z.eqb_neq _ _)) by lia. by destruct Hstd.
  - by apply Hn.
  - assert (zlen (concat (short_out <$> outs)) ≤ 100 * zlen outs) as Hc; [|lia].
    clear -Hshort. induction Hshort as [|a l Ha _ IH]; [done|]. rewrite fmap_cons.
    change (concat (short_out a :: (short_out <$> l))) with (short_out a ++ concat (short_out <$> l)).
    rewrite length_app. cbn [length]. lia.
Qed.

Definition closing_wit (fd : ln_fund_t) (k kr h sg : bytes) : list bytes :=
  sigs_2of2 (key_fund_sort fd) (der_of k h) (der_sig sg) (redeem fd k kr).

Definition signed_self (k h : bytes) (self : ln_self_t) : ln_self_t :=
  set_commit_remote (set_signature (rs_of k h) (commit_remote self)) self.

Lemma redeem_fd fd self k kr : funded fd self k kr →
  redeem_fund fd = bufb (redeem fd k kr) ∧ f_spk fd = bufb (p2wsh_program (redeem fd k kr)).
Proof.
  intros [_ _ _ (p1 & p2 & Ep & Er & Es) _ _]. unfold redeem. destruct (key_fund_sort fd); by injection Ep as -> ->.
Qed.

(** A check of the input with both signatures. *)
Lemma closing_verified fd self k kr outs h sg : funded fd self k kr → is_sig sg →
  btc_sw_verify_2of2 (rep (signed_tx (closing_wit fd k kr h sg) (closing_in fd) (closing_tx fd outs))) 0 h (f_spk fd) tt =
  Ret (accepted kr h sg) tt.
Proof.
  intros Hf Hsg. destruct (redeem_fd fd self k kr Hf) as [_ ->]. destruct Hf as [_ [Hk Hkr] _ _ _ _].
  assert (redeem fd k kr = two_of_two (if key_fund_sort fd then pub_of k else pub_of kr)
    (if key_fund_sort fd then pub_of kr else pub_of k)) as Er by (unfold redeem; by destruct (key_fund_sort fd)).
  rewrite Er. apply (verify_pair _ (put_wit [] (closing_wit fd k kr h sg) (closing_in fd)) k kr _ _ (key_fund_sort fd)); try done.
  - by destruct (key_fund_sort fd).
  - cbn [put_wit in_wit]. unfold closing_wit. by rewrite Er.
Qed.

Lemma on_tx_step {B C} (m : prog btc_tx_t B) (K : B → prog closing C) c b t :
  m (tx_closing c) = Ret b t → (on_tx m ≫= K) c = K b (set_tx_closing t c).
Proof. intros Hm. unfold mbind, prog_bind, on_tx. by rewrite Hm. Qed.

Lemma std_of_bytes d : std_spk d → (len (of_bytes d) =? 0) = false.
Proof. intros Hd%std_len. cbn [of_bytes len]. apply Z.eqb_neq. lia. Qed.

Lemma lift_step {S X B} (m : prog unit X) a (K : X → prog S B) s : m tt = Ret a tt → (lift m ≫= K) s = K a s.
Proof. intros Hm. erewrite bind_ret; [reflexivity|by apply lift_ret]. Qed.

(** [create_closing_tx], with and without a signature to check. *)
Lemma closing_created dbg fd c k kr spl spr fee : let self := cl_self c in
  funded fd self k kr → std_spk spl → std_spk spr →
  shutdown_scriptpk_local c = of_bytes spl → shutdown_scriptpk_remote c = of_bytes spr → tx_closing c = btc_tx_init →
  0 ≤ fee < 2 ^ 62 → closing_outs fd (our_msat self) (their_msat self) spl spr fee ≠ [] →
  ∃ outs, outs ≡ₚ closing_outs fd (our_msat self) (their_msat self) spl spr fee ∧ StronglySorted out_le outs ∧
    let h := closing_hash fd k kr outs in
    create_closing_tx true dbg fd fee false c =
      Ret true (set_tx_closing (rep (closing_tx fd outs)) (set_self (signed_self k h self) c)) ∧
    (is_sig (signature (commit_local self)) →
     create_closing_tx true dbg fd fee true c =
       Ret (accepted kr h (signature (commit_local self)))
         (set_tx_closing (rep (signed_tx (closing_wit fd k kr h (signature (commit_local self))) (closing_in fd) (closing_tx fd outs)))
           (set_self (signed_self k h self) c))).
Proof.
  intros self Hf Hsl Hsr El Er Et Hfee Hne.
  destruct (redeem_fd fd self k kr Hf) as [Hred Hspk]. assert (Hf' := Hf). destruct Hf as [Hpr [Hk Hkr] Hx _ [Ho Ht] Hsig].
  destruct (closing_built fd (our_msat self) (their_msat self) spl spr fee Hsl Hsr self eq_refl eq_refl Hx)
    as (outs & Eb & Hp & Hs).
  assert (outs ≠ []) as Hne' by (intros ->; by apply Permutation_nil in Hp).
  destruct (closing_sound fd (our_msat self) (their_msat self) spl spr fee outs Hsl Hsr Hx Hfee Ho Ht Hp Hne') as (Hok & Hv & Hsh & Hsz).
  pose proof (redeem_71 fd k kr Hk Hkr) as H71.
  exists outs. split; [done|]. split; [done|]. cbv zeta. set (h := closing_hash fd k kr outs).
  assert (btc_util_calc_sighash_p2wsh (rep (closing_tx fd outs)) 0 (funding_sat fd) (redeem_fund fd) tt = Ret (Some h) tt) as Eh.
  { rewrite Hred. pose proof (calc_sighash_spec (closing_tx fd outs) 0 (closing_in fd) (redeem fd k kr) (funding_sat fd) Hok eq_refl
      ltac:(done) Hsz ltac:(lia)) as Eh. rewrite Hv, bip143_short in Eh by exact Hsh. exact Eh. }
  destruct (sign_cycle k h Hk) as (Esign & _ & _ & Htrim & _).
  assert (∀ b, create_closing_tx true dbg fd fee b c =
    (if b then buf_sig_from_remote ← sigexpand (signature (commit_local self));
           on_tx (set_vin_p2wsh_2of2 true 0 (key_fund_sort fd) (bufb (der_of k h)) buf_sig_from_remote (redeem_fund fd));;
           t ← gets tx_closing;
           lift (btc_sw_verify_2of2 t 0 h (f_spk fd))
     else mret true) (set_self (signed_self k h self) (set_tx_closing (rep (closing_tx fd outs)) c))) as Hb.
  { intros b. unfold create_closing_tx. rewrite get_st_step. cbv zeta. rewrite El, Er, !std_of_bytes by done. cbn [orb].
    fold self. erewrite on_tx_step by (rewrite Et; exact Eb). rewrite gets_step. cbn [set_tx_closing tx_closing].
    rewrite (lift_step _ _ _ _ Eh). cbv beta iota.
    erewrite lift_step by (unfold ln_signer_p2wsh; rewrite Hpr; exact Esign).
    erewrite lift_step by apply buf_bytes_bufb. erewrite on_local_step by (by apply Htrim). cbn [snd].
    unfold mod_cl. rewrite modify_step. reflexivity. }
  split; [rewrite Hb; by destruct c|]. intros Hsg. rewrite Hb. destruct (any_sig _ Hsg) as (Hexp & _).
  set (sg := signature (commit_local self)) in *.
  erewrite bind_ret by apply Hexp.
  erewrite on_tx_step; [|cbn [set_self set_tx_closing tx_closing]].
  2:{ unfold set_vin_p2wsh_2of2. rewrite Hred.
      replace (if key_fund_sort fd then _ else _) with (bufb <$> closing_wit fd k kr h sg)
        by (unfold closing_wit, sigs_2of2; by destruct (key_fund_sort fd)).
      apply (set_vin_p2wsh_spec true (closing_tx fd outs) 0 (closing_in fd) (closing_wit fd k kr h sg) (redeem fd k kr));
        [done|done|unfold closing_wit, sigs_2of2; by destruct (key_fund_sort fd)|unfold closing_wit, sigs_2of2; by destruct (key_fund_sort fd)|lia]. }
  rewrite gets_step. cbn [set_self set_tx_closing tx_closing].
  apply lift_ret. exact (closing_verified fd self k kr outs h sg Hf' Hsg).
Qed.

(** ** The messages *)

Lemma free_rep dbg t : t_version t = 2 → t_lock t = 0 → btc_tx_free dbg (rep t) = btc_tx_init.
Proof.
  intros Hv Hl. unfold btc_tx_free. destruct dbg; [done|]. cbn [rep version vin_cnt vin vout_cnt vout locktime]. rewrite Hv, Hl.
  unfold btc_tx_init. f_equal; [destruct (t_ins t)|destruct (t_outs t)]; try done; cbn [length]; case_match; done || lia.
Qed.

Definition chan_id (self : ln_self_t) : Prop := is_bytes (channel_id self) ∧ length (channel_id self) = 32%nat.

Definition shutdown_msg (self : ln_self_t) (sp : bytes) : Shutdown.t := Shutdown.mk (channel_id self) (of_bytes sp).

Lemma shutdown_wf self sp : chan_id self → std_spk sp → is_bytes sp → Shutdown.wf (shutdown_msg self sp).
Proof.
  intros [Hc Hl] Hs Hb. pose proof (std_len sp Hs) as Hn. unfold Shutdown.wf, shutdown_msg, buf_canon, buf_data, buf_of.
  cbn [Shutdown.p_channel_id Shutdown.p_scriptpk of_bytes buf len]. rewrite read_of_bytes.
  rewrite bool_decide_eq_false_2 by (by apply std_nonempty). split_and!; [done|lia|done|done|unfold in_range; lia].
Qed.

Lemma shutdown_packet self sp : chan_id self → std_spk sp → is_bytes sp → packet (Shutdown.wire (shutdown_msg self sp) ++ []).
Proof.
  intros [Hc Hl] Hs Hb. pose proof (std_len sp Hs) as Hn. rewrite app_nil_r. unfold Shutdown.wire, shutdown_msg, buf_data.
  cbn [Shutdown.p_channel_id Shutdown.p_scriptpk of_bytes buf len]. rewrite read_of_bytes. split.
  - repeat apply Forall_app_2; try done; apply be_bytes_is_bytes.
  - change (default [] (Some sp)) with sp. rewrite !length_app, !length_be_bytes. lia.
Qed.

(** What is sent, as bytes. *)
Definition shutdown_bytes (self : ln_self_t) (sp : bytes) : bytes := Shutdown.wire (shutdown_msg self sp).

Definition raise_flag (f : Z) (self : ln_self_t) : ln_self_t := set_shutdown_flag (Z.lor (shutdown_flag self) f) self.

Lemma shutdown_created c sp : shutdown_scriptpk_local c = of_bytes sp → chan_id (cl_self c) → std_spk sp → is_bytes sp →
  ln_shutdown_create c = Ret (true, of_bytes (shutdown_bytes (cl_self c) sp))
    (add_event SELF_SAVE (set_self (raise_flag LN_SHDN_FLAG_SEND (cl_self c)) c)).
Proof.
  intros Hl Hc Hs Hb. unfold ln_shutdown_create. rewrite get_st_step, Hl.
  destruct Shutdown.shutdown_codec as [Cc _].
  erewrite (LnSelf.LnSelf.encode_step _ _ _ _ _ _ (shutdown_msg (cl_self c) sp)) by (by apply shutdown_wf). reflexivity.
Qed.

Section node.
Context (dbg : bool) (fd : ln_fund_t) (send : utl_buf_t → bool).

Lemma close_requested c sp : shutdown_scriptpk_local c = of_bytes sp → chan_id (cl_self c) → std_spk sp → is_bytes sp →
  ln_status_is_closing c = false →
  lnapp_close_channel true c = Ret true (add_event (CB_SEND_REQ (of_bytes (shutdown_bytes (cl_self c) sp)))
    (add_event SELF_SAVE (set_self (raise_flag LN_SHDN_FLAG_SEND (cl_self c))
      (set_close_fee (ln_closing_signed_initfee (cl_self c)) c)))).
Proof.
  intros Hl Hc Hs Hb Hst. unfold lnapp_close_channel. cbn [negb]. rewrite get_st_step, Hst.
  erewrite (bind_ret tt _ _ _ (set_close_fee (ln_closing_signed_initfee (cl_self c)) c)).
  2:{ unfold cb_shutdown_recv, ln_shutdown_update_fee. rewrite !gets_step, Z.ltb_irrefl. reflexivity. }
  erewrite bind_ret by (by apply (shutdown_created _ sp)). reflexivity.
Qed.

(** The peer's shutdown, up to the answer. *)
Lemma shutdown_accepted c peer sp : std_spk sp → is_bytes sp → chan_id peer → channel_id peer = channel_id (cl_self c) →
  Z.land (shutdown_flag (cl_self c)) LN_SHDN_FLAG_RECV = 0 →
  let d := shutdown_bytes peer sp in
  recv_shutdown true dbg fd d (zlen d) c =
  shutdown_received true dbg fd (set_last_fee 0 (add_event SELF_SAVE
    (set_self (raise_flag LN_SHDN_FLAG_RECV (cl_self c)) (set_spk_remote (of_bytes sp) c)))).
Proof.
  intros Hs Hb Hc Hid Hf d. unfold recv_shutdown. rewrite gets_step, Hf. cbn [Z.eqb negb].
  erewrite bind_ret by reflexivity. erewrite (bind_ret (true, channel_id peer) _ _ _ (set_spk_remote (of_bytes sp) c)).
  2:{ unfold shutdown_read. rewrite get_st_step. destruct Shutdown.shutdown_codec as [Cc _].
      pose proof (shutdown_wf peer sp Hc Hs Hb) as Hw. pose proof (shutdown_packet peer sp Hc Hs Hb) as Hp.
      pose proof (read_step (S := closing) (B := bool * bytes) _ _ _ _ _ _ (shutdown_msg peer sp) [] (Shutdown.mk uninit (shutdown_scriptpk_remote c))
        (λ r, modify (set_spk_remote (Shutdown.p_scriptpk r.2));; mret (r.1, Shutdown.p_channel_id r.2)) c Hw I Hp) as Hr.
      rewrite app_nil_r in Hr. exact Hr. }
  cbn [fst snd negb]. erewrite bind_ret by reflexivity. rewrite get_st_step.
  cbn [set_spk_remote cl_self shutdown_scriptpk_remote]. unfold chk_channelid. rewrite Hid, bool_decide_eq_true_2 by done.
  cbn [negb]. erewrite bind_ret by reflexivity. rewrite (lift_step _ _ _ _ (std_checked sp Hs)). cbn [negb].
  erewrite bind_ret by reflexivity. reflexivity.
Qed.
End node.

(** ** The negotiation *)

(** A channel whose scripts are known: it can make the closing transaction. *)
Record ready (dbg : bool) (fd : ln_fund_t) (c : closing) (k kr spl spr : bytes) : Prop := {
  ready_fund : funded fd (cl_self c) k kr;
  ready_std : std_spk spl ∧ std_spk spr;
  ready_spk : shutdown_scriptpk_local c = of_bytes spl ∧ shutdown_scriptpk_remote c = of_bytes spr;
  ready_id : chan_id (cl_self c);
  ready_free : btc_tx_free dbg (tx_closing c) = btc_tx_init;
}.

Definition outs_at (fd : ln_fund_t) (c : closing) (spl spr : bytes) (fee : Z) : list tx_output :=
  closing_outs fd (our_msat (cl_self c)) (their_msat (cl_self c)) spl spr fee.

(** The sorted outputs are unique. *)
Lemma outs_unique fd our their spl spr fee l1 l2 : l1 ≡ₚ closing_outs fd our their spl spr fee →
  l2 ≡ₚ closing_outs fd our their spl spr fee → StronglySorted out_le l1 → StronglySorted out_le l2 → l1 = l2.
Proof.
  intros H1 H2 S1 S2. assert (∀ l, l ≡ₚ closing_outs fd our their spl spr fee →
    (λ k : Z * bytes, mk_out k.1 k.2 0) <$> (out_key <$> l) = l) as Hk.
  { intros l Hl. rewrite <- list_fmap_compose. rewrite <- (list_fmap_id l) at 2. apply list_fmap_ext.
    intros i o Ho%list_elem_of_lookup_2. rewrite Hl in Ho. unfold closing_outs, output_if in Ho. apply elem_of_app in Ho.
    destruct Ho as [Ho|Ho]; destruct (_ <? _); try (by apply not_elem_of_nil in Ho); by apply list_elem_of_singleton in Ho as ->. }
  rewrite <- (Hk l1 H1), <- (Hk l2 H2). f_equal. apply out_keys_unique; [done..|]. by rewrite H1, H2.
Qed.

Definition closing_msg (self : ln_self_t) (fee : Z) (sg : bytes) : ClosingSigned.t := ClosingSigned.mk (channel_id self) fee sg.
Definition closing_bytes (self : ln_self_t) (fee : Z) (sg : bytes) : bytes := ClosingSigned.wire (closing_msg self fee sg).

Lemma closing_wf self fee sg : chan_id self → in_range 64 fee → is_sig sg → ClosingSigned.wf (closing_msg self fee sg).
Proof. intros [Hc Hl] Hf [Hsl Hsb]. unfold ClosingSigned.wf. cbn. split_and!; try done; lia. Qed.

Lemma closing_packet self fee sg : chan_id self → is_sig sg → packet (ClosingSigned.wire (closing_msg self fee sg) ++ []).
Proof.
  intros [Hc Hl] [Hsl Hsb]. rewrite app_nil_r. unfold ClosingSigned.wire. cbn [ClosingSigned.p_channel_id ClosingSigned.fee_sat ClosingSigned.p_signature closing_msg]. split.
  - repeat apply Forall_app_2; try done; apply be_bytes_is_bytes.
  - rewrite !length_app, !length_be_bytes. lia.
Qed.

Lemma closing_encoded {S} self fee sg (s : S) : chan_id self → in_range 64 fee → is_sig sg →
  encode (ClosingSigned.ln_msg_closing_signed_create (closing_msg self fee sg)) s =
  Ret (true, of_bytes (closing_bytes self fee sg)) s.
Proof.
  intros Hc Hf Hsg. destruct ClosingSigned.closing_signed_codec as [Cc _].
  rewrite <- (bind_mret_r (encode _)).
  exact (LnSelf.LnSelf.encode_step (B := bool * utl_buf_t) _ _ _ _ _ _ (closing_msg self fee sg) mret s (closing_wf _ _ _ Hc Hf Hsg)).
Qed.

Lemma free_step {B} dbg c (K : unit → prog closing B) : btc_tx_free dbg (tx_closing c) = btc_tx_init →
  (on_tx (modify (btc_tx_free dbg)) ≫= K) c = K tt (set_tx_closing btc_tx_init c).
Proof. intros Hf. erewrite on_tx_step by reflexivity. by rewrite Hf. Qed.

(** The funder proposes a fee. *)
Definition proposed (fd : ln_fund_t) (k : bytes) (fee : Z) (outs : list tx_output) (h : bytes) (c : closing) : closing :=
  add_event SELF_SAVE (add_event (CB_SEND_REQ (of_bytes (closing_bytes (cl_self c) fee (rs_of k h))))
    (set_last_fee fee (set_tx_closing (rep (closing_tx fd outs)) (set_self (signed_self k h (cl_self c)) c)))).

Lemma first_closing dbg fd c k kr spl spr fee : ready dbg fd c k kr spl spr → close_fee_sat c = fee → 0 ≤ fee < 2 ^ 62 →
  outs_at fd c spl spr fee ≠ [] →
  ∃ outs, outs ≡ₚ outs_at fd c spl spr fee ∧ StronglySorted out_le outs ∧
    send_first_closing true dbg fd c = Ret true (proposed fd k fee outs (closing_hash fd k kr outs) c).
Proof.
  intros [Hf [Hsl Hsr] [El Er] Hid Hfree] Efee Hfee Hne.
  destruct (closing_created dbg fd (set_tx_closing btc_tx_init c) k kr spl spr fee Hf Hsl Hsr El Er eq_refl Hfee Hne)
    as (outs & Hp & Hs & Ec & _).
  exists outs. split; [exact Hp|]. split; [exact Hs|]. unfold send_first_closing. rewrite free_step by done.
  rewrite gets_step. cbn [set_tx_closing close_fee_sat]. rewrite Efee. erewrite bind_ret by exact Ec. rewrite gets_step.
  cbn [cl_self set_tx_closing set_self]. destruct ClosingSigned.closing_signed_codec as [Cc _].
  destruct Hf as [_ [Hk _] _ _ _ _]. 
  erewrite bind_ret by (apply (closing_encoded (cl_self c) fee (rs_of k _)); [done|unfold in_range; lia|by apply rs_is_sig]).
  reflexivity.
Qed.

(** The signature of a closing_signed is in the channel before its check. *)
Definition with_sig (sg : bytes) (self : ln_self_t) : ln_self_t := set_commit_local (set_signature sg (commit_local self)) self.
Definition got_sig (sg : bytes) (c : closing) : closing := set_self (with_sig sg (cl_self c)) c.

Lemma ready_got dbg fd c k kr spl spr sg : ready dbg fd c k kr spl spr → ready dbg fd (got_sig sg c) k kr spl spr.
Proof. intros [[]]. by repeat (split; try done). Qed.

Section node.
Context (dbg : bool) (fd : ln_fund_t) (debug_tx : bool) (send : utl_buf_t → bool).

Lemma closing_received c peer fee sg : chan_id peer → in_range 64 fee → is_sig sg →
  M_SHDN_FLAG_EXCHANGED (shutdown_flag (cl_self c)) = true →
  let d := closing_bytes peer fee sg in
  recv_closing_signed true dbg fd debug_tx send d (zlen d) c =
  if bool_decide (channel_id peer = channel_id (cl_self c))
  then if ln_closing_signed_initfee (cl_self c) <? fee then Exit false (got_sig sg c)
       else closing_negotiate true dbg fd debug_tx send fee (got_sig sg c)
  else Exit false (set_self (set_err (Some LNERR_INV_CHANNEL) (with_sig sg (cl_self c))) c).
Proof.
  intros Hc Hf Hs Hx d. unfold recv_closing_signed. rewrite get_st_step, Hx. cbn [negb].
  erewrite bind_ret by reflexivity. erewrite (bind_ret (true, closing_msg peer fee sg) _ _ _ (got_sig sg c)).
  2:{ unfold closing_signed_read. rewrite get_st_step. destruct ClosingSigned.closing_signed_codec as [Cc _].
      pose proof (read_step (S := closing) (B := bool * ClosingSigned.t) _ _ _ _ _ _ (closing_msg peer fee sg) []
        (ClosingSigned.mk uninit 0 (signature (commit_local (cl_self c))))
        (λ r, mod_cl (λ self, set_commit_local (set_signature (ClosingSigned.p_signature r.2) (commit_local self)) self);; mret r)
        c (closing_wf peer fee sg Hc Hf Hs) I (closing_packet peer fee sg Hc Hs)) as Hr.
      rewrite app_nil_r in Hr. exact Hr. }
  cbn [fst snd negb]. erewrite bind_ret by reflexivity. rewrite gets_step. cbv zeta. cbn [ClosingSigned.p_channel_id ClosingSigned.fee_sat closing_msg].
  unfold chk_channelid. change (channel_id (cl_self (got_sig sg c))) with (channel_id (cl_self c)).
  case_bool_decide; cbn [negb]; [|reflexivity]. erewrite bind_ret by reflexivity.
  change (ln_closing_signed_initfee (cl_self (got_sig sg c))) with (ln_closing_signed_initfee (cl_self c)).
  by destruct (_ <? fee).
Qed.

(** The first check of a proposed fee. *)
Lemma closing_checked c k kr spl spr fee : ready dbg fd c k kr spl spr → 0 ≤ fee < 2 ^ 62 → outs_at fd c spl spr fee ≠ [] →
  is_sig (signature (commit_local (cl_self c))) →
  ∃ outs, outs ≡ₚ outs_at fd c spl spr fee ∧ StronglySorted out_le outs ∧
    let h := closing_hash fd k kr outs in
    let sg := signature (commit_local (cl_self c)) in
    ∀ B (K : bool → prog closing B),
    (on_tx (modify (btc_tx_free dbg));; r ← create_closing_tx true dbg fd fee true; K r) c =
    K (accepted kr h sg) (set_tx_closing (rep (signed_tx (closing_wit fd k kr h sg) (closing_in fd) (closing_tx fd outs)))
      (set_self (signed_self k h (cl_self c)) c)).
Proof.
  intros [Hf [Hsl Hsr] [El Er] Hid Hfree] Hfee Hne Hsg.
  destruct (closing_created dbg fd (set_tx_closing btc_tx_init c) k kr spl spr fee Hf Hsl Hsr El Er eq_refl Hfee Hne)
    as (outs & Hp & Hs & _ & Ec).
  exists outs. split; [exact Hp|]. split; [exact Hs|]. intros h sg B K. rewrite free_step by done.
  erewrite bind_ret by exact (Ec Hsg). by destruct c.
Qed.

(** The closing transaction that both have signed. *)
Definition both_signed (k kr h sg : bytes) (outs : list tx_output) : transaction :=
  signed_tx (closing_wit fd k kr h sg) (closing_in fd) (closing_tx fd outs).

Lemma compact_short n : 0 ≤ n → (length (compact_size n) ≤ 9)%nat.
Proof.
  intros Hn. unfold compact_size. repeat case_match; cbn [length]; rewrite ?length_cons, ?length_le_bytes; lia.
Qed.

Lemma var_short d : (length (var_bytes d) ≤ 9 + length d)%nat.
Proof. unfold var_bytes. rewrite length_app. pose proof (compact_short (zlen d)). lia. Qed.

Lemma concat_short (n : nat) (l : list bytes) : Forall (λ x, (length x ≤ n)%nat) l → (length (concat l) ≤ n * length l)%nat.
Proof. induction 1 as [|a l Ha _ IH]; [cbn; lia|]. cbn [concat length]. rewrite length_app. lia. Qed.

Lemma both_signed_ok k kr h sg outs : good_key k → good_key kr → is_sig sg → length (f_txid fd) = 32%nat →
  Forall (λ o, std_spk (out_spk o)) outs → (length outs ≤ 2)%nat →
  let t := both_signed k kr h sg outs in tx_ok t ∧ complete t ∧ has_wit t = true ∧ zlen (tx_wire true t) < 2 ^ 16.
Proof.
  intros Hk Hr Hsg Hx Hstd Hlen t. destruct (sign_cycle k h Hk) as (_ & _ & _ & _ & _ & _ & Hn & _).
  destruct (any_sig sg Hsg) as (_ & Hn' & _). pose proof (redeem_71 fd k kr Hk Hr) as H71.
  assert (length (closing_wit fd k kr h sg) = 4%nat ∧ Forall (λ d, (length d < 80)%nat) (closing_wit fd k kr h sg)) as [H4 Hw].
  { unfold closing_wit, sigs_2of2. destruct (key_fund_sort fd); (split; [done|]); repeat (constructor; [cbn [length]; lia|]); constructor. }
  split_and!.
  - split; [|eapply Forall_impl; [exact Hstd|]; intros o Hs%std_len; cbn; unfold small; lia|done|cbn; unfold small; lia].
    constructor; [|done]. split; [done|done|cbn; unfold small; lia|]. cbn. eapply Forall_impl; [exact Hw|]. intros d. cbn. unfold small. lia.
  - constructor; [|done]. cbn. lia.
  - unfold t, has_wit, both_signed, signed_tx. cbn [existsb t_ins put_wit in_wit]. rewrite bool_decide_eq_false_2; [done|].
    intros E0. by rewrite E0 in H4.
  - unfold tx_wire, var_list. rewrite !length_app, !length_le_bytes.
    change (t_ins t) with [put_wit [] (closing_wit fd k kr h sg) (closing_in fd)]. change (t_outs t) with outs.
    pose proof (compact_short 1). pose proof (compact_short (zlen outs)).
    assert (length (concat (out_wire <$> outs)) ≤ 60 * length outs)%nat as Ho.
    { rewrite <- (length_fmap out_wire). apply concat_short, Forall_fmap. eapply Forall_impl; [exact Hstd|]. intros o Hs%std_len.
      unfold compose, out_wire. rewrite length_app, length_le_bytes. pose proof (var_short (out_spk o)). lia. }
    assert (length (concat (var_bytes <$> closing_wit fd k kr h sg)) ≤ 90 * length (closing_wit fd k kr h sg))%nat as Hv.
    { rewrite <- (length_fmap var_bytes). apply concat_short, Forall_fmap. eapply Forall_impl; [exact Hw|]. intros d Hd.
      unfold compose. pose proof (var_short d). cbv beta in *. lia. }
    rewrite H4 in Hv. change (concat (in_wire <$> [put_wit [] (closing_wit fd k kr h sg) (closing_in fd)]))
      with (in_wire (put_wit [] (closing_wit fd k kr h sg) (closing_in fd)) ++ []).
    change (concat (wit_wire <$> [put_wit [] (closing_wit fd k kr h sg) (closing_in fd)]))
      with (var_list var_bytes (closing_wit fd k kr h sg) ++ []).
    unfold in_wire, var_list. rewrite !length_app, !length_le_bytes, H4. cbn [put_wit in_prev in_sig closing_in length].
    pose proof (compact_short 4). pose proof (var_short []). cbn [length] in *. rewrite Hx. change (Z.of_nat 1) with 1. change (Z.of_nat 4) with 4. lia.
Qed.

(** The answer to a fee that we have not asked for yet. *)
Definition replied (k : bytes) (fee : Z) (outs : list tx_output) (h : bytes) (c : closing) : closing :=
  add_event SELF_SAVE (add_event (CB_SEND_REQ (of_bytes (closing_bytes (cl_self c) fee (rs_of k h))))
    (set_last_fee fee (set_tx_closing (rep (closing_tx fd outs))
      (set_close_fee fee (add_event (CB_CLOSED_FEE fee) (set_self (signed_self k h (cl_self c)) c)))))).

(** The end of the negotiation: the transaction is sent. *)
Definition settled (k kr : bytes) (outs : list tx_output) (h sg : bytes) (c : closing) : closing :=
  let t := both_signed k kr h sg outs in
  add_event SELF_SAVE (set_status LN_STATUS_CLOSE_SPENT (add_event (CB_CLOSED (of_bytes (tx_wire true t)))
    (set_tx_closing (rep t) (set_self (signed_self k h (cl_self c)) c)))).

Lemma free_signed k kr h sg outs : btc_tx_free dbg (rep (both_signed k kr h sg outs)) = btc_tx_init.
Proof. by apply free_rep. Qed.

Lemma funded_signed self k kr h : funded fd self k kr → funded fd (signed_self k h self) k kr.
Proof. intros [Hp Hk ? ? ? ?]. split; try done. destruct (sign_cycle k h) as (_ & Hl & _); [by apply Hk|exact Hl]. Qed.

Lemma closing_replied c k kr spl spr fee : ready dbg fd c k kr spl spr → 0 ≤ fee < 2 ^ 62 → outs_at fd c spl spr fee ≠ [] →
  is_sig (signature (commit_local (cl_self c))) → close_last_fee_sat c ≠ fee → fee ≤ ln_closing_signed_initfee (cl_self c) →
  ∃ outs, outs ≡ₚ outs_at fd c spl spr fee ∧ StronglySorted out_le outs ∧
    let h := closing_hash fd k kr outs in
    closing_negotiate true dbg fd debug_tx send fee c =
    if accepted kr h (signature (commit_local (cl_self c))) then Ret true (replied k fee outs h c) else AbortOut.
Proof.
  intros R Hfee Hne Hsg Hlast Hmax. destruct (closing_checked c k kr spl spr fee R Hfee Hne Hsg) as (outs & Hp & Hs & Ec).
  exists outs. split; [exact Hp|]. split; [exact Hs|]. cbv zeta in *. unfold closing_negotiate. rewrite Ec.
  destruct (accepted kr _ _); [|reflexivity]. erewrite bind_ret by reflexivity. rewrite gets_step.
  cbn [set_tx_closing set_self close_last_fee_sat]. rewrite (proj2 (Z.eqb_neq _ _)) by done.
  set (sg := signature (commit_local (cl_self c))). set (h := closing_hash fd k kr outs).
  set (c1 := set_tx_closing (rep (both_signed k kr h sg outs))
    (set_close_fee fee (add_event (CB_CLOSED_FEE fee) (set_self (signed_self k h (cl_self c)) c)))).
  erewrite (bind_ret tt _ _ _ c1).
  2:{ unfold note, cb_closed_fee, ln_shutdown_update_fee. rewrite modify_step, gets_step.
      match goal with |- context [?a <? fee] => change a with (ln_closing_signed_initfee (cl_self c)) end.
      by rewrite (proj2 (Z.ltb_ge _ _)) by lia. }
  rewrite free_step by apply free_signed. rewrite gets_step. change (close_fee_sat (set_tx_closing btc_tx_init c1)) with fee.
  destruct R as [Hf [Hsl Hsr] [El Er] Hid Hfree].
  destruct (closing_created dbg fd (set_tx_closing btc_tx_init c1) k kr spl spr fee (funded_signed _ k kr h Hf) Hsl Hsr El Er eq_refl Hfee Hne)
    as (outs' & Hp' & Hs' & Ec' & _).
  assert (outs' = outs) as -> by (by eapply outs_unique). fold h in Ec'.
  erewrite bind_ret by exact Ec'. cbn [negb]. erewrite bind_ret by reflexivity. rewrite get_st_step. cbv zeta.
  assert (good_key k) as Hk by apply Hf.
  rewrite (bind_assoc (encode _)). 
  erewrite bind_ret by (apply (closing_encoded (cl_self c) fee (rs_of k h)); [done|unfold in_range; lia|by apply rs_is_sig]).
  reflexivity.
Qed.

Lemma closing_settled c k kr spl spr fee : ready dbg fd c k kr spl spr → 0 ≤ fee < 2 ^ 62 → outs_at fd c spl spr fee ≠ [] →
  is_sig (signature (commit_local (cl_self c))) → close_last_fee_sat c = fee → close_fee_sat c = fee →
  debug_tx = true → (∀ x, send x = true) →
  ∃ outs, outs ≡ₚ outs_at fd c spl spr fee ∧ StronglySorted out_le outs ∧
    let h := closing_hash fd k kr outs in
    let sg := signature (commit_local (cl_self c)) in
    closing_negotiate true dbg fd debug_tx send fee c =
    if accepted kr h sg then Ret true (settled k kr outs h sg c) else AbortOut.
Proof.
  intros R Hfee Hne Hsg Hlast Hclose Hdbg Hsend.
  destruct (closing_checked c k kr spl spr fee R Hfee Hne Hsg) as (outs & Hp & Hs & Ec).
  exists outs. split; [exact Hp|]. split; [exact Hs|]. cbv zeta in *. unfold closing_negotiate. rewrite Ec.
  destruct (accepted kr _ _) eqn:Ea; [|reflexivity]. erewrite bind_ret by reflexivity. rewrite gets_step.
  cbn [set_tx_closing set_self close_last_fee_sat]. rewrite (proj2 (Z.eqb_eq _ _)) by done.
  set (sg := signature (commit_local (cl_self c))) in *. set (h := closing_hash fd k kr outs) in *.
  fold (both_signed k kr h sg outs). set (c1 := set_tx_closing _ (set_self _ c)).
  erewrite (bind_ret tt) by reflexivity.
  rewrite free_step by apply free_signed. rewrite gets_step.
  change (close_fee_sat (set_tx_closing btc_tx_init c1)) with (close_fee_sat c). rewrite Hclose.
  assert (Hf := ready_fund _ _ _ _ _ _ _ R). destruct (ready_std _ _ _ _ _ _ _ R) as [Hsl Hsr].
  destruct (ready_spk _ _ _ _ _ _ _ R) as [El Er].
  destruct (closing_created dbg fd (set_tx_closing btc_tx_init c1) k kr spl spr fee (funded_signed _ k kr h Hf) Hsl Hsr El Er eq_refl Hfee Hne)
    as (outs' & Hp' & Hs' & _ & Ec').
  assert (outs' = outs) as -> by (by eapply outs_unique). specialize (Ec' Hsg). fold h in Ec'.
  change (signature (commit_local (cl_self (set_tx_closing btc_tx_init c1)))) with sg in Ec'. rewrite Ea in Ec'.
  erewrite bind_ret by exact Ec'. cbn [negb]. erewrite bind_ret by reflexivity. rewrite get_st_step. cbv zeta.
  destruct (fund_keys _ _ _ _ Hf) as [Hk Hkr].
  destruct (both_signed_ok k kr h sg outs Hk Hkr Hsg (fund_tx _ _ _ _ Hf)) as (Hok & Hcom & Hwit & Hsize).
  { rewrite Hp. by apply outs_std. }
  { rewrite Hp. apply outs_len. }
  set (t := both_signed k kr h sg outs) in *.
  rewrite bind_assoc. erewrite on_local_step; cycle 1.
  { unfold btc_tx_create, call. unfold run at 1. change (tx_closing _) with (rep t).
    pose proof (create_tx_eq t true (mk_push 0 (mk_buf None 0)) Hok) as Ew. rewrite Hwit in Ew. cbn [andb] in Ew.
    rewrite bool_decide_eq_true_2 in Ew by done. rewrite Ew by lia. reflexivity. }
  cbn [fst snd data]. unfold cb_closed. rewrite Hdbg, Hsend. reflexivity.
Qed.
End node.

(** ** Two nodes close their channel *)

Definition payload (e : close_event) : option bytes :=
  match e with CB_SEND_REQ b => Some (buf_data b) | _ => None end.

(** The messages sent between two states. *)
Definition sent (c c' : closing) : list bytes := omap payload (drop (length (events c)) (events c')).

Lemma sent_after c c' l : events c' = events c ++ l → sent c c' = omap payload l.
Proof. intros E0. unfold sent. by rewrite E0, drop_app_length. Qed.

Lemma of_bytes_data d : buf_data (of_bytes d) = d.
Proof. unfold buf_data, of_bytes. cbn [buf]. rewrite read_of_bytes. done. Qed.

(** The two sides of a channel that is to be closed: [cA] is the funder's, with scripts
    [sA] and [sB] to pay to. *)
Record closers (fdA fdB : ln_fund_t) (cA cB : closing) (kA kB sA sB : bytes) : Prop := {
  closers_A : funded fdA (cl_self cA) kA kB;
  closers_B : funded fdB (cl_self cB) kB kA;
  closers_same : f_txid fdA = f_txid fdB ∧ f_txindex fdA = f_txindex fdB ∧ funding_sat fdA = funding_sat fdB ∧
    redeem fdA kA kB = redeem fdB kB kA;
  closers_funder : ln_is_funder fdA = true ∧ ln_is_funder fdB = false;
  closers_balance : our_msat (cl_self cA) = their_msat (cl_self cB) ∧ their_msat (cl_self cA) = our_msat (cl_self cB);
  closers_rate : feerate_per_kw (cl_self cA) = feerate_per_kw (cl_self cB);
  closers_id : chan_id (cl_self cA) ∧ channel_id (cl_self cA) = channel_id (cl_self cB);
  closers_spk : std_spk sA ∧ is_bytes sA ∧ std_spk sB ∧ is_bytes sB;
  closers_local : shutdown_scriptpk_local cA = of_bytes sA ∧ shutdown_scriptpk_local cB = of_bytes sB;
  closers_idle : shutdown_flag (cl_self cA) = 0 ∧ shutdown_flag (cl_self cB) = 0 ∧ ln_status_is_closing cA = false ∧
    tx_closing cA = btc_tx_init ∧ tx_closing cB = btc_tx_init;
}.

Lemma initfee_range self : 0 ≤ ln_closing_signed_initfee self < 2 ^ 62.
Proof.
  unfold ln_closing_signed_initfee. pose proof (Z.mod_pos_bound (LN_FEE_COMMIT_BASE * feerate_per_kw self) (2 ^ 64) ltac:(lia)) as Hm.
  set (x := u64 _) in *. change (u64 (LN_FEE_COMMIT_BASE * feerate_per_kw self)) with x. assert (0 ≤ x < 2 ^ 64) by exact Hm.
  Z.to_euclidean_division_equations; lia.
Qed.

Lemma initfee_got sg c : ln_closing_signed_initfee (cl_self (got_sig sg c)) = ln_closing_signed_initfee (cl_self c).
Proof. reflexivity. Qed.

Lemma same_outs fdA fdB our their sA sB fee : ln_is_funder fdA = true → ln_is_funder fdB = false →
  closing_outs fdA our their sA sB fee ≡ₚ closing_outs fdB their our sB sA fee.
Proof. intros EA EB. unfold closing_outs. rewrite EA, EB. apply Permutation_app_comm. Qed.

(** The answer of the other side, which does not pay the fee. *)
Definition answered (sp : bytes) (c : closing) : closing :=
  add_event SELF_SAVE (set_status LN_STATUS_CLOSE_WAIT (add_event (CB_SEND_REQ (of_bytes (shutdown_bytes (cl_self c) sp)))
    (add_event SELF_SAVE (set_self (raise_flag LN_SHDN_FLAG_SEND (cl_self c))
      (set_close_fee (ln_closing_signed_initfee (cl_self c)) (add_event CB_SHUTDOWN_RECV c)))))).

Lemma shutdown_answered dbg fd c sp : ln_is_funder fd = false → shutdown_flag (cl_self c) = LN_SHDN_FLAG_RECV →
  shutdown_scriptpk_local c = of_bytes sp → chan_id (cl_self c) → std_spk sp → is_bytes sp →
  shutdown_received true dbg fd c = Ret true (answered sp c).
Proof.
  intros Hfd Hf Hl Hc Hs Hb. unfold shutdown_received. rewrite gets_step, Hf.
  change (Z.land LN_SHDN_FLAG_RECV LN_SHDN_FLAG_SEND =? 0) with true.
  set (c1 := set_close_fee (ln_closing_signed_initfee (cl_self c)) (add_event CB_SHUTDOWN_RECV c)).
  erewrite (bind_ret true); cycle 1.
  { erewrite (bind_ret tt) by reflexivity. erewrite (bind_ret tt _ _ _ c1).
    2:{ unfold cb_shutdown_recv, ln_shutdown_update_fee. rewrite !gets_step.
        match goal with |- context [?a <? ?a] => rewrite (Z.ltb_irrefl a) end. reflexivity. }
    erewrite bind_ret by (by apply (shutdown_created _ sp)). reflexivity. }
  rewrite gets_step. match goal with |- context [M_SHDN_FLAG_EXCHANGED ?f] => change f with (Z.lor (shutdown_flag (cl_self c)) LN_SHDN_FLAG_SEND) end.
  rewrite Hf. change (M_SHDN_FLAG_EXCHANGED _) with true. cbv iota. rewrite Hfd. reflexivity.
Qed.

Lemma shutdown_completed dbg fd c : ln_is_funder fd = true → shutdown_flag (cl_self c) = Z.lor LN_SHDN_FLAG_SEND LN_SHDN_FLAG_RECV →
  shutdown_received true dbg fd c = send_first_closing true dbg fd (add_event SELF_SAVE (set_status LN_STATUS_CLOSE_WAIT c)).
Proof. intros Hfd Hf. unfold shutdown_received. rewrite gets_step, Hf. erewrite (bind_ret true) by reflexivity.
  rewrite gets_step, Hf. change (M_SHDN_FLAG_EXCHANGED _) with true. cbv iota. rewrite Hfd. reflexivity.
Qed.

(** What both sides sign. *)
Lemma same_hash fdA fdB kA kB outs : f_txid fdA = f_txid fdB → f_txindex fdA = f_txindex fdB → funding_sat fdA = funding_sat fdB →
  redeem fdA kA kB = redeem fdB kB kA → closing_hash fdA kA kB outs = closing_hash fdB kB kA outs.
Proof. intros E1 E2 E3 E4. unfold closing_hash, closing_tx, closing_in. by rewrite E1, E2, E3, E4. Qed.

Lemma ready_proposed dbg fd c k kr spl spr fee outs h : ready dbg fd c k kr spl spr →
  ready dbg fd (proposed fd k fee outs h c) k kr spl spr.
Proof.
  intros [Hf Hs Hk Hi _]. split; [apply (funded_signed fd _ k kr h Hf)|exact Hs|exact Hk|exact Hi|].
  unfold proposed. cbn [add_event set_last_fee set_tx_closing tx_closing]. by apply free_rep.
Qed.

(** The states that the shutdowns lead to. *)
Definition requested (sA : bytes) (fee : Z) (cA : closing) : closing :=
  add_event (CB_SEND_REQ (of_bytes (shutdown_bytes (cl_self cA) sA))) (add_event SELF_SAVE
    (set_self (raise_flag LN_SHDN_FLAG_SEND (cl_self cA)) (set_close_fee fee cA))).
Definition got_shutdown (sp : bytes) (c : closing) : closing :=
  set_last_fee 0 (add_event SELF_SAVE (set_self (raise_flag LN_SHDN_FLAG_RECV (cl_self c)) (set_spk_remote (of_bytes sp) c))).
Definition both_shut (sA sB : bytes) (fee : Z) (cA : closing) : closing :=
  add_event SELF_SAVE (set_status LN_STATUS_CLOSE_WAIT (got_shutdown sB (requested sA fee cA))).

Section pair.
Context (dbgA dbgB : bool) (fdA fdB : ln_fund_t) (cA cB : closing) (kA kB sA sB : bytes).
Context (P : closers fdA fdB cA cB kA kB sA sB).

Lemma shutdowns_exchanged : let fee := ln_closing_signed_initfee (cl_self cA) in
  let m1 := shutdown_bytes (cl_self cA) sA in let m2 := shutdown_bytes (cl_self cB) sB in
  lnapp_close_channel true cA = Ret true (requested sA fee cA) ∧
  recv_shutdown true dbgB fdB m1 (zlen m1) cB = Ret true (answered sB (got_shutdown sA cB)) ∧
  recv_shutdown true dbgA fdA m2 (zlen m2) (requested sA fee cA) = send_first_closing true dbgA fdA (both_shut sA sB fee cA).
Proof.
  cbn zeta. destruct P as [HfA HfB _ [FA FB] _ _ [HidA Eid] (Hs1 & Hs2 & Hs3 & Hs4) [LA LB] (ZA & ZB & ZS & _)].
  assert (chan_id (cl_self cB)) as HidB by (unfold chan_id; by rewrite <- Eid).
  set (fee := ln_closing_signed_initfee (cl_self cA)). split_and!.
  - exact (close_requested cA sA LA HidA Hs1 Hs2 ZS).
  - rewrite (shutdown_accepted dbgB fdB cB (cl_self cA) sA Hs1 Hs2 HidA Eid) by (by rewrite ZB).
    apply shutdown_answered; try done.
    change (Z.lor (shutdown_flag (cl_self cB)) LN_SHDN_FLAG_RECV = 2). by rewrite ZB.
  - assert (shutdown_flag (cl_self (requested sA fee cA)) = 1) as Z1
      by (change (Z.lor (shutdown_flag (cl_self cA)) LN_SHDN_FLAG_SEND = 1); by rewrite ZA).
    rewrite (shutdown_accepted dbgA fdA (requested sA fee cA) (cl_self cB) sB Hs3 Hs4 HidB (eq_sym Eid)) by (by rewrite Z1).
    apply shutdown_completed; [done|].
    change (Z.lor (shutdown_flag (cl_self (requested sA fee cA))) LN_SHDN_FLAG_RECV = 3). by rewrite Z1.
Qed.

Lemma ready_funder fee : ready dbgA fdA (both_shut sA sB fee cA) kA kB sA sB.
Proof.
  destruct P as [HfA _ _ _ _ _ [HidA _] (Hs1 & Hs2 & Hs3 & Hs4) [LA _] (_ & _ & _ & TA & _)].
  split; [by destruct HfA|done|done|done|]. change (btc_tx_free dbgA (tx_closing cA) = btc_tx_init). rewrite TA. by destruct dbgA.
Qed.

Lemma ready_other : ready dbgB fdB (answered sB (got_shutdown sA cB)) kB kA sB sA.
Proof.
  destruct P as [_ HfB _ _ _ _ [HidA Eid] (Hs1 & Hs2 & Hs3 & Hs4) [_ LB] (_ & _ & _ & _ & TB)].
  split; [by destruct HfB|done|done|change (chan_id (cl_self cB)); unfold chan_id; by rewrite <- Eid|].
  change (btc_tx_free dbgB (tx_closing cB) = btc_tx_init). rewrite TB. by destruct dbgB.
Qed.
End pair.

(** C13: A cooperative close that the funder asks for ends in four messages, whatever the
    two balances, the scripts and the common feerate (with a fee that is not zero): a shutdown of
    each side, the funder's closing_signed with the fee of [ln_closing_signed_initfee], and
    the other side's with the same fee. Both sides build the same transaction from their own
    view of the channel: the outputs above the dust limit in BIP 69 order, the fee paid by the
    funder. The funder sends it with the signatures of both, which its own check has accepted,
    and goes to [LN_STATUS_CLOSE_SPENT]; the other side is in [LN_STATUS_CLOSE_WAIT]. *)
Theorem mutual_close dbgA dbgB fdA fdB cA cB kA kB sA sB sendA sendB : closers fdA fdB cA cB kA kB sA sB →
  let fee := ln_closing_signed_initfee (cl_self cA) in
  fee ≠ 0 → outs_at fdA cA sA sB fee ≠ [] → (∀ x, sendA x = true) →
  ∃ outs cA1 cB1 cA2 cB2 cA3, let h := closing_hash fdA kA kB outs in
    let t := both_signed fdA kA kB h (rs_of kB h) outs in
    outs ≡ₚ outs_at fdA cA sA sB fee ∧ StronglySorted out_le outs ∧
    ∃ m1 m2 m3 m4,
    lnapp_close_channel true cA = Ret true cA1 ∧ sent cA cA1 = [m1] ∧
    recv_shutdown true dbgB fdB m1 (zlen m1) cB = Ret true cB1 ∧ sent cB cB1 = [m2] ∧
    recv_shutdown true dbgA fdA m2 (zlen m2) cA1 = Ret true cA2 ∧ sent cA1 cA2 = [m3] ∧
    recv_closing_signed true dbgB fdB true sendB m3 (zlen m3) cB1 = Ret true cB2 ∧ sent cB1 cB2 = [m4] ∧
    recv_closing_signed true dbgA fdA true sendA m4 (zlen m4) cA2 = Ret true cA3 ∧
    drop (length (events cA2)) (events cA3) = [CB_CLOSED (of_bytes (tx_wire true t)); SELF_SAVE] ∧
    btc_sw_verify_2of2 (rep t) 0 h (f_spk fdA) tt = Ret true tt ∧
    status cA3 = LN_STATUS_CLOSE_SPENT ∧ status cB2 = LN_STATUS_CLOSE_WAIT.
Proof.
  intros P fee Hfee Hne Hsend. destruct (shutdowns_exchanged dbgA dbgB fdA fdB cA cB kA kB sA sB P) as (R1 & R2 & R3).
  pose proof (ready_funder dbgA fdA fdB cA cB kA kB sA sB P fee) as RA. pose proof (ready_other dbgB fdA fdB cA cB kA kB sA sB P) as RB.
  destruct P as [HfA HfB (E1 & E2 & E3 & E4) [FA FB] [B1 B2] Erate [HidA Eid] (Hs1 & Hs2 & Hs3 & Hs4) _ (ZA & ZB & _)].
  fold fee in R1, R3. cbn zeta in R2, R3. destruct (fund_keys _ _ _ _ HfA) as [HkA HkB].
  assert (chan_id (cl_self cB)) as HidB by (unfold chan_id; by rewrite <- Eid).
  pose proof (initfee_range (cl_self cA)) as Hrange. fold fee in Hrange.
  assert (in_range 64 fee) as H64 by (unfold in_range; lia).
  set (c3 := both_shut sA sB fee cA) in *. set (cB1 := answered sB (got_shutdown sA cB)) in *.
  destruct (first_closing dbgA fdA c3 kA kB sA sB fee RA eq_refl Hrange Hne) as (outs & Hp & Hs & R3').
  change (outs_at fdA c3 sA sB fee) with (outs_at fdA cA sA sB fee) in Hp. set (h := closing_hash fdA kA kB outs) in *.
  rewrite R3' in R3. set (cA2 := proposed fdA kA fee outs h c3) in *.
  pose proof (closing_received dbgB fdB true sendB cB1 (cl_self c3) fee (rs_of kA h) HidA H64 (rs_is_sig _ _ HkA)
    ltac:(change (M_SHDN_FLAG_EXCHANGED (Z.lor (Z.lor (shutdown_flag (cl_self cB)) 2) 1) = true); by rewrite ZB)) as R4.
  rewrite bool_decide_eq_true_2 in R4 by exact Eid.
  assert (ln_closing_signed_initfee (cl_self cB1) = fee) as EfeeB
    by (change (ln_closing_signed_initfee (cl_self cB) = fee); unfold fee, ln_closing_signed_initfee; by rewrite Erate).
  rewrite EfeeB, Z.ltb_irrefl in R4.
  assert (outs_at fdA cA sA sB fee ≡ₚ outs_at fdB cB sB sA fee) as Eouts by (unfold outs_at; rewrite B1, B2; by apply same_outs).
  destruct (closing_replied dbgB fdB true sendB (got_sig (rs_of kA h) cB1) kB kA sB sA fee) as (outs' & Hp' & Hs' & R4');
    [by apply ready_got|done| |by apply rs_is_sig|exact (not_eq_sym Hfee)|rewrite initfee_got, EfeeB; exact (Z.le_refl fee)| ].
  { change (outs_at fdB cB sB sA fee ≠ []). intros E0. rewrite E0 in Eouts. by apply Permutation_nil_r in Eouts. }
  change (outs_at fdB _ sB sA fee) with (outs_at fdB cB sB sA fee) in Hp'. rewrite <- Eouts in Hp'.
  assert (outs' = outs) as -> by (by eapply (outs_unique fdA)).
  cbn zeta in R4'. rewrite <- (same_hash fdA fdB kA kB outs E1 E2 E3 E4) in R4'. fold h in R4'.
  change (signature _) with (rs_of kA h) in R4'. rewrite accepted_own in R4' by done. rewrite R4' in R4.
  set (cB2 := replied fdB kB fee outs h _) in *.
  pose proof (closing_received dbgA fdA true sendA cA2 (cl_self (got_sig (rs_of kA h) cB1)) fee (rs_of kB h) HidB H64 (rs_is_sig _ _ HkB)
    ltac:(change (M_SHDN_FLAG_EXCHANGED (Z.lor (Z.lor (shutdown_flag (cl_self cA)) 1) 2) = true); by rewrite ZA)) as R5.
  rewrite bool_decide_eq_true_2 in R5 by exact (eq_sym Eid).
  change (ln_closing_signed_initfee (cl_self cA2)) with fee in R5. rewrite Z.ltb_irrefl in R5.
  assert (ready dbgA fdA (got_sig (rs_of kB h) cA2) kA kB sA sB) as RA2.
  { by apply ready_got, ready_proposed. }
  destruct (closing_settled dbgA fdA true sendA (got_sig (rs_of kB h) cA2) kA kB sA sB fee) as (outs' & Hp2 & Hs2' & R5');
    [exact RA2|done|exact Hne|by apply rs_is_sig|done|done|done|done|].
  assert (outs' = outs) as -> by (by eapply (outs_unique fdA)).
  cbn zeta in R5'. fold h in R5'. change (signature _) with (rs_of kB h) in R5'. rewrite accepted_own in R5' by done. rewrite R5' in R5.
  set (cA3 := settled fdA kA kB outs h _ _) in *.
  exists outs, (requested sA fee cA), cB1, cA2, cB2, cA3. split; [exact Hp|]. split; [exact Hs|].
  eexists _, _, _, _. split_and!; [exact R1| |exact R2| |exact R3| |exact R4| |exact R5| | |reflexivity|reflexivity].
  - erewrite (sent_after cA (requested sA fee cA) [_; _]) by (cbn; by rewrite <- !app_assoc). cbn. by rewrite of_bytes_data.
  - erewrite (sent_after cB cB1 [_; _; _; _; _]) by (cbn; by rewrite <- !app_assoc). cbn. by rewrite of_bytes_data.
  - erewrite (sent_after (requested sA fee cA) cA2 [_; _; _; _]) by (cbn; by rewrite <- !app_assoc). cbn. by rewrite of_bytes_data.
  - erewrite (sent_after cB1 cB2 [_; _; _]) by (cbn; by rewrite <- !app_assoc). cbn. by rewrite of_bytes_data.
  - change (events cA3) with ((events cA2 ++ [CB_CLOSED (of_bytes (tx_wire true (both_signed fdA kA kB h (rs_of kB h) outs)))]) ++ [SELF_SAVE]).
    by rewrite <- app_assoc, drop_app_length.
  - pose proof (closing_verified fdA (cl_self cA) kA kB outs h (rs_of kB h) HfA (rs_is_sig _ _ HkB)) as Hv.
    rewrite accepted_own in Hv by done. exact Hv.
Qed.

(** ** A closing_signed that is not in order *)

(** C32: A closing_signed of the peer, for a fee that we can accept, whose signature is not
    the peer's signature of the closing transaction ends the process: the result of the check
    goes into an [assert]. *)
Theorem forged_closing_aborts dbg fd debug_tx send c k kr spl spr peer fee sg : ready dbg fd c k kr spl spr →
  M_SHDN_FLAG_EXCHANGED (shutdown_flag (cl_self c)) = true → chan_id peer → channel_id peer = channel_id (cl_self c) →
  is_sig sg → 0 ≤ fee ≤ ln_closing_signed_initfee (cl_self c) → outs_at fd c spl spr fee ≠ [] →
  ∃ outs, outs ≡ₚ outs_at fd c spl spr fee ∧ StronglySorted out_le outs ∧
    (accepted kr (closing_hash fd k kr outs) sg = false →
     let d := closing_bytes peer fee sg in
     recv_closing_signed true dbg fd debug_tx send d (zlen d) c = AbortOut).
Proof.
  intros R Hx Hc Hid Hsg Hfee Hne. pose proof (initfee_range (cl_self c)) as Hr.
  destruct (closing_checked dbg fd (got_sig sg c) k kr spl spr fee (ready_got _ _ _ _ _ _ _ sg R) ltac:(lia) Hne Hsg)
    as (outs & Hp & Hs & Ec).
  exists outs. split; [exact Hp|]. split; [exact Hs|]. intros Ha. cbn zeta.
  assert (in_range 64 fee) as H64 by (unfold in_range; lia).
  rewrite (closing_received dbg fd debug_tx send c peer fee sg Hc H64 Hsg Hx), bool_decide_eq_true_2 by exact Hid.
  rewrite (proj2 (Z.ltb_ge _ _)) by lia. unfold closing_negotiate. cbn zeta in Ec. rewrite Ec.
  change (signature (commit_local (cl_self (got_sig sg c)))) with sg. rewrite Ha. reflexivity.
Qed.

(** What a side has for its own commitment transaction, the number [num]. *)
Record own_commitment (fd : ln_fund_t) (self : ln_self_t) (infos : list ln_script_htlcinfo_t)
    (our their dust delay num : Z) (p1 p2 kl kr : bytes) : Prop := {
  own_infos : create_to_local_htlcinfo_amount (cnl_add_htlc self) (our_msat self) (their_msat self) = (infos, our, their);
  own_script_keys : has_keys (funding_local self);
  own_fees : fee_range (feerate_per_kw self) dust infos;
  own_amounts : 0 ≤ delay ≤ 0x7fffffffff ∧ 0 ≤ our < 2 ^ 62 ∧ 0 ≤ their < 2 ^ 62;
  own_fund : length (f_txid fd) = 32%nat ∧ redeem_fund fd = bufb (two_of_two p1 p2) ∧
    f_spk fd = bufb (p2wsh_program (two_of_two p1 p2));
  own_sort : (p1, p2) = (if key_fund_sort fd then (pub_of kl, pub_of kr) else (pub_of kr, pub_of kl));
  own_outs : all_outs (funding_local self) fd (feerate_per_kw self) dust num our their delay (ln_is_funder fd) infos ≠ [];
  own_keys : LnSelf.LnSelf.priv self !! MSG_FUNDIDX_FUNDING = Some kl ∧ good_key kl ∧ good_key kr;
}.

(** Without the peer's signature of it, the own commitment transaction is not made. *)
Lemma local_refused dbg rows revs fd self infos our their dust delay num p1 p2 kl kr :
  own_commitment fd self infos our their dust delay num p1 p2 kl kr → is_sig (signature (commit_local self)) →
  ∃ outs, outs ≡ₚ all_outs (funding_local self) fd (feerate_per_kw self) dust num our their delay (ln_is_funder fd) infos ∧
    StronglySorted out_le outs ∧
    let t := cmt_tx (cmt (funding_local self) fd (feerate_per_kw self) dust num our their delay infos) outs in
    let i := mk_in (f_txid fd) (u32 (f_txindex fd)) [] [] (LN_SEQUENCE (Z.lxor (f_obscured fd) num)) in
    let h := sha256d (bip143 out_wire t i (var_bytes (two_of_two p1 p2)) (funding_sat fd)) in
    accepted kr h (signature (commit_local self)) = false →
    ∀ sigs n db0, LnBuild.create_to_local true dbg rows revs fd sigs n num delay dust (mk_bst self None db0) =
      Ret false (mk_bst self None db0).
Proof.
  intros [Hi Hk Hf (H1 & H2 & H3) (Hx & Hr & Hs) Hp Ho (Hkl & Hg & Hgr)] Hsig.
  destruct (local_checked dbg rows revs fd self (funding_local self) infos our their (feerate_per_kw self) dust delay num
    p1 p2 kl kr eq_refl Hi eq_refl Hk Hf H1 H2 H3 Hx Hr Hs Hp Ho Hkl Hg Hgr Hsig) as (outs & tid & w & Hperm & Hsort & _ & _ & Ec).
  exists outs. split; [exact Hperm|]. split; [exact Hsort|]. cbn zeta in *. intros Ha sigs n db0. rewrite Ec, Ha. reflexivity.
Qed.

(** C31: A closing_signed that is refused - for another channel, or with a fee above
    [ln_closing_signed_initfee] - has already put its signature in place of the peer's
    signature of our commitment transaction. From then on that transaction is not made any
    more, so that the channel cannot be closed from our side, unless the message happened to
    carry a signature of it. *)
Theorem refused_closing_disarms dbg fd debug_tx send c peer fee sg rows revs infos our their dust delay num p1 p2 kl kr :
  M_SHDN_FLAG_EXCHANGED (shutdown_flag (cl_self c)) = true → chan_id peer → in_range 64 fee → is_sig sg →
  channel_id peer ≠ channel_id (cl_self c) ∨ ln_closing_signed_initfee (cl_self c) < fee →
  own_commitment fd (cl_self c) infos our their dust delay num p1 p2 kl kr →
  ∃ c', (let d := closing_bytes peer fee sg in recv_closing_signed true dbg fd debug_tx send d (zlen d) c = Exit false c') ∧
  events c' = events c ∧ status c' = status c ∧
  ∃ outs, outs ≡ₚ all_outs (funding_local (cl_self c)) fd (feerate_per_kw (cl_self c)) dust num our their delay (ln_is_funder fd) infos ∧
    StronglySorted out_le outs ∧
    let t := cmt_tx (cmt (funding_local (cl_self c)) fd (feerate_per_kw (cl_self c)) dust num our their delay infos) outs in
    let i := mk_in (f_txid fd) (u32 (f_txindex fd)) [] [] (LN_SEQUENCE (Z.lxor (f_obscured fd) num)) in
    let h := sha256d (bip143 out_wire t i (var_bytes (two_of_two p1 p2)) (funding_sat fd)) in
    accepted kr h sg = false →
    ∀ sigs n db0, LnBuild.create_to_local true dbg rows revs fd sigs n num delay dust (mk_bst (cl_self c') None db0) =
      Ret false (mk_bst (cl_self c') None db0).
Proof.
  intros Hx Hc Hf Hsg Hbad Hown.
  set (c' := if bool_decide (channel_id peer = channel_id (cl_self c)) then got_sig sg c
    else set_self (set_err (Some LNERR_INV_CHANNEL) (with_sig sg (cl_self c))) c).
  assert (own_commitment fd (cl_self c') infos our their dust delay num p1 p2 kl kr ∧ signature (commit_local (cl_self c')) = sg ∧
    funding_local (cl_self c') = funding_local (cl_self c) ∧ feerate_per_kw (cl_self c') = feerate_per_kw (cl_self c) ∧
    events c' = events c ∧ status c' = status c) as (Ho & Es & Ef & Er & Ee & Et).
  { unfold c'. case_bool_decide; (split; [by destruct Hown|repeat split]). }
  exists c'. split.
  { cbn zeta. rewrite (closing_received dbg fd debug_tx send c peer fee sg Hc Hf Hsg Hx). unfold c'.
    case_bool_decide; [|reflexivity]. by rewrite (proj2 (Z.ltb_lt _ _)) by (by destruct Hbad). }
  split; [exact Ee|]. split; [exact Et|].
  destruct (local_refused dbg rows revs fd (cl_self c') infos our their dust delay num p1 p2 kl kr Ho ltac:(by rewrite Es))
    as (outs & Hp & Hs & Ec). rewrite Ef, Er in Hp. cbn zeta in Ec. rewrite Ef, Er, Es in Ec.
  exists outs. split; [exact Hp|]. by split.
Qed.
End close.
End LnMutual.
