(* ===== verification/LnToyMutual.v ===== *)
(** A cooperative close, and two closing_signed messages that are not in order, on the
    concrete curve and hash of the other witnesses. *)
From stdpp Require Import base list numbers tactics sorting.
From Stdlib Require Import ZArith Lia.
From S2P Require Import Prelude CProg UtlBuf UtlPush LnDerkey LnMisc LnMsg LnMsgNormal LnMsgClose LnSig LnHtlc LnSelf BtcTx.
From S2P Require Import BtcTxWire BtcTxRead BtcSw BtcSort BtcDigest BtcBuild LnScript LnSpend LnWitness LnCommitTx.
From S2P Require Import LnBuild LnSignTx LnAgree LnToyNoise LnNormal LnRecv LnExchange LnToyPair LnShutdown LnMutual.
Import UtlBuf UtlPush Derkey LnMisc LnMsg LnMsgNormal LnSig LnHtlc BtcTx BtcTxWire BtcTxRead BtcSw.
Import BtcSort BtcDigest BtcBuild LnScript LnSpend LnWitness LnCommitTx LnBuild LnSignTx LnAgree.
Import LnSelf.LnSelf LnNormal.LnNormal LnRecv.LnRecv LnExchange LnToyPair.LnToyPair LnShutdown LnMutual.
Open Scope Z_scope.

Module LnToyMutual.

#[local] Existing Instance sum_hash.
#[local] Existing Instance sum_hash_laws.
#[local] Existing Instance total_alloc.
#[local] Existing Instance zero_fresh.
#[local] Existing Instance toy_ecdsa.

Definition spk_A : bytes := [0x00; 0x14] ++ replicate 20 1.
Definition spk_B : bytes := [0xa9; 0x14] ++ replicate 20 2 ++ [0x87].

(** The funding output in the view of B: the keys are in the other order. *)
Definition fund_B : ln_fund_t :=
  let d := two_of_two (pub_of (be_bytes 32 7)) (pub_of (be_bytes 32 9)) in
  mk_fund (replicate 32 9) 1 100000 (bufb d) false 0x2bb038521914 (bufb (p2wsh_program d)) false.

Definition end_A : closing :=
  mk_closing side_A (of_bytes spk_A) UTL_BUF_INIT 0 0 LN_STATUS_NORMAL btc_tx_init [].
Definition end_B : closing :=
  mk_closing side_B (of_bytes spk_B) UTL_BUF_INIT 0 0 LN_STATUS_NORMAL btc_tx_init [].

Lemma end_closers : closers (fund true) fund_B end_A end_B (be_bytes 32 7) (be_bytes 32 9) spk_A spk_B.
Proof.
  assert (good_key (be_bytes 32 7) ∧ good_key (be_bytes 32 9)) as [G7 G9] by (split; by apply good_key_small).
  split; try done.
  - split; try done. eexists _, _. by split.
  - split; try done. eexists _, _. by split.
  - split; [|reflexivity]. split; [by apply Forall_replicate|reflexivity].
  - split_and!; [by apply std_wpkh|by_compute|by apply std_sh|by_compute].
Qed.

Lemma mutual_close_witness : ∃ outs c1 d1 c2 d2 c3 m1 m2 m3 m4,
  let h := closing_hash (fund true) (be_bytes 32 7) (be_bytes 32 9) outs in
  let t := both_signed (fund true) (be_bytes 32 7) (be_bytes 32 9) h (rs_of (be_bytes 32 9) h) outs in
  outs ≡ₚ [mk_out 59638 spk_A 0; mk_out 40000 spk_B 0] ∧
  @lnapp_close_channel total_alloc true end_A = Ret true c1 ∧
  recv_shutdown true false fund_B m1 (zlen m1) end_B = Ret true d1 ∧
  recv_shutdown true false (fund true) m2 (zlen m2) c1 = Ret true c2 ∧
  recv_closing_signed true false fund_B true (λ _, true) m3 (zlen m3) d1 = Ret true d2 ∧
  recv_closing_signed true false (fund true) true (λ _, true) m4 (zlen m4) c2 = Ret true c3 ∧
  drop (length (events c2)) (events c3) = [CB_CLOSED (of_bytes (tx_wire true t)); SELF_SAVE] ∧
  status c3 = LN_STATUS_CLOSE_SPENT.
Proof.
  destruct (@mutual_close total_alloc total_alloc_total zero_fresh sum_hash sum_hash_laws toy_ecdsa toy_ecdsa_laws
    false false (fund true) fund_B end_A end_B (be_bytes 32 7) (be_bytes 32 9) spk_A spk_B (λ _, true) (λ _, true) end_closers)
    as (outs & c1 & d1 & c2 & d2 & c3 & Hp & _ & m1 & m2 & m3 & m4 & R1 & _ & R2 & _ & R3 & _ & R4 & _ & R5 & He & _ & Hst & _).
  { intros E0. vm_compute in E0. discriminate E0. }
  { intros E0. vm_compute in E0. discriminate E0. }
  { reflexivity. }
  exists outs, c1, d1, c2, d2, c3, m1, m2, m3, m4.
  split; [|by split_and!]. etrans; [exact Hp|]. vm_compute. reflexivity.
Defined.

(** ** Messages that are not in order *)

(** A, after both shutdowns. *)
Definition shut_A : closing :=
  mk_closing (set_shutdown_flag 3 side_A) (of_bytes spk_A) (of_bytes spk_B) 362 362 LN_STATUS_CLOSE_WAIT btc_tx_init [].

Lemma side_id : chan_id side_A.
Proof. split; [by apply Forall_replicate|reflexivity]. Qed.

(** A signature that no key has made. *)
Definition no_sig : bytes := replicate 64 0.

Lemma no_sig_ok : is_sig no_sig.
Proof. split; [reflexivity|by apply Forall_replicate]. Qed.

Lemma no_sig_refused k h : accepted k h no_sig = false.
Proof. reflexivity. Qed.

Lemma forged_closing_aborts_witness :
  let d := closing_bytes side_A 362 no_sig in
  @recv_closing_signed total_alloc zero_fresh sum_hash toy_ecdsa true false (fund true) true (λ _, true) d (zlen d) shut_A = AbortOut.
Proof.
  assert (ready false (fund true) shut_A (be_bytes 32 7) (be_bytes 32 9) spk_A spk_B) as R.
  { destruct end_closers as [Hf _ _ _ _ _ _ (Hs1 & _ & Hs2 & _) _ _]. split; [by destruct Hf|done|done|exact side_id|reflexivity]. }
  destruct (@forged_closing_aborts total_alloc total_alloc_total zero_fresh sum_hash sum_hash_laws toy_ecdsa toy_ecdsa_laws
    false (fund true) true (λ _, true) shut_A (be_bytes 32 7) (be_bytes 32 9) spk_A spk_B side_A 362 no_sig R eq_refl side_id eq_refl
    no_sig_ok) as (outs & _ & _ & Ha).
  { by vm_compute. }
  { intros E0. vm_compute in E0. discriminate E0. }
  apply Ha. apply no_sig_refused.
Defined.

Lemma own_A : own_commitment (fund true) side_A infos_A 55000000 33000000 546 144 42
  (pub_of (be_bytes 32 7)) (pub_of (be_bytes 32 9)) (be_bytes 32 7) (be_bytes 32 9).
Proof.
  destruct pair_peers as [_ Htx _ _ [HpA HgA] [_ HgB] _ Hkeys _ _ HlA _ _ _ Hfees Ham Hdel _].
  split; [exact HlA|exact Hkeys|exact Hfees|by split; [by vm_compute|]|done|done| |done].
  intros E0. vm_compute in E0. discriminate E0.
Qed.

(** A fee above the limit: refused, and the commitment transaction of A is lost. *)
Lemma refused_closing_disarms_witness :
  let d := closing_bytes side_A 363 no_sig in
  ∃ c', @recv_closing_signed total_alloc zero_fresh sum_hash toy_ecdsa true false (fund true) true (λ _, true) d (zlen d) shut_A =
    Exit false c' ∧ events c' = [] ∧
    @LnBuild.create_to_local total_alloc zero_fresh sum_hash toy_ecdsa true false [] [] (fund true) None 0 42 144 546
      (mk_bst (cl_self c') None []) = Ret false (mk_bst (cl_self c') None []).
Proof.
  destruct (@refused_closing_disarms total_alloc total_alloc_total zero_fresh sum_hash sum_hash_laws toy_ecdsa toy_ecdsa_laws
    false (fund true) true (λ _, true) shut_A side_A 363 no_sig [] [] infos_A 55000000 33000000 546 144 42
    (pub_of (be_bytes 32 7)) (pub_of (be_bytes 32 9)) (be_bytes 32 7) (be_bytes 32 9) eq_refl side_id)
    as (c' & R & He & _ & outs & _ & _ & Hc); [by vm_compute|exact no_sig_ok|right; by vm_compute| |].
  { destruct own_A. by split. }
  exists c'. split; [exact R|]. split; [exact He|]. apply Hc. apply no_sig_refused.
Defined.
End LnToyMutual.
