(* ===== verification/BtcFermat.v ===== *)
(** Fermat's little theorem for the integers, out of MathComp's for the natural
    numbers: the square roots of [BtcEcp] need it. *)
From Stdlib Require Import ZArith Lia.
From mathcomp Require Import boot.

Module BtcFermat.

Lemma of_nat_modn (m d : nat) : (0 < d)%nat -> Z.of_nat (m %% d) = (Z.of_nat m mod Z.of_nat d)%Z.
Proof.
move=> Hd; apply: (Z.mod_unique _ _ (Z.of_nat (m %/ d))).
- left; split; first exact: Nat2Z.is_nonneg.
  by apply: inj_lt; apply/ltP; rw ltn_mod.
- by rw {1}(divn_eq m d) -plusE -multE Nat2Z.inj_add Nat2Z.inj_mul Z.mul_comm.
Qed.

Lemma of_nat_expn (m n : nat) : Z.of_nat (m ^ n) = (Z.of_nat m ^ Z.of_nat n)%Z.
Proof.
elim: n => [|n IH] //.
by rw expnS Nat2Z.inj_succ Z.pow_succ_r -?IH -?multE ?Nat2Z.inj_mul //; apply: Nat2Z.is_nonneg.
Qed.

Lemma prime_to_nat (p : nat) : Z.prime (Z.of_nat p) -> prime.prime p.
Proof.
move=> Hp; have Hgt : (1 < p)%nat by apply/ltP; have := Z.prime_ge_2 _ Hp; lia.
apply/primeP; split=> // d /dvdnP [k Hk].
have Hdiv : Z.divide (Z.of_nat d) (Z.of_nat p).
  by exists (Z.of_nat k); rw Hk -multE Nat2Z.inj_mul.
have Hd := Nat2Z.is_nonneg d.
case: (Z.divide_prime_r _ _ Hp Hdiv) => [|[|[|]]] H; apply/orP.
- by exfalso; have := Z.prime_ge_2 _ Hp; lia.
- by exfalso; lia.
- by left; apply/eqP; apply: Nat2Z.inj.
- by right; apply/eqP; apply: Nat2Z.inj.
Qed.

Lemma fermat_Z (p a : Z) : Z.prime p -> (0 <= a)%Z -> (a ^ p mod p = a mod p)%Z.
Proof.
move=> Hp Ha; have H2 := Z.prime_ge_2 _ Hp.
have [n Hn] : exists n, p = Z.of_nat n by exists (Z.to_nat p); lia.
have [m Hm] : exists m, a = Z.of_nat m by exists (Z.to_nat a); lia.
subst p a; have Hprime := prime_to_nat _ Hp.
have /(f_equal Z.of_nat) := @fermat_little m n Hprime.
by rw !of_nat_modn ?prime_gt0 // of_nat_expn.
Qed.

End BtcFermat.
