(* ===== verification/BtcPrime.v ===== *)
(** The field of secp256k1 is a field: Pocklington's criterion with a certificate
    for its modulus, and fast exponentiation. *)
From stdpp Require Import base list numbers tactics.
From Stdlib Require Import ZArith Znumtheory Zpow_facts Lia.
From S2P Require Import BtcFermat.
Open Scope Z_scope.

Module BtcPrime.

(** ** Exponentiation modulo [m] *)

Fixpoint powm (a : Z) (e : positive) (m : Z) : Z :=
  match e with
  | xH => a mod m
  | xO e => let t := powm a e m in (t * t) mod m
  | xI e => let t := powm a e m in ((t * t) mod m * a) mod m
  end.

Lemma powm_spec a e m : powm a e m = a ^ Z.pos e mod m.
Proof.
  induction e as [e IH|e IH|]; cbn [powm]; rewrite ?IH.
  - rewrite Pos2Z.inj_xI, Z.pow_add_r, Z.pow_1_r, Z.mul_comm by lia.
    replace (2 * Z.pos e) with (Z.pos e + Z.pos e) by lia. rewrite Z.pow_add_r by lia.
    by rewrite <- Zmult_mod, Zmult_mod_idemp_r, (Z.mul_comm a).
  - rewrite Pos2Z.inj_xO. replace (2 * Z.pos e) with (Z.pos e + Z.pos e) by lia.
    rewrite Z.pow_add_r by lia. by rewrite <- Zmult_mod.
  - by rewrite Z.pow_1_r.
Qed.

(** ** Small primes by trial division *)

Fixpoint trial (fuel : nat) (d n : Z) : bool :=
  match fuel with
  | O => false
  | S fuel => (n <? d * d) || (negb (n mod d =? 0) && trial fuel (d + 1) n)
  end.

(** A divisor is at most the root, or its cofactor is. *)
Lemma prime_by_divisors N :
  1 < N → (∀ r, 1 < r → r * r ≤ N → ¬ (r | N)) → Z.prime N.
Proof.
  intros HN H. split; [done|]. intros n Hn [m ->].
  assert (0 < m) by nia. assert (1 < m) by nia.
  destruct (Z.le_gt_cases (n * n) (m * n)).
  - apply (H n); [lia|lia|]. by exists m.
  - apply (H m); [lia|nia|]. exists n. lia.
Qed.

Lemma trial_sound fuel d n :
  trial fuel d n = true → ∀ r, d ≤ r → r * r ≤ n → 0 < d → ¬ (r | n).
Proof.
  revert d. induction fuel as [|fuel IH]; intros d H r Hr Hn Hd Hdiv; [done|]. cbn [trial] in H.
  apply orb_true_iff in H as [H%Z.ltb_lt|[H1 H2]%andb_true_iff]; [nia|].
  apply negb_true_iff, Z.eqb_neq in H1. destruct (Z.eq_dec r d) as [->|Hne].
  - apply H1. by apply Z.mod_divide; [lia|].
  - exact (IH (d + 1) H2 r ltac:(lia) Hn ltac:(lia) Hdiv).
Qed.

Lemma trial_prime fuel n : 1 < n → trial fuel 2 n = true → Z.prime n.
Proof.
  intros Hn H. apply prime_by_divisors; [done|]. intros r Hr Hrn.
  exact (trial_sound fuel 2 n H r ltac:(lia) Hrn ltac:(lia)).
Qed.

(** ** Pocklington's criterion *)

(** Every number above 1 has a prime divisor, which is at most its root or the
    number itself. *)
Lemma prime_divisor n : 1 < n → ∃ r, Z.prime r ∧ (r | n).
Proof.
  induction n as [n IH] using (well_founded_induction (Z.lt_wf 0)). intros Hn.
  destruct (Znumtheory.prime_dec n) as [Hp|Hp].
  - exists n. split; [by apply Znumtheory.prime_alt in Hp|]. apply Z.divide_refl.
  - destruct (Znumtheory.not_prime_divide n ltac:(lia) Hp) as (m & Hm & Hd).
    destruct (IH m ltac:(lia) ltac:(lia)) as (r & Hr & Hrm). exists r. split; [done|].
    by eapply Z.divide_trans.
Qed.

Lemma prime_by_primes N :
  1 < N → (∀ r, Z.prime r → (r | N) → N < r * r) → Z.prime N.
Proof.
  intros HN H. apply prime_by_divisors; [done|]. intros r Hr Hrr Hd.
  destruct (prime_divisor r Hr) as (s & Hs & Hsr).
  pose proof (H s Hs (Z.divide_trans _ _ _ Hsr Hd)).
  pose proof (Z.divide_pos_le s r ltac:(lia) Hsr). pose proof (Z.prime_ge_2 _ Hs). nia.
Qed.

Lemma prime_coprime q n : Z.prime q → ¬ (q | n) → Z.gcd q n = 1.
Proof.
  intros Hq Hn. pose proof (Z.gcd_nonneg q n).
  destruct (Z.divide_prime_r _ _ Hq (Z.gcd_divide_l q n)) as [E|[E|[E|E]]]; try lia.
  - pose proof (Z.prime_ge_2 _ Hq). lia.
  - exfalso. apply Hn. rewrite <- E. apply Z.gcd_divide_r.
Qed.

(** In a field of [r] elements, [1 + w (r - 1)] powers do nothing. *)
Lemma pow_period r b w :
  Z.prime r → 0 ≤ b → 0 ≤ w → b ^ (1 + w * (r - 1)) mod r = b mod r.
Proof.
  intros Hr Hb Hw. pose proof (Z.prime_ge_2 _ Hr). revert w Hw.
  apply natlike_ind; [by rewrite Z.pow_1_r|]. intros w Hw IH.
  replace (1 + Z.succ w * (r - 1)) with ((1 + w * (r - 1)) + (r - 1)) by lia.
  rewrite Z.pow_add_r, <- Zmult_mod_idemp_l, IH, Zmult_mod_idemp_l by nia.
  rewrite <- Z.pow_succ_r by lia. replace (Z.succ (r - 1)) with r by lia.
  by apply BtcFermat.fermat_Z.
Qed.

(** An element whose [q]-th power is 1, but which is not. *)
Lemma order_divides r q b :
  Z.prime r → Z.prime q → 0 ≤ b → b ^ q mod r = 1 → b mod r ≠ 1 → (q | r - 1).
Proof.
  intros Hr Hq Hb Hbq Hne. pose proof (Z.prime_ge_2 _ Hr). pose proof (Z.prime_ge_2 _ Hq).
  destruct (Z.eq_dec ((r - 1) mod q) 0) as [E|E]; [by apply Z.mod_divide in E; [|lia]|].
  exfalso. apply Hne. assert (¬ (q | r - 1)) as Hnd.
  { intros H'. apply E. apply Z.mod_divide; [lia|done]. }
  destruct (Z.gcd_bezout _ _ _ (prime_coprime _ _ Hq Hnd)) as (u & v & Huv).
  assert (∃ c, 0 ≤ c ∧ - u ≤ c ∧ v ≤ c) as (c & Hc & Hcu & Hcv) by (exists (Z.abs u + Z.abs v); lia).
  (* u' * q = 1 + w * (r - 1), neither factor negative *)
  assert (c * 1 ≤ c * (r - 1)) by (apply Z.mul_le_mono_nonneg_l; lia).
  assert (c * 1 ≤ c * q) by (apply Z.mul_le_mono_nonneg_l; lia).
  assert (∃ u' w, u' * q = 1 + w * (r - 1) ∧ 0 ≤ u' ∧ 0 ≤ w) as (u' & w & Hw & Hu0 & Hw0).
  { exists (u + c * (r - 1)), (c * q - v). split; [|lia].
    transitivity (u * q + v * (r - 1) + (c * q - v) * (r - 1)); [ring|]. by rewrite Huv. }
  rewrite <- (pow_period r b w Hr Hb) by done. rewrite <- Hw, Z.mul_comm, Z.pow_mul_r by lia.
  rewrite (Zpower_mod (b ^ q) u' r), Hbq, Z.pow_1_l by lia. apply Z.mod_1_l. lia.
Qed.

(** One prime of the certificate. *)
Lemma pocklington N q k a r :
  1 < N → 0 ≤ a → 0 < k → Z.prime q → N - 1 = q * k → a ^ (N - 1) mod N = 1 → Z.gcd (a ^ k mod N - 1) N = 1 →
  Z.prime r → (r | N) → (q | r - 1).
Proof.
  intros HN Ha Hk Hq Hqk Hone Hgcd Hr HrN. pose proof (Z.prime_ge_2 _ Hr). pose proof (Z.prime_ge_2 _ Hq).
  assert (∀ x, (x mod N) mod r = x mod r) as Hmod.
  { intros x. apply Z.mod_mod_divide. done. }
  apply (order_divides r q (a ^ k)); [done|done|by apply Z.pow_nonneg| |].
  - rewrite <- Z.pow_mul_r, (Z.mul_comm k), <- Hqk by lia. rewrite <- Hmod, Hone. apply Z.mod_1_l. lia.
  - intros Heq. assert (r | 1) as H1.
    { rewrite <- Hgcd. apply Z.gcd_greatest; [|done]. apply Z.mod_divide; [lia|].
      rewrite Zminus_mod, Hmod, Heq, (Z.mod_small 1) by lia. by rewrite Z.mod_0_l by lia. }
    apply Z.divide_1_r_nonneg in H1; lia.
Qed.

(** A step of a certificate: the prime [q], its cofactor and the base. *)
Definition step_ok (N q k a : Z) : bool :=
  (N - 1 =? q * k) && (0 <? k) && (1 <? N) && (0 <=? a) && (0 <? q) &&
  let b := powm a (Z.to_pos k) N in (powm b (Z.to_pos q) N =? 1) && (Z.gcd (b - 1) N =? 1).

Lemma step_divides N q k a r :
  step_ok N q k a = true → Z.prime q → Z.prime r → (r | N) → (q | r - 1).
Proof.
  unfold step_ok. rewrite !andb_true_iff, !Z.eqb_eq, !Z.ltb_lt, Z.leb_le.
  intros (((((Hqk & Hk) & HN) & Ha) & Hq0) & H1 & H2) Hq Hr HrN.
  rewrite !powm_spec, !Z2Pos.id in H1 by lia. rewrite powm_spec, Z2Pos.id in H2 by lia.
  rewrite <- Zpower_mod, <- Z.pow_mul_r, (Z.mul_comm k), <- Hqk in H1 by lia.
  by apply (pocklington N q k a).
Qed.

Lemma prime_step N q k a :
  step_ok N q k a = true → Z.prime q → N < q * q → Z.prime N.
Proof.
  intros Hs Hq Hlt. assert (1 < N) as HN.
  { revert Hs. unfold step_ok. rewrite !andb_true_iff, !Z.ltb_lt. tauto. }
  apply prime_by_primes; [done|]. intros r Hr HrN.
  pose proof (step_divides _ _ _ _ _ Hs Hq Hr HrN) as Hd. pose proof (Z.prime_ge_2 _ Hr).
  apply Z.divide_pos_le in Hd; [|lia]. pose proof (Z.prime_ge_2 _ Hq). nia.
Qed.

(** ** The modulus of secp256k1 *)

Definition secp256k1_p : Z := 2 ^ 256 - 2 ^ 32 - 977.

Definition p1 : Z := 205115282021455665897114700593932402728804164701536103180137503955397371.
Definition p2 : Z := 255515944373312847190720520512484175977.

Lemma coprime_product a b n : Z.gcd a b = 1 → (a | n) → (b | n) → (a * b | n).
Proof.
  intros Hg [x ->] Hb. rewrite Z.gcd_comm in Hg. rewrite Z.mul_comm in Hb.
  apply Z.gauss in Hb as [y ->]; [|done]. exists y. ring.
Qed.

Lemma p2_prime : Z.prime p2.
Proof.
  assert (Z.prime 107590001) as Ha by (apply (trial_prime (Z.to_nat 11000)); by vm_compute).
  assert (Z.prime 7240687) as Hb by (apply (trial_prime (Z.to_nat 11000)); by vm_compute).
  assert (Z.prime 96557) as Hc by (apply (trial_prime (Z.to_nat 11000)); by vm_compute).
  apply prime_by_primes; [by vm_compute|]. intros r Hr Hd. pose proof (Z.prime_ge_2 _ Hr).
  pose proof (step_divides p2 107590001 2374904191824599455024826335976 2 r (ltac:(by vm_compute)) Ha Hr Hd) as Da.
  pose proof (step_divides p2 7240687 35288908963101546467996824129048 2 r (ltac:(by vm_compute)) Hb Hr Hd) as Db.
  pose proof (step_divides p2 96557 2646270538369179315748423423599368 2 r (ltac:(by vm_compute)) Hc Hr Hd) as Dc.
  assert (107590001 * (7240687 * 96557) | r - 1) as D.
  { apply coprime_product; [by vm_compute|done|]. apply coprime_product; [by vm_compute|done|done]. }
  apply Z.divide_pos_le in D; [|lia]. unfold p2. nia.
Qed.

Lemma p1_prime : Z.prime p1.
Proof. apply (prime_step p1 p2 802749442992798076634733441528810 2); [by vm_compute|apply p2_prime|by vm_compute]. Qed.

Lemma secp256k1_p_prime : Z.prime secp256k1_p.
Proof. apply (prime_step secp256k1_p p1 564522 2); [by vm_compute|apply p1_prime|by vm_compute]. Qed.

End BtcPrime.
