(* ===== verification/BtcEcp.v ===== *)
(** Reading a compressed public key: [btc_util_ecp_point_read_binary2] of
    [btc/btc_util.c], which mbedtls leaves to its caller.

    The big numbers of mbedtls are [Z]; its fast reduction for the group,
    [grp.modp], is an argument. *)
From stdpp Require Import base list numbers tactics.
From Stdlib Require Import ZArith Zpow_facts Lia.
From S2P Require Import Prelude CProg LnDerkey BtcFermat BtcPrime.
Import Derkey(btc_keys_chkpub).
Import BtcPrime.
Open Scope Z_scope.

Module BtcEcp.

(** The group that [mbedtls_ecp_group_load] loads for
    [MBEDTLS_ECP_DP_SECP256K1]. *)
Abbreviation grp_P := secp256k1_p.
Abbreviation grp_B := 7.

Section ecp.
(** What mbedtls documents of it: a number from 0 to 2^(2*256) - 1 is taken to one that is
    congruent modulo [P] and little more than 256 bits long. *)
Context (modp : Z → Z)
  (modp_spec : ∀ x, 0 ≤ x < 2 ^ 512 → 0 ≤ modp x < 2 ^ 260 ∧ modp x mod grp_P = x mod grp_P).

(** The number of bytes of a positive number. *)
Definition mbedtls_mpi_size (n : Z) : Z := (Z.log2 n + 8) / 8.

(** What [mbedtls_ecp_point_read_binary] makes of 33 bytes: the point at infinity
    and an uncompressed key have other lengths, every other first byte is left to
    the caller. *)
Definition feature_unavailable (b0 : Z) : bool := negb ((b0 =? 0) || (b0 =? 4)).

(** [point->X] and [point->Y]; [None] is an error code. *)
Definition btc_util_ecp_point_read_binary2 (pPubKey : bytes) : option (Z * Z) :=
  d ← sub_bytes pPubKey 0 33;
  b0 ← head d;
  if negb (feature_unavailable b0) then None
  else
    parity ← (if b0 =? 0x02 then Some 0 else if b0 =? 0x03 then Some 1 else None);
    let plen := mbedtls_mpi_size grp_P in
    if negb (33 =? plen + 1) then None
    else
      let X := be_val (sl d 1 plen) in
      let y2 := X * X in
      let y2 := modp y2 in
      let y2 := y2 * X in
      let y2 := y2 + grp_B in
      let y2 := modp y2 in
      let e := grp_P + 1 in
      let e := Z.shiftr e 2 in
      let Y := powm y2 (Z.to_pos e) grp_P in
      Some (X, if negb (Z.land Y 1 =? parity) then grp_P - Y else Y).

(** The point is on the curve. *)
Definition on_curve (x y : Z) : Prop :=
  0 ≤ x < grp_P ∧ 0 ≤ y < grp_P ∧ (y * y) mod grp_P = (x * x * x + grp_B) mod grp_P.

(** [mbedtls_ecp_point_write_binary] with [MBEDTLS_ECP_PF_COMPRESSED]. *)
Definition write_compressed (x y : Z) : bytes := (2 + Z.land y 1) :: be_bytes 32 x.

(** ** Square roots *)

Definition root (c : Z) : Z := c ^ ((grp_P + 1) / 4) mod grp_P.

Lemma p_bounds : 2 ^ 255 < grp_P < 2 ^ 256.
Proof. by vm_compute. Qed.

Lemma root_square y : 0 ≤ y → (root (y * y) * root (y * y)) mod grp_P = (y * y) mod grp_P.
Proof.
  intros Hy. unfold root. rewrite <- Zmult_mod, <- Z.pow_add_r by (apply Z.div_pos; vm_compute; done).
  rewrite <- Z.pow_2_r, <- Z.pow_mul_r by (vm_compute; done).
  replace (2 * ((grp_P + 1) / 4 + (grp_P + 1) / 4)) with (grp_P + 1) by (by vm_compute).
  pose proof p_bounds. rewrite Z.pow_add_r, Z.pow_1_r by lia.
  rewrite <- Zmult_mod_idemp_l, BtcFermat.fermat_Z by (apply secp256k1_p_prime || done).
  by rewrite Zmult_mod_idemp_l, Z.pow_2_r.
Qed.

Lemma multiple_small k P z n : 0 < P → z = k * P → - P < z < n * P → 0 ≤ k < n.
Proof. intros. nia. Qed.

(** A field has at most two of them. *)
Lemma square_roots x y :
  0 ≤ x < grp_P → 0 ≤ y < grp_P → (x * x) mod grp_P = (y * y) mod grp_P → x = y ∨ x + y = grp_P ∨ x = 0 ∧ y = 0.
Proof.
  intros Hx Hy H. assert (grp_P | (x - y) * (x + y)) as D.
  { apply Z.mod_divide; [lia|]. replace ((x - y) * (x + y)) with (x * x - y * y) by ring.
    by rewrite Zminus_mod, H, Z.sub_diag. }
  destruct (Z.eq_dec ((x - y) mod grp_P) 0) as [E|E].
  - left. apply Z.mod_divide in E as [k Hk]; [|lia].
    pose proof (multiple_small k grp_P _ 1 ltac:(lia) Hk ltac:(lia)). assert (k = 0) as -> by lia. lia.
  - apply Z.gauss in D.
    + destruct D as [k Hk]. destruct (Z.eq_dec k 0) as [->|]; [right; right; lia|].
      pose proof (multiple_small k grp_P _ 2 ltac:(lia) Hk ltac:(lia)). assert (k = 1) as -> by lia. lia.
    + apply prime_coprime; [apply secp256k1_p_prime|]. intros D'. apply E. by apply Z.mod_divide; [lia|].
Qed.

(** ** Reading *)

(** What is computed for an [X]. *)
Definition curve_y (X parity : Z) : Z :=
  let Y := root (X * X * X + grp_B) in if negb (Z.land Y 1 =? parity) then grp_P - Y else Y.

Lemma powm_root c d : c mod grp_P = d mod grp_P → powm c (Z.to_pos (Z.shiftr (grp_P + 1) 2)) grp_P = root d.
Proof.
  intros H. rewrite powm_spec. unfold root.
  change (Z.pos (Z.to_pos (Z.shiftr (grp_P + 1) 2))) with ((grp_P + 1) / 4).
  rewrite (Zpower_mod c), (Zpower_mod d), H by (by vm_compute). done.
Qed.

(** The second number that is reduced is one the documentation covers. The code does
    not see to it: the first reduction may leave more than 256 bits. *)
Definition reducible (X : Z) : Prop := modp (X * X) * X + grp_B < 2 ^ 512.

Lemma reducible_complete X : 0 ≤ X < 2 ^ 256 → modp (X * X) < 2 ^ 256 → reducible X.
Proof. intros HX Hm. unfold reducible. destruct (modp_spec (X * X)) as [H1 _]; [nia|]. nia. Qed.

Lemma reducible_small X : 0 ≤ X < 2 ^ 252 - 1 → reducible X.
Proof. intros HX. unfold reducible. destruct (modp_spec (X * X)) as [H1 _]; [nia|]. nia. Qed.

Lemma reduced_cube X :
  0 ≤ X < 2 ^ 256 → reducible X → modp (modp (X * X) * X + grp_B) mod grp_P = (X * X * X + grp_B) mod grp_P.
Proof.
  intros HX Hr. destruct (modp_spec (X * X)) as [H1 H2]; [nia|].
  destruct (modp_spec (modp (X * X) * X + grp_B)) as [H3 H4]; [split; [nia|exact Hr]|].
  rewrite H4, Zplus_mod, <- (Zmult_mod_idemp_l (modp (X * X))), H2, Zmult_mod_idemp_l.
  by rewrite <- Zplus_mod.
Qed.

(** A key with one of the two first bytes is taken, with its [X]. *)
Lemma read_taken b0 d :
  length d = 32%nat → b0 = 2 ∨ b0 = 3 →
  let Y := powm (modp (modp (be_val d * be_val d) * be_val d + grp_B)) (Z.to_pos (Z.shiftr (grp_P + 1) 2)) grp_P in
  btc_util_ecp_point_read_binary2 (b0 :: d) = Some (be_val d, if negb (Z.land Y 1 =? b0 - 2) then grp_P - Y else Y).
Proof.
  intros Hl Hb. unfold btc_util_ecp_point_read_binary2. unfold sub_bytes at 1.
  rewrite bool_decide_eq_true_2 by (cbn [length]; lia).
  change (Z.to_nat 0) with 0%nat. rewrite drop_0, take_ge by (cbn [length]; lia).
  cbn [mbind option_bind head].
  change (mbedtls_mpi_size grp_P) with 32.
  assert (sl (b0 :: d) 1 32 = d) as ->.
  { unfold sl. change (drop (Z.to_nat 1) (b0 :: d)) with d. apply take_ge. lia. }
  by destruct Hb as [-> | ->]; cbn [feature_unavailable Z.eqb negb orb Pos.eqb mbind option_bind Z.add Pos.add].
Qed.

Lemma read_key b0 d :
  is_bytes d → length d = 32%nat → b0 = 2 ∨ b0 = 3 → reducible (be_val d) →
  btc_util_ecp_point_read_binary2 (b0 :: d) = Some (be_val d, curve_y (be_val d) (b0 - 2)).
Proof.
  intros Hd Hl Hb Hr. pose proof (be_val_range d Hd) as Hv. rewrite Hl in Hv. change (256 ^ _) with (2 ^ 256) in Hv.
  rewrite read_taken by done. cbn zeta.
  by rewrite (powm_root _ (be_val d * be_val d * be_val d + grp_B)) by (by apply reduced_cube).
Qed.

Lemma land_1 z : Z.land z 1 = z mod 2.
Proof. change 1 with (Z.ones 1). by rewrite Z.land_ones. Qed.

Lemma root_range c : 0 ≤ root c < grp_P.
Proof. unfold root. apply Z.mod_pos_bound. by vm_compute. Qed.

Lemma root_ext c d : c mod grp_P = d mod grp_P → root c = root d.
Proof. intros H. unfold root. rewrite (Zpower_mod c), (Zpower_mod d), H by (by vm_compute). done. Qed.

Lemma curve_y_ok x y : on_curve x y → curve_y x (Z.land y 1) = y.
Proof.
  intros (Hx & Hy & Hc). unfold curve_y. rewrite <- (root_ext _ _ Hc). clear Hc. rewrite !land_1.
  pose proof (root_range (y * y)). pose proof (root_square y ltac:(lia)) as Hr.
  assert (grp_P mod 2 = 1) as Hodd by by vm_compute.
  destruct (square_roots _ _ H Hy Hr) as [-> | [E | [-> ->]]].
  - by rewrite Z.eqb_refl.
  - destruct (Z.eqb_spec (root (y * y) mod 2) (y mod 2)) as [E2|]; cbn [negb]; [|lia].
    exfalso. rewrite <- E in Hodd. rewrite Zplus_mod, E2, <- Zplus_mod in Hodd.
    replace (y + y) with (y * 2) in Hodd by ring. rewrite Z.mod_mul in Hodd by lia. discriminate Hodd.
  - done.
Qed.

(** An [X] that no point has, since [-1] is no square, and the key that names it. *)
Definition stray_x : Z := grp_P - 2.
Definition stray_key : bytes := 2 :: be_bytes 32 stray_x.

Lemma minus_one_no_square y : 0 ≤ y → (y * y) mod grp_P ≠ grp_P - 1.
Proof.
  intros Hy H. pose proof p_bounds. pose proof (root_square y Hy) as Hr. revert Hr.
  assert (root (y * y) = 1) as ->.
  { unfold root. rewrite Zpower_mod, H by lia.
    replace ((grp_P + 1) / 4) with (2 * ((grp_P + 1) / 8)) by (by vm_compute).
    rewrite Z.pow_mul_r by (vm_compute; done).
    rewrite Zpower_mod by lia. replace ((grp_P - 1) ^ 2) with (1 + (grp_P - 2) * grp_P) by ring.
    rewrite (Z.mod_add 1 (grp_P - 2) grp_P) by lia. rewrite (Z.mod_1_l grp_P) by lia.
    rewrite Z.pow_1_l by (vm_compute; done). apply Z.mod_1_l. lia. }
  rewrite H. rewrite Z.mod_1_l; lia.
Qed.

Lemma stray_key_off_curve y : ¬ on_curve stray_x y.
Proof.
  intros (_ & Hy & Hc). apply (minus_one_no_square y); [lia|]. rewrite Hc. unfold stray_x.
  pose proof p_bounds.
  replace ((grp_P - 2) * (grp_P - 2) * (grp_P - 2) + grp_B)
    with (grp_P - 1 + (grp_P * grp_P - 6 * grp_P + 11) * grp_P) by ring.
  rewrite Z.mod_add by lia. apply Z.mod_small. lia.
Qed.

Lemma write_compressed_key x y :
  on_curve x y → ∃ b0 d, write_compressed x y = b0 :: d ∧ is_bytes d ∧ length d = 32%nat ∧
    (b0 = 2 ∨ b0 = 3) ∧ be_val d = x ∧ b0 - 2 = Z.land y 1.
Proof.
  intros (Hx & Hy & _). exists (2 + Z.land y 1), (be_bytes 32 x). split_and!; [done| |apply length_be_bytes| | |lia].
  - auto with ptarm.
  - rewrite land_1. pose proof (Z.mod_pos_bound y 2). lia.
  - rewrite be_val_be_bytes. pose proof p_bounds. apply wrap_small. unfold in_range.
    change (8 * Z.of_nat 32) with 256. lia.
Qed.

Lemma read_refused pk :
  is_bytes pk → length pk = 33%nat → btc_keys_chkpub pk = false → btc_util_ecp_point_read_binary2 pk = None.
Proof.
  intros Hb Hl Hc. destruct pk as [|b0 d]; [done|]. unfold btc_keys_chkpub in Hc.
  apply orb_false_iff in Hc as [H2 H3].
  unfold btc_util_ecp_point_read_binary2. unfold sub_bytes at 1.
  rewrite bool_decide_eq_true_2 by lia. change (Z.to_nat 0) with 0%nat.
  rewrite drop_0, take_ge by lia. cbn [mbind option_bind head]. rewrite H2, H3.
  by destruct (negb _).
Qed.

(** C40: the compressed form of a point of secp256k1 is read back as the point when the
    second number given to [modp] is below 2^512, which mbedtls documents as its domain: so
    when the first reduction is complete, and for every [x] below 2^252 - 1 in any case. A
    key is taken exactly when [btc_keys_chkpub] says so, which is decided by its
    first byte alone: there are keys that pass and name no point. *)
Theorem point_codec :
  (∀ x y, on_curve x y → reducible x → btc_util_ecp_point_read_binary2 (write_compressed x y) = Some (x, y)) ∧
  (∀ x, 0 ≤ x < 2 ^ 256 → modp (x * x) < 2 ^ 256 ∨ x < 2 ^ 252 - 1 → reducible x) ∧
  (∀ pk, is_bytes pk → length pk = 33%nat →
     (is_Some (btc_util_ecp_point_read_binary2 pk) ↔ btc_keys_chkpub pk = true)) ∧
  btc_keys_chkpub stray_key = true ∧
  ∃ Y, btc_util_ecp_point_read_binary2 stray_key = Some (stray_x, Y) ∧ ∀ y, ¬ on_curve stray_x y.
Proof.
  split_and!.
  - intros x y H Hr. destruct (write_compressed_key x y H) as (b0 & d & -> & Hd & Hl & Hb & Hv & Hp).
    by rewrite read_key, Hv, Hp, curve_y_ok by (done || by rewrite Hv).
  - intros x Hx [Hm|Hm]; [by apply reducible_complete|apply reducible_small; lia].
  - intros pk Hb Hl. destruct (btc_keys_chkpub pk) eqn:Hc; [|by rewrite read_refused; [split; [intros []|]|..]].
    split; [done|]. intros _. destruct pk as [|b0 d]; [done|]. unfold btc_keys_chkpub in Hc.
    rewrite read_taken; [by eexists|by injection Hl|].
    apply orb_true_iff in Hc as [?%Z.eqb_eq|?%Z.eqb_eq]; auto.
  - done.
  - eexists. split; [|apply stray_key_off_curve].
    unfold stray_key. rewrite read_taken; [|apply length_be_bytes|by left].
    rewrite be_val_be_bytes, wrap_small; [done|]. unfold in_range, stray_x. change (8 * Z.of_nat 32) with 256.
    pose proof p_bounds. lia.
Qed.

End ecp.

(** The reduction itself: every point. *)
Lemma point_codec_witness :
  (∀ x y, on_curve x y →
     btc_util_ecp_point_read_binary2 (λ x, x mod grp_P) (write_compressed x y) = Some (x, y)) ∧
  (∀ pk, is_bytes pk → length pk = 33%nat →
     (is_Some (btc_util_ecp_point_read_binary2 (λ x, x mod grp_P) pk) ↔ btc_keys_chkpub pk = true)) ∧
  btc_keys_chkpub stray_key = true ∧
  ∃ Y, btc_util_ecp_point_read_binary2 (λ x, x mod grp_P) stray_key = Some (stray_x, Y) ∧ ∀ y, ¬ on_curve stray_x y.
Proof.
  pose proof p_bounds as Hp. destruct (point_codec (λ x, x mod grp_P)) as (H1 & H2 & H3 & H4 & H5).
  - intros x Hx. rewrite Z.mod_mod by lia. split; [|done]. pose proof (Z.mod_pos_bound x grp_P ltac:(lia)). lia.
  - split_and!; try assumption. intros x y Hc. apply H1; [done|]. destruct Hc as (Hx & _). apply H2; [lia|].
    left. pose proof (Z.mod_pos_bound (x * x) grp_P ltac:(lia)). lia.
Defined.

End BtcEcp.
