(* ===== verification/LnMsgGossip.v ===== *)
(** The gossip messages that are signed: announcement_signatures, channel_announcement,
    node_announcement and channel_update of [ln/ln_msg_anno.c]. *)
From stdpp Require Import base list numbers tactics.
From Stdlib Require Import ZArith Lia.
From S2P Require Import Prelude CProg UtlInt UtlBuf UtlPush LnDerkey LnMisc LnMsg LnMsgAnno BtcTx BtcSw.
Import UtlBuf UtlPush Derkey LnMisc LnMsg LnMsgAnno BtcTx BtcSw.
Open Scope Z_scope.

Module LnMsgGossip.

Abbreviation LN_SZ_ALIAS := 32.
Abbreviation LN_NODEDESC_NONE := 0.
Abbreviation LN_NODEDESC_IPV4 := 1.
Abbreviation LN_NODEDESC_ONIONV3 := 4.
Abbreviation LN_NODEDESC_MAX := LN_NODEDESC_ONIONV3.

(** The length of an address without and with its port. *)
Definition M_ADDRLEN : list Z := [0; 4; 16; 10; 35].
Definition M_ADDRLEN2 : list Z := [0; 6; 18; 12; 37].

(** What the node was configured with: [mNode.keys] and [gGenesisChainHash]. *)
Record node_conf := mk_node {
  mNode_priv : bytes;
  mNode_pub : bytes;
  gGenesisChainHash : bytes;
}.

(** ** Messages in a buffer *)

(** [memcpy(buf + pos, d, n)] *)
Definition put_at {S} (x : utl_buf_t) (pos : Z) (d : bytes) : prog S utl_buf_t :=
  b ← of_option (write_cells (buf x) pos (init_cells d) (Z.of_nat (length d)));
  mret (mk_buf b (len x)).

(** [memcpy(d, buf + pos, n)] *)
Definition get_from {S} (x : utl_buf_t) (pos n : Z) : prog S bytes :=
  of_option (read_cells (drop (Z.to_nat pos) <$> buf x) n).

Section code.
Context {A : Alloc} {H : BtcHash} {E : Ecdsa} (node : node_conf).

(** [btc_util_hash256(hash, buf + off, len - off)] *)
Definition hash_from {S} (x : utl_buf_t) (off : Z) : prog S bytes :=
  let n := u16 (len x - off) in
  d ← get_from x off n;
  lift (btc_util_hash256 d n).

(** The same of a packet of [Len] bytes. *)
Definition hash_packet {S} (pData : bytes) (Len off : Z) : prog S bytes :=
  lift (btc_util_hash256 (drop (Z.to_nat off) pData) (u16 (Len - off))).

Definition ln_node_sign_nodekey {S} (pHash : bytes) : prog S bytes := lift (btc_tx_sign_rs pHash (mNode_priv node)).

Definition ln_signer_sign_rs {S} (pTxHash : bytes) (priv : list bytes) (PrivIndex : nat) : prog S bytes :=
  k ← of_option (priv !! PrivIndex); lift (btc_tx_sign_rs pTxHash k).

(** ** announcement_signatures *)

(** [ln_announce_signs_t] *)
Record ln_announce_signs_t := mk_signs {
  p_channel_id : bytes;
  as_short_channel_id : Z;
  p_node_signature : bytes;
  p_btc_signature : bytes;
}.

Definition ln_msg_announce_signs_create (pMsg : ln_announce_signs_t) : prog utl_push_t bool :=
  call (utl_push_init (2 + 168));;
  ln_misc_push16be MSGTYPE_ANNOUNCEMENT_SIGNATURES;;
  push_bytes (p_channel_id pMsg) LN_SZ_CHANNEL_ID;;
  ln_misc_push64be (as_short_channel_id pMsg);;
  push_bytes (p_node_signature pMsg) LN_SZ_SIGNATURE;;
  push_bytes (p_btc_signature pMsg) LN_SZ_SIGNATURE;;
  proto ← get_st;
  c_assert (2 + 168 =? len (data proto));;
  call utl_push_trim;;
  mret true.

Definition ln_msg_announce_signs_read_short_cnl_id {S} (pData : bytes) (Len : Z) (pChannelId : bytes) : prog S Z :=
  if Len <? 2 + 168 then mret 0 else
  type ← get_at ln_misc_get16be pData 0;
  if negb (type =? MSGTYPE_ANNOUNCEMENT_SIGNATURES) then mret 0 else
  let pos := 2 in
  id ← rd_bytes pData pos LN_SZ_CHANNEL_ID;
  if negb (bool_decide (pChannelId = id)) then mret 0 else
  get_at ln_misc_get64be pData (pos + LN_SZ_CHANNEL_ID).

(** The signatures are read last: a message that is refused leaves them alone. *)
Definition ln_msg_announce_signs_read (pData : bytes) (Len : Z) : prog ln_announce_signs_t bool :=
  exit_if (Len <? 2 + 168) false;;
  type ← get_at ln_misc_get16be pData 0;
  exit_if (negb (type =? MSGTYPE_ANNOUNCEMENT_SIGNATURES)) false;;
  let pos := 2 in
  v ← rd_bytes pData pos LN_SZ_CHANNEL_ID;
  modify (λ m, mk_signs v (as_short_channel_id m) (p_node_signature m) (p_btc_signature m));;
  let pos := pos + LN_SZ_CHANNEL_ID in
  short_channel_id ← get_at ln_misc_get64be pData pos;
  m ← get_st;
  (if as_short_channel_id m =? 0
   then put_st (mk_signs (p_channel_id m) short_channel_id (p_node_signature m) (p_btc_signature m))
   else exit_if (negb (as_short_channel_id m =? short_channel_id)) false);;
  let pos := pos + LN_SZ_SHORT_CHANNEL_ID in
  v ← rd_bytes pData pos LN_SZ_SIGNATURE;
  modify (λ m, mk_signs (p_channel_id m) (as_short_channel_id m) v (p_btc_signature m));;
  let pos := pos + LN_SZ_SIGNATURE in
  v ← rd_bytes pData pos LN_SZ_SIGNATURE;
  modify (λ m, mk_signs (p_channel_id m) (as_short_channel_id m) (p_node_signature m) v);;
  let pos := pos + LN_SZ_SIGNATURE in
  c_assert (pos <=? Len);;
  mret true.

(** ** channel_announcement *)

(** [ln_cnl_announce_create_t]; [sort] is [BTC_KEYS_SORT_ASC]: our node comes first. *)
Record ln_cnl_announce_create_t := mk_cnl_create {
  cc_short_channel_id : Z;
  p_my_node_pub : bytes;
  p_peer_node_pub : bytes;
  p_my_funding_pub : bytes;
  p_peer_funding_pub : bytes;
  sort : bool;
}.

(** [cnl_announce_ptr_t]: the pointers are positions in the packet. *)
Record cnl_announce_ptr_t := mk_ptr {
  p_node_signature1 : Z;
  p_node_signature2 : Z;
  p_btc_signature1 : Z;
  p_btc_signature2 : Z;
  ptr_short_channel_id : Z;
  p_node_id1 : Z;
  p_node_id2 : Z;
  p_btc_key1 : Z;
  p_btc_key2 : Z;
}.

(** [ln_cnl_announce_read_t] *)
Record ln_cnl_announce_read_t := mk_cnl_read {
  cr_short_channel_id : Z;
  node_id1 : bytes;
  node_id2 : bytes;
  btc_key1 : bytes;
  btc_key2 : bytes;
}.

(** Our two signatures, put at their places. *)
Definition cnl_announce_sign {S} (priv : list bytes) (pData : utl_buf_t) (Sort : bool) : prog S utl_buf_t :=
  let offset_sig := if Sort then 0 else LN_SZ_SIGNATURE in
  hash ← hash_from pData (2 + LN_SZ_SIGNATURE * 4);
  sig ← ln_node_sign_nodekey hash;
  pData ← put_at pData (2 + offset_sig) sig;
  sig ← ln_signer_sign_rs hash priv MSG_FUNDIDX_FUNDING;
  put_at pData (2 + offset_sig + LN_SZ_SIGNATURE * 2) sig.

Definition ln_msg_cnl_announce_create (priv : list bytes) (pMsg : ln_cnl_announce_create_t) : prog utl_push_t bool :=
  call (utl_push_init (2 + 430));;
  ln_misc_push16be MSGTYPE_CHANNEL_ANNOUNCEMENT;;
  push_memset 0xcc (LN_SZ_SIGNATURE * 4);;
  ln_misc_push16be 0;;
  push_bytes (gGenesisChainHash node) BTC_SZ_HASH256;;
  ln_misc_push64be (cc_short_channel_id pMsg);;
  let '(p_node_1, p_node_2, p_btc_1, p_btc_2) :=
    if sort pMsg then (p_my_node_pub pMsg, p_peer_node_pub pMsg, p_my_funding_pub pMsg, p_peer_funding_pub pMsg)
    else (p_peer_node_pub pMsg, p_my_node_pub pMsg, p_peer_funding_pub pMsg, p_my_funding_pub pMsg) in
  push_bytes p_node_1 BTC_SZ_PUBKEY;;
  push_bytes p_node_2 BTC_SZ_PUBKEY;;
  push_bytes p_btc_1 BTC_SZ_PUBKEY;;
  push_bytes p_btc_2 BTC_SZ_PUBKEY;;
  proto ← get_st;
  c_assert (2 + 430 =? len (data proto));;
  call utl_push_trim;;
  proto ← get_st;
  pBuf ← cnl_announce_sign priv (data proto) (sort pMsg);
  put_st (mk_push (pos proto) pBuf);;
  mret true.

(** The result, and the positions as far as they are set. *)
Definition cnl_announce_ptr {S} (pData : bytes) (Len : Z) : prog S (bool * cnl_announce_ptr_t) :=
  let pos := 2 in
  let p_node_signature1 := pos in
  let pos := pos + LN_SZ_SIGNATURE in
  let p_node_signature2 := pos in
  let pos := pos + LN_SZ_SIGNATURE in
  let p_btc_signature1 := pos in
  let pos := pos + LN_SZ_SIGNATURE in
  let p_btc_signature2 := pos in
  let pos := pos + LN_SZ_SIGNATURE in
  flen ← get_at ln_misc_get16be pData pos;
  let pos := pos + 2 in
  let pos := pos + flen in
  chain ← rd_bytes pData pos BTC_SZ_HASH256;
  if negb (bool_decide (gGenesisChainHash node = chain))
  then mret (false, mk_ptr p_node_signature1 p_node_signature2 p_btc_signature1 p_btc_signature2 0 0 0 0 0) else
  let pos := pos + BTC_SZ_HASH256 in
  short_channel_id ← get_at ln_misc_get64be pData pos;
  let pos := pos + LN_SZ_SHORT_CHANNEL_ID in
  let p_node_id1 := pos in
  let pos := pos + BTC_SZ_PUBKEY in
  let p_node_id2 := pos in
  let pos := pos + BTC_SZ_PUBKEY in
  let p_btc_key1 := pos in
  let pos := pos + BTC_SZ_PUBKEY in
  let p_btc_key2 := pos in
  let pos := pos + BTC_SZ_PUBKEY in
  mret (Len =? pos, mk_ptr p_node_signature1 p_node_signature2 p_btc_signature1 p_btc_signature2
    short_channel_id p_node_id1 p_node_id2 p_btc_key1 p_btc_key2).

Definition ln_msg_cnl_announce_read (pData : bytes) (Len : Z) : prog ln_cnl_announce_read_t bool :=
  exit_if (Len <? 2 + 430) false;;
  type ← get_at ln_misc_get16be pData 0;
  exit_if (negb (type =? MSGTYPE_CHANNEL_ANNOUNCEMENT)) false;;
  r ← cnl_announce_ptr pData Len;
  let '(ret, ptr) := r in
  (if ret : bool
   then id1 ← rd_bytes pData (p_node_id1 ptr) BTC_SZ_PUBKEY;
        id2 ← rd_bytes pData (p_node_id2 ptr) BTC_SZ_PUBKEY;
        key1 ← rd_bytes pData (p_btc_key1 ptr) BTC_SZ_PUBKEY;
        key2 ← rd_bytes pData (p_btc_key2 ptr) BTC_SZ_PUBKEY;
        put_st (mk_cnl_read (ptr_short_channel_id ptr) id1 id2 key1 key2)
   else mret tt);;
  mret ret.

(** [btc_tx_verify_rs(sig, hash, key)] of two places of the packet, and [assert(ret)]. *)
Definition verify_at {S} (pData hash : bytes) (sig key : Z) : prog S unit :=
  s ← rd_bytes pData sig LN_SZ_SIGNATURE;
  k ← rd_bytes pData key BTC_SZ_PUBKEY;
  ret ← lift (btc_tx_verify_rs s hash k);
  c_assert ret.

Definition ln_msg_cnl_announce_verify {S} (pData : bytes) (Len : Z) : prog S bool :=
  r ← cnl_announce_ptr pData Len;
  let '(ret, ptr) := r in
  if negb ret then mret false else
  hash ← hash_packet pData Len (2 + LN_SZ_SIGNATURE * 4);
  verify_at pData hash (p_node_signature1 ptr) (p_node_id1 ptr);;
  verify_at pData hash (p_node_signature2 ptr) (p_node_id2 ptr);;
  verify_at pData hash (p_btc_signature1 ptr) (p_btc_key1 ptr);;
  verify_at pData hash (p_btc_signature2 ptr) (p_btc_key2 ptr);;
  mret true.

(** The places in [self->cnl_anno] of the node's and of the funding key's signature. *)
Definition ln_msg_get_anno_signs (bLocal Sort : bool) : Z * Z :=
  let p_sig_node := if (Sort && bLocal) || (negb Sort && negb bLocal) then 2 else 2 + LN_SZ_SIGNATURE in
  (p_sig_node, p_sig_node + LN_SZ_SIGNATURE * 2).

(** With [self->cnl_anno], which is changed in place. *)
Definition ln_msg_cnl_announce_update_short_cnl_id {S} (priv : list bytes) (cnl_anno : utl_buf_t)
    (ShortChannelId : Z) (Sort : bool) : prog S utl_buf_t :=
  let pos := 2 + LN_SZ_SIGNATURE * 4 in
  d ← get_from cnl_anno pos 2;
  flen ← get_at ln_misc_get16be d 0;
  let pos := pos + 2 + flen + BTC_SZ_HASH256 in
  cnl_anno ← put_at cnl_anno pos (be_bytes 8 ShortChannelId);
  cnl_announce_sign priv cnl_anno Sort.

(** ** node_announcement *)

(** [ln_nodeaddr_t]: the union has 35 bytes. *)
Record ln_nodeaddr_t := mk_addr { addr_type : Z; port : Z; addr : bytes }.

(** [ln_node_announce_t]; [None] is a null pointer. *)
Record ln_node_announce_t := mk_anno {
  na_timestamp : Z;
  p_node_id : option bytes;
  p_alias : option bytes;
  rgbcolor : bytes;
  na_addr : ln_nodeaddr_t;
}.

Definition tbl_at {S} (t : list Z) (i : Z) : prog S Z := of_option (if 0 <=? i then t !! Z.to_nat i else None).

(** The local buffer the alias is copied into is not used afterwards. *)
Definition ln_msg_node_announce_create (pMsg : ln_node_announce_t) : prog utl_push_t bool :=
  let ty := addr_type (na_addr pMsg) in
  n2 ← tbl_at M_ADDRLEN2 ty;
  call (utl_push_init (2 + 141 + n2));;
  ln_misc_push16be MSGTYPE_NODE_ANNOUNCEMENT;;
  push_skip LN_SZ_SIGNATURE;;
  ln_misc_push16be 0;;
  ln_misc_push32be (na_timestamp pMsg);;
  push_bytes (default [] (p_node_id pMsg)) BTC_SZ_PUBKEY;;
  push_bytes (rgbcolor pMsg) 3;;
  push_bytes (default [] (p_alias pMsg)) LN_SZ_ALIAS;;
  (if ty =? LN_NODEDESC_NONE
   then ln_misc_push16be 0
   else if (LN_NODEDESC_IPV4 <=? ty) && (ty <=? LN_NODEDESC_ONIONV3)
   then n1 ← tbl_at M_ADDRLEN ty;
        ln_misc_push16be (1 + n2);;
        ln_misc_push8 ty;;
        push_bytes (addr (na_addr pMsg)) n1;;
        ln_misc_push16be (port (na_addr pMsg))
   else exit_with false);;
  proto ← get_st;
  c_assert (2 + 141 + n2 =? len (data proto));;
  call utl_push_trim;;
  proto ← get_st;
  hash ← hash_from (data proto) (2 + LN_SZ_SIGNATURE);
  sig ← ln_node_sign_nodekey hash;
  pBuf ← put_at (data proto) 2 sig;
  put_st (mk_push (pos proto) pBuf);;
  mret true.

Definition set_na_timestamp (v : Z) (m : ln_node_announce_t) : ln_node_announce_t :=
  mk_anno v (p_node_id m) (p_alias m) (rgbcolor m) (na_addr m).
Definition set_p_node_id (v : bytes) (m : ln_node_announce_t) : ln_node_announce_t :=
  mk_anno (na_timestamp m) (Some v) (p_alias m) (rgbcolor m) (na_addr m).
Definition set_p_alias (v : bytes) (m : ln_node_announce_t) : ln_node_announce_t :=
  mk_anno (na_timestamp m) (p_node_id m) (Some v) (rgbcolor m) (na_addr m).
Definition set_rgbcolor (v : bytes) (m : ln_node_announce_t) : ln_node_announce_t :=
  mk_anno (na_timestamp m) (p_node_id m) (p_alias m) v (na_addr m).
Definition set_na_addr (v : ln_nodeaddr_t) (m : ln_node_announce_t) : ln_node_announce_t :=
  mk_anno (na_timestamp m) (p_node_id m) (p_alias m) (rgbcolor m) v.

(** The address descriptor at [pos], of [addrlen] bytes with its type; what is left of
    [addrlen], and the position. *)
Definition read_address (pData : bytes) (pos addrlen : Z) : prog ln_node_announce_t (Z * Z) :=
  ty ← rd_byte pData pos;
  modify (λ m, set_na_addr (mk_addr ty (port (na_addr m)) (addr (na_addr m))) m);;
  exit_if (LN_NODEDESC_MAX <? ty) false;;
  let addrlen := addrlen - 1 in
  n2 ← tbl_at M_ADDRLEN2 ty;
  exit_if (addrlen <? n2) false;;
  let pos := pos + 1 in
  (if negb (ty =? LN_NODEDESC_NONE)
   then n ← tbl_at M_ADDRLEN ty;
        d ← rd_bytes pData pos n;
        modify (λ m, set_na_addr (mk_addr ty (port (na_addr m)) (d ++ drop (length d) (addr (na_addr m)))) m);;
        p ← get_at ln_misc_get16be pData (pos + n);
        modify (λ m, set_na_addr (mk_addr ty p (addr (na_addr m))) m)
   else mret tt);;
  mret (addrlen, pos).

Definition ln_msg_node_announce_read (pData : bytes) (Len : Z) : prog ln_node_announce_t bool :=
  exit_if (Len <? 2 + 140) false;;
  type ← get_at ln_misc_get16be pData 0;
  exit_if (negb (type =? MSGTYPE_NODE_ANNOUNCEMENT)) false;;
  let pos := 2 in
  let p_signature := pos in
  let pos := pos + LN_SZ_SIGNATURE in
  flen ← get_at ln_misc_get16be pData pos;
  let pos := pos + 2 + flen in
  v ← get_at ln_misc_get32be pData pos;
  modify (set_na_timestamp v);;
  let pos := pos + 4 in
  m ← get_st;
  (if bool_decide (is_Some (p_node_id m)) then v ← rd_bytes pData pos BTC_SZ_PUBKEY; modify (set_p_node_id v) else mret tt);;
  let pos := pos + BTC_SZ_PUBKEY in
  v ← rd_bytes pData pos 3;
  modify (set_rgbcolor v);;
  let pos := pos + 3 in
  (if bool_decide (is_Some (p_alias m)) then v ← rd_bytes pData pos LN_SZ_ALIAS; modify (set_p_alias (v ++ [0])) else mret tt);;
  let pos := pos + LN_SZ_ALIAS in
  addrlen ← get_at ln_misc_get16be pData pos;
  let pos := pos + 2 in
  r ← (if 0 <? addrlen then read_address pData pos addrlen
       else modify (λ m, set_na_addr (mk_addr LN_NODEDESC_NONE (port (na_addr m)) (addr (na_addr m))) m);; mret (addrlen, pos));
  let pos := r.2 + r.1 in
  c_assert (pos <=? Len);;
  m ← get_st;
  match p_node_id m with
  | Some id =>
      hash ← hash_packet pData pos (2 + LN_SZ_SIGNATURE);
      s ← rd_bytes pData p_signature LN_SZ_SIGNATURE;
      lift (btc_tx_verify_rs s hash id)
  | None => mret true
  end.

(** ** channel_update *)

Definition ln_msg_cnl_update_create (pMsg : CnlUpdate.t) : prog utl_push_t bool :=
  call (utl_push_init (2 + 128));;
  ln_misc_push16be MSGTYPE_CHANNEL_UPDATE;;
  push_skip LN_SZ_SIGNATURE;;
  push_bytes (gGenesisChainHash node) BTC_SZ_HASH256;;
  ln_misc_push64be (CnlUpdate.short_channel_id pMsg);;
  ln_misc_push32be (CnlUpdate.timestamp pMsg);;
  ln_misc_push16be (CnlUpdate.flags pMsg);;
  ln_misc_push16be (CnlUpdate.cltv_expiry_delta pMsg);;
  ln_misc_push64be (CnlUpdate.htlc_minimum_msat pMsg);;
  ln_misc_push32be (CnlUpdate.fee_base_msat pMsg);;
  ln_misc_push32be (CnlUpdate.fee_prop_millionths pMsg);;
  proto ← get_st;
  c_assert (2 + 128 =? len (data proto));;
  hash ← hash_from (data proto) (2 + LN_SZ_SIGNATURE);
  sig ← ln_node_sign_nodekey hash;
  pBuf ← put_at (data proto) 2 sig;
  put_st (mk_push (pos proto) pBuf);;
  call utl_push_trim;;
  mret true.

Definition ln_msg_cnl_update_verify {S} (pPubkey pData : bytes) (Len : Z) : prog S bool :=
  hash ← hash_packet pData Len (2 + LN_SZ_SIGNATURE);
  s ← rd_bytes pData 2 LN_SZ_SIGNATURE;
  lift (btc_tx_verify_rs s hash pPubkey).
End code.
End LnMsgGossip.
