(* ===== verification/LnGossipCodec.v ===== *)
(** What the signed gossip messages promise: their layouts, that the signature a node puts
    on its message is accepted by the others, and what malformed ones do. *)
From stdpp Require Import base list numbers tactics sorting.
From Stdlib Require Import ZArith Lia.
From S2P Require Import Prelude CProg UtlInt UtlBuf UtlPush LnDerkey LnMisc LnMsg LnMsgAnno LnSig LnSelf BtcTx BtcTxWire.
From S2P Require Import BtcSw BtcDigest BtcBuild LnSignTx LnMsgGossip.
Import UtlBuf UtlPush Derkey LnMisc LnMsg LnMsgAnno LnSig BtcTx BtcTxWire BtcSw BtcDigest BtcBuild LnSignTx LnMsgGossip.
Open Scope Z_scope.

Module LnGossipCodec.

Section codec.
Context {A : Alloc} {T : AllocTotal A} {H : BtcHash} {HL : BtcHashLaws H} {E : Ecdsa} {EL : EcdsaLaws E}.

(** ** Buffers with a part that is not written yet *)

Lemma pstep_bytes {B} src k w n (K : unit → prog utl_push_t B) :
  k = zlen src → zlen w + k ≤ n → n < 2 ^ 31 →
  (push_bytes src k ≫= K) (pushed w n) = K tt (pushed (w ++ init_cells src) n).
Proof.
  intros -> Hn Hb. apply bind_ret. unfold push_bytes. erewrite bind_ret; [reflexivity|].
  apply push_data_within; rewrite ?length_init_cells; lia.
Qed.

Lemma pstep_skip {B} k w n (K : unit → prog utl_push_t B) : 0 ≤ k → zlen w + k ≤ n → n < 2 ^ 31 →
  (push_skip k ≫= K) (pushed w n) = K tt (pushed (w ++ junk k) n).
Proof.
  intros Hk Hn Hb. apply bind_ret. unfold push_skip, modify, pushed, set_pos. cbn [pos data].
  rewrite length_app, length_junk, wrap_small by (unfold in_range; lia). do 3 f_equal; [lia|].
  rewrite <- app_assoc. do 2 f_equal. unfold junk. rewrite <- replicate_add. do 2 f_equal. f_equal. lia.
Qed.

(** Two bytes, a place for a signature, and [d]. *)
Definition unsigned (t : Z) (d : bytes) (n : Z) : utl_push_t := pushed (init_cells (be_bytes 2 t) ++ junk 64 ++ init_cells d) n.

Lemma ustep_bytes {B} t src k d n (K : unit → prog utl_push_t B) :
  k = zlen src → 66 + zlen d + k ≤ n → n < 2 ^ 31 →
  (push_bytes src k ≫= K) (unsigned t d n) = K tt (unsigned t (d ++ src) n).
Proof.
  intros Hk Hn Hb. unfold unsigned. rewrite pstep_bytes; [|done| |done].
  - by rewrite <- !app_assoc, init_cells_app.
  - rewrite !length_app, length_junk, !length_init_cells, length_be_bytes. lia.
Qed.

Lemma ustep_start {B} t n (K : prog utl_push_t B) st : 66 ≤ n < 2 ^ 31 →
  (call (utl_push_init n);; ln_misc_push16be t;; push_skip LN_SZ_SIGNATURE;; K) st = K (unsigned t [] n).
Proof.
  intros Hn. rewrite push_step_init by lia. unfold pushedb. rewrite push16be_eq, pstep_bytes by (cbn [length]; rewrite ?length_be_bytes; cbn; lia).
  rewrite pstep_skip by (rewrite ?length_app, ?length_init_cells, ?length_be_bytes; cbn; lia).
  unfold unsigned. by rewrite app_nil_r.
Qed.

(** Reading and writing inside a buffer. *)
Lemma get_mid {S} c1 b c2 n (s : S) : get_from (mk_buf (Some (c1 ++ init_cells b ++ c2)) n) (zlen c1) (zlen b) s = Ret b s.
Proof.
  unfold get_from. cbn [buf fmap option_fmap option_map]. rewrite Nat2Z.id, drop_app_length.
  unfold read_cells. destruct (Z.eqb_spec (zlen b) 0) as [E0|E0]; [destruct b; [done|cbn in E0; lia]|].
  cbn [mbind option_bind]. rewrite bool_decide_eq_true_2 by (rewrite length_app, length_init_cells; lia).
  rewrite Nat2Z.id, take_app_length' by (by rewrite length_init_cells). pose proof (read_of_bytes b) as Hr.
  unfold read_cells in Hr. rewrite (proj2 (Z.eqb_neq _ _)) in Hr by lia. cbn [mbind option_bind] in Hr.
  rewrite bool_decide_eq_true_2 in Hr by (rewrite length_init_cells; lia).
  rewrite Nat2Z.id, take_ge in Hr by (by rewrite length_init_cells). by rewrite Hr.
Qed.

Lemma hash_mid {S} c1 b n (s : S) : n = zlen c1 + zlen b → zlen b < 2 ^ 16 →
  hash_from (mk_buf (Some (c1 ++ init_cells b)) n) (zlen c1) s = Ret (sha256d b) s.
Proof.
  intros -> Hb. unfold hash_from. cbn [len]. replace (zlen c1 + zlen b - zlen c1) with (zlen b) by lia.
  rewrite wrap_small by (unfold in_range; lia).
  erewrite bind_ret by (rewrite <- (app_nil_r (init_cells b)); apply get_mid).
  apply lift_ret. unfold btc_util_hash256. erewrite bind_ret by (apply sha256_all; lia).
  pose proof (sha256_all (mbedtls_sha256 b) tt) as Hs. rewrite sha256_len in Hs. by apply Hs.
Qed.

Lemma put_mid {S} c1 c2 d c3 n (s : S) : length c2 = length d → 0 < zlen d →
  put_at (mk_buf (Some (c1 ++ c2 ++ c3)) n) (zlen c1) d s = Ret (mk_buf (Some (c1 ++ init_cells d ++ c3)) n) s.
Proof.
  intros Hl Hd. unfold put_at, write_cells. cbn [buf len]. rewrite (proj2 (Z.eqb_neq _ _)) by lia.
  rewrite bool_decide_eq_true_2 by (rewrite !length_app, length_init_cells; lia).
  cbn [of_option]. erewrite bind_ret by done. unfold mret, prog_ret. do 3 f_equal.
  rewrite !Nat2Z.id, take_app_length, (take_ge (init_cells d)) by (by rewrite length_init_cells).
  do 2 f_equal. rewrite app_assoc. apply drop_app_length'. rewrite length_app. lia.
Qed.

(** A message with the signature of a key over all that follows it. *)
Definition signed_msg (t : Z) (priv d : bytes) : bytes := be_bytes 2 t ++ rs_of priv (sha256d d) ++ d.

Lemma sign_rs_made k h : good_key k → btc_tx_sign_rs h k tt = Ret (rs_of k h) tt ∧ length (rs_of k h) = 64%nat ∧ is_bytes (rs_of k h).
Proof.
  intros [Hl Hd]. destruct (sign_rs_spec k h Hl Hd) as (r & s & Ers & Hr & Hs & _). pose proof order_pos as [_ Ho].
  unfold btc_tx_sign_rs, rs_of. rewrite Ers. erewrite bind_ret by exact Ers. cbn [fst snd].
  rewrite !(proj2 (Z.ltb_lt _ _)) by lia. split; [done|]. rewrite length_app, !length_be_bytes. split; [done|].
  apply Forall_app_2; apply be_bytes_is_bytes.
Qed.

Lemma verify_rs_made k h : good_key k → btc_tx_verify_rs (rs_of k h) h (pub_of k) tt = Ret true tt.
Proof.
  intros [Hl Hd]. destruct (sign_rs_spec k h Hl Hd) as (r & s & Ers & Hr & Hs & _ & Hv). pose proof order_pos as [_ Ho].
  destruct (pub_read _ Hd) as [Hp Hread]. unfold rs_of. rewrite Ers.
  apply (verify_rs_ok r s (smul (be_val k) gen)); lia || done.
Qed.

Lemma sign_unsigned {S} (node : node_conf) t d n (K : utl_buf_t → prog S bool) (s : S) : good_key (mNode_priv node) → zlen d < 2 ^ 16 →
  n = 66 + zlen d → 
  (hash ← hash_from (data (unsigned t d n)) (2 + LN_SZ_SIGNATURE);
   sig ← ln_node_sign_nodekey node hash;
   pBuf ← put_at (data (unsigned t d n)) 2 sig; K pBuf) s = K (of_bytes (signed_msg t (mNode_priv node) d)) s.
Proof.
  intros Hk Hd ->. destruct (sign_rs_made (mNode_priv node) (sha256d d) Hk) as (Hs & Hl & _).
  unfold unsigned, pushed. cbn [data].
  assert (junk (66 + zlen d - zlen (init_cells (be_bytes 2 t) ++ junk 64 ++ init_cells d)) = []) as ->.
  { rewrite !length_app, length_junk, !length_init_cells, length_be_bytes. unfold junk.
    replace (Z.to_nat _) with 0%nat by lia. done. }
  rewrite app_nil_r.
  erewrite bind_ret.
  2:{ rewrite app_assoc. replace (2 + LN_SZ_SIGNATURE) with (zlen (init_cells (be_bytes 2 t) ++ junk 64))
        by (rewrite length_app, length_init_cells, length_junk, length_be_bytes; done).
      apply hash_mid; [|done]. rewrite length_app, length_init_cells, length_junk, length_be_bytes. done. }
  erewrite bind_ret by (apply lift_ret; exact Hs).
  erewrite bind_ret.
  2:{ change 2 with (zlen (init_cells (be_bytes 2 t))) at 1.
      apply put_mid; [by rewrite length_junk, Hl|lia]. }
  unfold signed_msg, of_bytes. rewrite <- !init_cells_app, !length_app, length_be_bytes, Hl.
  do 2 f_equal. lia.
Qed.

(** ** channel_update *)

(** A node with a key of its own, on a chain. *)
Record good_node (node : node_conf) : Prop := {
  node_key : good_key (mNode_priv node);
  node_pub : mNode_pub node = pub_of (mNode_priv node) ∧ is_bytes (mNode_pub node);
  node_chain : is_bytes (gGenesisChainHash node) ∧ length (gGenesisChainHash node) = 32%nat;
}.

Definition update_body (chain : bytes) (m : CnlUpdate.t) : bytes :=
  chain ++ be_bytes 8 (CnlUpdate.short_channel_id m) ++ be_bytes 4 (CnlUpdate.timestamp m) ++ be_bytes 2 (CnlUpdate.flags m) ++
  be_bytes 2 (CnlUpdate.cltv_expiry_delta m) ++ be_bytes 8 (CnlUpdate.htlc_minimum_msat m) ++
  be_bytes 4 (CnlUpdate.fee_base_msat m) ++ be_bytes 4 (CnlUpdate.fee_prop_millionths m).

Definition update_wf (m : CnlUpdate.t) : Prop :=
  in_range 64 (CnlUpdate.short_channel_id m) ∧ CnlUpdate.short_channel_id m ≠ 0 ∧ in_range 32 (CnlUpdate.timestamp m) ∧
  in_range 16 (CnlUpdate.flags m) ∧ in_range 16 (CnlUpdate.cltv_expiry_delta m) ∧ in_range 64 (CnlUpdate.htlc_minimum_msat m) ∧
  in_range 32 (CnlUpdate.fee_base_msat m) ∧ in_range 32 (CnlUpdate.fee_prop_millionths m).

Definition update_msg (node : node_conf) (m : CnlUpdate.t) : bytes :=
  signed_msg MSGTYPE_CHANNEL_UPDATE (mNode_priv node) (update_body (gGenesisChainHash node) m).

Lemma ustep_16 {B} t v d n (K : unit → prog utl_push_t B) : 66 + zlen d + 2 ≤ n → n < 2 ^ 31 →
  (ln_misc_push16be v ≫= K) (unsigned t d n) = K tt (unsigned t (d ++ be_bytes 2 v) n).
Proof. intros. rewrite push16be_eq. by apply ustep_bytes. Qed.
Lemma ustep_32 {B} t v d n (K : unit → prog utl_push_t B) : 66 + zlen d + 4 ≤ n → n < 2 ^ 31 →
  (ln_misc_push32be v ≫= K) (unsigned t d n) = K tt (unsigned t (d ++ be_bytes 4 v) n).
Proof. intros. rewrite push32be_eq. by apply ustep_bytes. Qed.
Lemma ustep_64 {B} t v d n (K : unit → prog utl_push_t B) : 66 + zlen d + 8 ≤ n → n < 2 ^ 31 →
  (ln_misc_push64be v ≫= K) (unsigned t d n) = K tt (unsigned t (d ++ be_bytes 8 v) n).
Proof. intros. rewrite push64be_eq. by apply ustep_bytes. Qed.

Lemma unsigned_pos t d n : pos (unsigned t d n) = 66 + zlen d.
Proof. unfold unsigned, pushed. cbn [pos]. rewrite !length_app, length_junk, !length_init_cells, length_be_bytes. lia. Qed.

Lemma signed_len t k d : good_key k → zlen (signed_msg t k d) = 66 + zlen d.
Proof. intros Hk. destruct (sign_rs_made k (sha256d d) Hk) as (_ & Hl & _). unfold signed_msg. rewrite !length_app, Hl, length_be_bytes. lia. Qed.

Ltac ulen := rewrite ?length_app, ?length_take, ?length_be_bytes in *; cbn [length] in *; lia.

Lemma cnl_update_created node m st : good_node node →
  call (ln_msg_cnl_update_create node m) st = Ret true (mk_push 130 (of_bytes (update_msg node m))).
Proof.
  intros [Hk _ [_ Hc]]. apply call_ret. unfold ln_msg_cnl_update_create. rewrite ustep_start by lia.
  rewrite ustep_bytes by ulen. rewrite ustep_64, ustep_32, ustep_16, ustep_16, ustep_64, ustep_32, ustep_32 by ulen.
  rewrite app_nil_l, <- !app_assoc. fold (update_body (gGenesisChainHash node) m). set (d := update_body _ m).
  assert (zlen d = 64) as Hd by (unfold d, update_body; ulen).
  rewrite bind_get_st. change (len (data (unsigned MSGTYPE_CHANNEL_UPDATE d (2 + 128)))) with (2 + 128). erewrite (bind_ret tt) by reflexivity.
  rewrite (sign_unsigned node _ d _ _ _ Hk) by lia. fold (update_msg node m).
  erewrite bind_ret by reflexivity. rewrite unsigned_pos, Hd.
  unfold call. erewrite bind_ret; [reflexivity|]. unfold utl_push_trim, run. rewrite bind_get_st. cbn [data pos of_bytes len].
  pose proof (signed_len MSGTYPE_CHANNEL_UPDATE (mNode_priv node) d Hk) as Hl. rewrite Hd in Hl. unfold update_msg. fold d. rewrite Hl.
  reflexivity.
Qed.

(** What the others see of a signed message. *)
Lemma signed_hash {S} t k d rest (s : S) : good_key k → zlen d < 2 ^ 16 - 66 →
  hash_packet (signed_msg t k d ++ rest) (66 + zlen d) (2 + LN_SZ_SIGNATURE) s = Ret (sha256d d) s.
Proof.
  intros Hk Hd. destruct (sign_rs_made k (sha256d d) Hk) as (_ & Hl & _). unfold hash_packet. apply lift_ret.
  assert (drop (Z.to_nat (2 + LN_SZ_SIGNATURE)) (signed_msg t k d ++ rest) = d ++ rest) as ->.
  { unfold signed_msg. rewrite <- !app_assoc, app_assoc. apply drop_app_length'. rewrite length_app, length_be_bytes, Hl. done. }
  replace (66 + zlen d - (2 + LN_SZ_SIGNATURE)) with (zlen d) by lia.
  rewrite wrap_small by (unfold in_range; lia). unfold btc_util_hash256.
  erewrite bind_ret by (apply sha256_step; rewrite wrap_small by (unfold in_range; lia); rewrite length_app; lia).
  rewrite wrap_small, Nat2Z.id, take_app_length by (unfold in_range; lia).
  pose proof (sha256_all (mbedtls_sha256 d) tt) as Hs. rewrite sha256_len in Hs. by apply Hs.
Qed.

Lemma signed_sig {S} t k d rest (s : S) : good_key k →
  rd_bytes (signed_msg t k d ++ rest) 2 LN_SZ_SIGNATURE s = Ret (rs_of k (sha256d d)) s.
Proof.
  intros Hk. destruct (sign_rs_made k (sha256d d) Hk) as (_ & Hl & _).
  rewrite rd_bytes_sl by (unfold signed_msg; rewrite ?length_app, ?length_be_bytes, ?Hl; lia). f_equal.
  unfold signed_msg, sl. rewrite <- !app_assoc, drop_app_length' by (by rewrite length_be_bytes).
  apply take_app_length'. by rewrite Hl.
Qed.

Lemma signed_bytes t k d : good_key k → is_bytes d → is_bytes (signed_msg t k d).
Proof.
  intros Hk Hd. destruct (sign_rs_made k (sha256d d) Hk) as (_ & _ & Hb).
  unfold signed_msg. repeat apply Forall_app_2; [apply be_bytes_is_bytes|done|done].
Qed.

(** A channel_update that a node makes is read by the others with the same fields
    (htlc_maximum_msat, which is not sent, as 0), and the check with the node's key accepts it. *)
Theorem channel_update_roundtrip node m m0 st : good_node node → update_wf m →
  let d := update_msg node m in
  call (ln_msg_cnl_update_create node m) st = Ret true (mk_push (zlen d) (of_bytes d)) ∧
  read_packet (CnlUpdate.ln_msg_cnl_update_read (gGenesisChainHash node)) d m0 = Ret true (CnlUpdate.set_htlc_maximum_msat 0 m) ∧
  ln_msg_cnl_update_verify (mNode_pub node) d (zlen d) tt = Ret true tt.
Proof.
  intros Hn (H1 & H2 & H3 & H4 & H5 & H6 & H7 & H8) d. assert (Hn' := Hn). destruct Hn as [Hk [Hp _] [Hcb Hc]].
  set (body := update_body (gGenesisChainHash node) m). assert (zlen body = 64) as Hb by (unfold body, update_body; ulen).
  pose proof (signed_len MSGTYPE_CHANNEL_UPDATE (mNode_priv node) body Hk) as Hl. rewrite Hb in Hl.
  destruct (sign_rs_made (mNode_priv node) (sha256d body) Hk) as (_ & Hrl & Hrb).
  split; [|split].
  - rewrite cnl_update_created by done. unfold d, update_msg. fold body. by rewrite Hl.
  - assert (packet d) as Hpk.
    { split; [|unfold d, update_msg; fold body; rewrite Hl; done]. apply signed_bytes; [done|]. unfold body, update_body.
      repeat apply Forall_app_2; try done; apply be_bytes_is_bytes. }
    assert (CnlUpdate.dec m0 d = CnlUpdate.set_htlc_maximum_msat 0 m) as <-; [|apply (reads_as_true _ _ _ (CnlUpdate.cnl_update_reads _)); [done|]].
    + unfold CnlUpdate.dec. rewrite (proj2 (Z.leb_gt 138 _)) by (unfold d, update_msg; fold body; rewrite Hl; done).
      unfold d, update_msg, signed_msg. fold body. set (rs := rs_of _ _) in *. unfold body, update_body.
      repeat sl_step. by destruct m.
    + unfold CnlUpdate.ok. rewrite !andb_true_iff, Z.leb_le, Z.eqb_eq, negb_true_iff, Z.eqb_neq, bool_decide_eq_true.
      unfold d, update_msg. fold body. rewrite Hl. unfold signed_msg. set (rs := rs_of _ _) in *. unfold body, update_body.
      repeat sl_step. done.
  - unfold ln_msg_cnl_update_verify, d, update_msg. fold body. rewrite Hl.
    rewrite <- (app_nil_r (signed_msg _ _ _)). replace (66 + 64) with (66 + zlen body) by lia.
    erewrite bind_ret by (apply signed_hash; [done|lia]). erewrite bind_ret by (by apply signed_sig).
    rewrite Hp. apply lift_ret. by apply verify_rs_made.
Qed.

(** ** node_announcement *)

Lemma addr_tables ty : 1 ≤ ty ≤ 4 → ∃ n, M_ADDRLEN !! Z.to_nat ty = Some n ∧ M_ADDRLEN2 !! Z.to_nat ty = Some (n + 2) ∧ 4 ≤ n ≤ 35.
Proof.
  intros Ht. assert (ty = 1 ∨ ty = 2 ∨ ty = 3 ∨ ty = 4) as [-> | [-> | [-> | ->]]] by lia; eexists; (split; [reflexivity|split; [reflexivity|lia]]).
Qed.

Lemma tbl_step {S B} t ty n (K : Z → prog S B) s : 0 ≤ ty → t !! Z.to_nat ty = Some n → (tbl_at t ty ≫= K) s = K n s.
Proof. intros Ht Hn. apply bind_ret. unfold tbl_at. rewrite (proj2 (Z.leb_le _ _)) by done. by rewrite Hn. Qed.

Definition addr_size (ty : Z) : Z := default 0 (M_ADDRLEN !! Z.to_nat ty).

Definition addr_part (a : ln_nodeaddr_t) : bytes :=
  if addr_type a =? 0 then be_bytes 2 0
  else be_bytes 2 (addr_size (addr_type a) + 3) ++ be_bytes 1 (addr_type a) ++ take (Z.to_nat (addr_size (addr_type a))) (addr a) ++
       be_bytes 2 (port a).

Definition anno_body (id : bytes) (alias : bytes) (m : ln_node_announce_t) : bytes :=
  be_bytes 2 0 ++ be_bytes 4 (na_timestamp m) ++ id ++ rgbcolor m ++ take 32 alias ++ addr_part (na_addr m).

Definition anno_wf (node : node_conf) (alias : bytes) (m : ln_node_announce_t) : Prop :=
  p_node_id m = Some (mNode_pub node) ∧ p_alias m = Some alias ∧ is_bytes alias ∧ length alias = 33%nat ∧
  in_range 32 (na_timestamp m) ∧ is_bytes (rgbcolor m) ∧ length (rgbcolor m) = 3%nat ∧
  0 ≤ addr_type (na_addr m) ≤ LN_NODEDESC_MAX ∧ is_bytes (addr (na_addr m)) ∧ length (addr (na_addr m)) = 35%nat ∧
  in_range 16 (port (na_addr m)).

Definition anno_msg (node : node_conf) (alias : bytes) (m : ln_node_announce_t) : bytes :=
  signed_msg MSGTYPE_NODE_ANNOUNCEMENT (mNode_priv node) (anno_body (mNode_pub node) alias m).

Lemma ustep_prefix {B} t src k d n (K : unit → prog utl_push_t B) :
  0 ≤ k ≤ zlen src → 66 + zlen d + k ≤ n → n < 2 ^ 31 →
  (push_bytes src k ≫= K) (unsigned t d n) = K tt (unsigned t (d ++ take (Z.to_nat k) src) n).
Proof.
  intros Hk Hn Hb. rewrite <- (ustep_bytes t (take (Z.to_nat k) src) k) by (rewrite ?length_take; lia).
  unfold mbind, prog_bind. assert (push_bytes src k (unsigned t d n) = push_bytes (take (Z.to_nat k) src) k (unsigned t d n)) as ->; [|done].
  unfold push_bytes, mbind, prog_bind, call, run.
  rewrite <- (take_drop (Z.to_nat k) src) at 1. rewrite init_cells_app, push_data_prefix; [done|rewrite length_init_cells, length_take; lia|lia].
Qed.

Lemma ustep_8 {B} t v d n (K : unit → prog utl_push_t B) : 66 + zlen d + 1 ≤ n → n < 2 ^ 31 →
  (ln_misc_push8 v ≫= K) (unsigned t d n) = K tt (unsigned t (d ++ be_bytes 1 v) n).
Proof. intros. unfold ln_misc_push8. by apply ustep_bytes. Qed.

(** Trimmed and signed. *)
Lemma trimmed_signed (node : node_conf) t d n : good_key (mNode_priv node) → zlen d < 2 ^ 16 - 66 → 66 + zlen d ≤ n →
  (call utl_push_trim;;
   proto ← get_st;
   hash ← hash_from (data proto) (2 + LN_SZ_SIGNATURE);
   sig ← ln_node_sign_nodekey node hash;
   pBuf ← put_at (data proto) 2 sig;
   put_st (mk_push (pos proto) pBuf);;
   mret true) (unsigned t d n) =
  Ret true (mk_push (66 + zlen d) (of_bytes (signed_msg t (mNode_priv node) d))).
Proof.
  intros Hk Hd Hn. assert (call utl_push_trim (unsigned t d n) = Ret true (unsigned t d (66 + zlen d))) as Et.
  { unfold unsigned, call. assert (zlen (init_cells (be_bytes 2 t) ++ junk 64 ++ init_cells d) = 66 + zlen d) as El
      by (rewrite !length_app, length_junk, !length_init_cells, length_be_bytes; lia).
    rewrite push_trim_spec by lia. rewrite El. rewrite (bool_decide_eq_false_2 (_ = [])) by done. rewrite andb_false_r.
    unfold pushed. rewrite El, Z.sub_diag. by rewrite app_nil_r. }
  erewrite bind_ret by exact Et. rewrite bind_get_st, (sign_unsigned node t d _ _ _ Hk) by lia. by rewrite unsigned_pos.
Qed.

Lemma node_announce_created node alias m st : good_node node → anno_wf node alias m → 
  let d := anno_msg node alias m in
  call (ln_msg_node_announce_create node m) st = Ret true (mk_push (zlen d) (of_bytes d)).
Proof.
  intros [Hk [Hp _] _] (Hid & Hal & Hab & Hall & Hts & Hrb & Hrl & Hty & Haddr & Hal2 & Hpt). cbn zeta.
  assert (length (mNode_pub node) = 33%nat) as Hpl by (rewrite Hp; destruct Hk as [_ Hk]; by apply pub_read).
  unfold anno_msg. rewrite signed_len by done. apply call_ret. unfold ln_msg_node_announce_create. rewrite Hid, Hal.
  destruct (Z.eqb_spec (addr_type (na_addr m)) 0) as [E0|E0].
  - rewrite (tbl_step _ _ 0) by (rewrite ?E0; done || lia). rewrite ustep_start by lia.
    rewrite ustep_16, ustep_32 by ulen. cbn [default id]. rewrite ustep_bytes, ustep_bytes, ustep_prefix by ulen.
    cbv iota. rewrite ustep_16 by (ulen).
    rewrite bind_get_st. erewrite (bind_ret tt) by reflexivity.
    rewrite trimmed_signed; [|done|ulen|ulen].
    unfold anno_body, addr_part. rewrite E0. cbn [Z.eqb]. rewrite app_nil_l, <- !app_assoc. reflexivity.
  - destruct (addr_tables (addr_type (na_addr m))) as (n & T1 & T2 & Hn); [lia|].
    rewrite (tbl_step _ _ (n + 2)) by (done || lia). rewrite ustep_start by lia.
    rewrite ustep_16, ustep_32 by ulen. cbn [default id]. rewrite ustep_bytes, ustep_bytes, ustep_prefix by ulen.
    rewrite !(proj2 (Z.leb_le _ _)) by lia. cbn [andb].
    rewrite bind_assoc. rewrite (tbl_step _ _ n) by (done || lia).
    rewrite bind_assoc, ustep_16 by (ulen).
    rewrite bind_assoc, ustep_8 by (ulen).
    rewrite bind_assoc, ustep_prefix by (ulen).
    rewrite ustep_16 by (ulen).
    rewrite bind_get_st. erewrite (bind_ret tt) by (unfold c_assert; rewrite (proj2 (Z.eqb_eq _ _)) by reflexivity; reflexivity).
    rewrite trimmed_signed; [|done|ulen|ulen].
    unfold anno_body, addr_part, addr_size. rewrite (proj2 (Z.eqb_neq _ _)) by done. rewrite T1. cbn [default].
    replace (1 + (n + 2)) with (n + 3) by lia. rewrite app_nil_l, <- !app_assoc. reflexivity.
Qed.

(** The address as it is read: the rest of the buffer stays. *)
Definition addr_read (a0 a : ln_nodeaddr_t) : ln_nodeaddr_t :=
  if addr_type a =? 0 then mk_addr 0 (port a0) (addr a0)
  else let n := Z.to_nat (addr_size (addr_type a)) in
    mk_addr (addr_type a) (port a) (take n (addr a) ++ drop n (addr a0)).

Lemma address_read d pre a m : d = pre ++ be_bytes 1 (addr_type a) ++ take (Z.to_nat (addr_size (addr_type a))) (addr a) ++ be_bytes 2 (port a) →
  is_bytes d → 1 ≤ addr_type a ≤ LN_NODEDESC_MAX → length (addr a) = 35%nat → in_range 16 (port a) →
  read_address d (zlen pre) (addr_size (addr_type a) + 3) m =
  Ret (addr_size (addr_type a) + 2, zlen pre + 1) (set_na_addr (addr_read (na_addr m) a) m).
Proof.
  intros Hd Hb Ht Hl Hp. destruct (addr_tables (addr_type a) Ht) as (n & T1 & T2 & Hn).
  assert (addr_size (addr_type a) = n) as En by (unfold addr_size; by rewrite T1). rewrite En in *.
  assert (length (take (Z.to_nat n) (addr a)) = Z.to_nat n) as Htk by (rewrite length_take; lia).
  assert (zlen d = zlen pre + n + 3) as Hdl by (rewrite Hd, !length_app, !length_be_bytes, Htk; lia).
  unfold read_address. rewrite rd_byte_step by lia.
  assert (be_val (sl d (zlen pre) 1) = addr_type a) as ->.
  { rewrite Hd. repeat sl_step. apply (be_val_be_bytes_small 8 1); [unfold in_range; lia|done]. }
  rewrite bind_modify. rewrite exit_no by (apply Z.ltb_ge; lia). rewrite (tbl_step _ _ (n + 2)) by (done || lia).
  rewrite exit_no by (apply Z.ltb_ge; lia). rewrite (proj2 (Z.eqb_neq (addr_type a) _)) by lia. cbn [negb].
  rewrite bind_assoc, (tbl_step _ _ n) by (done || lia). rewrite bind_assoc, rd_step by lia.
  assert (sl d (zlen pre + 1) n = take (Z.to_nat n) (addr a)) as ->.
  { rewrite Hd. rewrite app_assoc. rewrite sl_app_r by (rewrite length_app, length_be_bytes; lia).
    by rewrite sl_head by (rewrite ?length_app, ?length_be_bytes; lia). }
  rewrite bind_assoc, bind_modify, bind_assoc, get16_step by (done || lia). rewrite bind_modify.
  assert (be_val (sl d (zlen pre + 1 + n) 2) = port a) as ->.
  { rewrite Hd. rewrite !app_assoc. rewrite sl_app_r by (rewrite !length_app, length_be_bytes; lia).
    rewrite sl_all by (rewrite ?length_app, ?length_be_bytes; lia). by apply (be_val_be_bytes_small 16 2). }
  rewrite Htk. unfold addr_read. rewrite (proj2 (Z.eqb_neq (addr_type a) _)) by lia. rewrite En.
  unfold mret, prog_ret. replace (n + 3 - 1) with (n + 2) by lia. by destruct m.
Qed.

Lemma addr_part_len a : 0 ≤ addr_type a ≤ LN_NODEDESC_MAX → length (addr a) = 35%nat →
  zlen (addr_part a) ≤ 40 ∧ 2 ≤ zlen (addr_part a).
Proof.
  intros Ht Hl. unfold addr_part. destruct (Z.eqb_spec (addr_type a) 0); [rewrite length_be_bytes; lia|].
  rewrite !length_app, !length_be_bytes, length_take. lia.
Qed.

(** The address as it is announced, read: the position after it is the end. *)
Lemma addr_announced d pre a : d = pre ++ addr_part a → zlen pre = 140 → is_bytes d →
  0 ≤ addr_type a ≤ LN_NODEDESC_MAX → length (addr a) = 35%nat → in_range 16 (port a) →
  ∃ n q, q + n = zlen d ∧ ∀ m,
    (if 0 <? be_val (sl d 140 2) then read_address d 142 (be_val (sl d 140 2))
     else modify (λ m, set_na_addr (mk_addr LN_NODEDESC_NONE (port (na_addr m)) (addr (na_addr m))) m);; mret (be_val (sl d 140 2), 142)) m =
    Ret (n, q) (set_na_addr (addr_read (na_addr m) a) m).
Proof.
  intros Ed Hpre Hb Ht Hl Hp. unfold addr_part in Ed. destruct (Z.eqb_spec (addr_type a) 0) as [E0|E0].
  - assert (sl d 140 2 = be_bytes 2 0) as -> by (rewrite Ed, sl_app_r by lia; apply sl_all; [lia|by rewrite length_be_bytes]).
    exists 0, 142. split; [rewrite Ed, length_app, length_be_bytes; lia|]. intros m.
    change (be_val (be_bytes 2 0)) with 0. rewrite (proj2 (Z.ltb_ge 0 0)) by done. rewrite bind_modify. unfold addr_read. by rewrite E0.
  - destruct (addr_tables (addr_type a)) as (n & T1 & T2 & Hn); [lia|].
    assert (addr_size (addr_type a) = n) as En by (unfold addr_size; by rewrite T1).
    assert (sl d 140 2 = be_bytes 2 (n + 3)) as ->.
    { rewrite Ed, sl_app_r by lia. rewrite Hpre, Z.sub_diag, En. by rewrite sl_head by (rewrite ?length_be_bytes; done || lia). }
    rewrite (be_val_be_bytes_small 16 2) by (unfold in_range; done || lia). rewrite (proj2 (Z.ltb_lt _ _)) by lia.
    exists (n + 2), (142 + 1). split; [rewrite Ed, !length_app, !length_be_bytes, length_take, En; lia|]. intros m.
    rewrite app_assoc in Ed. pose proof (address_read d _ a m Ed Hb) as Hr.
    rewrite En, length_app, length_be_bytes in Hr. replace (Z.of_nat (length pre + 2)) with 142 in Hr by lia.
    apply Hr; done || lia.
Qed.

Lemma anno_head node alias m : good_key (mNode_priv node) → anno_wf node alias m → length (mNode_pub node) = 33%nat →
  let d := anno_msg node alias m in let sg := rs_of (mNode_priv node) (sha256d (anno_body (mNode_pub node) alias m)) in
  let pre := be_bytes 2 MSGTYPE_NODE_ANNOUNCEMENT ++ sg ++ be_bytes 2 0 ++ be_bytes 4 (na_timestamp m) ++ mNode_pub node ++
    rgbcolor m ++ take 32 alias in
  d = pre ++ addr_part (na_addr m) ∧ zlen pre = 140 ∧ length sg = 64%nat.
Proof.
  intros Hk (Hid & Hal & Hab & Hall & Hts & Hrb & Hrl & _) Hpl d sg pre.
  destruct (sign_rs_made (mNode_priv node) (sha256d (anno_body (mNode_pub node) alias m)) Hk) as (_ & Hl & _). fold sg in Hl.
  split; [|split; [|exact Hl]].
  - unfold d, anno_msg, signed_msg, pre. fold sg. unfold anno_body. by rewrite <- !app_assoc.
  - unfold pre. rewrite !length_app, !length_be_bytes, length_take, Hl, Hpl, Hrl, Hall. done.
Qed.

Lemma anno_fields node alias m : good_key (mNode_priv node) → anno_wf node alias m → length (mNode_pub node) = 33%nat →
  let d := anno_msg node alias m in
  be_val (sl d 0 2) = MSGTYPE_NODE_ANNOUNCEMENT ∧ be_val (sl d 66 2) = 0 ∧ be_val (sl d 68 4) = na_timestamp m ∧
  sl d 72 33 = mNode_pub node ∧ sl d 105 3 = rgbcolor m ∧ sl d 108 32 = take 32 alias.
Proof.
  intros Hk Hw Hpl d. destruct (anno_head node alias m Hk Hw Hpl) as (Ed & Hpre & Hl). fold d in Ed. cbn zeta in *.
  destruct Hw as (Hid & Hal & Hab & Hall & Hts & Hrb & Hrl & _).
  set (sg := rs_of _ _) in *. rewrite <- !app_assoc in Ed. assert (length (take 32 alias) = 32%nat) as Ht by (rewrite length_take; lia).
  assert (length (addr_part (na_addr m)) + 140 = length d)%nat as Hd.
  { rewrite Ed, !length_app, !length_be_bytes, Hl, Hpl, Hrl, Ht. lia. }
  rewrite Ed. split_and!; repeat sl_step; done.
Qed.

(** The checks at the end of a node_announcement. *)
Lemma anno_checked k t body (m : ln_node_announce_t) : good_key k → zlen body < 2 ^ 16 - 66 → p_node_id m = Some (pub_of k) →
  let d := signed_msg t k body in let n := 66 + zlen body in
  (c_assert (n <=? n);;
   m ← get_st;
   match p_node_id m with
   | Some id =>
       hash ← hash_packet d n 66;
       s ← rd_bytes d 2 LN_SZ_SIGNATURE;
       lift (btc_tx_verify_rs s hash id)
   | None => mret true
   end) m = Ret true m.
Proof.
  intros Hk Hb Hid d n. rewrite bind_assert by (apply Z.leb_refl).
  rewrite bind_get_st, Hid. unfold d. rewrite <- (app_nil_r (signed_msg t k body)).
  erewrite bind_ret by (by apply (signed_hash t k body)). erewrite bind_ret by (by apply signed_sig).
  apply lift_ret. by apply verify_rs_made.
Qed.

(** A node_announcement that a node makes is read by the others with the same fields, whatever
    the kind of its address, and its signature checks: of the alias the first 32 bytes, of
    the address as many as its kind has. *)
Theorem node_announce_roundtrip node alias m m0 st : good_node node → anno_wf node alias m →
  is_Some (p_node_id m0) → is_Some (p_alias m0) →
  let d := anno_msg node alias m in
  call (ln_msg_node_announce_create node m) st = Ret true (mk_push (zlen d) (of_bytes d)) ∧
  read_packet ln_msg_node_announce_read d m0 =
  Ret true (mk_anno (na_timestamp m) (Some (mNode_pub node)) (Some (take 32 alias ++ [0])) (rgbcolor m)
    (addr_read (na_addr m0) (na_addr m))).
Proof.
  intros Hn Hw Hi0 Ha0 d. split; [by apply node_announce_created|]. destruct Hn as [Hk [Hp Hpb] _].
  assert (length (mNode_pub node) = 33%nat) as Hpl by (rewrite Hp; destruct Hk as [_ Hk']; by apply pub_read).
  destruct (anno_head node alias m Hk Hw Hpl) as (Ed & Hpre & Hl). destruct (anno_fields node alias m Hk Hw Hpl) as (F1 & F2 & F3 & F4 & F5 & F6).
  fold d in Ed, F1, F2, F3, F4, F5, F6. cbn zeta in *. set (pre := be_bytes 2 _ ++ _) in *.
  destruct Hw as (Hid & Hal & Hab & Hall & Hts & Hrb & Hrl & Hty & Hadb & Hal2 & Hpt).
  set (body := anno_body (mNode_pub node) alias m) in *.
  assert (is_bytes d) as Hdb.
  { apply signed_bytes; [done|]. unfold anno_body, addr_part. destruct (_ =? 0); repeat apply Forall_app_2; try apply be_bytes_is_bytes; try done;
      by apply Forall_take. }
  destruct (addr_part_len (na_addr m)) as [Hap Hap2]; [done..|].
  assert (zlen d = 140 + zlen (addr_part (na_addr m))) as Hdl by (rewrite Ed, length_app; lia).
  assert (zlen d = 66 + zlen body) as Hbl by (unfold d, anno_msg; by apply signed_len).
  unfold read_packet. rewrite call_returned. unfold ln_msg_node_announce_read.
  rewrite exit_no by (apply Z.ltb_ge; lia). rewrite get16_step by (done || lia). rewrite F1.
  rewrite exit_no by done. rewrite get16_step by (done || lia). change (2 + LN_SZ_SIGNATURE) with 66. rewrite F2.
  rewrite get32_step by (done || lia). change (66 + 2 + 0) with 68. rewrite F3, bind_modify, bind_get_st.
  cbn [set_na_timestamp p_node_id]. rewrite (bool_decide_eq_true_2 _ Hi0).
  rewrite bind_assoc, rd_step by lia. change (68 + 4) with 72. rewrite F4, bind_modify, rd_step by lia.
  change (72 + BTC_SZ_PUBKEY) with 105. rewrite F5, bind_modify.
  cbn [set_na_timestamp p_alias]. rewrite (bool_decide_eq_true_2 _ Ha0).
  rewrite bind_assoc, rd_step by lia. change (105 + 3) with 108. rewrite F6, bind_modify, get16_step by (done || lia).
  change (108 + LN_SZ_ALIAS) with 140. change (140 + 2) with 142.
  destruct (addr_announced d pre (na_addr m)) as (n & q & Hn & Hread); [done..|].
  erewrite bind_ret by (apply Hread). cbn [fst snd].
  rewrite Hn, Hbl. unfold d, anno_msg. erewrite (anno_checked (mNode_priv node)); [done|done|lia|]. cbn. by rewrite Hp.
Qed.
End codec.
End LnGossipCodec.
