(* ===== verification/LnGossip.v ===== *)
(** What a node does with gossip ([ln/ln.c]): it exchanges announcement_signatures with
    the peer of a channel until both have the whole channel_announcement, makes its
    channel_updates, and keeps the announcements of others. *)
From stdpp Require Import base list numbers tactics.
From Stdlib Require Import ZArith Lia.
From S2P Require Import Prelude CProg UtlInt UtlBuf UtlPush LnDerkey LnMisc LnMsg LnMsgAnno BtcTx BtcSw LnMsgGossip LnForward LnSelf LnNormal.
Import UtlBuf UtlPush Derkey LnMisc LnMsg LnMsgAnno BtcTx BtcSw LnMsgGossip LnForward LnSelf.
Open Scope Z_scope.

Module LnGossip.

Abbreviation M_ANNO_FLAG_SEND := 0x01.
Abbreviation M_ANNO_FLAG_RECV := 0x02.
Abbreviation LN_ANNO_FLAG_END := 0x80.
Abbreviation LN_CNLUPD_FLAGS_DIRECTION := 0x0001.

(** [ln_cb_update_annodb_t] *)
Inductive annodb :=
| LN_CB_UPDATE_ANNODB_NONE | LN_CB_UPDATE_ANNODB_CNL_ANNO | LN_CB_UPDATE_ANNODB_CNL_UPD | LN_CB_UPDATE_ANNODB_NODE_ANNO.

(** A call that leaves the component: a write to the database with its buffer, or a
    callback. *)
Inductive gossip_event :=
| DB_ANNOCNL_SAVE (pCnlAnno : utl_buf_t) (ShortChannelId : Z) (pSendId : option bytes) (pNodeId1 pNodeId2 : bytes)
| DB_ANNOCNLUPD_SAVE (pCnlUpd : utl_buf_t) (pUpd : CnlUpdate.t) (pSendId : option bytes)
| DB_ANNONOD_SAVE (pNodeAnno : utl_buf_t) (pAnno : ln_node_announce_t) (pSendId : bytes)
| LN_CB_UPDATE_ANNODB (anno : annodb)
| SELF_SAVED.

(** The database and the clock, which answer as the calls before them left them: does
    the last write succeed, the announcement under a short_channel_id, the time. *)
Class AnnoDb := {
  db_saved : list gossip_event → bool;
  ln_db_annocnl_load : list gossip_event → Z → option bytes;
  time : list gossip_event → Z;
}.

(** The channel with its fields for the announcements. *)
Record gossip := mk_gossip {
  go_self : ln_self_t;
  cnl_anno : utl_buf_t;
  anno_flag : Z;
  calls : list gossip_event;
}.

Definition set_go_self (v : ln_self_t) (g : gossip) : gossip := mk_gossip v (cnl_anno g) (anno_flag g) (calls g).
Definition set_cnl_anno (v : utl_buf_t) (g : gossip) : gossip := mk_gossip (go_self g) v (anno_flag g) (calls g).
Definition or_anno_flag (v : Z) (g : gossip) : gossip := mk_gossip (go_self g) (cnl_anno g) (Z.lor (anno_flag g) v) (calls g).
Definition add_call (e : gossip_event) (g : gossip) : gossip :=
  mk_gossip (go_self g) (cnl_anno g) (anno_flag g) (calls g ++ [e]).

Definition gossip_note (e : gossip_event) : prog gossip unit := modify (add_call e).

(** [M_SET_ERR(e); return false;] *)
Definition gossip_refuse_if (b : bool) (e : ln_err) : prog gossip unit :=
  if b then modify (λ g, set_go_self (set_err (Some e) (go_self g)) g);; exit_with false else mret tt.

Definition ln_db_annocnlupd_is_prune (Now TimesStamp : Z) : bool := u64 (TimesStamp + 1209600) <? Now.

(** The first bytes that differ. *)
Fixpoint first_diff (a b : bytes) : option (Z * Z) :=
  match a, b with
  | x :: a, y :: b => if x =? y then first_diff a b else Some (x, y)
  | _, _ => None
  end.

(** [true] is [BTC_KEYS_SORT_ASC], the number 0. *)
Definition ln_sort_to_dir (Sort : bool) : Z := if Sort then 0 else 1.

Section code.
Context {A : Alloc} {H : BtcHash} {E : Ecdsa} {D : AnnoDb} (node : node_conf) (anno_prm : ln_anno_prm_t) (fund_flag : Z).

(** A write to the database: its answer. *)
Definition db_save (e : gossip_event) : prog gossip bool :=
  gossip_note e;; gets (λ g, db_saved (calls g)).

Definition sort_ids (p_nodeid p_peerid : bytes) : bool :=
  match first_diff p_nodeid p_peerid with Some (x, y) => x <? y | None => false end.

(** With [pNodeId] null. *)
Definition sort_nodeid (self : ln_self_t) : bool := sort_ids (mNode_pub node) (peer_node_id self).

Definition funding_key (f : funding_data) : bytes := default [] (pubkeys f !! MSG_FUNDIDX_FUNDING).

Definition create_local_channel_announcement : prog gossip bool :=
  modify (set_cnl_anno (mk_buf None 0));;
  self ← gets go_self;
  r ← encode (ln_msg_cnl_announce_create node (priv self)
        (mk_cnl_create (short_channel_id self) (mNode_pub node) (peer_node_id self) (funding_key (funding_local self))
           (funding_key (funding_remote self)) (sort_nodeid self)));
  modify (set_cnl_anno r.2);;
  mret r.1.

Definition create_channel_update (self : ln_self_t) (TimeStamp Flag : Z) : prog gossip (CnlUpdate.t * (bool * utl_buf_t)) :=
  let upd := CnlUpdate.mk (short_channel_id self) TimeStamp (Z.lor Flag (ln_sort_to_dir (sort_nodeid self)))
    (prm_cltv_expiry_delta anno_prm) (prm_htlc_minimum_msat anno_prm) (prm_fee_base_msat anno_prm)
    (prm_fee_prop_millionths anno_prm) 0 in
  r ← encode (ln_msg_cnl_update_create node upd);
  mret (upd, r).

Definition proc_anno_sigs : prog gossip unit :=
  g ← get_st;
  let self := go_self g in
  if (anno_flag g =? Z.lor M_ANNO_FLAG_SEND M_ANNO_FLAG_RECV) && negb (short_channel_id self =? 0)
  then
    ret1 ← db_save (DB_ANNOCNL_SAVE (cnl_anno g) (short_channel_id self) None (peer_node_id self) (mNode_pub node));
    (if (ret1 : bool) then modify (set_cnl_anno (mk_buf None 0)) else mret tt);;
    now ← gets (λ g, u32 (time (calls g)));
    r ← create_channel_update self now 0;
    let '(upd, (ret2, buf_upd)) := r in
    (if (ret2 : bool) then b ← db_save (DB_ANNOCNLUPD_SAVE buf_upd upd None); mret tt else mret tt);;
    modify (or_anno_flag LN_ANNO_FLAG_END)
  else mret tt.

(** [if (self->cnl_anno.buf == NULL) create_local_channel_announcement(self);] *)
Definition have_cnl_anno : prog gossip unit :=
  g ← get_st;
  if bool_decide (buf (cnl_anno g) = None) then b ← create_local_channel_announcement; mret tt else mret tt.

Definition ln_announce_signs_create : prog gossip (bool * utl_buf_t) :=
  have_cnl_anno;;
  g ← get_st;
  let self := go_self g in
  let '(p_sig_node, p_sig_btc) := ln_msg_get_anno_signs true (sort_nodeid self) in
  sig_node ← get_from (cnl_anno g) p_sig_node LN_SZ_SIGNATURE;
  sig_btc ← get_from (cnl_anno g) p_sig_btc LN_SZ_SIGNATURE;
  r ← encode (ln_msg_announce_signs_create (mk_signs (channel_id self) (short_channel_id self) sig_node sig_btc));
  (if (r.1 : bool)
   then modify (or_anno_flag M_ANNO_FLAG_SEND);; proc_anno_sigs;; gossip_note SELF_SAVED
   else mret tt);;
  mret r.

(** The reader writes the signatures to their places in [self->cnl_anno] just before it
    returns [true]. *)
Definition recv_announcement_signatures (pData : bytes) (Len : Z) : prog gossip bool :=
  exit_if (fund_flag =? 0) false;;
  have_cnl_anno;;
  self ← gets go_self;
  let sort := sort_nodeid self in
  let '(p_sig_node, p_sig_btc) := ln_msg_get_anno_signs false sort in
  r ← on_local (ln_msg_announce_signs_read pData Len) (mk_signs [] (short_channel_id self) [] []);
  let '(ret, anno_signs) := r in
  (if (ret : bool)
   then b ← gets cnl_anno;
        b ← put_at b p_sig_node (p_node_signature anno_signs);
        b ← put_at b p_sig_btc (p_btc_signature anno_signs);
        modify (set_cnl_anno b)
   else mret tt);;
  gossip_refuse_if (negb ret || (as_short_channel_id anno_signs =? 0)) LNERR_MSG_READ;;
  gossip_refuse_if (negb (LnNormal.chk_channelid (p_channel_id anno_signs) (channel_id self))) LNERR_INV_CHANNEL;;
  modify (λ g, set_go_self (set_short_channel_id (as_short_channel_id anno_signs) (go_self g)) g);;
  b ← gets cnl_anno;
  b ← ln_msg_cnl_announce_update_short_cnl_id node (priv self) b (as_short_channel_id anno_signs) sort;
  modify (set_cnl_anno b);;
  modify (or_anno_flag M_ANNO_FLAG_RECV);;
  proc_anno_sigs;;
  gossip_note SELF_SAVED;;
  mret true.

Definition recv_channel_announcement (pData : bytes) (Len : Z) : prog gossip bool :=
  r ← on_local (ln_msg_cnl_announce_read node pData Len) (mk_cnl_read 0 [] [] [] []);
  let '(ret, ann) := r in
  if negb ret || (cr_short_channel_id ann =? 0) then mret true else
  self ← gets go_self;
  ret ← db_save (DB_ANNOCNL_SAVE (of_bytes pData) (cr_short_channel_id ann) (Some (peer_node_id self)) (node_id1 ann) (node_id2 ann));
  gossip_note (LN_CB_UPDATE_ANNODB (if ret : bool then LN_CB_UPDATE_ANNODB_CNL_ANNO else LN_CB_UPDATE_ANNODB_NONE));;
  mret true.

(** The id of the node at the end [Dir] of a channel. *)
Definition get_nodeid_from_annocnl (self : ln_self_t) (short_channel_id' Dir : Z) : prog gossip (option bytes) :=
  l ← gets (λ g, ln_db_annocnl_load (calls g) short_channel_id');
  match l with
  | Some d =>
      r ← on_local (ln_msg_cnl_announce_read node d (Z.of_nat (length d))) (mk_cnl_read 0 [] [] [] []);
      mret (if (r.1 : bool) then Some (if Dir =? 0 then node_id1 r.2 else node_id2 r.2) else None)
  | None =>
      mret (if short_channel_id' =? short_channel_id self
            then let mysort := sort_nodeid self in
                 Some (if (mysort && (Dir =? 0)) || (negb mysort && (Dir =? 1)) then mNode_pub node else peer_node_id self)
            else None)
  end.

Definition recv_channel_update (pData : bytes) (Len : Z) : prog gossip bool :=
  r ← on_local (CnlUpdate.ln_msg_cnl_update_read (LnMsgGossip.gGenesisChainHash node) pData Len) (CnlUpdate.mk 0 0 0 0 0 0 0 0);
  let '(ret, upd) := r in
  exit_if (negb ret) true;;
  now ← gets (λ g, u64 (time (calls g)));
  exit_if (ln_db_annocnlupd_is_prune now (CnlUpdate.timestamp upd)) true;;
  self ← gets go_self;
  id ← get_nodeid_from_annocnl self (CnlUpdate.short_channel_id upd) (Z.land (CnlUpdate.flags upd) LN_CNLUPD_FLAGS_DIRECTION);
  ret ← match id with
        | Some node_id => if btc_keys_chkpub node_id then ln_msg_cnl_update_verify node_id pData Len else mret true
        | None => mret true
        end;
  anno ← (if (ret : bool)
          then ret ← db_save (DB_ANNOCNLUPD_SAVE (of_bytes pData) upd (Some (peer_node_id self)));
               mret (if ret : bool then LN_CB_UPDATE_ANNODB_CNL_UPD else LN_CB_UPDATE_ANNODB_NONE)
          else mret LN_CB_UPDATE_ANNODB_NONE);
  gossip_note (LN_CB_UPDATE_ANNODB anno);;
  mret true.

(** With what the stack holds in the structure. *)
Definition recv_node_announcement (stack : ln_node_announce_t) (pData : bytes) (Len : Z) : prog gossip bool :=
  r ← on_local (ln_msg_node_announce_read pData Len) (set_p_node_id [] (set_p_alias [] stack));
  let '(ret, anno) := r in
  if negb ret then mret false else
  self ← gets go_self;
  ret ← db_save (DB_ANNONOD_SAVE (of_bytes pData) anno (peer_node_id self));
  (if (ret : bool) then gossip_note (LN_CB_UPDATE_ANNODB LN_CB_UPDATE_ANNODB_NODE_ANNO) else mret tt);;
  mret true.

(** *** What the application asks for *)

Definition ln_channel_update_create : prog gossip (bool * utl_buf_t) :=
  now ← gets (λ g, u32 (time (calls g)));
  self ← gets go_self;
  r ← create_channel_update self now 0;
  let '(upd, (ret, pCnlUpd)) := r in
  if negb ret then mret (ret, pCnlUpd) else
  ret ← db_save (DB_ANNOCNLUPD_SAVE pCnlUpd upd None);
  g ← get_st;
  (if anno_flag g =? Z.lor M_ANNO_FLAG_SEND M_ANNO_FLAG_RECV
   then gossip_note (LN_CB_UPDATE_ANNODB LN_CB_UPDATE_ANNODB_CNL_UPD) else mret tt);;
  mret (ret, pCnlUpd).

Definition ln_channel_update_get_params (pUpd : CnlUpdate.t) (pData : bytes) (Len : Z) : prog gossip (bool * CnlUpdate.t) :=
  on_local (CnlUpdate.ln_msg_cnl_update_read (LnMsgGossip.gGenesisChainHash node) pData Len) pUpd.
End code.
End LnGossip.
