(* ===== verification/LnAnnounce.v ===== *)
(** How a channel is announced: the two nodes exchange their signatures and end with the
    same channel_announcement, which checks; what is kept of the gossip of others. *)
From stdpp Require Import base list numbers tactics.
From Stdlib Require Import ZArith Lia.
From S2P Require Import Prelude CProg UtlInt UtlBuf UtlPush LnDerkey LnMisc LnMsg LnMsgAnno LnSelf BtcTx BtcTxWire.
From S2P Require Import BtcSw BtcDigest BtcBuild LnSignTx LnForward LnMsgGossip LnGossipCodec LnGossip.
Import UtlBuf UtlPush Derkey LnMisc LnMsg LnMsgAnno LnSelf BtcTx BtcTxWire BtcSw BtcDigest BtcBuild LnSignTx LnForward LnMsgGossip LnGossipCodec LnGossip.
Open Scope Z_scope.

Module LnAnnounce.

Section announce.
Context {A : Alloc} {T : AllocTotal A} {H : BtcHash} {HL : BtcHashLaws H} {E : Ecdsa} {EL : EcdsaLaws E} {D : AnnoDb}.

(** ** The channel_announcement with its four signatures *)

(** The part that is signed. *)
Definition anno_data (chain : bytes) (scid : Z) (id1 id2 key1 key2 : bytes) : bytes :=
  be_bytes 2 0 ++ chain ++ be_bytes 8 scid ++ id1 ++ id2 ++ key1 ++ key2.

Definition anno_bytes (n1 n2 b1 b2 d : bytes) : bytes := be_bytes 2 MSGTYPE_CHANNEL_ANNOUNCEMENT ++ n1 ++ n2 ++ b1 ++ b2 ++ d.

Definition is_rs (x : bytes) : Prop := length x = 64%nat ∧ is_bytes x.

Lemma rs_is_rs k h : good_key k → is_rs (rs_of k h).
Proof. intros Hk. by destruct (sign_rs_made k h Hk) as (_ & ? & ?). Qed.

Lemma put_bytes {S} p q r d (s : S) : length q = length d → 0 < zlen d →
  put_at (of_bytes (p ++ q ++ r)) (zlen p) d s = Ret (of_bytes (p ++ d ++ r)) s.
Proof.
  intros Hl Hd. unfold of_bytes. rewrite !init_cells_app.
  pose proof (put_mid (init_cells p) (init_cells q) d (init_cells r) (zlen (p ++ q ++ r)) s) as Hp.
  rewrite !length_init_cells in Hp. rewrite Hp by done. rewrite !length_app, Hl. done.
Qed.

Lemma get_bytes {S} p q r (s : S) : get_from (of_bytes (p ++ q ++ r)) (zlen p) (zlen q) s = Ret q s.
Proof.
  unfold of_bytes. rewrite !init_cells_app. pose proof (get_mid (init_cells p) q (init_cells r) (zlen (p ++ q ++ r)) s) as Hg.
  by rewrite length_init_cells in Hg.
Qed.

Lemma hash_bytes {S} p q (s : S) : zlen q < 2 ^ 16 → hash_from (of_bytes (p ++ q)) (zlen p) s = Ret (sha256d q) s.
Proof.
  intros Hq. unfold of_bytes. rewrite init_cells_app. pose proof (hash_mid (init_cells p) q (zlen (p ++ q)) s) as Hh.
  rewrite length_init_cells in Hh. apply Hh; [|done]. rewrite length_app. lia.
Qed.

Lemma put_n1 {S} n1 n2 b1 b2 d x (s : S) : length n1 = 64%nat → length x = 64%nat →
  put_at (of_bytes (anno_bytes n1 n2 b1 b2 d)) 2 x s = Ret (of_bytes (anno_bytes x n2 b1 b2 d)) s.
Proof. intros H1 Hx. unfold anno_bytes. by apply (put_bytes (be_bytes 2 _)); lia. Qed.
Lemma put_n2 {S} n1 n2 b1 b2 d x (s : S) : length n1 = 64%nat → length n2 = 64%nat → length x = 64%nat →
  put_at (of_bytes (anno_bytes n1 n2 b1 b2 d)) 66 x s = Ret (of_bytes (anno_bytes n1 x b1 b2 d)) s.
Proof.
  intros H1 H2 Hx. unfold anno_bytes. rewrite !(app_assoc _ n1).
  replace 66 with (zlen (be_bytes 2 MSGTYPE_CHANNEL_ANNOUNCEMENT ++ n1)) by (rewrite length_app, length_be_bytes, H1; done).
  apply put_bytes; lia.
Qed.
Lemma put_b1 {S} n1 n2 b1 b2 d x (s : S) : length n1 = 64%nat → length n2 = 64%nat → length b1 = 64%nat → length x = 64%nat →
  put_at (of_bytes (anno_bytes n1 n2 b1 b2 d)) 130 x s = Ret (of_bytes (anno_bytes n1 n2 x b2 d)) s.
Proof.
  intros H1 H2 H3 Hx. unfold anno_bytes. rewrite !(app_assoc _ n1), !(app_assoc _ n2).
  replace 130 with (zlen ((be_bytes 2 MSGTYPE_CHANNEL_ANNOUNCEMENT ++ n1) ++ n2)) by (rewrite !length_app, length_be_bytes, H1, H2; done).
  apply put_bytes; lia.
Qed.
Lemma put_b2 {S} n1 n2 b1 b2 d x (s : S) : length n1 = 64%nat → length n2 = 64%nat → length b1 = 64%nat → length b2 = 64%nat →
  length x = 64%nat →
  put_at (of_bytes (anno_bytes n1 n2 b1 b2 d)) 194 x s = Ret (of_bytes (anno_bytes n1 n2 b1 x d)) s.
Proof.
  intros H1 H2 H3 H4 Hx. unfold anno_bytes. rewrite !(app_assoc _ n1), !(app_assoc _ n2), !(app_assoc _ b1).
  replace 194 with (zlen (((be_bytes 2 MSGTYPE_CHANNEL_ANNOUNCEMENT ++ n1) ++ n2) ++ b1))
    by (rewrite !length_app, length_be_bytes, H1, H2, H3; done).
  apply put_bytes; lia.
Qed.

(** The announcement as one node sees it: [s] tells whether it comes first. *)
Definition sheet (s : bool) (own_n own_b peer_n peer_b d : bytes) : bytes :=
  if s then anno_bytes own_n peer_n own_b peer_b d else anno_bytes peer_n own_n peer_b own_b d.

Lemma sheet_swap s a b c e d : sheet s a b c e d = sheet (negb s) c e a b d.
Proof. by destruct s. Qed.

Lemma sheet_put {S B} s loc own_n own_b peer_n peer_b d x y (K : utl_buf_t → prog S B) (st : S) :
  length own_n = 64%nat → length own_b = 64%nat → length peer_n = 64%nat → length peer_b = 64%nat →
  length x = 64%nat → length y = 64%nat →
  (b ← put_at (of_bytes (sheet s own_n own_b peer_n peer_b d)) (ln_msg_get_anno_signs loc s).1 x;
   b ← put_at b (ln_msg_get_anno_signs loc s).2 y; K b) st =
  K (of_bytes (if loc then sheet s x y peer_n peer_b d else sheet s own_n own_b x y d)) st.
Proof.
  intros. destruct s, loc; cbn [sheet ln_msg_get_anno_signs andb orb negb fst snd];
    (erewrite bind_ret by (apply put_n1 || apply put_n2; done)); (erewrite bind_ret by (apply put_b1 || apply put_b2; done)); done.
Qed.

Lemma sheet_get {S} s loc own_n own_b peer_n peer_b d (st : S) :
  length own_n = 64%nat → length own_b = 64%nat → length peer_n = 64%nat → length peer_b = 64%nat →
  get_from (of_bytes (sheet s own_n own_b peer_n peer_b d)) (ln_msg_get_anno_signs loc s).1 64 st =
    Ret (if loc then own_n else peer_n) st ∧
  get_from (of_bytes (sheet s own_n own_b peer_n peer_b d)) (ln_msg_get_anno_signs loc s).2 64 st =
    Ret (if loc then own_b else peer_b) st.
Proof.
  intros H1 H2 H3 H4.
  assert (∀ n1 n2 b1 b2, length n1 = 64%nat → length n2 = 64%nat → length b1 = 64%nat → length b2 = 64%nat →
    get_from (of_bytes (anno_bytes n1 n2 b1 b2 d)) 2 64 st = Ret n1 st ∧
    get_from (of_bytes (anno_bytes n1 n2 b1 b2 d)) 66 64 st = Ret n2 st ∧
    get_from (of_bytes (anno_bytes n1 n2 b1 b2 d)) 130 64 st = Ret b1 st ∧
    get_from (of_bytes (anno_bytes n1 n2 b1 b2 d)) 194 64 st = Ret b2 st) as Hg.
  { intros n1 n2 b1 b2 E1 E2 E3 E4. unfold anno_bytes. split_and!.
    - pose proof (get_bytes (be_bytes 2 MSGTYPE_CHANNEL_ANNOUNCEMENT) n1 (n2 ++ b1 ++ b2 ++ d) st) as Hg. by rewrite E1 in Hg.
    - pose proof (get_bytes (be_bytes 2 MSGTYPE_CHANNEL_ANNOUNCEMENT ++ n1) n2 (b1 ++ b2 ++ d) st) as Hg.
      rewrite length_app, length_be_bytes, E1, E2, <- app_assoc in Hg. exact Hg.
    - pose proof (get_bytes ((be_bytes 2 MSGTYPE_CHANNEL_ANNOUNCEMENT ++ n1) ++ n2) b1 (b2 ++ d) st) as Hg.
      rewrite !length_app, length_be_bytes, E1, E2, E3, <- !app_assoc in Hg. exact Hg.
    - pose proof (get_bytes (((be_bytes 2 MSGTYPE_CHANNEL_ANNOUNCEMENT ++ n1) ++ n2) ++ b1) b2 d st) as Hg.
      rewrite !length_app, length_be_bytes, E1, E2, E3, E4, <- !app_assoc in Hg. exact Hg. }
  destruct s; [destruct (Hg own_n peer_n own_b peer_b) as (G1 & G2 & G3 & G4)|destruct (Hg peer_n own_n peer_b own_b) as (G1 & G2 & G3 & G4)];
    try done; destruct loc; split; assumption.
Qed.

(** ** A node and its channel *)

(** What [node] has to announce the channel [self]: its keys, the peer's, an id. *)
Record announcer (node : node_conf) (self : ln_self_t) (kf : bytes) : Prop := {
  an_node : good_node node;
  an_priv : priv self !! MSG_FUNDIDX_FUNDING = Some kf;
  an_key : good_key kf;
  an_pub : funding_key (funding_local self) = pub_of kf ∧ is_bytes (funding_key (funding_local self));
  an_peer : is_bytes (peer_node_id self) ∧ length (peer_node_id self) = 33%nat;
  an_peer_key : is_bytes (funding_key (funding_remote self)) ∧ length (funding_key (funding_remote self)) = 33%nat;
  an_scid : in_range 64 (short_channel_id self) ∧ short_channel_id self ≠ 0;
  an_id : length (channel_id self) = 32%nat ∧ is_bytes (channel_id self);
}.

(** The signed part of the announcement of [self]. *)
Definition data_of (node : node_conf) (self : ln_self_t) : bytes :=
  let '(id1, id2, key1, key2) :=
    if sort_nodeid node self
    then (mNode_pub node, peer_node_id self, funding_key (funding_local self), funding_key (funding_remote self))
    else (peer_node_id self, mNode_pub node, funding_key (funding_remote self), funding_key (funding_local self)) in
  anno_data (gGenesisChainHash node) (short_channel_id self) id1 id2 key1 key2.

Definition own_node_sig (node : node_conf) (self : ln_self_t) : bytes := rs_of (mNode_priv node) (sha256d (data_of node self)).
Definition own_fund_sig (node : node_conf) (self : ln_self_t) (kf : bytes) : bytes := rs_of kf (sha256d (data_of node self)).

(** The buffer with our signatures and what is there of the peer's. *)
Definition own_sheet (node : node_conf) (self : ln_self_t) (kf peer_n peer_b : bytes) : bytes :=
  sheet (sort_nodeid node self) (own_node_sig node self) (own_fund_sig node self kf) peer_n peer_b (data_of node self).

Section node.
Context (node : node_conf) (self : ln_self_t) (kf : bytes) (An : announcer node self kf).

Lemma node_pub_len : length (mNode_pub node) = 33%nat.
Proof. destruct (an_node _ _ _ An) as [[_ Hk] [-> _] _]. by apply pub_read. Qed.

Lemma fund_pub_len : length (funding_key (funding_local self)) = 33%nat.
Proof. rewrite (proj1 (an_pub _ _ _ An)). destruct (an_key _ _ _ An) as [_ Hk]. by apply pub_read. Qed.

Lemma data_len : length (data_of node self) = 174%nat.
Proof.
  destruct (an_node _ _ _ An) as [_ _ [_ Hc]]. pose proof node_pub_len. pose proof fund_pub_len. destruct An as [_ _ _ _ [_ Hp] [_ Hpk] _ _].
  unfold data_of, anno_data. destruct (sort_nodeid node self); rewrite !length_app, !length_be_bytes; lia.
Qed.

Lemma own_rs : is_rs (own_node_sig node self) ∧ is_rs (own_fund_sig node self kf).
Proof. split; apply rs_is_rs; [apply (an_node _ _ _ An)|apply (an_key _ _ _ An)]. Qed.

(** Signing: whatever is in the places of our signatures. *)
Lemma announce_signed {S} x y peer_n peer_b (s : S) : length x = 64%nat → length y = 64%nat → length peer_n = 64%nat → length peer_b = 64%nat →
  cnl_announce_sign node (priv self) (of_bytes (sheet (sort_nodeid node self) x y peer_n peer_b (data_of node self))) (sort_nodeid node self) s =
  Ret (of_bytes (own_sheet node self kf peer_n peer_b)) s.
Proof.
  intros Hx Hy Hn Hb. destruct own_rs as [[Ho1 _] [Ho2 _]]. pose proof data_len as Hd.
  destruct (sign_rs_made (mNode_priv node) (sha256d (data_of node self)) (node_key _ (an_node _ _ _ An))) as (Hs1 & _).
  destruct (sign_rs_made kf (sha256d (data_of node self)) (an_key _ _ _ An)) as (Hs2 & _).
  unfold cnl_announce_sign. erewrite bind_ret.
  2:{ assert (∀ n1 n2 b1 b2, length n1 = 64%nat → length n2 = 64%nat → length b1 = 64%nat → length b2 = 64%nat →
        hash_from (of_bytes (anno_bytes n1 n2 b1 b2 (data_of node self))) (2 + LN_SZ_SIGNATURE * 4) s = Ret (sha256d (data_of node self)) s) as Hh.
      { intros n1 n2 b1 b2 E1 E2 E3 E4. unfold anno_bytes.
        pose proof (hash_bytes ((((be_bytes 2 MSGTYPE_CHANNEL_ANNOUNCEMENT ++ n1) ++ n2) ++ b1) ++ b2) (data_of node self) s) as Hh.
        rewrite !length_app, length_be_bytes, E1, E2, E3, E4, <- !app_assoc in Hh. apply Hh. lia. }
      unfold sheet. destruct (sort_nodeid node self); by apply Hh. }
  erewrite bind_ret by (apply lift_ret; exact Hs1). fold (own_node_sig node self). unfold own_sheet.
  destruct (sort_nodeid node self); cbn [sheet].
  - erewrite bind_ret by (by apply put_n1). unfold ln_signer_sign_rs. rewrite (an_priv _ _ _ An).
    erewrite bind_ret; [by apply put_b1|]. erewrite bind_ret by reflexivity. apply lift_ret. exact Hs2.
  - erewrite bind_ret by (by apply put_n2). unfold ln_signer_sign_rs. rewrite (an_priv _ _ _ An).
    erewrite bind_ret; [by apply put_b2|]. erewrite bind_ret by reflexivity. apply lift_ret. exact Hs2.
Qed.

(** What is there of the peer's signatures before they come. *)
Definition unset : bytes := replicate 64 0xcc.

Lemma announce_created st :
  call (ln_msg_cnl_announce_create node (priv self)
    (mk_cnl_create (short_channel_id self) (mNode_pub node) (peer_node_id self) (funding_key (funding_local self))
       (funding_key (funding_remote self)) (sort_nodeid node self))) st =
  Ret true (mk_push 432 (of_bytes (own_sheet node self kf unset unset))).
Proof.
  pose proof node_pub_len as L1. pose proof fund_pub_len as L2.
  pose proof data_len as Ld.
  destruct (an_node _ _ _ An) as [Hk _ [_ Hc]]. destruct (an_peer _ _ _ An) as [_ L3]. destruct (an_peer_key _ _ _ An) as [_ L4].
  pose proof (announce_signed (S := utl_push_t) unset unset unset unset) as Hs. unfold sheet, data_of in Hs.
  apply call_ret. unfold ln_msg_cnl_announce_create. cbn [cc_short_channel_id p_my_node_pub p_peer_node_pub p_my_funding_pub p_peer_funding_pub sort].
  destruct (sort_nodeid node self); repeat push_step; cbn [data pos];
    change (replicate (Z.to_nat (64 * 4)) 204) with (unset ++ unset ++ unset ++ unset);
    rewrite app_nil_l, <- !app_assoc; erewrite bind_ret by (by apply Hs); reflexivity.
Qed.

(** *** announcement_signatures *)

Definition signs_wire (cid : bytes) (scid : Z) (sn sb : bytes) : bytes :=
  be_bytes 2 MSGTYPE_ANNOUNCEMENT_SIGNATURES ++ cid ++ be_bytes 8 scid ++ sn ++ sb.

Lemma signs_created cid scid sn sb {S B} (K : bool * utl_buf_t → prog S B) s : length cid = 32%nat → length sn = 64%nat → length sb = 64%nat →
  (encode (ln_msg_announce_signs_create (mk_signs cid scid sn sb)) ≫= K) s = K (true, of_bytes (signs_wire cid scid sn sb)) s.
Proof.
  intros H1 H2 H3. unfold encode. rewrite bind_assoc. erewrite on_local_step.
  2:{ assert (call (ln_msg_announce_signs_create (mk_signs cid scid sn sb)) (mk_push 0 (mk_buf None 0)) =
        Ret true (mk_push 170 (of_bytes (signs_wire cid scid sn sb)))) as Hc.
      { apply call_ret. unfold ln_msg_announce_signs_create. cbn [p_channel_id as_short_channel_id p_node_signature p_btc_signature].
        repeat push_step. unfold signs_wire. by rewrite app_nil_l, <- !app_assoc. }
      exact Hc. }
  by rewrite bind_mret.
Qed.

Lemma signs_read cid scid sn sb m {S B} (K : bool * ln_announce_signs_t → prog S B) s : length cid = 32%nat → is_bytes cid →
  in_range 64 scid → is_rs sn → is_rs sb → as_short_channel_id m = 0 ∨ as_short_channel_id m = scid →
  let d := signs_wire cid scid sn sb in
  (on_local (ln_msg_announce_signs_read d (zlen d)) m ≫= K) s = K (true, mk_signs cid scid sn sb) s.
Proof.
  intros H1 H1b Hs [H2 H2b] [H3 H3b] Hm d. apply on_local_step.
  assert (is_bytes d) as Hb by (unfold d, signs_wire; repeat apply Forall_app_2; try done; apply be_bytes_is_bytes).
  assert (zlen d = 170) as Hl by (unfold d, signs_wire; rewrite !length_app, !length_be_bytes; lia).
  assert (be_val (sl d 0 2) = MSGTYPE_ANNOUNCEMENT_SIGNATURES ∧ sl d 2 32 = cid ∧ be_val (sl d 34 8) = scid ∧ sl d 42 64 = sn ∧ sl d 106 64 = sb)
    as (F1 & F2 & F3 & F4 & F5).
  { unfold d, signs_wire. split_and!; repeat sl_step; done. }
  unfold run, ln_msg_announce_signs_read. rewrite exit_no by (apply Z.ltb_ge; lia). rewrite get16_step by (done || lia). rewrite F1.
  rewrite exit_no by done. rewrite rd_step by lia. change (2 + LN_SZ_CHANNEL_ID) with 34. rewrite F2, bind_modify.
  rewrite get64_step by (done || lia). rewrite F3, bind_get_st. cbn [as_short_channel_id].
  set (st1 := mk_signs cid (as_short_channel_id m) (p_node_signature m) (p_btc_signature m)).
  assert ((if as_short_channel_id m =? 0
           then put_st (mk_signs (p_channel_id st1) scid (p_node_signature st1) (p_btc_signature st1))
           else exit_if (negb (as_short_channel_id m =? scid)) false) st1 =
    Ret tt (mk_signs cid scid (p_node_signature m) (p_btc_signature m))) as Hp.
  { destruct Hm as [-> | Hm]; [done|]. destruct (Z.eqb_spec (as_short_channel_id m) 0); [done|].
    unfold st1. rewrite Hm, Z.eqb_refl. done. }
  erewrite bind_ret by exact Hp. change (34 + LN_SZ_SHORT_CHANNEL_ID) with 42. rewrite rd_step by lia. rewrite F4, bind_modify.
  change (42 + LN_SZ_SIGNATURE) with 106. rewrite rd_step by lia. rewrite F5, bind_modify, bind_assert by (apply Z.leb_le; lia).
  done.
Qed.

(** The short_channel_id that is written again is the same; so are the signatures. *)
Lemma short_cnl_id_updated {S} peer_n peer_b (s : S) : length peer_n = 64%nat → length peer_b = 64%nat →
  ln_msg_cnl_announce_update_short_cnl_id node (priv self) (of_bytes (own_sheet node self kf peer_n peer_b))
    (short_channel_id self) (sort_nodeid node self) s = Ret (of_bytes (own_sheet node self kf peer_n peer_b)) s.
Proof.
  intros Hn Hb. destruct own_rs as [[Ho1 _] [Ho2 _]]. pose proof data_len as Ld. destruct (an_node _ _ _ An) as [_ _ [Hcb Hc]].
  pose proof (announce_signed (own_node_sig node self) (own_fund_sig node self kf) peer_n peer_b s Ho1 Ho2 Hn Hb) as Hs.
  fold (own_sheet node self kf peer_n peer_b) in Hs. 
  assert (∀ n1 n2 b1 b2 c id, anno_bytes n1 n2 b1 b2 (be_bytes 2 0 ++ c ++ id) =
    (be_bytes 2 MSGTYPE_CHANNEL_ANNOUNCEMENT ++ n1 ++ n2 ++ b1 ++ b2) ++ be_bytes 2 0 ++ c ++ id) as Hdec
    by (intros; unfold anno_bytes; by rewrite <- !app_assoc).
  assert (∃ p rest, own_sheet node self kf peer_n peer_b = p ++ be_bytes 2 0 ++ gGenesisChainHash node ++ be_bytes 8 (short_channel_id self) ++ rest ∧
    zlen p = 258) as (p & rest & Ep & Hp).
  { unfold own_sheet, sheet, data_of, anno_data. destruct (sort_nodeid node self); rewrite Hdec; eexists _, _;
      (split; [reflexivity|]); rewrite !length_app, length_be_bytes; lia. }
  unfold ln_msg_cnl_announce_update_short_cnl_id. rewrite Ep in Hs |- *. change (2 + LN_SZ_SIGNATURE * 4) with 258. rewrite <- Hp.
  erewrite bind_ret by (apply (get_bytes p (be_bytes 2 0))). rewrite get16_step by (done || apply be_bytes_is_bytes).
  change (be_val (sl (be_bytes 2 0) 0 2)) with 0.
  erewrite bind_ret; [exact Hs|]. rewrite !(app_assoc p), !(app_assoc (p ++ be_bytes 2 0)).
  replace (zlen p + 2 + 0 + BTC_SZ_HASH256) with (zlen ((p ++ be_bytes 2 0) ++ gGenesisChainHash node))
    by (rewrite !length_app, length_be_bytes, Hc; lia).
  apply put_bytes; rewrite ?length_be_bytes; done.
Qed.

(** *** The exchange *)

(** When both signatures are there, the announcement and a channel_update are saved. *)
Definition own_update (prm : ln_anno_prm_t) (now : Z) : CnlUpdate.t :=
  CnlUpdate.mk (short_channel_id self) now (Z.lor 0 (ln_sort_to_dir (sort_nodeid node self)))
    (prm_cltv_expiry_delta prm) (prm_htlc_minimum_msat prm) (prm_fee_base_msat prm) (prm_fee_prop_millionths prm) 0.

Definition announced (prm : ln_anno_prm_t) (b : bytes) (cs : list gossip_event) : gossip :=
  let cs := cs ++ [DB_ANNOCNL_SAVE (of_bytes b) (short_channel_id self) None (peer_node_id self) (mNode_pub node)] in
  let upd := own_update prm (u32 (time cs)) in
  mk_gossip self (if db_saved cs then mk_buf None 0 else of_bytes b) 0x83
    (cs ++ [DB_ANNOCNLUPD_SAVE (of_bytes (update_msg node upd)) upd None]).

Lemma both_announced prm b cs : proc_anno_sigs node prm (mk_gossip self (of_bytes b) 3 cs) = Ret tt (announced prm b cs).
Proof.
  unfold proc_anno_sigs. rewrite bind_get_st. cbn [anno_flag go_self cnl_anno].
  rewrite (proj2 (Z.eqb_neq _ _) (proj2 (an_scid _ _ _ An))). change ((3 =? Z.lor M_ANNO_FLAG_SEND M_ANNO_FLAG_RECV) && negb false) with true. cbv iota.
  unfold db_save, gossip_note. rewrite bind_assoc, bind_modify, gets_step. unfold add_call at 1 2. cbn [calls go_self cnl_anno anno_flag].
  unfold announced. set (cs1 := cs ++ [_]).
  erewrite (bind_ret tt _ _ _ (mk_gossip self (if db_saved cs1 then mk_buf None 0 else of_bytes b) 3 cs1)) by (by destruct (db_saved cs1)).
  rewrite gets_step. cbn [calls]. unfold create_channel_update. fold (own_update prm (u32 (time cs1))).
  unfold encode. rewrite !bind_assoc.
  erewrite on_local_step by (apply cnl_update_created, (an_node _ _ _ An)). rewrite !bind_mret. cbn [fst snd data].
  rewrite !bind_assoc, bind_modify. reflexivity.
Qed.

Lemma not_announced prm c f cs : f ≠ 3 → proc_anno_sigs node prm (mk_gossip self c f cs) = Ret tt (mk_gossip self c f cs).
Proof.
  intros Hf. unfold proc_anno_sigs. rewrite bind_get_st. cbn [anno_flag go_self].
  change (Z.lor M_ANNO_FLAG_SEND M_ANNO_FLAG_RECV) with 3. by rewrite (proj2 (Z.eqb_neq _ _) Hf).
Qed.

(** The buffer before any message, or what a step of the exchange left there. *)
Definition sheet_ready (c : utl_buf_t) (peer_n peer_b : bytes) : Prop :=
  c = mk_buf None 0 ∧ peer_n = unset ∧ peer_b = unset ∨
  c = of_bytes (own_sheet node self kf peer_n peer_b) ∧ length peer_n = 64%nat ∧ length peer_b = 64%nat.

Lemma have_sheet {B} c peer_n peer_b f cs (K : unit → prog gossip B) : sheet_ready c peer_n peer_b →
  (have_cnl_anno node ≫= K) (mk_gossip self c f cs) = K tt (mk_gossip self (of_bytes (own_sheet node self kf peer_n peer_b)) f cs) ∧
  length peer_n = 64%nat ∧ length peer_b = 64%nat.
Proof.
  intros [(-> & -> & ->) | (-> & Hn & Hb)]; (split; [apply bind_ret|done]).
  - unfold have_cnl_anno. rewrite bind_get_st. cbn [cnl_anno buf]. rewrite bool_decide_eq_true_2 by done.
    erewrite bind_ret; [reflexivity|]. unfold create_local_channel_announcement. rewrite bind_modify, gets_step. cbn [go_self set_cnl_anno].
    unfold encode. rewrite bind_assoc. erewrite on_local_step by (apply announce_created). rewrite bind_mret, bind_modify. done.
  - unfold have_cnl_anno. rewrite bind_get_st. cbn [cnl_anno buf of_bytes]. by rewrite bool_decide_eq_false_2.
Qed.

(** What is sent to the peer. *)
Definition own_signs : bytes := signs_wire (channel_id self) (short_channel_id self) (own_node_sig node self) (own_fund_sig node self kf).

Lemma signs_sent prm c peer_n peer_b f cs g : sheet_ready c peer_n peer_b →
  proc_anno_sigs node prm (mk_gossip self (of_bytes (own_sheet node self kf peer_n peer_b)) (Z.lor f 1) cs) = Ret tt g →
  ln_announce_signs_create node prm (mk_gossip self c f cs) = Ret (true, of_bytes own_signs) (add_call SELF_SAVED g).
Proof.
  intros Hc Hp. unfold ln_announce_signs_create. edestruct (have_sheet (B := bool * utl_buf_t)) as (-> & Hn & Hb); [exact Hc|].
  destruct own_rs as [[Ho1 _] [Ho2 _]].
  edestruct (sheet_get (S := gossip) (sort_nodeid node self) true) as [G1 G2]; [exact Ho1|exact Ho2|exact Hn|exact Hb|].
  rewrite bind_get_st. cbn [go_self cnl_anno]. destruct (ln_msg_get_anno_signs true _) as [pn pb]. cbn [fst snd] in G1, G2.
  erewrite bind_ret by apply G1. erewrite bind_ret by apply G2. 
  rewrite signs_created by (done || apply (an_id _ _ _ An)). cbn [fst snd]. unfold or_anno_flag. rewrite !bind_assoc, bind_modify. cbn [go_self cnl_anno anno_flag calls].
  rewrite bind_assoc. erewrite bind_ret by exact Hp. done.
Qed.

Lemma signs_received prm ff c x y sn sb f cs g : sheet_ready c x y → is_rs sn → is_rs sb → ff ≠ 0 →
  proc_anno_sigs node prm (mk_gossip self (of_bytes (own_sheet node self kf sn sb)) (Z.lor f 2) cs) = Ret tt g →
  let d := signs_wire (channel_id self) (short_channel_id self) sn sb in
  recv_announcement_signatures node prm ff d (zlen d) (mk_gossip self c f cs) = Ret true (add_call SELF_SAVED g).
Proof.
  intros Hc Hsn Hsb Hff Hp d. unfold recv_announcement_signatures. rewrite exit_no by (by apply Z.eqb_neq).
  edestruct (have_sheet (B := bool)) as (-> & Hn & Hb); [exact Hc|]. destruct own_rs as [[Ho1 _] [Ho2 _]].
  destruct (an_scid _ _ _ An) as [Hr Hz]. destruct (an_id _ _ _ An) as [Hl Hlb].
  pose proof (sheet_put (S := gossip) (B := unit) (sort_nodeid node self) false (own_node_sig node self) (own_fund_sig node self kf) x y (data_of node self) sn sb) as Hput.
  rewrite gets_step. cbn [go_self]. destruct (ln_msg_get_anno_signs false _) as [pn pb]. cbn [fst snd] in Hput.
  unfold d. rewrite signs_read by (done || by right). cbn [p_node_signature p_btc_signature as_short_channel_id p_channel_id].
  erewrite bind_ret.
  2:{ rewrite gets_step. cbn [cnl_anno]. unfold own_sheet. destruct Hsn, Hsb. eapply eq_trans; [by apply Hput|reflexivity]. }
  fold (own_sheet node self kf sn sb). unfold gossip_refuse_if. rewrite (proj2 (Z.eqb_neq _ _) Hz). cbn [negb orb]. rewrite bind_mret.
  unfold LnNormal.LnNormal.chk_channelid. rewrite bool_decide_eq_true_2 by done. cbn [negb]. rewrite bind_mret, bind_modify.
  unfold set_go_self, set_cnl_anno. cbn [go_self cnl_anno anno_flag calls]. rewrite gets_step. cbn [cnl_anno].
  assert (set_short_channel_id (short_channel_id self) self = self) as -> by (by destruct self).
  erewrite bind_ret by (by apply short_cnl_id_updated; [apply Hsn|apply Hsb]).
  rewrite !bind_modify. unfold set_cnl_anno, or_anno_flag. cbn [go_self cnl_anno anno_flag calls].
  erewrite bind_ret by exact Hp. done.
Qed.

(** The two steps of one node, in the order in which they happen to it; what it sends. *)
Definition exchange (prm : ln_anno_prm_t) (fund_flag : Z) (first : bool) (m : bytes) : prog gossip (bool * utl_buf_t) :=
  if first
  then r ← ln_announce_signs_create node prm; b ← recv_announcement_signatures node prm fund_flag m (zlen m); mret (b && r.1, r.2)
  else b ← recv_announcement_signatures node prm fund_flag m (zlen m); r ← ln_announce_signs_create node prm; mret (b && r.1, r.2).

Lemma exchanged prm ff first sn sb cs : is_rs sn → is_rs sb → ff ≠ 0 →
  exchange prm ff first (signs_wire (channel_id self) (short_channel_id self) sn sb) (mk_gossip self (mk_buf None 0) 0 cs) =
  Ret (true, of_bytes own_signs) (add_call SELF_SAVED (announced prm (own_sheet node self kf sn sb) (cs ++ [SELF_SAVED]))).
Proof.
  intros Hn Hb Hf. assert (length sn = 64%nat ∧ length sb = 64%nat) as [Hnl Hbl] by (split; [apply Hn|apply Hb]). destruct first; cbn [exchange].
  - erewrite bind_ret by (eapply (signs_sent prm _ unset unset); [by left|by apply not_announced]).
    unfold add_call at 1. cbn [go_self cnl_anno anno_flag calls].
    erewrite bind_ret by (eapply (signs_received prm _ _ unset unset); [by right|done|done|done|apply both_announced]). done.
  - erewrite bind_ret by (eapply (signs_received prm _ _ unset unset); [by left|done|done|done|by apply not_announced]).
    unfold add_call at 1. cbn [go_self cnl_anno anno_flag calls].
    erewrite bind_ret by (eapply (signs_sent prm _ sn sb); [by right|apply both_announced]). done.
Qed.
End node.

(** ** What others make of it *)

Definition sig_checks (x h k : bytes) : bool :=
  match pt_read k with Some Q => mbedtls_ecdsa_verify Q h (be_val (take 32 x)) (be_val (drop 32 x)) | None => false end.

Lemma verify_rs_total x h k : length x = 64%nat → length k = 33%nat → btc_tx_verify_rs x h k tt = Ret (sig_checks x h k) tt.
Proof.
  intros Hx Hk. unfold btc_tx_verify_rs. rewrite !rd_step by lia. unfold sig_checks.
  rewrite (sl_all k) by lia. unfold sl. rewrite (take_ge (drop (Z.to_nat 32) x)) by (rewrite length_drop; lia). done.
Qed.

Section reader.
Context (chain : bytes) (scid : Z) (id1 id2 key1 key2 n1 n2 b1 b2 : bytes).
Context (Hchain : is_bytes chain ∧ length chain = 32%nat) (Hscid : in_range 64 scid).
Context (Hid1 : is_bytes id1 ∧ length id1 = 33%nat) (Hid2 : is_bytes id2 ∧ length id2 = 33%nat).
Context (Hkey1 : is_bytes key1 ∧ length key1 = 33%nat) (Hkey2 : is_bytes key2 ∧ length key2 = 33%nat).
Context (Hn1 : is_rs n1) (Hn2 : is_rs n2) (Hb1 : is_rs b1) (Hb2 : is_rs b2).

Let d := anno_data chain scid id1 id2 key1 key2.
Let m := anno_bytes n1 n2 b1 b2 d.

Lemma anno_places : packet m ∧ zlen m = 432 ∧ be_val (sl m 0 2) = MSGTYPE_CHANNEL_ANNOUNCEMENT ∧ sl m 2 64 = n1 ∧ sl m 66 64 = n2 ∧
  sl m 130 64 = b1 ∧ sl m 194 64 = b2 ∧ be_val (sl m 258 2) = 0 ∧ sl m 260 32 = chain ∧ be_val (sl m 292 8) = scid ∧
  sl m 300 33 = id1 ∧ sl m 333 33 = id2 ∧ sl m 366 33 = key1 ∧ sl m 399 33 = key2 ∧ drop 258 m = d ∧ zlen d = 174.
Proof.
  destruct Hchain, Hid1, Hid2, Hkey1, Hkey2, Hn1, Hn2, Hb1, Hb2.
  assert (zlen d = 174) as Hd by (unfold d, anno_data; rewrite !length_app, !length_be_bytes; lia).
  assert (zlen m = 432) as Hm by (unfold m, anno_bytes; rewrite !length_app, !length_be_bytes; lia).
  split; [split; [|lia]|].
  { unfold m, anno_bytes, d, anno_data. repeat apply Forall_app_2; try done; apply be_bytes_is_bytes. }
  split; [done|]. assert (drop 258 m = d) as Hdr.
  { unfold m, anno_bytes. rewrite !app_assoc. apply drop_app_length'. rewrite !length_app, length_be_bytes. lia. }
  unfold m, anno_bytes, d, anno_data in *. split_and!; try done; repeat sl_step; done.
Qed.

Lemma ptr_read {S} node (s : S) : gGenesisChainHash node = chain →
  cnl_announce_ptr node m (zlen m) s = Ret (true, mk_ptr 2 66 130 194 scid 300 333 366 399) s.
Proof.
  intros Hc. destruct anno_places as ([Hpb Hpl] & Hl & _ & _ & _ & _ & _ & F0 & F1 & F2 & _).
  unfold cnl_announce_ptr. rewrite get16_step by (done || lia). change (2 + LN_SZ_SIGNATURE + LN_SZ_SIGNATURE + LN_SZ_SIGNATURE + LN_SZ_SIGNATURE) with 258. rewrite F0.
  rewrite rd_step by lia. change (258 + 2 + 0) with 260. rewrite F1, Hc, bool_decide_eq_true_2 by done. cbn [negb].
  rewrite get64_step by (done || lia). change (260 + BTC_SZ_HASH256) with 292. rewrite F2, Hl. done.
Qed.

Lemma announcement_read node m0 : gGenesisChainHash node = chain →
  read_packet (ln_msg_cnl_announce_read node) m m0 = Ret true (mk_cnl_read scid id1 id2 key1 key2).
Proof.
  intros Hc. pose proof (ptr_read (S := ln_cnl_announce_read_t) node m0 Hc) as Hp.
  destruct anno_places as ([Hpb Hpl] & Hl & Ft & _ & _ & _ & _ & _ & _ & _ & F3 & F4 & F5 & F6 & _).
  unfold read_packet. rewrite call_returned. unfold ln_msg_cnl_announce_read. rewrite exit_no by (apply Z.ltb_ge; lia).
  rewrite get16_step by (done || lia). rewrite Ft, exit_no by done. erewrite bind_ret by exact Hp. cbn [p_node_id1 p_node_id2 p_btc_key1 p_btc_key2 ptr_short_channel_id].
  rewrite !bind_assoc, rd_step by lia. rewrite !bind_assoc, rd_step by lia. rewrite !bind_assoc, rd_step by lia. rewrite !bind_assoc, rd_step by lia.
  rewrite F3, F4, F5, F6. done.
Qed.

(** One wrong signature ends the process. *)
Lemma announcement_verified {S} node (s : S) : gGenesisChainHash node = chain →
  ln_msg_cnl_announce_verify node m (zlen m) s =
  if sig_checks n1 (sha256d d) id1 && sig_checks n2 (sha256d d) id2 && sig_checks b1 (sha256d d) key1 && sig_checks b2 (sha256d d) key2
  then Ret true s else AbortOut.
Proof.
  intros Hc. pose proof (ptr_read (S := S) node s Hc) as Hp.
  destruct anno_places as (_ & Hl & _ & S1 & S2 & S3 & S4 & _ & _ & _ & F3 & F4 & F5 & F6 & Fd & Hd).
  destruct Hid1 as [_ L1], Hid2 as [_ L2], Hkey1 as [_ L3], Hkey2 as [_ L4], Hn1 as [N1 _], Hn2 as [N2 _], Hb1 as [N3 _], Hb2 as [N4 _].
  unfold ln_msg_cnl_announce_verify. erewrite bind_ret by exact Hp. cbn [negb].
  assert (hash_packet m (zlen m) (2 + LN_SZ_SIGNATURE * 4) s = Ret (sha256d d) s) as Hh.
  { unfold hash_packet. apply lift_ret. change (Z.to_nat (2 + LN_SZ_SIGNATURE * 4)) with 258%nat. rewrite Fd, Hl.
    replace (wrap 16 (432 - (2 + LN_SZ_SIGNATURE * 4))) with (zlen d) by (rewrite Hd; done).
    unfold btc_util_hash256. erewrite bind_ret by (apply sha256_all; lia).
    pose proof (sha256_all (mbedtls_sha256 d) tt) as Hs. rewrite sha256_len in Hs. by apply Hs. }
  erewrite bind_ret by exact Hh. cbn [p_node_signature1 p_node_signature2 p_btc_signature1 p_btc_signature2 p_node_id1 p_node_id2 p_btc_key1 p_btc_key2].
  assert (∀ ps pk sg k (K : unit → prog S bool), sl m ps 64 = sg → sl m pk 33 = k → 0 ≤ ps → ps + 64 ≤ 432 → 0 ≤ pk → pk + 33 ≤ 432 →
    length sg = 64%nat → length k = 33%nat →
    (verify_at m (sha256d d) ps pk ≫= K) s = if sig_checks sg (sha256d d) k then K tt s else AbortOut) as Hv.
  { intros ps pk sg k K Hs Hk ? ? ? ? Hsl Hkl. unfold verify_at. rewrite bind_assoc, rd_step by lia. rewrite bind_assoc, rd_step by lia.
    rewrite Hs, Hk, bind_assoc. erewrite bind_ret by (apply lift_ret; by apply verify_rs_total). by destruct (sig_checks _ _ _). }
  rewrite (Hv _ _ n1 id1) by done. destruct (sig_checks n1 _ _); [|done].
  rewrite (Hv _ _ n2 id2) by done. destruct (sig_checks n2 _ _); [|done].
  rewrite (Hv _ _ b1 key1) by done. destruct (sig_checks b1 _ _); [|done].
  rewrite (Hv _ _ b2 key2) by done. by destruct (sig_checks b2 _ _).
Qed.
End reader.

(** The announcement a node saves, to a reader on the same chain. *)
Lemma sheet_read node self kf sn sb : announcer node self kf → is_rs sn → is_rs sb →
  ∃ id1 id2 key1 key2 n1 n2 b1 b2, own_sheet node self kf sn sb = anno_bytes n1 n2 b1 b2 (data_of node self) ∧
    data_of node self = anno_data (gGenesisChainHash node) (short_channel_id self) id1 id2 key1 key2 ∧
    (id1, id2, key1, key2, n1, n2, b1, b2) =
      (if sort_nodeid node self
       then (mNode_pub node, peer_node_id self, funding_key (funding_local self), funding_key (funding_remote self),
             own_node_sig node self, sn, own_fund_sig node self kf, sb)
       else (peer_node_id self, mNode_pub node, funding_key (funding_remote self), funding_key (funding_local self),
             sn, own_node_sig node self, sb, own_fund_sig node self kf)) ∧
    (is_bytes id1 ∧ length id1 = 33%nat) ∧ (is_bytes id2 ∧ length id2 = 33%nat) ∧
    (is_bytes key1 ∧ length key1 = 33%nat) ∧ (is_bytes key2 ∧ length key2 = 33%nat) ∧ is_rs n1 ∧ is_rs n2 ∧ is_rs b1 ∧ is_rs b2.
Proof.
  intros An Hn Hb. pose proof (node_pub_len _ _ _ An) as L1. pose proof (fund_pub_len _ _ _ An) as L2.
  destruct (own_rs _ _ _ An) as [O1 O2]. destruct An as [[_ [_ Hpb] _] _ _ [_ Hfb] Hp Hpk _ _].
  unfold own_sheet, sheet, data_of. destruct (sort_nodeid node self); eexists _, _, _, _, _, _, _, _;
    (split; [reflexivity|]); (split; [reflexivity|]); (split; [reflexivity|]); split_and!; done || apply Hp || apply Hpk.
Qed.

(** *** Two nodes *)

(** The ends of one channel. *)
Record ends (nodeA nodeB : node_conf) (selfA selfB : ln_self_t) (kA kB : bytes) : Prop := {
  ends_A : announcer nodeA selfA kA;
  ends_B : announcer nodeB selfB kB;
  ends_ids : peer_node_id selfA = mNode_pub nodeB ∧ peer_node_id selfB = mNode_pub nodeA ∧ mNode_pub nodeA ≠ mNode_pub nodeB;
  ends_keys : funding_key (funding_remote selfA) = funding_key (funding_local selfB) ∧
    funding_key (funding_remote selfB) = funding_key (funding_local selfA);
  ends_chain : gGenesisChainHash nodeA = gGenesisChainHash nodeB;
  ends_channel : channel_id selfA = channel_id selfB ∧ short_channel_id selfA = short_channel_id selfB;
}.

Lemma first_diff_sym a b : length a = length b → a ≠ b → ∃ x y, first_diff a b = Some (x, y) ∧ first_diff b a = Some (y, x) ∧ x ≠ y.
Proof.
  revert b. induction a as [|x a IH]; intros [|y b] Hl Hne; try done. cbn [first_diff].
  rewrite (Z.eqb_sym y x). destruct (Z.eqb_spec x y) as [->|Hxy]; [apply IH; [by injection Hl|congruence]|eauto].
Qed.

Lemma ends_sorted nodeA nodeB selfA selfB kA kB : ends nodeA nodeB selfA selfB kA kB →
  sort_nodeid nodeB selfB = negb (sort_nodeid nodeA selfA) ∧ data_of nodeB selfB = data_of nodeA selfA.
Proof.
  intros [HA HB (I1 & I2 & Hne) (K1 & K2) Hc (C1 & C2)].
  assert (sort_nodeid nodeB selfB = negb (sort_nodeid nodeA selfA)) as Hs.
  { unfold sort_nodeid, sort_ids. rewrite I1, I2.
    destruct (first_diff_sym (mNode_pub nodeA) (mNode_pub nodeB)) as (x & y & -> & -> & Hxy);
      [by rewrite (node_pub_len _ _ _ HA), (node_pub_len _ _ _ HB)|done|].
    destruct (Z.ltb_spec y x), (Z.ltb_spec x y); done || lia. }
  split; [done|]. unfold data_of. rewrite Hs, I1, I2, K1, K2, Hc, C2. by destruct (sort_nodeid nodeA selfA).
Qed.

(** The announcement of both. *)
Definition full_announcement (nodeA nodeB : node_conf) (selfA selfB : ln_self_t) (kA kB : bytes) : bytes :=
  own_sheet nodeA selfA kA (own_node_sig nodeB selfB) (own_fund_sig nodeB selfB kB).

Lemma full_swap nodeA nodeB selfA selfB kA kB : ends nodeA nodeB selfA selfB kA kB →
  own_sheet nodeB selfB kB (own_node_sig nodeA selfA) (own_fund_sig nodeA selfA kA) = full_announcement nodeA nodeB selfA selfB kA kB.
Proof.
  intros He. destruct (ends_sorted _ _ _ _ _ _ He) as [Hs Hd]. unfold full_announcement, own_sheet.
  rewrite (sheet_swap (sort_nodeid nodeA selfA)), Hs, Hd. unfold own_node_sig, own_fund_sig. by rewrite Hd.
Qed.

Lemma made_checks k h : good_key k → sig_checks (rs_of k h) h (pub_of k) = true.
Proof.
  intros Hk. pose proof (verify_rs_made k h Hk) as Hv. destruct (sign_rs_made k h Hk) as (_ & Hl & _).
  rewrite verify_rs_total in Hv; [by injection Hv|done|]. destruct Hk as [_ Hk]. by apply pub_read.
Qed.

(** Two nodes that exchange announcement_signatures, whoever starts, end with the same
    channel_announcement saved in both databases, and the check of its four signatures
    accepts it at every node on the chain. *)
Theorem channel_announced nodeA nodeB selfA selfB kA kB prmA prmB ffA ffB firstA firstB csA csB :
  ends nodeA nodeB selfA selfB kA kB → ffA ≠ 0 → ffB ≠ 0 →
  let ann := full_announcement nodeA nodeB selfA selfB kA kB in
  exchange nodeA prmA ffA firstA (own_signs nodeB selfB kB) (mk_gossip selfA (mk_buf None 0) 0 csA) =
    Ret (true, of_bytes (own_signs nodeA selfA kA)) (add_call SELF_SAVED (announced nodeA selfA prmA ann (csA ++ [SELF_SAVED]))) ∧
  exchange nodeB prmB ffB firstB (own_signs nodeA selfA kA) (mk_gossip selfB (mk_buf None 0) 0 csB) =
    Ret (true, of_bytes (own_signs nodeB selfB kB)) (add_call SELF_SAVED (announced nodeB selfB prmB ann (csB ++ [SELF_SAVED]))) ∧
  ∀ node m0, gGenesisChainHash node = gGenesisChainHash nodeA →
    (∃ id1 id2 key1 key2, read_packet (ln_msg_cnl_announce_read node) ann m0 = Ret true (mk_cnl_read (short_channel_id selfA) id1 id2 key1 key2) ∧
      (id1 = mNode_pub nodeA ∧ id2 = mNode_pub nodeB ∨ id1 = mNode_pub nodeB ∧ id2 = mNode_pub nodeA)) ∧
    ln_msg_cnl_announce_verify node ann (zlen ann) tt = Ret true tt.
Proof.
  intros He HfA HfB ann. assert (He' := He). destruct He' as [HA HB (I1 & I2 & Hne) (K1 & K2) Hc (C1 & C2)].
  destruct (own_rs _ _ _ HA) as [A1 A2]. destruct (own_rs _ _ _ HB) as [B1 B2]. destruct (ends_sorted _ _ _ _ _ _ He) as [Hs Hd].
  split; [|split].
  - unfold own_signs at 1. rewrite <- C1, <- C2. by apply exchanged.
  - unfold own_signs at 1. rewrite C1, C2. unfold ann. rewrite <- (full_swap _ _ _ _ _ _ He). by apply exchanged.
  - intros node m0 Hch.
    destruct (sheet_read nodeA selfA kA (own_node_sig nodeB selfB) (own_fund_sig nodeB selfB kB) HA B1 B2)
      as (id1 & id2 & key1 & key2 & n1 & n2 & b1 & b2 & Es & Ed & Et & Hi1 & Hi2 & Hk1 & Hk2 & Hn1 & Hn2 & Hb1 & Hb2).
    destruct (an_node _ _ _ HA) as [KA [PA _] [Hcb Hcl]]. destruct (an_node _ _ _ HB) as [KB [PB _] _].
    destruct (an_pub _ _ _ HA) as [FA _]. destruct (an_pub _ _ _ HB) as [FB _].
    destruct (an_scid _ _ _ HA) as [Hsc _]. unfold ann, full_announcement. rewrite Es, Ed. split.
    + exists id1, id2, key1, key2. split; [by apply announcement_read|].
      destruct (sort_nodeid nodeA selfA); injection Et as -> -> _ _ _ _ _ _; rewrite I1; auto.
    + rewrite (announcement_verified _ _ id1 id2 key1 key2 n1 n2 b1 b2) by done. rewrite <- Ed.
      assert (sig_checks (own_node_sig nodeA selfA) (sha256d (data_of nodeA selfA)) (mNode_pub nodeA) = true) as V1
        by (rewrite PA; apply made_checks, KA).
      assert (sig_checks (own_node_sig nodeB selfB) (sha256d (data_of nodeA selfA)) (mNode_pub nodeB) = true) as V2
        by (unfold own_node_sig; rewrite Hd, PB; apply made_checks, KB).
      assert (sig_checks (own_fund_sig nodeA selfA kA) (sha256d (data_of nodeA selfA)) (funding_key (funding_local selfA)) = true) as V3
        by (rewrite FA; apply made_checks, (an_key _ _ _ HA)).
      assert (sig_checks (own_fund_sig nodeB selfB kB) (sha256d (data_of nodeA selfA)) (funding_key (funding_local selfB)) = true) as V4
        by (unfold own_fund_sig; rewrite Hd, FB; apply made_checks, (an_key _ _ _ HB)).
      destruct (sort_nodeid nodeA selfA); injection Et as -> -> -> -> -> -> -> ->; rewrite I1, K1, V1, V2, V3, V4; done.
Qed.

(** The peer's signatures are taken as they come: whatever the 128 bytes are, the
    announcement is saved with them, although its own check would end the process. *)
Theorem peer_signatures_unchecked node self kf prm ff first sn sb cs : announcer node self kf → is_rs sn → is_rs sb → ff ≠ 0 →
  sig_checks sn (sha256d (data_of node self)) (peer_node_id self) = false →
  let ann := own_sheet node self kf sn sb in
  exchange node prm ff first (signs_wire (channel_id self) (short_channel_id self) sn sb) (mk_gossip self (mk_buf None 0) 0 cs) =
    Ret (true, of_bytes (own_signs node self kf)) (add_call SELF_SAVED (announced node self prm ann (cs ++ [SELF_SAVED]))) ∧
  ln_msg_cnl_announce_verify node ann (zlen ann) tt = AbortOut.
Proof.
  intros An Hn Hb Hf Hbad ann. split; [by apply exchanged|].
  destruct (sheet_read node self kf sn sb An Hn Hb)
    as (id1 & id2 & key1 & key2 & n1 & n2 & b1 & b2 & Es & Ed & Et & Hi1 & Hi2 & Hk1 & Hk2 & Hn1 & Hn2 & Hb1 & Hb2).
  destruct (an_node _ _ _ An) as [_ _ [Hcb Hcl]]. destruct (an_scid _ _ _ An) as [Hsc _].
  unfold ann. rewrite Es, Ed. rewrite (announcement_verified _ _ id1 id2 key1 key2 n1 n2 b1 b2) by done. rewrite <- Ed.
  destruct (sort_nodeid node self); injection Et as -> -> -> -> -> -> -> ->; rewrite Hbad; by rewrite ?andb_false_r.
Qed.

(** ** Gossip of others *)

Definition blank : ln_cnl_announce_read_t := mk_cnl_read 0 [] [] [] [].

(** The node at the end [dir] of the channel [scid], as far as it is known. *)
Definition node_at (node : node_conf) (g : gossip) (scid dir : Z) : option bytes :=
  match ln_db_annocnl_load (calls g) scid with
  | Some a =>
      match read_packet (ln_msg_cnl_announce_read node) a blank with
      | Ret true r => Some (if dir =? 0 then node_id1 r else node_id2 r)
      | _ => None
      end
  | None =>
      if scid =? short_channel_id (go_self g)
      then Some (if Bool.eqb (sort_nodeid node (go_self g)) (dir =? 0) then mNode_pub node else peer_node_id (go_self g))
      else None
  end.

(** A packet that carries no good signature of the node it would have to come from. *)
Definition forged (node : node_conf) (g : gossip) (upd : CnlUpdate.t) (d : bytes) : bool :=
  match node_at node g (CnlUpdate.short_channel_id upd) (Z.land (CnlUpdate.flags upd) 1) with
  | Some id => btc_keys_chkpub id && negb (sig_checks (sl d 2 64) (sha256d (drop 66 d)) id)
  | None => false
  end.

(** The database holds announcements that were read when they came. *)
Definition db_read (node : node_conf) : Prop := ∀ cs scid a, ln_db_annocnl_load cs scid = Some a →
  ∃ r, read_packet (ln_msg_cnl_announce_read node) a blank = Ret true r ∧ length (node_id1 r) = 33%nat ∧ length (node_id2 r) = 33%nat.

Lemma node_found node g scid dir : db_read node → (dir = 0 ∨ dir = 1) → length (mNode_pub node) = 33%nat → length (peer_node_id (go_self g)) = 33%nat →
  get_nodeid_from_annocnl node (go_self g) scid dir g = Ret (node_at node g scid dir) g ∧
  ∀ id, node_at node g scid dir = Some id → length id = 33%nat.
Proof.
  intros Hdb Hdir Hl1 Hl2. unfold get_nodeid_from_annocnl, node_at. rewrite gets_step. destruct (ln_db_annocnl_load _ scid) as [a|] eqn:El.
  - destruct (Hdb _ _ _ El) as (r & Hr & L1 & L2). rewrite Hr. split.
    + erewrite on_local_step by (exact Hr). done.
    + intros id [= <-]. by destruct (dir =? 0).
  - destruct (scid =? _); [|done]. split.
    + unfold mret, prog_ret. do 2 f_equal. destruct Hdir as [-> | ->], (sort_nodeid node (go_self g)); done.
    + intros id [= <-]. by destruct (Bool.eqb _ _).
Qed.

Lemma packet_hash d {S} (s : S) : packet d → 66 ≤ zlen d →
  hash_packet d (zlen d) (2 + LN_SZ_SIGNATURE) s = Ret (sha256d (drop 66 d)) s.
Proof.
  intros [_ Hd] Hl. unfold hash_packet. apply lift_ret. change (Z.to_nat (2 + LN_SZ_SIGNATURE)) with 66%nat.
  replace (wrap 16 (zlen d - (2 + LN_SZ_SIGNATURE))) with (zlen (drop 66 d)) by (rewrite wrap_small by (unfold in_range; lia); rewrite length_drop; lia).
  unfold btc_util_hash256. erewrite bind_ret by (apply sha256_all; rewrite length_drop; lia).
  pose proof (sha256_all (mbedtls_sha256 (drop 66 d)) tt) as Hs. rewrite sha256_len in Hs. by apply Hs.
Qed.

(** Of the channel_updates that arrive, exactly those are saved that can be read, are not
    older than two weeks and are not forged; the peer's message is never answered
    with a failure. *)
Theorem channel_update_saved node d g : packet d → db_read node → length (mNode_pub node) = 33%nat → length (peer_node_id (go_self g)) = 33%nat →
  let upd := CnlUpdate.dec (CnlUpdate.mk 0 0 0 0 0 0 0 0) d in
  call (recv_channel_update node d (zlen d)) g =
  if negb (CnlUpdate.ok (gGenesisChainHash node) d) || (u64 (CnlUpdate.timestamp upd + 1209600) <? u64 (time (calls g))) then Ret true g
  else if forged node g upd d then Ret true (add_call (LN_CB_UPDATE_ANNODB LN_CB_UPDATE_ANNODB_NONE) g)
  else let g := add_call (DB_ANNOCNLUPD_SAVE (of_bytes d) upd (Some (peer_node_id (go_self g)))) g in
    Ret true (add_call (LN_CB_UPDATE_ANNODB (if db_saved (calls g) then LN_CB_UPDATE_ANNODB_CNL_UPD else LN_CB_UPDATE_ANNODB_NONE)) g).
Proof.
  intros Hp Hdb Hl1 Hl2 upd. rewrite call_returned. unfold recv_channel_update.
  pose proof (CnlUpdate.cnl_update_reads (gGenesisChainHash node) (CnlUpdate.mk 0 0 0 0 0 0 0 0) d Hp) as Hr.
  destruct (CnlUpdate.ok (gGenesisChainHash node) d) eqn:Hok; cbn [negb orb].
  2:{ destruct Hr as [m' Hr]. erewrite on_local_step by exact Hr. done. }
  erewrite on_local_step by exact Hr. fold upd. cbn [negb]. rewrite exit_no by done. rewrite gets_step. unfold ln_db_annocnlupd_is_prune.
  destruct (u64 _ <? u64 _); [done|]. rewrite exit_no by done. rewrite gets_step.
  assert (Z.land (CnlUpdate.flags upd) 1 = 0 ∨ Z.land (CnlUpdate.flags upd) 1 = 1) as Hdir.
  { pose proof (Z.land_ones (CnlUpdate.flags upd) 1) as Hl. change (Z.ones 1) with 1 in Hl. rewrite Hl by lia.
    pose proof (Z.mod_pos_bound (CnlUpdate.flags upd) (2 ^ 1)). lia. }
  destruct (node_found node g (CnlUpdate.short_channel_id upd) _ Hdb Hdir Hl1 Hl2) as [Hf Hid].
  erewrite bind_ret by exact Hf.
  assert (66 ≤ zlen d) as Hlen.
  { unfold CnlUpdate.ok in Hok. rewrite !andb_true_iff, Z.leb_le in Hok. lia. }
  erewrite (bind_ret (negb (forged node g upd d)) _ _ _ g).
  2:{ unfold forged. destruct (node_at _ _ _ _) as [id|]; [|done]. destruct (btc_keys_chkpub id); [|done].
      unfold ln_msg_cnl_update_verify. erewrite bind_ret by (by apply packet_hash). rewrite rd_step by lia.
      cbn [andb]; rewrite negb_involutive; apply lift_ret, verify_rs_total; [by apply length_sl; lia|by apply Hid]. }
  by destruct (forged node g upd d).
Qed.

Lemma addr_table ty : 0 ≤ ty ≤ 4 → ∃ n k, M_ADDRLEN !! Z.to_nat ty = Some n ∧ M_ADDRLEN2 !! Z.to_nat ty = Some k ∧ 0 ≤ n ≤ 35 ∧ 0 ≤ k ≤ 37.
Proof.
  intros Ht. assert (ty = 0 ∨ ty = 1 ∨ ty = 2 ∨ ty = 3 ∨ ty = 4) as [-> | [-> | [-> | [-> | ->]]]] by lia;
    eexists _, _; (split; [reflexivity|split; [reflexivity|lia]]).
Qed.

(** A node_announcement up to its address. *)
Lemma anno_to_address d stack : packet d → 142 ≤ zlen d → be_val (sl d 0 2) = MSGTYPE_NODE_ANNOUNCEMENT → be_val (sl d 66 2) = 0 →
  0 < be_val (sl d 140 2) → ∃ m, 
  ln_msg_node_announce_read d (zlen d) (set_p_node_id [] (set_p_alias [] stack)) =
  (r ← read_address d 142 (be_val (sl d 140 2));
   c_assert (r.2 + r.1 <=? zlen d);;
   m ← get_st;
   match p_node_id m with
   | Some id => hash ← hash_packet d (r.2 + r.1) 66; s ← rd_bytes d 2 64; lift (btc_tx_verify_rs s hash id)
   | None => mret true
   end) m.
Proof.
  intros [Hb Hl] Hlen Ht Hf Ha. eexists. unfold ln_msg_node_announce_read. rewrite exit_no by (apply Z.ltb_ge; lia).
  rewrite get16_step by (done || lia). rewrite Ht, exit_no by done. rewrite get16_step by (done || lia).
  change (2 + LN_SZ_SIGNATURE) with 66. rewrite Hf. change (66 + 2 + 0) with 68. rewrite get32_step by (done || lia).
  rewrite bind_modify, bind_get_st. cbn [set_na_timestamp set_p_node_id p_node_id set_p_alias p_alias]. rewrite !bool_decide_eq_true_2 by done.
  rewrite bind_assoc, rd_step by lia. rewrite bind_modify, rd_step by lia. rewrite bind_modify, bind_assoc, rd_step by lia.
  rewrite bind_modify, get16_step by (done || lia).
  change (68 + 4 + BTC_SZ_PUBKEY + 3 + LN_SZ_ALIAS) with 140. change (140 + 2) with 142. rewrite (proj2 (Z.ltb_lt _ _) Ha). reflexivity.
Qed.

(** Announcements that need no key stop the node: a node_announcement whose address
    length points behind the packet ends the process, one cut before its address and
    feature lengths that point behind the packet make it read there. *)
Theorem hostile_announcements node stack d g : packet d →
  (180 ≤ zlen d → be_val (sl d 0 2) = MSGTYPE_NODE_ANNOUNCEMENT → be_val (sl d 66 2) = 0 → be_val (sl d 142 1) ≤ LN_NODEDESC_MAX →
   38 ≤ be_val (sl d 140 2) → zlen d < 142 + be_val (sl d 140 2) → call (recv_node_announcement stack d (zlen d)) g = AbortOut) ∧
  (zlen d = 142 → be_val (sl d 0 2) = MSGTYPE_NODE_ANNOUNCEMENT → be_val (sl d 66 2) = 0 → 0 < be_val (sl d 140 2) →
   call (recv_node_announcement stack d (zlen d)) g = UB) ∧
  (142 ≤ zlen d → be_val (sl d 0 2) = MSGTYPE_NODE_ANNOUNCEMENT → zlen d < 72 + be_val (sl d 66 2) →
   call (recv_node_announcement stack d (zlen d)) g = UB) ∧
  (432 ≤ zlen d → be_val (sl d 0 2) = MSGTYPE_CHANNEL_ANNOUNCEMENT → zlen d < 292 + be_val (sl d 258 2) →
   call (recv_channel_announcement node d (zlen d)) g = UB).
Proof.
  intros Hp. assert (Hp' := Hp). destruct Hp' as [Hb Hl].
  assert (ln_msg_node_announce_read d (zlen d) (set_p_node_id [] (set_p_alias [] stack)) = UB →
    call (recv_node_announcement stack d (zlen d)) g = UB) as Hub.
  { intros Hr. rewrite call_returned. unfold recv_node_announcement, mbind, prog_bind at 1, on_local, run. by rewrite Hr. }
  split_and!.
  - intros Hlen Ht Hf Hty Ha Hover. destruct (anno_to_address d stack Hp) as [m Hr]; [lia..|].
    assert (∃ m', read_address d 142 (be_val (sl d 140 2)) m = Ret (be_val (sl d 140 2) - 1, 143) m') as [m' Hra].
    { pose proof (be_val_sl_range 8 d 142 1 Hb) as Hr0. unfold in_range in Hr0.
      destruct (addr_table (be_val (sl d 142 1))) as (n & k & T1 & T2 & Hn & Hk); [lia|].
      unfold read_address. rewrite rd_byte_step by lia. rewrite bind_modify, exit_no by (apply Z.ltb_ge; lia).
      rewrite (tbl_step _ _ k) by (done || lia). rewrite exit_no by (apply Z.ltb_ge; lia).
      destruct (negb _); [|by eexists]. rewrite bind_assoc, (tbl_step _ _ n) by (done || lia). rewrite bind_assoc, rd_step by lia.
      rewrite bind_assoc, bind_modify, bind_assoc, get16_step by (done || lia). rewrite bind_modify. by eexists. }
    rewrite call_returned. unfold recv_node_announcement, mbind, prog_bind at 1, on_local, run. rewrite Hr.
    erewrite bind_ret by exact Hra. cbn [fst snd]. unfold c_assert. rewrite (proj2 (Z.leb_gt _ _)) by lia. done.
  - intros Hlen Ht Hf Ha. destruct (anno_to_address d stack Hp) as [m Hr]; [lia..|]. apply Hub. rewrite Hr.
    apply bind_ub. unfold read_address. apply rd_byte_oob. lia.
  - intros Hlen Ht Hover. pose proof (be_val_sl_range 16 d 66 2 Hb ltac:(lia) ltac:(lia) ltac:(lia) eq_refl) as Hr. unfold in_range in Hr.
    apply Hub. unfold ln_msg_node_announce_read. rewrite exit_no by (apply Z.ltb_ge; lia).
    rewrite get16_step by (done || lia). rewrite Ht, exit_no by done. rewrite get16_step by (done || lia).
    change (2 + LN_SZ_SIGNATURE) with 66. apply bind_ub. apply (get_at_oob _ 4 be_val); [exact UtlInt.pack_u32be_spec|lia|lia].
  - intros Hlen Ht Hover. pose proof (be_val_sl_range 16 d 258 2 Hb ltac:(lia) ltac:(lia) ltac:(lia) eq_refl) as Hr0. unfold in_range in Hr0.
    rewrite call_returned. unfold recv_channel_announcement, mbind, prog_bind at 1, on_local, run.
    assert (ln_msg_cnl_announce_read node d (zlen d) blank = UB) as Hr; [|unfold blank in Hr; by rewrite Hr].
    unfold ln_msg_cnl_announce_read. rewrite exit_no by (apply Z.ltb_ge; lia).
    rewrite get16_step by (done || lia). rewrite Ht, exit_no by done.
    apply bind_ub. unfold cnl_announce_ptr. rewrite get16_step by (done || lia).
    change (2 + LN_SZ_SIGNATURE + LN_SZ_SIGNATURE + LN_SZ_SIGNATURE + LN_SZ_SIGNATURE) with 258. apply bind_ub, rd_bytes_oob. lia.
Qed.
End announce.
End LnAnnounce.
