(* ===== verification/LnToyGossip.v ===== *)
(** A channel that is announced, and the messages of the announcements, on the concrete
    curve and hash of the other witnesses. *)
From stdpp Require Import base list numbers tactics.
From Stdlib Require Import ZArith Lia.
From S2P Require Import Prelude CProg UtlBuf UtlPush LnDerkey LnMsgAnno LnSelf BtcTx BtcTxWire BtcSw BtcDigest LnSignTx.
From S2P Require Import LnMsg LnToyNoise LnForward LnToyPair LnMsgGossip LnGossipCodec LnGossip LnAnnounce.
Import UtlBuf UtlPush Derkey LnMsg LnMsgAnno LnSelf BtcTx BtcTxWire BtcSw BtcDigest LnSignTx LnForward LnToyPair.LnToyPair.
Import LnMsgGossip LnGossipCodec LnGossip LnAnnounce.
Open Scope Z_scope.

Module LnToyGossip.

#[local] Existing Instance sum_hash.
#[local] Existing Instance sum_hash_laws.
#[local] Existing Instance total_alloc.
#[local] Existing Instance toy_ecdsa.
#[local] Existing Instance toy_ecdsa_laws.
#[local] Existing Instance total_alloc_total.

(** A database that takes everything, and holds nothing. *)
#[local] Instance empty_db : AnnoDb := {|
  db_saved _ := true;
  ln_db_annocnl_load _ _ := None;
  time _ := 1500000000;
|}.

Definition key (k : Z) : bytes := be_bytes 32 k.

Definition toy_conf (k : Z) : node_conf := mk_node (key k) (pub_of (key k)) (replicate 32 6).

Definition node_A : node_conf := toy_conf 3.
Definition node_B : node_conf := toy_conf 5.

(** The channel of the two, with the funding keys 7 and 9. *)
Definition end_of (mine peers : Z) (peer : node_conf) : ln_self_t :=
  set_peer_node_id (mNode_pub peer) (set_short_channel_id 77
    (side [key mine] (mk_funding [pub_of (key mine)] []) (mk_funding [pub_of (key peers)] []) 0 0 [])).

Definition end_A : ln_self_t := end_of 7 9 node_B.
Definition end_B : ln_self_t := end_of 9 7 node_A.

Lemma node_A_good : good_node node_A.
Proof. split; [by apply good_key_small|split; [reflexivity|by_compute]|by_compute]. Qed.
Lemma node_B_good : good_node node_B.
Proof. split; [by apply good_key_small|split; [reflexivity|by_compute]|by_compute]. Qed.

Lemma toy_ends : ends node_A node_B end_A end_B (key 7) (key 9).
Proof.
  split.
  - split; [exact node_A_good|reflexivity|by apply good_key_small|split; [reflexivity|by_compute]|by_compute|by_compute|by_compute|by_compute].
  - split; [exact node_B_good|reflexivity|by apply good_key_small|split; [reflexivity|by_compute]|by_compute|by_compute|by_compute|by_compute].
  - split_and!; [reflexivity|reflexivity|]. intros E0. vm_compute in E0. discriminate E0.
  - split; reflexivity.
  - reflexivity.
  - split; reflexivity.
Qed.

Definition prm : ln_anno_prm_t := mk_anno_prm 40 1000 500 100.

(** A starts, B answers. *)
Lemma channel_announced_witness :
  let ann := full_announcement node_A node_B end_A end_B (key 7) (key 9) in
  (∃ g, exchange node_A prm 1 true (own_signs node_B end_B (key 9)) (mk_gossip end_A (mk_buf None 0) 0 []) =
    Ret (true, of_bytes (own_signs node_A end_A (key 7))) g) ∧
  ln_msg_cnl_announce_verify node_B ann (zlen ann) tt = Ret true tt.
Proof.
  destruct (channel_announced node_A node_B end_A end_B (key 7) (key 9) prm prm 1 1 true false [] [] toy_ends
    ltac:(lia) ltac:(lia)) as (H1 & _ & H3).
  split; [eexists; exact H1|]. exact (proj2 (H3 node_B blank eq_refl)).
Defined.

(** A node_announcement with an IPv4 address. *)
Definition alias : bytes := replicate 33 65.

Definition about_A : ln_node_announce_t :=
  mk_anno 1500000000 (Some (mNode_pub node_A)) (Some alias) [1; 2; 3] (mk_addr 1 9735 ([127; 0; 0; 1] ++ replicate 31 0)).

Lemma node_announce_roundtrip_witness :
  let d := anno_msg node_A alias about_A in
  ∃ m, read_packet ln_msg_node_announce_read d about_A = Ret true m ∧ p_node_id m = Some (mNode_pub node_A).
Proof.
  assert (anno_wf node_A alias about_A) as Hw by (split_and!; try reflexivity; by_compute).
  destruct (node_announce_roundtrip node_A alias about_A about_A (mk_push 0 (mk_buf None 0)) node_A_good Hw
    ltac:(by eexists) ltac:(by eexists)) as [_ H2].
  eexists. split; [exact H2|reflexivity].
Defined.
End LnToyGossip.
